(* ===== verification/_CoqProject ===== *)
-Q . S2P
Prelude.v
NodePath.v
Fs.v
Trace.v
Manifest.v
Package.v
Versions.v
Requirements.v
Policy.v
Config.v
Resolve.v
Secrets.v
Models.v
Sandbox.v
Container.v
AgentRuntime.v
Logs.v
ControlPlane.v
Supervisor.v
UsageStore.v
Registry.v
Installer.v
RunAgent.v
Commands.v
UsageSources.v
ClaudeUsage.v
CodexUsage.v
OpencodeUsage.v
LiveLimits.v
Collect.v
Observability.v
LocalApi.v
History.v
Worker.v
System.v
ManagedRuns.v
ProviderCommands.v
Publishing.v
Inspection.v
Page.v
AccountPage.v
UsagePage.v
PublisherPages.v
DashboardPage.v
Catalog.v
WebApi.v
Widgets.v
DaemonCommands.v
Reports.v
RunCommand.v
EnvCommand.v
Lifecycle.v
MarketingSite.v
RedesignSite.v
Release.v
