(* ===== verification/Prelude.v ===== *)
(** * OpenAgentHub: a model of the SDK, the runtime and the command line

    OpenAgentHub installs third-party agents from a registry and runs them on the
    user's machine under a policy.  This library models the TypeScript packages
    that decide what is installed, what runs, with which permissions and secrets,
    and what is remembered: [sdk/src], [runtime/src] and [cli/src] below [src/],
    the local dashboard, [web/src], the marketing sites, [marketing/src] and
    [openagenthub-marketing-redesign/src], and the release scripts, [scripts].

    ** Parts and files

    The files, from the bottom up; each holds one [Module] of its own name.

    - This file: errors and the [result] of a call that may throw
      ([sdk/src/errors.ts]), JavaScript strings, objects and sorting, and the lemmas
      on them.
    - [NodePath]: POSIX paths of [node:path].  [Fs]: a file system with rename, and
      the write-to-temporary-then-rename pattern.  [Trace]: the monad [tr] of
      programs that act on the outside: a history of actions, and answers that may
      depend on the whole history.
    - [Manifest] ([sdk/src/manifest.ts]), [Package] ([sdk/src/package.ts],
      [crypto.ts]: listing, packing, signing, verification and the archive extractor
      as a state machine over parser and stream events), [Versions]
      ([sdk/src/runtime.ts], [cli/src/lib/version.ts]), [Requirements]
      ([sdk/src/runtime.ts]), [Registry] ([sdk/src/registry.ts]: every method of the
      client as HTTP requests to an oracle).
    - [Policy] ([runtime/src/sandbox/policy.ts]: which sandbox), [Config]
      ([runtime/src/config.ts], [permissions.ts]: the configuration object and its
      file), [Secrets] ([runtime/src/secrets.ts], [cli/src/lib/credentials.ts],
      [cli/src/commands/env.ts] and the key functions of [usage/live.ts]; clients use
      the vault through the class [SecretStore] and its laws, which the vault
      implements), [Models] ([runtime/src/models.ts]), [Sandbox] and [Container]
      ([runtime/src/sandbox/]: the commands that are spawned and what the child's
      events amount to), [AgentRuntime] ([runtime/src/runtime.ts]: [runAgent]).
    - [EnvCommand] ([cli/src/commands/env.ts] as a whole) and [RunCommand]
      ([cli/src/commands/run.ts] as a whole: flags, standard input, a run in the
      foreground or under the supervisor).
    - [Resolve] ([cli/src/lib/resolve.ts]), [Installer] ([cli/src/lib/installer.ts],
      [prompt.ts]), [RunAgent] ([cli/src/lib/revocation.ts], [run-agent.ts] and the
      foreground part of [commands/run.ts]), [Commands] ([commands/login.ts],
      [logout.ts], [uninstall.ts], [verify.ts], [sandbox/set.ts], [sandbox/reset.ts]),
      [Publishing] ([commands/publish.ts], [init.ts], [validate.ts], [install.ts],
      [update.ts], [whoami.ts], [commands/auth]), [ProviderCommands]
      ([cli/src/lib/integrations.ts], [commands/limits], [commands/integrations]) and
      [Inspection] ([commands/ps.ts], [history/index.ts], [inspect.ts], [logs.ts],
      [list.ts], [sandbox/show.ts]).
    - [Logs] and [Supervisor] ([cli/src/lib/supervisor.ts],
      [commands/supervisor-run.ts]: managed runs), [ControlPlane]
      ([cli/src/lib/control-plane.ts]: the dashboard daemon).  [History]
      ([supervisor.ts] with [usage.ts]: the record files and the rows of the database
      together; [commands/remove.ts], [history/prune.ts], [history/export.ts]) and
      [Worker] ([supervisor-run.ts]: the whole worker process, by its events).
      [ManagedRuns] ([supervisor.ts], [commands/stop.ts], [restart.ts], the detached
      part of [run.ts]: what starts, stops and waits for workers, as a [tr]).
    - [System] ([runtime/src/system]: the containers, processes and known agents of
      other makers on the machine).
    - [UsageStore] ([runtime/src/usage.ts]: the usage database).  [UsageSources]
      ([runtime/src/usage/types.ts], [detect.ts] and what the adapters share: the walk
      over the files, incremental reading, the frame of an adapter), [ClaudeUsage]
      ([claude.ts], [pricing.ts]), [CodexUsage] ([codex.ts]), [OpencodeUsage]
      ([opencode.ts]), [LiveLimits] ([live.ts]), [Collect] ([collect.ts],
      [consent.ts]) and [Observability] ([runtime/src/observability.ts]: the
      statistics and their cache).
    - [LocalApi] ([web/src/middleware.ts], [web/src/app/api],
      [web/src/lib/account-bff.ts]): the guard of the dashboard's local HTTP API, its
      routes, and the requests it passes on to the registry.
    - [DaemonCommands] ([commands/daemon.ts], [commands/dashboard] and what is left of
      [control-plane.ts]) and [Reports] ([cli/src/lib/print.ts], [commands/stats.ts],
      [status.ts], [search.ts]: the lines that are printed).
    - [Page]: components of the browser as a state and handlers that run to their next
      [await], a scheduler that interleaves them, and the elements that are rendered.
      On it [AccountPage] ([web/src/components/account.tsx]), [UsagePage]
      ([usage-section.tsx]), [PublisherPages] ([publisher-console.tsx],
      [admin-review-panel.tsx], [app/device/authorize.tsx]), [DashboardPage]
      ([dashboard.tsx]) and [Catalog] ([marketing/src/components/AgentCatalog.tsx],
      [web/src/lib/api.ts], the browse and agent pages).  [WebApi] is what lies between:
      the routes of [web/src/app/api] by the addresses the pages ask for, with their
      answers, so that a page runs on top of the registry; [Widgets] has the copy
      buttons, the blocks that appear when they are scrolled to, the star count, the
      tabs and the menu.
    - [MarketingSite] and [RedesignSite] (the pages and layouts of the marketing sites and
      the layout of the dashboard, as the elements their components return), and [Release]
      ([scripts/package.mjs], [scripts/verify-pack.mjs]).
    - [Lifecycle] models no code: it puts [Publishing], [Registry], [Installer], [RunAgent]
      and [AgentRuntime] together, from the publisher's project to a run on another machine.

    ** How the parts interact

    [Installer.installAgent] calls the registry client, verifies and unpacks with
    [Package], asks for permissions and writes [Config].  [RunAgent.prepareRunContext]
    reads [Config] through [Resolve], refreshes the revocation status through
    [Registry], and reads the vault; [RunAgent.executeAgentRun] hands the context to
    [AgentRuntime.runAgent], which asks [Policy] and [Models] and starts one of the
    sandboxes.  [Supervisor] records the runs.  [UsageStore] is the memory of the
    usage reports: [Collect.collectProvidersSync] runs the adapters the user agreed
    to and records what they read, and [Observability.getUsageStats] answers from
    it; the store tells the cache of its changes through the mutation hook, which is
    [Observability.hooked].

    ** Conventions

    A synchronous call is a [result]; a program with effects is a [tr] over an
    action type of its file, so that ordering is the order of the trace; a file that
    several processes touch is a state with one step per write.  Objects used as
    dictionaries are association lists in insertion order ([obj]), without the names
    inherited from the prototype of all objects; strings hold one
    character per byte.  Code outside [src/] is a parameter: cryptography, the YAML
    parser and schema validator, tar, docker (asked by its command line, and it may
    fail), the SQL engine (whose statements are functions on lists of rows, and those of
    the migration steps of a connection with its transaction), the clock, the collation of [localeCompare], and
    the registry.  Where a theorem needs something of a parameter (a law of the
    cipher, a clock that sleeping moves, JSON strings shorter than their text) it is a hypothesis, with a witness.
    Numbers that the code adds and compares are integers ([Z]); costs are rationals;
    the rounding of doubles is not modelled.

    ** Fuel

    Recursion that follows a list or a string is structural.  The waiting loops of
    [ControlPlane] take as many rounds as their timeout allows, and [waits_terminate]
    shows that more rounds change nothing, as [run_waits_terminate] does for those of
    [ManagedRuns]; [Commands.poll_loop] takes fuel, and
    [login_terminates] bounds it by the life time of the device code; the port
    search has the code's own bound; [tokens_fuel_enough] does it for the nested texts
    of [OpencodeUsage.tokensOf].

    ** What the theorems show

    - Integrity of packages: [extractArchive_invariant] and its companions for the
      extractor, [packAgent_verifies], [verifySignatureFileStrict_iff],
      [signaturePayload_inj], [installAgent_ok], [installAgent_effects].
    - From end to end: [published_installs] (what one machine publishes, another installs,
      with the digest that was packed, as long as the registry hands out what it was given)
      and [installed_runs] (what was installed is found again and admitted with the
      permissions of its manifest); [config_keyed] keeps the table of installed agents
      readable for it.
    - What may run, and how: [effectiveSandbox_process_iff],
      [runAgent_process_is_allowed], [runAgent_grants_in_manifest],
      [container_isolation], [splitCommand_ok_iff], [checkRevocation_spec],
      [sandbox_set_guarded], [sandbox_show_predicts_run].
    - State: [config_ops_invariant], [vault_set_get], [vault_set_atomic], [env_touches_one_agent],
      [run_versions_ended], [reconcileRun_spec], [writeRun_readRun],
      [store_keys_unique], [prune_spec], [migrate_spec].
    - Runs and their history: [history_mirrors] (the database refines the files),
      [prune_command_spec], [remove_command_spec], [export_command_spec],
      [usage_recorded_once], [returned_run_record], [newRunId_inj], [stopRun_aims],
      [restart_only_when_over], [restart_spec_roundtrip], [foreground_reports], [ps_shows_alive],
      [follow_prints_growth].
    - The machine: [parsePsLine_roundtrip], [detect_agent_spec], [annotate_spec],
      [snapshot_docker_agrees].
    - Usage: [collection_respects_consent], [incremental_reading] (reading in pieces
      is reading at once), [totals_recorded_once], [overview_conserves],
      [stats_conserve], [cached_stats_current] (the cache refines the computation),
      [walk_dir_result], [revoked_stays_empty].
    - The network: [live_key_stays_with_provider], [registry_token_stays], [version_url_injective],
      [downloadArchive_bounded], [login_terminates], [approved_login_completes],
      [publish_ok], [publish_unsent], [logout_forgets_token],
      [admitted_iff], [rebound_host_refused], [limits_put_spec].
    - The daemon and the dashboard: [daemon_start_spec], [status_running_iff],
      [autostart_toggles], [plist_sets_environment], [in_order_shows_preset] (with any
      number of requests in flight), [start_settles] (a handler alone is a
      handler under the scheduler), [account_refresh_spec], [deleteAccount_spec],
      [console_names_problems], [submit_spec], [approve_spec], [statusPill_spec],
      [filtered_spec], [agent_page_spec], [printTable_aligned], [limits_lines_complete],
      [copied_iff], [stars_of_current].  Over every history of a page: [deletion_was_confirmed],
      [pages_served] (each request has a route); and the page, the routes and the registry
      together: [pages_agree_with_client], [routes_pass_on],
      [account_through_registry], [deletion_through_registry].
    - The sites and the release: [home_links], [redesign_links] (every link leads
      somewhere), [showcase_copies_what_it_shows], [quickstart_copies_commands],
      [showcase_names_known], [install_methods], [verify_pack_verdict], [package_size].
    - Behaviour that departs from what the code means to do, each as a theorem on
      the code as it is: for instance [flagged_agent_runs_on_retry],
      [install_accepts_other_agent], [registry_version_removes_outside],
      [declined_secret_reaches_agent], [env_delete_keeps_secret],
      [grant_overwrites_refresh], [login_polls_after_expiry],
      [uninstall_keeps_consents], [verify_ignores_installed_files],
      [extractArchive_resolves_before_end], [acquireLock_race],
      [start_race_loses_pid], [cut_reading_loses_lines],
      [failed_reading_loses_totals], [run_update_served_stale],
      [settings_put_not_atomic], [session_id_reaches_any_endpoint],
      [unsynced_run_pruned], [export_to_excludes_its_day],
      [orphaned_run_unstoppable], [deps_volume_shared], [install_shows_environment],
      [reenabled_usage_stays_lost], [missing_public_key_replaces_private],
      [init_not_atomic], [config_token_follows_flag],
      [dashboard_requests_refused], [earlier_preset_overwrites], [today_is_yesterday],
      [accept_message_lost], [typed_code_sent_as_typed], [permissions_not_shown],
      [second_daemon_hides_first], [sign_out_believed], [redesign_label_wrong],
      [interactive_waits_for_end], [detached_ignores_model],
      [container_recorded_as_process],
      [started_after_end], [unrecorded_worker_restarted], [repeated_total_dropped],
      [agents_page_links_dead], [redesign_offers_unpublished], [user_home_unused].

    ** Not modelled

    Styles, the metadata of pages and the choice of their fonts; the registry service (a
    Python program; here the oracle of the client, and in [Lifecycle] the assumption that
    it serves what was published); the parsing of command lines, which the framework
    does; the rounding of floating point numbers; concurrency inside one process beyond
    the event orders the models take as input.  The components that the redesign copies
    from the marketing site are modelled once. *)
From Stdlib Require Export Ascii String ZArith Lia.
From stdpp Require Export base decidable list strings gmap sorting pretty.

Declare Scope js_scope.
Delimit Scope js_scope with js.
Open Scope js_scope.

#[global] Arguments String.append !s1 s2 : simpl nomatch.
#[global] Arguments String.eqb : simpl never.
#[global] Arguments Ascii.eqb : simpl never.
#[global] Arguments Ascii.is_space : simpl never.

(** * Errors and fallible computations *)

(** The classes of JavaScript errors the code throws; the subclasses of
    [AgentHubError] carry the code string the constructor passes to [super].
    @src sdk/src/errors.ts 1-34 AgentHubError *)
Inductive errclass :=
| EError
| EAgentHub
| EManifestValidation
| ESignature
| EArchive
| ERegistry (status : option Z)
| EDeviceAuthPending
| EModel
| EConfigCorrupt
| EVaultCorrupt
| EControlPlaneDisabled
| EType
| ERange
| ESystem (errno : string).

#[export] Instance errclass_eq_dec : EqDecision errclass.
Proof. solve_decision. Defined.

Record jserror := JsError { err_class : errclass; err_message : string }.

#[export] Instance jserror_eq_dec : EqDecision jserror.
Proof. solve_decision. Defined.

(** A synchronous call returns a value or throws. *)
Inductive result (A : Type) :=
| Ok (a : A)
| Throw (e : jserror).
Arguments Ok {A} a.
Arguments Throw {A} e.

Definition result_bind {A B} (f : A -> result B) (r : result A) : result B :=
  match r with Ok a => f a | Throw e => Throw e end.

#[export] Instance result_mret : MRet result := fun A a => Ok a.
#[export] Instance result_mbind : MBind result := fun A B f r => result_bind f r.

(** A sequence that succeeds succeeded at each step. *)
Lemma result_bind_ok {A B} (r : result A) (f : A -> result B) b : (r ≫= f) = Ok b -> exists a, r = Ok a /\ f a = Ok b.
Proof. destruct r as [a|e]; [|done]. intros H. by exists a. Qed.

Definition is_ok {A} (r : result A) : bool :=
  match r with Ok _ => true | Throw _ => false end.

Definition throw {A} (cls : errclass) (msg : string) : result A :=
  Throw (JsError cls msg).

Notation "'guard!' b 'else' e ;; k" :=
  (if b then k else Throw e)
  (at level 100, b at level 99, e at level 99, right associativity) : js_scope.

(** The truthiness of an optional string: [undefined] and the empty string are
    falsy. *)
Definition truthy (o : option string) : bool :=
  match o with Some s => negb (String.eqb s "") | None => false end.

(** [o ?? d]. *)
Definition nullish {A} (o : option A) (d : A) : A := default d o.

(** * Strings, as the code uses [String.prototype] *)

Definition LF : ascii := "010"%char.
Definition DQUOTE : ascii := "034"%char.
Definition SQUOTE : ascii := "039"%char.
Definition BACKSLASH : ascii := "092"%char.
Definition str1 (c : ascii) : string := String c EmptyString.

Definition js_startsWith (s p : string) : bool := String.prefix p s.

Fixpoint js_endsWith (s p : string) : bool :=
  String.eqb s p ||
  match s with EmptyString => false | String _ s' => js_endsWith s' p end.

Fixpoint js_includes (s sub : string) : bool :=
  String.prefix sub s ||
  match s with EmptyString => false | String _ s' => js_includes s' sub end.

Fixpoint js_drop (n : nat) (s : string) : string :=
  match n, s with
  | O, _ => s
  | S n', String _ s' => js_drop n' s'
  | S _, EmptyString => EmptyString
  end.

Fixpoint js_take (n : nat) (s : string) : string :=
  match n, s with
  | S n', String c s' => String c (js_take n' s')
  | _, _ => EmptyString
  end.

(** [s.split(sep)] for a separator that is a class of single characters. *)
Fixpoint js_split_by (f : ascii -> bool) (s : string) : list string :=
  match s with
  | EmptyString => [EmptyString]
  | String c s' =>
      if f c then EmptyString :: js_split_by f s'
      else match js_split_by f s' with
           | w :: ws => String c w :: ws
           | [] => [String c EmptyString]
           end
  end.

Definition js_split (c : ascii) : string -> list string :=
  js_split_by (Ascii.eqb c).

(** [a.join(sep)]. *)
Fixpoint js_join (sep : string) (l : list string) : string :=
  match l with
  | [] => EmptyString
  | [w] => w
  | w :: ws => w +:+ sep +:+ js_join sep ws
  end.

(** [s.replace(/c/g, f(c))]: every character is mapped to a string. *)
Fixpoint js_flat_map (f : ascii -> string) (s : string) : string :=
  match s with
  | EmptyString => EmptyString
  | String c s' => f c +:+ js_flat_map f s'
  end.

Definition js_replace_all (c : ascii) (r : string) : string -> string :=
  js_flat_map (fun a => if Ascii.eqb a c then r else str1 a).

(** Membership of a character, and a test on every character. *)
Fixpoint js_has_char (c : ascii) (s : string) : bool :=
  match s with
  | EmptyString => false
  | String a s' => Ascii.eqb c a || js_has_char c s'
  end.

Fixpoint js_all (f : ascii -> bool) (s : string) : bool :=
  match s with
  | EmptyString => true
  | String a s' => f a && js_all f s'
  end.

Fixpoint js_trim_start (s : string) : string :=
  match s with
  | String c s' => if Ascii.is_space c then js_trim_start s' else s
  | EmptyString => EmptyString
  end.

Fixpoint js_trim_end (s : string) : string :=
  match s with
  | EmptyString => EmptyString
  | String c s' =>
      let r := js_trim_end s' in
      if Ascii.is_space c && String.eqb r EmptyString then EmptyString
      else String c r
  end.

Definition js_trim (s : string) : string := js_trim_end (js_trim_start s).

(** [a < b] on strings: the order of the code units. *)
Definition js_ltb (a b : string) : bool := String.ltb a b.

Definition lower_ascii (c : ascii) : ascii :=
  let n := nat_of_ascii c in
  if (Nat.leb 65 n && Nat.leb n 90)%bool then ascii_of_nat (n + 32) else c.

Fixpoint js_toLowerCase (s : string) : string :=
  match s with
  | EmptyString => EmptyString
  | String c s' => String (lower_ascii c) (js_toLowerCase s')
  end.

Definition is_digit (c : ascii) : bool :=
  let n := nat_of_ascii c in (Nat.leb 48 n && Nat.leb n 57)%bool.
Definition is_lower (c : ascii) : bool :=
  let n := nat_of_ascii c in (Nat.leb 97 n && Nat.leb n 122)%bool.
Definition is_upper (c : ascii) : bool :=
  let n := nat_of_ascii c in (Nat.leb 65 n && Nat.leb n 90)%bool.
#[global] Arguments is_digit : simpl never.
#[global] Arguments is_lower : simpl never.
#[global] Arguments is_upper : simpl never.
Definition digit_value (c : ascii) : Z := Z.of_nat (nat_of_ascii c - 48).

(** The longest prefix of [s] whose characters satisfy [f], and the rest. *)
Fixpoint js_span (f : ascii -> bool) (s : string) : string * string :=
  match s with
  | String c s' => if f c then let '(a, b) := js_span f s' in (String c a, b)
                   else (EmptyString, s)
  | EmptyString => (EmptyString, EmptyString)
  end.

(** The value of a string of decimal digits. *)
Fixpoint digits_value (acc : Z) (s : string) : Z :=
  match s with
  | String c s' => digits_value (10 * acc + digit_value c) s'
  | EmptyString => acc
  end.

(** [parseInt(s, 10)]; [None] is [NaN]. *)
Definition parseInt10 (s : string) : option Z :=
  let s := js_trim_start s in
  let '(neg, s) :=
    match s with
    | String "-" s' => (true, s')
    | String "+" s' => (false, s')
    | _ => (false, s)
    end%char in
  let '(ds, _) := js_span is_digit s in
  if String.eqb ds EmptyString then None
  else Some (if neg then - digits_value 0 ds else digits_value 0 ds)%Z.

(** * Arrays *)

(** [a.slice(-n)] for [n >= 0]; [slice(-0)] is [slice(0)]. *)
Definition js_slice_last {A} (n : nat) (l : list A) : list A :=
  if Nat.eqb n 0 then l else drop (length l - n) l.

(** [Array.prototype.sort]: stable; [leb a b] is [cmp(a, b) <= 0]. *)
Fixpoint js_insert {A} (leb : A -> A -> bool) (x : A) (l : list A) : list A :=
  match l with
  | [] => [x]
  | y :: l' => if leb x y then x :: l else y :: js_insert leb x l'
  end.

Fixpoint js_sort {A} (leb : A -> A -> bool) (l : list A) : list A :=
  match l with
  | [] => []
  | x :: l' => js_insert leb x (js_sort leb l')
  end.

(** * Objects used as dictionaries *)

(** An object keyed by strings that are not array indices: its own enumerable
    properties in insertion order. *)
Definition obj (V : Type) := list (string * V).

Fixpoint obj_get {V} (k : string) (o : obj V) : option V :=
  match o with
  | [] => None
  | (k', v) :: o' => if String.eqb k k' then Some v else obj_get k o'
  end.

Fixpoint obj_set {V} (k : string) (v : V) (o : obj V) : obj V :=
  match o with
  | [] => [(k, v)]
  | (k', v') :: o' => if String.eqb k k' then (k', v) :: o' else (k', v') :: obj_set k v o'
  end.

Definition obj_delete {V} (k : string) (o : obj V) : obj V :=
  List.filter (fun kv => negb (String.eqb k (fst kv))) o.

Definition obj_keys {V} (o : obj V) : list string := map fst o.

(** [Object.fromEntries(l)] and [{ ...o, ...l }]. *)
Definition obj_merge {V} (o l : obj V) : obj V :=
  fold_left (fun acc kv => obj_set (fst kv) (snd kv) acc) l o.

Definition obj_from {V} (l : obj V) : obj V := obj_merge [] l.

Definition mem_str (s : string) (l : list string) : bool :=
  existsb (String.eqb s) l.

(** * Automation *)

Create HintDb js.
Create Rewrite HintDb js.

(** Case analysis on the boolean tests of a goal, closing the easy cases. *)
Ltac js_cases :=
  repeat match goal with
  | |- context [if ?b then _ else _] => destruct b eqn:?
  | |- context [match ?x with _ => _ end] => destruct x eqn:?
  end; simplify_eq/=; try done.

(** The same on a hypothesis. *)
Ltac js_cases_in H :=
  repeat match type of H with
  | context [if ?b then _ else _] => destruct b eqn:?
  | context [match ?x with _ => _ end] => destruct x eqn:?
  end; simplify_eq/=; try done.

(** Boolean connectives to propositions. *)
Ltac bool_prop :=
  repeat match goal with
  | H : (_ && _)%bool = true |- _ => apply andb_prop in H as [? ?]
  | H : (_ || _)%bool = false |- _ => apply orb_false_elim in H as [? ?]
  | H : negb _ = true |- _ => apply negb_true_iff in H
  | H : negb _ = false |- _ => apply negb_false_iff in H
  | H : String.eqb _ _ = true |- _ => apply String.eqb_eq in H
  | H : String.eqb _ _ = false |- _ => apply String.eqb_neq in H
  | H : Ascii.eqb _ _ = true |- _ => apply Ascii.eqb_eq in H
  | H : Ascii.eqb _ _ = false |- _ => apply Ascii.eqb_neq in H
  | H : Z.ltb _ _ = true |- _ => apply Z.ltb_lt in H
  | H : Z.ltb _ _ = false |- _ => apply Z.ltb_ge in H
  | H : Z.leb _ _ = true |- _ => apply Z.leb_le in H
  | H : Z.leb _ _ = false |- _ => apply Z.leb_gt in H
  | H : Z.eqb _ _ = true |- _ => apply Z.eqb_eq in H
  | H : Z.eqb _ _ = false |- _ => apply Z.eqb_neq in H
  end.

(** * Lemmas on strings *)

Lemma elem_of_filter_In {A} (f : A -> bool) l x : x ∈ List.filter f l <-> x ∈ l /\ f x = true.
Proof. by rewrite !list_elem_of_In, filter_In. Qed.

Lemma sapp_nil_r (s : string) : s +:+ "" = s.
Proof. induction s as [|c s IH]; [done|]. cbn. by rewrite IH. Qed.

Lemma sapp_assoc (a b c : string) : (a +:+ b) +:+ c = a +:+ (b +:+ c).
Proof. induction a as [|x a IH]; [done|]. cbn. by rewrite IH. Qed.

Lemma slength_app (a b : string) :
  String.length (a +:+ b) = String.length a + String.length b.
Proof. induction a as [|x a IH]; [done|]. cbn. by rewrite IH. Qed.

Lemma sapp_cons c (a b : string) : String c a +:+ b = String c (a +:+ b).
Proof. done. Qed.

Lemma sapp_inj_l (a b c : string) : a +:+ b = a +:+ c -> b = c.
Proof. induction a as [|x a IH]; cbn; [done|]. intros [=]. auto. Qed.

Lemma prefix_spec (p s : string) :
  String.prefix p s = true <-> exists t, s = p +:+ t.
Proof.
  revert s. induction p as [|c p IH]; intros s; cbn.
  - split; [|by destruct s]. intros _. by exists s.
  - destruct s as [|d s]; cbn.
    + split; [done|]. intros [t [=]].
    + destruct (ascii_dec c d) as [->|Hne].
      * rewrite IH. split; intros [t Ht]; exists t; cbn in *; congruence.
      * split; [done|]. intros [t [= Hc _]]. congruence.
Qed.

Lemma startsWith_spec s p :
  js_startsWith s p = true <-> exists t, s = p +:+ t.
Proof. apply prefix_spec. Qed.

Lemma startsWith_app p s : js_startsWith (p +:+ s) p = true.
Proof. apply startsWith_spec. by exists s. Qed.

Lemma endsWith_spec s p :
  js_endsWith s p = true <-> exists t, s = t +:+ p.
Proof.
  induction s as [|c s IH]; cbn.
  - rewrite orb_false_r, String.eqb_eq. split.
    + intros <-. by exists "".
    + intros [[|d t] Ht]; cbn in Ht; [done|discriminate].
  - rewrite orb_true_iff, String.eqb_eq, IH. split.
    + intros [<-|[t ->]]; [by exists ""|by exists (String c t)].
    + intros [[|d t] Ht]; cbn in Ht; [by left|].
      injection Ht as -> ->. right. by exists t.
Qed.

Lemma includes_unfold s sub :
  js_includes s sub = String.prefix sub s ||
    match s with EmptyString => false | String _ s' => js_includes s' sub end.
Proof. by destruct s. Qed.

Lemma includes_spec s sub :
  js_includes s sub = true <-> exists a b, s = a +:+ sub +:+ b.
Proof.
  induction s as [|c s IH]; rewrite includes_unfold, orb_true_iff, prefix_spec.
  - split.
    + intros [[t Ht]|]; [|done]. by exists "", t.
    + intros ([|d a] & b & Hab); cbn in Hab; [|discriminate]. left. by exists b.
  - rewrite IH. split.
    + intros [[t Ht]|(a & b & ->)]; [by exists "", t|by exists (String c a), b].
    + intros ([|d a] & b & Hab); cbn in Hab; [left; by exists b|].
      injection Hab as -> ->. right. by exists a, b.
Qed.

Lemma has_char_app c (a b : string) :
  js_has_char c (a +:+ b) = js_has_char c a || js_has_char c b.
Proof. induction a as [|x a IH]; [done|]. cbn. by rewrite IH, orb_assoc. Qed.

Lemma all_app f (a b : string) : js_all f (a +:+ b) = js_all f a && js_all f b.
Proof. induction a as [|x a IH]; [done|]. cbn. by rewrite IH, andb_assoc. Qed.

Lemma all_no_char f c s :
  js_all f s = true -> f c = false -> js_has_char c s = false.
Proof.
  induction s as [|x s IH]; [done|]. cbn. intros [Hx Hs]%andb_prop Hc.
  rewrite IH by done. rewrite orb_false_r.
  apply Ascii.eqb_neq. intros ->. congruence.
Qed.

(** The first separator of a string splits it in one way only. *)
Lemma split_unique c (a1 a2 b1 b2 : string) :
  js_has_char c a1 = false -> js_has_char c a2 = false ->
  a1 +:+ String c b1 = a2 +:+ String c b2 -> a1 = a2 /\ b1 = b2.
Proof.
  revert a2. induction a1 as [|x a1 IH]; intros [|y a2]; cbn; intros H1 H2 Heq.
  - by injection Heq.
  - injection Heq as <- _. bool_prop. congruence.
  - injection Heq as -> _. bool_prop. congruence.
  - injection Heq as -> Heq. bool_prop.
    destruct (IH a2) as [-> ->]; auto.
Qed.

(** The last separator too. *)
Lemma split_unique_r c (a1 a2 b1 b2 : string) :
  js_has_char c b1 = false -> js_has_char c b2 = false ->
  a1 +:+ String c b1 = a2 +:+ String c b2 -> a1 = a2 /\ b1 = b2.
Proof.
  revert a2. induction a1 as [|x a1 IH]; intros [|y a2]; cbn; intros H1 H2 Heq.
  - by injection Heq.
  - injection Heq as -> ->. exfalso. rewrite has_char_app in H1. cbn in H1.
    rewrite Ascii.eqb_refl, orb_true_r in H1. done.
  - injection Heq as -> <-. exfalso. rewrite has_char_app in H2. cbn in H2.
    rewrite Ascii.eqb_refl, orb_true_r in H2. done.
  - injection Heq as -> Heq. destruct (IH a2) as [-> ->]; auto.
Qed.

Lemma sapp_str1_inj (a b : string) c d : a +:+ str1 c = b +:+ str1 d -> a = b /\ c = d.
Proof.
  unfold str1. revert b. induction a as [|x a IH]; intros [|y b]; cbn; intros [=]; subst.
  - done.
  - by destruct b.
  - by destruct a.
  - by destruct (IH b) as [-> ->].
Qed.

Lemma string_last (s : string) : s <> "" -> exists s' c, s = s' +:+ str1 c.
Proof.
  induction s as [|c s IH]; [done|]. intros _.
  destruct s as [|d s]; [by exists "", c|].
  destruct IH as (s' & c' & ->); [done|]. by exists (String c s'), c'.
Qed.

Lemma split_by_nonempty f s : js_split_by f s <> [].
Proof. destruct s as [|c s]; cbn; [done|]. destruct (f c); [done|]. by destruct (js_split_by f s). Qed.

Lemma join_cons sep w l :
  l <> [] -> js_join sep (w :: l) = w +:+ sep +:+ js_join sep l.
Proof. by destruct l. Qed.

(** Splitting at a character and joining again is the identity. *)
Lemma join_split c s : js_join (str1 c) (js_split c s) = s.
Proof.
  induction s as [|x s IH]; [done|]. unfold js_split in *. cbn.
  pose proof (split_by_nonempty (Ascii.eqb c) s) as Hne.
  destruct (Ascii.eqb c x) eqn:E; bool_prop.
  - subst. rewrite join_cons by done. cbn. by rewrite IH.
  - destruct (js_split_by _ s) as [|w [|w' ws]]; [done|..]; cbn in *; by rewrite <- IH.
Qed.

Lemma split_by_no_sep f s w c :
  w ∈ js_split_by f s -> f c = true -> js_has_char c w = false.
Proof.
  revert w. induction s as [|x s IH]; cbn; intros w Hw Hc.
  - apply list_elem_of_singleton in Hw as ->. done.
  - destruct (f x) eqn:E.
    + apply elem_of_cons in Hw as [->|Hw]; [done|auto].
    + pose proof (split_by_nonempty f s) as Hne.
      destruct (js_split_by f s) as [|v vs]; [done|].
      apply elem_of_cons in Hw as [->|Hw].
      * cbn. rewrite IH; [|by left|done]. rewrite orb_false_r.
        apply Ascii.eqb_neq. congruence.
      * apply IH; [by right|done].
Qed.

Lemma split_by_app_sep f a c b :
  f c = true -> js_split_by f (a +:+ String c b) = js_split_by f a ++ js_split_by f b.
Proof.
  intros Hc. induction a as [|x a IH]; cbn; [by rewrite Hc|].
  destruct (f x); [by rewrite IH|]. rewrite IH.
  pose proof (split_by_nonempty f a). by destruct (js_split_by f a).
Qed.

(** Splitting at more separators refines the split. *)
Lemma split_by_refine f h s :
  (forall c, f c = true -> h c = true) ->
  js_split_by h s = flat_map (js_split_by h) (js_split_by f s).
Proof.
  intros Hfh. induction s as [|x s IH]; [done|]. cbn [js_split_by].
  pose proof (split_by_nonempty f s) as Hne.
  destruct (f x) eqn:Ef.
  - rewrite (Hfh x Ef), IH. done.
  - destruct (js_split_by f s) as [|w ws]; [done|]. cbn [flat_map] in *.
    rewrite IH. cbn [js_split_by]. destruct (h x); [done|].
    pose proof (split_by_nonempty h w). by destruct (js_split_by h w).
Qed.

Lemma split_by_none f s :
  (forall c, f c = true -> js_has_char c s = false) -> js_split_by f s = [s].
Proof.
  induction s as [|x s IH]; [done|]. intros H. cbn.
  destruct (f x) eqn:E.
  - specialize (H x E). cbn in H. by rewrite Ascii.eqb_refl in H.
  - rewrite IH; [done|]. intros c Hc. specialize (H c Hc). cbn in H.
    by apply orb_false_elim in H as [_ ?].
Qed.

Lemma split_by_refine_in f h s w :
  (forall c, f c = true -> h c = true) ->
  w ∈ js_split_by f s -> (forall c, h c = true -> js_has_char c w = false) ->
  w ∈ js_split_by h s.
Proof.
  intros Hfh Hw Hc. rewrite (split_by_refine f h) by done.
  apply list_elem_of_In, in_flat_map. exists w.
  split; [by apply list_elem_of_In|]. rewrite split_by_none by done. by left.
Qed.

(** Joining pieces without the separator and splitting again is the identity. *)
Lemma split_join c l :
  l <> [] -> Forall (fun w => js_has_char c w = false) l ->
  js_split c (js_join (str1 c) l) = l.
Proof.
  intros Hne Hl. unfold js_split, str1. induction Hl as [|w l Hw Hl IH]; [done|].
  assert (Hone : js_split_by (Ascii.eqb c) w = [w]).
  { apply split_by_none. intros d Hd%Ascii.eqb_eq. by subst. }
  destruct l as [|w' l]; [done|].
  rewrite join_cons, sapp_cons by done.
  rewrite split_by_app_sep by apply Ascii.eqb_refl.
  cbn [String.append]. rewrite Hone, IH by done. done.
Qed.

Lemma span_spec f s a b :
  js_span f s = (a, b) -> s = a +:+ b /\ js_all f a = true.
Proof.
  revert a b. induction s as [|c s IH]; cbn; intros a b Hs.
  - by injection Hs as <- <-.
  - destruct (f c) eqn:E.
    + destruct (js_span f s) as [a' b']. injection Hs as <- <-.
      destruct (IH a' b') as [-> Ha]; [done|]. cbn. by rewrite E.
    + by injection Hs as <- <-.
Qed.

(** Where a span stops, the next character ends it. *)
Lemma span_stop f s a c b : js_span f s = (a, String c b) -> f c = false.
Proof.
  revert a. induction s as [|d s IH]; intros a; cbn; [done|]. destruct (f d) eqn:Hd; [|by intros [= <- <- <-]].
  destruct (js_span f s) as [a' b'] eqn:E. intros [= <- ->]. by eapply IH.
Qed.

Lemma span_all f s : js_all f s = true -> js_span f s = (s, "").
Proof.
  induction s as [|c s IH]; [done|]. cbn. intros [Hc Hs]%andb_prop.
  by rewrite Hc, IH.
Qed.

Lemma span_app f p s : js_all f p = true -> js_span f (p +:+ s) = (p +:+ (js_span f s).1, (js_span f s).2).
Proof.
  induction p as [|c p IH]; cbn; [by destruct (js_span f s)|]. intros [-> Hp]%andb_true_iff. by rewrite IH.
Qed.

Lemma no_char_all c s : js_has_char c s = false -> js_all (fun d => negb (Ascii.eqb d c)) s = true.
Proof.
  induction s as [|d s IH]; [done|]. cbn. intros [Hd Hs]%orb_false_elim. rewrite IH, andb_true_r by done.
  apply Ascii.eqb_neq in Hd. by destruct (Ascii.eqb_spec d c).
Qed.

Lemma all_mono (f g : ascii -> bool) s : (forall c, f c = true -> g c = true) -> js_all f s = true -> js_all g s = true.
Proof. intros Hfg. induction s as [|c s IH]; [done|]. cbn. intros [Hc Hs]%andb_true_iff. by rewrite Hfg, IH. Qed.

(** The decimal text of an integer has digits and perhaps a sign. *)
Definition number_char (c : ascii) : bool := is_digit c || Ascii.eqb c "-".

Lemma pretty_N_chars x s : js_all number_char s = true -> js_all number_char (pretty.pretty_N_go x s) = true.
Proof.
  revert s. induction (N.lt_wf_0 x) as [x _ IH]; intros s Hs. destruct (decide (0 < x)%N) as [Hx|Hx].
  - rewrite pretty.pretty_N_go_step by done. apply IH; [by apply N.div_lt|]. cbn [js_all]. rewrite Hs, andb_true_r.
    assert (Hm : (x mod 10 < 10)%N) by (by apply N.mod_lt). revert Hm. generalize (x mod 10)%N. intros y Hy.
    unfold pretty.pretty_N_char. destruct y as [|[[[[]|[]|]|[[]|[]|]|]|[[[]|[]|]|[[]|[]|]|]|]]; try reflexivity; exfalso; lia.
  - assert (x = 0)%N as -> by lia. by rewrite pretty.pretty_N_go_0.
Qed.

Lemma pretty_chars (z : Z) : js_all number_char (pretty z) = true.
Proof.
  assert (Hn : forall n : N, js_all number_char (pretty n) = true).
  { intros n. unfold pretty, pretty.pretty_N. destruct (decide _); [done|]. by apply pretty_N_chars. }
  destruct z as [|p|p]; [done|exact (Hn (Npos p))|]. change (js_all number_char ("-" +:+ pretty (Npos p)) = true).
  rewrite all_app. by rewrite Hn.
Qed.

Lemma pretty_nonempty (z : Z) : pretty z <> "".
Proof.
  assert (Hgo : forall x s, s <> "" -> pretty.pretty_N_go x s <> "").
  { intros x. induction (N.lt_wf_0 x) as [x _ IH]; intros s Hs. destruct (decide (0 < x)%N) as [Hx|Hx].
    - rewrite pretty.pretty_N_go_step by done. apply IH; [by apply N.div_lt|done].
    - assert (x = 0)%N as -> by lia. by rewrite pretty.pretty_N_go_0. }
  destruct z as [|p|p]; [done| |done]. change (pretty (Npos p) <> ""). unfold pretty, pretty.pretty_N.
  destruct (decide _); [done|]. rewrite pretty.pretty_N_go_step by lia. by apply Hgo.
Qed.

Lemma flat_map_app f (a b : string) :
  js_flat_map f (a +:+ b) = js_flat_map f a +:+ js_flat_map f b.
Proof. induction a as [|c a IH]; [done|]. cbn. by rewrite IH, sapp_assoc. Qed.

Lemma drop_app_length (a b : string) : js_drop (String.length a) (a +:+ b) = b.
Proof. induction a as [|c a IH]; [by destruct b|done]. Qed.

Lemma take_app_length (a b : string) : js_take (String.length a) (a +:+ b) = a.
Proof. induction a as [|c a IH]; [by destruct b|]. cbn. by rewrite IH. Qed.

Lemma take_drop_string n s : js_take n s +:+ js_drop n s = s.
Proof. revert n. induction s as [|c s IH]; intros [|n]; cbn; [done..|]. by rewrite IH. Qed.

Lemma length_take_string n s : String.length (js_take n s) = Nat.min n (String.length s).
Proof. revert n. induction s as [|c s IH]; intros [|n]; cbn; [done..|]. by rewrite IH. Qed.

#[export] Hint Rewrite sapp_nil_r sapp_assoc slength_app has_char_app all_app : js.

(** * Lemmas on arrays *)

Section sorting.
Context {A : Type} (leb : A -> A -> bool).

Lemma js_insert_perm x l : js_insert leb x l ≡ₚ x :: l.
Proof.
  induction l as [|y l IH]; [done|]. cbn. destruct (leb x y); [done|].
  rewrite IH. constructor.
Qed.

Lemma js_sort_perm l : js_sort leb l ≡ₚ l.
Proof. induction l as [|x l IH]; [done|]. cbn. by rewrite js_insert_perm, IH. Qed.

Lemma js_sort_length l : length (js_sort leb l) = length l.
Proof. by rewrite js_sort_perm. Qed.

Lemma js_sort_elem l x : x ∈ js_sort leb l <-> x ∈ l.
Proof. by rewrite js_sort_perm. Qed.

(** The comparator has to be a total preorder on the elements sorted only. *)
Context (P : A -> Prop).
Context (Htot : forall a b, P a -> P b -> leb a b = true \/ leb b a = true).
Context (Htrans : forall a b c, P a -> P b -> P c ->
  leb a b = true -> leb b c = true -> leb a c = true).

Lemma js_insert_sorted x l :
  P x -> Forall P l ->
  StronglySorted (fun a b => leb a b = true) l ->
  StronglySorted (fun a b => leb a b = true) (js_insert leb x l).
Proof.
  intros Hx HP Hs. induction Hs as [|y l Hs IH Hall]; cbn; [repeat constructor|].
  inversion_clear HP as [|? ? Hy HP'].
  destruct (leb x y) eqn:E.
  - constructor; [by constructor|]. constructor; [done|].
    apply Forall_forall. intros z Hz. rewrite Forall_forall in Hall, HP'.
    eapply (Htrans x y z); auto.
  - constructor; [auto|]. rewrite js_insert_perm. constructor; [|done].
    destruct (Htot x y); auto. congruence.
Qed.

Lemma js_sort_sorted l :
  Forall P l -> StronglySorted (fun a b => leb a b = true) (js_sort leb l).
Proof.
  induction 1 as [|x l Hx HP IH]; cbn; [constructor|].
  apply js_insert_sorted; [done|by rewrite js_sort_perm|done].
Qed.

(** The last element of a sorted array is a maximum. *)
Lemma js_sort_last_max l x y :
  Forall P l -> last (js_sort leb l) = Some x -> y ∈ l -> leb y x = true.
Proof.
  intros HP Hlast Hy. pose proof Hy as Hy0. apply js_sort_elem in Hy.
  apply last_Some in Hlast as [l' Hl']. rewrite Hl' in Hy.
  pose proof (js_sort_sorted l HP) as Hs. rewrite Hl' in Hs.
  apply elem_of_app in Hy as [Hy|Hy].
  - apply StronglySorted_app in Hs as (Hs & _ & _).
    apply (Hs y x); [done|by left].
  - apply list_elem_of_singleton in Hy as ->. rewrite Forall_forall in HP.
    by destruct (Htot x x); auto.
Qed.
End sorting.

Lemma slice_last_length {A} n (l : list A) :
  0 < n -> length (js_slice_last n l) = Nat.min n (length l).
Proof.
  intros Hn. unfold js_slice_last. destruct (Nat.eqb_spec n 0); [lia|].
  rewrite length_drop. lia.
Qed.

(** * Lemmas on objects *)

Section objects.
Context {V : Type}.
Implicit Types o l : obj V.

Lemma obj_get_set_eq k v o : obj_get k (obj_set k v o) = Some v.
Proof.
  induction o as [|[k' v'] o IH]; cbn; [by rewrite String.eqb_refl|].
  destruct (String.eqb k k') eqn:E; cbn; by rewrite E.
Qed.

Lemma obj_get_set_ne k k' v o :
  k <> k' -> obj_get k' (obj_set k v o) = obj_get k' o.
Proof.
  intros Hne. induction o as [|[k0 v0] o IH]; cbn.
  - destruct (String.eqb_spec k' k); congruence.
  - destruct (String.eqb_spec k k0); cbn; [subst|by rewrite IH].
    destruct (String.eqb_spec k' k0); congruence.
Qed.

Lemma obj_get_set k k' v o :
  obj_get k' (obj_set k v o) = if String.eqb k k' then Some v else obj_get k' o.
Proof.
  destruct (String.eqb_spec k k') as [->|Hne].
  - apply obj_get_set_eq.
  - by apply obj_get_set_ne.
Qed.

Lemma obj_get_delete_eq k o : obj_get k (obj_delete k o) = None.
Proof.
  unfold obj_delete. induction o as [|[k' v'] o IH]; [done|]. cbn.
  destruct (String.eqb k k') eqn:E; cbn; [done|]. by rewrite E.
Qed.

Lemma obj_get_delete_ne k k' o :
  k <> k' -> obj_get k' (obj_delete k o) = obj_get k' o.
Proof.
  intros Hne. unfold obj_delete. induction o as [|[k0 v0] o IH]; [done|]. cbn.
  destruct (String.eqb_spec k k0); cbn; [subst|by rewrite IH].
  destruct (String.eqb_spec k' k0); congruence.
Qed.

Lemma obj_get_elem k v o : obj_get k o = Some v -> (k, v) ∈ o.
Proof.
  induction o as [|[k' v'] o IH]; [done|]. cbn.
  destruct (String.eqb_spec k k') as [->|]; [intros [= ->]; by left|right; auto].
Qed.

Lemma obj_get_elem_key k o : is_Some (obj_get k o) <-> k ∈ obj_keys o.
Proof.
  induction o as [|[k' v'] o IH]; cbn.
  - split; [by intros []|by intros ?%elem_of_nil].
  - rewrite elem_of_cons, <- IH.
    destruct (String.eqb_spec k k') as [->|]; [by split; eauto|].
    split; [by right|]. by intros [|].
Qed.

Lemma obj_elem_get k v o :
  NoDup (obj_keys o) -> (k, v) ∈ o -> obj_get k o = Some v.
Proof.
  induction o as [|[k' v'] o IH]; cbn; intros Hnd Hin.
  - by apply elem_of_nil in Hin.
  - apply NoDup_cons in Hnd as [Hk' Hnd].
    apply elem_of_cons in Hin as [[= -> ->]|Hin]; [by rewrite String.eqb_refl|].
    destruct (String.eqb_spec k k') as [->|]; [|auto].
    exfalso. apply Hk'. apply obj_get_elem_key. rewrite IH by done. done.
Qed.

Lemma obj_keys_set k v o x : x ∈ obj_keys (obj_set k v o) <-> x = k \/ x ∈ obj_keys o.
Proof.
  rewrite <- !obj_get_elem_key, obj_get_set.
  destruct (String.eqb_spec k x); [naive_solver|]. naive_solver.
Qed.

Lemma obj_set_nodup k v o : NoDup (obj_keys o) -> NoDup (obj_keys (obj_set k v o)).
Proof.
  induction o as [|[k' v'] o IH]; cbn; intros Hnd; [by apply NoDup_singleton|].
  apply NoDup_cons in Hnd as [Hk' Hnd].
  destruct (String.eqb_spec k k'); cbn; [by apply NoDup_cons|].
  apply NoDup_cons. split; [|auto].
  fold (obj_keys (obj_set k v o)). rewrite obj_keys_set. naive_solver.
Qed.

Lemma obj_delete_nodup k o : NoDup (obj_keys o) -> NoDup (obj_keys (obj_delete k o)).
Proof.
  induction o as [|[k' v'] o IH]; cbn; intros Hnd; [done|].
  apply NoDup_cons in Hnd as [Hk' Hnd].
  destruct (String.eqb k k'); cbn; [auto|].
  apply NoDup_cons. split; [|auto].
  intros Hin. apply Hk'. apply list_elem_of_fmap in Hin as ([k0 v0] & -> & Hin).
  apply list_elem_of_fmap. exists (k0, v0). split; [done|].
  apply list_elem_of_In, filter_In in Hin as [Hin _]. by apply list_elem_of_In.
Qed.

Lemma obj_merge_nodup o l : NoDup (obj_keys o) -> NoDup (obj_keys (obj_merge o l)).
Proof.
  revert o. induction l as [|[k v] l IH]; intros o Hnd; [done|].
  cbn. apply IH. by apply obj_set_nodup.
Qed.

(** A spread: the later object wins. *)
Lemma obj_get_merge k o l :
  NoDup (obj_keys l) ->
  obj_get k (obj_merge o l) = match obj_get k l with Some v => Some v | None => obj_get k o end.
Proof.
  revert o. induction l as [|[k' v'] l IH]; intros o Hnd; [done|].
  cbn in Hnd. apply NoDup_cons in Hnd as [Hk' Hnd]. cbn. unfold obj_merge in IH.
  rewrite IH by done. rewrite obj_get_set.
  destruct (String.eqb_spec k k') as [->|Hne].
  - rewrite String.eqb_refl. destruct (obj_get k' l) eqn:E; [|done].
    exfalso. apply Hk'. apply obj_get_elem_key. by rewrite E.
  - destruct (String.eqb_spec k' k); [congruence|done].
Qed.
End objects.

#[export] Hint Rewrite @obj_get_set_eq @obj_get_delete_eq : js.
#[export] Hint Resolve obj_set_nodup obj_delete_nodup obj_merge_nodup : js.

Lemma mem_str_spec s l : mem_str s l = true <-> s ∈ l.
Proof.
  unfold mem_str. rewrite existsb_exists. split.
  - intros (x & Hin & ->%String.eqb_eq). by apply list_elem_of_In.
  - intros Hin%list_elem_of_In. exists s. by rewrite String.eqb_refl.
Qed.
