(* ===== verification/NodePath.v ===== *)
(** The POSIX path operations of [node:path] that the program calls:
    [normalize], [join], [resolve] and [isAbsolute], on strings, with the lemmas
    on absolute normal paths that the archive and installer models use.  Nothing
    of this file is source code of the repository: it models the language's
    standard library. *)
From S2P Require Import Prelude.

Module NodePath.

Definition is_sep (c : ascii) : bool := Ascii.eqb "/" c.

Definition isAbsolute (p : string) : bool := js_startsWith p "/".

(** One segment of [normalizeString]: the accumulator is the reversed result. *)
Definition seg_push (absolute : bool) (acc : list string) (s : string) : list string :=
  if String.eqb s "" || String.eqb s "." then acc
  else if String.eqb s ".." then
    match acc with
    | top :: acc' => if String.eqb top ".." then ".." :: acc else acc'
    | [] => if absolute then [] else [".."]
    end
  else s :: acc.

Definition norm_segs (absolute : bool) (l : list string) : list string :=
  rev (fold_left (seg_push absolute) l []).

Definition segments (p : string) : list string := js_split_by is_sep p.

Definition normalize (p : string) : string :=
  if String.eqb p "" then "."
  else
    let absolute := isAbsolute p in
    let r := js_join "/" (norm_segs absolute (segments p)) in
    if String.eqb r "" then
      if absolute then "/" else if js_endsWith p "/" then "./" else "."
    else
      (if absolute then "/" else "") +:+ r +:+ (if js_endsWith p "/" then "/" else "").

(** [join(a, b)]: empty arguments are skipped. *)
Definition join (a b : string) : string :=
  if String.eqb a "" then (if String.eqb b "" then "." else normalize b)
  else if String.eqb b "" then normalize a
  else normalize (a +:+ "/" +:+ b).

(** [resolve(a, b)] with [a] absolute; [resolve(a)] is [resolve(a, "")]. *)
Definition resolve (a b : string) : string :=
  let p := if isAbsolute b then b
           else if String.eqb b "" then a else a +:+ "/" +:+ b in
  "/" +:+ js_join "/" (norm_segs true (segments p)).

(** The segments without the empty ones that trailing separators leave. *)
Fixpoint drop_empty (l : list string) : list string :=
  match l with "" :: l' => drop_empty l' | _ => l end.
Definition trimmed (p : string) : list string := rev (drop_empty (rev (segments p))).

(** [dirname], which ignores trailing separators, and [basename] on a path that does
    not end with a separator. *)
Definition dirname (p : string) : string :=
  let d := js_join "/" (removelast (trimmed p)) in
  if String.eqb d "" then (if isAbsolute p then "/" else ".") else d.
Definition basename (p : string) : string := default "" (last (segments p)).

(** A segment that normalization keeps. *)
Definition good_seg (s : string) : bool :=
  negb (String.eqb s "") && negb (String.eqb s ".") && negb (String.eqb s "..")
  && negb (js_has_char "/" s).

Definition abs_path (segs : list string) : string := "/" +:+ js_join "/" segs.

(** The kept segments of a relative path. *)
Definition kept (l : list string) : list string :=
  List.filter (fun s => negb (String.eqb s "" || String.eqb s ".")) l.

(** A path at or below the directory with the segments [ds], with or without a
    trailing separator: it continues the directory by ordinary names only. *)
Definition inside (ds : list string) (p : string) : Prop :=
  exists es trail, p = abs_path (ds ++ es) +:+ trail /\
    Forall (fun s => good_seg s = true) es /\ (trail = "" \/ trail = "/").

(** ** Lemmas *)

Lemma good_seg_spec s :
  good_seg s = true <-> s <> "" /\ s <> "." /\ s <> ".." /\ js_has_char "/" s = false.
Proof.
  unfold good_seg. rewrite !andb_true_iff, !negb_true_iff, !String.eqb_neq. tauto.
Qed.

Lemma seg_push_good absolute acc s :
  good_seg s = true -> seg_push absolute acc s = s :: acc.
Proof.
  intros (H1 & H2 & H3 & _)%good_seg_spec. unfold seg_push.
  apply String.eqb_neq in H1, H2, H3. by rewrite H1, H2, H3.
Qed.

Lemma fold_push_good absolute ds acc :
  Forall (fun s => good_seg s = true) ds ->
  fold_left (seg_push absolute) ds acc = rev ds ++ acc.
Proof.
  intros Hds. revert acc. induction Hds as [|s ds Hs Hds IH]; intros acc; [done|].
  cbn. rewrite seg_push_good, IH by done. by rewrite <- app_assoc.
Qed.

Lemma fold_push_nodots absolute es acc :
  ".." ∉ es -> fold_left (seg_push absolute) es acc = rev (kept es) ++ acc.
Proof.
  revert acc. induction es as [|s es IH]; intros acc Hes; [done|].
  apply not_elem_of_cons in Hes as [Hs Hes]. cbn. rewrite IH by done.
  unfold seg_push. destruct (String.eqb s "" || String.eqb s ".") eqn:E; cbn; [done|].
  destruct (String.eqb_spec s ".."); [congruence|].
  by rewrite <- app_assoc.
Qed.

Lemma norm_segs_inside absolute ds es :
  Forall (fun s => good_seg s = true) ds -> ".." ∉ es ->
  norm_segs absolute (ds ++ es) = ds ++ kept es.
Proof.
  intros Hds Hes. unfold norm_segs.
  rewrite fold_left_app, (fold_push_good _ _ _ Hds), (fold_push_nodots _ _ _ Hes).
  rewrite app_nil_r, rev_app_distr, !rev_involutive. done.
Qed.

Lemma norm_segs_cons_nil absolute l : norm_segs absolute ("" :: l) = norm_segs absolute l.
Proof. done. Qed.

Lemma segments_no_slash p s : s ∈ segments p -> js_has_char "/" s = false.
Proof. intros H. by eapply split_by_no_sep. Qed.

Lemma kept_good p :
  ".." ∉ segments p -> Forall (fun s => good_seg s = true) (kept (segments p)).
Proof.
  intros Hdd. apply Forall_forall. intros s Hs%list_elem_of_In.
  apply filter_In in Hs as [Hin Hs]. apply list_elem_of_In in Hin.
  bool_prop. apply good_seg_spec. repeat split; try done.
  - by intros ->.
  - by eapply segments_no_slash.
Qed.

Lemma segments_app_slash a b :
  segments (a +:+ "/" +:+ b) = segments a ++ segments b.
Proof. unfold segments. apply (split_by_app_sep is_sep a "/" b). done. Qed.

Lemma segments_join ds :
  ds <> [] -> Forall (fun s => good_seg s = true) ds -> segments (js_join "/" ds) = ds.
Proof.
  intros Hne Hds. apply (split_join "/"); [done|].
  eapply Forall_impl; [exact Hds|]. cbn. by intros s (_ & _ & _ & ?)%good_seg_spec.
Qed.

Lemma segments_abs_path ds :
  ds <> [] -> Forall (fun s => good_seg s = true) ds ->
  segments (abs_path ds) = "" :: ds.
Proof. intros Hne Hds. unfold abs_path. cbn. f_equal. by apply segments_join. Qed.

Lemma isAbsolute_abs ds t : isAbsolute (abs_path ds +:+ t) = true.
Proof. unfold abs_path, isAbsolute, js_startsWith. cbn. by destruct (_ +:+ t). Qed.

Lemma abs_path_not_nil ds t : String.eqb (abs_path ds +:+ t) "" = false.
Proof. done. Qed.

Lemma resolve_relative ds e :
  ds <> [] -> Forall (fun s => good_seg s = true) ds ->
  e <> "" -> isAbsolute e = false -> ".." ∉ segments e ->
  resolve (abs_path ds) e = abs_path (ds ++ kept (segments e)).
Proof.
  intros Hne Hds He Habs Hdd. unfold resolve. rewrite Habs.
  apply String.eqb_neq in He. rewrite He.
  rewrite segments_app_slash, segments_abs_path by done.
  rewrite <- app_comm_cons, norm_segs_cons_nil, norm_segs_inside by done. done.
Qed.

Lemma join_good_neq_nil ds :
  ds <> [] -> Forall (fun s => good_seg s = true) ds -> js_join "/" ds <> "".
Proof.
  intros Hne Hds. destruct Hds as [|s ds Hs Hds]; [done|].
  apply good_seg_spec in Hs as [Hs _]. destruct s as [|c s]; [done|].
  by destruct ds.
Qed.

Lemma endsWith_slash_app d e :
  e <> "" -> js_endsWith (d +:+ "/" +:+ e) "/" = js_endsWith e "/".
Proof.
  intros He. apply eq_true_iff_eq. rewrite !endsWith_spec. split.
  - destruct (string_last e He) as (e' & c & ->). intros [t Ht].
    rewrite <- !sapp_assoc in Ht. apply (sapp_str1_inj _ _ c "/") in Ht as [_ ->].
    by exists e'.
  - intros [t ->]. exists (d +:+ "/" +:+ t). by rewrite !sapp_assoc.
Qed.

(** The path [join(dest, e)] of an entry without [..] is inside [dest], up to a
    trailing separator. *)
Lemma join_relative ds e :
  ds <> [] -> Forall (fun s => good_seg s = true) ds -> e <> "" -> ".." ∉ segments e ->
  join (abs_path ds) e =
    abs_path (ds ++ kept (segments e)) +:+ (if js_endsWith e "/" then "/" else "").
Proof.
  intros Hne Hds He Hdd. unfold join.
  assert (Hn0 : String.eqb (abs_path ds) "" = false) by done.
  rewrite Hn0. pose proof He as He'. apply String.eqb_neq in He'. rewrite He'.
  unfold normalize. rewrite abs_path_not_nil, isAbsolute_abs.
  rewrite segments_app_slash, segments_abs_path by done.
  rewrite <- app_comm_cons, norm_segs_cons_nil, norm_segs_inside by done.
  assert (Hj : js_join "/" (ds ++ kept (segments e)) <> "").
  { apply join_good_neq_nil.
    - by destruct ds.
    - apply Forall_app. split; [done|by apply kept_good]. }
  apply String.eqb_neq in Hj. rewrite Hj, endsWith_slash_app by done.
  unfold abs_path. by rewrite sapp_assoc.
Qed.

Lemma abs_path_app ds es :
  ds <> [] -> es <> [] -> abs_path (ds ++ es) = abs_path ds +:+ "/" +:+ js_join "/" es.
Proof.
  intros Hd He. unfold abs_path. cbn [String.append]. rewrite ?sapp_assoc. f_equal.
  induction ds as [|d ds IH]; [done|]. destruct ds as [|d' ds].
  - cbn. destruct es; [done|]. done.
  - rewrite <- app_comm_cons. rewrite !join_cons by done.
    rewrite !sapp_assoc, IH by done. done.
Qed.

Lemma abs_path_length ds :
  ds <> [] -> Forall (fun s => good_seg s = true) ds -> 1 < String.length (abs_path ds).
Proof.
  intros Hne Hds. pose proof (join_good_neq_nil ds Hne Hds) as H.
  unfold abs_path. rewrite slength_app. cbn. destruct (js_join "/" ds); [done|]. cbn. lia.
Qed.

Lemma drop_empty_good l s : good_seg s = true -> drop_empty (s :: l) = s :: l.
Proof. intros (Hs & _)%good_seg_spec. by destruct s. Qed.

Lemma trimmed_abs_path ds trail :
  ds <> [] -> Forall (fun s => good_seg s = true) ds -> trail = "" \/ trail = "/" ->
  trimmed (abs_path ds +:+ trail) = "" :: ds.
Proof.
  intros Hne Hds Ht. unfold trimmed.
  assert (Hrev : rev (drop_empty (rev ("" :: ds))) = "" :: ds).
  { destruct (exists_last Hne) as (l & s & ->). rewrite Forall_app, Forall_singleton in Hds. destruct Hds as [_ Hs].
    cbn [rev]. rewrite rev_app_distr. cbn [rev app]. rewrite (drop_empty_good _ s Hs).
    cbn [rev]. by rewrite rev_app_distr, rev_involutive. }
  destruct Ht as [->| ->].
  - by rewrite sapp_nil_r, segments_abs_path.
  - change (abs_path ds +:+ "/") with (abs_path ds +:+ "/" +:+ ""). rewrite segments_app_slash, segments_abs_path by done.
    change (segments "") with [""]. rewrite rev_app_distr. exact Hrev.
Qed.

(** The parent of a directory is found, whether or not a separator follows. *)
Lemma dirname_abs_path ds trail :
  ds <> [] -> Forall (fun s => good_seg s = true) ds -> trail = "" \/ trail = "/" ->
  dirname (abs_path ds +:+ trail) = abs_path (removelast ds).
Proof.
  intros Hne Hds Ht. unfold dirname. rewrite trimmed_abs_path, isAbsolute_abs by done.
  destruct ds as [|d ds]; [done|]. change (removelast ("" :: d :: ds)) with ("" :: removelast (d :: ds)).
  destruct (removelast (d :: ds)) as [|x l] eqn:E; [done|]. rewrite join_cons by done. done.
Qed.

(** The directory of a path inside is inside, or is what holds the directory. *)
Lemma dirname_inside ds p :
  ds <> [] -> Forall (fun s => good_seg s = true) ds -> inside ds p ->
  inside ds (dirname p) \/ dirname p = dirname (abs_path ds).
Proof.
  intros Hne Hds (es & trail & -> & Hes & Ht).
  assert (Hall : Forall (fun s => good_seg s = true) (ds ++ es)) by by apply Forall_app.
  rewrite dirname_abs_path by (done || by destruct ds).
  destruct es as [|e es] using rev_ind.
  - right. rewrite app_nil_r, <- (sapp_nil_r (abs_path ds)), dirname_abs_path by auto. done.
  - left. apply Forall_app in Hes as [Hes _]. rewrite app_assoc, removelast_last.
    exists es, "". rewrite sapp_nil_r. auto.
Qed.

End NodePath.
