(* ===== verification/Fs.v ===== *)
(** The file system as the programs see it: a finite map from paths to contents,
    and the write-to-a-temporary-then-rename idiom that [config.ts], [secrets.ts],
    [control-plane.ts] and [supervisor.ts] all use for their files. *)
From S2P Require Import Prelude.

Module Fs.

Section fs.
Context {A : Type}.

Local Abbreviation fs := (gmap string A).

Inductive fs_op :=
| fs_write (p : string) (content : A)
| fs_rename (from to : string)
| fs_remove (p : string).

Definition fs_step (m : fs) (op : fs_op) : fs :=
  match op with
  | fs_write p c => <[p := c]> m
  | fs_rename a b => match m !! a with Some c => <[b := c]> (delete a m) | None => m end
  | fs_remove p => delete p m
  end.

Definition fs_run (m : fs) (ops : list fs_op) : fs := fold_left fs_step ops m.

(** [tmp] is written in full, then renamed over the file: a crash can fall before,
    between or after the two operations. *)
Definition replace_file (p tmp : string) (content : A) : list fs_op :=
  [fs_write tmp content; fs_rename tmp p].

Lemma replace_file_done p tmp c m q :
  q <> tmp -> p <> tmp ->
  fs_run m (replace_file p tmp c) !! q = if decide (q = p) then Some c else m !! q.
Proof.
  intros Hq Hp. unfold fs_run, replace_file. cbn [fold_left fs_step].
  rewrite lookup_insert_eq. case_decide as H.
  - subst. by rewrite lookup_insert_eq.
  - by rewrite lookup_insert_ne, lookup_delete_ne, lookup_insert_ne by done.
Qed.

(** At every moment of the replacement a reader of any file other than the
    temporary one finds the old content or the new one, whole. *)
Lemma replace_file_atomic p tmp c m n q :
  q <> tmp -> p <> tmp ->
  fs_run m (take n (replace_file p tmp c)) !! q = m !! q \/
  (q = p /\ fs_run m (take n (replace_file p tmp c)) !! q = Some c).
Proof.
  intros Hq Hp. destruct n as [|[|n]].
  - by left.
  - left. unfold fs_run, replace_file. cbn [take fold_left fs_step]. by rewrite lookup_insert_ne.
  - replace (take (S (S n)) (replace_file p tmp c)) with (replace_file p tmp c) by by destruct n.
    rewrite replace_file_done by done. case_decide; auto.
Qed.
End fs.

Abbreviation fs A := (gmap string A).
Arguments fs_op A : clear implicits.

(** A temporary name is longer than the name it replaces. *)
Lemma tmp_ne (p suffix : string) : suffix <> "" -> p <> p +:+ suffix.
Proof.
  intros Hs Heq. apply (f_equal String.length) in Heq. rewrite slength_app in Heq.
  destruct suffix; [done|]. cbn in Heq. lia.
Qed.
End Fs.
