(* ===== verification/Trace.v ===== *)
(** Programs that act on the outside world: a computation extends a history of
    actions, and what the world answers is read from an oracle that may depend on
    the whole history. *)
From S2P Require Import Prelude.

Module Trace.

Section trace.
Context {Act : Type}.

Definition tr (A : Type) : Type := list Act -> list Act * result A.

Definition tr_ret {A} (a : A) : tr A := fun h => (h, Ok a).
Definition tr_throw {A} (cls : errclass) (msg : string) : tr A := fun h => (h, throw cls msg).
Definition tr_bind {A B} (f : A -> tr B) (m : tr A) : tr B := fun h =>
  match m h with (h', Ok a) => f a h' | (h', Throw e) => (h', Throw e) end.

(** [try m catch (e) { handler(e) }] *)
Definition tr_catch {A} (m : tr A) (handler : jserror -> tr A) : tr A := fun h =>
  match m h with (h', Ok a) => (h', Ok a) | (h', Throw e) => handler e h' end.

(** [try m finally { cleanup }] *)
Definition tr_finally {A} (m : tr A) (cleanup : tr unit) : tr A := fun h =>
  match m h with (h', r) => let '(h'', rc) := cleanup h' in
    (h'', match rc with Ok _ => r | Throw e => Throw e end) end.

(** An action, and the answer the oracle gives for it. *)
Definition act {A} (a : Act) (answer : list Act -> result A) : tr A := fun h => (h ++ [a], answer h).
Definition ask {A} (a : Act) (answer : list Act -> A) : tr A := act a (fun h => Ok (answer h)).
Definition tr_lift {A} (r : result A) : tr A := fun h => (h, r).
End trace.

#[global] Arguments tr Act A : clear implicits.

#[export] Instance tr_mret Act : MRet (tr Act) := fun A a => tr_ret a.
#[export] Instance tr_mbind Act : MBind (tr Act) := fun A B f m => tr_bind f m.

(** A sequence that succeeds succeeded at each step. *)
Lemma tr_bind_ok {Act A B} (m : tr Act A) (f : A -> tr Act B) h h' b :
  (m ≫= f) h = (h', Ok b) -> exists a h1, m h = (h1, Ok a) /\ f a h1 = (h', Ok b).
Proof.
  intros H. change ((m ≫= f) h) with (tr_bind f m h) in H. unfold tr_bind in H.
  destruct (m h) as [h1 [a|e]] eqn:E; [|discriminate]. by exists a, h1.
Qed.

(** The computation after a bind. *)
Lemma tr_bind_run {Act A B} (m : tr Act A) (f : A -> tr Act B) h :
  (m ≫= f) h = match m h with (h', Ok a) => f a h' | (h', Throw e) => (h', Throw e) end.
Proof. done. Qed.

Lemma tr_lift_ok {Act A} (r : result A) (h h' : list Act) a : tr_lift r h = (h', Ok a) -> r = Ok a /\ h' = h.
Proof. by intros [= <- ->]. Qed.

Lemma tr_ret_ok {Act A} (a b : A) (h h' : list Act) : (mret a : tr Act A) h = (h', Ok b) -> a = b /\ h' = h.
Proof. by intros [= <- ->]. Qed.

(** A computation only appends to the history, and only actions satisfying [P]. *)
Definition appends {Act A} (P : Act -> Prop) (m : tr Act A) : Prop :=
  forall h, exists l, (m h).1 = h ++ l /\ Forall P l.

Section appends.
Context {Act : Type} (P : Act -> Prop).

Lemma appends_ret {A} (a : A) : appends P (mret a : tr Act A).
Proof. intros h. exists []. split; [by rewrite app_nil_r|constructor]. Qed.

Lemma appends_throw {A} cls msg : appends P (tr_throw cls msg : tr Act A).
Proof. intros h. exists []. split; [by rewrite app_nil_r|constructor]. Qed.

Lemma appends_lift {A} (r : result A) : appends P (tr_lift r : tr Act A).
Proof. intros h. exists []. split; [by rewrite app_nil_r|constructor]. Qed.

Lemma appends_act {A} (a : Act) (f : list Act -> result A) : P a -> appends P (act a f).
Proof. intros Ha h. exists [a]. split; [done|by constructor]. Qed.

Lemma appends_ask {A} (a : Act) (f : list Act -> A) : P a -> appends P (ask a f).
Proof. apply appends_act. Qed.

Lemma appends_bind {A B} (m : tr Act A) (f : A -> tr Act B) :
  appends P m -> (forall a, appends P (f a)) -> appends P (m ≫= f).
Proof.
  intros Hm Hf h. rewrite tr_bind_run. destruct (Hm h) as (l & Hl & HP).
  destruct (m h) as [h' [a|e]]; cbn in *; [|by exists l].
  destruct (Hf a h') as (l' & -> & HP'). exists (l ++ l'). split; [by rewrite Hl, app_assoc|].
  by apply Forall_app.
Qed.

Lemma appends_catch {A} (m : tr Act A) (f : jserror -> tr Act A) :
  appends P m -> (forall e, appends P (f e)) -> appends P (tr_catch m f).
Proof.
  intros Hm Hf h. unfold tr_catch. destruct (Hm h) as (l & Hl & HP).
  destruct (m h) as [h' [a|e]]; cbn in *; [by exists l|].
  destruct (Hf e h') as (l' & -> & HP'). exists (l ++ l'). split; [by rewrite Hl, app_assoc|].
  by apply Forall_app.
Qed.
End appends.

Lemma appends_impl {Act A} (P Q : Act -> Prop) (m : tr Act A) :
  (forall a, P a -> Q a) -> appends P m -> appends Q m.
Proof. intros HPQ Hm h. destruct (Hm h) as (l & ? & ?). exists l. split; [done|by eapply Forall_impl]. Qed.

(** What follows a computation, or handles its error, without acting leaves its
    history as it is. *)
Lemma bind_quiet {Act A B} (m : tr Act A) (f : A -> tr Act B) h h' :
  (m h).1 = h' -> (forall a h, (f a h).1 = h) -> ((m ≫= f) h).1 = h'.
Proof. intros <- Hf. rewrite tr_bind_run. destruct (m h) as [h1 [a|e]]; [apply Hf|done]. Qed.

Lemma catch_quiet {Act A} (m : tr Act A) (f : jserror -> tr Act A) h h' :
  (m h).1 = h' -> (forall e h, (f e h).1 = h) -> (tr_catch m f h).1 = h'.
Proof. intros <- Hf. unfold tr_catch. destruct (m h) as [h1 [a|e]]; [done|apply Hf]. Qed.

Create HintDb trace.
#[export] Hint Resolve appends_ret appends_throw appends_lift appends_act appends_ask appends_bind appends_catch : trace.

(** Splits a successful run: the first step into [Hs], the rest stays in [H]. *)
Tactic Notation "tr_inv" hyp(H) "as" simple_intropattern(a) ident(Hs) :=
  apply tr_bind_ok in H as (a & ? & Hs & H).
End Trace.
