(* ===== verification/Manifest.v ===== *)
(** The agent manifest: the data model of [sdk/src/manifest.ts] and the loader
    that reads it from an agent directory.  The YAML parser and the JSON-Schema
    validator are third-party packages: they are parameters of the loader. *)
From S2P Require Import Prelude NodePath.

Module Manifest.

(** @src sdk/src/manifest.ts ModelProvider *)
Inductive ModelProvider :=
| openai | anthropic | google | deepseek | ollama
| mistral | xai | groq | local_model | custom.

(** @src sdk/src/manifest.ts Permission *)
Inductive Permission :=
| filesystem | network | github | terminal
| browser | camera | microphone | none.

(** @src sdk/src/manifest.ts RuntimeLanguage *)
Inductive RuntimeLanguage := python | node | go | rust | other.

(** @src sdk/src/manifest.ts RuntimeSpec.sandbox *)
Inductive SandboxRequest := sb_auto | sb_container | sb_isolated_process.

#[export] Instance ModelProvider_eq_dec : EqDecision ModelProvider.
Proof. solve_decision. Defined.
#[export] Instance Permission_eq_dec : EqDecision Permission.
Proof. solve_decision. Defined.
#[export] Instance RuntimeLanguage_eq_dec : EqDecision RuntimeLanguage.
Proof. solve_decision. Defined.
#[export] Instance SandboxRequest_eq_dec : EqDecision SandboxRequest.
Proof. solve_decision. Defined.

(** The string each literal of the union types is. *)
Definition provider_name (p : ModelProvider) : string :=
  match p with
  | openai => "openai" | anthropic => "anthropic" | google => "google"
  | deepseek => "deepseek" | ollama => "ollama" | mistral => "mistral"
  | xai => "xai" | groq => "groq" | local_model => "local" | custom => "custom"
  end.

Definition permission_name (p : Permission) : string :=
  match p with
  | filesystem => "filesystem" | network => "network" | github => "github"
  | terminal => "terminal" | browser => "browser" | camera => "camera"
  | microphone => "microphone" | none => "none"
  end.

Definition language_name (l : RuntimeLanguage) : string :=
  match l with
  | python => "python" | node => "node" | go => "go" | rust => "rust" | other => "other"
  end.

Definition provider_of_name (s : string) : option ModelProvider :=
  List.find (fun p => String.eqb (provider_name p) s)
    [openai; anthropic; google; deepseek; ollama; mistral; xai; groq; local_model; custom].

Definition permission_of_name (s : string) : option Permission :=
  List.find (fun p => String.eqb (permission_name p) s)
    [filesystem; network; github; terminal; browser; camera; microphone; none].

(** @src sdk/src/manifest.ts RuntimeSpec *)
Record RuntimeSpec := mkRuntimeSpec {
  language : RuntimeLanguage;
  rt_python : option string;
  rt_node : option string;
  rt_sandbox : option SandboxRequest;
}.

(** @src sdk/src/manifest.ts CliInterface *)
Record CliInterface := mkCli {
  command : string;
  cli_input : option string;
  cli_output : option string;
}.

(** @src sdk/src/manifest.ts McpInterface *)
Record McpInterface := mkMcp {
  entrypoint : string;
  transport : option string;
  mcp_tools : option (list string);
}.

(** @src sdk/src/manifest.ts HttpInterface *)
Record HttpInterface := mkHttp {
  endpoint : string;
  methods : option (list string);
}.

(** @src sdk/src/manifest.ts AgentInterfaces *)
Record AgentInterfaces := mkInterfaces {
  if_cli : option CliInterface;
  if_mcp : option McpInterface;
  if_http : option HttpInterface;
}.

(** @src sdk/src/manifest.ts Manifest.dependencies *)
Record Dependencies := mkDeps {
  dep_pip : option (list string);
  dep_npm : option (list string);
  dep_system : option (list string);
}.

(** @src sdk/src/manifest.ts Manifest *)
Record Manifest := mkManifest {
  name : string;
  version : string;
  author : string;
  description : string;
  license : string;
  homepage : option string;
  repository : option string;
  keywords : option (list string);
  runtime : RuntimeSpec;
  framework : option (string * option string);
  supported : list ModelProvider;
  interfaces : AgentInterfaces;
  permissions : option (list Permission);
  dependencies : option Dependencies;
  tools : option (list string);
  tags : option (list string);
  secrets : option (list string);
}.

(** One error of the schema validator: [instancePath], [message] and the JSON
    text of [params]. *)
Record ajv_error := mkAjvError {
  instancePath : string;
  ajv_message : option string;
  ajv_params : option string;
}.

(** @src sdk/src/manifest.ts ValidationResult *)
Record ValidationResult := mkValidation { valid : bool; errors : list string }.

(** @src sdk/src/manifest.ts MANIFEST_FILENAMES *)
Definition MANIFEST_FILENAMES : list string := ["agent.yaml"; "manifest.yaml"].

Section loader.
(** The document a YAML text parses to, the parser and the compiled schema: the
    packages [js-yaml] and [ajv].  [as_manifest] is the cast [input as Manifest]. *)
Context {Doc : Type}.
Context (yaml_load : string -> result Doc).
Context (schema_errors : Doc -> list ajv_error).
Context (as_manifest : Doc -> Manifest).
(** [readFileSync(path, "utf8")]. *)
Context (readFile : string -> result string).

(** @src sdk/src/manifest.ts parseManifest *)
Definition parseManifest (content : string) : result Doc := yaml_load content.

Definition format_error (err : ajv_error) : string :=
  (if String.eqb (instancePath err) "" then "/" else instancePath err)
  +:+ " " +:+ nullish (ajv_message err) "invalid"
  +:+ match ajv_params err with Some p => " (" +:+ p +:+ ")" | None => "" end.

(** The validator reports success exactly when it has no error.
    @src sdk/src/manifest.ts validateManifest *)
Definition validateManifest (input : Doc) : ValidationResult :=
  match schema_errors input with
  | [] => mkValidation true []
  | errs => mkValidation false (map format_error errs)
  end.

(** @src sdk/src/manifest.ts assertValidManifest *)
Definition assertValidManifest (input : Doc) : result Manifest :=
  let res := validateManifest input in
  if valid res then Ok (as_manifest input)
  else throw EManifestValidation ("manifest invalid: " +:+ js_join "; " (errors res)).

Definition is_ENOENT (e : jserror) : bool := bool_decide (err_class e = ESystem "ENOENT").

Definition load_one (p : string) : result Manifest :=
  content ← readFile p; doc ← parseManifest content; assertValidManifest doc.

Fixpoint load_loop (dir : string) (names : list string) : result (Manifest * string) :=
  match names with
  | [] =>
      throw EManifestValidation
        ("manifest invalid: no manifest found in " +:+ dir
         +:+ " (expected agent.yaml or manifest.yaml)")
  | nm :: names' =>
      let p := NodePath.join dir nm in
      match load_one p with
      | Ok m => Ok (m, p)
      | Throw err => if is_ENOENT err then load_loop dir names' else Throw err
      end
  end.

(** @src sdk/src/manifest.ts loadManifestFromDir *)
Definition loadManifestFromDir (dir : string) : result (Manifest * string) :=
  load_loop dir MANIFEST_FILENAMES.

(** ** Properties of the loader *)

Lemma validate_valid_iff doc : valid (validateManifest doc) = true <-> schema_errors doc = [].
Proof. unfold validateManifest. destruct (schema_errors doc); cbn; naive_solver. Qed.

Lemma validate_errors_length doc :
  length (errors (validateManifest doc)) = length (schema_errors doc).
Proof. unfold validateManifest. destruct (schema_errors doc); cbn; [done|]. by rewrite length_map. Qed.

Lemma load_one_ok p m :
  load_one p = Ok m <->
  exists content doc, readFile p = Ok content /\ yaml_load content = Ok doc /\
    schema_errors doc = [] /\ m = as_manifest doc.
Proof.
  unfold load_one, parseManifest, assertValidManifest, mbind, result_mbind, result_bind.
  destruct (readFile p) as [content|e].
  2:{ split; [done|]. by intros (?&?&?&?). }
  destruct (yaml_load content) as [doc|e] eqn:Ey.
  2:{ split; [done|]. intros (?&?&[= <-]&?&?). congruence. }
  destruct (valid (validateManifest doc)) eqn:E.
  - apply validate_valid_iff in E. split.
    + intros [= <-]. by exists content, doc.
    + intros (? & ? & [= <-] & ? & ? & ->). congruence.
  - split; [done|]. intros (c & d & [= <-] & ? & He & ?). simplify_eq.
    apply validate_valid_iff in He. congruence.
Qed.

(** A manifest is loaded exactly when [agent.yaml] is readable and valid, or
    [agent.yaml] does not exist and [manifest.yaml] is readable and valid: an
    invalid or unreadable [agent.yaml] is never skipped in favour of
    [manifest.yaml]. *)
Theorem loadManifestFromDir_ok_iff dir m path :
  loadManifestFromDir dir = Ok (m, path) <->
  (path = NodePath.join dir "agent.yaml" /\ load_one path = Ok m)
  \/ (path = NodePath.join dir "manifest.yaml" /\ load_one path = Ok m /\
      exists e, load_one (NodePath.join dir "agent.yaml") = Throw e /\
                err_class e = ESystem "ENOENT").
Proof.
  unfold loadManifestFromDir, MANIFEST_FILENAMES. cbn [load_loop].
  destruct (load_one (NodePath.join dir "agent.yaml")) as [m1|e1] eqn:E1.
  { split.
    - intros [= -> <-]. by left.
    - intros [[-> H]|(_ & _ & e & [=] & _)]. congruence. }
  assert (Hno : ~ (path = NodePath.join dir "agent.yaml" /\ load_one path = Ok m)).
  { intros [-> ?]. congruence. }
  unfold is_ENOENT. case_bool_decide as He1.
  2:{ split; [done|]. intros [?|(_ & _ & e & [= <-] & ?)]; done. }
  destruct (load_one (NodePath.join dir "manifest.yaml")) as [m2|e2] eqn:E2.
  - split; [intros [= -> <-]; right; split_and!; [done..|by exists e1]|].
    intros [?|(-> & ? & _)]; [done|congruence].
  - split; [case_bool_decide; done|].
    intros [?|(-> & ? & _)]; [done|congruence].
Qed.
End loader.

(** The names are unique. *)
Lemma provider_name_inj p q : provider_name p = provider_name q -> p = q.
Proof. by destruct p, q. Qed.

Lemma permission_name_inj p q : permission_name p = permission_name q -> p = q.
Proof. by destruct p, q. Qed.

Lemma provider_of_name_spec s p : provider_of_name s = Some p <-> s = provider_name p.
Proof.
  split; [|intros ->; by destruct p].
  unfold provider_of_name. intros [_ H]%List.find_some. by apply String.eqb_eq in H.
Qed.

Lemma permission_of_name_spec s p : permission_of_name s = Some p <-> s = permission_name p.
Proof.
  split; [|intros ->; by destruct p].
  unfold permission_of_name. intros [_ H]%List.find_some. by apply String.eqb_eq in H.
Qed.

End Manifest.
