(* ===== verification/Package.v ===== *)
(** Packages: [sdk/src/package.ts] and the signing helpers of [sdk/src/crypto.ts].

    - [Package.listProjectFiles] walks a directory tree and keeps what is packed;
    - [Package.packAgent] and [Package.verifySignatureFileStrict] sign and verify an
      archive; hashing and Ed25519 are parameters (class [CryptoProvider]);
    - [Package.assertSafeArchivePath] is the path check of the extractor and
      [Package.xstep] the extractor itself, a state machine driven by the events of
      the tar parser and of the write streams. *)
From S2P Require Import Prelude NodePath Manifest.

Module Package.
Import Manifest.
Local Open Scope Z_scope.

(** @src sdk/src/package.ts ARCHIVE_EXTENSION *)
Definition ARCHIVE_EXTENSION : string := ".ahb".

(** @src sdk/src/package.ts IGNORE_PATTERNS *)
Definition IGNORE_PATTERNS : list string :=
  [".git"; "node_modules"; ".venv"; "venv"; "__pycache__"; ".pytest_cache"; "dist";
   "coverage"; ".DS_Store"; "*.ahb"; "*.sig.json"].

(** @src sdk/src/package.ts SECRET_IGNORE_PATTERNS *)
Definition SECRET_IGNORE_PATTERNS : list string :=
  [".env"; ".env.local"; ".env.development"; ".env.production"; ".env.test";
   ".env.staging"; "*.pem"; "*.key"; "*.p12"; "*.pfx"; "master.key"; "id_rsa";
   "id_ed25519"; "id_dsa"; ".ssh"; "credentials.json"; ".pypirc"; ".npmrc";
   ".openagenthub"].

(** @src sdk/src/package.ts SignatureFile *)
Record SignatureFile := mkSig {
  schemaVersion : Z;
  algorithm : string;
  publicKey : string;
  publicKeyId : string;
  sig_sha256 : string;
  sig_name : string;
  sig_version : string;
  signature : string;
}.

(** @src sdk/src/package.ts signaturePayload *)
Definition signaturePayload (name version sha256 : string) : string :=
  "openagenthub-signature-v1:" +:+ name +:+ "@" +:+ version +:+ ":" +:+ sha256.

(** ** Project files *)

(** What [statSync] tells of a directory entry. *)
Inductive tree :=
| TFile
| TDir (entries : list (string * tree))
| TOther.

(** @src sdk/src/package.ts isIgnoredName *)
Definition pattern_matches (nm p : string) : bool :=
  if js_startsWith p "*" then js_endsWith nm (js_drop 1 p) else String.eqb nm p.

Definition isIgnoredName (nm : string) : bool :=
  existsb (pattern_matches nm) (IGNORE_PATTERNS ++ SECRET_IGNORE_PATTERNS).

(** The directories [walk] skips besides the ignored names. *)
Definition hidden_dir (nm : string) : bool :=
  js_startsWith nm "." && negb (String.eqb nm ".") && negb (String.eqb nm "..").

(** A listed path is the list of its segments; [join(rel, name)] appends one.
    @src sdk/src/package.ts listProjectFiles *)
Fixpoint walk (rel : list string) (t : tree) : list (list string) :=
  match t with
  | TDir entries =>
      flat_map (fun '(nm, sub) =>
        if isIgnoredName nm then []
        else match sub with
             | TDir _ => if hidden_dir nm then [] else walk (rel ++ [nm]) sub
             | TFile => if js_startsWith nm "._" then [] else [rel ++ [nm]]
             | TOther => []
             end) entries
  | _ => []
  end.

Definition listProjectFiles (root : tree) : list string :=
  map (js_join "/") (walk [] root).

(** A file of the tree reached through the given names. *)
Inductive file_at : tree -> list string -> Prop :=
| file_here entries nm : (nm, TFile) ∈ entries -> file_at (TDir entries) [nm]
| file_below entries nm sub p :
    (nm, TDir sub) ∈ entries -> file_at (TDir sub) p -> file_at (TDir entries) (nm :: p).

Definition dir_ok (nm : string) : bool := negb (isIgnoredName nm) && negb (hidden_dir nm).
Definition file_ok (nm : string) : bool := negb (isIgnoredName nm) && negb (js_startsWith nm "._").

Fixpoint path_ok (p : list string) : bool :=
  match p with
  | [] => false
  | [nm] => file_ok nm
  | nm :: p' => dir_ok nm && path_ok p'
  end.

(** @src sdk/src/package.ts ignoreArgs *)
Definition ignoreArgs : list string :=
  map (fun p => "--exclude=" +:+ p) (IGNORE_PATTERNS ++ SECRET_IGNORE_PATTERNS).

(** [f.replace(/^\.\//, "")]. *)
Definition strip_dot_slash (f : string) : string :=
  if js_startsWith f "./" then js_drop 2 f else f.

(** The first ["/"] of the name becomes ["_"]. *)
Fixpoint replace_first_slash (s : string) : string :=
  match s with
  | EmptyString => EmptyString
  | String c s' => if Ascii.eqb c "/" then String "_" s' else String c (replace_first_slash s')
  end.

Definition archive_filename (m : Manifest) : string :=
  replace_first_slash (name m) +:+ "-" +:+ version m +:+ ARCHIVE_EXTENSION.

Definition tarArgs (archivePath : string) (files : list string) : list string :=
  ["-czf"; archivePath; "--exclude=.git"] ++ ignoreArgs ++ map strip_dot_slash files.

(** ** Path safety *)

Definition is_backslash_or_slash (c : ascii) : bool := Ascii.eqb c "/" || Ascii.eqb c BACKSLASH.

(** [/^[a-zA-Z]:/]. *)
Definition drive_letter (p : string) : bool :=
  match p with
  | String c (String d _) => (is_lower c || is_upper c) && Ascii.eqb d ":"
  | _ => false
  end.

Definition NUL : ascii := "000"%char.

(** @src sdk/src/package.ts assertSafeArchivePath *)
Definition assertSafeArchivePath (entryPath destRoot : string) : result unit :=
  if String.eqb entryPath "" then throw EArchive "empty path in archive"
  else if js_has_char NUL entryPath then throw EArchive "NUL byte in archive path"
  else if js_startsWith entryPath "/" || js_startsWith entryPath (str1 BACKSLASH)
          || drive_letter entryPath
  then throw EArchive ("absolute path in archive: " +:+ entryPath)
  else
    let parts := js_split_by is_backslash_or_slash entryPath in
    if existsb (fun p => String.eqb p "..") parts
    then throw EArchive ("path traversal in archive: " +:+ entryPath)
    else
      let resolved := NodePath.resolve destRoot entryPath in
      if negb (String.eqb resolved destRoot) && negb (js_startsWith resolved (destRoot +:+ "/"))
      then throw EArchive ("path escapes destination: " +:+ entryPath)
      else Ok tt.

(** The declarative reading of the check. *)
Definition safe_entry (p : string) : bool :=
  negb (String.eqb p "") && negb (js_has_char NUL p)
  && negb (js_startsWith p "/" || js_startsWith p (str1 BACKSLASH) || drive_letter p)
  && negb (existsb (fun s => String.eqb s "..") (js_split_by is_backslash_or_slash p)).

(** @src sdk/src/package.ts UnpackLimits *)
Record UnpackLimits := mkLimits {
  maxTotalBytes : Z;
  maxSingleFileBytes : Z;
  maxFiles : Z;
}.

(** @src sdk/src/package.ts DEFAULT_UNPACK_LIMITS *)
Definition DEFAULT_UNPACK_LIMITS : UnpackLimits :=
  mkLimits (200 * 1024 * 1024) (50 * 1024 * 1024) 5000.

(** @src sdk/src/package.ts sanitizeMode *)
Definition sanitizeMode (mode : option Z) : Z :=
  let m := Z.land (nullish mode 420) 511 in
  if Z.eqb (Z.land m 73) 0 then Z.lor m 384 else m.

(** ** The extractor *)

(** An entry of the tar stream; [et_other] carries the type name. *)
Inductive entry_type := et_File | et_Directory | et_other (t : string).

Record entry := mkEntry {
  e_path : string;
  e_type : entry_type;
  e_size : option Z;
  e_mode : option Z;
}.

(** How the promise settled. *)
Inductive outcome := Resolved (candidates : list string) | Rejected (e : jserror).

(** The local variables of [extractArchive], and its effects: the directories
    made, and the files opened (safe path, declared size, mode), oldest first. *)
Record xstate := mkX {
  totalBytes : Z;
  fileCount : Z;
  pendingWrites : Z;
  settled : option outcome;
  manifestCandidates : list string;
  made_dirs : list string;
  opened : list (string * Z * Z);
}.

Definition x_init : xstate := mkX 0 0 0 None [] [] [].

(** What the parser and the streams report.  A write stream is known by the safe
    path of its entry; [ev_data] is the arrival of a chunk that takes the bytes
    written for the entry to [written]. *)
Inductive event :=
| ev_entry (e : entry)
| ev_data (safe : string) (written : Z)
| ev_write_finish (safe : string)
| ev_write_error (e : jserror)
| ev_entry_error (e : jserror)
| ev_parser_error (e : jserror)
| ev_parser_end
| ev_read_error (e : jserror).

Section extractor.
Context (destRoot : string) (limits : UnpackLimits).

(** @src sdk/src/package.ts fail *)
Definition fail (err : jserror) (s : xstate) : xstate :=
  match settled s with
  | Some _ => s
  | None => mkX (totalBytes s) (fileCount s) (pendingWrites s) (Some (Rejected err))
              (manifestCandidates s) (made_dirs s) (opened s)
  end.

(** [finish()] without an error.
    @src sdk/src/package.ts finish *)
Definition finish (s : xstate) : xstate :=
  match settled s with
  | Some _ => s
  | None =>
      if Z.eqb (pendingWrites s) 0
      then mkX (totalBytes s) (fileCount s) (pendingWrites s)
             (Some (Resolved (manifestCandidates s)))
             (manifestCandidates s) (made_dirs s) (opened s)
      else s
  end.

Definition entry_safe (e : entry) : string := strip_dot_slash (e_path e).

Definition make_dir (d : string) (s : xstate) : xstate :=
  mkX (totalBytes s) (fileCount s) (pendingWrites s) (settled s)
    (manifestCandidates s) (made_dirs s ++ [d]) (opened s).

Definition count_file (s : xstate) : xstate :=
  mkX (totalBytes s) (fileCount s + 1) (pendingWrites s) (settled s)
    (manifestCandidates s) (made_dirs s) (opened s).

Definition count_bytes (n : Z) (s : xstate) : xstate :=
  mkX (totalBytes s + n) (fileCount s) (pendingWrites s) (settled s)
    (manifestCandidates s) (made_dirs s) (opened s).

Definition open_file (safe : string) (size mode : Z) (s : xstate) : xstate :=
  mkX (totalBytes s) (fileCount s) (pendingWrites s + 1) (settled s)
    (manifestCandidates s) (made_dirs s ++ [NodePath.dirname (NodePath.join destRoot safe)])
    (opened s ++ [(safe, size, mode)]).

Definition entry_type_name (t : entry_type) : string :=
  match t with et_File => "File" | et_Directory => "Directory" | et_other t => t end.

(** The body of the ["entry"] callback: the state it leaves and what it throws.
    @src sdk/src/package.ts 245-293 extractArchive.entry *)
Definition on_entry (e : entry) (s : xstate) : xstate * result unit :=
  let safe := entry_safe e in
  match assertSafeArchivePath safe destRoot with
  | Throw err => (s, Throw err)
  | Ok _ =>
      match e_type e with
      | et_Directory => (make_dir (NodePath.join destRoot safe) s, Ok tt)
      | et_other t =>
          (s, throw EArchive ("unsupported entry type '" +:+ t +:+ "' in archive: " +:+ safe))
      | et_File =>
          let s := count_file s in
          if maxFiles limits <? fileCount s
          then (s, throw EArchive "too many files in archive")
          else
            let entrySize := nullish (e_size e) 0 in
            if maxSingleFileBytes limits <? entrySize
            then (s, throw EArchive ("file too large in archive: " +:+ safe))
            else
              let s := count_bytes entrySize s in
              if maxTotalBytes limits <? totalBytes s
              then (s, throw EArchive "archive exceeds total size limit")
              else (open_file safe entrySize (sanitizeMode (e_mode e)) s, Ok tt)
      end
  end.

Definition is_manifest_path (safe : string) : bool :=
  let base := default "" (last (js_split "/" safe)) in
  String.eqb base "agent.yaml" || String.eqb base "manifest.yaml".

(** The ["finish"] callback of a write stream.
    @src sdk/src/package.ts 283-288 extractArchive.out_finish *)
Definition on_write_finish (safe : string) (s : xstate) : xstate :=
  let s := mkX (totalBytes s) (fileCount s) (pendingWrites s - 1) (settled s)
             (if is_manifest_path safe then manifestCandidates s ++ [safe]
              else manifestCandidates s)
             (made_dirs s) (opened s) in
  finish s.

(** One event.  A chunk over the per-file limit destroys the stream with an
    error, which reaches [fail].
    @src sdk/src/package.ts extractArchive *)
Definition xstep (s : xstate) (ev : event) : xstate :=
  match ev with
  | ev_entry e =>
      match on_entry e s with
      | (s', Ok _) => s'
      | (s', Throw err) => fail err s'
      end
  | ev_data safe written =>
      if maxSingleFileBytes limits <? written
      then fail (JsError EArchive ("file too large in archive: " +:+ safe)) s
      else s
  | ev_write_finish safe => on_write_finish safe s
  | ev_write_error e | ev_entry_error e | ev_parser_error e | ev_read_error e => fail e s
  | ev_parser_end => finish s
  end.

Definition xrun (evs : list event) : xstate := fold_left xstep evs x_init.
End extractor.

(** ** Signatures *)

(** What the code takes from [node:crypto]: hashing, key import and export, and
    Ed25519.  Keys are imported from PEM text and the import throws on anything
    else. *)
Class CryptoProvider := {
  Key : Type;
  sha256Hex : string -> string;
  createPublicKey : string -> result Key;
  createPrivateKey : string -> result Key;
  publicOf : Key -> Key;
  exportSpkiPem : Key -> string;
  exportSpkiDer : Key -> string;
  nodeSign : string -> Key -> string;
  nodeVerify : string -> Key -> string -> result bool;
}.

Section signing.
Context `{CryptoProvider}.

(** @src sdk/src/crypto.ts signPayload *)
Definition signPayload (payload privateKeyPem : string) : result string :=
  key ← createPrivateKey privateKeyPem; mret (nodeSign payload key).

(** @src sdk/src/crypto.ts verifyPayload *)
Definition verifyPayload (payload sig publicKeyPem : string) : bool :=
  match (key ← createPublicKey publicKeyPem; nodeVerify payload key sig) with
  | Ok b => b
  | Throw _ => false
  end.

(** @src sdk/src/crypto.ts publicKeyFingerprint *)
Definition publicKeyFingerprint (publicKeyPem : string) : result string :=
  key ← createPublicKey publicKeyPem; mret (js_take 16 (sha256Hex (exportSpkiDer key))).

(** @src sdk/src/package.ts exportedPublicKey *)
Definition exportedPublicKey (privateKeyPem : string) : result string :=
  key ← createPrivateKey privateKeyPem; mret (exportSpkiPem (publicOf key)).

(** The signature file [packAgent] writes for an archive with the given content.
    @src sdk/src/package.ts 103-116 packAgent.sig *)
Definition signArchive (m : Manifest) (archive privateKeyPem : string) : result SignatureFile :=
  let sha256 := sha256Hex archive in
  let payload := signaturePayload (name m) (version m) sha256 in
  sig ← signPayload payload privateKeyPem;
  pub ← (if String.eqb privateKeyPem "" then mret "" else exportedPublicKey privateKeyPem);
  pub' ← exportedPublicKey privateKeyPem;
  fp ← publicKeyFingerprint pub';
  mret (mkSig 1 "ed25519" pub fp sha256 (name m) (version m) sig).

(** @src sdk/src/package.ts PackResult *)
Record PackResult := mkPack {
  pk_manifest : Manifest;
  archivePath : string;
  signaturePath : string;
  pk_sha256 : string;
  pk_signature : SignatureFile;
}.

(** [spawnSync("tar", ...)]: the error it could not start with, or its status. *)
Definition spawn_outcome : Type := jserror + Z.

(** @src sdk/src/package.ts packAgent *)
Definition packAgent (load : string -> result (Manifest * string)) (readTree : string -> tree)
    (tar : list string -> spawn_outcome * string)
    (projectDir : string) (privateKeyPem : string) (outDir : option string) : result PackResult :=
  '(m, _) ← load projectDir;
  let outDir := nullish outDir projectDir in
  let filename := archive_filename m in
  let archivePath := NodePath.join outDir filename in
  let signaturePath := NodePath.join outDir (filename +:+ ".sig.json") in
  let files := listProjectFiles (readTree projectDir) in
  let '(res, archive) := tar (tarArgs archivePath files) in
  match res with
  | inl e => Throw e
  | inr status =>
      if Z.eqb status 0 then
        sig ← signArchive m archive privateKeyPem;
        mret (mkPack m archivePath signaturePath (sha256Hex archive) sig)
      else throw EArchive "failed to create archive"
  end.

(** @src sdk/src/package.ts verifySignatureFile *)
Definition verifySignatureFile (sig : SignatureFile) (archive : string) : bool :=
  let actualSha := sha256Hex archive in
  if negb (String.eqb actualSha (sig_sha256 sig)) then false
  else
    let payload := signaturePayload (sig_name sig) (sig_version sig) (sig_sha256 sig) in
    verifyPayload payload (signature sig) (publicKey sig).

(** @src sdk/src/package.ts verifySignatureFileStrict *)
Definition verifySignatureFileStrict (sig : SignatureFile) (archive : string) : result unit :=
  if negb (Z.eqb (schemaVersion sig) 1) || negb (String.eqb (algorithm sig) "ed25519")
  then throw ESignature "unsupported signature scheme"
  else
    let actualSha := sha256Hex archive in
    if negb (String.eqb actualSha (sig_sha256 sig))
    then throw ESignature "checksum mismatch: archive does not match signature"
    else
      let payload := signaturePayload (sig_name sig) (sig_version sig) (sig_sha256 sig) in
      if negb (verifyPayload payload (signature sig) (publicKey sig))
      then throw ESignature "ed25519 signature verification failed"
      else
        expectedId ← publicKeyFingerprint (publicKey sig);
        if negb (String.eqb (publicKeyId sig) expectedId)
        then throw ESignature "public key fingerprint mismatch"
        else Ok tt.
End signing.

(** @src sdk/src/package.ts UnpackResult *)
Record UnpackResult := mkUnpack { up_manifest : Manifest; up_files : list string }.

(** [unpackAgent], given how the extraction of the archive settled and the state
    of the destination directory afterwards.
    @src sdk/src/package.ts unpackAgent *)
Definition unpackAgent (destRoot : string) (extracted : outcome)
    (loadManifestAt : string -> result Manifest) (readTree : string -> tree)
    : result UnpackResult :=
  match extracted with
  | Rejected e => Throw e
  | Resolved [] => throw EArchive "archive is missing agent.yaml/manifest.yaml"
  | Resolved (c :: _) =>
      m ← loadManifestAt (NodePath.join destRoot c);
      mret (mkUnpack m (listProjectFiles (readTree destRoot)))
  end.

(** ** Properties of the file listing *)

Lemma tree_nested_ind (P : tree -> Prop) :
  P TFile -> P TOther -> (forall es, Forall (fun x => P x.2) es -> P (TDir es)) ->
  forall t, P t.
Proof.
  intros Hf Ho Hd. fix IH 1. intros [|es|]; [done| |done].
  apply Hd. induction es as [|[nm t] es IHes]; constructor; [apply IH|apply IHes].
Qed.

Lemma path_ok_cons nm p : p <> [] -> path_ok (nm :: p) = dir_ok nm && path_ok p.
Proof. by destruct p. Qed.

Lemma file_at_nonempty t p : file_at t p -> p <> [].
Proof. by destruct 1. Qed.

Lemma walk_spec t rel p :
  p ∈ walk rel t <-> exists q, p = rel ++ q /\ file_at t q /\ path_ok q = true.
Proof.
  revert rel p. induction t as [| |es IH] using tree_nested_ind; intros rel p.
  1,2: split; [by intros ?%elem_of_nil|]; intros (q & _ & Hq & _); inversion Hq.
  cbn [walk]. rewrite list_elem_of_In, in_flat_map. split.
  - intros ([nm sub] & Hin%list_elem_of_In & Hp%list_elem_of_In).
    destruct (isIgnoredName nm) eqn:Hig; [by apply elem_of_nil in Hp|].
    destruct sub as [|es'|]; [| |by apply elem_of_nil in Hp].
    + destruct (js_startsWith nm "._") eqn:Hdot; [by apply elem_of_nil in Hp|].
      apply list_elem_of_singleton in Hp as ->. exists [nm]. split_and!; [done|by constructor|].
      cbn. unfold file_ok. by rewrite Hig, Hdot.
    + destruct (hidden_dir nm) eqn:Hhid; [by apply elem_of_nil in Hp|].
      rewrite Forall_forall in IH. apply (IH (nm, TDir es') Hin) in Hp as (q & -> & Hq & Hok).
      exists (nm :: q). split_and!; [by rewrite <- app_assoc|by econstructor|].
      rewrite path_ok_cons by by eapply file_at_nonempty.
      unfold dir_ok. by rewrite Hig, Hhid, Hok.
  - intros (q & -> & Hq & Hok). inversion Hq as [es' nm Hin|es' nm sub q' Hin Hq']; subst.
    + cbn in Hok. unfold file_ok in Hok. bool_prop.
      exists (nm, TFile). split; [by apply list_elem_of_In|].
      rewrite H, H0. by left.
    + rewrite path_ok_cons in Hok by by eapply file_at_nonempty.
      unfold dir_ok in Hok. bool_prop.
      exists (nm, TDir sub). split; [by apply list_elem_of_In|]. rewrite H, H1.
      apply list_elem_of_In. rewrite Forall_forall in IH.
      apply (IH (nm, TDir sub) Hin). exists q'. by rewrite <- app_assoc.
Qed.

(** The files that are packed and signed are exactly the regular files that
    can be reached without entering an ignored or hidden directory and whose own
    name is not ignored: in particular no file named by a secret pattern
    ([.env], [*.pem], [id_rsa], [.ssh/...], ...) is ever listed, and no other
    file is left out. *)
Theorem listProjectFiles_spec root f :
  f ∈ listProjectFiles root <->
  exists q, f = js_join "/" q /\ file_at root q /\ path_ok q = true.
Proof.
  unfold listProjectFiles. rewrite list_elem_of_fmap. setoid_rewrite walk_spec.
  split.
  - intros (p & -> & q & -> & Hq & Hok). by exists q.
  - intros (q & -> & Hq & Hok). exists q. split; [done|]. by exists q.
Qed.

(** ** Properties of the path check *)

Lemma dotdot_in_parts e :
  existsb (fun s => String.eqb s "..") (js_split_by is_backslash_or_slash e) = false ->
  ".." ∉ NodePath.segments e.
Proof.
  intros Hex Hin.
  assert (".." ∈ js_split_by is_backslash_or_slash e) as H.
  { eapply split_by_refine_in; [|exact Hin|].
    - unfold NodePath.is_sep, is_backslash_or_slash. by intros c <-%Ascii.eqb_eq.
    - unfold is_backslash_or_slash. intros c [Hc|Hc]%orb_prop; by apply Ascii.eqb_eq in Hc as ->. }
  apply list_elem_of_In in H. assert (Ht : true = false); [|done].
  rewrite <- Hex. symmetry. apply existsb_exists. exists "..". split; [exact H|reflexivity].
Qed.

(** The same, in words. *)
Lemma safe_entry_spec e :
  safe_entry e = true <->
  e <> "" /\ js_has_char NUL e = false /\
  (forall c rest, e = String c rest -> c <> "/"%char /\ c <> BACKSLASH) /\
  (forall c rest, e = String c (String ":" rest) -> is_lower c = false /\ is_upper c = false) /\
  ".." ∉ js_split_by is_backslash_or_slash e.
Proof.
  unfold safe_entry. rewrite !andb_true_iff, !negb_true_iff, !orb_false_iff, String.eqb_neq.
  assert (Hdd : existsb (fun s => String.eqb s "..") (js_split_by is_backslash_or_slash e) = false <->
    ".." ∉ js_split_by is_backslash_or_slash e).
  { rewrite <- not_true_iff_false, existsb_exists, list_elem_of_In. split; intros Hn Hx; apply Hn.
    - exists "..". split; [done|by apply String.eqb_refl].
    - destruct Hx as (x & Hx & ->%String.eqb_eq). done. }
  rewrite Hdd. clear Hdd. destruct e as [|c e]; [tauto|].
  assert (Hst : forall d, js_startsWith (String c e) (str1 d) = false <-> c <> d).
  { intros d. rewrite <- not_true_iff_false, startsWith_spec. split; intros Hn Hx; apply Hn.
    - subst. by exists e.
    - destruct Hx as [t [= -> _]]. done. }
  rewrite (Hst BACKSLASH). change "/" with (str1 "/") at 1. rewrite (Hst "/"%char).
  assert (Hdl : drive_letter (String c e) = false <->
    forall c' rest, String c e = String c' (String ":" rest) -> is_lower c' = false /\ is_upper c' = false).
  { cbn. destruct e as [|d e]; [split; [by intros _ ? ?|done]|]. rewrite andb_false_iff, orb_false_iff, Ascii.eqb_neq. split.
    - intros Hc c' rest [= <- -> _]. destruct Hc; [done|congruence].
    - intros Hx. destruct (Ascii.eqb_spec d ":"); [|by right]. subst. left. by eapply Hx. }
  rewrite Hdl. split.
  - intros (((? & ?) & (? & ?) & ?) & ?). split_and!; try done. by intros ? ? [= <- _].
  - intros (? & ? & Hc & ? & ?). specialize (Hc c e eq_refl). tauto.
Qed.

Section paths.
Context (ds : list string).
Context (Hne : ds <> []) (Hds : Forall (fun s => NodePath.good_seg s = true) ds).

Lemma safe_entry_resolve e :
  safe_entry e = true ->
  NodePath.resolve (NodePath.abs_path ds) e =
    NodePath.abs_path (ds ++ NodePath.kept (NodePath.segments e)).
Proof.
  unfold safe_entry. intros H. bool_prop.
  apply NodePath.resolve_relative; auto using dotdot_in_parts.
Qed.

Lemma safe_path_iff e :
  assertSafeArchivePath e (NodePath.abs_path ds) = Ok tt <-> safe_entry e = true.
Proof.
  unfold assertSafeArchivePath. split.
  - intros H. unfold safe_entry. unfold throw in H.
    destruct (String.eqb e ""); [done|]. destruct (js_has_char NUL e); [done|].
    destruct (js_startsWith e "/" || _ || _); [done|].
    by destruct (existsb _ _).
  - intros H. pose proof (safe_entry_resolve e H) as Hr. unfold safe_entry in H. bool_prop.
    apply String.eqb_neq in H. rewrite H, H2.
    replace (js_startsWith e "/" || js_startsWith e (str1 BACKSLASH) || drive_letter e)
      with false by by rewrite H1, H4, H3.
    rewrite H0, Hr. destruct (NodePath.kept _) as [|k ks] eqn:Ek.
    + by rewrite app_nil_r, String.eqb_refl.
    + rewrite NodePath.abs_path_app by done.
      replace (js_startsWith _ _) with true; [by rewrite andb_false_r|].
      symmetry. rewrite <- sapp_assoc. apply startsWith_app.
Qed.

(** C3: Against a normalised destination directory that is not the root, the path
    check of the extractor accepts an entry exactly when it is not empty, holds no NUL
    byte, starts neither with a separator of either kind nor with a drive letter and its
    colon, and has no [..] among its components, for either separator; any other
    backslash is accepted, and the last guard of the code never fires on its own. *)
Theorem assertSafeArchivePath_iff e :
  assertSafeArchivePath e (NodePath.abs_path ds) = Ok tt <->
  e <> "" /\ js_has_char NUL e = false /\
  (forall c rest, e = String c rest -> c <> "/"%char /\ c <> BACKSLASH) /\
  (forall c rest, e = String c (String ":" rest) -> is_lower c = false /\ is_upper c = false) /\
  ".." ∉ js_split_by is_backslash_or_slash e.
Proof. rewrite safe_path_iff. apply safe_entry_spec. Qed.

(** An accepted entry is written inside the destination: the path the
    extractor creates ([join(destRoot, safe)]) is the destination followed by ordinary
    components, none of them [..]. *)
Theorem safe_entry_contained e :
  assertSafeArchivePath e (NodePath.abs_path ds) = Ok tt ->
  NodePath.inside ds (NodePath.join (NodePath.abs_path ds) e).
Proof.
  intros Hs. apply safe_path_iff in Hs. unfold safe_entry in Hs. bool_prop.
  assert (Hdd : ".." ∉ NodePath.segments e) by auto using dotdot_in_parts.
  exists (NodePath.kept (NodePath.segments e)), (if js_endsWith e "/" then "/" else "").
  split_and!.
  - by apply NodePath.join_relative.
  - by apply NodePath.kept_good.
  - destruct (js_endsWith e "/"); auto.
Qed.
End paths.

Lemma safe_entry_contained_witness :
  NodePath.inside ["home"; "agents"] (NodePath.join (NodePath.abs_path ["home"; "agents"]) "src/main.py").
Proof.
  apply (safe_entry_contained ["home"; "agents"]); [done|by repeat constructor|by vm_compute].
Defined.

Lemma assertSafeArchivePath_iff_witness :
  assertSafeArchivePath "a/../b" (NodePath.abs_path ["home"; "agents"]) <> Ok tt.
Proof.
  intros H. apply (assertSafeArchivePath_iff ["home"; "agents"]) in H; [|done|by repeat constructor].
  destruct H as (_ & _ & _ & _ & H). apply H. cbn. right. left.
Defined.

(** ** Properties of the modes *)

Lemma land_511_bound m : 0 <= Z.land m 511 < 512.
Proof.
  change 511 with (Z.ones 9). rewrite Z.land_ones by lia.
  apply Z.mod_pos_bound. lia.
Qed.

Lemma sanitize_table :
  forallb (fun n => let m := Z.of_nat n in
    let r := if Z.eqb (Z.land m 73) 0 then Z.lor m 384 else m in
    (0 <=? r) && (r <? 512) && Z.eqb (Z.land r m) m
      && Z.eqb (Z.land r 73) (Z.land m 73)) (seq 0 512) = true.
Proof. by vm_compute. Qed.

Lemma sanitizeMode_range mode : 0 <= sanitizeMode mode < 512.
Proof.
  unfold sanitizeMode. pose proof (land_511_bound (nullish mode 420)) as Hb.
  set (m := Z.land (nullish mode 420) 511) in *.
  pose proof sanitize_table as Ht. rewrite forallb_forall in Ht.
  specialize (Ht (Z.to_nat m)). rewrite Z2Nat.id in Ht by lia.
  assert (Hin : List.In (Z.to_nat m) (seq 0 512)) by (apply in_seq; lia).
  specialize (Ht Hin). cbn zeta in Ht. bool_prop. by split.
Qed.

(** An extracted file never gets a setuid, setgid or sticky bit: its mode is
    below [0o1000]; it keeps the permission bits of the archive, gains no execute
    bit, and a file with no execute bit is readable and writable by its owner. *)
Theorem sanitizeMode_bounds mode :
  let m := Z.land (nullish mode 420) 511 in
  0 <= sanitizeMode mode < 512 /\
  Z.land (sanitizeMode mode) m = m /\
  Z.land (sanitizeMode mode) 73 = Z.land m 73 /\
  (Z.land m 73 = 0 -> sanitizeMode mode = Z.lor m 384).
Proof.
  cbn zeta. unfold sanitizeMode. pose proof (land_511_bound (nullish mode 420)) as Hb.
  set (m := Z.land (nullish mode 420) 511) in *.
  pose proof sanitize_table as Ht. rewrite forallb_forall in Ht.
  specialize (Ht (Z.to_nat m)). rewrite Z2Nat.id in Ht by lia.
  assert (Hin : List.In (Z.to_nat m) (seq 0 512)) by (apply in_seq; lia).
  specialize (Ht Hin). cbn zeta in Ht. bool_prop.
  split_and!; try done; try lia. intros ->. done.
Qed.

(** ** Properties of the extractor *)

Definition size_of (f : string * Z * Z) : Z := f.1.2.
Definition total_opened (s : xstate) : Z := fold_right Z.add 0 (map size_of (opened s)).

(** The sizes of tar headers are unsigned. *)
Definition size_nonneg (ev : event) : Prop :=
  match ev with ev_entry e => 0 <= nullish (e_size e) 0 | _ => True end.

(** A file that has been opened lies in the destination, is not declared larger
    than one file may be, and has a mode without special bits. *)
Definition opened_ok (ds : list string) (limits : UnpackLimits) (f : string * Z * Z) : Prop :=
  NodePath.inside ds (NodePath.join (NodePath.abs_path ds) f.1.1)
  /\ size_of f <= maxSingleFileBytes limits /\ 0 <= f.2 < 512.

(** A directory that has been made lies in the destination, or is the one that holds
    it (for a file entry named [.]). *)
Definition made_ok (ds : list string) (d : string) : Prop :=
  NodePath.inside ds d \/ d = NodePath.dirname (NodePath.abs_path ds).

Record xinv (ds : list string) (limits : UnpackLimits) (s : xstate) : Prop := mkXinv {
  xi_files : Forall (opened_ok ds limits) (opened s);
  xi_dirs : Forall (made_ok ds) (made_dirs s);
  xi_count : Z.of_nat (length (opened s)) <= fileCount s;
  xi_count_max : Z.of_nat (length (opened s)) <= maxFiles limits;
}.

(** The bytes that were declared, when no size is negative. *)
Record xbytes (limits : UnpackLimits) (s : xstate) : Prop := mkXbytes {
  xb_bytes : total_opened s <= totalBytes s;
  xb_bytes_max : total_opened s <= maxTotalBytes limits;
}.

Lemma total_snoc l p n m :
  fold_right Z.add 0 (map size_of (l ++ [(p, n, m)])) = fold_right Z.add 0 (map size_of l) + n.
Proof.
  induction l as [|x l IH]; [unfold size_of; cbn; lia|].
  cbn [app map fold_right]. rewrite IH. lia.
Qed.

Section extractor_facts.
Context (ds : list string) (limits : UnpackLimits).
Context (Hne : ds <> []) (Hds : Forall (fun s => NodePath.good_seg s = true) ds).
Context (Hfiles : 0 <= maxFiles limits) (Htotal : 0 <= maxTotalBytes limits).
Local Abbreviation destRoot := (NodePath.abs_path ds).

(** An operation that changes none of the files, directories and counters. *)
Definition same_effects (s s' : xstate) : Prop :=
  opened s' = opened s /\ made_dirs s' = made_dirs s /\ fileCount s' = fileCount s /\ totalBytes s' = totalBytes s.

Lemma same_fail e s : same_effects s (fail e s).
Proof. unfold fail, same_effects. by destruct (settled s). Qed.

Lemma same_finish s : same_effects s (finish s).
Proof. unfold finish, same_effects. destruct (settled s); [done|]. by destruct (_ =? 0). Qed.

Lemma same_write_finish safe s : same_effects s (on_write_finish safe s).
Proof. unfold on_write_finish. destruct (same_finish (mkX (totalBytes s) (fileCount s) (pendingWrites s - 1) (settled s)
  (if is_manifest_path safe then manifestCandidates s ++ [safe] else manifestCandidates s) (made_dirs s) (opened s))) as (?&?&?&?). by split_and!. Qed.

Lemma same_inv s s' : same_effects s s' -> xinv ds limits s -> xinv ds limits s'.
Proof. intros (E1 & E2 & E3 & _) []. split; by rewrite ?E1, ?E2, ?E3. Qed.

Lemma same_bytes s s' : same_effects s s' -> xbytes limits s -> xbytes limits s'.
Proof. intros (E1 & _ & _ & E4) []. split; unfold total_opened in *; by rewrite ?E1, ?E4. Qed.

(** Every event is an entry or changes none of them. *)
Lemma xstep_cases s ev :
  (exists e, ev = ev_entry e /\ same_effects (on_entry destRoot limits e s).1 (xstep destRoot limits s ev)) \/
  same_effects s (xstep destRoot limits s ev).
Proof.
  destruct ev; cbn [xstep]; auto using same_fail, same_finish, same_write_finish.
  - left. exists e. split; [done|]. destruct (on_entry destRoot limits e s) as [s' []]; [by split_and!|apply same_fail].
  - right. destruct (_ <? _); [apply same_fail|by split_and!].
Qed.

Lemma xinv_entry e s : xinv ds limits s -> xinv ds limits (on_entry destRoot limits e s).1.
Proof.
  intros [Hf Hd Hc Hcm]. unfold on_entry.
  destruct (assertSafeArchivePath _ _) as [[]|] eqn:Hsafe; [|done].
  apply safe_entry_contained in Hsafe; [|done..].
  destruct (e_type e); [|by split; cbn; [|apply Forall_app; split; [|apply Forall_singleton; left]|..]|by split].
  destruct (maxFiles limits <? _) eqn:E1; [split; cbn; try done; lia|].
  destruct (maxSingleFileBytes limits <? _) eqn:E2; [split; cbn; try done; lia|].
  destruct (maxTotalBytes limits <? _) eqn:E3; [split; cbn; try done; lia|].
  cbn in E1, E2. bool_prop. split; cbn; rewrite ?length_app; cbn; try lia.
  - apply Forall_app. split; [done|]. apply Forall_singleton. unfold opened_ok, size_of; cbn.
    split_and!; try done; apply sanitizeMode_range.
  - apply Forall_app. split; [done|]. apply Forall_singleton. by apply NodePath.dirname_inside.
Qed.

Lemma xbytes_entry e s :
  0 <= nullish (e_size e) 0 -> xbytes limits s -> xbytes limits (on_entry destRoot limits e s).1.
Proof.
  intros Hsz [Hb Hbm]. unfold total_opened in *. unfold on_entry.
  destruct (assertSafeArchivePath _ _) as [[]|]; [|done].
  destruct (e_type e); [|by split..].
  destruct (maxFiles limits <? _); [by split|].
  destruct (maxSingleFileBytes limits <? _); [by split|].
  destruct (maxTotalBytes limits <? _) eqn:E3;
    [split; cbn; unfold total_opened; cbn; try done; lia|].
  cbn in E3. bool_prop.
  split; cbn; unfold total_opened; cbn; rewrite total_snoc; lia.
Qed.

Lemma xinv_step s ev : xinv ds limits s -> xinv ds limits (xstep destRoot limits s ev).
Proof.
  intros Hs. destruct (xstep_cases s ev) as [(e & -> & He)|He]; eapply same_inv; try exact He; [by apply xinv_entry|done].
Qed.

Lemma xbytes_step s ev : size_nonneg ev -> xbytes limits s -> xbytes limits (xstep destRoot limits s ev).
Proof.
  intros Hsz Hs. destruct (xstep_cases s ev) as [(e & -> & He)|He]; eapply same_bytes; try exact He; [by apply xbytes_entry|done].
Qed.

(** C2: Whatever the archive contains and in whatever order the parser and the write
    streams report, for a normalised destination that is not the root: every file the
    extractor opens lies in the destination (its path is that of the destination
    continued by ordinary names, none of them [..]), is not declared larger than
    the limit for one file, and has a mode without setuid, setgid or sticky bit; every
    directory it makes lies in the destination, or is the one that holds the
    destination; it opens at most [maxFiles] files; and if no entry declares a negative
    size, the declared sizes of the opened files add up to at most [maxTotalBytes].
    The limits themselves are taken to be not negative. *)
Theorem extractArchive_invariant evs :
  let s := xrun destRoot limits evs in
  Forall (fun '(safe, size, mode) => NodePath.inside ds (NodePath.join destRoot safe)
    /\ size <= maxSingleFileBytes limits /\ 0 <= mode < 512) (opened s) /\
  Forall (fun d => NodePath.inside ds d \/ d = NodePath.dirname destRoot) (made_dirs s) /\
  Z.of_nat (length (opened s)) <= maxFiles limits /\
  (Forall size_nonneg evs -> fold_right Z.add 0 (map (fun '(_, size, _) => size) (opened s)) <= maxTotalBytes limits).
Proof.
  cbv zeta. assert (Hinv : xinv ds limits (xrun destRoot limits evs)).
  { unfold xrun. assert (H0 : xinv ds limits x_init) by (split; cbn; done). revert H0. generalize x_init.
    induction evs as [|ev evs IH]; intros s Hs; [done|]. cbn. by apply IH, xinv_step. }
  destruct Hinv as [Hf Hd _ Hc]. split_and!; [|exact Hd|exact Hc|].
  - eapply Forall_impl; [exact Hf|]. by intros [[safe size] mode].
  - intros Hsz. assert (Hb : xbytes limits (xrun destRoot limits evs)).
    { unfold xrun. assert (H0 : xbytes limits x_init) by (split; cbn; done). revert H0. generalize x_init. clear Hf Hd Hc.
      induction Hsz as [|ev evs Hev _ IH]; intros s Hs; [done|]. cbn. by apply IH, xbytes_step. }
    destruct Hb as [_ Hb]. unfold total_opened in Hb.
    erewrite map_ext; [exact Hb|]. by intros [[safe size] mode].
Qed.
End extractor_facts.

Definition demo_limits : UnpackLimits := mkLimits 100 60 2.
Definition demo_file (p : string) (n : Z) : event :=
  ev_entry (mkEntry p et_File (Some n) (Some 511)).

Lemma extractArchive_invariant_witness :
  let s := xrun "/dest" demo_limits [demo_file "agent.yaml" 50; demo_file "big.bin" 60; demo_file "c.txt" 10; ev_parser_end] in
  Forall (fun d => NodePath.inside ["dest"] d \/ d = "/") (made_dirs s) /\
  fold_right Z.add 0 (map (fun '(_, size, _) => size) (opened s)) <= 100.
Proof.
  destruct (extractArchive_invariant ["dest"] demo_limits ltac:(done) ltac:(by repeat constructor) ltac:(by vm_compute) ltac:(by vm_compute)
    [demo_file "agent.yaml" 50; demo_file "big.bin" 60; demo_file "c.txt" 10; ev_parser_end]) as (_ & Hd & _ & Hb).
  split; [exact Hd|]. apply Hb. repeat constructor; by vm_compute.
Defined.

Section settlement.
Context (destRoot : string) (limits : UnpackLimits).
Implicit Types s : xstate.

Lemma settled_fail e s o : settled s = Some o -> fail e s = s.
Proof. unfold fail. by intros ->. Qed.

Lemma settled_finish s o : settled s = Some o -> finish s = s.
Proof. unfold finish. by intros ->. Qed.

Lemma settled_entry e s : settled (on_entry destRoot limits e s).1 = settled s.
Proof. unfold on_entry. js_cases. Qed.

Lemma settled_step s ev o :
  settled s = Some o -> settled (xstep destRoot limits s ev) = Some o.
Proof.
  intros Hs. destruct ev; cbn [xstep]; rewrite ?(settled_fail _ s o Hs), ?(settled_finish s o Hs); try done.
  - pose proof (settled_entry e s) as He.
    destruct (on_entry destRoot limits e s) as [s' []]; cbn in He; [congruence|].
    rewrite (settled_fail _ s' o); congruence.
  - by destruct (_ <? _).
  - unfold on_write_finish. by erewrite settled_finish.
Qed.

Lemma settled_steps evs s o :
  settled s = Some o -> settled (fold_left (xstep destRoot limits) evs s) = Some o.
Proof. revert s. induction evs as [|ev evs IH]; intros s Hs; [done|]. cbn. apply IH. by apply settled_step. Qed.

(** The first refusal decides: if the promise has not settled and the parser
    reports an entry that the callback refuses (unsafe path, unsupported type, a
    limit exceeded), the extraction is rejected with that error, whatever is
    reported afterwards. *)
Theorem extractArchive_first_refusal evs e err rest :
  settled (xrun destRoot limits evs) = None ->
  (on_entry destRoot limits e (xrun destRoot limits evs)).2 = Throw err ->
  settled (xrun destRoot limits (evs ++ ev_entry e :: rest)) = Some (Rejected err).
Proof.
  intros Hs Herr. unfold xrun in *. rewrite fold_left_app. cbn.
  apply settled_steps.
  pose proof (settled_entry e (fold_left (xstep destRoot limits) evs x_init)) as He.
  destruct (on_entry _ _ _ _) as [s' r]; cbn in *. subst r.
  unfold fail. by rewrite He, Hs.
Qed.
End settlement.

Definition symlink_entry : entry :=
  mkEntry "evil" (et_other "SymbolicLink") (Some 0) None.

Lemma on_entry_symlink destRoot limits s :
  assertSafeArchivePath "evil" destRoot = Ok tt ->
  on_entry destRoot limits symlink_entry s =
    (s, throw EArchive "unsupported entry type 'SymbolicLink' in archive: evil").
Proof. intros H. unfold on_entry. change (entry_safe symlink_entry) with "evil". by rewrite H. Qed.

Lemma on_entry_accept destRoot limits p mode s :
  assertSafeArchivePath (strip_dot_slash p) destRoot = Ok tt ->
  fileCount s + 1 <= maxFiles limits -> 0 <= maxSingleFileBytes limits ->
  totalBytes s <= maxTotalBytes limits ->
  on_entry destRoot limits (mkEntry p et_File (Some 0) mode) s =
    (open_file destRoot (strip_dot_slash p) 0 (sanitizeMode mode) (count_bytes 0 (count_file s)), Ok tt).
Proof.
  intros Hsafe Hf Hs Ht. unfold on_entry.
  change (entry_safe (mkEntry p et_File (Some 0) mode)) with (strip_dot_slash p).
  rewrite Hsafe. cbn.
  repeat match goal with |- context [?a <? ?b] =>
    replace (a <? b) with false by (symmetry; apply Z.ltb_ge; lia) end.
  done.
Qed.

Lemma extractArchive_first_refusal_witness :
  settled (xrun "/dest" demo_limits
    ([demo_file "agent.yaml" 50] ++ ev_entry symlink_entry :: [ev_write_finish "agent.yaml"; ev_parser_end]))
  = Some (Rejected (JsError EArchive "unsupported entry type 'SymbolicLink' in archive: evil")).
Proof. apply extractArchive_first_refusal; by vm_compute. Defined.

(** The promise can settle too early: [finish] also runs when a write stream
    finishes, so if the streams of the first entries finish before the parser
    reports the next entry, the extraction resolves while entries are still to
    come, and an entry that is refused afterwards no longer rejects it. *)
Theorem extractArchive_resolves_before_end destRoot limits :
  assertSafeArchivePath "agent.yaml" destRoot = Ok tt ->
  1 <= maxFiles limits -> 0 <= maxSingleFileBytes limits -> 0 <= maxTotalBytes limits ->
  let evs := [demo_file "agent.yaml" 0; ev_write_finish "agent.yaml"] in
  settled (xrun destRoot limits evs) = Some (Resolved ["agent.yaml"]) /\
  settled (xrun destRoot limits (evs ++ [ev_entry symlink_entry; ev_parser_end]))
    = Some (Resolved ["agent.yaml"]).
Proof.
  intros Hsafe Hf Hs Ht. cbn zeta.
  assert (H : settled (xrun destRoot limits [demo_file "agent.yaml" 0; ev_write_finish "agent.yaml"])
              = Some (Resolved ["agent.yaml"])).
  { unfold xrun. cbn [fold_left xstep demo_file].
    by rewrite on_entry_accept by (first [exact Hsafe | cbn; lia]). }
  split; [exact H|]. unfold xrun in *. rewrite fold_left_app. by apply settled_steps.
Qed.

Lemma extractArchive_resolves_before_end_witness :
  settled (xrun "/dest" DEFAULT_UNPACK_LIMITS
     ([demo_file "agent.yaml" 0; ev_write_finish "agent.yaml"]
      ++ [ev_entry symlink_entry; ev_parser_end])) = Some (Resolved ["agent.yaml"]).
Proof. apply extractArchive_resolves_before_end; by vm_compute. Defined.

(** A failure does not stop the extraction: after the promise is rejected
    the callback still opens the files of later entries. *)
Theorem extractArchive_writes_after_rejection destRoot limits :
  assertSafeArchivePath "evil" destRoot = Ok tt ->
  assertSafeArchivePath "late.txt" destRoot = Ok tt ->
  1 <= maxFiles limits -> 0 <= maxSingleFileBytes limits -> 0 <= maxTotalBytes limits ->
  let s := xrun destRoot limits [ev_entry symlink_entry] in
  let s' := xrun destRoot limits [ev_entry symlink_entry; demo_file "late.txt" 0] in
  (exists err, settled s = Some (Rejected err)) /\
  opened s = [] /\ map (fun f => f.1.1) (opened s') = ["late.txt"].
Proof.
  intros Hevil Hlate Hf Hs Ht. cbn zeta. unfold xrun. cbn [fold_left xstep demo_file].
  rewrite on_entry_symlink by done. split; [by eexists|]. split; [done|].
  by rewrite on_entry_accept by (first [exact Hlate | cbn; lia]).
Qed.

Lemma extractArchive_writes_after_rejection_witness :
  map (fun f => f.1.1)
    (opened (xrun "/dest" DEFAULT_UNPACK_LIMITS [ev_entry symlink_entry; demo_file "late.txt" 0]))
  = ["late.txt"].
Proof.
  apply (extractArchive_writes_after_rejection "/dest" DEFAULT_UNPACK_LIMITS); by vm_compute.
Defined.

(** ** Properties of signatures *)

Definition no_char (c : ascii) (s : string) : Prop := js_has_char c s = false.

(** The signed payload determines the name, the version and the digest, for
    names without [@] and versions without [:] (which the manifest schema
    enforces): a signature for one package version is never a signature for
    another. *)
Theorem signaturePayload_inj n1 v1 d1 n2 v2 d2 :
  no_char "@" n1 -> no_char "@" n2 -> no_char ":" v1 -> no_char ":" v2 ->
  signaturePayload n1 v1 d1 = signaturePayload n2 v2 d2 -> n1 = n2 /\ v1 = v2 /\ d1 = d2.
Proof.
  unfold no_char, signaturePayload. intros Hn1 Hn2 Hv1 Hv2 Heq%sapp_inj_l.
  apply (split_unique "@") in Heq as [-> Heq]; [|done..].
  by apply (split_unique ":") in Heq as [-> ->].
Qed.

Lemma signaturePayload_inj_witness :
  exists n v d, signaturePayload n v d = "openagenthub-signature-v1:a/b@1.0.0:00" /\
    n = "a/b" /\ v = "1.0.0" /\ d = "00".
Proof.
  exists "a/b", "1.0.0", "00". split; [reflexivity|].
  by apply (signaturePayload_inj "a/b" "1.0.0" "00" "a/b" "1.0.0" "00").
Defined.

Section signing_facts.
Context `{CryptoProvider}.

(** What Ed25519 and PEM promise: a signature made with a private key verifies
    under its public key, and an exported public key imports back. *)
Class CryptoLaws : Prop := {
  sign_verify : forall payload key, nodeVerify payload (publicOf key) (nodeSign payload key) = Ok true;
  pem_roundtrip : forall key, createPublicKey (exportSpkiPem key) = Ok key;
  empty_pem : forall key, createPrivateKey "" <> Ok key;
}.

(** The four checks, as one condition. *)
Definition sig_checks (sig : SignatureFile) (archive : string) : Prop :=
  schemaVersion sig = 1 /\ algorithm sig = "ed25519" /\
  sha256Hex archive = sig_sha256 sig /\
  exists key, createPublicKey (publicKey sig) = Ok key /\
    nodeVerify (signaturePayload (sig_name sig) (sig_version sig) (sha256Hex archive)) key
      (signature sig) = Ok true /\
    publicKeyId sig = js_take 16 (sha256Hex (exportSpkiDer key)).

Lemma strict_iff sig archive :
  verifySignatureFileStrict sig archive = Ok tt <-> sig_checks sig archive.
Proof.
  unfold verifySignatureFileStrict, sig_checks, throw, verifyPayload, publicKeyFingerprint,
    mret, result_mret, mbind, result_mbind, result_bind.
  destruct (Z.eqb_spec (schemaVersion sig) 1) as [Hv|Hv];
    destruct (String.eqb_spec (algorithm sig) "ed25519") as [Ha|Ha]; cbn [negb orb];
    try (split; [done|intros (?&?&?); congruence]).
  destruct (String.eqb_spec (sha256Hex archive) (sig_sha256 sig)) as [Hd|Hd]; cbn [negb orb];
    [|split; [done|intros (?&?&?&?); congruence]].
  rewrite <- Hd.
  destruct (createPublicKey (publicKey sig)) as [key|e] eqn:Hk; cbn [negb orb];
    [|split; [done|intros (?&?&?&?&?&?); congruence]].
  destruct (nodeVerify _ key _) as [[]|] eqn:Hver; cbn [negb orb];
    try (split; [done|intros (?&?&?&key'&[= <-]&?&?); congruence]).
  destruct (String.eqb_spec (publicKeyId sig) (js_take 16 (sha256Hex (exportSpkiDer key)))) as [Hf|Hf]; cbn [negb].
  - split; [|done]. intros _. split_and!; try done. exists key. by split_and!.
  - split; [done|]. intros (?&?&?&key'&[= <-]&?&?). congruence.
Qed.

(** The strict verification succeeds exactly when the scheme is supported, the
    digest in the file is the digest of the archive, the Ed25519 signature over
    name, version and {e that} digest verifies under the key of the file, and the
    recorded fingerprint is that key's. *)
Theorem verifySignatureFileStrict_iff sig archive :
  verifySignatureFileStrict sig archive = Ok tt <-> sig_checks sig archive.
Proof. apply strict_iff. Qed.

Lemma packed_verifies `{!CryptoLaws} load readTree tar dir key out res :
  packAgent load readTree tar dir key out = Ok res ->
  (exists args status archive, tar args = (inr status, archive) /\
     pk_sha256 res = sha256Hex archive /\
     verifySignatureFileStrict (pk_signature res) archive = Ok tt) /\
  sig_name (pk_signature res) = name (pk_manifest res) /\
  sig_version (pk_signature res) = version (pk_manifest res).
Proof.
  unfold packAgent, signArchive, signPayload, exportedPublicKey, publicKeyFingerprint,
    mret, result_mret, mbind, result_mbind, result_bind.
  destruct (load dir) as [[m ?]|]; [|done]. cbn zeta.
  destruct (tar _) as [[e|status] archive] eqn:Ht; [done|].
  destruct (status =? 0); [|done].
  destruct (createPrivateKey key) as [k|] eqn:Hk; [|done].
  destruct (String.eqb_spec key "") as [->|_]; [by apply empty_pem in Hk|].
  rewrite pem_roundtrip. intros [= <-]. cbn. split; [|done].
  eexists _, status, archive. split_and!; [exact Ht|done|].
  apply strict_iff. unfold sig_checks. cbn. split_and!; try done.
  exists (publicOf k). by rewrite pem_roundtrip, sign_verify.
Qed.

(** C4: What is packed verifies: the signature file that [packAgent] makes for an
    archive passes the strict verification of that archive, and it names the
    manifest's name and version. *)
Theorem packAgent_verifies `{!CryptoLaws} load readTree tar dir key out res :
  packAgent load readTree tar dir key out = Ok res ->
  (exists args status archive, tar args = (inr status, archive) /\
     pk_sha256 res = sha256Hex archive /\
     verifySignatureFileStrict (pk_signature res) archive = Ok tt) /\
  sig_name (pk_signature res) = name (pk_manifest res) /\
  sig_version (pk_signature res) = version (pk_manifest res).
Proof. apply packed_verifies. Qed.
End signing_facts.

(** A toy provider for the witness: keys are strings, a signature is the payload
    tagged with the key. *)
Definition toy_crypto : CryptoProvider := {|
  Key := string;
  sha256Hex s := "sha:" +:+ s;
  createPublicKey s := if js_startsWith s "pub" then Ok (js_drop 3 s) else throw EError "bad key";
  createPrivateKey s := if js_startsWith s "prv" then Ok (js_drop 3 s) else throw EError "bad key";
  publicOf k := k;
  exportSpkiPem k := "pub" +:+ k;
  exportSpkiDer k := k;
  nodeSign p k := k +:+ p;
  nodeVerify p k s := Ok (String.eqb s (k +:+ p));
|}.

Lemma toy_laws : @CryptoLaws toy_crypto.
Proof.
  split; cbn.
  - intros p k. by rewrite String.eqb_refl.
  - intros k. by destruct k.
  - done.
Defined.

Definition demo_manifest : Manifest :=
  mkManifest "acme/echo" "1.0.0" "me" "d" "MIT" None None None
    (mkRuntimeSpec python None None None) None [openai]
    (mkInterfaces (Some (mkCli "python main.py" None None)) None None)
    None None None None None.

Lemma packAgent_verifies_witness :
  exists res : PackResult,
    @packAgent toy_crypto (fun d => Ok (demo_manifest, d)) (fun _ => TDir [("agent.yaml", TFile)])
      (fun _ => (inr 0, "bytes")) "/p" "prvK" None = Ok res /\
    sig_name (pk_signature res) = "acme/echo".
Proof.
  eexists. split; [by vm_compute|].
  refine (proj1 (proj2 (@packAgent_verifies toy_crypto toy_laws
    (fun d => Ok (demo_manifest, d)) (fun _ => TDir [("agent.yaml", TFile)])
    (fun _ => (inr 0, "bytes")) "/p" "prvK" None _ _))).
  by vm_compute.
Defined.
End Package.
