(* ===== verification/Versions.v ===== *)
(** Version comparison: [sdk/src/runtime.ts] ([compareVersions],
    [versionSatisfies]) and [cli/src/lib/version.ts] (the ordering used to pick an
    installed version).  A component that [parseInt] cannot read is [NaN], here
    [None]; every comparison with [NaN] is false, as in JavaScript. *)
From S2P Require Import Prelude.

Module Versions.
Local Open Scope Z_scope.

(** ** The SDK's comparison *)

(** @src sdk/src/runtime.ts compareNumeric *)
Definition compareNumeric (a b : option Z) : Z :=
  match a, b with
  | Some x, Some y => if x =? y then 0 else if y <? x then 1 else -1
  | _, _ => -1
  end.

(** [.replace(/^[vV]/, "")]. *)
Definition strip_v (s : string) : string :=
  match s with
  | String c s' => if Ascii.eqb c "v" || Ascii.eqb c "V" then s' else s
  | EmptyString => s
  end.

Definition is_dash_or_plus (c : ascii) : bool := Ascii.eqb c "-" || Ascii.eqb c "+".

(** The dotted components of the release part of a version. *)
Definition components (v : string) : list string :=
  js_split "." (default "" (head (js_split_by is_dash_or_plus (strip_v v)))).

Fixpoint cmp_loop (n : nat) (pa pb : list string) : Z :=
  match n with
  | O => 0
  | S n' =>
      let x := parseInt10 (default "0" (head pa)) in
      let y := parseInt10 (default "0" (head pb)) in
      let c := compareNumeric x y in
      if negb (c =? 0) then c else cmp_loop n' (tail pa) (tail pb)
  end.

(** @src sdk/src/runtime.ts compareVersions *)
Definition compareVersions (a b : string) : Z :=
  let pa := components a in
  let pb := components b in
  cmp_loop (Nat.max (length pa) (length pb)) pa pb.

Inductive cmp_op := op_ge | op_le | op_gt | op_lt | op_eq | op_ne | op_compat.

(** The optional operator of a specifier. *)
Definition parse_op (s : string) : cmp_op * string :=
  if js_startsWith s ">=" then (op_ge, js_drop 2 s)
  else if js_startsWith s "<=" then (op_le, js_drop 2 s)
  else if js_startsWith s ">" then (op_gt, js_drop 1 s)
  else if js_startsWith s "<" then (op_lt, js_drop 1 s)
  else if js_startsWith s "==" then (op_eq, js_drop 2 s)
  else if js_startsWith s "!=" then (op_ne, js_drop 2 s)
  else if js_startsWith s "~=" then (op_compat, js_drop 2 s)
  else (op_eq, s).

Definition digit_or_dot (c : ascii) : bool := is_digit c || Ascii.eqb c ".".

(** The regular expression of a specifier: an optional operator, blanks, and a
    wanted version that starts with a digit and goes on with digits and dots. *)
Definition parse_spec (s : string) : option (cmp_op * string) :=
  let '(op, r) := parse_op s in
  let '(want, _) := js_span digit_or_dot (js_trim_start r) in
  match want with
  | String c _ => if is_digit c then Some (op, want) else None
  | EmptyString => None
  end.

Definition first_component (v : string) : string := default "" (head (js_split "." v)).

Definition op_holds (op : cmp_op) (clean want : string) : bool :=
  let c := compareVersions clean want in
  match op with
  | op_ge => 0 <=? c
  | op_le => c <=? 0
  | op_gt => 0 <? c
  | op_lt => c <? 0
  | op_compat => (0 <=? c) && String.eqb (first_component clean) (first_component want)
  | op_ne => negb (c =? 0)
  | op_eq => c =? 0
  end.

Definition spec_holds (clean : string) (spec : string) : bool :=
  match parse_spec spec with
  | None => true
  | Some (op, want) => op_holds op clean want
  end.

(** A leading [python] and the blanks after it are removed. *)
Definition strip_python (s : string) : string :=
  if js_startsWith s "python" then js_trim_start (js_drop 6 s) else s.

Definition clean_version (v : string) : string := strip_python (strip_v v).

Definition split_specs (specifier : string) : list string :=
  List.filter (fun s => negb (String.eqb s "")) (map js_trim (js_split "," specifier)).

(** @src sdk/src/runtime.ts versionSatisfies *)
Definition versionSatisfies (version specifier : option string) : bool :=
  match version, specifier with
  | Some v, Some sp =>
      if String.eqb v "" || String.eqb sp "" then true
      else forallb (spec_holds (clean_version v)) (split_specs sp)
  | _, _ => true
  end.

(** ** The CLI's ordering *)

(** A component is a number when it is all digits, a string otherwise. *)
Inductive comp := CNum (n : Z) | CStr (s : string).

Definition all_digits (s : string) : bool := negb (String.eqb s "") && js_all is_digit s.

Definition to_comp (p : string) : comp :=
  if all_digits p then CNum (digits_value 0 p) else CStr p.

(** @src cli/src/lib/version.ts splitCore *)
Definition splitCore (v : string) : list comp * option string :=
  let '(core, rest) := js_span (fun c => negb (Ascii.eqb c "-")) v in
  let pre := match rest with String _ p => Some p | EmptyString => None end in
  (map to_comp (js_split "." core), pre).

Definition comp_string (c : comp) : string :=
  match c with CNum n => pretty n | CStr s => s end.

(** [x === y]. *)
Definition comp_same (x y : comp) : bool :=
  match x, y with
  | CNum a, CNum b => a =? b
  | CStr a, CStr b => String.eqb a b
  | _, _ => false
  end.

Section cli_order.
(** [String.prototype.localeCompare]: the collation of the host. *)
Context (localeCompare : string -> string -> Z).

(** The loop over the core components; [None] when it runs to the end. *)
Fixpoint core_loop (n : nat) (a b : list comp) : option Z :=
  match n with
  | O => None
  | S n' =>
      let x := default (CNum 0) (head a) in
      let y := default (CNum 0) (head b) in
      if comp_same x y then core_loop n' (tail a) (tail b)
      else match x, y with
           | CNum p, CNum q => Some (p - q)
           | _, _ => Some (localeCompare (comp_string x) (comp_string y))
           end
  end.

(** @src cli/src/lib/version.ts compareVersions *)
Definition cliCompareVersions (a b : string) : Z :=
  let '(coreA, preA) := splitCore a in
  let '(coreB, preB) := splitCore b in
  match core_loop (Nat.max (length coreA) (length coreB)) coreA coreB with
  | Some c => c
  | None =>
      match preA, preB with
      | None, None => 0
      | None, Some _ => 1
      | Some _, None => -1
      | Some p, Some q => if String.eqb p q then 0 else localeCompare p q
      end
  end.

(** @src cli/src/lib/version.ts highestVersion *)
Definition highestVersion (versions : list string) : option string :=
  last (js_sort (fun a b => cliCompareVersions a b <=? 0) versions).
End cli_order.

(** ** Properties of the SDK's comparison *)

(** The value of component [i], missing components counting as 0. *)
Definition comp_value (l : list string) (i : nat) : option Z :=
  parseInt10 (default "0" (l !! i)).

Definition numeric (v : string) : Prop :=
  Forall (fun p => is_Some (parseInt10 p)) (components v).

Lemma comp_value_head l : parseInt10 (default "0" (head l)) = comp_value l 0.
Proof. by destruct l. Qed.

Lemma comp_value_tail l i : comp_value (tail l) i = comp_value l (S i).
Proof. by destruct l. Qed.

Lemma comp_value_numeric l i :
  Forall (fun p => is_Some (parseInt10 p)) l -> is_Some (comp_value l i).
Proof.
  intros H. unfold comp_value. destruct (l !! i) eqn:E; cbn; [|by eexists].
  rewrite Forall_lookup in H. eauto.
Qed.

Lemma comp_value_beyond l i : (length l <= i)%nat -> comp_value l i = Some 0.
Proof. intros H. unfold comp_value. by rewrite lookup_ge_None_2. Qed.

(** The result at the first difference. *)
Definition first_diff (n : nat) (f g : nat -> option Z) (c : Z) : Prop :=
  (c = 0 /\ forall i, (i < n)%nat -> compareNumeric (f i) (g i) = 0)
  \/ (c <> 0 /\ exists i, (i < n)%nat /\ compareNumeric (f i) (g i) = c /\
        forall j, (j < i)%nat -> compareNumeric (f j) (g j) = 0).

Lemma cmp_loop_first_diff n a b :
  first_diff n (comp_value a) (comp_value b) (cmp_loop n a b).
Proof.
  revert a b. induction n as [|n IH]; intros a b; cbn; [left; split; [done|lia]|].
  rewrite !comp_value_head.
  destruct (Z.eqb_spec (compareNumeric (comp_value a 0) (comp_value b 0)) 0) as [H0|H0]; cbn.
  - destruct (IH (tail a) (tail b)) as [[-> Hz]|[Hc (i & Hi & Hci & Hj)]].
    + left. split; [done|]. intros [|i] Hi; [done|].
      rewrite <- !comp_value_tail. apply Hz. lia.
    + right. split; [done|]. exists (S i). rewrite <- !comp_value_tail.
      split_and!; [lia|done|]. intros [|j] Hj'; [done|].
      rewrite <- !comp_value_tail. apply Hj. lia.
  - right. split; [done|]. exists 0%nat. split_and!; [lia|done|lia].
Qed.

Lemma compareNumeric_cases x y :
  (compareNumeric (Some x) (Some y) = 0 /\ x = y)
  \/ (compareNumeric (Some x) (Some y) = 1 /\ y < x)
  \/ (compareNumeric (Some x) (Some y) = -1 /\ x < y).
Proof.
  unfold compareNumeric. destruct (Z.eqb_spec x y); [by left|].
  destruct (Z.ltb_spec y x); [by right; left|]. right; right. split; [done|lia].
Qed.

(** The components of a numeric version as an infinite sequence. *)
Definition value (v : string) (i : nat) : Z := default 0 (comp_value (components v) i).

Lemma value_some v i : numeric v -> comp_value (components v) i = Some (value v i).
Proof.
  intros H. unfold value. by destruct (comp_value_numeric _ i H) as [z ->].
Qed.

(** Lexicographic order on sequences, the reference. *)
Definition lex_lt (f g : nat -> Z) : Prop :=
  exists i, f i < g i /\ forall j, (j < i)%nat -> f j = g j.

Lemma compare_numeric_seq v w i :
  numeric v -> numeric w ->
  let c := compareNumeric (comp_value (components v) i) (comp_value (components w) i) in
  (c = 0 /\ value v i = value w i) \/ (c = 1 /\ value w i < value v i)
  \/ (c = -1 /\ value v i < value w i).
Proof. intros Hv Hw. cbn zeta. rewrite !value_some by done. apply compareNumeric_cases. Qed.

(** On versions whose components are numbers, [compareVersions] is the
    lexicographic comparison of the component sequences padded with zeros:
    it returns 0 exactly for equal sequences, 1 for a greater first difference and
    -1 for a smaller one. *)
Theorem compareVersions_spec a b :
  numeric a -> numeric b ->
  (compareVersions a b = 0 /\ forall i, value a i = value b i)
  \/ (compareVersions a b = 1 /\ lex_lt (value b) (value a))
  \/ (compareVersions a b = -1 /\ lex_lt (value a) (value b)).
Proof.
  intros Ha Hb. unfold compareVersions.
  set (n := Nat.max _ _).
  destruct (cmp_loop_first_diff n (components a) (components b)) as [[-> Hz]|[Hc (i & Hi & Hci & Hj)]].
  - left. split; [done|]. intros i. destruct (decide (i < n)%nat) as [Hi|Hi].
    + specialize (Hz i Hi). destruct (compare_numeric_seq a b i Ha Hb) as [[_ ?]|[[? _]|[? _]]]; [done|lia..].
    + unfold value. rewrite !comp_value_beyond by lia. done.
  - right. assert (Heq : forall j, (j < i)%nat -> value a j = value b j).
    { intros j Hji. specialize (Hj j Hji).
      destruct (compare_numeric_seq a b j Ha Hb) as [[_ ?]|[[? _]|[? _]]]; [done|lia..]. }
    destruct (compare_numeric_seq a b i Ha Hb) as [[? _]|[[H1 Hlt]|[H1 Hlt]]]; [lia|left|right];
      (split; [lia|]); exists i; split; try done; intros j Hji; by rewrite Heq.
Qed.

Lemma compareVersions_spec_witness :
  (compareVersions "v3.12" "3.9.1" = 0 /\ forall i, value "v3.12" i = value "3.9.1" i)
  \/ (compareVersions "v3.12" "3.9.1" = 1 /\ lex_lt (value "3.9.1") (value "v3.12"))
  \/ (compareVersions "v3.12" "3.9.1" = -1 /\ lex_lt (value "v3.12") (value "3.9.1")).
Proof. apply compareVersions_spec; repeat constructor; by eexists. Defined.

(** ** Properties of the specifiers *)

Definition op_text (op : cmp_op) : string :=
  match op with
  | op_ge => ">=" | op_le => "<=" | op_gt => ">" | op_lt => "<" | op_eq => "=="
  | op_ne => "!=" | op_compat => "~="
  end.

(** A wanted version: a digit, then digits and dots. *)
Definition want_ok (w : string) : bool :=
  match w with String d w' => is_digit d && js_all digit_or_dot w' | EmptyString => false end.

Definition render (c : cmp_op * string) : string := op_text c.1 +:+ c.2.

Lemma prefix_nil s : String.prefix "" s = true.
Proof. by destruct s. Qed.

Lemma parse_spec_render op w : want_ok w = true -> parse_spec (op_text op +:+ w) = Some (op, w).
Proof.
  destruct w as [|d w]; [done|]. cbn [want_ok]. intros [Hd Hw]%andb_prop.
  assert (Hspan : js_span digit_or_dot (String d w) = (String d w, "")).
  { apply span_all. cbn. unfold digit_or_dot at 1. by rewrite Hd. }
  unfold parse_spec, parse_op, js_startsWith.
  destruct d as [[] [] [] [] [] [] [] []]; try discriminate Hd;
    destruct op; cbn -[js_span]; rewrite ?prefix_nil; unfold Ascii.is_space;
    cbn -[js_span]; by rewrite Hspan.
Qed.

Lemma op_text_head op w : exists c r, op_text op +:+ w = String c r /\ Ascii.is_space c = false.
Proof. destruct op; cbn; eauto. Qed.

Lemma trim_end_id s : js_all (fun c => negb (Ascii.is_space c)) s = true -> js_trim_end s = s.
Proof.
  induction s as [|c s IH]; [done|]. cbn. intros [Hc Hs]%andb_prop. bool_prop.
  by rewrite IH, Hc.
Qed.

Lemma js_all_impl f g s :
  (forall c, f c = true -> g c = true) -> js_all f s = true -> js_all g s = true.
Proof.
  intros Hfg. induction s as [|c s IH]; [done|]. cbn. intros [Hc Hs]%andb_prop.
  by rewrite (Hfg c Hc), IH.
Qed.

Lemma digit_or_dot_plain c :
  digit_or_dot c = true -> negb (Ascii.is_space c) = true /\ Ascii.eqb "," c = false.
Proof. destruct c as [[] [] [] [] [] [] [] []]; by vm_compute. Qed.

Lemma want_ok_all w : want_ok w = true -> js_all digit_or_dot w = true.
Proof.
  destruct w as [|d w]; [done|]. cbn. intros [Hd ->]%andb_prop.
  unfold digit_or_dot. by rewrite Hd.
Qed.

Lemma render_trim c : want_ok c.2 = true -> js_trim (render c) = render c.
Proof.
  intros H%want_ok_all. unfold js_trim, render.
  assert (Hs : js_trim_start (op_text c.1 +:+ c.2) = op_text c.1 +:+ c.2).
  { destruct (op_text_head c.1 c.2) as (a & r & -> & Ha). cbn. by rewrite Ha. }
  rewrite Hs. apply trim_end_id. rewrite all_app. apply andb_true_intro. split.
  - by destruct c.1.
  - eapply js_all_impl; [|exact H]. by intros x [? _]%digit_or_dot_plain.
Qed.

Lemma render_no_comma c : want_ok c.2 = true -> js_has_char "," (render c) = false.
Proof.
  intros H%want_ok_all. unfold render. rewrite has_char_app. apply orb_false_intro.
  - by destruct c.1.
  - apply (all_no_char digit_or_dot); done.
Qed.

(** A specifier that is a comma-separated list of well-formed constraints is
    read back constraint by constraint: a version satisfies it exactly when it
    satisfies each of them under [compareVersions] ([~=] also asks for the same
    first component). *)
Theorem versionSatisfies_conjunction v cs :
  v <> "" -> cs <> [] -> Forall (fun c => want_ok c.2 = true) cs ->
  versionSatisfies (Some v) (Some (js_join "," (map render cs)))
  = forallb (fun c => op_holds c.1 (clean_version v) c.2) cs.
Proof.
  intros Hv Hne Hok. unfold versionSatisfies.
  apply String.eqb_neq in Hv as ->.
  assert (Hj : js_split "," (js_join "," (map render cs)) = map render cs).
  { apply (split_join ","); [by destruct cs|]. apply Forall_fmap.
    eapply Forall_impl; [exact Hok|]. intros c. apply render_no_comma. }
  destruct (String.eqb_spec (js_join "," (map render cs)) "") as [E|_]; cbn [orb].
  { rewrite E in Hj. destruct cs as [|c [|]]; [done| |done]. cbn in Hj.
    injection Hj as Hj. unfold render in Hj.
    destruct (op_text_head c.1 c.2) as (a & r & Hc & _). congruence. }
  unfold split_specs. rewrite Hj. clear Hj Hne.
  induction Hok as [|c cs Hc Hok IH]; [done|]. cbn.
  rewrite render_trim by done.
  assert (Hn : String.eqb (render c) "" = false).
  { destruct (op_text_head c.1 c.2) as (a & r & Hr & _). unfold render. by rewrite Hr. }
  rewrite Hn. cbn. rewrite IH. f_equal.
  unfold spec_holds, render. by rewrite parse_spec_render.
Qed.

Lemma versionSatisfies_conjunction_witness :
  versionSatisfies (Some "v20.11.1") (Some (js_join "," (map render [(op_ge, "18"); (op_lt, "21.0")])))
  = forallb (fun c => op_holds c.1 (clean_version "v20.11.1") c.2) [(op_ge, "18"); (op_lt, "21.0")].
Proof. apply versionSatisfies_conjunction; [done|done|by repeat constructor]. Defined.

(** A constraint the regular expression does not match is silently satisfied
    by every version: caret and tilde ranges, [=18], [x]-ranges that start with a
    letter. *)
Theorem versionSatisfies_unparsed v sp :
  Forall (fun s => parse_spec s = None) (split_specs sp) ->
  versionSatisfies v (Some sp) = true.
Proof.
  intros H. unfold versionSatisfies. destruct v as [v|]; [|done].
  destruct (_ || _); [done|]. apply forallb_forall. intros s Hs%list_elem_of_In.
  rewrite Forall_forall in H. unfold spec_holds. by rewrite H.
Qed.

Lemma versionSatisfies_unparsed_witness :
  versionSatisfies (Some "16.0.0") (Some "^18.0.0, ~20.1") = true.
Proof. apply versionSatisfies_unparsed. repeat constructor. Defined.

(** ** Properties of the CLI's ordering *)

(** What the collation promises: it is a total preorder. *)
Class Collation (localeCompare : string -> string -> Z) : Prop := {
  collation_antisym : forall a b, Z.sgn (localeCompare b a) = - Z.sgn (localeCompare a b);
  collation_trans : forall a b c,
    localeCompare a b <= 0 -> localeCompare b c <= 0 -> localeCompare a c <= 0;
}.

(** A release core of numbers only, as semantic versions have. *)
Definition num_core (v : string) : Prop :=
  Forall (fun c => exists n, c = CNum n) (splitCore v).1.

Definition core_value (v : string) (i : nat) : Z :=
  match (splitCore v).1 !! i with Some (CNum n) => n | _ => 0 end.

Definition core_le (pa pb : option string) (localeCompare : string -> string -> Z) : Prop :=
  match pa, pb with
  | None, None => True
  | None, Some _ => False
  | Some _, None => True
  | Some p, Some q => p = q \/ localeCompare p q <= 0
  end.

Lemma num_nth l i :
  Forall (fun c => exists n, c = CNum n) l ->
  exists n, default (CNum 0) (l !! i) = CNum n /\
    n = match l !! i with Some (CNum n) => n | _ => 0 end.
Proof.
  intros H. destruct (l !! i) as [c|] eqn:E; cbn; [|by exists 0].
  rewrite Forall_lookup in H. destruct (H i c E) as [n ->]. by exists n.
Qed.

Definition lval (l : list comp) (i : nat) : Z :=
  match l !! i with Some (CNum n) => n | _ => 0 end.

Lemma core_loop_spec lc n a b :
  Forall (fun c => exists n, c = CNum n) a -> Forall (fun c => exists n, c = CNum n) b ->
  (core_loop lc n a b = None /\ forall i, (i < n)%nat -> lval a i = lval b i)
  \/ exists i, (i < n)%nat /\ core_loop lc n a b = Some (lval a i - lval b i) /\
       lval a i <> lval b i /\ forall j, (j < i)%nat -> lval a j = lval b j.
Proof.
  revert a b. induction n as [|n IH]; intros a b Ha Hb; cbn; [left; split; [done|lia]|].
  destruct (num_nth a 0 Ha) as (x & Hx & Hxv), (num_nth b 0 Hb) as (y & Hy & Hyv).
  assert (Hhd : forall l : list comp, head l = l !! 0%nat) by by intros [].
  assert (Htl : forall (l : list comp) i, lval (tail l) i = lval l (S i)) by by intros [].
  rewrite !Hhd, Hx, Hy. cbn.
  assert (Hta : Forall (fun c => exists n, c = CNum n) (tail a)) by (destruct Ha; done).
  assert (Htb : Forall (fun c => exists n, c = CNum n) (tail b)) by (destruct Hb; done).
  destruct (Z.eqb_spec x y) as [->|Hne].
  - destruct (IH (tail a) (tail b) Hta Htb) as [[-> Hi]|(i & Hi & -> & Hni & Hj)].
    + left. split; [done|]. intros [|i] Hi'; [unfold lval; congruence|].
      rewrite <- !Htl. apply Hi. lia.
    + right. exists (S i). rewrite <- !Htl. split_and!; [lia|done|done|].
      intros [|j] Hj'; [unfold lval; congruence|]. rewrite <- !Htl. apply Hj. lia.
  - right. exists 0%nat. unfold lval. rewrite <- Hxv, <- Hyv. split_and!; [lia|done|done|lia].
Qed.

Section cli_facts.
Context (lc : string -> string -> Z) `{!Collation lc}.

Definition cli_leb (a b : string) : bool := cliCompareVersions lc a b <=? 0.

Lemma core_value_lval v : core_value v = lval (splitCore v).1.
Proof. done. Qed.

(** On numeric cores the CLI's order is: cores lexicographically as numbers, then
    a pre-release before its release, then the collation of the pre-releases. *)
Lemma cli_leb_iff a b :
  num_core a -> num_core b ->
  cli_leb a b = true <->
  lex_lt (core_value a) (core_value b)
  \/ ((forall i, core_value a i = core_value b i)
      /\ core_le (splitCore a).2 (splitCore b).2 lc).
Proof.
  unfold num_core, cli_leb, cliCompareVersions. rewrite !core_value_lval.
  destruct (splitCore a) as [ca pa], (splitCore b) as [cb pb]. cbn [fst snd]. intros Ha Hb.
  set (n := Nat.max _ _).
  destruct (core_loop_spec lc n ca cb Ha Hb) as [[-> Heq]|(i & Hi & -> & Hne & Hj)].
  - assert (Hall : forall i, lval ca i = lval cb i).
    { intros i. destruct (decide (i < n)%nat); [auto|].
      unfold lval. by rewrite !lookup_ge_None_2 by lia. }
    split.
    + intros H. right. split; [done|]. unfold core_le. destruct pa, pb; try done.
      destruct (String.eqb_spec s s0); [by left|]. bool_prop. by right.
    + intros [[i [Hlt _]]|[_ Hpre]]; [specialize (Hall i); lia|].
      unfold core_le in Hpre. destruct pa, pb; try done.
      destruct (String.eqb_spec s s0); [done|]. apply Z.leb_le. by destruct Hpre.
  - rewrite Z.leb_le. split.
    + intros H. left. exists i. split; [lia|done].
    + intros [(k & Hk & Hkj)|[Hall _]]; [|specialize (Hall i); lia].
      destruct (Nat.lt_trichotomy i k) as [Hik|[->|Hik]]; [|lia|].
      * specialize (Hkj i Hik). lia.
      * specialize (Hj k Hik). lia.
Qed.

Lemma lex_lt_trans f g h : lex_lt f g -> lex_lt g h -> lex_lt f h.
Proof.
  intros (i & Hi & Hi') (j & Hj & Hj'). destruct (Nat.lt_trichotomy i j) as [H|[->|H]].
  - exists i. split; [by rewrite <- Hj'|]. intros k Hk. rewrite Hi' by done. apply Hj'. lia.
  - exists j. split; [lia|]. intros k Hk. by rewrite Hi', Hj'.
  - exists j. split; [by rewrite Hi'|]. intros k Hk. rewrite Hi' by lia. by apply Hj'.
Qed.

Lemma lex_lt_ext f g f' g' :
  (forall i, f i = f' i) -> (forall i, g i = g' i) -> lex_lt f g -> lex_lt f' g'.
Proof.
  intros Hf Hg (i & Hi & Hj). exists i. rewrite <- Hf, <- Hg. split; [done|].
  intros j Hji. rewrite <- Hf, <- Hg. auto.
Qed.

Lemma cli_total a b : num_core a -> num_core b -> cli_leb a b = true \/ cli_leb b a = true.
Proof.
  intros Ha Hb. rewrite !cli_leb_iff by done. rewrite !core_value_lval.
  destruct (core_loop_spec lc (Nat.max (length (splitCore a).1) (length (splitCore b).1))
    _ _ Ha Hb) as [[_ Heq]|(i & _ & _ & Hne & Hj)].
  - assert (Hall : forall i, lval (splitCore a).1 i = lval (splitCore b).1 i).
    { intros i. destruct (decide (i < Nat.max (length (splitCore a).1) (length (splitCore b).1))%nat);
        [auto|]. unfold lval. by rewrite !lookup_ge_None_2 by lia. }
    destruct ((splitCore a).2) as [p|] eqn:Ep, ((splitCore b).2) as [q|] eqn:Eq; cbn;
      try (left; right; done); try (right; right; done).
    destruct (Z.leb_spec (lc p q) 0); [left; right; by split; [|right]|].
    right; right. split; [done|]. right.
    pose proof (collation_antisym p q) as Hs. destruct (Z.sgn_spec (lc p q)), (Z.sgn_spec (lc q p)); lia.
  - destruct (Z.lt_trichotomy (lval (splitCore a).1 i) (lval (splitCore b).1 i)) as [H|[H|H]].
    + left; left. by exists i.
    + done.
    + right; left. exists i. split; [done|]. intros j Hji. by rewrite Hj.
Qed.

Lemma core_le_trans p q r : core_le p q lc -> core_le q r lc -> core_le p r lc.
Proof.
  destruct p as [p|], q as [q|], r as [r|]; cbn; try done.
  intros [->|Hpq] [->|Hqr]; auto. right. by eapply collation_trans.
Qed.

Lemma cli_trans a b c :
  num_core a -> num_core b -> num_core c ->
  cli_leb a b = true -> cli_leb b c = true -> cli_leb a c = true.
Proof.
  intros Ha Hb Hc. rewrite !cli_leb_iff by done.
  intros [Hab|[Hab Hpab]] [Hbc|[Hbc Hpbc]].
  - left. by eapply lex_lt_trans.
  - left. by eapply lex_lt_ext; [done|exact Hbc|].
  - left. eapply lex_lt_ext; [|done|exact Hbc]. done.
  - right. split; [intros i; by rewrite Hab|by eapply core_le_trans].
Qed.
End cli_facts.
End Versions.
