(* ===== verification/Requirements.v ===== *)
(** Host requirements: the rest of [sdk/src/runtime.ts], that is the detection of
    the local runtimes, the check of a manifest's requirements against them and
    the SDK's sandbox decision. *)
From S2P Require Import Prelude Manifest Versions.

Module Requirements.
Import Manifest Versions.

(** @src sdk/src/runtime.ts DetectedRuntime *)
Record DetectedRuntime := mkDetected {
  d_python : option string;
  d_node : option string;
  d_docker : bool;
  d_dockerVersion : option string;
  d_ollama : bool;
  d_uv : bool;
  d_git : bool;
}.

(** [spawn cmd] is [None] when the command could not be started, else its standard
    output.
    @src sdk/src/runtime.ts 15-19 detectRuntime.run *)
Definition run_version (spawn : string -> option string) (cmd : string) : option string :=
  match spawn cmd with
  | None => None
  | Some out =>
      let first := default "" (head (js_split LF (js_trim out))) in
      if String.eqb first "" then None else Some first
  end.

(** @src sdk/src/runtime.ts detectRuntime *)
Definition detectRuntime (spawn : string -> option string) : DetectedRuntime :=
  let run := run_version spawn in
  let present cmd := negb (String.eqb (nullish (run cmd) "") "") in
  mkDetected (run "python3") (run "node") (present "docker") (run "docker")
    (present "ollama") (present "uv") (present "git").

(** @src sdk/src/runtime.ts RequirementCheck *)
Record RequirementCheck := mkCheck {
  satisfied : bool;
  missing : list string;
  messages : list string;
}.

(** [s.replace(sub, "")]: the first occurrence. *)
Fixpoint remove_first (sub s : string) : string :=
  if js_startsWith s sub then js_drop (String.length sub) s
  else match s with
       | String c s' => String c (remove_first sub s')
       | EmptyString => EmptyString
       end.

(** A message with an optional field prints [undefined] when it is absent. *)
Definition show_opt (o : option string) : string := nullish o "undefined".

(** The Python branch: what is missing and the messages. *)
Definition check_python (m : Manifest) (d : DetectedRuntime) : list string * list string :=
  if negb (truthy (d_python d)) then
    (["python3 (>=3.11 recommended)"], ["Python 3 not found."])
  else
    let found := nullish (d_python d) "" in
    let v := remove_first "Python " found in
    let want := rt_python (runtime m) in
    if versionSatisfies (Some v) want then ([], ["Python " +:+ v +:+ " detected."])
    else (["python3 satisfying '" +:+ show_opt want +:+ "'"],
          ["Python " +:+ v +:+ " detected.";
           "Python " +:+ found +:+ " does not satisfy '" +:+ show_opt want +:+ "'."]).

(** [.replace(/^v/, "")]. *)
Definition strip_lower_v (s : string) : string :=
  if js_startsWith s "v" then js_drop 1 s else s.

Definition check_node (m : Manifest) (d : DetectedRuntime) : list string * list string :=
  if negb (truthy (d_node d)) then (["node (>=18)"], ["Node.js not found."])
  else
    let found := nullish (d_node d) "" in
    let v := strip_lower_v found in
    let want := rt_node (runtime m) in
    if versionSatisfies (Some v) want then ([], ["Node " +:+ v +:+ " detected."])
    else (["node satisfying '" +:+ show_opt want +:+ "'"],
          ["Node " +:+ v +:+ " detected.";
           "Node " +:+ found +:+ " does not satisfy '" +:+ show_opt want +:+ "'."]).

Definition check_language (m : Manifest) (d : DetectedRuntime) : list string * list string :=
  match language (runtime m) with
  | python => check_python m d
  | node => check_node m d
  | l => ([], ["Language '" +:+ language_name l +:+ "' has no version check."])
  end.

Definition check_docker (m : Manifest) (d : DetectedRuntime) : list string * list string :=
  if bool_decide (rt_sandbox (runtime m) = Some sb_container) && negb (d_docker d) then
    (["docker (agent requires container sandbox)"],
     ["Agent requires a container sandbox but Docker is not available."])
  else ([], []).

(** [Array.isArray(deps) && deps.length > 0] on [dependencies?.system]. *)
Definition system_deps (m : Manifest) : list string :=
  match dependencies m with Some d => nullish (dep_system d) [] | None => [] end.

Definition has_system_deps (m : Manifest) : bool :=
  match system_deps m with [] => false | _ => true end.

Definition check_system (m : Manifest) : list string * list string :=
  if has_system_deps m then
    (["unsupported dependencies.system"],
     ["dependencies.system is not supported by OpenAgentHub yet."])
  else ([], []).

(** @src sdk/src/runtime.ts checkAgentRequirements *)
Definition checkAgentRequirements (m : Manifest) (d : DetectedRuntime) : RequirementCheck :=
  let '(m1, g1) := check_language m d in
  let '(m2, g2) := check_docker m d in
  let '(m3, g3) := check_system m in
  let missing := m1 ++ m2 ++ m3 in
  mkCheck (match missing with [] => true | _ => false end) missing (g1 ++ g2 ++ g3).

(** The trust recorded with an installed agent.
    @src runtime/src/sandbox/policy.ts TrustLevel *)
Inductive TrustLevel := trusted | untrusted | unknown | local.

#[export] Instance TrustLevel_eq_dec : EqDecision TrustLevel.
Proof. solve_decision. Defined.

Definition trust_name (t : TrustLevel) : string :=
  match t with
  | trusted => "trusted" | untrusted => "untrusted" | unknown => "unknown" | local => "local"
  end.

(** Where an agent runs; the SDK calls the second one [isolated-process]. *)
Inductive SandboxMode := m_container | m_process.

#[export] Instance SandboxMode_eq_dec : EqDecision SandboxMode.
Proof. solve_decision. Defined.

(** @src sdk/src/runtime.ts SandboxStrategy *)
Record SandboxStrategy := mkStrategy { st_mode : SandboxMode; st_reason : string }.

(** @src sdk/src/runtime.ts decideSandbox *)
Definition decideSandbox (m : Manifest) (d : DetectedRuntime) (trustLevel : TrustLevel)
    : SandboxStrategy :=
  match trustLevel with
  | untrusted => mkStrategy m_container "agent is untrusted; requires container isolation"
  | unknown => mkStrategy m_container "trust unknown; defaulting to container isolation"
  | _ =>
      match nullish (rt_sandbox (runtime m)) sb_auto with
      | sb_container => mkStrategy m_container "manifest requests container sandbox"
      | sb_isolated_process =>
          mkStrategy m_process "manifest requests isolated-process sandbox"
      | sb_auto => mkStrategy m_process "trusted or local agent; using fast isolated-process path"
      end
  end.

(** ** Properties *)

(** What a manifest needs of the host. *)
Definition language_ok (m : Manifest) (d : DetectedRuntime) : Prop :=
  match language (runtime m) with
  | python => exists s, d_python d = Some s /\ s <> "" /\
      versionSatisfies (Some (remove_first "Python " s)) (rt_python (runtime m)) = true
  | node => exists s, d_node d = Some s /\ s <> "" /\
      versionSatisfies (Some (strip_lower_v s)) (rt_node (runtime m)) = true
  | _ => True
  end.

Lemma truthy_spec o : truthy o = true <-> exists s, o = Some s /\ s <> "".
Proof.
  destruct o as [s|]; cbn; [|split; [done|by intros (?&?&?)]].
  rewrite negb_true_iff, String.eqb_neq. split; [by exists s|]. by intros (?&[= ->]&?).
Qed.

Lemma check_found_iff (found : option string) (f : string -> bool) (a b : list string)
    (g1 g2 g3 : list string) :
  a <> [] -> b <> [] ->
  (if negb (truthy found) then (a, g1)
   else if f (nullish found "") then ([], g2) else (b, g3)).1 = []
  <-> exists s, found = Some s /\ s <> "" /\ f s = true.
Proof.
  intros Ha Hb. destruct (truthy found) eqn:E; cbn.
  - apply truthy_spec in E as (s & -> & Hs). cbn. destruct (f s) eqn:Ef; cbn.
    + split; [by exists s|done].
    + split; [done|]. intros (s' & [= <-] & _ & ?). congruence.
  - split; [done|]. intros (s & -> & Hs & _). assert (truthy (Some s) = true); [|congruence].
    apply truthy_spec. by exists s.
Qed.

Lemma check_language_iff m d : (check_language m d).1 = [] <-> language_ok m d.
Proof.
  unfold check_language, language_ok. destruct (language (runtime m)); try done.
  - unfold check_python. cbn zeta. apply (check_found_iff (d_python d)
      (fun s => versionSatisfies (Some (remove_first "Python " s)) (rt_python (runtime m)))); done.
  - unfold check_node. cbn zeta. apply (check_found_iff (d_node d)
      (fun s => versionSatisfies (Some (strip_lower_v s)) (rt_node (runtime m)))); done.
Qed.

(** The requirement check passes exactly when the manifest's language is
    present in a version its specifier accepts (no check for other languages),
    Docker is there if the manifest asks for a container, and no system
    dependency is declared. *)
Theorem checkAgentRequirements_iff m d :
  satisfied (checkAgentRequirements m d) = true <->
  language_ok m d
  /\ (rt_sandbox (runtime m) = Some sb_container -> d_docker d = true)
  /\ system_deps m = [].
Proof.
  unfold checkAgentRequirements. rewrite <- check_language_iff.
  destruct (check_language m d) as [m1 g1]; cbn.
  assert (Hd : (check_docker m d).1 = [] <->
    (rt_sandbox (runtime m) = Some sb_container -> d_docker d = true)).
  { unfold check_docker. case_bool_decide as Hs; cbn; [|by split].
    destruct (d_docker d); cbn; [by split|]. split; [done|]. intros H. by specialize (H Hs). }
  rewrite <- Hd. destruct (check_docker m d) as [m2 g2]; cbn.
  assert (Hsys : (check_system m).1 = [] <-> system_deps m = []).
  { unfold check_system, has_system_deps. by destruct (system_deps m). }
  rewrite <- Hsys. destruct (check_system m) as [m3 g3]; cbn.
  destruct m1, m2, m3; cbn; try by split.
  all: split; [done|]; intros (?&?&?); done.
Qed.

(** A reported problem always comes with a message for it. *)
Lemma missing_messages m d :
  (length (missing (checkAgentRequirements m d)) <= length (messages (checkAgentRequirements m d)))%nat.
Proof.
  unfold checkAgentRequirements.
  assert (H1 : (length (check_language m d).1 <= length (check_language m d).2)%nat).
  { unfold check_language, check_python, check_node. js_cases; cbn; lia. }
  assert (H2 : length (check_docker m d).1 = length (check_docker m d).2)
    by (unfold check_docker; js_cases).
  assert (H3 : length (check_system m).1 = length (check_system m).2)
    by (unfold check_system; js_cases).
  destruct (check_language m d), (check_docker m d), (check_system m). cbn in *.
  rewrite !length_app. lia.
Qed.
End Requirements.
