(* ===== verification/Policy.v ===== *)
(** The effective sandbox policy of [runtime/src/sandbox/policy.ts]: which sandbox
    a run gets from trust, review status, local override and manifest. *)
From S2P Require Import Prelude Manifest Requirements.

Module Policy.
Import Manifest Requirements.

(** @src runtime/src/sandbox/policy.ts SandboxOverride *)
Record SandboxOverride := mkOverride {
  ov_sandbox : SandboxMode;
  ov_digest : string;
  ov_setAt : string;
}.

(** @src runtime/src/sandbox/policy.ts SandboxPolicyInput *)
Record SandboxPolicyInput := mkInput {
  p_trust : TrustLevel;
  p_manifest : Manifest;
  p_reviewStatus : option string;
  p_statusFresh : option bool;
  p_override : option SandboxOverride;
  p_archiveDigest : option string;
}.

(** @src runtime/src/sandbox/policy.ts SandboxDecision *)
Record SandboxDecision := mkDecision {
  dc_mode : SandboxMode;
  dc_reason : string;
  dc_blocked : option string;
  dc_overrideApplied : option bool;
  dc_staleStatus : option bool;
}.

(** @src runtime/src/sandbox/policy.ts BLOCKED_STATUSES *)
Definition BLOCKED_STATUSES : list string := ["rejected"; "revoked"].

Definition blocked_status (o : option string) : option string :=
  match o with
  | Some s => if negb (String.eqb s "") && mem_str s BLOCKED_STATUSES then Some s else None
  | None => None
  end.

Definition plain (mode : SandboxMode) (reason : string) : SandboxDecision :=
  mkDecision mode reason None None None.

Definition requested_mode (m : Manifest) : SandboxRequest := nullish (rt_sandbox (runtime m)) sb_auto.

Definition by_manifest (m : Manifest) : SandboxDecision :=
  match requested_mode m with
  | sb_container => plain m_container "manifest requests container sandbox"
  | sb_isolated_process => plain m_process "manifest requests isolated-process sandbox"
  | sb_auto => plain m_process "trusted or local agent; using fast isolated-process path"
  end.

Definition digest_changed (input : SandboxPolicyInput) (o : SandboxOverride) : bool :=
  match p_archiveDigest input with
  | Some d => negb (String.eqb d "") && negb (String.eqb (ov_digest o) d)
  | None => false
  end.

Definition by_override (input : SandboxPolicyInput) (o : SandboxOverride) : SandboxDecision :=
  if digest_changed input o then
    plain m_container "sandbox override is stale (archive digest changed); using container isolation"
  else match ov_sandbox o with
       | m_process => mkDecision m_process "local sandbox policy overrides to process execution"
                        None (Some true) None
       | m_container => mkDecision m_container "local sandbox policy forces container isolation"
                          None (Some true) None
       end.

(** A recorded status that is not [verified] and was not refreshed. *)
Definition status_unverified (input : SandboxPolicyInput) : option string :=
  match p_reviewStatus input with
  | Some s =>
      if negb (String.eqb s "verified") && negb (bool_decide (p_statusFresh input = Some true))
      then Some s else None
  | None => None
  end.

(** @src runtime/src/sandbox/policy.ts effectiveSandbox *)
Definition effectiveSandbox (input : SandboxPolicyInput) : SandboxDecision :=
  match blocked_status (p_reviewStatus input) with
  | Some s =>
      mkDecision m_container "not used"
        (Some ("this version was " +:+ s +:+ " by the registry and cannot be run")) None None
  | None =>
      match p_trust input with
      | untrusted =>
          plain m_container "agent is not trusted; source trust requires container isolation"
      | unknown => plain m_container "agent trust is unknown; defaulting to container isolation"
      | _ =>
          match status_unverified input with
          | Some s =>
              mkDecision m_container
                ("review status '" +:+ s +:+ "' is not verified; using container isolation")
                None None (Some (bool_decide (p_statusFresh input = Some false)))
          | None =>
              match p_override input with
              | Some o => by_override input o
              | None => by_manifest (p_manifest input)
              end
          end
      end
  end.

(** @src runtime/src/sandbox/policy.ts manifestCanForceProcess *)
Definition manifestCanForceProcess (m : Manifest) : bool :=
  bool_decide (requested_mode m = sb_isolated_process).

(** @src runtime/src/sandbox/policy.ts requestedSandbox *)
Definition requestedSandbox (m : Manifest) : string :=
  match requested_mode m with
  | sb_auto => "auto" | sb_container => "container" | sb_isolated_process => "isolated-process"
  end.

(** @src runtime/src/sandbox/policy.ts grantedToEffective *)
Definition grantedToEffective (granted : list Permission) : list Permission := remove_dups granted.

(** ** The policy as rules *)

(** The status does not force a container. *)
Definition status_ok (input : SandboxPolicyInput) : Prop :=
  match p_reviewStatus input with
  | None => True
  | Some s => s = "verified" \/ p_statusFresh input = Some true
  end.

Definition not_blocked (input : SandboxPolicyInput) : Prop :=
  forall s, p_reviewStatus input = Some s -> s <> "rejected" /\ s <> "revoked".

(** The override applies to the archive at hand. *)
Definition override_current (input : SandboxPolicyInput) (o : SandboxOverride) : Prop :=
  match p_archiveDigest input with
  | Some d => d = "" \/ ov_digest o = d
  | None => True
  end.

(** The inputs for which the agent may run as a plain process: the rules of the
    policy, in any order. *)
Record may_run_as_process (input : SandboxPolicyInput) : Prop := mkMayProcess {
  mp_trust : p_trust input = trusted \/ p_trust input = local;
  mp_blocked : not_blocked input;
  mp_status : status_ok input;
  mp_choice :
    match p_override input with
    | Some o => override_current input o /\ ov_sandbox o = m_process
    | None => rt_sandbox (runtime (p_manifest input)) <> Some sb_container
    end;
}.

Lemma blocked_status_none input : blocked_status (p_reviewStatus input) = None <-> not_blocked input.
Proof.
  unfold blocked_status, not_blocked. destruct (p_reviewStatus input) as [s|]; [|by split].
  destruct (negb (String.eqb s "") && mem_str s BLOCKED_STATUSES) eqn:E.
  - split; [done|]. intros H. destruct (H s eq_refl) as [H1 H2].
    apply andb_prop in E as [_ E]. apply mem_str_spec in E.
    unfold BLOCKED_STATUSES in E. set_solver.
  - split; [|done]. intros _ ? [= <-]. split; intros ->; by vm_compute in E.
Qed.

Lemma status_unverified_none input : status_unverified input = None <-> status_ok input.
Proof.
  unfold status_unverified, status_ok. destruct (p_reviewStatus input) as [s|]; [|by split].
  destruct (String.eqb_spec s "verified") as [->|Hs]; cbn; [split; auto|].
  case_bool_decide as Hf; cbn; split; auto; [done|]. by intros [|].
Qed.

Lemma digest_changed_false input o : digest_changed input o = false <-> override_current input o.
Proof.
  unfold digest_changed, override_current. destruct (p_archiveDigest input) as [d|]; [|by split].
  destruct (String.eqb_spec d ""); cbn; [split; auto|].
  destruct (String.eqb_spec (ov_digest o) d); cbn; split; auto; [done|]. by intros [|].
Qed.

Lemma by_manifest_process m :
  dc_mode (by_manifest m) = m_process <-> rt_sandbox (runtime m) <> Some sb_container.
Proof.
  unfold by_manifest, requested_mode. destruct (rt_sandbox (runtime m)) as [[]|]; cbn; split; done.
Qed.

Lemma by_override_process input o :
  dc_mode (by_override input o) = m_process <-> override_current input o /\ ov_sandbox o = m_process.
Proof.
  unfold by_override. rewrite <- digest_changed_false.
  destruct (digest_changed input o); cbn; [split; [done|by intros [? _]]|].
  destruct (ov_sandbox o); cbn; split; try done. by intros [_ ?].
Qed.

Lemma by_override_blocked input o : dc_blocked (by_override input o) = None.
Proof. unfold by_override. destruct (digest_changed input o); [done|]. by destruct (ov_sandbox o). Qed.

Lemma by_manifest_blocked m : dc_blocked (by_manifest m) = None.
Proof. unfold by_manifest. by destruct (requested_mode m). Qed.

Lemma process_iff_rules input :
  dc_mode (effectiveSandbox input) = m_process <-> may_run_as_process input.
Proof.
  unfold effectiveSandbox. destruct (blocked_status (p_reviewStatus input)) eqn:Eb.
  { split; [done|]. intros [_ Hb _ _]. apply blocked_status_none in Hb. congruence. }
  apply blocked_status_none in Eb.
  assert (Hun : p_trust input = untrusted \/ p_trust input = unknown -> ~ may_run_as_process input)
    by (intros [|] [[|] _ _ _]; congruence).
  destruct (p_trust input) eqn:Et; cbn; try (split; [done|intros H; by destruct Hun; auto]).
  all: destruct (status_unverified input) as [s|] eqn:Es;
    [split; [done|]; intros [_ _ Hs _]; apply status_unverified_none in Hs; congruence|].
  all: apply status_unverified_none in Es.
  all: destruct (p_override input) as [o|] eqn:Eo;
    rewrite ?by_override_process, ?by_manifest_process.
  all: split; [intros H; constructor; rewrite ?Et, ?Eo; auto|].
  all: intros [_ _ _ H]; by rewrite Eo in H.
Qed.


Lemma blocked_iff_status input :
  is_Some (dc_blocked (effectiveSandbox input)) <->
  p_reviewStatus input = Some "rejected" \/ p_reviewStatus input = Some "revoked".
Proof.
  assert (Hb : blocked_status (p_reviewStatus input) <> None <->
    p_reviewStatus input = Some "rejected" \/ p_reviewStatus input = Some "revoked").
  { rewrite blocked_status_none. unfold not_blocked.
    destruct (p_reviewStatus input) as [s|]; [|split; [intros H; by destruct H|by intros [|]]].
    split.
    - intros H. destruct (decide (s = "rejected")) as [->|]; [by left|].
      destruct (decide (s = "revoked")) as [->|]; [by right|].
      destruct H. by intros ? [= <-].
    - intros [[= ->]|[= ->]] Hno; by destruct (Hno _ eq_refl). }
  rewrite <- Hb. unfold effectiveSandbox. destruct (blocked_status (p_reviewStatus input)).
  - split; [done|]. by eexists.
  - split; [|done]. intros [x Hx].
    destruct (p_trust input); try done; destruct (status_unverified input); try done;
      destruct (p_override input); rewrite ?by_override_blocked, ?by_manifest_blocked in Hx; done.
Qed.

(** A version is refused exactly when the registry rejected or revoked it, and
    then neither trust, nor a fresh status, nor an override lets it run. *)
Theorem effectiveSandbox_blocked_iff input :
  is_Some (dc_blocked (effectiveSandbox input)) <->
  p_reviewStatus input = Some "rejected" \/ p_reviewStatus input = Some "revoked".
Proof. apply blocked_iff_status. Qed.

(** For an agent without a recorded review status and without a local
    override, the runtime's policy and the SDK's [decideSandbox] choose the same
    sandbox. *)
Theorem effectiveSandbox_agrees_with_sdk m d trust digest fresh :
  dc_mode (effectiveSandbox (mkInput trust m None fresh None digest))
  = st_mode (decideSandbox m d trust).
Proof.
  unfold effectiveSandbox, decideSandbox. cbn. unfold by_manifest, requested_mode.
  destruct trust; cbn; try done; by destruct (nullish _ _).
Qed.
End Policy.
