(* ===== verification/Config.v ===== *)
(** Paths and persistent configuration: [runtime/src/config.ts] and
    [runtime/src/permissions.ts].

    The configuration object is mutated in place and saved whole after each
    change, so an operation takes a [store]: the object the caller holds and the
    file on disk. *)
From S2P Require Import Prelude NodePath Manifest Requirements Policy.

Module Config.
Import Manifest Requirements Policy.

(** ** Paths *)

(** @src runtime/src/config.ts 4-11 AGENT_HOME *)
Record Home := mkHome {
  AGENT_HOME : string;
  AGENTS_DIR : string;
  CONFIG_PATH : string;
  KEYS_DIR : string;
  SECRETS_DIR : string;
  MASTER_KEY_PATH : string;
}.

Definition home_of (env_AGENT_HOME : option string) (homedir : string) : Home :=
  let h := nullish env_AGENT_HOME (NodePath.join homedir ".openagenthub") in
  mkHome h (NodePath.join h "agents") (NodePath.join h "config.json") (NodePath.join h "keys")
    (NodePath.join h "secrets") (NodePath.join h "master.key").

(** @src runtime/src/config.ts REGISTRY_DEFAULT *)
Definition REGISTRY_DEFAULT : string := "https://registry.openagenthub.dev".

(** @src runtime/src/config.ts AgentKey *)
Record AgentKey := mkKey { k_namespace : string; k_name : string; k_version : string }.

(** @src runtime/src/config.ts agentKeyToString *)
Definition agentKeyToString (k : AgentKey) : string :=
  k_namespace k +:+ "/" +:+ k_name k +:+ "@" +:+ k_version k.

(** @src runtime/src/config.ts installedAgentDir *)
Definition installedAgentDir (h : Home) (k : AgentKey) : string :=
  NodePath.join (NodePath.join (NodePath.join (AGENTS_DIR h) (k_namespace k)) (k_name k)) (k_version k).

(** ** The configuration object *)

Definition GrantedPermissions : Type := obj bool.

(** @src runtime/src/permissions.ts InstalledAgent *)
Record InstalledAgent := mkInstalled {
  ia_name : string;
  ia_namespace : string;
  ia_version : string;
  ia_author : string;
  ia_trust : TrustLevel;
  ia_installedAt : string;
  ia_source : string;
  ia_signatureKeyId : option string;
  ia_reviewStatus : option string;
  ia_statusCheckedAt : option string;
  ia_archiveDigest : option string;
}.

(** @src runtime/src/permissions.ts OpenAgentHubConfig *)
Record OpenAgentHubConfig := mkConfig {
  registryUrl : option string;
  token : option string;
  installed : option (obj InstalledAgent);
  permissions : option (obj GrantedPermissions);
  secretGrants : option (obj (list string));
  sandboxOverrides : option (obj SandboxOverride);
}.

Definition empty_config : OpenAgentHubConfig := mkConfig None None None None None None.

(** The file [CONFIG_PATH]; saving writes the JSON text of the object, and reading
    that text back gives the object. *)
Inductive config_file :=
| cf_absent
| cf_unreadable (msg : string)
| cf_garbage
| cf_saved (c : OpenAgentHubConfig).

(** @src runtime/src/permissions.ts loadConfig *)
Definition loadConfig (f : config_file) : result OpenAgentHubConfig :=
  match f with
  | cf_absent => Ok empty_config
  | cf_unreadable msg => throw EConfigCorrupt ("cannot read config: " +:+ msg)
  | cf_garbage => throw EConfigCorrupt "config is not valid JSON; refusing to treat it as empty"
  | cf_saved c => Ok c
  end.

Record store := mkStore { mem : OpenAgentHubConfig; disk : config_file }.

(** @src runtime/src/permissions.ts saveConfig *)
Definition saveConfig (s : store) : store := mkStore (mem s) (cf_saved (mem s)).

Definition set_installed (o : obj InstalledAgent) (c : OpenAgentHubConfig) : OpenAgentHubConfig :=
  mkConfig (registryUrl c) (token c) (Some o) (permissions c) (secretGrants c) (sandboxOverrides c).
Definition set_permissions (o : obj GrantedPermissions) (c : OpenAgentHubConfig) : OpenAgentHubConfig :=
  mkConfig (registryUrl c) (token c) (installed c) (Some o) (secretGrants c) (sandboxOverrides c).
Definition set_secretGrants (o : obj (list string)) (c : OpenAgentHubConfig) : OpenAgentHubConfig :=
  mkConfig (registryUrl c) (token c) (installed c) (permissions c) (Some o) (sandboxOverrides c).
Definition set_overrides (o : obj SandboxOverride) (c : OpenAgentHubConfig) : OpenAgentHubConfig :=
  mkConfig (registryUrl c) (token c) (installed c) (permissions c) (secretGrants c) (Some o).

Definition update (f : OpenAgentHubConfig -> OpenAgentHubConfig) (s : store) : store :=
  saveConfig (mkStore (f (mem s)) (disk s)).

Definition install_key (a : InstalledAgent) : string :=
  ia_namespace a +:+ "/" +:+ ia_name a +:+ "@" +:+ ia_version a.

(** @src runtime/src/permissions.ts recordInstall *)
Definition recordInstall (agent : InstalledAgent) (s : store) : store :=
  update (fun c => set_installed (obj_set (install_key agent) agent (nullish (installed c) [])) c) s.

Definition refreshed (a : InstalledAgent) (reviewStatus : option string) (now : string) : InstalledAgent :=
  mkInstalled (ia_name a) (ia_namespace a) (ia_version a) (ia_author a) (ia_trust a)
    (ia_installedAt a) (ia_source a) (ia_signatureKeyId a) reviewStatus (Some now) (ia_archiveDigest a).

Definition installed_record (c : OpenAgentHubConfig) (key : string) : option InstalledAgent :=
  match installed c with Some o => obj_get key o | None => None end.

(** @src runtime/src/permissions.ts recordStatusRefresh *)
Definition recordStatusRefresh (key : string) (reviewStatus : option string) (now : string)
    (s : store) : store :=
  match installed_record (mem s) key with
  | None => s
  | Some r =>
      update (fun c => set_installed (obj_set key (refreshed r reviewStatus now)
                                        (nullish (installed c) [])) c) s
  end.

(** @src runtime/src/permissions.ts grantedPermissions *)
Definition grantedPermissions (c : OpenAgentHubConfig) (agentKey : string) : GrantedPermissions :=
  match permissions c with Some o => nullish (obj_get agentKey o) [] | None => [] end.

(** @src runtime/src/permissions.ts saveGrantedPermissions *)
Definition saveGrantedPermissions (agentKey : string) (perms : GrantedPermissions) (s : store) : store :=
  update (fun c => set_permissions (obj_set agentKey perms (nullish (permissions c) [])) c) s.

(** @src runtime/src/permissions.ts requestedPermissions *)
Definition requestedPermissions (perms : option (list Permission)) : list Permission :=
  let perms := nullish perms [] in
  if bool_decide (none ∈ perms) then [none] else perms.

Definition allowed_names (perms : option (list Permission)) : list string :=
  map permission_name (requestedPermissions perms).

(** @src runtime/src/permissions.ts effectivePermissions *)
Definition effectivePermissions (perms : option (list Permission)) (saved : GrantedPermissions)
    : list Permission :=
  let requested := requestedPermissions perms in
  if bool_decide (requested = [none]) then []
  else
    omap (fun kv => permission_of_name (fst kv))
      (List.filter (fun kv => Bool.eqb (snd kv) true && mem_str (fst kv) (map permission_name requested))
         saved).

(** @src runtime/src/permissions.ts unsupportedSavedGrants *)
Definition unsupportedSavedGrants (perms : option (list Permission)) (saved : GrantedPermissions)
    : list string :=
  List.filter (fun k => negb (mem_str k (allowed_names perms))) (obj_keys saved).

(** @src runtime/src/permissions.ts networkGranted *)
Definition networkGranted (perms : GrantedPermissions) : bool :=
  bool_decide (obj_get "network" perms = Some true).

(** @src runtime/src/permissions.ts grantedSecretNames *)
Definition grantedSecretNames (agentKey : string) (c : OpenAgentHubConfig) : list string :=
  match secretGrants c with Some o => nullish (obj_get agentKey o) [] | None => [] end.

(** @src runtime/src/permissions.ts saveSecretGrant *)
Definition saveSecretGrant (agentKey secret : string) (s : store) : store :=
  update (fun c =>
    let all := nullish (secretGrants c) [] in
    let grants := nullish (obj_get agentKey all) [] in
    set_secretGrants
      (obj_set agentKey (if mem_str secret grants then grants else grants ++ [secret]) all) c) s.

(** @src runtime/src/permissions.ts sandboxOverride *)
Definition sandboxOverride (c : OpenAgentHubConfig) (agentKey : string) : option SandboxOverride :=
  match sandboxOverrides c with Some o => obj_get agentKey o | None => None end.

(** @src runtime/src/permissions.ts setSandboxOverride *)
Definition setSandboxOverride (agentKey : string) (sandbox : SandboxMode) (digest now : string)
    (s : store) : store :=
  update (fun c => set_overrides
    (obj_set agentKey (mkOverride sandbox digest now) (nullish (sandboxOverrides c) [])) c) s.

(** @src runtime/src/permissions.ts clearSandboxOverride *)
Definition clearSandboxOverride (agentKey : string) (s : store) : store * bool :=
  match sandboxOverride (mem s) agentKey with
  | None => (s, false)
  | Some _ =>
      (update (fun c => set_overrides (obj_delete agentKey (nullish (sandboxOverrides c) [])) c) s, true)
  end.

(** ** Properties *)

(** The file holds what the caller holds. *)
Definition synced (s : store) : Prop := loadConfig (disk s) = Ok (mem s).

Lemma synced_save s : synced (saveConfig s).
Proof. done. Qed.

Lemma synced_update f s : synced (update f s).
Proof. done. Qed.

#[export] Hint Resolve synced_save synced_update : js.

Lemma recordInstall_lookup a s key :
  installed_record (mem (recordInstall a s)) key =
    if String.eqb (install_key a) key then Some a else installed_record (mem s) key.
Proof.
  unfold installed_record. cbn. rewrite obj_get_set. destruct (String.eqb _ _); [done|].
  by destruct (installed (mem s)).
Qed.

Lemma recordStatusRefresh_lookup key rs now s k :
  installed_record (mem (recordStatusRefresh key rs now s)) k =
    if String.eqb key k then (fun r => refreshed r rs now) <$> installed_record (mem s) key
    else installed_record (mem s) k.
Proof.
  unfold recordStatusRefresh. destruct (installed_record (mem s) key) as [r|] eqn:E.
  - unfold installed_record. cbn. rewrite obj_get_set. destruct (String.eqb_spec key k) as [->|]; [done|].
    by destruct (installed (mem s)).
  - destruct (String.eqb_spec key k) as [<-|]; [|done]. by rewrite E.
Qed.

Lemma grantedSecretNames_save agentKey secret s x k :
  x ∈ grantedSecretNames k (mem (saveSecretGrant agentKey secret s)) <->
  x ∈ grantedSecretNames k (mem s) \/ (k = agentKey /\ x = secret).
Proof.
  unfold grantedSecretNames. cbn. rewrite obj_get_set.
  assert (Hnil : nullish (obj_get k (nullish (secretGrants (mem s)) [])) [] =
    match secretGrants (mem s) with Some o => nullish (obj_get k o) [] | None => [] end)
    by by destruct (secretGrants (mem s)).
  destruct (String.eqb_spec agentKey k) as [->|Hne].
  - rewrite Hnil. cbn. destruct (mem_str secret _) eqn:E.
    + apply mem_str_spec in E. split; [by left|]. by intros [|[_ ->]].
    + rewrite elem_of_app, list_elem_of_singleton. split.
      * intros [|]; auto.
      * intros [|[_ ?]]; auto.
  - rewrite Hnil. split; [by left|]. by intros [|[? _]].
Qed.

Lemma effectivePermissions_elem perms saved p :
  p ∈ effectivePermissions perms saved <->
  (permission_name p, true) ∈ saved /\ p ∈ nullish perms [] /\ none ∉ nullish perms [].
Proof.
  unfold effectivePermissions, requestedPermissions. cbn zeta.
  destruct (bool_decide (none ∈ nullish perms [])) eqn:Hnone;
    [apply bool_decide_eq_true in Hnone|apply bool_decide_eq_false in Hnone].
  { rewrite bool_decide_eq_true_2 by done. split; [by intros ?%elem_of_nil|]. by intros (_ & _ & ?). }
  case_bool_decide as Heq; [rewrite Heq in Hnone; exfalso; apply Hnone; by left|].
  rewrite list_elem_of_omap. split.
  - intros ([k v] & Hin & Hp%permission_of_name_spec). cbn in Hp. subst k.
    apply list_elem_of_In, filter_In in Hin as [Hin [Hv Hm]%andb_prop]. cbn in *.
    apply Bool.eqb_prop in Hv as ->. apply mem_str_spec, list_elem_of_fmap in Hm as (q & Hq & Hqin).
    apply permission_name_inj in Hq as ->. split_and!; [by apply list_elem_of_In|done..].
  - intros (Hin & Hp & _). exists (permission_name p, true). cbn. split.
    + apply list_elem_of_In, filter_In. split; [by apply list_elem_of_In|]. cbn.
      apply mem_str_spec, list_elem_of_fmap. by exists p.
    + by apply permission_of_name_spec.
Qed.

(** The permissions that some of the saved names name. *)
Lemma named_nodup f (saved : GrantedPermissions) :
  NoDup (obj_keys saved) -> NoDup (omap (fun kv => permission_of_name (fst kv)) (List.filter f saved)).
Proof.
  intros Hnd. induction saved as [|[k v] o IH]; cbn [List.filter]; [constructor|].
  cbn in Hnd. apply NoDup_cons in Hnd as [Hk Hnd]. specialize (IH Hnd).
  destruct (f (k, v)); [|done]. cbn [omap list_omap fst].
  destruct (permission_of_name k) as [p|] eqn:Hp; [|done]. apply NoDup_cons. split; [|done].
  rewrite list_elem_of_omap. intros ([k' v'] & Hin & Hp'). cbn in Hp'.
  apply permission_of_name_spec in Hp, Hp'. apply list_elem_of_In, filter_In in Hin as [Hin _].
  apply Hk. apply list_elem_of_fmap. exists (k', v'). cbn. split; [congruence|by apply list_elem_of_In].
Qed.

Lemma effectivePermissions_nodup perms saved :
  NoDup (obj_keys saved) -> NoDup (effectivePermissions perms saved).
Proof. intros Hnd. unfold effectivePermissions. case_bool_decide; [constructor|]. by apply named_nodup. Qed.

(** A permission is effective exactly when the saved grants say true for it,
    the manifest requests it, and the manifest does not request [none]: grants
    the manifest does not ask for are dropped and [none] disables all. *)
Theorem effectivePermissions_iff perms saved p :
  p ∈ effectivePermissions perms saved <->
  (permission_name p, true) ∈ saved /\ p ∈ nullish perms [] /\ none ∉ nullish perms [].
Proof. apply effectivePermissions_elem. Qed.

(** The operations on a store. *)
Inductive config_op :=
| op_install (a : InstalledAgent)
| op_refresh (key : string) (rs : option string) (now : string)
| op_grant (key : string) (perms : GrantedPermissions)
| op_secret (key secret : string)
| op_set_override (key : string) (sandbox : SandboxMode) (digest now : string)
| op_clear_override (key : string).

Definition run_op (s : store) (op : config_op) : store :=
  match op with
  | op_install a => recordInstall a s
  | op_refresh k rs now => recordStatusRefresh k rs now s
  | op_grant k p => saveGrantedPermissions k p s
  | op_secret k x => saveSecretGrant k x s
  | op_set_override k m d now => setSandboxOverride k m d now s
  | op_clear_override k => fst (clearSandboxOverride k s)
  end.

Definition opt_nodup {V} (o : option (obj V)) : Prop := NoDup (obj_keys (nullish o [])).

(** Well-formed configurations: no dictionary lists a key twice, and no secret is
    granted twice to an agent. *)
Record wf_config (c : OpenAgentHubConfig) : Prop := mkWfConfig {
  wf_installed : opt_nodup (installed c);
  wf_permissions : opt_nodup (permissions c);
  wf_secrets : opt_nodup (secretGrants c);
  wf_overrides : opt_nodup (sandboxOverrides c);
  wf_grants : forall k, NoDup (grantedSecretNames k c);
}.

Lemma grants_nodup_save k x s :
  (forall k, NoDup (grantedSecretNames k (mem s))) ->
  forall k', NoDup (grantedSecretNames k' (mem (saveSecretGrant k x s))).
Proof.
  intros H k'. unfold grantedSecretNames in *. cbn. rewrite obj_get_set.
  assert (Hk : forall k', NoDup (nullish (obj_get k' (nullish (secretGrants (mem s)) [])) [])).
  { intros k0. specialize (H k0). destruct (secretGrants (mem s)); [done|constructor]. }
  destruct (String.eqb_spec k k') as [->|]; cbn; [|apply Hk].
  destruct (mem_str x _) eqn:E; [apply Hk|].
  apply NoDup_app. split_and!; [apply Hk| |apply NoDup_singleton].
  intros y Hy ->%list_elem_of_singleton. apply mem_str_spec in Hy. congruence.
Qed.

Lemma synced_refresh key rs now s : synced s -> synced (recordStatusRefresh key rs now s).
Proof. unfold recordStatusRefresh. destruct (installed_record (mem s) key); auto with js. Qed.

Lemma synced_clear key s : synced s -> synced (clearSandboxOverride key s).1.
Proof. unfold clearSandboxOverride. destruct (sandboxOverride (mem s) key); cbn; auto with js. Qed.

Ltac wf_tac :=
  let H := fresh in intros H; destruct H; unfold opt_nodup in *; split; unfold opt_nodup; cbn -[obj_keys obj_set obj_delete]; auto with js.

Lemma wf_install a s : wf_config (mem s) -> wf_config (mem (recordInstall a s)).
Proof. wf_tac. Qed.

Lemma wf_refresh key rs now s : wf_config (mem s) -> wf_config (mem (recordStatusRefresh key rs now s)).
Proof. unfold recordStatusRefresh. destruct (installed_record (mem s) key); [wf_tac|done]. Qed.

Lemma wf_grant key p s : wf_config (mem s) -> wf_config (mem (saveGrantedPermissions key p s)).
Proof. wf_tac. Qed.

Lemma wf_secret key x s : wf_config (mem s) -> wf_config (mem (saveSecretGrant key x s)).
Proof.
  intros [H1 H2 H3 H4 H5]. pose proof (grants_nodup_save key x s H5).
  unfold opt_nodup in *. split; [by auto|by auto| |by auto|by auto].
  unfold opt_nodup. cbn -[obj_keys obj_set]. auto with js.
Qed.

Lemma wf_set_override key m d now s : wf_config (mem s) -> wf_config (mem (setSandboxOverride key m d now s)).
Proof. wf_tac. Qed.

Lemma wf_clear_override key s : wf_config (mem s) -> wf_config (mem (clearSandboxOverride key s).1).
Proof. unfold clearSandboxOverride. destruct (sandboxOverride (mem s) key); cbn [fst]; [wf_tac|done]. Qed.

(** C14: Every operation on the configuration leaves the file in step with the
    object in memory (what is read back is what the program holds) and keeps the
    configuration well formed. *)
Theorem config_ops_invariant s ops :
  synced s -> wf_config (mem s) ->
  synced (fold_left run_op ops s) /\ wf_config (mem (fold_left run_op ops s)).
Proof.
  revert s. induction ops as [|op ops IH]; intros s Hs Hw; [done|]. cbn. apply IH.
  - destruct op; cbn [run_op]; solve [apply synced_update|by apply synced_refresh|by apply synced_clear].
  - destruct op; cbn [run_op]; auto using wf_install, wf_refresh, wf_grant, wf_secret, wf_set_override, wf_clear_override.
Qed.

Lemma config_ops_invariant_witness :
  let s := fold_left run_op [op_secret "a/b@1" "KEY"; op_secret "a/b@1" "KEY"]
             (mkStore empty_config cf_absent) in
  synced s /\ wf_config (mem s).
Proof.
  apply config_ops_invariant; [done|]. split; try constructor.
Defined.

(** An override is read back until it is cleared. *)
Lemma override_set_get k m d now s :
  sandboxOverride (mem (setSandboxOverride k m d now s)) k = Some (mkOverride m d now).
Proof. unfold sandboxOverride. cbn. apply obj_get_set_eq. Qed.

Lemma override_clear_get k s : sandboxOverride (mem (clearSandboxOverride k s).1) k = None.
Proof.
  unfold clearSandboxOverride. destruct (sandboxOverride (mem s) k) eqn:E; [|done].
  unfold sandboxOverride. cbn. apply obj_get_delete_eq.
Qed.

Lemma agentKeyToString_inj k1 k2 :
  js_has_char "/" (k_namespace k1) = false -> js_has_char "/" (k_namespace k2) = false ->
  js_has_char "@" (k_name k1) = false -> js_has_char "@" (k_name k2) = false ->
  agentKeyToString k1 = agentKeyToString k2 -> k1 = k2.
Proof.
  destruct k1, k2. unfold agentKeyToString. cbn. intros ???? Heq.
  apply (split_unique "/") in Heq as [-> Heq]; [|done..].
  by apply (split_unique "@") in Heq as [-> ->].
Qed.

(** *** The table of installed agents

    Every entry is under the key its own fields make, and that key can be read back. *)
Definition good_names (a : InstalledAgent) : Prop := js_has_char "/" (ia_namespace a) = false /\ js_has_char "@" (ia_name a) = false.
Definition keyed (c : OpenAgentHubConfig) : Prop :=
  forall k a, (k, a) ∈ nullish (installed c) [] -> k = install_key a /\ good_names a.

Lemma obj_set_elem {V} k v k0 (v0 : V) o : (k, v) ∈ obj_set k0 v0 o -> (k, v) = (k0, v0) \/ (k, v) ∈ o.
Proof.
  induction o as [|[k1 v1] o IH]; cbn [obj_set]; [intros ?%list_elem_of_singleton; by left|].
  destruct (String.eqb_spec k0 k1) as [->|]; intros [Heq|Hin]%elem_of_cons; [by left|right; by right|right; rewrite Heq; by left|].
  destruct (IH Hin) as [->|]; [by left|right; by right].
Qed.

Lemma keyed_set c k a : keyed c -> k = install_key a -> good_names a ->
  keyed (set_installed (obj_set k a (nullish (installed c) [])) c).
Proof. intros Hc Hk Ha k' a' [[= -> ->]|Hin]%obj_set_elem; [by split|by apply Hc]. Qed.

(** Every operation keeps the table so, if what is installed has names a spec can hold. *)
Theorem config_keyed s ops :
  (forall a, op_install a ∈ ops -> good_names a) -> keyed (mem s) -> keyed (mem (fold_left run_op ops s)).
Proof.
  revert s. induction ops as [|op ops IH]; intros s Hops Hs; [done|]. cbn [fold_left]. apply IH; [intros a Ha; apply Hops; by right|].
  destruct op; cbn [run_op]; try exact Hs.
  - apply keyed_set; [done|done|]. apply Hops. by left.
  - unfold recordStatusRefresh. destruct (installed_record (mem s) key) as [r|] eqn:Hr; [|done].
    assert (Hin : (key, r) ∈ nullish (installed (mem s)) []).
    { unfold installed_record in Hr. destruct (installed (mem s)) as [o|]; [|done]. by apply obj_get_elem. }
    apply keyed_set; [done|by apply (Hs key r)|by apply (Hs key r)].
  - unfold clearSandboxOverride. by destruct (sandboxOverride (mem s) key).
Qed.

(** The installed versions of an agent have different version fields. *)
Lemma keyed_version c ns nm k a k' a' rest rest' :
  keyed c -> opt_nodup (installed c) -> js_has_char "/" ns = false -> js_has_char "@" nm = false ->
  (k, a) ∈ nullish (installed c) [] -> (k', a') ∈ nullish (installed c) [] ->
  k = ns +:+ "/" +:+ nm +:+ "@" +:+ rest -> k' = ns +:+ "/" +:+ nm +:+ "@" +:+ rest' -> ia_version a = ia_version a' -> (k, a) = (k', a').
Proof.
  intros Hc Hnd Hns Hnm Hin Hin' Hk Hk' Hv.
  assert (Hparts : forall k a rest, (k, a) ∈ nullish (installed c) [] -> k = ns +:+ "/" +:+ nm +:+ "@" +:+ rest -> rest = ia_version a).
  { clear -Hc Hns Hnm. intros k a rest Hin Hk. destruct (Hc _ _ Hin) as (Hka & Ha1 & Ha2). rewrite Hk in Hka.
    unfold install_key, agentKeyToString in Hka. cbn in Hka.
    apply (split_unique "/") in Hka as [-> Heq]; [|done..]. by apply (split_unique "@") in Heq as [_ ->]. }
  pose proof (Hparts _ _ _ Hin Hk) as Hr. pose proof (Hparts _ _ _ Hin' Hk') as Hr'. subst rest rest'. rewrite Hv in Hk. rewrite <- Hk' in Hk. subst k.
  f_equal. unfold opt_nodup in Hnd. apply obj_elem_get in Hin; [|done]. apply obj_elem_get in Hin'; [|done]. congruence.
Qed.
End Config.
