(* ===== verification/Resolve.v ===== *)
(** Selecting an installed agent by name: [cli/src/lib/resolve.ts]. *)
From S2P Require Import Prelude NodePath Manifest Requirements Policy Versions Config.

Module Resolve.
Import NodePath Manifest Requirements Policy Versions Config.
Local Open Scope Z_scope.

(** @src cli/src/lib/resolve.ts InstalledMatch *)
Record InstalledMatch := mkMatch { m_key : string; m_record : InstalledAgent }.

Section resolve.
Context (localeCompare : string -> string -> Z).

Definition match_leb (a b : InstalledMatch) : bool :=
  cliCompareVersions localeCompare (ia_version (m_record a)) (ia_version (m_record b)) <=? 0.

(** @src cli/src/lib/resolve.ts installedMatches *)
Definition installedMatches (c : OpenAgentHubConfig) (namespace name : string) : list InstalledMatch :=
  let prefix := namespace +:+ "/" +:+ name +:+ "@" in
  js_sort match_leb
    (map (fun kv => mkMatch (fst kv) (snd kv))
       (List.filter (fun kv => js_startsWith (fst kv) prefix) (nullish (installed c) []))).

Definition not_installed (namespace name : string) (version : option string) : string :=
  "agent '" +:+ namespace +:+ "/" +:+ name +:+
  (if truthy version then "@" +:+ nullish version "" else "") +:+ "' is not installed".

(** @src cli/src/lib/resolve.ts resolveInstalledOrThrow *)
Definition resolveInstalledOrThrow (c : OpenAgentHubConfig) (namespace name : string)
    (version : option string) : result InstalledMatch :=
  let matches := installedMatches c namespace name in
  match last matches with
  | None => throw EError (not_installed namespace name version)
  | Some highest =>
      if truthy version then
        match List.find (fun m => String.eqb (ia_version (m_record m)) (nullish version "")) matches with
        | None => throw EError (not_installed namespace name version)
        | Some exact => Ok exact
        end
      else Ok highest
  end.

(** @src cli/src/lib/resolve.ts highestInstalledVersion *)
Definition highestInstalledVersion (l : list InstalledMatch) : option string :=
  highestVersion localeCompare (map (fun m => ia_version (m_record m)) l).

(** ** Properties *)

Lemma installedMatches_elem c ns n m :
  m ∈ installedMatches c ns n <->
  (m_key m, m_record m) ∈ nullish (installed c) [] /\
  exists rest, m_key m = ns +:+ "/" +:+ n +:+ "@" +:+ rest.
Proof.
  unfold installedMatches. rewrite js_sort_elem, list_elem_of_fmap. split.
  - intros ([k r] & -> & Hin). apply list_elem_of_In, filter_In in Hin as [Hin Hp]. cbn in *.
    split; [by apply list_elem_of_In|]. apply startsWith_spec in Hp as [t ->]. exists t.
    repeat (rewrite sapp_assoc; cbn); done.
  - intros [Hin [rest Hk]]. exists (m_key m, m_record m). split; [by destruct m|].
    apply list_elem_of_In, filter_In. split; [by apply list_elem_of_In|]. cbn.
    apply startsWith_spec. exists rest. rewrite Hk. repeat (rewrite sapp_assoc; cbn); done.
Qed.

Context `{!Collation localeCompare}.

Definition num_match (m : InstalledMatch) : Prop := num_core (ia_version (m_record m)).

Lemma match_total a b : num_match a -> num_match b -> match_leb a b = true \/ match_leb b a = true.
Proof. apply (cli_total localeCompare). Qed.

Lemma match_trans a b d :
  num_match a -> num_match b -> num_match d ->
  match_leb a b = true -> match_leb b d = true -> match_leb a d = true.
Proof. apply (cli_trans localeCompare). Qed.

(** Without a version, resolving an installed agent succeeds exactly when a
    version of it is installed, and gives one whose version is a maximum of the
    CLI's order over all of them (for numeric release cores); with a version it
    gives an installed record of exactly that version or reports it missing. *)
Theorem resolveInstalledOrThrow_spec c ns n version :
  Forall num_match (installedMatches c ns n) ->
  match resolveInstalledOrThrow c ns n version with
  | Ok m =>
      m ∈ installedMatches c ns n /\
      (if truthy version then version = Some (ia_version (m_record m))
       else forall m', m' ∈ installedMatches c ns n ->
              cliCompareVersions localeCompare (ia_version (m_record m')) (ia_version (m_record m)) <= 0)
  | Throw e =>
      err_class e = EError /\
      (if truthy version
       then forall m', m' ∈ installedMatches c ns n -> version <> Some (ia_version (m_record m'))
       else installedMatches c ns n = [])
  end.
Proof.
  intros Hnum. unfold resolveInstalledOrThrow. cbn zeta.
  destruct (last (installedMatches c ns n)) as [h|] eqn:Hlast.
  2: { apply last_None in Hlast. split; [done|]. rewrite Hlast. destruct (truthy version); [|done].
       by intros m ?%elem_of_nil. }
  destruct (truthy version) eqn:Hv.
  - destruct version as [v|]; [|done]. cbn [nullish default].
    destruct (List.find _ _) as [m|] eqn:Hf.
    + apply find_some in Hf as [Hin Heq]. bool_prop. split; [by apply list_elem_of_In|].
      cbn in Heq. by rewrite Heq.
    + split; [done|]. intros m' Hin [= ->]. pose proof (find_none _ _ Hf m') as Hn.
      cbn in Hn. rewrite String.eqb_refl in Hn. discriminate Hn. by apply list_elem_of_In.
  - split; [apply last_Some in Hlast as [l ->]; apply elem_of_app; right; by left|].
    intros m' Hin. apply Z.leb_le. fold (match_leb m' h).
    unfold installedMatches in *. rewrite js_sort_perm in Hnum.
    eapply (js_sort_last_max match_leb num_match); [apply match_total|apply match_trans|done|done|].
    by apply js_sort_elem in Hin.
Qed.
End resolve.

(** A concrete collation: the order of the code units. *)
Definition code_unit_compare (a b : string) : Z :=
  match String.compare a b with Lt => -1 | Eq => 0 | Gt => 1 end.

Lemma string_compare_trans a b d : String.compare a b <> Gt -> String.compare b d <> Gt -> String.compare a d <> Gt.
Proof.
  revert b d. induction a as [|x a IH]; intros [|y b] [|z d]; cbn; try done.
  unfold Ascii.compare.
  destruct (N.compare_spec (N_of_ascii x) (N_of_ascii y)), (N.compare_spec (N_of_ascii y) (N_of_ascii z)),
    (N.compare_spec (N_of_ascii x) (N_of_ascii z)); try done; try lia. apply IH.
Qed.

#[export] Instance code_unit_collation : Collation code_unit_compare.
Proof.
  split; unfold code_unit_compare.
  - intros a b. rewrite (String.compare_antisym a b). by destruct (String.compare b a).
  - intros a b d H1 H2. pose proof (string_compare_trans a b d) as H.
    destruct (String.compare a b), (String.compare b d), (String.compare a d); try lia; by destruct H.
Qed.

Definition demo_record (v : string) : InstalledAgent :=
  mkInstalled "b" "a" v "x" untrusted "" "" None None None None.

Definition demo_config : OpenAgentHubConfig :=
  set_installed [("a/b@1.9.0", demo_record "1.9.0"); ("a/b@1.10.0", demo_record "1.10.0");
                 ("a/bc@2.0.0", demo_record "2.0.0")] empty_config.

Lemma resolveInstalledOrThrow_spec_witness :
  resolveInstalledOrThrow code_unit_compare demo_config "a" "b" None
    = Ok (mkMatch "a/b@1.10.0" (demo_record "1.10.0")) /\
  match resolveInstalledOrThrow code_unit_compare demo_config "a" "b" None with
  | Ok m =>
      m ∈ installedMatches code_unit_compare demo_config "a" "b" /\
      (if truthy None then None = Some (ia_version (m_record m))
       else forall m', m' ∈ installedMatches code_unit_compare demo_config "a" "b" ->
              cliCompareVersions code_unit_compare (ia_version (m_record m')) (ia_version (m_record m)) <= 0)
  | Throw e =>
      err_class e = EError /\
      (if truthy None
       then forall m', m' ∈ installedMatches code_unit_compare demo_config "a" "b" -> None <> Some (ia_version (m_record m'))
       else installedMatches code_unit_compare demo_config "a" "b" = [])
  end.
Proof.
  split; [reflexivity|].
  apply (resolveInstalledOrThrow_spec code_unit_compare demo_config "a" "b" None).
  repeat constructor; eexists; reflexivity.
Defined.
End Resolve.
