(* ===== verification/Secrets.v ===== *)
(** The encrypted secret store: [runtime/src/secrets.ts], and the programs that
    read and change it: [cli/src/commands/env.ts], the key functions of
    [runtime/src/usage/live.ts] and [cli/src/lib/credentials.ts]. *)
From S2P Require Import Prelude Fs NodePath.

Module Secrets.
Import Fs.

(** ** Node's cryptography and encodings, and JSON on dictionaries of strings *)
Class VaultCrypto := {
  Text : Type;                                   (* UTF-8 bytes of a JSON text *)
  sha256_digest : string -> string;
  sha256_hex : string -> string;
  scryptSync : string -> string -> nat -> string;
  gcm_seal : string -> string -> Text -> string * string;  (* key, iv: ciphertext, tag *)
  gcm_open : string -> string -> string -> string -> option Text; (* key, iv, tag, ciphertext *)
  to_base64 : string -> string;
  from_base64 : string -> string;
  to_hex : string -> string;
  from_hex : string -> string;
  stringify : obj string -> Text;
  parse : Text -> option (obj string);
}.

(** What their documentation promises. *)
Class VaultCryptoLaws `{VaultCrypto} : Prop := {
  gcm_correct : forall key iv t,
    gcm_open key iv (gcm_seal key iv t).2 (gcm_seal key iv t).1 = Some t;
  base64_correct : forall s, from_base64 (to_base64 s) = s;
  hex_correct : forall s, from_hex (to_hex s) = s;
  scrypt_length : forall p s n, String.length (scryptSync p s n) = n;
  json_correct : forall o, NoDup (obj_keys o) -> parse (stringify o) = Some o;
  json_keys_unique : forall t o, parse t = Some o -> NoDup (obj_keys o);
}.

(** @src runtime/src/secrets.ts KEY_LEN *)
Definition KEY_LEN : nat := 32.

(** @src runtime/src/secrets.ts machineId *)
Definition machineId (env_AGENT_MACHINE_ID etc_machine_id dbus_machine_id : option string) : string :=
  if truthy env_AGENT_MACHINE_ID then nullish env_AGENT_MACHINE_ID ""
  else if truthy (js_trim <$> etc_machine_id) then js_trim (nullish etc_machine_id "")
  else if truthy (js_trim <$> dbus_machine_id) then js_trim (nullish dbus_machine_id "")
  else "default-machine".

(** @src runtime/src/secrets.ts EncryptedBlob *)
Record EncryptedBlob := mkBlob { b_v : Z; b_iv : string; b_tag : string; b_data : string }.

(** The content of a file of the vault directory: one that cannot be read, one
    that is not the JSON text of a blob, a blob. *)
Inductive vfile :=
| vf_unreadable (msg : string)
| vf_garbage
| vf_blob (b : EncryptedBlob).

(** @src runtime/src/secrets.ts 76-80 SecretsVault *)
Record SecretsVault := mkVault { key : string; dir : string }.

Section vault.
Context `{VaultCrypto}.

(** @src runtime/src/secrets.ts deriveKey *)
Definition deriveKey (machine passphrase : string) : string :=
  scryptSync passphrase (sha256_digest ("openagenthub:v1:" +:+ machine)) KEY_LEN.

(** @src runtime/src/secrets.ts encrypt *)
Definition encrypt (iv : string) (plaintext : Text) (key : string) : EncryptedBlob :=
  let '(enc, tag) := gcm_seal key iv plaintext in
  mkBlob 1 (to_base64 iv) (to_base64 tag) (to_base64 enc).

(** @src runtime/src/secrets.ts decrypt *)
Definition decrypt (f : vfile) (key : string) : result Text :=
  match f with
  | vf_blob blob =>
      if negb (Z.eqb (b_v blob) 1) then throw EError "unsupported secrets format"
      else match gcm_open key (from_base64 (b_iv blob)) (from_base64 (b_tag blob))
                   (from_base64 (b_data blob)) with
           | Some t => Ok t
           | None => throw EError "Unsupported state or unable to authenticate data"
           end
  | _ => throw EError "Unexpected token"
  end.

(** @src runtime/src/secrets.ts pathFor *)
Definition pathFor (v : SecretsVault) (agentKey : string) : string :=
  NodePath.join (dir v) (js_take 32 (sha256_hex agentKey) +:+ ".json").

Definition corrupt_msg (p master agentKey : string) : string :=
  "secret file " +:+ p +:+ " failed to decrypt — the master key (" +:+ master +:+
  ") may have changed or the file is corrupt" +:+ str1 LF +:+
  "recovery: encrypted secrets are unrecoverable by design; delete this file and re-store the secrets with: agent env "
  +:+ agentKey +:+ " KEY=VALUE".

(** The master key file: absent, or its text. [open_vault] returns the vault and
    the text written to it, when it writes one; [random] are the bytes
    [randomBytes] gives.
    @src runtime/src/secrets.ts SecretsVault.open *)
Definition open_vault (SECRETS_DIR : string) (opt_dir passphrase : option string) (machine : string)
    (master : option string) (random : string) : result (SecretsVault * option string) :=
  let d := nullish opt_dir SECRETS_DIR in
  let '(k, master') :=
    if truthy passphrase then (deriveKey machine (nullish passphrase ""), master)
    else match master with
         | Some text => (from_hex text, master)
         | None => (random, Some (to_hex random))
         end in
  if negb (Nat.eqb (String.length k) KEY_LEN) then throw EError "invalid vault key length"
  else Ok (mkVault k d, master').

(** @src runtime/src/secrets.ts has *)
Definition has (v : SecretsVault) (m : fs vfile) (agentKey : string) : bool :=
  bool_decide (is_Some (m !! pathFor v agentKey)).

Context (MASTER_KEY_PATH : string).

(** @src runtime/src/secrets.ts get *)
Definition get (v : SecretsVault) (m : fs vfile) (agentKey : string) : result (obj string) :=
  let p := pathFor v agentKey in
  match m !! p with
  | None => Ok []
  | Some (vf_unreadable msg) =>
      throw EVaultCorrupt ("cannot read secret file " +:+ p +:+ ": " +:+ msg)
  | Some raw =>
      match decrypt raw (key v) with
      | Ok t => match parse t with
                | Some o => Ok o
                | None => throw EVaultCorrupt (corrupt_msg p MASTER_KEY_PATH agentKey)
                end
      | Throw _ => throw EVaultCorrupt (corrupt_msg p MASTER_KEY_PATH agentKey)
      end
  end.

(** The [for] loop of [set] that deletes the empty values. *)
Definition drop_loop (entries merged : obj string) : obj string :=
  fold_left (fun acc kv => if String.eqb (snd kv) "" then obj_delete (fst kv) acc else acc)
    entries merged.

Definition drop_empty (merged : obj string) : obj string := drop_loop merged merged.

Definition set_tmp (v : SecretsVault) (agentKey pid : string) : string :=
  pathFor v agentKey +:+ ".tmp-" +:+ pid.

(** The file operations of [set]; [iv] are the random bytes [encrypt] draws.
    @src runtime/src/secrets.ts set *)
Definition set_ops (v : SecretsVault) (m : fs vfile) (pid iv agentKey : string) (values : obj string)
    : result (list (fs_op vfile)) :=
  current ← get v m agentKey;
  let merged := drop_empty (obj_merge current values) in
  let payload := encrypt iv (stringify merged) (key v) in
  mret (replace_file (pathFor v agentKey) (set_tmp v agentKey pid) (vf_blob payload)).

Definition set (v : SecretsVault) (m : fs vfile) (pid iv agentKey : string) (values : obj string)
    : result (fs vfile) :=
  ops ← set_ops v m pid iv agentKey values; mret (fs_run m ops).

(** @src runtime/src/secrets.ts delete *)
Definition delete_ (v : SecretsVault) (m : fs vfile) (agentKey : string) : fs vfile :=
  fs_step m (fs_remove (pathFor v agentKey)).

(** @src runtime/src/secrets.ts SecretsVault.list *)
Definition list_files (readdir : list string) : list string :=
  List.filter (fun f => js_endsWith f ".json") readdir.
End vault.

(** ** What the vault promises its clients

    A store of dictionaries by name, in which a dictionary is read, or merged
    with new values.  [reads] says that what is there can be read. *)
Class SecretStore (S : Type) := {
  ss_get : S -> string -> result (obj string);
  ss_set : S -> string -> obj string -> result S;
  ss_apart : S -> string -> string -> Prop;
}.

(** The value a dictionary holds after a merge. *)
Definition merged_value (current values : obj string) (k : string) : option string :=
  let v := match obj_get k values with Some x => Some x | None => obj_get k current end in
  if bool_decide (v = Some "") then None else v.

Class SecretStoreLaws (S : Type) `{SecretStore S} : Prop := {
  ss_get_nodup : forall s a o, ss_get s a = Ok o -> NoDup (obj_keys o);
  ss_set_ok : forall s a values o,
    ss_get s a = Ok o -> NoDup (obj_keys values) ->
    exists s' o', ss_set s a values = Ok s' /\ ss_get s' a = Ok o' /\
      (forall k, obj_get k o' = merged_value o values k) /\
      (forall b, ss_apart s a b -> ss_get s' b = ss_get s b);
  ss_set_error : forall s a values e, ss_get s a = Throw e -> ss_set s a values = Throw e;
}.

Section clients.
Context {S : Type} `{SecretStore S}.

(** [runtime/src/usage/live.ts] *)
Definition INTEGRATION_VAULT_KEY : string := "__integrations__".

(** @src runtime/src/usage/live.ts integrationKey *)
Definition integrationKey (s : S) (process_env : obj string) (env : string) : result (option string) :=
  o ← ss_get s INTEGRATION_VAULT_KEY;
  mret (match obj_get env o with Some v => Some v | None => obj_get env process_env end).

(** @src runtime/src/usage/live.ts storeIntegrationKey *)
Definition storeIntegrationKey (s : S) (env value : string) : result S :=
  current ← ss_get s INTEGRATION_VAULT_KEY;
  ss_set s INTEGRATION_VAULT_KEY (obj_set env value current).

(** @src runtime/src/usage/live.ts clearIntegrationKey *)
Definition clearIntegrationKey (s : S) (env : string) : result S :=
  current ← ss_get s INTEGRATION_VAULT_KEY;
  ss_set s INTEGRATION_VAULT_KEY (obj_delete env current).

(** [cli/src/commands/env.ts], once the agent and the vault are resolved; the
    lines it prints, or the error it exits with. *)
Definition secret_name_char (c : ascii) : bool := is_upper c || is_digit c || Ascii.eqb c "_".

Definition valid_secret_name (k : string) : bool :=
  match k with String c k' => is_upper c && js_all secret_name_char k' | EmptyString => false end.

(** The loop over the KEY=VALUE arguments.
    @src cli/src/commands/env.ts 88-99 run *)
Fixpoint env_values (kv : list string) (values : obj string) : result (obj string) :=
  match kv with
  | [] => Ok values
  | item :: kv' =>
      let '(k, rest) := js_span (fun c => negb (Ascii.eqb c "=")) item in
      if String.eqb rest "" || String.eqb k "" then throw EError ("expected KEY=VALUE, got '" +:+ item +:+ "'")
      else if negb (valid_secret_name k) then
        throw EError ("invalid secret name '" +:+ k +:+ "': must match ^[A-Z][A-Z0-9_]*$")
      else env_values kv' (obj_set k (js_drop 1 rest) values)
  end.

Record env_flags := mkEnvFlags { f_delete : option string; f_reveal : option string }.

(** @src cli/src/commands/env.ts 47-102 run *)
Definition env_run (s : S) (agentKey : string) (flags : env_flags) (kv : list string)
    : result (S * list string) :=
  if truthy (f_delete flags) then
    let k := nullish (f_delete flags) "" in
    current ← ss_get s agentKey;
    match obj_get k current with
    | None => throw EError ("no secret named '" +:+ k +:+ "'")
    | Some _ =>
        s' ← ss_set s agentKey (obj_delete k current);
        mret (s', ["deleted " +:+ k +:+ " for " +:+ agentKey])
    end
  else if truthy (f_reveal flags) then
    let k := nullish (f_reveal flags) "" in
    current ← ss_get s agentKey;
    match obj_get k current with
    | None => throw EError ("no secret named '" +:+ k +:+ "'")
    | Some x => mret (s, [x])
    end
  else match kv with
       | [] =>
           current ← ss_get s agentKey;
           match obj_keys current with
           | [] => mret (s, ["no secrets stored for " +:+ agentKey])
           | names => mret (s, ["secrets for " +:+ agentKey +:+ ": " +:+ js_join ", " names;
                                "(set a value with: openagenthub env <spec> KEY=VALUE)"])
           end
       | _ =>
           values ← env_values kv [];
           s' ← ss_set s agentKey values;
           mret (s', ["stored " +:+ pretty (length (obj_keys values)) +:+ " secret(s) for " +:+
                      agentKey +:+ " (encrypted)"])
       end.

(** [cli/src/lib/credentials.ts] *)

(** @src cli/src/lib/credentials.ts CliCredential *)
Record CliCredential := mkCred {
  accessToken : string;
  username : string;
  cr_registryUrl : string;
  tokenType : string;
  storedAt : string;
}.

Definition VAULT_KEY : string := "openagenthub:cli-auth".

(** [new URL(u).origin], and JSON on credentials. *)
Context (url_origin : string -> option string).
Context (cred_json : CliCredential -> string) (cred_parse : string -> option CliCredential).

(** @src cli/src/lib/credentials.ts registryOrigin *)
Definition registryOrigin (url : string) : string := nullish (url_origin url) url.

(** @src cli/src/lib/credentials.ts getCredential *)
Definition getCredential (s : S) (registryUrl : string) : option CliCredential :=
  match ss_get s VAULT_KEY with
  | Ok all =>
      match obj_get (registryOrigin registryUrl) all with
      | Some raw => if String.eqb raw "" then None else cred_parse raw
      | None => None
      end
  | Throw _ => None
  end.

(** @src cli/src/lib/credentials.ts saveCredential *)
Definition saveCredential (s : S) (cred : CliCredential) : result S :=
  all ← ss_get s VAULT_KEY;
  ss_set s VAULT_KEY (obj_set (registryOrigin (cr_registryUrl cred)) (cred_json cred) all).

(** @src cli/src/lib/credentials.ts deleteCredential *)
Definition deleteCredential (s : S) (registryUrl : string) : result S :=
  all ← ss_get s VAULT_KEY;
  ss_set s VAULT_KEY (obj_set (registryOrigin registryUrl) "" all).

(** @src cli/src/lib/credentials.ts hasCredential *)
Definition hasCredential (s : S) (registryUrl : string) : bool :=
  match getCredential s registryUrl with Some _ => true | None => false end.

(** [config_token] is [loadConfig().token].
    @src cli/src/lib/credentials.ts resolveToken *)
Definition resolveToken (s : S) (config_token : option string) (registryUrl : string) : option string :=
  match getCredential s registryUrl with
  | Some c => if negb (String.eqb (accessToken c) "") then Some (accessToken c) else config_token
  | None => config_token
  end.
End clients.

(** ** Properties *)

Lemma drop_loop_get l acc k :
  obj_get k (drop_loop l acc) = if bool_decide ((k, "") ∈ l) then None else obj_get k acc.
Proof.
  revert acc. unfold drop_loop. induction l as [|[k' x] l IH]; intros acc; [done|]. cbn. rewrite IH.
  destruct (String.eqb_spec x "") as [->|Hx].
  - destruct (decide (k = k')) as [->|Hne].
    + rewrite obj_get_delete_eq. rewrite (bool_decide_eq_true_2 ((k', "") ∈ (k', "") :: l)) by by left.
      by destruct (bool_decide _).
    + rewrite obj_get_delete_ne by done. erewrite (bool_decide_ext ((k, "") ∈ l)); [done|].
      rewrite elem_of_cons. split; [by right|]. by intros [[=]|].
  - erewrite (bool_decide_ext ((k, "") ∈ l)); [done|].
    rewrite elem_of_cons. split; [by right|]. by intros [[= -> <-]|].
Qed.

Lemma drop_empty_get o k :
  NoDup (obj_keys o) ->
  obj_get k (drop_empty o) = if bool_decide (obj_get k o = Some "") then None else obj_get k o.
Proof.
  intros Hnd. unfold drop_empty. rewrite drop_loop_get.
  erewrite bool_decide_ext; [done|]. split; [by apply obj_elem_get|by apply obj_get_elem].
Qed.

Lemma drop_empty_nodup o : NoDup (obj_keys o) -> NoDup (obj_keys (drop_empty o)).
Proof.
  unfold drop_empty, drop_loop. generalize o at 2. generalize o as acc0. intros acc0 l. revert acc0.
  induction l as [|[k x] l IH]; intros acc Hacc; [done|]. cbn. apply IH.
  destruct (String.eqb x ""); auto with js.
Qed.

Lemma merge_drop_get o values k :
  NoDup (obj_keys o) -> NoDup (obj_keys values) ->
  obj_get k (drop_empty (obj_merge o values)) = merged_value o values k.
Proof.
  intros Ho Hv. rewrite drop_empty_get by auto with js. unfold merged_value.
  by rewrite !obj_get_merge.
Qed.

Section vault_facts.
Context `{VaultCryptoLaws} (master : string).

Lemma decrypt_encrypt iv t k : decrypt (vf_blob (encrypt iv t k)) k = Ok t.
Proof.
  unfold encrypt. destruct (gcm_seal k iv t) as [enc tag] eqn:E. cbn.
  rewrite !base64_correct. pose proof (gcm_correct k iv t) as Hc. rewrite E in Hc. cbn in Hc.
  by rewrite Hc.
Qed.

Lemma get_nodup v m a o : get master v m a = Ok o -> NoDup (obj_keys o).
Proof.
  unfold get. cbv zeta. destruct (m !! pathFor v a) as [[| |b]|]; try done.
  - destruct (decrypt _ _); [|done]. destruct (parse a0) eqn:E; [|done].
    intros [= <-]. by eapply json_keys_unique.
  - intros [= <-]. constructor.
Qed.

Lemma set_tmp_ne v a pid : pathFor v a <> set_tmp v a pid.
Proof. by apply tmp_ne. Qed.

Lemma get_sealed v (m : gmap string vfile) a iv o :
  NoDup (obj_keys o) -> m !! pathFor v a = Some (vf_blob (encrypt iv (stringify o) (key v))) ->
  get master v m a = Ok o.
Proof. intros Hnd Hm. unfold get. cbv zeta. by rewrite Hm, decrypt_encrypt, json_correct. Qed.

Lemma vault_set_laws v m pid iv a values o :
  get master v m a = Ok o -> NoDup (obj_keys values) ->
  exists m' o', set master v m pid iv a values = Ok m' /\ get master v m' a = Ok o' /\
    (forall k, obj_get k o' = merged_value o values k) /\
    (forall b, pathFor v b <> pathFor v a -> pathFor v b <> set_tmp v a pid ->
       get master v m' b = get master v m b).
Proof.
  intros Hg Hv. pose proof (get_nodup _ _ _ _ Hg) as Ho.
  unfold set, set_ops. rewrite Hg. cbn [mbind result_mbind result_bind mret result_mret].
  eexists _, (drop_empty (obj_merge o values)). split_and!; [reflexivity| | |].
  - apply (get_sealed _ _ _ iv); [apply drop_empty_nodup; auto with js|].
    rewrite replace_file_done by apply set_tmp_ne. by rewrite decide_True.
  - intros k. by apply merge_drop_get.
  - intros b Hb Ht. unfold get. rewrite replace_file_done by auto using set_tmp_ne.
    by rewrite decide_False.
Qed.

(** C13: Storing secrets merges them: after a [set] the agent's dictionary holds
    the new values, the old values of the other names, and no name with an empty
    value; the dictionaries of agents with another file are untouched. *)
Theorem vault_set_get v m pid iv a values o :
  get master v m a = Ok o -> NoDup (obj_keys values) ->
  exists m' o', set master v m pid iv a values = Ok m' /\ get master v m' a = Ok o' /\
    (forall k, obj_get k o' = merged_value o values k) /\
    (forall b, pathFor v b <> pathFor v a -> pathFor v b <> set_tmp v a pid ->
       get master v m' b = get master v m b).
Proof. apply vault_set_laws. Qed.

(** A crash at any point of [set] loses nothing: whatever prefix of its file
    operations was done, the agent's secrets read back as the old dictionary or
    as the new one. *)
Theorem vault_set_atomic v m pid iv a values ops n o :
  get master v m a = Ok o -> NoDup (obj_keys values) ->
  set_ops master v m pid iv a values = Ok ops ->
  get master v (fs_run m (take n ops)) a = Ok o \/
  exists o', get master v (fs_run m (take n ops)) a = Ok o' /\
             forall k, obj_get k o' = merged_value o values k.
Proof.
  intros Hg Hv. pose proof (get_nodup _ _ _ _ Hg) as Ho.
  unfold set_ops. rewrite Hg. cbn [mbind result_mbind result_bind mret result_mret].
  intros [= <-].
  destruct (replace_file_atomic (pathFor v a) (set_tmp v a pid)
    (vf_blob (encrypt iv (stringify (drop_empty (obj_merge o values))) (key v))) m n (pathFor v a))
    as [Heq|[_ Heq]]; [apply set_tmp_ne..|left|right].
  - rewrite <- Hg. unfold get. by rewrite Heq.
  - exists (drop_empty (obj_merge o values)). split.
    + apply (get_sealed _ _ _ iv); [apply drop_empty_nodup; auto with js|done].
    + intros k. by apply merge_drop_get.
Qed.

(** A file the key does not open is reported, and never overwritten. *)
Lemma set_refuses v m pid iv a values e :
  get master v m a = Throw e -> set_ops master v m pid iv a values = Throw e.
Proof. intros Hg. unfold set_ops. by rewrite Hg. Qed.

Lemma get_error_class v m a e : get master v m a = Throw e -> err_class e = EVaultCorrupt.
Proof.
  unfold get. cbv zeta. destruct (m !! pathFor v a) as [[| |b]|]; try done.
  1,2: by intros [= <-].
  destruct (decrypt _ _); [destruct (parse _)|]; by intros [= <-].
Qed.

(** Opening the vault succeeds only with a key of 32 bytes; without a
    passphrase the key that is used is the one the master key file holds
    afterwards, so opening again, with whatever fresh random bytes, gives the same
    vault. *)
Theorem open_vault_persists sd d pass machine file random v file' :
  open_vault sd d pass machine file random = Ok (v, file') ->
  String.length (key v) = KEY_LEN /\
  forall random', open_vault sd d pass machine file' random' = Ok (v, file').
Proof.
  unfold open_vault. destruct (truthy pass) eqn:Hp.
  - cbn zeta. destruct (Nat.eqb_spec (String.length (deriveKey machine (nullish pass ""))) KEY_LEN); [|done].
    intros [= <- <-]. done.
  - destruct file as [text|]; cbn [negb].
    + destruct (Nat.eqb_spec (String.length (from_hex text)) KEY_LEN) as [E|]; [|done].
      intros [= <- <-]. cbn [key]. split; [done|]. intros _. by rewrite E, Nat.eqb_refl.
    + destruct (Nat.eqb_spec (String.length random) KEY_LEN) as [E|]; [|done].
      intros [= <- <-]. cbn [key]. split; [done|]. intros _. by rewrite hex_correct, E, Nat.eqb_refl.
Qed.
End vault_facts.

(** The vault implements the interface: the state is the vault object, the files,
    and the number of random values drawn so far. *)
Record vstore := mkVstore { vs_vault : SecretsVault; vs_files : gmap string vfile; vs_draws : nat }.

Section vault_store.
Context `{VaultCrypto} (master pid : string) (random : nat -> string).

#[export] Instance vault_secret_store : SecretStore vstore := {
  ss_get s a := get master (vs_vault s) (vs_files s) a;
  ss_set s a values :=
    m ← set master (vs_vault s) (vs_files s) pid (random (vs_draws s)) a values;
    mret (mkVstore (vs_vault s) m (S (vs_draws s)));
  ss_apart s a b :=
    pathFor (vs_vault s) b <> pathFor (vs_vault s) a /\
    pathFor (vs_vault s) b <> set_tmp (vs_vault s) a pid;
}.

#[export] Instance vault_secret_store_laws `{!VaultCryptoLaws} : SecretStoreLaws vstore.
Proof.
  split; cbn.
  - intros s a o. apply get_nodup.
  - intros s a values o Hg Hv.
    destruct (vault_set_laws master (vs_vault s) (vs_files s) pid (random (vs_draws s)) a values o Hg Hv)
      as (m' & o' & -> & Hg' & Hk & Hb).
    eexists _, o'. split_and!; [reflexivity|done|done|]. intros b [H1 H2]. by apply Hb.
  - intros s a values e Hg. unfold set. by rewrite (set_refuses _ _ _ _ _ _ _ _ Hg).
Qed.
End vault_store.

Section client_facts.
Context {St : Type} `{SecretStoreLaws St}.

(** The pattern the code deletes a key with: read the dictionary, delete the key
    from it, store the dictionary. *)
Lemma delete_by_set s a k x o :
  ss_get s a = Ok o -> obj_get k o = Some x -> x <> "" ->
  exists s' o', ss_set s a (obj_delete k o) = Ok s' /\ ss_get s' a = Ok o' /\ obj_get k o' = Some x.
Proof.
  intros Hg Hk Hx. pose proof (ss_get_nodup _ _ _ Hg) as Hnd.
  destruct (ss_set_ok s a (obj_delete k o) o Hg) as (s' & o' & Hs & Hg' & Hm & _); [auto with js|].
  exists s', o'. split_and!; [done..|]. rewrite Hm. unfold merged_value.
  rewrite obj_get_delete_eq, Hk, bool_decide_eq_false_2 by congruence. done.
Qed.

(** [agent env <spec> --delete KEY] reports the key deleted, and the key is
    still there: [set] merges what it is given into the stored dictionary, so a
    name that is missing from its argument keeps its value. *)
Theorem env_delete_keeps_secret s a k x o flags kv :
  f_delete flags = Some k -> k <> "" ->
  ss_get s a = Ok o -> obj_get k o = Some x -> x <> "" ->
  exists s' o', env_run s a flags kv = Ok (s', ["deleted " +:+ k +:+ " for " +:+ a]) /\
    ss_get s' a = Ok o' /\ obj_get k o' = Some x.
Proof.
  intros Hf Hk Hg Ho Hx. destruct (delete_by_set s a k x o Hg Ho Hx) as (s' & o' & Hs & Hg' & Hx').
  exists s', o'. unfold env_run. rewrite Hf. cbn [truthy nullish default from_option id].
  apply String.eqb_neq in Hk. rewrite Hk. cbn [negb].
  change (default "" (Some k)) with k. rewrite Hg. cbn [mbind result_mbind result_bind]. rewrite Ho, Hs. done.
Qed.

(** [integrations set-key --unset] leaves the stored key in place, and the
    next collection still uses it, for the same reason. *)
Theorem clearIntegrationKey_keeps_key s env x o penv :
  ss_get s INTEGRATION_VAULT_KEY = Ok o -> obj_get env o = Some x -> x <> "" ->
  exists s', clearIntegrationKey s env = Ok s' /\ integrationKey s' penv env = Ok (Some x).
Proof.
  intros Hg Ho Hx. destruct (delete_by_set s _ env x o Hg Ho Hx) as (s' & o' & Hs & Hg' & Hx').
  exists s'. unfold clearIntegrationKey, integrationKey. rewrite Hg. cbn [mbind result_mbind result_bind].
  rewrite Hs, Hg'. cbn [mbind result_mbind result_bind]. by rewrite Hx'.
Qed.

Context (url_origin : string -> option string).
Context (cred_json : CliCredential -> string) (cred_parse : string -> option CliCredential).

(** A saved credential is the one found for every URL of its origin; deleting
    it (which stores an empty value) makes it unfindable; and neither changes what
    is found for another origin. *)
Theorem credential_roundtrip s c o :
  ss_get s VAULT_KEY = Ok o -> cred_json c <> "" -> cred_parse (cred_json c) = Some c ->
  exists s1 s2,
    saveCredential url_origin cred_json s c = Ok s1 /\
    deleteCredential url_origin s1 (cr_registryUrl c) = Ok s2 /\
    (forall url, registryOrigin url_origin url = registryOrigin url_origin (cr_registryUrl c) ->
       getCredential url_origin cred_parse s1 url = Some c /\
       getCredential url_origin cred_parse s2 url = None) /\
    (forall url, registryOrigin url_origin url <> registryOrigin url_origin (cr_registryUrl c) ->
       getCredential url_origin cred_parse s1 url = getCredential url_origin cred_parse s url /\
       getCredential url_origin cred_parse s2 url = getCredential url_origin cred_parse s url).
Proof.
  intros Hg Hne Hp. pose proof (ss_get_nodup _ _ _ Hg) as Hnd.
  set (u := registryOrigin url_origin (cr_registryUrl c)).
  destruct (ss_set_ok s VAULT_KEY (obj_set u (cred_json c) o) o Hg) as (s1 & o1 & Hs1 & Hg1 & Hm1 & _);
    [auto with js|].
  pose proof (ss_get_nodup _ _ _ Hg1) as Hnd1.
  destruct (ss_set_ok s1 VAULT_KEY (obj_set u "" o1) o1 Hg1) as (s2 & o2 & Hs2 & Hg2 & Hm2 & _);
    [auto with js|].
  exists s1, s2. unfold saveCredential, deleteCredential, getCredential. fold u.
  rewrite Hg, Hg1, Hg2. cbn [mbind result_mbind result_bind]. split_and!; [done..| |].
  - intros url ->. rewrite Hm1, Hm2. unfold merged_value. rewrite !obj_get_set_eq.
    rewrite bool_decide_eq_false_2 by congruence. apply String.eqb_neq in Hne. rewrite Hne.
    split; [done|]. by rewrite bool_decide_eq_true_2.
  - intros url Hurl. apply not_eq_sym in Hurl.
    assert (H1 : obj_get (registryOrigin url_origin url) o1 = merged_value o o (registryOrigin url_origin url)).
    { rewrite Hm1. unfold merged_value. by rewrite obj_get_set_ne. }
    rewrite Hm2. unfold merged_value in *. rewrite obj_get_set_ne by done. rewrite H1.
    destruct (obj_get (registryOrigin url_origin url) o) as [w|]; [|done].
    destruct (String.eqb_spec w "") as [->|Hw]; [done|].
    assert (Hd : bool_decide (Some w = Some "") = false) by (apply bool_decide_eq_false_2; congruence).
    rewrite Hd, Hd. apply String.eqb_neq in Hw. by rewrite Hw.
Qed.
End client_facts.

(** ** A concrete store for the witnesses: identity encodings, and a cipher that
    tags the text with the key. *)
Fixpoint toy_encode (l : list string) : string :=
  match l with
  | [] => ""
  | w :: l' => js_flat_map (fun c => String "1" (str1 c)) w +:+ String "0" (toy_encode l')
  end.

Fixpoint toy_decode (s : string) : list string :=
  match s with
  | String b s1 =>
      if Ascii.eqb b "1" then
        match s1 with
        | String c s' => match toy_decode s' with w :: ws => String c w :: ws | [] => [str1 c] end
        | EmptyString => []
        end
      else "" :: toy_decode s1
  | EmptyString => []
  end.

Lemma toy_decode_encode l : toy_decode (toy_encode l) = l.
Proof.
  induction l as [|w l IH]; [done|]. cbn. induction w as [|c w IHw]; cbn.
  - by rewrite IH.
  - by rewrite IHw.
Qed.

Fixpoint toy_pairs (l : list string) : obj string :=
  match l with k :: x :: l' => (k, x) :: toy_pairs l' | _ => [] end.

Lemma toy_pairs_flat (o : obj string) : toy_pairs (flat_map (fun kv => [fst kv; snd kv]) o) = o.
Proof. induction o as [|[k x] o IH]; [done|]. cbn. by rewrite IH. Qed.

Definition toy_vault_crypto : VaultCrypto := {|
  Text := string;
  sha256_digest s := s;
  sha256_hex s := s;
  scryptSync _ _ n := String.string_of_list_ascii (List.repeat "k"%char n);
  gcm_seal k iv t := (t, k);
  gcm_open k iv tag enc := if String.eqb k tag then Some enc else None;
  to_base64 s := s; from_base64 s := s; to_hex s := s; from_hex s := s;
  stringify o := toy_encode (flat_map (fun kv => [fst kv; snd kv]) o);
  parse t := let o := toy_pairs (toy_decode t) in
             if bool_decide (NoDup (obj_keys o)) then Some o else None;
|}.

Lemma toy_vault_laws : @VaultCryptoLaws toy_vault_crypto.
Proof.
  split; cbn; try done.
  - intros k iv t. by rewrite String.eqb_refl.
  - intros _ _ n. induction n as [|n IH]; [done|]. cbn. by rewrite IH.
  - intros o Hnd. rewrite toy_decode_encode, toy_pairs_flat. by rewrite bool_decide_eq_true_2.
  - intros t o. case_bool_decide; [|done]. by intros [= <-].
Defined.

Definition toy_vault : SecretsVault := mkVault "00000000000000000000000000000000" "/home/u/secrets".

Definition toy_state (a : string) (o : obj string) : vstore :=
  mkVstore toy_vault
    {[@pathFor toy_vault_crypto toy_vault a :=
        vf_blob (@encrypt toy_vault_crypto "iv" (@stringify toy_vault_crypto o) (key toy_vault))]} 0.

Lemma toy_get a o :
  NoDup (obj_keys o) ->
  @get toy_vault_crypto "master" toy_vault (vs_files (toy_state a o)) a = Ok o.
Proof.
  intros Hnd. apply (@get_sealed toy_vault_crypto toy_vault_laws "master" toy_vault _ a "iv" o Hnd).
  apply lookup_singleton_eq.
Defined.

Definition demo_secrets : obj string := [("KEY", "1"); ("OLD", "2")].

Lemma demo_nodup : NoDup (obj_keys demo_secrets).
Proof. apply (bool_decide_unpack _). reflexivity. Defined.

Lemma vault_set_get_witness :
  exists m' o',
    @set toy_vault_crypto "master" toy_vault (vs_files (toy_state "a" demo_secrets)) "7" "iv" "a"
      [("KEY", "")] = Ok m' /\
    @get toy_vault_crypto "master" toy_vault m' "a" = Ok o' /\
    (forall k, obj_get k o' = merged_value demo_secrets [("KEY", "")] k).
Proof.
  destruct (@vault_set_get toy_vault_crypto toy_vault_laws "master" toy_vault
    (vs_files (toy_state "a" demo_secrets)) "7" "iv" "a" [("KEY", "")] demo_secrets) as (m' & o' & H1 & H2 & H3 & _).
  - apply toy_get, demo_nodup.
  - apply NoDup_singleton.
  - exists m', o'. done.
Defined.

Lemma vault_set_atomic_witness :
  exists ops,
    @get toy_vault_crypto "master" toy_vault
      (fs_run (vs_files (toy_state "a" demo_secrets)) (take 1 ops)) "a" = Ok demo_secrets \/
    exists o', @get toy_vault_crypto "master" toy_vault
      (fs_run (vs_files (toy_state "a" demo_secrets)) (take 1 ops)) "a" = Ok o' /\
      forall k, obj_get k o' = merged_value demo_secrets [("KEY", "")] k.
Proof.
  eexists. eapply (@vault_set_atomic toy_vault_crypto toy_vault_laws "master" toy_vault
    (vs_files (toy_state "a" demo_secrets)) "7" "iv" "a" [("KEY", "")]).
  - apply toy_get, demo_nodup.
  - apply NoDup_singleton.
  - unfold set_ops. rewrite (toy_get "a" demo_secrets demo_nodup). reflexivity.
Defined.

Lemma open_vault_persists_witness :
  let k := "0123456789abcdef0123456789abcdef" in
  String.length k = KEY_LEN /\
  forall random', @open_vault toy_vault_crypto "/s" None None "m" (Some k) random'
                    = Ok (mkVault k "/s", Some k).
Proof.
  intros k. apply (@open_vault_persists toy_vault_crypto toy_vault_laws "/s" None None "m" None k
    (mkVault k "/s") (Some k)). reflexivity.
Defined.

Definition toy_store := @vault_secret_store toy_vault_crypto "master" "7" (fun _ => "iv").
Definition toy_store_laws :=
  @vault_secret_store_laws toy_vault_crypto "master" "7" (fun _ => "iv") toy_vault_laws.

Lemma env_delete_keeps_secret_witness :
  exists s' o',
    @env_run vstore toy_store (toy_state "a" demo_secrets) "a" (mkEnvFlags (Some "KEY") None) []
      = Ok (s', ["deleted KEY for a"]) /\
    @ss_get vstore toy_store s' "a" = Ok o' /\ obj_get "KEY" o' = Some "1".
Proof.
  apply (@env_delete_keeps_secret vstore toy_store toy_store_laws _ "a" "KEY" "1" demo_secrets);
    [done|done|apply toy_get, demo_nodup|done|done].
Defined.

Lemma clearIntegrationKey_keeps_key_witness :
  exists s', @clearIntegrationKey vstore toy_store (toy_state INTEGRATION_VAULT_KEY demo_secrets) "KEY" = Ok s' /\
    @integrationKey vstore toy_store s' [] "KEY" = Ok (Some "1").
Proof.
  apply (@clearIntegrationKey_keeps_key vstore toy_store toy_store_laws _ "KEY" "1" demo_secrets);
    [apply toy_get, demo_nodup|done|done].
Defined.

Definition demo_cred : CliCredential := mkCred "tok" "ann" "https://r" "bearer" "now".

Lemma credential_roundtrip_witness :
  exists s1 s2,
    @saveCredential vstore toy_store (fun u => Some u) (fun c => accessToken c)
      (toy_state VAULT_KEY demo_secrets) demo_cred = Ok s1 /\
    @deleteCredential vstore toy_store (fun u => Some u) s1 "https://r" = Ok s2.
Proof.
  destruct (@credential_roundtrip vstore toy_store toy_store_laws (fun u => Some u)
    (fun c => accessToken c) (fun t => Some (mkCred t "ann" "https://r" "bearer" "now"))
    (toy_state VAULT_KEY demo_secrets) demo_cred demo_secrets) as (s1 & s2 & H1 & H2 & _);
    [apply toy_get, demo_nodup|done|done|].
  exists s1, s2. done.
Defined.
End Secrets.
