(* ===== verification/Models.v ===== *)
(** The choice of the model and the environment of an agent:
    [runtime/src/models.ts]. *)
From S2P Require Import Prelude Fs NodePath Manifest Secrets.

Module Models.
Import Manifest Secrets.

(** @src runtime/src/models.ts ModelConfig *)
Record ModelConfig := mkModel {
  mc_provider : ModelProvider;
  mc_model : string;
  mc_baseUrl : option string;
  mc_apiKey : option string;
}.

Record provider_config := mkProvider { pc_model : string; pc_baseUrl : option string; pc_keyEnv : option string }.

(** @src runtime/src/models.ts PROVIDERS *)
Definition PROVIDERS (p : ModelProvider) : provider_config :=
  match p with
  | openai => mkProvider "gpt-4o-mini" (Some "https://api.openai.com/v1") (Some "OPENAI_API_KEY")
  | anthropic => mkProvider "claude-sonnet-4-20250514" (Some "https://api.anthropic.com") (Some "ANTHROPIC_API_KEY")
  | google => mkProvider "gemini-2.0-flash" (Some "https://generativelanguage.googleapis.com/v1beta") (Some "GOOGLE_API_KEY")
  | deepseek => mkProvider "deepseek-chat" (Some "https://api.deepseek.com") (Some "DEEPSEEK_API_KEY")
  | ollama => mkProvider "llama3.1" (Some "http://localhost:11434/v1") None
  | mistral => mkProvider "mistral-small-latest" (Some "https://api.mistral.ai/v1") (Some "MISTRAL_API_KEY")
  | xai => mkProvider "grok-2-latest" (Some "https://api.x.ai/v1") (Some "XAI_API_KEY")
  | groq => mkProvider "llama-3.1-8b-instant" (Some "https://api.groq.com/openai/v1") (Some "GROQ_API_KEY")
  | local_model => mkProvider "local-model" (Some "http://localhost:8000/v1") None
  | custom => mkProvider "custom-model" None None
  end.

(** The key of a provider among the secrets, when it has one. *)
Definition secret_of (p : ModelProvider) (secrets : obj string) : option string :=
  match pc_keyEnv (PROVIDERS p) with Some k => obj_get k secrets | None => None end.

Definition usable (secrets : obj string) (p : ModelProvider) : bool :=
  match pc_keyEnv (PROVIDERS p) with None => true | Some _ => truthy (secret_of p secrets) end.

(** @src runtime/src/models.ts 39-46 pickModel *)
Definition requested_provider (supported : list ModelProvider) (requested : string)
    : result (ModelProvider * option string) :=
  match js_split ":" requested with
  | reqProvider :: rest =>
      match provider_of_name reqProvider with
      | Some p => if bool_decide (p ∈ supported) then Ok (p, head rest)
                  else throw EModel ("model provider '" +:+ reqProvider +:+ "' is not in manifest.models.supported ("
                         +:+ js_join ", " (map provider_name supported) +:+ ")")
      | None => throw EModel ("model provider '" +:+ reqProvider +:+ "' is not in manifest.models.supported ("
                  +:+ js_join ", " (map provider_name supported) +:+ ")")
      end
  | [] => throw EModel ""
  end.

(** [secrets] is [vault.get(agentKey)], which may throw.
    @src runtime/src/models.ts pickModel *)
Definition pickModel (m : Manifest) (requested : option string) (vault_get : result (obj string))
    (agentKey : string) : result ModelConfig :=
  secrets ← vault_get;
  choice ←
    (if truthy requested then requested_provider (supported m) (nullish requested "")
     else match List.find (usable secrets) (supported m) with
          | Some p => Ok (p, None)
          | None => match supported m with
                    | p :: _ => Ok (p, None)
                    | [] => throw EType "Cannot read properties of undefined (reading 'model')"
                    end
          end);
  let '(provider, overrideModel) := choice in
  let cfg := PROVIDERS provider in
  let apiKey := secret_of provider secrets in
  if truthy requested && negb (bool_decide (pc_keyEnv cfg = None)) && negb (truthy apiKey)
     && negb (bool_decide (provider = ollama)) && negb (bool_decide (provider = local_model))
  then throw EModel ("no API key for provider '" +:+ provider_name provider +:+ "'. Set it with: agent env "
         +:+ agentKey +:+ " " +:+ nullish (pc_keyEnv cfg) "" +:+ "=...")
  else Ok (mkModel provider (nullish overrideModel (pc_model cfg)) (pc_baseUrl cfg) apiKey).

Definition set_if (cond : bool) (k : string) (v : option string) (o : obj string) : obj string :=
  if cond then obj_set k (nullish v "") o else o.

(** @src runtime/src/models.ts buildAgentEnv *)
Definition buildAgentEnv (model : ModelConfig) (agentName agentVersion : string) : obj string :=
  let keyEnv := pc_keyEnv (PROVIDERS (mc_provider model)) in
  let env := [("AGENT_NAME", agentName); ("AGENT_VERSION", agentVersion);
              ("AGENT_MODEL_PROVIDER", provider_name (mc_provider model));
              ("AGENT_MODEL_NAME", mc_model model)] in
  let env := set_if (truthy (mc_baseUrl model)) "AGENT_BASE_URL" (mc_baseUrl model) env in
  let env := set_if (truthy (mc_apiKey model)) "AGENT_API_KEY" (mc_apiKey model) env in
  let env := if truthy keyEnv && truthy (mc_apiKey model)
             then obj_set (nullish keyEnv "") (nullish (mc_apiKey model) "") env else env in
  if truthy keyEnv && negb (truthy (mc_apiKey model)) && negb (bool_decide (mc_provider model = ollama))
     && negb (bool_decide (mc_provider model = local_model))
  then obj_set "AGENT_MODEL_KEY_MISSING" (nullish keyEnv "") env else env.

(** ** Properties *)

Lemma model_provider_of_name_spec s p : provider_of_name s = Some p <-> provider_name p = s.
Proof.
  unfold provider_of_name. split.
  - intros [_ H]%find_some. by apply String.eqb_eq.
  - intros <-. by destruct p.
Qed.

Lemma keyed_not_local p : pc_keyEnv (PROVIDERS p) <> None -> p <> ollama /\ p <> local_model.
Proof. destruct p; cbn; intros H; split; done. Qed.

(** The model that is picked uses a provider the manifest supports, with the
    key the vault holds for that provider.  When the user names a provider it is
    that one, and a provider that needs a key is refused unless the vault has it;
    otherwise it is the first supported provider that needs no key or has one, or
    the first supported one if there is none. *)
Theorem pickModel_spec m requested secrets agentKey cfg :
  pickModel m requested (Ok secrets) agentKey = Ok cfg ->
  mc_provider cfg ∈ supported m /\
  mc_apiKey cfg = secret_of (mc_provider cfg) secrets /\
  mc_baseUrl cfg = pc_baseUrl (PROVIDERS (mc_provider cfg)) /\
  (if truthy requested then
     head (js_split ":" (nullish requested "")) = Some (provider_name (mc_provider cfg)) /\
     usable secrets (mc_provider cfg) = true
   else
     mc_model cfg = pc_model (PROVIDERS (mc_provider cfg)) /\
     exists before after, supported m = before ++ mc_provider cfg :: after /\
       (Forall (fun p => usable secrets p = false) before /\ usable secrets (mc_provider cfg) = true
        \/ before = [] /\ Forall (fun p => usable secrets p = false) (supported m))).
Proof.
  unfold pickModel. cbn [mbind result_mbind result_bind]. destruct (truthy requested) eqn:Hr.
  - unfold requested_provider. destruct (js_split ":" (nullish requested "")) as [|r rest] eqn:Hs; [done|].
    destruct (provider_of_name r) as [p|] eqn:Hp; [|done]. apply model_provider_of_name_spec in Hp as <-.
    case_bool_decide as Hin; [|done]. cbn [mbind result_mbind result_bind andb]; cbv beta iota zeta.
    destruct (negb (bool_decide (pc_keyEnv (PROVIDERS p) = None)) && negb (truthy (secret_of p secrets))
      && negb (bool_decide (p = ollama)) && negb (bool_decide (p = local_model))) eqn:E; [done|].
    intros [= <-]. cbn. split_and!; [done..|]. unfold usable.
    destruct (pc_keyEnv (PROVIDERS p)) as [k|] eqn:Hk; [|done].
    destruct (keyed_not_local p) as [H1 H2]; [by rewrite Hk|].
    rewrite (bool_decide_eq_false_2 (Some k = None)) in E by done.
    rewrite (bool_decide_eq_false_2 (p = ollama)), (bool_decide_eq_false_2 (p = local_model)) in E by done.
    destruct (truthy (secret_of p secrets)); done.
  - destruct (List.find (usable secrets) (supported m)) as [p|] eqn:Hf.
    + cbn [mbind result_mbind result_bind andb]; cbv beta iota zeta. intros [= <-]. cbn.
      assert (Hsplit : exists before after, supported m = before ++ p :: after /\
        Forall (fun p => usable secrets p = false) before /\ usable secrets p = true).
      { revert Hf. induction (supported m) as [|q l IH]; [done|]. cbn.
        destruct (usable secrets q) eqn:Hq.
        - intros [= <-]. by exists [], l.
        - intros H. destruct (IH H) as (b & a & -> & Hb & Hp). exists (q :: b), a. by repeat constructor. }
      destruct Hsplit as (b & a & Hl & Hb & Hp). split_and!; [rewrite Hl; set_solver|done..|].
      exists b, a. split; [done|]. by left.
    + destruct (supported m) as [|p l] eqn:Hl; [done|]. cbn [mbind result_mbind result_bind andb]; cbv beta iota zeta. intros [= <-]. cbn.
      split_and!; [by left|done..|]. exists [], l. split; [done|]. right. split; [done|].
      apply Forall_forall. intros q Hq%list_elem_of_In. by eapply find_none in Hf.
Qed.

Definition demo_models (l : list ModelProvider) : Manifest :=
  mkManifest "a/b" "1.0.0" "x" "d" "MIT" None None None (mkRuntimeSpec python None None None) None
    l (mkInterfaces None None None) None None None None None.

Lemma pickModel_spec_witness :
  let cfg := mkModel xai "grok-2-latest" (Some "https://api.x.ai/v1") (Some "k") in
  mc_provider cfg ∈ supported (demo_models [openai; xai]) /\
  mc_apiKey cfg = secret_of (mc_provider cfg) [("XAI_API_KEY", "k")].
Proof.
  intros cfg. destruct (pickModel_spec (demo_models [openai; xai]) None [("XAI_API_KEY", "k")] "a/b@1" cfg)
    as (H1 & H2 & _); [reflexivity|]. done.
Defined.

(** A model name with a colon, as the tags of ollama models have, is cut at
    the second colon: of [provider:name:tag] only [name] is used. *)
Theorem pickModel_drops_tag m p name tag secrets agentKey :
  p ∈ supported m -> pc_keyEnv (PROVIDERS p) = None ->
  js_has_char ":" name = false -> js_has_char ":" tag = false ->
  pickModel m (Some (provider_name p +:+ ":" +:+ name +:+ ":" +:+ tag)) (Ok secrets) agentKey =
    Ok (mkModel p name (pc_baseUrl (PROVIDERS p)) None).
Proof.
  intros Hin Hk Hn Ht. unfold pickModel. cbn [mbind result_mbind result_bind].
  assert (Hne : truthy (Some (provider_name p +:+ ":" +:+ name +:+ ":" +:+ tag)) = true) by by destruct p.
  rewrite Hne. cbn [nullish default from_option id]. unfold requested_provider.
  assert (Hs : js_split ":" (provider_name p +:+ ":" +:+ name +:+ ":" +:+ tag) = [provider_name p; name; tag]).
  { change (provider_name p +:+ ":" +:+ name +:+ ":" +:+ tag)
      with (js_join (str1 ":") [provider_name p; name; tag]).
    apply split_join; [done|]. repeat constructor; [by destruct p|done..]. }
  change (default "" (Some (provider_name p +:+ ":" +:+ name +:+ ":" +:+ tag)))
    with (provider_name p +:+ ":" +:+ name +:+ ":" +:+ tag). rewrite Hs.
  replace (provider_of_name (provider_name p)) with (Some p) by (symmetry; by apply model_provider_of_name_spec).
  rewrite bool_decide_eq_true_2 by done. cbn [mbind result_mbind result_bind head].
  unfold secret_of. rewrite Hk. rewrite (bool_decide_eq_true_2 (None = None)) by done. done.
Qed.

Lemma pickModel_drops_tag_witness :
  pickModel (demo_models [ollama]) (Some "ollama:llama3:70b") (Ok []) "a/b@1" =
    Ok (mkModel ollama "llama3" (Some "http://localhost:11434/v1") None).
Proof. apply (pickModel_drops_tag (demo_models [ollama]) ollama "llama3" "70b" [] "a/b@1"); [by left|done..]. Defined.
End Models.
