(* ===== verification/Sandbox.v ===== *)
(** What the two sandboxes share ([runtime/src/sandbox/types.ts]) and the process
    sandbox ([runtime/src/sandbox/process.ts]).

    Commands that are run to completion ([execFileSync]) go through a monad that
    records each command and asks an oracle for its outcome; a spawned child is
    followed through the events Node delivers for it. *)
From S2P Require Import Prelude NodePath Trace Manifest.

Module Sandbox.
Import Trace Manifest.

(** @src runtime/src/sandbox/types.ts RunOptions *)
Record RunOptions := mkRunOptions {
  ro_command : string;
  ro_input : option string;
  ro_timeoutMs : option Z;
  ro_streamOutput : bool;
}.

(** @src runtime/src/sandbox/types.ts RunResult *)
Record RunResult := mkRunResult {
  exitCode : Z;
  stdout : string;
  stderr : string;
  timedOut : bool;
}.

(** @src runtime/src/sandbox/types.ts SandboxSpec *)
Record SandboxSpec := mkSpec {
  s_agentDir : string;
  s_manifest : Manifest;
  s_granted : list Permission;
  s_env : obj string;
  s_network : bool;
  s_user : string;
  s_host : string;
  s_runId : option string;
  s_interfaceName : option string;
  s_packageDigest : option string;
}.

(** ** External commands *)
Record cmd := mkCmd { c_prog : string; c_args : list string; c_cwd : option string; c_env : option (obj string) }.

(** [execFileSync]: the outcome may depend on everything run before. *)
Definition call (exec : list cmd -> cmd -> result unit) (c : cmd) : tr cmd unit :=
  act c (fun h => exec h c).

(** [spawn]: the child is started; [a] is what its events amount to. *)
Definition spawned {A} (c : cmd) (a : A) : tr cmd A := act c (fun _ => Ok a).

(** ** A spawned child *)
Inductive child_event :=
| ev_stdout (d : string)
| ev_stderr (d : string)
| ev_timer
| ev_error (msg : string)
| ev_close (code : option Z).

Record child_state := mkChild {
  cs_out : string;
  cs_err : string;
  cs_truncOut : bool;
  cs_truncErr : bool;
  cs_timedOut : bool;
  cs_result : option RunResult;
}.

Definition child_init : child_state := mkChild "" "" false false false None.

Definition resolve_child (r : RunResult) (s : child_state) : child_state :=
  mkChild (cs_out s) (cs_err s) (cs_truncOut s) (cs_truncErr s) (cs_timedOut s)
    (match cs_result s with Some r0 => Some r0 | None => Some r end).

(** The timer exists when [timeoutMs] is truthy, and is cleared once settled. *)
Definition timer_set (opts : RunOptions) : bool :=
  match ro_timeoutMs opts with Some n => negb (Z.eqb n 0) | None => false end.

Definition on_timer (opts : RunOptions) (s : child_state) : child_state :=
  if timer_set opts && match cs_result s with None => true | Some _ => false end then
    mkChild (cs_out s) (cs_err s) (cs_truncOut s) (cs_truncErr s) true (cs_result s)
  else s.

Definition error_result (msg : string) (s : child_state) : RunResult :=
  mkRunResult 1 (cs_out s) (msg +:+ str1 LF +:+ cs_err s) (cs_timedOut s).

(** [runInteractive] settles with the first exit or error. *)
Definition interactive_code (events : list child_event) : option Z :=
  head (omap (fun ev => match ev with
                        | ev_close code => Some (nullish code 1%Z)
                        | ev_error _ => Some 1%Z
                        | _ => None
                        end) events).

(** ** The process sandbox *)

(** @src runtime/src/sandbox/process.ts 11-11 splitCommand *)
Definition metachar (c : ascii) : bool :=
  js_has_char c ";&|<>`$()".

Definition bad_token (t : string) : bool := negb (js_all (fun c => negb (metachar c)) t).

(** @src runtime/src/sandbox/process.ts splitCommand *)
Definition splitCommand (command : string) : result (list string) :=
  let tokens := List.filter (fun t => negb (String.eqb t "")) (js_split_by Ascii.is_space (js_trim command)) in
  match tokens with
  | [] => throw EError "empty command"
  | _ =>
      match List.find bad_token tokens with
      | Some t => throw EError ("shell metacharacters are not allowed on the process sandbox path: '" +:+ t +:+ "'")
      | None => Ok tokens
      end
  end.

(** The part of the data-handling of [run] that accumulates, and its end.
    @src runtime/src/sandbox/process.ts 80-103 run *)
Definition process_event (opts : RunOptions) (s : child_state) (ev : child_event) : child_state :=
  match ev with
  | ev_stdout d => mkChild (cs_out s +:+ d) (cs_err s) (cs_truncOut s) (cs_truncErr s) (cs_timedOut s) (cs_result s)
  | ev_stderr d => mkChild (cs_out s) (cs_err s +:+ d) (cs_truncOut s) (cs_truncErr s) (cs_timedOut s) (cs_result s)
  | ev_timer => on_timer opts s
  | ev_error msg => resolve_child (error_result msg s) s
  | ev_close code => resolve_child (mkRunResult (nullish code 1%Z) (cs_out s) (cs_err s) (cs_timedOut s)) s
  end.

Section process.
Context (exec : list cmd -> cmd -> result unit).
Context (PYTHON_BIN : option string) (process_env : obj string).

Definition pythonBin : string := nullish PYTHON_BIN "python3".

(** @src runtime/src/sandbox/process.ts envFor *)
Definition envFor (spec : SandboxSpec) : obj string := obj_merge process_env (s_env spec).

Definition deps_of (m : Manifest) : Dependencies := nullish (dependencies m) (mkDeps None None None).

Definition nonempty {A} (o : option (list A)) : bool :=
  match o with Some (_ :: _) => true | _ => false end.

(** [prepare] when it has not run yet.
    @src runtime/src/sandbox/process.ts prepare *)
Definition process_prepare (spec : SandboxSpec) : tr cmd unit :=
  let deps := deps_of (s_manifest spec) in
  match language (runtime (s_manifest spec)) with
  | python =>
      if nonempty (dep_pip deps) then
        if negb (s_network spec) then
          tr_throw EError "agent declares pip dependencies but network permission was not granted"
        else
          let venv := NodePath.join (s_agentDir spec) ".venv" in
          _ ← tr_catch (call exec (mkCmd pythonBin ["-m"; "venv"; venv] None None))
                (fun e => tr_throw EError ("failed to create virtual environment: " +:+ err_message e));
          call exec (mkCmd (NodePath.join (NodePath.join venv "bin") "pip")
            (["install"; "--disable-pip-version-check"; "--quiet"] ++ nullish (dep_pip deps) []) None None)
      else mret tt
  | node =>
      if nonempty (dep_npm deps) then
        if negb (s_network spec) then
          tr_throw EError "agent declares npm dependencies but network permission was not granted"
        else
          call exec (mkCmd "npm" (["install"; "--no-audit"; "--no-fund"; "--silent"] ++ nullish (dep_npm deps) [])
            (Some (s_agentDir spec)) None)
      else mret tt
  | _ => mret tt
  end.

(** The child is spawned from the first token, without a shell; the result is
    [None] while no event has settled it.
    @src runtime/src/sandbox/process.ts 68-105 run *)
Definition process_run (spec : SandboxSpec) (opts : RunOptions) (events : list child_event)
    : tr cmd (option RunResult) :=
  _ ← process_prepare spec;
  tokens ← tr_lift (splitCommand (ro_command opts));
  match tokens with
  | [] => tr_throw EError "empty command"
  | prog :: args =>
      spawned (mkCmd prog args (Some (s_agentDir spec)) (Some (envFor spec)))
        (cs_result (fold_left (process_event opts) events child_init))
  end.

(** @src runtime/src/sandbox/process.ts runInteractive *)
Definition process_runInteractive (spec : SandboxSpec) (opts : RunOptions) (events : list child_event)
    : tr cmd (option Z) :=
  _ ← process_prepare spec;
  tokens ← tr_lift (splitCommand (ro_command opts));
  match tokens with
  | [] => tr_throw EError "empty command"
  | prog :: args =>
      spawned (mkCmd prog args (Some (s_agentDir spec)) (Some (envFor spec))) (interactive_code events)
  end.
End process.

(** ** Properties *)

Definition clean_token (t : string) : Prop :=
  t <> "" /\ forall c, js_has_char c t = true -> metachar c = false /\ Ascii.is_space c = false.

Lemma all_forall f s : js_all f s = true <-> forall c, js_has_char c s = true -> f c = true.
Proof.
  induction s as [|x s IH]; cbn; [done|]. rewrite andb_true_iff, IH. split.
  - intros [Hx Hs] c [->%Ascii.eqb_eq|Hc]%orb_prop; auto.
  - intros H. split; [apply H; by rewrite Ascii.eqb_refl|]. intros c Hc. apply H. by rewrite Hc, orb_true_r.
Qed.

Definition words_of (s : string) : list string :=
  List.filter (fun t => negb (String.eqb t "")) (js_split_by Ascii.is_space (js_trim s)).

(** The process sandbox accepts a command exactly when it has a word and no
    word contains a shell metacharacter; what it then spawns is the words of the
    command, none empty, none holding white space or a metacharacter. *)
Theorem splitCommand_ok_iff command tokens :
  splitCommand command = Ok tokens <->
  tokens = words_of command /\ tokens <> [] /\ Forall clean_token tokens.
Proof.
  unfold splitCommand. cbv zeta. fold (words_of command).
  destruct (words_of command) as [|t0 ts] eqn:Hw.
  { split; [done|]. intros (-> & ? & _). done. }
  destruct (List.find bad_token (t0 :: ts)) as [t|] eqn:Hf.
  - split; [done|]. intros (-> & _ & Hc). exfalso. apply find_some in Hf as [Hin Hbad].
    rewrite Forall_forall in Hc. apply list_elem_of_In in Hin. destruct (Hc t Hin) as [_ Hcl].
    unfold bad_token in Hbad. apply negb_true_iff in Hbad.
    assert (Hall : js_all (fun c => negb (metachar c)) t = true); [|congruence].
    apply all_forall. intros c H. by destruct (Hcl c H) as [-> _].
  - split; [|by intros (-> & _ & _)]. intros [= <-]. split_and!; [done|done|].
    apply Forall_forall. intros t Ht. pose proof (find_none _ _ Hf t) as Hn.
    rewrite <- Hw in Ht, Hn. pose proof Ht as Ht'. apply list_elem_of_In in Ht'. specialize (Hn Ht').
    unfold bad_token in Hn. apply negb_false_iff in Hn. unfold words_of in Ht'. apply filter_In in Ht' as [Hin Hne]. bool_prop. split; [done|].
    intros c Hc. split.
    + rewrite all_forall in Hn. specialize (Hn c Hc). by bool_prop.
    + destruct (Ascii.is_space c) eqn:Hs; [|done]. apply list_elem_of_In in Hin.
      rewrite (split_by_no_sep _ _ _ _ Hin Hs) in Hc. done.
Qed.

Lemma resolve_child_some r s : is_Some (cs_result (resolve_child r s)).
Proof. cbn. by destruct (cs_result s). Qed.

(** Once a result is given it does not change. *)
Lemma process_event_settled opts s ev r :
  cs_result s = Some r -> cs_result (process_event opts s ev) = Some r.
Proof.
  intros H. destruct ev; cbn; unfold on_timer; rewrite ?H; cbn; try done.
  by rewrite andb_false_r, H.
Qed.
End Sandbox.
