(* ===== verification/Container.v ===== *)
(** The container sandbox: [runtime/src/sandbox/container.ts].  Docker itself is
    outside the repository: commands go to the oracle of [Sandbox.v], and what
    docker and the shell of the container read from the arguments is stated with
    a reader of docker's option syntax and of POSIX single quoting. *)
From S2P Require Import Prelude NodePath Trace Manifest Sandbox.

Module Container.
Import Trace Manifest Sandbox.
Local Open Scope nat_scope.

(** @src runtime/src/sandbox/container.ts IMAGE_TAGS *)
Definition image_tag_table : obj string :=
  [("python", "python:3.12-slim"); ("node", "node:22-bookworm-slim"); ("other", "python:3.12-slim")].

(** The environment variables the module reads when it is loaded. *)
Record container_env := mkCenv {
  OPENAGENTHUB_IMAGE_DIGEST_PYTHON : option string;
  OPENAGENTHUB_IMAGE_DIGEST_NODE : option string;
  OAH_RUNTIME_VERSION : option string;
}.

(** @src runtime/src/sandbox/container.ts IMAGE_DIGESTS *)
Definition image_digests (e : container_env) : obj string :=
  [("python", nullish (OPENAGENTHUB_IMAGE_DIGEST_PYTHON e) "");
   ("node", nullish (OPENAGENTHUB_IMAGE_DIGEST_NODE e) "");
   ("other", nullish (OPENAGENTHUB_IMAGE_DIGEST_PYTHON e) "")].

(** @src runtime/src/sandbox/container.ts MANAGER_LABEL_VALUE *)
Definition MANAGER_LABEL_VALUE (e : container_env) : string :=
  "openagenthub-runtime-" +:+ nullish (OAH_RUNTIME_VERSION e) "0.x".

(** @src runtime/src/sandbox/container.ts 22-29 MEMORY_LIMIT *)
Definition MEMORY_LIMIT : string := "512m".
Definition CPU_LIMIT : string := "1".
Definition PIDS_LIMIT : string := "256".
Definition TMPFS_WORK_SIZE : string := "64m".
Definition TMPFS_TMP_SIZE : string := "32m".
Definition USER_FLAG : string := "10001:10001".
Definition MAX_OUTPUT_BYTES : nat := Z.to_nat (1024 * 1024).

Lemma max_value : Z.of_nat MAX_OUTPUT_BYTES = (1024 * 1024)%Z.
Proof. apply Z2Nat.id. discriminate. Qed.

#[global] Arguments MAX_OUTPUT_BYTES : simpl never.
#[global] Opaque MAX_OUTPUT_BYTES.

(** @src runtime/src/sandbox/container.ts imageTag *)
Definition imageTag (lang : string) : string :=
  match obj_get lang image_tag_table with
  | Some t => t
  | None => nullish (obj_get "other" image_tag_table) ""
  end.

(** @src runtime/src/sandbox/container.ts resolveImage *)
Definition resolveImage (e : container_env) (lang : string) : string :=
  let tag := imageTag lang in
  let digest := match obj_get lang (image_digests e) with
                | Some d => d
                | None => nullish (obj_get "other" (image_digests e)) ""
                end in
  if negb (String.eqb digest "") then tag +:+ "@" +:+ digest else tag.

(** @src runtime/src/sandbox/container.ts dockerInstallHint *)
Definition dockerInstallHint : string :=
  js_join (str1 LF)
    ["docker is not available but the container sandbox is required";
     "  - macOS: install Docker Desktop (https://www.docker.com/products/docker-desktop) and start it";
     "  - Linux: install Docker Engine (https://docs.docker.com/engine/install/) and start the daemon";
     "  - verify with: docker version"].

(** @src runtime/src/sandbox/container.ts quote *)
Definition quote (s : string) : string :=
  str1 SQUOTE +:+ js_replace_all SQUOTE (String SQUOTE (String BACKSLASH (String SQUOTE (str1 SQUOTE)))) s
  +:+ str1 SQUOTE.

Definition slug_char (c : ascii) : bool :=
  is_lower c || is_digit c || js_has_char c "@._-".

(** [/SECRET|TOKEN|KEY|PASSWORD/i.test(k)] *)
Definition secretLike (k : string) : bool :=
  let l := js_toLowerCase k in
  js_includes l "secret" || js_includes l "token" || js_includes l "key" || js_includes l "password".

Section container.
Context (sha256_hex : string -> string) (cenv : container_env).

(** @src runtime/src/sandbox/container.ts depsVolumeName *)
Definition depsVolumeName (spec : SandboxSpec) : string :=
  let slug := js_flat_map (fun c => if slug_char c then str1 c else "-")
    (js_toLowerCase (name (s_manifest spec) +:+ "@" +:+ version (s_manifest spec))) in
  "oah-deps-" +:+ js_take 12 (sha256_hex slug).

Definition lang_of (spec : SandboxSpec) : string := language_name (language (runtime (s_manifest spec))).

Definition image (spec : SandboxSpec) : string := resolveImage cenv (lang_of spec).

(** @src runtime/src/sandbox/container.ts 71-79 labelFlags *)
Definition labels (spec : SandboxSpec) : obj string :=
  [("oah.manager", MANAGER_LABEL_VALUE cenv);
   ("oah.package", name (s_manifest spec));
   ("oah.version", version (s_manifest spec));
   ("oah.sandbox", "container");
   ("oah.run_id", nullish (s_runId spec) "unknown");
   ("oah.interface", nullish (s_interfaceName spec) "cli");
   ("oah.digest", nullish (s_packageDigest spec) "unknown")].

(** @src runtime/src/sandbox/container.ts labelFlags *)
Definition labelFlags (spec : SandboxSpec) : list string :=
  flat_map (fun kv => ["--label"; fst kv +:+ "=" +:+ snd kv]) (labels spec).

Definition grants_filesystem (spec : SandboxSpec) : bool := bool_decide (filesystem ∈ s_granted spec).

(** @src runtime/src/sandbox/container.ts baseFlags *)
Definition baseFlags (spec : SandboxSpec) : list string :=
  ["--rm"; "--cap-drop"; "ALL"; "--security-opt"; "no-new-privileges"; "--pids-limit"; PIDS_LIMIT;
   "--memory"; MEMORY_LIMIT; "--cpus"; CPU_LIMIT; "--user"; USER_FLAG] ++ labelFlags spec
  ++ (if negb (s_network spec) then ["--network"; "none"] else [])
  ++ (if grants_filesystem spec then ["--tmpfs"; "/work:rw,size=" +:+ TMPFS_WORK_SIZE]
      else ["--read-only"; "--tmpfs"; "/tmp:rw,size=" +:+ TMPFS_TMP_SIZE]).

(** @src runtime/src/sandbox/container.ts envFlags *)
Definition envFlags (spec : SandboxSpec) : list string :=
  flat_map (fun kv => ["--env"; fst kv +:+ "=" +:+ snd kv]) (s_env spec).

(** @src runtime/src/sandbox/container.ts mountFlags *)
Definition mountFlags (spec : SandboxSpec) : list string :=
  ["--volume"; s_agentDir spec +:+ ":/app:ro"; "--workdir"; "/app"].

(** @src runtime/src/sandbox/container.ts resolveCommand *)
Definition resolveCommand (spec : SandboxSpec) (cmd : string) : string :=
  let envLine := if bool_decide (language (runtime (s_manifest spec)) = python)
                 then "export PYTHONPATH=/deps" else "export NODE_PATH=/deps/node_modules" in
  "set -e; " +:+ envLine +:+ "; cd /app && " +:+ cmd.

(** @src runtime/src/sandbox/container.ts buildRunArgs *)
Definition buildRunArgs (spec : SandboxSpec) (command : string) (envFile : option string) : list string :=
  let flags := if truthy envFile then ["--env-file"; nullish envFile ""] else envFlags spec in
  ["run"; "--interactive"] ++ baseFlags spec ++ flags ++ mountFlags spec
  ++ ["--volume"; depsVolumeName spec +:+ ":/deps"; image spec; "/bin/sh"; "-c"; resolveCommand spec command].

(** The path and the content of the file [writeEnvFile] writes; [tmp] is the
    directory [mkdtempSync] creates.
    @src runtime/src/sandbox/container.ts writeEnvFile *)
Definition writeEnvFile (spec : SandboxSpec) (tmp : string) : option (string * string) :=
  match List.filter (fun kv => secretLike (fst kv)) (s_env spec) with
  | [] => None
  | secrets => Some (NodePath.join tmp "secrets.env",
                     js_join (str1 LF) (map (fun kv => fst kv +:+ "=" +:+ snd kv) secrets))
  end.

(** *** [prepare] *)
Context (exec : list cmd -> cmd -> result unit).

Definition docker (args : list string) : cmd := mkCmd "docker" args None None.

(** @src runtime/src/sandbox/container.ts dockerAvailable *)
Definition dockerAvailable : tr cmd bool :=
  tr_catch (_ ← call exec (docker ["version"; "--format"; "{{.Server.Version}}"]); mret true)
    (fun _ => mret false).

(** The command is started and its outcome ignored.
    @src runtime/src/sandbox/container.ts cleanup *)
Definition cleanup (spec : SandboxSpec) : tr cmd unit :=
  spawned (docker ["volume"; "rm"; depsVolumeName spec]) tt.

(** [deps.pip!.map(quote)]: the assertion is erased, and reading [map] of
    [undefined] throws. *)
Definition quoted (o : option (list string)) : tr cmd string :=
  match o with
  | Some l => mret (js_join " " (map quote l))
  | None => tr_throw EType "Cannot read properties of undefined (reading 'map')"
  end.

Definition installCmd (spec : SandboxSpec) : tr cmd string :=
  let deps := deps_of (s_manifest spec) in
  if bool_decide (language (runtime (s_manifest spec)) = python) then
    q ← quoted (dep_pip deps); mret ("pip install --no-cache-dir --target /deps " +:+ q)
  else
    q ← quoted (dep_npm deps);
    mret ("npm install --prefix /deps --no-audit --no-fund --silent " +:+ q).

(** The argument list of the container that installs the dependencies. *)
Definition installArgs (spec : SandboxSpec) (install : string) : list string :=
  ["run"] ++ baseFlags spec ++ envFlags spec
  ++ ["--volume"; depsVolumeName spec +:+ ":/deps"; image spec; "/bin/sh"; "-c"; install].

(** [prepare] when it has not run yet.
    @src runtime/src/sandbox/container.ts 127-169 prepare *)
Definition container_prepare (spec : SandboxSpec) : tr cmd unit :=
  available ← dockerAvailable;
  if negb available then tr_throw EError dockerInstallHint
  else
    let tag := imageTag (lang_of spec) in
    _ ← tr_catch (call exec (docker ["image"; "inspect"; tag])) (fun _ =>
          tr_catch (call exec (docker ["pull"; image spec])) (fun _ =>
            _ ← cleanup spec;
            tr_throw EError ("failed to pull image " +:+ image spec +:+
                             "; check network access and Docker configuration")));
    let deps := deps_of (s_manifest spec) in
    if nonempty (dep_pip deps) || nonempty (dep_npm deps) then
      if negb (s_network spec) then
        tr_throw EError "agent declares dependencies but network permission was not granted"
      else
        _ ← call exec (docker ["volume"; "create"; depsVolumeName spec]);
        install ← installCmd spec;
        tr_catch (call exec (docker (installArgs spec install))) (fun e =>
          _ ← cleanup spec;
          tr_throw EError ("dependency installation failed: " +:+ err_message e))
    else mret tt.

(** *** [run] *)

(** Appending a chunk to an output under the limit: the new output and whether it
    is now marked as truncated.
    @src runtime/src/sandbox/container.ts 214-222 run *)
Definition append_output (out : string) (trunc : bool) (d : string) : string * bool :=
  if Nat.ltb (String.length out) MAX_OUTPUT_BYTES then
    let out' := out +:+ js_take (MAX_OUTPUT_BYTES - String.length out) d in
    (out', if Nat.leb MAX_OUTPUT_BYTES (String.length out') then true else trunc)
  else (out, true).

Definition TRUNC_NOTE : string := str1 LF +:+ "[output truncated at 1 MiB]".

Definition with_note (out : string) (trunc : bool) : string := if trunc then out +:+ TRUNC_NOTE else out.

(** @src runtime/src/sandbox/container.ts 208-243 run *)
Definition container_event (opts : RunOptions) (s : child_state) (ev : child_event) : child_state :=
  match ev with
  | ev_stdout d =>
      let '(o, t) := append_output (cs_out s) (cs_truncOut s) d in
      mkChild o (cs_err s) t (cs_truncErr s) (cs_timedOut s) (cs_result s)
  | ev_stderr d =>
      let '(o, t) := append_output (cs_err s) (cs_truncErr s) d in
      mkChild (cs_out s) o (cs_truncOut s) t (cs_timedOut s) (cs_result s)
  | ev_timer => on_timer opts s
  | ev_error msg => resolve_child (error_result msg s) s
  | ev_close code =>
      let s' := mkChild (with_note (cs_out s) (cs_truncOut s)) (with_note (cs_err s) (cs_truncErr s))
        (cs_truncOut s) (cs_truncErr s) (cs_timedOut s) (cs_result s) in
      resolve_child (mkRunResult (nullish code 1%Z) (cs_out s') (cs_err s') (cs_timedOut s')) s'
  end.

(** The environment file is removed in every case, so it is not part of the
    result.
    @src runtime/src/sandbox/container.ts 196-248 run *)
Definition container_run (spec : SandboxSpec) (opts : RunOptions) (tmp : string) (events : list child_event)
    : tr cmd (option RunResult) :=
  _ ← container_prepare spec;
  let envFile := fst <$> writeEnvFile spec tmp in
  spawned (docker (buildRunArgs spec (ro_command opts) envFile))
    (cs_result (fold_left (container_event opts) events child_init)).

(** @src runtime/src/sandbox/container.ts runInteractive *)
Definition container_runInteractive (spec : SandboxSpec) (opts : RunOptions) (tmp : string)
    (events : list child_event) : tr cmd (option Z) :=
  _ ← container_prepare spec;
  let envFile := fst <$> writeEnvFile spec tmp in
  spawned (docker (buildRunArgs spec (ro_command opts) envFile)) (interactive_code events).
End container.

(** ** What docker reads from the arguments *)

Definition DOCKER_BOOL : list string := ["--rm"; "--interactive"; "--read-only"].
Definition DOCKER_VALUE : list string :=
  ["--cap-drop"; "--security-opt"; "--pids-limit"; "--memory"; "--cpus"; "--user"; "--label";
   "--network"; "--tmpfs"; "--env"; "--env-file"; "--volume"; "--workdir"].

(** Options up to the first argument that is not one; the rest is the image and
    its command. *)
Fixpoint docker_opts (args : list string) : option (list (string * option string) * list string) :=
  match args with
  | a :: rest =>
      if mem_str a DOCKER_BOOL then
        match docker_opts rest with Some (o, r) => Some ((a, None) :: o, r) | None => None end
      else if mem_str a DOCKER_VALUE then
        match rest with
        | v :: rest' =>
            match docker_opts rest' with Some (o, r) => Some ((a, Some v) :: o, r) | None => None end
        | [] => None
        end
      else if js_startsWith a "-" then None
      else Some ([], args)
  | [] => Some ([], [])
  end.

(** ** What the shell reads: words, with single quotes and backslashes; a
    character with another meaning to the shell is refused. *)
Definition sh_special (c : ascii) : bool :=
  Ascii.eqb c DQUOTE || js_has_char c ";&|<>`$()*?[]{}#~!".

Fixpoint sh_words (quoted : bool) (cur : option string) (s : string) : option (list string) :=
  match s with
  | EmptyString =>
      if quoted then None else Some (match cur with Some w => [w] | None => [] end)
  | String c s' =>
      if quoted then
        if Ascii.eqb c SQUOTE then sh_words false cur s'
        else sh_words true (Some (nullish cur "" +:+ str1 c)) s'
      else if Ascii.eqb c SQUOTE then sh_words true (Some (nullish cur "")) s'
      else if Ascii.eqb c BACKSLASH then
        match s' with
        | String d s'' => sh_words false (Some (nullish cur "" +:+ str1 d)) s''
        | EmptyString => None
        end
      else if Ascii.is_space c then
        match cur with
        | Some w => cons w <$> sh_words false None s'
        | None => sh_words false None s'
        end
      else if sh_special c then None
      else sh_words false (Some (nullish cur "" +:+ str1 c)) s'
  end.

(** ** Properties *)

Lemma sh_quoted cur s t :
  sh_words true (Some cur)
    (js_replace_all SQUOTE (String SQUOTE (String BACKSLASH (String SQUOTE (str1 SQUOTE)))) s
     +:+ String SQUOTE t) = sh_words false (Some (cur +:+ s)) t.
Proof.
  revert cur. unfold js_replace_all, str1. induction s as [|c s IH]; intros cur; cbn [js_flat_map].
  - rewrite sapp_nil_r. reflexivity.
  - destruct (Ascii.eqb_spec c SQUOTE) as [->|Hne].
    + rewrite sapp_assoc. etransitivity; [|etransitivity; [apply (IH (cur +:+ str1 SQUOTE))|]].
      * reflexivity.
      * by rewrite sapp_assoc.
    + cbn [String.append]. cbn [sh_words]. apply Ascii.eqb_neq in Hne. rewrite Hne.
      rewrite IH. cbn. by rewrite sapp_assoc.
Qed.

(** The shell reads a quoted string as the string, glued to the word before it. *)
Lemma sh_quote cur s t :
  sh_words false cur (quote s +:+ t) = sh_words false (Some (nullish cur "" +:+ s)) t.
Proof.
  unfold quote, str1. rewrite !sapp_assoc. cbn [String.append]. cbn [sh_words].
  change (Ascii.eqb SQUOTE SQUOTE) with true. cbn iota. apply sh_quoted.
Qed.

Lemma sh_quote_list l : sh_words false None (js_join " " (map quote l)) = Some l.
Proof.
  induction l as [|x l IH]; [done|]. cbn [map]. destruct l as [|y l].
  - cbn [map js_join]. rewrite <- (sapp_nil_r (quote x)). by rewrite sh_quote.
  - rewrite join_cons by done. rewrite sh_quote.
    change (" " +:+ js_join " " (map quote (y :: l))) with (String " " (js_join " " (map quote (y :: l)))).
    cbn [sh_words]. change (Ascii.eqb " " SQUOTE) with false. change (Ascii.eqb " " BACKSLASH) with false.
    change (Ascii.is_space " ") with true. cbn iota. by rewrite IH.
Qed.

Definition sh_plain (c : ascii) : bool :=
  negb (Ascii.eqb c SQUOTE) && negb (Ascii.eqb c BACKSLASH) && negb (Ascii.is_space c) && negb (sh_special c).

Lemma sh_plain_word cur w t :
  js_all sh_plain w = true -> w <> "" ->
  sh_words false cur (w +:+ t) = sh_words false (Some (nullish cur "" +:+ w)) t.
Proof.
  revert cur. induction w as [|c w IH]; intros cur; [done|]. cbn [js_all]. intros [Hc Hw]%andb_prop _.
  unfold sh_plain in Hc. rewrite !andb_true_iff, !negb_true_iff in Hc. destruct Hc as [[[H1 H2] H3] H4].
  cbn [String.append sh_words]. rewrite H1, H2, H3, H4.
  destruct w as [|d w]; [done|]. rewrite IH by done. cbn [nullish default from_option id]. by rewrite sapp_assoc.
Qed.

Lemma sh_plain_words ws t :
  Forall (fun w => js_all sh_plain w = true /\ w <> "") ws ->
  sh_words false None (fold_right (fun w acc => w +:+ String " " acc) t ws) = app ws <$> sh_words false None t.
Proof.
  induction 1 as [|w ws [Hw Hne] Hws IH]; cbn [fold_right].
  - by destruct (sh_words false None t).
  - rewrite sh_plain_word by done. cbn [sh_words].
    change (Ascii.eqb " " SQUOTE) with false. change (Ascii.eqb " " BACKSLASH) with false.
    change (Ascii.is_space " ") with true. cbn iota. rewrite IH.
    by destruct (sh_words false None t).
Qed.

Definition declared_deps (spec : SandboxSpec) : option (list string) :=
  let deps := deps_of (s_manifest spec) in
  if bool_decide (language (runtime (s_manifest spec)) = python) then dep_pip deps else dep_npm deps.

Definition installer_words (spec : SandboxSpec) : list string :=
  if bool_decide (language (runtime (s_manifest spec)) = python)
  then ["pip"; "install"; "--no-cache-dir"; "--target"; "/deps"]
  else ["npm"; "install"; "--prefix"; "/deps"; "--no-audit"; "--no-fund"; "--silent"].

(** Whatever strings a manifest declares as dependencies, the shell that runs
    the install command reads the installer's own words followed by exactly those
    strings, each as one word: no quote, space, substitution or separator inside
    them reaches the shell's syntax. *)
Theorem install_command_words spec l h :
  declared_deps spec = Some l ->
  exists c, installCmd spec h = (h, Ok c) /\ sh_words false None c = Some (installer_words spec ++ l).
Proof.
  unfold declared_deps, installCmd, installer_words. cbv zeta. intros Hl.
  case_bool_decide; rewrite Hl; eexists; (split; [reflexivity|]).
  - change ("pip install --no-cache-dir --target /deps " +:+ js_join " " (map quote l)) with
      (fold_right (fun w acc => w +:+ String " " acc) (js_join " " (map quote l))
         ["pip"; "install"; "--no-cache-dir"; "--target"; "/deps"]).
    rewrite sh_plain_words, sh_quote_list by (by repeat constructor). done.
  - change ("npm install --prefix /deps --no-audit --no-fund --silent " +:+ js_join " " (map quote l)) with
      (fold_right (fun w acc => w +:+ String " " acc) (js_join " " (map quote l))
         ["npm"; "install"; "--prefix"; "/deps"; "--no-audit"; "--no-fund"; "--silent"]).
    rewrite sh_plain_words, sh_quote_list by (by repeat constructor). done.
Qed.

(** *** Docker's reading *)

Definition render_opt (o : string * option string) : list string :=
  match snd o with Some v => [fst o; v] | None => [fst o] end.

Definition opt_wf (o : string * option string) : bool :=
  match snd o with
  | None => mem_str (fst o) DOCKER_BOOL
  | Some _ => negb (mem_str (fst o) DOCKER_BOOL) && mem_str (fst o) DOCKER_VALUE
  end.

Lemma docker_opts_render o image rest :
  forallb opt_wf o = true -> js_startsWith image "-" = false ->
  docker_opts (flat_map render_opt o ++ image :: rest) = Some (o, image :: rest).
Proof.
  intros Ho Hi. induction o as [|[k [v|]] o IH]; cbn [forallb flat_map app] in *.
  - cbn [docker_opts]. rewrite Hi.
    assert (Hd : forall l, forallb (fun x => js_startsWith x "-") l = true -> mem_str image l = false).
    { intros l Hl. destruct (mem_str image l) eqn:E; [|done]. apply mem_str_spec in E.
      apply list_elem_of_In in E. rewrite forallb_forall in Hl. rewrite Hl in Hi; done. }
    by rewrite !Hd.
  - apply andb_prop in Ho as [Hk Ho]. unfold opt_wf in Hk. cbn [fst snd] in Hk.
    unfold render_opt at 1. cbn [fst snd app docker_opts].
    apply andb_prop in Hk as [Hk1 Hk2]. apply negb_true_iff in Hk1. by rewrite Hk1, Hk2, IH.
  - apply andb_prop in Ho as [Hk Ho]. unfold opt_wf in Hk. cbn [fst snd] in Hk.
    unfold render_opt at 1. cbn [fst snd app docker_opts]. by rewrite Hk, IH.
Qed.

Section docker_facts.
Context (sha256_hex : string -> string) (cenv : container_env).

Lemma flat_opt (k : string) (o : obj string) :
  flat_map (fun kv => [k; fst kv +:+ "=" +:+ snd kv]) o
    = flat_map render_opt (map (fun kv => (k, Some (fst kv +:+ "=" +:+ snd kv))) o).
Proof. induction o as [|[a b] o IH]; [done|]. cbn [flat_map map app]. by rewrite IH. Qed.

Lemma forallb_env (k : string) (o : obj string) :
  opt_wf (k, Some "") = true ->
  forallb opt_wf (map (fun kv => (k, Some (fst kv +:+ "=" +:+ snd kv))) o) = true.
Proof. intros Hk. induction o as [|[a b] o IH]; [done|]. cbn [map forallb]. rewrite IH, andb_true_r. exact Hk. Qed.

(** The options of a run, as docker should understand them. *)
Definition fixed_opts : list (string * option string) :=
  [("--rm", None); ("--cap-drop", Some "ALL"); ("--security-opt", Some "no-new-privileges");
   ("--pids-limit", Some PIDS_LIMIT); ("--memory", Some MEMORY_LIMIT); ("--cpus", Some CPU_LIMIT);
   ("--user", Some USER_FLAG)].

Definition label_opts (spec : SandboxSpec) : list (string * option string) :=
  map (fun kv => ("--label", Some (fst kv +:+ "=" +:+ snd kv))) (labels cenv spec).

Definition network_opts (spec : SandboxSpec) : list (string * option string) :=
  if s_network spec then [] else [("--network", Some "none")].

Definition root_opts (spec : SandboxSpec) : list (string * option string) :=
  if grants_filesystem spec then [("--tmpfs", Some ("/work:rw,size=" +:+ TMPFS_WORK_SIZE))]
  else [("--read-only", None); ("--tmpfs", Some ("/tmp:rw,size=" +:+ TMPFS_TMP_SIZE))].

Definition env_opts (spec : SandboxSpec) (envFile : option string) : list (string * option string) :=
  if truthy envFile then [("--env-file", Some (nullish envFile ""))]
  else map (fun kv => ("--env", Some (fst kv +:+ "=" +:+ snd kv))) (s_env spec).

Definition mount_opts (spec : SandboxSpec) : list (string * option string) :=
  [("--volume", Some (s_agentDir spec +:+ ":/app:ro")); ("--workdir", Some "/app");
   ("--volume", Some (depsVolumeName sha256_hex spec +:+ ":/deps"))].

Definition run_opts (spec : SandboxSpec) (envFile : option string) : list (string * option string) :=
  ("--interactive", None) :: fixed_opts ++ label_opts spec ++ network_opts spec ++ root_opts spec
  ++ env_opts spec envFile ++ mount_opts spec.

Lemma run_opts_wf spec envFile : forallb opt_wf (run_opts spec envFile) = true.
Proof.
  unfold run_opts, label_opts, network_opts, root_opts, env_opts, mount_opts.
  cbn [forallb]. rewrite !forallb_app. rewrite !andb_true_iff. split_and!; try done.
  - by destruct (s_network spec).
  - by destruct (grants_filesystem spec).
  - destruct (truthy envFile); [done|]. by apply forallb_env.
Qed.

Lemma buildRunArgs_render spec command envFile :
  buildRunArgs sha256_hex cenv spec command envFile =
  "run" :: flat_map render_opt (run_opts spec envFile)
           ++ [image cenv spec; "/bin/sh"; "-c"; resolveCommand spec command].
Proof.
  unfold buildRunArgs, run_opts, baseFlags, labelFlags, envFlags, mountFlags,
    label_opts, network_opts, root_opts, env_opts, mount_opts.
  cbn [app flat_map render_opt fst snd]. rewrite !List.flat_map_app, !flat_opt. cbn [flat_map fixed_opts render_opt fst snd app].
  destruct (s_network spec), (grants_filesystem spec), (truthy envFile);
    cbn [negb flat_map render_opt fst snd app]; do 15 f_equal;
    generalize (flat_map render_opt (map (fun kv => ("--label", Some (fst kv +:+ "=" +:+ snd kv))) (labels cenv spec)));
    try generalize (flat_map render_opt (map (fun kv => ("--env", Some (fst kv +:+ "=" +:+ snd kv))) (s_env spec)));
    intros; repeat (rewrite <- ?app_assoc; cbn [app]); reflexivity.
Qed.

Lemma image_plain spec : js_startsWith (image cenv spec) "-" = false.
Proof.
  unfold image, resolveImage, lang_of. cbv zeta.
  destruct (language (runtime (s_manifest spec))); cbn;
    destruct (negb _); reflexivity.
Qed.

Lemma buildRunArgs_opts spec command envFile :
  docker_opts (tail (buildRunArgs sha256_hex cenv spec command envFile)) =
  Some (run_opts spec envFile, [image cenv spec; "/bin/sh"; "-c"; resolveCommand spec command]).
Proof.
  rewrite buildRunArgs_render. cbn [tail].
  apply docker_opts_render; [apply run_opts_wf|apply image_plain].
Qed.

(** The name of an option, in the groups that hold manifest or user strings. *)
Lemma run_opts_elem spec envFile k v :
  (k, v) ∈ run_opts spec envFile ->
  (k, v) ∈ ("--interactive", None) :: fixed_opts \/ k = "--label" \/ (k, v) ∈ network_opts spec
  \/ (k, v) ∈ root_opts spec \/ k = "--env" \/ k = "--env-file" \/ (k, v) ∈ mount_opts spec.
Proof.
  unfold run_opts. rewrite elem_of_cons, !elem_of_app.
  intros [->|[H|[H|[H|[H|[H|H]]]]]].
  - left. by left.
  - left. by right.
  - right; left. unfold label_opts in H. by apply list_elem_of_fmap in H as ([a b] & [= -> _] & _).
  - right; right; by left.
  - do 3 right; by left.
  - unfold env_opts in H. destruct (truthy envFile).
    + apply list_elem_of_singleton in H as [= -> ->]. do 5 right; by left.
    + apply list_elem_of_fmap in H as ([a b] & [= -> _] & _). do 4 right; by left.
  - do 6 right. done.
Qed.


Lemma writeEnvFile_some spec tmp k v :
  (k, v) ∈ s_env spec -> secretLike k = true ->
  exists l, writeEnvFile spec tmp =
      Some (NodePath.join tmp "secrets.env", js_join (str1 LF) (map (fun kv => fst kv +:+ "=" +:+ snd kv) l)) /\
    l = List.filter (fun kv => secretLike (fst kv)) (s_env spec).
Proof.
  intros Hin Hk. unfold writeEnvFile.
  assert (Hf : (k, v) ∈ List.filter (fun kv => secretLike (fst kv)) (s_env spec)).
  { apply list_elem_of_In, filter_In. split; [by apply list_elem_of_In|done]. }
  destruct (List.filter _ _) as [|x l]; [by apply elem_of_nil in Hf|]. by eexists.
Qed.

(** As soon as one variable of the environment has a secret-like name, the
    container is started with the environment file alone: docker is given no
    single [--env], and the file holds the secret-like variables only, so every
    other variable (AGENT_NAME, AGENT_TRUST, AGENT_GRANTED_PERMISSIONS, ...) is
    missing inside the container. *)
Theorem envFile_drops_other_variables spec tmp command k v :
  (k, v) ∈ s_env spec -> secretLike k = true -> NodePath.join tmp "secrets.env" <> "" ->
  exists path l opts,
    writeEnvFile spec tmp =
      Some (path, js_join (str1 LF) (map (fun kv => fst kv +:+ "=" +:+ snd kv) l)) /\
    (forall kv, kv ∈ l <-> kv ∈ s_env spec /\ secretLike (fst kv) = true) /\
    docker_opts (tail (buildRunArgs sha256_hex cenv spec command (Some path))) =
      Some (opts, [image cenv spec; "/bin/sh"; "-c"; resolveCommand spec command]) /\
    (forall x, ("--env", x) ∉ opts) /\ (forall x, ("--env-file", x) ∈ opts <-> x = Some path).
Proof.
  intros Hin Hk Hp. destruct (writeEnvFile_some spec tmp k v Hin Hk) as (l & Hw & Hl).
  eexists _, l, _. split; [exact Hw|]. split_and!.
  - intros kv. subst l. rewrite !list_elem_of_In, filter_In. done.
  - apply buildRunArgs_opts.
  - intros x. unfold run_opts, env_opts, label_opts, network_opts, root_opts, mount_opts, fixed_opts.
    apply String.eqb_neq in Hp. cbn [truthy]. rewrite Hp.
    destruct (s_network spec), (grants_filesystem spec); cbn; set_solver.
  - intros x. unfold run_opts, env_opts, label_opts, network_opts, root_opts, mount_opts, fixed_opts.
    apply String.eqb_neq in Hp. cbn [truthy]. rewrite Hp. cbn [nullish default from_option id negb].
    destruct (s_network spec), (grants_filesystem spec); cbn; set_solver.
Qed.
End docker_facts.

(** *** The dependency volume *)

Lemma lower_app a b : js_toLowerCase (a +:+ b) = js_toLowerCase a +:+ js_toLowerCase b.
Proof. induction a as [|c a IH]; [done|]. cbn. by rewrite IH. Qed.

(** The name of the volume does not tell a hyphen from the slash between namespace
    and name: two agents of different publishers, with the same version, share one
    volume, and either of them writes where the other loads its packages from. *)
Theorem deps_volume_shared sha256_hex spec spec' ns a nm :
  name (s_manifest spec) = ns +:+ "-" +:+ a +:+ "/" +:+ nm ->
  name (s_manifest spec') = ns +:+ "/" +:+ a +:+ "-" +:+ nm ->
  version (s_manifest spec) = version (s_manifest spec') ->
  depsVolumeName sha256_hex spec = depsVolumeName sha256_hex spec'.
Proof.
  intros H1 H2 Hv. unfold depsVolumeName. rewrite H1, H2, Hv. do 3 f_equal.
  by rewrite !lower_app, !flat_map_app.
Qed.

(** While dependencies are installed, every variable of the agent's environment,
    secrets included, stands in the command line of docker. *)
Theorem install_shows_environment sha256_hex cenv spec install k v :
  (k, v) ∈ s_env spec ->
  exists before after, installArgs sha256_hex cenv spec install = before ++ ["--env"; k +:+ "=" +:+ v] ++ after.
Proof.
  intros (l1 & l2 & Heq)%list_elem_of_split. unfold installArgs, envFlags. rewrite Heq, List.flat_map_app. cbn [flat_map fst snd].
  set (f := fun kv : string * string => _). set (rest := ["--volume"; _; _; _; _; _]).
  exists (["run"] ++ baseFlags cenv spec ++ flat_map f l1), (flat_map f l2 ++ rest). by rewrite <- !app_assoc.
Qed.

(** *** Captured output *)

Definition out_chunk (ev : child_event) : string := match ev with ev_stdout d => d | _ => "" end.
Definition err_chunk (ev : child_event) : string := match ev with ev_stderr d => d | _ => "" end.
Definition all_out (evs : list child_event) : string := js_join "" (map out_chunk evs).
Definition all_err (evs : list child_event) : string := js_join "" (map err_chunk evs).

Definition is_running (ev : child_event) : Prop :=
  match ev with ev_error _ | ev_close _ => False | _ => True end.

Definition fired (opts : RunOptions) (evs : list child_event) : bool :=
  timer_set opts && existsb (fun ev => match ev with ev_timer => true | _ => false end) evs.

(** The first [MAX_OUTPUT_BYTES] units of an output, and a note when that many
    arrived. *)
Definition captured (out : string) : string :=
  with_note (js_take MAX_OUTPUT_BYTES out) (Nat.leb MAX_OUTPUT_BYTES (String.length out)).

Lemma js_take_all n s : String.length s <= n -> js_take n s = s.
Proof.
  revert s. induction n as [|n IH]; intros [|c s]; cbn; try done; [lia|]. intros H. rewrite IH; [done|lia].
Qed.

Lemma js_take_app n a b :
  js_take n (a +:+ b) = js_take n a +:+ js_take (n - String.length a) b.
Proof.
  revert a. induction n as [|n IH]; intros [|c a]; cbn; try done. by rewrite IH.
Qed.

(** What one output holds after [total] arrived. *)
Definition holds (out : string) (trunc : bool) (total : string) : Prop :=
  out = js_take MAX_OUTPUT_BYTES total /\ trunc = Nat.leb MAX_OUTPUT_BYTES (String.length total).

Lemma append_output_holds out trunc total d :
  0 < MAX_OUTPUT_BYTES -> holds out trunc total ->
  holds (append_output out trunc d).1 (append_output out trunc d).2 (total +:+ d).
Proof.
  intros Hmax [-> ->]. unfold append_output, holds. rewrite js_take_app, slength_app, length_take_string.
  destruct (Nat.ltb_spec (Nat.min MAX_OUTPUT_BYTES (String.length total)) MAX_OUTPUT_BYTES) as [Hlt|Hge]; cbn [fst snd].
  - replace (Nat.min MAX_OUTPUT_BYTES (String.length total)) with (String.length total) by lia. split; [done|].
    rewrite slength_app, !length_take_string.
    destruct (Nat.leb_spec MAX_OUTPUT_BYTES (String.length total
      + Nat.min (MAX_OUTPUT_BYTES - String.length total) (String.length d))),
      (Nat.leb_spec MAX_OUTPUT_BYTES (String.length total)),
      (Nat.leb_spec MAX_OUTPUT_BYTES (String.length total + String.length d)); try done; lia.
  - replace (MAX_OUTPUT_BYTES - String.length total) with 0 by lia.
    split; [destruct d; by rewrite sapp_nil_r|]. symmetry. apply Nat.leb_le. rewrite slength_app. lia.
Qed.

Lemma append_output_empty out trunc total :
  0 < MAX_OUTPUT_BYTES -> holds out trunc total -> holds out trunc (total +:+ "").
Proof. by rewrite sapp_nil_r. Qed.

Lemma join_nil_cons x l : js_join "" (x :: l) = x +:+ js_join "" l.
Proof. destruct l; [by rewrite sapp_nil_r|done]. Qed.

Lemma container_events_running opts evs s o e :
  0 < MAX_OUTPUT_BYTES -> Forall is_running evs -> cs_result s = None ->
  holds (cs_out s) (cs_truncOut s) o -> holds (cs_err s) (cs_truncErr s) e ->
  let s' := fold_left (container_event opts) evs s in
  cs_result s' = None /\ holds (cs_out s') (cs_truncOut s') (o +:+ all_out evs) /\
  holds (cs_err s') (cs_truncErr s') (e +:+ all_err evs) /\
  cs_timedOut s' = cs_timedOut s || fired opts evs.
Proof.
  intros Hmax Hevs. revert s o e. unfold all_out, all_err, fired.
  induction Hevs as [|ev evs Hev Hevs IH]; intros s o e Hr Ho He; cbn [fold_left map existsb].
  - cbn zeta. rewrite !sapp_nil_r, andb_false_r, orb_false_r. done.
  - rewrite !join_nil_cons, <- !sapp_assoc.
    assert (Hstep : cs_result (container_event opts s ev) = None /\
      holds (cs_out (container_event opts s ev)) (cs_truncOut (container_event opts s ev)) (o +:+ out_chunk ev) /\
      holds (cs_err (container_event opts s ev)) (cs_truncErr (container_event opts s ev)) (e +:+ err_chunk ev) /\
      cs_timedOut (container_event opts s ev) =
        cs_timedOut s || (timer_set opts && match ev with ev_timer => true | _ => false end)).
    { destruct ev as [d|d| | |]; try done; cbn [container_event out_chunk err_chunk].
      - pose proof (append_output_holds _ _ _ d Hmax Ho) as H.
        destruct (append_output (cs_out s) (cs_truncOut s) d). cbn [cs_result cs_out cs_err cs_truncOut cs_truncErr cs_timedOut].
        rewrite sapp_nil_r, andb_false_r, orb_false_r. done.
      - pose proof (append_output_holds _ _ _ d Hmax He) as H.
        destruct (append_output (cs_err s) (cs_truncErr s) d). cbn [cs_result cs_out cs_err cs_truncOut cs_truncErr cs_timedOut].
        rewrite sapp_nil_r, andb_false_r, orb_false_r. done.
      - unfold on_timer. rewrite Hr, !sapp_nil_r. destruct (timer_set opts); cbn;
          [rewrite orb_true_r|rewrite orb_false_r]; done. }
    destruct Hstep as (H1 & H2 & H3 & H4).
    destruct (IH _ _ _ H1 H2 H3) as (G1 & G2 & G3 & G4). split_and!; [done..|].
    rewrite G4, H4. destruct (timer_set opts), (cs_timedOut s), ev; cbn; done.
Qed.

Lemma max_pos : 0 < MAX_OUTPUT_BYTES.
Proof. pose proof max_value. lia. Qed.

Lemma container_event_settled opts s ev r :
  cs_result s = Some r -> cs_result (container_event opts s ev) = Some r.
Proof.
  intros H. destruct ev; cbn; unfold on_timer; rewrite ?H; cbn; try done.
  - by destruct (append_output _ _ _).
  - by destruct (append_output _ _ _).
  - by rewrite andb_false_r, H.
Qed.

Lemma container_events_settled opts evs s r :
  cs_result s = Some r -> cs_result (fold_left (container_event opts) evs s) = Some r.
Proof.
  revert s. induction evs as [|ev evs IH]; intros s H; [done|]. cbn. apply IH.
  by apply container_event_settled.
Qed.

(** A container run that ends by itself gives the exit code (1 for a child
    that was killed), and of each output exactly its first MiB, followed by the
    truncation note when a MiB arrived; it is marked as timed out exactly when a
    timeout was asked for and fired; events after the end change nothing. *)
Theorem container_run_captures opts evs code rest :
  Forall is_running evs ->
  cs_result (fold_left (container_event opts) (evs ++ ev_close code :: rest) child_init) =
  Some (mkRunResult (nullish code 1%Z) (captured (all_out evs)) (captured (all_err evs)) (fired opts evs)).
Proof.
  intros Hevs. rewrite fold_left_app. cbn [fold_left]. apply container_events_settled.
  assert (Hn : holds "" false "").
  { pose proof max_pos. split; [by destruct MAX_OUTPUT_BYTES|]. symmetry. apply Nat.leb_gt. done. }
  destruct (container_events_running opts evs child_init "" "" max_pos Hevs eq_refl Hn Hn)
    as (H1 & [H2 H2'] & [H3 H3'] & H4).
  set (s' := fold_left _ _ _) in *. unfold container_event, resolve_child.
  cbn [cs_out cs_err cs_truncOut cs_truncErr cs_timedOut cs_result]. rewrite H1. unfold captured.
  rewrite H2, H2', H3, H3', H4. done.
Qed.

(** ** Witnesses *)

Definition demo_deps_manifest (deps : Dependencies) : Manifest :=
  mkManifest "a/b" "1.0.0" "x" "d" "MIT" None None None (mkRuntimeSpec python None None None) None
    [openai] (mkInterfaces None None None) None (Some deps) None None None.

Definition demo_spec (deps : Dependencies) (env : obj string) : SandboxSpec :=
  mkSpec "/agents/a" (demo_deps_manifest deps) [] env true "u" "h" None None None.

Definition evil_dep : string := "x'; rm -rf / #".

Lemma install_command_words_witness :
  exists c, installCmd (demo_spec (mkDeps (Some [evil_dep]) None None) []) [] = ([], Ok c) /\
    sh_words false None c = Some (["pip"; "install"; "--no-cache-dir"; "--target"; "/deps"] ++ [evil_dep]).
Proof. apply (install_command_words (demo_spec (mkDeps (Some [evil_dep]) None None) []) [evil_dep] []). reflexivity. Defined.

Lemma envFile_drops_other_variables_witness :
  let spec := demo_spec (mkDeps None None None) [("AGENT_NAME", "a/b"); ("OPENAI_API_KEY", "k")] in
  let e := mkCenv None None None in
  exists path l opts,
    writeEnvFile spec "/tmp/oah-env-1" =
      Some (path, js_join (str1 LF) (map (fun kv => fst kv +:+ "=" +:+ snd kv) l)) /\
    (forall kv, kv ∈ l <-> kv ∈ s_env spec /\ secretLike (fst kv) = true) /\
    docker_opts (tail (buildRunArgs (fun s => s) e spec "run" (Some path))) =
      Some (opts, [image e spec; "/bin/sh"; "-c"; resolveCommand spec "run"]) /\
    (forall x, ("--env", x) ∉ opts) /\ (forall x, ("--env-file", x) ∈ opts <-> x = Some path).
Proof.
  intros spec e. apply (envFile_drops_other_variables (fun s => s) e spec "/tmp/oah-env-1" "run" "OPENAI_API_KEY" "k").
  - right. left.
  - reflexivity.
  - vm_compute. discriminate.
Defined.

Lemma container_run_captures_witness :
  cs_result (fold_left (container_event (mkRunOptions "x" None (Some 10%Z) false))
    ([ev_stdout "a"; ev_timer; ev_stdout "b"] ++ ev_close None :: [ev_stdout "c"]) child_init) =
  Some (mkRunResult 1 (captured "ab") (captured "") true).
Proof.
  apply (container_run_captures (mkRunOptions "x" None (Some 10%Z) false) [ev_stdout "a"; ev_timer; ev_stdout "b"]).
  repeat constructor.
Defined.
End Container.
