(* ===== verification/AgentRuntime.v ===== *)
(** Running an agent: [runtime/src/runtime.ts].  [runAgent] composes the
    permission filter, the sandbox policy, the vault, the choice of the model and
    one of the two sandboxes; the commands it runs are the trace of the [tr]
    monad, and the child's events are an input. *)
From S2P Require Import Prelude Fs NodePath Trace Manifest Requirements Policy Config Secrets Models Sandbox Container.

Module AgentRuntime.
Import Trace Config Requirements Policy Secrets Models Sandbox Container Manifest.

(** @src runtime/src/runtime.ts InterfaceName *)
Inductive InterfaceName := if_name_cli | if_name_mcp | if_name_http.

Definition iface_name (i : InterfaceName) : string :=
  match i with if_name_cli => "cli" | if_name_mcp => "mcp" | if_name_http => "http" end.

(** @src runtime/src/runtime.ts RunAgentOptions *)
Record RunAgentOptions := mkRunAgent {
  o_agentDir : string;
  o_manifest : Manifest;
  o_agentKey : string;
  o_interfaceName : option InterfaceName;
  o_input : option string;
  o_granted : list Permission;
  o_trustLevel : TrustLevel;
  o_model : option string;
  o_extraSecrets : obj string;
  o_timeoutMs : option Z;
  o_interactive : bool;
  o_streamOutput : bool;
  o_reviewStatus : option string;
  o_statusFresh : option bool;
  o_sandboxOverride : option SandboxOverride;
  o_archiveDigest : option string;
  o_runId : option string;
  o_usageFilePath : option string;
}.

(** The sandbox a result names. *)
Inductive used_sandbox := used_container | used_process | used_none.

(** [ra_result] is [None] while the child has not ended.
    @src runtime/src/runtime.ts RunAgentResult *)
Record RunAgentResult := mkRunAgentResult {
  ra_result : option RunResult;
  ra_interfaceName : InterfaceName;
  ra_sandbox : used_sandbox;
  ra_model : string * string;
  ra_sandboxReason : option string;
}.

(** What the process reads from its surroundings. *)
Record surroundings := mkSurroundings {
  e_process_env : obj string;
  e_container : container_env;
  e_tmp : string;                       (* the directory [mkdtempSync] makes *)
}.

Section runtime.
Context {St : Type} `{SecretStore St}.
Context (sha256_hex : string -> string) (exec : list cmd -> cmd -> result unit).
Context (dockerCheck : tr cmd bool) (vault : St) (sur : surroundings).

(** @src runtime/src/runtime.ts commandFor *)
Definition commandFor (m : Manifest) (iface : InterfaceName) : result string :=
  match iface with
  | if_name_cli =>
      match if_cli (interfaces m) with
      | Some c => Ok (command c)
      | None => throw EError "manifest has no cli interface"
      end
  | if_name_mcp =>
      match if_mcp (interfaces m) with
      | Some c => Ok (entrypoint c)
      | None => throw EError "manifest has no mcp interface"
      end
  | if_name_http => throw EError "http interface is handled by the CLI, not the local runtime"
  end.

(** The permissions the manifest leaves of the granted ones.
    @src runtime/src/runtime.ts 79-79 runAgent *)
Definition effective_grants (opts : RunAgentOptions) : list Permission :=
  effectivePermissions (permissions (o_manifest opts))
    (obj_from (map (fun p => (permission_name p, true)) (o_granted opts))).

Definition policy_input (opts : RunAgentOptions) : SandboxPolicyInput :=
  mkInput (o_trustLevel opts) (o_manifest opts) (o_reviewStatus opts) (o_statusFresh opts)
    (o_sandboxOverride opts) (o_archiveDigest opts).

(** @src runtime/src/runtime.ts 103-110 runAgent *)
Definition agent_env (opts : RunAgentOptions) (model : ModelConfig) (secrets : obj string)
    (effective : list Permission) : obj string :=
  let env := buildAgentEnv model (name (o_manifest opts)) (version (o_manifest opts)) in
  let env := obj_merge env secrets in
  let env := obj_set "AGENT_TRUST" (trust_name (o_trustLevel opts)) env in
  let env := obj_set "AGENT_HOME" (o_agentDir opts) env in
  let env := obj_set "AGENT_GRANTED_PERMISSIONS" (js_join "," (map permission_name effective)) env in
  set_if (truthy (o_usageFilePath opts)) "AGENT_USAGE_FILE" (o_usageFilePath opts) env.

(** @src runtime/src/runtime.ts 113-144 runAgent *)
Definition sandbox_spec (opts : RunAgentOptions) (iface : InterfaceName) (mode : SandboxMode)
    (effective : list Permission) (env : obj string) : SandboxSpec :=
  mkSpec (o_agentDir opts) (o_manifest opts) effective env (bool_decide (network ∈ effective))
    (nullish (obj_get "USER" (e_process_env sur)) "user")
    (nullish (obj_get "HOSTNAME" (e_process_env sur)) "localhost")
    (o_runId opts)
    (match mode with m_container => Some (iface_name iface) | m_process => None end)
    (o_archiveDigest opts).

Definition dropped (opts : RunAgentOptions) (effective : list Permission) : string :=
  js_join ", " (map permission_name
    (List.filter (fun p => negb (bool_decide (p ∈ effective))) (o_granted opts))).

(** The refusals before anything is run.
    @src runtime/src/runtime.ts 74-99 runAgent *)
Definition admission (opts : RunAgentOptions) : result (list Permission * SandboxDecision) :=
  if nonempty (dep_system (deps_of (o_manifest opts))) then
    throw EError "dependencies.system is not supported by OpenAgentHub yet"
  else
    let effective := effective_grants opts in
    if negb (Nat.eqb (length effective) (length (o_granted opts))) then
      throw EError ("refusing grants absent from the manifest: " +:+ dropped opts effective)
    else
      let policy := effectiveSandbox (policy_input opts) in
      match dc_blocked policy with
      | Some b => if negb (String.eqb b "") then throw EError b else Ok (effective, policy)
      | None => Ok (effective, policy)
      end.

Definition start_sandbox (opts : RunAgentOptions) (iface : InterfaceName) (mode : SandboxMode)
    (effective : list Permission) (env : obj string) (events : list child_event)
    : tr cmd (option RunResult * used_sandbox) :=
  let spec := sandbox_spec opts iface mode effective env in
  cmdline ← tr_lift (commandFor (o_manifest opts) iface);
  let ro := mkRunOptions cmdline (o_input opts) (o_timeoutMs opts) (o_streamOutput opts) in
  let code_result := fun c : option Z => (fun n => mkRunResult n "" "" false) <$> c in
  match mode with
  | m_container =>
      if o_interactive opts then
        c ← container_runInteractive sha256_hex (e_container sur) exec spec ro (e_tmp sur) events;
        mret (code_result c, used_container)
      else
        r ← container_run sha256_hex (e_container sur) exec spec ro (e_tmp sur) events;
        mret (r, used_container)
  | m_process =>
      let python := obj_get "PYTHON_BIN" (e_process_env sur) in
      if o_interactive opts then
        c ← process_runInteractive exec python (e_process_env sur) spec ro events;
        mret (code_result c, used_process)
      else
        r ← process_run exec python (e_process_env sur) spec ro events;
        mret (r, used_process)
  end.

(** @src runtime/src/runtime.ts runAgent *)
Definition runAgent (opts : RunAgentOptions) (events : list child_event) : tr cmd RunAgentResult :=
  let m := o_manifest opts in
  let iface := nullish (o_interfaceName opts) if_name_cli in
  match iface with
  | if_name_http =>
      let ep := endpoint <$> if_http (interfaces m) in
      if negb (truthy ep) then tr_throw EError "manifest has no http interface"
      else mret (mkRunAgentResult
             (Some (mkRunResult 0 ("remote agent endpoint: " +:+ nullish ep "") "" false)) if_name_http used_none
             (nullish (provider_name <$> head (supported m)) "undefined", "remote") None)
  | _ =>
      '(effective, policy) ← tr_lift (admission opts);
      docker_ok ← (match dc_mode policy with m_container => dockerCheck | m_process => mret true end);
      if negb docker_ok then tr_throw EError dockerInstallHint
      else
        stored ← tr_lift (ss_get vault (o_agentKey opts));
        let secrets := obj_merge stored (o_extraSecrets opts) in
        model ← tr_lift (pickModel m (o_model opts) (ss_get vault (o_agentKey opts)) (o_agentKey opts));
        let env := agent_env opts model secrets effective in
        if bool_decide (dc_mode policy = m_process) && negb (bool_decide (o_trustLevel opts = trusted))
           && negb (bool_decide (o_trustLevel opts = local))
        then tr_throw EError "internal error: process sandbox chosen for non-trusted agent"
        else
          '(r, used) ← start_sandbox opts iface (dc_mode policy) effective env events;
          mret (mkRunAgentResult r iface used (provider_name (mc_provider model), mc_model model)
                  (Some (dc_reason policy)))
  end.

(** ** Properties *)

Lemma admission_ok_iff opts effective policy :
  admission opts = Ok (effective, policy) <->
  nonempty (dep_system (deps_of (o_manifest opts))) = false /\
  effective = effective_grants opts /\ length effective = length (o_granted opts) /\
  policy = effectiveSandbox (policy_input opts) /\ not_blocked (policy_input opts).
Proof.
  unfold admission. cbv zeta. destruct (nonempty _); [split; [done|by intros [? _]]|].
  destruct (Nat.eqb_spec (length (effective_grants opts)) (length (o_granted opts))) as [Hl|Hl]; cbn [negb].
  2: { split; [done|]. by intros (_ & -> & ? & _). }
  assert (Hb : dc_blocked (effectiveSandbox (policy_input opts)) = None <-> not_blocked (policy_input opts)).
  { unfold effectiveSandbox. pose proof (blocked_status_none (policy_input opts)) as Hbs.
    destruct (blocked_status _); [split; [done|]; intros ?%Hbs; done|].
    split; [intros _; by apply Hbs|]. intros _.
    destruct (p_trust _); try done; destruct (status_unverified _); try done;
      destruct (p_override _); by rewrite ?by_override_blocked, ?by_manifest_blocked. }
  destruct (dc_blocked (effectiveSandbox (policy_input opts))) as [b|] eqn:E.
  - assert (Hne : b <> "").
    { revert E. unfold effectiveSandbox. destruct (blocked_status _); [by intros [= <-]|].
      destruct (p_trust _); try done; destruct (status_unverified _); try done;
        destruct (p_override _); by rewrite ?by_override_blocked, ?by_manifest_blocked. }
    apply String.eqb_neq in Hne. rewrite Hne. cbn. split; [done|].
    intros (_ & _ & _ & _ & Hnb). by apply Hb in Hnb.
  - split.
    + intros [= <- <-]. split_and!; try done. by apply Hb.
    + by intros (_ & -> & _ & -> & _).
Qed.

(** Nothing is run before the admission checks pass. *)
Lemma runAgent_refused opts events h e :
  nullish (o_interfaceName opts) if_name_cli <> if_name_http ->
  admission opts = Throw e -> runAgent opts events h = (h, Throw e).
Proof.
  intros Hi Ha. unfold runAgent. cbv zeta. destruct (nullish _ _); [| |done];
    cbn; unfold tr_bind, tr_lift; by rewrite Ha.
Qed.

(** Granting each of a list by name. *)
Lemma obj_from_granted l p :
  (permission_name p, true) ∈ obj_from (map (fun p => (permission_name p, true)) l) <-> p ∈ l.
Proof.
  unfold obj_from, obj_merge.
  assert (Hgen : forall acc : obj bool, NoDup (obj_keys acc) ->
    ((permission_name p, true) ∈ fold_left (fun acc kv => obj_set (fst kv) (snd kv) acc)
       (map (fun p => (permission_name p, true)) l) acc <-> (permission_name p, true) ∈ acc \/ p ∈ l)).
  { induction l as [|q l IH]; intros acc Hnd; cbn [map fold_left fst snd].
    - split; [by left|]. by intros [|?%elem_of_nil].
    - rewrite IH by auto with js. rewrite elem_of_cons.
      assert (Hset : (permission_name p, true) ∈ obj_set (permission_name q) true acc <->
                p = q \/ (permission_name p, true) ∈ acc).
      { split.
        - intros Hin%(obj_elem_get _ _ _ (obj_set_nodup _ _ _ Hnd)). rewrite obj_get_set in Hin.
          destruct (String.eqb_spec (permission_name q) (permission_name p)) as [Heq|].
          + left. by apply permission_name_inj in Heq.
          + right. by apply obj_get_elem.
        - intros [->|Hin]; apply obj_get_elem; rewrite obj_get_set.
          + by rewrite String.eqb_refl.
          + destruct (String.eqb _ _); [done|]. by apply obj_elem_get. }
      rewrite Hset. tauto. }
  rewrite Hgen by constructor. split; [intros [?%elem_of_nil|]; done|by right].
Qed.

(** Granted permissions, each once, that the manifest requests. *)
Lemma effective_grants_elem opts p :
  p ∈ effective_grants opts <->
  p ∈ o_granted opts /\ p ∈ nullish (permissions (o_manifest opts)) [] /\
  none ∉ nullish (permissions (o_manifest opts)) [].
Proof. unfold effective_grants. by rewrite effectivePermissions_elem, obj_from_granted. Qed.

(** The steps of a local run that ends well. *)
Lemma runAgent_ok_steps opts events h h' r :
  runAgent opts events h = (h', Ok r) ->
  nullish (o_interfaceName opts) if_name_cli = if_name_http /\ ra_sandbox r = used_none /\ h' = h \/
  exists effective policy stored model h1,
    admission opts = Ok (effective, policy) /\
    ss_get vault (o_agentKey opts) = Ok stored /\
    pickModel (o_manifest opts) (o_model opts) (Ok stored) (o_agentKey opts) = Ok model /\
    start_sandbox opts (nullish (o_interfaceName opts) if_name_cli) (dc_mode policy) effective
      (agent_env opts model (obj_merge stored (o_extraSecrets opts)) effective) events h1 =
        (h', Ok (ra_result r, ra_sandbox r)).
Proof.
  unfold runAgent. cbv zeta. destruct (nullish (o_interfaceName opts) if_name_cli) eqn:Hi.
  3: { destruct (negb (truthy _)); cbv [tr_throw throw mret tr_mret tr_ret]; [intros [=]|].
       intros [= <- <-]. by left. }
  all: intros Hrun; right; tr_inv Hrun as [effective policy] Ha; tr_inv Hrun as docker_ok Hd;
    apply tr_lift_ok in Ha as [Ha _];
    destruct docker_ok; cbn [negb] in Hrun; [|by cbv [tr_throw throw] in Hrun];
    tr_inv Hrun as stored Hs; tr_inv Hrun as model Hm;
    apply tr_lift_ok in Hs as [Hs _]; apply tr_lift_ok in Hm as [Hm _];
    destruct (bool_decide (dc_mode policy = m_process) && _ && _); [by cbv [tr_throw throw] in Hrun|];
    tr_inv Hrun as [res used] Hstart; apply tr_ret_ok in Hrun as [<- ->];
    rewrite Hs in Hm; by eexists _, _, _, _, _.
Qed.

Lemma start_sandbox_mode opts iface mode effective env events h h' res used :
  start_sandbox opts iface mode effective env events h = (h', Ok (res, used)) ->
  used = (match mode with m_container => used_container | m_process => used_process end).
Proof.
  unfold start_sandbox. intros Hs. tr_inv Hs as cmdline Hc.
  destruct mode; destruct (o_interactive opts); tr_inv Hs as outcome Ho; by apply tr_ret_ok in Hs as [[= _ <-] _].
Qed.

(** C9: An agent starts a plain process only when the policy's rules allow it:
    a run that reports the process sandbox was for a trusted or local agent whose
    version is not rejected or revoked, whose status does not force a container, and
    whose override or manifest chose it; in particular no input of the caller makes
    an untrusted or unknown agent run outside a container. *)
Theorem runAgent_process_is_allowed opts events h h' r :
  runAgent opts events h = (h', Ok r) -> ra_sandbox r = used_process ->
  may_run_as_process (policy_input opts).
Proof.
  intros Hrun Hp. apply runAgent_ok_steps in Hrun as [(_ & Hn & _)|Hrun]; [congruence|].
  destruct Hrun as (effective & policy & stored & model & h1 & Ha & _ & _ & Hs).
  apply admission_ok_iff in Ha as (_ & _ & _ & -> & _). apply process_iff_rules.
  apply start_sandbox_mode in Hs. destruct (dc_mode _); congruence.
Qed.

Lemma obj_from_nodup {V} (l : obj V) : NoDup (obj_keys (obj_from l)).
Proof. apply obj_merge_nodup. constructor. Qed.

Lemma effective_grants_nodup opts : NoDup (effective_grants opts).
Proof. apply effectivePermissions_nodup, obj_from_nodup. Qed.

(** C10: A local run starts only with permissions the manifest requests: when
    [runAgent] succeeds, no permission was granted twice, each granted permission is
    requested and the manifest does not declare [none] next to it; otherwise the
    run is refused before any command is executed. *)
Theorem runAgent_grants_in_manifest opts events h h' r :
  nullish (o_interfaceName opts) if_name_cli <> if_name_http ->
  runAgent opts events h = (h', r) ->
  match r with
  | Ok _ =>
      NoDup (o_granted opts) /\
      forall p, p ∈ o_granted opts ->
        p ∈ nullish (permissions (o_manifest opts)) [] /\ none ∉ nullish (permissions (o_manifest opts)) []
  | Throw e => forall p, p ∈ o_granted opts ->
      nonempty (dep_system (deps_of (o_manifest opts))) = false ->
      p ∉ nullish (permissions (o_manifest opts)) [] ->
      h' = h /\ err_message e =
        "refusing grants absent from the manifest: " +:+ dropped opts (effective_grants opts)
  end.
Proof.
  intros Hi Hrun. destruct r as [r|e].
  - apply runAgent_ok_steps in Hrun as [(Hh & _)|Hrun]; [done|].
    destruct Hrun as (effective & policy & stored & model & h1 & Ha & _).
    apply admission_ok_iff in Ha as (_ & -> & Hlen & _).
    assert (Hperm : effective_grants opts ≡ₚ o_granted opts).
    { apply submseteq_length_Permutation; [|lia].
      apply NoDup_submseteq; [apply effective_grants_nodup|]. by intros p [? _]%effective_grants_elem. }
    split; [rewrite <- Hperm; apply effective_grants_nodup|].
    intros p Hp. rewrite <- Hperm in Hp. by apply effective_grants_elem in Hp as [_ ?].
  - intros p Hp Hsys Hnot.
    assert (Hlen : length (effective_grants opts) <> length (o_granted opts)).
    { intros Hlen. assert (Hperm : effective_grants opts ≡ₚ o_granted opts).
      { apply submseteq_length_Permutation; [|lia].
        apply NoDup_submseteq; [apply effective_grants_nodup|]. by intros q [? _]%effective_grants_elem. }
      rewrite <- Hperm in Hp. by apply effective_grants_elem in Hp as (_ & ? & _). }
    assert (Ha : admission opts = throw EError
      ("refusing grants absent from the manifest: " +:+ dropped opts (effective_grants opts))).
    { unfold admission. rewrite Hsys. cbv zeta. apply Nat.eqb_neq in Hlen. by rewrite Hlen. }
    rewrite (runAgent_refused _ _ _ _ Hi Ha) in Hrun. by injection Hrun as <- <-.
Qed.

Lemma agent_env_nodup opts model secrets effective :
  NoDup (obj_keys (agent_env opts model secrets effective)).
Proof.
  unfold agent_env, buildAgentEnv, set_if. cbv zeta.
  assert (Hbase : NoDup (obj_keys [("AGENT_NAME", name (o_manifest opts)); ("AGENT_VERSION", version (o_manifest opts));
    ("AGENT_MODEL_PROVIDER", provider_name (mc_provider model)); ("AGENT_MODEL_NAME", mc_model model)])).
  { apply (bool_decide_unpack _). reflexivity. }
  repeat match goal with |- context [if ?b then _ else _] => destruct b end; auto 12 with js.
Qed.

Definition reserved_env : list string :=
  ["AGENT_TRUST"; "AGENT_HOME"; "AGENT_GRANTED_PERMISSIONS"; "AGENT_USAGE_FILE"].

(** A secret overrides every variable of the agent but the reserved ones. *)
Lemma agent_env_secret opts model secrets effective k v :
  NoDup (obj_keys secrets) -> k ∉ reserved_env -> obj_get k secrets = Some v ->
  obj_get k (agent_env opts model secrets effective) = Some v.
Proof.
  unfold reserved_env. intros Hnd Hk Hv. rewrite !not_elem_of_cons in Hk. destruct Hk as (H1 & H2 & H3 & H4 & _).
  unfold agent_env, set_if. cbv zeta.
  assert (Hm : obj_get k (obj_merge (buildAgentEnv model (name (o_manifest opts)) (version (o_manifest opts))) secrets) = Some v)
    by by rewrite obj_get_merge, Hv.
  destruct (truthy (o_usageFilePath opts)); rewrite !obj_get_set_ne by congruence; done.
Qed.

(** The last command of a run in the process sandbox. *)
Lemma start_sandbox_process_last opts iface effective env events h h' out :
  start_sandbox opts iface m_process effective env events h = (h', Ok out) ->
  exists h0 prog args, h' = h0 ++ [mkCmd prog args (Some (o_agentDir opts))
    (Some (obj_merge (e_process_env sur) env))].
Proof.
  unfold start_sandbox. intros Hs. tr_inv Hs as cmdline Hc.
  destruct (o_interactive opts); tr_inv Hs as outcome Ho; apply tr_ret_ok in Hs as [_ ->];
    unfold process_run, process_runInteractive in Ho; tr_inv Ho as [] Hp; tr_inv Ho as tokens Ht;
    destruct tokens as [|prog args]; [by cbv [tr_throw throw] in Ho| |by cbv [tr_throw throw] in Ho|];
    cbv [spawned act] in Ho; injection Ho as <- _; by eexists _, prog, args.
Qed.

Lemma runAgent_process_env opts events h h' r stored k v :
  runAgent opts events h = (h', Ok r) -> ra_sandbox r = used_process ->
  ss_get vault (o_agentKey opts) = Ok stored -> NoDup (obj_keys stored) -> o_extraSecrets opts = [] ->
  obj_get k stored = Some v -> k ∉ reserved_env ->
  exists h0 prog args env, h' = h0 ++ [mkCmd prog args (Some (o_agentDir opts)) (Some env)] /\
    obj_get k env = Some v.
Proof.
  intros Hrun Hp Hs Hnd Hx Hk Hres. apply runAgent_ok_steps in Hrun as [(_ & Hn & _)|Hrun]; [congruence|].
  destruct Hrun as (effective & policy & stored' & model & h1 & _ & Hs' & _ & Hst).
  rewrite Hs in Hs'. injection Hs' as <-. pose proof (start_sandbox_mode _ _ _ _ _ _ _ _ _ _ Hst) as Hm.
  rewrite Hp in Hm. destruct (dc_mode policy); [done|].
  apply start_sandbox_process_last in Hst as (h0 & prog & args & ->).
  eexists h0, prog, args, _. split; [reflexivity|].
  rewrite obj_get_merge by apply agent_env_nodup. rewrite Hx. unfold obj_merge at 1. cbn [fold_left].
  by rewrite (agent_env_secret _ _ _ _ _ _ Hnd Hres Hk).
Qed.
End runtime.

(** ** Witnesses *)
Definition demo_manifest (perms : list Permission) : Manifest :=
  mkManifest "a/b" "1.0.0" "x" "d" "MIT" None None None (mkRuntimeSpec python None None None) None
    [ollama] (mkInterfaces (Some (mkCli "python3 app.py" None None)) None None) (Some perms) None None None None.

Definition demo_opts (t : TrustLevel) (perms granted : list Permission) : RunAgentOptions :=
  mkRunAgent "/agents/a" (demo_manifest perms) "a/b@1.0.0" None None granted t None [] None false false
    None None None None None None.

Definition demo_sur : surroundings := mkSurroundings [("PATH", "/bin")] (mkCenv None None None) "/tmp/x".

Definition demo_run (t : TrustLevel) (perms granted : list Permission) :=
  @runAgent vstore toy_store (fun s => s) (fun _ _ => Ok tt) (mret true) (toy_state "a/b@1.0.0" demo_secrets) demo_sur
    (demo_opts t perms granted) [ev_stdout "hi"; ev_close (Some 0%Z)] [].

Lemma runAgent_process_is_allowed_witness :
  may_run_as_process (policy_input (demo_opts trusted [network] [network])).
Proof.
  apply (@runAgent_process_is_allowed vstore toy_store (fun s => s) (fun _ _ => Ok tt) (mret true)
    (toy_state "a/b@1.0.0" demo_secrets) demo_sur
    (demo_opts trusted [network] [network]) [ev_stdout "hi"; ev_close (Some 0%Z)] []
    (demo_run trusted [network] [network]).1
    (mkRunAgentResult (Some (mkRunResult 0 "hi" "" false)) if_name_cli used_process ("ollama", "llama3.1")
       (Some "trusted or local agent; using fast isolated-process path"))); vm_compute; reflexivity.
Defined.

Lemma runAgent_grants_in_manifest_witness :
  match (demo_run trusted [network] [github]).2 with
  | Ok _ => NoDup [github] /\ forall p, p ∈ [github] ->
        p ∈ nullish (permissions (demo_manifest [network])) [] /\ none ∉ nullish (permissions (demo_manifest [network])) []
  | Throw e => forall p, p ∈ [github] ->
      nonempty (dep_system (deps_of (demo_manifest [network]))) = false ->
      p ∉ nullish (permissions (demo_manifest [network])) [] ->
      (demo_run trusted [network] [github]).1 = [] /\ err_message e =
        "refusing grants absent from the manifest: " +:+ dropped (demo_opts trusted [network] [github])
          (effective_grants (demo_opts trusted [network] [github]))
  end.
Proof.
  apply (@runAgent_grants_in_manifest vstore toy_store (fun s => s) (fun _ _ => Ok tt) (mret true)
    (toy_state "a/b@1.0.0" demo_secrets) demo_sur
    (demo_opts trusted [network] [github]) [ev_stdout "hi"; ev_close (Some 0%Z)] []); [discriminate|].
  apply surjective_pairing.
Defined.
End AgentRuntime.
