(* ===== verification/Logs.v ===== *)
(** Log files: rotation ([rotateLogs] of [cli/src/lib/control-plane.ts] and
    [rotateRunLog] of [supervisor.ts], the same loop on another path), the tails
    ([readLogTail], [readRunLogTail]) and following a log ([readLogFollow]). *)
From S2P Require Import Prelude Fs.

Module Logs.
Import Fs.
Local Open Scope nat_scope.

(** @src cli/src/lib/control-plane.ts 35-36 LOG_MAX_BYTES *)
Definition LOG_MAX_BYTES : Z := 5 * 1024 * 1024.
Definition LOG_MAX_FILES : nat := 3.

(** ** Rotation *)

Definition numbered (path : string) (i : nat) : string :=
  if Nat.eqb i 0 then path else path +:+ "." +:+ pretty i.

(** The file operations once the log is too big; [rename] of a missing file does
    nothing, as the [existsSync] test.
    @src cli/src/lib/supervisor.ts 170-174 rotateRunLog *)
Definition rotate_ops (path : string) : list (fs_op string) :=
  fs_remove (numbered path (LOG_MAX_FILES - 1))
  :: map (fun i => fs_rename (numbered path i) (numbered path (S i))) (rev (seq 0 (LOG_MAX_FILES - 1))).

(** @src cli/src/lib/control-plane.ts rotateLogs *)
Definition rotateLogs (path : string) (m : fs string) : fs string :=
  match m !! path with
  | None => m
  | Some text => if (Z.of_nat (String.length text) <? LOG_MAX_BYTES)%Z then m else fs_run m (rotate_ops path)
  end.

(** @src cli/src/lib/supervisor.ts rotateRunLog *)
Definition rotateRunLog (runLogPath : string -> string) (runId : string) (m : fs string) : fs string :=
  rotateLogs (runLogPath runId) m.

(** ** Tails *)

Fixpoint strip_leading (c : ascii) (s : string) : string :=
  match s with String a s' => if Ascii.eqb a c then strip_leading c s' else s | EmptyString => s end.

(** [s.replace(/\n$/, "")] *)
Fixpoint strip_last_lf (s : string) : string :=
  match s with
  | EmptyString => EmptyString
  | String c EmptyString => if Ascii.eqb c LF then EmptyString else s
  | String c s' => String c (strip_last_lf s')
  end.

(** The lines of a file, without the empty piece after its last newline. *)
Definition file_lines (text : string) : list string :=
  let l := js_split LF text in
  match last l with Some "" => take (length l - 1) l | _ => l end.

(** The loop of [readLogTail]: [files] in the order it visits them, [None] for one
    that cannot be read. *)
Fixpoint tail_chunks (remaining : nat) (files : list (option string)) : list string :=
  match files with
  | [] => []
  | f :: rest =>
      if Nat.eqb remaining 0 then []
      else match f with
           | None => tail_chunks remaining rest
           | Some text =>
               let tail := js_slice_last remaining (file_lines text) in
               js_join (str1 LF) tail :: tail_chunks (remaining - length tail) rest
           end
  end.

(** [files] are the contents in the order of [logFilenames], which is the
    descending order of the names.
    @src cli/src/lib/control-plane.ts readLogTail *)
Definition readLogTail (lines : nat) (files : list (option string)) : string :=
  strip_leading LF (js_join (str1 LF) (tail_chunks lines (rev files))).

(** @src cli/src/lib/supervisor.ts readRunLogTail *)
Definition readRunLogTail (lines : nat) (files : list (option string)) : string :=
  let text := fold_left (fun acc f => acc +:+ nullish f "") files "" in
  let trimmed := strip_last_lf text in
  if String.eqb trimmed "" then "" else js_join (str1 LF) (js_slice_last lines (js_split LF trimmed)).

Definition js_geb (a b : string) : bool := negb (js_ltb a b).

(** The names of the log files of a directory, in descending order.
    @src cli/src/lib/control-plane.ts logFilenames *)
Definition logFilenames (readdir : list string) : list string :=
  js_sort js_geb (List.filter (fun f => js_startsWith f "daemon.log") readdir).

(** @src cli/src/lib/supervisor.ts runLogFilenames *)
Definition runLogFilenames (runId : string) (readdir : list string) : list string :=
  js_sort js_geb (List.filter (fun f => js_startsWith f (runId +:+ ".log")) readdir).

(** ** Following *)

(** @src cli/src/lib/control-plane.ts LogFollowState *)
Record LogFollowState := mkFollow { offset : nat; identity : string }.

(** What [statSync] sees. *)
Record log_stat := mkStat { st_size : nat; st_identity : string }.

(** @src cli/src/lib/control-plane.ts initLogFollow *)
Definition initLogFollow (st : log_stat) : LogFollowState := mkFollow (st_size st) (st_identity st).

(** [content] is the file when it is read, [size_after] what [fstatSync] says
    after the read.
    @src cli/src/lib/control-plane.ts readLogFollow *)
Definition readLogFollow (st : log_stat) (content : string) (size_after : nat) (state : LogFollowState)
    : LogFollowState * option string :=
  let off := if negb (String.eqb (st_identity st) (identity state)) || Nat.ltb (st_size st) (offset state)
             then 0 else offset state in
  if Nat.leb (st_size st) off then (mkFollow off (st_identity st), None)
  else
    let buffer := js_take (st_size st - off) (js_drop off content) in
    (mkFollow size_after (st_identity st),
     if Nat.ltb 0 (String.length buffer) then Some (strip_last_lf buffer) else None).

(** ** Properties *)

Lemma numbered_inj path i j :
  i < LOG_MAX_FILES -> j < LOG_MAX_FILES -> numbered path i = numbered path j -> i = j.
Proof.
  unfold LOG_MAX_FILES, numbered. intros Hi Hj.
  assert (Hlen : forall k : nat, path <> path +:+ "." +:+ pretty k).
  { intros k. apply tmp_ne. done. }
  destruct (Nat.eqb_spec i 0), (Nat.eqb_spec j 0); subst; [done|intros H; by destruct (Hlen j)|intros H; by destruct (Hlen i)|].
  intros H%sapp_inj_l. injection H as H. by apply (inj pretty) in H.
Qed.

(** Rotation keeps every byte of the last generations and bounds their
    number: when the log has reached the limit its content moves to generation 1,
    generation 1 to generation 2 (whose old content is dropped) and the log is free
    for writing; below the limit, and for every other file, nothing changes. *)
Theorem rotateLogs_spec path m q :
  rotateLogs path m !! q =
    match m !! path with
    | Some text =>
        if (Z.of_nat (String.length text) <? LOG_MAX_BYTES)%Z then m !! q
        else if decide (q = path) then None
        else if decide (q = numbered path 1) then Some text
        else if decide (q = numbered path 2) then m !! numbered path 1
        else m !! q
    | None => m !! q
    end.
Proof.
  unfold rotateLogs. destruct (m !! path) as [text|] eqn:Hp; [|done].
  destruct (_ <? _)%Z; [done|].
  assert (H01 : path <> numbered path 1) by (intros H; by apply (numbered_inj path 0 1) in H; unfold LOG_MAX_FILES; try lia).
  assert (H02 : path <> numbered path 2) by (intros H; by apply (numbered_inj path 0 2) in H; unfold LOG_MAX_FILES; try lia).
  assert (H12 : numbered path 1 <> numbered path 2) by (intros H; apply numbered_inj in H; unfold LOG_MAX_FILES; lia).
  unfold rotate_ops, LOG_MAX_FILES. cbn [Nat.sub seq rev app map fs_run fold_left fs_step].
  change (numbered path 0) with path. unfold fs_run. cbn [fold_left fs_step].
  set (p1 := numbered path 1) in *. set (p2 := numbered path 2) in *.
  rewrite lookup_delete_ne by done. destruct (m !! p1) as [t1|] eqn:H1.
  - rewrite lookup_insert_ne, lookup_delete_ne, lookup_delete_ne, Hp by done.
    destruct (decide (q = path)) as [->|]; [rewrite lookup_insert_ne by done; apply lookup_delete_eq|].
    destruct (decide (q = p1)) as [->|]; [apply lookup_insert_eq|].
    rewrite lookup_insert_ne, lookup_delete_ne by done.
    destruct (decide (q = p2)) as [->|]; [apply lookup_insert_eq|].
    by rewrite lookup_insert_ne, lookup_delete_ne, lookup_delete_ne by done.
  - rewrite lookup_delete_ne, Hp by done.
    destruct (decide (q = path)) as [->|]; [rewrite lookup_insert_ne by done; apply lookup_delete_eq|].
    destruct (decide (q = p1)) as [->|]; [apply lookup_insert_eq|].
    rewrite lookup_insert_ne, lookup_delete_ne by done.
    destruct (decide (q = p2)) as [->|]; [apply lookup_delete_eq|].
    by rewrite lookup_delete_ne by done.
Qed.

Definition plain_line (w : string) : Prop := w <> "" /\ js_has_char LF w = false.

(** A log of whole lines. *)
Definition text_of (l : list string) : string := js_join (str1 LF) l +:+ str1 LF.

Lemma file_lines_text l :
  l <> [] -> Forall plain_line l -> file_lines (text_of l) = l.
Proof.
  intros Hne Hl. unfold file_lines, text_of.
  assert (Hs : js_split LF (js_join (str1 LF) l +:+ str1 LF) = l ++ [""]).
  { unfold str1 at 2. unfold js_split. rewrite split_by_app_sep by apply Ascii.eqb_refl.
    fold (js_split LF). rewrite split_join; [done..|]. eapply Forall_impl; [exact Hl|]. by intros w [_ ?]. }
  rewrite Hs, last_snoc. rewrite length_app. cbn [length].
  replace (length l + 1 - 1) with (length l) by lia. by rewrite take_app, take_ge, Nat.sub_diag, app_nil_r.
Qed.

Lemma join_app_lf a b :
  a <> [] -> b <> [] -> js_join (str1 LF) (a ++ b) = js_join (str1 LF) a +:+ str1 LF +:+ js_join (str1 LF) b.
Proof.
  intros Ha Hb. induction a as [|x a IH]; [done|]. destruct a as [|y a].
  - cbn [app]. by rewrite join_cons.
  - rewrite <- app_comm_cons. rewrite !join_cons by done. rewrite IH by done. by rewrite !sapp_assoc.
Qed.

Lemma join_head_plain l : l <> [] -> Forall plain_line l ->
  strip_leading LF (js_join (str1 LF) l) = js_join (str1 LF) l.
Proof.
  intros Hne Hl. destruct Hl as [|w l [Hw1 Hw2] Hl]; [done|].
  destruct w as [|c w]; [done|]. cbn in Hw2. apply orb_false_elim in Hw2 as [Hc _].
  destruct l; cbn; rewrite Ascii.eqb_sym, Hc; done.
Qed.

Lemma slice_last_cons {A} n (l : list A) :
  0 < n -> l <> [] -> js_slice_last n l <> [].
Proof.
  intros Hn Hl H. apply (f_equal length) in H. rewrite slice_last_length in H by done.
  destruct l; [done|]. cbn in H. lia.
Qed.

Lemma slice_last_Forall {A} (P : A -> Prop) n l : Forall P l -> Forall P (js_slice_last n l).
Proof. intros H. unfold js_slice_last. destruct (Nat.eqb n 0); [done|]. by apply Forall_drop. Qed.

(** The control plane's log tail is out of order as soon as the newest file
    does not fill it: the lines of the newest log come first and the last lines of
    the previous generation after them. *)
Theorem readLogTail_out_of_order older newest lines :
  older <> [] -> newest <> [] -> Forall plain_line older -> Forall plain_line newest ->
  length newest < lines ->
  readLogTail lines [Some (text_of older); Some (text_of newest)] =
    js_join (str1 LF) (newest ++ js_slice_last (lines - length newest) older).
Proof.
  intros Ho Hn Hol Hnl Hlen. unfold readLogTail. cbn [rev app tail_chunks].
  rewrite !file_lines_text by done. destruct (Nat.eqb_spec lines 0); [lia|].
  assert (Hs : js_slice_last lines newest = newest).
  { unfold js_slice_last. destruct (Nat.eqb_spec lines 0); [done|].
    by replace (length newest - lines) with 0 by lia. }
  rewrite Hs. destruct (Nat.eqb_spec (lines - length newest) 0); [lia|].
  assert (Hsl : js_slice_last (lines - length newest) older <> []) by (apply slice_last_cons; [lia|done]).
  cbn [js_join]. rewrite <- join_app_lf by done. apply join_head_plain.
  - destruct newest; done.
  - apply Forall_app. split; [done|]. by apply slice_last_Forall.
Qed.

Lemma readLogTail_out_of_order_witness :
  readLogTail 10 [Some (text_of ["old 1"; "old 2"]); Some (text_of ["new"])] =
    js_join (str1 LF) (["new"] ++ js_slice_last (10 - length ["new"]) ["old 1"; "old 2"]).
Proof. apply (readLogTail_out_of_order ["old 1"; "old 2"] ["new"] 10); [done|done|repeat constructor; done..|cbn; lia]. Defined.

Lemma strip_last_lf_text s : strip_last_lf (s +:+ str1 LF) = s.
Proof.
  induction s as [|c s IH]; [done|]. rewrite sapp_cons. cbn [strip_last_lf].
  destruct (s +:+ str1 LF) as [|d t] eqn:E; [by destruct s|].
  change (String c (strip_last_lf (String d t)) = String c s). by rewrite IH.
Qed.

Lemma text_of_app a b : a <> [] -> b <> [] -> text_of a +:+ text_of b = text_of (a ++ b).
Proof. intros Ha Hb. unfold text_of. rewrite join_app_lf by done. by rewrite !sapp_assoc. Qed.

Lemma fold_texts gens l :
  l <> [] -> Forall (fun l => l <> [] /\ Forall plain_line l) gens ->
  fold_left (fun acc f => acc +:+ nullish f "") (map (fun l => Some (text_of l)) gens) (text_of l)
    = text_of (l ++ concat gens).
Proof.
  intros Hl Hg. revert l Hl. induction Hg as [|g gens [Hg1 _] Hg IH]; intros l Hl; cbn.
  - by rewrite app_nil_r.
  - change (default "" (Some (text_of g))) with (text_of g). rewrite text_of_app by done.
    rewrite IH by by destruct l. by rewrite app_assoc.
Qed.

(** The tail of a run's log is the last lines of all its generations, oldest
    first, in the order they were written. *)
Theorem readRunLogTail_spec gens lines :
  gens <> [] -> Forall (fun l => l <> [] /\ Forall plain_line l) gens ->
  readRunLogTail lines (map (fun l => Some (text_of l)) gens) =
    js_join (str1 LF) (js_slice_last lines (concat gens)).
Proof.
  intros Hne Hg. unfold readRunLogTail. cbv zeta.
  destruct Hg as [|l gens [Hl Hlp] Hg]; [done|]. cbn [map fold_left concat].
  change (nullish (Some (text_of l)) "") with (text_of l). change ("" +:+ text_of l) with (text_of l).
  assert (Hall : Forall plain_line (l ++ concat gens)).
  { apply Forall_app. split; [done|]. clear Hl Hne. induction Hg as [|g gens [_ Hg1] Hg IH]; [done|].
    cbn. apply Forall_app. split; done. }
  rewrite fold_texts by done.
unfold text_of. rewrite strip_last_lf_text.
  assert (Hcne : l ++ concat gens <> []) by by destruct l.
  destruct (String.eqb_spec (js_join (str1 LF) (l ++ concat gens)) "") as [He|].
  - exfalso. destruct l as [|w l]; [done|]. inversion_clear Hlp as [|? ? [Hw _] _].
    destruct w as [|c w]; [done|]. destruct (l ++ concat gens) eqn:E; cbn in He; rewrite E in He; done.
  - rewrite split_join; [done..|]. eapply Forall_impl; [exact Hall|]. by intros w [_ ?].
Qed.

Lemma readRunLogTail_spec_witness :
  readRunLogTail 2 (map (fun l => Some (text_of l)) [["a"; "b"]; ["c"]]) =
    js_join (str1 LF) (js_slice_last 2 (concat [["a"; "b"]; ["c"]])).
Proof. apply (readRunLogTail_spec [["a"; "b"]; ["c"]] 2); repeat constructor; done. Defined.

(** The usage samples of a run are read as part of its log. *)
Example usage_file_is_a_log :
  runLogFilenames "r-1" ["r-1.json"; "r-1.log"; "r-1.log.1"; "r-1.log.usage.jsonl"]
    = ["r-1.log.usage.jsonl"; "r-1.log.1"; "r-1.log"].
Proof. reflexivity. Qed.

(** Following a log loses what is written while it is read: when the file
    grows between the [statSync] that sizes the buffer and the [fstatSync] that
    sets the next offset, the bytes in between are given by no call. *)
Theorem readLogFollow_skips_growth st before gap after state :
  identity state = st_identity st -> offset state = String.length before ->
  st_size st = String.length before + 1 + String.length gap ->
  forall c added, String.length added > 0 ->
  readLogFollow st (before +:+ String c gap +:+ added +:+ after)
    (String.length (before +:+ String c gap +:+ added)) state =
    (mkFollow (String.length (before +:+ String c gap +:+ added)) (st_identity st),
     Some (strip_last_lf (String c gap))) /\
  (forall size', size' = String.length (before +:+ String c gap +:+ added +:+ after) ->
   forall s, (readLogFollow (mkStat size' (st_identity st)) (before +:+ String c gap +:+ added +:+ after) size'
     (mkFollow (String.length (before +:+ String c gap +:+ added)) (st_identity st))).2 = Some s ->
     s = strip_last_lf after).
Proof.
  intros Hid Hoff Hsize c added Hadd. split.
  - unfold readLogFollow. rewrite Hid, String.eqb_refl, Hoff, Hsize. cbn [negb orb].
    destruct (Nat.ltb_spec (String.length before + 1 + String.length gap) (String.length before)); [lia|].
    cbv zeta. destruct (Nat.leb_spec (String.length before + 1 + String.length gap) (String.length before)); [lia|].
    rewrite drop_app_length. replace (String.length before + 1 + String.length gap - String.length before)
      with (String.length (String c gap)) by (cbn [String.length]; lia).
    rewrite take_app_length. destruct (Nat.ltb_spec 0 (String.length (String c gap))); [done|cbn in *; lia].
  - intros size' -> s. unfold readLogFollow. cbn [st_size st_identity identity offset].
    rewrite String.eqb_refl. cbn [negb orb].
    replace (before +:+ String c gap +:+ added +:+ after) with ((before +:+ String c gap +:+ added) +:+ after)
      by by rewrite !sapp_assoc.
    set (pre := before +:+ String c gap +:+ added). rewrite slength_app.
    destruct (Nat.ltb_spec (String.length pre + String.length after) (String.length pre)); [lia|].
    cbv zeta. destruct (Nat.leb_spec (String.length pre + String.length after) (String.length pre)); [done|].
    rewrite drop_app_length. replace (String.length pre + String.length after - String.length pre) with (String.length after) by lia.
    assert (Ht : js_take (String.length after) after = after)
      by (rewrite <- (sapp_nil_r after) at 2; apply take_app_length).
    rewrite Ht. cbn [snd]. destruct (Nat.ltb_spec 0 (String.length after)); [by intros [= <-]|lia].
Qed.

Lemma readLogFollow_skips_growth_witness :
  readLogFollow (mkStat 3 "1:2") ("a" +:+ String "b" "c" +:+ "lost" +:+ "d") 7 (mkFollow 1 "1:2") =
    (mkFollow 7 "1:2", Some (strip_last_lf (String "b" "c"))).
Proof.
  apply (readLogFollow_skips_growth (mkStat 3 "1:2") "a" "c" "d" (mkFollow 1 "1:2") eq_refl eq_refl eq_refl "b" "lost").
  cbn. lia.
Defined.
End Logs.
