(* ===== verification/ControlPlane.v ===== *)
(** The local control plane: [cli/src/lib/control-plane.ts].  The daemon's state
    file and lock, the choice of a port, the life cycle of the daemon process
    (ensure, stop, restart, run) and the files that start it with the session. *)
From S2P Require Import Prelude Fs Trace.

Module ControlPlane.
Import Fs Trace.
Local Open Scope Z_scope.

(** @src cli/src/lib/control-plane.ts 33-37 CONTROL_HEALTH_TIMEOUT_MS *)
Definition CONTROL_HEALTH_TIMEOUT_MS : Z := 45000.
Definition CONTROL_STOP_TIMEOUT_MS : Z := 10000.
Definition PORT_PROBE_ATTEMPTS : nat := 100.
Definition CONTROL_BOUND_HOST : string := "127.0.0.1".

(** @src cli/src/lib/control-plane.ts DaemonHealth *)
Inductive DaemonHealth := starting | ready | stopped.

#[export] Instance DaemonHealth_eq_dec : EqDecision DaemonHealth.
Proof. solve_decision. Defined.

(** @src cli/src/lib/control-plane.ts DaemonState *)
Record DaemonState := mkDaemon {
  d_pid : Z;
  startIdentity : string;
  d_port : Z;
  productVersion : string;
  protocolVersion : Z;
  d_startedAt : string;
  d_health : DaemonHealth;
}.

(** The content of the state file. *)
Inductive state_file := sf_garbage | sf_state (s : DaemonState).

(** @src cli/src/lib/control-plane.ts readState *)
Definition readState (path : string) (m : fs state_file) : option DaemonState :=
  match m !! path with Some (sf_state s) => Some s | _ => None end.

(** @src cli/src/lib/control-plane.ts writeState *)
Definition writeState (path pid : string) (s : DaemonState) : list (fs_op state_file) :=
  replace_file path (path +:+ "." +:+ pid +:+ ".tmp") (sf_state s).

(** @src cli/src/lib/control-plane.ts clearState *)
Definition clearState (path : string) : list (fs_op state_file) := [fs_remove path].

(** The token of the local API, and what is written when it is regenerated.
    @src cli/src/lib/control-plane.ts readToken *)
Definition readToken (file : option string) (random : string) : string * option string :=
  match file with
  | Some raw => if Nat.leb 16 (String.length (js_trim raw)) then (js_trim raw, None) else (random, Some random)
  | None => (random, Some random)
  end.

(** @src cli/src/lib/control-plane.ts daemonEnabled *)
Definition daemonEnabled (OPENAGENTHUB_NO_DAEMON : option string) : bool :=
  negb (bool_decide (OPENAGENTHUB_NO_DAEMON = Some "1")).

(** @src cli/src/lib/control-plane.ts validPort *)
Definition validPort (value : option Z) : bool :=
  match value with Some v => (1 <=? v) && (v <=? 65535) | None => false end.

(** ** The actions of the life cycle *)
Inductive action :=
| A_readState | A_clearState | A_writeState (s : DaemonState)
| A_alive (pid : Z) | A_stamp (pid : Z) | A_kill (pid : Z)
| A_now | A_sleep (ms : Z) | A_fetchHealth (port : Z)
| A_acquire | A_release | A_writeOwner | A_probe (port : Z)
| A_rotate | A_spawn (port : Z) | A_import | A_exit (code : Z).

(** What the world answers, given everything done so far. *)
Record world := mkWorld {
  w_state : list action -> option DaemonState;
  w_alive : list action -> Z -> bool;
  w_stamp : list action -> Z -> option string;
  w_kill : list action -> Z -> option string;      (* the error code, if it fails *)
  w_now : list action -> Z;
  w_health : list action -> Z -> bool;
  w_lock : list action -> bool;
  w_free : list action -> Z -> bool;
}.

Section lifecycle.
Context (w : world) (win32 enabled : bool).
Context (CONTROL_PROTOCOL_VERSION CONTROL_PREFERRED_PORT : Z) (product CONTROL_LOG_PATH : string).

Local Abbreviation M := (tr action).

Definition q_state : M (option DaemonState) := ask A_readState (w_state w).
Definition q_alive (pid : Z) : M bool := ask (A_alive pid) (fun h => w_alive w h pid).
Definition q_now : M Z := ask A_now (w_now w).
Definition sleep (ms : Z) : M unit := ask (A_sleep ms) (fun _ => tt).
Definition do_ (a : action) : M unit := ask a (fun _ => tt).

(** @src cli/src/lib/control-plane.ts identityMatches *)
Definition identityMatches (s : DaemonState) : M bool :=
  alive ← q_alive (d_pid s);
  if negb alive then mret false
  else if win32 then mret true
  else
    stamp ← ask (A_stamp (d_pid s)) (fun h => w_stamp w h (d_pid s));
    mret (bool_decide (stamp = Some (startIdentity s))).

(** @src cli/src/lib/control-plane.ts daemonNeedsRestart *)
Definition daemonNeedsRestart (s : DaemonState) : bool :=
  (protocolVersion s <? CONTROL_PROTOCOL_VERSION) || negb (String.eqb (productVersion s) product).

(** The inner function [attempt] of [selectPort].
    @src cli/src/lib/control-plane.ts 163-172 selectPort *)
Fixpoint port_attempt (preferred : Z) (triesLeft : nat) (candidate : Z) : M Z :=
  free ← ask (A_probe candidate) (fun h => w_free w h candidate);
  if (free : bool) then mret candidate
  else match triesLeft with
       | O => tr_throw EError ("no free port found near " +:+ pretty preferred)
       | S t => port_attempt preferred t (candidate + 1)
       end.

(** @src cli/src/lib/control-plane.ts selectPort *)
Definition selectPort (preferred : Z) : M Z := port_attempt preferred PORT_PROBE_ATTEMPTS preferred.

(** Iterations that a loop sleeping [step] ms can make before the deadline. *)
Definition polls (timeoutMs step : Z) : nat := Z.to_nat (timeoutMs / step) + 2.

(** @src cli/src/lib/control-plane.ts 238-250 waitForHealth *)
Fixpoint health_loop (fuel : nat) (port deadline : Z) : M bool :=
  match fuel with
  | O => mret false
  | S f =>
      now ← q_now;
      if now <? deadline then
        ok ← ask (A_fetchHealth port) (fun h => w_health w h port);
        if (ok : bool) then mret true
        else _ ← sleep 250; health_loop f port deadline
      else mret false
  end.

(** @src cli/src/lib/control-plane.ts waitForHealth *)
Definition waitForHealth (port timeoutMs : Z) : M bool :=
  now ← q_now; health_loop (polls timeoutMs 250) port (now + timeoutMs).

Fixpoint ready_loop (fuel : nat) (deadline : Z) : M (option DaemonState) :=
  match fuel with
  | O => mret None
  | S f =>
      now ← q_now;
      if now <? deadline then
        s ← q_state;
        if match s with Some st => bool_decide (d_health st = ready) | None => false end then mret s
        else _ ← sleep 100; ready_loop f deadline
      else mret None
  end.

(** @src cli/src/lib/control-plane.ts waitForReadyState *)
Definition waitForReadyState (timeoutMs : Z) : M (option DaemonState) :=
  now ← q_now; ready_loop (polls timeoutMs 100) (now + timeoutMs).

(** @src cli/src/lib/control-plane.ts StopDaemonOutcome *)
Inductive StopDaemonOutcome := out_stopped | out_stale | out_failed.

Fixpoint exit_loop (fuel : nat) (pid deadline : Z) : M unit :=
  match fuel with
  | O => mret tt
  | S f =>
      now ← q_now;
      if now <? deadline then
        alive ← q_alive pid;
        if (alive : bool) then _ ← sleep 100; exit_loop f pid deadline else mret tt
      else mret tt
  end.

(** @src cli/src/lib/control-plane.ts stopDaemon *)
Definition stopDaemon : M (StopDaemonOutcome * option DaemonState) :=
  state ← q_state;
  match state with
  | None => mret (out_stopped, None)
  | Some s =>
      same ← identityMatches s;
      if negb same then _ ← do_ A_clearState; mret (out_stale, Some s)
      else
        err ← ask (A_kill (d_pid s)) (fun h => w_kill w h (d_pid s));
        match err with
        | Some code => mret (if String.eqb code "ESRCH" then out_stale else out_failed, Some s)
        | None =>
            now ← q_now;
            _ ← exit_loop (polls CONTROL_STOP_TIMEOUT_MS 100) (d_pid s) (now + CONTROL_STOP_TIMEOUT_MS);
            alive ← q_alive (d_pid s);
            mret (if negb alive then out_stopped else out_failed, Some s)
        end
  end.

(** @src cli/src/lib/control-plane.ts EnsureResult *)
Record EnsureResult := mkEnsure { er_state : DaemonState; er_started : bool }.

Definition running_result (s : DaemonState) : M EnsureResult :=
  r ← waitForReadyState 2000; mret (mkEnsure (nullish r s) false).

(** The loop of [ensureDaemon] when another process holds the lock.
    @src cli/src/lib/control-plane.ts 315-323 ensureDaemon *)
Fixpoint rival_loop (fuel : nat) (deadline : Z) : M EnsureResult :=
  let lost := tr_throw EError "another control plane start is in progress but never became healthy" in
  match fuel with
  | O => lost
  | S f =>
      now ← q_now;
      if now <? deadline then
        rival ← q_state;
        healthy ← (match rival with Some r => waitForHealth (d_port r) 2000 | None => mret false end);
        match rival with
        | Some r => if (healthy : bool) then running_result r else _ ← sleep 250; rival_loop f deadline
        | None => _ ← sleep 250; rival_loop f deadline
        end
      else lost
  end.

(** @src cli/src/lib/control-plane.ts 332-340 ensureDaemon *)
Definition fresh_start : M EnsureResult :=
  port ← selectPort CONTROL_PREFERRED_PORT;
  _ ← do_ A_rotate;
  _ ← do_ (A_spawn port);
  up ← waitForHealth port CONTROL_HEALTH_TIMEOUT_MS;
  if negb up then
    tr_throw EError ("control plane failed to become healthy on port " +:+ pretty port +:+ "; see " +:+ CONTROL_LOG_PATH)
  else
    st ← waitForReadyState 5000;
    match st with
    | Some st => mret (mkEnsure st true)
    | None => tr_throw EError ("control plane is healthy on port " +:+ pretty port
        +:+ " but never reported a ready state; see " +:+ CONTROL_LOG_PATH)
    end.

(** What [ensureDaemon] does while it holds the lock.
    @src cli/src/lib/control-plane.ts 326-343 ensureDaemon *)
Definition locked_start : M EnsureResult :=
  again ← q_state;
  match again with
  | None => fresh_start
  | Some s =>
      same ← identityMatches s;
      healthy ← (if (same : bool) && negb (daemonNeedsRestart s) then waitForHealth (d_port s) 2000 else mret false);
      if (healthy : bool) then running_result s
      else
        same' ← identityMatches s;
        _ ← (if (same' : bool) then _ ← stopDaemon; mret tt else mret tt);
        fresh_start
  end.

(** The part before the lock; [Some] when a running daemon is good enough.
    @src cli/src/lib/control-plane.ts 302-312 ensureDaemon *)
Definition reuse_running : M (option EnsureResult) :=
  existing ← q_state;
  match existing with
  | None => mret None
  | Some s =>
      same ← identityMatches s;
      if negb same then mret None
      else if daemonNeedsRestart s then _ ← stopDaemon; _ ← do_ A_clearState; mret None
      else
        healthy ← waitForHealth (d_port s) 2000;
        if (healthy : bool) then r ← running_result s; mret (Some r)
        else
          alive ← q_alive (d_pid s);
          if negb alive then _ ← do_ A_clearState; mret None else mret None
  end.

(** @src cli/src/lib/control-plane.ts ensureDaemon *)
Definition ensureDaemon : M EnsureResult :=
  if negb enabled then tr_throw EControlPlaneDisabled "control plane is disabled by OPENAGENTHUB_NO_DAEMON=1"
  else
    early ← reuse_running;
    match early with
    | Some r => mret r
    | None =>
        locked ← ask A_acquire (w_lock w);
        if negb locked then
          now ← q_now; rival_loop (polls CONTROL_HEALTH_TIMEOUT_MS 250) (now + CONTROL_HEALTH_TIMEOUT_MS)
        else tr_finally locked_start (do_ A_release)
    end.

(** @src cli/src/lib/control-plane.ts restartDaemon *)
Definition restartDaemon : M EnsureResult :=
  '(outcome, state) ← stopDaemon;
  match outcome with
  | out_failed => tr_throw EError ("control plane did not stop in time (pid " +:+
      nullish ((fun s => pretty (d_pid s)) <$> state) "undefined" +:+
      "); state preserved, refusing to start a second daemon")
  | _ => ensureDaemon
  end.

(** The daemon process itself, up to the end of its start; [PORT] is the number
    of that environment variable, [dashboard] whether the build is there and its
    module loads, [stamp] its own start time, [now] the time.
    @src cli/src/lib/control-plane.ts runDaemon *)
Definition runDaemon (self : Z) (DAEMON_LOCKED : option string) (PORT : option Z) (dashboard : bool)
    (stamp : option string) (now : string) : M unit :=
  go ← (if bool_decide (DAEMON_LOCKED = Some "1") then _ ← do_ A_writeOwner; mret true
        else
          locked ← ask A_acquire (w_lock w);
          if negb locked then _ ← do_ A_clearState; _ ← do_ (A_exit 0); mret false else mret true);
  if negb go then mret tt
  else
    port ← (if validPort PORT then mret (nullish PORT 0) else selectPort CONTROL_PREFERRED_PORT);
    let state := fun h => mkDaemon self (nullish stamp (pretty self)) port product CONTROL_PROTOCOL_VERSION now h in
    _ ← do_ (A_writeState (state starting));
    _ ← do_ A_import;
    if negb dashboard then
      _ ← do_ (A_writeState (state stopped)); _ ← do_ A_release; do_ (A_exit 1)
    else
      up ← waitForHealth port 15000;
      do_ (A_writeState (state (if (up : bool) then ready else starting))).

(** ** Properties *)

(** *** Ports *)

Lemma validPort_iff p : validPort p = true <-> exists v, p = Some v /\ 1 <= v <= 65535.
Proof.
  unfold validPort. destruct p as [v|]; [|split; [done|by intros (? & [=] & _)]].
  rewrite andb_true_iff, !Z.leb_le. split; [by exists v|]. by intros (? & [= ->] & ?).
Qed.

(** Ports tried before the [n]-th. *)
Definition probes (preferred : Z) (n : nat) : list action :=
  map (fun i => A_probe (preferred + Z.of_nat i)) (seq 0 n).

Lemma probes_S preferred n : probes preferred (S n) = probes preferred n ++ [A_probe (preferred + Z.of_nat n)].
Proof. unfold probes. rewrite seq_S, map_app. done. Qed.

Definition port_free (preferred : Z) (h : list action) (n : nat) : bool :=
  w_free w (h ++ probes preferred n) (preferred + Z.of_nat n).

Lemma probes_cons preferred n :
  probes preferred (S n) = A_probe preferred :: probes (preferred + 1) n.
Proof.
  unfold probes. cbn [seq map]. f_equal; [f_equal; lia|].
  rewrite <- seq_shift, map_map. apply map_ext. intros i. f_equal. lia.
Qed.

Lemma port_attempt_spec pref t c h :
  match port_attempt pref t c h with
  | (h', Ok p) => exists n, (n <= t)%nat /\ p = c + Z.of_nat n /\ port_free c h n = true /\
      (forall m, (m < n)%nat -> port_free c h m = false) /\ h' = h ++ probes c (S n)
  | (h', Throw _) => (forall m, (m <= t)%nat -> port_free c h m = false) /\ h' = h ++ probes c (S t)
  end.
Proof.
  revert c h. induction t as [|t IH]; intros c h; cbn [port_attempt]; rewrite tr_bind_run; cbv [ask act].
  - assert (H0 : port_free c h 0 = w_free w h c) by (unfold port_free; cbn; rewrite app_nil_r; f_equal; lia).
    destruct (w_free w h c) eqn:E.
    + exists 0%nat. split_and!; [lia|lia|by rewrite H0|lia|]. cbn. by rewrite Z.add_0_r.
    + split; [intros m Hm; replace m with 0%nat by lia; by rewrite H0|]. cbn. by rewrite Z.add_0_r.
  - assert (H0 : port_free c h 0 = w_free w h c) by (unfold port_free; cbn; rewrite app_nil_r; f_equal; lia).
    assert (HS : forall m, port_free (c + 1) (h ++ [A_probe c]) m = port_free c h (S m)).
    { intros m. unfold port_free. rewrite probes_cons, <- app_assoc. cbn [app]. f_equal. lia. }
    destruct (w_free w h c) eqn:E.
    + exists 0%nat. split_and!; [lia|lia|by rewrite H0|lia|]. cbn. by rewrite Z.add_0_r.
    + specialize (IH (c + 1) (h ++ [A_probe c])).
      destruct (port_attempt pref t (c + 1) (h ++ [A_probe c])) as [h' [p|e]].
      * destruct IH as (n & Hn & -> & Hf & Hlt & ->). exists (S n). split_and!; [lia|lia|by rewrite <- HS| |].
        -- intros [|m] Hm; [by rewrite H0|]. rewrite <- HS. apply Hlt. lia.
        -- rewrite (probes_cons c (S n)), <- app_assoc. done.
      * destruct IH as [Hall ->]. split.
        -- intros [|m] Hm; [by rewrite H0|]. rewrite <- HS. apply Hall. lia.
        -- rewrite (probes_cons c (S t)), <- app_assoc. done.
Qed.

(** The port that is selected is the first free one from the preferred port
    on; the search tries at most 101 ports, and fails only when all of them are
    taken. *)
Theorem selectPort_first_free preferred h :
  match selectPort preferred h with
  | (h', Ok p) => exists n, (n <= PORT_PROBE_ATTEMPTS)%nat /\ p = preferred + Z.of_nat n /\ port_free preferred h n = true /\
      (forall m, (m < n)%nat -> port_free preferred h m = false) /\ h' = h ++ probes preferred (S n)
  | (h', Throw _) => (forall m, (m <= PORT_PROBE_ATTEMPTS)%nat -> port_free preferred h m = false) /\
      h' = h ++ probes preferred (S PORT_PROBE_ATTEMPTS)
  end.
Proof. exact (port_attempt_spec preferred PORT_PROBE_ATTEMPTS preferred h). Qed.

(** *** Waiting *)

Definition slept (l : list action) : Z :=
  fold_right (fun a n => match a with A_sleep ms => ms + n | _ => n end) 0 l.

(** Time passes at least by what is slept. *)
Definition clock_law : Prop := forall h l, w_now w h + slept l <= w_now w (h ++ l).

Lemma health_loop_fuel port deadline k :
  clock_law -> forall f h,
  deadline - w_now w h <= 250 * Z.of_nat f -> health_loop (S f + k) port deadline h = health_loop (S f) port deadline h.
Proof.
  intros Hclock. induction f as [|f IH]; intros h Hd; cbn [health_loop Nat.add]; rewrite !tr_bind_run;
    cbv [q_now ask act]; destruct (Z.ltb_spec (w_now w h) deadline); try done; [lia|].
  rewrite !tr_bind_run; cbv [ask act]. destruct (w_health w (h ++ [A_now]) port); [done|].
  rewrite !tr_bind_run; cbv [sleep ask act]. apply IH. rewrite <- !app_assoc.
  pose proof (Hclock h [A_now; A_fetchHealth port; A_sleep 250]) as Hc. cbn [slept fold_right] in Hc. cbn [app]. lia.
Qed.

Lemma ready_loop_fuel deadline k :
  clock_law -> forall f h,
  deadline - w_now w h <= 100 * Z.of_nat f -> ready_loop (S f + k) deadline h = ready_loop (S f) deadline h.
Proof.
  intros Hclock. induction f as [|f IH]; intros h Hd; cbn [ready_loop Nat.add]; rewrite !tr_bind_run;
    cbv [q_now ask act]; destruct (Z.ltb_spec (w_now w h) deadline); try done; [lia|].
  rewrite !tr_bind_run; cbv [q_state ask act]. destruct (match w_state w (h ++ [A_now]) with Some _ => _ | None => _ end); [done|].
  rewrite !tr_bind_run; cbv [sleep ask act]. apply IH. rewrite <- !app_assoc.
  pose proof (Hclock h [A_now; A_readState; A_sleep 100]) as Hc. cbn [slept fold_right] in Hc. cbn [app]. lia.
Qed.

Lemma exit_loop_fuel pid deadline k :
  clock_law -> forall f h,
  deadline - w_now w h <= 100 * Z.of_nat f -> exit_loop (S f + k) pid deadline h = exit_loop (S f) pid deadline h.
Proof.
  intros Hclock. induction f as [|f IH]; intros h Hd; cbn [exit_loop Nat.add]; rewrite !tr_bind_run;
    cbv [q_now ask act]; destruct (Z.ltb_spec (w_now w h) deadline); try done; [lia|].
  rewrite !tr_bind_run; cbv [q_alive ask act]. destruct (w_alive w (h ++ [A_now]) pid); [|done].
  rewrite !tr_bind_run; cbv [sleep ask act]. apply IH. rewrite <- !app_assoc.
  pose proof (Hclock h [A_now; A_alive pid; A_sleep 100]) as Hc. cbn [slept fold_right] in Hc. cbn [app]. lia.
Qed.

Lemma polls_enough t step now : 0 < step -> 0 <= t ->
  exists f, polls t step = S f /\ now + t - now <= step * Z.of_nat f.
Proof.
  intros Hs Ht. unfold polls. exists (Z.to_nat (t / step) + 1)%nat. split; [lia|].
  rewrite Nat2Z.inj_add, Z2Nat.id by (apply Z.div_pos; lia).
  pose proof (Z.mul_succ_div_gt t step Hs). lia.
Qed.

(** C21: The waits end: since each round sleeps, the clock passes the deadline
    within the rounds the model allows, whatever the world answers, so more rounds
    change neither the result nor what is done (health, ready state and exit of
    the daemon alike). *)
Theorem waits_terminate t pid port h k :
  clock_law -> 0 <= t ->
  health_loop (polls t 250 + k) port (w_now w h + t) h = health_loop (polls t 250) port (w_now w h + t) h /\
  ready_loop (polls t 100 + k) (w_now w h + t) h = ready_loop (polls t 100) (w_now w h + t) h /\
  exit_loop (polls t 100 + k) pid (w_now w h + t) h = exit_loop (polls t 100) pid (w_now w h + t) h.
Proof.
  intros Hc Ht. destruct (polls_enough t 250 (w_now w h)) as (f1 & -> & H1); [lia|done|].
  destruct (polls_enough t 100 (w_now w h)) as (f2 & -> & H2); [lia|done|].
  split_and!; [by apply health_loop_fuel|by apply ready_loop_fuel|by apply exit_loop_fuel].
Qed.

(** *** Starting under the lock *)

Definition quiet (a : action) : Prop :=
  match a with A_spawn _ | A_release | A_acquire => False | _ => True end.

Lemma quiet_state : appends quiet q_state.
Proof. by apply appends_ask. Qed.
Lemma quiet_alive pid : appends quiet (q_alive pid).
Proof. by apply appends_ask. Qed.
Lemma quiet_now : appends quiet q_now.
Proof. by apply appends_ask. Qed.
Lemma quiet_sleep ms : appends quiet (sleep ms).
Proof. by apply appends_ask. Qed.

#[local] Hint Resolve quiet_state quiet_alive quiet_now quiet_sleep : trace.

(** Follows the structure of a computation. *)
Ltac quiet_tac :=
  repeat first
    [ assumption
    | apply appends_bind; [|intros]
    | progress auto with trace
    | match goal with
      | |- appends _ (ask _ _) => apply appends_ask; exact I
      | |- appends _ (do_ _) => apply appends_ask; exact I
      | |- appends _ (match ?x with _ => _ end) => destruct x
      end ].

Lemma quiet_identity s : appends quiet (identityMatches s).
Proof. unfold identityMatches. quiet_tac. Qed.

Lemma quiet_health_loop f port deadline : appends quiet (health_loop f port deadline).
Proof. induction f as [|f IH]; cbn [health_loop]; quiet_tac. Qed.

Lemma quiet_ready_loop f deadline : appends quiet (ready_loop f deadline).
Proof. induction f as [|f IH]; cbn [ready_loop]; quiet_tac. Qed.

Lemma quiet_exit_loop f pid deadline : appends quiet (exit_loop f pid deadline).
Proof. induction f as [|f IH]; cbn [exit_loop]; quiet_tac. Qed.

#[local] Hint Resolve quiet_identity quiet_health_loop quiet_ready_loop quiet_exit_loop : trace.

Lemma quiet_wait_health port t : appends quiet (waitForHealth port t).
Proof. unfold waitForHealth. quiet_tac. Qed.

Lemma quiet_wait_ready t : appends quiet (waitForReadyState t).
Proof. unfold waitForReadyState. quiet_tac. Qed.

#[local] Hint Resolve quiet_wait_health quiet_wait_ready : trace.

Lemma quiet_stop : appends quiet stopDaemon.
Proof. unfold stopDaemon. quiet_tac. Qed.

Lemma quiet_running s : appends quiet (running_result s).
Proof. unfold running_result. quiet_tac. Qed.

#[local] Hint Resolve quiet_stop quiet_running : trace.

Lemma quiet_reuse : appends quiet reuse_running.
Proof. unfold reuse_running. quiet_tac. Qed.

Lemma quiet_rival f deadline : appends quiet (rival_loop f deadline).
Proof. induction f as [|f IH]; cbn [rival_loop]; quiet_tac. Qed.

Lemma quiet_port pref t c : appends quiet (port_attempt pref t c).
Proof. revert c. induction t as [|t IH]; intros c; cbn [port_attempt]; quiet_tac. Qed.

Definition locked_action (a : action) : Prop := match a with A_release | A_acquire => False | _ => True end.

Lemma quiet_locked a : quiet a -> locked_action a.
Proof. by destruct a. Qed.

Lemma locked_start_actions : appends locked_action locked_start.
Proof.
  assert (Hq : forall A (m : M A), appends quiet m -> appends locked_action m)
    by (intros A m; apply appends_impl, quiet_locked).
  assert (Hf : appends locked_action fresh_start).
  { unfold fresh_start. apply appends_bind; [apply Hq, quiet_port|intros].
    apply appends_bind; [by apply appends_ask|intros]. apply appends_bind; [by apply appends_ask|intros].
    apply Hq. quiet_tac. }
  unfold locked_start. apply appends_bind; [apply Hq; auto with trace|intros [s|]]; [|done].
  apply appends_bind; [apply Hq; auto with trace|intros same].
  apply appends_bind; [apply Hq; quiet_tac|intros healthy]. destruct healthy; [apply Hq; auto with trace|].
  apply appends_bind; [apply Hq; auto with trace|intros same'].
  apply appends_bind; [apply Hq; quiet_tac|done].
Qed.

Lemma quiet_no_spawn l p : Forall quiet l -> A_spawn p ∉ l.
Proof. rewrite Forall_forall. intros H Hin. by apply (H _ Hin). Qed.

(** A daemon is spawned only while this process holds the start lock, and the
    lock is given back: in whatever [ensureDaemon] does, every spawn lies between
    one successful acquisition and the release, which is the last action, whether
    the start succeeds or throws. *)
Theorem ensureDaemon_spawns_under_lock h p :
  exists l, (ensureDaemon h).1 = h ++ l /\
  (A_spawn p ∈ l -> exists l1 l2, l = l1 ++ A_acquire :: l2 ++ [A_release] /\
     w_lock w (h ++ l1) = true /\ A_spawn p ∈ l2 /\ Forall quiet l1 /\ Forall locked_action l2).
Proof.
  unfold ensureDaemon. destruct enabled; cbn [negb].
  2: { exists []. split; [by rewrite app_nil_r|by intros ?%elem_of_nil]. }
  rewrite tr_bind_run. destruct (quiet_reuse h) as (l1 & Hl1 & Hq1).
  destruct (reuse_running h) as [h1 [[r|]|e]]; cbn in Hl1; subst h1.
  1, 3: exists l1; split; [done|]; intros Hin; by apply (quiet_no_spawn _ p) in Hq1.
  rewrite tr_bind_run. cbv [ask act]. destruct (w_lock w (h ++ l1)) eqn:Hlock; cbn [negb].
  - destruct (locked_start_actions ((h ++ l1) ++ [A_acquire])) as (l2 & Hl2 & Hq2).
    unfold tr_finally. destruct (locked_start ((h ++ l1) ++ [A_acquire])) as [h2 r2]. cbn in Hl2. subst h2.
    cbn. exists (l1 ++ A_acquire :: l2 ++ [A_release]). split; [by rewrite <- !app_assoc|].
    intros Hin. exists l1, l2. split_and!; [done|done| |done|done].
    apply (quiet_no_spawn _ p) in Hq1. rewrite elem_of_app, elem_of_cons, elem_of_app, list_elem_of_singleton in Hin.
    destruct Hin as [?|[?|[?|?]]]; done.
  - assert (Hm : appends quiet (now ← q_now; rival_loop (polls CONTROL_HEALTH_TIMEOUT_MS 250) (now + CONTROL_HEALTH_TIMEOUT_MS))).
    { apply appends_bind; [auto with trace|intros]. apply quiet_rival. }
    destruct (Hm ((h ++ l1) ++ [A_acquire])) as (l2 & Hl2 & Hq2).
    exists (l1 ++ A_acquire :: l2). split; [rewrite Hl2; by rewrite <- !app_assoc|].
    intros Hin. exfalso. apply (quiet_no_spawn _ p) in Hq1, Hq2.
    rewrite elem_of_app, elem_of_cons in Hin. by destruct Hin as [?|[?|?]].
Qed.

Definition no_kill (a : action) : Prop := match a with A_kill _ => False | _ => True end.

Lemma kill_free_exit f pid deadline : appends no_kill (exit_loop f pid deadline).
Proof.
  induction f as [|f IH]; cbn [exit_loop]; [apply appends_ret|].
  apply appends_bind; [by apply appends_ask|intros now]. destruct (now <? deadline); [|apply appends_ret].
  apply appends_bind; [by apply appends_ask|intros [|]]; [|apply appends_ret].
  apply appends_bind; [by apply appends_ask|done].
Qed.

(** Runs a computation up to its next unknown answer. *)
Ltac run_step :=
  repeat (rewrite tr_bind_run; cbv [q_state q_alive q_now sleep do_ ask act mret tr_mret tr_ret negb]);
  cbv [mret tr_mret tr_ret negb].

End lifecycle.

(** ** The start lock

    The lock is a directory with the owner's process id in a file; [None]: no
    directory; [Some None]: a directory without a valid owner. *)
Definition lock : Type := option (option Z).

Definition lockOwnerPid (l : lock) : option Z :=
  match l with Some (Some o) => if 0 <? o then Some o else None | _ => None end.

(** [acquireLock] as it runs when no other process touches the lock meanwhile.
    @src cli/src/lib/control-plane.ts acquireLock *)
Fixpoint acquire_attempts (attempts : nat) (self : Z) (alive : Z -> bool) (l : lock) : lock * bool :=
  match attempts with
  | O => (l, false)
  | S n =>
      match l with
      | None => (Some (Some self), true)
      | Some _ =>
          match lockOwnerPid l with
          | Some owner => if alive owner then (l, false) else acquire_attempts n self alive None
          | None => acquire_attempts n self alive None
          end
      end
  end.

Definition acquireLock (self : Z) (alive : Z -> bool) (l : lock) : lock * bool := acquire_attempts 2 self alive l.
#[global] Arguments acquireLock : simpl never.

(** @src cli/src/lib/control-plane.ts releaseLock *)
Definition releaseLock (self : Z) (alive : Z -> bool) (l : lock) : lock :=
  match lockOwnerPid l with
  | Some owner => if (owner =? self) || negb (alive owner) then None else l
  | None => l
  end.

(** *** One process after the other *)

Record lock_world := mkLockWorld { lw_lock : lock; lw_alive : gset Z; lw_holders : gset Z }.

Inductive lock_op := op_spawn (p : Z) | op_acquire (p : Z) | op_release (p : Z) | op_die (p : Z).

Definition lock_step (s : lock_world) (op : lock_op) : lock_world :=
  let alive := fun p => bool_decide (p ∈ lw_alive s) in
  match op with
  | op_spawn p => if 0 <? p then mkLockWorld (lw_lock s) ({[p]} ∪ lw_alive s) (lw_holders s) else s
  | op_acquire p =>
      if alive p then
        let '(l, ok) := acquireLock p alive (lw_lock s) in
        mkLockWorld l (lw_alive s) (if (ok : bool) then {[p]} ∪ lw_holders s else lw_holders s)
      else s
  | op_release p =>
      if alive p then mkLockWorld (releaseLock p alive (lw_lock s)) (lw_alive s) (lw_holders s ∖ {[p]}) else s
  | op_die p => mkLockWorld (lw_lock s) (lw_alive s ∖ {[p]}) (lw_holders s ∖ {[p]})
  end.

Record lock_inv (s : lock_world) : Prop := mkLockInv {
  li_pos : forall p, p ∈ lw_alive s -> 0 < p;
  li_holder : forall p, p ∈ lw_holders s -> p ∈ lw_alive s /\ lw_lock s = Some (Some p);
}.

Lemma owner_pos p : 0 < p -> lockOwnerPid (Some (Some p)) = Some p.
Proof. intros Hp. unfold lockOwnerPid. by rewrite (proj2 (Z.ltb_lt 0 p)). Qed.

Lemma acquireLock_spec p (alive : Z -> bool) l :
  0 < p ->
  match lockOwnerPid l with
  | Some o => if alive o then acquireLock p alive l = (l, false) else acquireLock p alive l = (Some (Some p), true)
  | None => acquireLock p alive l = (Some (Some p), true)
  end.
Proof.
  intros Hp. unfold acquireLock. destruct l as [o|]; cbn [acquire_attempts].
  - destruct (lockOwnerPid (Some o)) as [o'|]; [|done]. by destruct (alive o').
  - done.
Qed.

Lemma lock_step_inv s op : lock_inv s -> lock_inv (lock_step s op).
Proof.
  intros [Hpos Hh]. destruct op as [p|p|p|p]; cbn.
  - destruct (Z.ltb_spec 0 p); [|done]. split; cbn.
    + intros q [->%elem_of_singleton|Hq]%elem_of_union; auto.
    + intros q Hq. destruct (Hh q Hq). split; [set_solver|done].
  - case_bool_decide as Hp; [|done]. pose proof (acquireLock_spec p (fun p => bool_decide (p ∈ lw_alive s)) (lw_lock s) (Hpos p Hp)) as Ha.
    destruct (lockOwnerPid (lw_lock s)) as [o|] eqn:Ho.
    + destruct (bool_decide (o ∈ lw_alive s)) eqn:Hao; rewrite Ha; split; cbn; [done|done|done|].
      intros q Hq. apply bool_decide_eq_false in Hao. destruct (decide (q = p)) as [->|]; [done|]. exfalso.
      assert (Hq' : q ∈ lw_holders s) by set_solver. destruct (Hh q Hq') as [Hqa Hl].
      rewrite Hl, (owner_pos q (Hpos q Hqa)) in Ho. congruence.
    + rewrite Ha. split; cbn; [done|]. intros q Hq. destruct (decide (q = p)) as [->|]; [done|]. exfalso.
      assert (Hq' : q ∈ lw_holders s) by set_solver. destruct (Hh q Hq') as [Hqa Hl].
      rewrite Hl, (owner_pos q (Hpos q Hqa)) in Ho. congruence.
  - case_bool_decide as Hp; [|done]. split; cbn; [done|]. intros q Hq.
    assert (Hq' : q ∈ lw_holders s /\ q <> p) by set_solver. destruct Hq' as [Hq' Hne].
    destruct (Hh q Hq') as [Hqa Hl]. split; [done|]. unfold releaseLock.
    rewrite Hl, (owner_pos q (Hpos q Hqa)). destruct (Z.eqb_spec q p); [congruence|].
    by rewrite bool_decide_eq_true_2.
  - split; cbn; [set_solver|]. intros q Hq. destruct (Hh q) as [? ?]; set_solver.
Qed.

(** When acquisitions do not overlap in time, the lock excludes: after any
    sequence of spawned, dying, acquiring and releasing processes, at most one
    process believes it holds the lock, and it is the one the lock names; a lock
    left by a dead process does not block the next one. *)
Theorem lock_excludes_sequentially l ops p q :
  let s := fold_left lock_step ops (mkLockWorld l ∅ ∅) in
  (p ∈ lw_holders s -> q ∈ lw_holders s -> p = q) /\
  (p ∈ lw_holders s -> lockOwnerPid (lw_lock s) = Some p) /\
  (p ∈ lw_alive s -> (forall o, lockOwnerPid (lw_lock s) = Some o -> o ∉ lw_alive s) ->
     p ∈ lw_holders (lock_step s (op_acquire p))).
Proof.
  intros s. assert (Hinv : lock_inv s).
  { unfold s. assert (H0 : lock_inv (mkLockWorld l ∅ ∅)) by (split; cbn; set_solver).
    revert H0. generalize (mkLockWorld l ∅ ∅). induction ops as [|op ops IH]; intros s0 H0; [done|].
    cbn. apply IH. by apply lock_step_inv. }
  destruct Hinv as [Hpos Hh]. split_and!.
  - intros Hp Hq. destruct (Hh p Hp) as [_ H1], (Hh q Hq) as [_ H2]. congruence.
  - intros Hp. destruct (Hh p Hp) as [Ha ->]. apply owner_pos. auto.
  - intros Hp Ho. cbn. rewrite bool_decide_eq_true_2 by done.
    pose proof (acquireLock_spec p (fun p => bool_decide (p ∈ lw_alive s)) (lw_lock s) (Hpos p Hp)) as Ha.
    destruct (lockOwnerPid (lw_lock s)) as [o|].
    + rewrite bool_decide_eq_false_2 in Ha by auto. rewrite Ha. cbn. set_solver.
    + rewrite Ha. cbn. set_solver.
Qed.

(** *** Two processes at once *)

(** Where a process is inside [acquireLock]. *)
Inductive lock_pc :=
| pc_mkdir (attempt : nat) | pc_write (attempt : nat) | pc_check (attempt : nat) | pc_rm (attempt : nat)
| pc_held | pc_refused.

(** One system call of a process.
    @src cli/src/lib/control-plane.ts 186-200 acquireLock *)
Definition lock_micro (self : Z) (alive : Z -> bool) (l : lock) (pc : lock_pc) : lock * lock_pc :=
  match pc with
  | pc_mkdir a => match l with None => (Some None, pc_write a) | Some _ => (l, pc_check a) end
  | pc_write a => match l with Some _ => (Some (Some self), pc_held) | None => (l, pc_check a) end
  | pc_check a =>
      match lockOwnerPid l with
      | Some o => if alive o then (l, pc_refused) else (l, pc_rm a)
      | None => (l, pc_rm a)
      end
  | pc_rm a => (None, if Nat.ltb (S a) 2 then pc_mkdir (S a) else pc_refused)
  | pc_held | pc_refused => (l, pc)
  end.

Fixpoint solo (n : nat) (self : Z) (alive : Z -> bool) (l : lock) (pc : lock_pc) : lock * lock_pc :=
  match n with O => (l, pc) | S n => let '(l', pc') := lock_micro self alive l pc in solo n self alive l' pc' end.

(** Alone, the system calls amount to [acquireLock]. *)
Lemma solo_refines self (alive : Z -> bool) l :
  solo 6 self alive l (pc_mkdir 0) =
    let '(l', ok) := acquireLock self alive l in (l', if (ok : bool) then pc_held else pc_refused).
Proof.
  unfold acquireLock. destruct l as [[o|]|]; cbn; [|done|done].
  destruct (0 <? o) eqn:Ho; cbn; rewrite ?Ho; cbn; [|done].
  destruct (alive o) eqn:Ha; cbn; rewrite ?Ho; cbn; rewrite ?Ha; done.
Qed.

(** An interleaving: [true] is a step of the first process. *)
Fixpoint interleave (p q : Z) (alive : Z -> bool) (schedule : list bool) (s : lock * lock_pc * lock_pc)
    : lock * lock_pc * lock_pc :=
  match schedule with
  | [] => s
  | who :: rest =>
      let '(l, a, b) := s in
      interleave p q alive rest
        (if (who : bool) then let '(l', a') := lock_micro p alive l a in (l', a', b)
         else let '(l', b') := lock_micro q alive l b in (l', a, b'))
  end.

(** Two processes that start at the same time can both get the lock, although
    both stay alive: between creating the directory and writing its owner the lock
    looks abandoned, so the other process removes it and takes it, and the first
    then writes its own id over it.  Alone, each would follow [acquireLock]. *)
Theorem acquireLock_race p q (alive : Z -> bool) :
  exists schedule l, interleave p q alive schedule (None, pc_mkdir 0, pc_mkdir 0) = (l, pc_held, pc_held) /\
    forall l0, solo 6 p alive l0 (pc_mkdir 0) =
      let '(l', ok) := acquireLock p alive l0 in (l', if (ok : bool) then pc_held else pc_refused).
Proof.
  exists [true; false; false; false; false; false; true], (Some (Some p)).
  split; [reflexivity|]. intros l0. apply solo_refines.
Qed.

(** ** Starting with the session *)

(** @src cli/src/lib/control-plane.ts xmlEscape *)
Definition xmlEscape (value : string) : string :=
  js_replace_all SQUOTE "&apos;" (js_replace_all DQUOTE "&quot;" (js_replace_all ">" "&gt;"
    (js_replace_all "<" "&lt;" (js_replace_all "&" "&amp;" value)))).

Definition is_nrt (c : ascii) : bool := Ascii.eqb c LF || Ascii.eqb c "013" || Ascii.eqb c "009".

Definition has_space (s : string) : bool := negb (js_all (fun c => negb (Ascii.is_space c)) s).

Definition systemd_escape (value : string) : string :=
  js_flat_map (fun c => if is_nrt c then " " else str1 c)
    (js_replace_all BACKSLASH (String BACKSLASH (str1 BACKSLASH)) (js_replace_all "%" "%%" value)).

(** @src cli/src/lib/control-plane.ts systemdArg *)
Definition systemdArg (value : string) : string :=
  let out := js_replace_all DQUOTE (String BACKSLASH (str1 DQUOTE)) (systemd_escape value) in
  if has_space out then str1 DQUOTE +:+ out +:+ str1 DQUOTE else out.

(** @src cli/src/lib/control-plane.ts systemdEnv *)
Definition systemdEnv (name value : string) : string :=
  let out := systemd_escape value in
  if has_space out then "Environment=" +:+ name +:+ "=" +:+ str1 DQUOTE +:+ out +:+ str1 DQUOTE
  else "Environment=" +:+ name +:+ "=" +:+ out.

Record autostart_env := mkAutostart {
  execPath : string; BIN_PATH : string; AGENT_HOME : string; au_port : Z; au_token : string; au_version : string;
  au_log : string;
}.

(** @src cli/src/lib/control-plane.ts 537-552 autostartEnable *)
Definition unit_lines (e : autostart_env) : list string :=
  ["[Unit]"; "Description=OpenAgentHub control plane"; "After=network.target"; "";
   "[Service]";
   "ExecStart=" +:+ systemdArg (execPath e) +:+ " " +:+ systemdArg (BIN_PATH e) +:+ " daemon";
   "Environment=" +:+ systemdEnv "AGENT_HOME" (AGENT_HOME e);
   "Environment=PORT=" +:+ pretty (au_port e);
   "Environment=" +:+ systemdEnv "OPENAGENTHUB_LOCAL_TOKEN" (au_token e);
   "Environment=" +:+ systemdEnv "OPENAGENTHUB_PRODUCT_VERSION" (au_version e);
   "Restart=always"; "RestartSec=2"; ""; "[Install]"; "WantedBy=default.target"].

Definition plist_entry (k v : string) : list string :=
  ["    <key>" +:+ k +:+ "</key>"; "    <string>" +:+ v +:+ "</string>"].

(** The environment dictionary of the launchd job.
    @src cli/src/lib/control-plane.ts 514-525 autostartEnable *)
Definition plist_env_lines (e : autostart_env) : list string :=
  plist_entry "AGENT_HOME" (xmlEscape (AGENT_HOME e)) ++ plist_entry "PORT" (pretty (au_port e))
  ++ plist_entry "OPENAGENTHUB_LOCAL_TOKEN" (xmlEscape (au_token e))
  ++ plist_entry "OPENAGENTHUB_PRODUCT_VERSION" (xmlEscape (au_version e)).

(** What an XML reader makes of character data and the five entities; a markup
    character or another use of [&] is refused. *)
Fixpoint xml_text (s : string) : option string :=
  match s with
  | EmptyString => Some EmptyString
  | String "&" (String "a" (String "m" (String "p" (String ";" t)))) => String "&" <$> xml_text t
  | String "&" (String "l" (String "t" (String ";" t))) => String "<" <$> xml_text t
  | String "&" (String "g" (String "t" (String ";" t))) => String ">" <$> xml_text t
  | String "&" (String "q" (String "u" (String "o" (String "t" (String ";" t))))) => String DQUOTE <$> xml_text t
  | String "&" (String "a" (String "p" (String "o" (String "s" (String ";" t))))) => String SQUOTE <$> xml_text t
  | String c t =>
      if Ascii.eqb c "&" || Ascii.eqb c "<" || Ascii.eqb c ">" || Ascii.eqb c DQUOTE || Ascii.eqb c SQUOTE
      then None else String c <$> xml_text t
  end%char.

Definition xml_entity (c : ascii) : string :=
  if Ascii.eqb c "&" then "&amp;" else if Ascii.eqb c "<" then "&lt;" else if Ascii.eqb c ">" then "&gt;"
  else if Ascii.eqb c DQUOTE then "&quot;" else if Ascii.eqb c SQUOTE then "&apos;" else str1 c.

Lemma flat_map_flat_map f g s : js_flat_map f (js_flat_map g s) = js_flat_map (fun c => js_flat_map f (g c)) s.
Proof. induction s as [|c s IH]; [done|]. cbn. by rewrite flat_map_app, IH. Qed.

Lemma flat_map_ext f g s : (forall c, f c = g c) -> js_flat_map f s = js_flat_map g s.
Proof. intros H. induction s as [|c s IH]; [done|]. cbn. by rewrite H, IH. Qed.

(** The five passes replace each character on its own. *)
Lemma xmlEscape_entities s : xmlEscape s = js_flat_map xml_entity s.
Proof.
  unfold xmlEscape, js_replace_all. rewrite !flat_map_flat_map. apply flat_map_ext.
  intros [[] [] [] [] [] [] [] []]; reflexivity.
Qed.

Lemma xml_text_entity c s : xml_text (xml_entity c +:+ s) = String c <$> xml_text s.
Proof. destruct c as [[] [] [] [] [] [] [] []]; reflexivity. Qed.

Lemma xmlEscape_reads s : xml_text (xmlEscape s) = Some s.
Proof.
  rewrite xmlEscape_entities. induction s as [|c s IH]; [done|]. cbn [js_flat_map].
  by rewrite xml_text_entity, IH.
Qed.

(** Whatever a path, the token or the version contains, an XML reader of the
    launchd file reads exactly that text: escaping loses nothing, so a value cannot
    break out of its element. *)
Theorem xmlEscape_roundtrip s : xml_text (xmlEscape s) = Some s.
Proof. apply xmlEscape_reads. Qed.

(** The variable and the value a line [Environment=VAR=value] of a unit sets. *)
Definition unit_assignment (line : string) : option (string * string) :=
  if js_startsWith line "Environment=" then
    let '(var, rest) := js_span (fun c => negb (Ascii.eqb c "=")) (js_drop 12 line) in
    Some (var, js_drop 1 rest)
  else None.

(** The systemd unit sets neither AGENT_HOME nor the token nor the version:
    [systemdEnv] already writes [Environment=], the template writes it again, and
    systemd reads a variable named [Environment]; only PORT arrives. *)
Theorem systemd_unit_sets_only_port e var :
  var ∈ map fst (omap unit_assignment (unit_lines e)) <-> var = "Environment" \/ var = "PORT".
Proof.
  assert (Henv : forall n v, exists r, unit_assignment ("Environment=" +:+ systemdEnv n v) = Some ("Environment", r)).
  { intros n v. unfold systemdEnv. destruct (has_space (systemd_escape v)); eexists; reflexivity. }
  destruct (Henv "AGENT_HOME" (AGENT_HOME e)) as [r1 H1], (Henv "OPENAGENTHUB_LOCAL_TOKEN" (au_token e)) as [r2 H2],
    (Henv "OPENAGENTHUB_PRODUCT_VERSION" (au_version e)) as [r3 H3].
  assert (Hport : unit_assignment ("Environment=PORT=" +:+ pretty (au_port e)) = Some ("PORT", pretty (au_port e)))
    by reflexivity.
  assert (Hexec : unit_assignment ("ExecStart=" +:+ systemdArg (execPath e) +:+ " " +:+ systemdArg (BIN_PATH e) +:+ " daemon") = None)
    by reflexivity.
  unfold unit_lines. cbn [omap list_omap]. rewrite H1, H2, H3, Hport, Hexec.
  assert (Hn : forall t, t ∈ ["[Unit]"; "Description=OpenAgentHub control plane"; "After=network.target"; "";
    "[Service]"; "Restart=always"; "RestartSec=2"; "[Install]"; "WantedBy=default.target"] -> unit_assignment t = None).
  { intros t Ht. repeat (apply elem_of_cons in Ht as [->|Ht]; [reflexivity|]). by apply elem_of_nil in Ht. }
  rewrite !Hn by set_solver. cbn [map fst]. set_solver.
Qed.

(** ** Witnesses *)

Definition demo_daemon : DaemonState := mkDaemon 42 "Mon" 4000 "1.0" 1 "now" ready.

(** A world whose clock counts what is slept. *)
Definition demo_world : world := mkWorld (fun _ => Some demo_daemon) (fun _ _ => true) (fun _ _ => Some "Mon")
  (fun _ _ => None) slept (fun _ _ => false) (fun _ => true) (fun _ _ => true).

Lemma slept_app a b : slept (a ++ b) = slept a + slept b.
Proof. unfold slept. induction a as [|x a IH]; [done|]. cbn [app fold_right]. rewrite IH. destruct x; lia. Qed.

Lemma waits_terminate_witness :
  health_loop demo_world (polls 1000 250 + 5) 4000 1000 [] = health_loop demo_world (polls 1000 250) 4000 1000 [] /\
  ready_loop demo_world (polls 1000 100 + 5) 1000 [] = ready_loop demo_world (polls 1000 100) 1000 [] /\
  exit_loop demo_world (polls 1000 100 + 5) 42 1000 [] = exit_loop demo_world (polls 1000 100) 42 1000 [].
Proof.
  apply (waits_terminate demo_world 1000 42 4000 [] 5).
  - intros h l. change (slept h + slept l <= slept (h ++ l)). rewrite slept_app. lia.
  - lia.
Defined.

End ControlPlane.
