(* ===== verification/Supervisor.v ===== *)
(** Managed runs: [cli/src/lib/supervisor.ts] and the worker
    [cli/src/commands/supervisor-run.ts].  A run is a record in a file; the client
    that starts it, the worker that runs the agent, [stop] and [ps] all read the
    file, change the record and write it back whole. *)
From S2P Require Import Prelude Fs Logs.

Module Supervisor.
Import Fs Logs.

(** @src cli/src/lib/supervisor.ts RunState *)
Inductive RunState := starting | running | stopping | exited | failed | orphaned.

(** @src cli/src/lib/supervisor.ts RunHealth *)
Inductive RunHealth := h_unknown | h_ok | h_unhealthy.

(** @src cli/src/lib/supervisor.ts ExitReason *)
Inductive ExitReason :=
| r_exit | r_signal | r_timeout | r_oom | r_manual_stop | r_crashed | r_container_gone | r_supervisor_gone.

(** @src cli/src/lib/supervisor.ts RestartPolicy *)
Inductive RestartPolicy := rp_none | rp_always.

Inductive run_sandbox := rs_container | rs_process | rs_none.
Inductive run_interface := ri_cli | ri_mcp | ri_http.

Definition state_name (s : RunState) : string :=
  match s with
  | starting => "starting" | running => "running" | stopping => "stopping"
  | exited => "exited" | failed => "failed" | orphaned => "orphaned"
  end.

#[export] Instance RunState_eq_dec : EqDecision RunState.
Proof. solve_decision. Defined.
#[export] Instance ExitReason_eq_dec : EqDecision ExitReason.
Proof. solve_decision. Defined.
#[export] Instance run_sandbox_eq_dec : EqDecision run_sandbox.
Proof. solve_decision. Defined.

(** @src cli/src/lib/supervisor.ts RunRecord *)
Record RunRecord := mkRun {
  runId : string;
  r_agentKey : string;
  r_version : string;
  r_interface : run_interface;
  sandbox : run_sandbox;
  managed : bool;
  state : RunState;
  pid : option Z;
  containerId : option string;
  port : option Z;
  health : RunHealth;
  timeoutMs : option Z;
  restartPolicy : RestartPolicy;
  createdAt : string;
  startedAt : string;
  endedAt : option string;
  r_exitCode : option Z;
  exitReason : option ExitReason;
  digest : option string;
  modelProvider : option string;
  modelName : option string;
}.

(** [{ ...r, state }] and the other updates the code makes. *)
Definition with_state (s : RunState) (r : RunRecord) : RunRecord :=
  mkRun (runId r) (r_agentKey r) (r_version r) (r_interface r) (sandbox r) (managed r) s (pid r)
    (containerId r) (port r) (health r) (timeoutMs r) (restartPolicy r) (createdAt r) (startedAt r)
    (endedAt r) (r_exitCode r) (exitReason r) (digest r) (modelProvider r) (modelName r).

Definition with_end (s : RunState) (code : option Z) (why : ExitReason) (now : string) (r : RunRecord) : RunRecord :=
  mkRun (runId r) (r_agentKey r) (r_version r) (r_interface r) (sandbox r) (managed r) s (pid r)
    (containerId r) (port r) (health r) (timeoutMs r) (restartPolicy r) (createdAt r) (startedAt r)
    (Some now) code (Some why) (digest r) (modelProvider r) (modelName r).

Definition with_pid (p : option Z) (r : RunRecord) : RunRecord :=
  mkRun (runId r) (r_agentKey r) (r_version r) (r_interface r) (sandbox r) (managed r) (state r) p
    (containerId r) (port r) (health r) (timeoutMs r) (restartPolicy r) (createdAt r) (startedAt r)
    (endedAt r) (r_exitCode r) (exitReason r) (digest r) (modelProvider r) (modelName r).

Definition with_container (c : string) (r : RunRecord) : RunRecord :=
  mkRun (runId r) (r_agentKey r) (r_version r) (r_interface r) (sandbox r) (managed r) (state r) (pid r)
    (Some c) (port r) (health r) (timeoutMs r) (restartPolicy r) (createdAt r) (startedAt r)
    (endedAt r) (r_exitCode r) (exitReason r) (digest r) (modelProvider r) (modelName r).

Definition with_model (p m : string) (r : RunRecord) : RunRecord :=
  mkRun (runId r) (r_agentKey r) (r_version r) (r_interface r) (sandbox r) (managed r) (state r) (pid r)
    (containerId r) (port r) (health r) (timeoutMs r) (restartPolicy r) (createdAt r) (startedAt r)
    (endedAt r) (r_exitCode r) (exitReason r) (digest r) (Some p) (Some m).

Definition with_health (h : RunHealth) (r : RunRecord) : RunRecord :=
  mkRun (runId r) (r_agentKey r) (r_version r) (r_interface r) (sandbox r) (managed r) (state r) (pid r)
    (containerId r) (port r) h (timeoutMs r) (restartPolicy r) (createdAt r) (startedAt r)
    (endedAt r) (r_exitCode r) (exitReason r) (digest r) (modelProvider r) (modelName r).

Definition with_port (p : Z) (r : RunRecord) : RunRecord :=
  mkRun (runId r) (r_agentKey r) (r_version r) (r_interface r) (sandbox r) (managed r) (state r) (pid r)
    (containerId r) (Some p) (health r) (timeoutMs r) (restartPolicy r) (createdAt r) (startedAt r)
    (endedAt r) (r_exitCode r) (exitReason r) (digest r) (modelProvider r) (modelName r).

(** ** The run directory *)

(** A file of it: not JSON, JSON that is no valid record, a record. *)
Inductive run_file := rf_garbage | rf_invalid | rf_record (r : RunRecord).

(** @src cli/src/lib/supervisor.ts runRecordPath *)
Definition runRecordPath (id : string) : string := id +:+ ".json".

(** @src cli/src/lib/supervisor.ts readRun *)
Definition readRun (m : fs run_file) (id : string) : option RunRecord :=
  match m !! runRecordPath id with Some (rf_record r) => Some r | _ => None end.

(** @src cli/src/lib/supervisor.ts writeRun *)
Definition writeRun_ops (self : string) (r : RunRecord) : list (fs_op run_file) :=
  replace_file (runRecordPath (runId r)) (runRecordPath (runId r) +:+ "." +:+ self +:+ ".tmp") (rf_record r).

Definition writeRun (self : string) (r : RunRecord) (m : fs run_file) : fs run_file :=
  fs_run m (writeRun_ops self r).

(** The files [removeRun] deletes. *)
Definition removeRun (id : string) (readdir : list string) (m : fs run_file) : fs run_file :=
  fs_run m (fs_remove (runRecordPath id) :: map fs_remove (runLogFilenames id readdir) ++ [fs_remove (id +:+ ".log")]).

(** One file that is not JSON makes the whole listing empty: the [JSON.parse] is
    inside the [try] around all of them.
    @src cli/src/lib/supervisor.ts listRuns *)
Definition listRuns (readdir : list string) (m : fs run_file) : list RunRecord :=
  let files := omap (fun f => m !! f) (List.filter (fun f => js_endsWith f ".json") readdir) in
  if existsb (fun f => match f with rf_garbage => true | _ => false end) files then []
  else js_sort (fun a b => js_ltb (createdAt a) (createdAt b))
         (omap (fun f => match f with rf_record r => Some r | _ => None end) files).

(** @src cli/src/lib/supervisor.ts ACTIVE_STATES *)
Definition ACTIVE_STATES : list RunState := [starting; running; stopping].

(** @src cli/src/lib/supervisor.ts runIsActive *)
Definition runIsActive (r : RunRecord) : bool := bool_decide (state r ∈ ACTIVE_STATES).

(** ** Reconciliation *)

Record container_info := mkContainer { ci_id : string; ci_running : bool; ci_oomKilled : bool }.

(** @src cli/src/lib/supervisor.ts RunProbe *)
Record RunProbe := mkProbe {
  isAlive : Z -> bool;
  groupAlive : Z -> bool;
  container : string -> option container_info;
}.

(** @src cli/src/lib/supervisor.ts reconcileRun *)
Definition reconcileRun (probe : RunProbe) (now : string) (record : RunRecord) : RunRecord :=
  if negb (runIsActive record) then record
  else
    let finish s why := with_end s (r_exitCode record) why now record in
    match sandbox record with
    | rs_container =>
        match container probe (runId record) with
        | None => finish exited r_container_gone
        | Some c => if negb (ci_running c) then finish exited (if ci_oomKilled c then r_oom else r_signal)
                    else with_container (ci_id c) record
        end
    | _ =>
        match pid record with
        | None => finish exited r_crashed
        | Some p =>
            let workerAlive := isAlive probe p in
            if negb workerAlive && negb (groupAlive probe p) then finish exited r_crashed
            else if negb workerAlive then finish orphaned r_supervisor_gone
            else record
        end
    end.

(** The records [reconcileRuns] writes.
    @src cli/src/lib/supervisor.ts reconcileRuns *)
Definition reconcileRuns (probe : RunProbe) (now self : string) (readdir : list string) (m : fs run_file)
    : fs run_file * nat :=
  let changed := List.filter (fun rn => negb (bool_decide (state (snd rn) = state (fst rn))))
    (map (fun r => (r, reconcileRun probe now r)) (listRuns readdir m)) in
  (fold_left (fun m rn => writeRun self (snd rn) m) changed m, length changed).

(** A line of [docker ps] with its three columns.
    @src cli/src/lib/supervisor.ts orphanContainers *)
Definition orphanContainers (known : list string) (docker_ps : list (string * string * string)) : list string :=
  map (fun '(id, rid, pkg) => js_take 12 id +:+ " (" +:+ pkg +:+ ", run " +:+ rid +:+ ")")
    (List.filter (fun '(id, rid, pkg) => String.eqb rid "unknown" || negb (mem_str rid known)) docker_ps).

(** ** Starting *)

(** @src cli/src/lib/supervisor.ts ManagedRunOptions *)
Record ManagedRunOptions := mkManaged {
  mo_runId : string; mo_agentKey : string; mo_version : string; mo_interface : run_interface;
  mo_sandbox : run_sandbox; mo_port : option Z; mo_timeoutMs : option Z;
  mo_restartPolicy : option RestartPolicy; mo_digest : option string; mo_input : option string;
}.

(** @src cli/src/lib/supervisor.ts 222-240 startManagedRun *)
Definition initial_record (opts : ManagedRunOptions) (now : string) : RunRecord :=
  mkRun (mo_runId opts) (mo_agentKey opts) (mo_version opts) (mo_interface opts) (mo_sandbox opts) true
    starting None None (mo_port opts) h_unknown (mo_timeoutMs opts) (nullish (mo_restartPolicy opts) rp_none)
    now now None None None (mo_digest opts) None None.

(** The two records the client writes: before the worker is spawned, and with
    the worker's process id after.
    @src cli/src/lib/supervisor.ts startManagedRun *)
Definition startManagedRun (opts : ManagedRunOptions) (now : string) (child : option Z) : RunRecord * RunRecord :=
  let record := initial_record opts now in (record, with_pid child record).

(** What [waitForRunStart] returns at once.
    @src cli/src/lib/supervisor.ts waitForRunStart *)
Fixpoint waitForRunStart (runId : string) (polls : list (option RunRecord)) (last_read : option RunRecord)
    : result RunRecord :=
  let gone := throw EError ("run " +:+ runId +:+ " disappeared while starting") in
  match polls with
  | [] => match last_read with Some r => Ok r | None => gone end
  | None :: _ => gone
  | Some r :: rest =>
      if bool_decide (state r ∈ [running; exited; failed; orphaned]) then Ok r
      else waitForRunStart runId rest last_read
  end.

(** ** The worker *)

(** @src cli/src/commands/supervisor-run.ts 39-40 run *)
Definition worker_running (initial : RunRecord) : RunRecord := with_state running initial.

(** [fail]: [current] is the record in the file.
    @src cli/src/commands/supervisor-run.ts 90-101 run *)
Definition worker_fail (current : RunRecord) (now : string) : RunRecord :=
  with_end failed (Some 1%Z) (if bool_decide (state current = stopping) then r_manual_stop else r_crashed) now current.

(** @src cli/src/commands/supervisor-run.ts 117-132 run *)
Definition finalize (current : RunRecord) (code : Z) (reason : ExitReason) (now : string) : RunRecord :=
  let manual := bool_decide (reason = r_manual_stop) in
  with_end (if manual then exited else if Z.eqb code 0 then exited else failed)
    (Some (if manual then 0%Z else code)) reason now current.

(** The reason a run that returned ends with.
    @src cli/src/commands/supervisor-run.ts 171-179 run *)
Definition end_reason (current : RunRecord) (timedOut in_container : bool) (code : Z) : ExitReason :=
  if bool_decide (state current = stopping) || bool_decide (exitReason current = Some r_manual_stop) then r_manual_stop
  else if timedOut then r_timeout
  else if in_container && Z.eqb code 137 then r_oom
  else r_exit.

(** The end of a run that returned: the model is recorded, then the end.
    @src cli/src/commands/supervisor-run.ts 171-185 run *)
Definition worker_done (current : RunRecord) (timedOut in_container : bool) (code : Z) (provider model : string)
    (now : string) : RunRecord :=
  let reason := end_reason current timedOut in_container code in
  finalize (with_model provider model current) code reason now.

(** [s.lastIndexOf(c)]; [None] is -1. *)
Fixpoint last_index (c : ascii) (i : nat) (best : option nat) (s : string) : option nat :=
  match s with
  | EmptyString => best
  | String a s' => last_index c (S i) (if Ascii.eqb a c then Some i else best) s'
  end.

Definition js_lastIndexOf (c : ascii) (s : string) : option nat := last_index c 0 None s.

(** The worker takes the agent key apart.
    @src cli/src/commands/supervisor-run.ts 83-88 run *)
Definition split_agent_key (key : string) : string * string * option string :=
  match js_lastIndexOf "/" key, js_lastIndexOf "@" key with
  | Some slash, Some at_ =>
      let namespace := js_take slash key in
      if Nat.ltb slash at_ then
        (namespace, js_take (at_ - S slash) (js_drop (S slash) key), Some (js_drop (S at_) key))
      else (namespace, js_drop (S slash) key, None)
  | Some slash, None => (js_take slash key, js_drop (S slash) key, None)
  | None, Some at_ => (js_take (String.length key - 1) key, js_take at_ key, Some (js_drop (S at_) key))
  | None, None => (js_take (String.length key - 1) key, key, None)
  end.

(** ** Stopping *)

(** [settleRun]: [polls] are the record and the liveness each round sees until
    the deadline, [last_read] the read after it; the record it writes, if any.
    @src cli/src/lib/supervisor.ts settleRun *)
Fixpoint settleRun (fallback : RunRecord) (polls : list (option RunRecord * bool)) (last_read : option RunRecord)
    (now : string) : bool * RunRecord * option RunRecord :=
  match polls with
  | [] => let r := nullish last_read fallback in (negb (runIsActive r), r, None)
  | (Some r, dead) :: rest =>
      if negb (bool_decide (state r = stopping)) then (true, r, None)
      else if (dead : bool) then
        let final := with_end exited (Some 0%Z) r_manual_stop now r in (true, final, Some final)
      else settleRun fallback rest last_read now
  | (None, _) :: rest => settleRun fallback rest last_read now
  end.

(** The signals of [killProcessGroup], from what the liveness test of the group
    says: at first, at each poll until the deadline, and at the end.
    @src cli/src/lib/supervisor.ts killProcessGroup *)
Definition killProcessGroup (alive0 alive_end : bool) : list string :=
  (if alive0 then ["SIGTERM"] else []) ++ (if alive_end then ["SIGKILL"] else []).

(** What [stopRun] does first: the record it writes, or why it refuses.
    @src cli/src/lib/supervisor.ts 388-393 stopRun *)
Definition stop_request (id : string) (record : option RunRecord) : result RunRecord :=
  match record with
  | None => throw EError ("run " +:+ id +:+ " not found")
  | Some r =>
      if negb (runIsActive r) then throw EError ("run " +:+ id +:+ " is not running (state: " +:+ state_name (state r) +:+ ")")
      else Ok (with_state stopping r)
  end.

(** The container branch finds the container by the record or by its label;
    without one the record goes back to [running].
    @src cli/src/lib/supervisor.ts 395-406 stopRun *)
Definition stop_container (record : RunRecord) (by_label : option container_info) : result string * option RunRecord :=
  let id := if truthy (containerId record) then containerId record else ci_id <$> by_label in
  if truthy id then (Ok (nullish id ""), None)
  else (throw EError ("run " +:+ runId record +:+ " has no matching container (label oah.run_id=" +:+ runId record +:+ ")"),
        Some (with_state running record)).

(** ** Properties *)

(** *** Files *)

Lemma runRecordPath_inj a b : runRecordPath a = runRecordPath b -> a = b.
Proof.
  unfold runRecordPath. revert b. induction a as [|x a IH]; intros [|y b] H; cbn in *.
  - done.
  - injection H as <- H. apply (f_equal String.length) in H. rewrite slength_app in H. cbn in H. lia.
  - injection H as -> H. apply (f_equal String.length) in H. rewrite slength_app in H. cbn in H. lia.
  - injection H as -> H. f_equal. auto.
Qed.

Lemma tmp_not_record id self q : runRecordPath q <> runRecordPath id +:+ "." +:+ self +:+ ".tmp".
Proof.
  intros H. assert (He : js_endsWith (runRecordPath q) ".tmp" = true).
  { rewrite H. apply endsWith_spec. exists (runRecordPath id +:+ "." +:+ self). by rewrite !sapp_assoc. }
  apply endsWith_spec in He as [t Ht]. unfold runRecordPath in Ht.
  change (q +:+ ".json") with (q +:+ (".jso" +:+ str1 "n")) in Ht.
  change (t +:+ ".tmp") with (t +:+ (".tm" +:+ str1 "p")) in Ht. rewrite <- !sapp_assoc in Ht.
  by apply sapp_str1_inj in Ht as [_ ?].
Qed.

Lemma readRun_writeRun self r m q :
  readRun (writeRun self r m) q = if decide (q = runId r) then Some r else readRun m q.
Proof.
  unfold writeRun, readRun, writeRun_ops. rewrite replace_file_done by apply tmp_not_record.
  destruct (decide (q = runId r)) as [->|Hq]; [by rewrite decide_True|].
  rewrite decide_False; [done|]. intros H. by apply runRecordPath_inj in H.
Qed.

Lemma read_written self r m : readRun (writeRun self r m) (runId r) = Some r.
Proof. by rewrite readRun_writeRun, decide_True. Qed.

(** A written record is read back, other runs are untouched, and a crash in
    the middle of the write leaves for every run either its old record or the new
    one, never a torn file. *)
Theorem writeRun_readRun self r m n q :
  readRun (writeRun self r m) q = (if decide (q = runId r) then Some r else readRun m q) /\
  (readRun (fs_run m (take n (writeRun_ops self r))) q = readRun m q \/
   q = runId r /\ readRun (fs_run m (take n (writeRun_ops self r))) q = Some r).
Proof.
  split; [apply readRun_writeRun|]. unfold readRun, writeRun_ops.
  destruct (replace_file_atomic (runRecordPath (runId r)) (runRecordPath (runId r) +:+ "." +:+ self +:+ ".tmp")
    (rf_record r) m n (runRecordPath q)) as [->|[Hq ->]]; [apply tmp_not_record..|by left|right].
  split; [by apply runRecordPath_inj|done].
Qed.

(** One file that is not JSON hides every run. *)
Lemma listRuns_hides readdir m f :
  f ∈ readdir -> js_endsWith f ".json" = true -> m !! f = Some rf_garbage -> listRuns readdir m = [].
Proof.
  intros Hf He Hm. unfold listRuns. cbv zeta.
  assert (Hex : existsb (fun f => match f with rf_garbage => true | _ => false end)
    (omap (fun f => m !! f) (List.filter (fun f => js_endsWith f ".json") readdir)) = true); [|by rewrite Hex].
  apply existsb_exists. exists rf_garbage. split; [|done]. apply list_elem_of_In, list_elem_of_omap.
  exists f. split; [|done]. apply list_elem_of_In, filter_In. split; [by apply list_elem_of_In|done].
Qed.

(** *** The life of a record *)

(** A run has an end exactly when it is over. *)
Definition wf_run (r : RunRecord) : Prop := runIsActive r = true <-> endedAt r = None.

Lemma active_state r : runIsActive r = true <-> state r = starting \/ state r = running \/ state r = stopping.
Proof.
  unfold runIsActive, ACTIVE_STATES. rewrite bool_decide_eq_true, !elem_of_cons, elem_of_nil. tauto.
Qed.

Lemma with_end_wf s code why now r :
  s = exited \/ s = failed \/ s = orphaned -> wf_run (with_end s code why now r).
Proof.
  intros Hs. unfold wf_run, runIsActive. by destruct Hs as [->|[->| ->]].
Qed.

Lemma reconcile_inactive probe now r : runIsActive r = false -> reconcileRun probe now r = r.
Proof. intros H. unfold reconcileRun. by rewrite H. Qed.

Lemma reconcile_cases probe now r :
  runIsActive r = true ->
  (state (reconcileRun probe now r) = state r /\ endedAt (reconcileRun probe now r) = endedAt r) \/
  (exists s why, (s = exited \/ s = orphaned) /\ reconcileRun probe now r = with_end s (r_exitCode r) why now r).
Proof.
  intros Ha. unfold reconcileRun. rewrite Ha. cbn [negb]. cbv zeta.
  destruct (sandbox r).
  - destruct (container probe (runId r)) as [c|]; [|right; eauto].
    destruct (ci_running c); cbn; [by left|right; eauto].
  - destruct (pid r) as [p|]; [|right; eauto].
    destruct (isAlive probe p), (groupAlive probe p); cbn; [by left|by left|right; eauto..].
  - destruct (pid r) as [p|]; [|right; eauto].
    destruct (isAlive probe p), (groupAlive probe p); cbn; [by left|by left|right; eauto..].
Qed.

(** What is true of the world for a run to be left active. *)
Definition observed_alive (probe : RunProbe) (r : RunRecord) : Prop :=
  match sandbox r with
  | rs_container => exists c, container probe (runId r) = Some c /\ ci_running c = true
  | _ => exists p, pid r = Some p /\ isAlive probe p = true
  end.

(** C18: Reconciliation leaves ended runs alone, keeps a run active exactly when
    its container or its worker is observed alive, otherwise ends it with a time and
    a reason; it never changes which run it is; and doing it twice is doing it
    once. *)
Theorem reconcileRun_spec probe now r :
  wf_run r ->
  let r' := reconcileRun probe now r in
  wf_run r' /\ runId r' = runId r /\ r_agentKey r' = r_agentKey r /\
  (runIsActive r = false -> r' = r) /\
  (runIsActive r = true -> (runIsActive r' = true <-> observed_alive probe r)) /\
  (runIsActive r = true -> runIsActive r' = false -> endedAt r' = Some now /\ is_Some (exitReason r')) /\
  reconcileRun probe now r' = r'.
Proof.
  intros Hwf r'. unfold r'. destruct (runIsActive r) eqn:Ha.
  2: { rewrite reconcile_inactive by done. rewrite (reconcile_inactive probe now r) by done. rewrite Ha. done. }
  assert (Hend : forall s code why, (s = exited \/ s = failed \/ s = orphaned) ->
    runIsActive (with_end s code why now r) = false).
  { intros s code why Hs. unfold runIsActive. by destruct Hs as [->|[->| ->]]. }
  split_and!.
  - destruct (reconcile_cases probe now r Ha) as [[Hs He]|(s & why & Hs & ->)].
    + unfold wf_run, runIsActive in *. by rewrite Hs, He.
    + apply with_end_wf. tauto.
  - unfold reconcileRun. rewrite Ha. cbn. by repeat case_match.
  - unfold reconcileRun. rewrite Ha. cbn. by repeat case_match.
  - done.
  - intros _. unfold observed_alive, reconcileRun. rewrite Ha. cbn [negb]. cbv zeta.
    destruct (sandbox r); [|destruct (pid r) as [p|]; [destruct (isAlive probe p) eqn:E1, (groupAlive probe p) eqn:E2; cbn [negb andb]|]..].
    1: destruct (container probe (runId r)) as [c|]; [destruct (ci_running c) eqn:E; cbn [negb]|].
    all: try (rewrite Hend by tauto; split; [done|]; first [intros (c' & [= <-] & ?); congruence
      | intros (? & [=] & _) | intros (p' & [= <-] & ?); congruence]).
    all: split; [eauto|intros _; exact Ha].
  - intros _ Hf. destruct (reconcile_cases probe now r Ha) as [[Hs He]|(s & why & Hs & Heq)].
    + exfalso. unfold runIsActive in *. rewrite Hs in Hf. congruence.
    + rewrite Heq. by eauto.
  - destruct (reconcile_cases probe now r Ha) as [[Hs He]|(s & why & Hs & Heq)].
    + unfold reconcileRun. rewrite Ha. cbn [negb]. cbv zeta. revert Hs He. unfold reconcileRun. rewrite Ha. cbn [negb]. cbv zeta.
      destruct (sandbox r) eqn:Esb.
      * destruct (container probe (runId r)) as [c|] eqn:Ec.
        -- destruct (ci_running c) eqn:Er; cbn [negb]; intros Hs He.
           ++ change (runIsActive (with_container (ci_id c) r)) with (runIsActive r). rewrite Ha. cbn [negb].
              cbn [sandbox with_container runId]. rewrite Esb, Ec, Er. done.
           ++ by rewrite Hend by tauto.
        -- intros _ _. by rewrite Hend by tauto.
      * destruct (pid r) as [p|] eqn:Ep; [|by rewrite Hend by tauto].
        destruct (isAlive probe p) eqn:E1, (groupAlive probe p) eqn:E2; cbn [negb andb];
          rewrite ?Hend by tauto; rewrite ?Ha; cbn [negb]; rewrite ?Esb, ?Ep, ?E1, ?E2; done.
      * destruct (pid r) as [p|] eqn:Ep; [|by rewrite Hend by tauto].
        destruct (isAlive probe p) eqn:E1, (groupAlive probe p) eqn:E2; cbn [negb andb];
          rewrite ?Hend by tauto; rewrite ?Ha; cbn [negb]; rewrite ?Esb, ?Ep, ?E1, ?E2; done.
    + rewrite Heq. apply reconcile_inactive. apply Hend. tauto.
Qed.

Definition demo_options : ManagedRunOptions :=
  mkManaged "r-1" "a/b@1.0.0" "1.0.0" ri_cli rs_process None None None None None.

Definition all_alive : RunProbe := mkProbe (fun _ => true) (fun _ => true) (fun _ => None).

Lemma reconcileRun_spec_witness :
  let r := initial_record demo_options "t0" in
  let r' := reconcileRun all_alive "t1" r in
  wf_run r' /\ runId r' = runId r /\ r_agentKey r' = r_agentKey r /\
  (runIsActive r = false -> r' = r) /\
  (runIsActive r = true -> (runIsActive r' = true <-> observed_alive all_alive r)) /\
  (runIsActive r = true -> runIsActive r' = false -> endedAt r' = Some "t1" /\ is_Some (exitReason r')) /\
  reconcileRun all_alive "t1" r' = r'.
Proof. intros r. apply (reconcileRun_spec all_alive "t1" r). split; reflexivity. Defined.

(** *** Starting: the client and the worker write the same file *)

Inductive worker_pc := w_waiting | w_read (initial : RunRecord) | w_done.

Record start_state := mkStart { cell : option RunRecord; client : nat; worker : worker_pc }.

Section start.
Context (opts : ManagedRunOptions) (now : string) (child : Z).

Definition rec0 : RunRecord := (startManagedRun opts now (Some child)).1.
Definition rec1 : RunRecord := (startManagedRun opts now (Some child)).2.

(** The client writes its record, spawns the worker, and writes the record with
    the worker's id; the worker reads the file, waits for its input, and writes
    what it read with the state [running]. *)
Inductive start_step : start_state -> start_state -> Prop :=
| s_client_first : start_step (mkStart None 0 w_waiting) (mkStart (Some rec0) 1 w_waiting)
| s_client_second c w : start_step (mkStart c 1 w) (mkStart (Some rec1) 2 w)
| s_worker_read r n : start_step (mkStart (Some r) n w_waiting) (mkStart (Some r) n (w_read r))
| s_worker_write c n r : start_step (mkStart c n (w_read r)) (mkStart (Some (worker_running r)) n w_done).

Definition start_init : start_state := mkStart None 0 w_waiting.
Definition start_final (s : start_state) : Prop := client s = 2%nat /\ worker s = w_done.

Definition start_inv (s : start_state) : Prop :=
  match client s, worker s with
  | 0%nat, w => cell s = None /\ w = w_waiting
  | 1%nat, w_waiting => cell s = Some rec0
  | 1%nat, w_read r => r = rec0 /\ cell s = Some rec0
  | 1%nat, w_done => cell s = Some (worker_running rec0)
  | _, w_waiting => cell s = Some rec1
  | _, w_read r => (r = rec0 \/ r = rec1) /\ cell s = Some rec1
  | _, w_done => cell s = Some (worker_running rec1) \/ cell s = Some (worker_running rec0) \/ cell s = Some rec1
  end.

Lemma start_inv_step s s' : start_inv s -> start_step s s' -> start_inv s'.
Proof.
  unfold start_inv. intros Hi Hs. destruct Hs as [|c w|r n|c n r]; cbn in *.
  - done.
  - destruct w as [|r|]; [done| |].
    + destruct Hi as [-> _]. auto.
    + auto.
  - destruct n as [|[|n]]; [by destruct Hi|..]; injection Hi as ->; auto.
  - destruct n as [|[|n]]; [by destruct Hi|by destruct Hi as [-> _]|]. destruct Hi as [[->| ->] _]; auto.
Qed.

Lemma start_inv_reachable s : rtc start_step start_init s -> start_inv s.
Proof.
  intros H. assert (H0 : start_inv start_init) by done. revert H0. induction H as [|x y z Hxy Hyz IH]; [done|].
  intros Hx. apply IH. by eapply start_inv_step.
Qed.

(** Starting a detached run has a race on its record: when both sides have
    written, the record is running with the worker's id, or running without it, or
    still starting; all of these happen.  In the second case every later
    reconciliation (each [ps]) declares the run crashed, although its worker is
    alive, because the id it would probe was overwritten. *)
Theorem start_race_loses_pid :
  (forall s, rtc start_step start_init s -> start_final s ->
     cell s = Some (worker_running rec1) \/ cell s = Some (worker_running rec0) \/ cell s = Some rec1) /\
  (exists s, rtc start_step start_init s /\ start_final s /\ cell s = Some (worker_running rec1)) /\
  (exists s, rtc start_step start_init s /\ start_final s /\ cell s = Some (worker_running rec0)) /\
  (exists s, rtc start_step start_init s /\ start_final s /\ cell s = Some rec1) /\
  (mo_sandbox opts <> rs_container -> forall probe later,
     state (reconcileRun probe later (worker_running rec0)) = exited /\
     exitReason (reconcileRun probe later (worker_running rec0)) = Some r_crashed).
Proof.
  split_and!.
  - intros s Hr [Hc Hw]. apply start_inv_reachable in Hr. unfold start_inv in Hr. by rewrite Hc, Hw in Hr.
  - exists (mkStart (Some (worker_running rec1)) 2 w_done). split; [|done].
    eapply rtc_l; [apply s_client_first|]. eapply rtc_l; [apply s_client_second|].
    eapply rtc_l; [apply s_worker_read|]. eapply rtc_l; [apply s_worker_write|]. done.
  - exists (mkStart (Some (worker_running rec0)) 2 w_done). split; [|done].
    eapply rtc_l; [apply s_client_first|]. eapply rtc_l; [apply s_worker_read|].
    eapply rtc_l; [apply s_client_second|]. eapply rtc_l; [apply s_worker_write|]. done.
  - exists (mkStart (Some rec1) 2 w_done). split; [|done].
    eapply rtc_l; [apply s_client_first|]. eapply rtc_l; [apply s_worker_read|].
    eapply rtc_l; [apply s_worker_write|]. eapply rtc_l; [apply s_client_second|]. done.
  - intros Hsb probe later. unfold reconcileRun. cbn. destruct (mo_sandbox opts); done.
Qed.
End start.

(** A container run is declared ended while it is still being prepared: until
    its container exists (images are pulled and dependencies installed before),
    any reconciliation ends its starting or running record with [container-gone]. *)
Theorem reconcile_ends_preparing_container probe now r :
  sandbox r = rs_container -> runIsActive r = true -> container probe (runId r) = None ->
  reconcileRun probe now r = with_end exited (r_exitCode r) r_container_gone now r.
Proof. intros Hs Ha Hc. unfold reconcileRun. rewrite Ha, Hs, Hc. done. Qed.

Lemma reconcile_ends_preparing_container_witness :
  let r := worker_running (initial_record (mkManaged "r-2" "a/b@1.0.0" "1.0.0" ri_cli rs_container None None None None None) "t0") in
  reconcileRun all_alive "t1" r = with_end exited None r_container_gone "t1" r.
Proof. intros r. apply (reconcile_ends_preparing_container all_alive "t1" r); reflexivity. Defined.

(** *** What the record of a run can hold *)

(** What a writer makes of a record it has read: the client that starts the run, the
    worker (its start, port, container, health and model, its failure and its end), a stop,
    its settlement and its withdrawal, and reconciliation. *)
Inductive rewrites : RunRecord -> RunRecord -> Prop :=
| rw_pid r p : rewrites r (with_pid p r)
| rw_running r : rewrites r (worker_running r)
| rw_port r p : rewrites r (with_port p r)
| rw_container r c : rewrites r (with_container c r)
| rw_health r h : rewrites r (with_health h r)
| rw_model r p m : rewrites r (with_model p m r)
| rw_fail r now : rewrites r (worker_fail r now)
| rw_finalize r code reason now : rewrites r (finalize r code reason now)
| rw_stop id r r' : stop_request id (Some r) = Ok r' -> rewrites r r'
| rw_settle fallback r rest last now r' :
    (settleRun fallback ((Some r, true) :: rest) last now).2 = Some r' -> rewrites r r'
| rw_unstop r by_label r' : (stop_container r by_label).2 = Some r' -> rewrites r r'
| rw_reconcile probe now r : rewrites r (reconcileRun probe now r).

(** All the records that the file of a run has held, the latest first.  The writers do
    not exclude each other: each may have read any of them before it writes what it
    makes of it.  A restart writes a new record under the same id. *)
Inductive versions (id : string) : list RunRecord -> Prop :=
| v_none : versions id []
| v_start opts now l : mo_runId opts = id -> versions id l -> versions id (initial_record opts now :: l)
| v_write l r r' : versions id l -> r ∈ l -> rewrites r r' -> versions id (r' :: l).

(** A writer keeps the id; it ends the run with a time and a reason, or keeps both and,
    of a run that is over, either leaves it over or makes it active. *)
Lemma rewrites_cases r r' : rewrites r r' ->
  runId r' = runId r /\
  (runIsActive r' = false /\ is_Some (endedAt r') /\ is_Some (exitReason r') \/
   endedAt r' = endedAt r /\ exitReason r' = exitReason r /\ (runIsActive r' = false -> runIsActive r = false)).
Proof.
  assert (Hact : forall s q, (s = running \/ s = stopping) -> runIsActive (with_state s q) = true)
    by (by intros s q [->| ->]).
  assert (Hend : forall s code why now q, s = exited \/ s = failed \/ s = orphaned ->
    runIsActive (with_end s code why now q) = false /\ is_Some (endedAt (with_end s code why now q)) /\
    is_Some (exitReason (with_end s code why now q))).
  { intros s code why now q Hs. split; [unfold runIsActive; by destruct Hs as [->|[->| ->]]|]. by split; eexists. }
  intros Hw. destruct Hw as [r p|r|r p|r c|r h|r p m|r now|r code reason now|id r r' Hr|fb r rest lst now r' Hr|r info r' Hr|probe now r];
    try (split; [done|right; by split_and!]).
  - split; [done|left]. apply Hend. tauto.
  - split; [done|left]. apply Hend. destruct (bool_decide _); [tauto|]. destruct (Z.eqb code 0); tauto.
  - cbn in Hr. destruct (runIsActive r); [|done]. injection Hr as <-. split; [done|right]. by split_and!.
  - cbn in Hr. destruct (bool_decide (state r = stopping)); cbn in Hr; [|done]. injection Hr as <-.
    split; [done|left]. apply Hend. tauto.
  - unfold stop_container in Hr. destruct (truthy _); [done|]. injection Hr as <-. split; [done|right]. by split_and!.
  - destruct (runIsActive r) eqn:Ha; [|rewrite reconcile_inactive by done; split; [done|right]; by split_and!].
    unfold reconcileRun. rewrite Ha. cbn [negb]. cbv zeta.
    assert (Hw : forall s why, s = exited \/ s = orphaned ->
      runId (with_end s (r_exitCode r) why now r) = runId r /\
      (runIsActive (with_end s (r_exitCode r) why now r) = false /\ is_Some (endedAt (with_end s (r_exitCode r) why now r)) /\
       is_Some (exitReason (with_end s (r_exitCode r) why now r)) \/
       endedAt (with_end s (r_exitCode r) why now r) = endedAt r /\ exitReason (with_end s (r_exitCode r) why now r) = exitReason r /\
       (runIsActive (with_end s (r_exitCode r) why now r) = false -> runIsActive r = false))).
    { intros s why Hs. split; [done|left]. apply Hend. tauto. }
    assert (Hk : forall q, endedAt q = endedAt r -> exitReason q = exitReason r -> runId q = runId r -> runIsActive q = runIsActive r ->
      runId q = runId r /\ (runIsActive q = false /\ is_Some (endedAt q) /\ is_Some (exitReason q) \/
       endedAt q = endedAt r /\ exitReason q = exitReason r /\ (runIsActive q = false -> runIsActive r = false))).
    { intros q H1 H2 H3 H4. split; [done|right]. split_and!; [done..|]. by rewrite H4. }
    rewrite Ha in Hw, Hk. repeat case_match; first [apply Hw; tauto | by apply Hk].
Qed.

(** C17: Whatever the writers of a managed run do, in whatever order and with however
    stale a copy of its record, every record its file ever holds has the id of the run; a
    record that says that the run is over has the time and the reason of its end; and a
    time of an end is only found when some record of the run was over with that time. *)
Theorem run_versions_ended id l r :
  versions id l -> r ∈ l ->
  runId r = id /\
  (runIsActive r = false -> is_Some (endedAt r) /\ is_Some (exitReason r)) /\
  (forall t, endedAt r = Some t -> exists r0, r0 ∈ l /\ runIsActive r0 = false /\ endedAt r0 = Some t).
Proof.
  intros Hv. revert r. induction Hv as [|opts now l Hid _ IH|l r0 r' _ IH Hin Hw]; intros r Hr; [by apply elem_of_nil in Hr|..];
    apply elem_of_cons in Hr as [->|Hr].
  - split; [done|]. by split.
  - destruct (IH r Hr) as (H1 & H2 & H3). split_and!; [done..|]. intros t (q & Hq & ?)%H3. exists q. split; [by right|done].
  - destruct (rewrites_cases _ _ Hw) as [Hid Hc]. destruct (IH r0 Hin) as (H1 & H2 & H3). split; [congruence|].
    destruct Hc as [(Ha & He & Hx)|(He & Hx & Ha)].
    + split; [done|]. intros t Ht. exists r'. split; [by left|done].
    + split; [rewrite He, Hx; auto|]. rewrite He. intros t (q & Hq & ?)%H3. exists q. split; [by right|done].
  - destruct (IH r Hr) as (H1 & H2 & H3). split_and!; [done..|]. intros t (q & Hq & ?)%H3. exists q. split; [by right|done].
Qed.

Definition nothing_alive : RunProbe := mkProbe (fun _ => false) (fun _ => false) (fun _ => None).

(** A reconciliation that comes before the worker's id is recorded ends the run; the
    worker then writes what it has read with the state [running] only, so its record is
    active and has the time and the reason of an end. *)
Theorem started_after_end opts t0 t1 :
  let r0 := initial_record opts t0 in let r1 := reconcileRun nothing_alive t1 r0 in let r2 := worker_running r1 in
  versions (mo_runId opts) [r2; r1; r0] /\
  runIsActive r1 = false /\ runIsActive r2 = true /\ endedAt r2 = Some t1 /\ is_Some (exitReason r2).
Proof.
  cbv zeta. split.
  - eapply v_write; [|by left|constructor]. eapply v_write; [|by left|constructor]. by apply v_start; [|constructor].
  - unfold reconcileRun. cbn. destruct (mo_sandbox opts); cbn; split_and!; try done; by eexists.
Qed.

Lemma run_versions_ended_witness :
  let r0 := initial_record demo_options "t0" in let r1 := reconcileRun nothing_alive "t1" r0 in
  is_Some (endedAt r1) /\ is_Some (exitReason r1).
Proof.
  intros r0 r1.
  destruct (run_versions_ended "r-1" [worker_running r1; r1; r0] r1) as (_ & H & _);
    [exact (proj1 (started_after_end demo_options "t0" "t1"))|by right; left|]. by apply H.
Defined.

(** *** Agent keys *)

Lemma last_index_app c a b i best :
  js_has_char c b = false -> last_index c i best (a +:+ String c b) = Some (i + String.length a)%nat.
Proof.
  intros Hb. revert i best. induction a as [|x a IH]; intros i best; cbn.
  - rewrite Ascii.eqb_refl. replace (i + 0)%nat with i by lia. generalize (S i) as j.
    induction b as [|y b IHb]; intros j; [done|]. cbn in *. apply orb_false_elim in Hb as [Hy Hb].
    rewrite Ascii.eqb_sym, Hy. auto.
  - rewrite IH. f_equal. lia.
Qed.

(** The worker takes an agent key apart into exactly the namespace, name and
    version it was made of. *)
Theorem split_agent_key_roundtrip ns nm v :
  js_has_char "/" nm = false -> js_has_char "@" nm = false ->
  js_has_char "/" v = false -> js_has_char "@" v = false ->
  split_agent_key (ns +:+ "/" +:+ nm +:+ "@" +:+ v) = (ns, nm, Some v).
Proof.
  intros H1 H2 H3 H4. unfold split_agent_key, js_lastIndexOf.
  change (ns +:+ "/" +:+ nm +:+ "@" +:+ v) with (ns +:+ String "/" (nm +:+ String "@" v)).
  rewrite last_index_app by (rewrite has_char_app; cbn; rewrite H1, H3; done).
  replace (ns +:+ String "/" (nm +:+ String "@" v)) with ((ns +:+ String "/" nm) +:+ String "@" v)
    by by rewrite sapp_assoc.
  rewrite last_index_app by done. rewrite slength_app. cbn [String.length Nat.add].
  destruct (Nat.ltb_spec (String.length ns) (String.length ns + S (String.length nm))); [|lia].
  f_equal; [f_equal|f_equal].
  - rewrite sapp_assoc. apply take_app_length.
  - replace (String.length ns + S (String.length nm) - S (String.length ns))%nat with (String.length nm) by lia.
    rewrite sapp_assoc, sapp_cons. change (String "/" (nm +:+ String "@" v)) with (str1 "/" +:+ (nm +:+ String "@" v)).
    rewrite <- sapp_assoc. replace (S (String.length ns)) with (String.length (ns +:+ str1 "/"))
      by (rewrite slength_app; cbn; lia).
    rewrite drop_app_length. apply take_app_length.
  - change (String "@" v) with (str1 "@" +:+ v). rewrite <- sapp_assoc.
    replace (S (String.length ns + S (String.length nm))) with (String.length ((ns +:+ String "/" nm) +:+ str1 "@"))
      by (rewrite !slength_app; cbn; lia).
    apply drop_app_length.
Qed.

Lemma split_agent_key_roundtrip_witness : split_agent_key ("acme" +:+ "/" +:+ "bot" +:+ "@" +:+ "1.0.0") = ("acme", "bot", Some "1.0.0").
Proof. apply (split_agent_key_roundtrip "acme" "bot" "1.0.0"); reflexivity. Defined.
End Supervisor.
