(* ===== verification/UsageStore.v ===== *)
(** The usage database: [runtime/src/usage.ts].  Each SQL statement of the source
    is a function on tables, which are lists of rows in insertion order; costs and
    token counts read from other programs are rationals (the rounding of doubles is
    not modelled). *)
From Stdlib Require Export QArith Lqa.
From S2P Require Import Prelude.

Module UsageStore.
Local Open Scope Z_scope.

(** @src runtime/src/usage.ts USAGE_SCHEMA_VERSION *)
Definition USAGE_SCHEMA_VERSION : nat := 2.

(** @src runtime/src/usage.ts UsageProvider *)
Inductive UsageProvider := claude | codex | opencode.

#[export] Instance UsageProvider_eq_dec : EqDecision UsageProvider.
Proof. solve_decision. Defined.

Definition uprovider_name (p : UsageProvider) : string :=
  match p with claude => "claude" | codex => "codex" | opencode => "opencode" end.

(** @src runtime/src/usage.ts ExternalUsageRow *)
Record ExternalUsageRow := mkExternal {
  x_provider : UsageProvider; x_source : string; x_sessionId : option string; x_model : option string;
  x_tokensIn : Q; x_tokensOut : Q; x_cacheRead : Q; x_cacheWrite : Q;
  x_costExact : option Q; x_costEstimated : option Q; x_occurredAt : string; x_eventKey : string;
}.

Inductive limit_source := ls_local | ls_live | ls_manual.

(** @src runtime/src/usage.ts LimitRow *)
Record LimitRow := mkLimit {
  l_provider : UsageProvider; l_window : string; l_plan : option string; l_usedPercent : option Q;
  l_units : option string; l_creditsUsed : option Q; l_creditsTotal : option Q; l_resetAt : option string;
  l_observedAt : string; l_source : limit_source;
}.

(** @src runtime/src/usage.ts SourceCursor *)
Record SourceCursor := mkCursor { c_source : string; c_size : Z; c_mtimeMs : Z; c_offset : Q; c_seenAt : string }.

(** @src runtime/src/usage.ts RunFacts *)
Record RunFacts := mkFacts {
  f_runId : string; f_agentKey : string; f_version : string; f_interfaceName : string; f_sandbox : string;
  f_state : string; f_health : string; f_exitCode : option Z; f_exitReason : option string;
  f_modelProvider : option string; f_modelName : option string; f_containerId : option string;
  f_createdAt : string; f_startedAt : string; f_endedAt : option string;
}.

(** @src runtime/src/usage.ts UsageSample *)
Record UsageSample := mkSample {
  s_runId : string; s_modelProvider : string; s_modelName : string; s_tokensIn : Z; s_tokensOut : Z;
  s_tokensReasoning : Z; s_tokensCache : Z; s_costExact : option Q; s_costEstimated : option Q; s_recordedAt : string;
}.

(** @src runtime/src/usage.ts ResourceSample *)
Record ResourceSample := mkResource {
  rs_runId : string; rs_memBytes : option Z; rs_cpuPercent : option Q; rs_containerId : option string; rs_sampledAt : string;
}.

Record codex_total := mkTotal { t_source : string; t_model : string; t_lastInput : Q; t_lastOutput : Q }.

(** A column of a CREATE TABLE: its type, whether it is NOT NULL, and whether it
    defaults to 0. *)
Inductive SqlType := TEXT | INTEGER | REAL.
Record Column := mkColumn { col_name : string; col_type : SqlType; col_not_null : bool; col_default_zero : bool }.
Definition col (t : SqlType) (n : string) : Column := mkColumn n t true false.
Definition opt (t : SqlType) (n : string) : Column := mkColumn n t false false.
Definition dflt0 (n : string) : Column := mkColumn n INTEGER true true.
Record Table := mkTable { table_name : string; table_columns : list Column; table_keys : list (list string) }.

(** The database, and how often the mutation hook was called. *)
Record db := mkDb {
  user_version : nat;
  schema : list Table;
  t_runs : list RunFacts;
  t_usage : list UsageSample;
  t_resources : list ResourceSample;
  t_settings : obj string;
  t_external : list ExternalUsageRow;
  t_limits : list LimitRow;
  t_cursors : list SourceCursor;
  t_totals : list codex_total;
  touches : nat;
}.

Definition with_runs l d := mkDb (user_version d) (schema d) l (t_usage d) (t_resources d) (t_settings d) (t_external d) (t_limits d) (t_cursors d) (t_totals d) (touches d).
Definition with_usage l d := mkDb (user_version d) (schema d) (t_runs d) l (t_resources d) (t_settings d) (t_external d) (t_limits d) (t_cursors d) (t_totals d) (touches d).
Definition with_resources l d := mkDb (user_version d) (schema d) (t_runs d) (t_usage d) l (t_settings d) (t_external d) (t_limits d) (t_cursors d) (t_totals d) (touches d).
Definition with_settings l d := mkDb (user_version d) (schema d) (t_runs d) (t_usage d) (t_resources d) l (t_external d) (t_limits d) (t_cursors d) (t_totals d) (touches d).
Definition with_external l d := mkDb (user_version d) (schema d) (t_runs d) (t_usage d) (t_resources d) (t_settings d) l (t_limits d) (t_cursors d) (t_totals d) (touches d).
Definition with_limits l d := mkDb (user_version d) (schema d) (t_runs d) (t_usage d) (t_resources d) (t_settings d) (t_external d) l (t_cursors d) (t_totals d) (touches d).
Definition with_cursors l d := mkDb (user_version d) (schema d) (t_runs d) (t_usage d) (t_resources d) (t_settings d) (t_external d) (t_limits d) l (t_totals d) (touches d).
Definition with_totals l d := mkDb (user_version d) (schema d) (t_runs d) (t_usage d) (t_resources d) (t_settings d) (t_external d) (t_limits d) (t_cursors d) l (touches d).

(** @src runtime/src/usage.ts touch *)
Definition touch (d : db) : db :=
  mkDb (user_version d) (schema d) (t_runs d) (t_usage d) (t_resources d) (t_settings d) (t_external d) (t_limits d) (t_cursors d) (t_totals d) (S (touches d)).

(** ** Tables with a key: INSERT ... ON CONFLICT(key) DO UPDATE. *)
Section upsert.
Context {Row Key : Type} `{EqDecision Key} (key : Row -> Key).

Definition has_key (k : Key) (l : list Row) : bool := existsb (fun r => bool_decide (key r = k)) l.

Definition upsert (row : Row) (l : list Row) : list Row :=
  if has_key (key row) l then map (fun r => if bool_decide (key r = key row) then row else r) l
  else l ++ [row].

Definition insert_or_ignore (row : Row) (l : list Row) : list Row * bool :=
  if has_key (key row) l then (l, false) else (l ++ [row], true).

Definition lookup_key (k : Key) (l : list Row) : option Row := List.find (fun r => bool_decide (key r = k)) l.

Lemma has_key_spec k l : has_key k l = true <-> k ∈ map key l.
Proof.
  unfold has_key. rewrite existsb_exists, list_elem_of_fmap. split.
  - intros (r & Hin & Hk%bool_decide_eq_true). exists r. split; [done|by apply list_elem_of_In].
  - intros (r & -> & Hin%list_elem_of_In). exists r. split; [done|by apply bool_decide_eq_true].
Qed.

Lemma upsert_keys row l :
  map key (upsert row l) = if has_key (key row) l then map key l else map key l ++ [key row].
Proof.
  unfold upsert. destruct (has_key (key row) l); [|by rewrite map_app].
  rewrite map_map. apply map_ext. intros r. by case_bool_decide as H.
Qed.

Lemma upsert_nodup row l : NoDup (map key l) -> NoDup (map key (upsert row l)).
Proof.
  intros H. rewrite upsert_keys. destruct (has_key (key row) l) eqn:E; [done|].
  apply NoDup_app. split_and!; [done| |apply NoDup_singleton].
  intros k Hk ->%list_elem_of_singleton. apply has_key_spec in Hk. congruence.
Qed.

Lemma insert_or_ignore_nodup row l : NoDup (map key l) -> NoDup (map key (insert_or_ignore row l).1).
Proof.
  intros H. unfold insert_or_ignore. destruct (has_key (key row) l) eqn:E; [done|]. cbn. rewrite map_app.
  apply NoDup_app. split_and!; [done| |apply NoDup_singleton].
  intros k Hk ->%list_elem_of_singleton. apply has_key_spec in Hk. congruence.
Qed.

Lemma find_app {B} (f : B -> bool) a b :
  List.find f (a ++ b) = match List.find f a with Some x => Some x | None => List.find f b end.
Proof. induction a as [|x a IH]; [done|]. cbn. by destruct (f x). Qed.

Lemma lookup_key_none k l : lookup_key k l = None <-> has_key k l = false.
Proof.
  unfold lookup_key, has_key. induction l as [|r l IH]; [done|]. cbn. by destruct (bool_decide (key r = k)).
Qed.

Lemma lookup_upsert row l k :
  lookup_key k (upsert row l) = if decide (k = key row) then Some row else lookup_key k l.
Proof.
  unfold upsert. destruct (has_key (key row) l) eqn:E.
  - unfold lookup_key, has_key in *. induction l as [|r l IH]; [done|]. cbn in *.
    case_bool_decide as Hr.
    + case_bool_decide as Hk; destruct (decide (k = key row)) as [->|Hne]; try done.
      rewrite (bool_decide_eq_false_2 (key r = k)) by congruence. clear IH E.
      induction l as [|r' l IH]; [done|]. cbn. destruct (bool_decide (key r' = key row)) eqn:Er'.
      * apply bool_decide_eq_true in Er'. rewrite !bool_decide_eq_false_2 by congruence. done.
      * by destruct (bool_decide (key r' = k)).
    + cbn in E. specialize (IH E). destruct (decide (k = key row)) as [->|Hne].
      * by rewrite bool_decide_eq_false_2.
      * by destruct (bool_decide (key r = k)).
  - unfold lookup_key. rewrite find_app. cbn. destruct (decide (k = key row)) as [->|Hne].
    + apply lookup_key_none in E. unfold lookup_key in E. by rewrite E, bool_decide_eq_true_2.
    + rewrite (bool_decide_eq_false_2 (key row = k)) by congruence. by destruct (List.find _ l).
Qed.
End upsert.

Section lookup_facts.
Context {Row Key : Type} `{EqDecision Key} (key : Row -> Key).

Lemma lookup_key_elem k l r : lookup_key key k l = Some r -> r ∈ l /\ key r = k.
Proof. intros [Hin Hk%bool_decide_eq_true]%find_some. split; [by apply list_elem_of_In|done]. Qed.

Lemma lookup_key_unique l r : NoDup (map key l) -> r ∈ l -> lookup_key key (key r) l = Some r.
Proof.
  unfold lookup_key. induction l as [|x l IH]; cbn; [by intros _ ?%elem_of_nil|]. intros [Hx Hl]%NoDup_cons.
  intros [->|Hin]%elem_of_cons; [by rewrite bool_decide_eq_true_2|]. rewrite bool_decide_eq_false_2; [auto|].
  intros Heq. apply Hx, list_elem_of_fmap. by exists r.
Qed.

Lemma upsert_elem k row l : k ∈ map key (upsert key row l) <-> k = key row \/ k ∈ map key l.
Proof.
  rewrite upsert_keys. destruct (has_key key (key row) l) eqn:E; [|rewrite elem_of_app, list_elem_of_singleton; tauto].
  apply has_key_spec in E. split; [auto|by intros [->|]].
Qed.
End lookup_facts.

Lemma list_filter_perm {A} (f : A -> bool) a b : a ≡ₚ b -> List.filter f a ≡ₚ List.filter f b.
Proof.
  induction 1 as [|x a b _ IH|x y a|a b c _ IH1 _ IH2]; cbn; [done|by destruct (f x); [constructor|]| |by etrans].
  destruct (f x), (f y); try done. constructor.
Qed.

Lemma filter_out {A} (f : A -> bool) l : List.filter f (List.filter (fun x => negb (f x)) l) = [].
Proof. induction l as [|x l IH]; [done|]. cbn. destruct (f x) eqn:E; cbn; [done|by rewrite E]. Qed.

Lemma filter_keep {A} (f g : A -> bool) l :
  (forall x, g x = true -> f x = false) -> List.filter g (List.filter (fun x => negb (f x)) l) = List.filter g l.
Proof.
  intros H. induction l as [|x l IH]; [done|]. cbn. destruct (f x) eqn:E; cbn; [|by rewrite IH].
  destruct (g x) eqn:Eg; [|done]. apply H in Eg. congruence.
Qed.

(** ** Sums over a table *)

Definition sum_by {A} (f : A -> Q) (l : list A) : Q := fold_right (fun x acc => f x + acc)%Q 0%Q l.

Lemma sum_by_nil {A} (f : A -> Q) : sum_by f [] = 0%Q.
Proof. done. Qed.

Lemma sum_by_cons {A} (f : A -> Q) x l : sum_by f (x :: l) = (f x + sum_by f l)%Q.
Proof. done. Qed.

Lemma sum_by_app {A} (f : A -> Q) a b : (sum_by f (a ++ b) == sum_by f a + sum_by f b)%Q.
Proof. induction a as [|x a IH]; cbn [app]; [change (sum_by f []) with 0%Q; lra|]. rewrite !sum_by_cons, IH. lra. Qed.

Lemma sum_by_perm {A} (f : A -> Q) a b : a ≡ₚ b -> (sum_by f a == sum_by f b)%Q.
Proof. induction 1 as [|x a b _ IH|x y a|a b c _ IH1 _ IH2]; rewrite ?sum_by_cons; lra. Qed.

Lemma sum_by_ext {A} (f g : A -> Q) l : (forall x, f x == g x)%Q -> (sum_by f l == sum_by g l)%Q.
Proof. intros H. induction l as [|x l IH]; [done|]. rewrite !sum_by_cons, (H x), IH. lra. Qed.

(** A sum of counts is the number of elements counted. *)
Lemma sum_by_count {A} (f : A -> bool) l :
  (sum_by (fun x => if f x then 1 else 0) l == inject_Z (Z.of_nat (length (List.filter f l))))%Q.
Proof.
  induction l as [|x l IH]; [done|]. rewrite sum_by_cons, IH. cbn [List.filter]. destruct (f x); cbn [length]; [|lra]. rewrite Nat2Z.inj_succ, <- Z.add_1_l, inject_Z_plus. change (inject_Z 1) with 1%Q. lra.
Qed.

(** Replacing the row of a key changes the sum by the difference of the rows. *)
Lemma sum_by_upsert {Row Key} `{EqDecision Key} (key : Row -> Key) (f : Row -> Q) row l :
  NoDup (map key l) ->
  (sum_by f (upsert key row l) == sum_by f l - nullish (f <$> lookup_key key (key row) l) 0 + f row)%Q.
Proof.
  unfold upsert. destruct (has_key key (key row) l) eqn:E.
  - induction l as [|r l IH]; [done|]. intros [Hr Hl]%NoDup_cons. unfold lookup_key in *. cbn [has_key existsb List.find map] in *.
    case_bool_decide as Hk; cbn [orb] in *; rewrite !sum_by_cons.
    + assert (Hsame : map (fun r' => if bool_decide (key r' = key row) then row else r') l = l).
      { rewrite <- (map_id l) at 2. apply map_ext_in. intros x Hx. rewrite bool_decide_eq_false_2; [done|].
        intros Hx'. apply Hr, list_elem_of_fmap. exists x. split; [congruence|by apply list_elem_of_In]. }
      rewrite Hsame. change (nullish (f <$> Some r) 0%Q) with (f r). lra.
    + rewrite (IH E Hl). lra.
  - intros _. apply lookup_key_none in E. rewrite E, sum_by_app, sum_by_cons. change (sum_by f []) with 0%Q. change (nullish (f <$> None) 0%Q) with 0%Q. lra.
Qed.

(** ** Opening and migrating *)

(** The tables each migration creates, with their columns and unique keys; the
    indexes, which change no result, are left out.
    @src runtime/src/usage.ts MIGRATIONS *)
Definition MIGRATIONS : list (list Table) :=
  let id := col INTEGER "id" in
  [[mkTable "runs" [col TEXT "run_id"; col TEXT "agent_key"; col TEXT "version"; col TEXT "interface_name"; col TEXT "sandbox";
      col TEXT "state"; col TEXT "health"; opt INTEGER "exit_code"; opt TEXT "exit_reason"; opt TEXT "model_provider";
      opt TEXT "model_name"; opt TEXT "container_id"; col TEXT "created_at"; col TEXT "started_at"; opt TEXT "ended_at"]
      [["run_id"]];
    mkTable "token_usage" [id; col TEXT "run_id"; col TEXT "model_provider"; col TEXT "model_name"; col INTEGER "tokens_in";
      col INTEGER "tokens_out"; dflt0 "tokens_reasoning"; dflt0 "tokens_cache"; opt REAL "cost_exact"; opt REAL "cost_estimated";
      col TEXT "recorded_at"] [["id"]];
    mkTable "resource_samples" [id; col TEXT "run_id"; opt INTEGER "mem_bytes"; opt REAL "cpu_percent"; opt TEXT "container_id";
      col TEXT "sampled_at"] [["id"]];
    mkTable "settings" [col TEXT "key"; col TEXT "value"] [["key"]]];
   [mkTable "external_usage" [id; col TEXT "provider"; col TEXT "source"; opt TEXT "session_id"; opt TEXT "model"; dflt0 "tokens_in";
      dflt0 "tokens_out"; dflt0 "cache_read"; dflt0 "cache_write"; opt REAL "cost_exact"; opt REAL "cost_estimated";
      col TEXT "occurred_at"; col TEXT "event_key"; col TEXT "ingested_at"] [["id"]; ["provider"; "source"; "event_key"]];
    mkTable "limits" [col TEXT "provider"; col TEXT "window"; opt TEXT "plan"; opt REAL "used_percent"; opt TEXT "units";
      opt REAL "credits_used"; opt REAL "credits_total"; opt TEXT "reset_at"; col TEXT "observed_at"; col TEXT "source"]
      [["provider"; "window"]];
    mkTable "source_cursors" [col TEXT "source"; col INTEGER "size"; col INTEGER "mtime_ms"; dflt0 "offset"; col TEXT "seen_at"]
      [["source"]];
    mkTable "codex_totals" [col TEXT "source"; col TEXT "model"; dflt0 "last_input"; dflt0 "last_output"; col TEXT "updated_at"]
      [["source"; "model"]]]].

Definition with_schema n l d := mkDb n l (t_runs d) (t_usage d) (t_resources d) (t_settings d) (t_external d) (t_limits d) (t_cursors d) (t_totals d) (touches d).

(** The statements of [migrate], on a connection: what it sees, what the database held
    before the transaction that is open, if one is, and how many statements it has
    executed. *)
Inductive statement := sql_begin | sql_create (t : Table) | sql_user_version (n : nat) | sql_commit | sql_rollback.
Record connection := mkConn { cn_seen : db; cn_before : option db; cn_executed : nat }.

Definition connect (d : db) : connection := mkConn d None 0.

(** What is in the file: changes of a transaction that is still open are not. *)
Definition stored (c : connection) : db := match cn_before c with Some d => d | None => cn_seen c end.

(** What a statement does when nothing else goes wrong: a table is not created twice,
    transactions do not nest, and only an open one can be ended. *)
Definition perform (s : statement) (c : connection) : result (db * option db) :=
  let d := cn_seen c in
  match s, cn_before c with
  | sql_create t, b =>
      if mem_str (table_name t) (map table_name (schema d)) then throw EError ("table " +:+ table_name t +:+ " already exists")
      else Ok (with_schema (user_version d) (schema d ++ [t]) d, b)
  | sql_user_version n, b => Ok (with_schema n (schema d) d, b)
  | sql_begin, None => Ok (d, Some d)
  | sql_begin, Some _ => throw EError "cannot start a transaction within a transaction"
  | sql_commit, Some _ => Ok (d, None)
  | sql_rollback, Some old => Ok (old, None)
  | _, None => throw EError "no transaction is active"
  end.

(** The engine may also fail: then the statement has no effect, or the whole
    transaction is undone, as it is when the disk is full. *)
Inductive stmt_outcome := so_done | so_fails | so_aborts.

Definition exec (o : nat -> stmt_outcome) (s : statement) (c : connection) : connection * result unit :=
  let n := S (cn_executed c) in
  match o (cn_executed c) with
  | so_done => match perform s c with
               | Ok (d, b) => (mkConn d b n, Ok tt)
               | Throw e => (mkConn (cn_seen c) (cn_before c) n, Throw e)
               end
  | so_fails => (mkConn (cn_seen c) (cn_before c) n, throw EError "statement failed")
  | so_aborts => (mkConn (stored c) None n, throw EError "transaction aborted")
  end.

(** Statements in a row, up to the first that throws. *)
Fixpoint exec_all (o : nat -> stmt_outcome) (l : list statement) (c : connection) : connection * result unit :=
  match l with
  | [] => (c, Ok tt)
  | s :: l => match exec o s c with (c, Ok _) => exec_all o l c | (c, Throw e) => (c, Throw e) end
  end.

(** @src runtime/src/usage.ts migrate *)
Fixpoint migrate_loop (o : nat -> stmt_outcome) (i : nat) (todo : list (list Table)) (c : connection) : connection * result unit :=
  match todo with
  | [] => (c, Ok tt)
  | tables :: rest =>
      match exec o sql_begin c with
      | (c, Throw e) => (c, Throw e)
      | (c, Ok _) =>
          match exec_all o (map sql_create tables ++ [sql_user_version (S i); sql_commit]) c with
          | (c, Ok _) => migrate_loop o (S i) rest c
          | (c, Throw err) =>
              match exec o sql_rollback c with (c, Ok _) => (c, Throw err) | (c, Throw e) => (c, Throw e) end
          end
      end
  end.

Definition migrate (o : nat -> stmt_outcome) (d : db) : connection * result unit :=
  migrate_loop o (user_version d) (drop (user_version d) MIGRATIONS) (connect d).

Definition empty_db : db := mkDb 0 [] [] [] [] [] [] [] [] [] 0.

(** ** Statements *)

(** @src runtime/src/usage.ts syncRun *)
Definition syncRun (run : RunFacts) (d : db) : db :=
  let d' := with_runs (upsert f_runId run (t_runs d)) d in
  if has_key f_runId (f_runId run) (t_runs d) then d' else touch d'.

(** @src runtime/src/usage.ts recordUsage *)
Definition recordUsage (sample : UsageSample) (d : db) : db := touch (with_usage (t_usage d ++ [sample]) d).

(** @src runtime/src/usage.ts recordResourceSample *)
Definition recordResourceSample (sample : ResourceSample) (d : db) : db :=
  touch (with_resources (t_resources d ++ [sample]) d).

(** @src runtime/src/usage.ts setSetting *)
Definition setSetting (k v : string) (d : db) : db := with_settings (obj_set k v (t_settings d)) d.

(** @src runtime/src/usage.ts getSetting *)
Definition getSetting (d : db) (k : string) : option string := obj_get k (t_settings d).

Definition external_key (r : ExternalUsageRow) : UsageProvider * string * string := (x_provider r, x_source r, x_eventKey r).

(** @src runtime/src/usage.ts recordExternal *)
Definition recordExternal (obs : ExternalUsageRow) (d : db) : db * bool :=
  let '(l, changed) := insert_or_ignore external_key obs (t_external d) in
  let d' := with_external l d in
  (if (changed : bool) then touch d' else d', changed).

(** @src runtime/src/usage.ts hasExternal *)
Definition hasExternal (d : db) (p : UsageProvider) (source eventKey : string) : bool :=
  has_key external_key (p, source, eventKey) (t_external d).

Definition limit_key (l : LimitRow) : UsageProvider * string := (l_provider l, l_window l).

(** @src runtime/src/usage.ts upsertLimit *)
Definition upsertLimit (obs : LimitRow) (d : db) : db := touch (with_limits (upsert limit_key obs (t_limits d)) d).

Definition limit_leb (a b : LimitRow) : bool :=
  js_ltb (uprovider_name (l_provider a)) (uprovider_name (l_provider b))
  || bool_decide (l_provider a = l_provider b) && negb (js_ltb (l_window b) (l_window a)).

(** @src runtime/src/usage.ts listLimits *)
Definition listLimits (d : db) (p : option UsageProvider) : list LimitRow :=
  js_sort limit_leb (match p with
    | Some p => List.filter (fun l => bool_decide (l_provider l = p)) (t_limits d)
    | None => t_limits d end).

(** @src runtime/src/usage.ts listExternalUsage *)
Definition listExternalUsage (d : db) (p : option UsageProvider) : list ExternalUsageRow :=
  js_sort (fun a b => negb (js_ltb (x_occurredAt b) (x_occurredAt a))) (match p with
    | Some p => List.filter (fun r => bool_decide (x_provider r = p)) (t_external d)
    | None => t_external d end).

(** DELETE with a condition: the rows left, and how many went. *)
Definition delete_where {Row} (cond : Row -> bool) (l : list Row) : list Row * nat :=
  let left := List.filter (fun r => negb (cond r)) l in (left, length l - length left)%nat.

(** @src runtime/src/usage.ts clearProviderUsage *)
Definition clearProviderUsage (p : UsageProvider) (d : db) : db * (nat * nat) :=
  let '(ext, usage) := delete_where (fun r => bool_decide (x_provider r = p)) (t_external d) in
  let '(lim, limits) := delete_where (fun l => bool_decide (l_provider l = p)) (t_limits d) in
  (touch (with_limits lim (with_external ext d)), (usage, limits)).

(** @src runtime/src/usage.ts getSourceCursor *)
Definition getSourceCursor (d : db) (source : string) : option SourceCursor := lookup_key c_source source (t_cursors d).

(** @src runtime/src/usage.ts setSourceCursor *)
Definition setSourceCursor (source : string) (size mtimeMs : Z) (offset : Q) (now : string) (d : db) : db :=
  with_cursors (upsert c_source (mkCursor source size mtimeMs offset now) (t_cursors d)) d.

Definition total_key (t : codex_total) : string * string := (t_source t, t_model t).

(** @src runtime/src/usage.ts getCodexTotal *)
Definition getCodexTotal (d : db) (source model : string) : option (Q * Q) :=
  (fun t => (t_lastInput t, t_lastOutput t)) <$> lookup_key total_key (source, model) (t_totals d).

(** @src runtime/src/usage.ts setCodexTotal *)
Definition setCodexTotal (source model : string) (lastInput lastOutput : Q) (d : db) : db :=
  with_totals (upsert total_key (mkTotal source model lastInput lastOutput) (t_totals d)) d.

(** A cost that is present and positive. *)
Definition positive_cost (c : option Q) : option Q :=
  match c with Some q => if Qle_bool q 0%Q then None else Some q | None => None end.

(** ** Retention *)

Definition active_names : list string := ["starting"; "running"; "stopping"].
Definition facts_active (r : RunFacts) : bool := mem_str (f_state r) active_names.

(** @src runtime/src/usage.ts PruneOptions *)
Record PruneOptions := mkPrune { olderThanDays : option Q; keep : option nat }.

(** ORDER BY created_at DESC *)
Definition newest_first (l : list RunFacts) : list RunFacts :=
  js_sort (fun a b => negb (js_ltb (f_createdAt a) (f_createdAt b))) l.

(** [cutoff days] is the ISO time that many days ago; [new Set] keeps the first of
    equal ids.
    @src runtime/src/usage.ts pruneCandidates *)
Definition pruneCandidates (cutoff : Q -> string) (opts : PruneOptions) (d : db) : list string :=
  let ended := List.filter (fun r => negb (facts_active r)) (t_runs d) in
  let old := match olderThanDays opts with
             | Some days => if Qle_bool 0 days
                            then map f_runId (List.filter (fun r => js_ltb (f_createdAt r) (cutoff days)) ended) else []
             | None => []
             end in
  let excess := match keep opts with Some n => map f_runId (drop n (newest_first ended)) | None => [] end in
  rev (remove_dups (rev (old ++ excess))).

(** Deleting the runs of a list of ids with everything recorded for them, in one
    transaction; [commits] says whether it succeeds.
    @src runtime/src/usage.ts removeRuns *)
Definition removeRuns (commits : bool) (ids : list string) (d : db) : db * result nat :=
  let rows := List.filter (fun r => mem_str (f_runId r) ids) (t_runs d) in
  match rows with
  | [] => (d, Ok 0%nat)
  | _ =>
      if negb commits then (d, throw EError "transaction failed")
      else
        let gone := map f_runId rows in
        (touch (with_runs (List.filter (fun r => negb (mem_str (f_runId r) gone)) (t_runs d))
           (with_resources (List.filter (fun r => negb (mem_str (rs_runId r) gone)) (t_resources d))
             (with_usage (List.filter (fun r => negb (mem_str (s_runId r) gone)) (t_usage d)) d))),
         Ok (length rows))
  end.

(** [runsRemoved], which the code also returns as [usageRemoved].
    @src runtime/src/usage.ts prune *)
Definition prune (cutoff : Q -> string) (commits : bool) (opts : PruneOptions) (d : db) : db * result nat :=
  let ids := pruneCandidates cutoff opts d in
  match ids with [] => (d, Ok 0%nat) | _ => removeRuns commits ids d end.

(** @src runtime/src/usage.ts pruneById *)
Definition pruneById (commits : bool) (runId : string) (d : db) : db * result nat := removeRuns commits [runId] d.

(** [to_number] is JavaScript's [Number] on strings, [None] for [NaN]; a limit
    applies when it is positive, and SQLite refuses an OFFSET that is no integer.
    @src runtime/src/usage.ts pruneBySettings *)
Definition pruneBySettings (to_number : string -> option Q) (cutoff : Q -> string) (commits : bool) (d : db)
    : db * result nat :=
  let setting k := match getSetting d k with
                   | Some raw => if String.eqb raw "" then None else
                       match to_number raw with Some q => if Qle_bool q 0 then None else Some (Qred q) | None => None end
                   | None => None end in
  let days := setting "retention.days" in
  match setting "retention.max_runs" with
  | None => match days with None => (d, Ok 0%nat) | _ => prune cutoff commits (mkPrune days None) d end
  | Some q =>
      if negb (Pos.eqb (Qden q) 1) then (d, throw EError "datatype mismatch")
      else prune cutoff commits (mkPrune days (Some (Z.to_nat (Qnum q)))) d
  end.

(** @src runtime/src/usage.ts deleteAll *)
Definition deleteAll (commits : bool) (d : db) : db * result unit :=
  if negb commits then (d, throw EError "transaction failed")
  else (touch (mkDb (user_version d) (schema d) [] [] [] [] [] [] [] [] (touches d)), Ok tt).

Definition by_column {Row} (column : Row -> string) : list Row -> list Row :=
  js_sort (fun a b => negb (js_ltb (column b) (column a))).

(** @src runtime/src/usage.ts exportData *)
Definition exportData (d : db) :=
  (by_column f_createdAt (t_runs d), by_column s_recordedAt (t_usage d), by_column rs_sampledAt (t_resources d),
   t_settings d, by_column x_occurredAt (t_external d), js_sort limit_leb (t_limits d)).

(** The greatest string of a column.
    @src runtime/src/usage.ts lastEventAt *)
Definition max_str (l : list string) : option string :=
  fold_left (fun acc s => match acc with None => Some s | Some m => if js_ltb m s then Some s else acc end) l None.

Definition lastEventAt (d : db) : option string :=
  max_str (map f_createdAt (t_runs d) ++ map s_recordedAt (t_usage d)).

(** ** Properties *)

(** *** Migration *)

Definition migrated (d : db) : Prop :=
  (user_version d <= USAGE_SCHEMA_VERSION)%nat /\ schema d = concat (take (user_version d) MIGRATIONS).

(** A statement inside of a transaction leaves the file as it is. *)
Definition inside (s : statement) : bool := match s with sql_create _ | sql_user_version _ => true | _ => false end.

Lemma exec_inside o s c : inside s = true -> is_Some (cn_before c) ->
  stored (exec o s c).1 = stored c /\ (is_ok (exec o s c).2 = true -> cn_before (exec o s c).1 = cn_before c).
Proof.
  intros Hs [b Hb]. unfold exec, stored. destruct s as [|t|n| |]; try done; cbn [perform]; rewrite ?Hb.
  - destruct (o (cn_executed c)); cbn; rewrite ?Hb; [|done..]. by destruct (mem_str _ _); cbn; rewrite ?Hb.
  - by destruct (o (cn_executed c)); cbn; rewrite ?Hb.
Qed.

(** The tables created in a row, with new names, are all there at its end. *)
Definition fresh_for (tables : list Table) (d : db) : Prop := NoDup (map table_name (schema d ++ tables)).

Lemma create_all o tables n c : is_Some (cn_before c) -> fresh_for tables (cn_seen c) ->
  let '(c', r) := exec_all o (map sql_create tables ++ [sql_user_version n; sql_commit]) c in
  match r with
  | Ok _ => cn_before c' = None /\ cn_seen c' = with_schema n (schema (cn_seen c) ++ tables) (cn_seen c)
  | Throw _ => stored c' = stored c
  end /\ ((forall k, o k = so_done) -> is_ok r = true).
Proof.
  revert c. induction tables as [|t tables IH]; intros c [b Hb] Hf; cbn [map app].
  - cbn [exec_all]. rewrite app_nil_r. destruct (exec o (sql_user_version n) c) as [c1 r1] eqn:E1.
    pose proof (exec_inside o (sql_user_version n) c eq_refl (mk_is_Some _ _ Hb)) as [H1 H2]. rewrite E1 in H1, H2. cbn [fst snd] in H1, H2.
    unfold exec in E1. cbn [perform] in E1. destruct (o (cn_executed c)) eqn:Eo; injection E1 as <- <-;
      [|split; [done|]; intros Hall; by rewrite Hall in Eo..].
    unfold exec at 1. cbn [perform cn_before cn_seen cn_executed]. rewrite Hb. destruct (o (S (cn_executed c))) eqn:Eo2; cbn.
    + by split.
    + split; [by unfold stored; rewrite Hb|]. intros Hall. by rewrite Hall in Eo2.
    + split; [by unfold stored; rewrite Hb|]. intros Hall. by rewrite Hall in Eo2.
  - cbn [exec_all]. pose proof (exec_inside o (sql_create t) c eq_refl (mk_is_Some _ _ Hb)) as [H1 H2].
    destruct (exec o (sql_create t) c) as [c1 [[]|e]] eqn:E1; cbn [fst snd] in H1, H2.
    + specialize (H2 eq_refl). assert (Hseen : cn_seen c1 = with_schema (user_version (cn_seen c)) (schema (cn_seen c) ++ [t]) (cn_seen c)).
      { unfold exec in E1. cbn [perform] in E1. destruct (o (cn_executed c)); [|done..]. destruct (mem_str _ _); [done|]. by injection E1 as <-. }
      assert (Hf1 : fresh_for tables (cn_seen c1)) by (unfold fresh_for in *; rewrite Hseen; cbn [schema with_schema]; by rewrite <- app_assoc).
      specialize (IH c1 ltac:(by rewrite H2, Hb) Hf1).
      destruct (exec_all o _ c1) as [c' [[]|e]]; destruct IH as [IH Hok]; (split; [|done]).
      * destruct IH as [? ->]. split; [done|]. rewrite Hseen. cbn. by rewrite <- app_assoc.
      * by rewrite IH.
    + split; [exact H1|]. intros Hall. exfalso. unfold exec in E1. cbn [perform] in E1. rewrite Hall in E1.
      destruct (mem_str (table_name t) _) eqn:Em; [|done]. apply mem_str_spec in Em. unfold fresh_for in Hf. rewrite map_app in Hf.
      apply NoDup_app in Hf as (_ & Hf & _). apply (Hf _ Em). by left.
Qed.

(** One migration is done in full or not at all. *)
Lemma migration_atomic o tables i c : cn_before c = None -> fresh_for tables (cn_seen c) ->
  let '(c', r) :=
    match exec o sql_begin c with
    | (c, Throw e) => (c, Throw e)
    | (c, Ok _) => match exec_all o (map sql_create tables ++ [sql_user_version (S i); sql_commit]) c with
        | (c, Ok u) => (c, Ok u)
        | (c, Throw err) => match exec o sql_rollback c with (c, Ok _) => (c, Throw err) | (c, Throw e) => (c, Throw e) end
        end
    end in
  match r with
  | Ok _ => cn_before c' = None /\ cn_seen c' = with_schema (S i) (schema (cn_seen c) ++ tables) (cn_seen c)
  | Throw _ => stored c' = cn_seen c
  end /\ ((forall k, o k = so_done) -> is_ok r = true).
Proof.
  intros Hb Hf. assert (Hst : stored c = cn_seen c) by (unfold stored; by rewrite Hb).
  unfold exec at 1. cbn [perform]. rewrite Hb. destruct (o (cn_executed c)) eqn:Eo.
  2,3: split; [by rewrite <- Hst; unfold stored; cbn; rewrite ?Hb|]; intros Hall; by rewrite Hall in Eo.
  pose proof (create_all o tables (S i) (mkConn (cn_seen c) (Some (cn_seen c)) (S (cn_executed c))) ltac:(by eexists) Hf) as H.
  destruct (exec_all o _ _) as [c' [[]|e]]; [done|]. destruct H as [H Hok].
  assert (Hroll : stored (exec o sql_rollback c').1 = stored c').
  { unfold exec, stored. destruct (o (cn_executed c')); cbn [perform]; destruct (cn_before c') eqn:Eb; cbn; rewrite ?Eb; done. }
  destruct (exec o sql_rollback c') as [c2 [[]|e2]]; cbn in Hroll; rewrite Hroll, H; by split.
Qed.

Lemma migrations_fresh d tables : migrated d -> MIGRATIONS !! user_version d = Some tables -> fresh_for tables d.
Proof.
  intros [Hv Hs] Hat. unfold fresh_for. rewrite Hs. destruct (user_version d) as [|[|v]]; [injection Hat as <-..|done];
    apply (bool_decide_unpack _); by vm_compute.
Qed.

Lemma migrate_loop_spec o todo c :
  cn_before c = None -> migrated (cn_seen c) -> todo = drop (user_version (cn_seen c)) MIGRATIONS ->
  let '(c', r) := migrate_loop o (user_version (cn_seen c)) todo c in
  let d := cn_seen c in let d' := stored c' in
  migrated d' /\ (user_version d <= user_version d')%nat /\ d' = with_schema (user_version d') (schema d') d /\
  match r with
  | Ok _ => cn_before c' = None /\ user_version d' = USAGE_SCHEMA_VERSION
  | Throw _ => (user_version d' < USAGE_SCHEMA_VERSION)%nat
  end /\ ((forall k, o k = so_done) -> is_ok r = true).
Proof.
  revert c. induction todo as [|tables rest IH]; intros c Hb [Hv Hs] Htodo.
  - cbn [migrate_loop]. cbv zeta. assert (Hst : stored c = cn_seen c) by (unfold stored; by rewrite Hb). rewrite Hst.
    split; [by split|]. split; [done|]. split; [by destruct (cn_seen c)|]. split; [|done]. split; [done|]. symmetry in Htodo. apply (f_equal length) in Htodo.
    rewrite length_drop in Htodo. cbn in Htodo. unfold USAGE_SCHEMA_VERSION in *. lia.
  - assert (Hlt : (user_version (cn_seen c) < USAGE_SCHEMA_VERSION)%nat).
    { apply (f_equal length) in Htodo. rewrite length_drop in Htodo. cbn in Htodo. unfold USAGE_SCHEMA_VERSION in *. lia. }
    assert (Hat : MIGRATIONS !! user_version (cn_seen c) = Some tables).
    { rewrite <- (Nat.add_0_r (user_version _)), <- lookup_drop, <- Htodo. done. }
    pose proof (migration_atomic o tables (user_version (cn_seen c)) c Hb (migrations_fresh _ _ (conj Hv Hs) Hat)) as Hstep.
    cbn [migrate_loop].
    assert (Hfail : forall (c' : connection) (e : jserror), stored c' = cn_seen c /\ ((forall k, o k = so_done) -> is_ok (Throw e : result unit) = true) ->
      migrated (stored c') /\ (user_version (cn_seen c) <= user_version (stored c'))%nat /\
      stored c' = with_schema (user_version (stored c')) (schema (stored c')) (cn_seen c) /\
      (user_version (stored c') < USAGE_SCHEMA_VERSION)%nat /\ ((forall k, o k = so_done) -> is_ok (Throw e : result unit) = true)).
    { intros c' e [-> Hok]. split; [by split|]. split; [done|]. split; [by destruct (cn_seen c)|]. by split. }
    revert Hstep. destruct (exec o sql_begin c) as [c1 [[]|e]]; [|exact (Hfail _ _)].
    destruct (exec_all o _ c1) as [c2 [[]|e]]; intros Hstep.
    + destruct Hstep as [[Hb2 Hs2] _].
      assert (Hm2 : migrated (cn_seen c2)).
      { rewrite Hs2. split; [cbn; lia|]. cbn [schema user_version with_schema]. rewrite (take_S_r _ _ _ Hat), concat_app, Hs.
        cbn. by rewrite app_nil_r. }
      assert (Hr : rest = drop (user_version (cn_seen c2)) MIGRATIONS).
      { rewrite Hs2. cbn [user_version with_schema]. rewrite (drop_S _ _ _ Hat) in Htodo. by injection Htodo. }
      specialize (IH c2 Hb2 Hm2 Hr). assert (Hver : user_version (cn_seen c2) = S (user_version (cn_seen c))) by by rewrite Hs2.
      rewrite Hver in IH. destruct (migrate_loop o _ rest c2) as [c' r]. cbv zeta in *.
      destruct IH as (H1 & H2 & H3 & H4). split; [exact H1|]. split; [lia|]. split; [|exact H4].
      rewrite H3 at 1. by rewrite Hs2.
    + revert Hstep. destruct (exec o sql_rollback c2) as [c3 [[]|e3]]; exact (Hfail _ _).
Qed.

(** C20: Opening the store brings the schema to version 2 one step at a time and never
    leaves half of a step in the file, whichever statement fails and however (without an
    effect, or undoing the transaction; the ROLLBACK of the handler may fail too): then
    the file holds exactly the tables of the version it says, not older than before, and
    every row, and a later opening where nothing fails brings it to the end.  An opening
    where nothing fails succeeds, leaves no transaction open, and the next one does
    nothing.  The file is at some version of this schema before. *)
Theorem migrate_spec o d :
  migrated d ->
  let '(c, r) := migrate o d in let d' := stored c in
  migrated d' /\ (user_version d <= user_version d')%nat /\ d' = with_schema (user_version d') (schema d') d /\
  ((forall k, o k = so_done) -> is_ok r = true) /\
  match r with
  | Ok _ => cn_seen c = d' /\ user_version d' = USAGE_SCHEMA_VERSION /\ forall o', migrate o' d' = (connect d', Ok tt)
  | Throw _ => let '(c2, r2) := migrate (fun _ => so_done) d' in is_ok r2 = true /\ user_version (stored c2) = USAGE_SCHEMA_VERSION
  end.
Proof.
  intros Hm. unfold migrate. pose proof (migrate_loop_spec o _ (connect d) eq_refl Hm eq_refl) as H. cbn [cn_seen connect] in H.
  destruct (migrate_loop o _ _ (connect d)) as [c [[]|e]]; cbv zeta in *; destruct H as (H1 & H2 & H3 & H4 & H5).
  - destruct H4 as [Hb Hv]. do 3 (split; [done|]). split; [done|]. split; [by unfold stored; rewrite Hb|]. split; [done|].
    intros o'. by rewrite Hv.
  - do 3 (split; [done|]). split; [done|].
    pose proof (migrate_loop_spec (fun _ => so_done) _ (connect (stored c)) eq_refl H1 eq_refl) as H. cbn [cn_seen connect] in H.
    destruct (migrate_loop _ _ _ (connect (stored c))) as [c2 [[]|e2]]; destruct H as (_ & _ & _ & H6 & H7); [by destruct H6|].
    by specialize (H7 (fun _ => eq_refl)).
Qed.

Lemma migrate_spec_witness :
  let '(c, r) := migrate (fun k => if Nat.eqb k 10 then so_fails else so_done) empty_db in
  user_version (stored c) = 1%nat /\ is_ok r = false /\
  let '(c2, r2) := migrate (fun _ => so_done) (stored c) in is_ok r2 = true /\ user_version (stored c2) = USAGE_SCHEMA_VERSION.
Proof.
  assert (Hm : migrated empty_db) by (split; [unfold USAGE_SCHEMA_VERSION; cbn; lia|reflexivity]).
  pose proof (migrate_spec (fun k => if Nat.eqb k 10 then so_fails else so_done) empty_db Hm) as H.
  assert (E : (migrate (fun k => if Nat.eqb k 10 then so_fails else so_done) empty_db).2 = throw EError "statement failed") by (vm_compute; reflexivity).
  assert (E2 : user_version (stored (migrate (fun k => if Nat.eqb k 10 then so_fails else so_done) empty_db).1) = 1%nat) by (vm_compute; reflexivity).
  destruct (migrate _ empty_db) as [c r]. cbn in E, E2. subst r. destruct H as (_ & _ & _ & _ & H). split; [exact E2|]. split; [reflexivity|exact H].
Defined.

(** *** Keys stay unique *)

Record unique_keys (d : db) : Prop := mkUnique {
  uk_runs : NoDup (map f_runId (t_runs d));
  uk_settings : NoDup (obj_keys (t_settings d));
  uk_external : NoDup (map external_key (t_external d));
  uk_limits : NoDup (map limit_key (t_limits d));
  uk_cursors : NoDup (map c_source (t_cursors d));
  uk_totals : NoDup (map total_key (t_totals d));
}.

Inductive store_op :=
| so_syncRun (r : RunFacts) | so_recordUsage (s : UsageSample) | so_resource (s : ResourceSample)
| so_setting (k v : string) | so_external (r : ExternalUsageRow) | so_limit (l : LimitRow)
| so_clear (p : UsageProvider) | so_cursor (source : string) (size mtime : Z) (offset : Q) (now : string)
| so_total (source model : string) (i o : Q)
| so_prune (cutoff : Q -> string) (commits : bool) (opts : PruneOptions)
| so_pruneById (commits : bool) (id : string) | so_deleteAll (commits : bool).

Definition apply_op (d : db) (op : store_op) : db :=
  match op with
  | so_syncRun r => syncRun r d
  | so_recordUsage s => recordUsage s d
  | so_resource s => recordResourceSample s d
  | so_setting k v => setSetting k v d
  | so_external r => (recordExternal r d).1
  | so_limit l => upsertLimit l d
  | so_clear p => (clearProviderUsage p d).1
  | so_cursor s sz mt o now => setSourceCursor s sz mt o now d
  | so_total s m i o => setCodexTotal s m i o d
  | so_prune c b opts => (prune c b opts d).1
  | so_pruneById b id => (pruneById b id d).1
  | so_deleteAll b => (deleteAll b d).1
  end.

Lemma filter_keys_nodup {Row Key} (key : Row -> Key) f l : NoDup (map key l) -> NoDup (map key (List.filter f l)).
Proof.
  induction l as [|r l IH]; cbn; [done|]. intros [Hr Hl]%NoDup_cons. destruct (f r); [|auto].
  cbn. apply NoDup_cons. split; [|auto]. intros Hin. apply Hr.
  apply list_elem_of_fmap in Hin as (x & -> & Hx). apply list_elem_of_fmap. exists x. split; [done|].
  apply list_elem_of_In, filter_In in Hx as [Hx _]. by apply list_elem_of_In.
Qed.

Lemma unique_touch d : unique_keys d -> unique_keys (touch d).
Proof. by intros [? ? ? ? ? ?]. Qed.

Lemma unique_removeRuns b ids d : unique_keys d -> unique_keys (removeRuns b ids d).1.
Proof.
  intros H. unfold removeRuns. destruct (List.filter _ (t_runs d)); [done|]. destruct b; [|done]. cbn [negb fst].
  apply unique_touch. destruct H. split; cbn; auto using filter_keys_nodup.
Qed.

Lemma unique_op d op : unique_keys d -> unique_keys (apply_op d op).
Proof.
  intros H. destruct op; cbn [apply_op].
  - unfold syncRun. destruct (has_key _ _ _); [|apply unique_touch]; destruct H; split; cbn; auto using upsert_nodup.
  - apply unique_touch. by destruct H.
  - apply unique_touch. by destruct H.
  - destruct H; split; cbn -[obj_keys obj_set]; auto with js.
  - unfold recordExternal. pose proof (insert_or_ignore_nodup external_key r (t_external d) (uk_external d H)) as Hn.
    destruct (insert_or_ignore external_key r (t_external d)) as [l [|]]; cbn [fst] in *; [apply unique_touch|];
      destruct H; by split.
  - apply unique_touch. destruct H; split; cbn; auto using upsert_nodup.
  - unfold clearProviderUsage, delete_where. cbn [fst]. apply unique_touch. destruct H; split; cbn; auto using filter_keys_nodup.
  - destruct H; split; cbn; auto using upsert_nodup.
  - destruct H; split; cbn; auto using upsert_nodup.
  - unfold prune. destruct (pruneCandidates _ _ _); [done|]. by apply unique_removeRuns.
  - by apply unique_removeRuns.
  - unfold deleteAll. destruct commits; [|done]. cbn [negb fst]. apply unique_touch. split; constructor.
Qed.

(** C19: The declared keys hold through every history of the store: one row per
    run, one per provider, source and event key, one limit per provider and window,
    one cursor per source, one total per source and model; in particular an event
    that is recorded a second time is ignored and changes nothing. *)
Theorem store_keys_unique ops :
  let d := fold_left apply_op ops empty_db in
  unique_keys d /\
  (forall obs, hasExternal (recordExternal obs d).1 (x_provider obs) (x_source obs) (x_eventKey obs) = true /\
     (recordExternal obs (recordExternal obs d).1) = ((recordExternal obs d).1, false)).
Proof.
  intros d. split.
  - unfold d. assert (H0 : unique_keys empty_db) by (split; constructor). revert H0. generalize empty_db.
    induction ops as [|op ops IH]; intros d0 H0; [done|]. cbn. apply IH. by apply unique_op.
  - intros obs. assert (Hh : has_key external_key (external_key obs) (t_external (recordExternal obs d).1) = true).
    { unfold recordExternal, insert_or_ignore. destruct (has_key _ _ (t_external d)) eqn:E; [done|]. cbn.
      apply has_key_spec. rewrite map_app, elem_of_app. right. by left. }
    split; [exact Hh|]. unfold recordExternal at 1, insert_or_ignore. rewrite Hh.
    by destruct ((recordExternal obs d).1).
Qed.

(** *** Pruning *)

Definition ended_runs (d : db) : list RunFacts := List.filter (fun r => negb (facts_active r)) (t_runs d).

(** An ended run that is too old, or not among the newest ones to keep. *)
Definition prunable (cutoff : Q -> string) (opts : PruneOptions) (d : db) (r : RunFacts) : Prop :=
  r ∈ ended_runs d /\
  ((exists days, olderThanDays opts = Some days /\ Qle_bool 0 days = true /\ js_ltb (f_createdAt r) (cutoff days) = true)
   \/ (exists n, keep opts = Some n /\ r ∈ drop n (newest_first (ended_runs d)))).

Lemma elem_of_subseteq_drop {A} n (l : list A) x : x ∈ drop n l -> x ∈ l.
Proof. rewrite <- (take_drop n l) at 2. rewrite elem_of_app. by right. Qed.

Lemma candidates_spec cutoff opts d id :
  id ∈ pruneCandidates cutoff opts d <-> exists r, prunable cutoff opts d r /\ f_runId r = id.
Proof.
  unfold pruneCandidates. cbv zeta. fold (ended_runs d).
  rewrite list_elem_of_In, <- in_rev, <- list_elem_of_In, elem_of_remove_dups.
  rewrite list_elem_of_In, <- in_rev, <- list_elem_of_In, elem_of_app. unfold prunable. split.
  - intros [H|H].
    + destruct (olderThanDays opts) as [days|]; [|by apply elem_of_nil in H].
      destruct (Qle_bool 0 days) eqn:Hq; [|by apply elem_of_nil in H].
      apply list_elem_of_fmap in H as (r & -> & [Hr Hl]%elem_of_filter_In). exists r. split; [|done].
      split; [done|]. left. by exists days.
    + destruct (keep opts) as [n|]; [|by apply elem_of_nil in H].
      apply list_elem_of_fmap in H as (r & -> & Hr). exists r. split; [|done]. split; [|right; by exists n].
      apply (elem_of_subseteq_drop n) in Hr. by apply js_sort_elem in Hr.
  - intros (r & [Hr [(days & -> & Hq & Hl)|(n & -> & Hd)]] & <-).
    + left. rewrite Hq. apply list_elem_of_fmap. exists r. split; [done|]. by apply elem_of_filter_In.
    + right. apply list_elem_of_fmap. by exists r.
Qed.

Lemma same_run d r r' : NoDup (map f_runId (t_runs d)) -> r ∈ t_runs d -> r' ∈ t_runs d -> f_runId r = f_runId r' -> r = r'.
Proof.
  induction (t_runs d) as [|x l IH]; cbn; [by intros _ ?%elem_of_nil|]. intros [Hx Hl]%NoDup_cons Hr Hr' Heq.
  apply elem_of_cons in Hr as [->|Hr], Hr' as [->|Hr']; [done| | |auto].
  - exfalso. apply Hx. rewrite Heq. apply list_elem_of_fmap. by exists r'.
  - exfalso. apply Hx. rewrite <- Heq. apply list_elem_of_fmap. by exists r.
Qed.

(** Pruning removes exactly the ended runs that are older than the limit or
    beyond the number to keep, newest kept first, together with their token and
    resource samples; a run that is starting, running or stopping is never
    removed; and if the transaction fails nothing is. *)
Theorem prune_spec cutoff commits opts d d' n :
  NoDup (map f_runId (t_runs d)) ->
  prune cutoff commits opts d = (d', Ok n) ->
  (forall r, r ∈ t_runs d' <-> r ∈ t_runs d /\ ~ prunable cutoff opts d r) /\
  (forall s, s ∈ t_usage d' <-> s ∈ t_usage d /\ ~ exists r, prunable cutoff opts d r /\ f_runId r = s_runId s) /\
  (forall r, r ∈ t_runs d -> facts_active r = true -> r ∈ t_runs d') /\
  (prune cutoff false opts d).1 = d.
Proof.
  intros Hnd Hp.
  assert (Hfail : (prune cutoff false opts d).1 = d).
  { unfold prune, removeRuns. destruct (pruneCandidates cutoff opts d); [done|]. by destruct (List.filter _ _). }
  assert (Hsub : forall r, prunable cutoff opts d r -> r ∈ t_runs d).
  { intros r [Hr _]. by apply elem_of_filter_In in Hr as [? _]. }
  assert (Hcand : forall r, r ∈ t_runs d -> (f_runId r ∈ pruneCandidates cutoff opts d <-> prunable cutoff opts d r)).
  { intros r Hr. rewrite candidates_spec. split; [|by exists r].
    intros (r' & Hp' & Heq). by rewrite (same_run d r r' Hnd Hr (Hsub r' Hp') (eq_sym Heq)). }
  assert (Hmain : (forall r, r ∈ t_runs d' <-> r ∈ t_runs d /\ ~ prunable cutoff opts d r) /\
    (forall s, s ∈ t_usage d' <-> s ∈ t_usage d /\ ~ exists r, prunable cutoff opts d r /\ f_runId r = s_runId s)).
  { unfold prune in Hp. destruct (pruneCandidates cutoff opts d) as [|id0 ids0] eqn:Hids.
    - injection Hp as <- <-. split.
      + intros r. split; [|by intros [? _]]. intros Hr. split; [done|]. rewrite <- Hcand by done. by intros ?%elem_of_nil.
      + intros s. split; [|by intros [? _]]. intros Hs. split; [done|]. intros (r & Hr & _).
        apply Hcand in Hr; [|by apply Hsub]. by apply elem_of_nil in Hr.
    - rewrite <- Hids in *. unfold removeRuns in Hp.
      set (rows := List.filter (fun r => mem_str (f_runId r) (pruneCandidates cutoff opts d)) (t_runs d)) in *.
      assert (Hrows : forall r, r ∈ rows <-> prunable cutoff opts d r).
      { intros r. unfold rows. rewrite elem_of_filter_In, mem_str_spec. split.
        - intros [Hr Hc]. by apply Hcand.
        - intros Hr. pose proof (Hsub r Hr). split; [done|]. by apply Hcand. }
      destruct rows as [|r0 rows0] eqn:Erows.
      + injection Hp as <- <-. split.
        * intros r. split; [|by intros [? _]]. intros Hr. split; [done|]. intros H%Hrows. by apply elem_of_nil in H.
        * intros s. split; [|by intros [? _]]. intros Hs. split; [done|]. intros (r & H%Hrows & _). by apply elem_of_nil in H.
      + rewrite <- Erows in *. destruct commits; [|done]. cbn [negb] in Hp. injection Hp as <- <-. cbn. split.
        * intros r. rewrite elem_of_filter_In, negb_true_iff, <- not_true_iff_false, mem_str_spec, list_elem_of_fmap.
          split; intros [Hr Hn]; (split; [done|]).
          -- intros H%Hrows. apply Hn. by exists r.
          -- intros (r' & Heq & Hr'). apply Hn. apply Hrows in Hr'. by rewrite (same_run d r r' Hnd Hr (Hsub r' Hr') Heq).
        * intros s. rewrite elem_of_filter_In, negb_true_iff, <- not_true_iff_false, mem_str_spec, list_elem_of_fmap.
          split; intros [Hs Hn]; (split; [done|]).
          -- intros (r & H%Hrows & Heq). apply Hn. by exists r.
          -- intros (r & Heq & H%Hrows). apply Hn. by exists r. }
  destruct Hmain as [H1 H2]. split_and!; [done|done| |done].
  intros r Hr Ha. apply H1. split; [done|]. intros [He _]. apply elem_of_filter_In in He as [_ He]. by rewrite Ha in He.
Qed.
Definition demo_run (id state created : string) : RunFacts :=
  mkFacts id "a/b@1.0.0" "1.0.0" "cli" "process" state "ok" None None None None None created created None.

Definition demo_db : db :=
  with_usage [mkSample "r1" "openai" "gpt" 1 1 0 0 None None "2026-01-01"; mkSample "r3" "openai" "gpt" 2 2 0 0 None None "2026-01-03"]
    (with_runs [demo_run "r1" "exited" "2026-01-01"; demo_run "r2" "running" "2026-01-01"; demo_run "r3" "failed" "2026-01-03";
                demo_run "r4" "stopped" "2026-01-04"] empty_db).

Lemma prune_spec_witness :
  let opts := mkPrune (Some 30%Q) (Some 2%nat) in
  let d' := (prune (fun _ => "2026-01-02") true opts demo_db).1 in
  map f_runId (t_runs d') = ["r2"; "r3"; "r4"] /\ map s_runId (t_usage d') = ["r3"] /\
  (forall r, r ∈ t_runs d' <-> r ∈ t_runs demo_db /\ ~ prunable (fun _ => "2026-01-02") opts demo_db r).
Proof.
  split; [by vm_compute|]. split; [by vm_compute|].
  refine (proj1 (prune_spec (fun _ => "2026-01-02") true (mkPrune (Some 30%Q) (Some 2%nat)) demo_db _ 1 _ _)).
  - apply (bool_decide_unpack _). by vm_compute.
  - by vm_compute.
Defined.
End UsageStore.
