(* ===== verification/Registry.v ===== *)
(** The registry client: [sdk/src/registry.ts].  A call sends HTTP requests, which
    are the trace of the [tr] monad; the registry, another program, is the oracle
    [fetch], which answers a request of each kind with a value of the type the
    client declares for it (the source casts the JSON it reads to that type). *)
From S2P Require Import Prelude Trace Manifest Package Requirements.

Module Registry.
Import Trace Manifest Package Requirements.
Local Open Scope Z_scope.

(** ** Wire data *)

(** @src sdk/src/registry.ts AgentSummary *)
Record AgentSummary := mkSummary {
  as_namespace : string; as_name : string; as_version : string; as_author : string; as_description : string;
  as_license : string; as_framework : option string; as_models : list string; as_tags : list string;
  as_downloads : Z; as_trust : TrustLevel;
}.

(** @src sdk/src/registry.ts SecurityReportSummary *)
Record SecurityReportSummary := mkSecurity { sr_status : string; sr_findings : list string }.

Record SignerKey := mkSignerKey { sk_id : Z; sk_fingerprint : string; sk_label : option string; sk_revoked : bool; sk_expired : bool }.

(** @src sdk/src/registry.ts AgentVersionDetail *)
Record AgentVersionDetail := mkDetail {
  vd_name : string; vd_version : string; vd_author : string; vd_description : string; vd_manifest : Manifest;
  vd_publishedAt : string; vd_downloadCount : Z; vd_trust : option TrustLevel; vd_signature : option SignatureFile;
  vd_security : option SecurityReportSummary; vd_yanked : option bool; vd_signerKey : option SignerKey;
  vd_reviewStatus : option string; vd_reviewedAt : option string; vd_reviewReason : option string;
}.

(** @src sdk/src/registry.ts RevocationItem *)
Record RevocationItem := mkRevocation {
  ri_namespace : string; ri_name : string; ri_version : string; ri_digest : string; ri_reason : string;
  ri_reviewStatus : string; ri_securityStatus : string; ri_updatedAt : string;
}.

(** @src sdk/src/registry.ts SearchOptions *)
Record SearchOptions := mkSearch {
  so_q : option string; so_framework : option string; so_tags : option string; so_models : option string;
  so_sort : option string; so_limit : option Z; so_offset : option Z;
}.

(** @src sdk/src/registry.ts CatalogItem *)
Record CatalogItem := mkCatalogItem {
  ci_namespace : string; ci_name : string; ci_version : string; ci_digest : string; ci_author : string;
  ci_description : string; ci_license : string; ci_framework : option string; ci_models : list string;
  ci_tags : list string; ci_runtime : option string; ci_interfaces : list string; ci_permissions : list string;
  ci_secrets : list string; ci_downloads : Z; ci_publisher : string; ci_signerVerified : bool;
  ci_reviewStatus : string; ci_securityStatus : string; ci_yanked : bool; ci_publishedAt : string;
  ci_reviewedAt : option string;
}.

(** @src sdk/src/registry.ts CatalogOptions *)
Record CatalogOptions := mkCatalogOptions {
  co_q : option string; co_framework : option string; co_models : option string; co_tags : option string;
  co_reviewStatus : option string; co_securityStatus : option string; co_permission : option string;
  co_runtime : option string; co_publisherStatus : option string; co_cursor : option string; co_limit : option Z;
}.

(** @src sdk/src/registry.ts CatalogPage *)
Record CatalogPage := mkPage { cp_schemaVersion : Z; cp_watermark : string; cp_items : list CatalogItem; cp_nextCursor : option string }.

(** @src sdk/src/registry.ts DeviceLoginStart *)
Record DeviceLoginStart := mkDeviceStart {
  dl_deviceCode : string; dl_userCode : string; dl_verificationUri : string; dl_expiresIn : Z; dl_interval : Z;
}.

(** @src sdk/src/registry.ts DeviceTokenResult *)
Record DeviceTokenResult := mkDeviceToken { dt_accessToken : string; dt_username : string; dt_tokenType : string }.

(** @src sdk/src/registry.ts SessionInfo *)
Record SessionInfo := mkSession {
  si_id : Z; si_audience : string; si_deviceLabel : option string; si_createdAt : string; si_lastUsedAt : string;
  si_expiresAt : string; si_revoked : bool;
}.

(** @src sdk/src/registry.ts AgreementsInfo *)
Record AgreementsInfo := mkAgreements { ag_tos : string; ag_privacy : string; ag_publisher : string }.

(** *** The publisher console and the review queue *)

(** @src sdk/src/registry.ts PublisherOverview *)
Record PublisherOverview := mkOverview {
  po_namespaceCount : Z; po_packageCount : Z; po_keyCount : Z; po_activeSessions : Z; po_publishesUsed : Z; po_publishesLimit : Z;
  po_publishesUnlimited : bool; po_pendingScans : Z; po_flaggedVersions : Z;
}.

(** @src sdk/src/registry.ts PublisherNamespace *)
Record PublisherNamespace := mkNamespace {
  pn_name : string; pn_role : string; pn_memberCount : Z; pn_packageCount : Z; pn_createdAt : string;
}.

(** @src sdk/src/registry.ts PackageSummary *)
Record PackageSummary := mkPackage {
  pg_namespace : string; pg_name : string; pg_version : string; pg_digest : string; pg_author : string; pg_description : string;
  pg_license : string; pg_publishedAt : string; pg_downloads : Z; pg_trust : TrustLevel; pg_reviewStatus : string;
  pg_securityStatus : string; pg_yanked : bool; pg_blocked : option string; pg_signerFingerprint : option string;
}.

(** @src sdk/src/registry.ts SecurityDiffField *)
Record SecurityDiffField := mkDiffField { df_field : string; df_previous : option string; df_current : option string }.

(** @src sdk/src/registry.ts SecurityDiff *)
Record SecurityDiff := mkDiff {
  sd_fields : list SecurityDiffField; sd_addedPermissions : list string; sd_removedPermissions : list string;
  sd_addedSecrets : list string; sd_removedSecrets : list string;
}.

(** @src sdk/src/registry.ts ReviewEventItem *)
Record ReviewEventItem := mkReviewEvent {
  re_action : string; re_reason : string; re_notes : option string; re_reviewer : string; re_createdAt : string;
  re_digest : string; re_signerFingerprint : option string;
}.

(** @src sdk/src/registry.ts VersionIdentity *)
Record VersionIdentity := mkIdentity {
  vi_namespace : string; vi_name : string; vi_version : string; vi_digest : string; vi_signerFingerprint : option string;
  vi_publishedAt : string; vi_publishedBy : string; vi_downloadCount : Z; vi_trust : TrustLevel; vi_reviewStatus : string;
  vi_reviewReason : option string; vi_securityStatus : string; vi_securityFindings : list string; vi_yanked : bool;
  vi_blocked : bool; vi_blockedReason : option string;
}.

(** Values the client does not read are kept as the JSON text of each field.
    @src sdk/src/registry.ts VersionIdentityDetail *)
Record VersionIdentityDetail := mkIdentityDetail {
  vid_identity : VersionIdentity; vid_manifest : obj string; vid_securityDiff : SecurityDiff; vid_reviewHistory : list ReviewEventItem;
}.

(** @src sdk/src/registry.ts ActivityItem *)
Record ActivityItem := mkActivity { ai_action : string; ai_detail : obj string; ai_createdAt : string }.

(** @src sdk/src/registry.ts ReviewQueueItem *)
Record ReviewQueueItem := mkQueueItem {
  rq_id : Z; rq_namespace : string; rq_name : string; rq_version : string; rq_digest : string; rq_publishedAt : string;
  rq_publisher : string; rq_signerFingerprint : option string; rq_reviewStatus : string; rq_securityStatus : string;
  rq_riskScore : Z; rq_permissions : list string; rq_secrets : list string; rq_downloads : Z;
}.

(** @src sdk/src/registry.ts 226-226 ReviewAction *)
Inductive ReviewAction := ra_verify | ra_warning | ra_reject | ra_revoke | ra_request.

Definition action_name (a : ReviewAction) : string :=
  match a with ra_verify => "verify" | ra_warning => "warning" | ra_reject => "reject" | ra_revoke => "revoke" | ra_request => "request" end.

Record Me := mkMe { me_username : string; me_role : string; me_status : string; me_publicKeys : list SignerKey }.

Record PublishReply := mkPublish { pr_security : string; pr_findings : list string }.

(** The kinds of answers, by the type the client reads the JSON as. *)
Inductive kind :=
| k_agents | k_catalog | k_agent | k_version | k_versions | k_download_url | k_archive | k_publish | k_scan
| k_revocations | k_me | k_ignored | k_token | k_device_start | k_device_token | k_sessions | k_agreements
| k_overview | k_namespaces | k_packages | k_identity | k_activity | k_queue | k_review.

Definition answer_type (k : kind) : Type :=
  match k with
  | k_agents => list AgentSummary
  | k_catalog => CatalogPage
  | k_agent => AgentSummary
  | k_version => AgentVersionDetail
  | k_versions => list string
  | k_download_url => string * Z * string
  | k_archive | k_scan | k_ignored => unit
  | k_publish => PublishReply
  | k_revocations => list RevocationItem
  | k_me => Me
  | k_token => string
  | k_device_start => DeviceLoginStart
  | k_device_token => DeviceTokenResult
  | k_sessions => list SessionInfo
  | k_agreements => AgreementsInfo
  | k_overview => PublisherOverview
  | k_namespaces => list PublisherNamespace
  | k_packages => list PackageSummary
  | k_identity => VersionIdentityDetail
  | k_activity => list ActivityItem
  | k_queue => list ReviewQueueItem
  | k_review => string
  end.

(** ** Requests and responses *)

Inductive json_field := jf_string (s : string) | jf_bool (b : bool).

Inductive RequestBody :=
| rb_none
| rb_json (fields : obj json_field)
| rb_archive (archive : string) (filename : string) (signature : SignatureFile).

Record Request := mkRequest { rq_method : string; rq_url : string; rq_headers : obj string; rq_body : RequestBody }.

(** What reading a response body yields, in order. *)
Inductive read_event := rd_chunk (bytes : string) | rd_fail (e : jserror).

(** The [detail] of an error body. *)
Inductive error_detail := ed_none | ed_text (s : string) | ed_list (l : list string).

(** [rs_error] is [None] when the error body is no JSON object. *)
Record Response (T : Type) := mkResponse {
  rs_status : Z;
  rs_statusText : string;
  rs_json : result T;
  rs_error : option error_detail;
  rs_body : option (list read_event);
}.
Arguments mkResponse {T}. Arguments rs_status {T}. Arguments rs_statusText {T}. Arguments rs_json {T}.
Arguments rs_error {T}. Arguments rs_body {T}.

(** [Response.ok] *)
Definition res_ok {T} (r : Response T) : bool := (200 <=? rs_status r) && (rs_status r <=? 299).

(** ** URLs.  A string holds the UTF-8 bytes of its text. *)

Definition hex_upper (n : nat) : ascii := ascii_of_nat (if (n <? 10)%nat then 48 + n else 55 + n).
Definition percent (c : ascii) : string :=
  String "%" (String (hex_upper (nat_of_ascii c / 16)) (String (hex_upper (nat_of_ascii c mod 16)) "")).

Definition is_alnum (c : ascii) : bool := is_digit c || is_lower c || is_upper c.
Definition uri_unreserved (c : ascii) : bool := is_alnum c || js_has_char c "-_.!~*'()".
Definition encodeURIComponent : string -> string := js_flat_map (fun c => if uri_unreserved c then str1 c else percent c).

(** [URLSearchParams.toString] *)
Definition form_char (c : ascii) : string :=
  if is_alnum c || js_has_char c "*-._" then str1 c else if Ascii.eqb c " " then "+" else percent c.
Definition urlSearchParams (params : list (string * string)) : string :=
  js_join "&" (map (fun kv => js_flat_map form_char (fst kv) +:+ "=" +:+ js_flat_map form_char (snd kv)) params).

(** [if (v) params.set(k, v)] *)
Definition param (k : string) (v : option string) : list (string * string) :=
  if truthy v then [(k, nullish v "")] else [].
Definition param_num (k : string) (v : option Z) : list (string * string) :=
  match v with Some n => if n =? 0 then [] else [(k, pretty n)] | None => [] end.

Definition segment (ns nm : string) : string :=
  "/api/v1/agents/" +:+ encodeURIComponent ns +:+ "/" +:+ encodeURIComponent nm.
Definition version_segment (ns nm v : string) : string := segment ns nm +:+ "/versions/" +:+ encodeURIComponent v.

(** ** The client *)

(** @src sdk/src/registry.ts MAX_DOWNLOAD_BYTES *)
Definition MAX_DOWNLOAD_BYTES : Z := 250 * 1024 * 1024.

Section client.
(** [Throw] is a rejected [fetch]: no connection, or the timeout. *)
Context (fetch : forall k : kind, list Request -> Request -> result (Response (answer_type k))).
Context (baseUrl : string) (token : option string).

Definition auth_header : obj string := if truthy token then [("Authorization", "Bearer " +:+ nullish token "")] else [].

Definition send (k : kind) (rq : Request) : tr Request (Response (answer_type k)) := act rq (fun h => fetch k h rq).

Definition error_text {T} (r : Response T) : string :=
  match rs_error r with
  | Some (ed_text s) => s
  | Some (ed_list l) => js_join "; " l
  | _ => rs_statusText r
  end.

(** @src sdk/src/registry.ts request *)
Definition request (k : kind) (path : string) (method : string) (headers : obj string) (body : RequestBody)
    : tr Request (Response (answer_type k)) :=
  let headers := obj_merge (("Accept", "application/json") :: auth_header) headers in
  res ← send k (mkRequest method (baseUrl +:+ path) headers body);
  if res_ok res then mret res
  else tr_throw (ERegistry (Some (rs_status res))) (pretty (rs_status res) +:+ " " +:+ path +:+ ": " +:+ error_text res).

Definition json_headers : obj string := [("Content-Type", "application/json")].

(** [this.request(path)] and reading the body. *)
Definition get_json (k : kind) (path : string) : tr Request (answer_type k) :=
  res ← request k path "GET" [] rb_none; tr_lift (rs_json res).
Definition post_json (k : kind) (path : string) (fields : obj json_field) : tr Request (answer_type k) :=
  res ← request k path "POST" json_headers (rb_json fields); tr_lift (rs_json res).
Definition discard (k : kind) (path method : string) : tr Request unit :=
  _ ← request k path method [] rb_none; mret tt.

(** @src sdk/src/registry.ts search *)
Definition search (o : SearchOptions) : tr Request (list AgentSummary) :=
  get_json k_agents ("/api/v1/agents?" +:+ urlSearchParams
    (param "q" (so_q o) ++ param "framework" (so_framework o) ++ param "tags" (so_tags o) ++ param "models" (so_models o)
     ++ param "sort" (so_sort o) ++ param_num "limit" (so_limit o) ++ param_num "offset" (so_offset o))).

(** @src sdk/src/registry.ts catalog *)
Definition catalog (o : CatalogOptions) : tr Request CatalogPage :=
  get_json k_catalog ("/api/v1/catalog?" +:+ urlSearchParams
    (param "q" (co_q o) ++ param "framework" (co_framework o) ++ param "models" (co_models o) ++ param "tags" (co_tags o)
     ++ param "review_status" (co_reviewStatus o) ++ param "security_status" (co_securityStatus o)
     ++ param "permission" (co_permission o) ++ param "runtime" (co_runtime o)
     ++ param "publisher_status" (co_publisherStatus o) ++ param "cursor" (co_cursor o) ++ param_num "limit" (co_limit o))).

(** @src sdk/src/registry.ts 297-300 get *)
Definition getAgent (ns nm : string) : tr Request AgentSummary := get_json k_agent (segment ns nm).

(** @src sdk/src/registry.ts getVersion *)
Definition getVersion (ns nm v : string) : tr Request AgentVersionDetail := get_json k_version (version_segment ns nm v).

(** @src sdk/src/registry.ts listVersions *)
Definition listVersions (ns nm : string) : tr Request (list string) := get_json k_versions (segment ns nm +:+ "/versions").

(** @src sdk/src/registry.ts getDownloadUrl *)
Definition getDownloadUrl (ns nm v : string) : tr Request (string * Z * string) :=
  res ← request k_download_url (version_segment ns nm v +:+ "/download-url") "POST" [] rb_none; tr_lift (rs_json res).

(** The loop over the chunks of the body.
    @src sdk/src/registry.ts 340-349 downloadArchive *)
Fixpoint read_chunks (total : Z) (evs : list read_event) : result (list string) :=
  match evs with
  | [] => Ok []
  | rd_fail e :: _ => Throw e
  | rd_chunk c :: rest =>
      let total := total + Z.of_nat (String.length c) in
      if MAX_DOWNLOAD_BYTES <? total then throw (ERegistry (Some 413)) "archive exceeds download limit"
      else (chunks ← read_chunks total rest; mret (c :: chunks))
  end.

(** @src sdk/src/registry.ts downloadArchive *)
Definition downloadArchive (ns nm v : string) : tr Request (string * string * SignatureFile) :=
  detail ← getVersion ns nm v;
  match vd_signature detail with
  | None => tr_throw (ERegistry (Some 409)) "version has no published signature"
  | Some sig =>
      '(url, headers) ←
        (if truthy token then ('(signed, _, _) ← getDownloadUrl ns nm v; mret (signed, []))
         else mret (baseUrl +:+ version_segment ns nm v +:+ "/archive", [("Accept", "application/octet-stream")]));
      res ← send k_archive (mkRequest "GET" url headers rb_none);
      if negb (res_ok res) then
        tr_throw (ERegistry (Some (rs_status res))) ("download failed: " +:+ pretty (rs_status res))
      else match rs_body res with
      | None => tr_throw (ERegistry (Some 500)) "empty download"
      | Some evs =>
          chunks ← tr_lift (read_chunks 0 evs);
          mret (js_join "" chunks, sig_sha256 sig, sig)
      end
  end.

(** @src sdk/src/registry.ts 356-371 publish *)
Definition publish (ns nm v archive : string) (sig : SignatureFile) : tr Request PublishReply :=
  res ← request k_publish (version_segment ns nm v) "PUT" [] (rb_archive archive (nm +:+ "-" +:+ v +:+ ".ahb") sig);
  tr_lift (rs_json res).

(** @src sdk/src/registry.ts triggerScan *)
Definition triggerScan (ns nm v : string) : tr Request unit := discard k_scan (version_segment ns nm v +:+ "/scan") "POST".

(** @src sdk/src/registry.ts getRevocations *)
Definition getRevocations : tr Request (list RevocationItem) := get_json k_revocations "/api/v1/revocations".

(** @src sdk/src/registry.ts 386-411 me *)
Definition me : tr Request Me := get_json k_me "/api/v1/me".

(** @src sdk/src/registry.ts revokePublicKey *)
Definition revokePublicKey (keyId : Z) : tr Request unit := discard k_ignored ("/api/v1/keys/" +:+ pretty keyId) "DELETE".

(** @src sdk/src/registry.ts uploadPublicKey *)
Definition uploadPublicKey (pem : string) (label expiresAt : option string) : tr Request unit :=
  post_json k_ignored "/api/v1/keys"
    (("publicKey", jf_string pem) :: omap (fun kv => (fun v => (fst kv, jf_string v)) <$> snd kv)
       [("label", label); ("expiresAt", expiresAt)]).

(** @src sdk/src/registry.ts exchangeGitHubToken *)
Definition exchangeGitHubToken (code : string) : tr Request string :=
  post_json k_token "/api/v1/auth/github" [("code", jf_string code)].

(** @src sdk/src/registry.ts startDeviceLogin *)
Definition startDeviceLogin (clientName : string) : tr Request DeviceLoginStart :=
  post_json k_device_start "/api/v1/auth/devices" [("clientName", jf_string clientName)].

(** [s.split(": ").pop()]: what follows the last [": "]. *)
Fixpoint after_last_colon (s : string) : option string :=
  match s with
  | EmptyString => None
  | String c s' =>
      match after_last_colon s' with
      | Some t => Some t
      | None => if Ascii.eqb c ":" && js_startsWith s' " " then Some (js_drop 1 s') else None
      end
  end.

(** A status of 400 becomes the pending error, whatever its detail.
    @src sdk/src/registry.ts pollDeviceToken *)
Definition pollDeviceToken (deviceCode : string) : tr Request DeviceTokenResult :=
  res ← tr_catch
    (request k_device_token "/api/v1/auth/devices/token" "POST" json_headers
       (rb_json [("deviceCode", jf_string deviceCode)]))
    (fun err => match err_class err with
       | ERegistry (Some 400) => tr_throw EDeviceAuthPending (nullish (after_last_colon (err_message err)) (err_message err))
       | _ => tr_lift (Throw err)
       end);
  tr_lift (rs_json res).

(** @src sdk/src/registry.ts mySessions *)
Definition mySessions : tr Request (list SessionInfo) := get_json k_sessions "/api/v1/sessions".

(** @src sdk/src/registry.ts revokeSession *)
Definition revokeSession (id : Z) : tr Request unit := discard k_ignored ("/api/v1/sessions/" +:+ pretty id) "DELETE".

(** @src sdk/src/registry.ts logoutMe *)
Definition logoutMe : tr Request unit := discard k_ignored "/api/v1/sessions/me" "DELETE".

(** @src sdk/src/registry.ts myAgreements *)
Definition myAgreements : tr Request AgreementsInfo := get_json k_agreements "/api/v1/me/agreements".

(** @src sdk/src/registry.ts acceptAgreements *)
Definition acceptAgreements (tos privacy publisher : bool) : tr Request AgreementsInfo :=
  post_json k_agreements "/api/v1/me/agreements"
    [("tos", jf_bool tos); ("privacy", jf_bool privacy); ("publisher", jf_bool publisher)].

(** @src sdk/src/registry.ts logout *)
Definition logout : tr Request unit := discard k_ignored "/api/v1/logout" "POST".

(** @src sdk/src/registry.ts publisherOverview *)
Definition publisherOverview : tr Request PublisherOverview := get_json k_overview "/api/v1/me/overview".

(** @src sdk/src/registry.ts publisherNamespaces *)
Definition publisherNamespaces : tr Request (list PublisherNamespace) := get_json k_namespaces "/api/v1/me/namespaces".

(** @src sdk/src/registry.ts publisherPackages *)
Definition publisherPackages : tr Request (list PackageSummary) := get_json k_packages "/api/v1/me/packages".

(** @src sdk/src/registry.ts versionIdentity *)
Definition versionIdentity (ns nm v : string) : tr Request VersionIdentityDetail :=
  get_json k_identity
    ("/api/v1/me/packages/" +:+ encodeURIComponent ns +:+ "/" +:+ encodeURIComponent nm +:+ "/versions/" +:+ encodeURIComponent v).

(** @src sdk/src/registry.ts publisherActivity *)
Definition publisherActivity : tr Request (list ActivityItem) := get_json k_activity "/api/v1/me/activity".

(** @src sdk/src/registry.ts reviewQueue *)
Definition reviewQueue : tr Request (list ReviewQueueItem) := get_json k_queue "/api/v1/admin/review-queue".

(** @src sdk/src/registry.ts 528-545 reviewVersion *)
Definition reviewVersion (ns nm v : string) (action : ReviewAction) (reason : string) (notes : option string) : tr Request string :=
  post_json k_review
    ("/api/v1/admin/agents/" +:+ encodeURIComponent ns +:+ "/" +:+ encodeURIComponent nm +:+ "/versions/"
       +:+ encodeURIComponent v +:+ "/review")
    ([("action", jf_string (action_name action)); ("reason", jf_string reason)]
     ++ match notes with Some n => [("notes", jf_string n)] | None => [] end).

(** Every method of the class. *)
Inductive call :=
| c_search (o : SearchOptions) | c_catalog (o : CatalogOptions) | c_get (ns nm : string) | c_getVersion (ns nm v : string)
| c_listVersions (ns nm : string) | c_getDownloadUrl (ns nm v : string) | c_downloadArchive (ns nm v : string)
| c_publish (ns nm v archive : string) (sig : SignatureFile) | c_triggerScan (ns nm v : string) | c_getRevocations | c_me
| c_revokePublicKey (id : Z) | c_uploadPublicKey (pem : string) (label expiresAt : option string)
| c_exchangeGitHubToken (code : string) | c_startDeviceLogin (name : string) | c_pollDeviceToken (code : string)
| c_mySessions | c_revokeSession (id : Z) | c_logoutMe | c_myAgreements | c_acceptAgreements (t p q : bool) | c_logout
| c_publisherOverview | c_publisherNamespaces | c_publisherPackages | c_versionIdentity (ns nm v : string) | c_publisherActivity
| c_reviewQueue | c_reviewVersion (ns nm v : string) (action : ReviewAction) (reason : string) (notes : option string).

Definition ignore_result {A} (m : tr Request A) : tr Request unit := _ ← m; mret tt.

Definition perform (c : call) : tr Request unit :=
  match c with
  | c_search o => ignore_result (search o)
  | c_catalog o => ignore_result (catalog o)
  | c_get ns nm => ignore_result (getAgent ns nm)
  | c_getVersion ns nm v => ignore_result (getVersion ns nm v)
  | c_listVersions ns nm => ignore_result (listVersions ns nm)
  | c_getDownloadUrl ns nm v => ignore_result (getDownloadUrl ns nm v)
  | c_downloadArchive ns nm v => ignore_result (downloadArchive ns nm v)
  | c_publish ns nm v a s => ignore_result (publish ns nm v a s)
  | c_triggerScan ns nm v => triggerScan ns nm v
  | c_getRevocations => ignore_result getRevocations
  | c_me => ignore_result me
  | c_revokePublicKey id => revokePublicKey id
  | c_uploadPublicKey p l e => uploadPublicKey p l e
  | c_exchangeGitHubToken c => ignore_result (exchangeGitHubToken c)
  | c_startDeviceLogin n => ignore_result (startDeviceLogin n)
  | c_pollDeviceToken c => ignore_result (pollDeviceToken c)
  | c_mySessions => ignore_result mySessions
  | c_revokeSession id => revokeSession id
  | c_logoutMe => logoutMe
  | c_myAgreements => ignore_result myAgreements
  | c_acceptAgreements t p q => ignore_result (acceptAgreements t p q)
  | c_logout => logout
  | c_publisherOverview => ignore_result publisherOverview
  | c_publisherNamespaces => ignore_result publisherNamespaces
  | c_publisherPackages => ignore_result publisherPackages
  | c_versionIdentity ns nm v => ignore_result (versionIdentity ns nm v)
  | c_publisherActivity => ignore_result publisherActivity
  | c_reviewQueue => ignore_result reviewQueue
  | c_reviewVersion ns nm v a r n => ignore_result (reviewVersion ns nm v a r n)
  end.

(** ** Properties *)

(** A call sends one request. *)
Definition the_request (path method : string) (headers : obj string) (body : RequestBody) : Request :=
  mkRequest method (baseUrl +:+ path) (obj_merge (("Accept", "application/json") :: auth_header) headers) body.

Lemma request_run k path method headers body h :
  (request k path method headers body h).1 = h ++ [the_request path method headers body].
Proof. unfold request. apply bind_quiet; [done|]. intros r h'. by destruct (res_ok r). Qed.

Lemma pollDeviceToken_run code h :
  (pollDeviceToken code h).1 =
  h ++ [the_request "/api/v1/auth/devices/token" "POST" json_headers (rb_json [("deviceCode", jf_string code)])].
Proof.
  unfold pollDeviceToken. apply bind_quiet; [|done]. apply catch_quiet; [apply request_run|].
  intros e h'. by repeat case_match.
Qed.

(** A request that goes below [baseUrl], or carries no header at all. *)
Definition well_addressed (rq : Request) : Prop :=
  (exists path, rq_url rq = baseUrl +:+ "/api/v1/" +:+ path) \/ rq_headers rq = [].

Lemma appends_send k rq : well_addressed rq -> appends well_addressed (send k rq).
Proof. apply appends_act. Qed.

Lemma appends_request k path method headers body :
  js_startsWith path "/api/v1/" = true -> appends well_addressed (request k path method headers body).
Proof.
  intros [p ->]%startsWith_spec. unfold request. apply appends_bind; [apply appends_send; left; by exists p|].
  intros res. destruct (res_ok res); auto with trace.
Qed.

Lemma appends_get k path : js_startsWith path "/api/v1/" = true -> appends well_addressed (get_json k path).
Proof. intros Hp. apply appends_bind; [by apply appends_request|auto with trace]. Qed.
Lemma appends_post k path fields : js_startsWith path "/api/v1/" = true -> appends well_addressed (post_json k path fields).
Proof. intros Hp. apply appends_bind; [by apply appends_request|auto with trace]. Qed.
Lemma appends_discard k path method : js_startsWith path "/api/v1/" = true -> appends well_addressed (discard k path method).
Proof. intros Hp. apply appends_bind; [by apply appends_request|auto with trace]. Qed.

Lemma appends_ignore {A} (m : tr Request A) : appends well_addressed m -> appends well_addressed (ignore_result m).
Proof. intros H. apply appends_bind; auto with trace. Qed.

Lemma appends_downloadUrl ns nm v : appends well_addressed (getDownloadUrl ns nm v).
Proof.
  apply appends_bind; [by apply (appends_request k_download_url (version_segment ns nm v +:+ "/download-url"))|].
  auto with trace.
Qed.

Lemma appends_download ns nm v : appends well_addressed (downloadArchive ns nm v).
Proof.
  unfold downloadArchive.
  apply appends_bind; [by apply (appends_get k_version (version_segment ns nm v))|].
  intros detail. destruct (vd_signature detail) as [sig|]; [|auto with trace].
  assert (Hrest : forall url headers, well_addressed (mkRequest "GET" url headers rb_none) ->
    appends well_addressed (res ← send k_archive (mkRequest "GET" url headers rb_none);
      if negb (res_ok res) then
        tr_throw (ERegistry (Some (rs_status res))) ("download failed: " +:+ pretty (rs_status res))
      else match rs_body res with
      | None => tr_throw (ERegistry (Some 500)) "empty download"
      | Some evs => chunks ← tr_lift (read_chunks 0 evs); mret (js_join "" chunks, sig_sha256 sig, sig)
      end : tr Request (string * string * SignatureFile))).
  { intros url headers Hw. apply appends_bind; [by apply appends_send|]. intros res.
    destruct (negb (res_ok res)); [auto with trace|]. destruct (rs_body res); auto with trace. }
  destruct (truthy token) eqn:E.
  - assert (Hh : forall h, exists l, ((('(url, headers) ← ('(signed, _, _) ← getDownloadUrl ns nm v; mret (signed, []));
        res ← send k_archive (mkRequest "GET" url headers rb_none);
        if negb (res_ok res) then
          tr_throw (ERegistry (Some (rs_status res))) ("download failed: " +:+ pretty (rs_status res))
        else match rs_body res with
        | None => tr_throw (ERegistry (Some 500)) "empty download"
        | Some evs => chunks ← tr_lift (read_chunks 0 evs); mret (js_join "" chunks, sig_sha256 sig, sig)
        end) : tr Request (string * string * SignatureFile)) h).1 = h ++ l /\ Forall well_addressed l); [|exact Hh].
    intros h. rewrite !tr_bind_run. destruct (appends_downloadUrl ns nm v h) as (l & Hl & HP).
    destruct (getDownloadUrl ns nm v h) as [h1 [[[signed x] y]|e]]; cbn in Hl |- *; [|by exists l].
    destruct (Hrest signed [] (or_intror eq_refl) h1) as (l' & Hl' & HP'). exists (l ++ l').
    split; [|by apply Forall_app]. rewrite app_assoc, <- Hl. exact Hl'.
  - intros h. apply Hrest. left. by exists (js_drop 8 (version_segment ns nm v +:+ "/archive")).
Qed.

Ltac unfold_calls :=
  cbv delta [search catalog getAgent getVersion listVersions publish triggerScan getRevocations me revokePublicKey
    uploadPublicKey exchangeGitHubToken startDeviceLogin mySessions revokeSession logoutMe myAgreements acceptAgreements
    logout publisherOverview publisherNamespaces publisherPackages versionIdentity publisherActivity reviewQueue reviewVersion] beta.

Ltac solve_sent :=
  try lazymatch goal with
  | |- appends _ (get_json ?k ?p) => apply (appends_get k p); reflexivity
  | |- appends _ (post_json ?k ?p ?f) => apply (appends_post k p f); reflexivity
  | |- appends _ (discard ?k ?p ?m) => apply (appends_discard k p m); reflexivity
  | |- appends _ (request ?k ?p ?m ?h ?b) => apply (appends_request k p m h b); reflexivity
  | |- appends _ (downloadArchive _ _ _) => apply appends_download
  | |- appends _ (getDownloadUrl _ _ _) => apply appends_downloadUrl
  end.

(** C15: The access token is sent to the registry only: whatever method of the client
    is called and whatever the registry answers, each request goes below
    [baseUrl/api/v1/] or carries no header, the latter being the download from the
    signed address a server chose. *)
Theorem registry_token_stays c h :
  exists l, (perform c h).1 = h ++ l /\ Forall well_addressed l.
Proof.
  revert h. change (appends well_addressed (perform c)).
  destruct c; cbn [perform]; try apply appends_ignore;
    unfold_calls;
    solve_sent; try (apply appends_bind; [solve_sent|auto with trace]).
  - apply appends_catch; [solve_sent|].
    intros e. repeat case_match; auto with trace.
Qed.
End client.
(** *** Addresses *)

Definition hex_value (c : ascii) : nat :=
  let n := nat_of_ascii c in if (n <? 58)%nat then n - 48 else n - 55.

Fixpoint decodeURIComponent (s : string) : string :=
  match s with
  | EmptyString => EmptyString
  | String c s' =>
      if Ascii.eqb c "%" then
        match s' with
        | String a (String b rest) => String (ascii_of_nat (hex_value a * 16 + hex_value b)) (decodeURIComponent rest)
        | _ => s
        end
      else String c (decodeURIComponent s')
  end.

Lemma percent_decode c s : decodeURIComponent (percent c +:+ s) = String c (decodeURIComponent s).
Proof.
  cbn [percent decodeURIComponent String.append]. rewrite Ascii.eqb_refl. f_equal.
  by destruct c as [[] [] [] [] [] [] [] []].
Qed.

Lemma encode_cons c s :
  encodeURIComponent (String c s) = (if uri_unreserved c then str1 c else percent c) +:+ encodeURIComponent s.
Proof. done. Qed.

Lemma decode_encode s : decodeURIComponent (encodeURIComponent s) = s.
Proof.
  induction s as [|c s IH]; [done|]. rewrite encode_cons.
  destruct (uri_unreserved c) eqn:E; [|by rewrite percent_decode, IH].
  unfold str1. cbn [String.append decodeURIComponent]. rewrite IH.
  destruct (Ascii.eqb_spec c "%") as [->|]; [by vm_compute in E|done].
Qed.

Lemma encode_inj s t : encodeURIComponent s = encodeURIComponent t <-> s = t.
Proof. split; [|by intros ->]. intros H. by rewrite <- (decode_encode s), H, decode_encode. Qed.

(** The characters that structure a URL are encoded. *)
Lemma encode_no_sep d s : (d = "/" \/ d = "?" \/ d = "#")%char -> js_has_char d (encodeURIComponent s) = false.
Proof.
  intros Hd. induction s as [|c s IH]; [done|]. rewrite encode_cons, has_char_app, IH, orb_false_r. by destruct Hd as [->|[->| ->]]; destruct c as [[] [] [] [] [] [] [] []].
Qed.

Lemma version_segments ns nm v :
  js_split "/" (version_segment ns nm v) =
    [""; "api"; "v1"; "agents"; encodeURIComponent ns; encodeURIComponent nm; "versions"; encodeURIComponent v].
Proof.
  rewrite <- (split_join "/" [""; "api"; "v1"; "agents"; encodeURIComponent ns; encodeURIComponent nm; "versions"; encodeURIComponent v]).
  - f_equal. unfold version_segment, segment. cbn. by rewrite !sapp_assoc.
  - done.
  - repeat constructor; try done; apply encode_no_sep; auto.
Qed.

(** A version's address determines its namespace, name and version, whatever
    characters they hold: each is one path segment of its own, and nothing of them
    can start a query or a fragment. *)
Theorem version_url_injective ns nm v ns' nm' v' :
  js_split "/" (version_segment ns nm v) =
    [""; "api"; "v1"; "agents"; encodeURIComponent ns; encodeURIComponent nm; "versions"; encodeURIComponent v] /\
  (version_segment ns nm v = version_segment ns' nm' v' <-> (ns, nm, v) = (ns', nm', v')) /\
  js_has_char "?" (version_segment ns nm v) = false /\ js_has_char "#" (version_segment ns nm v) = false.
Proof.
  split; [apply version_segments|]. split.
  - split; [|by intros [= -> -> ->]]. intros H. apply (f_equal (js_split "/")) in H. rewrite !version_segments in H.
    injection H as H1 H2 H3. by apply encode_inj in H1 as ->, H2 as ->, H3 as ->.
  - unfold version_segment, segment. rewrite !has_char_app, !encode_no_sep by auto. done.
Qed.

(** *** Downloads *)

Definition total_length (l : list string) : Z := fold_right (fun c n => Z.of_nat (String.length c) + n) 0 l.

Lemma total_cons c l : total_length (c :: l) = Z.of_nat (String.length c) + total_length l.
Proof. done. Qed.

Lemma join_length l : Z.of_nat (String.length (js_join "" l)) = total_length l.
Proof.
  induction l as [|c l IH]; [done|]. destruct l as [|d l]; [cbn; lia|].
  change (js_join "" (c :: d :: l)) with (c +:+ js_join "" (d :: l)). rewrite slength_app, Nat2Z.inj_add, IH. done.
Qed.

(** Reading stops at the first chunk that passes the limit, or at a failure. *)
Lemma read_chunks_spec t evs :
  t <= MAX_DOWNLOAD_BYTES ->
  match read_chunks t evs with
  | Ok l => evs = map rd_chunk l /\ t + total_length l <= MAX_DOWNLOAD_BYTES
  | Throw e => exists l ev rest, evs = map rd_chunk l ++ ev :: rest /\ t + total_length l <= MAX_DOWNLOAD_BYTES /\
      match ev with
      | rd_fail e' => e = e'
      | rd_chunk c => MAX_DOWNLOAD_BYTES < t + total_length (l ++ [c]) /\ err_class e = ERegistry (Some 413)
      end
  end.
Proof.
  revert t. induction evs as [|ev evs IH]; intros t Ht; [split; [done|cbn; lia]|].
  destruct ev as [c|e]; cbn [read_chunks].
  - destruct (Z.ltb_spec MAX_DOWNLOAD_BYTES (t + Z.of_nat (String.length c))) as [Hlt|Hle].
    + cbn [throw]. exists [], (rd_chunk c), evs. split_and!; [done|cbn; lia|cbn; lia|done].
    + specialize (IH _ Hle). cbn [mbind result_mbind result_bind].
      destruct (read_chunks _ evs) as [l|e]; cbn [mret result_mret].
      * destruct IH as [-> IH]. split; [done|rewrite total_cons; lia].
      * destruct IH as (l & ev & rest & -> & Hl & Hev). exists (c :: l), ev, rest.
        split_and!; [done|rewrite total_cons; lia|]. destruct ev; [|done]. split; [|by apply Hev].
        cbn [app]. rewrite total_cons. lia.
  - exists [], (rd_fail e), evs. split_and!; [done|cbn; lia|done].
Qed.
(** C16: A download that succeeds is everything the server sent for one request,
    which carried no header when a token is held, and at most 250 MiB; its digest
    and signature are those the registry lists for the version. *)
Theorem downloadArchive_bounded fetch baseUrl token ns nm v h h' buffer sha sig :
  downloadArchive fetch baseUrl token ns nm v h = (h', Ok (buffer, sha, sig)) ->
  sha = sig_sha256 sig /\ Z.of_nat (String.length buffer) <= MAX_DOWNLOAD_BYTES /\
  exists h1 rq res chunks, h' = h1 ++ [rq] /\ fetch k_archive h1 rq = Ok res /\ res_ok res = true /\
    rs_body res = Some (map rd_chunk chunks) /\ buffer = js_join "" chunks /\ (truthy token = true -> rq_headers rq = []).
Proof.
  unfold downloadArchive. intros H. tr_inv H as detail Hd. destruct (vd_signature detail) as [sg|]; [|done].
  tr_inv H as [url headers] Hu. tr_inv H as res Hs.
  destruct (res_ok res) eqn:Ho; [|done]. cbn [negb] in H. destruct (rs_body res) as [evs|] eqn:Hb; [|done].
  tr_inv H as chunks Hc. apply tr_lift_ok in Hc as [Hc ->]. apply tr_ret_ok in H as [[= <- <- <-] ->].
  pose proof (read_chunks_spec 0 evs ltac:(by vm_compute)) as Hr. rewrite Hc in Hr. destruct Hr as [-> Hl].
  split_and!; [done|rewrite join_length; lia|]. injection Hs as <- Hf.
  eexists _, _, res, chunks. split_and!; [done..|]. intros Ht. rewrite Ht in Hu.
  tr_inv Hu as [[signed expires] ver] Hsd. by apply tr_ret_ok in Hu as [[= _ <-] _].
Qed.

(** ** A registry that serves one version. *)
Section demo.
Context (detail : AgentVersionDetail) (archive : string) (revocations : list RevocationItem).

Definition replied {T} (t : T) : result (Response T) := Ok (mkResponse 200 "OK" (Ok t) None (Some [rd_chunk archive])).

Definition demo_fetch (k : kind) (h : list Request) (rq : Request) : result (Response (answer_type k)) :=
  match k with
  | k_version => replied detail
  | k_download_url => replied ("https://storage/x", 60, "1.0.0")
  | k_archive => replied tt
  | k_revocations => replied revocations
  | k_device_start => replied (mkDeviceStart "dev" "CODE" "https://v" 20 5)
  | _ => Throw (JsError EType "fetch failed")
  end.
End demo.
(** [demo_manifest] published by the holder of the key [K]. *)
Definition demo_signature (nm v archive : string) : SignatureFile :=
  mkSig 1 "ed25519" "pubK" "sha:K" ("sha:" +:+ archive) nm v ("K" +:+ signaturePayload nm v ("sha:" +:+ archive)).

Definition demo_detail (sig : SignatureFile) (review : option string) : AgentVersionDetail :=
  mkDetail "acme/echo" "1.0.0" "me" "d" demo_manifest "2026-01-01" 3 (Some trusted) (Some sig) None None None review None None.

Lemma downloadArchive_bounded_witness :
  let sig := demo_signature "acme/echo" "1.0.0" "bytes" in
  "sha:bytes" = sig_sha256 sig /\ 5 <= MAX_DOWNLOAD_BYTES.
Proof.
  destruct (downloadArchive_bounded (demo_fetch (demo_detail (demo_signature "acme/echo" "1.0.0" "bytes") None) "bytes" [])
    "https://r" (Some "tok") "acme" "echo" "1.0.0" []
    (downloadArchive (demo_fetch (demo_detail (demo_signature "acme/echo" "1.0.0" "bytes") None) "bytes" [])
       "https://r" (Some "tok") "acme" "echo" "1.0.0" []).1
    "bytes" "sha:bytes" (demo_signature "acme/echo" "1.0.0" "bytes")) as (H1 & H2 & _).
  - vm_compute. reflexivity.
  - split; [exact H1|exact H2].
Defined.
End Registry.
