(* ===== verification/Installer.v ===== *)
(** Installing an agent: [cli/src/lib/installer.ts] and [cli/src/lib/prompt.ts].
    [installAgent] resolves a package from the registry, an archive or a directory,
    checks it, asks for the permissions, replaces the agent's directory and records
    the installation; what it does to the outside is the trace of the [tr] monad. *)
From S2P Require Import Prelude Fs NodePath Trace Manifest Package Versions Requirements Policy Config Secrets Registry.

Module Installer.
Import Trace Package Requirements Config Secrets Manifest.
Local Open Scope Z_scope.

(** ** Specs *)

(** @src cli/src/lib/run-agent.ts ParsedSpec *)
Record ParsedSpec := mkParsed { sp_namespace : string; sp_name : string; sp_version : option string }.

Definition spec_edge (c : ascii) : bool := is_lower c || is_digit c.
Definition ns_char (c : ascii) : bool := spec_edge c || Ascii.eqb c "-".
Definition name_char (c : ascii) : bool := ns_char c || Ascii.eqb c "_".

Fixpoint str_last (s : string) : option ascii :=
  match s with EmptyString => None | String c EmptyString => Some c | String _ s' => str_last s' end.

(** [[a-z0-9] f* [a-z0-9]] *)
Definition spec_part (f : ascii -> bool) (s : string) : bool :=
  match s with
  | String c (String d rest) =>
      spec_edge c && js_all f (String d rest) && match str_last (String d rest) with Some e => spec_edge e | None => false end
  | _ => false
  end.

(** A character that [.] matches; strings hold UTF-8, where the two Unicode line
    separators are not single characters, so only CR and LF are excluded. *)
Definition dot_char (c : ascii) : bool := negb (Ascii.eqb c "010" || Ascii.eqb c "013").

(** The first [c] of a string. *)
Fixpoint cut (c : ascii) (s : string) : option (string * string) :=
  match s with
  | EmptyString => None
  | String d s' => if Ascii.eqb d c then Some (EmptyString, s') else (fun p => (String d p.1, p.2)) <$> cut c s'
  end.

Definition bad_spec {A} (spec : string) : result A :=
  throw EError ("invalid agent spec '" +:+ spec +:+ "'. Expected namespace/name[@version]").

(** @src cli/src/lib/installer.ts parseSpec *)
Definition parseSpec (spec : string) : result ParsedSpec :=
  match cut "/" spec with
  | None => bad_spec spec
  | Some (ns, rest) =>
      let '(nm, version) := match cut "@" rest with Some (nm, v) => (nm, Some v) | None => (rest, None) end in
      if spec_part ns_char ns && spec_part name_char nm && js_all dot_char (nullish version "")
      then Ok (mkParsed ns nm (if truthy version then version else None))
      else bad_spec spec
  end.

(** ** Installing *)

(** @src cli/src/lib/installer.ts InstallOptions *)
Record InstallOptions := mkInstallOptions { forceYes : bool; noPermissions : bool; io_registryUrl : option string; io_force : option bool }.

(** The archive is its path and its content.
    @src cli/src/lib/installer.ts ResolvedPackage *)
Record ResolvedPackage := mkResolved {
  rp_manifest : Manifest;
  rp_archive : option (string * string);
  rp_signature : option SignatureFile;
  rp_trust : TrustLevel;
  rp_source : string;
  rp_reviewStatus : option string;
  rp_statusCheckedAt : option string;
  rp_archiveDigest : option string;
}.

Inductive install_source := src_registry | src_file (path : string) | src_dir (path : string).

(** What the command does to the outside. *)
Inductive iact :=
| ia_http (rq : Registry.Request)
| ia_ask (question : string)
| ia_rm (dir : string)
| ia_mkdir (dir : string)
| ia_unpack (archive dest : string)
| ia_write (path content : string)
| ia_write_json (path : string) (sig : SignatureFile)
| ia_copy (from to : string)
| ia_save (c : OpenAgentHubConfig).

Definition requests (h : list iact) : list Registry.Request :=
  omap (fun a => match a with ia_http rq => Some rq | _ => None end) h.

(** A call of the registry client. *)
Definition http {A} (m : tr Registry.Request A) : tr iact A := fun h =>
  let '(rqs, r) := m (requests h) in (h ++ map ia_http (drop (length (requests h)) rqs), r).

(** Where the program runs: the registry, the file system after the actions done
    so far, the terminal, and third-party parsers. *)
Record world (Doc : Type) := mkWorld {
  w_fetch : forall k : Registry.kind, list Registry.Request -> Registry.Request ->
    result (Registry.Response (Registry.answer_type k));
  w_home : Home;
  w_cwd : string;
  w_tmp : string;                                     (* the directory [mkdtempSync] makes *)
  w_now : string;
  w_config : config_file;
  w_token : option string;                            (* [resolveToken(registryUrl)] *)
  w_readFile : list iact -> string -> result string;
  w_readTree : list iact -> string -> tree;
  w_readSignature : string -> result SignatureFile;
  w_extraction : string -> string -> outcome;         (* of an archive into a directory *)
  w_terminal : list iact -> string -> string;         (* what is typed at a question *)
  w_detected : DetectedRuntime;
  w_yaml : string -> result Doc;
  w_schema : Doc -> list ajv_error;
  w_manifest : Doc -> Manifest;
}.
Arguments w_fetch {Doc}. Arguments w_home {Doc}. Arguments w_cwd {Doc}. Arguments w_tmp {Doc}. Arguments w_now {Doc}.
Arguments w_config {Doc}. Arguments w_token {Doc}. Arguments w_readFile {Doc}. Arguments w_readTree {Doc}.
Arguments w_readSignature {Doc}. Arguments w_extraction {Doc}. Arguments w_terminal {Doc}. Arguments w_detected {Doc}.
Arguments w_yaml {Doc}. Arguments w_schema {Doc}. Arguments w_manifest {Doc}.

Section install.
Context `{CryptoProvider} {Doc : Type} (w : world Doc).

Definition load_at (h : list iact) (dir : string) : result (Manifest * string) :=
  Manifest.loadManifestFromDir (w_yaml w) (w_schema w) (w_manifest w) (w_readFile w h) dir.
Definition load_file (h : list iact) (path : string) : result Manifest :=
  Manifest.load_one (w_yaml w) (w_schema w) (w_manifest w) (w_readFile w h) path.

(** @src cli/src/lib/prompt.ts 3-16 confirm *)
Definition confirm (question : string) : tr iact bool :=
  answer ← ask (ia_ask question) (fun h => w_terminal w h question);
  let a := js_toLowerCase (js_trim answer) in
  mret (String.eqb a "y" || String.eqb a "yes").

Fixpoint confirm_each (questions : list string) : tr iact (list bool) :=
  match questions with
  | [] => mret []
  | q :: qs => a ← confirm q; l ← confirm_each qs; mret (a :: l)
  end.

(** @src cli/src/lib/prompt.ts confirmAll *)
Definition confirmAll (questions : list string) (forceYes : bool) : tr iact (list bool) :=
  if forceYes then mret (map (fun _ => true) questions) else confirm_each questions.

(** [unpackAgent(archive, { destDir })] *)
Definition unpack (path archive dest : string) : tr iact UnpackResult :=
  act (ia_unpack path dest) (fun h =>
    unpackAgent dest (w_extraction w archive dest) (load_file h) (w_readTree w h)).

Definition blocked_review (status : option string) : bool := mem_str (nullish status "") ["rejected"; "revoked"].

(** @src cli/src/lib/installer.ts resolveFromRegistry *)
Definition resolveFromRegistry (spec registryUrl : string) (token : option string) : tr iact ResolvedPackage :=
  p ← tr_lift (parseSpec spec);
  let '(mkParsed ns nm v) := p in
  detail ← http (Registry.getVersion (w_fetch w) registryUrl token ns nm (nullish v "latest"));
  let m := Registry.vd_manifest detail in
  '(buffer, _, sig) ← http (Registry.downloadArchive (w_fetch w) registryUrl token ns nm (version m));
  let archivePath := NodePath.join (w_tmp w) (nm +:+ "-" +:+ version m +:+ ".ahb") in
  _ ← act (ia_write archivePath buffer) (fun _ => Ok tt);
  _ ← tr_lift (verifySignatureFileStrict sig buffer);
  if blocked_review (Registry.vd_reviewStatus detail) then
    tr_throw EError ("version " +:+ ns +:+ "/" +:+ nm +:+ "@" +:+ version m +:+ " is "
      +:+ nullish (Registry.vd_reviewStatus detail) "" +:+ " by the registry: "
      +:+ nullish (Registry.vd_reviewReason detail) "no reason recorded")
  else
    mret (mkResolved m (Some (archivePath, buffer)) (Some sig)
      (if bool_decide ((Registry.sr_status <$> Registry.vd_security detail) = Some "flagged") then untrusted
       else nullish (Registry.vd_trust detail) unknown)
      (registryUrl +:+ "/api/v1/agents/" +:+ ns +:+ "/" +:+ nm +:+ "/versions/" +:+ version m +:+ "/archive")
      (Registry.vd_reviewStatus detail) (Some (w_now w)) None).

(** A signature file that is missing or does not verify is left out.
    @src cli/src/lib/installer.ts resolveFromFile *)
Definition resolveFromFile (archivePath : string) : tr iact ResolvedPackage := fun h =>
  let abs := NodePath.resolve (w_cwd w) archivePath in
  let sigPath := NodePath.join (NodePath.dirname abs) (NodePath.basename abs +:+ ".sig.json") in
  let signature :=
    match (sig ← w_readSignature w sigPath; content ← w_readFile w h abs; _ ← verifySignatureFileStrict sig content; mret sig) with
    | Ok sig => Some sig | Throw _ => None end in
  (content ← tr_lift (w_readFile w h abs);
   u ← unpack abs content (w_tmp w);
   mret (mkResolved (up_manifest u) (Some (abs, content)) signature unknown ("file:" +:+ abs) None None None)) h.

(** @src cli/src/lib/installer.ts resolveFromDir *)
Definition resolveFromDir (dirPath : string) : tr iact ResolvedPackage := fun h =>
  let abs := NodePath.resolve (w_cwd w) dirPath in
  ('(m, _) ← tr_lift (load_at h abs);
   mret (mkResolved m None None local ("dir:" +:+ abs) None None None)) h.

(** The answers to the permission questions.
    @src cli/src/lib/installer.ts 159-172 installAgent *)
Definition ask_permissions (m : Manifest) (opts : InstallOptions) : tr iact GrantedPermissions :=
  let perms := requestedPermissions (permissions m) in
  let grant b := obj_from (map (fun p => (permission_name p, b)) perms) in
  if bool_decide (perms = []) || bool_decide (perms = [none]) then mret (grant true)
  else if noPermissions opts then mret (grant false)
  else
    answers ← confirmAll
      (map (fun p => "grant '" +:+ permission_name p +:+ "' permission to " +:+ name m +:+ "?") perms) (forceYes opts);
    mret (obj_from (zip (map permission_name perms) answers)).

Definition check_requirements (m : Manifest) (opts : InstallOptions) : tr iact unit :=
  let req := checkAgentRequirements m (w_detected w) in
  if satisfied req || forceYes opts then mret tt
  else
    oks ← confirmAll ["missing runtime components (" +:+ js_join ", " (missing req) +:+ "). install anyway?"] false;
    if bool_decide (head oks = Some true) then mret tt
    else tr_throw EError "aborted: missing runtime requirements".

Fixpoint copy_files (srcDir dest : string) (files : list string) : tr iact unit :=
  match files with
  | [] => mret tt
  | f :: fs =>
      let destPath := NodePath.join dest f in
      _ ← act (ia_mkdir (NodePath.dirname destPath)) (fun _ => Ok tt);
      _ ← act (ia_copy (NodePath.join srcDir f) destPath) (fun _ => Ok tt);
      copy_files srcDir dest fs
  end.

(** The agent's directory is emptied and filled again.
    @src cli/src/lib/installer.ts 175-197 installAgent *)
Definition place_files (r : ResolvedPackage) (dest : string) : tr iact unit :=
  _ ← act (ia_rm dest) (fun _ => Ok tt);
  _ ← act (ia_mkdir dest) (fun _ => Ok tt);
  match rp_archive r with
  | Some (path, content) =>
      _ ← unpack path content dest;
      match rp_signature r with
      | Some sig =>
          _ ← act (ia_write_json (NodePath.join dest "signature.sig.json") sig) (fun _ => Ok tt);
          act (ia_write (NodePath.join dest "archive.ahb") content) (fun _ => Ok tt)
      | None => mret tt
      end
  | None =>
      if js_startsWith (rp_source r) "dir:" then
        let srcDir := js_drop 4 (rp_source r) in
        (fun h => copy_files srcDir dest (listProjectFiles (w_readTree w h srcDir)) h)
      else mret tt
  end.

(** @src cli/src/lib/installer.ts 199-211 installAgent *)
Definition installed_entry (ns nm : string) (r : ResolvedPackage) : InstalledAgent :=
  let m := rp_manifest r in
  mkInstalled nm ns (version m) (author m) (rp_trust r) (w_now w) (rp_source r) (publicKeyId <$> rp_signature r)
    (rp_reviewStatus r) (rp_statusCheckedAt r)
    (match rp_archiveDigest r with Some d => Some d | None => (fun a => sha256Hex a.2) <$> rp_archive r end).

Definition resolve_package (spec : string) (source : install_source) (registryUrl : string) : tr iact ResolvedPackage :=
  match source with
  | src_registry => resolveFromRegistry spec registryUrl (w_token w)
  | src_file path => resolveFromFile path
  | src_dir path => resolveFromDir path
  end.

(** What must hold of the package and of what is installed.
    @src cli/src/lib/installer.ts 125-137 installAgent *)
Definition check_package (config : OpenAgentHubConfig) (p : ParsedSpec) (m : Manifest) (opts : InstallOptions) : result unit :=
  let full := sp_namespace p +:+ "/" +:+ sp_name p in
  if negb (String.eqb (name m) full) then
    throw EError ("manifest name '" +:+ name m +:+ "' does not match requested spec '" +:+ full +:+ "'")
  else if bool_decide (is_Some (installed_record config (full +:+ "@" +:+ version m))) && negb (nullish (io_force opts) false) then
    throw EError (full +:+ "@" +:+ version m +:+ " is already installed (reinstall with: openagenthub install "
      +:+ full +:+ "@" +:+ version m +:+ " --force)")
  else Ok tt.

(** @src cli/src/lib/installer.ts installAgent *)
Definition installAgent (spec : string) (source : install_source) (opts : InstallOptions) : tr iact unit :=
  config ← tr_lift (loadConfig (w_config w));
  let url := nullish (io_registryUrl opts) (nullish (registryUrl config) REGISTRY_DEFAULT) in
  r ← resolve_package spec source url;
  p ← tr_lift (parseSpec spec);
  let m := rp_manifest r in
  _ ← tr_lift (check_package config p m opts);
  _ ← check_requirements m opts;
  granted ← ask_permissions m opts;
  let key := mkKey (sp_namespace p) (sp_name p) (version m) in
  _ ← place_files r (installedAgentDir (w_home w) key);
  let s1 := recordInstall (installed_entry (sp_namespace p) (sp_name p) r) (mkStore config (w_config w)) in
  _ ← act (ia_save (mem s1)) (fun _ => Ok tt);
  let s2 := saveGrantedPermissions (agentKeyToString key) granted s1 in
  act (ia_save (mem s2)) (fun _ => Ok tt).
End install.
(** ** Properties of specs *)

Lemma cut_some c s a b : cut c s = Some (a, b) <-> s = a +:+ String c b /\ js_has_char c a = false.
Proof.
  revert a b. induction s as [|d s IH]; intros a b; cbn [cut].
  - split; [done|]. by intros [Hs _]; destruct a.
  - destruct (Ascii.eqb_spec d c) as [->|Hne].
    + split; [by intros [= <- <-]|]. intros [Hs Ha]. destruct a as [|x a]; cbn in Hs; [by injection Hs as ->|].
      injection Hs as <- _. cbn in Ha. by rewrite Ascii.eqb_refl in Ha.
    + destruct (cut c s) as [[a' b']|]; cbn.
      * pose proof (proj1 (IH a' b') eq_refl) as [-> Hc]. split.
        -- intros [= <- <-]. split; [done|]. cbn. rewrite Hc. apply Ascii.eqb_neq in Hne. by rewrite ?Hne, Ascii.eqb_sym, ?Hne.
        -- intros [Hs Ha]. destruct a as [|x a]; cbn in Hs; [by injection Hs as ->|]. injection Hs as -> Hs.
           cbn in Ha. apply orb_false_iff in Ha as [_ Ha]. destruct (split_unique c a' a b' b Hc Ha Hs) as [-> ->]. done.
      * split; [done|]. intros [Hs Ha]. destruct a as [|x a]; cbn in Hs; [by injection Hs as ->|].
        injection Hs as -> ->. cbn in Ha. apply orb_false_iff in Ha as [_ Ha]. discriminate (proj2 (IH a b) (conj eq_refl Ha)).
Qed.

Lemma cut_none c s : cut c s = None <-> js_has_char c s = false.
Proof.
  induction s as [|d s IH]; [done|]. cbn. rewrite (Ascii.eqb_sym c d). destruct (Ascii.eqb d c); cbn; [done|].
  rewrite <- IH. by destruct (cut c s).
Qed.

Lemma spec_part_no f c s : spec_part f s = true -> spec_edge c = false -> f c = false -> js_has_char c s = false.
Proof.
  destruct s as [|x [|y rest]]; cbn [spec_part]; [done..|]. intros [[Hx Hall]%andb_prop _]%andb_prop Hc Hf.
  change (js_has_char c (String x (String y rest))) with (Ascii.eqb c x || js_has_char c (String y rest)).
  rewrite (all_no_char f c) by done. rewrite orb_false_r. apply Ascii.eqb_neq. intros ->. congruence.
Qed.

Definition spec_text (p : ParsedSpec) : string :=
  sp_namespace p +:+ "/" +:+ sp_name p +:+ match sp_version p with Some v => "@" +:+ v | None => "" end.

Definition good_spec (p : ParsedSpec) : Prop :=
  spec_part ns_char (sp_namespace p) = true /\ spec_part name_char (sp_name p) = true /\
  match sp_version p with Some v => v <> "" /\ js_all dot_char v = true | None => True end.

Lemma parseSpec_ok s p :
  parseSpec s = Ok p <->
  good_spec p /\ (s = spec_text p \/ sp_version p = None /\ s = spec_text p +:+ "@").
Proof.
  unfold parseSpec. split.
  - destruct (cut "/" s) as [[ns rest]|] eqn:Hs; [|done]. apply cut_some in Hs as [-> _].
    destruct (cut "@" rest) as [[nm v]|] eqn:Hr.
    + apply cut_some in Hr as [-> _]. change (nullish (Some v) "") with v.
      destruct (spec_part ns_char ns && spec_part name_char nm && js_all dot_char v) eqn:E; [|done].
      apply andb_prop in E as [[H1 H2]%andb_prop H3]. intros [= <-]. cbn.
      destruct (String.eqb_spec v "") as [->|Hv]; cbn.
      * split; [done|]. right. split; [done|]. unfold spec_text. cbn. by rewrite sapp_nil_r, sapp_assoc.
      * split; [done|]. left. done.
    + change (nullish None "") with "". destruct (spec_part ns_char ns && spec_part name_char rest && js_all dot_char "") eqn:E; [|done].
      apply andb_prop in E as [[H1 H2]%andb_prop _]. intros [= <-]. cbn. split; [done|]. left.
      unfold spec_text. cbn. by rewrite sapp_nil_r.
  - intros [(H1 & H2 & H3) Hs]. destruct p as [ns nm v]. cbn [sp_namespace sp_name sp_version] in *.
    pose proof (spec_part_no _ "/" _ H1 eq_refl eq_refl) as Hn.
    pose proof (spec_part_no _ "@" _ H2 eq_refl eq_refl) as Hm.
    assert (Hcut : forall t, cut "/" (ns +:+ String "/" t) = Some (ns, t)).
    { intros t. by apply cut_some. }
    assert (Hcut' : forall t, cut "@" (nm +:+ String "@" t) = Some (nm, t)).
    { intros t. by apply cut_some. }
    unfold spec_text in Hs. cbn in Hs. destruct v as [v|].
    + destruct Hs as [->|[? _]]; [|done]. destruct H3 as [Hv Hd]. rewrite Hcut, Hcut'. cbn.
      rewrite H1, H2, Hd. cbn. apply String.eqb_neq in Hv. by rewrite Hv.
    + rewrite !sapp_nil_r in Hs. destruct Hs as [->|[_ ->]].
      * rewrite Hcut. apply cut_none in Hm. rewrite Hm. cbn. by rewrite H1, H2.
      * rewrite sapp_assoc. cbn [String.append]. rewrite Hcut, Hcut'. cbn. by rewrite H1, H2.
Qed.

(** A spec is accepted exactly when it is [namespace/name] or
    [namespace/name@version] with well-formed parts, an empty version meaning
    none; the parts it is read into are those it was written from, none of which
    holds a separator. *)
Theorem parseSpec_iff s p :
  (parseSpec s = Ok p <->
   good_spec p /\ (s = spec_text p \/ sp_version p = None /\ s = spec_text p +:+ "@")) /\
  (good_spec p -> js_has_char "/" (sp_namespace p) = false /\ js_has_char "/" (sp_name p) = false /\
     js_has_char "@" (sp_name p) = false).
Proof.
  split; [apply parseSpec_ok|]. intros (H1 & H2 & _).
  split_and!; eapply spec_part_no; try done; exact H1 || exact H2.
Qed.
(** ** Properties of an installation *)
Section facts.
Context `{CryptoProvider} {Doc : Type} (w : world Doc).

(** An action before the configuration is saved: the only directory removed is
    the agent's own. *)
Definition preparing (spec : string) (a : iact) : Prop :=
  match a with
  | ia_save _ => False
  | ia_rm d => exists p v, parseSpec spec = Ok p /\ d = installedAgentDir (w_home w) (mkKey (sp_namespace p) (sp_name p) v)
  | _ => True
  end.

Lemma appends_http spec {A} (m : tr Registry.Request A) : appends (preparing spec) (http m).
Proof.
  intros h. unfold http. destruct (m (requests h)) as [rqs r]. eexists. split; [reflexivity|].
  apply Forall_map, Forall_forall. by intros.
Qed.

Lemma appends_at spec {A} (m : list iact -> tr iact A) :
  (forall h0, appends (preparing spec) (m h0)) -> appends (preparing spec) (fun h => m h h).
Proof. intros Hm h. apply Hm. Qed.

Hint Resolve appends_http : trace.

Lemma appends_confirmAll spec qs b : appends (preparing spec) (confirmAll w qs b).
Proof.
  unfold confirmAll. destruct b; [auto with trace|]. induction qs as [|q qs IH]; cbn [confirm_each]; [auto with trace|].
  apply appends_bind; [|intros a; apply appends_bind; auto with trace].
  apply appends_bind; [by apply appends_ask|auto with trace].
Qed.

Lemma appends_unpack spec path a d : appends (preparing spec) (unpack w path a d).
Proof. by apply appends_act. Qed.

Hint Resolve appends_confirmAll appends_unpack : trace.

Lemma appends_resolve spec source url : appends (preparing spec) (resolve_package w spec source url).
Proof.
  destruct source as [|path|path]; cbn [resolve_package].
  - unfold resolveFromRegistry. apply appends_bind; [auto with trace|]. intros [ns nm v].
    apply appends_bind; [auto with trace|]. intros detail. cbv zeta. apply appends_bind; [auto with trace|].
    intros [[buffer x] sig]. apply appends_bind; [by apply appends_act|]. intros _.
    apply appends_bind; [auto with trace|]. intros _. destruct (blocked_review _); auto with trace.
  - unfold resolveFromFile. apply (appends_at spec (fun h0 => _)). intros h0.
    apply appends_bind; [auto with trace|]. intros content. apply appends_bind; auto with trace.
  - unfold resolveFromDir. apply (appends_at spec (fun h0 => _)). intros h0.
    apply appends_bind; [auto with trace|]. intros [m x]. auto with trace.
Qed.

Lemma appends_requirements spec m opts : appends (preparing spec) (check_requirements w m opts).
Proof.
  unfold check_requirements. cbv zeta. destruct (_ || _); [auto with trace|].
  apply appends_bind; [auto with trace|]. intros oks. case_bool_decide; auto with trace.
Qed.

Lemma appends_permissions spec m opts : appends (preparing spec) (ask_permissions w m opts).
Proof.
  unfold ask_permissions. cbv zeta. destruct (_ || _); [auto with trace|]. destruct (noPermissions opts); auto with trace.
Qed.

Lemma appends_copy spec srcDir dest files : appends (preparing spec) (copy_files srcDir dest files).
Proof.
  induction files as [|f files IH]; cbn [copy_files]; [auto with trace|]. cbv zeta.
  apply appends_bind; [by apply appends_act|]. intros _. apply appends_bind; [by apply appends_act|]. by intros _.
Qed.

Lemma appends_place spec p r :
  parseSpec spec = Ok p ->
  appends (preparing spec)
    (place_files w r (installedAgentDir (w_home w) (mkKey (sp_namespace p) (sp_name p) (version (rp_manifest r))))).
Proof.
  intros Hp. unfold place_files. apply appends_bind; [apply appends_act; by eexists p, _|]. intros _.
  apply appends_bind; [by apply appends_act|]. intros _. destruct (rp_archive r) as [[path content]|].
  - apply appends_bind; [auto with trace|]. intros _. destruct (rp_signature r); [|auto with trace].
    apply appends_bind; [by apply appends_act|]. intros _. by apply appends_act.
  - destruct (js_startsWith _ _); [|auto with trace]. apply (appends_at spec (fun h0 => _)). intros h0. apply appends_copy.
Qed.

(** Everything up to the two saves. *)
Definition prepare (spec : string) (source : install_source) (opts : InstallOptions)
    : tr iact (OpenAgentHubConfig * ResolvedPackage * ParsedSpec * GrantedPermissions) :=
  config ← tr_lift (loadConfig (w_config w));
  let url := nullish (io_registryUrl opts) (nullish (registryUrl config) REGISTRY_DEFAULT) in
  r ← resolve_package w spec source url;
  p ← tr_lift (parseSpec spec);
  _ ← tr_lift (check_package config p (rp_manifest r) opts);
  _ ← check_requirements w (rp_manifest r) opts;
  granted ← ask_permissions w (rp_manifest r) opts;
  _ ← place_files w r (installedAgentDir (w_home w) (mkKey (sp_namespace p) (sp_name p) (version (rp_manifest r))));
  mret (config, r, p, granted).

Definition saves (x : OpenAgentHubConfig * ResolvedPackage * ParsedSpec * GrantedPermissions) : store * store :=
  let '(config, r, p, granted) := x in
  let s1 := recordInstall (installed_entry w (sp_namespace p) (sp_name p) r) (mkStore config (w_config w)) in
  (s1, saveGrantedPermissions (agentKeyToString (mkKey (sp_namespace p) (sp_name p) (version (rp_manifest r)))) granted s1).

Lemma installAgent_prepare spec source opts h :
  installAgent w spec source opts h =
    match prepare spec source opts h with
    | (h1, Ok x) => (h1 ++ [ia_save (mem (saves x).1)] ++ [ia_save (mem (saves x).2)], Ok tt)
    | (h1, Throw e) => (h1, Throw e)
    end.
Proof.
  unfold installAgent, prepare. cbv zeta. rewrite !tr_bind_run.
  destruct (tr_lift (loadConfig (w_config w)) h) as [h1 [config|e]]; [|done]. rewrite !tr_bind_run.
  destruct (resolve_package _ _ _ _ h1) as [h2 [r|e]]; [|done]. rewrite !tr_bind_run.
  destruct (tr_lift (parseSpec spec) h2) as [h3 [p|e]]; [|done]. rewrite !tr_bind_run.
  destruct (tr_lift (check_package _ _ _ _) h3) as [h4 [[]|e]]; [|done]. rewrite !tr_bind_run.
  destruct (check_requirements _ _ _ h4) as [h5 [[]|e]]; [|done]. rewrite !tr_bind_run.
  destruct (ask_permissions _ _ _ h5) as [h6 [granted|e]]; [|done]. rewrite !tr_bind_run.
  destruct (place_files _ _ _ h6) as [h7 [[]|e]]; [|done]. rewrite ?tr_bind_run. unfold act.
  by rewrite <- app_assoc.
Qed.

Lemma appends_prepare spec source opts : appends (preparing spec) (prepare spec source opts).
Proof.
  unfold prepare. cbv zeta. apply appends_bind; [auto with trace|]. intros config.
  apply appends_bind; [apply appends_resolve|]. intros r.
  intros h. rewrite tr_bind_run. unfold tr_lift at 1. destruct (parseSpec spec) as [p|e] eqn:Hp;
    [|exists []; split; [by rewrite app_nil_r|constructor]]. revert h.
  apply appends_bind; [auto with trace|]. intros _. apply appends_bind; [apply appends_requirements|]. intros _.
  apply appends_bind; [apply appends_permissions|]. intros granted.
  apply appends_bind; [by apply appends_place|]. auto with trace.
Qed.

Lemma last_two {A} (l : list A) a b : last (l ++ [a] ++ [b]) = Some b.
Proof. by rewrite (app_assoc l [a] [b]), last_snoc. Qed.

Lemma obj_from_elem {V} k v (l : obj V) : obj_get k (obj_from l) = Some v -> (k, v) ∈ l.
Proof.
  unfold obj_from, obj_merge. intros Hget. assert (Hg : obj_get k ([] : obj V) = Some v \/ (k, v) ∈ l); [|by destruct Hg].
  revert Hget. generalize ([] : obj V). induction l as [|[k' v'] l IH]; intros acc; cbn [fold_left fst snd]; [by left|].
  intros [Hg|Hin]%IH; [|right; by right]. rewrite obj_get_set in Hg.
  destruct (String.eqb_spec k' k) as [->|]; [|by left]. injection Hg as ->. right. by left.
Qed.

Lemma obj_from_total {V} k (l : obj V) : k ∈ map fst l -> is_Some (obj_get k (obj_from l)).
Proof.
  unfold obj_from, obj_merge. intros Hin. assert (Hg : is_Some (obj_get k ([] : obj V)) \/ k ∈ map fst l) by by right.
  clear Hin. revert Hg. generalize ([] : obj V). induction l as [|[k' v'] l IH]; intros acc; cbn [fold_left map fst snd].
  - by intros [?|?%elem_of_nil].
  - intros Hg. apply IH. rewrite obj_get_set. destruct (String.eqb_spec k' k) as [->|Hne]; [left; by eexists|].
    destruct Hg as [?|[->|?]%elem_of_cons]; [by left|done|by right].
Qed.

(** The reading of an answer typed at a question. *)
Definition said_yes (typed : string) : bool :=
  let a := js_toLowerCase (js_trim typed) in String.eqb a "y" || String.eqb a "yes".

(** The question was asked in this history, and this is the reading of its answer. *)
Definition answered (h : list iact) (question : string) (b : bool) : Prop :=
  exists h1 h2, h = h1 ++ ia_ask question :: h2 /\ b = said_yes (w_terminal w h1 question).

Lemma answered_later h l q b : answered h q b -> answered (h ++ l) q b.
Proof. intros (h1 & h2 & -> & Hb). exists h1, (h2 ++ l). by rewrite <- app_assoc. Qed.

Lemma confirm_each_answered qs h h' bs : confirm_each w qs h = (h', Ok bs) -> Forall2 (answered h') qs bs.
Proof.
  revert h bs. induction qs as [|q qs IH]; intros h bs; cbn [confirm_each].
  { intros [<- _]%tr_ret_ok. constructor. }
  intros Hr. tr_inv Hr as b Hb. tr_inv Hr as l Hl. apply tr_ret_ok in Hr as [<- <-].
  pose proof (IH _ _ Hl) as Hall. constructor; [|exact Hall]. 
  unfold confirm in Hb. rewrite tr_bind_run in Hb. cbv [ask act] in Hb. injection Hb as <- <-.
  assert (Hext : exists rest : list iact, h' = (h ++ [ia_ask q]) ++ rest).
  { clear -Hl. set (h0 := h ++ [ia_ask q]) in *. clearbody h0. clear h. revert h0 l Hl. induction qs as [|q' qs IH]; intros h0 l; cbn [confirm_each].
    - intros [_ <-]%tr_ret_ok. exists []. by rewrite app_nil_r.
    - intros Hr. tr_inv Hr as b Hb. tr_inv Hr as l' Hl'. apply tr_ret_ok in Hr as [_ <-].
      unfold confirm in Hb. rewrite tr_bind_run in Hb. cbv [ask act] in Hb. injection Hb as <- _.
      apply IH in Hl' as [rest ->]. exists ([ia_ask q'] ++ rest). by rewrite !app_assoc. }
  destruct Hext as [rest ->]. exists h, rest. split; [by rewrite <- app_assoc|done].
Qed.

(** The question for a permission. *)
Definition permission_question (m : Manifest) (k : string) : string := "grant '" +:+ k +:+ "' permission to " +:+ name m +:+ "?".

(** What an installation may save for a requested permission, [h] being what was done:
    all or nothing by the flags, else the answer to its question. *)
Definition grant_of (m : Manifest) (opts : InstallOptions) (h : list iact) (k : string) (b : bool) : Prop :=
  if bool_decide (requestedPermissions (permissions m) = [none]) then b = true
  else if noPermissions opts then b = false
  else if forceYes opts then b = true
  else answered h (permission_question m k) b.

Lemma grant_of_later m opts h l k b : grant_of m opts h k b -> grant_of m opts (h ++ l) k b.
Proof. unfold grant_of. destruct (bool_decide _), (noPermissions opts), (forceYes opts); try done. apply answered_later. Qed.

Lemma zip_answers m perms h bs k b :
  Forall2 (answered h) (map (fun p => permission_question m (permission_name p)) perms) bs ->
  (k, b) ∈ zip (map permission_name perms) bs -> answered h (permission_question m k) b.
Proof.
  revert bs. induction perms as [|p perms IH]; intros bs Hall Hin; cbn [map] in *.
  - by apply elem_of_nil in Hin.
  - destruct bs as [|b0 bs]; [by apply elem_of_nil in Hin|]. apply Forall2_cons in Hall as [Hb Hall].
    cbn [zip zip_with] in Hin. apply elem_of_cons in Hin as [[= -> ->]|Hin]; [done|by apply (IH bs)].
Qed.

(** Every requested permission, and no other, gets a value, the one it should have. *)
Lemma ask_permissions_spec m opts h h' g :
  ask_permissions w m opts h = (h', Ok g) ->
  forall k, match obj_get k g with
  | Some b => k ∈ map permission_name (requestedPermissions (permissions m)) /\ grant_of m opts h' k b
  | None => k ∉ map permission_name (requestedPermissions (permissions m))
  end.
Proof.
  unfold ask_permissions. cbv zeta. set (perms := requestedPermissions (permissions m)).
  assert (Hall : forall b, (forall k, k ∈ map permission_name perms -> grant_of m opts h' k b) ->
    forall k, match obj_get k (obj_from (map (fun p => (permission_name p, b)) perms)) with
    | Some b => k ∈ map permission_name perms /\ grant_of m opts h' k b | None => k ∉ map permission_name perms end).
  { intros b Hb k. destruct (obj_get k _) as [v|] eqn:E.
    - apply obj_from_elem, list_elem_of_fmap in E as (p & [= -> ->] & Hp).
      assert (Hk : permission_name p ∈ map permission_name perms) by (apply list_elem_of_fmap; by exists p). auto.
    - intros Hk. destruct (obj_from_total k (map (fun p => (permission_name p, b)) perms)) as [v Hv]; [|congruence].
      rewrite map_map. exact Hk. }
  unfold grant_of in *. fold perms in Hall |- *. destruct (bool_decide (perms = [])) eqn:E0; cbn [orb].
  { intros [<- _]%tr_ret_ok. apply Hall. apply bool_decide_eq_true in E0 as ->. by intros k ?%elem_of_nil. }
  destruct (bool_decide (perms = [none])) eqn:E1; cbn [orb].
  { intros [<- _]%tr_ret_ok. by apply Hall. }
  destruct (noPermissions opts); [intros [<- _]%tr_ret_ok; by apply Hall|].
  intros Ha. tr_inv Ha as answers Hc. apply tr_ret_ok in Ha as [<- <-]. unfold confirmAll in Hc.
  destruct (forceYes opts).
  - apply tr_ret_ok in Hc as [<- ->]. rewrite map_map.
    assert (Hz : zip (map permission_name perms) (map (fun _ : Permission => true) perms) = map (fun p => (permission_name p, true)) perms).
    { clear. induction perms as [|p l IH]; [done|]. cbn [map zip zip_with]. by rewrite <- IH. }
    rewrite Hz. by apply Hall.
  - apply confirm_each_answered in Hc. intros k.
    change (map (fun p : Permission => "grant '" +:+ permission_name p +:+ "' permission to " +:+ name m +:+ "?") perms)
      with (map (fun p => permission_question m (permission_name p)) perms) in Hc.
    destruct (obj_get k _) as [b|] eqn:E.
    + apply obj_from_elem in E. split; [by apply elem_of_zip_l in E|]. by eapply zip_answers.
    + intros Hk. destruct (obj_from_total k (zip (map permission_name perms) answers)) as [v Hv]; [|congruence].
      apply Forall2_length in Hc. rewrite length_map in Hc.
      change (k ∈ (zip (map permission_name perms) answers).*1). rewrite fst_zip; [done|]. rewrite length_map. lia.
Qed.

Lemma resolveFromRegistry_ok spec url token h h' r :
  resolveFromRegistry w spec url token h = (h', Ok r) ->
  blocked_review (rp_reviewStatus r) = false /\ rp_archiveDigest r = None /\
  exists path content sig, rp_archive r = Some (path, content) /\ rp_signature r = Some sig /\
    verifySignatureFileStrict sig content = Ok tt.
Proof.
  unfold resolveFromRegistry. intros Hr. tr_inv Hr as [ns nm v] Hp. tr_inv Hr as detail Hd. cbv zeta in Hr.
  tr_inv Hr as [[buffer dgst] sig] Hb. tr_inv Hr as [] Hw. tr_inv Hr as [] Hv.
  apply tr_lift_ok in Hv as [Hv _]. destruct (blocked_review _) eqn:E; [done|].
  apply tr_ret_ok in Hr as [<- _]. split_and!; [done..|]. by eexists _, _, _.
Qed.

(** C8: A successful installation: the package's name is the one asked for, and the
    configuration saved last has under its key the recorded entry and the permissions:
    each one the package requests with its value, and no other.  The value is true when
    the package only requests [none], false for all with the flag against permissions,
    true for all with the flag that answers yes, and else the answer that was typed at the
    question for it.  From the registry, the archive that was unpacked has the digest of
    its signature file and a valid signature, the recorded digest is that of the archive,
    and the version is not rejected or revoked. *)
Theorem installAgent_ok spec source opts h h' :
  installAgent w spec source opts h = (h', Ok tt) ->
  exists url r p h0 c, resolve_package w spec source url h = (h0, Ok r) /\ parseSpec spec = Ok p /\
    name (rp_manifest r) = sp_namespace p +:+ "/" +:+ sp_name p /\
    last h' = Some (ia_save c) /\
    (let key := agentKeyToString (mkKey (sp_namespace p) (sp_name p) (version (rp_manifest r))) in
     let requested := requestedPermissions (permissions (rp_manifest r)) in
     installed_record c key = Some (installed_entry w (sp_namespace p) (sp_name p) r) /\
     forall k, match obj_get k (grantedPermissions c key) with
       | None => k ∉ map permission_name requested
       | Some b => k ∈ map permission_name requested /\
           if bool_decide (requested = [none]) then b = true
           else if noPermissions opts then b = false
           else if forceYes opts then b = true
           else exists h1 h2, h' = h1 ++ ia_ask (permission_question (rp_manifest r) k) :: h2 /\
                  b = said_yes (w_terminal w h1 (permission_question (rp_manifest r) k))
       end) /\
    (source = src_registry -> blocked_review (rp_reviewStatus r) = false /\
       exists path content sig, rp_archive r = Some (path, content) /\ rp_signature r = Some sig /\
         verifySignatureFileStrict sig content = Ok tt /\
         ia_archiveDigest (installed_entry w (sp_namespace p) (sp_name p) r) = Some (sha256Hex content)).
Proof.
  rewrite installAgent_prepare. destruct (prepare spec source opts h) as [h1 [[[[config r] p] granted]|e]] eqn:Hpre; [|done].
  intros [= <-]. unfold prepare in Hpre. tr_inv Hpre as config' Hc. apply tr_lift_ok in Hc as [Hc ->]. cbv zeta in Hpre.
  tr_inv Hpre as r' Hr. tr_inv Hpre as p' Hp. apply tr_lift_ok in Hp as [Hp ->].
  tr_inv Hpre as [] Hchk. apply tr_lift_ok in Hchk as [Hchk ->]. tr_inv Hpre as [] Hreq. tr_inv Hpre as granted' Hask.
  tr_inv Hpre as [] Hplace. apply tr_ret_ok in Hpre as [[= -> -> -> ->] ->].
  eexists _, r, p, _, _. split; [exact Hr|]. split; [done|].
  unfold check_package in Hchk. destruct (String.eqb_spec (name (rp_manifest r)) (sp_namespace p +:+ "/" +:+ sp_name p)) as [Hn|];
    [|done]. split; [done|]. split; [apply last_two|]. split.
  - split.
    + unfold installed_record. cbn -[obj_set]. by rewrite obj_get_set_eq.
    + intros k. match goal with |- context [grantedPermissions ?c ?key] => assert (Hg : grantedPermissions c key = granted)
        by (unfold grantedPermissions; cbn -[obj_set]; by rewrite obj_get_set_eq) end. rewrite Hg. clear Hg.
      pose proof (ask_permissions_spec _ _ _ _ _ Hask k) as Hk. destruct (obj_get k granted) as [b|]; [|exact Hk].
      destruct Hk as [Hk Hb]. split; [exact Hk|]. match type of Hplace with place_files _ _ _ ?hb = _ =>
        destruct (appends_place spec p r Hp hb) as (l & Hl & _) end.
      rewrite Hplace in Hl. cbn [fst] in Hl. rewrite Hl, <- app_assoc. apply grant_of_later, Hb.
  - intros ->. apply resolveFromRegistry_ok in Hr as (Hb & Hd & path & content & sig & Ha & Hs & Hv).
    split; [done|]. exists path, content, sig. split_and!; [done..|]. unfold installed_entry. cbn. by rewrite Hd, Ha.
Qed.

(** An installation that fails saves nothing, and one that succeeds saves the
    configuration last; before that the only directory removed is the one of the
    agent asked for, at the version its manifest gives. *)
Theorem installAgent_effects spec source opts h :
  let '(h', res) := installAgent w spec source opts h in
  exists l saved, h' = h ++ l ++ saved /\
    (forall c, ia_save c ∉ l) /\
    (forall d, ia_rm d ∈ l -> exists p v, parseSpec spec = Ok p /\
       d = installedAgentDir (w_home w) (mkKey (sp_namespace p) (sp_name p) v)) /\
    match res with Ok _ => exists c1 c2, saved = [ia_save c1; ia_save c2] | Throw _ => saved = [] end.
Proof.
  rewrite installAgent_prepare. destruct (appends_prepare spec source opts h) as (l & Hl & HP).
  rewrite Forall_forall in HP.
  assert (H1 : forall c, ia_save c ∉ l) by (intros c Hin; exact (HP _ Hin)).
  assert (H2 : forall d, ia_rm d ∈ l -> exists p v, parseSpec spec = Ok p /\
       d = installedAgentDir (w_home w) (mkKey (sp_namespace p) (sp_name p) v)) by (intros d Hin; exact (HP _ Hin)).
  destruct (prepare spec source opts h) as [h1 [x|e]]; cbn in Hl; subst h1.
  - eexists l, _. rewrite <- app_assoc. split_and!; [reflexivity|done|done|by eexists _, _].
  - exists l, []. by rewrite app_nil_r.
Qed.
End facts.

(** ** A registry and a home to install into *)
Definition demo_home : Home := home_of None "/home/u".

Definition demo_world (m : Manifest) (sig : SignatureFile) (config : config_file) (ext : outcome) : world Manifest :=
  mkWorld Manifest
    (Registry.demo_fetch (Registry.mkDetail "acme/echo" "1.0.0" "me" "d" m "2026-01-01" 3 (Some trusted) (Some sig)
       None None None (Some "verified") None None) "bytes" [])
    demo_home "/home/u/work" "/tmp/oah" "now" config None (fun _ _ => Ok "") (fun _ _ => TDir [("agent.yaml", TFile)])
    (fun _ => throw EError "no signature") (fun _ _ => ext) (fun _ _ => "y") (detectRuntime (fun _ => Some "Python 3.12.0"))
    (fun _ => Ok m) (fun _ => []) (fun d => d).

Definition demo_options (force : bool) : InstallOptions := mkInstallOptions true false None (Some force).

Definition demo_install (w : world Manifest) (force : bool) : list iact * result unit :=
  @installAgent toy_crypto Manifest w "acme/echo" src_registry (demo_options force) [].

Lemma installAgent_ok_witness :
  let w := demo_world demo_manifest (Registry.demo_signature "acme/echo" "1.0.0" "bytes") cf_absent (Resolved ["agent.yaml"]) in
  exists c sig content, last (demo_install w false).1 = Some (ia_save c) /\
    @verifySignatureFileStrict toy_crypto sig content = Ok tt.
Proof.
  destruct (@installAgent_ok toy_crypto Manifest
    (demo_world demo_manifest (Registry.demo_signature "acme/echo" "1.0.0" "bytes") cf_absent (Resolved ["agent.yaml"]))
    "acme/echo" src_registry (demo_options false) []
    (demo_install (demo_world demo_manifest (Registry.demo_signature "acme/echo" "1.0.0" "bytes") cf_absent
       (Resolved ["agent.yaml"])) false).1 ltac:(vm_compute; reflexivity))
    as (url & r & p & h0 & c & _ & _ & _ & Hlast & _ & Hreg).
  destruct (Hreg eq_refl) as (_ & path & content & sig & _ & _ & Hv & _).
  exists c, sig, content. split; [exact Hlast|exact Hv].
Defined.

Definition demo_url : string := "https://registry.openagenthub.dev".

(** What [demo_world] resolves, the signature file left open. *)
Definition demo_resolved (sig : SignatureFile) : ResolvedPackage :=
  mkResolved demo_manifest (Some ("/tmp/oah/echo-1.0.0.ahb", "bytes")) (Some sig) trusted
    "https://registry.openagenthub.dev/api/v1/agents/acme/echo/versions/1.0.0/archive" (Some "verified") (Some "now") None.

(** Runs the next call of the registry client. *)
Ltac eval_http :=
  match goal with |- context [@http ?A ?m ?h] =>
    let v := eval vm_compute in (@http A m h) in replace (@http A m h) with v by (vm_compute; reflexivity) end.

Lemma demo_resolve sig config ext :
  @verifySignatureFileStrict toy_crypto sig "bytes" = Ok tt ->
  exists h1, @resolve_package toy_crypto Manifest (demo_world demo_manifest sig config ext) "acme/echo" src_registry demo_url [] =
    (h1, Ok (demo_resolved sig)).
Proof.
  intros Hv. unfold resolve_package, resolveFromRegistry. rewrite tr_bind_run.
  change (tr_lift (parseSpec "acme/echo") []) with (@nil iact, Ok (mkParsed "acme" "echo" None)). cbv iota beta.
  rewrite tr_bind_run.
  eval_http. cbv iota beta zeta. rewrite tr_bind_run. eval_http. cbv iota beta. rewrite !tr_bind_run. unfold act at 1.
  cbv iota beta. rewrite tr_bind_run.
  rewrite Hv. unfold tr_lift. cbv iota beta. eexists. reflexivity.
Qed.

(** The check of a signature does not bind it to the agent: whatever agent and
    version a signature file names, its archive is installed and recorded under the
    name and version that were asked for. *)
Theorem install_accepts_other_agent sig :
  @verifySignatureFileStrict toy_crypto sig "bytes" = Ok tt ->
  let w := demo_world demo_manifest sig cf_absent (Resolved ["agent.yaml"]) in
  (demo_install w false).2 = Ok tt /\
  exists c, last (demo_install w false).1 = Some (ia_save c) /\ is_Some (installed_record c "acme/echo@1.0.0").
Proof.
  intros Hv w. destruct (demo_resolve sig cf_absent (Resolved ["agent.yaml"]) Hv) as [h1 Hr].
  assert (Hrun : exists h2 c, demo_install w false = (h2 ++ [ia_save c], Ok tt) /\ is_Some (installed_record c "acme/echo@1.0.0")).
  { unfold demo_install, installAgent. rewrite tr_bind_run.
    change (tr_lift (loadConfig (w_config w)) []) with (@nil iact, Ok empty_config). cbv iota beta zeta.
    rewrite tr_bind_run. change (nullish _ _) with demo_url. unfold w. rewrite Hr. cbv iota beta.
    eexists _, _. split; [vm_compute; reflexivity|]. by eexists. }
  destruct Hrun as (h2 & c & -> & Hc). split; [done|]. exists c. cbn [fst]. split; [by rewrite last_snoc|done].
Qed.

Lemma install_accepts_other_agent_witness :
  let sig := Registry.demo_signature "evil/tool" "6.6.6" "bytes" in
  sig_name sig = "evil/tool" /\
  (demo_install (demo_world demo_manifest sig cf_absent (Resolved ["agent.yaml"])) false).2 = Ok tt.
Proof.
  split; [done|]. refine (proj1 (install_accepts_other_agent (Registry.demo_signature "evil/tool" "6.6.6" "bytes") _)).
  by vm_compute.
Defined.

(** A reinstallation that fails loses the agent: when the new archive cannot be
    unpacked, the directory of the installed version is already gone, while the
    configuration still lists it. *)
Theorem failed_reinstall_loses_agent entry e :
  let sig := Registry.demo_signature "acme/echo" "1.0.0" "bytes" in
  let config := set_installed [("acme/echo@1.0.0", entry)] empty_config in
  let '(h, res) := demo_install (demo_world demo_manifest sig (cf_saved config) (Rejected e)) true in
  res = Throw e /\ (exists h1, h = h1 ++ [ia_rm "/home/u/.openagenthub/agents/acme/echo/1.0.0";
    ia_mkdir "/home/u/.openagenthub/agents/acme/echo/1.0.0";
    ia_unpack "/tmp/oah/echo-1.0.0.ahb" "/home/u/.openagenthub/agents/acme/echo/1.0.0"]) /\
  (forall c, ia_save c ∉ h) /\ installed_record config "acme/echo@1.0.0" = Some entry.
Proof.
  cbv zeta. unfold demo_install. 
  destruct (installAgent _ _ _ _) as [h res] eqn:E. vm_compute in E. injection E as <- <-.
  split; [done|]. split; [|split; [|done]].
  - eexists [_; _; _; _]. reflexivity.
  - intros c Hin. repeat (apply elem_of_cons in Hin as [[=]|Hin]). by apply elem_of_nil in Hin.
Qed.

(** The version in the registry's manifest is joined into the directory to remove
    unchecked: a version with [..] makes the command remove a directory outside the
    agents directory. *)
Theorem registry_version_removes_outside :
  let m := mkManifest "acme/echo" "../../../../.ssh" "me" "d" "MIT" None None None
    (mkRuntimeSpec python None None None) None [openai]
    (mkInterfaces (Some (mkCli "python main.py" None None)) None None) None None None None None in
  let sig := Registry.demo_signature "acme/echo" "1.0.0" "bytes" in
  AGENTS_DIR demo_home = "/home/u/.openagenthub/agents" /\
  ia_rm "/home/u/.ssh" ∈ (demo_install (demo_world m sig cf_absent (Resolved ["agent.yaml"])) false).1.
Proof.
  split; [done|]. apply list_elem_of_In. vm_compute. tauto.
Qed.
End Installer.
