(* ===== verification/RunAgent.v ===== *)
(** Preparing and executing a run: [cli/src/lib/revocation.ts],
    [cli/src/lib/run-agent.ts] and the foreground part of
    [cli/src/commands/run.ts].  It joins the configuration, the registry client,
    the vault and the runtime. *)
From S2P Require Import Prelude Fs NodePath Trace Manifest Package Versions Requirements Policy Config Resolve Secrets Models.
From S2P Require Import Sandbox Container AgentRuntime Registry Installer Supervisor.

Module RunAgent.
Import Trace Package Requirements Policy Resolve Secrets Installer Config Manifest.
Local Open Scope Z_scope.

(** The configuration file after what was done so far. *)
Definition last_save (h : list iact) : option OpenAgentHubConfig :=
  last (omap (fun a => match a with ia_save c => Some c | _ => None end) h).

Definition disk_at {Doc} (w : world Doc) (h : list iact) : config_file :=
  match last_save h with Some c => cf_saved c | None => w_config w end.

Definition load_config {Doc} (w : world Doc) : tr iact OpenAgentHubConfig := fun h => (h, loadConfig (disk_at w h)).

(** A change of a configuration object that is saved when it was made. *)
Definition save_if (changed : bool) (c : OpenAgentHubConfig) : tr iact unit :=
  if changed then act (ia_save c) (fun _ => Ok tt) else mret tt.

(** ** Revocation *)

(** @src cli/src/lib/revocation.ts RevocationCheck *)
Record RevocationCheck := mkCheck { rv_blocked : option string; rv_staleWarning : option string; rv_statusFresh : bool }.

(** @src cli/src/lib/revocation.ts STATUS_FRESH_MS *)
Definition STATUS_FRESH_MS : Z := 60 * 60 * 1000.

Section run.
Context `{CryptoProvider} {Doc : Type} (w : world Doc).
(** [new Date(s).getTime()], [None] for [NaN], and the current time. *)
Context (date_ms : string -> option Z) (now_ms : Z).

(** @src cli/src/lib/revocation.ts installedIsFresh *)
Definition installedIsFresh (installed : InstalledAgent) : bool :=
  if negb (truthy (ia_statusCheckedAt installed)) then false
  else match date_ms (nullish (ia_statusCheckedAt installed) "") with
       | Some t => now_ms - t <? STATUS_FRESH_MS
       | None => false
       end.

(** @src cli/src/lib/revocation.ts 50-55 checkRevocationBeforeRun *)
Definition revokes (installed : InstalledAgent) (i : Registry.RevocationItem) : bool :=
  String.eqb (Registry.ri_namespace i) (ia_namespace installed) && String.eqb (Registry.ri_name i) (ia_name installed)
  && (String.eqb (Registry.ri_version i) (ia_version installed)
      || bool_decide (ia_archiveDigest installed = Some (Registry.ri_digest i))).

Definition refresh (c : OpenAgentHubConfig) (agentKey : string) (reviewStatus : option string) : tr iact unit :=
  save_if (bool_decide (is_Some (installed_record c agentKey)))
    (mem (recordStatusRefresh agentKey reviewStatus (w_now w) (mkStore c (w_config w)))).

(** @src cli/src/lib/revocation.ts checkRevocationBeforeRun *)
Definition checkRevocationBeforeRun (agentKey : string) (installed : InstalledAgent) (registryUrl : string)
    (token : option string) : tr iact RevocationCheck :=
  if String.eqb registryUrl "" then mret (mkCheck None None false)
  else if installedIsFresh installed then mret (mkCheck None None true)
  else
    reply ← tr_catch (items ← http (Registry.getRevocations (w_fetch w) registryUrl token); mret (Some items)) (fun _ => mret None);
    match reply with
    | None => mret (mkCheck None (Some ("cannot reach " +:+ registryUrl +:+ " to refresh status; last known review status is '"
                +:+ nullish (ia_reviewStatus installed) "unknown" +:+ "'")) false)
    | Some items =>
        config ← load_config w;
        match List.find (revokes installed) items with
        | Some i =>
            _ ← refresh config agentKey (Some (Registry.ri_reviewStatus i));
            mret (mkCheck (Some ("agent was " +:+ Registry.ri_reviewStatus i +:+ " by the registry: " +:+ Registry.ri_reason i))
                    None true)
        | None =>
            _ ← refresh config agentKey (ia_reviewStatus installed);
            mret (mkCheck None None true)
        end
    end.

(** ** The run context *)

(** @src cli/src/lib/run-agent.ts PrepareOptions *)
Record PrepareOptions := mkPrepare {
  po_allowSecrets : bool;
  po_confirmSecrets : option (list string -> list bool);
}.

(** @src cli/src/lib/run-agent.ts RunContext *)
Record RunContext (St : Type) := mkContext {
  x_agentKey : string; x_namespace : string; x_name : string; x_version : string; x_agentDir : string;
  x_manifest : Manifest; x_installed : InstalledAgent; x_config : OpenAgentHubConfig; x_granted : list Permission;
  x_exposedSecrets : list string; x_sandboxOverride : option SandboxOverride; x_reviewStatus : option string;
  x_statusFresh : bool; x_vault : St;
}.
Arguments mkContext {St}. Arguments x_agentKey {St}. Arguments x_namespace {St}. Arguments x_name {St}.
Arguments x_version {St}. Arguments x_agentDir {St}. Arguments x_manifest {St}. Arguments x_installed {St}.
Arguments x_config {St}. Arguments x_granted {St}. Arguments x_exposedSecrets {St}. Arguments x_sandboxOverride {St}.
Arguments x_reviewStatus {St}. Arguments x_statusFresh {St}. Arguments x_vault {St}.

Context {St : Type} `{SecretStore St} (vault : St).
Context (localeCompare : string -> string -> Z) (existsSync : list iact -> string -> bool).

(** Each grant changes the object loaded at the start and saves all of it. *)
Fixpoint save_grants (agentKey : string) (names : list string) (c : OpenAgentHubConfig) : tr iact OpenAgentHubConfig :=
  match names with
  | [] => mret c
  | s :: names =>
      let c' := mem (saveSecretGrant agentKey s (mkStore c (w_config w))) in
      _ ← save_if true c'; save_grants agentKey names c'
  end.

(** The names to grant now.
    @src cli/src/lib/run-agent.ts 88-101 prepareRunContext *)
Definition secrets_to_grant (opts : PrepareOptions) (m : Manifest) (toAsk : list string) : list string :=
  match toAsk with
  | [] => []
  | _ =>
      if po_allowSecrets opts then toAsk
      else match po_confirmSecrets opts with
           | Some answer => map fst (List.filter snd (zip toAsk
               (answer (map (fun s => "expose stored secret '" +:+ s +:+ "' to " +:+ name m +:+ "?") toAsk))))
           | None => []
           end
  end.

(** The granted permissions, whose names the installer wrote.
    @src cli/src/lib/run-agent.ts 103-106 prepareRunContext *)
Definition granted_list (c : OpenAgentHubConfig) (agentKey : string) : list Permission :=
  List.filter (fun p => negb (bool_decide (p = none)))
    (omap (fun kv => permission_of_name (fst kv)) (List.filter snd (grantedPermissions c agentKey))).

(** @src cli/src/lib/run-agent.ts prepareRunContext *)
Definition prepareRunContext (spec : string + ParsedSpec) (opts : PrepareOptions) : tr iact (RunContext St) :=
  parsed ← tr_lift (match spec with inl s => parseSpec s | inr p => Ok p end);
  let '(mkParsed ns nm v) := parsed in
  config ← load_config w;
  found ← tr_lift (resolveInstalledOrThrow localeCompare config ns nm v);
  let '(mkMatch agentKey installed) := found in
  let dir := installedAgentDir (w_home w) (mkKey ns nm (ia_version installed)) in
  present ← (fun h => (h, Ok (existsSync h dir)));
  if negb (present : bool) then
    tr_throw EError ("agent directory missing for " +:+ agentKey +:+ " (reinstall with: openagenthub install "
      +:+ ns +:+ "/" +:+ nm +:+ "@" +:+ ia_version installed +:+ ")")
  else
    '(m, _) ← (fun h => (h, load_at w h dir));
    check ← checkRevocationBeforeRun agentKey installed (nullish (registryUrl config) "https://registry.openagenthub.dev") (w_token w);
    match rv_blocked check with
    | Some b => tr_throw EError ("blocked: " +:+ b)
    | None =>
        let requested := nullish (secrets m) [] in
        vaultSecrets ← tr_lift (ss_get vault agentKey);
        let toAsk := List.filter (fun s => mem_str s (obj_keys vaultSecrets) && negb (mem_str s (grantedSecretNames agentKey config))) requested in
        config' ← save_grants agentKey (secrets_to_grant opts m toAsk) config;
        mret (mkContext agentKey ns nm (ia_version installed) dir m installed config' (granted_list config' agentKey)
          (List.filter (fun s => mem_str s (grantedSecretNames agentKey config')) requested)
          (sandboxOverride config' agentKey) (ia_reviewStatus installed) (rv_statusFresh check) vault)
    end.
End run.

(** @src cli/src/lib/run-agent.ts ExecuteOptions *)
Record ExecuteOptions := mkExecute {
  eo_interfaceName : AgentRuntime.InterfaceName; eo_input : option string; eo_timeoutMs : option Z; eo_interactive : bool;
  eo_model : option string; eo_runId : option string; eo_streamOutput : bool; eo_usageFilePath : option string;
}.

Section execute.
Context {St : Type} `{SecretStore St}.
Context (sha256_hex : string -> string) (exec : list Sandbox.cmd -> Sandbox.cmd -> result unit)
  (dockerCheck : tr Sandbox.cmd bool) (sur : AgentRuntime.surroundings).

(** @src cli/src/lib/run-agent.ts executeAgentRun *)
Definition executeAgentRun (ctx : RunContext St) (opts : ExecuteOptions) (events : list Sandbox.child_event)
    : tr Sandbox.cmd AgentRuntime.RunAgentResult :=
  AgentRuntime.runAgent sha256_hex exec dockerCheck (x_vault _ ctx) sur
    (AgentRuntime.mkRunAgent (x_agentDir _ ctx) (x_manifest _ ctx) (x_agentKey _ ctx) (Some (eo_interfaceName opts))
       (if bool_decide (eo_input opts = Some "") then None else eo_input opts)
       (x_granted _ ctx) (ia_trust (x_installed _ ctx)) (eo_model opts) [] (eo_timeoutMs opts) (eo_interactive opts)
       (eo_streamOutput opts) (x_reviewStatus _ ctx) (Some (x_statusFresh _ ctx)) (x_sandboxOverride _ ctx)
       (ia_archiveDigest (x_installed _ ctx)) (eo_runId opts) (eo_usageFilePath opts))
    events.

(** ** The foreground command *)

Definition run_interface_of (i : AgentRuntime.InterfaceName) : Supervisor.run_interface :=
  match i with
  | AgentRuntime.if_name_cli => Supervisor.ri_cli
  | AgentRuntime.if_name_mcp => Supervisor.ri_mcp
  | AgentRuntime.if_name_http => Supervisor.ri_http
  end.

Definition run_sandbox_of (s : AgentRuntime.used_sandbox) : Supervisor.run_sandbox :=
  match s with
  | AgentRuntime.used_container => Supervisor.rs_container
  | AgentRuntime.used_process => Supervisor.rs_process
  | AgentRuntime.used_none => Supervisor.rs_none
  end.

(** The record written before the agent starts; it holds no process id.
    @src cli/src/commands/run.ts 90-103 run *)
Definition foreground_record (ctx : RunContext St) (runId now : string) (iface : AgentRuntime.InterfaceName) : Supervisor.RunRecord :=
  Supervisor.mkRun runId (x_agentKey _ ctx) (x_version _ ctx) (run_interface_of iface) Supervisor.rs_none false
    Supervisor.starting None None None Supervisor.h_unknown None Supervisor.rp_none now now None None None
    (ia_archiveDigest (x_installed _ ctx)) None None.

(** The record written when it ended.
    @src cli/src/commands/run.ts 115-124 run *)
Definition foreground_final (current : Supervisor.RunRecord) (r : AgentRuntime.RunAgentResult) (outcome : Sandbox.RunResult)
    (now : string) : Supervisor.RunRecord :=
  let code := Sandbox.exitCode outcome in
  Supervisor.mkRun (Supervisor.runId current) (Supervisor.r_agentKey current) (Supervisor.r_version current)
    (Supervisor.r_interface current) (run_sandbox_of (AgentRuntime.ra_sandbox r)) (Supervisor.managed current)
    (if code =? 0 then Supervisor.exited else Supervisor.failed) (Supervisor.pid current) (Supervisor.containerId current)
    (Supervisor.port current) (Supervisor.health current) (Supervisor.timeoutMs current) (Supervisor.restartPolicy current)
    (Supervisor.createdAt current) (Supervisor.startedAt current) (Some now) (Some code)
    (Some (if Sandbox.timedOut outcome then Supervisor.r_timeout
           else if match AgentRuntime.ra_sandbox r with AgentRuntime.used_container => code =? 137 | _ => false end then Supervisor.r_oom
           else Supervisor.r_exit))
    (Supervisor.digest current) (Some (AgentRuntime.ra_model r).1) (Some (AgentRuntime.ra_model r).2).

(** The files of the run directory after the command, and what it returned: when
    the runtime throws nothing more is written, and while the child runs
    ([ra_result] is [None]) neither.
    @src cli/src/commands/run.ts 89-125 run *)
Definition run_foreground (ctx : RunContext St) (opts : ExecuteOptions) (events : list Sandbox.child_event)
    (runId now now_end self : string) (m : Fs.fs Supervisor.run_file)
    : Fs.fs Supervisor.run_file * result AgentRuntime.RunAgentResult :=
  let history := foreground_record ctx runId now (eo_interfaceName opts) in
  let m1 := Supervisor.writeRun self history m in
  match (executeAgentRun ctx opts events []).2 with
  | Throw e => (m1, Throw e)
  | Ok r =>
      match AgentRuntime.ra_result r with
      | None => (m1, Ok r)
      | Some outcome =>
          (Supervisor.writeRun self (foreground_final (nullish (Supervisor.readRun m1 runId) history) r outcome now_end) m1, Ok r)
      end
  end.
End execute.

(** ** Properties of the revocation check *)
Section check_facts.
Context `{CryptoProvider} {Doc : Type} (w : world Doc) (date_ms : string -> option Z) (now_ms : Z).

Lemma last_save_app h l c : last_save (h ++ l ++ [ia_save c]) = Some c.
Proof. unfold last_save. rewrite app_assoc, omap_app. cbn. by rewrite last_snoc. Qed.

Lemma omap_http l : omap (fun a => match a with ia_save c => Some c | _ => None end) (map ia_http l) = [].
Proof. by induction l. Qed.

(** A call of the registry saves nothing. *)
Lemma http_keeps_disk {A} (m : tr Registry.Request A) h : disk_at w (http m h).1 = disk_at w h.
Proof.
  unfold http. destruct (m (requests h)) as [rqs r]. unfold disk_at, last_save. cbn [fst].
  by rewrite omap_app, omap_http, app_nil_r.
Qed.

Lemma check_revocation_run agentKey installed url token h h1 items c r0 :
  url <> "" -> installedIsFresh date_ms now_ms installed = false ->
  http (Registry.getRevocations (w_fetch w) url token) h = (h1, Ok items) ->
  loadConfig (disk_at w h) = Ok c -> installed_record c agentKey = Some r0 ->
  exists status c' ck,
    checkRevocationBeforeRun w date_ms now_ms agentKey installed url token h = (h1 ++ [ia_save c'], Ok ck) /\
    rv_statusFresh ck = true /\ rv_staleWarning ck = None /\
    match List.find (revokes installed) items with
    | Some i => status = Some (Registry.ri_reviewStatus i) /\ is_Some (rv_blocked ck)
    | None => status = ia_reviewStatus installed /\ rv_blocked ck = None
    end /\
    installed_record c' agentKey = Some (refreshed r0 status (w_now w)) /\
    (forall k, k <> agentKey -> installed_record c' k = installed_record c k).
Proof.
  intros Hu Hf Hh Hc Hr. unfold checkRevocationBeforeRun. apply String.eqb_neq in Hu. rewrite Hu, Hf.
  rewrite tr_bind_run. unfold tr_catch. rewrite tr_bind_run, Hh. cbn [mret tr_mret tr_ret].
  pose proof (http_keeps_disk (Registry.getRevocations (w_fetch w) url token) h) as Hd. rewrite Hh in Hd. cbn [fst] in Hd.
  rewrite tr_bind_run. unfold load_config. rewrite Hd, Hc.
  assert (Href : forall status, refresh w c agentKey status h1 =
    (h1 ++ [ia_save (mem (recordStatusRefresh agentKey status (w_now w) (mkStore c (w_config w))))], Ok tt)).
  { intros status. unfold refresh, save_if. rewrite Hr. cbn. done. }
  assert (Hlook : forall status k,
    installed_record (mem (recordStatusRefresh agentKey status (w_now w) (mkStore c (w_config w)))) k =
      if String.eqb agentKey k then Some (refreshed r0 status (w_now w)) else installed_record c k).
  { intros status k. rewrite recordStatusRefresh_lookup. cbn. by rewrite Hr. }
  destruct (List.find (revokes installed) items) as [i|]; rewrite tr_bind_run, Href;
    eexists _, _, _; (split; [reflexivity|]); cbn [rv_statusFresh rv_staleWarning rv_blocked];
    (split; [done|]); (split; [done|]); (split; [by eauto|]); split; intros;
    rewrite Hlook, ?String.eqb_refl; try done; (destruct (String.eqb_spec agentKey k); [congruence|done]).
Qed.

(** C12: When the registry answers, a stale agent is blocked exactly when the
    registry's list names it, by version or by the digest of its archive; either
    way its record, and only its record, is saved with the status and the time of
    the check. *)
Theorem checkRevocation_spec agentKey installed url token h h1 items c r0 :
  url <> "" -> installedIsFresh date_ms now_ms installed = false ->
  http (Registry.getRevocations (w_fetch w) url token) h = (h1, Ok items) ->
  loadConfig (disk_at w h) = Ok c -> installed_record c agentKey = Some r0 ->
  exists c' ck,
    checkRevocationBeforeRun w date_ms now_ms agentKey installed url token h = (h1 ++ [ia_save c'], Ok ck) /\
    (is_Some (rv_blocked ck) <-> exists i, i ∈ items /\ Registry.ri_namespace i = ia_namespace installed /\
       Registry.ri_name i = ia_name installed /\
       (Registry.ri_version i = ia_version installed \/ ia_archiveDigest installed = Some (Registry.ri_digest i))) /\
    installed_record c' agentKey = Some (refreshed r0 (match List.find (revokes installed) items with
      | Some i => Some (Registry.ri_reviewStatus i) | None => ia_reviewStatus installed end) (w_now w)) /\
    (forall k, k <> agentKey -> installed_record c' k = installed_record c k).
Proof.
  intros Hu Hf Hh Hc Hr.
  destruct (check_revocation_run _ _ _ _ _ _ _ _ _ Hu Hf Hh Hc Hr) as (status & c' & ck & Hrun & _ & _ & Hfind & Hrec & Hoth).
  exists c', ck. split; [done|].
  assert (Hst : status = match List.find (revokes installed) items with
      | Some i => Some (Registry.ri_reviewStatus i) | None => ia_reviewStatus installed end)
    by (destruct (List.find _ _); by destruct Hfind). rewrite <- Hst. split; [|done].
  assert (Hrv : forall i, revokes installed i = true <-> Registry.ri_namespace i = ia_namespace installed /\
       Registry.ri_name i = ia_name installed /\
       (Registry.ri_version i = ia_version installed \/ ia_archiveDigest installed = Some (Registry.ri_digest i))).
  { intros i. unfold revokes. rewrite !andb_true_iff, orb_true_iff, bool_decide_eq_true, !String.eqb_eq. tauto. }
  destruct (List.find (revokes installed) items) as [i|] eqn:E.
  - destruct Hfind as [_ Hb]. split; [|done]. intros _. apply find_some in E as [Hin Hi].
    exists i. split; [by apply list_elem_of_In|by apply Hrv].
  - destruct Hfind as [_ ->]. split; [by intros [? [=]]|]. intros (i & Hin & Hi). exfalso.
    pose proof (find_none _ _ E i) as Hn. apply Hrv in Hi. rewrite Hn in Hi; [done|by apply list_elem_of_In].
Qed.

(** The block does not last: the registry also lists versions that its scan
    flagged, whose review status is not [rejected] or [revoked].  The first run is
    blocked, and the refreshed record it saves makes a retry within the hour run:
    no request is sent, nothing blocks, and the sandbox policy does not either. *)
Theorem flagged_agent_runs_on_retry agentKey installed url token h h1 items c i t0 trust m o :
  url <> "" -> installedIsFresh date_ms now_ms installed = false ->
  http (Registry.getRevocations (w_fetch w) url token) h = (h1, Ok items) ->
  loadConfig (disk_at w h) = Ok c -> installed_record c agentKey = Some installed ->
  List.find (revokes installed) items = Some i ->
  Registry.ri_reviewStatus i <> "rejected" -> Registry.ri_reviewStatus i <> "revoked" ->
  w_now w <> "" -> date_ms (w_now w) = Some t0 ->
  exists c' ck,
    checkRevocationBeforeRun w date_ms now_ms agentKey installed url token h = (h1 ++ [ia_save c'], Ok ck) /\
    is_Some (rv_blocked ck) /\
    exists installed', installed_record c' agentKey = Some installed' /\
      forall later h2, later - t0 < STATUS_FRESH_MS ->
        checkRevocationBeforeRun w date_ms later agentKey installed' url token h2 = (h2, Ok (mkCheck None None true)) /\
        dc_blocked (effectiveSandbox (mkInput trust m (ia_reviewStatus installed') (Some true) o (ia_archiveDigest installed'))) = None.
Proof.
  intros Hu Hf Hh Hc Hr Hi Hn1 Hn2 Hnow Ht.
  destruct (check_revocation_run _ _ _ _ _ _ _ _ _ Hu Hf Hh Hc Hr) as (status & c' & ck & Hrun & _ & _ & Hfind & Hrec & _).
  rewrite Hi in Hfind. destruct Hfind as [-> Hb]. exists c', ck. split; [done|]. split; [done|].
  eexists. split; [exact Hrec|]. intros later h2 Hl. split.
  - unfold checkRevocationBeforeRun. apply String.eqb_neq in Hu. rewrite Hu.
    assert (Hfr : installedIsFresh date_ms later (refreshed installed (Some (Registry.ri_reviewStatus i)) (w_now w)) = true).
    { unfold installedIsFresh, refreshed. cbn -[STATUS_FRESH_MS]. apply String.eqb_neq in Hnow. rewrite Hnow. cbn -[STATUS_FRESH_MS].
      rewrite Ht. by apply Z.ltb_lt. }
    by rewrite Hfr.
  - destruct (dc_blocked _) eqn:E; [|done]. exfalso.
    assert (Hs : is_Some (dc_blocked (effectiveSandbox (mkInput trust m (Some (Registry.ri_reviewStatus i)) (Some true) o
      (ia_archiveDigest installed))))) by (eexists; exact E).
    apply blocked_iff_status in Hs as [[=]|[=]]; done.
Qed.
End check_facts.
(** ** Properties of the run context *)
Section prepare_facts.
Context `{CryptoProvider} {Doc : Type} (w : world Doc) (date_ms : string -> option Z) (now_ms : Z).
Context {St : Type} `{SecretStore St} (vault : St) (localeCompare : string -> string -> Z)
  (existsSync : list iact -> string -> bool).

Lemma save_grants_disk agentKey names c h h' c' :
  save_grants w agentKey names c h = (h', Ok c') ->
  installed c' = installed c /\ (c' = c /\ h' = h \/ disk_at w h' = cf_saved c').
Proof.
  revert c h. induction names as [|s names IH]; intros c h; cbn [save_grants].
  - intros [-> ->]%tr_ret_ok. split; [done|by left].
  - cbv zeta. rewrite tr_bind_run. unfold save_if. cbn [act]. intros Hs. apply IH in Hs as [Hi Hd].
    split; [exact Hi|]. right. destruct Hd as [[-> ->]|Hd]; [|done].
    unfold disk_at, last_save. rewrite omap_app. cbn [omap list_omap]. by rewrite last_snoc.
Qed.

(** Granting a secret undoes the refresh of the revocation check: the command
    saves the configuration object it loaded at its start, so that the installed
    table on disk, with the status and the time of the check, is again the one from
    before the check. *)
Theorem grant_overwrites_refresh spec opts h h' ctx c0 :
  prepareRunContext w date_ms now_ms vault localeCompare existsSync spec opts h = (h', Ok ctx) ->
  loadConfig (disk_at w h) = Ok c0 ->
  x_config _ ctx <> c0 ->
  disk_at w h' = cf_saved (x_config _ ctx) /\ installed (x_config _ ctx) = installed c0.
Proof.
  unfold prepareRunContext. intros Hrun Hc Hne. tr_inv Hrun as [ns nm v] Hp. apply tr_lift_ok in Hp as [_ ->].
  tr_inv Hrun as config Hl. unfold load_config in Hl. rewrite Hc in Hl. injection Hl as <- <-.
  tr_inv Hrun as [agentKey inst] Hm. apply tr_lift_ok in Hm as [_ ->].
  tr_inv Hrun as present Hpr. destruct present; [|done]. cbn [negb] in Hrun.
  tr_inv Hrun as [m path] Hload. tr_inv Hrun as ck Hck. destruct (rv_blocked ck); [done|].
  tr_inv Hrun as stored Hst. cbv zeta in Hrun. tr_inv Hrun as config' Hg. apply tr_ret_ok in Hrun as [<- ->].
  cbn [x_config] in *. apply save_grants_disk in Hg as [Hi [[-> _]|Hd]]; [done|]. done.
Qed.
End prepare_facts.

(** ** Properties of a run *)
Section execute_facts.
Context {St : Type} `{SecretStore St}.
Context (sha256_hex : string -> string) (exec : list Sandbox.cmd -> Sandbox.cmd -> result unit)
  (dockerCheck : tr Sandbox.cmd bool) (sur : AgentRuntime.surroundings).

(** The consent for secrets is not enforced: every secret stored for the agent
    reaches the environment of its process, also one that the manifest does not
    request or that the user declined to expose. *)
Theorem declined_secret_reaches_agent (ctx : RunContext St) opts events h h' r stored k v :
  executeAgentRun sha256_hex exec dockerCheck sur ctx opts events h = (h', Ok r) ->
  AgentRuntime.ra_sandbox r = AgentRuntime.used_process ->
  ss_get (x_vault _ ctx) (x_agentKey _ ctx) = Ok stored -> NoDup (obj_keys stored) ->
  obj_get k stored = Some v -> k ∉ AgentRuntime.reserved_env -> k ∉ x_exposedSecrets _ ctx ->
  exists h0 prog args env,
    h' = h0 ++ [Sandbox.mkCmd prog args (Some (x_agentDir _ ctx)) (Some env)] /\ obj_get k env = Some v.
Proof.
  intros Hrun Hp Hs Hnd Hk Hres _.
  exact (AgentRuntime.runAgent_process_env sha256_hex exec dockerCheck (x_vault _ ctx) sur _ events h h' r stored k v
    Hrun Hp Hs Hnd eq_refl Hk Hres).
Qed.

(** A foreground run is taken for crashed while it runs: its record has no
    process id, so that reconciling the records from another command ends it,
    whatever processes are alive; and when the runtime refuses the run, the record
    stays [starting]. *)
Theorem foreground_record_reconciled (ctx : RunContext St) opts events runId now now_end self m probe now' :
  let m' := (run_foreground sha256_hex exec dockerCheck sur ctx opts events runId now now_end self m).1 in
  let res := (run_foreground sha256_hex exec dockerCheck sur ctx opts events runId now now_end self m).2 in
  (forall r, res = Ok r -> AgentRuntime.ra_result r = None ->
     exists record, Supervisor.readRun m' runId = Some record /\
       Supervisor.state (Supervisor.reconcileRun probe now' record) = Supervisor.exited /\
       Supervisor.exitReason (Supervisor.reconcileRun probe now' record) = Some Supervisor.r_crashed) /\
  (forall e, res = Throw e ->
     exists record, Supervisor.readRun m' runId = Some record /\ Supervisor.state record = Supervisor.starting /\
       Supervisor.endedAt record = None).
Proof.
  intros m' res. unfold m', res, run_foreground. cbv zeta.
  assert (Hread : Supervisor.readRun (Supervisor.writeRun self (foreground_record ctx runId now (eo_interfaceName opts)) m) runId =
    Some (foreground_record ctx runId now (eo_interfaceName opts))).
  { apply (Supervisor.read_written self (foreground_record ctx runId now (eo_interfaceName opts)) m). }
  destruct (executeAgentRun _ _ _ _ _ _ _ _).2 as [r|e]; cbn [fst snd].
  - split; [|by destruct (AgentRuntime.ra_result r)]. intros r' Hr Hnone.
    destruct (AgentRuntime.ra_result r) as [out|] eqn:E; cbn [fst snd] in *; injection Hr as <-; [congruence|].
    eexists. split; [exact Hread|]. done.
  - split; [done|]. intros e' _. eexists. split; [exact Hread|]. done.
Qed.
End execute_facts.

(** ** Witnesses *)
Definition demo_agent : InstalledAgent :=
  mkInstalled "echo" "acme" "1.0.0" "me" trusted "2026-01-01" "https://r" None (Some "verified") None (Some "d1").

Definition demo_config : OpenAgentHubConfig := set_installed [("acme/echo@1.0.0", demo_agent)] empty_config.

Definition secret_manifest : Manifest :=
  mkManifest "acme/echo" "1.0.0" "me" "d" "MIT" None None None (mkRuntimeSpec python None None None) None [openai]
    (mkInterfaces (Some (mkCli "python main.py" None None)) None None) None None None None (Some ["KEY"]).

(** The scan flagged version 1.0.0, which a reviewer had verified. *)
Definition flagged : Registry.RevocationItem :=
  Registry.mkRevocation "acme" "echo" "1.0.0" "d1" "version was flagged by the security scan" "verified" "flagged" "now".

Definition demo_run_world (items : list Registry.RevocationItem) : world Manifest :=
  mkWorld Manifest
    (Registry.demo_fetch (Registry.demo_detail (Registry.demo_signature "acme/echo" "1.0.0" "bytes") None) "bytes" items)
    demo_home "/home/u/work" "/tmp/oah" "now" (cf_saved demo_config) None (fun _ _ => Ok "")
    (fun _ _ => TDir []) (fun _ => throw EError "no signature") (fun _ _ => Resolved []) (fun _ _ => "n")
    (detectRuntime (fun _ => None)) (fun _ => Ok secret_manifest) (fun _ => []) (fun d => d).

Definition demo_ms (s : string) : option Z := if String.eqb s "now" then Some 1000 else None.

Definition demo_check_history : list iact :=
  [ia_http (Registry.mkRequest "GET" "https://r/api/v1/revocations" [("Accept", "application/json")] Registry.rb_none)].

Lemma checkRevocation_spec_witness :
  exists c' ck,
    @checkRevocationBeforeRun Manifest (demo_run_world [flagged]) demo_ms 1000 "acme/echo@1.0.0" demo_agent
      "https://r" None [] = (demo_check_history ++ [ia_save c'], Ok ck) /\ is_Some (rv_blocked ck).
Proof.
  destruct (@checkRevocation_spec Manifest (demo_run_world [flagged]) demo_ms 1000 "acme/echo@1.0.0" demo_agent
    "https://r" None [] demo_check_history [flagged] demo_config demo_agent) as (c' & ck & Hrun & [_ Hb] & _).
  1,2,3,4,5: by vm_compute.
  exists c', ck. split; [exact Hrun|]. apply Hb. exists flagged. split; [by left|]. split_and!; [done..|by left].
Defined.

Lemma flagged_agent_runs_on_retry_witness :
  exists c' ck installed',
    @checkRevocationBeforeRun Manifest (demo_run_world [flagged]) demo_ms 1000 "acme/echo@1.0.0" demo_agent
      "https://r" None [] = (demo_check_history ++ [ia_save c'], Ok ck) /\ is_Some (rv_blocked ck) /\
    installed_record c' "acme/echo@1.0.0" = Some installed' /\
    @checkRevocationBeforeRun Manifest (demo_run_world [flagged]) demo_ms 2000 "acme/echo@1.0.0" installed'
      "https://r" None [] = ([], Ok (mkCheck None None true)).
Proof.
  destruct (@flagged_agent_runs_on_retry Manifest (demo_run_world [flagged]) demo_ms 1000 "acme/echo@1.0.0"
    demo_agent "https://r" None [] demo_check_history [flagged] demo_config flagged 1000 trusted secret_manifest None)
    as (c' & ck & Hrun & Hb & installed' & Hrec & Hretry).
  1,2,3,4,5,6,7,8,9,10: by vm_compute.
  exists c', ck, installed'. split; [exact Hrun|]. split; [exact Hb|]. split; [exact Hrec|].
  exact (proj1 (Hretry 2000 [] eq_refl)).
Defined.

Definition demo_prepare : list iact * result (RunContext vstore) :=
  @prepareRunContext Manifest (demo_run_world []) demo_ms 1000 vstore toy_store (toy_state "acme/echo@1.0.0" demo_secrets)
    code_unit_compare (fun _ _ => true) (inl "acme/echo") (mkPrepare true None) [].

Definition demo_context : RunContext vstore :=
  mkContext _ "acme/echo@1.0.0" "acme" "echo" "1.0.0" "/home/u/.openagenthub/agents/acme/echo/1.0.0" secret_manifest demo_agent
    (mem (saveSecretGrant "acme/echo@1.0.0" "KEY" (mkStore demo_config cf_absent))) [] ["KEY"] None (Some "verified") true
    (toy_state "acme/echo@1.0.0" demo_secrets).

Lemma grant_overwrites_refresh_witness :
  demo_prepare.2 = Ok demo_context /\
  disk_at (demo_run_world []) demo_prepare.1 = cf_saved (x_config _ demo_context) /\
  installed (x_config _ demo_context) = installed demo_config /\
  exists refreshed_config, ia_save refreshed_config ∈ demo_prepare.1 /\
    ia_statusCheckedAt <$> installed_record refreshed_config "acme/echo@1.0.0" = Some (Some "now").
Proof.
  assert (Hrun : demo_prepare.2 = Ok demo_context) by (vm_compute; reflexivity). split; [exact Hrun|].
  destruct (@grant_overwrites_refresh Manifest (demo_run_world []) demo_ms 1000 vstore toy_store
    (toy_state "acme/echo@1.0.0" demo_secrets) code_unit_compare (fun _ _ => true) (inl "acme/echo") (mkPrepare true None) []
    demo_prepare.1 demo_context demo_config) as [Hd Hi].
  - rewrite <- Hrun. apply surjective_pairing.
  - done.
  - intros Heq. discriminate (f_equal secretGrants Heq).
  - split; [exact Hd|]. split; [exact Hi|].
    exists (mem (recordStatusRefresh "acme/echo@1.0.0" (Some "verified") "now" (mkStore demo_config cf_absent))).
    split; [|by vm_compute]. apply list_elem_of_In. vm_compute. tauto.
Defined.

Definition declining_context : RunContext vstore :=
  mkContext _ "acme/echo@1.0.0" "acme" "echo" "1.0.0" "/agents/echo" (AgentRuntime.demo_manifest []) demo_agent demo_config []
    [] None (Some "verified") true (toy_state "acme/echo@1.0.0" demo_secrets).

Definition demo_execute : list Sandbox.cmd * result AgentRuntime.RunAgentResult :=
  @executeAgentRun vstore toy_store (fun s => s) (fun _ _ => Ok tt) (mret true) AgentRuntime.demo_sur declining_context
    (mkExecute AgentRuntime.if_name_cli None None false None None false None)
    [Sandbox.ev_stdout "hi"; Sandbox.ev_close (Some 0)] [].

Lemma declined_secret_reaches_agent_witness :
  x_exposedSecrets _ declining_context = [] /\
  exists h0 prog args env,
    demo_execute.1 = h0 ++ [Sandbox.mkCmd prog args (Some "/agents/echo") (Some env)] /\ obj_get "KEY" env = Some "1".
Proof.
  split; [done|].
  apply (@declined_secret_reaches_agent vstore toy_store (fun s => s) (fun _ _ => Ok tt) (mret true) AgentRuntime.demo_sur
    declining_context (mkExecute AgentRuntime.if_name_cli None None false None None false None)
    [Sandbox.ev_stdout "hi"; Sandbox.ev_close (Some 0)] [] demo_execute.1
    (AgentRuntime.mkRunAgentResult (Some (Sandbox.mkRunResult 0 "hi" "" false)) AgentRuntime.if_name_cli
       AgentRuntime.used_process ("ollama", "llama3.1") (Some "trusted or local agent; using fast isolated-process path"))
    demo_secrets "KEY" "1").
  - vm_compute. reflexivity.
  - done.
  - apply toy_get. exact demo_nodup.
  - exact demo_nodup.
  - done.
  - apply (bool_decide_unpack _). by vm_compute.
  - apply (bool_decide_unpack _). by vm_compute.
Defined.
End RunAgent.
