(* ===== verification/Commands.v ===== *)
(** Commands that change the account, the installed agents and their sandbox:
    [cli/src/commands/login.ts], [logout.ts], [uninstall.ts], [verify.ts],
    [sandbox/set.ts] and [sandbox/reset.ts].  A command's effects are the trace of
    the [tr] monad; [this.error] throws, and only the message of what it reports is
    meant. *)
From S2P Require Import Prelude Fs NodePath Trace Manifest Package Versions Requirements Policy Config Resolve Secrets.
From S2P Require Import Registry Installer.

Module Commands.
Import Trace Package Requirements Policy Resolve Secrets Installer Manifest Config.
Local Open Scope Z_scope.

(** What a command does to the outside. *)
Inductive cact :=
| ca_http (rq : Registry.Request)
| ca_sleep (ms : Z)
| ca_open (url : string)
| ca_credential (c : CliCredential)
| ca_forget (url : string)
| ca_save (c : OpenAgentHubConfig)
| ca_rm (dir : string)
| ca_vault_delete (key : string).

Definition sent (h : list cact) : list Registry.Request :=
  omap (fun a => match a with ca_http rq => Some rq | _ => None end) h.

Definition http {A} (m : tr Registry.Request A) : tr cact A := fun h =>
  let '(rqs, r) := m (sent h) in (h ++ map ca_http (drop (length (sent h)) rqs), r).

Definition done_ {A} (a : cact) (r : A) : tr cact A := act a (fun _ => Ok r).

(** ** Signing in *)
Section login.
Context (fetch : forall k : Registry.kind, list Registry.Request -> Registry.Request ->
  result (Registry.Response (Registry.answer_type k))).
(** [Date.now()] after the actions done so far, the time a credential is stored,
    what saving a credential answers, and the configuration file. *)
Context (clock : list cact -> Z) (now : string) (save_ok : CliCredential -> result unit) (config : config_file).

Definition set_registryUrl (url : string) (c : OpenAgentHubConfig) : OpenAgentHubConfig :=
  mkConfig (Some url) (token c) (installed c) (permissions c) (secretGrants c) (sandboxOverrides c).

Definition store_credential (c : CliCredential) : tr cact unit := act (ca_credential c) (fun _ => save_ok c).

(** @src cli/src/commands/login.ts tokenFlow *)
Definition tokenFlow (registryUrl token : string) : tr cact string :=
  config ← tr_lift (loadConfig config);
  _ ← done_ (ca_save (set_registryUrl registryUrl config)) tt;
  _ ← store_credential (mkCred token "" registryUrl "legacy-github" now);
  tr_catch
    (m ← http (Registry.me fetch registryUrl (Some token));
     _ ← store_credential (mkCred token (Registry.me_username m) registryUrl "legacy-github" now);
     mret ("authenticated as " +:+ Registry.me_username m +:+ " at " +:+ registryUrl))
    (fun err => mret ("token stored locally (registry " +:+ registryUrl +:+ " not reachable: " +:+ err_message err +:+ ")")).

Definition expired_message : string := "device login expired. Run 'openagenthub login' to try again.".

(** One poll: the login is over with a user name, or it goes on, or it fails.
    @src cli/src/commands/login.ts 110-139 deviceFlow *)
Definition poll_once (registryUrl deviceCode : string) : tr cact (option string) :=
  tr_catch
    (r ← http (Registry.pollDeviceToken fetch registryUrl None deviceCode);
     _ ← store_credential (mkCred (Registry.dt_accessToken r) (Registry.dt_username r) registryUrl (Registry.dt_tokenType r) now);
     let c := match loadConfig config with Ok c => c | Throw _ => empty_config end in
     _ ← done_ (ca_save (set_registryUrl registryUrl c)) tt;
     mret (Some (Registry.dt_username r)))
    (fun err =>
      if bool_decide (err_class err = EDeviceAuthPending) then mret None
      else if js_includes (err_message err) "expired_token" then tr_throw EError expired_message
      else tr_throw EError ("device login failed: " +:+ err_message err)).

(** The loop, with fuel: [None] when it runs out.
    @src cli/src/commands/login.ts 104-140 deviceFlow *)
Fixpoint poll_loop (fuel : nat) (registryUrl deviceCode : string) (deadline intervalMs : Z) : tr cact (option string) := fun h =>
  match fuel with
  | O => (h, Ok None)
  | S fuel =>
      (if deadline <? clock h then tr_throw EError expired_message
       else
         _ ← done_ (ca_sleep intervalMs) tt;
         r ← poll_once registryUrl deviceCode;
         match r with
         | Some user => mret (Some user)
         | None => poll_loop fuel registryUrl deviceCode deadline intervalMs
         end) h
  end.

(** @src cli/src/commands/login.ts deviceFlow *)
Definition deviceFlow (fuel : nat) (registryUrl : string) (noBrowser : bool) : tr cact (option string) :=
  start ← tr_catch (http (Registry.startDeviceLogin fetch registryUrl None "cli"))
    (fun err => tr_throw EError ("could not start device login at " +:+ registryUrl +:+ ": " +:+ err_message err));
  _ ← (if noBrowser then mret tt else done_ (ca_open (Registry.dl_verificationUri start)) tt);
  deadline ← (fun h => (h, Ok (clock h + Registry.dl_expiresIn start * 1000)));
  poll_loop fuel registryUrl (Registry.dl_deviceCode start) deadline (Z.max (Registry.dl_interval start) 5 * 1000).
End login.

(** ** Signing out *)

Definition delete_token (c : OpenAgentHubConfig) : OpenAgentHubConfig :=
  mkConfig (registryUrl c) None (installed c) (permissions c) (secretGrants c) (sandboxOverrides c).

Section logout.
Context {St : Type} `{SecretStore St} (url_origin : string -> option string) (cred_parse : string -> option CliCredential).
Context (fetch : forall k : Registry.kind, list Registry.Request -> Registry.Request ->
  result (Registry.Response (Registry.answer_type k))).

Fixpoint revoke_each (registryUrl token : string) (ids : list Z) : tr cact unit :=
  match ids with
  | [] => mret tt
  | i :: ids => _ ← http (Registry.revokeSession fetch registryUrl (Some token) i); revoke_each registryUrl token ids
  end.

(** Whether the session was revoked at the registry, the vault and the
    configuration afterwards.
    @src cli/src/commands/logout.ts 14-43 run *)
Definition logout (registryUrl : string) (all : bool) (s : St) (config : config_file) : tr cact (bool * St * OpenAgentHubConfig) :=
  tk ← tr_lift (match getCredential url_origin cred_parse s registryUrl with
                | Some c => if negb (String.eqb (accessToken c) "") then Ok (Some (accessToken c)) else (c ← loadConfig config; mret (token c))
                | None => c ← loadConfig config; mret (token c) end);
  revokedRemote ←
    (if truthy tk then
       tr_catch
         (_ ← (if all then
                 (sessions ← http (Registry.mySessions fetch registryUrl tk);
                  revoke_each registryUrl (nullish tk "")
                    (map Registry.si_id (List.filter (fun x => String.eqb (Registry.si_audience x) "cli" && negb (Registry.si_revoked x)) sessions)))
               else http (Registry.logoutMe fetch registryUrl tk));
          mret true)
         (fun _ => mret false)
     else mret false);
  s' ← act (ca_forget registryUrl) (fun _ => deleteCredential url_origin s registryUrl);
  config ← tr_lift (loadConfig config);
  let config' := delete_token config in
  _ ← done_ (ca_save config') tt;
  mret (revokedRemote, s', config').
End logout.

(** ** Uninstalling *)
Section installed.
Context (localeCompare : string -> string -> Z) (home : Home) (existsSync : string -> bool).

Definition delete_entry (key : string) (c : OpenAgentHubConfig) : OpenAgentHubConfig :=
  mkConfig (registryUrl c) (token c) (obj_delete key <$> installed c) (obj_delete key <$> permissions c)
    (secretGrants c) (sandboxOverrides c).

Fixpoint remove_each (ns nm : string) (candidates : list InstalledMatch) (c : OpenAgentHubConfig) : tr cact OpenAgentHubConfig :=
  match candidates with
  | [] => mret c
  | m :: rest =>
      let dir := installedAgentDir home (mkKey ns nm (ia_version (m_record m))) in
      _ ← (if existsSync dir then done_ (ca_rm dir) tt else mret tt);
      remove_each ns nm rest (delete_entry (m_key m) c)
  end.

Fixpoint forget_each (keys : list string) : tr cact unit :=
  match keys with [] => mret tt | k :: ks => _ ← done_ (ca_vault_delete k) tt; forget_each ks end.

(** The installed versions a spec names.
    @src cli/src/commands/uninstall.ts 24-27 run *)
Definition uninstall_candidates (c : OpenAgentHubConfig) (p : ParsedSpec) : list InstalledMatch :=
  let candidates := installedMatches localeCompare c (sp_namespace p) (sp_name p) in
  match sp_version p with
  | Some v => List.filter (fun m => String.eqb (ia_version (m_record m)) v) candidates
  | None => candidates
  end.

(** [open_vault] is what [SecretsVault.open] answers.
    @src cli/src/commands/uninstall.ts 13-52 run *)
Definition uninstall (config : config_file) (open_vault : result unit) (spec : string) : tr cact unit :=
  p ← tr_lift (parseSpec spec);
  let '(mkParsed ns nm v) := p in
  c ← tr_lift (loadConfig config);
  let candidates := uninstall_candidates c p in
  match candidates with
  | [] => tr_throw EError ("agent '" +:+ ns +:+ "/" +:+ nm +:+ match v with Some v => "@" +:+ v | None => "" end +:+ "' is not installed")
  | _ =>
      if (1 <? Z.of_nat (length candidates)) && negb (bool_decide (is_Some v)) then
        tr_throw EError ("multiple versions of '" +:+ ns +:+ "/" +:+ nm +:+ "' are installed ("
          +:+ js_join ", " (map (fun m => ia_version (m_record m)) candidates)
          +:+ "); specify the version to remove: openagenthub uninstall " +:+ ns +:+ "/" +:+ nm +:+ "@<version>")
      else
        c' ← remove_each ns nm candidates c;
        _ ← done_ (ca_save c') tt;
        _ ← tr_lift open_vault;
        forget_each (map (fun m => ns +:+ "/" +:+ nm +:+ "@" +:+ ia_version (m_record m)) candidates)
  end.

(** ** The sandbox override *)

(** [archive] is the text of a file of the agent's directory, when it exists.
    @src cli/src/commands/sandbox/set.ts 29-78 run *)
Definition sandbox_set `{CryptoProvider} (archive : string -> option string) (now : string) (config : config_file) (spec : string)
    (mode : SandboxMode) (acknowledge : bool) : result OpenAgentHubConfig :=
  p ← parseSpec spec;
  c ← loadConfig config;
  found ← resolveInstalledOrThrow localeCompare c (sp_namespace p) (sp_name p) (sp_version p);
  let '(mkMatch agentKey ia) := found in
  let dir := installedAgentDir home (mkKey (sp_namespace p) (sp_name p) (ia_version ia)) in
  _ ← (match mode with
       | m_container => Ok tt
       | m_process =>
           if negb (bool_decide (ia_trust ia = trusted)) && negb (bool_decide (ia_trust ia = local)) then
             throw EError ("process override is only allowed for trusted or local agents (this agent is '" +:+ trust_name (ia_trust ia) +:+ "')")
           else if negb acknowledge then
             throw EError "running an agent in a host process removes container isolation; pass --acknowledge-risk to confirm"
           else Ok tt
       end);
  digest ← (match archive (NodePath.join dir "archive.ahb") with
            | Some content => Ok (sha256Hex content)
            | None => if bool_decide (ia_trust ia = local) then Ok "local"
                      else throw EError ("cannot compute archive digest for " +:+ agentKey +:+ "; reinstall the agent first")
            end);
  mret (mem (setSandboxOverride agentKey mode digest now (mkStore c config))).

(** The configuration to save, and whether there was an override.
    @src cli/src/commands/sandbox/reset.ts 11-35 run *)
Definition sandbox_reset (config : config_file) (spec : string) : result (OpenAgentHubConfig * bool) :=
  p ← parseSpec spec;
  c ← loadConfig config;
  found ← resolveInstalledOrThrow localeCompare c (sp_namespace p) (sp_name p) (sp_version p);
  let '(s, changed) := clearSandboxOverride (m_key found) (mkStore c config) in
  mret (mem s, changed).

(** ** Verifying *)

(** [load] is [loadManifestFromDir], [readSignature] reads and parses a signature
    file and [archive] the text of a file that exists; the verdict is the line the
    command prints last.
    @src cli/src/commands/verify.ts 14-59 run *)
Definition verify `{CryptoProvider} (load : string -> result (Manifest * string)) (readSignature : string -> result SignatureFile)
    (archive : string -> option string) (config : config_file) (spec : string) : result string :=
  p ← parseSpec spec;
  c ← loadConfig config;
  found ← resolveInstalledOrThrow localeCompare c (sp_namespace p) (sp_name p) (sp_version p);
  let ia := m_record found in
  let dir := installedAgentDir home (mkKey (sp_namespace p) (sp_name p) (ia_version ia)) in
  _ ← (match load dir with Ok _ => Ok tt | Throw e => throw EError ("manifest invalid: " +:+ err_message e) end);
  let sigPath := NodePath.join dir "signature.sig.json" in
  let archivePath := NodePath.join dir "archive.ahb" in
  if negb (existsSync sigPath) then Ok "warning: no signature file present (dev install); integrity of manifest verified"
  else match archive archivePath with
  | None => throw EError "signature file present but archive.ahb is missing; cannot verify integrity"
  | Some content =>
      sig ← readSignature sigPath;
      match verifySignatureFileStrict sig content with
      | Throw e => throw EError ("signature verification FAILED: " +:+ err_message e)
      | Ok _ => Ok ("integrity ok: " +:+ sp_namespace p +:+ "/" +:+ sp_name p +:+ "@" +:+ ia_version ia)
      end
  end.
End installed.

(** ** Properties of signing in *)
Section login_facts.
Context (fetch : forall k : Registry.kind, list Registry.Request -> Registry.Request ->
  result (Registry.Response (Registry.answer_type k))).
Context (clock : list cact -> Z) (now : string) (save_ok : CliCredential -> result unit) (config : config_file).

Abbreviation poll := (poll_once fetch now save_ok config).
Abbreviation loop := (poll_loop fetch clock now save_ok config).

(** What a successful login leaves in the vault and in the configuration. *)
Definition signed_in (url : string) (r : Registry.DeviceTokenResult) : list cact :=
  [ca_credential (mkCred (Registry.dt_accessToken r) (Registry.dt_username r) url (Registry.dt_tokenType r) now);
   ca_save (set_registryUrl url (match loadConfig config with Ok c => c | Throw _ => empty_config end))].

(** The request of a poll, and the actions of [n] rounds that stayed pending. *)
Definition poll_request (url code : string) : Registry.Request :=
  Registry.mkRequest "POST" (url +:+ "/api/v1/auth/devices/token")
    [("Accept", "application/json"); ("Content-Type", "application/json")] (Registry.rb_json [("deviceCode", Registry.jf_string code)]).

Fixpoint rounds (url code : string) (interval : Z) (n : nat) : list cact :=
  match n with O => [] | S n => rounds url code interval n ++ [ca_sleep interval; ca_http (poll_request url code)] end.

(** What the registry answers to the poll after [n] pending ones. *)
Definition nth_answer (h : list cact) (url code : string) (interval : Z) (n : nat) : result Registry.DeviceTokenResult :=
  (http (Registry.pollDeviceToken fetch url None code) ((h ++ rounds url code interval n) ++ [ca_sleep interval])).2.

(** The user approves by the time [t]: each poll is answered by a token or as
    pending, and one that is answered after [t] is not pending. *)
Definition approved_by (h : list cact) (url code : string) (interval t : Z) : Prop := forall n e,
  nth_answer h url code interval n = Throw e ->
  err_class e = EDeviceAuthPending /\ clock (h ++ rounds url code interval (S n)) <= t.

Lemma http_extends {A} (m : tr Registry.Request A) h : exists l, (http m h).1 = h ++ l.
Proof. unfold http. destruct (m (sent h)) as [rqs r]. by eexists. Qed.

Lemma catch_extends {A} (m : tr cact A) f h :
  (forall h, exists l, (m h).1 = h ++ l) -> (forall e h, exists l, (f e h).1 = h ++ l) -> exists l, (tr_catch m f h).1 = h ++ l.
Proof.
  intros Hm Hf. unfold tr_catch. destruct (Hm h) as [l Hl]. destruct (m h) as [h1 [a|e]]; cbn in Hl; subst h1; [by exists l|].
  destruct (Hf e (h ++ l)) as [l' ->]. exists (l ++ l'). by rewrite app_assoc.
Qed.

Lemma poll_extends url code h : exists l, (poll url code h).1 = h ++ l.
Proof.
  apply catch_extends.
  - intros h0. rewrite tr_bind_run. destruct (http_extends (Registry.pollDeviceToken fetch url None code) h0) as [l Hl].
    destruct (http _ h0) as [h1 [r|e]]; cbn in Hl; subst h1; [|by exists l].
    rewrite tr_bind_run. unfold store_credential, act.
    destruct (save_ok _) as [[]|e]; [|exists (l ++ [ca_credential (mkCred (Registry.dt_accessToken r) (Registry.dt_username r) url
      (Registry.dt_tokenType r) now)]); by rewrite app_assoc].
    cbv zeta. rewrite tr_bind_run. unfold done_, act. eexists. cbn [fst mret tr_mret tr_ret]. rewrite <- !app_assoc. reflexivity.
  - intros e h0. exists []. rewrite app_nil_r. destruct (bool_decide _); [done|]. by destruct (js_includes _ _).
Qed.

(** C23: Device login always ends: if sleeping lasts at least as long as was asked for
    and the clock does not run backwards, a login whose codes expire after a given
    time makes at most one poll for each five seconds of it, and one more, so that
    enough fuel never runs out. *)
Theorem login_terminates fuel url noBrowser h :
  (0 < fuel)%nat ->
  (forall h l, clock h <= clock (h ++ l)) ->
  (forall h ms, 0 <= ms -> clock h + ms <= clock (h ++ [ca_sleep ms])) ->
  (forall h h1 start, http (Registry.startDeviceLogin fetch url None "cli") h = (h1, Ok start) ->
     Registry.dl_expiresIn start * 1000 < 5000 * Z.of_nat fuel - 5000) ->
  (deviceFlow fetch clock now save_ok config fuel url noBrowser h).2 <> Ok None.
Proof.
  intros Hfuel Hmono Hsleep Hexp.
  assert (Hloop : forall fuel code deadline interval h, 5000 <= interval ->
    deadline - clock h < 5000 * Z.of_nat fuel - 5000 -> (loop fuel url code deadline interval h).2 <> Ok None \/ deadline < clock h /\ fuel = O).
  { clear Hexp Hfuel h fuel. induction fuel as [|fuel IH]; intros code deadline interval h Hi Hd; cbn [poll_loop].
    - right. split; [lia|done].
    - left. destruct (Z.ltb_spec deadline (clock h)) as [Hlt|Hle]; [done|].
      rewrite tr_bind_run. unfold done_, act. rewrite tr_bind_run.
      pose proof (Hsleep h interval ltac:(lia)) as Hs.
      destruct (poll_extends url code (h ++ [ca_sleep interval])) as [l Hl].
      destruct (poll url code (h ++ [ca_sleep interval])) as [h1 [[user|]|e]]; cbn in Hl; subst h1; [done| |done].
      pose proof (Hmono (h ++ [ca_sleep interval]) l) as Hm.
      destruct (IH code deadline interval ((h ++ [ca_sleep interval]) ++ l) Hi) as [H|[Hlt ->]]; [lia|done|lia]. }
  unfold deviceFlow. rewrite tr_bind_run. unfold tr_catch.
  destruct (http _ h) as [h1 [start|e]] eqn:Hh; [|done]. specialize (Hexp _ _ _ Hh).
  rewrite tr_bind_run.
  assert (Hob : exists h2, ((if noBrowser then mret tt else done_ (ca_open (Registry.dl_verificationUri start)) tt) : tr cact unit) h1 = (h2, Ok tt))
    by (destruct noBrowser; by eexists).
  destruct Hob as [h2 ->]. rewrite tr_bind_run.
  destruct (Hloop fuel (Registry.dl_deviceCode start) (clock h2 + Registry.dl_expiresIn start * 1000)
    (Z.max (Registry.dl_interval start) 5 * 1000) h2) as [H|[Hlt ->]]; [lia|lia|done|].
  lia.
Qed.

(** Whatever reason the registry gives with status 400, the login goes on
    polling until its own deadline: the reply that the code has expired, which
    the registry sends with that status, is taken for a pending one. *)
Theorem login_polls_after_expiry url code deadline intervalMs fuel h text body reply :
  clock h <= deadline ->
  fetch Registry.k_device_token (sent h) (Registry.mkRequest "POST" (url +:+ "/api/v1/auth/devices/token")
    [("Accept", "application/json"); ("Content-Type", "application/json")]
    (Registry.rb_json [("deviceCode", Registry.jf_string code)])) =
    Ok (Registry.mkResponse 400 text reply (Some (Registry.ed_text "expired_token")) body) ->
  loop (S fuel) url code deadline intervalMs h =
  loop fuel url code deadline intervalMs (h ++ [ca_sleep intervalMs; ca_http (Registry.mkRequest "POST"
    (url +:+ "/api/v1/auth/devices/token") [("Accept", "application/json"); ("Content-Type", "application/json")]
    (Registry.rb_json [("deviceCode", Registry.jf_string code)]))]).
Proof.
  intros Hd Hf. cbn [poll_loop]. apply Z.ltb_ge in Hd. rewrite Hd. rewrite tr_bind_run. unfold done_, act at 1.
  rewrite tr_bind_run.
  assert (Hs : sent (h ++ [ca_sleep intervalMs]) = sent h) by (unfold sent; rewrite omap_app; cbn; by rewrite app_nil_r).
  set (rq := Registry.mkRequest _ _ _ _) in *.
  assert (Hp : http (Registry.pollDeviceToken fetch url None code) (h ++ [ca_sleep intervalMs]) =
    ((h ++ [ca_sleep intervalMs]) ++ [ca_http rq], throw EDeviceAuthPending "expired_token")).
  { unfold http. rewrite Hs. unfold Registry.pollDeviceToken, Registry.request. cbv zeta. rewrite tr_bind_run. unfold tr_catch.
    rewrite tr_bind_run. unfold Registry.send, act.
    change (Registry.mkRequest "POST" _ _ _) with rq. rewrite Hf. cbn [Registry.res_ok Registry.rs_status].
    change (Registry.res_ok _) with false. cbv iota. unfold tr_throw, throw. cbv iota beta. cbn [err_class err_message].
    rewrite List.skipn_app, Nat.sub_diag, List.skipn_all. reflexivity. }
  unfold poll_once at 1, tr_catch at 1. rewrite tr_bind_run, Hp. cbn [throw err_class].
  rewrite bool_decide_eq_true_2 by done. by rewrite <- app_assoc.
Qed.

Lemma poll_sends url code h : (http (Registry.pollDeviceToken fetch url None code) h).1 = h ++ [ca_http (poll_request url code)].
Proof.
  unfold http. pose proof (Registry.pollDeviceToken_run fetch url None code (sent h)) as Hr.
  destruct (Registry.pollDeviceToken fetch url None code (sent h)) as [rqs r]. cbn [fst] in *. subst rqs.
  by rewrite list.drop_app_length.
Qed.

(** A round of the loop in which the poll is pending, and one that ends it. *)
Lemma loop_round fuel url code deadline interval h : clock h <= deadline ->
  let h2 := h ++ [ca_sleep interval; ca_http (poll_request url code)] in
  let answer := (http (Registry.pollDeviceToken fetch url None code) (h ++ [ca_sleep interval])).2 in
  (forall c, save_ok c = Ok tt) ->
  (forall r, answer = Ok r -> loop (S fuel) url code deadline interval h = (h2 ++ signed_in url r, Ok (Some (Registry.dt_username r)))) /\
  (forall e, answer = Throw e -> err_class e = EDeviceAuthPending ->
     loop (S fuel) url code deadline interval h = loop fuel url code deadline interval h2).
Proof.
  intros Hd h2 answer Hsave. apply Z.ltb_ge in Hd. cbn [poll_loop]. rewrite Hd.
  assert (Hp : http (Registry.pollDeviceToken fetch url None code) (h ++ [ca_sleep interval]) = (h2, answer)).
  { rewrite (surjective_pairing (http _ _)), poll_sends. unfold h2, answer. by rewrite <- app_assoc. }
  split; intros x Hx; [|intros He]; rewrite tr_bind_run; unfold done_ at 1, act at 1; rewrite tr_bind_run;
    unfold poll_once, tr_catch; rewrite tr_bind_run, Hp, Hx.
  - rewrite tr_bind_run. unfold store_credential, act. rewrite Hsave. cbv zeta. rewrite tr_bind_run. unfold done_, act, signed_in.
    cbn [mret tr_mret tr_ret]. by rewrite <- app_assoc.
  - by rewrite bool_decide_eq_true_2.
Qed.

Lemma approved_loop h url code deadline interval t :
  (forall c, save_ok c = Ok tt) ->
  (forall h l, clock h <= clock (h ++ l)) ->
  (forall h ms, 0 <= ms -> clock h + ms <= clock (h ++ [ca_sleep ms])) ->
  approved_by h url code interval t -> t <= deadline -> 0 < interval ->
  forall fuel n, let hn := h ++ rounds url code interval n in
  clock hn <= deadline -> deadline - clock hn < interval * (Z.of_nat fuel - 1) ->
  exists m r, nth_answer h url code interval m = Ok r /\
    loop fuel url code deadline interval hn = ((h ++ rounds url code interval (S m)) ++ signed_in url r, Ok (Some (Registry.dt_username r))).
Proof.
  intros Hsave Hmono Hsleep Happ Ht Hi. induction fuel as [|fuel IH]; intros n hn Hd Hf; [lia|].
  destruct (loop_round fuel url code deadline interval hn Hd Hsave) as [Hok Hpend].
  assert (Hn : hn ++ [ca_sleep interval; ca_http (poll_request url code)] = h ++ rounds url code interval (S n))
    by (unfold hn; cbn [rounds]; by rewrite app_assoc).
  destruct (nth_answer h url code interval n) as [r|e] eqn:Ha.
  - exists n, r. split; [done|]. by rewrite (Hok r Ha), Hn.
  - destruct (Happ n e Ha) as [He Hc]. rewrite (Hpend e Ha He), Hn. apply IH; [lia|].
    pose proof (Hsleep hn interval ltac:(lia)) as Hs. pose proof (Hmono (hn ++ [ca_sleep interval]) [ca_http (poll_request url code)]) as Hm.
    rewrite <- app_assoc in Hm. cbn [app] in Hm. rewrite Hn in Hm. lia.
Qed.

(** C24: A login the user approves succeeds: whatever else happens, if the registry
    answers the polls as pending until some time before the codes expire, and with
    a token from then on, the login ends signed in as the user of the first token;
    the last things it did were to store that credential and the registry it is for. *)
Theorem approved_login_completes fuel url (noBrowser : bool) h h0 start t :
  (forall c, save_ok c = Ok tt) ->
  (forall h l, clock h <= clock (h ++ l)) ->
  (forall h ms, 0 <= ms -> clock h + ms <= clock (h ++ [ca_sleep ms])) ->
  http (Registry.startDeviceLogin fetch url None "cli") h = (h0, Ok start) ->
  0 <= Registry.dl_expiresIn start -> Registry.dl_expiresIn start * 1000 < 5000 * (Z.of_nat fuel - 1) ->
  let h1 : list cact := h0 ++ (if noBrowser then [] else [ca_open (Registry.dl_verificationUri start)]) in
  let interval := Z.max (Registry.dl_interval start) 5 * 1000 in
  approved_by h1 url (Registry.dl_deviceCode start) interval t -> t <= clock h1 + Registry.dl_expiresIn start * 1000 ->
  exists n r, nth_answer h1 url (Registry.dl_deviceCode start) interval n = Ok r /\
    deviceFlow fetch clock now save_ok config fuel url noBrowser h =
      ((h1 ++ rounds url (Registry.dl_deviceCode start) interval (S n)) ++ signed_in url r, Ok (Some (Registry.dt_username r))).
Proof.
  intros Hsave Hmono Hsleep Hstart Hexp Hfuel h1 interval Happ Ht. unfold deviceFlow. rewrite tr_bind_run. unfold tr_catch. rewrite Hstart.
  rewrite tr_bind_run.
  assert (((if noBrowser then mret tt else done_ (ca_open (Registry.dl_verificationUri start)) tt) : tr cact unit) h0 = (h1, Ok tt)) as ->
    by (unfold h1; destruct noBrowser; [by rewrite app_nil_r|done]).
  rewrite tr_bind_run. fold interval.
  pose proof (approved_loop h1 url (Registry.dl_deviceCode start) (clock h1 + Registry.dl_expiresIn start * 1000) interval t
    Hsave Hmono Hsleep Happ Ht ltac:(unfold interval; lia) fuel 0%nat) as H. cbn [rounds] in H. rewrite app_nil_r in H.
  apply H; [lia|]. unfold interval. nia.
Qed.
End login_facts.

(** A clock that only sleeping moves, and a registry whose device codes live for
    twenty seconds. *)
Fixpoint demo_clock (h : list cact) : Z :=
  match h with [] => 0 | ca_sleep ms :: h => Z.max 0 ms + demo_clock h | _ :: h => demo_clock h end.

Lemma demo_clock_app a b : demo_clock (a ++ b) = demo_clock a + demo_clock b.
Proof. induction a as [|[] a IH]; cbn [demo_clock app]; lia. Qed.

Lemma demo_clock_nonneg a : 0 <= demo_clock a.
Proof. induction a as [|[] a IH]; cbn [demo_clock app]; lia. Qed.

Definition demo_fetch := Registry.demo_fetch (Registry.demo_detail (Registry.demo_signature "acme/echo" "1.0.0" "b") None) "b" [].

Lemma login_terminates_witness :
  (deviceFlow demo_fetch demo_clock "now" (fun _ => Ok tt) cf_absent 6 "https://r" true []).2 <> Ok None.
Proof.
  apply (login_terminates demo_fetch demo_clock "now" (fun _ => Ok tt) cf_absent 6 "https://r" true []).
  - lia.
  - intros h l. rewrite demo_clock_app. pose proof (demo_clock_nonneg l). lia.
  - intros h ms Hms. rewrite demo_clock_app. cbn. lia.
  - intros h h1 start Hs. unfold http in Hs.
    assert (Hst : (Registry.startDeviceLogin demo_fetch "https://r" None "cli" (sent h)).2 = Ok start)
      by (destruct (Registry.startDeviceLogin _ _ _ _ _); by injection Hs as _ ->).
    vm_compute in Hst. injection Hst as <-. by vm_compute.
Defined.

(** A registry whose user approves while the third poll is on its way. *)
Definition approving_fetch (k : Registry.kind) (h : list Registry.Request) (rq : Registry.Request)
    : result (Registry.Response (Registry.answer_type k)) :=
  match k with
  | Registry.k_device_token =>
      if Nat.leb (length h) 2 then Ok (Registry.mkResponse 400 "Bad Request" (throw EType "no token") (Some (Registry.ed_text "authorization_pending")) None)
      else Registry.replied "b" (Registry.mkDeviceToken "tok" "ann" "session")
  | k => demo_fetch k h rq
  end.

Lemma sent_rounds url code interval n : length (sent (rounds url code interval n)) = n.
Proof. induction n as [|n IH]; [done|]. cbn [rounds]. unfold sent in *. rewrite omap_app, length_app, IH. cbn. lia. Qed.

Definition asked : list cact := [ca_http (Registry.the_request "https://r" None "/api/v1/auth/devices" "POST" Registry.json_headers
  (Registry.rb_json [("clientName", Registry.jf_string "cli")]))].

Lemma approving_ready n : (1 < n)%nat ->
  nth_answer approving_fetch asked "https://r" "dev" 5000 n = Ok (Registry.mkDeviceToken "tok" "ann" "session").
Proof.
  intros Hn. unfold nth_answer, http, Registry.pollDeviceToken, Registry.request. cbv zeta. rewrite tr_bind_run. unfold tr_catch.
  rewrite tr_bind_run. unfold Registry.send, act, approving_fetch.
  destruct (Nat.leb_spec (length (sent ((asked ++ rounds "https://r" "dev" 5000 n) ++ [ca_sleep 5000]))) 2) as [H|H].
  - unfold sent in H. rewrite !omap_app, !length_app in H. pose proof (sent_rounds "https://r" "dev" 5000 n) as Hr. unfold sent in Hr.
    rewrite Hr in H. cbn in H. lia.
  - reflexivity.
Qed.

Lemma approved_login_completes_witness : exists n r,
  nth_answer approving_fetch asked "https://r" "dev" 5000 n = Ok r /\
  deviceFlow approving_fetch demo_clock "now" (fun _ => Ok tt) cf_absent 6 "https://r" true [] =
    ((asked ++ rounds "https://r" "dev" 5000 (S n)) ++ signed_in "now" cf_absent "https://r" r,
     Ok (Some (Registry.dt_username r))).
Proof.
  apply (approved_login_completes approving_fetch demo_clock "now" (fun _ => Ok tt) cf_absent 6 "https://r" true []
    asked (Registry.mkDeviceStart "dev" "CODE" "https://v" 20 5) 20000).
  - done.
  - intros h l. rewrite demo_clock_app. pose proof (demo_clock_nonneg l). lia.
  - intros h ms Hms. rewrite demo_clock_app. cbn. lia.
  - vm_compute. reflexivity.
  - cbn. lia.
  - cbn. lia.
  - intros n e Hn. destruct (Nat.leb_spec n 1) as [Hle|Hgt].
    + destruct n as [|[|n]]; [| |lia]; vm_compute in Hn; injection Hn as <-; split; [reflexivity|by vm_compute|reflexivity|by vm_compute].
    + by rewrite approving_ready in Hn by lia.
  - cbn. lia.
Defined.

(** A registry that says the device code has expired. *)
Definition expired_fetch (k : Registry.kind) (h : list Registry.Request) (rq : Registry.Request)
    : result (Registry.Response (Registry.answer_type k)) :=
  Ok (Registry.mkResponse 400 "Bad Request" (throw EType "no token") (Some (Registry.ed_text "expired_token")) None).

Lemma login_polls_after_expiry_witness :
  poll_loop expired_fetch demo_clock "now" (fun _ => Ok tt) cf_absent 2 "https://r" "dev" 20000 5000 [] =
  poll_loop expired_fetch demo_clock "now" (fun _ => Ok tt) cf_absent 1 "https://r" "dev" 20000 5000
    [ca_sleep 5000; ca_http (Registry.mkRequest "POST" "https://r/api/v1/auth/devices/token"
       [("Accept", "application/json"); ("Content-Type", "application/json")]
       (Registry.rb_json [("deviceCode", Registry.jf_string "dev")]))].
Proof.
  apply (login_polls_after_expiry expired_fetch demo_clock "now" (fun _ => Ok tt) cf_absent "https://r" "dev" 20000 5000 1 []
    "Bad Request" None (throw EType "no token")); [cbn; lia|reflexivity].
Defined.

(** ** Properties of signing out *)
Section logout_facts.
Context {St : Type} `{SecretStoreLaws St} (url_origin : string -> option string) (cred_parse : string -> option CliCredential).
Context (fetch : forall k : Registry.kind, list Registry.Request -> Registry.Request ->
  result (Registry.Response (Registry.answer_type k))).

(** After signing out of a registry no token is found for it, whatever the
    registry answered: the credential is gone from the vault and the token of the
    configuration too; the credentials of other registries are kept. *)
Theorem logout_forgets_token url all s config h h' revoked s' c' :
  logout url_origin cred_parse fetch url all s config h = (h', Ok (revoked, s', c')) ->
  resolveToken url_origin cred_parse s' (token c') url = None /\
  (forall url', registryOrigin url_origin url' <> registryOrigin url_origin url ->
     getCredential url_origin cred_parse s' url' = getCredential url_origin cred_parse s url').
Proof.
  unfold logout. intros Hrun. tr_inv Hrun as tk Htk. tr_inv Hrun as rev Hrev. tr_inv Hrun as s1 Hs.
  unfold act in Hs. injection Hs as _ Hs. tr_inv Hrun as config' Hc. cbv zeta in Hrun. tr_inv Hrun as [] Hsave.
  apply tr_ret_ok in Hrun as [[= -> -> <-] _]. cbn [token delete_token].
  unfold deleteCredential in Hs. destruct (ss_get s VAULT_KEY) as [o|e] eqn:Hg; [|done].
  cbn [mbind result_mbind result_bind] in Hs. pose proof (ss_get_nodup _ _ _ Hg) as Hnd.
  set (u := registryOrigin url_origin url) in *.
  destruct (ss_set_ok s VAULT_KEY (obj_set u "" o) o Hg) as (s2 & o' & Hs2 & Hg' & Hm & _); [auto with js|].
  rewrite Hs2 in Hs. injection Hs as ->. unfold resolveToken, getCredential. fold u. rewrite Hg', Hg. split.
  - rewrite Hm. unfold merged_value. by rewrite obj_get_set_eq, bool_decide_eq_true_2.
  - intros url' Hne. rewrite Hm. unfold merged_value. rewrite obj_get_set_ne by congruence.
    destruct (obj_get _ o) as [v|]; [|done]. case_bool_decide as Hv; [by injection Hv as ->|done].
Qed.
End logout_facts.

(** ** Properties of uninstalling *)
Section uninstall_facts.
Context (localeCompare : string -> string -> Z) (home : Home) (existsSync : string -> bool).

Definition delete_entries (keys : list string) (c : OpenAgentHubConfig) : OpenAgentHubConfig :=
  fold_left (fun c k => delete_entry k c) keys c.

Lemma remove_each_run ns nm candidates c h :
  exists l, remove_each home existsSync ns nm candidates c h = (h ++ l, Ok (delete_entries (map m_key candidates) c)) /\
    forall d, ca_rm d ∈ l -> exists m, m ∈ candidates /\ d = installedAgentDir home (mkKey ns nm (ia_version (m_record m))).
Proof.
  revert c h. induction candidates as [|m rest IH]; intros c h; cbn [remove_each map delete_entries fold_left].
  - exists []. rewrite app_nil_r. split; [done|]. by intros d ?%elem_of_nil.
  - cbv zeta. rewrite tr_bind_run. destruct (existsSync _); unfold done_, act; cbn [mret tr_mret tr_ret].
    + destruct (IH (delete_entry (m_key m) c) (h ++ [ca_rm (installedAgentDir home (mkKey ns nm (ia_version (m_record m))))]))
        as (l & Hl & Hd). rewrite Hl. eexists. rewrite <- app_assoc. split; [reflexivity|].
      intros d [[= ->]|Hin]%elem_of_cons; [exists m; split; [by left|done]|].
      destruct (Hd d Hin) as (m' & Hm & ->). exists m'. split; [by right|done].
    + destruct (IH (delete_entry (m_key m) c) h) as (l & Hl & Hd). exists l. split; [exact Hl|].
      intros d Hin. destruct (Hd d Hin) as (m' & Hm & ->). exists m'. split; [by right|done].
Qed.

Lemma delete_entries_fields keys c :
  secretGrants (delete_entries keys c) = secretGrants c /\ sandboxOverrides (delete_entries keys c) = sandboxOverrides c /\
  (forall k, installed_record (delete_entries keys c) k = if mem_str k keys then None else installed_record c k) /\
  (forall k, grantedPermissions (delete_entries keys c) k = if mem_str k keys then [] else grantedPermissions c k).
Proof.
  revert c. induction keys as [|key keys IH]; intros c; cbn [delete_entries fold_left]; [done|].
  destruct (IH (delete_entry key c)) as (H1 & H2 & H3 & H4). unfold delete_entries in *.
  split_and!; [exact H1|exact H2| |]; intros k.
  - rewrite H3. cbn [mem_str existsb]. fold (mem_str k keys). destruct (mem_str k keys); [by rewrite orb_true_r|].
    rewrite orb_false_r. unfold installed_record, delete_entry. cbn [installed]. destruct (installed c) as [o|]; cbn [fmap option_fmap option_map];
      [|by destruct (String.eqb _ _)].
    destruct (String.eqb_spec k key) as [->|Hne]; [apply obj_get_delete_eq|apply obj_get_delete_ne; congruence].
  - rewrite H4. cbn [mem_str existsb]. fold (mem_str k keys). destruct (mem_str k keys); [by rewrite orb_true_r|].
    rewrite orb_false_r. unfold grantedPermissions, delete_entry. cbn [permissions]. destruct (permissions c) as [o|]; cbn [fmap option_fmap option_map];
      [|by destruct (String.eqb _ _)].
    destruct (String.eqb_spec k key) as [->|Hne]; [by rewrite obj_get_delete_eq|by rewrite obj_get_delete_ne by congruence].
Qed.

Lemma forget_each_run keys h : forget_each keys h = (h ++ map ca_vault_delete keys, Ok tt).
Proof.
  revert h. induction keys as [|k keys IH]; intros h; cbn [forget_each map]; [by rewrite app_nil_r|].
  rewrite tr_bind_run. unfold done_, act. by rewrite IH, <- app_assoc.
Qed.

(** Uninstalling removes the directories of the versions it names, their entries
    and their granted permissions, and nothing of any other agent; the consent to
    expose secrets and the sandbox overrides stay, so that an agent installed later
    under the same name and version has them without being asked. *)
Theorem uninstall_keeps_consents config spec h h' c p :
  uninstall localeCompare home existsSync config (Ok tt) spec h = (h', Ok tt) ->
  loadConfig config = Ok c -> parseSpec spec = Ok p ->
  exists l c', h' = h ++ l ++ [ca_save c'] ++ map ca_vault_delete
      (map (fun m => sp_namespace p +:+ "/" +:+ sp_name p +:+ "@" +:+ ia_version (m_record m)) (uninstall_candidates localeCompare c p)) /\
    (forall d, ca_rm d ∈ l -> exists m, m ∈ uninstall_candidates localeCompare c p /\
       d = installedAgentDir home (mkKey (sp_namespace p) (sp_name p) (ia_version (m_record m)))) /\
    (forall k, installed_record c' k = if mem_str k (map m_key (uninstall_candidates localeCompare c p)) then None else installed_record c k) /\
    (forall k, grantedPermissions c' k = if mem_str k (map m_key (uninstall_candidates localeCompare c p)) then [] else grantedPermissions c k) /\
    (forall k, grantedSecretNames k c' = grantedSecretNames k c /\ sandboxOverride c' k = sandboxOverride c k).
Proof.
  intros Hrun Hc Hp. unfold uninstall in Hrun. rewrite tr_bind_run, Hp in Hrun. unfold tr_lift in Hrun.
  destruct p as [ns nm v]. cbv iota beta in Hrun. rewrite tr_bind_run, Hc in Hrun. cbv zeta iota beta in Hrun.
  destruct (uninstall_candidates localeCompare c (mkParsed ns nm v)) as [|m0 ms] eqn:Hcand; [done|].
  rewrite <- Hcand in *. destruct (_ && _); [done|].
  destruct (remove_each_run ns nm (uninstall_candidates localeCompare c (mkParsed ns nm v)) c h) as (l & Hl & Hd).
  rewrite tr_bind_run, Hl, tr_bind_run in Hrun. unfold done_, act in Hrun. rewrite tr_bind_run, forget_each_run in Hrun.
  injection Hrun as <-. exists l, (delete_entries (map m_key (uninstall_candidates localeCompare c (mkParsed ns nm v))) c).
  destruct (delete_entries_fields (map m_key (uninstall_candidates localeCompare c (mkParsed ns nm v))) c) as (H1 & H2 & H3 & H4).
  split; [by rewrite <- !app_assoc|]. split; [exact Hd|]. split; [exact H3|]. split; [exact H4|].
  intros k. unfold grantedSecretNames, sandboxOverride. by rewrite H1, H2.
Qed.

(** A process override is only ever set for a trusted or local agent and with
    the risk acknowledged, and it is bound to the digest of the installed archive;
    nothing else of the configuration changes. *)
Theorem sandbox_set_guarded `{CryptoProvider} archive now config spec mode ack c' :
  sandbox_set localeCompare home archive now config spec mode ack = Ok c' ->
  exists p c key ia, parseSpec spec = Ok p /\ loadConfig config = Ok c /\
    resolveInstalledOrThrow localeCompare c (sp_namespace p) (sp_name p) (sp_version p) = Ok (mkMatch key ia) /\
    (mode = m_process -> ack = true /\ (ia_trust ia = trusted \/ ia_trust ia = local)) /\
    (exists d, sandboxOverride c' key = Some (mkOverride mode d now) /\
       match archive (NodePath.join (installedAgentDir home (mkKey (sp_namespace p) (sp_name p) (ia_version ia))) "archive.ahb") with
       | Some content => d = sha256Hex content
       | None => ia_trust ia = local /\ d = "local"
       end) /\
    (forall k, k <> key -> sandboxOverride c' k = sandboxOverride c k) /\
    installed c' = installed c /\ permissions c' = permissions c /\ secretGrants c' = secretGrants c.
Proof.
  unfold sandbox_set. destruct (parseSpec spec) as [p|e]; [|done]. cbn [mbind result_mbind result_bind].
  destruct (loadConfig config) as [c|e]; [|done]. cbn [mbind result_mbind result_bind].
  destruct (resolveInstalledOrThrow localeCompare c (sp_namespace p) (sp_name p) (sp_version p)) as [[key ia]|e] eqn:Hr; [|done]. cbn [mbind result_mbind result_bind].
  assert (Hguard : forall k : unit -> result OpenAgentHubConfig, result_bind k
      (match mode with m_container => Ok tt | m_process =>
         if negb (bool_decide (ia_trust ia = trusted)) && negb (bool_decide (ia_trust ia = local)) then
           throw EError ("process override is only allowed for trusted or local agents (this agent is '" +:+ trust_name (ia_trust ia) +:+ "')")
         else if negb ack then
           throw EError "running an agent in a host process removes container isolation; pass --acknowledge-risk to confirm"
         else Ok tt end) = Ok c' ->
      k tt = Ok c' /\ (mode = m_process -> ack = true /\ (ia_trust ia = trusted \/ ia_trust ia = local))).
  { intros k. destruct mode; [done|]. destruct ack, (ia_trust ia); cbn; try done; auto. }
  intros [Hset Hg]%Hguard. clear Hguard. revert Hset.
  set (dir := installedAgentDir home _). destruct (archive (NodePath.join dir "archive.ahb")) as [content|] eqn:Ha;
    [|case_bool_decide as Hl; [|done]]; cbn [mbind result_mbind result_bind mret result_mret]; intros [= <-].
  all: eexists p, c, key, ia; split_and!; [done..| | |done|done|done].
  all: try (intros k Hk; unfold sandboxOverride; cbn -[obj_set]; rewrite obj_get_set_ne by congruence; by destruct (sandboxOverrides c)).
  all: eexists; unfold sandboxOverride; cbn -[obj_set]; rewrite obj_get_set_eq; (split; [reflexivity|]); fold dir; by rewrite Ha.
Qed.

(** Verifying an installed agent looks at the archive it was installed from, not
    at what is installed: replacing the installed manifest by any other valid one
    does not change the verdict, and no other installed file is read at all. *)
Theorem verify_ignores_installed_files `{CryptoProvider} load load' readSignature archive config spec :
  (forall d, is_ok (load d) = true) -> (forall d, is_ok (load' d) = true) ->
  verify localeCompare home existsSync load readSignature archive config spec =
  verify localeCompare home existsSync load' readSignature archive config spec.
Proof.
  intros H1 H2. unfold verify. destruct (parseSpec spec) as [p|e]; [|done]. cbn [mbind result_mbind result_bind].
  destruct (loadConfig config) as [c|e]; [|done]. cbn [mbind result_mbind result_bind].
  destruct (resolveInstalledOrThrow localeCompare c (sp_namespace p) (sp_name p) (sp_version p)) as [m|e]; [|done]. cbn [mbind result_mbind result_bind].
  set (d := installedAgentDir home _). specialize (H1 d). specialize (H2 d).
  by destruct (load d), (load' d).
Qed.
End uninstall_facts.

(** ** Witnesses *)
Definition demo_agent (v : string) (t : TrustLevel) : InstalledAgent :=
  mkInstalled "echo" "acme" v "me" t "2026-01-01" "https://r" None None None (Some "sha:bytes").

Definition demo_config : OpenAgentHubConfig :=
  mkConfig (Some "https://r") (Some "old") (Some [("acme/echo@1.0.0", demo_agent "1.0.0" trusted)])
    (Some [("acme/echo@1.0.0", [("network", true)])]) (Some [("acme/echo@1.0.0", ["KEY"])]) None.

Definition demo_home : Home := home_of None "/home/u".

Lemma uninstall_keeps_consents_witness :
  exists c', ca_save c' ∈ (uninstall code_unit_compare demo_home (fun _ => true) (cf_saved demo_config) (Ok tt) "acme/echo" []).1 /\
    installed_record c' "acme/echo@1.0.0" = None /\ grantedSecretNames "acme/echo@1.0.0" c' = ["KEY"].
Proof.
  destruct (uninstall_keeps_consents code_unit_compare demo_home (fun _ => true) (cf_saved demo_config) "acme/echo" []
    (uninstall code_unit_compare demo_home (fun _ => true) (cf_saved demo_config) (Ok tt) "acme/echo" []).1
    demo_config (mkParsed "acme" "echo" None)) as (l & c' & Hh & _ & Hi & _ & Hk).
  - vm_compute. reflexivity.
  - reflexivity.
  - vm_compute. reflexivity.
  - exists c'. split; [rewrite Hh; apply list_elem_of_In; rewrite !in_app_iff; cbn; tauto|].
    split; [rewrite Hi; vm_compute; reflexivity|]. rewrite (proj1 (Hk _)). vm_compute. reflexivity.
Defined.

Lemma sandbox_set_guarded_witness :
  exists c' key d, @sandbox_set code_unit_compare demo_home toy_crypto (fun _ => Some "bytes") "now" (cf_saved demo_config)
      "acme/echo" m_process true = Ok c' /\
    sandboxOverride c' key = Some (mkOverride m_process d "now").
Proof.
  assert (Hrun : exists c', @sandbox_set code_unit_compare demo_home toy_crypto (fun _ => Some "bytes") "now" (cf_saved demo_config)
    "acme/echo" m_process true = Ok c') by (eexists; vm_compute; reflexivity).
  destruct Hrun as [c' Hrun]. exists c'.
  destruct (@sandbox_set_guarded code_unit_compare demo_home toy_crypto (fun _ => Some "bytes") "now" (cf_saved demo_config)
    "acme/echo" m_process true c' Hrun) as (p & c & key & ia & _ & _ & _ & _ & (d & Hd & _) & _).
  exists key, d. split; [exact Hrun|exact Hd].
Defined.

Lemma verify_ignores_installed_files_witness :
  let evil := mkManifest "acme/echo" "1.0.0" "me" "d" "MIT" None None None (mkRuntimeSpec python None None None) None [openai]
    (mkInterfaces (Some (mkCli "python evil.py" None None)) None None) None None None None None in
  let run m := @verify code_unit_compare demo_home (fun _ => true) toy_crypto (fun d => Ok (m, d))
    (fun _ => Ok (Registry.demo_signature "acme/echo" "1.0.0" "bytes")) (fun _ => Some "bytes") (cf_saved demo_config) "acme/echo" in
  run evil = run demo_manifest /\ run demo_manifest = Ok "integrity ok: acme/echo@1.0.0".
Proof.
  split; [|vm_compute; reflexivity].
  apply (@verify_ignores_installed_files code_unit_compare demo_home (fun _ => true) toy_crypto); done.
Defined.

Lemma logout_forgets_token_witness :
  exists s' c',
    (@logout vstore toy_store (fun u => Some u) (fun t => Some (mkCred t "ann" "https://r" "bearer" "now")) demo_fetch "https://r" false
       (toy_state VAULT_KEY [("https://r", "tok")]) (cf_saved demo_config) []).2 = Ok (false, s', c') /\
    @resolveToken vstore toy_store (fun u => Some u) (fun t => Some (mkCred t "ann" "https://r" "bearer" "now")) s' (token c') "https://r" = None.
Proof.
  set (run := @logout vstore toy_store (fun u => Some u) (fun t => Some (mkCred t "ann" "https://r" "bearer" "now")) demo_fetch "https://r" false
       (toy_state VAULT_KEY [("https://r", "tok")]) (cf_saved demo_config) []).
  assert (Hrun : exists s', run.2 = Ok (false, s', delete_token demo_config)) by (eexists; vm_compute; reflexivity).
  destruct Hrun as [s' Hrun]. exists s', (delete_token demo_config). split; [exact Hrun|].
  refine (proj1 (@logout_forgets_token vstore toy_store toy_store_laws (fun u => Some u)
    (fun t => Some (mkCred t "ann" "https://r" "bearer" "now")) demo_fetch "https://r" false
    (toy_state VAULT_KEY [("https://r", "tok")]) (cf_saved demo_config) [] run.1 false s' (delete_token demo_config) _)).
  fold run. rewrite <- Hrun. apply surjective_pairing.
Defined.
End Commands.
