(* ===== verification/UsageSources.v ===== *)
(** What the adapters of the usage collection share: the JSON values they read
    ([runtime/src/usage/types.ts]), detection of a provider ([detect.ts]), the walk
    over its session files, and the incremental reading of one of them, which
    [claude.ts] and [codex.ts] both contain.  The parser of JSON, the conversions
    between numbers and text, the file system and the clock are parameters; texts
    are sequences of one-byte characters. *)
From Stdlib Require Export Qround.
From S2P Require Import Prelude NodePath UsageStore.

Module UsageSources.
Import UsageStore.
Local Open Scope Q_scope.

(** ** Values *)

Inductive json :=
| jnull | jbool (b : bool) | jnum (q : Q) | jstr (s : string) | jarr (l : list json) | jobj (o : list (string * json)).

(** The text conversions of JavaScript the adapters use: [JSON.parse], [Number] of
    a text ([None] for NaN and infinities), a number in a template literal, and
    [toISOString] of a time value in range. *)
Class JsText := {
  json_parse : string -> option json;
  to_number : string -> option Q;
  number_text : Q -> string;
  iso_text : Q -> string;
}.

(** @src runtime/src/usage/types.ts ProviderStatus *)
Inductive ProviderStatus := st_ok | st_unsupported | st_locked | st_error | st_timeboxed | st_disabled | st_missing.

#[export] Instance ProviderStatus_eq_dec : EqDecision ProviderStatus.
Proof. solve_decision. Defined.

(** @src runtime/src/usage/types.ts PROVIDERS *)
Definition PROVIDERS : list UsageProvider := [claude; codex; opencode].

(** @src runtime/src/usage/types.ts UsageObservation *)
Record UsageObservation := mkObs {
  o_provider : UsageProvider; o_source : string; o_sessionId : option string; o_model : option string;
  o_tokensIn : Q; o_tokensOut : Q; o_cacheRead : option Q; o_cacheWrite : option Q;
  o_costExact : option Q; o_costEstimated : option Q; o_occurredAt : string; o_eventKey : string;
}.

(** The row that [recordExternal] inserts for it. *)
Definition row_of (o : UsageObservation) : ExternalUsageRow :=
  mkExternal (o_provider o) (o_source o) (o_sessionId o) (o_model o) (o_tokensIn o) (o_tokensOut o)
    (nullish (o_cacheRead o) 0) (nullish (o_cacheWrite o) 0) (o_costExact o) (o_costEstimated o) (o_occurredAt o) (o_eventKey o).

(** @src runtime/src/usage/types.ts LimitObservation *)
Record LimitObservation := mkLimitObs {
  lo_provider : UsageProvider; lo_window : string; lo_plan : option string; lo_usedPercent : option Q;
  lo_units : option string; lo_creditsUsed : option Q; lo_creditsTotal : option Q; lo_resetAt : option string;
  lo_source : limit_source;
}.

(** @src runtime/src/usage/types.ts ProviderResult *)
Record ProviderResult := mkResult {
  r_provider : UsageProvider; r_detected : bool; r_status : ProviderStatus; r_sourcesScanned : nat;
  r_eventsIngested : nat; r_eventsSkipped : nat; r_timeMs : Z; r_message : option string;
}.

(** @src runtime/src/usage/types.ts AdapterOutput *)
Record AdapterOutput := mkOutput { ao_usage : list UsageObservation; ao_limits : list LimitObservation; ao_result : ProviderResult }.

(** @src runtime/src/usage/types.ts isUsageObject *)
Definition isUsageObject (v : option json) : option (obj json) :=
  match v with Some (jobj o) => Some o | _ => None end.

(** [typeof o.k === "string"]. *)
Definition str_field (k : string) (o : obj json) : option string :=
  match obj_get k o with Some (jstr s) => Some s | _ => None end.

Section text.
Context `{JsText}.

(** @src runtime/src/usage/types.ts num *)
Definition num (v : option json) : option Q :=
  match v with Some (jnum q) => Some q | Some (jstr s) => to_number s | _ => None end.

(** A time value beyond the range of dates makes [toISOString] throw. *)
Definition MAX_TIME : Q := 8640000000000000.
Definition date_iso (ms : Q) : result string :=
  if Qle_bool ms MAX_TIME && Qle_bool (- MAX_TIME) ms then Ok (iso_text ms) else throw ERange "Invalid time value".
End text.

(** ** Detection *)

(** The environment and the files the adapters look at. *)
Record machine := mkMachine {
  env_var : string -> option string;
  home_dir : string;
  file_exists : string -> bool;
}.

(** @src runtime/src/usage/detect.ts ENV_ROOTS *)
Definition ENV_ROOTS (p : UsageProvider) : list string :=
  match p with
  | claude => ["OPENAGENTHUB_CLAUDE_DIR"; "CLAUDE_CONFIG_DIR"]
  | codex => ["OPENAGENTHUB_CODEX_DIR"; "CODEX_HOME"]
  | opencode => ["OPENAGENTHUB_OPENCODE_DIR"; "OPENCODE_DATA"]
  end.

Definition default_root (home : string) (p : UsageProvider) : string :=
  match p with
  | claude => NodePath.join home ".claude"
  | codex => NodePath.join home ".codex"
  | opencode => NodePath.join (NodePath.join (NodePath.join home ".local") "share") "opencode"
  end.

(** @src runtime/src/usage/detect.ts providerRoot *)
Definition providerRoot (m : machine) (p : UsageProvider) : string :=
  match List.find (fun e => truthy (env_var m e)) (ENV_ROOTS p) with
  | Some e => nullish (env_var m e) ""
  | None => default_root (home_dir m) p
  end.

(** @src runtime/src/usage/detect.ts SOURCES *)
Definition SOURCES_dataDir (p : UsageProvider) : string :=
  match p with claude => "projects" | codex => "sessions" | opencode => "storage" end.

(** [root], [dataDir], the name that is shown, and the description.
    @src runtime/src/usage/detect.ts providerSource *)
Definition providerSource (m : machine) (p : UsageProvider) : string * string :=
  let root := providerRoot m p in (root, if String.eqb root "" then "" else NodePath.join root (SOURCES_dataDir p)).

(** @src runtime/src/usage/detect.ts providerDetected *)
Definition providerDetected (m : machine) (p : UsageProvider) : bool := file_exists m (providerRoot m p).

Definition enabledKey (p : UsageProvider) : string := "integration." +:+ uprovider_name p +:+ ".enabled".

(** @src runtime/src/usage/detect.ts providerEnabled *)
Definition providerEnabled (settings : string -> option string) (p : UsageProvider) : bool :=
  match settings (enabledKey p) with None => true | Some v => String.eqb v "1" end.

Inductive ConsentKind := ck_credentials | ck_live.

#[export] Instance ConsentKind_eq_dec : EqDecision ConsentKind.
Proof. solve_decision. Defined.

Definition kind_name (k : ConsentKind) : string := match k with ck_credentials => "credentials" | ck_live => "live" end.
Definition consentKey (p : UsageProvider) (k : ConsentKind) : string :=
  "integration." +:+ uprovider_name p +:+ "." +:+ kind_name k.

(** @src runtime/src/usage/detect.ts hasConsent *)
Definition hasConsent (settings : string -> option string) (p : UsageProvider) (k : ConsentKind) : bool :=
  match settings (consentKey p k) with Some v => String.eqb v "1" | None => false end.

(** The root the adapters read, which is not [providerRoot]: an empty variable is
    taken as it is, and the home directory is HOME. *)
Definition adapter_root (m : machine) (p : UsageProvider) : string :=
  match omap (env_var m) (ENV_ROOTS p) with
  | v :: _ => v
  | [] => default_root (nullish (env_var m "HOME") "") p
  end.

(** ** The walk over session files *)

(** A directory entry with what [readdirSync] gives for a directory, [None] when it
    fails. *)
Inductive dirent :=
| de_file (name : string)
| de_dir (name : string) (entries : option (list dirent))
| de_other (name : string).

Definition entry_name (e : dirent) : string := match e with de_file n | de_dir n _ | de_other n => n end.

(** The readings of the clock: whether the deadline has passed when a path of the
    walk is looked at, when a source is begun, and at a line or row of a source; and
    the time there. *)
Record clock := mkClock {
  late_walk : string -> bool;
  late_source : string -> bool;
  late_line : string -> nat -> bool;
  now_ms : string -> nat -> Q;
  elapsed : Z;
}.

(** @src runtime/src/usage/codex.ts MAX_FILES *)
Definition MAX_FILES : nat := Z.to_nat 10000.

Section walk.
Context (ck : clock) (limit : nat) (ext : string).

(** The loop over the entries of [dir]; [visit] is what it does with one of them. *)
Definition walk_list (visit : dirent -> list string -> list string * bool) (dir : string) :=
  fix go (es : list dirent) (out : list string) : list string * bool :=
    match es with
    | [] => (out, true)
    | e :: es =>
        if Nat.leb limit (length out) then (out, false)
        else if late_walk ck (NodePath.join dir (entry_name e)) then (out, false)
        else let '(out, complete) := visit e out in if complete then go es out else (out, false)
    end.

Fixpoint walk_entry (dir : string) (e : dirent) (out : list string) : list string * bool :=
  let p := NodePath.join dir (entry_name e) in
  match e with
  | de_dir _ (Some es) => walk_list (walk_entry p) p es out
  | de_dir _ None => (out, true)
  | de_file n => (if js_endsWith n ext then out ++ [p] else out, true)
  | de_other _ => (out, true)
  end.

(** [entries] is [None] for a directory that is missing or cannot be read.
    @src runtime/src/usage/claude.ts walkJsonl *)
Definition walk_dir (dir : string) (entries : option (list dirent)) (out : list string) : list string * bool :=
  match entries with
  | None => (out, true)
  | Some es => walk_list (walk_entry dir) dir es out
  end.
End walk.

(** What the walk finds when nothing stops it. *)
Fixpoint all_files (ext dir : string) (e : dirent) : list string :=
  let p := NodePath.join dir (entry_name e) in
  match e with
  | de_dir _ (Some es) => flat_map (all_files ext p) es
  | de_file n => if js_endsWith n ext then [p] else []
  | _ => []
  end.

(** ** Reading a session file *)

(** What [statSync] and [readFileSync] give: size and modification time, and the
    text; [None] when the call throws. *)
Record logfile := mkLog { lf_stat : option (Z * Z); lf_raw : option string }.

(** [raw.lastIndexOf("\n") + 1]. *)
Fixpoint complete_end (raw : string) : nat :=
  match raw with
  | EmptyString => 0
  | String c rest => match complete_end rest with
                     | O => if Ascii.eqb c LF then 1 else 0
                     | S n => S (S n)
                     end
  end.

(** Where reading starts again: the offset of the cursor, if the file still has it
    and a line begins there or the file was not modified since.
    @src runtime/src/usage/claude.ts 133-138 parseSessionFile *)
Definition read_offset (cursor : option SourceCursor) (size mtimeMs : Z) (raw : string) : nat :=
  let offset := match cursor with
    | Some c =>
        let at_ := Z.to_nat (Qfloor (c_offset c)) in
        let boundary := Qeq_bool (c_offset c) 0 || bool_decide (String.get (at_ - 1) raw = Some LF) in
        if Qle_bool (c_offset c) (inject_Z size) && ((mtimeMs =? c_mtimeMs c)%Z || boundary) then at_ else 0%nat
    | None => 0%nat
    end in
  if Nat.ltb (complete_end raw) offset then 0%nat else offset.

(** The lines of [raw.slice(offset, completeEnd)]. *)
Definition new_lines (offset : nat) (raw : string) : list string :=
  js_split LF (js_drop offset (js_take (complete_end raw) raw)).

Definition unchanged (cursor : option SourceCursor) (size mtimeMs : Z) : bool :=
  match cursor with Some c => (c_size c =? size)%Z && (c_mtimeMs c =? mtimeMs)%Z | None => false end.

(** The variables of the loop over the lines, with the store. *)
Record scan := mkScan {
  sc_store : db; sc_usage : list UsageObservation; sc_limits : list LimitObservation; sc_skipped : nat; sc_cut : bool;
}.

Definition skip_line (s : scan) : scan := mkScan (sc_store s) (sc_usage s) (sc_limits s) (S (sc_skipped s)) (sc_cut s).
Definition cut_short (s : scan) : scan := mkScan (sc_store s) (sc_usage s) (sc_limits s) (sc_skipped s) true.

(** An observation is kept unless the store has its event already. *)
Definition keep_obs (o : option UsageObservation) (s : scan) : scan :=
  match o with
  | Some o =>
      if hasExternal (sc_store s) (o_provider o) (o_source o) (o_eventKey o) then skip_line s
      else mkScan (sc_store s) (sc_usage s ++ [o]) (sc_limits s) (sc_skipped s) (sc_cut s)
  | None => skip_line s
  end.

(** What reading one source returns; [pf_status] only for a database. *)
Record parsed := mkParsed {
  pf_usage : list UsageObservation; pf_limits : list LimitObservation; pf_skipped : nat; pf_cut : bool;
  pf_status : option ProviderStatus;
}.
Definition nothing_parsed : parsed := mkParsed [] [] 0 false None.

Section reading.
Context `{JsText} (ck : clock).

(** [event source lineNo item s] is what the loop does with a parsed line; a throw
    of it ends the reading. *)
Context (event : string -> nat -> json -> scan -> scan * result unit).

(** @src runtime/src/usage/claude.ts 144-166 parseSessionFile *)
Fixpoint scan_lines (source : string) (lineNo : nat) (lines : list string) (s : scan) : scan * result unit :=
  match lines with
  | [] => (s, Ok tt)
  | line :: rest =>
      let lineNo := S lineNo in
      if late_line ck source lineNo then (cut_short s, Ok tt)
      else
        let trimmed := js_trim line in
        if String.eqb trimmed "" then scan_lines source lineNo rest s
        else match json_parse trimmed with
             | None => scan_lines source lineNo rest (skip_line s)
             | Some item =>
                 match event source lineNo item s with
                 | (s', Ok _) => scan_lines source lineNo rest s'
                 | (s', Throw e) => (s', Throw e)
                 end
             end
  end.

(** @src runtime/src/usage/claude.ts 115-131 parseSessionFile *)
Definition read_session (source : string) (f : logfile) (d : db) : db * result parsed :=
  match lf_stat f with
  | None => (d, Ok nothing_parsed)
  | Some (size, mtimeMs) =>
      let cursor := getSourceCursor d source in
      if unchanged cursor size mtimeMs then (d, Ok nothing_parsed)
      else match lf_raw f with
           | None => (d, Ok nothing_parsed)
           | Some raw =>
               let offset := read_offset cursor size mtimeMs raw in
               match scan_lines source 0 (new_lines offset raw) (mkScan d [] [] 0 false) with
               | (s, Throw e) => (sc_store s, Throw e)
               | (s, Ok _) =>
                   (setSourceCursor source size mtimeMs (inject_Z (Z.of_nat (complete_end raw))) (iso_text (now_ms ck source 0)) (sc_store s),
                    Ok (mkParsed (sc_usage s) (sc_limits s) (sc_skipped s) (sc_cut s) None))
               end
           end
  end.
End reading.

(** ** The frame of an adapter *)

(** The variables of [collectClaude] and its siblings. *)
Record progress := mkProgress {
  pg_usage : list UsageObservation; pg_limits : list LimitObservation; pg_scanned : nat; pg_skipped : nat;
  pg_status : ProviderStatus;
}.

Definition add_parsed (out : parsed) (p : progress) : progress :=
  let status := if pf_cut out && bool_decide (pg_status p = st_ok) then st_timeboxed else pg_status p in
  let status := match pf_status out with
    | Some s => if bool_decide (status = st_ok) then s else status
    | None => status
    end in
  mkProgress (pg_usage p ++ pf_usage out) (pg_limits p ++ pf_limits out) (S (pg_scanned p))
    (pg_skipped p + pf_skipped out)%nat status.

Definition with_status (st : ProviderStatus) (p : progress) : progress :=
  mkProgress (pg_usage p) (pg_limits p) (pg_scanned p) (pg_skipped p) st.

Section frame.
Context (ck : clock) (read : string -> db -> db * result parsed).

(** The loop over the sources: it stops at the deadline and at a throw.
    @src runtime/src/usage/claude.ts 61-72 collectClaude *)
Fixpoint collect_sources (sources : list string) (p : progress) (d : db) : db * progress * result unit :=
  match sources with
  | [] => (d, p, Ok tt)
  | source :: rest =>
      if late_source ck source then (d, with_status st_timeboxed p, Ok tt)
      else match read source d with
           | (d', Throw e) => (d', p, Throw e)
           | (d', Ok out) => collect_sources rest (add_parsed out p) d'
           end
  end.

(** [local_limits] are read after the sources.
    @src runtime/src/usage/claude.ts 45-99 collectClaude *)
Definition adapter (provider : UsageProvider) (m : machine) (settings : string -> option string)
    (sources : list string) (local_limits : list LimitObservation) (d : db) : db * AdapterOutput :=
  let detected := providerDetected m provider in
  let p0 := mkProgress [] [] 0 0 (if detected then st_ok else st_missing) in
  let message := if detected then Some "adapter v1" else None in
  let finish p message :=
    mkOutput (pg_usage p) (pg_limits p)
      (mkResult provider detected (pg_status p) (pg_scanned p) (length (pg_usage p)) (pg_skipped p) (elapsed ck) message) in
  if negb (providerEnabled settings provider) then (d, finish (with_status st_disabled p0) (Some "integration disabled"))
  else
    match collect_sources sources p0 d with
    | (d', p, Throw e) => (d', finish (with_status st_error p) (Some (err_message e)))
    | (d', p, Ok _) =>
        let p := mkProgress (pg_usage p) (pg_limits p ++ local_limits) (pg_scanned p) (pg_skipped p) (pg_status p) in
        let p := if bool_decide (pg_status p = st_ok) && bool_decide (sources = []) && negb detected then with_status st_missing p else p in
        (d', finish p message)
    end.
End frame.

(** ** Properties *)

(** *** The walk *)

Section dirent_ind.
Context (P : dirent -> Prop).
Context (Hfile : forall n, P (de_file n)) (Hother : forall n, P (de_other n)) (Hnone : forall n, P (de_dir n None)).
Context (Hdir : forall n es, Forall P es -> P (de_dir n (Some es))).

(** Induction on directories with their entries. *)
Fixpoint dirent_rect' (e : dirent) : P e :=
  match e with
  | de_file n => Hfile n
  | de_other n => Hother n
  | de_dir n None => Hnone n
  | de_dir n (Some es) =>
      Hdir n es ((fix go (es : list dirent) : Forall P es :=
                    match es with [] => Forall_nil_2 _ | e :: es => Forall_cons_2 _ _ _ (dirent_rect' e) (go es) end) es)
  end.
End dirent_ind.

(** [r] extends [out] with a first part of [files], all of them when complete, and
    does not pass the limit. *)
Definition walk_result (limit : nat) (files out : list string) (r : list string * bool) : Prop :=
  (exists k, r.1 = out ++ take k files) /\ (r.2 = true -> r.1 = out ++ files) /\
  (length out <= limit -> length r.1 <= limit)%nat.

Definition visits_ok (limit : nat) (room : nat) (visit : dirent -> list string -> list string * bool) (files : dirent -> list string) (e : dirent) :=
  forall out, (length out < room)%nat -> walk_result limit (files e) out (visit e out).

Lemma walk_stop limit files out : walk_result limit files out (out, false).
Proof. split_and!; [exists 0%nat; cbn; by rewrite take_0, app_nil_r|done|done]. Qed.

Lemma walk_nothing limit out : walk_result limit [] out (out, true).
Proof. split_and!; [exists 0%nat|intros _|]; cbn; by rewrite ?app_nil_r. Qed.

Lemma walk_list_result ck limit visit files dir es out :
  Forall (visits_ok limit limit visit files) es ->
  walk_result limit (flat_map files es) out (walk_list ck limit visit dir es out).
Proof.
  intros Hes. revert out. induction Hes as [|e es He Hes IH]; intros out; cbn; [apply walk_nothing|].
  destruct (Nat.leb_spec limit (length out)) as [Hl|Hl]; [apply walk_stop|]. destruct (late_walk ck _); [apply walk_stop|].
  destruct (He out Hl) as ((k & Hk) & Hall & Hlen). destruct (visit e out) as [out1 [|]]; cbn [fst snd] in *.
  - rewrite (Hall eq_refl) in *. destruct (IH (out ++ files e)) as ((j & Hj) & Hall' & Hlen'). split_and!.
    + exists (length (files e) + j)%nat. by rewrite Hj, take_app_add, <- app_assoc.
    + intros Hc. by rewrite (Hall' Hc), app_assoc.
    + intros H. apply Hlen', Hlen, H.
  - split_and!; [|done|done]. exists (Nat.min k (length (files e))). cbn [fst]. rewrite take_app_le by lia. rewrite Hk. f_equal.
    destruct (Nat.le_ge_cases k (length (files e))) as [H|H]; [by rewrite Nat.min_l|].
    by rewrite Nat.min_r, !take_ge by lia.
Qed.

Lemma walk_entry_result ck limit ext e : forall dir, visits_ok limit limit (walk_entry ck limit ext dir) (all_files ext dir) e.
Proof.
  induction e as [n|n|n|n es IH] using dirent_rect'; intros dir out Hroom; cbn; [|apply walk_nothing..|].
  - destruct (js_endsWith n ext); [|apply walk_nothing].
    split_and!; [by exists 1%nat|done|]. intros _. cbn. rewrite length_app. cbn. lia.
  - apply walk_list_result. eapply Forall_impl; [exact IH|]. intros e He. apply He.
Qed.

(** The walk over the session files finds a first part of the files below the
    directory that have the extension, in order, at most as many as its limit, and
    all of them when neither the limit nor the deadline stops it. *)
Theorem walk_dir_result ck limit ext dir entries :
  let files := match entries with Some es => flat_map (all_files ext dir) es | None => [] end in
  let r := walk_dir ck limit ext dir entries [] in
  (exists k, r.1 = take k files) /\ (r.2 = true -> r.1 = files) /\ (length r.1 <= limit)%nat.
Proof.
  destruct entries as [es|]; cbn; [|split_and!; [by exists 0%nat|done|lia]].
  destruct (walk_list_result ck limit (walk_entry ck limit ext dir) (all_files ext dir) dir es []) as (H1 & H2 & H3).
  { apply Forall_true. intros e. apply walk_entry_result. }
  split_and!; [exact H1|exact H2|]. apply H3. cbn. lia.
Qed.

(** *** Complete lines *)

Lemma complete_end_app a b :
  complete_end (a +:+ b) = if Nat.eqb (complete_end b) 0 then complete_end a else (String.length a + complete_end b)%nat.
Proof.
  induction a as [|c a IH]; [by cbn; destruct (complete_end b)|]. rewrite sapp_cons. cbn [complete_end String.length].
  rewrite IH. destruct (complete_end b) as [|n]; [done|]. cbn [Nat.eqb]. by rewrite !Nat.add_succ_r.
Qed.

(** The complete lines of a text, and the rest. *)
Lemma complete_end_spec raw : exists w p,
  raw = w +:+ p /\ complete_end raw = String.length w /\ complete_end p = 0%nat /\ (w = "" \/ exists v, w = v +:+ str1 LF).
Proof.
  induction raw as [|c raw (w & p & Hraw & Hlen & Hp & Hw)]; [exists "", ""; by auto|]. cbn. rewrite Hlen.
  destruct w as [|x w].
  - cbn in *. subst. destruct (Ascii.eqb_spec c LF) as [->|Hc].
    + exists (str1 LF), p. split_and!; [done..|]. right. by exists "".
    + exists "", (String c p). split_and!; [done|done| |by left]. cbn. rewrite Hp. by apply Ascii.eqb_neq in Hc as ->.
  - exists (String c (String x w)), p. cbn in *. subst. split_and!; [done..|]. right. destruct Hw as [Hw|(v & Hw)]; [done|].
    exists (String c v). cbn. by rewrite Hw.
Qed.

(** A text that grows: the new lines begin where the complete ones ended. *)
Lemma grown_lines raw more :
  let n := complete_end raw in
  (n <= complete_end (raw +:+ more))%nat /\
  (n <> 0%nat -> String.get (n - 1) (raw +:+ more) = Some LF) /\
  exists l, new_lines 0 raw = l ++ [""] /\ new_lines 0 (raw +:+ more) = l ++ new_lines n (raw +:+ more).
Proof.
  destruct (complete_end_spec raw) as (w & p & -> & Hlen & Hp & Hw). cbn zeta. rewrite Hlen.
  unfold new_lines. rewrite Hlen, sapp_assoc. set (rest := p +:+ more).
  assert (Hce : complete_end (w +:+ rest) = (String.length w + complete_end rest)%nat).
  { rewrite complete_end_app. rewrite complete_end_app, Hp in Hlen. cbn in Hlen.
    destruct (Nat.eqb_spec (complete_end rest) 0) as [->|]; lia. }
  assert (Htake : js_take (String.length w + complete_end rest) (w +:+ rest) = w +:+ js_take (complete_end rest) rest).
  { clear. induction w as [|c w IH]; cbn; [done|]. by rewrite IH. }
  rewrite Hce, Htake, drop_app_length. split_and!; [lia| |].
  - intros Hne. destruct Hw as [->|(v & ->)]; [done|]. rewrite slength_app. cbn.
    replace (String.length v + 1 - 1)%nat with (String.length v) by lia.
    clear. induction v as [|c v IH]; [done|]. exact IH.
  - assert (Hd0 : forall t, js_drop 0 t = t) by (by intros []). rewrite !Hd0, take_app_length.
    destruct Hw as [->|(v & ->)]; [by exists []|]. exists (js_split LF v). split.
    + unfold js_split, str1. by rewrite split_by_app_sep.
    + rewrite sapp_assoc. unfold js_split, str1. cbn [String.append]. by rewrite split_by_app_sep.
Qed.

(** The cursor left at the end of the complete lines is where the grown file is
    read from. *)
Lemma read_offset_grown c size mtimeMs raw more :
  c_offset c = inject_Z (Z.of_nat (complete_end raw)) -> (Z.of_nat (complete_end raw) <= size)%Z ->
  read_offset (Some c) size mtimeMs (raw +:+ more) = complete_end raw.
Proof.
  intros Hoff Hsize. destruct (grown_lines raw more) as (Hle & Hlf & _). unfold read_offset. rewrite Hoff, Qfloor_Z, Nat2Z.id.
  assert (Hq : Qle_bool (inject_Z (Z.of_nat (complete_end raw))) (inject_Z size) = true).
  { apply Qle_bool_iff. by rewrite <- Zle_Qle. }
  rewrite Hq. destruct (Nat.eq_dec (complete_end raw) 0%nat) as [H0|H0].
  - rewrite H0. cbn [Z.of_nat]. change (Qeq_bool (inject_Z 0) 0) with true.
    rewrite orb_true_l, orb_true_r. cbn [andb]. by destruct (Nat.ltb_spec (complete_end (raw +:+ more)) 0%nat); [lia|].
  - rewrite bool_decide_eq_true_2 by auto. rewrite !orb_true_r. cbn [andb].
    by destruct (Nat.ltb_spec (complete_end (raw +:+ more)) (complete_end raw)); [lia|].
Qed.

(** *** Recording *)

(** The rows after recording observations: an event that is there already is
    ignored. *)
Definition insert_row (l : list ExternalUsageRow) (o : UsageObservation) : list ExternalUsageRow :=
  (insert_or_ignore external_key (row_of o) l).1.
Definition insert_rows (l : list ExternalUsageRow) (os : list UsageObservation) : list ExternalUsageRow := fold_left insert_row os l.

Definition obs_key (o : UsageObservation) : UsageProvider * string * string := (o_provider o, o_source o, o_eventKey o).
Definition fresh (l : list ExternalUsageRow) (o : UsageObservation) : bool := negb (has_key external_key (obs_key o) l).

Lemma insert_row_known l o : has_key external_key (obs_key o) l = true -> insert_row l o = l.
Proof. unfold insert_row, insert_or_ignore. change (external_key (row_of o)) with (obs_key o). by intros ->. Qed.

Lemma insert_row_keeps l o k : has_key external_key k l = true -> has_key external_key k (insert_row l o) = true.
Proof.
  unfold insert_row, insert_or_ignore. destruct (has_key _ (external_key _) l); [done|]. rewrite !has_key_spec. cbn.
  rewrite map_app, elem_of_app. auto.
Qed.

(** Leaving out what the store has when the scan begins changes nothing. *)
Lemma insert_rows_filter os l0 l :
  (forall k, has_key external_key k l0 = true -> has_key external_key k l = true) ->
  insert_rows l (List.filter (fresh l0) os) = insert_rows l os.
Proof.
  revert l. induction os as [|o os IH]; intros l Hl; cbn; [done|]. unfold fresh at 1.
  destruct (has_key external_key (obs_key o) l0) eqn:E; cbn.
  - rewrite (insert_row_known l o) by auto. by apply IH.
  - apply IH. intros k Hk. by apply insert_row_keeps, Hl.
Qed.

(** *** Visits of a growing file *)

Lemma List_last_cons {A} (a x : A) l : List.last (x :: l) a = List.last l x.
Proof. revert a x. induction l as [|y l IH]; intros a x; [done|]. change (List.last (y :: l) a = List.last (y :: l) x). by rewrite !IH. Qed.

(** What the file holds when it is visited: size, modification time and text. *)
Definition log_of (v : Z * Z * string) : logfile := mkLog (Some v.1) (Some v.2).

(** Each visit sees the text of the one before it with something appended, or, if
    size and time are the same, the same text; its complete lines were there when
    the size was read. *)
Fixpoint grows (prev : Z * Z * string) (vs : list (Z * Z * string)) : Prop :=
  match vs with
  | [] => True
  | v :: rest => (exists more, v.2 = prev.2 +:+ more) /\ (v.1 = prev.1 -> v.2 = prev.2) /\
                 (Z.of_nat (complete_end prev.2) <= v.1.1)%Z /\ grows v rest
  end.

Lemma grows_prefix v vs : grows v vs -> exists more, (List.last vs v).2 = v.2 +:+ more.
Proof.
  revert v. induction vs as [|w vs IH]; intros v; [exists ""; by rewrite sapp_nil_r|]. intros ((m & Hm) & _ & _ & Hg).
  destruct (IH w Hg) as (m' & Hm'). exists (m +:+ m'). rewrite <- sapp_assoc, <- Hm, <- Hm'.
  by rewrite List_last_cons.
Qed.

(** *** Running out of time *)

(** A reading that the deadline cuts short loses what it had not read: the cursor is
    set to the end of the file all the same, so that the next reading of the same
    file returns nothing, whatever the deadline. *)
Theorem cut_reading_loses_lines `{JsText} ck ck' event event' source size mtimeMs raw d :
  unchanged (getSourceCursor d source) size mtimeMs = false -> late_line ck source 1 = true ->
  exists d', read_session ck event source (mkLog (Some (size, mtimeMs)) (Some raw)) d = (d', Ok (mkParsed [] [] 0 true None)) /\
    read_session ck' event' source (mkLog (Some (size, mtimeMs)) (Some raw)) d' = (d', Ok nothing_parsed).
Proof.
  intros Hu Hlate. unfold read_session. cbn [lf_stat lf_raw]. rewrite Hu.
  destruct (new_lines _ raw) as [|line rest] eqn:E; [by destruct (split_by_nonempty _ _ E)|]. cbn [scan_lines]. rewrite Hlate.
  cbn [cut_short sc_store sc_usage sc_limits sc_skipped sc_cut]. eexists. split; [done|].
  unfold setSourceCursor, getSourceCursor. cbn [with_cursors t_cursors]. rewrite lookup_upsert. cbn [c_source].
  rewrite decide_True by done. unfold unchanged. cbn [c_size c_mtimeMs]. by rewrite !Z.eqb_refl.
Qed.

(** *** What a reading may change *)

(** Reading changes cursors and totals, never the tables that are shown or the
    settings; and what it returns is of its own provider. *)
Definition same_tables (d d' : db) : Prop :=
  t_external d' = t_external d /\ t_limits d' = t_limits d /\ t_settings d' = t_settings d /\ t_runs d' = t_runs d /\
  t_usage d' = t_usage d.

Definition of_provider (p : UsageProvider) (os : list UsageObservation) (ls : list LimitObservation) : Prop :=
  Forall (fun o => o_provider o = p) os /\ Forall (fun l => lo_provider l = p) ls.

Definition scan_ok (p : UsageProvider) (d : db) (s : scan) : Prop :=
  same_tables d (sc_store s) /\ of_provider p (sc_usage s) (sc_limits s).

Definition event_ok (p : UsageProvider) (event : string -> nat -> json -> scan -> scan * result unit) : Prop :=
  forall d source n item s, scan_ok p d s -> scan_ok p d (event source n item s).1.

Definition read_ok (p : UsageProvider) (read : string -> db -> db * result parsed) : Prop :=
  forall source d, same_tables d (read source d).1 /\
    match (read source d).2 with Ok out => of_provider p (pf_usage out) (pf_limits out) | Throw _ => True end.

Lemma same_tables_refl d : same_tables d d.
Proof. by repeat split. Qed.

Lemma same_tables_trans d1 d2 d3 : same_tables d1 d2 -> same_tables d2 d3 -> same_tables d1 d3.
Proof. unfold same_tables. intros (-> & -> & -> & -> & ->). done. Qed.

Lemma of_provider_nil p : of_provider p [] [].
Proof. by split. Qed.

Lemma of_provider_app p os os' ls ls' : of_provider p os ls -> of_provider p os' ls' -> of_provider p (os ++ os') (ls ++ ls').
Proof. intros [H1 H2] [H3 H4]. split; by apply Forall_app. Qed.

Create HintDb usage.
#[export] Hint Resolve same_tables_refl same_tables_trans of_provider_nil of_provider_app : usage.

Lemma keep_obs_ok p d o s : (forall x, o = Some x -> o_provider x = p) -> scan_ok p d s -> scan_ok p d (keep_obs o s).
Proof.
  intros Ho [Hd [Hu Hl]]. destruct o as [o|]; cbn; [|done]. destruct (hasExternal _ _ _ _); [done|].
  split; [done|]. split; [|done]. apply Forall_app. split; [done|]. by constructor; [apply Ho|].
Qed.

Section reading_ok.
Context `{JsText} (ck : clock) (p : UsageProvider).

Lemma scan_lines_ok event source n lines d s :
  event_ok p event -> scan_ok p d s -> scan_ok p d (scan_lines ck event source n lines s).1.
Proof.
  intros He. revert n s. induction lines as [|line rest IH]; intros n s Hs; cbn [scan_lines]; [done|].
  destruct (late_line ck source (S n)); [done|]. destruct (String.eqb _ _); [by apply IH|].
  destruct (json_parse _) as [item|]; [|by apply IH].
  pose proof (He d source (S n) item s Hs) as Hs'. destruct (event source (S n) item s) as [s' [|]]; [by apply IH|done].
Qed.

Lemma nothing_ok d : same_tables d d /\ of_provider p [] [].
Proof. auto with usage. Qed.

Lemma read_session_ok event (logs : string -> logfile) :
  event_ok p event -> read_ok p (fun source => read_session ck event source (logs source)).
Proof.
  intros He source d. unfold read_session. destruct (lf_stat (logs source)) as [[size mtime]|]; [|exact (nothing_ok d)].
  destruct (unchanged _ _ _); [exact (nothing_ok d)|]. destruct (lf_raw (logs source)) as [raw|]; [|exact (nothing_ok d)].
  pose proof (scan_lines_ok event source 0 (new_lines (read_offset (getSourceCursor d source) size mtime raw) raw) d
                (mkScan d [] [] 0 false) He (conj (same_tables_refl d) (of_provider_nil p))) as Hok.
  destruct (scan_lines _ _ _ _ _ _) as [s [|e]]; cbn [fst snd pf_usage pf_limits];
    destruct Hok as [Hd Ho]; (split; [exact Hd|first [exact Ho|done]]).
Qed.

Lemma collect_sources_ok read sources pg d :
  read_ok p read -> of_provider p (pg_usage pg) (pg_limits pg) ->
  let '(d', pg', _) := collect_sources ck read sources pg d in same_tables d d' /\ of_provider p (pg_usage pg') (pg_limits pg').
Proof.
  intros Hr. revert pg d. induction sources as [|source rest IH]; intros pg d Hpg; cbn [collect_sources]; [auto with usage|].
  destruct (late_source ck source); [cbn; auto with usage|]. destruct (Hr source d) as [Hd Hout].
  destruct (read source d) as [d1 [out|e]]; cbn [fst snd] in *; [|auto].
  specialize (IH (add_parsed out pg) d1). destruct (collect_sources ck read rest (add_parsed out pg) d1) as [[d2 pg2] r].
  destruct IH as [Hd2 Hpg2]; [by apply of_provider_app|]. eauto with usage.
Qed.

(** An adapter. *)
Lemma adapter_ok read m settings sources local_limits d :
  read_ok p read -> Forall (fun l => lo_provider l = p) local_limits ->
  let '(d', out) := adapter ck read p m settings sources local_limits d in
  same_tables d d' /\ of_provider p (ao_usage out) (ao_limits out) /\ r_provider (ao_result out) = p.
Proof.
  intros Hr Hl. unfold adapter. destruct (providerEnabled settings p); cbn [negb]; [|by repeat split].
  pose proof (collect_sources_ok read sources (mkProgress [] [] 0 0 (if providerDetected m p then st_ok else st_missing)) d Hr
                (of_provider_nil p)) as Hc.
  destruct (collect_sources _ _ _ _ _) as [[d' pg] [|e]]; destruct Hc as [Hd [Hu Hls]]; [|split; [exact Hd|by split]].
  destruct (_ && _); cbn; (split; [exact Hd|split; [split; [exact Hu|apply Forall_app; split; assumption]|done]]).
Qed.
End reading_ok.
End UsageSources.
