(* ===== verification/ClaudeUsage.v ===== *)
(** The Claude Code adapter, [runtime/src/usage/claude.ts], and the price table of
    [pricing.ts]. *)
From S2P Require Import Prelude NodePath UsageStore UsageSources.

Module ClaudeUsage.
Import UsageStore UsageSources.
Local Open Scope Q_scope.

(** ** Prices *)

(** @src runtime/src/usage/pricing.ts ModelPrice *)
Record ModelPrice := mkPrice { pr_input : Q; pr_output : Q; pr_cacheWrite : Q; pr_cacheRead : Q }.

(** @src runtime/src/usage/pricing.ts PRICING *)
Definition PRICING : list (string * ModelPrice) :=
  [("claude-opus-4", mkPrice 15 75 (1875 # 100) (15 # 10));
   ("claude-sonnet-4", mkPrice 3 15 (375 # 100) (3 # 10));
   ("claude-haiku-4", mkPrice 1 5 (125 # 100) (1 # 10));
   ("claude-3-5-haiku", mkPrice (8 # 10) 4 1 (8 # 100));
   ("claude-3-opus", mkPrice 15 75 (1875 # 100) (15 # 10));
   ("claude-3-sonnet", mkPrice 3 15 (375 # 100) (3 # 10));
   ("claude-3-haiku", mkPrice (25 # 100) (125 # 100) (3 # 10) (3 # 100))].

(** @src runtime/src/usage/pricing.ts claudePrice *)
Definition claudePrice (model : option string) : option ModelPrice :=
  match model with
  | None => None
  | Some s => if String.eqb s "" then None
              else snd <$> List.find (fun p => js_startsWith s (fst p)) PRICING
  end.

(** @src runtime/src/usage/pricing.ts estimateClaudeCost *)
Definition estimateClaudeCost (o : UsageObservation) : option Q :=
  match claudePrice (o_model o) with
  | None => None
  | Some p => Some ((o_tokensIn o * pr_input p + o_tokensOut o * pr_output p
                     + nullish (o_cacheWrite o) 0 * pr_cacheWrite p + nullish (o_cacheRead o) 0 * pr_cacheRead p) / 1000000)
  end.

(** ** The adapter *)
Section claude.
Context `{JsText} (ck : clock).

(** @src runtime/src/usage/claude.ts eventToObservation *)
Definition eventToObservation (event : json) (source : string) (lineNo : nat) : option UsageObservation :=
  e ← isUsageObject (Some event);
  if negb (bool_decide (str_field "type" e = Some "assistant")) then None
  else
    message ← isUsageObject (obj_get "message" e);
    usage ← isUsageObject (obj_get "usage" message);
    let tokensIn := num (obj_get "input_tokens" usage) in
    let tokensOut := num (obj_get "output_tokens" usage) in
    match tokensIn, tokensOut with
    | None, None => None
    | _, _ =>
        let costExact := num (obj_get "cost_usd" usage) in
        let occurredAt := nullish (str_field "timestamp" e) (iso_text (now_ms ck source lineNo)) in
        let base := mkObs claude source (str_field "session_id" message) (str_field "model" message)
          (nullish tokensIn 0) (nullish tokensOut 0) (num (obj_get "cache_read_input_tokens" usage))
          (num (obj_get "cache_creation_input_tokens" usage)) None None occurredAt
          (nullish (str_field "uuid" message) (occurredAt +:+ "|" +:+ number_text (inject_Z (Z.of_nat lineNo)))) in
        let estimated := match costExact with Some _ => None | None => estimateClaudeCost base end in
        Some (mkObs claude source (o_sessionId base) (o_model base) (o_tokensIn base) (o_tokensOut base)
          (o_cacheRead base) (o_cacheWrite base) costExact estimated occurredAt (o_eventKey base))
    end.

(** One line of the loop. *)
Definition claude_event (source : string) (lineNo : nat) (item : json) (s : scan) : scan * result unit :=
  (keep_obs (eventToObservation item source lineNo) s, Ok tt).

(** @src runtime/src/usage/claude.ts parseSessionFile *)
Definition parseSessionFile (logs : string -> logfile) (file : string) : db -> db * result parsed :=
  read_session ck claude_event file (logs file).

(** @src runtime/src/usage/claude.ts resolveRoots *)
Definition resolveRoots (m : machine) : option string * option string :=
  let root := adapter_root m claude in
  if negb (file_exists m root) then (None, None)
  else
    let dataDir := NodePath.join root "projects" in
    let configFile := NodePath.join root "claude.json" in
    (if file_exists m dataDir then Some dataDir else None, if file_exists m configFile then Some configFile else None).

(** [Math.round]. *)
Definition js_round (q : Q) : Q := inject_Z (Qfloor (q + (1 # 2))).

(** @src runtime/src/usage/claude.ts collectLocalLimits *)
Definition collectLocalLimits (m : machine) (read : string -> option string) (settings : string -> option string)
    : list LimitObservation :=
  if negb (hasConsent settings claude ck_credentials) then []
  else match isUsageObject (configFile ← (resolveRoots m).2; raw ← read configFile; json_parse raw) with
       | None => []
       | Some data =>
           match isUsageObject (obj_get "usage" data) with
           | None => []
           | Some u =>
               let given := num (obj_get "given" u) in
               let used := num (obj_get "used" u) in
               match given, used with
               | None, None => []
               | _, _ =>
                   let periodEnd := str_field "period_end" u in
                   let usedPercent := match given, used with
                     | Some g, Some n => if negb (Qle_bool g 0) then Some (js_round (n / g * 1000) / 10) else None
                     | _, _ => None
                     end in
                   [mkLimitObs claude (if truthy periodEnd then "until-period-end" else "period") (str_field "plan" u) usedPercent
                      (Some "tokens") used given (if truthy periodEnd then periodEnd else None) ls_local]
               end
           end
       end.

(** [dirs] gives the entries of a directory, [logs] the session files, [read] the
    text of the configuration.
    @src runtime/src/usage/claude.ts collectClaude *)
Definition collectClaude (m : machine) (dirs : string -> option (list dirent)) (logs : string -> logfile)
    (read : string -> option string) (settings : string -> option string) (d : db) : db * AdapterOutput :=
  let files := match (resolveRoots m).1 with
    | Some dataDir => (walk_dir ck MAX_FILES ".jsonl" dataDir (dirs dataDir) []).1
    | None => []
    end in
  adapter ck (parseSessionFile logs) claude m settings files (collectLocalLimits m read settings) d.
End claude.

(** ** Properties *)

Section claude_facts.
Context `{JsText} (ck : clock) (source : string).
Hypothesis in_time : forall n, late_line ck source n = false.

(** The observations of some lines. *)
Fixpoint lines_obs (lineNo : nat) (lines : list string) : list UsageObservation :=
  match lines with
  | [] => []
  | line :: rest =>
      (if String.eqb (js_trim line) "" then []
       else match item ← json_parse (js_trim line); eventToObservation ck item source (S lineNo) with Some o => [o] | None => [] end)
      ++ lines_obs (S lineNo) rest
  end.

Lemma scan_claude n lines s : exists k,
  scan_lines ck (claude_event ck) source n lines s =
  (mkScan (sc_store s) (sc_usage s ++ List.filter (fresh (t_external (sc_store s))) (lines_obs n lines)) (sc_limits s) k (sc_cut s), Ok tt).
Proof.
  revert n s. induction lines as [|line rest IH]; intros n s; cbn [scan_lines lines_obs].
  { exists (sc_skipped s). rewrite app_nil_r. by destruct s. }
  rewrite in_time. destruct (String.eqb (js_trim line) ""); [apply IH|].
  destruct (json_parse (js_trim line)) as [item|]; cbn [mbind option_bind].
  - unfold claude_event at 1. destruct (eventToObservation ck item source (S n)) as [o|]; cbn [keep_obs].
    + destruct (hasExternal (sc_store s) _ _ _) eqn:E; destruct (IH (S n) (keep_obs (Some o) s)) as (k & Hk); exists k;
        cbn [keep_obs] in Hk; rewrite E in Hk; rewrite Hk; cbn; unfold fresh at 2, obs_key; unfold hasExternal in E; rewrite E;
        cbn; by rewrite <- ?app_assoc.
    + destruct (IH (S n) (skip_line s)) as (k & ->). by exists k.
  - destruct (IH (S n) (skip_line s)) as (k & ->). by exists k.
Qed.

(** An event with a time and an id of its own gives the same observation at any line. *)
Definition keyed (item : json) : bool :=
  match isUsageObject (Some item) with
  | Some e => bool_decide (is_Some (str_field "timestamp" e)) &&
              match isUsageObject (obj_get "message" e) with Some m => bool_decide (is_Some (str_field "uuid" m)) | None => true end
  | None => true
  end.

Lemma keyed_obs item n n' : keyed item = true -> eventToObservation ck item source n = eventToObservation ck item source n'.
Proof.
  unfold keyed, eventToObservation. destruct (isUsageObject (Some item)) as [e|]; [|done]. cbn [mbind option_bind].
  intros [Ht Hm]%andb_prop. destruct (bool_decide (str_field "type" e = _)); cbn [negb]; [|done].
  destruct (isUsageObject (obj_get "message" e)) as [m|]; [|done]. cbn [mbind option_bind].
  apply bool_decide_eq_true in Ht as [t Ht], Hm as [u Hu]. rewrite Ht, Hu. done.
Qed.

Definition keyed_line (line : string) : bool :=
  if String.eqb (js_trim line) "" then true
  else match json_parse (js_trim line) with Some item => keyed item | None => true end.

Lemma keyed_lines_obs lines n n' : forallb keyed_line lines = true -> lines_obs n lines = lines_obs n' lines.
Proof.
  revert n n'. induction lines as [|line rest IH]; intros n n'; cbn [forallb lines_obs]; [done|]. intros [Hl Hr]%andb_prop.
  rewrite (IH (S n) (S n')) by done. unfold keyed_line in Hl. destruct (String.eqb (js_trim line) ""); [done|]. destruct (json_parse (js_trim line)) as [item|]; [|done].
  cbn [mbind option_bind]. by rewrite (keyed_obs item (S n) (S n')).
Qed.

Lemma lines_obs_app n a b : lines_obs n (a ++ b) = lines_obs n a ++ lines_obs (n + length a) b.
Proof.
  revert n. induction a as [|l a IH]; intros n; cbn [app lines_obs length]; [by rewrite Nat.add_0_r|].
  by rewrite IH, <- app_assoc, Nat.add_succ_r.
Qed.

(** Reading a session file and recording what it gives. *)
Definition visit (v : Z * Z * string) (d : db) : list UsageObservation * db :=
  match parseSessionFile ck (fun _ => log_of v) source d with
  | (d, Ok out) => (pf_usage out, d)
  | (d, Throw _) => ([], d)
  end.

Definition record_visit (d : db) (v : Z * Z * string) : db :=
  let '(os, d) := visit v d in with_external (insert_rows (t_external d) os) d.

Definition all_obs (raw : string) : list UsageObservation := lines_obs 0 (new_lines 0 raw).

(** The cursor and the rows after a file was read up to [v]. *)
Definition read_up_to (rows0 : list ExternalUsageRow) (v : Z * Z * string) (d : db) : Prop :=
  (exists now, getSourceCursor d source = Some (mkCursor source v.1.1 v.1.2 (inject_Z (Z.of_nat (complete_end v.2))) now)) /\
  t_external d = insert_rows rows0 (all_obs v.2).

Lemma visit_reads v d :
  unchanged (getSourceCursor d source) v.1.1 v.1.2 = false ->
  let obs := lines_obs 0 (new_lines (read_offset (getSourceCursor d source) v.1.1 v.1.2 v.2) v.2) in
  (exists now, getSourceCursor (record_visit d v) source
     = Some (mkCursor source v.1.1 v.1.2 (inject_Z (Z.of_nat (complete_end v.2))) now)) /\
  t_external (record_visit d v) = insert_rows (t_external d) obs.
Proof.
  destruct v as [[size mtime] raw]. cbn [fst snd]. intros Hu. unfold record_visit, visit, parseSessionFile, read_session.
  cbn [log_of lf_stat lf_raw fst snd]. rewrite Hu.
  destruct (scan_claude 0 (new_lines (read_offset (getSourceCursor d source) size mtime raw) raw) (mkScan d [] [] 0 false)) as (k & ->).
  cbn [sc_store sc_usage pf_usage app]. unfold setSourceCursor, with_external, with_cursors, getSourceCursor.
  cbn [with_external with_cursors t_cursors t_external sc_store]. split.
  - eexists. rewrite lookup_upsert. by destruct (decide _).
  - by apply insert_rows_filter.
Qed.

Lemma visit_grown rows0 prev v d :
  read_up_to rows0 prev d -> grows prev [v] -> forallb keyed_line (new_lines 0 v.2) = true -> read_up_to rows0 v (record_visit d v).
Proof.
  intros ((now & Hc) & Hext) ((more & Hmore) & Hsame & Hsize & _) Hkeyed.
  destruct (unchanged (getSourceCursor d source) v.1.1 v.1.2) eqn:Hu.
  - assert (Hv : v = prev).
    { rewrite Hc in Hu. cbn in Hu. apply andb_prop in Hu as [H1%Z.eqb_eq H2%Z.eqb_eq].
      destruct v as [[s m] r], prev as [[s' m'] r']. cbn in *. subst. by rewrite Hsame. }
    subst v. destruct prev as [[s m] r]. unfold read_up_to, record_visit, visit, parseSessionFile, read_session.
    cbn [log_of lf_stat fst snd] in *. rewrite Hu. cbn. split; [by exists now|done].
  - destruct (visit_reads v d Hu) as (Hcur & Hrows). split; [done|]. rewrite Hrows, Hext, Hc, Hmore.
    rewrite read_offset_grown by (rewrite <- ?Hmore; done). destruct (grown_lines prev.2 more) as (_ & _ & l & Hl1 & Hl2).
    unfold all_obs, insert_rows. rewrite <- fold_left_app. f_equal. rewrite Hl2, Hl1, !lines_obs_app. cbn [lines_obs js_trim].
    rewrite !app_nil_r. f_equal. rewrite Hmore, Hl2, forallb_app in Hkeyed.
    apply keyed_lines_obs. apply andb_prop in Hkeyed as [_ ?]. done.
Qed.

Lemma keyed_prefix raw more : forallb keyed_line (new_lines 0 (raw +:+ more)) = true -> forallb keyed_line (new_lines 0 raw) = true.
Proof.
  destruct (grown_lines raw more) as (_ & _ & l & -> & ->). rewrite !forallb_app. by intros [-> _]%andb_prop.
Qed.

Lemma visits_read rows0 v vs d :
  read_up_to rows0 v d -> grows v vs -> forallb keyed_line (new_lines 0 (List.last vs v).2) = true ->
  read_up_to rows0 (List.last vs v) (fold_left record_visit vs d).
Proof.
  revert v d. induction vs as [|w vs IH]; intros v d Hd Hg Hk; [done|].
  rewrite List_last_cons in *. cbn [fold_left]. destruct Hg as (Hm & Hs & Hz & Hg). apply IH; [|done|done].
  apply (visit_grown rows0 v); [done|by repeat split|].
  destruct (grows_prefix w vs Hg) as (more & Hmore). rewrite Hmore in Hk. by apply keyed_prefix in Hk.
Qed.

(** C28: Reading a session file in pieces, each time it has grown, records the same rows
    as reading it once at the end: no event is lost or counted twice, also when a
    line was only half written at a visit.  The events carry a time and an id, and
    no visit runs out of time. *)
Theorem incremental_reading d v vs :
  getSourceCursor d source = None -> grows v vs -> forallb keyed_line (new_lines 0 (List.last vs v).2) = true ->
  t_external (fold_left record_visit vs (record_visit d v)) = t_external (record_visit d (List.last vs v)).
Proof.
  intros Hnone Hgrows Hkeyed.
  assert (Hfirst : forall w, read_up_to (t_external d) w (record_visit d w)).
  { intros w. destruct (visit_reads w d) as (Hc & Hrows); [by rewrite Hnone|]. split; [done|]. by rewrite Hrows, Hnone. }
  destruct (Hfirst (List.last vs v)) as (_ & ->).
  by destruct (visits_read (t_external d) v vs (record_visit d v) (Hfirst v) Hgrows Hkeyed) as (_ & ->).
Qed.
End claude_facts.

(** ** A concrete log *)

(** A reader of texts that takes a line for the id of an event; ["-"] is an event
    without one. *)
Definition demo_event (id : string) : json :=
  jobj [("type", jstr "assistant"); ("timestamp", jstr "t");
        ("message", jobj ((if String.eqb id "-" then [] else [("uuid", jstr id)]) ++
                          [("model", jstr "claude-opus-4-1"); ("usage", jobj [("input_tokens", jnum 3); ("output_tokens", jnum 5)])]))].

Definition demo_text : JsText := {|
  json_parse s := if String.eqb s "" then None else Some (demo_event s);
  to_number _ := None;
  number_text q := match Qnum q with 1%Z => "1" | 2%Z => "2" | _ => "?" end;
  iso_text _ := "now";
|}.

Definition in_time_clock : clock := mkClock (fun _ => false) (fun _ => false) (fun _ _ => false) (fun _ _ => 0) 0.
Definition lines (l : list string) : string := js_join "" (map (fun s => s +:+ str1 LF) l).
Definition demo_visits : list (Z * Z * string) := [(4, 2, lines ["a"] +:+ "b"); (9, 3, lines ["a"; "bc"; "d"])]%Z.

Lemma incremental_reading_witness :
  map x_eventKey (t_external (fold_left (@record_visit demo_text in_time_clock "s") demo_visits
    (@record_visit demo_text in_time_clock "s" empty_db (0, 1, "")%Z))) = ["a"; "bc"; "d"].
Proof.
  rewrite (@incremental_reading demo_text in_time_clock "s" (fun _ => eq_refl) empty_db (0, 1, "")%Z demo_visits).
  - reflexivity.
  - reflexivity.
  - cbn [grows demo_visits]. split_and!; [by eexists|intros [=]|by vm_compute| |intros [=]|by vm_compute|done].
    exists (lines ["c"; "d"]). reflexivity.
  - reflexivity.
Defined.

(** Without an id the key of an event is its time and its line number, which counts
    from the start of the slice: two events of the same time that are read in two
    visits get the same key and the second is lost, while both are recorded when
    they are read together. *)
Theorem unkeyed_events_collide :
  let two := (4, 2, lines ["-"; "-"])%Z in
  length (t_external (@record_visit demo_text in_time_clock "s" empty_db two)) = 2%nat /\
  length (t_external (@record_visit demo_text in_time_clock "s"
    (@record_visit demo_text in_time_clock "s" empty_db (2, 1, lines ["-"])%Z) two)) = 1%nat.
Proof. split; reflexivity. Qed.

Lemma observation_shape `{JsText} ck event source n o :
  eventToObservation ck event source n = Some o ->
  o_provider o = claude /\ o_source o = source /\
  o_costEstimated o = match o_costExact o with Some _ => None | None => estimateClaudeCost o end.
Proof.
  unfold eventToObservation. intros He.
  destruct (isUsageObject (Some event)) as [e|]; [|done]. cbn [mbind option_bind] in He.
  destruct (bool_decide (str_field "type" e = _)); [|done]. cbn [negb] in He.
  destruct (isUsageObject (obj_get "message" e)) as [msg|]; [|done]. cbn [mbind option_bind] in He.
  destruct (isUsageObject (obj_get "usage" msg)) as [u|]; [|done]. cbn [mbind option_bind] in He.
  destruct (num (obj_get "input_tokens" u)), (num (obj_get "output_tokens" u)); try done; injection He as <-;
    by destruct (num (obj_get "cost_usd" u)).
Qed.

(** The cost of an event is what it states, or the estimate from the price table,
    never both; a model without a known price has no cost. *)
Theorem claude_cost_exclusive `{JsText} ck event source n o :
  eventToObservation ck event source n = Some o ->
  (o_costExact o = None \/ o_costEstimated o = None) /\
  (o_costExact o = None -> claudePrice (o_model o) = None -> o_costEstimated o = None).
Proof.
  intros (_ & _ & ->)%observation_shape. destruct (o_costExact o); [by auto|]. split; [by auto|]. intros _ Hp.
  unfold estimateClaudeCost. by rewrite Hp.
Qed.

(** *** What the adapter may change *)

Lemma claude_event_ok `{JsText} ck : event_ok claude (claude_event ck).
Proof.
  intros d source n item s Hs. apply keep_obs_ok; [|done]. by intros o (Hp & _)%observation_shape.
Qed.

Lemma local_limits_ok `{JsText} m read settings : Forall (fun l => lo_provider l = claude) (collectLocalLimits m read settings).
Proof.
  unfold collectLocalLimits. destruct (negb _); [done|]. destruct (isUsageObject _) as [data|]; [|done].
  destruct (isUsageObject (obj_get "usage" data)) as [u|]; [|done].
  by destruct (num (obj_get "given" u)), (num (obj_get "used" u)); [repeat constructor..|].
Qed.

Lemma collectClaude_ok `{JsText} ck m dirs logs read settings d :
  let '(d', out) := collectClaude ck m dirs logs read settings d in
  same_tables d d' /\ of_provider claude (ao_usage out) (ao_limits out) /\ r_provider (ao_result out) = claude.
Proof. apply adapter_ok; [apply read_session_ok, claude_event_ok|apply local_limits_ok]. Qed.
End ClaudeUsage.
