(* ===== verification/CodexUsage.v ===== *)
(** The Codex CLI adapter, [runtime/src/usage/codex.ts]: records with their own
    counts, and totals that only grow, of which the difference to the last total
    seen is recorded. *)
From Stdlib Require Import Lqa.
From S2P Require Import Prelude NodePath UsageStore UsageSources.

Module CodexUsage.
Import UsageStore UsageSources.
Local Open Scope Q_scope.

(** @src runtime/src/usage/codex.ts UsageRecord *)
Record UsageRecord := mkRecord {
  u_tokensIn : Q; u_tokensOut : Q; u_cumulative : bool; u_model : option string; u_sessionId : option string;
  u_timestamp : option string; u_id : option string;
}.

Record totals := mkTotals { tt_model : string; tt_in : Q; tt_out : Q }.

(** [a ?? b] on optional values. *)
Definition or_else {A} (a b : option A) : option A := match a with Some _ => a | None => b end.

Section codex.
Context `{JsText} (ck : clock).

(** @src runtime/src/usage/codex.ts findUsageRecord *)
Definition findUsageRecord (item : json) : option UsageRecord :=
  i ← isUsageObject (Some item);
  let payload := isUsageObject (obj_get "payload" i) in
  usage ← or_else (p ← payload; isUsageObject (obj_get "usage" p)) (isUsageObject (obj_get "usage" i));
  let tokensIn := num (obj_get "input_tokens" usage) in
  let tokensOut := num (obj_get "output_tokens" usage) in
  match tokensIn, tokensOut with
  | None, None => None
  | _, _ =>
      let cumulative := match obj_get "cumulative" usage with Some (jbool true) => true | _ => false end
        || bool_decide (str_field "type" i = Some "summary") in
      Some (mkRecord (nullish tokensIn 0) (nullish tokensOut 0) cumulative
        (or_else (str_field "model" usage) (or_else (str_field "model" i) (p ← payload; str_field "model" p)))
        (or_else (str_field "session_id" usage) (str_field "session_id" i))
        (or_else (str_field "observed_at" usage) (str_field "timestamp" i))
        (or_else (str_field "id" usage) (str_field "id" i)))
  end.

Definition Qmax0 (q : Q) : Q := if Qle_bool q 0 then 0 else q.

(** The date of the reset makes it throw when [reset_after] is beyond the range of
    dates.
    @src runtime/src/usage/codex.ts findRateLimit *)
Definition findRateLimit (item : json) (now : Q) : result (option LimitObservation) :=
  match isUsageObject (Some item) with
  | None => Ok None
  | Some i =>
      if negb (bool_decide (str_field "type" i = Some "ratelimit")) then Ok None
      else match isUsageObject (obj_get "payload" i) with
           | None => Ok None
           | Some rl =>
               let limit := num (obj_get "limit" rl) in
               let remaining := num (obj_get "remaining" rl) in
               match limit, remaining with
               | None, None => Ok None
               | _, _ =>
                   let used := match limit, remaining with
                     | Some l, Some r => Some (Qmax0 (l - r))
                     | _, _ => remaining
                     end in
                   let obs reset := mkLimitObs codex "sliding" None None
                     (Some (nullish (str_field "units" rl) "requests")) used limit reset ls_local in
                   match num (obj_get "reset_after" rl) with
                   | Some after =>
                       if Qle_bool 0 after then (reset ← date_iso (now + after * 1000); mret (Some (obs (Some reset))))
                       else Ok (Some (obs None))
                   | None => Ok (Some (obs None))
                   end
               end
           end
  end.

(** @src runtime/src/usage/codex.ts findCumulativeTotal *)
Definition findCumulativeTotal (item : json) : option totals :=
  i ← isUsageObject (Some item);
  payload ← isUsageObject (obj_get "payload" i);
  t ← isUsageObject (obj_get "totals" payload);
  let input := num (obj_get "input_tokens" t) in
  let output := num (obj_get "output_tokens" t) in
  match input, output with
  | None, None => None
  | _, _ =>
      if truthy (str_field "model" t)
      then Some (mkTotals (nullish (str_field "model" t) "") (nullish input 0) (nullish output 0)) else None
  end.

(** @src runtime/src/usage/codex.ts totalsToObservation *)
Definition totalsToObservation (t : totals) (source : string) (lineNo : nat) (d : db) : db * option UsageObservation :=
  let '(lastIn, lastOut) := nullish (getCodexTotal d source (tt_model t)) (0, 0) in
  let deltaIn := tt_in t - lastIn in
  let deltaOut := tt_out t - lastOut in
  if Qle_bool deltaIn 0 && Qle_bool deltaOut 0 then (d, None)
  else
    (setCodexTotal source (tt_model t) (tt_in t) (tt_out t) d,
     Some (mkObs codex source None (Some (tt_model t)) deltaIn deltaOut None None None None
       (iso_text (now_ms ck source lineNo))
       ("cum|" +:+ tt_model t +:+ "|" +:+ number_text (tt_in t) +:+ "|" +:+ number_text (tt_out t)))).

(** @src runtime/src/usage/codex.ts recordToObservation *)
Definition recordToObservation (rec : UsageRecord) (source : string) (lineNo : nat) : option UsageObservation :=
  let line := number_text (inject_Z (Z.of_nat lineNo)) in
  if u_cumulative rec then None
  else Some (mkObs codex source (u_sessionId rec) (Some (nullish (u_model rec) "unknown")) (u_tokensIn rec) (u_tokensOut rec)
    None None None None (nullish (u_timestamp rec) (iso_text (now_ms ck source lineNo)))
    (nullish (u_id rec) (nullish (u_timestamp rec) line +:+ "|" +:+ line))).

Definition with_store (d : db) (s : scan) : scan := mkScan d (sc_usage s) (sc_limits s) (sc_skipped s) (sc_cut s).
Definition push_limit (rl : option LimitObservation) (s : scan) : scan :=
  match rl with
  | Some l => mkScan (sc_store s) (sc_usage s) (sc_limits s ++ [l]) (sc_skipped s) (sc_cut s)
  | None => s
  end.

(** One line of the loop.
    @src runtime/src/usage/codex.ts 214-236 parseSessionFile *)
Definition codex_event (source : string) (lineNo : nat) (item : json) (s : scan) : scan * result unit :=
  match findRateLimit item (now_ms ck source lineNo) with
  | Throw e => (s, Throw e)
  | Ok rl =>
      let s := push_limit rl s in
      let rec := findUsageRecord item in
      match findCumulativeTotal item with
      | Some t =>
          let '(d, o) := totalsToObservation t source lineNo (sc_store s) in
          (keep_obs o (with_store d s), Ok tt)
      | None =>
          match rec, rl with
          | Some rec, _ => (keep_obs (recordToObservation rec source lineNo) s, Ok tt)
          | None, None => (skip_line s, Ok tt)
          | None, Some _ => (s, Ok tt)
          end
      end
  end.

(** @src runtime/src/usage/codex.ts parseSessionFile *)
Definition parseSessionFile (logs : string -> logfile) (file : string) : db -> db * result parsed :=
  read_session ck codex_event file (logs file).

(** @src runtime/src/usage/codex.ts collectCodex *)
Definition collectCodex (m : machine) (dirs : string -> option (list dirent)) (logs : string -> logfile)
    (settings : string -> option string) (d : db) : db * AdapterOutput :=
  let root := adapter_root m codex in
  let files := if file_exists m root
    then let sessionsDir := NodePath.join root "sessions" in
         (walk_dir ck MAX_FILES ".jsonl" sessionsDir (dirs sessionsDir) []).1
    else [] in
  adapter ck (parseSessionFile logs) codex m settings files [] d.
End codex.

(** ** Properties *)

Section codex_facts.
Context `{JsText} (ck : clock) (source : string).

(** *** Totals *)

Definition last_total (model : string) (d : db) : Q * Q := nullish (getCodexTotal d source model) (0, 0).

Definition same_pair (p q : Q * Q) : Prop := p.1 == q.1 /\ p.2 == q.2.

Lemma set_get_total model i o d : last_total model (setCodexTotal source model i o d) = (i, o).
Proof.
  unfold last_total, getCodexTotal, setCodexTotal. cbn [with_totals t_totals]. rewrite lookup_upsert. cbn [total_key t_source t_model].
  by rewrite decide_True.
Qed.

(** One total: it is recorded with the difference to the last one, which it
    replaces, unless neither count grew. *)
Lemma total_step t n d :
  let last := last_total (tt_model t) d in
  let '(d', o) := totalsToObservation ck t source n d in
  match o with
  | None => tt_in t <= last.1 /\ tt_out t <= last.2 /\ d' = d
  | Some o => o_tokensIn o = tt_in t - last.1 /\ o_tokensOut o = tt_out t - last.2 /\ last_total (tt_model t) d' = (tt_in t, tt_out t)
  end.
Proof.
  unfold totalsToObservation, last_total. destruct (nullish (getCodexTotal d source (tt_model t)) (0, 0)) as [i o]. cbn [fst snd].
  destruct (Qle_bool (tt_in t - i) 0 && Qle_bool (tt_out t - o) 0) eqn:E.
  - apply andb_prop in E as [H1%Qle_bool_iff H2%Qle_bool_iff]. split_and!; [lra|lra|done].
  - split_and!; [done..|]. apply set_get_total.
Qed.

(** A reading that throws after it has seen a total loses its tokens: the total is
    stored while the line is read, the observation only after the whole file, so
    that no later reading of the same total records anything.  A rate limit whose
    reset lies beyond the range of dates makes every reading of its file throw. *)
Theorem failed_reading_loses_totals l1 l2 rest item1 item2 t e raw size mtimeMs d :
  getSourceCursor d source = None -> new_lines 0 raw = l1 :: l2 :: rest ->
  late_line ck source 1 = false -> late_line ck source 2 = false ->
  js_trim l1 <> "" -> js_trim l2 <> "" ->
  json_parse (js_trim l1) = Some item1 -> json_parse (js_trim l2) = Some item2 ->
  findRateLimit item1 (now_ms ck source 1) = Ok None -> findCumulativeTotal item1 = Some t ->
  (last_total (tt_model t) d).1 < tt_in t -> findRateLimit item2 (now_ms ck source 2) = Throw e ->
  exists d', parseSessionFile ck (fun _ => mkLog (Some (size, mtimeMs)) (Some raw)) source d = (d', Throw e) /\
    t_external d' = t_external d /\ getSourceCursor d' source = None /\
    (forall n, (totalsToObservation ck t source n d').2 = None).
Proof.
  intros Hc Hlines H1 H2 Ht1%String.eqb_neq Ht2%String.eqb_neq Hp1 Hp2 Hrl Htot Hgrow Hthrow.
  unfold parseSessionFile, read_session. cbn [lf_stat lf_raw]. rewrite Hc. cbn [unchanged].
  replace (read_offset None size mtimeMs raw) with 0%nat by (unfold read_offset; by destruct (Nat.ltb_spec (complete_end raw) 0%nat)).
  rewrite Hlines. cbn [scan_lines]. rewrite H1, Ht1, Hp1. unfold codex_event at 1. rewrite Hrl, Htot. cbn [push_limit sc_store].
  pose proof (total_step t 1 d) as Hstep. cbv zeta in Hstep.
  destruct (totalsToObservation ck t source 1 d) as [d1 o] eqn:Eo. destruct o as [o|]; [|destruct Hstep as (? & _); lra].
  destruct Hstep as (_ & _ & Hd1). cbn [scan_lines]. rewrite H2, Ht2, Hp2. unfold codex_event at 1. rewrite Hthrow.
  assert (Hd : t_external d1 = t_external d /\ getSourceCursor d1 source = getSourceCursor d source).
  { unfold totalsToObservation in Eo. destruct (nullish _ _) as [i0 o0]. destruct (_ && _); [done|]. by injection Eo as <- _. }
  destruct Hd as (Hext & Hcur). exists d1.
  assert (Hstore : sc_store (keep_obs (Some o) (with_store d1 (mkScan d [] [] 0 false))) = d1).
  { unfold keep_obs. by destruct (hasExternal _ _ _ _). }
  rewrite Hstore. split_and!; [done|done|by rewrite Hcur|]. intros n.
  pose proof (total_step t n d1) as Hagain. cbv zeta in Hagain. destruct (totalsToObservation ck t source n d1) as [d2 [o2|]] eqn:E2; [|done].
  exfalso. unfold totalsToObservation in E2. unfold last_total in Hd1. rewrite Hd1 in E2.
  rewrite (proj2 (Qle_bool_iff (tt_in t - tt_in t) 0)), (proj2 (Qle_bool_iff (tt_out t - tt_out t) 0)) in E2 by lra. done.
Qed.

(** A rate limit that states only what remains is recorded as having used that
    much. *)
Theorem remaining_counted_as_used item i rl r now o :
  isUsageObject (Some item) = Some i -> str_field "type" i = Some "ratelimit" -> isUsageObject (obj_get "payload" i) = Some rl ->
  num (obj_get "limit" rl) = None -> num (obj_get "remaining" rl) = Some r -> findRateLimit item now = Ok (Some o) ->
  lo_creditsUsed o = Some r.
Proof.
  intros Hi Ht Hp Hl Hr. unfold findRateLimit. rewrite Hi, Ht, Hp. cbn [negb]. rewrite bool_decide_eq_true_2 by done. cbn [negb].
  rewrite Hl, Hr. destruct (num (obj_get "reset_after" rl)) as [after|]; [|by intros [= <-]].
  destruct (Qle_bool 0 after); [|by intros [= <-]]. destruct (date_iso _); [|done]. by intros [= <-].
Qed.
End codex_facts.

(** ** Recorded totals *)

Section recorded_totals.
Context `{JsText} (ck : clock) (source : string).

(** The totals some lines state, in their order. *)
Definition lines_totals (lines : list string) : list totals :=
  omap (fun line => if String.eqb (js_trim line) "" then None else item ← json_parse (js_trim line); findCumulativeTotal item) lines.

(** The total of a model after a sequence of totals. *)
Definition total_of (model : string) (ts : list totals) : Q * Q :=
  fold_left (fun acc t => if String.eqb (tt_model t) model then (tt_in t, tt_out t) else acc) ts (0, 0).

(** No total is below the one of the same model before it. *)
Definition never_fall (ts : list totals) : Prop :=
  forall a t b, ts = a ++ t :: b -> (total_of (tt_model t) a).1 <= tt_in t /\ (total_of (tt_model t) a).2 <= tt_out t.

(** A line that reports its usage by a total, if it reports any, and no rate limit
    whose reset is beyond the range of dates. *)
Definition totals_line (line : string) : Prop :=
  forall item, js_trim line <> "" -> json_parse (js_trim line) = Some item ->
    (forall now, exists rl, findRateLimit item now = Ok rl) /\
    (findCumulativeTotal item = None -> forall rec, findUsageRecord item = Some rec -> u_cumulative rec = true).

(** The rows recorded for the session file, and those of one model. *)
Definition session_rows (l : list ExternalUsageRow) : list ExternalUsageRow :=
  List.filter (fun r => String.eqb (x_source r) source) l.
Definition model_rows (model : string) (l : list ExternalUsageRow) : list ExternalUsageRow :=
  List.filter (fun r => bool_decide (x_model r = Some model)) l.

(** Reading the file once and recording what it gives. *)
Definition record_visit (d : db) (v : Z * Z * string) : db :=
  match parseSessionFile ck (fun _ => log_of v) source d with
  | (d, Ok out) => with_external (insert_rows (t_external d) (pf_usage out)) d
  | (d, Throw _) => d
  end.

Definition total_event_key (m : string) (i o : Q) : string :=
  "cum|" +:+ m +:+ "|" +:+ number_text i +:+ "|" +:+ number_text o.

(** A row that one of the totals gave: its key names a total not above the last. *)
Definition counted_row (ts : list totals) (r : ExternalUsageRow) : Prop :=
  x_provider r = codex /\ x_source r = source /\ 0 <= x_tokensIn r /\ 0 <= x_tokensOut r /\
  exists m i o, x_model r = Some m /\ x_eventKey r = total_event_key m i o /\
    i <= (total_of m ts).1 /\ o <= (total_of m ts).2.

(** The rows recorded and the observations still to be recorded count the totals
    [ts] once each, and the store remembers the last ones. *)
Record counted (ts : list totals) (d : db) (pending : list UsageObservation) : Prop := mkCounted {
  cn_rows : Forall (counted_row ts) (session_rows (t_external d) ++ map row_of pending);
  cn_keys : NoDup (map x_eventKey (session_rows (t_external d) ++ map row_of pending));
  cn_sums : forall m, let rows := model_rows m (session_rows (t_external d) ++ map row_of pending) in
              sum_by x_tokensIn rows == (total_of m ts).1 /\ sum_by x_tokensOut rows == (total_of m ts).2;
  cn_last : forall m, same_pair (last_total source m d) (total_of m ts);
}.

Lemma total_of_snoc m ts t : total_of m (ts ++ [t]) = if String.eqb (tt_model t) m then (tt_in t, tt_out t) else total_of m ts.
Proof. unfold total_of. by rewrite fold_left_app. Qed.

Lemma model_rows_app m a b : model_rows m (a ++ b) = model_rows m a ++ model_rows m b.
Proof. apply List.filter_app. Qed.

Lemma never_fall_prefix a b : never_fall (a ++ b) -> never_fall a.
Proof. intros Hn x t y ->. apply (Hn x t (y ++ b)). by rewrite <- app_assoc. Qed.

Lemma counted_row_mono ts t r :
  (total_of (tt_model t) ts).1 <= tt_in t -> (total_of (tt_model t) ts).2 <= tt_out t -> counted_row ts r -> counted_row (ts ++ [t]) r.
Proof.
  intros Hi Ho (Hp & Hs & H0 & H1 & m & i & o & Hm & Hk & Hle1 & Hle2). split_and!; [done..|]. exists m, i, o. rewrite total_of_snoc.
  split_and!; [done|done|..]; destruct (String.eqb_spec (tt_model t) m) as [<-|]; cbn; lra.
Qed.

Lemma last_total_set m t d :
  last_total source m (setCodexTotal source (tt_model t) (tt_in t) (tt_out t) d) =
  if String.eqb (tt_model t) m then (tt_in t, tt_out t) else last_total source m d.
Proof.
  unfold last_total, getCodexTotal, setCodexTotal. cbn [with_totals t_totals]. rewrite lookup_upsert. cbn [total_key t_source t_model].
  destruct (String.eqb_spec (tt_model t) m) as [<-|Hne]; [by rewrite decide_True|]. rewrite decide_False; [done|]. by intros [=].
Qed.

Hypothesis number_text_inj : forall a b, number_text a = number_text b -> a == b.
Hypothesis number_text_bar : forall a, js_has_char "|" (number_text a) = false.

Lemma total_event_key_inj m i o m' i' o' :
  total_event_key m i o = total_event_key m' i' o' -> m = m' /\ i == i' /\ o == o'.
Proof.
  unfold total_event_key. intros Hk%sapp_inj_l.
  assert (Hk' : (m +:+ String "|" (number_text i)) +:+ String "|" (number_text o) =
                (m' +:+ String "|" (number_text i')) +:+ String "|" (number_text o')) by (by rewrite !sapp_assoc).
  apply split_unique_r in Hk' as [Hk' Ho]; [|apply number_text_bar..].
  apply split_unique_r in Hk' as [-> Hi]; [|apply number_text_bar..]. auto.
Qed.

Lemma counted_known ts t d us :
  counted ts d us -> (total_of (tt_model t) ts).1 == tt_in t -> (total_of (tt_model t) ts).2 == tt_out t -> counted (ts ++ [t]) d us.
Proof.
  intros [Hr Hk Hs Hl] Hi Ho. split; [|done|..].
  - eapply Forall_impl; [exact Hr|]. intros r. apply counted_row_mono; lra.
  - intros m. destruct (Hs m) as [Hs1 Hs2]. rewrite total_of_snoc. cbv zeta. destruct (String.eqb_spec (tt_model t) m) as [<-|]; cbn; [split; lra|done].
  - intros m. destruct (Hl m) as [Hl1 Hl2]. rewrite total_of_snoc. destruct (String.eqb_spec (tt_model t) m) as [<-|]; split; cbn; lra.
Qed.

(** A total that grew gives an observation whose key no row has. *)
Lemma counted_grown ts t d us o :
  counted ts d us -> (total_of (tt_model t) ts).1 <= tt_in t -> (total_of (tt_model t) ts).2 <= tt_out t ->
  (total_of (tt_model t) ts).1 < tt_in t \/ (total_of (tt_model t) ts).2 < tt_out t ->
  o_provider o = codex -> o_source o = source -> o_model o = Some (tt_model t) ->
  o_eventKey o = total_event_key (tt_model t) (tt_in t) (tt_out t) ->
  o_tokensIn o == tt_in t - (total_of (tt_model t) ts).1 -> o_tokensOut o == tt_out t - (total_of (tt_model t) ts).2 ->
  counted (ts ++ [t]) (setCodexTotal source (tt_model t) (tt_in t) (tt_out t) d) (us ++ [o]).
Proof.
  intros [Hr Hk Hs Hl] Hi Ho Hgrow Hprov Hsrc Hmod Hkey Hin Hout.
  assert (Hnew : o_eventKey o ∉ map x_eventKey (session_rows (t_external d) ++ map row_of us)).
  { intros (r & Heq & Hin')%list_elem_of_fmap. rewrite Forall_forall in Hr. destruct (Hr r Hin') as (_ & _ & _ & _ & m & i & q & _ & Hkr & Hle1 & Hle2).
    rewrite Hkr, Hkey in Heq. apply total_event_key_inj in Heq as (<- & Hi' & Ho'). destruct Hgrow; lra. }
  assert (Hrows : forall d', t_external d' = t_external d ->
    session_rows (t_external d') ++ map row_of (us ++ [o]) = (session_rows (t_external d) ++ map row_of us) ++ [row_of o]).
  { intros d' ->. by rewrite map_app, app_assoc. }
  specialize (Hrows _ (eq_refl (t_external (setCodexTotal source (tt_model t) (tt_in t) (tt_out t) d)))). split; rewrite ?Hrows.
  - apply Forall_app. split; [eapply Forall_impl; [exact Hr|]; intros r; by apply counted_row_mono|]. constructor; [|done].
    split_and!; cbn; [done|done|lra|lra|]. exists (tt_model t), (tt_in t), (tt_out t). rewrite total_of_snoc, String.eqb_refl.
    split_and!; [done|done|cbn; lra..].
  - rewrite map_app. apply NoDup_app. split_and!; [done| |apply NoDup_singleton]. by intros k Hk' ->%list_elem_of_singleton.
  - intros m. destruct (Hs m) as [Hs1 Hs2]. cbv zeta. rewrite total_of_snoc, model_rows_app, !sum_by_app.
    unfold model_rows at 2 4. cbn [List.filter row_of x_model]. rewrite Hmod. destruct (String.eqb_spec (tt_model t) m) as [<-|Hne].
    + rewrite bool_decide_eq_true_2 by done. unfold sum_by at 2 4. cbn. split; lra.
    + rewrite bool_decide_eq_false_2 by congruence. unfold sum_by at 2 4. cbn. split; lra.
  - intros m. rewrite last_total_set, total_of_snoc. destruct (String.eqb (tt_model t) m); [done|apply Hl].
Qed.

Lemma counted_fresh ts d us o us2 :
  counted ts d (us ++ o :: us2) -> hasExternal d (o_provider o) (o_source o) (o_eventKey o) = false /\ o_source o = source.
Proof.
  intros [Hr Hk _ _]. rewrite map_app in Hr, Hk. cbn [map] in Hr, Hk. apply Forall_app in Hr as [_ Hr]. apply Forall_app in Hr as [_ Hr].
  inversion Hr as [|? ? Ho _]; subst. destruct Ho as (_ & Hsrc & _). cbn in Hsrc. split; [|done].
  apply not_true_is_false. unfold hasExternal. intros (r & [= Hp Hs Hkey] & Hin)%has_key_spec%list_elem_of_fmap.
  rewrite map_app in Hk. apply NoDup_app in Hk as (_ & Hd & _). apply (Hd (o_eventKey o)).
  - apply list_elem_of_fmap. exists r. split; [done|]. unfold session_rows. apply list_elem_of_In, filter_In. split; [by apply list_elem_of_In|].
    apply String.eqb_eq. congruence.
  - rewrite map_app. apply elem_of_app. right. by left.
Qed.

(** Recording does not change what is counted. *)
Lemma counted_recorded ts l d us :
  counted ts (with_external l d) us -> counted ts (with_external (insert_rows l us) d) [].
Proof.
  revert l. induction us as [|o us IH]; intros l Hc; [done|]. apply (IH (insert_row l o)).
  destruct (counted_fresh ts _ [] o us Hc) as [Hf Hsrc].
  assert (Hi : insert_row l o = l ++ [row_of o]).
  { unfold insert_row, insert_or_ignore. unfold hasExternal in Hf. cbn [with_external t_external] in Hf.
    change (external_key (row_of o)) with (o_provider o, o_source o, o_eventKey o). by rewrite Hf. }
  rewrite Hi. destruct Hc as [Hr Hk Hs Hl].
  assert (Hrows : session_rows (l ++ [row_of o]) ++ map row_of us = session_rows l ++ map row_of (o :: us)).
  { unfold session_rows. rewrite List.filter_app. cbn [List.filter row_of x_source map]. rewrite Hsrc, String.eqb_refl, <- app_assoc. done. }
  split; cbn [with_external t_external] in *; rewrite ?Hrows; done.
Qed.

Lemma counted_total ts t n d us s :
  counted ts d us -> never_fall (ts ++ [t]) -> sc_store s = d -> sc_usage s = us ->
  let '(d', o) := totalsToObservation ck t source n d in
  let s' := keep_obs o (with_store d' s) in
  counted (ts ++ [t]) (sc_store s') (sc_usage s') /\ t_cursors (sc_store s') = t_cursors d.
Proof.
  intros Hc Hn Hd Hu. destruct (Hn ts t [] eq_refl) as [Hi Ho]. destruct (cn_last _ _ _ Hc (tt_model t)) as [Hl1 Hl2].
  unfold last_total in Hl1, Hl2. unfold totalsToObservation.
  destruct (nullish (getCodexTotal d source (tt_model t)) (0, 0)) as [i o]. cbn [fst snd] in *.
  destruct (Qle_bool (tt_in t - i) 0 && Qle_bool (tt_out t - o) 0) eqn:E.
  - apply andb_prop in E as [H1%Qle_bool_iff H2%Qle_bool_iff]. cbn [keep_obs skip_line with_store sc_store sc_usage]. rewrite Hu.
    split; [|done]. apply counted_known; [done|lra..].
  - set (obs := mkObs _ _ _ _ _ _ _ _ _ _ _ _). set (d' := setCodexTotal _ _ _ _ _).
    assert (Hnew : counted (ts ++ [t]) d' (us ++ [obs])).
    { apply counted_grown; try done; cbn; try lra. apply andb_false_iff in E as [E|E]; [left|right].
      - assert (~ tt_in t - i <= 0) by (by rewrite <- Qle_bool_iff, E). lra.
      - assert (~ tt_out t - o <= 0) by (by rewrite <- Qle_bool_iff, E). lra. }
    destruct (counted_fresh _ _ _ _ _ Hnew) as [Hf _]. unfold keep_obs. cbn [with_store sc_store sc_usage]. rewrite Hf.
    cbn [sc_store sc_usage]. by rewrite Hu.
Qed.

Lemma lines_totals_cons line rest :
  lines_totals (line :: rest) =
  match (if String.eqb (js_trim line) "" then None else item ← json_parse (js_trim line); findCumulativeTotal item) with
  | Some t => t :: lines_totals rest
  | None => lines_totals rest
  end.
Proof. done. Qed.

Hypothesis in_time : forall n, late_line ck source n = false.

Lemma scan_counted ts n lines s :
  Forall totals_line lines -> never_fall (ts ++ lines_totals lines) -> counted ts (sc_store s) (sc_usage s) ->
  exists s', scan_lines ck (codex_event ck) source n lines s = (s', Ok tt) /\
    counted (ts ++ lines_totals lines) (sc_store s') (sc_usage s') /\ t_cursors (sc_store s') = t_cursors (sc_store s).
Proof.
  intros Hl. revert ts n s. induction Hl as [|line rest Hline _ IH]; intros ts n s Hn Hc.
  { exists s. rewrite app_nil_r. done. }
  cbn [scan_lines]. rewrite in_time. rewrite lines_totals_cons in *.
  destruct (String.eqb_spec (js_trim line) "") as [|Hne]; [by apply IH|].
  unfold totals_line in Hline. destruct (json_parse (js_trim line)) as [item|]; [|exact (IH ts (S n) (skip_line s) Hn Hc)].
  destruct (Hline item Hne eq_refl) as [Hrl Hrec].
  cbn [mbind option_bind] in *. unfold codex_event at 1. destruct (Hrl (now_ms ck source (S n))) as [rl ->].
  set (s0 := push_limit rl s). assert (Hs0 : sc_store s0 = sc_store s /\ sc_usage s0 = sc_usage s) by (by destruct rl).
  destruct Hs0 as [Hs1 Hs2]. destruct (findCumulativeTotal item) as [t|].
  - change (t :: lines_totals rest) with ([t] ++ lines_totals rest) in *. rewrite app_assoc in *.
    pose proof (counted_total ts t (S n) _ _ s0 Hc (never_fall_prefix _ _ Hn) Hs1 Hs2) as Ht. rewrite Hs1.
    destruct (totalsToObservation ck t source (S n) (sc_store s)) as [d' o]. destruct Ht as [Hc' Hcur].
    destruct (IH _ (S n) _ Hn Hc') as (s' & -> & Hc'' & Hcur'). exists s'. split_and!; [done|done|congruence].
  - specialize (Hrec eq_refl). destruct (findUsageRecord item) as [rec|].
    + unfold recordToObservation. rewrite (Hrec rec eq_refl). destruct (IH ts (S n) (keep_obs None s0)) as (s' & -> & Hc' & Hcur); [done| |].
      * cbn [keep_obs skip_line sc_store sc_usage]. by rewrite Hs1, Hs2.
      * exists s'. split_and!; [done|done|]. rewrite Hcur. cbn. by rewrite Hs1.
    + assert (Hs3 : forall s3, sc_store s3 = sc_store s -> sc_usage s3 = sc_usage s -> exists s', scan_lines ck (codex_event ck) source (S n) rest s3 = (s', Ok tt) /\
        counted (ts ++ lines_totals rest) (sc_store s') (sc_usage s') /\ t_cursors (sc_store s') = t_cursors (sc_store s)).
      { intros s3 E1 E2. destruct (IH ts (S n) s3 Hn) as (s' & -> & Hc' & Hcur); [by rewrite E1, E2|]. exists s'. by rewrite <- E1. }
      destruct rl; by apply Hs3.
Qed.

(** What is counted does not depend on the cursors. *)
Lemma counted_cursor ts size mtime off now d us : counted ts d us -> counted ts (setSourceCursor source size mtime off now d) us.
Proof. by intros [? ? ? ?]. Qed.

(** The file was read up to [v]: the cursor is there and every total is counted. *)
Definition counted_up_to (v : Z * Z * string) (d : db) : Prop :=
  (exists now, getSourceCursor d source = Some (mkCursor source v.1.1 v.1.2 (inject_Z (Z.of_nat (complete_end v.2))) now)) /\
  counted (lines_totals (new_lines 0 v.2)) d [].

Lemma visit_counts ts v d :
  unchanged (getSourceCursor d source) v.1.1 v.1.2 = false ->
  let lines := new_lines (read_offset (getSourceCursor d source) v.1.1 v.1.2 v.2) v.2 in
  Forall totals_line lines -> never_fall (ts ++ lines_totals lines) -> counted ts d [] ->
  (exists now, getSourceCursor (record_visit d v) source
     = Some (mkCursor source v.1.1 v.1.2 (inject_Z (Z.of_nat (complete_end v.2))) now)) /\
  counted (ts ++ lines_totals lines) (record_visit d v) [].
Proof.
  destruct v as [[size mtime] raw]. cbn [fst snd]. intros Hu Hl Hn Hc. unfold record_visit, parseSessionFile, read_session.
  cbn [log_of lf_stat lf_raw fst snd]. rewrite Hu.
  destruct (scan_counted ts 0 _ (mkScan d [] [] 0 false) Hl Hn Hc) as (s' & -> & Hc' & Hcur). cbn [pf_usage]. split.
  - eexists. unfold getSourceCursor, setSourceCursor. cbn [with_external with_cursors t_cursors]. rewrite lookup_upsert.
    by destruct (decide _).
  - apply counted_recorded. apply (counted_cursor _ size mtime (inject_Z (Z.of_nat (complete_end raw))) (iso_text (now_ms ck source 0))) in Hc'.
    by destruct Hc'.
Qed.

Lemma lines_totals_app a b : lines_totals (a ++ b) = lines_totals a ++ lines_totals b.
Proof. unfold lines_totals. by rewrite omap_app. Qed.

Lemma visit_counted prev v d :
  counted_up_to prev d -> grows prev [v] -> Forall totals_line (new_lines 0 v.2) -> never_fall (lines_totals (new_lines 0 v.2)) ->
  counted_up_to v (record_visit d v).
Proof.
  intros ((now & Hcu) & Hc) ((more & Hmore) & Hsame & Hsize & _) Hl Hn.
  destruct (unchanged (getSourceCursor d source) v.1.1 v.1.2) eqn:Hu.
  - assert (Hv : v = prev).
    { rewrite Hcu in Hu. cbn in Hu. apply andb_prop in Hu as [H1%Z.eqb_eq H2%Z.eqb_eq].
      destruct v as [[s m] r], prev as [[s' m'] r']. cbn in *. subst. by rewrite Hsame. }
    subst v. destruct prev as [[s m] r]. unfold counted_up_to, record_visit, parseSessionFile, read_session.
    cbn [log_of lf_stat fst snd] in *. rewrite Hu. cbn. split; [by exists now|]. by destruct Hc.
  - assert (Hoff : read_offset (getSourceCursor d source) v.1.1 v.1.2 v.2 = complete_end prev.2).
    { rewrite Hcu, Hmore. by apply read_offset_grown. }
    destruct (grown_lines prev.2 more) as (_ & _ & l & Hl1 & Hl2). rewrite <- Hmore in Hl2.
    assert (Hprev : lines_totals (new_lines 0 prev.2) = lines_totals l) by (rewrite Hl1, lines_totals_app; apply app_nil_r).
    pose proof (visit_counts (lines_totals l) v d Hu) as Hv. cbv zeta in Hv. rewrite Hoff, <- lines_totals_app, <- Hl2 in Hv.
    apply Hv; [|done|by rewrite <- Hprev]. rewrite Hl2 in Hl. by apply Forall_app in Hl as [_ ?].
Qed.

Lemma lines_prefix raw more :
  (Forall totals_line (new_lines 0 (raw +:+ more)) -> Forall totals_line (new_lines 0 raw)) /\
  (never_fall (lines_totals (new_lines 0 (raw +:+ more))) -> never_fall (lines_totals (new_lines 0 raw))).
Proof.
  destruct (grown_lines raw more) as (_ & _ & l & -> & ->). rewrite !lines_totals_app. split.
  - intros [Hl _]%Forall_app. apply Forall_app. split; [done|]. by repeat constructor.
  - intros Hn%never_fall_prefix. cbn [lines_totals omap list_omap js_trim]. by rewrite app_nil_r.
Qed.

Lemma visits_counted v vs d :
  counted_up_to v d -> grows v vs -> Forall totals_line (new_lines 0 (List.last vs v).2) ->
  never_fall (lines_totals (new_lines 0 (List.last vs v).2)) -> counted_up_to (List.last vs v) (fold_left record_visit vs d).
Proof.
  revert v d. induction vs as [|w vs IH]; intros v d Hd Hg Hl Hn; [done|].
  rewrite List_last_cons in *. cbn [fold_left]. destruct Hg as (Hm & Hs & Hz & Hg). apply IH; [|done..].
  destruct (grows_prefix w vs Hg) as (more & Hmore). destruct (lines_prefix w.2 more) as [H1 H2].
  apply (visit_counted v); [done|by repeat split|apply H1; by rewrite <- Hmore|apply H2; by rewrite <- Hmore].
Qed.

(** C29: A session file that reports its usage by running totals is counted exactly once
    in however many visits it is read: the rows recorded for a model add up to the
    last total the file states for it, and none of them is negative.  This is for
    totals that never fall and for files that report by totals only, read from the
    start by visits that are in time; the text of a number determines it and has no
    bar.  (When a total falls and then comes back, its repetition is dropped by its
    key: [repeated_total_dropped].) *)
Theorem totals_recorded_once d v vs :
  getSourceCursor d source = None -> (forall m, getCodexTotal d source m = None) -> session_rows (t_external d) = [] ->
  grows v vs -> Forall totals_line (new_lines 0 (List.last vs v).2) ->
  let stated := lines_totals (new_lines 0 (List.last vs v).2) in
  never_fall stated ->
  let recorded := session_rows (t_external (fold_left record_visit (v :: vs) d)) in
  (forall m, sum_by x_tokensIn (model_rows m recorded) == (total_of m stated).1 /\
             sum_by x_tokensOut (model_rows m recorded) == (total_of m stated).2) /\
  Forall (fun r => 0 <= x_tokensIn r /\ 0 <= x_tokensOut r) recorded.
Proof.
  intros Hcur Htot Hrows Hg Hl stated Hn recorded. cbn [fold_left] in recorded.
  assert (H0 : counted [] d []).
  { split; rewrite ?Hrows; [constructor|constructor|by intros m|]. intros m. unfold last_total. by rewrite Htot. }
  destruct (grows_prefix v vs Hg) as (more & Hmore). destruct (lines_prefix v.2 more) as [H1 H2]. rewrite <- Hmore in H1, H2.
  assert (Hv : counted_up_to v (record_visit d v)).
  { pose proof (visit_counts [] v d) as Hv. rewrite Hcur in Hv. cbv zeta in Hv. cbn [read_offset app] in Hv.
    apply Hv; [done|..|done].
    - by apply H1.
    - by apply H2. }
  destruct (visits_counted v vs _ Hv Hg Hl Hn) as [_ [Hr _ Hs _]]. cbn [map] in Hr, Hs. rewrite app_nil_r in Hr. split.
  - intros m. specialize (Hs m). cbv zeta in Hs. by rewrite app_nil_r in Hs.
  - eapply Forall_impl; [exact Hr|]. by intros r (_ & _ & ? & ? & _).
Qed.

End recorded_totals.

(** ** A concrete session *)

(** A notation of numbers that determines them, without bars. *)
Fixpoint pos_text (p : positive) : string :=
  match p with xI p => String "1" (pos_text p) | xO p => String "0" (pos_text p) | xH => "" end.
Definition z_text (z : Z) : string :=
  match z with Z0 => "z" | Zpos p => String "+" (pos_text p) | Zneg p => String "-" (pos_text p) end.
Definition q_text (q : Q) : string := z_text (Qnum (Qred q)) +:+ String "/" (pos_text (Qden (Qred q))).

Lemma pos_text_inj p p' : pos_text p = pos_text p' -> p = p'.
Proof. revert p'. induction p as [p IH|p IH|]; intros [p'|p'|]; cbn; intros [=]; f_equal; auto. Qed.

Lemma pos_text_char c p : c <> "0"%char -> c <> "1"%char -> js_has_char c (pos_text p) = false.
Proof.
  intros H0 H1. induction p as [p IH|p IH|]; cbn; [..|done]; rewrite IH, orb_false_r; apply Ascii.eqb_neq; congruence.
Qed.

Lemma q_text_inj a b : q_text a = q_text b -> a == b.
Proof.
  unfold q_text. intros Hq. apply split_unique_r in Hq as [Hn Hd%pos_text_inj]; [|by apply pos_text_char..].
  assert (Hz : Qnum (Qred a) = Qnum (Qred b)).
  { destruct (Qnum (Qred a)) as [|p|p], (Qnum (Qred b)) as [|p'|p']; cbn in Hn; try discriminate;
      try (injection Hn as Hn%pos_text_inj); congruence. }
  rewrite <- (Qred_correct a), <- (Qred_correct b). destruct (Qred a), (Qred b). cbn in *. by subst.
Qed.

Lemma q_text_bar q : js_has_char "|" (q_text q) = false.
Proof.
  unfold q_text. rewrite has_char_app. cbn [js_has_char]. rewrite (pos_text_char "|" _) by done.
  destruct (Qnum (Qred q)) as [|p|p]; cbn [z_text js_has_char]; [done|..]; by rewrite pos_text_char.
Qed.

(** Three lines with a total each, in and out: 10 and 10, 12 and 20, 5 and 20. *)
Definition demo_total (i o : Q) : json :=
  jobj [("payload", jobj [("totals", jobj [("model", jstr "m"); ("input_tokens", jnum i); ("output_tokens", jnum o)])])].
Definition demo_text : JsText := {|
  json_parse s := if String.eqb s "a" then Some (demo_total 10 10) else if String.eqb s "b" then Some (demo_total 12 20)
                  else if String.eqb s "c" then Some (demo_total 5 20) else None;
  to_number _ := None; number_text := q_text; iso_text _ := "now";
|}.
Definition still_clock : clock := mkClock (fun _ => false) (fun _ => false) (fun _ _ => false) (fun _ _ => 0) 0.
Definition demo_lines (l : list string) : string := js_join "" (map (fun s => s +:+ str1 LF) l).

(** Two visits: the second finds a total that did not change and one that grew. *)
Definition first_visit : Z * Z * string := (4, 1, demo_lines ["a"] +:+ "a")%Z.
Definition second_visit : Z * Z * string := (9, 2, demo_lines ["a"; "a"; "b"])%Z.

Lemma demo_never_falls :
  @never_fall [mkTotals "m" 10 10; mkTotals "m" 10 10; mkTotals "m" 12 20].
Proof.
  intros a t b Ht. destruct a as [|t1 [|t2 [|t3 [|]]]]; injection Ht as; subst; cbn; split; try lra; discriminate.
Qed.

Lemma totals_recorded_once_witness :
  let rows := session_rows "s" (t_external (fold_left (@record_visit demo_text still_clock "s") [first_visit; second_visit] empty_db)) in
  map x_tokensIn rows = [10; 2] /\ sum_by x_tokensOut (model_rows "m" rows) == 20.
Proof.
  split; [by vm_compute|].
  apply (@totals_recorded_once demo_text still_clock "s" q_text_inj q_text_bar (fun _ => eq_refl) empty_db first_visit [second_visit]).
  - reflexivity.
  - reflexivity.
  - reflexivity.
  - split_and!; [exists (demo_lines [""; "b"]); reflexivity|intros [=]|by vm_compute|done].
  - assert (Hab : @totals_line demo_text "a" /\ @totals_line demo_text "b") by (split; intros item _ [= <-]; (split; [by exists None|done])).
    destruct Hab as [Ha Hb]. apply (Forall_cons_2 _ _ _ Ha), (Forall_cons_2 _ _ _ Ha), (Forall_cons_2 _ _ _ Hb), Forall_cons_2; [|done].
    intros item Hne. by destruct Hne.
  - exact demo_never_falls.
Defined.

(** A total that falls and comes back: the third line gives an observation with the
    key of the first, which is ignored although the difference is not.  The rows
    then add up to the second total and no later reading makes up for it. *)
Theorem repeated_total_dropped :
  let rows := session_rows "s" (t_external (@record_visit demo_text still_clock "s" empty_db (6, 1, demo_lines ["a"; "c"; "a"])%Z)) in
  map (fun r => (Qred (x_tokensIn r), Qred (x_tokensOut r))) rows = [(10, 10); (-5, 10)].
Proof. by vm_compute. Qed.

(** *** What the adapter may change *)

Lemma rate_limit_codex `{JsText} item now o : findRateLimit item now = Ok (Some o) -> lo_provider o = codex.
Proof.
  unfold findRateLimit. destruct (isUsageObject (Some item)) as [i|]; [|done]. destruct (negb _); [done|].
  destruct (isUsageObject (obj_get "payload" i)) as [rl|]; [|done].
  destruct (num (obj_get "limit" rl)), (num (obj_get "remaining" rl)); try done;
    (destruct (num (obj_get "reset_after" rl)) as [after|]; [|by intros [= <-]]);
    (destruct (Qle_bool 0 after); [|by intros [= <-]]); (destruct (date_iso _); [|done]); by intros [= <-].
Qed.

Lemma codex_event_ok `{JsText} ck : event_ok codex (codex_event ck).
Proof.
  intros d source n item s Hs. unfold codex_event. destruct (findRateLimit item _) as [rl|e] eqn:Erl; [|done].
  assert (Hs' : scan_ok codex d (push_limit rl s)).
  { destruct rl as [l|]; [|done]. destruct Hs as [Hd [Hu Hl]]. split; [done|]. split; [done|]. apply Forall_app. split; [done|].
    constructor; [by eapply rate_limit_codex|done]. }
  destruct (findCumulativeTotal item) as [t|].
  - unfold totalsToObservation. destruct (nullish _ _) as [i o]. destruct (_ && _); apply keep_obs_ok; try done.
    intros x [= <-]. done.
  - destruct (findUsageRecord item) as [rec|]; [|by destruct rl]. apply keep_obs_ok; [|done].
    intros x. unfold recordToObservation. destruct (u_cumulative rec); [done|]. by intros [= <-].
Qed.

Lemma collectCodex_ok `{JsText} ck m dirs logs settings d :
  let '(d', out) := collectCodex ck m dirs logs settings d in
  same_tables d d' /\ of_provider codex (ao_usage out) (ao_limits out) /\ r_provider (ao_result out) = codex.
Proof. apply adapter_ok; [apply read_session_ok, codex_event_ok|done]. Qed.
End CodexUsage.
