(* ===== verification/OpencodeUsage.v ===== *)
(** The OpenCode adapter, [runtime/src/usage/opencode.ts], which reads the messages
    of other programs' SQLite databases.  A database is given by what its statements
    return; its time column has numeric affinity, so that a text in it is greater
    than every number. *)
From S2P Require Import Prelude NodePath UsageStore UsageSources.

Module OpencodeUsage.
Import UsageStore UsageSources.
Local Open Scope Q_scope.

(** What a database file is to the adapter: [statSync]; whether it can be opened;
    its tables and the columns of [messages], or the throw of those statements; the
    rows of [messages], or the throw of reading them. *)
Record message_db := mkMdb {
  md_stat : option (Z * Z);
  md_opens : bool;
  md_schema : result (list string * list string);
  md_rows : result (list (obj json));
}.

(** @src runtime/src/usage/opencode.ts DbSchema *)
Record DbSchema := mkSchema { hasMessages : bool; timeCol : option string; hasTokens : bool; hasCost : bool; hasModel : bool }.

(** @src runtime/src/usage/opencode.ts schemaOf *)
Definition schemaOf (tables names : list string) : option DbSchema :=
  if negb (mem_str "messages" tables) then None
  else
    let has c := mem_str c names in
    Some (mkSchema true (List.find has ["time"; "created_at"; "timestamp"])
      (has "tokens" || has "input_tokens" || has "tokens_in") (has "cost") (has "modelID" || has "model" || has "model_id")).

Record tokens := mkTokens { tk_input : option Q; tk_output : option Q; tk_cache : option Q }.
Definition no_tokens : tokens := mkTokens None None None.

Definition or_else {A} (a b : option A) : option A := match a with Some _ => a | None => b end.

(** [row.k] where [null] counts as missing. *)
Definition cell (k : string) (row : obj json) : option json :=
  match obj_get k row with Some jnull => None | v => v end.

(** [String(v)] for a value of a cell. *)
Definition json_text `{JsText} (v : json) : string :=
  match v with
  | jstr s => s
  | jnum q => number_text q
  | jbool true => "true"
  | jbool false => "false"
  | _ => "null"
  end.

(** The rows with [col > last], in the order of [col]: numbers before texts. *)
Definition sql_after (last : Q) (v : option json) : bool :=
  match v with Some (jnum q) => negb (Qle_bool q last) | Some (jstr _) => true | _ => false end.
Definition sql_leb (a b : option json) : bool :=
  match a, b with
  | Some (jnum p), Some (jnum q) => Qle_bool p q
  | Some (jnum _), Some (jstr _) => true
  | Some (jstr s), Some (jstr t) => negb (js_ltb t s)
  | _, _ => false
  end.
Definition select_after (col : string) (last : Q) (rows : list (obj json)) : list (obj json) :=
  js_sort (fun a b => sql_leb (obj_get col a) (obj_get col b)) (List.filter (fun r => sql_after last (obj_get col r)) rows).

Section opencode.
Context `{JsText} (ck : clock).

(** The text of a [tokens] cell; a JSON string inside is read again, and is shorter
    than the text it comes from.
    @src runtime/src/usage/opencode.ts 56-79 tokensOf *)
Fixpoint tokens_of_text (fuel : nat) (t : string) : tokens :=
  let trimmed := js_trim t in
  if js_startsWith trimmed "{" || js_startsWith trimmed "[" then
    match isUsageObject (json_parse trimmed) with
    | Some o => mkTokens (or_else (num (obj_get "input" o)) (num (obj_get "input_tokens" o)))
                  (or_else (num (obj_get "output" o)) (num (obj_get "output_tokens" o))) (num (obj_get "cache" o))
    | None => no_tokens
    end
  else if js_startsWith trimmed (str1 DQUOTE) then
    match json_parse trimmed, fuel with
    | Some (jstr inner), S fuel => tokens_of_text fuel inner
    | _, _ => no_tokens
    end
  else if js_includes trimmed "," then
    match js_split ","%char trimmed with
    | a :: b :: _ =>
        match to_number (js_trim a), to_number (js_trim b) with
        | Some a, Some b => mkTokens (Some a) (Some b) None
        | _, _ => no_tokens
        end
    | _ => no_tokens
    end
  else mkTokens None (to_number trimmed) None.

(** @src runtime/src/usage/opencode.ts tokensOf *)
Definition tokensOf (row : obj json) : tokens :=
  match obj_get "tokens" row with
  | Some (jstr t) => tokens_of_text (S (String.length t)) t
  | Some (jnum q) => mkTokens None (Some q) None
  | _ => mkTokens (or_else (num (obj_get "input_tokens" row)) (num (obj_get "tokens_in" row)))
           (or_else (num (obj_get "output_tokens" row)) (num (obj_get "tokens_out" row))) None
  end.

(** @src runtime/src/usage/opencode.ts modelOf *)
Definition modelOf (row : obj json) : option string :=
  match or_else (cell "modelID" row) (or_else (cell "model" row) (cell "model_id" row)) with
  | Some (jstr s) => Some s
  | _ => None
  end.

(** The variables of the loop over the rows. *)
Record row_scan := mkRows { rw_usage : list UsageObservation; rw_skipped : nat; rw_parsed : nat; rw_maxTime : Q; rw_cut : bool }.

Definition rowTime (row : obj json) : option Q :=
  or_else (num (obj_get "time" row)) (or_else (num (obj_get "created_at" row)) (num (obj_get "timestamp" row))).

(** A row with tokens; a time beyond the range of dates throws.
    @src runtime/src/usage/opencode.ts 202-224 parseDb *)
Definition read_row (schema : DbSchema) (source : string) (n : nat) (row : obj json) (s : row_scan) : result row_scan :=
  let t := tokensOf row in
  match tk_input t, tk_output t with
  | None, None => Ok (mkRows (rw_usage s) (S (rw_skipped s)) (rw_parsed s) (rw_maxTime s) (rw_cut s))
  | _, _ =>
      let parsedCount := S (rw_parsed s) in
      let maxTime := match rowTime row with
        | Some time => if Qle_bool time (rw_maxTime s) then rw_maxTime s else time
        | None => rw_maxTime s
        end in
      occurredAt ← match rowTime row with Some time => date_iso time | None => Ok (iso_text (now_ms ck source n)) end;
      let eventKey := match obj_get "id" row with
        | Some id => "messages#" +:+ json_text id
        | None => occurredAt +:+ "|" +:+ match cell "session_id" row with Some v => json_text v | None => "" end
                  +:+ "|" +:+ number_text (inject_Z (Z.of_nat parsedCount))
        end in
      mret (mkRows
        (rw_usage s ++ [mkObs opencode source (json_text <$> obj_get "session_id" row) (modelOf row)
           (nullish (tk_input t) 0) (nullish (tk_output t) 0) (tk_cache t) None
           (if hasCost schema then num (obj_get "cost" row) else None) None occurredAt eventKey])
        (rw_skipped s) parsedCount maxTime (rw_cut s))
  end.

(** @src runtime/src/usage/opencode.ts 197-225 parseDb *)
Fixpoint scan_rows (schema : DbSchema) (source : string) (n : nat) (rows : list (obj json)) (s : row_scan) : result row_scan :=
  match rows with
  | [] => Ok s
  | row :: rest =>
      if late_line ck source (S n) then Ok (mkRows (rw_usage s) (rw_skipped s) (rw_parsed s) (rw_maxTime s) true)
      else (s ← read_row schema source (S n) row s; scan_rows schema source (S n) rest s)
  end.

Definition failed (st : ProviderStatus) : parsed := mkParsed [] [] 0 false (Some st).

(** @src runtime/src/usage/opencode.ts parseDb *)
Definition parseDb (dbs : string -> message_db) (dbPath : string) (d : db) : db * result parsed :=
  let f := dbs dbPath in
  match md_stat f with
  | None => (d, Ok nothing_parsed)
  | Some (size, mtimeMs) =>
      let cursor := getSourceCursor d dbPath in
      if unchanged cursor size mtimeMs then (d, Ok nothing_parsed)
      else if negb (md_opens f) then (d, Ok (failed st_locked))
      else match md_schema f with
           | Throw e => (d, Throw e)
           | Ok (tables, names) =>
               match schemaOf tables names with
               | None => (d, Ok (failed st_unsupported))
               | Some schema =>
                   if negb (hasTokens schema) then (d, Ok (failed st_unsupported))
                   else
                     let lastTime := match cursor with Some c => c_offset c | None => 0 end in
                     match md_rows f with
                     | Throw _ => (d, Ok (failed st_unsupported))
                     | Ok all =>
                         let rows := match timeCol schema with Some c => select_after c lastTime all | None => all end in
                         match scan_rows schema dbPath 0 rows (mkRows [] 0 0 lastTime false) with
                         | Throw e => (d, Throw e)
                         | Ok s =>
                             let offset := match timeCol schema with Some _ => rw_maxTime s | None => inject_Z size end in
                             (setSourceCursor dbPath size mtimeMs offset (iso_text (now_ms ck dbPath 0)) d,
                              Ok (mkParsed (rw_usage s) [] (rw_skipped s) (rw_cut s) None))
                         end
                     end
               end
           end
  end.

Definition MAX_DBS : nat := 500.

(** @src runtime/src/usage/opencode.ts collectOpencode *)
Definition collectOpencode (m : machine) (dirs : string -> option (list dirent)) (dbs : string -> message_db)
    (settings : string -> option string) (d : db) : db * AdapterOutput :=
  let root := adapter_root m opencode in
  let paths := if file_exists m root
    then let storageDir := NodePath.join root "storage" in
         (walk_dir ck MAX_DBS ".sqlite" storageDir (dirs storageDir) []).1
    else [] in
  adapter ck (parseDb dbs) opencode m settings paths [] d.
End opencode.

(** ** Properties *)

Lemma trim_start_length s : (String.length (js_trim_start s) <= String.length s)%nat.
Proof. induction s as [|c s IH]; cbn; [lia|]. destruct (Ascii.is_space c); cbn; lia. Qed.

Lemma trim_end_length s : (String.length (js_trim_end s) <= String.length s)%nat.
Proof.
  induction s as [|c s IH]; [done|]. cbn [js_trim_end]. cbv zeta. destruct (_ && _); cbn [String.length]; lia.
Qed.

Section opencode_facts.
Context `{JsText} (ck : clock).

(** A JSON string is shorter than its text. *)
Hypothesis json_string_shorter : forall t inner, json_parse t = Some (jstr inner) -> (String.length inner < String.length t)%nat.

(** The fuel of [tokensOf] is enough: more of it never changes the result. *)
Theorem tokens_fuel_enough fuel t :
  (String.length t < fuel)%nat -> tokens_of_text fuel t = tokens_of_text (S (String.length t)) t.
Proof.
  enough (Hgen : forall n f g t, (String.length t < n)%nat -> (String.length t < f)%nat -> (String.length t < g)%nat ->
            tokens_of_text f t = tokens_of_text g t) by (intros; apply (Hgen (S (String.length t))); lia).
  induction n as [|n IH]; intros f g t' Hn Hf Hg; [lia|].
  destruct f as [|f], g as [|g]; [lia..|]. cbn [tokens_of_text]. cbv zeta.
  destruct (_ || _); [done|]. destruct (js_startsWith _ (str1 DQUOTE)); [|done].
  destruct (json_parse (js_trim t')) as [[]|] eqn:E; try done. apply json_string_shorter in E.
  pose proof (trim_end_length (js_trim_start t')). pose proof (trim_start_length t'). unfold js_trim in E. apply IH; lia.
Qed.
End opencode_facts.

(** The rows that are read are those after the cursor. *)
Lemma select_after_elem col last rows r :
  r ∈ select_after col last rows <-> r ∈ rows /\ sql_after last (obj_get col r) = true.
Proof. unfold select_after. rewrite js_sort_elem. exact (elem_of_filter_In (fun x => sql_after last (obj_get col x)) rows r). Qed.

(** One row whose time is beyond the range of dates makes every reading of its
    database throw: nothing of the database is ever recorded, the cursor stays, and
    the adapter gives up the databases after it. *)
Theorem poisoned_row_blocks `{JsText} ck dbs path size mtimeMs tables names schema all col row time before d :
  let f := dbs path in
  let rows := select_after col (match getSourceCursor d path with Some c => c_offset c | None => 0 end) all in
  md_stat f = Some (size, mtimeMs) -> unchanged (getSourceCursor d path) size mtimeMs = false -> md_opens f = true ->
  md_schema f = Ok (tables, names) -> schemaOf tables names = Some schema -> hasTokens schema = true ->
  timeCol schema = Some col -> md_rows f = Ok all -> (forall n, late_line ck path n = false) ->
  (exists after, rows = before ++ row :: after) ->
  is_Some (tk_output (tokensOf row)) -> rowTime row = Some time -> MAX_TIME < time ->
  exists e, parseDb ck dbs path d = (d, Throw e).
Proof.
  intros f rows Hstat Hu Hopen Hschema Hs Htok Hcol Hall Hlate (after & Hrows) [out Hout] Htime Hbig.
  unfold parseDb. fold f. rewrite Hstat. rewrite Hu, Hopen, Hschema, Hs, Htok. cbn [negb]. rewrite Hall, Hcol. fold rows. rewrite Hrows.
  assert (Hthrow : forall n s, exists e, scan_rows ck schema path n (before ++ row :: after) s = Throw e).
  { clear Hrows. induction before as [|r before IH]; intros n s; cbn [app scan_rows]; rewrite Hlate.
    - unfold read_row. rewrite Hout, Htime. unfold date_iso.
      replace (Qle_bool time MAX_TIME) with false
        by (symmetry; apply not_true_iff_false; rewrite Qle_bool_iff; by apply Qlt_not_le).
      cbn [andb]. unfold throw. destruct (tk_input (tokensOf row)); cbn [mbind result_mbind result_bind]; by eexists.
    - destruct (read_row ck schema path (S n) r s) as [s'|e]; cbn [mbind result_mbind result_bind]; [apply IH|by exists e]. }
  destruct (Hthrow 0%nat (mkRows [] 0 0 (match getSourceCursor d path with Some c => c_offset c | None => 0 end) false)) as (e & ->).
  by exists e.
Qed.

(** ** Concrete databases *)

Definition demo_text : JsText := {|
  json_parse _ := None; to_number _ := None; number_text q := if Qeq_bool q 1 then "1" else "2"; iso_text _ := "now";
|}.
Definition still_clock : clock := mkClock (fun _ => false) (fun _ => false) (fun _ _ => false) (fun _ _ => 0) 0.
Definition demo_message (id time : Q) : obj json := [("id", jnum id); ("time", jnum time); ("tokens", jnum 3)].
Definition demo_db (mtime : Z) (rows : list (obj json)) : message_db :=
  mkMdb (Some (4096, mtime)%Z) true (Ok (["messages"], ["id"; "time"; "tokens"])) (Ok rows).

(** A message of the same millisecond as the last one read, stored after the
    reading, is never read: the cursor is its time and the next query asks for later
    ones. *)
Theorem same_time_message_lost :
  let first := @parseDb demo_text still_clock (fun _ => demo_db 1 [demo_message 1 50]) "s" empty_db in
  let second := @parseDb demo_text still_clock (fun _ => demo_db 2 [demo_message 1 50; demo_message 2 50]) "s" first.1 in
  (exists o, first.2 = Ok (mkParsed [o] [] 0 false None)) /\ second.2 = Ok (mkParsed [] [] 0 false None).
Proof. split; [by eexists|reflexivity]. Qed.

Lemma poisoned_row_blocks_witness :
  exists e, @parseDb demo_text still_clock (fun _ => demo_db 1 [demo_message 1 50; demo_message 2 8640000000000001]) "s" empty_db
    = (empty_db, Throw e).
Proof.
  apply (@poisoned_row_blocks demo_text still_clock (fun _ => demo_db 1 [demo_message 1 50; demo_message 2 8640000000000001]) "s"
           4096 1 ["messages"] ["id"; "time"; "tokens"] (mkSchema true (Some "time") true false false)
           [demo_message 1 50; demo_message 2 8640000000000001] "time" (demo_message 2 8640000000000001) 8640000000000001
           [demo_message 1 50] empty_db); try reflexivity; try done.
  by exists [].
Defined.

Lemma tokens_fuel_enough_witness : @tokens_of_text demo_text 10 "12" = @tokens_of_text demo_text 3 "12".
Proof. apply (@tokens_fuel_enough demo_text); [done|cbn; lia]. Defined.

(** *** What the adapter may change *)

Definition rows_ok (s : row_scan) : Prop := Forall (fun o => o_provider o = opencode) (rw_usage s).

Lemma read_row_ok `{JsText} ck schema source n row s s' : read_row ck schema source n row s = Ok s' -> rows_ok s -> rows_ok s'.
Proof.
  unfold read_row, rows_ok. intros Hr Hs.
  destruct (tk_input (tokensOf row)), (tk_output (tokensOf row)); try (by injection Hr as <-);
    (destruct (rowTime row) as [time|]; [destruct (date_iso time); [|done]|]);
    cbn [mbind result_mbind result_bind mret result_mret] in Hr; injection Hr as <-; cbn; apply Forall_app; split; try done;
    by constructor.
Qed.

Lemma scan_rows_ok `{JsText} ck schema source n rows s s' :
  scan_rows ck schema source n rows s = Ok s' -> rows_ok s -> rows_ok s'.
Proof.
  revert n s. induction rows as [|row rest IH]; intros n s; cbn [scan_rows]; [by intros [= <-]|].
  destruct (late_line ck source (S n)); [by intros [= <-]|].
  destruct (read_row ck schema source (S n) row s) as [s1|e] eqn:E; [|done]. cbn [mbind result_mbind result_bind].
  intros Hs1 Hs. eapply IH; [done|]. by eapply read_row_ok.
Qed.

Lemma parseDb_ok `{JsText} ck dbs : read_ok opencode (parseDb ck dbs).
Proof.
  intros path d. unfold parseDb. destruct (md_stat (dbs path)) as [[size mtime]|]; [|exact (nothing_ok opencode d)].
  destruct (unchanged _ _ _); [exact (nothing_ok opencode d)|]. destruct (md_opens (dbs path)); [|exact (nothing_ok opencode d)].
  cbn [negb]. destruct (md_schema (dbs path)) as [[tables names]|e]; [|by split; [apply same_tables_refl|]].
  destruct (schemaOf tables names) as [schema|]; [|exact (nothing_ok opencode d)].
  destruct (hasTokens schema); [|exact (nothing_ok opencode d)]. cbn [negb].
  destruct (md_rows (dbs path)) as [all|e]; [|exact (nothing_ok opencode d)].
  destruct (scan_rows _ _ _ _ _ _) as [s|e] eqn:E; [|by split; [apply same_tables_refl|]].
  split; [by repeat split|]. split; [|done]. cbn. by eapply scan_rows_ok; [exact E|constructor].
Qed.

Lemma collectOpencode_ok `{JsText} ck m dirs dbs settings d :
  let '(d', out) := collectOpencode ck m dirs dbs settings d in
  same_tables d d' /\ of_provider opencode (ao_usage out) (ao_limits out) /\ r_provider (ao_result out) = opencode.
Proof. apply adapter_ok; [apply parseDb_ok|done]. Qed.
End OpencodeUsage.
