(* ===== verification/LiveLimits.v ===== *)
(** The limits a provider's API reports, [fetchLiveLimits] of
    [runtime/src/usage/live.ts].  The network is an oracle: what a request is
    answered, [None] when it fails. *)
From S2P Require Import Prelude UsageStore UsageSources.

Module LiveLimits.
Import UsageStore UsageSources.
Local Open Scope Q_scope.

Record live_request := mkLiveRequest { lr_url : string; lr_headers : obj string }.
(** [ok], and the JSON of the body, [None] when it is not JSON. *)
Record live_response := mkLiveResponse { lv_ok : bool; lv_json : option json }.

Section live.
Context `{JsText} (fetchFn : live_request -> option live_response).

(** The body of a good answer to one request; both functions ask it the same way. *)
Definition ask (r : live_request) : option (obj json) :=
  match fetchFn r with
  | Some res => if lv_ok res then isUsageObject (lv_json res) else None
  | None => None
  end.

Definition sum_field (k : string) (l : list json) : Q :=
  fold_left (fun acc r => match isUsageObject (Some r) with Some o => acc + nullish (num (obj_get k o)) 0 | None => acc end) l 0.

(** One bucket: a day without a start or without any use gives nothing.
    @src runtime/src/usage/live.ts 73-98 fetchOpenAiUsage *)
Definition bucket_limit (bucket : json) : result (option LimitObservation) :=
  match isUsageObject (Some bucket) with
  | None => Ok None
  | Some b =>
      match num (obj_get "start_time" b), obj_get "results" b with
      | Some start, Some (jarr results) =>
          let input := sum_field "input_tokens" results in
          let output := sum_field "output_tokens" results in
          let requests := sum_field "num_model_requests" results in
          if Qeq_bool input 0 && Qeq_bool output 0 && Qeq_bool requests 0 then Ok None
          else
            iso ← date_iso (start * 1000);
            mret (Some (mkLimitObs codex (js_take 10 iso) None None (Some "tokens") (Some input) (Some (input + output)) None ls_live))
      | _, _ => Ok None
      end
  end.

Fixpoint bucket_limits (l : list json) : result (list LimitObservation) :=
  match l with
  | [] => Ok []
  | b :: rest =>
      o ← bucket_limit b;
      os ← bucket_limits rest;
      mret (match o with Some o => o :: os | None => os end)
  end.

Definition openai_request (now apiKey : string) : live_request :=
  mkLiveRequest ("https://api.openai.com/v1/organization/usage/completions?start_time=" +:+ now +:+ "&bucket_width=1d")
    [("authorization", "Bearer " +:+ apiKey)].

(** [now] is the time a day ago in seconds.
    @src runtime/src/usage/live.ts fetchOpenAiUsage *)
Definition fetchOpenAiUsage (now apiKey : string) : list live_request * result (list LimitObservation) :=
  let r := openai_request now apiKey in
  ([r], match body ← ask r; obj_get "data" body with
        | Some (jarr data) => bucket_limits data
        | _ => Ok []
        end).

Definition anthropic_request (apiKey : string) : live_request :=
  mkLiveRequest "https://api.anthropic.com/api/usage" [("x-api-key", apiKey); ("anthropic-version", "2023-06-01")].

(** [Math.round((used / given) * 1000) / 10]. *)
Definition used_percent (used given : option Q) : option Q :=
  match used, given with
  | Some n, Some g => if Qle_bool g 0 then None else Some (inject_Z (Qfloor (n / g * 1000 + (1 # 2))) / 10)
  | _, _ => None
  end.

(** @src runtime/src/usage/live.ts fetchAnthropicUsage *)
Definition fetchAnthropicUsage (apiKey : string) : list live_request * result (list LimitObservation) :=
  let r := anthropic_request apiKey in
  ([r], match ask r with
        | None => Ok []
        | Some body =>
            let used := num (obj_get "used" body) in
            let given := num (obj_get "given" body) in
            match used, given with
            | None, None => Ok []
            | _, _ =>
                let reset := match str_field "period_end" body with Some s => Some s | None => str_field "reset_at" body end in
                Ok [mkLimitObs claude "until-period-end" (str_field "plan" body) (used_percent used given) (Some "tokens") used given
                      (if truthy reset then reset else None) ls_live]
            end
        end).

(** @src runtime/src/usage/live.ts fetchLiveLimits *)
Definition fetchLiveLimits (experimental : bool) (now : string) (p : UsageProvider) (apiKey : option string)
    : list live_request * result (list LimitObservation) :=
  if negb (truthy apiKey) then ([], Ok [])
  else match p with
       | codex => fetchOpenAiUsage now (nullish apiKey "")
       | claude => if experimental then fetchAnthropicUsage (nullish apiKey "") else ([], Ok [])
       | opencode => ([], Ok [])
       end.
End live.

(** ** Properties *)

(** The host each provider's key may be sent to. *)
Definition live_host (p : UsageProvider) : string :=
  match p with
  | codex => "https://api.openai.com/"
  | claude => "https://api.anthropic.com/"
  | opencode => ""
  end.

(** C33: A key is sent in at most one request, to the host of its own provider and in the
    headers only; no request is sent without a key, for OpenCode, or for Claude
    unless the experimental features are on. *)
Theorem live_key_stays_with_provider `{JsText} fetchFn experimental now p key sent res :
  fetchLiveLimits fetchFn experimental now p key = (sent, res) ->
  (length sent <= 1)%nat /\
  Forall (fun r => js_startsWith (lr_url r) (live_host p) = true /\ p <> opencode /\ (p = claude -> experimental = true) /\
                   exists k, key = Some k /\ k <> "" /\
                     (lr_headers r = [("authorization", "Bearer " +:+ k)] \/
                      lr_headers r = [("x-api-key", k); ("anthropic-version", "2023-06-01")])) sent.
Proof.
  unfold fetchLiveLimits. destruct (truthy key) eqn:Hk; cbn [negb]; [|intros [= <- _]; by split; [cbn; lia|]].
  assert (Hkey : exists k, key = Some k /\ k <> "").
  { destruct key as [k|]; [|done]. exists k. split; [done|]. by intros ->. }
  destruct Hkey as (k & -> & Hne). destruct p; [destruct experimental|..]; intros [= <- _]; (split; [cbn; lia|]); constructor; try done.
  - split_and!; [done..|]. exists k. split_and!; [done..|]. by right.
  - split_and!; [apply (startsWith_app "https://api.openai.com/")|done..|]. exists k. split_and!; [done..|]. by left.
Qed.

Lemma live_key_stays_with_provider_witness :
  let text := Build_JsText (fun _ => None) (fun _ => None) (fun _ => "") (fun _ => "") in
  (length (@fetchLiveLimits text (fun _ => None) false "0" codex (Some "sk")).1 <= 1)%nat.
Proof.
  intros text. by destruct (@live_key_stays_with_provider text (fun _ => None) false "0" codex (Some "sk") _ _ eq_refl).
Defined.
End LiveLimits.
