(* ===== verification/Collect.v ===== *)
(** Collection of the usage other programs recorded, [runtime/src/usage/collect.ts],
    with the consent it needs, [consent.ts]. *)
From S2P Require Import Prelude NodePath UsageStore UsageSources ClaudeUsage CodexUsage OpencodeUsage LiveLimits.

Module Collect.
Import UsageStore UsageSources.
Local Open Scope Q_scope.

(** ** Consent *)

(** @src runtime/src/usage/consent.ts setEnabled *)
Definition setEnabled (p : UsageProvider) (on : bool) : db -> db := setSetting (enabledKey p) (if on then "1" else "0").

(** @src runtime/src/usage/consent.ts setConsent *)
Definition setConsent (p : UsageProvider) (k : ConsentKind) (granted : bool) : db -> db :=
  setSetting (consentKey p k) (if granted then "1" else "0").

(** @src runtime/src/usage/consent.ts consent *)
Definition consent (d : db) (p : UsageProvider) (k : ConsentKind) : bool := hasConsent (getSetting d) p k.

(** @src runtime/src/usage/consent.ts enabled *)
Definition enabled (d : db) (p : UsageProvider) : bool := providerEnabled (getSetting d) p.

(** @src runtime/src/usage/consent.ts IntegrationStatus *)
Record IntegrationStatus := mkStatus {
  is_provider : UsageProvider; is_enabled : bool; is_credentials : bool; is_live : bool; is_detected : bool;
}.

(** @src runtime/src/usage/consent.ts integrationStatus *)
Definition integrationStatus (m : machine) (d : db) (p : UsageProvider) : IntegrationStatus :=
  mkStatus p (enabled d p) (consent d p ck_credentials) (consent d p ck_live) (providerDetected m p).

(** @src runtime/src/usage/consent.ts allIntegrationStatus *)
Definition allIntegrationStatus (m : machine) (d : db) : list IntegrationStatus := map (integrationStatus m d) PROVIDERS.

(** ** Collection *)

(** @src runtime/src/usage/collect.ts CollectOptions *)
Record CollectOptions := mkOptions { co_providers : option (list UsageProvider); co_includeLive : option bool }.

(** @src runtime/src/usage/types.ts CollectionResult *)
Record CollectionResult := mkCollection {
  cr_providers : list ProviderResult; cr_usage : list UsageObservation; cr_limits : list LimitObservation; cr_timeboxed : bool;
}.

Definition refused (p : UsageProvider) (detected : bool) (message : string) : AdapterOutput :=
  mkOutput [] [] (mkResult p detected st_disabled 0 0 0 0 (Some message)).

Definition limit_row (now : string) (l : LimitObservation) : LimitRow :=
  mkLimit (lo_provider l) (lo_window l) (lo_plan l) (lo_usedPercent l) (lo_units l) (lo_creditsUsed l) (lo_creditsTotal l)
    (lo_resetAt l) now (lo_source l).

(** Everything outside the store that a collection reads. *)
Record sources := mkSources {
  src_machine : machine;
  src_dirs : string -> option (list dirent);
  src_logs : string -> logfile;
  src_config : string -> option string;
  src_dbs : string -> OpencodeUsage.message_db;
  src_fetch : LiveLimits.live_request -> option LiveLimits.live_response;
  src_key : UsageProvider -> option string;
  src_experimental : bool;
}.

Section collect.
Context `{JsText} (ck : clock) (src : sources).

Definition run_adapter (p : UsageProvider) (settings : string -> option string) (d : db) : db * AdapterOutput :=
  match p with
  | claude => ClaudeUsage.collectClaude ck (src_machine src) (src_dirs src) (src_logs src) (src_config src) settings d
  | codex => CodexUsage.collectCodex ck (src_machine src) (src_dirs src) (src_logs src) settings d
  | opencode => OpencodeUsage.collectOpencode ck (src_machine src) (src_dirs src) (src_dbs src) settings d
  end.

(** One provider: nothing of it is read without the two settings.
    @src runtime/src/usage/collect.ts 29-58 collectProvidersSync *)
Definition collect_provider (p : UsageProvider) (d : db) : db * AdapterOutput :=
  if negb (enabled d p) then (d, refused p false "integration disabled")
  else if negb (consent d p ck_credentials) then
    (d, refused p (providerDetected (src_machine src) p)
          "consent not granted — run 'openagenthub integrations enable <provider> --credentials'")
  else run_adapter p (getSetting d) d.

Fixpoint collect_all (want : list UsageProvider) (d : db) : db * list AdapterOutput :=
  match want with
  | [] => (d, [])
  | p :: rest => let '(d, out) := collect_provider p d in let '(d, outs) := collect_all rest d in (d, out :: outs)
  end.

(** The observations that were new, in the order of insertion. *)
Fixpoint record_all (usage : list UsageObservation) (d : db) : db * list UsageObservation :=
  match usage with
  | [] => (d, [])
  | u :: rest =>
      let '(d, fresh) := recordExternal (row_of u) d in
      let '(d, new) := record_all rest d in
      (d, if (fresh : bool) then u :: new else new)
  end.

Definition upsert_all (now : string) (limits : list LimitObservation) (d : db) : db :=
  fold_left (fun d l => upsertLimit (limit_row now l) d) limits d.

(** @src runtime/src/usage/collect.ts 62-70 collectProvidersSync *)
Fixpoint record_outputs (now : string) (outs : list AdapterOutput) (d : db) : db * list UsageObservation :=
  match outs with
  | [] => (d, [])
  | out :: rest =>
      let '(d, new) := record_all (ao_usage out) d in
      let '(d, news) := record_outputs now rest (upsert_all now (ao_limits out) d) in
      (d, new ++ news)
  end.

(** The budget only sets the deadlines, which are the clock's.
    @src runtime/src/usage/collect.ts collectProvidersSync *)
Definition collectProvidersSync (now : string) (over_budget : bool) (opts : CollectOptions) (d : db) : db * CollectionResult :=
  let want := nullish (co_providers opts) [claude; codex; opencode] in
  let '(d, outs) := collect_all want d in
  let '(d, usage) := record_outputs now outs d in
  (d, mkCollection (map ao_result outs) usage (flat_map ao_limits outs) over_budget).

(** The limits of each provider with the consent for it; the requests, the store
    and the limits, up to the first throw.  [day_ago] is a time in seconds.
    @src runtime/src/usage/collect.ts 85-95 collectProviders *)
Fixpoint collect_live (now day_ago : string) (want : list UsageProvider) (d : db)
    : list LiveLimits.live_request * db * result (list LimitObservation) :=
  match want with
  | [] => ([], d, Ok [])
  | p :: rest =>
      if negb (consent d p ck_live) then collect_live now day_ago rest d
      else match LiveLimits.fetchLiveLimits (src_fetch src) (src_experimental src) day_ago p (src_key src p) with
           | (sent, Throw e) => (sent, d, Throw e)
           | (sent, Ok live) =>
               let '(sent', d, r) := collect_live now day_ago rest (upsert_all now live d) in
               (sent ++ sent', d, more ← r; mret (live ++ more))
           end
  end.

(** @src runtime/src/usage/collect.ts collectProviders *)
Definition collectProviders (now day_ago : string) (over_budget : bool) (opts : CollectOptions) (d : db)
    : list LiveLimits.live_request * db * result CollectionResult :=
  let '(d, sync) := collectProvidersSync now over_budget opts d in
  if bool_decide (co_includeLive opts = Some false) then ([], d, Ok sync)
  else
    let '(sent, d, r) := collect_live now day_ago (nullish (co_providers opts) [claude; codex]) d in
    (sent, d, live ← r; mret (mkCollection (cr_providers sync) (cr_usage sync) (cr_limits sync ++ live) (cr_timeboxed sync))).
End collect.

(** @src runtime/src/usage/collect.ts setManualLimit *)
Definition setManualLimit (now : string) (limit : LimitObservation) : db -> db := upsertLimit (limit_row now limit).

(** @src runtime/src/usage/collect.ts revokeProvider *)
Definition revokeProvider (p : UsageProvider) (d : db) : db * (nat * nat) :=
  clearProviderUsage p (setConsent p ck_live false (setConsent p ck_credentials false d)).

(** It goes past the store: the mutation hook is not called.
    @src runtime/src/usage/collect.ts clearExternalUsage *)
Definition clearExternalUsage (p : option UsageProvider) (d : db) : db * nat :=
  match p with
  | None => (with_external [] d, length (t_external d))
  | Some p => let '(l, n) := delete_where (fun r => bool_decide (x_provider r = p)) (t_external d) in (with_external l d, n)
  end.

(** ** The overview *)

Record model_usage := mkModelUsage { mu_model : string; mu_events : nat; mu_tokensIn : Q; mu_tokensOut : Q }.

(** @src runtime/src/usage/collect.ts ProviderUsageOverview *)
Record ProviderUsageOverview := mkOverview {
  po_provider : UsageProvider; po_detected : bool; po_events : nat; po_tokensIn : Q; po_tokensOut : Q; po_cacheRead : Q;
  po_costExact : Q; po_costEstimated : Q; po_costExactAvailable : bool; po_costEstimatedAvailable : bool;
  po_models : list model_usage; po_lastObservedAt : option string;
}.

(** The two maps of the loop are one map here, from a provider to its entry and the
    map of its models. *)
Definition new_entry (p : UsageProvider) : ProviderUsageOverview :=
  mkOverview p false 0 0 0 0 0 0 false false [] None.

Definition add_row (r : ExternalUsageRow) (e : ProviderUsageOverview) : ProviderUsageOverview :=
  let model := nullish (x_model r) "unknown" in
  let m := nullish (lookup_key mu_model model (po_models e)) (mkModelUsage model 0 0 0) in
  let m := mkModelUsage model (S (mu_events m)) (mu_tokensIn m + x_tokensIn r) (mu_tokensOut m + x_tokensOut r) in
  mkOverview (po_provider e) (po_detected e) (S (po_events e)) (po_tokensIn e + x_tokensIn r) (po_tokensOut e + x_tokensOut r)
    (po_cacheRead e + x_cacheRead r)
    (po_costExact e + nullish (positive_cost (x_costExact r)) 0)
    (po_costEstimated e + nullish (positive_cost (x_costEstimated r)) 0)
    (po_costExactAvailable e || bool_decide (is_Some (positive_cost (x_costExact r))))
    (po_costEstimatedAvailable e || bool_decide (is_Some (positive_cost (x_costEstimated r))))
    (upsert mu_model m (po_models e))
    (match po_lastObservedAt e with
     | Some last => if String.eqb last "" || js_ltb last (x_occurredAt r) then Some (x_occurredAt r) else Some last
     | None => Some (x_occurredAt r)
     end).

Definition overview_step (l : list ProviderUsageOverview) (r : ExternalUsageRow) : list ProviderUsageOverview :=
  upsert po_provider (add_row r (nullish (lookup_key po_provider (x_provider r) l) (new_entry (x_provider r)))) l.

Definition models_by_tokens : list model_usage -> list model_usage :=
  js_sort (fun a b => Qle_bool (mu_tokensIn b + mu_tokensOut b) (mu_tokensIn a + mu_tokensOut a)).

(** @src runtime/src/usage/collect.ts providerUsageOverview *)
Definition providerUsageOverview (m : machine) (d : db) : list ProviderUsageOverview :=
  js_sort (fun a b => Qle_bool (po_tokensIn b + po_tokensOut b) (po_tokensIn a + po_tokensOut a))
    (map (fun e => mkOverview (po_provider e) (providerDetected m (po_provider e)) (po_events e) (po_tokensIn e) (po_tokensOut e)
                     (po_cacheRead e) (po_costExact e) (po_costEstimated e) (po_costExactAvailable e)
                     (po_costEstimatedAvailable e) (models_by_tokens (po_models e)) (po_lastObservedAt e))
       (fold_left overview_step (listExternalUsage d None) [])).

(** ** Properties *)

(** *** The overview *)

Definition rows_of (p : UsageProvider) (rows : list ExternalUsageRow) : list ExternalUsageRow :=
  List.filter (fun r => bool_decide (x_provider r = p)) rows.

(** The entry of a provider as a function of its rows. *)
Definition entry_of (p : UsageProvider) (rows : list ExternalUsageRow) : ProviderUsageOverview :=
  fold_left (fun e r => add_row r e) rows (new_entry p).

Lemma overview_lookup p rows :
  lookup_key po_provider p (fold_left overview_step rows []) =
  match rows_of p rows with [] => None | rs => Some (entry_of p rs) end.
Proof.
  induction rows as [|r rows IH] using rev_ind; [done|]. rewrite fold_left_app. cbn [fold_left].
  set (l := fold_left overview_step rows []) in *. unfold overview_step, rows_of in *.
  rewrite lookup_upsert, List.filter_app. cbn [List.filter].
  assert (Hk : forall e, po_provider (add_row r e) = po_provider e) by done. rewrite Hk.
  assert (He : po_provider (nullish (lookup_key po_provider (x_provider r) l) (new_entry (x_provider r))) = x_provider r).
  { destruct (lookup_key po_provider (x_provider r) l) as [e|] eqn:E; [|done]. by apply lookup_key_elem in E as [_ ?]. }
  rewrite He. destruct (decide (p = x_provider r)) as [->|Hne].
  - rewrite bool_decide_eq_true_2 by done. rewrite IH. unfold entry_of.
    destruct (List.filter _ rows) as [|r0 rs]; [done|]. cbn [app nullish default]. f_equal. change (r0 :: rs ++ [r]) with ((r0 :: rs) ++ [r]).
    by rewrite fold_left_app.
  - rewrite bool_decide_eq_false_2 by congruence. by rewrite app_nil_r.
Qed.

Lemma overview_keys_unique rows : NoDup (map po_provider (fold_left overview_step rows [])).
Proof.
  enough (H : forall l, NoDup (map po_provider l) -> NoDup (map po_provider (fold_left overview_step rows l))) by (apply H; constructor).
  induction rows as [|r rows IH]; intros l Hl; [done|]. cbn. by apply IH, upsert_nodup.
Qed.

(** What an entry adds up to. *)
Record entry_sums (e : ProviderUsageOverview) (rows : list ExternalUsageRow) : Prop := mkSums {
  es_events : po_events e = length rows;
  es_in : po_tokensIn e == sum_by x_tokensIn rows;
  es_out : po_tokensOut e == sum_by x_tokensOut rows;
  es_cache : po_cacheRead e == sum_by x_cacheRead rows;
  es_cost : po_costExact e == sum_by (fun r => nullish (positive_cost (x_costExact r)) 0) rows;
  es_models : NoDup (map mu_model (po_models e));
  es_models_events : sum_by (fun m => inject_Z (Z.of_nat (mu_events m))) (po_models e) == inject_Z (Z.of_nat (po_events e));
  es_models_in : sum_by mu_tokensIn (po_models e) == po_tokensIn e;
  es_models_out : sum_by mu_tokensOut (po_models e) == po_tokensOut e;
}.

Lemma sum_by_snoc {A} (f : A -> Q) l x : sum_by f (l ++ [x]) == sum_by f l + f x.
Proof. rewrite sum_by_app, sum_by_cons. change (sum_by f []) with 0. lra. Qed.

Lemma add_row_sums e rows r : entry_sums e rows -> entry_sums (add_row r e) (rows ++ [r]).
Proof.
  intros [He Hi Ho Hc Hx Hm Hme Hmi Hmo].
  assert (Hlk : forall f, f (mkModelUsage (nullish (x_model r) "unknown") 0 0 0) == 0 ->
    nullish (f <$> lookup_key mu_model (nullish (x_model r) "unknown") (po_models e)) 0
    == f (nullish (lookup_key mu_model (nullish (x_model r) "unknown") (po_models e)) (mkModelUsage (nullish (x_model r) "unknown") 0 0 0))).
  { intros f Hf. destruct (lookup_key _ _ _); cbn; [done|by rewrite Hf]. }
  split; cbn [add_row po_events po_tokensIn po_tokensOut po_cacheRead po_costExact po_models].
  - rewrite length_app, He. cbn. lia.
  - by rewrite sum_by_snoc, Hi.
  - by rewrite sum_by_snoc, Ho.
  - by rewrite sum_by_snoc, Hc.
  - by rewrite sum_by_snoc, Hx.
  - by apply upsert_nodup.
  - rewrite sum_by_upsert by done. cbn [mu_model mu_events]. rewrite Hlk by done. rewrite Hme, !Nat2Z.inj_succ, <- !Z.add_1_l, !inject_Z_plus.
    lra.
  - rewrite sum_by_upsert by done. cbn [mu_model mu_tokensIn]. rewrite Hlk by done. rewrite Hmi. lra.
  - rewrite sum_by_upsert by done. cbn [mu_model mu_tokensOut]. rewrite Hlk by done. rewrite Hmo. lra.
Qed.

Lemma entry_of_sums p rows : entry_sums (entry_of p rows) rows.
Proof.
  unfold entry_of. induction rows as [|r rows IH] using rev_ind; [by split; try constructor|].
  rewrite fold_left_app. by apply add_row_sums.
Qed.

(** The overview counts every recorded event exactly once: it has one entry for each
    provider with recorded usage and no other, whose events, tokens and costs are
    the sums over the rows of the provider, and the break-down by model adds up to
    the same numbers. *)
Theorem overview_conserves m d :
  NoDup (map po_provider (providerUsageOverview m d)) /\
  (forall p, p ∈ map po_provider (providerUsageOverview m d) <-> rows_of p (t_external d) <> []) /\
  (forall e, e ∈ providerUsageOverview m d -> entry_sums e (rows_of (po_provider e) (t_external d))).
Proof.
  unfold providerUsageOverview. set (rows := listExternalUsage d None). set (l := fold_left overview_step rows []).
  set (fin := fun e => mkOverview _ _ _ _ _ _ _ _ _ _ _ _).
  assert (Hkeys : forall leb, map po_provider (js_sort leb (map fin l)) ≡ₚ map po_provider l).
  { intros leb. rewrite js_sort_perm, map_map. done. }
  assert (Hperm : forall p, rows_of p rows ≡ₚ rows_of p (t_external d)).
  { intros p. apply list_filter_perm. unfold rows, listExternalUsage. apply js_sort_perm. }
  assert (Hentry : forall e, e ∈ l -> e = entry_of (po_provider e) (rows_of (po_provider e) rows) /\ rows_of (po_provider e) rows <> []).
  { intros e He. pose proof (lookup_key_unique po_provider l e (overview_keys_unique rows) He) as Hl.
    unfold l in Hl. rewrite overview_lookup in Hl. destruct (rows_of (po_provider e) rows) as [|r rs]; [done|].
    injection Hl as Hl. by split. }
  split_and!.
  - rewrite Hkeys. apply overview_keys_unique.
  - intros p. rewrite Hkeys. rewrite <- has_key_spec. destruct (has_key po_provider p l) eqn:E.
    + split; [|done]. intros _ Hnil. apply has_key_spec in E. apply list_elem_of_fmap in E as (e & -> & He).
      apply Hentry in He as [_ Hne]. apply Hne, Permutation_nil. by rewrite <- Hnil, <- Hperm.
    + split; [done|]. intros Hne. exfalso. apply lookup_key_none in E. unfold l in E. rewrite overview_lookup in E.
      destruct (rows_of p rows) eqn:Er; [|done]. apply Hne, Permutation_nil. by rewrite <- Er, Hperm.
  - intros e He. apply js_sort_elem, list_elem_of_fmap in He as (e0 & -> & He0). cbn [po_provider fin].
    destruct (Hentry e0 He0) as [Heq _]. pose proof (entry_of_sums (po_provider e0) (rows_of (po_provider e0) rows)) as Hs.
    rewrite <- Heq in Hs. destruct Hs as [H1 H2 H3 H4 H5 H6 H7 H8 H9]. specialize (Hperm (po_provider e0)).
    assert (Hms : models_by_tokens (po_models e0) ≡ₚ po_models e0) by apply js_sort_perm.
    split; cbn [fin po_events po_tokensIn po_tokensOut po_cacheRead po_costExact po_models].
    + rewrite H1. by apply Permutation_length.
    + rewrite H2. by apply sum_by_perm.
    + rewrite H3. by apply sum_by_perm.
    + rewrite H4. by apply sum_by_perm.
    + rewrite H5. by apply sum_by_perm.
    + by rewrite Hms.
    + by rewrite (sum_by_perm _ _ _ Hms).
    + by rewrite (sum_by_perm _ _ _ Hms).
    + by rewrite (sum_by_perm _ _ _ Hms).
Qed.

(** *** Consent *)

Definition limits_of (p : UsageProvider) (l : list LimitRow) : list LimitRow :=
  List.filter (fun r => bool_decide (l_provider r = p)) l.

(** Nothing of the provider is different. *)
Definition provider_same (p : UsageProvider) (d d' : db) : Prop :=
  rows_of p (t_external d') = rows_of p (t_external d) /\ limits_of p (t_limits d') = limits_of p (t_limits d).

Lemma upsert_other p row l : l_provider row <> p -> limits_of p (upsert limit_key row l) = limits_of p l.
Proof.
  intros Hne. unfold limits_of, upsert. destruct (has_key _ _ _).
  - induction l as [|r l IH]; [done|]. cbn [map]. destruct (bool_decide (limit_key r = limit_key row)) eqn:Hk; cbn [List.filter].
    + apply bool_decide_eq_true in Hk. injection Hk as Hk _. rewrite !bool_decide_eq_false_2 by congruence. done.
    + by rewrite IH.
  - rewrite List.filter_app. cbn. by rewrite bool_decide_eq_false_2, app_nil_r.
Qed.

Section consent_facts.
Context `{JsText} (ck : clock) (src : sources).

Lemma record_all_other p usage d :
  Forall (fun o => o_provider o <> p) usage -> provider_same p d (record_all usage d).1 /\ t_settings (record_all usage d).1 = t_settings d.
Proof.
  intros Hu. revert d. induction Hu as [|o usage Ho _ IH]; intros d; [by repeat split|]. cbn [record_all].
  destruct (recordExternal (row_of o) d) as [d1 fresh] eqn:E.
  assert (H1 : provider_same p d d1 /\ t_settings d1 = t_settings d).
  { unfold recordExternal, insert_or_ignore in E. destruct (has_key _ _ _); injection E as <- <-; [by repeat split|].
    repeat split. cbn. unfold rows_of. rewrite List.filter_app. cbn. by rewrite bool_decide_eq_false_2, app_nil_r. }
  destruct H1 as [[Hr Hl] Hs]. specialize (IH d1). destruct (record_all usage d1) as [d2 new]. cbn [fst] in *.
  destruct IH as [[Hr2 Hl2] Hs2]. repeat split; congruence.
Qed.

Lemma upsert_all_other p now ls d :
  Forall (fun l => lo_provider l <> p) ls -> provider_same p d (upsert_all now ls d) /\ t_settings (upsert_all now ls d) = t_settings d.
Proof.
  intros Hl. revert d. induction Hl as [|l ls Hl _ IH]; intros d; [by repeat split|].
  change (upsert_all now (l :: ls) d) with (upsert_all now ls (upsertLimit (limit_row now l) d)).
  destruct (IH (upsertLimit (limit_row now l) d)) as [[H1 H2] H3]. repeat split.
  - by rewrite H1.
  - rewrite H2. by apply upsert_other.
  - by rewrite H3.
Qed.

(** An output without anything of the provider. *)
Definition nothing_of (p : UsageProvider) (out : AdapterOutput) : Prop :=
  Forall (fun o => o_provider o <> p) (ao_usage out) /\ Forall (fun l => lo_provider l <> p) (ao_limits out) /\
  (r_provider (ao_result out) = p -> r_status (ao_result out) = st_disabled /\ r_sourcesScanned (ao_result out) = 0%nat).

Lemma run_adapter_ok q settings d :
  let '(d', out) := run_adapter ck src q settings d in
  same_tables d d' /\ of_provider q (ao_usage out) (ao_limits out) /\ r_provider (ao_result out) = q.
Proof. destruct q; [apply ClaudeUsage.collectClaude_ok|apply CodexUsage.collectCodex_ok|apply OpencodeUsage.collectOpencode_ok]. Qed.

Definition permitted (d : db) (p : UsageProvider) : bool := enabled d p && consent d p ck_credentials.

Lemma collect_provider_nothing p q d :
  permitted d p = false -> let '(d', out) := collect_provider ck src q d in same_tables d d' /\ nothing_of p out.
Proof.
  intros Hp. unfold collect_provider. destruct (enabled d q) eqn:E1; cbn [negb]; [|by repeat split].
  destruct (consent d q ck_credentials) eqn:E2; cbn [negb]; [|by repeat split].
  pose proof (run_adapter_ok q (getSetting d) d) as Hr. destruct (run_adapter _ _ _ _ _) as [d' out].
  destruct Hr as (Hd & [Hu Hl] & Hq). assert (Hne : q <> p) by (intros ->; unfold permitted in Hp; by rewrite E1, E2 in Hp).
  split; [done|]. split_and!.
  - eapply Forall_impl; [exact Hu|]. by intros o ->.
  - eapply Forall_impl; [exact Hl|]. by intros o ->.
  - congruence.
Qed.

Lemma permitted_settings d d' p : t_settings d' = t_settings d -> permitted d' p = permitted d p.
Proof. unfold permitted, enabled, consent, providerEnabled, hasConsent, getSetting. by intros ->. Qed.

Lemma collect_all_nothing p want d :
  permitted d p = false -> let '(d', outs) := collect_all ck src want d in same_tables d d' /\ Forall (nothing_of p) outs.
Proof.
  revert d. induction want as [|q want IH]; intros d Hp; cbn [collect_all]; [by repeat split|].
  pose proof (collect_provider_nothing p q d Hp) as H1. destruct (collect_provider ck src q d) as [d1 out]. destruct H1 as [Hd1 Hout].
  specialize (IH d1). destruct (collect_all ck src want d1) as [d2 outs]. destruct IH as [Hd2 Houts].
  { rewrite (permitted_settings d); [done|apply Hd1]. }
  split; [by eapply same_tables_trans|by constructor].
Qed.

Lemma record_outputs_other p now outs d :
  Forall (nothing_of p) outs ->
  provider_same p d (record_outputs now outs d).1 /\ t_settings (record_outputs now outs d).1 = t_settings d.
Proof.
  intros Ho. revert d. induction Ho as [|out outs (Hu & Hl & _) _ IH]; intros d; [by repeat split|]. cbn [record_outputs].
  pose proof (record_all_other p (ao_usage out) d Hu) as H1. destruct (record_all (ao_usage out) d) as [d1 new]. cbn [fst] in H1.
  pose proof (upsert_all_other p now (ao_limits out) d1 Hl) as H2. specialize (IH (upsert_all now (ao_limits out) d1)).
  destruct (record_outputs now outs _) as [d2 news]. cbn [fst] in *.
  destruct H1 as [[? ?] ?], H2 as [[? ?] ?], IH as [[? ?] ?]. repeat split; congruence.
Qed.

Lemma collection_other_full now over opts d p :
  permitted d p = false ->
  let '(d', res) := collectProvidersSync ck src now over opts d in
  provider_same p d d' /\ t_settings d' = t_settings d /\
  Forall (fun r => r_provider r = p -> r_status r = st_disabled /\ r_sourcesScanned r = 0%nat) (cr_providers res) /\
  Forall (fun l => lo_provider l <> p) (cr_limits res).
Proof.
  intros Hp. unfold collectProvidersSync.
  pose proof (collect_all_nothing p (nullish (co_providers opts) [claude; codex; opencode]) d Hp) as H1.
  destruct (collect_all _ _ _ _) as [d1 outs]. destruct H1 as [(He & Hl & Hs & _) Houts].
  pose proof (record_outputs_other p now outs d1 Houts) as H2. destruct (record_outputs now outs d1) as [d2 usage].
  destruct H2 as [[Hr2 Hl2] Hs2]. cbn [fst] in *. split_and!.
  - split; congruence.
  - congruence.
  - cbn. apply Forall_fmap. eapply Forall_impl; [exact Houts|]. by intros out (_ & _ & ?).
  - cbn. clear -Houts. induction Houts as [|out outs (_ & Hl & _) _ IH]; cbn; [done|]. apply Forall_app. by split.
Qed.

Lemma collection_other now over opts d p :
  permitted d p = false -> let '(d', _) := collectProvidersSync ck src now over opts d in provider_same p d d'.
Proof.
  intros Hp. pose proof (collection_other_full now over opts d p Hp) as Hc.
  destruct (collectProvidersSync _ _ _ _ _ _). by destruct Hc.
Qed.

Lemma record_all_new p usage d :
  Forall (fun o => o_provider o <> p) usage -> Forall (fun o => o_provider o <> p) (record_all usage d).2.
Proof.
  intros Hu. revert d. induction Hu as [|o usage Ho _ IH]; intros d; [constructor|]. cbn [record_all].
  destruct (recordExternal (row_of o) d) as [d1 fresh]. specialize (IH d1). destruct (record_all usage d1) as [d2 new].
  destruct fresh; [by constructor|done].
Qed.

Lemma record_outputs_new p now outs d :
  Forall (nothing_of p) outs -> Forall (fun o => o_provider o <> p) (record_outputs now outs d).2.
Proof.
  intros Ho. revert d. induction Ho as [|out outs (Hu & _) _ IH]; intros d; [constructor|]. cbn [record_outputs].
  pose proof (record_all_new p _ d Hu) as H1. destruct (record_all (ao_usage out) d) as [d1 new].
  specialize (IH (upsert_all now (ao_limits out) d1)). destruct (record_outputs now outs _) as [d2 news].
  by apply Forall_app.
Qed.

Lemma collection_usage_other now over opts d p :
  permitted d p = false ->
  Forall (fun o => o_provider o <> p) (cr_usage (collectProvidersSync ck src now over opts d).2).
Proof.
  intros Hp. unfold collectProvidersSync.
  pose proof (collect_all_nothing p (nullish (co_providers opts) [claude; codex; opencode]) d Hp) as H1.
  destruct (collect_all _ _ _ _) as [d1 outs]. destruct H1 as [_ Houts].
  pose proof (record_outputs_new p now outs d1 Houts) as H2. by destruct (record_outputs now outs d1).
Qed.

Lemma upsert_all_rows now ls d :
  t_external (upsert_all now ls d) = t_external d /\ t_settings (upsert_all now ls d) = t_settings d.
Proof. unfold upsert_all. revert d. induction ls as [|l ls IH]; intros d; [done|]. cbn. by rewrite !(proj1 (IH _)), (proj2 (IH _)). Qed.

Lemma record_all_settings usage d : t_settings (record_all usage d).1 = t_settings d.
Proof.
  revert d. induction usage as [|o usage IH]; intros d; [done|]. cbn [record_all].
  destruct (recordExternal (row_of o) d) as [d1 fresh] eqn:E. specialize (IH d1).
  assert (H1 : t_settings d1 = t_settings d).
  { unfold recordExternal, insert_or_ignore in E. destruct (has_key _ _ _); by injection E as <- <-. }
  destruct (record_all usage d1). cbn [fst] in *. congruence.
Qed.

Lemma collect_all_tables want d : same_tables d (collect_all ck src want d).1.
Proof.
  revert d. induction want as [|q want IH]; intros d; cbn [collect_all]; [done|].
  assert (H1 : same_tables d (collect_provider ck src q d).1).
  { unfold collect_provider. destruct (enabled d q); cbn [negb]; [|done]. destruct (consent d q ck_credentials); cbn [negb]; [|done].
    pose proof (run_adapter_ok q (getSetting d) d) as Hr. destruct (run_adapter _ _ _ _ _). apply Hr. }
  destruct (collect_provider ck src q d) as [d1 out]. specialize (IH d1). destruct (collect_all ck src want d1) as [d2 outs].
  by eapply same_tables_trans.
Qed.

(** A collection never changes a setting. *)
Lemma collection_settings now over opts d : t_settings (collectProvidersSync ck src now over opts d).1 = t_settings d.
Proof.
  unfold collectProvidersSync. pose proof (collect_all_tables (nullish (co_providers opts) [claude; codex; opencode]) d) as H1.
  destruct (collect_all _ _ _ _) as [d1 outs]. destruct H1 as (_ & _ & Hs & _). cbn [fst] in Hs. revert d1 Hs.
  induction outs as [|out outs IH]; intros d1 Hs; [done|]. cbn [record_outputs].
  pose proof (record_all_settings (ao_usage out) d1) as Hr. destruct (record_all (ao_usage out) d1) as [d2 new].
  specialize (IH (upsert_all now (ao_limits out) d2)). destruct (record_outputs now outs _) as [d3 news]. apply IH.
  rewrite (proj2 (upsert_all_rows _ _ _)). cbn [fst] in Hr. congruence.
Qed.

Lemma bucket_limits_codex l ls : LiveLimits.bucket_limits l = Ok ls -> Forall (fun o => lo_provider o = codex) ls.
Proof.
  revert ls. induction l as [|b l IH]; intros ls; cbn; [by intros [= <-]|].
  destruct (LiveLimits.bucket_limit b) as [o|] eqn:Eb; [|done]. cbn. destruct (LiveLimits.bucket_limits l) as [os|]; [|done].
  intros [= <-]. destruct o as [o|]; [|by apply IH]. constructor; [|by apply IH].
  unfold LiveLimits.bucket_limit in Eb. destruct (isUsageObject _); [|done]. destruct (num _); [|done].
  destruct (obj_get _ _) as [[]|]; try done. destruct (_ && _); [done|]. destruct (date_iso _); [|done]. by injection Eb as <-.
Qed.

(** What one provider is asked for is sent to its own host and gives its own limits. *)
Lemma fetchLiveLimits_own fetchFn experimental day_ago q key :
  let '(sent, r) := LiveLimits.fetchLiveLimits fetchFn experimental day_ago q key in
  Forall (fun rq => q <> opencode /\ js_startsWith (LiveLimits.lr_url rq) (LiveLimits.live_host q) = true) sent /\
  forall ls, r = Ok ls -> Forall (fun l => lo_provider l = q) ls.
Proof.
  unfold LiveLimits.fetchLiveLimits. destruct (truthy key); cbn [negb]; [|split; [done|by intros ? [= <-]]].
  destruct q; [destruct experimental| |]; try (split; [done|by intros ? [= <-]]); unfold LiveLimits.fetchAnthropicUsage, LiveLimits.fetchOpenAiUsage.
  - split; [by repeat constructor|]. intros ls. destruct (LiveLimits.ask _ _) as [body|]; [|by intros [= <-]].
    destruct (num (obj_get "used" body)), (num (obj_get "given" body)); intros [= <-]; by repeat constructor.
  - split; [constructor; [|done]; split; [done|]; apply (startsWith_app "https://api.openai.com/")|]. intros ls.
    destruct (LiveLimits.ask _ _) as [body|]; [|by intros [= <-]]. cbn.
    destruct (obj_get "data" body) as [[]|]; try (by intros [= <-]). apply bucket_limits_codex.
Qed.

Lemma consent_settings d d' q k : t_settings d' = t_settings d -> consent d' q k = consent d q k.
Proof. unfold consent, hasConsent, getSetting. by intros ->. Qed.

(** The live part of a collection: rows and settings stay, every request is one for a
    provider with the consent for it, and a provider without it gets no limit. *)
Lemma collect_live_ok now day_ago want d :
  let '(sent, d', r) := collect_live src now day_ago want d in
  t_settings d' = t_settings d /\ t_external d' = t_external d /\
  Forall (fun rq => exists q, q <> opencode /\ consent d q ck_live = true /\
                              js_startsWith (LiveLimits.lr_url rq) (LiveLimits.live_host q) = true) sent /\
  forall p, consent d p ck_live = false ->
    limits_of p (t_limits d') = limits_of p (t_limits d) /\ forall ls, r = Ok ls -> Forall (fun l => lo_provider l <> p) ls.
Proof.
  revert d. induction want as [|q want IH]; intros d; cbn [collect_live].
  { split_and!; [done..|]. intros p _. split; [done|by intros ? [= <-]]. }
  destruct (consent d q ck_live) eqn:Eq; cbn [negb]; [|apply IH].
  pose proof (fetchLiveLimits_own (src_fetch src) (src_experimental src) day_ago q (src_key src q)) as Hf.
  destruct (LiveLimits.fetchLiveLimits _ _ _ _ _) as [sent [live|e]]; destruct Hf as [Hsent Hown].
  2:{ split_and!; [done..| |by intros p _; split]. eapply Forall_impl; [exact Hsent|]. intros rq [? ?]. by exists q. }
  pose proof (upsert_all_rows now live d) as [Hx Hs]. specialize (IH (upsert_all now live d)).
  destruct (collect_live _ _ _ _ _) as [[sent' d'] r]. destruct IH as (IHs & IHx & IHsent & IHp). split_and!.
  - congruence.
  - congruence.
  - apply Forall_app. split; [eapply Forall_impl; [exact Hsent|]; intros rq [? ?]; by exists q|].
    eapply Forall_impl; [exact IHsent|]. intros rq (q' & ? & Hc & ?). exists q'. by rewrite <- (consent_settings _ _ q' ck_live Hs).
  - intros p Hp. assert (Hne : q <> p) by (intros ->; by rewrite Eq in Hp).
    assert (Hlive : Forall (fun l => lo_provider l <> p) live).
    { eapply Forall_impl; [exact (Hown live eq_refl)|]. by intros l ->. }
    destruct (IHp p) as [IHl IHr]; [by rewrite (consent_settings d)|].
    pose proof (upsert_all_other p now live d Hlive) as [[_ Hl] _]. split; [congruence|].
    intros ls. destruct r as [more|]; [|done]. intros [= <-]. apply Forall_app. split; [done|by apply IHr].
Qed.

(** C27: What a collection, the live limits included, does for each provider is what the
    settings allow, and it never changes a setting.  Unless the integration is
    enabled and its credentials are consented to, no source of the provider is
    scanned, it is reported as disabled and no usage of it is recorded.  A request to
    the host of a provider is sent only with the consent for live limits, and none
    is sent when the collection is asked to leave the live limits out.  A provider
    with neither keeps the limits it had.  (The live consent alone is enough for
    live limits: [disabled_provider_asked].) *)
Theorem collection_respects_consent now day_ago over opts d p :
  let '(sent, d', res) := collectProviders ck src now day_ago over opts d in
  let local_allowed := enabled d p && consent d p ck_credentials in
  let live_allowed := consent d p ck_live && negb (bool_decide (co_includeLive opts = Some false)) in
  t_settings d' = t_settings d /\
  Forall (fun rq => co_includeLive opts <> Some false /\
                    exists q, q <> opencode /\ consent d q ck_live = true /\
                              js_startsWith (LiveLimits.lr_url rq) (LiveLimits.live_host q) = true) sent /\
  (local_allowed = false ->
   rows_of p (t_external d') = rows_of p (t_external d) /\
   forall c, res = Ok c ->
     Forall (fun o => o_provider o <> p) (cr_usage c) /\
     Forall (fun r => r_provider r = p -> r_status r = st_disabled /\ r_sourcesScanned r = 0%nat) (cr_providers c)) /\
  (local_allowed = false -> live_allowed = false ->
   limits_of p (t_limits d') = limits_of p (t_limits d) /\
   forall c, res = Ok c -> Forall (fun l => lo_provider l <> p) (cr_limits c)).
Proof.
  unfold collectProviders. fold (permitted d p).
  pose proof (collection_settings now over opts d) as Hset. pose proof (collection_other_full now over opts d p) as Hfull.
  pose proof (collection_usage_other now over opts d p) as Huse.
  destruct (collectProvidersSync _ _ _ _ _ _) as [d1 sync]. cbn [fst snd] in *.
  destruct (bool_decide (co_includeLive opts = Some false)) eqn:Ei.
  { split_and!; [done..| |].
    - intros Hp. destruct (Hfull Hp) as ([Hr _] & _ & Hd & _). split; [done|]. intros c [= <-]. split; [by apply Huse|done].
    - intros Hp _. destruct (Hfull Hp) as ([_ Hl] & _ & _ & Hcl). split; [done|]. by intros c [= <-]. }
  apply bool_decide_eq_false in Ei. cbn [negb]. rewrite andb_true_r.
  pose proof (collect_live_ok now day_ago (nullish (co_providers opts) [claude; codex]) d1) as Hlive.
  destruct (collect_live _ _ _ _ _) as [[sent d2] r]. destruct Hlive as (Hs & Hx & Hsent & Hno). split_and!.
  - congruence.
  - eapply Forall_impl; [exact Hsent|]. intros rq (q & ? & Hc & ?). split; [done|]. exists q.
    by rewrite <- (consent_settings _ _ q ck_live Hset).
  - intros Hp. destruct (Hfull Hp) as ([Hr _] & _ & Hd & _). split; [congruence|].
    intros c. destruct r as [live|]; [|done]. intros [= <-]. split; [by apply Huse|done].
  - intros Hp Hl. destruct (Hfull Hp) as ([_ Hl1] & _ & _ & Hcl). destruct (Hno p) as [Hl2 Hr]; [by rewrite (consent_settings d)|].
    split; [congruence|]. intros c. destruct r as [live|]; [|done]. intros [= <-]. apply Forall_app. split; [done|by apply Hr].
Qed.

Lemma uprovider_name_inj p q : uprovider_name p = uprovider_name q -> p = q.
Proof. by destruct p, q. Qed.

(** The settings of the providers and of the kinds of consent do not collide. *)
Lemma consentKey_inj p k q l : consentKey p k = consentKey q l -> p = q /\ k = l.
Proof. by destruct p, k, q, l. Qed.
Lemma consent_not_enabled p k q : consentKey p k <> enabledKey q.
Proof. by destruct p, k, q. Qed.

Lemma consent_set p k g d q l :
  consent (setConsent p k g d) q l = if decide (p = q /\ k = l) then g else consent d q l.
Proof.
  unfold consent, hasConsent, getSetting, setConsent, setSetting. cbn [with_settings t_settings]. rewrite obj_get_set.
  destruct (decide (p = q /\ k = l)) as [[-> ->]|Hne].
  - rewrite String.eqb_refl. by destruct g.
  - destruct (String.eqb_spec (consentKey p k) (consentKey q l)) as [Heq|]; [|done]. apply consentKey_inj in Heq. tauto.
Qed.

(** What revoking does to the provider and to the others. *)
Lemma revoke_facts p d :
  let d1 := (revokeProvider p d).1 in
  (forall q k, consent d1 q k = if decide (p = q) then false else consent d q k) /\
  rows_of p (t_external d1) = [] /\ limits_of p (t_limits d1) = [] /\ (forall q, q <> p -> provider_same q d d1).
Proof.
  intros d1. split_and!.
  - intros q k. change (consent d1 q k) with (consent (setConsent p ck_live false (setConsent p ck_credentials false d)) q k).
    rewrite !consent_set. destruct (decide (p = q)) as [->|Hne].
    + destruct k; [rewrite decide_False by (by intros []); by rewrite decide_True|by rewrite decide_True].
    + rewrite !decide_False; [done|by intros []..].
  - apply filter_out.
  - apply filter_out.
  - intros q Hq. split; apply filter_keep; intros x Hx%bool_decide_eq_true; apply bool_decide_eq_false; congruence.
Qed.

(** Revoking a provider forgets everything of it: its consents are gone, and no row
    or limit of it is left or comes back with a later collection; the other
    providers keep their consents, rows and limits. *)
Theorem revoked_stays_empty now over opts d p :
  let d1 := (revokeProvider p d).1 in
  let '(d2, _) := collectProvidersSync ck src now over opts d1 in
  (forall k, consent d1 p k = false) /\ rows_of p (t_external d2) = [] /\ limits_of p (t_limits d2) = [] /\
  (forall q, q <> p -> provider_same q d d1 /\ forall k, consent d1 q k = consent d q k).
Proof.
  intros d1. destruct (revoke_facts p d) as (Hc & Hrows & Hlimits & Hothers). fold d1 in Hc, Hrows, Hlimits, Hothers.
  pose proof (collection_other now over opts d1 p) as Hcol. destruct (collectProvidersSync ck src now over opts d1) as [d2 res].
  destruct Hcol as [Hr Hl]; [unfold permitted; rewrite Hc, decide_True by done; by rewrite andb_false_r|].
  split_and!; [intros k; by rewrite Hc, decide_True|congruence|congruence|].
  intros q Hq. split; [by apply Hothers|]. intros k. by rewrite Hc, decide_False.
Qed.
End consent_facts.

(** ** A collection without consent *)

Definition demo_sources : sources :=
  mkSources (mkMachine (fun _ => Some "/c") "/home/me" (fun _ => true)) (fun _ => Some [de_file "a.jsonl"])
    (fun _ => mkLog (Some (2, 1)%Z) (Some (ClaudeUsage.lines ["a"]))) (fun _ => None) (fun _ => OpencodeUsage.demo_db 1 [])
    (fun _ => None) (fun _ => None) false.

Lemma collection_respects_consent_witness :
  let d := setConsent codex ck_credentials true empty_db in
  rows_of claude (t_external (@collectProviders ClaudeUsage.demo_text ClaudeUsage.in_time_clock demo_sources "now" "0" false
    (mkOptions None None) d).1.2) = [].
Proof.
  cbv zeta.
  pose proof (@collection_respects_consent ClaudeUsage.demo_text ClaudeUsage.in_time_clock demo_sources "now" "0" false
                (mkOptions None None) (setConsent codex ck_credentials true empty_db) claude) as Hc.
  destruct (collectProviders _ _ _ _ _ _ _) as [[sent d'] res]. destruct Hc as (_ & _ & Hr & _). exact (proj1 (Hr eq_refl)).
Defined.

(** The consent for live limits is all the live part asks for: a provider whose
    integration is off, and whose credentials were never consented to, is still asked
    with its key.  (Switching an integration off by the command or by the local API
    withdraws both consents, [revokeProvider], so that it takes a store whose settings
    were written otherwise.) *)
Theorem disabled_provider_asked :
  let d := setEnabled codex false (setConsent codex ck_live true empty_db) in
  let src := mkSources (src_machine demo_sources) (src_dirs demo_sources) (src_logs demo_sources) (src_config demo_sources)
               (src_dbs demo_sources) (fun _ => None) (fun _ => Some "sk") false in
  let '(sent, _, _) := @collectProviders ClaudeUsage.demo_text ClaudeUsage.in_time_clock src "now" "0" false (mkOptions None None) d in
  enabled d codex = false /\ consent d codex ck_credentials = false /\ map LiveLimits.lr_headers sent = [[("authorization", "Bearer sk")]].
Proof. by vm_compute. Qed.

(** With the consent the same event is recorded. *)
Example consent_collects :
  map x_eventKey (t_external (@collectProvidersSync ClaudeUsage.demo_text ClaudeUsage.in_time_clock demo_sources "now" false
    (mkOptions None None) (setConsent claude ck_credentials true empty_db)).1) = ["a"].
Proof. reflexivity. Qed.
End Collect.
