(* ===== verification/Observability.v ===== *)
(** The usage statistics of the dashboard and the command line,
    [runtime/src/observability.ts]: their computation from the usage database and
    the cache in front of it.  Reading dates and the local day are parameters. *)
From stdpp Require Import pretty.
From S2P Require Import Prelude UsageStore UsageSources ClaudeUsage.

Module Observability.
Import UsageStore UsageSources.
Local Open Scope Q_scope.

Definition USAGE_CACHE_TTL_MS : Q := 5000.

(** @src runtime/src/observability.ts RunSummary *)
Record RunSummary := mkSummary {
  su_runId : string; su_agentKey : string; su_version : string; su_interfaceName : string; su_sandbox : string;
  su_state : string; su_health : string; su_startedAt : string; su_endedAt : option string; su_durationSec : option Z;
  su_exitCode : option Z; su_exitReason : option string; su_modelProvider : option string; su_modelName : option string;
}.

Record run_counts := mkCounts {
  rc_running : nat; rc_healthy : nat; rc_unhealthy : nat; rc_stopped : nat; rc_failed : nat; rc_today : nat; rc_allTime : nat;
  rc_lastSuccessful : option RunSummary; rc_lastFailed : option RunSummary;
}.
Record token_counts := mkTokens { tk_input : Q; tk_output : Q; tk_reasoning : Q; tk_cache : Q; tk_available : bool }.
Record cost_counts := mkCosts { ct_exact : Q; ct_estimated : Q; ct_exactAvailable : bool; ct_estimatedAvailable : bool }.
(** [me_runIds] is the set [modelUsageRuns] of the entry; its size is [runs]. *)
Record model_entry := mkModel {
  me_key : string; me_provider : string; me_model : string; me_runIds : list string; me_tokensIn : Q; me_tokensOut : Q;
}.
Record agent_entry := mkAgent { ae_agentKey : string; ae_runs : nat; ae_running : nat; ae_lastRunAt : option string }.

(** @src runtime/src/observability.ts StatsRange *)
Record StatsRange := mkRange { sr_from : option string; sr_to : option string; sr_agent : option string }.

(** @src runtime/src/observability.ts UsageStats *)
Record UsageStats := mkStats {
  generatedAt : string; lastEvent : option string; stats_range : StatsRange; runs : run_counts;
  containers_current : nat; containers_historical : nat; tokens : token_counts; cost : cost_counts;
  models : list model_entry; sandboxes : list (string * nat); perAgent : list agent_entry; activeRuns : list RunSummary;
}.

(** The readings of the clock in one computation: the time in milliseconds, and as
    text, and the start of the local day. *)
Record instant := mkInstant { i_ms : Q; i_iso : string; i_dayStart : string }.

Section stats.
Context `{JsText} (parse_date : string -> option Q).

(** [Math.round]. *)
Definition js_round (q : Q) : Z := Qfloor (q + (1 # 2)).

(** The seconds between two times, when positive. *)
Definition duration (from to : Q) : option Z := if Qle_bool (to - from) 0 then None else Some (js_round ((to - from) / 1000)).

(** @src runtime/src/observability.ts runSummary *)
Definition runSummary (row : RunFacts) : RunSummary :=
  let when_truthy o := if truthy o then o else None in
  let ended := when_truthy (f_endedAt row) in
  let durationSec := match ended, parse_date (f_startedAt row) with
    | Some e, Some s => match parse_date e with Some e => duration s e | None => None end
    | _, _ => None
    end in
  mkSummary (f_runId row) (f_agentKey row) (f_version row) (f_interfaceName row) (f_sandbox row) (f_state row) (f_health row)
    (f_startedAt row) ended durationSec (f_exitCode row) (when_truthy (f_exitReason row)) (when_truthy (f_modelProvider row))
    (when_truthy (f_modelName row)).

(** [new Date(s).toISOString()]. *)
Definition normal_date (s : string) : result string :=
  match parse_date s with Some ms => date_iso ms | None => throw ERange "Invalid time value" end.

Definition optional_date (o : option string) : result (option string) :=
  if truthy o then (d ← normal_date (nullish o ""); mret (Some d)) else Ok None.

(** The runs of the range, by the time they started.
    @src runtime/src/observability.ts 87-103 computeUsageStats *)
Definition runs_in_range (d : db) (range : StatsRange) : result (list RunFacts) :=
  from ← optional_date (sr_from range);
  to ← optional_date (sr_to range);
  let keep r :=
    match from with Some f => negb (js_ltb (f_startedAt r) f) | None => true end
    && match to with Some t => negb (js_ltb t (f_startedAt r)) | None => true end
    && (if truthy (sr_agent range) then bool_decide (sr_agent range = Some (f_agentKey r)) else true) in
  mret (by_column f_startedAt (List.filter keep (t_runs d))).

Definition is_state (s : string) (r : RunFacts) : bool := String.eqb (f_state r) s.
Definition is_container (r : RunFacts) : bool := String.eqb (f_sandbox r) "container".
Definition count {A} (f : A -> bool) (l : list A) : nat := length (List.filter f l).

(** @src runtime/src/observability.ts 105-116 computeUsageStats *)
Definition count_runs (today : string) (rs : list RunFacts) : run_counts :=
  let active := List.filter facts_active rs in
  mkCounts (length active) (count (fun r => String.eqb (f_health r) "ok") active)
    (count (fun r => String.eqb (f_health r) "unhealthy") active)
    (count (fun r => negb (facts_active r) && negb (is_state "failed" r)) rs) (count (is_state "failed") rs)
    (count (fun r => negb (js_ltb (f_startedAt r) today)) rs) (length rs)
    (runSummary <$> list.last (List.filter (is_state "exited") rs)) (runSummary <$> list.last (List.filter (is_state "failed") rs)).

Definition zq (z : Z) : Q := inject_Z z.

(** @src runtime/src/observability.ts 121-155 computeUsageStats *)
Definition add_tokens (t : token_counts) (u : UsageSample) : token_counts :=
  mkTokens (tk_input t + zq (s_tokensIn u)) (tk_output t + zq (s_tokensOut u)) (tk_reasoning t + zq (s_tokensReasoning u))
    (tk_cache t + zq (s_tokensCache u)) true.

Definition add_cost (c : cost_counts) (u : UsageSample) : cost_counts :=
  mkCosts (ct_exact c + nullish (positive_cost (s_costExact u)) 0) (ct_estimated c + nullish (positive_cost (s_costEstimated u)) 0)
    (ct_exactAvailable c || bool_decide (is_Some (positive_cost (s_costExact u))))
    (ct_estimatedAvailable c || bool_decide (is_Some (positive_cost (s_costEstimated u)))).

Definition model_key (u : UsageSample) : string := s_modelProvider u +:+ ":" +:+ s_modelName u.

Definition add_model (ms : list model_entry) (u : UsageSample) : list model_entry :=
  let e := nullish (lookup_key me_key (model_key u) ms) (mkModel (model_key u) (s_modelProvider u) (s_modelName u) [] 0 0) in
  upsert me_key (mkModel (me_key e) (me_provider e) (me_model e)
    (if mem_str (s_runId u) (me_runIds e) then me_runIds e else me_runIds e ++ [s_runId u])
    (me_tokensIn e + zq (s_tokensIn u)) (me_tokensOut e + zq (s_tokensOut u))) ms.

(** [runs] of an entry of [models]. *)
Definition me_runs (e : model_entry) : nat := length (me_runIds e).

Definition add_sandbox (l : list (string * nat)) (r : RunFacts) : list (string * nat) :=
  upsert fst (f_sandbox r, S (nullish (snd <$> lookup_key fst (f_sandbox r) l) 0%nat)) l.

(** @src runtime/src/observability.ts 160-169 computeUsageStats *)
Definition add_agent (l : list agent_entry) (r : RunFacts) : list agent_entry :=
  let e := nullish (lookup_key ae_agentKey (f_agentKey r) l) (mkAgent (f_agentKey r) 0 0 None) in
  upsert ae_agentKey (mkAgent (ae_agentKey e) (S (ae_runs e)) (if facts_active r then S (ae_running e) else ae_running e)
    (if negb (truthy (ae_lastRunAt e)) || js_ltb (nullish (ae_lastRunAt e) "") (f_startedAt r)
     then Some (f_startedAt r) else ae_lastRunAt e)) l.

(** An active run lasts until now.
    @src runtime/src/observability.ts 171-176 computeUsageStats *)
Definition active_summary (now : Q) (r : RunFacts) : RunSummary :=
  let a := runSummary r in
  let d := match parse_date (su_startedAt a) with
    | Some s => match duration s now with Some x => Some x | None => su_durationSec a end
    | None => su_durationSec a
    end in
  mkSummary (su_runId a) (su_agentKey a) (su_version a) (su_interfaceName a) (su_sandbox a) (su_state a) (su_health a)
    (su_startedAt a) (su_endedAt a) d (su_exitCode a) (su_exitReason a) (su_modelProvider a) (su_modelName a).

(** @src runtime/src/observability.ts computeUsageStats *)
Definition computeUsageStats (now : instant) (d : db) (range : StatsRange) : result UsageStats :=
  rs ← runs_in_range d range;
  let inScope u := mem_str (s_runId u) (map f_runId rs) in
  let usage := List.filter inScope (t_usage d) in
  let active := List.filter facts_active rs in
  mret (mkStats (i_iso now) (lastEventAt d) range (count_runs (i_dayStart now) rs)
    (count is_container active) (count is_container rs)
    (fold_left add_tokens usage (mkTokens 0 0 0 0 false)) (fold_left add_cost usage (mkCosts 0 0 false false))
    (js_sort (fun a b => Qle_bool (me_tokensIn b + me_tokensOut b) (me_tokensIn a + me_tokensOut a)) (fold_left add_model usage []))
    (fold_left add_sandbox rs [])
    (js_sort (fun a b => Nat.leb (ae_runs b) (ae_runs a)) (fold_left add_agent rs []))
    (js_sort (fun a b => negb (js_ltb (su_startedAt b) (su_startedAt a))) (map (active_summary (i_ms now)) active))).

(** ** The cache *)

(** @src runtime/src/observability.ts CacheEntry *)
Record CacheEntry := mkEntry { ce_at : Q; ce_stats : UsageStats }.

(** The variables of the module; a store is known by a number. *)
Record cache_state := mkCache { entries : obj CacheEntry; storeSnapshot : option nat; cacheKeyVersion : N }.

(** Also the hook that every [touch] of the store calls.
    @src runtime/src/observability.ts invalidateUsageStats *)
Definition invalidateUsageStats (c : cache_state) : cache_state := mkCache [] (storeSnapshot c) (N.succ (cacheKeyVersion c)).

(** @src runtime/src/observability.ts cacheKey *)
Definition cacheKey (version : N) (range : StatsRange) : string :=
  pretty version +:+ "|" +:+ nullish (sr_from range) "" +:+ "|" +:+ nullish (sr_to range) "" +:+ "|" +:+ nullish (sr_agent range) "".

(** @src runtime/src/observability.ts getUsageStats *)
Definition getUsageStats (now : instant) (store : nat) (d : db) (range : StatsRange) (ttlMs : Q) (c : cache_state)
    : cache_state * result UsageStats :=
  let c := if bool_decide (storeSnapshot c = Some store) then c else mkCache [] (Some store) (cacheKeyVersion c) in
  let key := cacheKey (cacheKeyVersion c) range in
  let hit := match obj_get key (entries c) with
    | Some e => if negb (Qle_bool ttlMs (i_ms now - ce_at e)) && bool_decide (lastEvent (ce_stats e) = lastEventAt d)
                then Some (ce_stats e) else None
    | None => None
    end in
  match hit with
  | Some stats => (c, Ok stats)
  | None =>
      match computeUsageStats now d range with
      | Throw e => (c, Throw e)
      | Ok stats => (mkCache (obj_set key (mkEntry (i_ms now) stats) (entries c)) (storeSnapshot c) (cacheKeyVersion c), Ok stats)
      end
  end.
End stats.

(** An operation of the store with the hook it calls. *)
Definition hooked (op : store_op) (dc : db * cache_state) : db * cache_state :=
  let d' := apply_op dc.1 op in
  (d', if Nat.eqb (touches d') (touches dc.1) then dc.2 else invalidateUsageStats dc.2).

(** ** Properties *)

(** *** The counts *)

Lemma count_split {A} (f g : A -> bool) l : count f l = (count (fun x => f x && g x) l + count (fun x => f x && negb (g x)) l)%nat.
Proof. unfold count. induction l as [|x l IH]; [done|]. cbn. destruct (f x), (g x); cbn; lia. Qed.

Lemma count_le {A} (f g : A -> bool) l : (forall x, f x = true -> g x = true) -> (count f l <= count g l)%nat.
Proof.
  intros H. unfold count. induction l as [|x l IH]; [done|]. cbn. specialize (H x). destruct (f x); [rewrite H by done; cbn; lia|].
  destruct (g x); cbn; lia.
Qed.

Lemma count_ext {A} (f g : A -> bool) l : (forall x, f x = g x) -> count f l = count g l.
Proof. intros H. unfold count. induction l as [|x l IH]; [done|]. cbn. rewrite H. destruct (g x); cbn; lia. Qed.

Lemma count_filter {A} (f g : A -> bool) l : count f (List.filter g l) = count (fun x => g x && f x) l.
Proof. unfold count. induction l as [|x l IH]; [done|]. cbn. destruct (g x); cbn; [destruct (f x)|]; cbn; lia. Qed.

Lemma count_all {A} (f : A -> bool) l : (forall x, f x = true) -> count f l = length l.
Proof. intros H. unfold count. induction l as [|x l IH]; [done|]. cbn. rewrite H. cbn. lia. Qed.

Lemma failed_not_active r : is_state "failed" r = true -> facts_active r = false.
Proof. unfold is_state, facts_active. by intros ->%String.eqb_eq. Qed.

(** A fold that counts each run in the group of its key. *)
Lemma fold_group_sum {Row Key X} `{EqDecision Key} (key : Row -> Key) (f : Row -> Q) (step : list Row -> X -> list Row) (w : X -> Q) xs l :
  (forall l x, NoDup (map key l) -> NoDup (map key (step l x)) /\ sum_by f (step l x) == sum_by f l + w x) ->
  NoDup (map key l) -> sum_by f (fold_left step xs l) == sum_by f l + sum_by w xs.
Proof.
  intros Hstep. revert l. induction xs as [|x xs IH]; intros l Hl; cbn [fold_left].
  { change (sum_by w []) with 0. lra. }
  destruct (Hstep l x Hl) as [Hnd Hsum]. rewrite (IH _ Hnd), Hsum, sum_by_cons. lra.
Qed.

Lemma sandbox_step l r : NoDup (map fst l) ->
  NoDup (map fst (add_sandbox l r)) /\
  sum_by (fun e => zq (Z.of_nat (snd e))) (add_sandbox l r) == sum_by (fun e => zq (Z.of_nat (snd e))) l + 1.
Proof.
  intros Hl. split; [by apply upsert_nodup|]. unfold add_sandbox. rewrite sum_by_upsert by done. cbn [fst snd].
  rewrite Nat2Z.inj_succ, <- Z.add_1_l. unfold zq. rewrite inject_Z_plus. change (inject_Z 1) with 1.
  destruct (lookup_key fst (f_sandbox r) l) as [e|]; unfold nullish; cbn [fmap option_fmap option_map from_option id]; [lra|].
  change (inject_Z (Z.of_nat 0)) with 0. lra.
Qed.

Lemma agent_step l r : NoDup (map ae_agentKey l) ->
  NoDup (map ae_agentKey (add_agent l r)) /\
  sum_by (fun e => zq (Z.of_nat (ae_runs e))) (add_agent l r) == sum_by (fun e => zq (Z.of_nat (ae_runs e))) l + 1 /\
  sum_by (fun e => zq (Z.of_nat (ae_running e))) (add_agent l r)
    == sum_by (fun e => zq (Z.of_nat (ae_running e))) l + (if facts_active r then 1 else 0).
Proof.
  intros Hl. split; [by apply upsert_nodup|]. unfold add_agent. rewrite !sum_by_upsert by done. cbn [ae_agentKey ae_runs ae_running].
  assert (Hk : ae_agentKey (nullish (lookup_key ae_agentKey (f_agentKey r) l) (mkAgent (f_agentKey r) 0 0 None)) = f_agentKey r).
  { destruct (lookup_key _ _ l) eqn:E; [|done]. by apply lookup_key_elem in E as [_ ?]. }
  rewrite Hk. unfold zq.
  destruct (lookup_key ae_agentKey (f_agentKey r) l) as [e|]; unfold nullish; cbn [fmap option_fmap option_map from_option id ae_runs ae_running];
    destruct (facts_active r); rewrite ?Nat2Z.inj_succ, <- ?Z.add_1_l, ?inject_Z_plus; change (inject_Z 1) with 1;
    change (inject_Z (Z.of_nat 0)) with 0; split; lra.
Qed.

Lemma model_step l u : NoDup (map me_key l) ->
  NoDup (map me_key (add_model l u)) /\
  sum_by me_tokensIn (add_model l u) == sum_by me_tokensIn l + zq (s_tokensIn u) /\
  sum_by me_tokensOut (add_model l u) == sum_by me_tokensOut l + zq (s_tokensOut u).
Proof.
  intros Hl. split; [by apply upsert_nodup|]. unfold add_model. rewrite !sum_by_upsert by done. cbn [me_key me_tokensIn me_tokensOut].
  assert (Hk : forall e0, me_key e0 = model_key u -> me_key (nullish (lookup_key me_key (model_key u) l) e0) = model_key u).
  { intros e0 He0. destruct (lookup_key _ _ l) eqn:E; [|done]. by apply lookup_key_elem in E as [_ ?]. }
  rewrite Hk by done.
  destruct (lookup_key me_key (model_key u) l) as [e|]; unfold nullish; cbn [fmap option_fmap option_map from_option id me_tokensIn me_tokensOut]; split; lra.
Qed.

Lemma sum_by_one {A} (l : list A) : sum_by (fun _ => 1) l == zq (Z.of_nat (length l)).
Proof.
  induction l as [|x l IH]; [done|]. rewrite sum_by_cons, IH. cbn [length]. unfold zq.
  rewrite Nat2Z.inj_succ, <- Z.add_1_l, inject_Z_plus. change (inject_Z 1) with 1. lra.
Qed.

Lemma tokens_fold us t :
  tk_input (fold_left add_tokens us t) == tk_input t + sum_by (fun u => zq (s_tokensIn u)) us /\
  tk_output (fold_left add_tokens us t) == tk_output t + sum_by (fun u => zq (s_tokensOut u)) us.
Proof.
  revert t. induction us as [|u us IH]; intros t; cbn [fold_left].
  { cbn. split; lra. }
  destruct (IH (add_tokens t u)) as [H1 H2]. rewrite H1, H2, !sum_by_cons. cbn [add_tokens tk_input tk_output]. split; lra.
Qed.

Section stats_facts.
Context `{JsText} (parse_date : string -> option Q).

(** C31: Every run of the range is counted once: as running, stopped or failed, in one
    sandbox and under one agent; the health and container counts lie within; and
    the tokens by model add up to the totals. *)
Theorem stats_conserve now d range s :
  computeUsageStats parse_date now d range = Ok s ->
  let c := runs s in
  (rc_running c + rc_stopped c + rc_failed c = rc_allTime c)%nat /\
  (rc_healthy c + rc_unhealthy c <= rc_running c)%nat /\ (rc_today c <= rc_allTime c)%nat /\
  (containers_current s <= containers_historical s)%nat /\ (containers_historical s <= rc_allTime c)%nat /\
  length (activeRuns s) = rc_running c /\
  sum_by (fun e => zq (Z.of_nat (snd e))) (sandboxes s) == zq (Z.of_nat (rc_allTime c)) /\
  sum_by (fun e => zq (Z.of_nat (ae_runs e))) (perAgent s) == zq (Z.of_nat (rc_allTime c)) /\
  sum_by (fun e => zq (Z.of_nat (ae_running e))) (perAgent s) == zq (Z.of_nat (rc_running c)) /\
  sum_by me_tokensIn (models s) == tk_input (tokens s) /\ sum_by me_tokensOut (models s) == tk_output (tokens s).
Proof.
  unfold computeUsageStats. destruct (runs_in_range parse_date d range) as [rs|e]; cbn [mbind result_mbind result_bind]; [|done].
  intros [= <-].
  cbn [runs count_runs rc_running rc_stopped rc_failed rc_allTime rc_healthy rc_unhealthy rc_today containers_current
    containers_historical activeRuns sandboxes perAgent models tokens]. set (us := List.filter _ (t_usage d)).
  assert (Hact : length (List.filter facts_active rs) = count facts_active rs) by done.
  assert (Hall : forall f : RunFacts -> bool, (count f rs <= length rs)%nat).
  { intros f. rewrite <- (count_all (fun _ => true) rs) by done. by apply count_le. }
  split_and!.
  - rewrite <- (count_all (fun _ => true) rs), (count_split (fun _ => true) facts_active rs) by done.
    rewrite (count_split (fun x => true && negb (facts_active x)) (is_state "failed") rs). cbn [andb].
    rewrite (count_ext (fun x => negb (facts_active x) && is_state "failed" x) (is_state "failed")).
    { change (count (fun x => facts_active x) rs) with (count facts_active rs). rewrite Hact. lia. }
    intros r. destruct (is_state "failed" r) eqn:E; [by rewrite (failed_not_active r E)|by rewrite andb_false_r].
  - rewrite Hact. rewrite !count_filter. etrans; [|apply (Nat.eq_le_incl _ _ (eq_sym (count_split facts_active (fun r => String.eqb (f_health r) "ok") rs)))].
    apply Nat.add_le_mono_l, count_le. intros r [-> Hh%String.eqb_eq]%andb_prop. by rewrite Hh.
  - apply Hall.
  - rewrite count_filter. apply count_le. by intros r [_ ?]%andb_prop.
  - apply Hall.
  - by rewrite js_sort_length, length_map.
  - rewrite (fold_group_sum fst _ add_sandbox (fun _ => 1)); [|intros; by apply sandbox_step|constructor]. rewrite sum_by_one, sum_by_nil. lra.
  - rewrite (sum_by_perm _ _ _ (js_sort_perm _ _)).
    rewrite (fold_group_sum ae_agentKey _ add_agent (fun _ => 1)); [|intros l r Hl; destruct (agent_step l r Hl) as (? & ? & ?); by split|constructor].
    rewrite sum_by_one, sum_by_nil. lra.
  - rewrite (sum_by_perm _ _ _ (js_sort_perm _ _)).
    rewrite (fold_group_sum ae_agentKey _ add_agent (fun r => if facts_active r then 1 else 0));
      [|intros l r Hl; destruct (agent_step l r Hl) as (? & ? & ?); by split|constructor].
    rewrite sum_by_count, sum_by_nil. unfold zq, count. lra.
  - rewrite (sum_by_perm _ _ _ (js_sort_perm _ _)), (proj1 (tokens_fold us _)).
    rewrite (fold_group_sum me_key _ add_model (fun u => zq (s_tokensIn u)));
      [|intros l r Hl; destruct (model_step l r Hl) as (? & ? & ?); by split|constructor].
    rewrite sum_by_nil. cbn [tk_input tk_output]. lra.
  - rewrite (sum_by_perm _ _ _ (js_sort_perm _ _)), (proj2 (tokens_fold us _)).
    rewrite (fold_group_sum me_key _ add_model (fun u => zq (s_tokensOut u)));
      [|intros l r Hl; destruct (model_step l r Hl) as (? & ? & ?); by split|constructor].
    rewrite sum_by_nil. cbn [tk_input tk_output]. lra.
Qed.
End stats_facts.

(** *** The cache *)

(** A range whose dates have no separator of the key. *)
Definition plain_range (r : StatsRange) : bool :=
  negb (js_has_char "|" (nullish (sr_from r) "")) && negb (js_has_char "|" (nullish (sr_to r) "")).

(** The two ranges ask for the same runs: a missing bound and an empty one are one. *)
Definition same_range (r r' : StatsRange) : Prop :=
  nullish (sr_from r) "" = nullish (sr_from r') "" /\ nullish (sr_to r) "" = nullish (sr_to r') "" /\
  nullish (sr_agent r) "" = nullish (sr_agent r') "".

Lemma cacheKey_inj v r r' : plain_range r = true -> plain_range r' = true -> cacheKey v r = cacheKey v r' -> same_range r r'.
Proof.
  unfold plain_range, cacheKey. intros [H1%negb_true_iff H2%negb_true_iff]%andb_prop [H3%negb_true_iff H4%negb_true_iff]%andb_prop.
  intros Heq%sapp_inj_l. apply (sapp_inj_l "|") in Heq.
  apply (split_unique "|") in Heq as [Hf Heq]; [|done..]. apply (split_unique "|") in Heq as [Ht Ha]; [|done..].
  by repeat split.
Qed.

(** An operation that tells the cache about what it changes: all but the update of a
    run that is known. *)
Definition announced (d : db) (op : store_op) : bool :=
  match op with so_syncRun r => negb (has_key f_runId (f_runId r) (t_runs d)) | _ => true end.

Lemma unannounced_irrelevant d op :
  announced d op = true -> touches (apply_op d op) = touches d -> t_runs (apply_op d op) = t_runs d /\ t_usage (apply_op d op) = t_usage d.
Proof.
  destruct op; cbn [announced apply_op]; intros Ha Ht; try done.
  - exfalso. unfold syncRun in Ht. apply negb_true_iff in Ha. rewrite Ha in Ht. cbn in Ht. lia.
  - cbn in Ht. lia.
  - unfold recordExternal in *. destruct (insert_or_ignore _ _ _) as [l [|]]; done.
  - unfold prune in *. destruct (pruneCandidates _ _ _); [done|]. unfold removeRuns in *. destruct (List.filter _ _); [done|].
    destruct commits; [cbn in Ht; lia|done].
  - unfold pruneById, removeRuns in *. destruct (List.filter _ _); [done|]. destruct commits; [cbn in Ht; lia|done].
  - unfold deleteAll in *. destruct commits; [cbn in Ht; lia|done].
Qed.

Section cache_facts.
Context `{JsText} (parse_date : string -> option Q) (store : nat).

Lemma compute_same now d d' range :
  t_runs d' = t_runs d -> t_usage d' = t_usage d -> computeUsageStats parse_date now d' range = computeUsageStats parse_date now d range.
Proof. intros Hr Hu. unfold computeUsageStats, runs_in_range, lastEventAt. by rewrite Hr, Hu. Qed.

(** The store and the cache through announced operations and questions. *)
Inductive cached : db -> cache_state -> Prop :=
| cached_start d : cached d (mkCache [] None 0)
| cached_op d c op : cached d c -> announced d op = true -> cached (hooked op (d, c)).1 (hooked op (d, c)).2
| cached_get d c now range ttl : cached d c -> plain_range range = true -> cached d (getUsageStats parse_date now store d range ttl c).1.

(** Every entry is what a computation on the present database would have given at
    the time of the entry. *)
Definition entry_current (d : db) (v : N) (k : string) (e : CacheEntry) : Prop :=
  exists now range, plain_range range = true /\ k = cacheKey v range /\ i_ms now = ce_at e /\
    computeUsageStats parse_date now d range = Ok (ce_stats e).

Definition cache_current (d : db) (c : cache_state) : Prop :=
  forall k e, obj_get k (entries c) = Some e -> entry_current d (cacheKeyVersion c) k e.

Definition for_store (c : cache_state) : cache_state :=
  if bool_decide (storeSnapshot c = Some store) then c else mkCache [] (Some store) (cacheKeyVersion c).

Lemma for_store_current d c : cache_current d c -> cache_current d (for_store c).
Proof. unfold for_store. intros Hc. by case_bool_decide. Qed.

Lemma cached_current d c : cached d c -> cache_current d c.
Proof.
  induction 1 as [d|d c op _ IH Ha|d c now range ttl _ IH Hp]; [done| |].
  - unfold hooked. cbn [fst snd]. destruct (Nat.eqb_spec (touches (apply_op d op)) (touches d)) as [Ht|]; [|done].
    destruct (unannounced_irrelevant d op Ha Ht) as [Hr Hu]. intros k e He. destruct (IH k e He) as (now & range & Hp & Hk & Hat & Hs).
    exists now, range. split_and!; [done..|]. by rewrite (compute_same now d).
  - apply for_store_current in IH. unfold getUsageStats. change (if bool_decide _ then c else _) with (for_store c).
    set (c' := for_store c) in *. cbv zeta.
    destruct (match obj_get _ (entries c') with Some e => _ | None => None end); [done|].
    destruct (computeUsageStats parse_date now d range) as [stats|e] eqn:E; [|done].
    intros k e. cbn -[obj_get obj_set]. rewrite obj_get_set. destruct (String.eqb_spec (cacheKey (cacheKeyVersion c') range) k) as [<-|]; [|apply IH].
    intros [= <-]. by exists now, range.
Qed.

(** C32: Refinement of the cache: through any sequence of announced operations and
    questions an answer is the one a computation on the present database gives, now
    or less than the time to live ago. *)
Theorem cached_stats_current d c now range ttl stats :
  cached d c -> plain_range range = true -> (getUsageStats parse_date now store d range ttl c).2 = Ok stats ->
  exists now' range', same_range range' range /\ (now' = now \/ i_ms now - i_ms now' < ttl) /\
    computeUsageStats parse_date now' d range' = Ok stats.
Proof.
  intros Hc%cached_current%for_store_current Hp. unfold getUsageStats. change (if bool_decide _ then c else _) with (for_store c).
  set (c' := for_store c) in *. cbv zeta.
  destruct (obj_get _ (entries c')) as [e|] eqn:Ee.
  - destruct (negb (Qle_bool ttl (i_ms now - ce_at e)) && _) eqn:Eh.
    + cbn. intros [= <-]. destruct (Hc _ _ Ee) as (now' & range' & Hp' & Hk & Hat & Hs). exists now', range'.
      split_and!; [by eapply cacheKey_inj|right|done]. rewrite Hat. apply andb_prop in Eh as [Hq%negb_true_iff _].
      apply Qnot_le_lt. intros Hle%Qle_bool_iff. congruence.
    + destruct (computeUsageStats parse_date now d range) as [s|] eqn:E; [|done]. intros [= <-].
      exists now, range. split_and!; [done|by left|done].
  - destruct (computeUsageStats parse_date now d range) as [s|] eqn:E; [|done]. intros [= <-].
    exists now, range. split_and!; [done|by left|done].
Qed.

(** The update of a known run is not announced: until the time to live is over, the
    statistics stay as they were before, also when the run has ended. *)
Theorem run_update_served_stale d c now now' range ttl r stats :
  storeSnapshot c = Some store -> obj_get (cacheKey (cacheKeyVersion c) range) (entries c) = None ->
  computeUsageStats parse_date now d range = Ok stats ->
  has_key f_runId (f_runId r) (t_runs d) = true -> lastEventAt (syncRun r d) = lastEventAt d -> i_ms now' - i_ms now < ttl ->
  let '(c1, _) := getUsageStats parse_date now store d range ttl c in
  let '(d2, c2) := hooked (so_syncRun r) (d, c1) in
  (getUsageStats parse_date now' store d2 range ttl c2).2 = Ok stats.
Proof.
  intros Hst Hnone Hs Hk Hlast Httl. unfold getUsageStats at 1. rewrite Hst, bool_decide_eq_true_2 by done. cbv zeta. rewrite Hnone, Hs.
  unfold hooked. cbn [fst snd apply_op]. assert (Htouch : touches (syncRun r d) = touches d) by (unfold syncRun; by rewrite Hk).
  rewrite Htouch, Nat.eqb_refl. unfold getUsageStats. cbn [storeSnapshot entries cacheKeyVersion].
  rewrite bool_decide_eq_true_2 by done. cbv zeta. cbn [entries cacheKeyVersion]. rewrite obj_get_set_eq. cbn [ce_at ce_stats].
  replace (Qle_bool ttl (i_ms now' - i_ms now)) with false
    by (symmetry; apply not_true_iff_false; rewrite Qle_bool_iff; by apply Qlt_not_le).
  rewrite Hlast. assert (Hl : lastEvent stats = lastEventAt d).
  { unfold computeUsageStats in Hs. destruct (runs_in_range parse_date d range); [|done]. by injection Hs as <-. }
  by rewrite Hl, bool_decide_eq_true_2.
Qed.
End cache_facts.

(** ** A run that ends *)

Definition demo_run (state : string) : RunFacts :=
  mkFacts "r-1" "a/b@1" "1" "cli" "process" state "ok" None None None None None "t1" "t1" None.
Definition demo_db (state : string) : db := with_runs [demo_run state] (with_usage [mkSample "r-1" "openai" "gpt" 3 4 0 0 None None "t2"] empty_db).
Definition whole : StatsRange := mkRange None None None.
Definition at_ms (q : Q) : instant := mkInstant q "now" "t0".
Definition demo_stats (state : string) (q : Q) : result UsageStats :=
  @computeUsageStats ClaudeUsage.demo_text (fun _ => None) (at_ms q) (demo_db state) whole.

Lemma stats_conserve_witness :
  exists s, demo_stats "running" 0 = Ok s /\ (rc_running (runs s) + rc_stopped (runs s) + rc_failed (runs s) = 1)%nat.
Proof.
  destruct (demo_stats "running" 0) as [s|e] eqn:E; [|discriminate E].
  destruct (@stats_conserve ClaudeUsage.demo_text (fun _ => None) (at_ms 0) (demo_db "running") whole s E) as (Hsum & _).
  exists s. split; [done|]. rewrite Hsum. injection E as <-. reflexivity.
Defined.

Lemma cached_stats_current_witness :
  exists s now' range', same_range range' whole /\ (now' = at_ms 0 \/ i_ms (at_ms 0) - i_ms now' < 5000) /\
    @computeUsageStats ClaudeUsage.demo_text (fun _ => None) now' (demo_db "running") range' = Ok s.
Proof.
  destruct (demo_stats "running" 0) as [s|e] eqn:E; [|discriminate E]. exists s.
  apply (@cached_stats_current ClaudeUsage.demo_text (fun _ => None) 1 (demo_db "running") (mkCache [] None 0)); [constructor|done|].
  rewrite <- E. reflexivity.
Defined.

(** The answer still counts the run as running; a computation counts it as ended. *)
Lemma run_update_served_stale_witness :
  exists s s', demo_stats "running" 0 = Ok s /\ rc_running (runs s) = 1%nat /\
    demo_stats "exited" 1000 = Ok s' /\ rc_running (runs s') = 0%nat /\
    let '(c1, _) := @getUsageStats ClaudeUsage.demo_text (fun _ => None) (at_ms 0) 1 (demo_db "running") whole 5000 (mkCache [] (Some 1%nat) 0) in
    let '(d2, c2) := hooked (so_syncRun (demo_run "exited")) (demo_db "running", c1) in
    (@getUsageStats ClaudeUsage.demo_text (fun _ => None) (at_ms 1000) 1 d2 whole 5000 c2).2 = Ok s.
Proof.
  destruct (demo_stats "running" 0) as [s|e] eqn:E; [|discriminate E].
  destruct (demo_stats "exited" 1000) as [s'|e] eqn:E'; [|discriminate E'].
  exists s, s'. split_and!; [done|injection E as <-; reflexivity|done|injection E' as <-; reflexivity|].
  exact (@run_update_served_stale ClaudeUsage.demo_text (fun _ => None) 1 (demo_db "running") (mkCache [] (Some 1%nat) 0) (at_ms 0)
    (at_ms 1000) whole 5000 (demo_run "exited") s eq_refl eq_refl E eq_refl eq_refl ltac:(reflexivity)).
Defined.
End Observability.
