(* ===== verification/LocalApi.v ===== *)
(** The local HTTP API of the dashboard: the guard [web/src/middleware.ts], the
    routes below [web/src/app/api/local/v1], and the routes that pass requests on to
    the registry with the user's cookies, [web/src/lib/account-bff.ts] and
    [web/src/app/api].  The framework that dispatches requests and parses them is a
    parameter: a request comes with its method, its path, its headers by lower-case
    name and its parsed body. *)
From S2P Require Import Prelude NodePath UsageStore UsageSources ClaudeUsage LiveLimits Collect Observability.

Module LocalApi.
Import UsageStore UsageSources.
Local Open Scope Q_scope.

(** ** The guard *)

Record request := mkReq { rq_method : string; rq_path : string; rq_headers : obj string }.
Inductive verdict := v_next | v_refuse (status : Z) (error : string).

#[export] Instance verdict_eq_dec : EqDecision verdict.
Proof. solve_decision. Defined.

(** [s.indexOf(c)] and [s.lastIndexOf(c)], [None] for -1. *)
Fixpoint index_of (c : ascii) (s : string) : option nat :=
  match s with
  | EmptyString => None
  | String x rest => if Ascii.eqb c x then Some 0%nat else S <$> index_of c rest
  end.
Fixpoint last_index_of (c : ascii) (s : string) : option nat :=
  match s with
  | EmptyString => None
  | String x rest => match last_index_of c rest with
                     | Some n => Some (S n)
                     | None => if Ascii.eqb c x then Some 0%nat else None
                     end
  end.

(** @src web/src/middleware.ts SAFE_HOSTNAMES *)
Definition SAFE_HOSTNAMES : list string := ["localhost"; "127.0.0.1"; "::1"].

(** @src web/src/middleware.ts PUBLIC_PATHS *)
Definition PUBLIC_PATHS : list string := ["/api/local/v1/health"; "/api/local/v1/version"].

(** @src web/src/middleware.ts hostnameOf *)
Definition hostnameOf (authority : string) : string :=
  let host := js_trim authority in
  if js_startsWith host "[" then
    match index_of "]" host with
    | None => js_drop 1 host
    | Some e => js_drop 1 (js_take e host)
    end
  else match last_index_of ":" host with
       | None => host
       | Some colon => js_take colon host
       end.

(** The paths the framework runs the guard for: the pattern "/api/local/:path*".
    @src web/src/middleware.ts config *)
Definition matched (path : string) : bool := String.eqb path "/api/local" || js_startsWith path "/api/local/".

Definition header (k : string) (r : request) : option string := obj_get k (rq_headers r).

(** [TOKEN] is the environment's; [url_host] is [new URL(origin).host], [None] when
    the constructor throws.
    @src web/src/middleware.ts middleware *)
Definition middleware (TOKEN : string) (url_host : string -> option string) (r : request) : verdict :=
  let host := nullish (header "host" r) "" in
  if negb (mem_str (hostnameOf host) SAFE_HOSTNAMES) then v_refuse 403 "forbidden: unsafe host"
  else if mem_str (rq_path r) PUBLIC_PATHS then v_next
  else if negb (String.eqb TOKEN "") && negb (bool_decide (header "authorization" r = Some ("Bearer " +:+ TOKEN)))
  then v_refuse 401 "unauthorized"
  else if negb (String.eqb (rq_method r) "GET") && negb (String.eqb (rq_method r) "HEAD") then
    match header "origin" r with
    | None => v_next
    | Some origin =>
        match url_host origin with
        | None => v_refuse 403 "forbidden: bad origin"
        | Some originHost =>
            if negb (String.eqb (hostnameOf originHost) (hostnameOf host)) then v_refuse 403 "forbidden: origin mismatch"
            else v_next
        end
    end
  else v_next.

(** A request as it reaches its route: the guard runs for the matched paths only. *)
Definition admitted (TOKEN : string) (url_host : string -> option string) (r : request) : verdict :=
  if matched (rq_path r) then middleware TOKEN url_host r else v_next.

(** ** The routes *)

(** The values of a JSON body; a value that is no object has no fields, and [null]
    makes reading a field throw. *)
Definition body_fields (body : option json) : result (obj json) :=
  match body with
  | None => throw EError "Unexpected end of JSON input"
  | Some jnull => throw EType "Cannot read properties of null"
  | Some (jobj o) => Ok o
  | Some _ => Ok []
  end.

Section values.
Context `{JsText}.

(** [String(v)] and [Number(v)]. *)
Fixpoint js_String (v : json) : string :=
  match v with
  | jnull => "null"
  | jbool b => if b then "true" else "false"
  | jnum q => number_text q
  | jstr s => s
  | jarr l => js_join "," (map (fun x => match x with jnull => "" | _ => js_String x end) l)
  | jobj _ => "[object Object]"
  end.
Definition js_Number (v : json) : option Q :=
  match v with
  | jnull => Some 0
  | jbool b => Some (if b then 1 else 0)
  | jnum q => Some q
  | jstr s => to_number s
  | jarr _ => to_number (js_String v)
  | jobj _ => None
  end.
Definition is_integer (q : Q) : bool := Qeq_bool q (inject_Z (Qfloor q)).

(** What the routes answer. *)
Inductive body :=
| bd_error (msg : string)
| bd_settings (o : obj string)
| bd_limits (l : list LimitRow)
| bd_removed (p : UsageProvider) (usage limits : nat)
| bd_status (s : Collect.IntegrationStatus)
| bd_integrations (l : list (Collect.IntegrationStatus * (string * string) * option ProviderStatus)) (usage : list Collect.ProviderUsageOverview)
    (limits : list LimitRow)
| bd_stats (s : Observability.UsageStats)
| bd_stopping
| bd_health (protocol : Z)
| bd_version (version : string) (protocol : Z).
Record response := mkResp { rp_status : Z; rp_body : body }.
Definition ok (b : body) : response := mkResp 200 b.
Definition bad (msg : string) : response := mkResp 400 (bd_error msg).

(** *** Settings *)

(** @src runtime/src/usage.ts USAGE_RETENTION_KEYS *)
Definition USAGE_RETENTION_KEYS : list string := ["retention.days"; "retention.max_runs"].

(** @src web/src/app/api/local/v1/settings/route.ts GET *)
Definition settings_get (d : db) : response :=
  ok (bd_settings (omap (fun k => (fun v => (k, v)) <$> getSetting d k) USAGE_RETENTION_KEYS)).

(** @src web/src/app/api/local/v1/settings/route.ts 22-30 PUT *)
Fixpoint settings_loop (keys : list string) (fields : obj json) (d : db) : db * option response :=
  match keys with
  | [] => (d, None)
  | k :: rest =>
      match obj_get k fields with
      | None => settings_loop rest fields d
      | Some raw =>
          match js_Number raw with
          | Some n => if is_integer n && Qle_bool 0 n then settings_loop rest fields (setSetting k (number_text n) d)
                      else (d, Some (bad (k +:+ " must be a non-negative integer")))
          | None => (d, Some (bad (k +:+ " must be a non-negative integer")))
          end
      end
  end.

(** @src web/src/app/api/local/v1/settings/route.ts PUT *)
Definition settings_put (body : option json) (d : db) : db * result response :=
  match body_fields body with
  | Throw e => (d, Throw e)
  | Ok fields =>
      let '(d, refusal) := settings_loop USAGE_RETENTION_KEYS fields d in
      (d, Ok (nullish refusal (settings_get d)))
  end.

(** *** Limits *)

Definition provider_of_name (s : string) : option UsageProvider := List.find (fun p => String.eqb (uprovider_name p) s) PROVIDERS.

Definition field_provider (fields : obj json) : option UsageProvider :=
  s ← str_field "provider" fields; provider_of_name s.

Context (parse_date : string -> option Q).

(** [new Date(v)] as a time value. *)
Definition new_date (v : json) : option Q :=
  match v with jnum q => Some q | jnull => Some 0 | jbool b => Some (if b then 1 else 0) | _ => parse_date (js_String v) end.

(** The text a TEXT column gets for a bound value; objects, arrays and booleans
    cannot be bound. *)
Context (sql_text : Q -> string).
Definition bind_text (v : json) : result (option string) :=
  match v with
  | jnull => Ok None
  | jstr s => Ok (Some s)
  | jnum q => Ok (Some (sql_text q))
  | _ => throw EType "Provided value cannot be bound to SQLite parameter"
  end.
Definition truthy_json (v : option json) : bool :=
  match v with
  | None | Some jnull => false
  | Some (jbool b) => b
  | Some (jstr s) => negb (String.eqb s "")
  | Some (jnum q) => negb (Qeq_bool q 0)
  | _ => true
  end.

(** One of the three numbers: it must be a non-negative number when present. *)
Definition amount (k : string) (fields : obj json) : option Q + response :=
  match obj_get k fields with
  | None => inl None
  | Some (jnum q) => if Qle_bool 0 q then inl (Some q) else inr (bad (k +:+ " must be a non-negative number"))
  | Some _ => inr (bad (k +:+ " must be a non-negative number"))
  end.

Definition reset_invalid (fields : obj json) : bool :=
  match obj_get "resetAt" fields with Some v => bool_decide (parse_date (js_String v) = None) | None => false end.
Definition reset_date (fields : obj json) : result (option string) :=
  match obj_get "resetAt" fields with
  | None => Ok None
  | Some v => match new_date v with
              | Some ms => t ← date_iso ms; mret (Some t)
              | None => throw ERange "Invalid time value"
              end
  end.

Definition bound_window (fields : obj json) : result (option string) :=
  bind_text (match obj_get "window" fields with None | Some jnull => jstr "manual" | Some v => v end).
Definition bound_units (fields : obj json) : result (option string) :=
  if truthy_json (obj_get "units" fields) then bind_text (nullish (obj_get "units" fields) jnull) else Ok None.

(** The checks in their order; [inr] is a refusal.
    @src web/src/app/api/local/v1/limits/route.ts 16-51 PUT *)
Definition limit_of_body (fields : obj json) : result (LimitObservation + response) :=
  match field_provider fields with
  | None => Ok (inr (bad "unsupported provider"))
  | Some p =>
      if reset_invalid fields then Ok (inr (bad "resetAt must be ISO 8601"))
      else
        reset ← reset_date fields;
        match amount "usedPercent" fields, amount "creditsUsed" fields, amount "creditsTotal" fields with
        | inr r, _, _ => Ok (inr r)
        | _, inr r, _ => Ok (inr r)
        | _, _, inr r => Ok (inr r)
        | inl percent, inl used, inl total =>
            window ← bound_window fields;
            units ← bound_units fields;
            mret (inl (mkLimitObs p (nullish window "manual") (js_String <$> obj_get "plan" fields) percent units used total reset ls_manual))
        end
  end.

(** @src web/src/app/api/local/v1/limits/route.ts PUT *)
Definition limits_put (now : string) (body : option json) (d : db) : db * result response :=
  match (fields ← body_fields body; r ← limit_of_body fields; mret r) with
  | Throw e => (d, Throw e)
  | Ok (inr r) => (d, Ok r)
  | Ok (inl l) =>
      let d := Collect.setManualLimit now l d in
      (d, Ok (ok (bd_limits (listLimits d (Some (lo_provider l))))))
  end.

(** *** Integrations *)
Context (ck : clock) (src : Collect.sources).

(** @src web/src/app/api/local/v1/integrations/route.ts GET *)
Definition integrations_get (now : string) (over_budget : bool) (d : db) : db * response :=
  let m := Collect.src_machine src in
  let '(d, res) := Collect.collectProvidersSync ck src now over_budget (Collect.mkOptions None None) d in
  let collected p := r_status <$> List.find (fun r => bool_decide (r_provider r = p)) (Collect.cr_providers res) in
  (d, ok (bd_integrations
        (map (fun s => (s, providerSource m (Collect.is_provider s), collected (Collect.is_provider s))) (Collect.allIntegrationStatus m d))
        (Collect.providerUsageOverview m d) (listLimits d None))).

(** A consent that is sent is set by its truth value. *)
Definition set_sent_consent (p : UsageProvider) (k : ConsentKind) (v : option json) (d : db) : db :=
  match v with Some _ => Collect.setConsent p k (truthy_json v) d | None => d end.

(** @src web/src/app/api/local/v1/integrations/route.ts POST *)
Definition integrations_post (now : string) (over_budget : bool) (body : option json) (d : db) : db * result response :=
  match body_fields body with
  | Throw e => (d, Throw e)
  | Ok fields =>
      match field_provider fields with
      | None => (d, Ok (bad "unsupported provider"))
      | Some p =>
          let action := str_field "action" fields in
          if bool_decide (action = Some "disable") then
            let '(d, (usage, limits)) := Collect.revokeProvider p d in
            (Collect.setEnabled p false d, Ok (ok (bd_removed p usage limits)))
          else
            let d := if bool_decide (action = Some "enable")
              then set_sent_consent p ck_live (obj_get "live" fields)
                     (set_sent_consent p ck_credentials (obj_get "credentials" fields) (Collect.setEnabled p true d))
              else d in
            let d := if truthy_json (obj_get "collect" fields)
              then (Collect.collectProvidersSync ck src now over_budget (Collect.mkOptions (Some [p]) None) d).1 else d in
            (d, Ok (ok (bd_status (Collect.integrationStatus (Collect.src_machine src) d p))))
      end
  end.

(** *** The rest *)

(** Every request opens the database anew: [store] is a number no earlier request
    had.
    @src web/src/app/api/local/v1/stats/route.ts GET *)
Definition stats_get (now : Observability.instant) (store : nat) (from to agent : option string) (d : db)
    (c : Observability.cache_state) : Observability.cache_state * result response :=
  let '(c, r) := Observability.getUsageStats parse_date now store d (Observability.mkRange from to agent)
                   Observability.USAGE_CACHE_TTL_MS c in
  (c, s ← r; mret (ok (bd_stats s))).

(** The signal to the process itself is sent after the answer.
    @src web/src/app/api/local/v1/stop/route.ts POST *)
Definition stop_post : response := ok bd_stopping.

(** @src web/src/app/api/local/v1/health/route.ts GET *)
Definition health_get (protocol : Z) : response := ok (bd_health protocol).

(** @src web/src/app/api/local/v1/version/route.ts GET *)
Definition version_get (product_version : option string) (protocol : Z) : response :=
  ok (bd_version (nullish product_version "unknown") protocol).
End values.

(** ** Requests passed on to the registry *)

Record outgoing := mkOut { og_url : string; og_method : string; og_headers : obj string; og_body : option string }.

(** @src web/src/lib/account-bff.ts registryFetch *)
Definition registryFetch (REGISTRY_URL path method : string) (body : option string) (cookies : option string) : outgoing :=
  mkOut (REGISTRY_URL +:+ path) method
    (("content-type", "application/json") :: (if truthy cookies then [("cookie", nullish cookies "")] else [])) body.

(** @src web/src/lib/account-bff.ts cookieHeader *)
Definition cookieHeader (r : request) : option string := header "cookie" r.

Section bff.
Context (REGISTRY_URL : string) (encode : string -> string).

(** @src web/src/app/api/account/sessions/route.ts DELETE *)
Definition sessions_delete (sessionId : option string) (r : request) : outgoing + Z :=
  if truthy sessionId
  then inl (registryFetch REGISTRY_URL ("/api/v1/sessions/" +:+ nullish sessionId "") "DELETE" None (cookieHeader r))
  else inr 400%Z.

(** @src web/src/app/api/account/sessions/route.ts GET *)
Definition sessions_get (r : request) : outgoing := registryFetch REGISTRY_URL "/api/v1/sessions" "GET" None (cookieHeader r).

(** @src web/src/app/api/account/security-events/route.ts GET *)
Definition security_events_get (limit : option string) (r : request) : outgoing :=
  registryFetch REGISTRY_URL ("/api/v1/me/security-events?limit=" +:+ nullish limit "50") "GET" None (cookieHeader r).

(** @src web/src/app/api/account/logout/route.ts POST *)
Definition logout_post (r : request) : outgoing := registryFetch REGISTRY_URL "/api/v1/logout" "POST" None (cookieHeader r).

(** @src web/src/app/api/account/profile/route.ts GET *)
Definition profile_get (r : request) : outgoing := registryFetch REGISTRY_URL "/api/v1/me/profile" "GET" None (cookieHeader r).

(** @src web/src/app/api/account/agreements/route.ts POST *)
Definition agreements_post (body : string) (r : request) : outgoing :=
  registryFetch REGISTRY_URL "/api/v1/me/agreements" "POST" (Some body) (cookieHeader r).

(** @src web/src/app/api/account/delete/route.ts POST *)
Definition account_delete_post (body : string) (r : request) : outgoing :=
  registryFetch REGISTRY_URL "/api/v1/me/delete" "POST" (Some body) (cookieHeader r).

(** [userCode] is the one of the body, or of the query.
    @src web/src/app/api/device/approve/route.ts POST *)
Definition approve_post (userCode : option string) (r : request) : outgoing + Z :=
  if truthy userCode
  then inl (registryFetch REGISTRY_URL ("/api/v1/auth/approve?user_code=" +:+ encode (nullish userCode "")) "POST" None (cookieHeader r))
  else inr 400%Z.

(** @src web/src/app/api/registry/[...path]/route.ts target *)
Definition target (path : list string) (search : string) : string := "/api/v1/" +:+ js_join "/" path +:+ search.

(** @src web/src/app/api/registry/[...path]/route.ts GET *)
Definition proxy (path : list string) (search method : string) (body : option string) (r : request) : outgoing :=
  registryFetch REGISTRY_URL (target path search) method body (cookieHeader r).
End bff.

(** ** Properties *)

(** *** The guard *)

(** An authority, without the blanks around it, and the host it names: a bracketed
    name, whatever comes after the bracket, which may be missing; or a name alone; or
    one with a port after its last colon. *)
Inductive names : string -> string -> Prop :=
| nm_bracketed name rest : js_has_char "]" name = false -> names ("[" +:+ name +:+ "]" +:+ rest) name
| nm_unclosed name : js_has_char "]" name = false -> names ("[" +:+ name) name
| nm_alone name : js_startsWith name "[" = false -> js_has_char ":" name = false -> names name name
| nm_port name port : js_startsWith (name +:+ ":" +:+ port) "[" = false -> js_has_char ":" port = false -> names (name +:+ ":" +:+ port) name.

Lemma last_index_of_app c a b : js_has_char c b = false -> last_index_of c (a +:+ String c b) = Some (String.length a).
Proof.
  intros Hb. induction a as [|x a IH]; cbn; [|by rewrite IH].
  assert (Hn : last_index_of c b = None).
  { clear -Hb. induction b as [|x b IH]; [done|]. cbn in *. apply orb_false_elim in Hb as [Hx Hb]. rewrite IH by done.
    apply Ascii.eqb_neq in Hx. destruct (Ascii.eqb_spec c x); [congruence|done]. }
  by rewrite Hn, Ascii.eqb_refl.
Qed.

Lemma index_of_app c a b : js_has_char c a = false -> index_of c (a +:+ String c b) = Some (String.length a).
Proof.
  induction a as [|x a IH]; cbn; [by rewrite Ascii.eqb_refl|]. intros [Hx Ha]%orb_false_elim. by rewrite Hx, IH.
Qed.

Lemma index_of_none c s : js_has_char c s = false -> index_of c s = None /\ last_index_of c s = None.
Proof. induction s as [|x s IH]; [done|]. cbn. intros [-> Hs]%orb_false_elim. by destruct (IH Hs) as [-> ->]. Qed.

(** The first and the last occurrence of a character. *)
Lemma first_char c s : js_has_char c s = true -> exists a b, s = a +:+ String c b /\ js_has_char c a = false.
Proof.
  induction s as [|x s IH]; [done|]. cbn. destruct (Ascii.eqb_spec c x) as [<-|Hne]; cbn; intros Hs; [by exists "", s|].
  destruct (IH Hs) as (a & b & -> & Ha). exists (String x a), b. split; [done|]. cbn. rewrite Ha. by apply Ascii.eqb_neq in Hne as ->.
Qed.
Lemma last_char c s : js_has_char c s = true -> exists a b, s = a +:+ String c b /\ js_has_char c b = false.
Proof.
  induction s as [|x s IH]; [done|]. cbn. destruct (js_has_char c s) eqn:Hs.
  - intros _. destruct (IH eq_refl) as (a & b & -> & Hb). by exists (String x a), b.
  - rewrite orb_false_r. intros <-%Ascii.eqb_eq. by exists "", s.
Qed.

(** [hostnameOf] is the host an authority names. *)
Lemma hostnameOf_names a n : hostnameOf a = n <-> names (js_trim a) n.
Proof.
  assert (Hb0 : forall s, js_startsWith (String "[" s) "[" = true) by (intros s; apply (startsWith_app "[" s)).
  unfold hostnameOf. set (t := js_trim a). split.
  - intros <-. destruct (js_startsWith t "[") eqn:Hb.
    + apply startsWith_spec in Hb as [t' ->]. change ("[" +:+ t') with (String "[" t').
      destruct (js_has_char "]" t') eqn:Hc.
      * apply first_char in Hc as (x & y & -> & Hx). change (index_of "]" (String "[" (x +:+ String "]" y))) with (S <$> index_of "]" (x +:+ String "]" y)).
        rewrite index_of_app by done. cbn [fmap option_fmap option_map js_take js_drop].
        rewrite take_app_length. by apply (nm_bracketed x y).
      * change (index_of "]" (String "[" t')) with (S <$> index_of "]" t'). rewrite (proj1 (index_of_none _ _ Hc)). by apply (nm_unclosed t').
    + destruct (js_has_char ":" t) eqn:Hc.
      * apply last_char in Hc as (x & y & Ht & Hy). rewrite Ht in *. rewrite last_index_of_app by done. rewrite take_app_length. by apply (nm_port x y).
      * rewrite (proj2 (index_of_none _ _ Hc)). by apply nm_alone.
  - intros Hn. destruct Hn as [n rest Hn|n Hn|n Hb Hn|n port Hb Hn].
    + change ("[" +:+ n +:+ "]" +:+ rest) with (String "[" (n +:+ String "]" rest)).
      rewrite Hb0.
      change (index_of "]" (String "[" (n +:+ String "]" rest))) with (S <$> index_of "]" (n +:+ String "]" rest)).
      rewrite index_of_app by done. cbn [fmap option_fmap option_map js_take js_drop]. by rewrite take_app_length.
    + change ("[" +:+ n) with (String "[" n). rewrite Hb0.
      change (index_of "]" (String "[" n)) with (S <$> index_of "]" n). by rewrite (proj1 (index_of_none _ _ Hn)).
    + by rewrite Hb, (proj2 (index_of_none _ _ Hn)).
    + rewrite Hb. change (":" +:+ port) with (String ":" port). rewrite last_index_of_app by done. apply take_app_length.
Qed.

Definition reads_only (r : request) : bool := String.eqb (rq_method r) "GET" || String.eqb (rq_method r) "HEAD".

(** C40: With a token set, a request gets to a route of the local API exactly when the
    host it names, taken from its authority by what an authority may look like, is
    the local machine and, for any route but health and version, it carries the
    token, and, unless it only reads, it has no origin or one that parses and names
    the same host. *)
Theorem admitted_iff TOKEN url_host r :
  TOKEN <> "" -> matched (rq_path r) = true ->
  admitted TOKEN url_host r = v_next <->
  exists host, names (js_trim (nullish (header "host" r) "")) host /\
    (host = "localhost" \/ host = "127.0.0.1" \/ host = "::1") /\
    (rq_path r = "/api/local/v1/health" \/ rq_path r = "/api/local/v1/version" \/
     header "authorization" r = Some ("Bearer " +:+ TOKEN) /\
     (reads_only r = true \/
      forall o, header "origin" r = Some o -> exists authority, url_host o = Some authority /\ names (js_trim authority) host)).
Proof.
  intros Htok%String.eqb_neq Hm. unfold admitted. rewrite Hm. unfold middleware. rewrite Htok.
  set (h := hostnameOf (nullish (header "host" r) "")).
  assert (Hname : names (js_trim (nullish (header "host" r) "")) h) by by apply hostnameOf_names.
  assert (Hsafe : mem_str h SAFE_HOSTNAMES = true <-> h = "localhost" \/ h = "127.0.0.1" \/ h = "::1").
  { rewrite mem_str_spec. unfold SAFE_HOSTNAMES. set_solver. }
  assert (Hpub : mem_str (rq_path r) PUBLIC_PATHS = true <-> rq_path r = "/api/local/v1/health" \/ rq_path r = "/api/local/v1/version").
  { rewrite mem_str_spec. unfold PUBLIC_PATHS. set_solver. }
  transitivity (mem_str h SAFE_HOSTNAMES = true /\ (mem_str (rq_path r) PUBLIC_PATHS = true \/
     header "authorization" r = Some ("Bearer " +:+ TOKEN) /\
     (reads_only r = true \/ forall o, header "origin" r = Some o -> exists a, url_host o = Some a /\ hostnameOf a = h))).
  2:{ rewrite Hsafe, Hpub. split.
      - intros (Hs & Hr). exists h. split_and!; [done|done|]. destruct Hr as [[?|?]|(? & [?|Ho])]; [tauto..|].
        right. right. split; [done|]. right. intros o Hor. destruct (Ho o Hor) as (a & Ha & Hh%hostnameOf_names). by exists a.
      - intros (h' & Hn & Hs & Hr). apply hostnameOf_names in Hn. fold h in Hn. subst h'. split; [done|].
        destruct Hr as [?|[?|(? & [?|Ho])]]; [tauto..|]. right. split; [done|]. right. intros o Hor.
        destruct (Ho o Hor) as (a & Ha & Hh%hostnameOf_names). by exists a. }
  clearbody h. destruct (mem_str h SAFE_HOSTNAMES); cbn [negb]; [|split; [done|by intros [? _]]].
  destruct (mem_str (rq_path r) PUBLIC_PATHS); [split; [|done]; intros _; split; [done|by left]|].
  case_bool_decide as Ha; cbn [negb andb]; [|split; [done|by intros (_ & [?|[? _]])]].
  unfold reads_only. rewrite <- negb_orb. destruct (_ || _); cbn [negb]; [split; [|done]; intros _; split; [done|]; right; auto|].
  destruct (header "origin" r) as [o|]; [|split; [|done]; intros _; split; [done|]; right; split; [done|]; by right].
  destruct (url_host o) as [a|] eqn:Ea; [destruct (String.eqb_spec (hostnameOf a) h) as [He|He]; cbn [negb]|]; (split; [|try done]).
  - intros _. split; [done|]. right. split; [done|]. right. intros o' [= <-]. by exists a.
  - done.
  - intros (_ & [?|(_ & [?|Ho])]); [done..|]. destruct (Ho o eq_refl) as (a' & Ea' & ?). congruence.
  - done.
  - intros (_ & [?|(_ & [?|Ho])]); [done..|]. destruct (Ho o eq_refl) as (a' & Ea' & ?). congruence.
Qed.

Definition settings_change : request :=
  mkReq "PUT" "/api/local/v1/settings"
    [("host", "localhost:4900"); ("authorization", "Bearer secret"); ("origin", "http://localhost:3000")].
Definition example_host (o : string) : option string := if String.eqb o "http://localhost:3000" then Some "localhost:3000" else None.

Lemma admitted_iff_witness :
  admitted "secret" example_host settings_change = v_next /\
  admitted "secret" example_host (mkReq "PUT" "/api/local/v1/settings" [("host", "localhost:4900")]) <> v_next /\
  admitted "secret" example_host (mkReq "GET" "/api/local/v1/settings" [("host", "evil.com:4900"); ("authorization", "Bearer secret")]) <> v_next.
Proof.
  split; [|split].
  - apply (proj2 (admitted_iff "secret" example_host settings_change ltac:(done) eq_refl)).
    exists "localhost". split; [by apply (nm_port "localhost" "4900")|]. split; [by left|]. right. right.
    split; [reflexivity|]. right. intros o [= <-]. exists "localhost:3000". split; [reflexivity|by apply (nm_port "localhost" "3000")].
  - intros Ha. apply (proj1 (admitted_iff "secret" example_host (mkReq "PUT" "/api/local/v1/settings" [("host", "localhost:4900")])
      ltac:(done) eq_refl)) in Ha as (host & _ & _ & [Hp|[Hp|[Ht _]]]); discriminate.
  - intros Ha. apply (proj1 (admitted_iff "secret" example_host
      (mkReq "GET" "/api/local/v1/settings" [("host", "evil.com:4900"); ("authorization", "Bearer secret")]) ltac:(done) eq_refl)) in Ha
      as (host & Hn & Hs & _). apply hostnameOf_names in Hn. vm_compute in Hn. subst host. by destruct Hs as [|[|]].
Defined.

(** The host name of [name:port] is [name], so that a request for any other name,
    as a rebound DNS name makes a browser send, is refused whatever else it
    carries. *)
Theorem rebound_host_refused TOKEN url_host r name port :
  matched (rq_path r) = true -> header "host" r = Some (name +:+ ":" +:+ port) ->
  js_trim (name +:+ ":" +:+ port) = name +:+ ":" +:+ port -> js_startsWith (name +:+ ":" +:+ port) "[" = false ->
  js_has_char ":" port = false -> name ∉ SAFE_HOSTNAMES ->
  admitted TOKEN url_host r = v_refuse 403 "forbidden: unsafe host".
Proof.
  intros Hm Hh Ht Hb Hp Hn. unfold admitted, middleware. rewrite Hm, Hh. cbn [nullish default from_option id].
  assert (Hname : hostnameOf (name +:+ ":" +:+ port) = name).
  { unfold hostnameOf. rewrite Ht, Hb. cbn [String.append]. rewrite last_index_of_app by done. apply take_app_length. }
  change (nullish (Some (name +:+ ":" +:+ port)) "") with (name +:+ ":" +:+ port). rewrite Hname.
  destruct (mem_str name SAFE_HOSTNAMES) eqn:E; [|done]. by apply mem_str_spec in E.
Qed.

(** The route [/api/system] gives the same report of the machine as the guarded
    [/api/local/v1/snapshot], and the guard does not run for it: no host, no token,
    no origin is checked. *)
Theorem system_route_unguarded TOKEN url_host method headers :
  admitted TOKEN url_host (mkReq method "/api/system" headers) = v_next.
Proof. done. Qed.

(** *** Settings *)

Section route_facts.
Context `{JsText} (parse_date : string -> option Q) (sql_text : Q -> string).

(** A value a retention key may get. *)
Definition retention_value (v : string) : Prop := exists n, v = number_text n /\ is_integer n = true /\ Qle_bool 0 n = true.

Lemma settings_loop_spec keys fields d k :
  let d' := (settings_loop keys fields d).1 in
  (getSetting d' k = getSetting d k \/ k ∈ keys /\ exists v, getSetting d' k = Some v /\ retention_value v) /\
  t_runs d' = t_runs d /\ t_external d' = t_external d.
Proof.
  revert d. induction keys as [|key rest IH]; intros d; cbn [settings_loop]; [by split; [left|]|].
  assert (Hweak : forall d0, let d' := (settings_loop rest fields d0).1 in
    (getSetting d' k = getSetting d0 k \/ k ∈ key :: rest /\ exists v, getSetting d' k = Some v /\ retention_value v) /\
    t_runs d' = t_runs d0 /\ t_external d' = t_external d0).
  { intros d0. destruct (IH d0) as [[Heq|[Hin Hv]] Hrest]; split; auto. right. split; [by right|done]. }
  destruct (obj_get key fields) as [raw|]; [|apply Hweak]. destruct (js_Number raw) as [n|]; [|by split; [left|]].
  destruct (is_integer n && Qle_bool 0 n) eqn:E; [|by split; [left|]]. apply andb_prop in E as [Hi Hn].
  destruct (Hweak (setSetting key (number_text n) d)) as [Hk (Hr & He)]. split; [|done].
  unfold getSetting in *. cbn [setSetting with_settings t_settings] in Hk. rewrite obj_get_set in Hk.
  destruct (String.eqb_spec key k) as [<-|]; [|done]. right. split; [by left|]. destruct Hk as [Hk|[_ Hv]]; [|done].
  exists (number_text n). split; [done|]. by exists n.
Qed.

(** Changing settings touches only the two retention keys, each of which keeps its
    value or gets the text of a non-negative integer, whatever the body is; the
    recorded usage stays. *)
Theorem settings_put_keys body d k :
  let d' := (settings_put body d).1 in
  (getSetting d' k = getSetting d k \/ k ∈ USAGE_RETENTION_KEYS /\ exists v, getSetting d' k = Some v /\ retention_value v) /\
  t_runs d' = t_runs d /\ t_external d' = t_external d.
Proof.
  unfold settings_put. destruct (body_fields body) as [fields|e]; [|by split; [left|]].
  pose proof (settings_loop_spec USAGE_RETENTION_KEYS fields d k) as Hl. cbv zeta in Hl. by destruct (settings_loop _ _ _) as [d' r].
Qed.

(** A refusal is not without effect: a key that comes before the refused one is
    stored, although the answer is an error. *)
Theorem settings_put_not_atomic n v d :
  is_integer n = true -> Qle_bool 0 n = true -> js_Number v = None ->
  let fields := [("retention.days", jnum n); ("retention.max_runs", v)] in
  settings_put (Some (jobj fields)) d =
    (setSetting "retention.days" (number_text n) d, Ok (bad "retention.max_runs must be a non-negative integer")).
Proof.
  intros Hi Hn Hv fields.  unfold settings_put, fields, USAGE_RETENTION_KEYS. cbn [body_fields settings_loop].
  change (obj_get "retention.days" _) with (Some (jnum n)). change (obj_get "retention.max_runs" _) with (Some v).
  cbn [js_Number]. rewrite Hi, Hn, Hv. reflexivity.
Qed.

(** *** Limits *)

Definition amount_ok (q : option Q) : Prop := forall x, q = Some x -> 0 <= x.

Lemma amount_spec k fields :
  match amount k fields with inl q => amount_ok q | inr r => rp_status r = 400%Z end.
Proof.
  unfold amount. destruct (obj_get k fields) as [[]|]; try done.
  destruct (Qle_bool 0 q) eqn:E; [|done]. intros x [= <-]. by apply Qle_bool_iff.
Qed.

(** A refusal of the body is an error of the request; a limit has the marks of one
    set by hand. *)
Lemma limit_of_body_spec fields :
  match limit_of_body parse_date sql_text fields with
  | Ok (inr r) => rp_status r = 400%Z
  | Ok (inl l) => lo_source l = ls_manual /\ amount_ok (lo_usedPercent l) /\ amount_ok (lo_creditsUsed l) /\ amount_ok (lo_creditsTotal l)
  | Throw _ => True
  end.
Proof.
  unfold limit_of_body. destruct (field_provider fields) as [p|]; [|done]. destruct (reset_invalid _ fields); [done|].
  destruct (reset_date _ fields) as [reset|e]; cbn [mbind result_mbind result_bind]; [|done].
  pose proof (amount_spec "usedPercent" fields) as H1. destruct (amount "usedPercent" fields) as [a1|r1]; [|done].
  pose proof (amount_spec "creditsUsed" fields) as H2. destruct (amount "creditsUsed" fields) as [a2|r2]; [|done].
  pose proof (amount_spec "creditsTotal" fields) as H3. destruct (amount "creditsTotal" fields) as [a3|r3]; [|done].
  destruct (bound_window _ fields) as [w|e]; cbn [mbind result_mbind result_bind]; [|done].
  destruct (bound_units _ fields) as [u|e]; cbn [mbind result_mbind result_bind]; [|done].
  by repeat split.
Qed.

(** Setting a limit by hand either stores one limit, of a known provider, marked as
    set by hand, with non-negative amounts, and answers with the limits of that
    provider, which has it; or it answers with an error and stores nothing. *)
Theorem limits_put_spec now body d :
  let '(d', r) := limits_put parse_date sql_text now body d in
  (exists l, r = Ok (ok (bd_limits (listLimits d' (Some (lo_provider l))))) /\ d' = upsertLimit (Collect.limit_row now l) d /\
     Collect.limit_row now l ∈ listLimits d' (Some (lo_provider l)) /\ lo_source l = ls_manual /\
     amount_ok (lo_usedPercent l) /\ amount_ok (lo_creditsUsed l) /\ amount_ok (lo_creditsTotal l)) \/
  (d' = d /\ ((exists resp, r = Ok resp /\ rp_status resp = 400%Z) \/ exists e, r = Throw e)).
Proof.
  unfold limits_put. destruct (body_fields body) as [fields|e]; cbn [mbind result_mbind result_bind]; [|right; eauto].
  pose proof (limit_of_body_spec fields) as Hb.
  destruct (limit_of_body parse_date sql_text fields) as [[l|resp]|e]; cbn [mbind result_mbind result_bind mret result_mret].
  - left. exists l. split_and!; [done|done| |apply Hb..]. unfold listLimits. apply js_sort_elem.
    apply elem_of_filter_In. split; [|by apply bool_decide_eq_true]. cbn [Collect.setManualLimit upsertLimit with_limits t_limits touch].
    unfold Collect.setManualLimit, upsertLimit. cbn [with_limits t_limits touch].
    pose proof (lookup_upsert limit_key (Collect.limit_row now l) (t_limits d) (limit_key (Collect.limit_row now l))) as Hl.
    rewrite decide_True in Hl by done. by apply lookup_key_elem in Hl as [? _].
  - right. split; [done|]. left. by exists resp.
  - right. eauto.
Qed.

(** *** Statistics *)

(** The cache never helps: each request opens a store of its own, and a cache that
    was filled for another store is emptied, so that every answer is computed
    anew. *)
Theorem stats_always_computed now store from to agent d c :
  Observability.storeSnapshot c <> Some store ->
  (stats_get parse_date now store from to agent d c).2 =
    (s ← Observability.computeUsageStats parse_date now d (Observability.mkRange from to agent); mret (ok (bd_stats s))).
Proof.
  intros Hs. unfold stats_get, Observability.getUsageStats. rewrite bool_decide_eq_false_2 by done. cbv zeta.
  cbn [Observability.entries Observability.cacheKeyVersion obj_get].
  by destruct (Observability.computeUsageStats parse_date now d _).
Qed.

(** *** Integrations *)

(** Disabling an integration through the API leaves nothing of it: no consent, no
    row, no limit; and a later request for the integrations, which collects, brings
    nothing of it back. *)
Theorem disabled_integration_is_empty ck src now over p d d' r now' over' :
  integrations_post ck src now over (Some (jobj [("provider", jstr (uprovider_name p)); ("action", jstr "disable")])) d = (d', r) ->
  Collect.permitted d' p = false /\
  Collect.rows_of p (t_external d') = [] /\ Collect.limits_of p (t_limits d') = [] /\
  Collect.provider_same p d' (integrations_get ck src now' over' d').1.
Proof.
  assert (Hp : field_provider [("provider", jstr (uprovider_name p)); ("action", jstr "disable")] = Some p) by (by destruct p).
  unfold integrations_post. cbn [body_fields]. rewrite Hp. change (str_field "action" _) with (Some "disable").
  rewrite bool_decide_eq_true_2 by done. intros Heq.
  destruct (Collect.revoke_facts p d) as (_ & Hr & Hl & _). destruct (Collect.revokeProvider p d) as [d1 [u l]].
  cbn [fst] in *. injection Heq as <- _.
  assert (Hperm : Collect.permitted (Collect.setEnabled p false d1) p = false).
  { unfold Collect.permitted, Collect.enabled, providerEnabled, getSetting, Collect.setEnabled, setSetting. cbn [with_settings t_settings].
    by rewrite obj_get_set_eq. }
  split_and!; [done|exact Hr|exact Hl|]. unfold integrations_get.
  pose proof (Collect.collection_other ck src now' over' (Collect.mkOptions None None) (Collect.setEnabled p false d1) p Hperm) as Hcol.
  destruct (Collect.collectProvidersSync _ _ _ _ _ _) as [d2 res]. exact Hcol.
Qed.
End route_facts.

(** *** Requests passed on *)

(** The path of a URL after its dot segments are removed, for paths without empty
    segments. *)
Definition url_path (p : string) : string := NodePath.resolve p "".

(** The id of the session to delete goes into the path as it is: with dot segments
    it names any other endpoint of the registry, and the request is sent there with
    the method DELETE and the user's cookies. *)
Theorem session_id_reaches_any_endpoint REGISTRY_URL es r :
  es <> [] -> Forall (fun s => NodePath.good_seg s = true) es ->
  exists out path, sessions_delete REGISTRY_URL (Some ("../" +:+ js_join "/" es)) r = inl out /\
    og_url out = REGISTRY_URL +:+ path /\ og_method out = "DELETE" /\ url_path path = "/api/v1/" +:+ js_join "/" es.
Proof.
  intros Hne Hes. eexists _, _. split_and!; [reflexivity|reflexivity|reflexivity|].
  unfold url_path, NodePath.resolve. change (NodePath.isAbsolute "") with false. cbn [String.eqb].
  change ("/api/v1/sessions/" +:+ nullish (Some ("../" +:+ js_join "/" es)) "") with ("/api/v1/sessions/.." +:+ "/" +:+ js_join "/" es).
  change (String.eqb "" "") with true. cbv iota. rewrite NodePath.segments_app_slash, NodePath.segments_join by done.
  change (NodePath.segments "/api/v1/sessions/..") with [""; "api"; "v1"; "sessions"; ".."].
  unfold NodePath.norm_segs. rewrite fold_left_app. change (fold_left (NodePath.seg_push true) [""; "api"; "v1"; "sessions"; ".."] []) with ["v1"; "api"].
  rewrite NodePath.fold_push_good, rev_app_distr, rev_involutive by done. cbn [rev app].
  rewrite !join_cons by (by destruct es). done.
Qed.

(** Every request that is passed on goes below the registry's address, and carries
    the cookies of the request it comes from or none. *)
Theorem cookies_stay_with_registry REGISTRY_URL path method body r :
  let out := registryFetch REGISTRY_URL path method body (cookieHeader r) in
  js_startsWith (og_url out) REGISTRY_URL = true /\ (forall c, obj_get "cookie" (og_headers out) = Some c -> header "cookie" r = Some c).
Proof.
  split; [apply startsWith_app|]. intros c. cbn. unfold cookieHeader. destruct (header "cookie" r) as [k|]; [|done].
  cbn [truthy]. destruct (String.eqb k ""); [done|]. by intros [= <-].
Qed.
End LocalApi.
