(* ===== verification/History.v ===== *)
(** The history of runs, which is kept twice: as a record file per run
    ([cli/src/lib/supervisor.ts]) and as a row of the usage database
    ([runtime/src/usage.ts]); every write of a record is followed by an update of its
    row, whose failure is swallowed.  Also the commands that read and clean the
    history: [commands/remove.ts], [history/prune.ts] and [history/export.ts]. *)
From S2P Require Import Prelude Fs Logs Supervisor UsageStore UsageSources Observability.

Module History.
Import Fs Logs Supervisor UsageStore UsageSources.
Local Open Scope nat_scope.

(** ** The ids of runs *)

(** [n.toString(36)] of a natural number: at most as many digits as it has bits. *)
Definition digit36 (n : N) : ascii := nth (N.to_nat n) (list_ascii_of_string "0123456789abcdefghijklmnopqrstuvwxyz") "0"%char.
Fixpoint base36_digits (fuel : nat) (n : N) (acc : string) : string :=
  match fuel with
  | 0 => acc
  | S f => let acc := String (digit36 (n mod 36)) acc in if (n <? 36)%N then acc else base36_digits f (n / 36) acc
  end.
Definition base36 (n : N) : string := base36_digits (S (N.size_nat n)) n "".

(** [randomBytes(n).toString("hex")] *)
Definition hex_byte (b : N) : string := String (digit36 (b / 16)) (String (digit36 (b mod 16)) "").
Definition hex (bytes : list N) : string := fold_right (fun b s => hex_byte b +:+ s) "" bytes.

(** @src cli/src/lib/supervisor.ts newRunId *)
Definition newRunId (now : N) (random : list N) : string := "r-" +:+ base36 now +:+ "-" +:+ hex random.

(** ** Rows of records *)

Definition health_name (h : RunHealth) : string :=
  match h with h_unknown => "unknown" | h_ok => "ok" | h_unhealthy => "unhealthy" end.
Definition reason_name (r : ExitReason) : string :=
  match r with
  | r_exit => "exit" | r_signal => "signal" | r_timeout => "timeout" | r_oom => "oom" | r_manual_stop => "manual-stop"
  | r_crashed => "crashed" | r_container_gone => "container-gone" | r_supervisor_gone => "supervisor-gone"
  end.
Definition interface_name (i : run_interface) : string := match i with ri_cli => "cli" | ri_mcp => "mcp" | ri_http => "http" end.
Definition sandbox_name (s : run_sandbox) : string :=
  match s with rs_container => "container" | rs_process => "process" | rs_none => "none" end.

(** @src cli/src/lib/supervisor.ts toRunFacts *)
Definition toRunFacts (r : RunRecord) : RunFacts :=
  mkFacts (runId r) (r_agentKey r) (r_version r) (interface_name (r_interface r)) (sandbox_name (sandbox r))
    (state_name (state r)) (health_name (health r)) (r_exitCode r) (reason_name <$> exitReason r)
    (modelProvider r) (modelName r) (containerId r) (createdAt r) (startedAt r) (endedAt r).

(** The files of the run directory and the database. *)
Record world := mkWorld { files : fs run_file; store : db }.

(** [ok] says whether the database could be opened and the statement succeeded; a
    failure is swallowed.
    @src cli/src/lib/supervisor.ts syncRunToUsage *)
Definition syncRunToUsage (ok : bool) (r : RunRecord) (d : db) : db := if ok then syncRun (toRunFacts r) d else d.

(** @src cli/src/lib/supervisor.ts writeRun *)
Definition writeRun (self : string) (ok : bool) (r : RunRecord) (w : world) : world :=
  mkWorld (Supervisor.writeRun self r (files w)) (syncRunToUsage ok r (store w)).

(** @src cli/src/lib/supervisor.ts removeRun *)
Definition removeRun (ok : bool) (readdir : list string) (id : string) (w : world) : world :=
  mkWorld (Supervisor.removeRun id readdir (files w)) (pruneById ok id (store w)).1.

(** ** Commands *)

(** @src cli/src/commands/remove.ts run *)
Definition remove_command (ok : bool) (readdir : list string) (id : string) (w : world) : world * result unit :=
  match readRun (files w) id with
  | None => (w, throw EError ("run " +:+ id +:+ " not found (see 'openagenthub history')"))
  | Some r =>
      if runIsActive r
      then (w, throw EError ("run " +:+ id +:+ " is " +:+ state_name (state r) +:+ "; stop it first with 'openagenthub stop " +:+ id +:+ "'"))
      else (removeRun ok readdir id w, Ok tt)
  end.

Section prune.
Context `{JsText} (cutoff : Q -> string).

(** [Number(store.getSetting(k) ?? 0)] when it is positive. *)
Definition retention_setting (k : string) (d : db) : option Q :=
  match getSetting d k with
  | Some raw => match to_number raw with Some q => if Qle_bool q 0 then None else Some (Qred q) | None => None end
  | None => None
  end.

(** The two integer flags, else the settings; [None] when there is nothing to go by.
    SQLite refuses an OFFSET that is no integer, and a negative number of a flag is
    no limit.
    @src cli/src/commands/history/prune.ts 18-33 run *)
Definition prune_options (older_than keep_flag : option Z) (d : db) : result (option PruneOptions) :=
  match older_than, keep_flag with
  | None, None =>
      match retention_setting "retention.days" d, retention_setting "retention.max_runs" d with
      | None, None => Ok None
      | days, None => Ok (Some (mkPrune days None))
      | days, Some k => if Pos.eqb (Qden k) 1 then Ok (Some (mkPrune days (Some (Z.to_nat (Qnum k)))))
                        else throw EError "datatype mismatch"
      end
  | _, _ => Ok (Some (mkPrune (inject_Z <$> older_than)
                       (k ← keep_flag; if (k <? 0)%Z then None else Some (Z.to_nat k))))
  end.

(** The ids come from the database; the run of each is removed from both sides.
    [outcomes] are the listing of the directory and the success of the database for
    each removal.
    @src cli/src/commands/history/prune.ts run *)
Definition prune_command (older_than keep_flag : option Z) (outcome : string -> list string * bool) (w : world)
    : world * result nat :=
  match prune_options older_than keep_flag (store w) with
  | Throw e => (w, Throw e)
  | Ok None => (w, Ok 0)
  | Ok (Some opts) =>
      let candidates := pruneCandidates cutoff opts (store w) in
      (fold_left (fun w id => removeRun (outcome id).2 (outcome id).1 id w) candidates w, Ok (length candidates))
  end.
End prune.

(** What [exportData] returns, by its fields. *)
Record Exported := mkExported {
  e_runs : list RunFacts; e_usage : list UsageSample; e_resources : list ResourceSample;
  e_settings : obj string; e_external : list ExternalUsageRow; e_limits : list LimitRow;
}.
Definition exported (d : db) : Exported :=
  let '(runs, usage, resources, settings, external, limits) := exportData d in
  mkExported runs usage resources settings external limits.

Section export.
Context `{JsText} (parse_date : string -> option Q).

(** The bounds are times; the filter is on the text of the start.
    @src cli/src/commands/history/export.ts run *)
Definition export_command (from to : option string) (d : db) : result Exported :=
  let data := exported d in
  if truthy from || truthy to then
    from ← Observability.optional_date parse_date from;
    to ← Observability.optional_date parse_date to;
    let keep r :=
      match from with Some f => negb (js_ltb (f_startedAt r) f) | None => true end
      && match to with Some t => negb (js_ltb t (f_startedAt r)) | None => true end in
    let runs := List.filter keep (e_runs data) in
    let kept := map f_runId runs in
    mret (mkExported runs (List.filter (fun u => mem_str (s_runId u) kept) (e_usage data))
            (List.filter (fun r => mem_str (rs_runId r) kept) (e_resources data))
            (e_settings data) (e_external data) (e_limits data))
  else Ok data.
End export.

(** ** Properties *)

(** *** Ids *)

(** The ids that are used as file names: without a dot, names of different runs and
    of their logs cannot meet. *)
Definition plain_id (id : string) : bool := negb (js_has_char "." id).

Definition is_digit36 (c : ascii) : bool := existsb (Ascii.eqb c) (list_ascii_of_string "0123456789abcdefghijklmnopqrstuvwxyz").
Definition index36 (c : ascii) : N :=
  match List.find (fun n => Ascii.eqb c (digit36 (N.of_nat n))) (seq 0 36) with Some n => N.of_nat n | None => 0 end.

Lemma digit36_spec n : (n < 36)%N -> is_digit36 (digit36 n) = true /\ index36 (digit36 n) = n.
Proof.
  intros Hn. assert (Hall : forallb (fun k => is_digit36 (digit36 (N.of_nat k)) && N.eqb (index36 (digit36 (N.of_nat k))) (N.of_nat k)) (seq 0 36) = true)
    by by vm_compute.
  rewrite forallb_forall in Hall. specialize (Hall (N.to_nat n)). rewrite N2Nat.id in Hall.
  apply andb_prop in Hall as [Hd Hi%N.eqb_eq]; [done|]. apply in_seq. lia.
Qed.

(** The number a text of digits denotes. *)
Fixpoint value36 (s : string) : N :=
  match s with
  | EmptyString => 0
  | String c rest => index36 c * 36 ^ N.of_nat (String.length rest) + value36 rest
  end.

Lemma base36_digits_spec fuel n acc :
  (n < 2 ^ N.of_nat fuel)%N -> fuel <> 0 -> js_all is_digit36 acc = true ->
  js_all is_digit36 (base36_digits fuel n acc) = true /\
  value36 (base36_digits fuel n acc) = (n * 36 ^ N.of_nat (String.length acc) + value36 acc)%N.
Proof.
  revert n acc. induction fuel as [|f IH]; intros n acc Hn Hf Hacc; [done|]. cbn [base36_digits]. cbv zeta.
  assert (Hmod : (n mod 36 < 36)%N) by (apply N.mod_lt; done).
  destruct (digit36_spec _ Hmod) as [Hd Hi].
  assert (Hall : js_all is_digit36 (String (digit36 (n mod 36)) acc) = true) by (cbn [js_all]; by rewrite Hd).
  assert (Hlen : N.of_nat (String.length (String (digit36 (n mod 36)) acc)) = N.succ (N.of_nat (String.length acc)))
    by (cbn [String.length]; lia).
  destruct (N.ltb_spec n 36) as [Hlt|Hge].
  - split; [done|]. cbn [value36]. rewrite Hi, N.mod_small; done.
  - assert (Hf0 : f <> 0) by (intros ->; cbn in Hn; lia).
    assert (Hdiv : (n / 36 < 2 ^ N.of_nat f)%N).
    { apply N.Div0.div_lt_upper_bound. rewrite Nat2N.inj_succ, N.pow_succ_r' in Hn. lia. }
    destruct (IH _ _ Hdiv Hf0 Hall) as [H1 H2]. split; [done|]. rewrite H2, Hlen, N.pow_succ_r'. cbn [value36]. rewrite Hi.
    rewrite (N.div_mod' n 36) at 3. lia.
Qed.

Lemma base36_spec n : js_all is_digit36 (base36 n) = true /\ value36 (base36 n) = n.
Proof.
  unfold base36. destruct (base36_digits_spec (S (N.size_nat n)) n "") as [H1 H2]; [|done|done|].
  - rewrite Nat2N.inj_succ, N.pow_succ_r'. destruct n as [|p]; [done|].
    pose proof (N.size_gt (N.pos p)) as Hs. replace (N.of_nat (N.size_nat (N.pos p))) with (N.size (N.pos p)); [lia|].
    cbn. clear. induction p as [p IH|p IH|]; cbn; lia.
  - split; [done|]. rewrite H2. cbn. lia.
Qed.

Lemma hex_spec bytes : Forall (fun b => b < 256)%N bytes -> js_all is_digit36 (hex bytes) = true.
Proof.
  induction 1 as [|b l Hb _ IH]; [done|]. cbn [hex fold_right]. rewrite all_app. fold (hex l). rewrite IH, andb_true_r.
  unfold hex_byte. cbn [js_all].
  assert (H1 : (b / 16 < 36)%N) by (apply N.Div0.div_lt_upper_bound; lia).
  assert (H2 : (b mod 16 < 36)%N) by (pose proof (N.mod_lt b 16); lia).
  by rewrite (proj1 (digit36_spec _ H1)), (proj1 (digit36_spec _ H2)).
Qed.

Lemma hex_inj a b : Forall (fun b => b < 256)%N a -> Forall (fun b => b < 256)%N b -> hex a = hex b -> a = b.
Proof.
  intros Ha. revert b. induction Ha as [|x a Hx _ IH]; intros b Hb; destruct Hb as [|y b Hy Hb]; [done..|].
  cbn [hex fold_right]. unfold hex_byte. cbn [String.append]. fold (hex a) (hex b). intros [= H1 H2 H3].
  assert (Hdig : forall z, (z < 256)%N -> (z / 16 < 36)%N /\ (z mod 16 < 36)%N).
  { intros z Hz. split; [apply N.Div0.div_lt_upper_bound; lia|]. pose proof (N.mod_lt z 16). lia. }
  destruct (Hdig x Hx) as [Hx1 Hx2], (Hdig y Hy) as [Hy1 Hy2].
  apply (f_equal index36) in H1, H2. rewrite (proj2 (digit36_spec _ Hx1)), (proj2 (digit36_spec _ Hy1)) in H1.
  rewrite (proj2 (digit36_spec _ Hx2)), (proj2 (digit36_spec _ Hy2)) in H2.
  rewrite (N.div_mod' x 16), (N.div_mod' y 16), H1, H2. by rewrite (IH b Hb H3).
Qed.

(** New ids are plain, and two of them are equal only when they were made in the
    same millisecond from the same random bytes. *)
Theorem newRunId_inj t t' a b :
  Forall (fun b => b < 256)%N a -> Forall (fun b => b < 256)%N b ->
  plain_id (newRunId t a) = true /\ (newRunId t a = newRunId t' b -> t = t' /\ a = b).
Proof.
  intros Ha Hb. destruct (base36_spec t) as [Hd Hv], (base36_spec t') as [Hd' Hv'].
  assert (Hno : forall c, is_digit36 c = false -> js_has_char c (base36 t) = false /\ js_has_char c (base36 t') = false /\
    js_has_char c (hex a) = false) by (intros c Hc; split_and!; eapply all_no_char; eauto using hex_spec).
  split.
  - destruct (Hno "."%char eq_refl) as (H1 & _ & H2). unfold plain_id, newRunId. rewrite !has_char_app, H1, H2. done.
  - unfold newRunId. intros Heq%sapp_inj_l. destruct (Hno "-"%char eq_refl) as (H1 & H2 & _).
    change (base36 t +:+ String "-" (hex a) = base36 t' +:+ String "-" (hex b)) in Heq.
    apply split_unique in Heq as [Ht Hh]; [|done..]. split; [by rewrite <- Hv, Ht|by apply hex_inj].
Qed.

Lemma newRunId_inj_witness :
  newRunId 1767225600000 [18; 171; 7]%N = "r-mjuohs00-12ab07" /\
  plain_id (newRunId 1767225600000 [18; 171; 7]%N) = true.
Proof.
  split; [by vm_compute|].
  refine (proj1 (newRunId_inj 1767225600000 0 [18; 171; 7]%N [] _ _)); repeat constructor.
Defined.

(** *** Both sides agree *)

Lemma removed_files (m : fs run_file) l q : fs_run m (map fs_remove l) !! q = if mem_str q l then None else m !! q.
Proof.
  unfold fs_run. revert m. induction l as [|x l IH]; intros m; [done|]. cbn [map fold_left fs_step mem_str existsb].
  fold (mem_str q l). rewrite IH. destruct (mem_str q l); [by rewrite orb_true_r|]. rewrite orb_false_r.
  destruct (String.eqb_spec q x) as [->|]; [apply lookup_delete_eq|by rewrite lookup_delete_ne].
Qed.

Lemma record_not_log id q f :
  plain_id id = true -> plain_id q = true -> js_startsWith f (id +:+ ".log") = true -> runRecordPath q <> f.
Proof.
  intros Hid%negb_true_iff Hq%negb_true_iff [t ->]%startsWith_spec Heq. unfold runRecordPath in Heq. rewrite sapp_assoc in Heq.
  change (q +:+ String "." "json" = id +:+ String "." ("log" +:+ t)) in Heq. by apply split_unique in Heq as [_ ?].
Qed.

Lemma readRun_removeRun id readdir m q :
  plain_id id = true -> plain_id q = true ->
  readRun (Supervisor.removeRun id readdir m) q = if decide (q = id) then None else readRun m q.
Proof.
  intros Hid Hq. unfold readRun, Supervisor.removeRun.
  assert (Hops : fs_remove (runRecordPath id) :: map fs_remove (runLogFilenames id readdir) ++ [fs_remove (id +:+ ".log")] =
    map (fs_remove (A := run_file)) ([runRecordPath id] ++ runLogFilenames id readdir ++ [id +:+ ".log"])) by by rewrite !map_app.
  rewrite Hops, removed_files. destruct (mem_str _ _) eqn:Hin.
  - apply mem_str_spec in Hin. rewrite !elem_of_app, !list_elem_of_singleton in Hin. destruct Hin as [Heq|[Hin|Heq]].
    + by rewrite decide_True by by apply runRecordPath_inj.
    + unfold runLogFilenames in Hin. apply js_sort_elem, elem_of_filter_In in Hin as [_ Hin].
      by destruct (record_not_log id q _ Hid Hq Hin).
    + destruct (record_not_log id q (id +:+ ".log") Hid Hq); [|done]. apply startsWith_spec. exists "". by rewrite sapp_nil_r.
  - rewrite decide_False; [done|]. intros ->. rewrite <- not_true_iff_false, mem_str_spec in Hin. apply Hin. by left.
Qed.

Lemma lookup_kept k gone l :
  lookup_key f_runId k (List.filter (fun r => negb (mem_str (f_runId r) gone)) l) =
  if mem_str k gone then None else lookup_key f_runId k l.
Proof.
  unfold lookup_key. induction l as [|r l IH]; cbn [List.filter List.find]; [by destruct (mem_str k gone)|].
  destruct (mem_str (f_runId r) gone) eqn:Hr; cbn [negb List.find]; rewrite IH; case_bool_decide as Hk; subst; rewrite ?Hr; done.
Qed.

Lemma lookup_pruneById id k d :
  lookup_key f_runId k (t_runs (pruneById true id d).1) = if decide (k = id) then None else lookup_key f_runId k (t_runs d).
Proof.
  unfold pruneById, removeRuns. set (rows := List.filter (fun r => mem_str (f_runId r) [id]) (t_runs d)).
  assert (Hrows : forall r, r ∈ rows <-> r ∈ t_runs d /\ f_runId r = id).
  { intros r. unfold rows. by rewrite elem_of_filter_In, mem_str_spec, list_elem_of_singleton. }
  destruct rows as [|r0 rest].
  - destruct (decide (k = id)) as [->|]; [|done]. cbn [fst]. destruct (lookup_key f_runId id (t_runs d)) as [r|] eqn:Hl; [|done].
    apply lookup_key_elem, Hrows in Hl. by apply elem_of_nil in Hl.
  - cbn [negb fst touch with_runs with_resources with_usage t_runs]. rewrite lookup_kept.
    assert (Hgone : mem_str k (map f_runId (r0 :: rest)) = true <-> k = id).
    { rewrite mem_str_spec, list_elem_of_fmap. split; [intros (r & -> & Hr); by apply Hrows in Hr as [_ ?]|].
      intros ->. exists r0. split; [|by left]. symmetry. apply (Hrows r0). by left. }
    destruct (mem_str k _) eqn:Em; destruct (decide (k = id)) as [Hk|Hk]; try done; [by destruct Hk; apply Hgone|].
    apply Hgone in Hk. congruence.
Qed.

(** The database has a row for exactly the runs that have a record, and it is the
    row of the record. *)
Definition mirrors (w : world) : Prop :=
  forall id, plain_id id = true -> lookup_key f_runId id (t_runs (store w)) = toRunFacts <$> readRun (files w) id.

Lemma mirrors_write self r w : mirrors w -> mirrors (writeRun self true r w).
Proof.
  intros Hm id Hid. unfold writeRun, syncRunToUsage, syncRun. cbn [files store].
  assert (Hruns : t_runs (if has_key f_runId (f_runId (toRunFacts r)) (t_runs (store w))
    then with_runs (upsert f_runId (toRunFacts r) (t_runs (store w))) (store w)
    else touch (with_runs (upsert f_runId (toRunFacts r) (t_runs (store w))) (store w))) = upsert f_runId (toRunFacts r) (t_runs (store w)))
    by by destruct (has_key _ _ _).
  rewrite Hruns, lookup_upsert, readRun_writeRun. change (f_runId (toRunFacts r)) with (runId r).
  destruct (decide (id = runId r)); [done|by apply Hm].
Qed.

Lemma mirrors_remove readdir id w : plain_id id = true -> mirrors w -> mirrors (removeRun true readdir id w).
Proof.
  intros Hid Hm q Hq. unfold removeRun. cbn [files store]. rewrite lookup_pruneById, readRun_removeRun by done.
  destruct (decide (q = id)); [done|by apply Hm].
Qed.

(** What happens to the history: a record is written or removed, or the store is
    used for something that is no run. *)
Inductive hist_op :=
| ho_write (self : string) (r : RunRecord)
| ho_remove (readdir : list string) (id : string)
| ho_store (op : store_op).

Definition hist_apply (w : world) (op : hist_op) : world :=
  match op with
  | ho_write self r => writeRun self true r w
  | ho_remove readdir id => removeRun true readdir id w
  | ho_store op => mkWorld (files w) (apply_op (store w) op)
  end.

Definition touches_runs (op : store_op) : bool :=
  match op with so_syncRun _ | so_prune _ _ _ | so_pruneById _ _ | so_deleteAll _ => true | _ => false end.
Definition hist_ok (op : hist_op) : Prop :=
  match op with ho_write _ _ => True | ho_remove _ id => plain_id id = true | ho_store op => touches_runs op = false end.

Lemma other_ops_keep_runs d op : touches_runs op = false -> t_runs (apply_op d op) = t_runs d.
Proof.
  destruct op; cbn [touches_runs apply_op]; try done; intros _.
  unfold recordExternal. destruct (insert_or_ignore _ _ _) as [l [|]]; done.
Qed.

(** C34: As long as no update of the database fails, the usage database mirrors the
    record files through every history: for each run there is a row exactly when
    there is a record, and the row has the values of the record. *)
Theorem history_mirrors ops w :
  mirrors w -> Forall hist_ok ops -> mirrors (fold_left hist_apply ops w).
Proof.
  intros Hm Hops. revert w Hm. induction Hops as [|op ops Hop _ IH]; intros w Hm; [done|]. cbn. apply IH.
  destruct op as [self r|readdir id|op]; cbn in *; [by apply mirrors_write|by apply mirrors_remove|].
  intros q Hq. cbn [files store]. rewrite other_ops_keep_runs by done. by apply Hm.
Qed.

Definition no_history : world := mkWorld ∅ empty_db.
Definition sample_run : RunRecord := initial_record demo_options "2026-01-01T00:00:00.000Z".

Lemma history_mirrors_witness :
  mirrors (fold_left hist_apply
    [ho_write "41" sample_run; ho_store (so_setting "retention.days" "30"); ho_write "42" (finalize sample_run 0 r_exit "2026-01-02T00:00:00.000Z");
     ho_remove ["r-1.json"; "r-1.log"] "r-1"] no_history).
Proof. apply (history_mirrors _ no_history); [by intros id _|]. repeat constructor. Defined.

(** *** Cleaning up *)

Lemma facts_active_of r : facts_active (toRunFacts r) = runIsActive r.
Proof. unfold facts_active, runIsActive. cbn. by destruct (state r). Qed.

(** Removing a run by hand is refused while it is active, and removes the record,
    its logs and its row otherwise; the other runs keep theirs. *)
Theorem remove_command_spec readdir id w q :
  plain_id id = true -> plain_id q = true -> mirrors w ->
  let '(w', r) := remove_command true readdir id w in
  mirrors w' /\
  match r with
  | Ok _ => readRun (files w') q = if decide (q = id) then None else readRun (files w) q
  | Throw _ => w' = w /\ forall rec, readRun (files w) id = Some rec -> runIsActive rec = true
  end.
Proof.
  intros Hid Hq Hm. unfold remove_command. destruct (readRun (files w) id) as [rec|] eqn:Hr; [|done].
  destruct (runIsActive rec) eqn:Ha; [split; [done|]; split; [done|]; by intros ? [= <-]|].
  split; [by apply mirrors_remove|]. by apply readRun_removeRun.
Qed.

Lemma remove_command_spec_witness :
  let w := hist_apply no_history (ho_write "41" sample_run) in
  (remove_command true [] "r-1" w).1 = w /\ is_ok (remove_command true [] "r-1" w).2 = false.
Proof.
  intros w. pose proof (remove_command_spec [] "r-1" w "r-1" eq_refl eq_refl) as H.
  assert (Hm : mirrors w) by (by apply mirrors_write; intros id _). specialize (H Hm).
  destruct (remove_command true [] "r-1" w) as [w' r] eqn:E. destruct r as [u|e].
  - vm_compute in E. discriminate.
  - destruct H as (_ & -> & _). by split.
Defined.

Section pruning.
Context `{JsText} (cutoff : Q -> string).

Lemma removals_files outcome ids w q :
  Forall (fun id => plain_id id = true) ids -> plain_id q = true ->
  readRun (files (fold_left (fun w id => removeRun (outcome id).2 (outcome id).1 id w) ids w)) q =
  if mem_str q ids then None else readRun (files w) q.
Proof.
  intros Hids Hq. revert w. induction Hids as [|id ids Hid _ IH]; intros w; [done|]. cbn [fold_left]. rewrite IH.
  change (mem_str q (id :: ids)) with (String.eqb q id || mem_str q ids).
  destruct (mem_str q ids); [by rewrite orb_true_r|]. rewrite orb_false_r. unfold removeRun. cbn [files].
  rewrite readRun_removeRun by done. by destruct (String.eqb_spec q id), (decide (q = id)).
Qed.

Lemma removals_mirror outcome ids w :
  Forall (fun id => plain_id id = true) ids -> (forall id, (outcome id).2 = true) -> mirrors w ->
  mirrors (fold_left (fun w id => removeRun (outcome id).2 (outcome id).1 id w) ids w).
Proof.
  intros Hids Hok. revert w. induction Hids as [|id ids Hid _ IH]; intros w Hm; [done|]. cbn [fold_left]. apply IH.
  rewrite Hok. by apply mirrors_remove.
Qed.

(** The rows of the database: one for each run, with a plain id. *)
Definition plain_rows (d : db) : Prop := NoDup (map f_runId (t_runs d)) /\ Forall (fun r => plain_id (f_runId r) = true) (t_runs d).

Lemma prunable_row opts d r : prunable cutoff opts d r -> r ∈ t_runs d /\ facts_active r = false.
Proof. intros [Hr _]. apply elem_of_filter_In in Hr as [? Hr]. split; [done|by apply negb_true_iff]. Qed.

Lemma candidates_plain opts d : plain_rows d -> Forall (fun id => plain_id id = true) (pruneCandidates cutoff opts d).
Proof.
  intros [_ Hp]. apply Forall_forall. intros id (r & [Hr _]%prunable_row & <-)%candidates_spec.
  rewrite Forall_forall in Hp. by apply Hp.
Qed.

(** When the database mirrors the records, a run with a record is chosen exactly
    when the row of its record is prunable. *)
Lemma candidate_record opts w id r :
  plain_rows (store w) -> mirrors w -> plain_id id = true -> readRun (files w) id = Some r ->
  id ∈ pruneCandidates cutoff opts (store w) <-> prunable cutoff opts (store w) (toRunFacts r).
Proof.
  intros [Hnd Hp] Hm Hid Hr. specialize (Hm id Hid). rewrite Hr in Hm. apply lookup_key_elem in Hm as [Hin Hk].
  rewrite candidates_spec. split; [|by exists (toRunFacts r)]. intros (r' & Hr' & Heq).
  destruct (prunable_row _ _ _ Hr') as [Hin' _]. by rewrite (same_run (store w) (toRunFacts r) r' Hnd Hin Hin' ltac:(congruence)).
Qed.

Lemma prune_command_facts older_than keep_flag outcome opts w w' n id r :
  plain_rows (store w) -> mirrors w -> plain_id id = true -> readRun (files w) id = Some r ->
  prune_options older_than keep_flag (store w) = Ok (Some opts) ->
  prune_command cutoff older_than keep_flag outcome w = (w', Ok n) ->
  (readRun (files w') id = None <-> prunable cutoff opts (store w) (toRunFacts r)) /\
  (runIsActive r = true -> readRun (files w') id = Some r) /\
  ((forall id, (outcome id).2 = true) -> mirrors w').
Proof.
  intros Hrows Hm Hid Hr Hopts. unfold prune_command. rewrite Hopts. intros [= <- _].
  pose proof (candidates_plain opts _ Hrows) as Hplain. pose proof (candidate_record opts w id r Hrows Hm Hid Hr) as Hc.
  rewrite removals_files, Hr by done. split_and!.
  - rewrite <- Hc, <- mem_str_spec. by destruct (mem_str id _).
  - intros Ha. destruct (mem_str id _) eqn:E; [|done]. apply mem_str_spec, Hc, prunable_row in E as [_ E].
    rewrite facts_active_of in E. congruence.
  - intros Hok. by apply removals_mirror.
Qed.

(** Pruning removes a record or leaves it as it is. *)
Lemma prune_command_keeps older_than keep_flag outcome opts w w' n id :
  plain_rows (store w) -> plain_id id = true ->
  prune_options older_than keep_flag (store w) = Ok (Some opts) ->
  prune_command cutoff older_than keep_flag outcome w = (w', Ok n) ->
  readRun (files w') id = None \/ readRun (files w') id = readRun (files w) id.
Proof.
  intros Hrows Hid Hopts Hrun. unfold prune_command in Hrun. rewrite Hopts in Hrun. injection Hrun as <- _.
  rewrite removals_files by (done || by apply candidates_plain). destruct (mem_str id _); auto.
Qed.

(** C35: Pruning the history goes by the rows of the database: exactly the records whose
    row is that of an ended run that is too old or too many are removed, the others stay
    as they are.  When the rows mirror the records before, which a failed update of the
    database breaks ([unsynced_run_pruned]), this means that of the runs exactly those
    are removed that have ended and are too old or too many, never an active one; and
    when the database works, the rows mirror the records again afterwards.  The database
    has one row for each run, and ids are without dots, as [newRunId] makes them. *)
Theorem prune_command_spec older_than keep_flag outcome opts w w' n id :
  plain_rows (store w) -> plain_id id = true ->
  prune_options older_than keep_flag (store w) = Ok (Some opts) ->
  prune_command cutoff older_than keep_flag outcome w = (w', Ok n) ->
  ((exists row, prunable cutoff opts (store w) row /\ f_runId row = id) -> readRun (files w') id = None) /\
  (~ (exists row, prunable cutoff opts (store w) row /\ f_runId row = id) -> readRun (files w') id = readRun (files w) id) /\
  (mirrors w -> forall r, readRun (files w) id = Some r ->
    (readRun (files w') id = None <-> prunable cutoff opts (store w) (toRunFacts r)) /\
    (runIsActive r = true -> readRun (files w') id = Some r)) /\
  (mirrors w -> (forall id, (outcome id).2 = true) -> mirrors w').
Proof.
  intros Hrows Hid Hopts Hrun. pose proof Hrun as Heq. unfold prune_command in Heq. rewrite Hopts in Heq. injection Heq as Heq _.
  pose proof (candidates_plain opts _ Hrows) as Hplain.
  assert (Hfile : readRun (files w') id = if mem_str id (pruneCandidates cutoff opts (store w)) then None else readRun (files w) id)
    by (subst w'; by apply removals_files).
  pose proof (candidates_spec cutoff opts (store w) id) as Hc. rewrite <- Hc, <- mem_str_spec. split_and!.
  - intros Hin. by rewrite Hfile, Hin.
  - intros Hn%not_true_iff_false. by rewrite Hfile, Hn.
  - intros Hm r Hr. destruct (prune_command_facts older_than keep_flag outcome opts w w' n id r) as (? & ? & _); auto.
  - intros Hm Hok. subst w'. by apply removals_mirror.
Qed.

(** A failure to update the row is swallowed, and pruning goes by the rows alone:
    when the row of a restarted run was not updated, the run counts as ended, and
    its record and logs are removed while it is active. *)
Theorem unsynced_run_pruned self outcome w r0 r :
  plain_rows (store w) -> mirrors w -> plain_id (runId r) = true ->
  readRun (files w) (runId r) = Some r0 -> runIsActive r0 = false -> runIsActive r = true ->
  let w1 := writeRun self false r w in
  readRun (files w1) (runId r) = Some r /\
  readRun (files (prune_command cutoff None (Some 0%Z) outcome w1).1) (runId r) = None.
Proof.
  intros Hrows Hm Hid Hr Hend Ha w1. split; [apply read_written|].
  change (prune_command cutoff None (Some 0%Z) outcome w1).1 with
    (fold_left (fun w id => removeRun (outcome id).2 (outcome id).1 id w) (pruneCandidates cutoff (mkPrune None (Some 0)) (store w)) w1).
  rewrite removals_files by (done || by apply candidates_plain). destruct (mem_str (runId r) _) eqn:E; [done|]. exfalso.
  rewrite <- not_true_iff_false, mem_str_spec, (candidate_record _ w (runId r) r0) in E by done. apply E.
  specialize (Hm (runId r) Hid). rewrite Hr in Hm. apply lookup_key_elem in Hm as [Hin _].
  assert (He : toRunFacts r0 ∈ ended_runs (store w)) by (apply elem_of_filter_In; by rewrite facts_active_of, Hend).
  split; [done|]. right. exists 0. split; [done|]. rewrite drop_0. by apply js_sort_elem.
Qed.
End pruning.

Definition plain_text : JsText := Build_JsText (fun _ => None) (fun _ => None) (fun _ => "") (fun _ => "2026-01-05T00:00:00.000Z").
Definition two_runs : world :=
  fold_left hist_apply
    [ho_write "41" (finalize sample_run 0 r_exit "2026-01-02T00:00:00.000Z");
     ho_write "42" (with_state running (initial_record (mkManaged "r-2" "a/b@1.0.0" "1.0.0" ri_cli rs_process None None None None None) "2026-01-03"))]
    no_history.

Lemma two_runs_plain : plain_rows (store two_runs) /\ mirrors two_runs.
Proof.
  split.
  - split; [apply (bool_decide_unpack _); by vm_compute|by repeat constructor].
  - do 2 apply mirrors_write. by intros id _.
Qed.

Lemma prune_command_spec_witness :
  let w' := (@prune_command plain_text (fun _ => "") None (Some 0%Z) (fun _ => ([], true)) two_runs).1 in
  mirrors w' /\ is_Some (readRun (files w') "r-2").
Proof.
  intros w'. destruct two_runs_plain as [Hrows Hm].
  pose proof (@prune_command_spec plain_text (fun _ => "") None (Some 0%Z) (fun _ => ([], true)) (mkPrune None (Some 0)) two_runs w' 1 "r-2"
    Hrows eq_refl eq_refl eq_refl) as (_ & _ & H2 & H3).
  split; [by apply H3|]. destruct (H2 Hm _ eq_refl) as [_ H4]. rewrite H4 by done. by eexists.
Defined.

Lemma unsynced_run_pruned_witness :
  let w1 := writeRun "43" false (with_state running sample_run) two_runs in
  is_Some (readRun (files w1) "r-1") /\
  readRun (files (@prune_command plain_text (fun _ => "") None (Some 0%Z) (fun _ => ([], true)) w1).1) "r-1" = None.
Proof.
  intros w1. destruct two_runs_plain as [Hrows Hm].
  pose proof (@unsynced_run_pruned plain_text (fun _ => "") "43" (fun _ => ([], true)) two_runs
    (finalize sample_run 0 r_exit "2026-01-02T00:00:00.000Z") (with_state running sample_run) Hrows Hm eq_refl eq_refl eq_refl eq_refl) as [H1 H2].
  split; [|exact H2]. by eexists.
Defined.

(** *** Exporting *)

Section exporting.
Context `{JsText} (parse_date : string -> option Q).

Lemma by_column_elem {Row} (column : Row -> string) l x : x ∈ by_column column l <-> x ∈ l.
Proof. apply js_sort_elem. Qed.

(** With a bound given, exactly the runs whose start lies between the bounds are
    exported, and exactly the samples of these runs; settings, the usage of other
    programs and limits are exported in full whatever the bounds are. *)
Theorem export_command_spec from to f t d data :
  truthy from || truthy to = true ->
  Observability.optional_date parse_date from = Ok f -> Observability.optional_date parse_date to = Ok t ->
  export_command parse_date from to d = Ok data ->
  (forall r, r ∈ e_runs data <-> r ∈ t_runs d /\
     (forall x, f = Some x -> js_ltb (f_startedAt r) x = false) /\ (forall x, t = Some x -> js_ltb x (f_startedAt r) = false)) /\
  (forall u, u ∈ e_usage data <-> u ∈ t_usage d /\ exists r, r ∈ e_runs data /\ f_runId r = s_runId u) /\
  (forall u, u ∈ e_resources data <-> u ∈ t_resources d /\ exists r, r ∈ e_runs data /\ f_runId r = rs_runId u) /\
  e_settings data = t_settings d /\ (forall x, x ∈ e_external data <-> x ∈ t_external d) /\ (forall x, x ∈ e_limits data <-> x ∈ t_limits d).
Proof.
  intros Hb Hf Ht. unfold export_command. rewrite Hb, Hf, Ht. cbn [mbind result_mbind result_bind mret result_mret]. intros [= <-].
  cbn [e_runs e_usage e_resources e_settings e_external e_limits exported exportData].
  assert (Hids : forall (id : string) (l : list RunFacts), mem_str id (map f_runId l) = true <-> exists r, r ∈ l /\ f_runId r = id).
  { intros id l. rewrite mem_str_spec, list_elem_of_fmap. split; intros (r & ? & ?); exists r; by split. }
  split_and!.
  - intros r. rewrite elem_of_filter_In, by_column_elem, andb_true_iff.
    assert (Hbound : forall (b : option string) g, match b with Some x => negb (g x) | None => true end = true <-> forall x, b = Some x -> g x = false).
    { intros [x|] g; [|by split]. rewrite negb_true_iff. split; [by intros Hx ? [= <-]|auto]. }
    by rewrite (Hbound f (js_ltb (f_startedAt r))), (Hbound t (fun x => js_ltb x (f_startedAt r))).
  - intros u. by rewrite elem_of_filter_In, by_column_elem, Hids.
  - intros u. by rewrite elem_of_filter_In, by_column_elem, Hids.
  - done.
  - intros x. apply by_column_elem.
  - intros x. apply js_sort_elem.
Qed.

Lemma ltb_prefix p a b : js_ltb (p +:+ a) (p +:+ b) = js_ltb a b.
Proof.
  induction p as [|c p IH]; [done|]. cbn [String.append]. rewrite <- IH. unfold js_ltb, String.ltb. cbn [String.compare].
  unfold Ascii.compare. by rewrite N.compare_refl.
Qed.

(** A bound that is a day is the midnight it begins with, so [--to] leaves out the
    runs of the day it names. *)
Theorem export_to_excludes_its_day d day time r data :
  Observability.optional_date parse_date (Some day) = Ok (Some (day +:+ "T00:00:00.000Z")) -> day <> "" ->
  f_startedAt r = day +:+ "T" +:+ time -> js_ltb "00:00:00.000Z" time = true ->
  export_command parse_date None (Some day) d = Ok data -> r ∉ e_runs data.
Proof.
  intros Ht Hday%String.eqb_neq Hr Hlt. unfold export_command. cbn [truthy]. rewrite Hday, Ht.
  cbn [negb orb Observability.optional_date truthy mbind result_mbind result_bind mret result_mret]. intros [= <-] Hin.
  apply elem_of_filter_In in Hin as [_ Hin]. cbn [andb] in Hin. rewrite Hr in Hin.
  change (day +:+ "T00:00:00.000Z") with (day +:+ ("T" +:+ "00:00:00.000Z")) in Hin. by rewrite !ltb_prefix, Hlt in Hin.
Qed.
End exporting.
End History.
