(* ===== verification/Worker.v ===== *)
(** The worker of a managed run, [cli/src/commands/supervisor-run.ts]: a process that
    runs one agent, keeps the record of the run, and, when the run ends, stores what
    the agent reported about its use of models.  The worker reacts to events (a
    signal, the end of the agent, its poll for the container, a write of the record
    by another process); each reaction is one step. *)
From S2P Require Import Prelude Fs Supervisor UsageStore UsageSources Observability History.

Module Worker.
Import Fs Supervisor UsageStore UsageSources History.
Local Open Scope nat_scope.

(** ** Reports of the sandbox *)

(** The first occurrence of a character removed. *)
Fixpoint remove_first (c : ascii) (s : string) : string :=
  match s with EmptyString => EmptyString | String x rest => if Ascii.eqb x c then rest else String x (remove_first c rest) end.

Record container_stats := mkStats { memUsage : string; memPerc : option string; cpuPerc : option string }.

(** [out] is what [docker stats] prints, [None] when it fails.
    @src cli/src/lib/supervisor.ts containerStats *)
Definition containerStats (out : option string) : option container_stats :=
  out ← out;
  match js_split "009"%char (js_trim out) with
  | [] => None
  | memUsage :: rest => Some (mkStats memUsage (rest !! 0) (rest !! 1))
  end.

(** The factor of a unit, of [None] when the text names no unit.
    @src cli/src/commands/supervisor-run.ts 198-207 memUsageBytes *)
Definition unit_bytes (unit : string) : option Z :=
  if String.eqb unit "" then Some 1%Z
  else obj_get (js_toLowerCase unit)
    [("b", 1%Z); ("kb", 1000%Z); ("kib", 1024%Z); ("mb", 1000000%Z); ("mib", (1024 ^ 2)%Z); ("gb", 1000000000%Z); ("gib", (1024 ^ 3)%Z)].

Definition is_number_char (c : ascii) : bool := Ascii.eqb c "." || (Nat.leb 48 (nat_of_ascii c) && Nat.leb (nat_of_ascii c) 57).

Section worker.
Context `{JsText}.

(** A number with dots, white space, and a unit in any case; NaN, which the number
    can still be, is stored as NULL like a missing value.
    @src cli/src/commands/supervisor-run.ts memUsageBytes *)
Definition memUsageBytes (raw : option string) : option Z :=
  raw ← raw;
  if String.eqb raw "" then None
  else
    let '(digits, rest) := js_span is_number_char (js_trim raw) in
    if String.eqb digits "" then None
    else
      mult ← unit_bytes (js_trim_start rest);
      q ← to_number digits;
      Some (Observability.js_round (q * inject_Z mult)%Q).

(** [Number(text) || undefined]. *)
Definition number_or_undefined (s : string) : option Q :=
  q ← to_number s; if Qeq_bool q 0%Q then None else Some q.

(** [docker_stats] are the answers of docker for a container.
    @src cli/src/commands/supervisor-run.ts 68-81 run *)
Definition recordResourceSample (current : RunRecord) (docker_stats : string -> option string) (now : string) (d : db) : db :=
  match containerId current with
  | None => d
  | Some c =>
      if String.eqb c "" then d
      else match containerStats (docker_stats c) with
           | None => d
           | Some st =>
               UsageStore.recordResourceSample
                 (mkResource (runId current) (memUsageBytes (hd_error (js_split "/" (memUsage st))))
                    (p ← cpuPerc st; number_or_undefined (remove_first "%" p)) (Some c) now) d
           end
  end.

(** ** Reports of the agent *)

(** The statement that stores a sample, on an object of the usage file: what the
    columns get, or why SQLite refuses it. *)
Context (as_sample : json -> result UsageSample).

Definition for_run (id : string) (s : UsageSample) : UsageSample :=
  mkSample id (s_modelProvider s) (s_modelName s) (s_tokensIn s) (s_tokensOut s) (s_tokensReasoning s) (s_tokensCache s)
    (s_costExact s) (s_costEstimated s) (s_recordedAt s).

(** The lines that are JSON. *)
Definition usage_lines (raw : string) : list json :=
  omap json_parse (List.filter (fun l => negb (String.eqb (js_trim l) "")) (js_split LF raw)).

(** The samples are stored one by one; a refused one ends the loop. *)
Fixpoint record_samples (id : string) (l : list json) (d : db) : db * result unit :=
  match l with
  | [] => (d, Ok tt)
  | j :: rest =>
      match as_sample j with
      | Throw e => (d, Throw e)
      | Ok s => record_samples id rest (UsageStore.recordUsage (for_run id s) d)
      end
  end.

(** [raw] is the usage file, if it can be read.
    @src cli/src/commands/supervisor-run.ts 44-66 run *)
Definition recordUsage (id : string) (raw : option string) (opens : bool) (d : db) : db * result unit :=
  match raw with
  | None => (d, Ok tt)
  | Some raw =>
      match usage_lines raw with
      | [] => (d, Ok tt)
      | samples => if opens then record_samples id samples d else (d, throw EError "unable to open database file")
      end
  end.

(** ** The process *)

(** What [executeAgentRun] returned, as far as the worker looks at it. *)
Record outcome := mkOutcome { oc_exitCode : Z; oc_timedOut : bool; oc_container : bool; oc_provider : string; oc_model : string }.

(** [k_usage] is the usage file, [k_record] the variable [record], [k_pending] what
    the agent returned while the worker waits for the health probe, [k_end] the exit
    code once the process has ended, or what [finalize] threw. *)
Record worker := mkWorker {
  k_world : world; k_usage : option string; k_record : RunRecord; k_pending : option outcome; k_finalizing : bool;
  k_end : option (Z + jserror);
}.

(** What a step finds outside: the clock, whether the row of the record can be
    updated and the database opened, and docker. *)
Record env := mkEnv { now : string; synced : bool; opens : bool; docker_stats : string -> option string }.

Context (self : string).

Definition with_world (w : world) (k : worker) : worker :=
  mkWorker w (k_usage k) (k_record k) (k_pending k) (k_finalizing k) (k_end k).

(** [readRun(record.runId) ?? record] *)
Definition current (k : worker) : RunRecord := nullish (readRun (files (k_world k)) (runId (k_record k))) (k_record k).

Definition write_record (e : env) (r : RunRecord) (k : worker) : worker :=
  with_world (writeRun self (synced e) r (k_world k)) k.

(** The record is written first; a throw of [recordUsage] leaves the usage file and
    the process.
    @src cli/src/commands/supervisor-run.ts 116-132 run *)
Definition finalize (e : env) (code : Z) (reason : ExitReason) (k : worker) : worker :=
  if k_finalizing k then k
  else
    let k := write_record e (Supervisor.finalize (current k) code reason (now e)) k in
    let '(d, r) := recordUsage (runId (k_record k)) (k_usage k) (opens e) (store (k_world k)) in
    match r with
    | Throw err => mkWorker (mkWorld (files (k_world k)) d) (k_usage k) (k_record k) (k_pending k) true (Some (inr err))
    | Ok _ =>
        let d := recordResourceSample (current k) (docker_stats e) (now e) d in
        mkWorker (mkWorld (files (k_world k)) d) None (k_record k) (k_pending k) true (Some (inl 0%Z))
    end.

(** The end of a run that returned, after the probe.
    @src cli/src/commands/supervisor-run.ts 171-185 run *)
Definition conclude (e : env) (o : outcome) (k : worker) : worker :=
  let cur := current k in
  let reason := end_reason cur (oc_timedOut o) (oc_container o) (oc_exitCode o) in
  let k := write_record e (with_model (oc_provider o) (oc_model o) cur) k in
  finalize e (oc_exitCode o) reason k.

(** An HTTP agent with a port is probed first; the worker waits for the answer.
    @src cli/src/commands/supervisor-run.ts 163-166 run *)
Definition on_result (e : env) (o : outcome) (k : worker) : worker :=
  match r_interface (k_record k), port (k_record k) with
  | ri_http, Some p =>
      if Z.eqb p 0 then conclude e o k
      else mkWorker (k_world k) (k_usage k) (k_record k) (Some o) (k_finalizing k) (k_end k)
  | _, _ => conclude e o k
  end.

(** @src cli/src/commands/supervisor-run.ts 166-169 run *)
Definition on_probed (e : env) (health : RunHealth) (k : worker) : worker :=
  match k_pending k with
  | Some o => conclude e o (write_record e (with_health health (current k)) k)
  | None => k
  end.

Inductive event :=
| ev_result (e : env) (o : outcome)
| ev_probed (e : env) (health : RunHealth)
| ev_throw (e : env)
| ev_signal (e : env)
| ev_poll (e : env) (found : option container_info)
| ev_usage (text : string)
| ev_other (self' : string) (r : RunRecord).

(** A signal has a handler unless the run is in a container; without one it ends
    the process.
    @src cli/src/commands/supervisor-run.ts 134-141 run *)
Definition on_signal (e : env) (k : worker) : worker :=
  match sandbox (k_record k) with
  | rs_container => mkWorker (k_world k) (k_usage k) (k_record k) (k_pending k) (k_finalizing k) (Some (inl 143%Z))
  | _ => finalize e 0 r_manual_stop k
  end.

(** The poll of a container run; it stops when the agent has returned.
    @src cli/src/commands/supervisor-run.ts 143-152 run *)
Definition on_poll (e : env) (found : option container_info) (k : worker) : worker :=
  match sandbox (k_record k), k_pending k, found, readRun (files (k_world k)) (runId (k_record k)) with
  | rs_container, None, Some c, Some cur =>
      if bool_decide (containerId cur = Some (ci_id c)) then k else write_record e (with_container (ci_id c) cur) k
  | _, _, _, _ => k
  end.

(** One step; after the end of the process nothing happens in it, but the agent and
    other processes may go on. *)
Definition step (k : worker) (ev : event) : worker :=
  match ev, k_end k with
  | ev_usage text, None => mkWorker (k_world k) (Some (nullish (k_usage k) "" +:+ text)) (k_record k) (k_pending k) (k_finalizing k) None
  | ev_other self' r, _ => with_world (writeRun self' true r (k_world k)) k
  | _, Some _ => k
  | ev_result e o, None => on_result e o k
  | ev_probed e health, None => on_probed e health k
  | ev_throw e, None => finalize e 1 r_crashed k
  | ev_signal e, None => on_signal e k
  | ev_poll e found, None => on_poll e found k
  end.

Definition run (evs : list event) (k : worker) : worker := fold_left step evs k.

(** The start: the record is read and written as running, the context is prepared,
    a port is chosen for an HTTP agent without one.
    @src cli/src/commands/supervisor-run.ts 23-114 run *)
Definition start (e : env) (id : string) (usage : option string) (prepared : result unit) (allocated : Z) (w : world) : world * (worker + Z) :=
  match readRun (files w) id with
  | None => (w, inr 1%Z)
  | Some initial =>
      let record := worker_running initial in
      let k := mkWorker (writeRun self (synced e) record w) usage record None false None in
      match prepared with
      | Throw _ => let k := write_record e (worker_fail (current k) (now e)) k in (k_world k, inr 1%Z)
      | Ok _ =>
          match r_interface record, port record with
          | ri_http, None =>
              let record := with_port allocated (current k) in
              let k := write_record e record k in
              (k_world k, inl (mkWorker (k_world k) usage record None false None))
          | _, _ => (k_world k, inl k)
          end
      end
  end.
End worker.

(** ** Properties *)

Section facts.
Context `{JsText} (as_sample : json -> result UsageSample) (self : string).

(** *** What is stored of the agent's reports *)

(** The samples up to the first one the database refuses. *)
Fixpoint accepted (id : string) (l : list json) : list UsageSample :=
  match l with
  | [] => []
  | j :: rest => match as_sample j with Ok s => for_run id s :: accepted id rest | Throw _ => [] end
  end.

Definition reported (id : string) (raw : option string) (opens : bool) : list UsageSample :=
  match raw with Some raw => if opens then accepted id (usage_lines raw) else [] | None => [] end.

(** Every table but the samples is left alone. *)
Definition only_usage (d d' : db) : Prop :=
  t_runs d' = t_runs d /\ t_resources d' = t_resources d /\ t_external d' = t_external d /\ t_settings d' = t_settings d.

Lemma record_samples_spec id l d :
  let '(d', r) := record_samples as_sample id l d in
  t_usage d' = t_usage d ++ accepted id l /\ only_usage d d' /\ (is_ok r = true -> length (accepted id l) = length l).
Proof.
  revert d. induction l as [|j l IH]; intros d; cbn [record_samples accepted]; [by rewrite app_nil_r|].
  destruct (as_sample j) as [s|e]; [|by rewrite app_nil_r].
  specialize (IH (UsageStore.recordUsage (for_run id s) d)).
  destruct (record_samples as_sample id l _) as [d' r]. destruct IH as (H1 & H2 & H3). split_and!; [|done|].
  - rewrite H1. cbn [UsageStore.recordUsage touch with_usage t_usage]. by rewrite <- app_assoc.
  - intros Hr. cbn. by rewrite H3.
Qed.

Lemma recordUsage_spec id raw ok d :
  let '(d', r) := recordUsage as_sample id raw ok d in
  t_usage d' = t_usage d ++ reported id raw ok /\ only_usage d d' /\
  (is_ok r = true -> length (reported id raw ok) = length (nullish (usage_lines <$> raw) [])).
Proof.
  unfold recordUsage, reported. destruct raw as [raw|]; [|by rewrite app_nil_r].
  change (nullish (usage_lines <$> Some raw) []) with (usage_lines raw).
  destruct (usage_lines raw) as [|j l] eqn:E; [destruct ok; by rewrite app_nil_r|].
  destruct ok; [apply record_samples_spec|by rewrite app_nil_r].
Qed.

Lemma resource_spec cur stats t d :
  t_usage (recordResourceSample cur stats t d) = t_usage d /\ t_runs (recordResourceSample cur stats t d) = t_runs d.
Proof.
  unfold recordResourceSample. destruct (containerId cur) as [c|]; [|done]. destruct (String.eqb c ""); [done|].
  by destruct (containerStats (stats c)).
Qed.

Lemma sync_usage ok r d : t_usage (syncRunToUsage ok r d) = t_usage d.
Proof. unfold syncRunToUsage, syncRun. destruct ok; [|done]. by destruct (has_key _ _ _). Qed.

(** *** Steps *)

Definition usage_of (k : worker) : list UsageSample := t_usage (store (k_world k)).
Definition id_of (k : worker) : string := runId (k_record k).

Lemma write_usage e r k : usage_of (write_record self e r k) = usage_of k.
Proof. apply sync_usage. Qed.

(** The environment of an event. *)
Definition env_of (ev : event) : option env :=
  match ev with
  | ev_result e _ | ev_probed e _ | ev_throw e | ev_signal e | ev_poll e _ => Some e
  | ev_usage _ | ev_other _ _ => None
  end.
Definition opens_of (ev : event) : bool := match env_of ev with Some e => opens e | None => false end.

(** A worker that has begun to finalize has ended. *)
Definition settled (k : worker) : Prop := k_finalizing k = true -> k_end k <> None.

(** The process goes on, or it was a container run that a signal ended. *)
Definition still_on (k k' : worker) : Prop :=
  k_end k' = k_end k \/ (sandbox (k_record k) = rs_container /\ k_end k' = Some (inl 143%Z)).

(** What a reaction does to the samples: nothing, while the run goes on; or it
    stores what the agent reported until then, and ends the process. *)
Definition reacts (ok : bool) (k k' : worker) : Prop :=
  k_record k' = k_record k /\
  ((k_finalizing k' = k_finalizing k /\ usage_of k' = usage_of k /\ (k_finalizing k = false -> settled k') /\ still_on k k') \/
   (k_finalizing k = false /\ k_finalizing k' = true /\ k_end k' <> None /\
    usage_of k' = usage_of k ++ reported (id_of k) (k_usage k) ok /\
    (k_end k' = Some (inl 0%Z) -> k_usage k' = None /\
      length (reported (id_of k) (k_usage k) ok) = length (nullish (usage_lines <$> k_usage k) [])))).

Lemma finalize_reacts e code reason k : reacts (opens e) k (finalize as_sample self e code reason k).
Proof.
  unfold finalize. destruct (k_finalizing k) eqn:Hf.
  { split; [done|]. left. rewrite Hf. split_and!; [done..|by left]. }
  set (k1 := write_record self e _ k).
  assert (Hk1 : k_usage k1 = k_usage k /\ k_record k1 = k_record k /\ usage_of k1 = usage_of k) by (split_and!; [done|done|apply write_usage]).
  destruct Hk1 as (Hu1 & Hr1 & Hs1). pose proof (recordUsage_spec (id_of k1) (k_usage k1) (opens e) (store (k_world k1))) as Hrec.
  unfold id_of in Hrec. destruct (recordUsage _ _ _ _ _) as [d r]. destruct Hrec as (Hd & _ & Hlen).
  fold (usage_of k1) in Hd. rewrite Hs1, Hu1, Hr1 in Hd. rewrite Hu1, Hr1 in Hlen.
  destruct r as [u|err]; (split; [done|]); right; rewrite Hf; split_and!; try done.
  - unfold usage_of at 1. cbn [k_world store]. by rewrite (proj1 (resource_spec _ _ _ _)).
  - intros _. split; [done|]. by apply Hlen.
Qed.

Lemma reacts_after ok k k1 k' :
  k_record k1 = k_record k -> k_usage k1 = k_usage k -> k_finalizing k1 = k_finalizing k -> usage_of k1 = usage_of k ->
  k_end k1 = k_end k -> reacts ok k1 k' -> reacts ok k k'.
Proof. intros H1 H2 H3 H4 H5. unfold reacts, still_on, id_of. by rewrite H1, H2, H3, H4, H5. Qed.

Lemma conclude_reacts e o k : reacts (opens e) k (conclude as_sample self e o k).
Proof.
  eapply reacts_after; [..|apply finalize_reacts]; [done|done|done|apply write_usage|done].
Qed.

Lemma step_reacts k ev : settled k -> reacts (opens_of ev) k (step as_sample self k ev).
Proof.
  intros Hset.
  assert (Hstay : forall k', k_record k' = k_record k -> k_finalizing k' = k_finalizing k -> usage_of k' = usage_of k ->
    (k_finalizing k = false -> settled k') -> still_on k k' -> reacts (opens_of ev) k k')
    by (intros k' H1 H2 H3 H4 H5; split; [done|]; left; done).
  assert (Hother : forall self' r, reacts (opens_of ev) k (with_world (writeRun self' true r (k_world k)) k)).
  { intros self' r. apply Hstay; [done|done|apply sync_usage| |by left]. by intros _ ?%Hset. }
  destruct ev as [e o|e h|e|e|e c|text|self' r]; cbn [step]; destruct (k_end k) as [n|] eqn:He;
    try (by apply Hstay; auto; left); try apply Hother.
  - unfold on_result. destruct (r_interface (k_record k)), (port (k_record k)) as [p|]; try apply conclude_reacts.
    destruct (Z.eqb p 0); [apply conclude_reacts|]. apply Hstay; [done..| |by left]. by intros Hf Hf'; cbn in Hf'; rewrite Hf in Hf'.
  - unfold on_probed. destruct (k_pending k) as [o|]; [|by apply Hstay; auto; left].
    eapply reacts_after; [..|apply conclude_reacts]; [done|done|done|apply write_usage|done].
  - apply finalize_reacts.
  - unfold on_signal. destruct (sandbox (k_record k)) eqn:Hsb; try apply finalize_reacts. apply Hstay; [done..| |by right].
    by intros Hf Hf'; cbn in Hf'; rewrite Hf in Hf'.
  - unfold on_poll. assert (Hsame : reacts (opens_of (ev_poll e c)) k k) by (apply Hstay; auto; by left).
    destruct (sandbox (k_record k)); [|done..]. destruct (k_pending k); [done|].
    destruct c as [c|]; [|done]. destruct (readRun _ _) as [cur|]; [|done].
    destruct (bool_decide _); [done|]. apply Hstay; [done|done|apply write_usage| |by left]. by intros Hf Hf'; cbn in Hf'; rewrite Hf in Hf'.
  - apply Hstay; [done..| |by left]. by intros Hf Hf'; cbn in Hf'; rewrite Hf in Hf'.
Qed.

Lemma step_ended k ev : k_end k <> None -> k_end (step as_sample self k ev) = k_end k /\ usage_of (step as_sample self k ev) = usage_of k.
Proof.
  intros He. destruct (k_end k) as [n|] eqn:E; [|done].
  destruct ev; cbn [step]; rewrite ?E; try done. split; [done|apply sync_usage].
Qed.

Lemma run_ended evs k : k_end k <> None -> k_end (run as_sample self evs k) = k_end k /\ usage_of (run as_sample self evs k) = usage_of k.
Proof.
  revert k. induction evs as [|ev evs IH]; intros k He; [done|]. cbn. destruct (step_ended k ev He) as [H1 H2].
  destruct (IH (step as_sample self k ev)) as [H3 H4]; [by rewrite H1|]. unfold run in *. by rewrite H3, H4.
Qed.

Lemma run_finalizing evs k : k_end k <> None -> k_finalizing (run as_sample self evs k) = k_finalizing k.
Proof.
  revert k. induction evs as [|ev evs IH]; intros k He; [done|]. cbn. unfold run in IH. rewrite IH by (by rewrite (proj1 (step_ended k ev He))).
  destruct (k_end k) as [n|] eqn:E; [|done]. destruct ev; cbn [step]; by rewrite ?E.
Qed.

(** C36: Whatever happens to a worker, in whatever order (the end of the agent, a
    signal, a failure, the poll, writes of the record by others), what the agent
    reported is stored at most once: nothing is stored before the run ends, and at the
    first event that ends it every sample of the usage file of that moment is stored,
    in its order and under the id of the run, up to one that the database refuses;
    when the process ends well none was refused and the usage file is gone.  Only a
    container run can end without this, by a signal. *)
Theorem usage_recorded_once evs k :
  k_finalizing k = false -> k_end k = None ->
  let k' := run as_sample self evs k in
  (k_finalizing k' = false /\ usage_of k' = usage_of k /\
     (k_end k' = None \/ sandbox (k_record k) = rs_container /\ k_end k' = Some (inl 143%Z))) \/
  (exists before ev after, evs = before ++ ev :: after /\
     let m := run as_sample self before k in
     k_finalizing m = false /\ usage_of m = usage_of k /\
     usage_of k' = usage_of k ++ reported (id_of k) (k_usage m) (opens_of ev) /\
     (k_end k' = Some (inl 0%Z) ->
        k_usage (step as_sample self m ev) = None /\
        length (reported (id_of k) (k_usage m) (opens_of ev)) = length (nullish (usage_lines <$> k_usage m) []))).
Proof.
  intros Hf He. cbv zeta. revert k Hf He.
  induction evs as [|ev evs IH]; intros k Hf He; [by left; auto|].
  assert (Hset : settled k) by (intros Ht; congruence).
  change (run as_sample self (ev :: evs) k) with (run as_sample self evs (step as_sample self k ev)).
  destruct (step_reacts k ev Hset) as [Hr [(Hf1 & Hu & _ & [He1|[Hc He1]])|(_ & Hf1 & He1 & Hu & Hok)]].
  - rewrite Hf in Hf1. rewrite He in He1.
    destruct (IH _ Hf1 He1) as [(H1 & H2 & H3)|(before & ev' & after & -> & H1 & H2 & H3 & H4)].
    + left. by rewrite H2, <- Hr.
    + right. exists (ev :: before), ev', after. unfold id_of in *. rewrite Hr, Hu in *. by split_and!.
  - left. assert (Hend : k_end (step as_sample self k ev) <> None) by (by rewrite He1).
    destruct (run_ended evs _ Hend) as [H1 H2]. rewrite H1, H2. split_and!; [|done|by right].
    rewrite (run_finalizing evs _ Hend). by rewrite Hf1.
  - right. exists [], ev, evs. split; [done|]. cbn [run fold_left]. split_and!; [done|done| |].
    + by rewrite (proj2 (run_ended evs _ He1)).
    + intros Hend. apply Hok. by rewrite <- (proj1 (run_ended evs _ He1)).
Qed.

(** *** The record and its row *)

Lemma recordUsage_runs id raw ok d : t_runs (recordUsage as_sample id raw ok d).1 = t_runs d.
Proof. pose proof (recordUsage_spec id raw ok d) as H'. destruct (recordUsage _ _ _ _ _). by destruct H' as (_ & (? & _) & _). Qed.

Lemma mirrors_store w d : mirrors w -> t_runs d = t_runs (store w) -> mirrors (mkWorld (files w) d).
Proof. intros Hm Heq id Hid. cbn [files store]. rewrite Heq. by apply Hm. Qed.

Lemma mirrors_write_record e r k : synced e = true -> mirrors (k_world k) -> mirrors (k_world (write_record self e r k)).
Proof. intros Hs Hm. unfold write_record. cbn [k_world with_world]. rewrite Hs. by apply mirrors_write. Qed.

Lemma finalize_files e code reason k :
  k_finalizing k = false ->
  files (k_world (finalize as_sample self e code reason k)) =
  Supervisor.writeRun self (Supervisor.finalize (current k) code reason (now e)) (files (k_world k)).
Proof.
  intros Hf. unfold finalize. rewrite Hf. destruct (recordUsage _ _ _ _ _) as [d [u|err]]; done.
Qed.

Lemma mirrors_finalize e code reason k :
  synced e = true -> mirrors (k_world k) -> mirrors (k_world (finalize as_sample self e code reason k)).
Proof.
  intros Hs Hm. unfold finalize. destruct (k_finalizing k); [done|].
  apply (mirrors_write_record e (Supervisor.finalize (current k) code reason (now e))) in Hm; [|done].
  set (k1 := write_record self e _ k) in *. pose proof (recordUsage_runs (runId (k_record k1)) (k_usage k1) (opens e) (store (k_world k1))) as Hr.
  destruct (recordUsage _ _ _ _ _) as [d [u|err]]; cbn [fst] in Hr; cbn [k_world]; apply mirrors_store; try done.
  by rewrite (proj2 (resource_spec _ _ _ _)).
Qed.

Definition synced_event (ev : event) : Prop := forall e, env_of ev = Some e -> synced e = true.

(** As long as no update of a row fails, the rows mirror the records through
    everything a worker does. *)
Lemma worker_mirrors k ev : synced_event ev -> mirrors (k_world k) -> mirrors (k_world (step as_sample self k ev)).
Proof.
  intros Hs Hm. assert (Hc : forall e o k', env_of ev = Some e -> mirrors (k_world k') -> mirrors (k_world (conclude as_sample self e o k'))).
  { intros e o k' He Hm'. unfold conclude. apply mirrors_finalize; [by apply Hs|]. apply mirrors_write_record; [by apply Hs|done]. }
  destruct ev as [e o|e h|e|e|e c|text|self' r]; cbn [step]; destruct (k_end k) as [n|]; try done; try by apply mirrors_write.
  - unfold on_result. destruct (r_interface (k_record k)), (port (k_record k)) as [p|]; try by apply Hc.
    destruct (Z.eqb p 0); [by apply Hc|done].
  - unfold on_probed. destruct (k_pending k); [|done]. apply Hc; [done|]. apply mirrors_write_record; [by apply Hs|done].
  - apply mirrors_finalize; [by apply Hs|done].
  - unfold on_signal. destruct (sandbox (k_record k)); try done; (apply mirrors_finalize; [by apply Hs|done]).
  - unfold on_poll. destruct (sandbox (k_record k)); [|done..]. destruct (k_pending k); [done|]. destruct c as [c|]; [|done].
    destruct (readRun _ _); [|done]. destruct (bool_decide _); [done|]. apply mirrors_write_record; [by apply Hs|done].
Qed.

(** The record a worker leaves, when the records are filed under their own ids. *)
Lemma current_id k : plain_id (id_of k) = true -> mirrors (k_world k) -> runId (current k) = id_of k.
Proof.
  intros Hid Hm. specialize (Hm _ Hid). unfold current, id_of in *. destruct (readRun _ _) as [r|]; [|done].
  apply lookup_key_elem in Hm as [_ Hm]. exact Hm.
Qed.

(** A run whose agent has returned ends, once, with a time: as stopped by hand with
    code 0 if a stop was requested, whatever the agent returned; else with the code of
    the agent, exited exactly when it is 0, for the reason timeout, out of memory (137
    in a container) or exit, in this order; and its row says the same. *)
Theorem returned_run_record e o k :
  plain_id (id_of k) = true -> mirrors (k_world k) -> synced e = true ->
  k_end k = None -> k_finalizing k = false -> r_interface (k_record k) <> ri_http ->
  let k' := step as_sample self k (ev_result e o) in
  let asked := bool_decide (state (current k) = stopping) || bool_decide (exitReason (current k) = Some r_manual_stop) in
  exists r, readRun (files (k_world k')) (id_of k) = Some r /\
    lookup_key f_runId (id_of k) (t_runs (store (k_world k'))) = Some (toRunFacts r) /\
    endedAt r = Some (now e) /\ modelName r = Some (oc_model o) /\ r_agentKey r = r_agentKey (current k) /\
    (if asked then state r = exited /\ r_exitCode r = Some 0%Z /\ exitReason r = Some r_manual_stop
     else state r = (if Z.eqb (oc_exitCode o) 0 then exited else failed) /\ r_exitCode r = Some (oc_exitCode o) /\
          exitReason r = Some (if oc_timedOut o then r_timeout else if oc_container o && Z.eqb (oc_exitCode o) 137 then r_oom else r_exit)).
Proof.
  intros Hid Hm Hs He Hf Hi k' asked.
  assert (Hk' : k' = conclude as_sample self e o k).
  { unfold k'. cbn [step]. rewrite He. unfold on_result. by destruct (r_interface (k_record k)). }
  set (r := Supervisor.finalize (with_model (oc_provider o) (oc_model o) (current k)) (oc_exitCode o)
    (end_reason (current k) (oc_timedOut o) (oc_container o) (oc_exitCode o)) (now e)).
  pose proof (current_id k Hid Hm) as Hcur.
  assert (Hread : readRun (files (k_world k')) (id_of k) = Some r).
  { rewrite Hk'. unfold conclude. rewrite finalize_files by done. unfold current at 1. cbn [write_record with_world k_world k_record files writeRun].
    change (readRun _ (runId (k_record k))) with
      (readRun (Supervisor.writeRun self (with_model (oc_provider o) (oc_model o) (current k)) (files (k_world k))) (id_of k)).
    rewrite <- Hcur at 1. change (runId (current k)) with (runId (with_model (oc_provider o) (oc_model o) (current k))).
    rewrite read_written. cbn [nullish default from_option id]. fold r.
    rewrite readRun_writeRun. by rewrite decide_True by done. }
  exists r. split; [done|]. split.
  { pose proof (worker_mirrors k (ev_result e o)) as Hw.
    specialize (Hw ltac:(intros ? [= <-]; done) Hm (id_of k) Hid). fold k' in Hw. rewrite Hread in Hw. exact Hw. }
  split_and!; [done..|]. unfold r, Supervisor.finalize, end_reason. fold asked. destruct asked; cbn [with_end state r_exitCode exitReason].
  - done.
  - by destruct (oc_timedOut o), (oc_container o), (Z.eqb (oc_exitCode o) 137).
Qed.

(** The resources of a run are sampled when it ends, and containers are started
    with [--rm]: when docker no longer knows the container, nothing is stored. *)
Theorem gone_container_unsampled e code reason k :
  (forall c, docker_stats e c = None) ->
  t_resources (store (k_world (finalize as_sample self e code reason k))) = t_resources (store (k_world k)).
Proof.
  intros Hgone. unfold finalize. destruct (k_finalizing k); [done|]. set (k1 := write_record self e _ k).
  assert (Hk1 : t_resources (store (k_world k1)) = t_resources (store (k_world k))).
  { unfold k1. cbn [write_record with_world k_world writeRun store]. unfold syncRunToUsage, syncRun.
    destruct (synced e); [|done]. by destruct (has_key _ _ _). }
  pose proof (recordUsage_spec (runId (k_record k1)) (k_usage k1) (opens e) (store (k_world k1))) as Hrec.
  destruct (recordUsage _ _ _ _ _) as [d [u|err]]; destruct Hrec as (_ & (_ & Hd & _) & _); rewrite Hk1 in Hd; cbn [k_world store]; [|done].
  unfold recordResourceSample. destruct (containerId _) as [c|]; [|done]. destruct (String.eqb c ""); [done|]. by rewrite Hgone.
Qed.
End facts.

(** *** Examples *)

(** JSON texts that are a digit, and numbers of one digit. *)
Definition digit_of (s : string) : option Q :=
  match s with String c "" => Some (inject_Z (Z.of_nat (nat_of_ascii c) - 48)) | _ => None end.
Definition digit_text : JsText := Build_JsText (fun s => jnum <$> digit_of s) digit_of (fun _ => "") (fun _ => "").
Definition digit_sample (j : json) : result UsageSample :=
  match j with
  | jnum q => Ok (mkSample "" "openai" "gpt" (Qnum q) 0 0 0 None None "t")
  | _ => throw EError "NOT NULL constraint failed"
  end.

Example mem_gib : @memUsageBytes digit_text (Some "2GiB ") = Some (2 * 1024 ^ 3)%Z.
Proof. reflexivity. Qed.

Definition sample_env : env := mkEnv "2026-01-02" true true (fun _ => None).
Definition sample_worker : worker :=
  mkWorker (writeRun "41" true (worker_running sample_run) no_history) None (worker_running sample_run) None false None.
Definition sample_outcome : outcome := mkOutcome 3 false false "openai" "gpt".
Definition sample_events : list event :=
  [ev_usage ("4" +:+ str1 LF); ev_usage ("5" +:+ str1 LF +:+ "not json" +:+ str1 LF); ev_result sample_env sample_outcome; ev_signal sample_env].

Lemma sample_worker_mirrors : mirrors (k_world sample_worker).
Proof. apply mirrors_write. by intros id _. Qed.

Lemma usage_recorded_once_witness :
  map s_tokensIn (usage_of (@run digit_text digit_sample "42" sample_events sample_worker)) = [4; 5]%Z /\
  exists before ev after, sample_events = before ++ ev :: after /\
    usage_of (@run digit_text digit_sample "42" sample_events sample_worker) =
    @reported digit_text digit_sample "r-1" (k_usage (@run digit_text digit_sample "42" before sample_worker)) (opens_of ev).
Proof.
  split; [by vm_compute|].
  destruct (@usage_recorded_once digit_text digit_sample "42" sample_events sample_worker eq_refl eq_refl)
    as [[H _]|(before & ev & after & H1 & _ & _ & H2 & _)]; [by vm_compute in H|]. by exists before, ev, after.
Defined.

Lemma returned_run_record_witness :
  exists r, readRun (files (k_world (@step digit_text digit_sample "42" sample_worker (ev_result sample_env sample_outcome)))) "r-1" = Some r /\
    state r = failed /\ r_exitCode r = Some 3%Z /\ exitReason r = Some r_exit.
Proof.
  destruct (@returned_run_record digit_text digit_sample "42" sample_env sample_outcome sample_worker
    eq_refl sample_worker_mirrors eq_refl eq_refl eq_refl ltac:(done)) as (r & H1 & _ & _ & _ & _ & H2).
  exists r. split; [exact H1|]. vm_compute in H2. exact H2.
Defined.
End Worker.
