(* ===== verification/System.v ===== *)
(** The report of the machine, [runtime/src/system]: the containers and processes
    that run, the known agents of other makers found among them, and the agents
    OpenAgentHub has installed. *)
From S2P Require Import Prelude NodePath Policy Config Requirements.

Module System.
Import NodePath Config Requirements.
Local Open Scope nat_scope.

(** ** Data *)

(** @src runtime/src/system/types.ts AgentStatus *)
Inductive AgentStatus := running | installed_ | unknown.

(** @src runtime/src/system/types.ts DetectionSource *)
Inductive DetectionSource := by_process | by_container | by_config | by_binary | by_port.

#[export] Instance AgentStatus_eq_dec : EqDecision AgentStatus.
Proof. solve_decision. Defined.
#[export] Instance DetectionSource_eq_dec : EqDecision DetectionSource.
Proof. solve_decision. Defined.

(** @src runtime/src/system/types.ts KnownAgentSpec *)
Record KnownAgentSpec := mkKnown {
  kn_id : string; kn_displayName : string; kn_description : string; kn_homepage : option string;
  processPatterns : list string; binaries : list string; kn_configPaths : list string;
  containerNamePatterns : list string; containerImagePatterns : list string; ports : list Z;
}.

(** @src runtime/src/system/types.ts AgentProcess *)
Record AgentProcess := mkProcess { ap_pid : Z; ap_command : string }.

(** @src runtime/src/system/types.ts DetectedAgent *)
Record DetectedAgent := mkDetectedAgent {
  da_id : string; da_displayName : string; da_description : string; da_homepage : option string; da_status : AgentStatus;
  detectedVia : list DetectionSource; processes : list AgentProcess; containerNames : list string;
  configPaths : list string; listeningPorts : list Z;
}.

Inductive manager := mb_openagenthub | mb_third_party.

(** @src runtime/src/system/types.ts ContainerInfo *)
Record ContainerInfo := mkContainer {
  c_id : string; c_name : string; c_image : string; c_command : string; c_state : string; c_status : string;
  c_ports : string; c_created : string; c_labels : string; c_mounts : string;
  matchedAgentId : option string; managedBy : option manager;
}.

(** @src runtime/src/system/types.ts OahInstalledAgent *)
Record OahInstalledAgent := mkOah {
  oa_spec : string; oa_version : string; oa_author : string; oa_trust : TrustLevel; oa_installedAt : string;
  oa_source : string; oa_path : string; oa_reviewStatus : option string; oa_statusCheckedAt : option string;
}.

(** What docker answered to the question for its version. *)
Record docker_status := mkDocker { d_version : option string; d_error : option string }.

(** @src runtime/src/system/types.ts HostInfo *)
Record HostInfo := mkHost {
  h_hostname : string; h_platform : string; h_arch : string; h_cpus : nat; h_uptimeSec : Z; h_loadavg : list Z;
  h_memTotalBytes : Z; h_memFreeBytes : Z; h_node : string; h_python : option string;
  h_docker_available : bool; h_docker : docker_status;
}.

(** @src runtime/src/system/types.ts SystemSnapshot *)
Record SystemSnapshot := mkSnapshot {
  ss_generatedAt : string; ss_host : HostInfo; ss_version : string; ss_agentsDir : string; ss_registryUrl : string;
  ss_installed : list OahInstalledAgent; ss_agents : list DetectedAgent; ss_containers : list ContainerInfo;
}.

(** @src runtime/src/system/catalog.ts KNOWN_AGENTS *)
Definition KNOWN_AGENTS : list KnownAgentSpec :=
  [mkKnown "openclaw" "OpenClaw" "Full-system personal AI agent with messaging channels" (Some "https://openclaw.ai")
     ["openclaw"] ["openclaw"] [".openclaw/openclaw.json"] ["openclaw"] ["openclaw"] [18789%Z];
   mkKnown "hermes" "Hermes Agent" "Nous Research agentic terminal assistant" (Some "https://hermes-agent.nousresearch.com")
     ["hermes"] ["hermes"] [".hermes/config.yaml"; ".hermes/.env"] ["hermes"] ["hermes-agent"; "nousresearch/hermes"]
     [8642%Z; 8643%Z; 9119%Z]].

(** ** Detection *)

Definition is_digit_char (c : ascii) : bool := Nat.leb 48 (nat_of_ascii c) && Nat.leb (nat_of_ascii c) 57.

(** White space, digits, white space, and the rest, which holds no line break.
    @src runtime/src/system/detect.ts parsePsLine *)
Definition parsePsLine (line : string) : option AgentProcess :=
  let '(digits, rest) := js_span is_digit_char (js_trim_start line) in
  let command := js_trim_start rest in
  if String.eqb digits "" || String.eqb rest command || js_has_char LF command || js_has_char "013"%char command then None
  else Some (mkProcess (digits_value 0 digits) command).

(** [fields] are the fields of a line that docker prints as JSON, all of them texts;
    [None] when the line is not JSON.
    @src runtime/src/system/detect.ts parseContainerLine *)
Definition parseContainerLine (fields : string -> option (obj string)) (line : string) : option ContainerInfo :=
  raw ← fields line;
  let field k := nullish (obj_get k raw) "" in
  Some (mkContainer (field "ID") (nullish (head (js_split "," (field "Names"))) "") (field "Image") (field "Command") (field "State")
          (field "Status") (field "Ports") (field "CreatedAt") (field "Labels") (field "Mounts") None None).

Definition contains_some (patterns : list string) (s : string) : bool :=
  existsb (fun p => js_includes (js_toLowerCase s) (js_toLowerCase p)) patterns.

(** @src runtime/src/system/detect.ts processMatches *)
Definition processMatches (spec : KnownAgentSpec) (commandLine : string) : bool := contains_some (processPatterns spec) commandLine.

(** @src runtime/src/system/detect.ts containerMatches *)
Definition containerMatches (spec : KnownAgentSpec) (c : ContainerInfo) : bool :=
  contains_some (containerNamePatterns spec) (c_name c) || contains_some (containerImagePatterns spec) (c_image c).

(** @src runtime/src/system/detect.ts isOahContainer *)
Definition isOahContainer (c : ContainerInfo) : bool := js_includes (js_toLowerCase (c_mounts c)) "oah-deps-".

(** The machine: what commands print ([None] when they fail), files, programs on
    the path, and ports one can connect to. *)
Record machine := mkMachine {
  docker_version_out : string + string;
  docker_ps : bool -> option string;
  ps_out : option string;
  exists_file : string -> bool;
  on_path : string -> bool;
  listening : Z -> bool;
}.

Section machine.
Context (fields : string -> option (obj string)) (m : machine).

(** The answer is asked for once and kept.
    @src runtime/src/system/index.ts dockerStatus *)
Definition dockerStatus (cached : option docker_status) : docker_status :=
  match cached with
  | Some d => d
  | None => match docker_version_out m with
            | inl out => mkDocker (if String.eqb (js_trim out) "" then None else Some (js_trim out)) None
            | inr err => mkDocker None (Some err)
            end
  end.

(** @src runtime/src/system/index.ts dockerVersion *)
Definition dockerVersion (cached : option docker_status) : option string := d_version (dockerStatus cached).

(** @src runtime/src/system/index.ts listContainers *)
Definition listContainers (all : bool) (cached : option docker_status) : list ContainerInfo :=
  if truthy (dockerVersion cached) then
    match docker_ps m all with
    | Some out => omap (parseContainerLine fields) (List.filter (fun l => negb (String.eqb l "")) (map js_trim (js_split LF out)))
    | None => []
    end
  else [].

(** @src runtime/src/system/index.ts psLines *)
Definition psLines : list string := match ps_out m with Some out => js_split LF out | None => [] end.

Definition add_if (b : bool) (s : DetectionSource) (l : list DetectionSource) : list DetectionSource := if b then l ++ [s] else l.

(** One agent of the catalog.
    @src runtime/src/system/index.ts 96-128 detectAgents *)
Definition detect_agent (home : string) (procs : list AgentProcess) (containers : list ContainerInfo) (spec : KnownAgentSpec) : DetectedAgent :=
  let agentProcesses := List.filter (fun p => processMatches spec (ap_command p)) procs in
  let matchedContainers := List.filter (containerMatches spec) containers in
  let paths := List.filter (exists_file m) (map (join home) (kn_configPaths spec)) in
  let binary := existsb (on_path m) (binaries spec) in
  let open_ports := List.filter (listening m) (ports spec) in
  let via := add_if (negb (Nat.eqb (length open_ports) 0)) by_port
    (add_if binary by_binary
      (add_if (negb (Nat.eqb (length paths) 0)) by_config
        (add_if (negb (Nat.eqb (length matchedContainers) 0)) by_container
          (add_if (negb (Nat.eqb (length agentProcesses) 0)) by_process [])))) in
  let status :=
    if negb (Nat.eqb (length agentProcesses) 0) || existsb (fun c => String.eqb (c_state c) "running") matchedContainers
       || negb (Nat.eqb (length open_ports) 0) then running
    else if negb (Nat.eqb (length paths) 0) || negb (Nat.eqb (length matchedContainers) 0) || binary then installed_
    else unknown in
  mkDetectedAgent (kn_id spec) (kn_displayName spec) (kn_description spec) (kn_homepage spec) status via agentProcesses
    (map c_name matchedContainers) paths open_ports.

(** @src runtime/src/system/index.ts detectAgents *)
Definition detectAgents (home : string) (containers : list ContainerInfo) : list DetectedAgent :=
  map (detect_agent home (omap parsePsLine psLines) containers) KNOWN_AGENTS.

(** ** The snapshot *)

(** The readings of [node:os]. *)
Record os_info := mkOs {
  os_hostname : string; os_platform : string; os_arch : string; os_cpus : nat; os_uptime : Z; os_loadavg : list Z;
  os_totalmem : Z; os_freemem : Z;
}.

(** @src runtime/src/system/index.ts hostInfo *)
Definition hostInfo (os : os_info) (spawn : string -> option string) (cached : option docker_status) : HostInfo :=
  let rt := detectRuntime spawn in
  let d := dockerStatus cached in
  mkHost (os_hostname os) (os_platform os) (os_arch os) (os_cpus os) (os_uptime os) (os_loadavg os) (os_totalmem os) (os_freemem os)
    (nullish (d_node rt) "unknown") (d_python rt) (truthy (d_version d)) d.

(** @src runtime/src/system/index.ts installedAgents *)
Definition installedAgents (h : Home) (config : OpenAgentHubConfig) : list OahInstalledAgent :=
  map (fun '(spec, a) =>
         mkOah spec (ia_version a) (ia_author a) (ia_trust a) (ia_installedAt a) (ia_source a)
           (installedAgentDir h (mkKey (ia_namespace a) (ia_name a) (ia_version a))) (ia_reviewStatus a) (ia_statusCheckedAt a))
    (nullish (installed config) []).

(** The version of the package, when its file can be read.
    @src runtime/src/system/index.ts runtimeVersion *)
Definition runtimeVersion (package_version : option string) : string := nullish package_version "0.1.0".

(** @src runtime/src/system/index.ts 179-187 systemSnapshot *)
Definition annotate (agents : list DetectedAgent) (c : ContainerInfo) : ContainerInfo :=
  let hit := List.find (fun a => mem_str (c_name c) (containerNames a)) agents in
  mkContainer (c_id c) (c_name c) (c_image c) (c_command c) (c_state c) (c_status c) (c_ports c) (c_created c) (c_labels c) (c_mounts c)
    (da_id <$> hit)
    (if isOahContainer c then Some mb_openagenthub else match hit with Some _ => Some mb_third_party | None => None end).

(** The kept answer of docker is forgotten first; the containers and the host are
    then told of the same answer (when no other snapshot runs at the same time).
    @src runtime/src/system/index.ts systemSnapshot *)
Definition systemSnapshot (now home : string) (all : bool) (os : os_info) (spawn : string -> option string) (package_version : option string)
    (h : Home) (config : config_file) : result SystemSnapshot :=
  let asked := Some (dockerStatus None) in
  let containers := listContainers all asked in
  let agents := detectAgents home containers in
  let annotated := map (annotate agents) containers in
  config ← loadConfig config;
  mret (mkSnapshot now (hostInfo os spawn asked) (runtimeVersion package_version) (AGENTS_DIR h)
          (nullish (registryUrl config) REGISTRY_DEFAULT) (installedAgents h config) agents annotated).
End machine.
(** ** Properties *)

(** *** Lines of ps *)

Definition no_break (s : string) : bool := negb (js_has_char LF s) && negb (js_has_char "013"%char s).

Lemma trim_start_solid s : (forall c t, s = String c t -> Ascii.is_space c = false) -> js_trim_start s = s.
Proof. intros H. destruct s as [|c t]; [done|]. cbn. by rewrite (H c t eq_refl). Qed.

Lemma trim_start_spaces w s :
  js_all Ascii.is_space w = true -> (forall c t, s = String c t -> Ascii.is_space c = false) -> js_trim_start (w +:+ s) = s.
Proof.
  intros Hw Hs. induction w as [|c w IH]; [by apply trim_start_solid|]. cbn in *. apply andb_prop in Hw as [Hc Hw].
  rewrite Hc. auto.
Qed.

Lemma digit_not_space c : is_digit_char c = true -> Ascii.is_space c = false.
Proof. destruct c as [[] [] [] [] [] [] [] []]; vm_compute; done. Qed.

Lemma span_digits d s :
  js_all is_digit_char d = true -> (forall c t, s = String c t -> is_digit_char c = false) -> js_span is_digit_char (d +:+ s) = (d, s).
Proof.
  intros Hd Hs. induction d as [|c d IH]; cbn in *.
  - destruct s as [|c t]; [done|]. cbn. by rewrite (Hs c t eq_refl).
  - apply andb_prop in Hd as [Hc Hd]. rewrite Hc. by rewrite IH.
Qed.

(** A line of [ps -o pid=,command=] is read as its process id and its command,
    however it is padded. *)
Theorem parsePsLine_roundtrip pad digits gap command :
  js_all Ascii.is_space pad = true -> js_all is_digit_char digits = true -> digits <> "" ->
  js_all Ascii.is_space gap = true -> gap <> "" -> no_break command = true ->
  (forall c t, command = String c t -> Ascii.is_space c = false) ->
  parsePsLine (pad +:+ digits +:+ gap +:+ command) = Some (mkProcess (digits_value 0 digits) command).
Proof.
  intros Hpad Hdig Hd Hgap Hg Hb Hc. unfold parsePsLine.
  assert (Hsp : forall c, Ascii.is_space c = true -> is_digit_char c = false).
  { intros c Hs. destruct (is_digit_char c) eqn:E; [|done]. apply digit_not_space in E. congruence. }
  rewrite trim_start_spaces; [|done|].
  - rewrite span_digits; [|done|].
    + rewrite trim_start_spaces by done. unfold no_break in Hb. apply andb_prop in Hb as [H1%negb_true_iff H2%negb_true_iff].
      rewrite H1, H2. apply String.eqb_neq in Hd. rewrite Hd. cbn [orb].
      destruct (String.eqb_spec (gap +:+ command) command) as [Heq|]; [|done]. exfalso. apply Hg.
      apply (f_equal String.length) in Heq. rewrite slength_app in Heq. destruct gap; [done|]. cbn in Heq. lia.
    + intros c t Heq. destruct gap as [|c' gap]; [done|]. cbn in Heq. injection Heq as -> _. cbn in Hgap.
      apply andb_prop in Hgap as [? _]. auto.
  - intros c t Heq. destruct digits as [|c' d]; [done|]. cbn in Heq. injection Heq as -> _. cbn in Hdig.
    apply andb_prop in Hdig as [? _]. by apply digit_not_space.
Qed.

(** *** What is detected *)

Section detected.
Context (fields : string -> option (obj string)) (m : machine).

(** The evidence there is for an agent, by its kind. *)
Definition evidence (home : string) (procs : list AgentProcess) (containers : list ContainerInfo) (spec : KnownAgentSpec)
    (s : DetectionSource) : Prop :=
  match s with
  | by_process => exists p, p ∈ procs /\ processMatches spec (ap_command p) = true
  | by_container => exists c, c ∈ containers /\ containerMatches spec c = true
  | by_config => exists p, p ∈ kn_configPaths spec /\ exists_file m (join home p) = true
  | by_binary => exists b, b ∈ binaries spec /\ on_path m b = true
  | by_port => exists p, p ∈ ports spec /\ listening m p = true
  end.
Definition running_container (containers : list ContainerInfo) (spec : KnownAgentSpec) : Prop :=
  exists c, c ∈ containers /\ containerMatches spec c = true /\ c_state c = "running".

Lemma filter_nonempty {A} (f : A -> bool) l : negb (Nat.eqb (length (List.filter f l)) 0) = true <-> exists x, x ∈ l /\ f x = true.
Proof.
  induction l as [|x l IH]; cbn; [split; [done|by intros (? & ?%elem_of_nil & _)]|].
  destruct (f x) eqn:E; cbn.
  - split; [|done]. intros _. exists x. split; [by left|done].
  - rewrite IH. split; intros (y & Hy & Hf); exists y; (split; [|done]); [by right|].
    by apply elem_of_cons in Hy as [->|?]; [congruence|].
Qed.

Lemma existsb_elem {A} (f : A -> bool) l : existsb f l = true <-> exists x, x ∈ l /\ f x = true.
Proof.
  rewrite existsb_exists. split; intros (x & Hx & Hf); exists x; (split; [|done]); by apply list_elem_of_In.
Qed.

Lemma elem_add_if b s x l : x ∈ add_if b s l <-> x ∈ l \/ (b = true /\ x = s).
Proof. destruct b; cbn; [rewrite elem_of_app, list_elem_of_singleton|]; intuition congruence. Qed.

(** An agent of the catalog is reported with exactly the kinds of evidence there
    are; as running exactly when a process matches, a matching container runs or one
    of its ports is open; as unknown exactly when there is no evidence at all; and as
    installed otherwise. *)
Theorem detect_agent_spec home procs containers spec :
  let a := detect_agent m home procs containers spec in
  (forall s, s ∈ detectedVia a <-> evidence home procs containers spec s) /\
  (da_status a = running <-> evidence home procs containers spec by_process \/ running_container containers spec \/
     evidence home procs containers spec by_port) /\
  (da_status a = unknown <-> detectedVia a = []).
Proof.
  cbv zeta. unfold detect_agent. cbn [detectedVia da_status].
  pose proof (filter_nonempty (fun p => processMatches spec (ap_command p)) procs) as Hp.
  pose proof (filter_nonempty (containerMatches spec) containers) as Hc.
  pose proof (filter_nonempty (exists_file m) (map (join home) (kn_configPaths spec))) as Hf.
  pose proof (filter_nonempty (listening m) (ports spec)) as Ho.
  pose proof (existsb_elem (on_path m) (binaries spec)) as Hb.
  assert (Hr : existsb (fun c => String.eqb (c_state c) "running") (List.filter (containerMatches spec) containers) = true <-> running_container containers spec).
  { rewrite existsb_elem. split; intros (c & H1 & H2).
    - apply list_elem_of_In, filter_In in H1 as [H1 H3]. exists c. rewrite list_elem_of_In. split_and!; [done..|by apply String.eqb_eq].
    - destruct H2 as [H2 H3]. exists c. split; [|by apply String.eqb_eq]. apply list_elem_of_In, filter_In. by rewrite <- list_elem_of_In. }
  assert (Hf' : (exists x, x ∈ map (join home) (kn_configPaths spec) /\ exists_file m x = true) <-> evidence home procs containers spec by_config).
  { cbn. split; [intros (x & (p & -> & Hin)%list_elem_of_fmap & Hx); by exists p|]. intros (p & Hin & Hx).
    exists (join home p). split; [apply list_elem_of_fmap; by exists p|done]. }
  rewrite Hf' in Hf. clear Hf'.
  assert (Hrc : running_container containers spec -> negb (Nat.eqb (length (List.filter (containerMatches spec) containers)) 0) = true).
  { intros (c & H1 & H2 & _). apply Hc. by exists c. }
  rewrite <- Hr in *. clear Hr. split_and!.
  - intros s. rewrite !elem_add_if, elem_of_nil, Hp, Hc, Hf, Hb, Ho. destruct s; cbn [evidence]; intuition congruence.
  - cbn [evidence]. rewrite <- Hp, <- Ho.
    destruct (negb _), (existsb _ (List.filter _ _)), (negb (Nat.eqb (length (List.filter (listening m) _)) 0)); cbn [orb];
      try (destruct (_ || _)); intuition congruence.
  - revert Hrc. clear. destruct (negb (Nat.eqb (length (List.filter (fun p => processMatches spec (ap_command p)) _)) 0)),
      (existsb _ (List.filter _ _)), (negb (Nat.eqb (length (List.filter (listening m) _)) 0)),
      (negb (Nat.eqb (length (List.filter (exists_file m) _)) 0)), (negb (Nat.eqb (length (List.filter (containerMatches spec) _)) 0)),
      (existsb (on_path m) _); cbn; intuition congruence.
Qed.

(** *** Containers *)

(** Every container is reported; one that matches an agent of the catalog is
    attributed to an agent; one with a dependency volume counts as OpenAgentHub's own
    whatever else it matches, any other attributed one as a third party's. *)
Theorem annotate_spec home procs containers c :
  c ∈ containers ->
  let agents := map (detect_agent m home procs containers) KNOWN_AGENTS in
  let c' := annotate agents c in
  (c_id c' = c_id c /\ c_name c' = c_name c /\ c_state c' = c_state c) /\
  (matchedAgentId c' = None <-> forall spec d, spec ∈ KNOWN_AGENTS -> d ∈ containers -> containerMatches spec d = true -> c_name d <> c_name c) /\
  (managedBy c' = Some mb_openagenthub <-> isOahContainer c = true) /\
  (managedBy c' = None <-> isOahContainer c = false /\ matchedAgentId c' = None).
Proof.
  intros Hin agents c'. unfold c', annotate. cbn [c_id c_name c_state matchedAgentId managedBy].
  set (hit := List.find _ agents). split; [done|].
  assert (Hhit : hit = None <-> forall spec d, spec ∈ KNOWN_AGENTS -> d ∈ containers -> containerMatches spec d = true -> c_name d <> c_name c).
  { unfold hit. split.
    - intros Hnone spec d Hspec Hd Hm Heq.
      assert (Hf := find_none _ _ Hnone (detect_agent m home procs containers spec) ltac:(apply in_map; by apply list_elem_of_In)).
      cbn [detect_agent containerNames] in Hf. rewrite <- not_true_iff_false, mem_str_spec in Hf. apply Hf. rewrite <- Heq. apply list_elem_of_fmap. exists d.
      split; [done|]. apply list_elem_of_In, filter_In. split; [by apply list_elem_of_In|done].
    - intros Hno. destruct (List.find _ agents) as [a|] eqn:E; [|done]. exfalso. apply find_some in E as [Ha Hn].
      apply in_map_iff in Ha as (spec & <- & Hspec). apply mem_str_spec in Hn. cbn in Hn.
      apply list_elem_of_fmap in Hn as (d & Heq & Hd). apply list_elem_of_In, filter_In in Hd as [Hd Hm].
      apply (Hno spec d); [by apply list_elem_of_In..|done|done]. }
  split; [rewrite <- Hhit; by destruct hit|]. destruct (isOahContainer c), hit; cbn; intuition congruence.
Qed.

(** Without docker there are no containers in the report, and the host says that
    docker is not available: both go by one answer. *)
Theorem snapshot_docker_agrees now home all os spawn pv h config s :
  systemSnapshot fields m now home all os spawn pv h config = Ok s ->
  h_docker (ss_host s) = dockerStatus m None /\
  (h_docker_available (ss_host s) = false -> ss_containers s = []).
Proof.
  unfold systemSnapshot. destruct (loadConfig config) as [c|e]; cbn [mbind result_mbind result_bind]; [|done]. intros [= <-].
  split; [done|]. cbn [ss_host ss_containers h_docker_available hostInfo]. intros Hd. unfold listContainers, dockerVersion. by rewrite Hd.
Qed.
End detected.
End System.
