(* ===== verification/ManagedRuns.v ===== *)
(** Managing detached runs: the operations of [cli/src/lib/supervisor.ts] that talk
    to processes, docker and the clock, and the commands that use them
    ([commands/stop.ts], [restart.ts] and the detached part of [run.ts]).  The
    decisions on records are those of [Supervisor]. *)
From S2P Require Import Prelude Trace Requirements Supervisor ControlPlane.

Module ManagedRuns.
Import Trace Requirements Supervisor.
Local Open Scope Z_scope.

(** @src cli/src/lib/supervisor.ts 21-22 RUN_START_TIMEOUT_MS *)
Definition RUN_START_TIMEOUT_MS : Z := 45000.
Definition STOP_ESCALATION_MS : Z := 10000.
Definition CONTROL_STOP_TIMEOUT_MS : Z := ControlPlane.CONTROL_STOP_TIMEOUT_MS.

(** What is asked of the outside.  A signal goes to a process group. *)
Inductive ract :=
| R_read (id : string) | R_write (r : RunRecord) | R_now | R_iso | R_sleep (ms : Z)
| R_docker (args : list string) | R_docker_stop (container : string)
| R_alive (pid : Z) | R_group (pid : Z) | R_signal (pid : Z) (sig : string)
| R_forget_logs (id : string) | R_spawn (id : string) (input : option string)
| R_prepare (ns nm v : string) | R_port.

(** What [prepareRunContext] gives. *)
Record prepared := mkPrepared { pr_agentKey : string; pr_version : string; pr_trust : TrustLevel; pr_digest : option string }.

(** The answers, given everything done so far; other processes may write the
    record of a run at any time, so a read may answer anything. *)
Record world := mkWorld {
  w_read : list ract -> string -> option RunRecord;
  w_now : list ract -> Z;
  w_iso : list ract -> string;
  w_docker : list ract -> list string -> result string;   (* its output, or why it failed *)
  w_alive : list ract -> Z -> bool;
  w_group : list ract -> Z -> bool;
  w_child : list ract -> option Z;
  w_prepare : list ract -> string -> string -> string -> result prepared;
  w_port : list ract -> result Z;
}.

Section managed.
Context (w : world).

Local Abbreviation M := (tr ract).

Definition read (id : string) : M (option RunRecord) := ask (R_read id) (fun h => w_read w h id).
Definition write (r : RunRecord) : M unit := ask (R_write r) (fun _ => tt).
Definition clock : M Z := ask R_now (w_now w).
Definition iso : M string := ask R_iso (w_iso w).
Definition sleep (ms : Z) : M unit := ask (R_sleep ms) (fun _ => tt).

(** @src cli/src/lib/supervisor.ts processGroupAlive *)
Definition processGroupAlive (pid : Z) : M bool := ask (R_group pid) (fun h => w_group w h pid).

Definition isProcessAlive (pid : Z) : M bool := ask (R_alive pid) (fun h => w_alive w h pid).

(** A query of docker; the call throws when docker cannot be started or fails.
    @src cli/src/lib/supervisor.ts dockerRun *)
Definition dockerRun (args : list string) : M string := act (R_docker args) (fun h => w_docker w h args).

Definition ps_args (id : string) : list string := ["ps"; "-a"; "--filter"; "label=oah.run_id=" +:+ id; "--format"; "{{.ID}}"].
Definition first_line (out : string) : string := nullish (head (js_split LF (js_trim out))) "".

(** One flag of the state of a container; a call that fails counts as no. *)
Definition inspect_flag (field container : string) : M bool :=
  tr_catch (out ← dockerRun ["inspect"; "-f"; field; container]; mret (String.eqb (js_trim out) "true")) (fun _ => mret false).

(** The container of a run by its label; none also when docker fails.
    @src cli/src/lib/supervisor.ts dockerContainerByRunId *)
Definition dockerContainerByRunId (id : string) : M (option container_info) :=
  tr_catch
    (out ← dockerRun (ps_args id);
     let container := first_line out in
     if String.eqb container "" then mret None
     else
       running ← inspect_flag "{{.State.Running}}" container;
       oomKilled ← inspect_flag "{{.State.OOMKilled}}" container;
       mret (Some (mkContainer container running oomKilled)))
    (fun _ => mret None).

(** A signal that fails is ignored. *)
Definition signal (pid : Z) (sig : string) : M unit := ask (R_signal pid sig) (fun _ => tt).

(** ** Stopping *)

Fixpoint group_loop (fuel : nat) (pid deadline : Z) : M unit :=
  match fuel with
  | O => mret tt
  | S f =>
      now ← clock;
      if now <? deadline then
        alive ← processGroupAlive pid;
        if (alive : bool) then _ ← sleep 100; group_loop f pid deadline else mret tt
      else mret tt
  end.

(** @src cli/src/lib/supervisor.ts killProcessGroup *)
Definition killProcessGroup (pid : Z) : M unit :=
  alive ← processGroupAlive pid;
  _ ← (if (alive : bool) then signal pid "SIGTERM" else mret tt);
  now ← clock;
  _ ← group_loop (ControlPlane.polls CONTROL_STOP_TIMEOUT_MS 100) pid (now + CONTROL_STOP_TIMEOUT_MS);
  alive ← processGroupAlive pid;
  if (alive : bool) then signal pid "SIGKILL" else mret tt.

Definition manual_stop (now : string) (r : RunRecord) : RunRecord := with_end exited (Some 0) r_manual_stop now r.

Fixpoint settle_loop (fuel : nat) (id : string) (fallback : RunRecord) (isDead : M bool) (deadline : Z) : M (bool * RunRecord) :=
  let late :=
    record ← read id;
    let r := nullish record fallback in mret (negb (runIsActive r), r) in
  match fuel with
  | O => late
  | S f =>
      now ← clock;
      if now <? deadline then
        record ← read id;
        match record with
        | None => _ ← sleep 100; settle_loop f id fallback isDead deadline
        | Some r =>
            if negb (bool_decide (state r = stopping)) then mret (true, r)
            else
              dead ← isDead;
              if (dead : bool) then
                t ← iso;
                _ ← write (manual_stop t r);
                mret (true, manual_stop t r)
              else _ ← sleep 100; settle_loop f id fallback isDead deadline
        end
      else late
  end.

Definition settle_timeout (r : RunRecord) : Z := match sandbox r with rs_container => STOP_ESCALATION_MS + 5000 | _ => 5000 end.

(** @src cli/src/lib/supervisor.ts settleRun *)
Definition settleRun (id : string) (fallback : RunRecord) (isDead : M bool) : M (bool * RunRecord) :=
  now ← clock;
  settle_loop (ControlPlane.polls (settle_timeout fallback) 100) id fallback isDead (now + settle_timeout fallback).

(** A process id the code takes for one: present and not 0. *)
Definition real_pid (p : option Z) : option Z := match p with Some 0 => None | p => p end.

Definition container_dead (id : string) : M bool := c ← dockerContainerByRunId id; mret (match c with None => true | Some _ => false end).
Definition process_dead (p : option Z) : M bool :=
  match real_pid p with
  | None => mret true
  | Some p => alive ← isProcessAlive p;
              if (alive : bool) then mret false else group ← processGroupAlive p; mret (negb group)
  end.

(** @src cli/src/lib/supervisor.ts stopRun *)
Definition stopRun (id : string) : M (bool * RunRecord) :=
  record ← read id;
  match stop_request id record with
  | Throw e => tr_lift (Throw e)
  | Ok record =>
      _ ← write record;
      match sandbox record with
      | rs_container =>
          found ← (if truthy (containerId record) then mret None else dockerContainerByRunId id);
          match stop_container record found with
          | (Ok c, _) => _ ← ask (R_docker_stop c) (fun _ => tt); settleRun id record (container_dead id)
          | (Throw e, back) => _ ← (match back with Some r => write r | None => mret tt end); tr_lift (Throw e)
          end
      | _ =>
          _ ← (match real_pid (pid record) with Some p => killProcessGroup p | None => mret tt end);
          settleRun id record (process_dead (pid record))
      end
  end.

(** ** Starting *)

(** The input goes to the worker's standard input.
    @src cli/src/lib/supervisor.ts startManagedRun *)
Definition startManagedRun (opts : ManagedRunOptions) : M (RunRecord * Z) :=
  now ← iso;
  let record := initial_record opts now in
  _ ← write record;
  child ← ask (R_spawn (mo_runId opts) (if truthy (mo_input opts) then mo_input opts else None)) (w_child w);
  _ ← write (with_pid child record);
  mret (with_pid child record, nullish child 0).

Fixpoint start_loop (fuel : nat) (id : string) (deadline : Z) : M RunRecord :=
  let gone := tr_throw EError ("run " +:+ id +:+ " disappeared while starting") in
  let late := record ← read id; match record with Some r => mret r | None => gone end in
  match fuel with
  | O => late
  | S f =>
      now ← clock;
      if now <? deadline then
        record ← read id;
        match record with
        | None => gone
        | Some r => if bool_decide (state r ∈ [running; exited; failed; orphaned]) then mret r
                    else _ ← sleep 250; start_loop f id deadline
        end
      else late
  end.

(** @src cli/src/lib/supervisor.ts waitForRunStart *)
Definition waitForRunStart (id : string) : M RunRecord :=
  now ← clock; start_loop (ControlPlane.polls RUN_START_TIMEOUT_MS 250) id (now + RUN_START_TIMEOUT_MS).

(** [restartPolicy] is taken over from the old record.
    @src cli/src/lib/supervisor.ts restartRun *)
Definition restartRun (opts : ManagedRunOptions) : M (RunRecord * Z) :=
  let id := mo_runId opts in
  existing ← read id;
  match existing with
  | None => tr_throw EError ("run " +:+ id +:+ " not found")
  | Some old =>
      over ← (if runIsActive old then '(_, r) ← stopRun id; mret (negb (runIsActive r)) else mret true);
      if negb over then tr_throw EError ("run " +:+ id +:+ " did not stop in time")
      else
        _ ← ask (R_forget_logs id) (fun _ => tt);
        startManagedRun (mkManaged id (mo_agentKey opts) (mo_version opts) (mo_interface opts) (mo_sandbox opts) (mo_port opts)
                           (mo_timeoutMs opts) (Some (restartPolicy old)) (mo_digest opts) (mo_input opts))
  end.

(** ** Commands *)

(** [s.slice(a, b)] with its negative positions. *)
Definition slice_pos (i : Z) (s : string) : nat :=
  let len := Z.of_nat (String.length s) in Z.to_nat (if i <? 0 then Z.max 0 (len + i) else Z.min i len).
Definition js_slice (a b : Z) (s : string) : string := js_take (slice_pos b s - slice_pos a s) (js_drop (slice_pos a s) s).
Definition last_index_z (c : ascii) (s : string) : Z := match js_lastIndexOf c s with Some n => Z.of_nat n | None => -1 end.

(** @src cli/src/commands/restart.ts 22-27 run *)
Definition restart_spec (key : string) : string * string * string :=
  let at_ := last_index_z "@" key in
  let slash := last_index_z "/" key in
  (js_slice 0 slash key, js_slice (slash + 1) at_ key, js_slice (at_ + 1) (Z.of_nat (String.length key)) key).

Definition sandbox_by_trust (t : TrustLevel) : run_sandbox := match t with trusted | local => rs_process | _ => rs_container end.

Definition allocated : M Z := act R_port (w_port w).

(** The command fails with a message, or prints one.
    @src cli/src/commands/stop.ts run *)
Definition stop_command (id : string) : M string :=
  before ← read id;
  match before with
  | None => tr_throw EError ("run " +:+ id +:+ " not found (see 'openagenthub history')")
  | Some _ =>
      '(stopped, record) ← stopRun id;
      if negb stopped then tr_throw EError ("run " +:+ id +:+ " did not stop in time; check 'openagenthub logs " +:+ id +:+ "'")
      else mret ("run " +:+ id +:+ " stopped")
  end.

(** @src cli/src/commands/restart.ts run *)
Definition restart_command (id : string) (input : option string) : M string :=
  existing ← read id;
  match existing with
  | None => tr_throw EError ("run " +:+ id +:+ " not found (see 'openagenthub history')")
  | Some old =>
      let '(ns, nm, v) := restart_spec (r_agentKey old) in
      ctx ← tr_catch (act (R_prepare ns nm v) (fun h => w_prepare w h ns nm v))
              (fun e => tr_throw EError ("restart blocked: " +:+ err_message e));
      port ← (match r_interface old with
              | ri_http => match port old with Some p => mret (Some p) | None => p ← allocated; mret (Some p) end
              | _ => mret None
              end);
      '(record, _) ← restartRun (mkManaged id (pr_agentKey ctx) (pr_version ctx) (r_interface old) (sandbox_by_trust (pr_trust ctx))
                                   port (timeoutMs old) None (pr_digest ctx) input);
      started ← waitForRunStart id;
      match state started with
      | failed => tr_throw EError ("run " +:+ id +:+ " failed to start; see 'openagenthub logs " +:+ id +:+ "'")
      | _ => mret ("run " +:+ id +:+ " restarted")
      end
  end.

(** The detached part of [run]; [fresh] is the new run id.
    @src cli/src/commands/run.ts 63-87 run *)
Definition run_detached (ctx : prepared) (fresh : string) (iface : run_interface) (timeout : option Z) (input : option string) : M RunRecord :=
  port ← (match iface with ri_http => p ← allocated; mret (Some p) | _ => mret None end);
  _ ← startManagedRun (mkManaged fresh (pr_agentKey ctx) (pr_version ctx) iface (sandbox_by_trust (pr_trust ctx)) port timeout
                         None (pr_digest ctx) input);
  record ← waitForRunStart fresh;
  match state record with
  | failed => tr_throw EError ("run " +:+ fresh +:+ " failed to start; see 'openagenthub logs " +:+ fresh +:+ "'")
  | _ => mret record
  end.
End managed.

(** @src cli/src/lib/supervisor.ts allocatePort *)
Definition allocatePort (w : ControlPlane.world) : tr ControlPlane.action Z := ControlPlane.selectPort w 31977.

(** [answer] is the status of the reply, [None] when there is none in time.
    @src cli/src/lib/supervisor.ts probeHttpHealth *)
Definition probeHttpHealth (answer : option Z) : RunHealth :=
  match answer with Some st => if (200 <=? st) && (st <? 300) then h_ok else h_unhealthy | None => h_unhealthy end.

(** ** Properties *)

Section facts.
Context (w : world).
Local Abbreviation M := (tr ract).

(** *** The loops end *)

Definition waited (l : list ract) : Z := fold_right (fun a n => match a with R_sleep ms => ms + n | _ => n end) 0 l.

(** Time passes at least by what is slept. *)
Definition clock_law : Prop := forall h l, w_now w h + waited l <= w_now w (h ++ l).

Definition awake (a : ract) : Prop := match a with R_sleep _ => False | _ => True end.

Lemma waited_app a b : waited (a ++ b) = waited a + waited b.
Proof. unfold waited. induction a as [|x a IH]; [done|]. cbn [app fold_right]. destruct x; rewrite IH; lia. Qed.

Lemma slept_awake l : Forall awake l -> waited l = 0.
Proof. induction 1 as [|x l Hx _ IH]; [done|]. cbn. by destruct x. Qed.

(** Looking for the container of a run only asks docker. *)
Lemma find_appends P id : (forall args, P (R_docker args)) -> appends P (dockerContainerByRunId w id).
Proof.
  intros HP. assert (Hflag : forall f c, appends P (inspect_flag w f c)).
  { intros f c. unfold inspect_flag, dockerRun. apply appends_catch; [|intros; apply appends_ret].
    apply appends_bind; [by apply appends_act|intros; apply appends_ret]. }
  unfold dockerContainerByRunId, dockerRun. apply appends_catch; [|intros; apply appends_ret].
  apply appends_bind; [by apply appends_act|intros out]. cbv zeta. destruct (String.eqb _ ""); [apply appends_ret|].
  apply appends_bind; [apply Hflag|intros]. apply appends_bind; [apply Hflag|intros; apply appends_ret].
Qed.

(** It finds the one docker lists first; when it finds none, docker lists none or failed. *)
Lemma find_answers id h h' o : dockerContainerByRunId w id h = (h', Ok o) ->
  match o with
  | Some c => exists out, w_docker w h (ps_args id) = Ok out /\ first_line out = ci_id c
  | None => (exists out, w_docker w h (ps_args id) = Ok out /\ first_line out = "") \/ exists e, w_docker w h (ps_args id) = Throw e
  end.
Proof.
  unfold dockerContainerByRunId, tr_catch. rewrite tr_bind_run. unfold dockerRun at 1, act.
  destruct (w_docker w h (ps_args id)) as [out|e]; [|intros [= _ <-]; right; by eexists]. cbv zeta.
  destruct (String.eqb_spec (first_line out) "") as [E|E]; [intros [= _ <-]; left; by exists out|].
  assert (Hflag : forall f c h, exists h' b, inspect_flag w f c h = (h', Ok b)).
  { intros f c h0. unfold inspect_flag, tr_catch, dockerRun, act. rewrite tr_bind_run.
    destruct (w_docker w h0 _); by eexists _, _. }
  rewrite tr_bind_run. destruct (Hflag "{{.State.Running}}" (first_line out) (h ++ [R_docker (ps_args id)])) as (h1 & b1 & ->).
  rewrite tr_bind_run. destruct (Hflag "{{.State.OOMKilled}}" (first_line out) h1) as (h2 & b2 & ->).
  intros [= _ <-]. by exists out.
Qed.

Lemma find_total id h : exists l o, dockerContainerByRunId w id h = (h ++ l, Ok o).
Proof.
  destruct (find_appends (fun _ => True) id ltac:(done) h) as (l & Hl & _).
  destruct (dockerContainerByRunId w id h) as [h' [o|e]] eqn:E; cbn in Hl; subst h'; [by exists l, o|].
  exfalso. unfold dockerContainerByRunId, tr_catch in E. repeat case_match; done.
Qed.

Lemma container_dead_awake id : appends awake (container_dead w id).
Proof. unfold container_dead. apply appends_bind; [by apply find_appends|intros; apply appends_ret]. Qed.

Lemma process_dead_awake p : appends awake (process_dead w p).
Proof.
  unfold process_dead, isProcessAlive, processGroupAlive. destruct (real_pid p); [|apply appends_ret].
  apply appends_bind; [by apply appends_ask|intros [|]]; [apply appends_ret|].
  apply appends_bind; [by apply appends_ask|intros; apply appends_ret].
Qed.

Lemma group_loop_fuel pid deadline k :
  clock_law -> forall f h, deadline - w_now w h <= 100 * Z.of_nat f ->
  group_loop w (S f + k) pid deadline h = group_loop w (S f) pid deadline h.
Proof.
  intros Hclock. induction f as [|f IH]; intros h Hd; [|remember (S f) as g eqn:Hg]; cbn [group_loop Nat.add]; rewrite !tr_bind_run;
    cbv [clock ask act]; destruct (Z.ltb_spec (w_now w h) deadline); try done; [lia|].
  rewrite !tr_bind_run; cbv [processGroupAlive ask act]. destruct (w_group w (h ++ [R_now]) pid); [|done].
  rewrite !tr_bind_run; cbv [sleep ask act]. apply IH. rewrite <- !app_assoc.
  pose proof (Hclock h [R_now; R_group pid; R_sleep 100]) as Hc. cbn [waited fold_right] in Hc. cbn [app]. lia.
Qed.

Lemma start_loop_fuel id deadline k :
  clock_law -> forall f h, deadline - w_now w h <= 250 * Z.of_nat f ->
  start_loop w (S f + k) id deadline h = start_loop w (S f) id deadline h.
Proof.
  intros Hclock. induction f as [|f IH]; intros h Hd; [|remember (S f) as g eqn:Hg]; cbn [start_loop Nat.add]; rewrite !tr_bind_run;
    cbv [clock ask act]; destruct (Z.ltb_spec (w_now w h) deadline); try done; [lia|].
  rewrite !tr_bind_run; cbv [read ask act]. destruct (w_read w (h ++ [R_now]) id) as [r|]; [|done].
  destruct (bool_decide _); [done|]. rewrite !tr_bind_run; cbv [sleep ask act]. apply IH. rewrite <- !app_assoc.
  pose proof (Hclock h [R_now; R_read id; R_sleep 250]) as Hc. cbn [waited fold_right] in Hc. cbn [app]. lia.
Qed.

Lemma settle_loop_fuel id fallback isDead deadline k :
  clock_law -> appends awake isDead -> forall f h, deadline - w_now w h <= 100 * Z.of_nat f ->
  settle_loop w (S f + k) id fallback isDead deadline h = settle_loop w (S f) id fallback isDead deadline h.
Proof.
  intros Hclock Hdead. induction f as [|f IH]; intros h Hd; [|remember (S f) as g eqn:Hg]; cbn [settle_loop Nat.add]; rewrite !tr_bind_run;
    cbv [clock ask act]; destruct (Z.ltb_spec (w_now w h) deadline); try done; [lia|].
  rewrite !tr_bind_run; cbv [read ask act]. destruct (w_read w (h ++ [R_now]) id) as [r|].
  - destruct (negb _); [done|]. rewrite !tr_bind_run.
    destruct (Hdead ((h ++ [R_now]) ++ [R_read id])) as (l & Hl & Hq).
    destruct (isDead ((h ++ [R_now]) ++ [R_read id])) as [h1 [dead|e]]; cbn in Hl; subst h1; [|done].
    destruct dead; [done|]. rewrite !tr_bind_run; cbv [sleep ask act]. apply IH. rewrite <- !app_assoc.
    pose proof (Hclock h ([R_now; R_read id] ++ l ++ [R_sleep 100])) as Hc. rewrite !waited_app, (slept_awake l Hq) in Hc.
    cbn in Hc |- *. lia.
  - rewrite !tr_bind_run; cbv [sleep ask act]. apply IH. rewrite <- !app_assoc.
    pose proof (Hclock h [R_now; R_read id; R_sleep 100]) as Hc. cbn [waited fold_right] in Hc. cbn [app]. lia.
Qed.

(** The waits for a group of processes to end, for a run to settle and for a run
    to start end within the rounds that the time outs allow, whatever the world
    answers: more rounds change neither the result nor what is done. *)
Theorem run_waits_terminate t pid id fallback isDead h k :
  clock_law -> 0 <= t -> (isDead = container_dead w id \/ exists p, isDead = process_dead w p) ->
  group_loop w (ControlPlane.polls t 100 + k) pid (w_now w h + t) h = group_loop w (ControlPlane.polls t 100) pid (w_now w h + t) h /\
  settle_loop w (ControlPlane.polls t 100 + k) id fallback isDead (w_now w h + t) h =
    settle_loop w (ControlPlane.polls t 100) id fallback isDead (w_now w h + t) h /\
  start_loop w (ControlPlane.polls t 250 + k) id (w_now w h + t) h = start_loop w (ControlPlane.polls t 250) id (w_now w h + t) h.
Proof.
  intros Hc Ht Hdead. destruct (ControlPlane.polls_enough t 100 (w_now w h)) as (f1 & -> & H1); [lia|done|].
  destruct (ControlPlane.polls_enough t 250 (w_now w h)) as (f2 & -> & H2); [lia|done|].
  split_and!; [by apply group_loop_fuel| |by apply start_loop_fuel]. apply settle_loop_fuel; [done| |done].
  destruct Hdead as [->|[p ->]]; [apply container_dead_awake|apply process_dead_awake].
Qed.

(** *** Whom a stop reaches *)

(** Given the record that was read first. *)
Definition aims (id : string) (r : RunRecord) (a : ract) : Prop :=
  match a with
  | R_signal p _ => sandbox r <> rs_container /\ pid r = Some p /\ p <> 0
  | R_docker_stop c => sandbox r = rs_container /\
      (containerId r = Some c \/ (truthy (containerId r) = false /\ exists h' out, w_docker w h' (ps_args id) = Ok out /\ first_line out = c))
  | R_spawn _ _ | R_forget_logs _ => False
  | _ => True
  end.

Definition harmless (a : ract) : Prop :=
  match a with R_signal _ _ | R_docker_stop _ | R_spawn _ _ | R_forget_logs _ => False | _ => True end.

Lemma harmless_aims id r a : harmless a -> aims id r a.
Proof. by destruct a. Qed.

Ltac follow :=
  repeat first
    [ assumption
    | apply appends_bind; [|intros]
    | apply appends_ret | apply appends_throw | apply appends_lift
    | match goal with
      | |- appends _ (ask _ _) => apply appends_ask; exact I
      | |- appends _ (match ?x with _ => _ end) => destruct x
      end ].

Lemma harmless_group f p d : appends harmless (group_loop w f p d).
Proof. induction f as [|f IH]; cbn [group_loop]; unfold clock, processGroupAlive, sleep; follow. Qed.

Lemma harmless_settle id r isDead : appends harmless isDead -> appends harmless (settleRun w id r isDead).
Proof.
  intros Hd. unfold settleRun, clock. apply appends_bind; [by apply appends_ask|intros now].
  generalize (now + settle_timeout r). generalize (ControlPlane.polls (settle_timeout r) 100). intros f d.
  induction f as [|f IH]; cbn [settle_loop]; unfold clock, read, write, iso, sleep; follow.
Qed.

Lemma harmless_container_dead id : appends harmless (container_dead w id).
Proof. unfold container_dead. apply appends_bind; [by apply find_appends|intros; apply appends_ret]. Qed.

Lemma harmless_process_dead p : appends harmless (process_dead w p).
Proof. unfold process_dead, isProcessAlive, processGroupAlive. follow. Qed.

Lemma aims_kill id r p :
  sandbox r <> rs_container -> pid r = Some p -> p <> 0 -> appends (aims id r) (killProcessGroup w p).
Proof.
  intros Hs Hp H0. assert (Hg : forall f d, appends (aims id r) (group_loop w f p d))
    by (intros f d; eapply appends_impl; [apply harmless_aims|apply harmless_group]).
  unfold killProcessGroup, processGroupAlive, signal, clock.
  repeat first [apply Hg | apply appends_ret | apply appends_bind; [|intros] | match goal with
    | |- appends _ (ask (R_signal _ _) _) => by apply appends_ask
    | |- appends _ (ask _ _) => apply appends_ask; exact I
    | |- appends _ (if ?x then _ else _) => destruct x end].
Qed.

Lemma real_pid_spec o p : real_pid o = Some p -> o = Some p /\ p <> 0.
Proof. destruct o as [[|q|q]|]; cbn; [done|by intros [= <-]..|done]. Qed.

Lemma stop_request_ok id rec r : stop_request id rec = Ok r -> exists r0, rec = Some r0 /\ runIsActive r0 = true /\ r = with_state stopping r0.
Proof.
  unfold stop_request. destruct rec as [r0|]; [|done]. destruct (runIsActive r0) eqn:E; [|done]. intros [= <-]. by exists r0.
Qed.

(** A stop that is refused does nothing but read the record.  Otherwise the run was
    active, and the only processes that are signalled are those of the group of its
    recorded worker, the only container that is stopped is the recorded one, or, when
    none is recorded, one that docker lists under the label of the run. *)
Theorem stopRun_aims id h :
  match stop_request id (w_read w h id) with
  | Throw e => stopRun w id h = (h ++ [R_read id], Throw e)
  | Ok _ => exists r l, w_read w h id = Some r /\ runIsActive r = true /\ (stopRun w id h).1 = h ++ R_read id :: l /\ Forall (aims id r) l
  end.
Proof.
  unfold stopRun. rewrite tr_bind_run. cbv [read ask act]. destruct (stop_request id (w_read w h id)) as [r|e] eqn:Hreq; [|done].
  apply stop_request_ok in Hreq as (r0 & Hr0 & Ha & ->).
  assert (Hrest : appends (aims id r0) (_ ← write (with_state stopping r0);
    match sandbox (with_state stopping r0) with
    | rs_container =>
        found ← (if truthy (containerId (with_state stopping r0)) then mret None else dockerContainerByRunId w id);
        match stop_container (with_state stopping r0) found with
        | (Ok c, _) => _ ← ask (R_docker_stop c) (fun _ => tt); settleRun w id (with_state stopping r0) (container_dead w id)
        | (Throw e, back) => _ ← (match back with Some r => write r | None => mret tt end); tr_lift (Throw e)
        end
    | _ =>
        _ ← (match real_pid (pid (with_state stopping r0)) with Some p => killProcessGroup w p | None => mret tt end);
        settleRun w id (with_state stopping r0) (process_dead w (pid (with_state stopping r0)))
    end)).
  { assert (Hsettle : forall r d, appends harmless d -> appends (aims id r0) (settleRun w id r d))
      by (intros r d Hd; eapply appends_impl; [apply harmless_aims|by apply harmless_settle]).
    apply appends_bind; [by apply appends_ask|intros _]. change (sandbox (with_state stopping r0)) with (sandbox r0).
    change (pid (with_state stopping r0)) with (pid r0). change (containerId (with_state stopping r0)) with (containerId r0).
    assert (Hproc : sandbox r0 <> rs_container -> appends (aims id r0)
      (_ ← (match real_pid (pid r0) with Some p => killProcessGroup w p | None => mret tt end);
       settleRun w id (with_state stopping r0) (process_dead w (pid r0)))).
    { intros Hs. apply appends_bind; [|intros; apply Hsettle, harmless_process_dead].
      destruct (real_pid (pid r0)) as [p|] eqn:Ep; [|apply appends_ret]. apply real_pid_spec in Ep as [Ep H0]. by apply aims_kill. }
    destruct (sandbox r0) eqn:Hs; [|by apply Hproc..]. intros h1. rewrite tr_bind_run.
    assert (Hafter : forall found, (truthy (containerId r0) = true \/ exists h' h2, dockerContainerByRunId w id h' = (h2, Ok found)) ->
      appends (aims id r0) (match stop_container (with_state stopping r0) found with
        | (Ok c, _) => _ ← ask (R_docker_stop c) (fun _ => tt); settleRun w id (with_state stopping r0) (container_dead w id)
        | (Throw e, back) => _ ← (match back with Some r => write r | None => mret tt end); tr_lift (Throw e)
        end)).
    { intros found Hf. destruct (stop_container (with_state stopping r0) found) as [[c|e] back] eqn:Hc.
      - apply appends_bind; [|intros; apply Hsettle, harmless_container_dead]. apply appends_ask. cbn [aims]. split; [done|].
        unfold stop_container in Hc. change (containerId (with_state stopping r0)) with (containerId r0) in Hc.
        destruct (truthy (containerId r0)) eqn:Et.
        + rewrite Et in Hc. injection Hc as <- _. left. by destruct (containerId r0).
        + right. split; [done|]. destruct Hf as [?|(h' & h2 & Hf)]; [congruence|].
          apply find_answers in Hf. destruct found as [info|]; cbn in Hc; [|done]. destruct Hf as (out & Hf & Hid). exists h', out. split; [done|].
          rewrite Hid. destruct (String.eqb (ci_id info) ""); cbn in Hc; [done|]. by injection Hc.
      - apply appends_bind; [|intros; apply appends_lift]. destruct back; [by apply appends_ask|apply appends_ret]. }
    destruct (truthy (containerId r0)) eqn:Et; [cbv [mret tr_mret tr_ret]; apply Hafter; by left|].
    destruct (find_appends (aims id r0) id ltac:(done) h1) as (l1 & Hl1 & Hq1).
    destruct (find_total id h1) as (l1' & found & Hf). rewrite Hf in Hl1 |- *. cbn in Hl1. apply app_inv_head in Hl1 as ->.
    destruct (Hafter found) with (h := h1 ++ l1) as (l & Hl & Hq); [right; by eexists _, _|].
    exists (l1 ++ l). split; [by rewrite Hl, app_assoc|by apply Forall_app]. }
  destruct (Hrest (h ++ [R_read id])) as (l & Hl & Hq). exists r0, l. split_and!; [done|done| |done].
  rewrite <- app_assoc in Hl. exact Hl.
Qed.

(** *** When a run is started again *)

(** What makes a stop take the run of the record for dead at the moment [h1]: docker
    lists no container of it, or fails to answer; for a process, the worker and all of
    its group are gone, or no process id was recorded, and then nothing is looked at. *)
Definition taken_for_dead (id : string) (r : RunRecord) (h1 : list ract) : Prop :=
  match sandbox r with
  | rs_container =>
      (exists out, w_docker w h1 (ps_args id) = Ok out /\ first_line out = "") \/ (exists e, w_docker w h1 (ps_args id) = Throw e)
  | _ =>
      real_pid (pid r) = None \/
      exists p, real_pid (pid r) = Some p /\ w_alive w h1 p = false /\ w_group w (h1 ++ [R_alive p]) p = false
  end.

Definition dead_check (id : string) (r : RunRecord) : M bool :=
  match sandbox r with rs_container => container_dead w id | _ => process_dead w (pid r) end.

Lemma dead_check_seen id r h h' : dead_check id r h = (h', Ok true) -> taken_for_dead id r h.
Proof.
  assert (Hp : process_dead w (pid r) h = (h', Ok true) ->
    real_pid (pid r) = None \/ exists p, real_pid (pid r) = Some p /\ w_alive w h p = false /\ w_group w (h ++ [R_alive p]) p = false).
  { unfold process_dead, isProcessAlive, processGroupAlive. destruct (real_pid (pid r)) as [p|]; [|by left].
    rewrite tr_bind_run; cbv [ask act]. destruct (w_alive w h p) eqn:E1; [done|]. rewrite tr_bind_run; cbv [ask act].
    destruct (w_group w (h ++ [R_alive p]) p) eqn:E2; [done|]. intros _. right. by exists p. }
  unfold dead_check, taken_for_dead. destruct (sandbox r); try exact Hp.
  unfold container_dead. rewrite tr_bind_run. destruct (find_total id h) as (l & o & Ho). rewrite Ho.
  apply find_answers in Ho. by destruct o.
Qed.

Lemma dead_check_extends id r h : exists l, (dead_check id r h).1 = h ++ l.
Proof.
  destruct (sandbox r) eqn:Hs; unfold dead_check; rewrite Hs;
    [destruct (harmless_container_dead id h) as (l & Hl & _)|destruct (harmless_process_dead (pid r) h) as (l & Hl & _)..]; by exists l.
Qed.

(** At some moment of the history from [h] to [h']. *)
Definition at_some_point (h h' : list ract) (Q : list ract -> Prop) : Prop :=
  exists l rest, h' = h ++ l ++ rest /\ Q (h ++ l).

Lemma later_point h l h' Q : at_some_point (h ++ l) h' Q -> at_some_point h h' Q.
Proof. intros (l1 & rest & -> & HQ). exists (l ++ l1), rest. rewrite <- !app_assoc in *. by split. Qed.

(** The record [r] was read, or the run of [r0] was taken for dead. *)
Definition seen_over (id : string) (r0 r : RunRecord) (h1 : list ract) : Prop :=
  w_read w h1 id = Some r \/ taken_for_dead id r0 h1.

Lemma settle_appends id fb r0 f deadline : appends (fun _ => True) (settle_loop w f id fb (dead_check id r0) deadline).
Proof.
  assert (Hd : appends (fun _ => True) (dead_check id r0)).
  { unfold dead_check. destruct (sandbox r0); [eapply appends_impl; [|apply harmless_container_dead]; done|
      eapply appends_impl; [|apply harmless_process_dead]; done..]. }
  induction f as [|f IH]; cbn [settle_loop]; unfold clock, read, write, iso, sleep;
    repeat first [apply IH | apply Hd | apply appends_ret | apply appends_bind; [|intros]
      | match goal with |- appends _ (ask _ _) => by apply appends_ask | |- appends _ (match ?x with _ => _ end) => destruct x end].
Qed.

Lemma settle_over id fb r0 deadline : runIsActive fb = true ->
  forall f h h' b r, settle_loop w f id fb (dead_check id r0) deadline h = (h', Ok (b, r)) -> runIsActive r = false ->
  at_some_point h h' (seen_over id r0 r).
Proof.
  intros Hfb. assert (Hlate : forall h h' b r,
    (record ← read w id; let r := nullish record fb in mret (negb (runIsActive r), r)) h = (h', Ok (b, r)) ->
    runIsActive r = false -> at_some_point h h' (seen_over id r0 r)).
  { intros h h' b r. rewrite tr_bind_run; cbv [read ask act]. intros [= <- _ <-] Hr. exists [], [R_read id]. rewrite app_nil_r. split; [done|].
    left. destruct (w_read w h id) as [q|]; [done|]. cbn in Hr. congruence. }
  induction f as [|f IH]; intros h h' b r H Hr; [by eapply Hlate|].
  destruct (settle_appends id fb r0 (S f) deadline h) as (lall & Hall & _). rewrite H in Hall. cbn [fst] in Hall.
  revert H. cbn [settle_loop]. rewrite tr_bind_run; cbv [clock ask act]. destruct (w_now w h <? deadline).
  2: { intros H. by apply Hlate, later_point in H. }
  rewrite tr_bind_run; cbv [read ask act].
  assert (Hrec : forall l0 : list ract, (_ ← sleep 100; settle_loop w f id fb (dead_check id r0) deadline) (h ++ l0) = (h', Ok (b, r)) ->
    at_some_point h h' (seen_over id r0 r)).
  { intros l0 H. rewrite tr_bind_run in H; cbv [sleep ask act] in H. apply IH in H; [|done]. by apply later_point, later_point in H. }
  destruct (w_read w (h ++ [R_now]) id) as [q|] eqn:Hq.
  - destruct (negb _).
    + intros [= <- _ <-]. exists [R_now], [R_read id]. split; [by rewrite <- app_assoc|by left].
    + rewrite tr_bind_run. destruct (dead_check_extends id r0 ((h ++ [R_now]) ++ [R_read id])) as (l0 & Hl0).
      destruct (dead_check id r0 _) as [h2 [dead|e]] eqn:Hd; cbn in Hl0; subst h2; [|done].
      rewrite <- !app_assoc. destruct dead; [|apply Hrec]. rewrite !tr_bind_run. cbv [iso write ask act]. intros [= <- _ _].
      exists [R_now; R_read id]. eexists. split; [rewrite <- !app_assoc; reflexivity|]. right. apply dead_check_seen in Hd.
      by rewrite <- app_assoc in Hd.
  - rewrite <- app_assoc. apply Hrec.
Qed.

Lemma settleRun_over id fb r0 h h' b r : runIsActive fb = true ->
  settleRun w id fb (dead_check id r0) h = (h', Ok (b, r)) -> runIsActive r = false -> at_some_point h h' (seen_over id r0 r).
Proof.
  intros Hfb H Hr. unfold settleRun in H. rewrite tr_bind_run in H; cbv [clock ask act] in H.
  apply settle_over in H; [|done..]. by apply later_point in H.
Qed.

Lemma stopRun_over id h h' b r : stopRun w id h = (h', Ok (b, r)) -> runIsActive r = false ->
  exists r0, w_read w h id = Some r0 /\ runIsActive r0 = true /\ at_some_point h h' (seen_over id r0 r).
Proof.
  unfold stopRun. intros H Hr. rewrite tr_bind_run in H; cbv [read ask act] in H.
  destruct (stop_request id (w_read w h id)) as [r1|e] eqn:Hreq; [|done].
  apply stop_request_ok in Hreq as (r0 & Hr0 & Ha & ->). exists r0. split; [done|]. split; [done|].
  assert (Hend : forall h1 : list ract, (exists l, h1 = h ++ l) ->
    settleRun w id (with_state stopping r0) (dead_check id r0) h1 = (h', Ok (b, r)) -> at_some_point h h' (seen_over id r0 r)).
  { intros h1 (l0 & ->) Hs. apply settleRun_over in Hs; [|done..]. by apply later_point in Hs. }
  rewrite tr_bind_run in H; cbv [write ask act] in H. rewrite <- app_assoc in H.
  change (sandbox (with_state stopping r0)) with (sandbox r0) in H. change (pid (with_state stopping r0)) with (pid r0) in H.
  change (containerId (with_state stopping r0)) with (containerId r0) in H. unfold dead_check in Hend.
  assert (Hkill : forall p h1, exists l : list ract, (killProcessGroup w p h1).1 = h1 ++ l).
  { intros p h1. assert (Hk : appends (fun _ => True) (killProcessGroup w p)).
    { unfold killProcessGroup, processGroupAlive, signal, clock.
      assert (Hg : forall f d, appends (fun _ => True) (group_loop w f p d))
        by (intros f d; eapply appends_impl; [|apply harmless_group]; done).
      repeat first [apply Hg | apply appends_ret | apply appends_bind; [|intros]
        | match goal with |- appends _ (ask _ _) => by apply appends_ask | |- appends _ (if ?x then _ else _) => destruct x end]. }
    destruct (Hk h1) as (l & Hl & _). by exists l. }
  destruct (sandbox r0) eqn:Hs.
  2,3: rewrite tr_bind_run in H; destruct (real_pid (pid r0)) as [p|]; [|by apply Hend in H; [|by eexists]];
    destruct (Hkill p (h ++ [R_read id] ++ [R_write (with_state stopping r0)])) as (l & Hl);
    destruct (killProcessGroup w p _) as [h2 [[]|e]]; cbn in Hl; subst h2; [|done]; apply Hend in H; [done|]; rewrite <- app_assoc; by eexists.
  rewrite tr_bind_run in H.
  destruct (if truthy (containerId r0) then _ else _) as [h2 [found|e]] eqn:Hf in H; [|done].
  assert (Hh2 : exists l2 : list ract, h2 = h ++ l2).
  { destruct (truthy (containerId r0)); [injection Hf as <- _; by eexists|].
    match type of Hf with dockerContainerByRunId _ _ ?h0 = _ => destruct (find_total id h0) as (l & o & Ho) end.
    rewrite Ho in Hf. injection Hf as <- _. rewrite <- app_assoc. by eexists. }
  destruct Hh2 as (l2 & ->). destruct (stop_container (with_state stopping r0) found) as [[c|e] back].
  - rewrite tr_bind_run in H; cbv [ask act] in H. rewrite <- app_assoc in H. apply Hend in H; [done|by eexists].
  - rewrite tr_bind_run in H. destruct back; cbv [write ask act tr_lift mret tr_mret tr_ret] in H; done.
Qed.

Definition spawns (a : ract) : bool := match a with R_spawn _ _ => true | _ => false end.

Lemma startManagedRun_ok opts (h : list ract) : exists r1 r2 inp child, startManagedRun w opts h =
  (h ++ [R_iso; R_write r1; R_spawn (mo_runId opts) inp; R_write r2], Ok (r2, child)).
Proof.
  assert (Happ : forall a b c d : ract, h ++ [a; b; c; d] = (((h ++ [a]) ++ [b]) ++ [c]) ++ [d]) by (intros; by rewrite <- !app_assoc).
  do 4 eexists. rewrite Happ. unfold startManagedRun.
  do 4 (rewrite tr_bind_run; cbv [iso write ask act]; cbv beta iota zeta). reflexivity.
Qed.

(** C38: A restart that succeeds starts the run after a moment at which, in what the
    restart itself did, either a record of the run was read that is not active, or the
    record that the stop read was active and: docker listed no container of the run or
    did not answer; or the recorded worker and all of its group were seen dead; or no
    process id was recorded, and then nothing was looked at.  Until that moment nothing is
    started, and a restart that fails starts nothing. *)
Theorem restart_only_when_over opts h :
  let id := mo_runId opts in
  match restartRun w opts h with
  | (h', Ok _) =>
      exists l rest r, h' = h ++ l ++ rest /\ existsb spawns l = false /\
        (w_read w (h ++ l) id = Some r /\ runIsActive r = false \/
         w_read w (h ++ [R_read id]) id = Some r /\ runIsActive r = true /\
           match sandbox r with
           | rs_container =>
               (exists out, w_docker w (h ++ l) (ps_args id) = Ok out /\ first_line out = "") \/
               (exists e, w_docker w (h ++ l) (ps_args id) = Throw e)
           | _ =>
               real_pid (pid r) = None \/
               exists p, real_pid (pid r) = Some p /\ w_alive w (h ++ l) p = false /\ w_group w (h ++ l ++ [R_alive p]) p = false
           end)
  | (h', Throw _) => exists l, h' = h ++ l /\ existsb spawns l = false
  end.
Proof.
  intros id. unfold restartRun. fold id. rewrite tr_bind_run; cbv [read ask act].
  destruct (w_read w h id) as [old|] eqn:Hold; [|by exists [R_read id]].
  rewrite tr_bind_run. destruct (runIsActive old) eqn:Ha.
  2: { cbv [mret tr_mret tr_ret negb]. rewrite tr_bind_run; cbv [ask act].
       edestruct startManagedRun_ok as (r1 & r2 & inp & child & ->). exists []. eexists _, old.
       split; [rewrite <- !app_assoc; reflexivity|]. split; [done|]. left. by rewrite app_nil_r. }
  rewrite tr_bind_run. pose proof (stopRun_aims id (h ++ [R_read id])) as Haims.
  pose proof (stopRun_over id (h ++ [R_read id])) as Hover.
  assert (Hquiet : exists l, (stopRun w id (h ++ [R_read id])).1 = h ++ R_read id :: l /\ existsb spawns l = false).
  { destruct (stop_request id _) as [rq|e]; [|rewrite Haims; exists [R_read id]; by rewrite <- app_assoc].
    destruct Haims as (r & l & _ & _ & -> & Hl). exists (R_read id :: l). rewrite <- app_assoc. split; [done|]. cbn.
    induction Hl as [|a l Ha' _ IH]; [done|]. cbn. rewrite IH, orb_false_r. by destruct a. }
  destruct (stopRun w id (h ++ [R_read id])) as [h1 [[b r]|e]]; cbn [fst] in Hquiet; destruct Hquiet as (l & -> & Hl);
    [|by exists (R_read id :: l)].
  cbv [mret tr_mret tr_ret]. destruct (runIsActive r) eqn:Hr; cbn [negb]; [by exists (R_read id :: l)|].
  rewrite tr_bind_run; cbv [ask act]. edestruct startManagedRun_ok as (r1 & r2 & inp & child & ->).
  destruct (Hover _ _ _ eq_refl Hr) as (r0 & Hr0 & Ha0 & l0 & rest & Heq & Hseen).
  rewrite <- app_assoc in Heq, Hseen. apply app_inv_head in Heq. injection Heq as ->. exists (R_read id :: l0).
  rewrite existsb_app in Hl. apply orb_false_iff in Hl as [Hl _].
  destruct Hseen as [Hseen|Hseen]; eexists _, _; (split; [rewrite <- !app_assoc; cbn [app]; rewrite <- !app_assoc; reflexivity|]; split; [exact Hl|]);
    [by left|right]. split; [exact Hr0|]. split; [exact Ha0|]. unfold taken_for_dead in Hseen.
  destruct (sandbox r0); [exact Hseen|..]; (destruct Hseen as [?|(p & ? & ? & Hg)]; [by left|right; exists p; rewrite <- app_assoc in Hg; by split_and!]).
Qed.
End facts.

(** A worker that died leaves its agent running in its group.  Once the record is
    reconciled to [orphaned], a stop is refused without any signal, and a restart
    starts a second worker beside the group that still runs. *)
Theorem orphaned_run_unstoppable w probe now r p h opts :
  runIsActive r = true -> sandbox r <> rs_container -> pid r = Some p -> isAlive probe p = false -> groupAlive probe p = true ->
  w_read w h (mo_runId opts) = Some (reconcileRun probe now r) ->
  stopRun w (mo_runId opts) h =
    (h ++ [R_read (mo_runId opts)], throw EError ("run " +:+ mo_runId opts +:+ " is not running (state: orphaned)")) /\
  exists r1 inp r2 child, restartRun w opts h =
    (h ++ [R_read (mo_runId opts); R_forget_logs (mo_runId opts); R_iso; R_write r1; R_spawn (mo_runId opts) inp; R_write r2], Ok (r2, child)).
Proof.
  intros Ha Hs Hp H1 H2 Hread.
  assert (Hrec : reconcileRun probe now r = with_end orphaned (r_exitCode r) r_supervisor_gone now r).
  { unfold reconcileRun. rewrite Ha, Hp, H1, H2. by destruct (sandbox r). }
  assert (Hin : runIsActive (reconcileRun probe now r) = false) by (rewrite Hrec; reflexivity).
  split.
  - unfold stopRun. rewrite tr_bind_run; cbv [read ask act]. rewrite Hread. unfold stop_request. rewrite Hin, Hrec. reflexivity.
  - unfold restartRun. rewrite tr_bind_run; cbv [read ask act]. rewrite Hread, tr_bind_run, Hin. cbv [mret tr_mret tr_ret negb].
    rewrite tr_bind_run; cbv [ask act]. edestruct startManagedRun_ok as (r1 & r2 & inp & child & Heq). rewrite Heq.
    exists r1, inp, r2, child. by rewrite <- !app_assoc.
Qed.

(** A run without a recorded process id, as the start race leaves it, is taken for dead
    at once: a restart ends its record and starts a second worker, and neither looks for
    the first nor signals it. *)
Definition looks_or_signals (a : ract) : bool :=
  match a with R_alive _ | R_group _ | R_signal _ _ => true | _ => false end.

Theorem unrecorded_worker_restarted w r opts h :
  let id := mo_runId opts in
  let h1 := h ++ [R_read id; R_read id; R_write (with_state stopping r); R_now] in
  runIsActive r = true -> sandbox r <> rs_container -> pid r = None ->
  w_read w h id = Some r -> w_read w (h ++ [R_read id]) id = Some r -> w_read w (h1 ++ [R_now]) id = Some (with_state stopping r) ->
  w_now w h1 < w_now w (h ++ [R_read id; R_read id; R_write (with_state stopping r)]) + 5000 ->
  exists l r2 child, restartRun w opts h = (h ++ l, Ok (r2, child)) /\ existsb spawns l = true /\ existsb looks_or_signals l = false.
Proof.
  intros id h1 Ha Hs Hp H1 H2 H3 Hnow. unfold restartRun. fold id. rewrite tr_bind_run; cbv [read ask act]. rewrite H1, tr_bind_run, Ha, tr_bind_run.
  unfold stopRun. rewrite tr_bind_run; cbv [read ask act]. rewrite H2. unfold stop_request. rewrite Ha. cbn [negb].
  rewrite tr_bind_run; cbv [write ask act]. change (sandbox (with_state stopping r)) with (sandbox r).
  change (pid (with_state stopping r)) with (pid r). rewrite Hp. change (real_pid None) with (@None Z).
  assert (Hset : settleRun w id (with_state stopping r) (process_dead w None) (h ++ [R_read id; R_read id; R_write (with_state stopping r)]) =
    (h1 ++ [R_now; R_read id; R_iso; R_write (manual_stop (w_iso w (h1 ++ [R_now; R_read id])) (with_state stopping r))],
     Ok (true, manual_stop (w_iso w (h1 ++ [R_now; R_read id])) (with_state stopping r)))).
  { unfold settleRun. rewrite tr_bind_run; cbv [clock ask act]. rewrite <- app_assoc. cbn [app]. fold h1.
    assert (Ht : settle_timeout (with_state stopping r) = 5000) by (unfold settle_timeout; cbn; by destruct (sandbox r)). rewrite Ht.
    destruct (ControlPlane.polls 5000 100) as [|f] eqn:Ef; [by vm_compute in Ef|]. cbn [settle_loop].
    rewrite tr_bind_run; cbv [clock ask act]. destruct (Z.ltb_spec (w_now w h1) (w_now w (h ++ [R_read id; R_read id; R_write (with_state stopping r)]) + 5000)); [|lia].
    rewrite tr_bind_run; cbv [read ask act]. rewrite H3. cbn [state with_state negb]. rewrite bool_decide_eq_true_2 by done. cbn [negb].
    rewrite tr_bind_run. change (process_dead w None) with (mret true : tr ract bool). cbv [mret tr_mret tr_ret].
    rewrite !tr_bind_run; cbv [iso write ask act]. rewrite !tr_bind_run; cbv [iso write ask act]. rewrite <- !app_assoc. reflexivity. }
  assert (Hcut : (h ++ [R_read id]) ++ [R_read id] = h ++ [R_read id; R_read id]) by by rewrite <- app_assoc.
  rewrite Hcut. rewrite <- (app_assoc h [R_read id; R_read id]). cbn [app].
  destruct (sandbox r); [done|..]; rewrite tr_bind_run; cbv [mret tr_mret tr_ret]; rewrite Hset;
    (change (runIsActive (manual_stop (w_iso w (h1 ++ [R_now; R_read id])) (with_state stopping r))) with false; cbn [negb];
     rewrite tr_bind_run; cbv [ask act]; edestruct startManagedRun_ok as (r1 & r2 & inp & child & ->);
     eexists _, r2, child; unfold h1; rewrite <- !app_assoc; cbn [app]; split; [reflexivity|by split]).
Qed.

Definition race_record : RunRecord := worker_running (initial_record demo_options "t0").

(** A world where the record of the run is what the file holds. *)
Definition race_world : world :=
  mkWorld (fun h _ => Some (nullish (last (omap (fun a => match a with R_write r => Some r | _ => None end) h)) race_record))
          waited (fun _ => "t") (fun _ _ => throw EError "no docker") (fun _ _ => true) (fun _ _ => true) (fun _ => Some 8)
          (fun _ _ _ _ => throw EError "none") (fun _ => Ok 1).

Lemma unrecorded_worker_restarted_witness :
  exists l r2 child, restartRun race_world demo_options [] = (l, Ok (r2, child)) /\ existsb spawns l = true /\ existsb looks_or_signals l = false.
Proof.
  destruct (unrecorded_worker_restarted race_world race_record demo_options []) as (l & r2 & child & H);
    [reflexivity|discriminate|reflexivity|reflexivity|reflexivity|reflexivity|reflexivity|]. by exists l, r2, child.
Defined.

(** The restart command takes the recorded key apart into the namespace, name and
    version that it was made of. *)
Theorem restart_spec_roundtrip ns nm v :
  js_has_char "/" nm = false -> js_has_char "/" v = false -> js_has_char "@" v = false ->
  restart_spec (ns +:+ "/" +:+ nm +:+ "@" +:+ v) = (ns, nm, v).
Proof.
  intros H1 H2 H3. unfold restart_spec, last_index_z, js_lastIndexOf.
  change (ns +:+ "/" +:+ nm +:+ "@" +:+ v) with (ns +:+ String "/" (nm +:+ String "@" v)).
  rewrite last_index_app by (rewrite has_char_app; cbn; rewrite H1, H2; done).
  replace (last_index "@" 0 None (ns +:+ String "/" (nm +:+ String "@" v)))
    with (Some (String.length ns + S (String.length nm))%nat).
  2: { replace (ns +:+ String "/" (nm +:+ String "@" v)) with ((ns +:+ String "/" nm) +:+ String "@" v)
         by (by rewrite sapp_assoc). rewrite last_index_app by done. by rewrite slength_app. }
  assert (Hlen : String.length (ns +:+ String "/" (nm +:+ String "@" v)) = (String.length ns + S (String.length nm + S (String.length v)))%nat)
    by (rewrite slength_app; cbn; by rewrite slength_app).
  assert (Hpos : forall n, (n <= String.length (ns +:+ String "/" (nm +:+ String "@" v)))%nat ->
    slice_pos (Z.of_nat n) (ns +:+ String "/" (nm +:+ String "@" v)) = n).
  { intros n Hn. unfold slice_pos. destruct (Z.ltb_spec (Z.of_nat n) 0); lia. }
  unfold js_slice. replace (Z.of_nat (0 + String.length ns) + 1) with (Z.of_nat (S (String.length ns))) by lia.
  replace (Z.of_nat (String.length ns + S (String.length nm)) + 1) with (Z.of_nat (S (String.length ns + S (String.length nm)))) by lia.
  change 0 with (Z.of_nat 0). rewrite !Hpos by lia. rewrite Hlen.
  f_equal; [f_equal|].
  - cbn [Nat.add]. rewrite Nat.sub_0_r. apply take_app_length.
  - replace (String.length ns + S (String.length nm) - S (String.length ns))%nat with (String.length nm) by lia.
    change (String "/" (nm +:+ String "@" v)) with (str1 "/" +:+ (nm +:+ String "@" v)).
    rewrite <- sapp_assoc. replace (S (String.length ns)) with (String.length (ns +:+ str1 "/")) by (rewrite slength_app; cbn; lia).
    rewrite drop_app_length. apply take_app_length.
  - replace (ns +:+ String "/" (nm +:+ String "@" v)) with ((ns +:+ String "/" nm +:+ str1 "@") +:+ v)
      by (rewrite sapp_assoc; f_equal; cbn; by rewrite sapp_assoc).
    assert (Hl : String.length (ns +:+ String "/" nm +:+ str1 "@") = S (String.length ns + S (String.length nm)))
      by (rewrite slength_app; cbn [String.append String.length]; rewrite slength_app; cbn; lia).
    rewrite <- Hl, drop_app_length, Hl.
    replace (_ - _)%nat with (String.length v) by lia.
    rewrite <- (sapp_nil_r v) at 2. apply take_app_length.
Qed.

(** A world whose clock moves by what is slept, and where nothing runs. *)
Definition still_world : world :=
  mkWorld (fun _ _ => None) waited (fun _ => "t") (fun _ _ => throw EError "no docker") (fun _ _ => false) (fun _ _ => true) (fun _ => None)
          (fun _ _ _ _ => throw EError "none") (fun _ => Ok 1).

Lemma still_clock : clock_law still_world.
Proof. intros h l. cbn [w_now still_world]. rewrite waited_app. lia. Qed.

Lemma run_waits_terminate_witness :
  let w := still_world in let fb := initial_record demo_options "t0" in
  group_loop w (ControlPlane.polls 300 100 + 5) 7 (w_now w [] + 300) [] = group_loop w (ControlPlane.polls 300 100) 7 (w_now w [] + 300) [] /\
  settle_loop w (ControlPlane.polls 300 100 + 5) "r-1" fb (process_dead w (Some 7)) (w_now w [] + 300) [] =
    settle_loop w (ControlPlane.polls 300 100) "r-1" fb (process_dead w (Some 7)) (w_now w [] + 300) [] /\
  start_loop w (ControlPlane.polls 300 250 + 5) "r-1" (w_now w [] + 300) [] = start_loop w (ControlPlane.polls 300 250) "r-1" (w_now w [] + 300) [].
Proof.
  intros w fb. apply (run_waits_terminate w 300 7 "r-1" fb (process_dead w (Some 7)) [] 5); [exact still_clock|lia|right; by exists (Some 7)].
Defined.
End ManagedRuns.
