(* ===== verification/ProviderCommands.v ===== *)
(** The commands about the usage of other programs: [cli/src/lib/integrations.ts],
    [cli/src/commands/limits/] and [cli/src/commands/integrations/].  A command is a
    function on the usage database, or on the vault; it fails with the message of
    [this.error]. *)
From S2P Require Import Prelude NodePath Secrets UsageStore UsageSources ClaudeUsage LiveLimits Collect LocalApi.

Module ProviderCommands.
Import UsageStore UsageSources.
Local Open Scope Q_scope.

(** @src cli/src/lib/integrations.ts PROVIDER_NAMES *)
Definition PROVIDER_NAMES : list string := ["claude"; "codex"; "opencode"].

(** @src cli/src/lib/integrations.ts isProvider *)
Definition isProvider (value : string) : bool := mem_str value PROVIDER_NAMES.

(** The cast after the check. *)
Definition as_provider (value : string) : UsageProvider :=
  if String.eqb value "claude" then claude else if String.eqb value "codex" then codex else opencode.

Definition checked (value : string) : result UsageProvider :=
  if isProvider value then Ok (as_provider value)
  else throw EError ("unknown provider '" +:+ value +:+ "' (expected one of: " +:+ js_join ", " PROVIDER_NAMES +:+ ")").

(** ** What is shown *)

Section show.
Context `{JsText} (ck : clock) (src : Collect.sources).

(** @src cli/src/lib/integrations.ts ProviderData *)
Record ProviderData := mkData {
  pd_collection : list ProviderResult; pd_usage : list Collect.ProviderUsageOverview; pd_limits : list LimitRow;
}.

(** @src cli/src/lib/integrations.ts collectProviderData *)
Definition collectProviderData (now : string) (over_budget : bool) (provider : option UsageProvider) (d : db) : db * ProviderData :=
  let '(d, collection) := Collect.collectProvidersSync ck src now over_budget
                            (Collect.mkOptions ((fun p => [p]) <$> provider) None) d in
  (d, mkData (Collect.cr_providers collection)
        (List.filter (fun o => match provider with None => true | Some p => bool_decide (Collect.po_provider o = p) end)
           (Collect.providerUsageOverview (Collect.src_machine src) d))
        (listLimits d provider)).

(** @src cli/src/commands/limits/index.ts run *)
Definition limits_command (now : string) (over_budget : bool) (provider : option string) (d : db) : result (db * ProviderData) :=
  p ← match provider with None => Ok None | Some s => p ← checked s; mret (Some p) end;
  mret (collectProviderData now over_budget p d).

(** What [integrations] lists; the endpoints and files of the sources are left out.
    @src cli/src/commands/integrations/index.ts run *)
Definition integrations_command (d : db) : list (Collect.IntegrationStatus * (string * string)) :=
  map (fun s => (s, providerSource (Collect.src_machine src) (Collect.is_provider s))) (Collect.allIntegrationStatus (Collect.src_machine src) d).
End show.

(** ** Limits set by hand *)

(** The flags of [limits set], as given.
    @src cli/src/commands/limits/set.ts 13-22 flags *)
Record limit_flags := mkLimitFlags {
  lf_window : option string; lf_plan : option string; lf_used_percent : option string; lf_units : option string;
  lf_credits_used : option string; lf_credits_total : option string; lf_reset : option string;
}.

Section limits.
Context `{JsText} (parse_date : string -> option Q).

(** A flag that must be a number: [Number] of it, from 0 to [top]. *)
Definition number_flag (flag : option string) (top : option Q) (complaint : string) : result (option Q) :=
  match flag with
  | None => Ok None
  | Some s =>
      match to_number s with
      | Some q => if Qle_bool 0 q && match top with Some t => Qle_bool q t | None => true end then Ok (Some q) else throw EError complaint
      | None => throw EError complaint
      end
  end.

Definition given (s : option string) : option string := if truthy s then s else None.

Definition nothing_given (f : limit_flags) : bool :=
  negb (truthy (lf_window f)) && negb (truthy (lf_plan f)) && bool_decide (lf_used_percent f = None) && negb (truthy (lf_units f))
  && bool_decide (lf_credits_used f = None) && bool_decide (lf_credits_total f = None) && negb (truthy (lf_reset f)).

Definition reset_flag (flag : option string) : result (option string) :=
  match given flag with
  | None => Ok None
  | Some s =>
      match parse_date s with
      | None => throw EError ("invalid --reset time '" +:+ s +:+ "' (expected ISO 8601)")
      | Some ms => t ← date_iso ms; mret (Some t)
      end
  end.

(** The checks, in their order, and the limit they leave.
    @src cli/src/commands/limits/set.ts 26-58 run *)
Definition limit_of_flags (provider : string) (f : limit_flags) : result LimitObservation :=
  p ← checked provider;
  if nothing_given f then
    throw EError "provide at least one value (--window, --plan, --used-percent, --units, --credits-used, --credits-total, --reset)"
  else
    reset ← reset_flag (lf_reset f);
    percent ← number_flag (lf_used_percent f) (Some 100) "--used-percent must be a number between 0 and 100";
    used ← number_flag (lf_credits_used f) None "--credits-used must be a non-negative number";
    total ← number_flag (lf_credits_total f) None "--credits-total must be a non-negative number";
    mret (mkLimitObs p (nullish (lf_window f) "manual") (given (lf_plan f)) percent (given (lf_units f)) used total reset ls_manual).

(** @src cli/src/commands/limits/set.ts run *)
Definition limits_set (now provider : string) (f : limit_flags) (d : db) : result db :=
  limit ← limit_of_flags provider f;
  mret (Collect.setManualLimit now limit d).
End limits.

(** ** Integrations *)

(** @src cli/src/commands/integrations/enable.ts run *)
Definition integrations_enable (provider : string) (credentials live : bool) (d : db) : result db :=
  p ← checked provider;
  if negb credentials && negb live then throw EError "choose what to enable: pass --credentials and/or --live"
  else
    let d := Collect.setEnabled p true d in
    let d := if credentials then Collect.setConsent p ck_credentials true d else d in
    mret (if live then Collect.setConsent p ck_live true d else d).

(** The numbers of rows and limits that were removed.
    @src cli/src/commands/integrations/disable.ts run *)
Definition integrations_disable (provider : string) (d : db) : result (db * (nat * nat)) :=
  p ← checked provider;
  let '(d, cleared) := Collect.revokeProvider p d in
  mret (Collect.setEnabled p false d, cleared).

(** @src cli/src/commands/integrations/set-key.ts KEY_ENV *)
Definition KEY_ENV (p : UsageProvider) : string :=
  match p with claude => "ANTHROPIC_API_KEY" | codex | opencode => "OPENAI_API_KEY" end.

Section keys.
Context {S : Type} `{Secrets.SecretStore S}.

(** [stdin] is what is piped in, [None] at a terminal.
    @src cli/src/commands/integrations/set-key.ts run *)
Definition set_key (provider : string) (unset : bool) (key : option string) (stdin : option string) (s : S) : result S :=
  p ← checked provider;
  let env := KEY_ENV p in
  if unset then Secrets.clearIntegrationKey s env
  else
    key ← match key with
          | Some k => Ok k
          | None => match stdin with
                    | None => throw EError "supply the key as an argument or pipe it via stdin"
                    | Some text => Ok (js_trim text)
                    end
          end;
    if Nat.ltb (String.length key) 10 then throw EError "refusing to store a key shorter than 10 characters"
    else Secrets.storeIntegrationKey s env key.
End keys.

(** ** Properties *)

Lemma checked_ok s p : checked s = Ok p <-> s = uprovider_name p.
Proof.
  unfold checked, isProvider. split.
  - destruct (mem_str s PROVIDER_NAMES) eqn:E; [|done]. apply mem_str_spec in E. intros [= <-].
    repeat (apply elem_of_cons in E as [->|E]; [done|]). by apply elem_of_nil in E.
  - intros ->. by destruct p.
Qed.

Section limit_facts.
Context `{JsText} (parse_date : string -> option Q).

Lemma number_flag_ok flag top c q : number_flag flag top c = Ok q ->
  match q with
  | Some x => exists s, flag = Some s /\ to_number s = Some x /\ 0 <= x /\ (forall t, top = Some t -> x <= t)
  | None => flag = None
  end.
Proof.
  unfold number_flag. destruct flag as [s|]; [|by intros [= <-]]. destruct (to_number s) as [x|] eqn:E; [|done].
  destruct (Qle_bool 0 x) eqn:E1; [|done]. destruct top as [t|]; cbn [andb].
  - destruct (Qle_bool x t) eqn:E2; [|done]. intros [= <-]. exists s. split_and!; [done..|by apply Qle_bool_iff|].
    intros t' [= <-]. by apply Qle_bool_iff.
  - intros [= <-]. exists s. split_and!; [done..|by apply Qle_bool_iff|done].
Qed.

(** Setting a limit by hand either fails and stores nothing, or stores one limit of a
    known provider, marked as set by hand, whose percentage lies between 0 and 100
    and whose amounts are not negative; the limits of other providers and windows
    stay as they are. *)
Theorem limits_set_spec now provider f d d' :
  limits_set parse_date now provider f d = Ok d' ->
  exists l, provider = uprovider_name (lo_provider l) /\ lo_window l = nullish (lf_window f) "manual" /\ lo_source l = ls_manual /\
    (forall q, lo_usedPercent l = Some q -> 0 <= q <= 100) /\
    (forall q, lo_creditsUsed l = Some q -> 0 <= q) /\ (forall q, lo_creditsTotal l = Some q -> 0 <= q) /\
    (forall k, lookup_key limit_key k (t_limits d') =
       if decide (k = (lo_provider l, lo_window l)) then Some (Collect.limit_row now l) else lookup_key limit_key k (t_limits d)) /\
    t_external d' = t_external d /\ t_settings d' = t_settings d.
Proof.
  unfold limits_set, limit_of_flags. intros Hok.
  apply result_bind_ok in Hok as (l & Hl & [= <-]). apply result_bind_ok in Hl as (p & Hp & Hl). apply checked_ok in Hp as ->.
  destruct (nothing_given f); [done|]. apply result_bind_ok in Hl as (reset & _ & Hl).
  apply result_bind_ok in Hl as (percent & H1%number_flag_ok & Hl). apply result_bind_ok in Hl as (used & H2%number_flag_ok & Hl).
  apply result_bind_ok in Hl as (total & H3%number_flag_ok & [= <-]).
  exists (mkLimitObs p (nullish (lf_window f) "manual") (given (lf_plan f)) percent (given (lf_units f)) used total reset ls_manual).
  split; [done|]. cbn [lo_window lo_source lo_usedPercent lo_creditsUsed lo_creditsTotal lo_provider]. split_and!; try done.
  - intros q ->. destruct H1 as (s & _ & _ & ? & Ht). split; [done|]. by apply Ht.
  - intros q ->. by destruct H2 as (s & _ & _ & ? & _).
  - intros q ->. by destruct H3 as (s & _ & _ & ? & _).
  - intros k. unfold Collect.setManualLimit, upsertLimit, touch, with_limits. cbn [t_limits]. by rewrite lookup_upsert.
Qed.

(** The dashboard takes a percentage that the command refuses. *)
Theorem limits_bounds_differ sql_text now d q :
  100 < q -> (forall s, to_number s = Some q -> forall f, lf_used_percent f = Some s ->
                 exists e, limits_set parse_date now "claude" f d = Throw e) /\
  (LocalApi.limits_put parse_date sql_text now (Some (jobj [("provider", jstr "claude"); ("usedPercent", jnum q)])) d).1 =
    Collect.setManualLimit now (mkLimitObs claude "manual" None (Some q) None None None None ls_manual) d.
Proof.
  intros Hq. split.
  - intros s Hs f Hf. destruct (limits_set parse_date now "claude" f d) as [d'|e] eqn:E; [|by eexists]. exfalso.
    unfold limits_set, limit_of_flags in E. apply result_bind_ok in E as (l & Hl & _). apply result_bind_ok in Hl as (p & _ & Hl).
    destruct (nothing_given f); [done|]. apply result_bind_ok in Hl as (reset & _ & Hl).
    apply result_bind_ok in Hl as (percent & H1%number_flag_ok & _). destruct percent as [x|]; [|congruence].
    destruct H1 as (s' & Hs' & Hx & _ & Ht). assert (s' = s) as -> by congruence. assert (x = q) as -> by congruence.
    specialize (Ht 100 eq_refl). apply (Qlt_not_le 100 q); done.
  - set (fields := [("provider", jstr "claude"); ("usedPercent", jnum q)]).
    assert (Hle : Qle_bool 0 q = true) by (apply Qle_bool_iff, Qlt_le_weak, (Qlt_trans 0 100); done).
    assert (Hp : LocalApi.amount "usedPercent" fields = inl (Some q))
      by (change (LocalApi.amount "usedPercent" fields) with
            (if Qle_bool 0 q then inl (Some q) else inr (LocalApi.bad "usedPercent must be a non-negative number")); by rewrite Hle).
    assert (Hb : LocalApi.limit_of_body parse_date sql_text fields =
      Ok (inl (mkLimitObs claude "manual" None (Some q) None None None None ls_manual)))
      by (unfold LocalApi.limit_of_body; rewrite Hp; reflexivity).
    unfold LocalApi.limits_put. change (LocalApi.body_fields (Some (jobj fields))) with (@Ok (obj json) fields).
    cbn [mbind result_mbind result_bind]. by rewrite Hb.
Qed.
End limit_facts.

(** *** Turning an integration off and on *)

Lemma enabled_set p on d q : Collect.enabled (Collect.setEnabled p on d) q = if decide (p = q) then on else Collect.enabled d q.
Proof.
  unfold Collect.enabled, providerEnabled, Collect.setEnabled, getSetting, setSetting. cbn [with_settings t_settings]. rewrite obj_get_set.
  destruct (decide (p = q)) as [->|Hne].
  - rewrite String.eqb_refl. by destruct on.
  - destruct (String.eqb_spec (enabledKey p) (enabledKey q)) as [Heq|]; [|done]. by destruct p, q.
Qed.

Lemma enabled_consent p k g d q : Collect.enabled (Collect.setConsent p k g d) q = Collect.enabled d q.
Proof.
  unfold Collect.enabled, providerEnabled, Collect.setConsent, getSetting, setSetting. cbn [with_settings t_settings]. rewrite obj_get_set.
  destruct (String.eqb_spec (consentKey p k) (enabledKey q)) as [Heq|]; [|done]. by apply Collect.consent_not_enabled in Heq.
Qed.

Lemma consent_enabled p on d q k : Collect.consent (Collect.setEnabled p on d) q k = Collect.consent d q k.
Proof.
  unfold Collect.consent, hasConsent, Collect.setEnabled, getSetting, setSetting. cbn [with_settings t_settings]. rewrite obj_get_set.
  destruct (String.eqb_spec (enabledKey p) (consentKey q k)) as [Heq|]; [|done]. symmetry in Heq. by apply Collect.consent_not_enabled in Heq.
Qed.

Lemma enable_disable_facts p d :
  (forall credentials live d', integrations_enable (uprovider_name p) credentials live d = Ok d' ->
     Collect.enabled d' p = true /\
     (forall k, Collect.consent d' p k = Collect.consent d p k || match k with ck_credentials => credentials | ck_live => live end) /\
     (forall q, q <> p -> Collect.enabled d' q = Collect.enabled d q /\ forall k, Collect.consent d' q k = Collect.consent d q k)) /\
  (exists d' n, integrations_disable (uprovider_name p) d = Ok (d', n) /\ Collect.enabled d' p = false /\
     (forall k, Collect.consent d' p k = false) /\ Collect.rows_of p (t_external d') = [] /\ Collect.limits_of p (t_limits d') = [] /\
     (forall q, q <> p -> Collect.enabled d' q = Collect.enabled d q /\ Collect.provider_same q d d' /\
        forall k, Collect.consent d' q k = Collect.consent d q k)).
Proof.
  assert (Hchecked : checked (uprovider_name p) = Ok p) by (by apply checked_ok). split.
  - intros credentials live d' Hok. unfold integrations_enable in Hok. rewrite Hchecked in Hok. cbn [mbind result_mbind result_bind] in Hok.
    destruct (negb credentials && negb live); [done|]. injection Hok as <-. split_and!.
    + destruct live, credentials; rewrite ?enabled_consent, enabled_set; by rewrite decide_True.
    + intros k. destruct live, credentials, k; rewrite ?Collect.consent_set, ?consent_enabled, ?orb_true_r, ?orb_false_r;
        repeat first [rewrite decide_True by done | rewrite decide_False by (intros [? ?]; done)]; rewrite ?consent_enabled; done.
    + intros q Hq. split; [|intros k]; destruct live, credentials; rewrite ?enabled_consent, ?Collect.consent_set, ?consent_enabled, ?enabled_set;
        repeat first [rewrite decide_False by (intros ?; naive_solver) | rewrite decide_False by congruence]; rewrite ?consent_enabled; done.
  - unfold integrations_disable. rewrite Hchecked. cbn [mbind result_mbind result_bind].
    destruct (Collect.revoke_facts p d) as (Hc & Hrows & Hlimits & Hothers).
    destruct (Collect.revokeProvider p d) as [d1 n] eqn:E. cbn [fst] in *. exists (Collect.setEnabled p false d1), n. split_and!; [done|..].
    + rewrite enabled_set. by rewrite decide_True.
    + intros k. rewrite consent_enabled, Hc. by rewrite decide_True.
    + exact Hrows.
    + exact Hlimits.
    + intros q Hq. split_and!.
      * rewrite enabled_set, decide_False by congruence.
        change d1 with (d1, n).1. rewrite <- E. change (Collect.revokeProvider p d).1 with (clearProviderUsage p (Collect.setConsent p ck_live false (Collect.setConsent p ck_credentials false d))).1.
        change (Collect.enabled (clearProviderUsage p (Collect.setConsent p ck_live false (Collect.setConsent p ck_credentials false d))).1 q)
          with (Collect.enabled (Collect.setConsent p ck_live false (Collect.setConsent p ck_credentials false d)) q). by rewrite !enabled_consent.
      * exact (Hothers q Hq).
      * intros k. rewrite consent_enabled, Hc. by rewrite decide_False by congruence.
Qed.

(** After [enable] the integration is on with exactly the consents that were asked
    for added; after [disable] it is off without any consent, and nothing of it is
    left.  Neither touches another provider. *)
Theorem enable_disable_spec p d :
  (forall credentials live d', integrations_enable (uprovider_name p) credentials live d = Ok d' ->
     Collect.enabled d' p = true /\
     (forall k, Collect.consent d' p k = Collect.consent d p k || match k with ck_credentials => credentials | ck_live => live end) /\
     (forall q, q <> p -> Collect.enabled d' q = Collect.enabled d q /\ forall k, Collect.consent d' q k = Collect.consent d q k)) /\
  (exists d' n, integrations_disable (uprovider_name p) d = Ok (d', n) /\ Collect.enabled d' p = false /\
     (forall k, Collect.consent d' p k = false) /\ Collect.rows_of p (t_external d') = [] /\ Collect.limits_of p (t_limits d') = [] /\
     (forall q, q <> p -> Collect.enabled d' q = Collect.enabled d q /\ Collect.provider_same q d d' /\
        forall k, Collect.consent d' q k = Collect.consent d q k)).
Proof. apply enable_disable_facts. Qed.

(** Turning an integration off forgets its rows, but not how far its files were
    read: when it is turned on again, a session file that did not change since gives
    nothing, and its usage stays lost. *)
Theorem reenabled_usage_stays_lost `{JsText} ck source v d d1 n live d2 :
  (forall k, late_line ck source k = false) ->
  integrations_disable "claude" (ClaudeUsage.record_visit ck source d v) = Ok (d1, n) -> integrations_enable "claude" true live d1 = Ok d2 ->
  Collect.permitted d2 claude = true /\ ClaudeUsage.record_visit ck source d2 v = d2 /\ Collect.rows_of claude (t_external d2) = [].
Proof.
  intros Htime Hoff Hon. set (d0 := ClaudeUsage.record_visit ck source d v) in *.
  assert (Hcur : unchanged (getSourceCursor d0 source) v.1.1 v.1.2 = true).
  { destruct (unchanged (getSourceCursor d source) v.1.1 v.1.2) eqn:Hu.
    - destruct v as [[size mtime] raw]. cbn [fst snd] in *. subst d0.
      unfold ClaudeUsage.record_visit, ClaudeUsage.visit, ClaudeUsage.parseSessionFile, read_session.
      cbn [log_of lf_stat fst snd]. rewrite Hu. exact Hu.
    - destruct (ClaudeUsage.visit_reads ck source Htime v d Hu) as ((now & Hc) & _). fold d0 in Hc. rewrite Hc. cbn. by rewrite !Z.eqb_refl. }
  assert (Hc1 : t_cursors d1 = t_cursors d0) by (by injection Hoff as <- _).
  assert (Hc2 : t_cursors d2 = t_cursors d1) by (injection Hon as <-; by destruct live).
  destruct (enable_disable_facts claude d0) as (_ & Hdis). destruct (enable_disable_facts claude d1) as (Hen & _).
  destruct (Hen _ _ _ Hon) as (He & Hk & _). destruct Hdis as (d1' & n' & Hd & _ & _ & Hrows & _).
  assert (d1' = d1) as -> by (change (uprovider_name claude) with "claude" in Hd; congruence).
  split_and!.
  - unfold Collect.permitted. rewrite He, Hk. by rewrite orb_true_r.
  - assert (Hun : unchanged (getSourceCursor d2 source) v.1.1 v.1.2 = true) by (unfold getSourceCursor in *; by rewrite Hc2, Hc1).
    destruct v as [[size mtime] raw]. cbn [fst snd] in *.
    unfold ClaudeUsage.record_visit, ClaudeUsage.visit, ClaudeUsage.parseSessionFile, read_session.
    cbn [log_of lf_stat fst snd]. rewrite Hun. by destruct d2.
  - injection Hon as <-. by destruct live.
Qed.

Definition one_event : Z * Z * string := (2, 1, ClaudeUsage.lines ["a"])%Z.

Lemma reenabled_usage_stays_lost_witness :
  let fresh := Collect.setConsent claude ck_credentials true empty_db in
  let read d := @ClaudeUsage.record_visit ClaudeUsage.demo_text ClaudeUsage.in_time_clock "s" d one_event in
  map x_eventKey (t_external (read fresh)) = ["a"] /\
  exists d1 d2, integrations_disable "claude" (read fresh) = Ok (d1, (1%nat, 0%nat)) /\ integrations_enable "claude" true false d1 = Ok d2 /\
    t_external (read d2) = [].
Proof.
  intros fresh read. split; [reflexivity|].
  destruct (integrations_disable "claude" (read fresh)) as [[d1 n]|e] eqn:E1; [|discriminate E1].
  destruct (integrations_enable "claude" true false d1) as [d2|e] eqn:E2; [|discriminate E2].
  destruct (@reenabled_usage_stays_lost ClaudeUsage.demo_text ClaudeUsage.in_time_clock "s" one_event fresh d1 n false d2 (fun _ => eq_refl) E1 E2)
    as (_ & Hread & _).
  exists d1, d2. split_and!; [|exact E2|].
  - assert (Hn : n = (1, 0)%nat) by (revert E1; vm_compute; intros E; by injection E). by rewrite Hn.
  - unfold read. rewrite Hread. revert E1 E2. vm_compute. intros E1. injection E1 as <- _. intros E2. by injection E2 as <-.
Defined.

(** *** Keys *)

(** A key of at least ten characters is stored under the name of its provider, and
    read back as the integration key; the keys of other names stay.  Codex and
    opencode share a name. *)
Theorem set_key_spec {S} `{Secrets.SecretStoreLaws S} p key (s : S) o penv :
  Secrets.ss_get s Secrets.INTEGRATION_VAULT_KEY = Ok o -> (10 <= String.length key)%nat ->
  exists s', set_key (uprovider_name p) false (Some key) None s = Ok s' /\
    Secrets.integrationKey s' penv (KEY_ENV p) = Ok (Some key) /\
    forall env, env <> KEY_ENV p -> obj_get env o <> Some "" ->
      Secrets.integrationKey s' penv env = Secrets.integrationKey s penv env.
Proof.
  intros Ho Hlen. unfold set_key. rewrite (proj2 (checked_ok _ p) eq_refl). cbn [mbind result_mbind result_bind].
  destruct (Nat.ltb_spec (String.length key) 10); [lia|]. unfold Secrets.storeIntegrationKey. rewrite Ho. cbn [mbind result_mbind result_bind].
  pose proof (Secrets.ss_get_nodup _ _ _ Ho) as Hnd.
  destruct (Secrets.ss_set_ok s Secrets.INTEGRATION_VAULT_KEY (obj_set (KEY_ENV p) key o) o Ho) as (s' & o' & Hs & Hg & Hget & _);
    [by apply obj_set_nodup|].
  exists s'. split; [done|]. unfold Secrets.integrationKey. rewrite Hg, Ho. cbn [mbind result_mbind result_bind]. split.
  - rewrite Hget. unfold Secrets.merged_value. rewrite obj_get_set, String.eqb_refl.
    rewrite bool_decide_eq_false_2; [done|]. intros [= ->]. cbn in Hlen. lia.
  - intros env Hne Hempty. rewrite Hget. unfold Secrets.merged_value. rewrite obj_get_set.
    destruct (String.eqb_spec (KEY_ENV p) env) as [|_]; [congruence|].
    destruct (obj_get env o) as [x|]; [by rewrite bool_decide_eq_false_2|by rewrite bool_decide_eq_false_2].
Qed.
End ProviderCommands.
