(* ===== verification/Publishing.v ===== *)
(** Making and publishing agents, and asking the registry about an account:
    [cli/src/commands/publish.ts], [init.ts], [validate.ts], [install.ts], [update.ts],
    [whoami.ts] and [auth/].  A command is a [tr] over what it does to files and the
    registry; it fails with the message of [this.error]. *)
From S2P Require Import Prelude Fs NodePath Trace Manifest Package Versions Requirements Policy Config Secrets Registry Installer.

Module Publishing.
Import Trace Package Requirements Manifest.
Local Open Scope Z_scope.

(** What the commands do to the outside; packing runs tar and writes the archive and
    its signature file. *)
Inductive pact :=
| pa_http (rq : Registry.Request)
| pa_mkdir (path : string)
| pa_write (path content : string) (mode : option Z)
| pa_pack (dir : string).

Definition sent (h : list pact) : list Registry.Request :=
  omap (fun a => match a with pa_http rq => Some rq | _ => None end) h.

Definition http {A} (m : tr Registry.Request A) : tr pact A := fun h =>
  let '(rqs, r) := m (sent h) in (h ++ map pa_http (drop (length (sent h)) rqs), r).

Definition do_ (a : pact) : tr pact unit := act a (fun _ => Ok tt).

(** [parts[i]] of a split, as the URL functions take it. *)
Definition part (i : nat) (parts : list string) : string := nullish (parts !! i) "undefined".

(** The files after what was done so far. *)
Record files := mkFiles {
  f_exists : list pact -> string -> bool;
  f_read : list pact -> string -> result string;
}.

(** @src cli/src/lib/credentials.ts resolveRegistryUrl *)
Definition resolveRegistryUrl (config : Config.config_file) (flag : option string) : result string :=
  if truthy flag then Ok (nullish flag "")
  else c ← Config.loadConfig config; mret (nullish (Config.registryUrl c) Config.REGISTRY_DEFAULT).

(** ** Publishing *)

Section publish.
Context `{CryptoProvider}.
Context (fs : files) (KEYS_DIR : string) (generateKeyPair : string * string).
(** What packing reads, and tar. *)
Context (load : string -> result (Manifest * string)) (readTree : string -> tree) (tar : list string -> spawn_outcome * string).
Context (fetch : forall k : Registry.kind, list Registry.Request -> Registry.Request ->
  result (Registry.Response (Registry.answer_type k))).
Context (config : Config.config_file) (resolveToken : string -> option string).

Definition existsSync (p : string) : tr pact bool := fun h => (h, Ok (f_exists fs h p)).
Definition readFileSync (p : string) : tr pact string := fun h => (h, f_read fs h p).

Definition privPath : string := NodePath.join KEYS_DIR "id_ed25519".
Definition pubPath : string := NodePath.join KEYS_DIR "id_ed25519.pub".

(** The pair on disk, if both files are there.
    @src cli/src/commands/publish.ts 67-73 signingKey *)
Definition stored_key : tr pact (option (string * string)) :=
  a ← existsSync privPath;
  b ← existsSync pubPath;
  if a && b then
    privateKey ← readFileSync privPath;
    publicKey ← readFileSync pubPath;
    fp ← tr_lift (publicKeyFingerprint (js_trim publicKey));
    mret (if String.eqb fp "" then None else Some (js_trim privateKey, js_trim publicKey))
  else mret None.

(** @src cli/src/commands/publish.ts signingKey *)
Definition signingKey : tr pact (string * string) :=
  stored ← stored_key;
  match stored with
  | Some kp => mret kp
  | None =>
      _ ← do_ (pa_mkdir KEYS_DIR);
      _ ← do_ (pa_write privPath (fst generateKeyPair) (Some 384));
      _ ← do_ (pa_write pubPath (snd generateKeyPair) (Some 384));
      _ ← tr_lift (publicKeyFingerprint (snd generateKeyPair));
      mret generateKeyPair
  end.

(** @src cli/src/commands/publish.ts parseNameVersion *)
Definition parseNameVersion (nm v : string) : string * string * string :=
  let parts := js_split "/" nm in (part 0 parts, part 1 parts, v).

(** The archive is read again when it is sent.  [None] with the flag
    [--public-only].
    @src cli/src/commands/publish.ts run *)
Definition publish (registry : option string) (public_only : bool) (projectDir : string) : tr pact (option Registry.PublishReply) :=
  _ ← tr_lift (Config.loadConfig config);
  url ← tr_lift (resolveRegistryUrl config registry);
  '(privateKey, publicKey) ← signingKey;
  pkg ← act (pa_pack projectDir) (fun _ => packAgent load readTree tar projectDir privateKey (Some projectDir));
  if public_only then mret None
  else
    let token := resolveToken url in
    if negb (truthy token) then tr_throw EError "not authenticated. Run: openagenthub login"
    else
      _ ← tr_catch (http (Registry.me fetch url token))
            (fun e => tr_throw EError ("authentication failed at " +:+ url +:+ ": " +:+ err_message e));
      _ ← http (Registry.uploadPublicKey fetch url token publicKey None None);
      let m := pk_manifest pkg in
      let '(ns, nm, v) := parseNameVersion (name m) (version m) in
      archive ← readFileSync (archivePath pkg);
      reply ← http (Registry.publish fetch url token ns nm v archive (pk_signature pkg));
      mret (Some reply).
End publish.

(** ** A new project *)

Section init.
Context (fs : files) (config : Config.config_file) (cwd user : string).
(** [yaml.dump], the parser, the validator, and the cast of its document. *)
Context {Doc : Type} (yaml_dump : Manifest -> string) (yaml_load : string -> result Doc) (schema_errors : Doc -> list ajv_error)
  (as_manifest : Doc -> Manifest).

Definition q : string := str1 "034".
Definition text (lines : list string) : string := js_join (str1 LF) lines +:+ str1 LF.

Definition command_of (node_agent : bool) : string := if node_agent then "node index.js" else "python app.py".

(** @src cli/src/commands/init.ts 47-63 templates *)
Definition init_manifest (nm : string) (node_agent : bool) : Manifest :=
  mkManifest nm "0.1.0" user "A new OpenAgentHub agent" "MIT" None None None
    (mkRuntimeSpec (if node_agent then node else python) None None None) None
    [openai; anthropic; ollama; deepseek; google; local_model]
    (mkInterfaces (Some (mkCli (command_of node_agent) (Some "json") (Some "json"))) None None)
    (Some []) (Some (mkDeps None None None)) None (Some ["agent"]) None.

(** @src cli/src/commands/init.ts 66-86 templates *)
Definition source_text (node_agent : bool) : string :=
  if node_agent then text
    ["#!/usr/bin/env node";
     "// Read input as JSON from stdin";
     "let input = " +:+ q +:+ q +:+ ";";
     "process.stdin.on(" +:+ q +:+ "data" +:+ q +:+ ", (d) => (input += d));";
     "process.stdin.on(" +:+ q +:+ "end" +:+ q +:+ ", () => {";
     "  const args = input.trim() ? JSON.parse(input) : {};";
     "  console.log(JSON.stringify({ ok: true, hello: args.name ?? " +:+ q +:+ "world" +:+ q +:+ " }));";
     "});"]
  else text
    ["import sys, json"; "";
     "def main():";
     "    data = json.load(sys.stdin) if not sys.stdin.isatty() else {}";
     "    print(json.dumps({" +:+ q +:+ "ok" +:+ q +:+ ": True, " +:+ q +:+ "hello" +:+ q +:+ ": data.get("
       +:+ q +:+ "name" +:+ q +:+ ", " +:+ q +:+ "world" +:+ q +:+ ")}))"; "";
     "if __name__ == " +:+ q +:+ "__main__" +:+ q +:+ ":";
     "    main()"].

(** @src cli/src/commands/init.ts templates *)
Definition templates (nm : string) (node_agent : bool) : result (list (string * string)) :=
  let m := init_manifest nm node_agent in
  doc ← yaml_load (yaml_dump m);
  _ ← assertValidManifest schema_errors as_manifest doc;
  mret [("agent.yaml", yaml_dump m +:+ str1 LF);
        ((if node_agent then "index.js" else "app.py"), source_text node_agent);
        ("README.md", text ["# " +:+ nm; ""; "An agent published to OpenAgentHub."]);
        (".gitignore", text ["node_modules/"; ".venv/"; "__pycache__/"; "dist/"])].

(** @src cli/src/commands/init.ts 33-42 run *)
Fixpoint write_templates (target : string) (force : bool) (l : list (string * string)) : tr pact unit :=
  match l with
  | [] => mret tt
  | (path, content) :: rest =>
      let dest := NodePath.join target path in
      present ← existsSync fs dest;
      if negb force && present then tr_throw EError (dest +:+ " already exists (use --force to overwrite)")
      else
        _ ← do_ (pa_mkdir (NodePath.join target (js_join "/" (removelast (js_split "/" path)))));
        _ ← do_ (pa_write dest content None);
        write_templates target force rest
  end.

Definition init_name (arg : string) : string := if js_has_char "/" arg then arg else user +:+ "/" +:+ arg.

(** @src cli/src/commands/init.ts run *)
Definition init (arg : string) (dir : option string) (python_flag node_flag force : bool) : tr pact string :=
  _ ← tr_lift (Config.loadConfig config);
  let nm := init_name arg in
  let target := NodePath.resolve cwd (nullish dir ("./" +:+ part 1 (js_split "/" nm))) in
  _ ← do_ (pa_mkdir target);
  l ← tr_lift (templates nm (negb python_flag && node_flag));
  _ ← write_templates target force l;
  mret target.
End init.

(** ** Checking a project *)

(** What [validate] prints; [json] is the flag. *)
Inductive validation :=
| val_json_valid (path : string) (m : Manifest) (req : RequirementCheck)
| val_json_invalid (error : string)
| val_valid (path : string) (m : Manifest).

(** [exit_error] is what [this.exit] throws.
    @src cli/src/commands/validate.ts run *)
Definition validate (exit_error : Z -> jserror) (load : string -> result (Manifest * string)) (detected : DetectedRuntime)
    (dir : string) (json : bool) : result validation :=
  let attempt :=
    '(m, path) ← load dir;
    let req := checkAgentRequirements m detected in
    if json then mret (val_json_valid path m req)
    else if negb (satisfied req) then Throw (exit_error 1)
    else mret (val_valid path m) in
  match attempt with
  | Ok v => Ok v
  | Throw err => if json then Ok (val_json_invalid (err_message err)) else throw EError ("invalid: " +:+ err_message err)
  end.

(** ** Installing and updating *)

(** [this.error] with the message of what was thrown. *)
Definition reported {Act A} (m : tr Act A) : tr Act A := tr_catch m (fun e => tr_throw EError (err_message e)).

Section install.
Context `{CryptoProvider} {Doc : Type} (w : Installer.world Doc).

(** @src cli/src/commands/install.ts run *)
Definition install (spec : string) (file dir registry : option string) (yes no_permissions force : bool) : tr Installer.iact unit :=
  let source := if truthy file then Installer.src_file (nullish file "")
                else if truthy dir then Installer.src_dir (nullish dir "") else Installer.src_registry in
  reported (Installer.installAgent w spec source (Installer.mkInstallOptions yes no_permissions registry (Some force))).

(** The token of the world is the one for the registry.
    @src cli/src/commands/update.ts run *)
Definition update (spec : string) (registry : option string) (yes : bool) : tr Installer.iact unit :=
  _ ← tr_lift (Config.loadConfig (Installer.w_config w));
  url ← tr_lift (resolveRegistryUrl (Installer.w_config w) registry);
  reported
    (let parts := js_split "/" spec in
     detail ← Installer.http (Registry.getVersion (Installer.w_fetch w) url (Installer.w_token w) (part 0 parts) (part 1 parts) "latest");
     Installer.installAgent w (spec +:+ "@" +:+ version (Registry.vd_manifest detail)) Installer.src_registry
       (Installer.mkInstallOptions yes false (Some url) (Some true))).
End install.

(** ** The account *)

Section account.
Context (fetch : forall k : Registry.kind, list Registry.Request -> Registry.Request ->
  result (Registry.Response (Registry.answer_type k))).
Context (config : Config.config_file) (resolveToken : string -> option string).

Local Abbreviation M := (tr Registry.Request).

(** The registry and the token there; [None] without one. *)
Definition signed_in (registry : option string) : result (string * option string) :=
  url ← resolveRegistryUrl config registry;
  mret (url, if truthy (resolveToken url) then resolveToken url else None).

(** @src cli/src/commands/whoami.ts run *)
Definition whoami (registry : option string) : M (option Registry.Me) :=
  '(url, token) ← tr_lift (signed_in registry);
  match token with
  | None => mret None
  | Some _ => tr_catch (me ← Registry.me fetch url token; mret (Some me))
                (fun e => tr_throw EError ("not authenticated at " +:+ url +:+ ": " +:+ err_message e))
  end.

(** The account, the active and all of its sessions.
    @src cli/src/commands/auth/index.ts run *)
Definition auth (registry : option string) : M (option (Registry.Me * nat * nat)) :=
  '(url, token) ← tr_lift (signed_in registry);
  match token with
  | None => mret None
  | Some _ =>
      tr_catch
        (me ← Registry.me fetch url token;
         sessions ← Registry.mySessions fetch url token;
         mret (Some (me, length (List.filter (fun s => negb (Registry.si_revoked s)) sessions), length sessions)))
        (fun e => tr_throw EError ("registry unreachable at " +:+ url +:+ ": " +:+ err_message e))
  end.

Definition unknown_agreements : Registry.AgreementsInfo := Registry.mkAgreements "unknown" "unknown" "unknown".

(** @src cli/src/commands/auth/status.ts run *)
Definition auth_status (registry : option string) : M (option (Registry.Me * Registry.AgreementsInfo)) :=
  '(url, token) ← tr_lift (signed_in registry);
  match token with
  | None => mret None
  | Some _ =>
      tr_catch
        (me ← Registry.me fetch url token;
         agreements ← tr_catch (Registry.myAgreements fetch url token) (fun _ => mret unknown_agreements);
         mret (Some (me, agreements)))
        (fun e => tr_throw EError ("authentication failed at " +:+ url +:+ ": " +:+ err_message e))
  end.

Definition not_signed_in {A} : M A := tr_throw EError "not signed in (run: openagenthub login)".

(** @src cli/src/commands/auth/sessions.ts run *)
Definition auth_sessions (registry : option string) : M (list Registry.SessionInfo) :=
  '(url, token) ← tr_lift (signed_in registry);
  match token with
  | None => not_signed_in
  | Some _ => tr_catch (Registry.mySessions fetch url token)
                (fun e => tr_throw EError ("could not list sessions at " +:+ url +:+ ": " +:+ err_message e))
  end.

(** [id] is [Number] of the argument when that is an integer.
    @src cli/src/commands/auth/revoke.ts run *)
Definition auth_revoke (registry : option string) (id : option Z) : M unit :=
  '(url, token) ← tr_lift (signed_in registry);
  match token with
  | None => not_signed_in
  | Some _ =>
      match id with
      | Some n =>
          if n <=? 0 then tr_throw EError "session id must be a positive integer"
          else tr_catch (Registry.revokeSession fetch url token n)
                 (fun e => tr_throw EError ("could not revoke session " +:+ pretty n +:+ ": " +:+ err_message e))
      | None => tr_throw EError "session id must be a positive integer"
      end
  end.
End account.

(** ** Properties *)

(** *** Requests *)

Lemma sent_app h h' : sent (h ++ h') = sent h ++ sent h'.
Proof. apply omap_app. Qed.

Lemma sent_http l : sent (map pa_http l) = l.
Proof. induction l as [|r l IH]; [done|]. cbn. by f_equal. Qed.

Lemma sent_pack h dir : sent (h ++ [pa_pack dir]) = sent h.
Proof. rewrite sent_app. apply app_nil_r. Qed.

Lemma http_run {A} (m : tr Registry.Request A) h l :
  (m (sent h)).1 = sent h ++ l -> http m h = (h ++ map pa_http l, (m (sent h)).2).
Proof. unfold http. intros Hm. destruct (m (sent h)) as [rqs r]. cbn in *. subst. by rewrite list.drop_app_length. Qed.

(** A request that carries a token. *)
Definition carries (token url method path : string) (body : Registry.RequestBody) (rq : Registry.Request) : Prop :=
  Registry.rq_method rq = method /\ Registry.rq_url rq = url +:+ path /\ Registry.rq_body rq = body /\
  obj_get "Authorization" (Registry.rq_headers rq) = Some ("Bearer " +:+ token).

Section sends.
Context (fetch : forall k : Registry.kind, list Registry.Request -> Registry.Request ->
  result (Registry.Response (Registry.answer_type k))).
Context (url token : string) (Htoken : truthy (Some token) = true).

Lemma request_sends k path method headers body l : headers = [] \/ headers = Registry.json_headers ->
  exists rq, (Registry.request fetch url (Some token) k path method headers body l).1 = l ++ [rq] /\ carries token url method path body rq.
Proof.
  intros Hh. eexists. split; [apply Registry.request_run|]. unfold carries, Registry.the_request, Registry.auth_header. rewrite Htoken.
  cbn [Registry.rq_method Registry.rq_url Registry.rq_body Registry.rq_headers]. split_and!; try done.
  destruct Hh as [->| ->]; reflexivity.
Qed.

Lemma me_sends l : exists rq, (Registry.me fetch url (Some token) l).1 = l ++ [rq] /\ carries token url "GET" "/api/v1/me" Registry.rb_none rq.
Proof.
  destruct (request_sends Registry.k_me "/api/v1/me" "GET" [] Registry.rb_none l) as (rq & Hr & Hc); [by left|].
  exists rq. split; [by apply bind_quiet|done].
Qed.

Lemma key_sends pem l : exists rq, (Registry.uploadPublicKey fetch url (Some token) pem None None l).1 = l ++ [rq] /\
  carries token url "POST" "/api/v1/keys" (Registry.rb_json [("publicKey", Registry.jf_string pem)]) rq.
Proof.
  destruct (request_sends Registry.k_ignored "/api/v1/keys" "POST" Registry.json_headers
    (Registry.rb_json [("publicKey", Registry.jf_string pem)]) l) as (rq & Hr & Hc); [by right|].
  exists rq. split; [by apply bind_quiet|done].
Qed.

Lemma publish_sends ns nm v archive sig l : exists rq,
  (Registry.publish fetch url (Some token) ns nm v archive sig l).1 = l ++ [rq] /\
  carries token url "PUT" (Registry.version_segment ns nm v) (Registry.rb_archive archive (nm +:+ "-" +:+ v +:+ ".ahb") sig) rq.
Proof.
  destruct (request_sends Registry.k_publish (Registry.version_segment ns nm v) "PUT" []
    (Registry.rb_archive archive (nm +:+ "-" +:+ v +:+ ".ahb") sig) l) as (rq & Hr & Hc); [by left|].
  exists rq. split; [by apply bind_quiet|done].
Qed.
End sends.

(** *** Publishing *)

Section publishing.
Context `{CryptoProvider}.
Context (fs : files) (KEYS_DIR : string) (generateKeyPair : string * string).
Context (load : string -> result (Manifest * string)) (readTree : string -> tree) (tar : list string -> spawn_outcome * string).
Context (fetch : forall k : Registry.kind, list Registry.Request -> Registry.Request ->
  result (Registry.Response (Registry.answer_type k))).
Context (config : Config.config_file) (resolveToken : string -> option string).

Abbreviation publish := (publish fs KEYS_DIR generateKeyPair load readTree tar fetch config resolveToken).
Abbreviation stored := (stored_key fs KEYS_DIR).
Abbreviation signing := (signingKey fs KEYS_DIR generateKeyPair).

Lemma stored_key_silent h : (stored h).1 = h.
Proof.
  unfold stored_key, existsSync, readFileSync. rewrite !tr_bind_run. destruct (_ && _); [|done].
  rewrite !tr_bind_run. destruct (f_read fs h _) as [a|e]; [|done]. rewrite !tr_bind_run. destruct (f_read fs h _) as [b|e]; [|done].
  rewrite !tr_bind_run. unfold tr_lift. by destruct (publicKeyFingerprint _).
Qed.

(** The key pair is the one on disk when both of its files are there, and nothing is
    written; otherwise a new pair is written over whatever is there. *)
Theorem signingKey_spec h :
  let both := f_exists fs h (privPath KEYS_DIR) && f_exists fs h (pubPath KEYS_DIR) in
  (both = true -> (forall k, publicKeyFingerprint k <> Ok "") -> (signing h).1 = h /\
     forall kp, (signing h).2 = Ok kp -> exists a b, f_read fs h (privPath KEYS_DIR) = Ok a /\ f_read fs h (pubPath KEYS_DIR) = Ok b /\
       kp = (js_trim a, js_trim b)) /\
  (both = false -> (signing h).1 = h ++ [pa_mkdir KEYS_DIR; pa_write (privPath KEYS_DIR) (fst generateKeyPair) (Some 384);
                                       pa_write (pubPath KEYS_DIR) (snd generateKeyPair) (Some 384)]).
Proof.
  cbv zeta. split.
  - intros Hboth Hfp. unfold signingKey. rewrite tr_bind_run. unfold stored_key, existsSync, readFileSync. rewrite !tr_bind_run. rewrite Hboth.
    rewrite !tr_bind_run. destruct (f_read fs h (privPath KEYS_DIR)) as [a|e]; [|done]. rewrite !tr_bind_run.
    destruct (f_read fs h (pubPath KEYS_DIR)) as [b|e]; [|done]. rewrite !tr_bind_run. unfold tr_lift. specialize (Hfp (js_trim b)).
    destruct (publicKeyFingerprint (js_trim b)) as [fp|e]; [|done]. destruct (String.eqb_spec fp "") as [->|Hne]; [done|].
    cbn. split; [done|]. intros kp [= <-]. by exists a, b.
  - intros Hboth. unfold signingKey. rewrite tr_bind_run. unfold stored_key, existsSync, readFileSync. rewrite !tr_bind_run. rewrite Hboth.
    cbn. unfold do_, act. rewrite !tr_bind_run. destruct (publicKeyFingerprint (snd generateKeyPair)); cbn; by rewrite <- !app_assoc.
Qed.

Lemma signing_unsent h : sent (signing h).1 = sent h.
Proof.
  unfold signingKey. rewrite tr_bind_run. pose proof (stored_key_silent h) as Hs.
  destruct (stored h) as [h1 [[kp|]|e]]; cbn in Hs; subst h1; [done| |done].
  unfold do_, act. rewrite !tr_bind_run. unfold tr_lift. destruct (publicKeyFingerprint _); cbn [fst mret tr_mret tr_ret];
    rewrite !sent_app; cbn; by rewrite !app_nil_r.
Qed.

(** Nothing is sent before the agent is packed, nor with [--public-only], nor without
    a token for the registry. *)
Theorem publish_unsent registry public_only dir h url :
  resolveRegistryUrl config registry = Ok url ->
  public_only = true \/ truthy (resolveToken url) = false ->
  sent (publish registry public_only dir h).1 = sent h.
Proof.
  intros Hurl Hquiet. unfold Publishing.publish. rewrite tr_bind_run. unfold tr_lift at 1.
  destruct (Config.loadConfig config) as [c|e]; [|done]. rewrite tr_bind_run. rewrite Hurl. unfold tr_lift at 1.
  rewrite tr_bind_run. pose proof (signing_unsent h) as Hs. destruct (signing h) as [h1 [[priv pub]|e]]; cbn [fst] in Hs; [|done].
  rewrite tr_bind_run. unfold act at 1. destruct (packAgent _ _ _ _ _ _) as [pkg|e]; [|cbn [fst]; by rewrite sent_pack].
  assert (Hp : sent (h1 ++ [pa_pack dir]) = sent h) by (by rewrite sent_pack).
  destruct public_only; [exact Hp|]. destruct Hquiet as [?|Hquiet]; [done|]. rewrite Hquiet. exact Hp.
Qed.

(** What a publication sends, and what of it verifies. *)
Lemma publish_sent `{!CryptoLaws} registry dir h h' reply :
  publish registry false dir h = (h', Ok (Some reply)) ->
  exists url token kp pkg archive h1 r1 r2 r3,
    resolveRegistryUrl config registry = Ok url /\ resolveToken url = Some token /\ token <> "" /\
    (signing h).2 = Ok kp /\ packAgent load readTree tar dir (fst kp) (Some dir) = Ok pkg /\ f_read fs h1 (archivePath pkg) = Ok archive /\
    sent h' = sent h ++ [r1; r2; r3] /\
    carries token url "GET" "/api/v1/me" Registry.rb_none r1 /\
    carries token url "POST" "/api/v1/keys" (Registry.rb_json [("publicKey", Registry.jf_string (snd kp))]) r2 /\
    (let '(ns, nm, v) := parseNameVersion (name (pk_manifest pkg)) (version (pk_manifest pkg)) in
     carries token url "PUT" (Registry.version_segment ns nm v) (Registry.rb_archive archive (nm +:+ "-" +:+ v +:+ ".ahb") (pk_signature pkg)) r3) /\
    (sha256Hex archive = pk_sha256 pkg -> verifySignatureFileStrict (pk_signature pkg) archive = Ok tt) /\ pa_pack dir ∈ h1.
Proof.
  intros Hpub. unfold Publishing.publish in Hpub. tr_inv Hpub as c Hc. apply tr_lift_ok in Hc as [_ ->].
  tr_inv Hpub as url Hu. apply tr_lift_ok in Hu as [Hu ->]. tr_inv Hpub as kp Hkp. pose proof (signing_unsent h) as Hs. rewrite Hkp in Hs. cbn [fst] in Hs.
  destruct kp as [priv pub]. tr_inv Hpub as pkg Hpk. unfold act in Hpk. injection Hpk as <- Hpk.
  destruct (resolveToken url) as [token|] eqn:Htok; [|done]. destruct (truthy (Some token)) eqn:Ht; [|done]. cbn [negb] in Hpub.
  assert (Hne : token <> "") by (intros ->; done).
  tr_inv Hpub as m1 Hm. match type of Hs with sent ?x = _ => set (h2 := x ++ [pa_pack dir]) in * end.
  assert (Hh2 : sent h2 = sent h) by (unfold h2; by rewrite sent_pack).
  destruct (me_sends fetch url token Ht (sent h2)) as (r1 & Hr1 & Hc1). unfold tr_catch in Hm. rewrite (http_run _ _ _ Hr1) in Hm.
  destruct (Registry.me fetch url (Some token) (sent h2)).2; [|done]. injection Hm as <- _. cbn [map] in Hpub.
  set (h3 := h2 ++ [pa_http r1]) in *.
  tr_inv Hpub as k1 Hk. destruct (key_sends fetch url token Ht pub (sent h3)) as (r2 & Hr2 & Hc2). rewrite (http_run _ _ _ Hr2) in Hk.
  injection Hk as <- _. cbn [map] in Hpub. set (h4 := h3 ++ [pa_http r2]) in *.
  destruct (parseNameVersion (name (pk_manifest pkg)) (version (pk_manifest pkg))) as [[ns nm] v] eqn:Hnv.
  tr_inv Hpub as archive Ha. unfold readFileSync in Ha. injection Ha as <- Ha.
  tr_inv Hpub as rep Hrep. destruct (publish_sends fetch url token Ht ns nm v archive (pk_signature pkg) (sent h4)) as (r3 & Hr3 & Hc3).
  rewrite (http_run _ _ _ Hr3) in Hrep. injection Hrep as <- _. cbn [map] in Hpub. injection Hpub as <- _.
  exists url, token, (priv, pub), pkg, archive, h4, r1, r2, r3. split_and!; try done.
  - by rewrite Hkp.
  - unfold h4, h3. rewrite !sent_app, Hh2. cbn. by rewrite <- !app_assoc.
  - by rewrite Hnv.
  - intros Hsha. apply packed_verifies in Hpk as ((args & status & archive0 & _ & Hsha0 & Hver) & _).
    apply strict_iff in Hver. apply strict_iff. unfold sig_checks in *. by rewrite Hsha, Hsha0.
  - unfold h4, h3, h2. rewrite !elem_of_app, !list_elem_of_singleton. tauto.
Qed.

(** C25: A successful publication sends three requests, each to the registry with the
    token for it: it asks who the token belongs to, registers the public key, and
    sends the archive with the signature of what was packed.  If the archive did not
    change since it was packed, it verifies against that signature. *)
Theorem publish_ok `{!CryptoLaws} registry dir h h' reply :
  publish registry false dir h = (h', Ok (Some reply)) ->
  exists url token kp pkg archive h1 r1 r2 r3,
    resolveRegistryUrl config registry = Ok url /\ resolveToken url = Some token /\ token <> "" /\
    (signing h).2 = Ok kp /\ packAgent load readTree tar dir (fst kp) (Some dir) = Ok pkg /\ f_read fs h1 (archivePath pkg) = Ok archive /\
    sent h' = sent h ++ [r1; r2; r3] /\
    carries token url "GET" "/api/v1/me" Registry.rb_none r1 /\
    carries token url "POST" "/api/v1/keys" (Registry.rb_json [("publicKey", Registry.jf_string (snd kp))]) r2 /\
    (let '(ns, nm, v) := parseNameVersion (name (pk_manifest pkg)) (version (pk_manifest pkg)) in
     carries token url "PUT" (Registry.version_segment ns nm v) (Registry.rb_archive archive (nm +:+ "-" +:+ v +:+ ".ahb") (pk_signature pkg)) r3) /\
    (sha256Hex archive = pk_sha256 pkg -> verifySignatureFileStrict (pk_signature pkg) archive = Ok tt) /\ pa_pack dir ∈ h1.
Proof. apply publish_sent. Qed.
End publishing.

(** Without the file of the public key the private key on disk is replaced, whatever
    it holds. *)
Theorem missing_public_key_replaces_private `{CryptoProvider} fs KEYS_DIR pair h :
  f_exists fs h (privPath KEYS_DIR) = true -> f_exists fs h (pubPath KEYS_DIR) = false ->
  In (pa_write (privPath KEYS_DIR) (fst pair) (Some 384)) (signingKey fs KEYS_DIR pair h).1.
Proof.
  intros H1 H2. destruct (signingKey_spec fs KEYS_DIR pair h) as [_ Hnew]. rewrite Hnew by (by rewrite H1, H2).
  apply in_or_app. right. right. by left.
Qed.

(** *** A new project *)

Section projects.
Context (fs : files) (config : Config.config_file) (cwd user : string) {Doc : Type} (yaml_dump : Manifest -> string)
  (yaml_load : string -> result Doc) (schema_errors : Doc -> list ajv_error) (as_manifest : Doc -> Manifest).

(** What writing one file does. *)
Definition placed (target : string) (pc : string * string) : list pact :=
  [pa_mkdir (NodePath.join target (js_join "/" (removelast (js_split "/" (fst pc))))); pa_write (NodePath.join target (fst pc)) (snd pc) None].

Lemma write_templates_run target force l h :
  match write_templates fs target force l h with
  | (h', Ok _) => h' = h ++ flat_map (placed target) l /\
      (force = false -> forall i pc, l !! i = Some pc -> f_exists fs (h ++ flat_map (placed target) (take i l)) (NodePath.join target (fst pc)) = false)
  | (h', Throw e) => force = false /\ exists i pc, l !! i = Some pc /\ h' = h ++ flat_map (placed target) (take i l) /\
      f_exists fs h' (NodePath.join target (fst pc)) = true
  end.
Proof.
  revert h. induction l as [|[path content] rest IH]; intros h; cbn [write_templates]; [by rewrite app_nil_r|].
  rewrite tr_bind_run. unfold existsSync. destruct (negb force && f_exists fs h (NodePath.join target path)) eqn:E.
  - apply andb_prop in E as [Hf He]. split; [by destruct force|]. exists 0%nat, (path, content). cbn. by rewrite app_nil_r.
  - rewrite !tr_bind_run. unfold do_, act. rewrite !tr_bind_run. specialize (IH ((h ++ [pa_mkdir (NodePath.join target (js_join "/" (removelast (js_split "/" path))))])
      ++ [pa_write (NodePath.join target path) content None])).
    assert (Happ : forall l', ((h ++ [pa_mkdir (NodePath.join target (js_join "/" (removelast (js_split "/" path))))])
      ++ [pa_write (NodePath.join target path) content None]) ++ l' = h ++ placed target (path, content) ++ l')
      by (intros; by rewrite <- !app_assoc).
    destruct (write_templates fs target force rest _) as [h' [[]|e]]; rewrite ?Happ in IH.
    + destruct IH as [-> IH]. split; [done|]. intros Hf i pc Hi. destruct i as [|i].
      * injection Hi as <-. cbn. rewrite app_nil_r. subst force. by cbn in E.
      * specialize (IH Hf i pc Hi). cbn [take flat_map]. by rewrite <- Happ.
    + destruct IH as (Hf & i & pc & Hi & -> & He). split; [done|]. exists (S i), pc. by rewrite Happ in *.
Qed.

(** A new project that is made consists of the four files of the template, in a
    directory made for it; its manifest is valid, and without [--force] none of the
    files was there. *)
Theorem init_ok arg dir python_flag node_flag force h h' target :
  init fs config cwd user yaml_dump yaml_load schema_errors as_manifest arg dir python_flag node_flag force h = (h', Ok target) ->
  exists doc l, let m := init_manifest user (init_name user arg) (negb python_flag && node_flag) in
    yaml_load (yaml_dump m) = Ok doc /\ schema_errors doc = [] /\
    map fst l = ["agent.yaml"; (if negb python_flag && node_flag then "index.js" else "app.py"); "README.md"; ".gitignore"] /\
    h' = h ++ pa_mkdir target :: flat_map (placed target) l /\
    (force = false -> forall i pc, l !! i = Some pc ->
       f_exists fs (h ++ pa_mkdir target :: flat_map (placed target) (take i l)) (NodePath.join target (fst pc)) = false).
Proof.
  unfold init. intros Hi. tr_inv Hi as c Hc. apply tr_lift_ok in Hc as [_ ->]. cbv zeta in Hi.
  tr_inv Hi as u Hd. unfold do_, act in Hd. injection Hd as <- _. tr_inv Hi as l Hl. apply tr_lift_ok in Hl as [Hl ->].
  tr_inv Hi as u' Hw. apply tr_ret_ok in Hi as [<- ->]. unfold templates in Hl. apply result_bind_ok in Hl as (doc & Hdoc & Hl).
  apply result_bind_ok in Hl as (m & Hm & Hl). injection Hl as <-.
  match type of Hw with write_templates _ ?t _ ?l0 ?h0 = _ => pose proof (write_templates_run t force l0 h0) as Hrun; rewrite Hw in Hrun; exists doc, l0 end.
  destruct Hrun as [-> Hrun]. cbv zeta. split_and!; [done| |by destruct (negb python_flag && node_flag)| |].
  - unfold assertValidManifest, validateManifest in Hm. by destruct (schema_errors doc).
  - by rewrite <- app_assoc.
  - intros Hf i pc Hi. specialize (Hrun Hf i pc Hi). by rewrite <- app_assoc in Hrun.
Qed.

(** A file that is in the way is noticed only when its turn comes: with a readme the
    command fails, and has written the manifest and the source. *)
Theorem init_not_atomic arg dir python_flag node_flag h c l :
  let target := NodePath.resolve cwd (nullish dir ("./" +:+ part 1 (js_split "/" (init_name user arg)))) in
  let node_agent := negb python_flag && node_flag in
  Config.loadConfig config = Ok c -> templates user yaml_dump yaml_load schema_errors as_manifest (init_name user arg) node_agent = Ok l ->
  (forall h p, f_exists fs h p = String.eqb p (NodePath.join target "README.md")) ->
  NodePath.join target "agent.yaml" <> NodePath.join target "README.md" ->
  NodePath.join target (if node_agent then "index.js" else "app.py") <> NodePath.join target "README.md" ->
  init fs config cwd user yaml_dump yaml_load schema_errors as_manifest arg dir python_flag node_flag false h =
    (h ++ pa_mkdir target :: flat_map (placed target) (take 2 l),
     throw EError (NodePath.join target "README.md" +:+ " already exists (use --force to overwrite)")).
Proof.
  intros target node_agent Hc Hl Hex H1 H2. unfold init. fold node_agent. cbv zeta. fold target. rewrite tr_bind_run, Hc. unfold tr_lift at 1.
  rewrite tr_bind_run. unfold do_ at 1, act at 1. rewrite tr_bind_run, Hl. unfold tr_lift at 1.
  unfold templates in Hl. apply result_bind_ok in Hl as (doc & _ & Hl). apply result_bind_ok in Hl as (m & _ & [= <-]).
  apply String.eqb_neq in H1, H2. cbn [write_templates take flat_map placed fst snd app].
  unfold existsSync, do_, act. rewrite !tr_bind_run. rewrite Hex, H1. cbn [negb andb]. rewrite !tr_bind_run. rewrite Hex, H2.
  cbn [negb andb]. rewrite !tr_bind_run. rewrite Hex, String.eqb_refl. cbn [negb andb tr_throw]. by rewrite <- !app_assoc.
Qed.
End projects.

(** A project is valid when its manifest loads and this machine has what it
    requires.  When only the requirements are missing, the exit of the command is
    caught by itself and reported as an invalid manifest, while the JSON output says
    that the manifest is valid. *)
Theorem validate_spec exit_error load detected dir :
  (forall path m, validate exit_error load detected dir false = Ok (val_valid path m) <->
     load dir = Ok (m, path) /\ satisfied (checkAgentRequirements m detected) = true) /\
  (forall m path, load dir = Ok (m, path) -> satisfied (checkAgentRequirements m detected) = false ->
     validate exit_error load detected dir false = throw EError ("invalid: " +:+ err_message (exit_error 1)) /\
     validate exit_error load detected dir true = Ok (val_json_valid path m (checkAgentRequirements m detected))).
Proof.
  unfold validate. destruct (load dir) as [[m path]|e]; cbn [mbind result_mbind result_bind mret result_mret].
  - destruct (satisfied (checkAgentRequirements m detected)) eqn:E; cbn [negb]; split.
    + intros p m'. split; [intros [= <- <-]|intros [[= <- <-] _]]; done.
    + intros m' p [= <- <-]. by rewrite E.
    + intros p m'. split; [done|]. intros [[= <- <-] ?]. congruence.
    + intros m' p [= <- <-] _. done.
  - split; [|done]. intros p m'. split; [done|by intros [? _]].
Qed.

(** *** The account *)

(** A token of the configuration belongs to no registry: without a credential for the
    registry that is named by the flag, it is sent there. *)
Theorem config_token_follows_flag {S} `{Secrets.SecretStore S} url_origin cred_parse (s : S) fetch config url t l :
  url <> "" -> t <> "" -> Secrets.getCredential url_origin cred_parse s url = None ->
  exists rq, (auth_sessions fetch config (Secrets.resolveToken url_origin cred_parse s (Some t)) (Some url) l).1 = l ++ [rq] /\
    carries t url "GET" "/api/v1/sessions" Registry.rb_none rq.
Proof.
  intros Hu Ht Hnone. assert (Htr : forall x, x <> "" -> truthy (Some x) = true) by (intros x Hx; unfold truthy; by apply String.eqb_neq in Hx as ->).
  destruct (request_sends fetch url t (Htr t Ht) Registry.k_sessions "/api/v1/sessions" "GET" [] Registry.rb_none l) as (rq & Hr & Hc); [by left|].
  exists rq. split; [|done]. unfold auth_sessions. rewrite tr_bind_run. unfold signed_in, resolveRegistryUrl. rewrite (Htr url Hu).
  cbn [mbind result_mbind result_bind mret result_mret tr_lift nullish from_option id]. unfold Secrets.resolveToken. rewrite Hnone, (Htr t Ht).
  apply catch_quiet; [by apply bind_quiet|done].
Qed.

(** ** A registry that accepts *)

Definition kind_registry (k : Registry.kind) (h : list Registry.Request) (rq : Registry.Request)
    : result (Registry.Response (Registry.answer_type k)) :=
  match k with
  | Registry.k_me => Registry.replied "" (Registry.mkMe "ann" "user" "active" [])
  | Registry.k_ignored => Registry.replied "" tt
  | Registry.k_publish => Registry.replied "" (Registry.mkPublish "passed" [])
  | _ => Throw (JsError EType "fetch failed")
  end.

Definition stored_files : files :=
  mkFiles (fun _ p => js_startsWith p "/keys/")
    (fun _ p => Ok (if String.eqb p "/keys/id_ed25519" then "prvK" else if String.eqb p "/keys/id_ed25519.pub" then "pubK" else "bytes")).

Definition demo_publish : tr pact (option Registry.PublishReply) :=
  @publish toy_crypto stored_files "/keys" ("prvN", "pubN") (fun d => Ok (demo_manifest, d)) (fun _ => TDir [("agent.yaml", TFile)])
    (fun _ => (inr 0, "bytes")) kind_registry Config.cf_absent (fun _ => Some "tok") (Some "https://r") false "/p".

Lemma publish_ok_witness : exists r1 r2 r3, sent (demo_publish []).1 = [r1; r2; r3] /\ carries "tok" "https://r" "GET" "/api/v1/me" Registry.rb_none r1.
Proof.
  destruct (demo_publish []) as [h' r] eqn:E.
  assert (Hr : r = Ok (Some (Registry.mkPublish "passed" []))) by (revert E; vm_compute; intros E; by injection E).
  rewrite Hr in E.
  destruct (@publish_ok toy_crypto stored_files "/keys" ("prvN", "pubN") (fun d => Ok (demo_manifest, d)) (fun _ => TDir [("agent.yaml", TFile)])
    (fun _ => (inr 0, "bytes")) kind_registry Config.cf_absent (fun _ => Some "tok") toy_laws (Some "https://r") "/p" [] h' _ E)
    as (url & token & kp & pkg & archive & h1 & r1 & r2 & r3 & Hu & Ht & _ & _ & _ & _ & Hsent & Hc & _).
  injection Hu as <-. injection Ht as <-. exists r1, r2, r3. split; [exact Hsent|exact Hc].
Defined.

(** A parser that gives the manifest that was dumped back, and a validator without
    complaints. *)
Definition demo_init (ex : list pact -> string -> bool) : tr pact string :=
  init (mkFiles ex (fun _ _ => Ok "")) Config.cf_absent "/w" "ann" (fun _ => "manifest") (fun _ => Ok tt) (fun _ => [])
    (fun _ => demo_manifest) "bot" None false false false.

Lemma init_ok_witness : exists l, map fst l = ["agent.yaml"; "app.py"; "README.md"; ".gitignore"] /\
  (demo_init (fun _ _ => false) []).1 = pa_mkdir "/w/bot" :: flat_map (placed "/w/bot") l.
Proof.
  destruct (demo_init (fun _ _ => false) []) as [h' r] eqn:E.
  assert (Hr : r = Ok "/w/bot") by (revert E; vm_compute; intros E; by injection E). rewrite Hr in E.
  destruct (init_ok _ _ _ _ _ _ _ _ _ _ _ _ _ _ _ _ E) as (doc & l & _ & _ & Hl & Hh & _).
  exists l. split; [exact Hl|exact Hh].
Defined.

Lemma init_not_atomic_witness :
  (demo_init (fun _ p => String.eqb p "/w/bot/README.md") []).2 = throw EError "/w/bot/README.md already exists (use --force to overwrite)" /\
  existsb (fun a => match a with pa_write "/w/bot/agent.yaml" _ _ => true | _ => false end)
    (demo_init (fun _ p => String.eqb p "/w/bot/README.md") []).1 = true.
Proof.
  destruct (templates "ann" (fun _ => "manifest") (fun _ => Ok tt) (fun _ => []) (fun _ => demo_manifest) "ann/bot" false) as [l|e] eqn:El; [|discriminate El].
  assert (Hl : l !! 0%nat = Some ("agent.yaml", "manifest" +:+ str1 LF)) by (revert El; vm_compute; intros El; by injection El as <-).
  unfold demo_init. rewrite (init_not_atomic (mkFiles (fun _ p => String.eqb p "/w/bot/README.md") (fun _ _ => Ok "")) Config.cf_absent "/w" "ann"
    (fun _ => "manifest") (fun _ => Ok tt) (fun _ => []) (fun _ => demo_manifest) "bot" None false false [] Config.empty_config l); [|reflexivity|exact El|..].
  - split; [reflexivity|]. destruct l as [|pc l]; [discriminate Hl|]. injection Hl as ->. reflexivity.
  - intros h0 p. reflexivity.
  - vm_compute. discriminate.
  - vm_compute. discriminate.
Defined.
End Publishing.
