(* ===== verification/Inspection.v ===== *)
(** The commands that show what there is: [cli/src/commands/ps.ts], [history/index.ts],
    [inspect.ts], [logs.ts], [list.ts] and [sandbox/show.ts].  They reconcile the
    records first, or refresh the status of an agent, so what they show is also what
    the next run will do. *)
From S2P Require Import Prelude Fs NodePath Trace Manifest Package Versions Requirements Policy Config Resolve Secrets.
From S2P Require Import Logs Sandbox AgentRuntime Registry Supervisor Installer RunAgent Publishing.

Module Inspection.
Import Fs Trace Supervisor.

(** ** Runs *)

Section runs.
Context (probe : RunProbe) (now self : string) (readdir : list string).

(** [docker_ps] are the labelled containers.  The shown runs, newest first, and the
    containers without a run.
    @src cli/src/commands/ps.ts run *)
Definition ps (all : bool) (docker_ps : list (string * string * string)) (m : fs run_file) : fs run_file * (list RunRecord * list string) :=
  let '(m, _) := reconcileRuns probe now self readdir m in
  let runs := rev (listRuns readdir m) in
  (m, (if all then runs else List.filter (fun r => bool_decide (state r ∈ [starting; running; stopping])) runs,
       if all then orphanContainers (map runId (listRuns readdir m)) docker_ps else [])).

(** @src cli/src/commands/history/index.ts run *)
Definition history (m : fs run_file) : fs run_file * list RunRecord :=
  let '(m, _) := reconcileRuns probe now self readdir m in (m, rev (listRuns readdir m)).

(** The record that is shown, with the last lines of its log.
    @src cli/src/commands/inspect.ts run *)
Definition inspect (id : string) (logs : list (option string)) (m : fs run_file) : fs run_file * result (RunRecord * list string) :=
  match readRun m id with
  | None => (m, throw EError ("run " +:+ id +:+ " not found (see 'openagenthub history')"))
  | Some r =>
      let r := reconcileRun probe now r in
      let same := match readRun m id with Some old => bool_decide (state r = state old) | None => false end in
      let tail := Logs.readRunLogTail 15 logs in
      (if same then m else writeRun self r m,
       Ok (r, if String.eqb tail "" then [] else take 15 (js_split LF tail)))
  end.
End runs.

(** ** Logs *)

(** One look at the log every half second: its text, [None] when it is gone.  What
    is printed, and the size remembered.
    @src cli/src/commands/logs.ts 30-50 run *)
Fixpoint follow (size : nat) (polls : list (option string)) : string :=
  match polls with
  | [] => ""
  | None :: _ => ""
  | Some text :: rest =>
      let current := String.length text in
      if Nat.ltb current size then follow 0 rest
      else if Nat.ltb size current then js_drop size text +:+ follow current rest
      else follow size rest
  end.

(** [log] is the text of the log when following begins; [files] the logs of the run
    in the order of [runLogFilenames].
    @src cli/src/commands/logs.ts run *)
Definition logs_command (n : nat) (follow_flag : bool) (record : option RunRecord) (id : string) (files : list (option string))
    (log : option string) (polls : list (option string)) : result string :=
  match record with
  | None => throw EError ("run " +:+ id +:+ " not found (see 'openagenthub history')")
  | Some _ =>
      let tail := Logs.readRunLogTail n files in
      let shown := if String.eqb tail "" then "" else if js_endsWith tail (str1 LF) then tail else tail +:+ str1 LF in
      Ok (shown +:+ if follow_flag then follow (match log with Some t => String.length t | None => 0 end) polls else "")
  end.

(** ** Installed agents *)

(** One row of the table and the granted permissions; [None] when nothing is
    installed.
    @src cli/src/commands/list.ts run *)
Definition list_command (config : Config.config_file) : result (option (list (Config.InstalledAgent * list string))) :=
  c ← Config.loadConfig config;
  match nullish (Config.installed c) [] with
  | [] => mret None
  | l => mret (Some (map (fun ka => (snd ka, map fst (List.filter snd (Config.grantedPermissions c (fst ka))))) l))
  end.

(** ** The sandbox decision *)

Section show.
Import Config Resolve Installer RunAgent.
Context `{Package.CryptoProvider} {Doc : Type} (w : world Doc) (date_ms : string -> option Z) (now_ms : Z).
Context (localeCompare : string -> string -> Z) (existsSync : list iact -> string -> bool).

(** @src cli/src/commands/sandbox/show.ts run *)
Definition sandbox_show (spec : string) : tr iact (RevocationCheck * Policy.SandboxDecision) :=
  parsed ← tr_lift (parseSpec spec);
  let '(mkParsed ns nm v) := parsed in
  config ← load_config w;
  found ← tr_lift (resolveInstalledOrThrow localeCompare config ns nm v);
  let '(mkMatch agentKey installed) := found in
  let dir := installedAgentDir (w_home w) (mkKey ns nm (ia_version installed)) in
  present ← (fun h => (h, Ok (existsSync h dir)));
  if negb (present : bool) then tr_throw EError ("agent directory missing for " +:+ agentKey +:+ " (reinstall first)")
  else
    '(m, _) ← (fun h => (h, load_at w h dir));
    url ← (fun h => (h, Publishing.resolveRegistryUrl (disk_at w h) (registryUrl config)));
    check ← checkRevocationBeforeRun w date_ms now_ms agentKey installed url (w_token w);
    mret (check, Policy.effectiveSandbox (Policy.mkInput (ia_trust installed) m (ia_reviewStatus installed) (Some (rv_statusFresh check))
                   (sandboxOverride config agentKey) (ia_archiveDigest installed))).
End show.

(** ** Properties *)

(** *** Runs *)

Section run_facts.
Context (probe : RunProbe) (now self : string) (readdir : list string).

Lemma lookup_writeRun r (m : fs run_file) q :
  writeRun self r m !! runRecordPath q = if decide (q = runId r) then Some (rf_record r) else m !! runRecordPath q.
Proof.
  unfold writeRun, writeRun_ops. rewrite replace_file_done by apply tmp_not_record.
  destruct (decide (q = runId r)) as [->|Hq]; [by rewrite decide_True|].
  rewrite decide_False; [done|]. intros Heq. by apply runRecordPath_inj in Heq.
Qed.

(** A directory whose records have the names of their runs. *)
Definition kept (m : fs run_file) : Prop := forall id f, m !! runRecordPath id = Some f -> exists r, f = rf_record r /\ runId r = id.

(** What reconciliation leaves in place of a record. *)
Definition settled (r : RunRecord) : RunRecord :=
  let r' := reconcileRun probe now r in if bool_decide (state r' = state r) then r else r'.

Lemma elem_of_rev {A} (x : A) l : x ∈ rev l <-> x ∈ l.
Proof. by rewrite !list_elem_of_In, <- in_rev. Qed.

Lemma json_path f : js_endsWith f ".json" = true -> exists id, f = runRecordPath id.
Proof. intros Hf. apply endsWith_spec in Hf as [t ->]. by exists t. Qed.

Lemma path_json id : js_endsWith (runRecordPath id) ".json" = true.
Proof. apply endsWith_spec. by exists id. Qed.

Lemma listRuns_elem m r :
  kept m -> r ∈ listRuns readdir m <-> runRecordPath (runId r) ∈ readdir /\ m !! runRecordPath (runId r) = Some (rf_record r).
Proof.
  intros Hk. unfold listRuns. cbv zeta.
  set (files := omap (fun f => m !! f) (List.filter (fun f => js_endsWith f ".json") readdir)).
  assert (Hfiles : forall f, f ∈ files -> exists r, f = rf_record r /\ runRecordPath (runId r) ∈ readdir /\ m !! runRecordPath (runId r) = Some f).
  { intros f (p & Hp & Hm)%list_elem_of_omap. apply elem_of_filter_In in Hp as [Hp Hj]. apply json_path in Hj as [id ->].
    destruct (Hk id f Hm) as (x & -> & <-). exists x. done. }
  destruct (existsb _ files) eqn:E.
  { apply existsb_exists in E as (f & Hf%list_elem_of_In & Hg). destruct (Hfiles f Hf) as (x & -> & _). done. }
  rewrite js_sort_elem, list_elem_of_omap. split.
  - intros (f & Hf & Hr). destruct (Hfiles f Hf) as (x & -> & Hin & Hm). injection Hr as <-. done.
  - intros [Hin Hm]. exists (rf_record r). split; [|done]. apply list_elem_of_omap. exists (runRecordPath (runId r)). split; [|done].
    apply elem_of_filter_In. split; [done|apply path_json].
Qed.

Lemma reconcile_runId r : runId (reconcileRun probe now r) = runId r.
Proof.
  unfold reconcileRun. destruct (negb _); [done|]. cbv zeta.
  destruct (sandbox r); [destruct (container probe (runId r)) as [c|]; [by destruct (ci_running c)|done]|..];
    (destruct (pid r) as [p|]; [|done]); by destruct (isAlive probe p), (groupAlive probe p).
Qed.

Lemma settled_runId r : runId (settled r) = runId r.
Proof. unfold settled. cbv zeta. case_bool_decide; [done|apply reconcile_runId]. Qed.

Lemma write_all_lookup l (m : fs run_file) q :
  (forall rn rn' : RunRecord * RunRecord, rn ∈ l -> rn' ∈ l -> runId (snd rn) = runId (snd rn') -> snd rn = snd rn') ->
  fold_left (fun m rn => writeRun self (snd rn) m) l m !! runRecordPath q =
  match List.find (fun rn => String.eqb (runId (snd rn)) q) l with Some rn => Some (rf_record (snd rn)) | None => m !! runRecordPath q end.
Proof.
  revert m. induction l as [|[r n] l IH]; intros m Huniq; [done|]. cbn [fold_left List.find snd].
  rewrite IH by (intros; apply Huniq; [by right..|done]). destruct (String.eqb_spec (runId n) q) as [Heq|Hne].
  - destruct (List.find _ l) as [rn|] eqn:Ef.
    + apply find_some in Ef as [Hin%list_elem_of_In Hid%String.eqb_eq].
      rewrite (Huniq rn (r, n)); [done|by right|by left|]. cbn [snd]. congruence.
    + by rewrite lookup_writeRun, decide_True.
  - destruct (List.find _ l); [done|]. by rewrite lookup_writeRun, decide_False.
Qed.

(** Reconciliation replaces each listed record by the settled one and touches
    nothing else. *)
Lemma reconciled_lookup m q : kept m ->
  (reconcileRuns probe now self readdir m).1 !! runRecordPath q =
  match m !! runRecordPath q with
  | Some (rf_record r) => Some (rf_record (if bool_decide (runRecordPath q ∈ readdir) then settled r else r))
  | f => f
  end.
Proof.
  intros Hk. unfold reconcileRuns. cbn [fst].
  set (pairs := map (fun r => (r, reconcileRun probe now r)) (listRuns readdir m)).
  set (changed := List.filter (fun rn => negb (bool_decide (state (snd rn) = state (fst rn)))) pairs).
  assert (Hpair : forall rn, rn ∈ changed <-> exists r, rn = (r, reconcileRun probe now r) /\ r ∈ listRuns readdir m /\
                     state (reconcileRun probe now r) <> state r).
  { intros rn. unfold changed, pairs. rewrite elem_of_filter_In, list_elem_of_fmap. split.
    - intros [(r & -> & Hr) Hs]. exists r. split_and!; [done..|]. cbn in Hs. by case_bool_decide.
    - intros (r & -> & Hr & Hs). split; [by exists r|]. cbn. by rewrite bool_decide_eq_false_2. }
  rewrite write_all_lookup.
  2: { intros rn rn' (r & -> & Hr & _)%Hpair (r' & -> & Hr' & _)%Hpair. cbn [snd]. rewrite !reconcile_runId. intros Hid.
       apply listRuns_elem in Hr as [_ Hr]; [|done]. apply listRuns_elem in Hr' as [_ Hr']; [|done]. rewrite Hid, Hr' in Hr. by injection Hr as ->. }
  destruct (List.find _ changed) as [rn|] eqn:Ef.
  - apply find_some in Ef as [Hin%list_elem_of_In Hid%String.eqb_eq]. apply Hpair in Hin as (r & -> & Hr & Hs). cbn [snd] in *.
    rewrite reconcile_runId in Hid. subst q. apply listRuns_elem in Hr as [Hin Hm]; [|done]. rewrite Hm, bool_decide_eq_true_2 by done.
    unfold settled. cbv zeta. by rewrite bool_decide_eq_false_2.
  - destruct (m !! runRecordPath q) as [f|] eqn:Em; [|done]. destruct (Hk q f Em) as (r & -> & Hid).
    case_bool_decide as Hin; [|done]. unfold settled. cbv zeta. case_bool_decide as Hs; [done|]. exfalso.
    pose proof (find_none _ _ Ef (r, reconcileRun probe now r)) as Hn. cbn [snd] in Hn. rewrite reconcile_runId, Hid, String.eqb_refl in Hn.
    assert (Hft : true = false); [apply Hn|done]. apply list_elem_of_In, Hpair. exists r. split_and!; [done| |done].
    apply listRuns_elem; [done|]. by rewrite Hid.
Qed.

Lemma reconcile_same_state r : runIsActive r = true ->
  state (reconcileRun probe now r) = state r <-> observed_alive probe r.
Proof.
  intros Ha. assert (Hne : exited <> state r /\ orphaned <> state r) by (apply active_state in Ha; destruct Ha as [->|[->| ->]]; done).
  unfold observed_alive, reconcileRun. rewrite Ha. cbn [negb]. cbv zeta.
  destruct (sandbox r); [destruct (container probe (runId r)) as [c|]; [destruct (ci_running c) eqn:Ec|]
    |destruct (pid r) as [p|]; [destruct (isAlive probe p) eqn:E1, (groupAlive probe p)|]..];
    cbn [negb andb state with_end with_container]; (split; [|try done]); intros H; try (exfalso; tauto); eauto;
    destruct H as (x & [= <-] & ?); congruence.
Qed.

(** A settled record is active exactly when it was and its run is seen to be alive;
    then it is the record itself. *)
Lemma settled_active r : runIsActive (settled r) = true <-> runIsActive r = true /\ observed_alive probe r.
Proof.
  unfold settled. cbv zeta. destruct (runIsActive r) eqn:Ha.
  2: { rewrite reconcile_inactive by done. rewrite bool_decide_eq_true_2 by done. rewrite Ha. by split; [|intros [? _]]. }
  rewrite <- reconcile_same_state by done. case_bool_decide as Hs; [by rewrite Ha|].
  destruct (reconcile_cases probe now r Ha) as [[? _]|(s & why & Hend & Heq)]; [done|].
  rewrite Heq in *. split; [|by intros [_ ?]]. by destruct Hend as [->| ->].
Qed.

Lemma settled_alive r : runIsActive (settled r) = true -> settled r = r.
Proof.
  intros Ha. apply settled_active in Ha as [Ha Hal]. apply reconcile_same_state in Hal; [|done].
  unfold settled. cbv zeta. by rewrite bool_decide_eq_true_2.
Qed.

(** Why an active run that is not seen alive is ended. *)
Definition why_ended (r : RunRecord) : ExitReason :=
  match sandbox r with
  | rs_container => match container probe (runId r) with
                    | None => r_container_gone
                    | Some c => if ci_oomKilled c then r_oom else r_signal
                    end
  | _ => match pid r with Some p => if groupAlive probe p then r_supervisor_gone else r_crashed | None => r_crashed end
  end.

(** A settled record is the record itself, unless that was active and is not seen alive:
    then it is ended now, for the reason above. *)
Lemma settled_cases r :
  (runIsActive r = false \/ observed_alive probe r -> settled r = r) /\
  (runIsActive r = true -> ~ observed_alive probe r ->
   runIsActive (settled r) = false /\ endedAt (settled r) = Some now /\ exitReason (settled r) = Some (why_ended r)).
Proof.
  split.
  - intros H. destruct (runIsActive r) eqn:Ha; [destruct H as [?|Hal]; [done|apply settled_alive, settled_active; by split]|].
    unfold settled. cbv zeta. rewrite reconcile_inactive by done. by rewrite bool_decide_eq_true_2.
  - intros Ha Hdead. rewrite <- reconcile_same_state in Hdead by done.
    assert (Hs : settled r = reconcileRun probe now r) by (unfold settled; cbv zeta; by rewrite bool_decide_eq_false_2).
    rewrite Hs. split.
    { destruct (reconcile_cases probe now r Ha) as [[? _]|(s & why & Hend & Heq)]; [done|]. rewrite Heq. by destruct Hend as [->| ->]. }
    revert Hdead. clear Hs. unfold reconcileRun, why_ended. rewrite Ha. cbn [negb]. cbv zeta.
    destruct (sandbox r); [destruct (container probe (runId r)) as [c|]; [destruct (ci_running c)|]
      |destruct (pid r) as [p|]; [destruct (isAlive probe p), (groupAlive probe p)|]..]; cbn; by split.
Qed.

Lemma reconciled_kept m : kept m -> kept (reconcileRuns probe now self readdir m).1.
Proof.
  intros Hk id f. rewrite reconciled_lookup by done. destruct (m !! runRecordPath id) as [g|] eqn:Em; [|done].
  destruct (Hk id g Em) as (r & -> & Hid). intros [= <-]. case_bool_decide; eexists; (split; [done|]); by rewrite ?settled_runId.
Qed.

Lemma reconciled_list m r : kept m ->
  r ∈ listRuns readdir (reconcileRuns probe now self readdir m).1 <-> exists r0, r0 ∈ listRuns readdir m /\ r = settled r0.
Proof.
  intros Hk. rewrite listRuns_elem by (by apply reconciled_kept). rewrite reconciled_lookup by done. split.
  - intros [Hin Hm]. rewrite bool_decide_eq_true_2 in Hm by done. destruct (m !! runRecordPath (runId r)) as [f|] eqn:Em; [|done].
    destruct (Hk _ f Em) as (r0 & -> & Hid). injection Hm as Hr. exists r0. split; [|done].
    apply listRuns_elem; [done|]. by rewrite Hid.
  - intros (r0 & Hr0 & ->). rewrite settled_runId. apply listRuns_elem in Hr0 as [Hin ->]; [|done]. split; [done|]. by rewrite bool_decide_eq_true_2.
Qed.

(** [ps] shows exactly the runs whose record says that they are active and whose
    container or worker is seen alive, each with the record it has; with [--all] it
    shows every run, and one that is shown as active is alive. *)
Theorem ps_shows_alive docker_ps m : kept m ->
  (forall r, r ∈ (ps probe now self readdir false docker_ps m).2.1 <-> r ∈ listRuns readdir m /\ runIsActive r = true /\ observed_alive probe r) /\
  (forall r, r ∈ listRuns readdir m -> settled r ∈ (ps probe now self readdir true docker_ps m).2.1) /\
  (forall r, r ∈ (ps probe now self readdir true docker_ps m).2.1 -> runIsActive r = true -> r ∈ listRuns readdir m /\ observed_alive probe r).
Proof.
  intros Hk. pose proof (reconciled_list m) as Hlist. unfold ps.
  destruct (reconcileRuns probe now self readdir m) as [m' n]. cbn [fst snd] in *.
  assert (Halive : forall r0, runIsActive (settled r0) = true -> r0 ∈ listRuns readdir m ->
    settled r0 ∈ listRuns readdir m /\ runIsActive (settled r0) = true /\ observed_alive probe (settled r0)).
  { intros r0 Ha Hr0. pose proof (settled_alive r0 Ha) as He. apply settled_active in Ha as [Ha Hal]. by rewrite He. }
  split_and!; intros r.
  - rewrite elem_of_filter_In, elem_of_rev, Hlist by done. change (bool_decide (state r ∈ [starting; running; stopping])) with (runIsActive r). split.
    + intros [(r0 & Hr0 & ->) Ha]. by apply Halive.
    + intros (Hr & Ha & Hal). assert (Hact : runIsActive (settled r) = true) by (by apply settled_active).
      split; [|done]. exists r. split; [done|]. by rewrite settled_alive.
  - intros Hr. rewrite elem_of_rev, Hlist by done. by exists r.
  - rewrite elem_of_rev, Hlist by done. intros (r0 & Hr0 & ->) Ha. destruct (Halive r0 Ha Hr0) as (? & _ & ?). done.
Qed.

(** The id of a running container is found by reconciliation and then forgotten: the
    file is written only when the state changes. *)
Theorem found_container_not_kept m r c : kept m ->
  r ∈ listRuns readdir m -> runIsActive r = true -> sandbox r = rs_container -> containerId r = None ->
  container probe (runId r) = Some c -> ci_running c = true ->
  containerId (reconcileRun probe now r) = Some (ci_id c) /\ readRun (reconcileRuns probe now self readdir m).1 (runId r) = Some r.
Proof.
  intros Hk Hr Ha Hs Hn Hc Hrun. split.
  - unfold reconcileRun. rewrite Ha, Hs, Hc, Hrun. reflexivity.
  - unfold readRun. rewrite reconciled_lookup by done. apply listRuns_elem in Hr as [Hin ->]; [|done]. rewrite bool_decide_eq_true_2 by done.
    f_equal. apply settled_alive, settled_active. split; [done|]. unfold observed_alive. rewrite Hs. by exists c.
Qed.
End run_facts.

(** *** Logs *)

(** A log that only grows from [prev] through the texts of the list. *)
Fixpoint growing (prev : string) (texts : list string) : Prop :=
  match texts with [] => True | t :: rest => (exists more, t = prev +:+ more) /\ growing t rest end.

(** Following a log that grows prints exactly what is added, once and in order. *)
Theorem follow_prints_growth t0 texts : growing t0 texts ->
  t0 +:+ follow (String.length t0) (map Some texts) = List.last texts t0.
Proof.
  revert t0. induction texts as [|t rest IH]; intros t0; cbn [growing map follow]; [intros _; apply sapp_nil_r|].
  intros ((more & ->) & Hg). rewrite slength_app.
  assert (Hlast : List.last ((t0 +:+ more) :: rest) t0 = List.last rest (t0 +:+ more)).
  { destruct rest as [|x rest]; [done|]. cbn [List.last]. clear. revert x. induction rest as [|y l IHl]; intros x; [done|]. apply IHl. }
  rewrite Hlast, <- IH by done. rewrite slength_app. destruct (Nat.ltb_spec (String.length t0 + String.length more) (String.length t0)); [lia|].
  destruct (Nat.ltb_spec (String.length t0) (String.length t0 + String.length more)) as [Hlt|Hge].
  - by rewrite drop_app_length, sapp_assoc.
  - assert (more = "") as -> by (destruct more; [done|cbn in Hge; lia]). cbn [String.length]. by rewrite Nat.add_0_r, sapp_nil_r.
Qed.

Lemma follow_prints_growth_witness : "ab" +:+ follow 2 [Some "ab"; Some "abcd"; Some "abcde"] = "abcde".
Proof.
  apply (follow_prints_growth "ab" ["ab"; "abcd"; "abcde"]). split; [by exists ""|split; [by exists "cd"|split; [by exists "e"|done]]].
Defined.

(** *** The sandbox decision *)

Section show_facts.
Import Requirements Policy Config Resolve Installer RunAgent AgentRuntime.
Context `{Package.CryptoProvider} {Doc : Type} (w : world Doc) (date_ms : string -> option Z) (now_ms : Z).
Context (localeCompare : string -> string -> Z) (existsSync : list iact -> string -> bool).
Context {St : Type} `{Secrets.SecretStore St} (vault : St).

Lemma save_grants_override key names c h h' c' :
  save_grants w key names c h = (h', Ok c') -> sandboxOverrides c' = sandboxOverrides c.
Proof.
  revert c h. induction names as [|s names IH]; intros c h Hs; cbn [save_grants] in Hs; [by apply tr_ret_ok in Hs as [<- _]|].
  tr_inv Hs as u Hu. apply IH in Hs. by rewrite Hs.
Qed.

(** The registry the command asks is the one a run asks. *)
Lemma show_url h c : loadConfig (disk_at w h) = Ok c ->
  Publishing.resolveRegistryUrl (disk_at w h) (registryUrl c) = Ok (nullish (registryUrl c) REGISTRY_DEFAULT).
Proof.
  intros Hc. unfold Publishing.resolveRegistryUrl. rewrite Hc. cbn [mbind result_mbind result_bind mret result_mret].
  by destruct (registryUrl c) as [[|a u]|].
Qed.

(** C26: What [sandbox show] says is what a run does: a run that is prepared where the
    command was, and is carried out, is not blocked and uses the
    sandbox it showed. *)
Theorem sandbox_show_predicts_run spec popts h h1 h2 rv d ctx sha exec dockerCheck sur eo events h3 h4 r :
  sandbox_show w date_ms now_ms localeCompare existsSync spec h = (h1, Ok (rv, d)) ->
  prepareRunContext w date_ms now_ms vault localeCompare existsSync (inl spec) popts h = (h2, Ok ctx) ->
  executeAgentRun sha exec dockerCheck sur ctx eo events h3 = (h4, Ok r) -> eo_interfaceName eo <> if_name_http ->
  rv_blocked rv = None /\ ra_sandbox r = match Policy.dc_mode d with m_container => used_container | m_process => used_process end.
Proof.
  intros Hshow Hprep Hrun Hiface. unfold sandbox_show in Hshow. unfold prepareRunContext in Hprep.
  tr_inv Hshow as parsed Hp. tr_inv Hprep as parsed' Hp'. apply tr_lift_ok in Hp as [Hp ->], Hp' as [Hp' ->].
  rewrite Hp in Hp'. injection Hp' as <-. destruct parsed as [ns nm v].
  tr_inv Hshow as c Hc. tr_inv Hprep as c' Hc'. unfold load_config in Hc, Hc'. injection Hc as <- Hc. injection Hc' as <- Hc'.
  rewrite Hc in Hc'. injection Hc' as <-.
  tr_inv Hshow as found Hf. tr_inv Hprep as found' Hf'. apply tr_lift_ok in Hf as [Hf ->], Hf' as [Hf' ->].
  rewrite Hf in Hf'. injection Hf' as <-. destruct found as [key ia].
  tr_inv Hshow as present Hpr. tr_inv Hprep as present' Hpr'. injection Hpr as <- <-. injection Hpr' as <- <-.
  destruct (existsSync h _); [|done]. cbn [negb] in Hshow, Hprep.
  tr_inv Hshow as mp Hm. tr_inv Hprep as mp' Hm'. injection Hm as <- Hm. injection Hm' as <- Hm'. rewrite Hm in Hm'. injection Hm' as <-.
  destruct mp as [m path]. tr_inv Hshow as url Hu. injection Hu as <- Hu. rewrite (show_url h c Hc) in Hu. injection Hu as <-.
  tr_inv Hshow as check Hk. tr_inv Hprep as check' Hk'. unfold REGISTRY_DEFAULT in Hk. rewrite Hk in Hk'. injection Hk' as <- <-.
  injection Hshow as <- <- <-. destruct (rv_blocked check) as [b|]; [done|]. split; [done|].
  tr_inv Hprep as vs Hvs. tr_inv Hprep as c2 Hg. apply save_grants_override in Hg. injection Hprep as <- <-.
  unfold executeAgentRun in Hrun. apply runAgent_ok_steps in Hrun as [(Hi & _)|Hrun]; [by destruct (eo_interfaceName eo)|].
  destruct Hrun as (effective & policy & stored & model & h0 & Ha & _ & _ & Hs). apply start_sandbox_mode in Hs. rewrite Hs.
  apply admission_ok_iff in Ha as (_ & _ & _ & -> & _). unfold policy_input. cbn. unfold sandboxOverride. by rewrite Hg.
Qed.
End show_facts.

(** ** Witnesses *)

Definition demo_record (id created : string) (alive : Z) : RunRecord :=
  with_pid (Some alive) (worker_running (initial_record (mkManaged id "a/b@1.0.0" "1.0.0" ri_cli rs_process None None None None None) created)).

(** Two active records; the worker of the second is gone. *)
Definition demo_dir : fs run_file :=
  <[runRecordPath "r-1" := rf_record (demo_record "r-1" "t1" 7)]> {[runRecordPath "r-2" := rf_record (demo_record "r-2" "t2" 8)]}.
Definition only_seven : RunProbe := mkProbe (fun p => Z.eqb p 7) (fun p => Z.eqb p 7) (fun _ => None).

Lemma demo_dir_kept : kept demo_dir.
Proof.
  intros id f. unfold demo_dir. rewrite lookup_insert_Some, lookup_singleton_Some.
  intros [[Hid <-]|[_ [Hid <-]]]; apply runRecordPath_inj in Hid; by eexists.
Qed.

Lemma ps_shows_alive_witness :
  demo_record "r-1" "t1" 7 ∈ (ps only_seven "t9" "p" ["r-1.json"; "r-2.json"] false [] demo_dir).2.1 /\
  demo_record "r-2" "t2" 8 ∉ (ps only_seven "t9" "p" ["r-1.json"; "r-2.json"] false [] demo_dir).2.1.
Proof.
  destruct (ps_shows_alive only_seven "t9" "p" ["r-1.json"; "r-2.json"] [] demo_dir demo_dir_kept) as (Hps & _). split.
  - apply Hps. split_and!; [|reflexivity|exists 7%Z; split; reflexivity]. apply list_elem_of_In. vm_compute. tauto.
  - intros Hin. apply Hps in Hin as (_ & _ & p & Hp & Ha). injection Hp as <-. discriminate Ha.
Defined.

Lemma found_container_not_kept_witness :
  let r := with_pid None (worker_running (initial_record (mkManaged "r-3" "a/b@1.0.0" "1.0.0" ri_cli rs_container None None None None None) "t1")) in
  let probe := mkProbe (fun _ => false) (fun _ => false) (fun _ => Some (mkContainer "c9" true false)) in
  let m : fs run_file := {[runRecordPath "r-3" := rf_record r]} in
  containerId (reconcileRun probe "t9" r) = Some "c9" /\ containerId <$> readRun (reconcileRuns probe "t9" "p" ["r-3.json"] m).1 "r-3" = Some None.
Proof.
  intros r probe m.
  destruct (found_container_not_kept probe "t9" "p" ["r-3.json"] m r (mkContainer "c9" true false)) as [Hc Hr].
  - intros id f Hf. apply lookup_singleton_Some in Hf as [Hid <-]. apply runRecordPath_inj in Hid. exists r. by subst id.
  - apply list_elem_of_In. vm_compute. tauto.
  - reflexivity.
  - reflexivity.
  - reflexivity.
  - reflexivity.
  - reflexivity.
  - split; [exact Hc|]. change "r-3" with (runId r). rewrite Hr. reflexivity.
Defined.

(** An installed agent that runs with a local model, verified an hour ago at most. *)
Definition demo_show_world : Installer.world Manifest.Manifest :=
  Installer.mkWorld Manifest.Manifest
    (Registry.demo_fetch (Registry.demo_detail (Registry.demo_signature "acme/echo" "1.0.0" "bytes") None) "bytes" [])
    Installer.demo_home "/home/u/work" "/tmp/oah" "now" (Config.cf_saved RunAgent.demo_config) None (fun _ _ => Ok "")
    (fun _ _ => Package.TDir []) (fun _ => throw EError "no signature") (fun _ _ => Package.Resolved []) (fun _ _ => "n")
    (Requirements.detectRuntime (fun _ => None)) (fun _ => Ok (AgentRuntime.demo_manifest [])) (fun _ => []) (fun d => d).

Definition demo_show := @sandbox_show Manifest.Manifest demo_show_world RunAgent.demo_ms 1000 Resolve.code_unit_compare (fun _ _ => true) "acme/echo" [].
Definition demo_ready := @RunAgent.prepareRunContext Manifest.Manifest demo_show_world RunAgent.demo_ms 1000 Secrets.vstore Secrets.toy_store
  (Secrets.toy_state "acme/echo@1.0.0" Secrets.demo_secrets) Resolve.code_unit_compare (fun _ _ => true) (inl "acme/echo") (RunAgent.mkPrepare true None) [].

Definition show_execution (ctx : RunAgent.RunContext Secrets.vstore) :=
  @RunAgent.executeAgentRun Secrets.vstore Secrets.toy_store (fun s => s) (fun _ _ => Ok tt) (mret true) AgentRuntime.demo_sur ctx
    (RunAgent.mkExecute AgentRuntime.if_name_cli None None false None None false None)
    [Sandbox.ev_stdout "hi"; Sandbox.ev_close (Some 0%Z)] [].

Definition used_of (r : result AgentRuntime.RunAgentResult) : option AgentRuntime.used_sandbox :=
  match r with Ok r => Some (AgentRuntime.ra_sandbox r) | Throw _ => None end.

Lemma sandbox_show_predicts_run_witness :
  exists rv d ctx r, demo_show.2 = Ok (rv, d) /\ demo_ready.2 = Ok ctx /\ (show_execution ctx).2 = Ok r /\
    RunAgent.rv_blocked rv = None /\
    AgentRuntime.ra_sandbox r = match Policy.dc_mode d with
                                | Requirements.m_container => AgentRuntime.used_container | Requirements.m_process => AgentRuntime.used_process end.
Proof.
  destruct demo_show as [h1 [[rv d]|e]] eqn:E1; [|discriminate (f_equal (fun x => is_ok x.2) E1)].
  destruct demo_ready as [h2 [ctx|e]] eqn:E2; [|discriminate (f_equal (fun x => is_ok x.2) E2)].
  assert (Hok : is_ok (show_execution ctx).2 = true).
  { assert (Hctx : demo_ready.2 = Ok ctx) by (by rewrite E2). revert Hctx. vm_compute. intros [= <-]. reflexivity. }
  destruct (show_execution ctx) as [h4 [r|e]] eqn:E3; [|discriminate Hok].
  exists rv, d, ctx, r. split; [reflexivity|]. split; [reflexivity|]. split; [by rewrite E3|].
  exact (@sandbox_show_predicts_run Manifest.Manifest demo_show_world RunAgent.demo_ms 1000 Resolve.code_unit_compare (fun _ _ => true)
    Secrets.vstore Secrets.toy_store (Secrets.toy_state "acme/echo@1.0.0" Secrets.demo_secrets) "acme/echo" (RunAgent.mkPrepare true None) []
    h1 h2 rv d ctx (fun s => s) (fun _ _ => Ok tt) (mret true) AgentRuntime.demo_sur
    (RunAgent.mkExecute AgentRuntime.if_name_cli None None false None None false None)
    [Sandbox.ev_stdout "hi"; Sandbox.ev_close (Some 0%Z)] [] h4 r E1 E2 E3 ltac:(discriminate)).
Defined.
End Inspection.
