(* ===== verification/Page.v ===== *)
(** Pages of the browser: a component with a state, handlers that run to their next
    [await] in one go, and the interleaving of several handlers that wait for the
    network.  [System.v] and the files below it model servers and commands; this file
    holds what the components of [web/src] and [marketing/src] share. *)
From S2P Require Import Prelude Registry.

Module Page.

Record page_request := mkPageReq { pq_method : string; pq_url : string; pq_headers : obj string; pq_body : Registry.RequestBody }.
Definition get (url : string) : page_request := mkPageReq "GET" url [] Registry.rb_none.

(** A reply with its body read as JSON; reading it may fail. *)
Record reply (T : Type) := mkReply { rp_status : Z; rp_json : result T }.
#[global] Arguments mkReply {T} _ _.
#[global] Arguments rp_status {T} _.
#[global] Arguments rp_json {T} _.
Definition rp_ok {T} (r : reply T) : bool := (200 <=? rp_status r)%Z && (rp_status r <? 300)%Z.

(** What leaves the page. *)
Inductive out := o_send (rq : page_request) | o_goto (url : string) | o_alert (message : string).

Section page.
(** The state of the component; what it waits for, and the type of its answer. *)
Context {S : Type} {kind : Type} {answer : kind -> Type}.

(** A handler: updates of the state, effects, and points where it waits. *)
Inductive prog (A : Type) : Type :=
| Done (a : A)
| Set_ (f : S -> S) (p : prog A)
| Out (o : out) (p : prog A)
| Await (k : kind) (cont : result (answer k) -> prog A).
#[global] Arguments Done {A} _.
#[global] Arguments Set_ {A} _ _.
#[global] Arguments Out {A} _ _.
#[global] Arguments Await {A} _ _.

Fixpoint prog_bind {A B} (f : A -> prog B) (p : prog A) : prog B :=
  match p with
  | Done a => f a
  | Set_ g p => Set_ g (prog_bind f p)
  | Out o p => Out o (prog_bind f p)
  | Await k cont => Await k (fun r => prog_bind f (cont r))
  end.

(** A handler that may throw. *)
Definition M (A : Type) : Type := prog (result A).
Definition ret {A} (a : A) : M A := Done (Ok a).
Definition fail {A} (e : jserror) : M A := Done (Throw e).
Definition bind {A B} (m : M A) (f : A -> M B) : M B :=
  prog_bind (fun r => match r with Ok a => f a | Throw e => Done (Throw e) end) m.
Definition catch {A} (m : M A) (f : jserror -> M A) : M A :=
  prog_bind (fun r => match r with Ok a => Done (Ok a) | Throw e => f e end) m.
Definition finally {A} (m : M A) (cleanup : S -> S) : M A := prog_bind (fun r => Set_ cleanup (Done r)) m.
Definition set (f : S -> S) : M unit := Set_ f (ret tt).
Definition send (rq : page_request) : M unit := Out (o_send rq) (ret tt).
Definition goto (url : string) : M unit := Out (o_goto url) (ret tt).
Definition alert (message : string) : M unit := Out (o_alert message) (ret tt).
Definition await (k : kind) : M (answer k) := Await k Done.
Definition lift {A} (r : result A) : M A := Done r.
Definition fetch (k : kind) (rq : page_request) : M (answer k) := bind (send rq) (fun _ => await k).

(** ** Running *)

(** Up to the next point where the handler waits. *)
Fixpoint advance {A} (p : prog A) (s : S) : S * list out * prog A :=
  match p with
  | Set_ f p => advance p (f s)
  | Out o p => let '(s', l, q) := advance p s in (s', o :: l, q)
  | p => (s, [], p)
  end.

(** A handler that runs alone, with the network answering by what was sent so far. *)
Fixpoint solo {A} (net : list out -> forall k, result (answer k)) (p : prog A) (s : S) (l : list out) : S * list out * A :=
  match p with
  | Done a => (s, l, a)
  | Set_ f p => solo net p (f s) l
  | Out o p => solo net p s (l ++ [o])
  | Await k cont => solo net (cont (net l k)) s l
  end.

(** A page: the state shown, the handlers that wait, in the order in which they were
    started, and what was sent so far. *)
Record page := mkPage { ui : S; tasks : list (M unit); outs : list out }.

(** A user's action, a timer or the first rendering starts a handler, which sees the
    state as it is rendered; the network answers what the [i]-th handler waits for. *)
Inductive event := ev_start (handler : S -> M unit) | ev_answer (i : nat) (a : forall k, result (answer k)).

Definition waiting (p : M unit) : list (M unit) := match p with Await _ _ => [p] | _ => [] end.

Definition step (pg : page) (ev : event) : page :=
  match ev with
  | ev_start handler =>
      let '(s, l, p) := advance (handler (ui pg)) (ui pg) in mkPage s (tasks pg ++ waiting p) (outs pg ++ l)
  | ev_answer i a =>
      match tasks pg !! i with
      | Some (Await k cont) =>
          let '(s, l, p) := advance (cont (a k)) (ui pg) in
          mkPage s (take i (tasks pg) ++ waiting p ++ drop (Datatypes.S i) (tasks pg)) (outs pg ++ l)
      | _ => pg
      end
  end.

Definition run (pg : page) (evs : list event) : page := fold_left step evs pg.

(** ** Equations *)

Lemma solo_prog_bind {A B} net (f : A -> prog B) p : forall s l,
  solo net (prog_bind f p) s l = let '(s', l', a) := solo net p s l in solo net (f a) s' l'.
Proof. induction p as [a|g p IH|o p IH|k cont IH]; intros s l; cbn; auto. Qed.

Lemma solo_bind {A B} net (m : M A) (f : A -> M B) s l :
  solo net (bind m f) s l =
  match solo net m s l with (s', l', Ok a) => solo net (f a) s' l' | (s', l', Throw e) => (s', l', Throw e) end.
Proof. unfold bind. rewrite solo_prog_bind. by destruct (solo net m s l) as [[s' l'] [a|e]]. Qed.

Lemma solo_catch {A} net (m : M A) f s l :
  solo net (catch m f) s l =
  match solo net m s l with (s', l', Ok a) => (s', l', Ok a) | (s', l', Throw e) => solo net (f e) s' l' end.
Proof. unfold catch. rewrite solo_prog_bind. by destruct (solo net m s l) as [[s' l'] [a|e]]. Qed.

Lemma solo_finally {A} net (m : M A) g s l :
  solo net (finally m g) s l = let '(s', l', r) := solo net m s l in (g s', l', r).
Proof. unfold finally. rewrite solo_prog_bind. by destruct (solo net m s l) as [[s' l'] r]. Qed.

(** What was sent stays. *)
Lemma solo_extends {A} net (p : prog A) : forall s l, exists l', (solo net p s l).1.2 = l ++ l'.
Proof.
  induction p as [a|g p IH|o p IH|k cont IH]; intros s l; cbn; [exists []; by rewrite app_nil_r|apply IH| |apply IH].
  destruct (IH s (l ++ [o])) as [l' ->]. exists (o :: l'). by rewrite <- app_assoc.
Qed.

(** Running alone is running under the scheduler when nothing else is started: as
    many answers as the handler waits leave no task, and the same state and outputs. *)
Definition answered (net : list out -> forall k, result (answer k)) (pg : page) : event := ev_answer 0 (net (outs pg)).

Fixpoint settle (fuel : nat) (net : list out -> forall k, result (answer k)) (pg : page) : page :=
  match fuel with O => pg | Datatypes.S f => settle f net (step pg (answered net pg)) end.

Lemma settle_idle net n s l : settle n net (mkPage s [] l) = mkPage s [] l.
Proof. induction n as [|n IH]; [done|exact IH]. Qed.

Lemma settle_advance net (p : M unit) : forall s l, exists n, forall m,
  let '(s', l', q) := advance p s in
  settle (n + m) net (mkPage s' (waiting q) (l ++ l')) = mkPage (solo net p s l).1.1 [] (solo net p s l).1.2.
Proof.
  induction p as [a|g p IH|o p IH|k cont IH]; intros s l; cbn [advance solo].
  - exists 0%nat. intros m. cbn [waiting fst snd]. by rewrite app_nil_r, settle_idle.
  - apply IH.
  - destruct (IH s (l ++ [o])) as [n Hn]. exists n. intros m. specialize (Hn m).
    destruct (advance p s) as [[s' l'] q]. by rewrite <- app_assoc in Hn.
  - destruct (IH (net l k) s l) as [n Hn]. exists (Datatypes.S n). intros m. specialize (Hn m). rewrite app_nil_r.
    cbn [plus settle waiting]. unfold answered, step. cbn [tasks lookup list_lookup outs ui].
    destruct (advance (cont (net l k)) s) as [[s' l'] q]. cbn [take drop app]. by rewrite app_nil_r.
Qed.

(** A handler started on an idle page, with as many answers as it waits for, ends as
    it does alone. *)
Theorem start_settles net (handler : S -> M unit) s l : exists n, forall m,
  settle (n + m) net (step (mkPage s [] l) (ev_start handler)) =
  mkPage (solo net (handler s) s l).1.1 [] (solo net (handler s) s l).1.2.
Proof.
  destruct (settle_advance net (handler s) s l) as [n Hn]. exists n. intros m. specialize (Hn m).
  unfold step. cbn [ui tasks outs]. by destruct (advance (handler s) s) as [[s' l'] q].
Qed.

(** ** What a handler may do *)

(** Whatever a handler is answered, each of its outputs satisfies [P] and each of its
    updates preserves [I]. *)
Fixpoint only (I : S -> Prop) (P : out -> Prop) {A} (p : prog A) : Prop :=
  match p with
  | Done _ => True
  | Set_ f p => (forall s, I s -> I (f s)) /\ only I P p
  | Out o p => P o /\ only I P p
  | Await _ cont => forall r, only I P (cont r)
  end.

Section only.
Context (I : S -> Prop) (P : out -> Prop).
Local Abbreviation only p := (only I P p).

Lemma only_prog_bind {A B} (f : A -> prog B) p : only p -> (forall a, only (f a)) -> only (prog_bind f p).
Proof. induction p as [a|g p IH|o p IH|k cont IH]; cbn; [auto|by intros [? ?]; auto|by intros [? ?]; auto|auto]. Qed.

Lemma only_bind {A B} (m : M A) (f : A -> M B) : only m -> (forall a, only (f a)) -> only (bind m f).
Proof. intros Hm Hf. apply only_prog_bind; [done|]. by intros [a|e]. Qed.

Lemma only_catch {A} (m : M A) f : only m -> (forall e, only (f e)) -> only (catch m f).
Proof. intros Hm Hf. apply only_prog_bind; [done|]. by intros [a|e]. Qed.

Lemma only_finally {A} (m : M A) g : only m -> (forall s, I s -> I (g s)) -> only (finally m g).
Proof. intros Hm Hg. by apply only_prog_bind. Qed.

Lemma only_fetch k rq : P (o_send rq) -> only (fetch k rq).
Proof. by intros H. Qed.

Lemma only_set f : (forall s, I s -> I (f s)) -> only (set f).
Proof. by intros H. Qed.

Lemma only_advance {A} (p : prog A) : forall s, only p -> I s ->
  I (advance p s).1.1 /\ Forall P (advance p s).1.2 /\ only (advance p s).2.
Proof.
  induction p as [a|g p IH|o p IH|k cont IH]; intros s; cbn; [done|intros [? ?]; auto| |done].
  intros [Ho Hp] Hs. specialize (IH s Hp Hs). destruct (advance p s) as [[s' l] q]. cbn in *. destruct IH as (? & ? & ?).
  split_and!; [done|by constructor|done].
Qed.

Lemma only_waiting (p : M unit) : only p -> Forall (fun p => only p) (waiting p).
Proof. destruct p; cbn; try done. by repeat constructor. Qed.

(** A handler that is started in a state it sees. *)
Definition starts_only (s : S) (ev : event) : Prop := match ev with ev_start handler => only (handler s) | ev_answer _ _ => True end.

Definition tame (pg : page) : Prop := I (ui pg) /\ Forall P (outs pg) /\ Forall (fun p => only p) (tasks pg).

Lemma step_only pg ev : starts_only (ui pg) ev -> tame pg -> tame (step pg ev).
Proof.
  intros Hev (Hi & Ho & Ht). unfold tame. destruct ev as [handler|i a]; cbn [step].
  - destruct (only_advance _ (ui pg) Hev Hi) as (H0 & H1 & H2). destruct (advance _ _) as [[s l] p]. cbn in *.
    split_and!; [done|by apply Forall_app|]. apply Forall_app. split; [done|by apply only_waiting].
  - destruct (tasks pg !! i) as [p|] eqn:Hp; [|done]. assert (Hop : only p) by (by eapply Forall_lookup_1).
    destruct p as [| | |k cont]; try done. destruct (only_advance (cont (a k)) (ui pg) (Hop (a k)) Hi) as (H0 & H1 & H2).
    destruct (advance _ _) as [[s l] q]. cbn in *. split_and!; [done|by apply Forall_app|].
    apply Forall_app. split; [by apply Forall_take|]. apply Forall_app. split; [by apply only_waiting|by apply Forall_drop].
Qed.

(** Handlers are started and answered in any order.  Either every output satisfies [P]
    and the state [I], or one of them was started when it was [risky] in the state it
    saw. *)
Lemma run_only {X} (ev_of : X -> event) (risky : X -> S -> bool) xs pg :
  (forall x s, I s -> risky x s = false -> starts_only s (ev_of x)) -> tame pg ->
  tame (run pg (map ev_of xs)) \/
  exists xs1 x xs2, xs = xs1 ++ x :: xs2 /\ risky x (ui (run pg (map ev_of xs1))) = true.
Proof.
  intros Hx. revert pg. induction xs as [|x xs IH]; intros pg Hq; [by left|].
  destruct (risky x (ui pg)) eqn:Hr; [right; by exists [], x, xs|].
  destruct (IH (step pg (ev_of x))) as [H|(xs1 & y & xs2 & -> & Hy)]; [by apply step_only; [apply Hx; [apply Hq|]|]|by left|].
  right. by exists (x :: xs1), y, xs2.
Qed.

(** Nothing is risky. *)
Lemma run_tame {X} (ev_of : X -> event) xs pg :
  (forall x s, I s -> starts_only s (ev_of x)) -> tame pg -> tame (run pg (map ev_of xs)).
Proof. intros Hx Hq. destruct (run_only ev_of (fun _ _ => false) xs pg (fun x s Hi _ => Hx x s Hi) Hq) as [H|(? & ? & ? & _ & [=])]. done. Qed.

(** The pages that come about when handlers of a kind are started, in any order, and
    answered in any order. *)
Inductive reach (handlers : (S -> M unit) -> Prop) (start : S) : page -> Prop :=
| reach_start : reach handlers start (mkPage start [] [])
| reach_handler pg handler : reach handlers start pg -> handlers handler -> reach handlers start (step pg (ev_start handler))
| reach_answer pg i a : reach handlers start pg -> reach handlers start (step pg (ev_answer i a)).

Lemma reach_tame handlers start pg :
  (forall handler s, handlers handler -> I s -> only (handler s)) -> I start -> reach handlers start pg -> tame pg.
Proof.
  intros Hh Hi. induction 1 as [|pg handler _ IH Hin|pg i a _ IH]; [by split_and!; [|constructor|constructor]|apply step_only..]; try done.
  apply Hh; [done|apply IH].
Qed.
End only.
End page.

#[global] Arguments prog S {kind} answer A : assert.
#[global] Arguments M S {kind} answer A : assert.
#[global] Arguments page S {kind} answer : assert.
#[global] Arguments event S {kind} answer : assert.

Declare Scope page_scope.
Notation "x <~ m ; f" := (bind m (fun x => f)) (at level 20, m at level 100, f at level 200, right associativity) : page_scope.
Notation "'do' m ; f" := (bind m (fun _ => f)) (at level 20, m at level 100, f at level 200, right associativity) : page_scope.

(** ** What is rendered *)

(** Elements with their tag, their attributes (without style), the action a click or a
    change starts, and their children. *)
Inductive html (A : Type) := txt (s : string) | el (tag : string) (attrs : list (string * string)) (on : option A) (kids : list (html A)).
#[global] Arguments txt {A} _.
#[global] Arguments el {A} _ _ _ _.

Section html.
Context {A : Type}.
Definition box (tag : string) (kids : list (html A)) : html A := el tag [] None kids.
Definition span (cls text : string) : html A := el "span" [("class", cls)] None [txt text].
Definition para (cls text : string) : html A := el "p" [("class", cls)] None [txt text].
Definition div (cls : string) (kids : list (html A)) : html A := el "div" [("class", cls)] None kids.
Definition inline (text : string) : html A := el "code" [("class", "inline")] None [txt text].
Definition button (label : string) (disabled : bool) (a : A) : html A :=
  el "button" (if disabled then [("disabled", "")] else []) (if disabled then None else Some a) [txt label].
Definition link (label href : string) : html A := el "a" [("href", href)] None [txt label].
Definition when (b : bool) (h : list (html A)) : list (html A) := if b then h else [].
Definition table (heads : list string) (rows : list (list (html A))) : html A :=
  box "table" [box "thead" [box "tr" (map (fun t => box "th" [txt t]) heads)];
               box "tbody" (map (fun cells => box "tr" (map (fun c => box "td" [c]) cells)) rows)].

(** The actions the user can start, and the texts that are shown. *)
Fixpoint actions (h : html A) : list A :=
  match h with
  | txt _ => []
  | el _ _ on kids => match on with Some a => [a] | None => [] end ++ flat_map actions kids
  end.

Fixpoint texts (h : html A) : list string :=
  match h with txt s => [s] | el _ _ _ kids => flat_map texts kids end.

Definition offers (h : html A) (a : A) : Prop := a ∈ actions h.
Definition shows (h : html A) (s : string) : Prop := s ∈ texts h.

Lemma actions_table heads rows : actions (table heads rows) = flat_map (flat_map actions) rows.
Proof.
  unfold table, box. cbn. rewrite !app_nil_r.
  assert (flat_map actions (map (fun t => el "th" [] None [txt t]) heads) = []) as ->.
  { induction heads as [|t l IH]; [done|]. exact IH. }
  cbn. induction rows as [|r rows IH]; [done|]. cbn. f_equal; [|exact IH].
  clear IH. induction r as [|c r IH]; [done|]. cbn. rewrite app_nil_r. by f_equal.
Qed.

Lemma texts_table heads rows : texts (table heads rows) = heads ++ flat_map (flat_map texts) rows.
Proof.
  unfold table, box. cbn. rewrite !app_nil_r. f_equal.
  - induction heads as [|t l IH]; [done|]. cbn. by rewrite IH.
  - induction rows as [|r rows IH]; [done|]. cbn. f_equal; [|exact IH].
    clear IH. induction r as [|c r IH]; [done|]. cbn. rewrite app_nil_r. by f_equal.
Qed.

Lemma elem_of_flat_map {B C} (f : B -> list C) l c : c ∈ flat_map f l <-> exists b, b ∈ l /\ c ∈ f b.
Proof. rewrite !list_elem_of_In, in_flat_map. split; intros (b & Hb & Hc); exists b; rewrite ?list_elem_of_In in *; done. Qed.
End html.

(** The steps of a handler that runs alone. *)
Lemma solo_set {S kind} {answer : kind -> Type} net (f : S -> S) s l : solo (answer := answer) net (set f) s l = (f s, l, Ok tt).
Proof. done. Qed.
Lemma solo_fetch {S kind} {answer : kind -> Type} net k rq (s : S) l :
  solo (answer := answer) net (fetch k rq) s l = (s, l ++ [o_send rq], net (l ++ [o_send rq]) k).
Proof. done. Qed.
Lemma solo_lift {S kind} {answer : kind -> Type} net {A} (r : result A) (s : S) l : solo (answer := answer) net (lift r) s l = (s, l, r).
Proof. done. Qed.
Create Rewrite HintDb page.
#[export] Hint Rewrite @solo_bind @solo_catch @solo_finally @solo_set @solo_fetch @solo_lift : page.
Lemma solo_ret {S kind} {answer : kind -> Type} net {A} (a : A) (s : S) l : solo (answer := answer) net (ret a) s l = (s, l, Ok a).
Proof. done. Qed.
Lemma solo_fail {S kind} {answer : kind -> Type} net {A} e (s : S) l : solo (A := result A) (answer := answer) net (fail e) s l = (s, l, Throw e).
Proof. done. Qed.
Lemma solo_goto {S kind} {answer : kind -> Type} net url (s : S) l : solo (answer := answer) net (goto url) s l = (s, l ++ [o_goto url], Ok tt).
Proof. done. Qed.
Lemma solo_alert {S kind} {answer : kind -> Type} net m (s : S) l : solo (answer := answer) net (alert m) s l = (s, l ++ [o_alert m], Ok tt).
Proof. done. Qed.
Lemma solo_send {S kind} {answer : kind -> Type} net rq (s : S) l : solo (answer := answer) net (send rq) s l = (s, l ++ [o_send rq], Ok tt).
Proof. done. Qed.
Lemma solo_await {S kind} {answer : kind -> Type} net k (s : S) l : solo (answer := answer) net (await k) s l = (s, l, net l k).
Proof. done. Qed.
#[export] Hint Rewrite @solo_ret @solo_fail @solo_goto @solo_alert @solo_send @solo_await : page.

(** Runs a handler alone: the equations, and a case for each answer and condition. *)
Ltac page_cases :=
  match goal with
  | |- context [match ?x with _ => _ end] =>
      lazymatch x with context [match _ with _ => _ end] => fail | _ => destruct x eqn:? end
  end.
Ltac page_run := repeat (autorewrite with page; cbv beta iota; try page_cases).

(** The outputs and updates of a handler, followed through its binds and its cases;
    what is left to prove are the conditions on the single outputs and updates. *)
Ltac page_only :=
  repeat first
    [ apply only_finally | apply only_catch; [|intros ?] | apply only_bind; [|intros ?] | apply only_fetch | apply only_set
    | match goal with |- only _ _ (match ?x with _ => _ end) => destruct x end
    | match goal with
      | |- only _ _ (Done _) => exact Logic.I | |- only _ _ (ret _) => exact Logic.I | |- only _ _ (fail _) => exact Logic.I
      | |- only _ _ (lift _) => exact Logic.I | |- only _ _ (await _) => intros ?; exact Logic.I
      | |- only _ _ (send _) => split; [|exact Logic.I] | |- only _ _ (goto _) => split; [|exact Logic.I]
      | |- only _ _ (alert _) => split; [|exact Logic.I] end ].
End Page.
