(* ===== verification/AccountPage.v ===== *)
(** The account page of the web application, [web/src/components/account.tsx]: its
    state, its handlers and what it renders. *)
From S2P Require Import Prelude Registry Page.

Module AccountPage.
Import Page.
Local Open Scope Z_scope.
Local Open Scope page_scope.

(** The replies of the account API.  A session has the fields of the registry's. *)
Definition SessionInfo := Registry.SessionInfo.
Definition si_id := Registry.si_id.
Definition si_audience := Registry.si_audience.
Definition si_revoked := Registry.si_revoked.

(** @src web/src/components/account.tsx Agreements *)
Record Agreements := mkAgreements { tos : string; privacy : string; publisher : string }.

(** @src web/src/components/account.tsx Profile *)
Record Profile := mkProfile {
  username : string; role : string; status : string; githubId : option string; avatarUrl : option string; p_agreements : Agreements;
}.

(** @src web/src/components/account.tsx SecurityEvent *)
Record SecurityEvent := mkEvent {
  ev_id : Z; ev_action : string; targetType : option string; targetId : option Z; ev_createdAt : string;
}.

(** @src web/src/components/account.tsx AccountState *)
Record AccountState := mkAccount {
  signedIn : bool; sessions : list SessionInfo; agreements : Agreements; profile : option Profile;
  securityEvents : list SecurityEvent; error : option string;
}.

(** @src web/src/components/account.tsx EMPTY_AGREEMENTS *)
Definition EMPTY_AGREEMENTS : Agreements := mkAgreements "pending" "pending" "pending".

(** @src web/src/components/account.tsx emptyState *)
Definition emptyState : AccountState := mkAccount false [] EMPTY_AGREEMENTS None [] None.

(** The states of the component.
    @src web/src/components/account.tsx 52-62 Account *)
Record account_ui := mkUi {
  state : AccountState; loading : bool; message : option string; deleteConfirm : string; deleting : bool;
}.

Definition setState x u := mkUi x (loading u) (message u) (deleteConfirm u) (deleting u).
Definition setLoading x u := mkUi (state u) x (message u) (deleteConfirm u) (deleting u).
Definition setMessage x u := mkUi (state u) (loading u) x (deleteConfirm u) (deleting u).
Definition setDeleteConfirm x u := mkUi (state u) (loading u) (message u) x (deleting u).
Definition setDeleting x u := mkUi (state u) (loading u) (message u) (deleteConfirm u) x.

Definition initial : account_ui := mkUi emptyState true None "" false.

(** What a handler waits for. *)
Inductive akind := k_sessions | k_agreements | k_profile | k_events | k_ignored | k_error.
Definition payload (k : akind) : Type :=
  match k with
  | k_sessions => list SessionInfo
  | k_agreements => Agreements
  | k_profile => Profile
  | k_events => list SecurityEvent
  | k_ignored => unit
  | k_error => option string
  end.
Definition answer (k : akind) : Type := reply (payload k).
Local Abbreviation M := (M account_ui answer).

Definition json_header : obj string := [("Content-Type", "application/json")].

(** The steps of [refresh] inside its [try].
    @src web/src/components/account.tsx 75-88 refresh *)
Definition load_account : M unit :=
  res <~ fetch k_sessions (get "/api/account/sessions");
  if rp_status res =? 401 then set (setState emptyState)
  else if negb (rp_ok res) then fail (JsError EError ("sessions API returned " +:+ pretty (rp_status res)))
  else
    sessionsBody <~ lift (rp_json res);
    agreeRes <~ fetch k_agreements (get "/api/account/agreements");
    agreements <~ (if rp_ok agreeRes then lift (rp_json agreeRes) else ret EMPTY_AGREEMENTS);
    profileRes <~ fetch k_profile (get "/api/account/profile");
    profile <~ (if rp_ok profileRes then x <~ lift (rp_json profileRes); ret (Some x) else ret None);
    eventsRes <~ fetch k_events (get "/api/account/security-events");
    securityEvents <~ (if rp_ok eventsRes then lift (rp_json eventsRes) else ret []);
    set (setState (mkAccount true sessionsBody agreements profile securityEvents None)).

(** @src web/src/components/account.tsx refresh *)
Definition refresh : M unit :=
  do set (setLoading true);
  do set (setMessage None);
  finally
    (catch load_account
       (fun err => set (setState (mkAccount false [] EMPTY_AGREEMENTS None [] (Some (err_message err))))))
    (setLoading false).

Definition is_active_web (s : SessionInfo) : bool := String.eqb (si_audience s) "web" && negb (si_revoked s).

(** [rendered] is the state the button was rendered with.
    @src web/src/components/account.tsx revoke *)
Definition revoke (rendered : account_ui) (id : Z) (audience : string) : M unit :=
  if String.eqb audience "web" && Nat.leb (length (List.filter is_active_web (sessions (state rendered)))) 1
  then set (setMessage (Some "You cannot revoke your only active web session used to manage this page."))
  else
    do fetch k_ignored (mkPageReq "DELETE" ("/api/account/sessions?id=" +:+ pretty id) [] Registry.rb_none);
    refresh.

(** @src web/src/components/account.tsx acceptAll *)
Definition acceptAll : M unit :=
  res <~ fetch k_ignored (mkPageReq "POST" "/api/account/agreements" json_header
           (Registry.rb_json [("tos", Registry.jf_bool true); ("privacy", Registry.jf_bool true); ("publisher", Registry.jf_bool true)]));
  do (if rp_ok res then set (setMessage (Some "Agreements accepted. You are clear to publish."))
      else set (setMessage (Some ("Could not accept agreements (" +:+ pretty (rp_status res) +:+ ")."))));
  refresh.

(** @src web/src/components/account.tsx logout *)
Definition logout : M unit :=
  do fetch k_ignored (mkPageReq "POST" "/api/account/logout" [] Registry.rb_none);
  goto "/account".

(** @src web/src/components/account.tsx deleteAccount *)
Definition deleteAccount (rendered : account_ui) : M unit :=
  if negb (String.eqb (deleteConfirm rendered) "delete my account")
  then set (setMessage (Some "Type 'delete my account' to confirm."))
  else
    do set (setDeleting true);
    do set (setMessage None);
    finally
      (catch
        (res <~ fetch k_error (mkPageReq "POST" "/api/account/delete" json_header
                 (Registry.rb_json [("confirm", Registry.jf_string "delete-account")]));
         if rp_ok res then logout
         else
           body <~ catch (lift (rp_json res)) (fun _ => ret None);
           set (setMessage (Some (nullish body ("Could not delete account (" +:+ pretty (rp_status res) +:+ ").")))))
        (fun err => set (setMessage (Some (err_message err)))))
      (setDeleting false).

(** [encodeURIComponent] and the addresses of the page and of the registry.
    @src web/src/components/account.tsx signInUrl *)
Definition signInUrl (encodeURIComponent : string -> string) (REGISTRY_URL origin : string) : string :=
  REGISTRY_URL +:+ "/auth/github/start?redirect_uri=" +:+ encodeURIComponent (origin +:+ "/auth/callback").

(** ** What is rendered *)

(** What the user can do on the page. *)
Inductive account_action := a_logout | a_acceptAll | a_revoke (id : Z) (audience : string) | a_confirm | a_delete.

Definition handler (a : account_action) (typed : string) (rendered : account_ui) : M unit :=
  match a with
  | a_logout => logout
  | a_acceptAll => acceptAll
  | a_revoke id audience => revoke rendered id audience
  | a_confirm => set (setDeleteConfirm typed)
  | a_delete => deleteAccount rendered
  end.

(** @src web/src/components/account.tsx 189-190 Account *)
Definition pending (a : Agreements) : bool :=
  String.eqb (tos a) "pending" || String.eqb (privacy a) "pending" || String.eqb (publisher a) "pending".

Section view.
Context (toLocaleString : string -> string) (signIn : string).
Local Abbreviation html := (html account_action).

(** @src web/src/components/account.tsx 210-228 Account *)
Definition profile_view (p : Profile) : html :=
  div "content-block"
    [box "h2" [txt "Profile"];
     div "row"
       (match avatarUrl p with Some u => when (negb (String.eqb u "")) [el "img" [("src", u)] None []] | None => [] end
        ++ [box "div" [box "p" [box "strong" [txt (username p)]];
                       el "p" [("class", "muted")] None
                         [txt ("Linked GitHub identity " +:+
                             (if truthy (githubId p) then "#" +:+ nullish (githubId p) "" else "(none)"));
                          txt " · role "; inline (role p)]];
            span ("badge " +:+ (if String.eqb (status p) "active" then "" else "bad")) (status p)])].

(** @src web/src/components/account.tsx 230-242 Account *)
Definition agreements_view (a : Agreements) : html :=
  div "content-block"
    [box "h2" [txt "Agreements"];
     if pending a then box "p" [txt "Review and accept the terms below before publishing."]
     else para "muted" "All agreements accepted.";
     box "ul" [box "li" [txt "Terms of Service — "; inline (tos a)]; box "li" [txt "Privacy Policy — "; inline (privacy a)];
               box "li" [txt "Publisher Agreement — "; inline (publisher a)]]].

(** @src web/src/components/account.tsx 262-277 Account *)
Definition session_row (s : SessionInfo) : list html :=
  [txt (si_audience s); txt (nullish (Registry.si_deviceLabel s) "—"); txt (toLocaleString (Registry.si_createdAt s));
   txt (toLocaleString (Registry.si_lastUsedAt s)); txt (toLocaleString (Registry.si_expiresAt s));
   if si_revoked s then span "muted" "revoked" else button "Revoke" false (a_revoke (si_id s) (si_audience s))].

(** @src web/src/components/account.tsx 244-282 Account *)
Definition sessions_view (l : list SessionInfo) : html :=
  div "content-block"
    [box "h2" [txt "Sessions"];
     match l with
     | [] => para "muted" "No active sessions."
     | _ => table ["Audience"; "Device"; "Created"; "Last used"; "Expires"; ""] (map session_row l)
     end].

(** @src web/src/components/account.tsx 284-308 Account *)
Definition events_view (l : list SecurityEvent) : html :=
  div "content-block"
    [box "h2" [txt "Security events"];
     match l with
     | [] => para "muted" "No security events recorded yet."
     | _ => table ["When"; "Action"; "Target"]
              (map (fun e => [txt (toLocaleString (ev_createdAt e)); inline (ev_action e);
                              txt (if truthy (targetType e)
                                   then nullish (targetType e) "" +:+ "#" +:+ nullish (pretty <$> targetId e) "?" else "—")]) l)
     end].

(** @src web/src/components/account.tsx 310-329 Account *)
Definition delete_view (u : account_ui) : html :=
  div "content-block"
    [box "h2" [txt "Delete account"];
     para "muted" "Permanently closes this account, revokes every session, token, and signing key, and removes you from all organizations. Published packages remain but can no longer be maintained.";
     div "row" [el "input" [("value", deleteConfirm u)] (Some a_confirm) [];
                button (if deleting u then "Deleting…" else "Delete account") (deleting u) a_delete]].

(** @src web/src/components/account.tsx 159-331 Account *)
Definition account_view (u : account_ui) : html :=
  if loading u then
    box "main" [div "hero" [span "eyebrow" "Account"; box "h1" [txt "Your account"]; para "muted" "Loading…"]]
  else if negb (signedIn (state u)) then
    box "main"
      [div "hero"
        ([span "eyebrow" "Account"; box "h1" [txt "Sign in"];
          box "p" [txt "Sign in with GitHub to manage your published agents, sessions, and agreements."]]
         ++ when (truthy (error (state u))) [para "pill bad" (nullish (error (state u)) "")]
         ++ [div "row" [link "Sign in with GitHub" signIn]])]
  else
    box "main"
      ([div "hero"
         ([span "eyebrow" "Account"; box "h1" [txt "Your account"];
           div "row" (button "Sign out" false a_logout
                      :: when (pending (agreements (state u))) [button "Accept agreements" false a_acceptAll])]
          ++ when (truthy (message u)) [para "muted" (nullish (message u) "")])]
       ++ match profile (state u) with Some p => [profile_view p] | None => [] end
       ++ [agreements_view (agreements (state u)); sessions_view (sessions (state u)); events_view (securityEvents (state u));
           delete_view u]).
End view.

(** ** Properties *)

Section facts.
Context (net : list out -> forall k, result (answer k)).

(** Loading alone sets the state of the account, or throws and leaves the page as it was. *)
Lemma load_alone u l : exists l', (exists a, solo net load_account u l = (setState a u, l', Ok tt)) \/
  (exists e, solo net load_account u l = (u, l', Throw e)).
Proof. unfold load_account. page_run; eexists; first [by left; eexists|by right; eexists]. Qed.

Lemma refresh_alone u l : exists a l', solo net refresh u l = (mkUi a false None (deleteConfirm u) (deleting u), l', Ok tt).
Proof.
  unfold refresh. autorewrite with page. set (u1 := setMessage None (setLoading true u)).
  destruct (load_alone u1 l) as (l' & [[a ->]|[e ->]]); by repeat eexists.
Qed.

(** What loading the account shows: nobody signed in when the registry says so,
    nobody and the reason when they could not be asked for or the answer was a failure,
    and otherwise the sessions, with what could be read of the rest. *)
Theorem account_refresh_spec u l :
  let answer k := net (l ++ [o_send (get "/api/account/sessions")]) k in
  let shown := state (solo net refresh u l).1.1 in
  (forall e, answer k_sessions = Throw e -> shown = mkAccount false [] EMPTY_AGREEMENTS None [] (Some (err_message e))) /\
  (forall r, answer k_sessions = Ok r -> rp_status r = 401 -> shown = emptyState) /\
  (forall r, answer k_sessions = Ok r -> rp_status r <> 401 -> rp_ok r = false ->
     shown = mkAccount false [] EMPTY_AGREEMENTS None [] (Some ("sessions API returned " +:+ pretty (rp_status r)))) /\
  (signedIn shown = true -> exists r, answer k_sessions = Ok r /\ rp_ok r = true /\ rp_json r = Ok (sessions shown) /\ error shown = None).
Proof.
  intros ans shown. subst ans shown. cbv beta. unfold refresh, load_account. split_and!.
  - intros e He. autorewrite with page. by rewrite He.
  - intros r Hr Hs. autorewrite with page. rewrite Hr. cbv iota. by rewrite Hs.
  - intros r Hr Hs Hf. autorewrite with page. rewrite Hr. cbv iota. apply Z.eqb_neq in Hs. rewrite Hs, Hf. cbn [negb]. by autorewrite with page.
  - page_run; try done; intros _; eexists; (split; [reflexivity|]); (split; [by apply negb_false_iff|by split]).
Qed.

(** What the page takes from an answer: a default when it is a failure. *)
Definition read_or {A B} (r : reply A) (f : A -> B) (default : B) : result B :=
  if rp_ok r then x ← rp_json r; mret (f x) else Ok default.

Definition asks_account : list out :=
  map (fun path => o_send (get path))
    ["/api/account/sessions"; "/api/account/agreements"; "/api/account/profile"; "/api/account/security-events"].

(** Up to the next answer, and the cases of what is read of it. *)
Ltac next_answer H :=
  autorewrite with page; cbv beta iota; autorewrite with page; rewrite <- ?app_assoc; cbn [app]; rewrite H; cbv iota; cbn [rp_json].
Ltac read_answer r j H := destruct (rp_ok r); [destruct j; [|done]; cbn in H|]; injection H as <-; unfold id.

(** With readable sessions, and whatever else is a failure or readable, somebody is
    signed in with what was read. *)
Lemma refresh_signed_in u l rs ra rp re ss ag pr ev :
  net (l ++ take 1 asks_account) k_sessions = Ok rs -> rp_ok rs = true -> rp_json rs = Ok ss ->
  net (l ++ take 2 asks_account) k_agreements = Ok ra -> read_or ra id EMPTY_AGREEMENTS = Ok ag ->
  net (l ++ take 3 asks_account) k_profile = Ok rp -> read_or rp Some None = Ok pr ->
  net (l ++ take 4 asks_account) k_events = Ok re -> read_or re id [] = Ok ev ->
  state (solo net refresh u l).1.1 = mkAccount true ss ag pr ev None.
Proof.
  unfold asks_account, read_or. cbn [map take]. intros Hs Hok Hj Ha Hag Hp Hpr He Hev. unfold refresh, load_account. autorewrite with page.
  rewrite Hs. cbv iota. destruct rs as [st js], ra as [sa ja], rp as [sp jp], re as [se je]. cbn [rp_status rp_json] in *. subst js.
  assert (Hne : st =? 401 = false) by (apply Z.eqb_neq; intros ->; done).
  rewrite Hne, Hok. cbn [negb].
  next_answer Ha; read_answer (mkReply sa ja) ja Hag;
    next_answer Hp; read_answer (mkReply sp jp) jp Hpr;
    next_answer He; read_answer (mkReply se je) je Hev; by autorewrite with page.
Qed.

(** The last active web session of the list that is shown is not revoked: nothing is
    sent.  For any other session the deletion is the first thing that is sent. *)
Theorem revoke_keeps_last_web rendered u l id audience :
  let active := length (List.filter is_active_web (sessions (state rendered))) in
  let '(u', l', _) := solo net (revoke rendered id audience) u l in
  (audience = "web" /\ (active <= 1)%nat -> l' = l /\ state u' = state u) /\
  (~ (audience = "web" /\ (active <= 1)%nat) ->
     exists l2, l' = l ++ o_send (mkPageReq "DELETE" ("/api/account/sessions?id=" +:+ pretty id) [] Registry.rb_none) :: l2).
Proof.
  intros active. unfold revoke. fold active.
  set (rq := mkPageReq "DELETE" _ _ _).
  assert (Hsent : exists l2, (solo net (do fetch k_ignored rq; refresh) u l).1.2 = l ++ o_send rq :: l2).
  { rewrite solo_bind, solo_fetch. destruct (net _ _); [|by exists []].
    destruct (solo_extends net refresh u (l ++ [o_send rq])) as [l2 ->]. exists l2. by rewrite <- app_assoc. }
  destruct (String.eqb_spec audience "web") as [->|Ha]; [destruct (Nat.leb_spec active 1) as [Hl|Hl]|]; cbn [andb].
  - cbn. split; [done|]. intros H. by destruct H.
  - destruct (solo _ _ _ _) as [[u' l'] r]. cbn in Hsent. split; [lia|done].
  - destruct (solo _ _ _ _) as [[u' l'] r]. cbn in Hsent. split; [by intros [? _]|done].
Qed.

(** Accepting the agreements reports what came of it, and then loads the account
    again, which clears every message first: whatever the registry answers, the
    report is gone when the handler ends. *)
Theorem accept_message_lost u l u' l' : solo net acceptAll u l = (u', l', Ok tt) -> message u' = None /\ loading u' = false.
Proof.
  unfold acceptAll. rewrite solo_bind, solo_fetch. destruct (net _ _) as [res|e]; [|done]. cbv beta iota. rewrite solo_bind.
  assert (Hm : exists u1, forall l, solo net (if rp_ok res then set (setMessage (Some "Agreements accepted. You are clear to publish."))
      else set (setMessage (Some ("Could not accept agreements (" +:+ pretty (rp_status res) +:+ ").")))) u l = (u1, l, Ok tt))
    by (destruct (rp_ok res); by eexists).
  destruct Hm as [u1 ->]. destruct (refresh_alone u1 (l ++ [o_send (mkPageReq "POST" "/api/account/agreements" json_header
    (Registry.rb_json [("tos", Registry.jf_bool true); ("privacy", Registry.jf_bool true); ("publisher", Registry.jf_bool true)]))]))
    as (a & l2 & ->). by intros [= <- _].
Qed.

Definition delete_request : page_request := mkPageReq "POST" "/api/account/delete" json_header
  (Registry.rb_json [("confirm", Registry.jf_string "delete-account")]).
Definition logout_request : page_request := mkPageReq "POST" "/api/account/logout" [] Registry.rb_none.

(** The account is deleted only when the words were typed; then the page signs out
    and leaves exactly when the registry deleted it, and otherwise says why not.  In
    any case the button is free again. *)
Theorem deleteAccount_spec rendered u l :
  let '(u', l', r) := solo net (deleteAccount rendered) u l in
  r = Ok tt /\
  (deleteConfirm rendered <> "delete my account" -> l' = l /\ message u' = Some "Type 'delete my account' to confirm.") /\
  (deleteConfirm rendered = "delete my account" ->
     deleting u' = false /\
     match net (l ++ [o_send delete_request]) k_error with
     | Ok res =>
         if rp_ok res then
           match net (l ++ [o_send delete_request; o_send logout_request]) k_ignored with
           | Ok _ => l' = l ++ [o_send delete_request; o_send logout_request; o_goto "/account"]
           | Throw e => l' = l ++ [o_send delete_request; o_send logout_request] /\ message u' = Some (err_message e)
           end
         else l' = l ++ [o_send delete_request] /\ message u' <> None
     | Throw e => l' = l ++ [o_send delete_request] /\ message u' = Some (err_message e)
     end).
Proof.
  unfold deleteAccount, logout. fold delete_request logout_request.
  destruct (String.eqb_spec (deleteConfirm rendered) "delete my account") as [->|Hd]; cbn [negb]; [|by autorewrite with page].
  autorewrite with page. destruct (net (l ++ [o_send delete_request]) k_error) as [res|e]; cbv beta iota.
  - destruct (rp_ok res); autorewrite with page.
    + rewrite <- !app_assoc. cbn [app]. destruct (net _ k_ignored) as [r|e]; cbv beta iota; autorewrite with page; rewrite <- ?app_assoc; by split_and!.
    + destruct (rp_json res); cbv beta iota; autorewrite with page; by split_and!.
  - autorewrite with page. by split_and!.
Qed.
End facts.

(** ** What the page offers *)
Section offers.
Context (toLocaleString : string -> string) (signIn : string).
Local Abbreviation view := (account_view toLocaleString signIn).

Lemma session_rows_actions l : flat_map (flat_map actions) (map (session_row toLocaleString) l) =
  map (fun s => a_revoke (si_id s) (si_audience s)) (List.filter (fun s => negb (si_revoked s)) l).
Proof.
  induction l as [|s l IH]; [done|]. cbn [map flat_map List.filter]. rewrite IH. unfold session_row at 1. cbn [flat_map actions].
  by destruct (si_revoked s).
Qed.

Lemma events_actions l : actions (events_view toLocaleString l) = [].
Proof.
  unfold events_view. destruct l as [|e l]; [done|]. unfold div. cbn [actions flat_map]. rewrite actions_table. cbn [app].
  rewrite app_nil_r. induction (e :: l) as [|e' l' IH]; [done|]. cbn. exact IH.
Qed.

Lemma sessions_actions l : actions (sessions_view toLocaleString l) =
  map (fun s => a_revoke (si_id s) (si_audience s)) (List.filter (fun s => negb (si_revoked s)) l).
Proof.
  rewrite <- session_rows_actions. destruct l as [|s l]; [done|]. unfold sessions_view, div. cbn [actions flat_map].
  rewrite actions_table. cbn [app]. by rewrite app_nil_r.
Qed.

Lemma profile_actions p : actions (profile_view p) = [].
Proof. unfold profile_view. destruct (avatarUrl p) as [u|]; [|done]. by destruct (negb (String.eqb u "")). Qed.

Lemma agreements_actions a : actions (agreements_view a) = [].
Proof. unfold agreements_view. by destruct (pending a). Qed.

Lemma view_actions u : loading u = false -> signedIn (state u) = true ->
  actions (view u) = a_logout :: (if pending (agreements (state u)) then [a_acceptAll] else []) ++
    map (fun s => a_revoke (si_id s) (si_audience s)) (List.filter (fun s => negb (si_revoked s)) (sessions (state u))) ++
    a_confirm :: (if deleting u then [] else [a_delete]).
Proof.
  intros Hl Hs. unfold account_view. rewrite Hl, Hs. cbn [negb]. unfold box. cbn [actions flat_map app].
  rewrite <- (app_nil_r (flat_map actions _)). rewrite List.flat_map_app. cbn [flat_map].
  rewrite agreements_actions, sessions_actions, events_actions. cbn [app].
  assert (flat_map actions match profile (state u) with Some p => [profile_view p] | None => [] end = []) as ->.
  { destruct (profile (state u)); [|done]. cbn [flat_map]. by rewrite profile_actions. }
  cbn [app]. rewrite !app_nil_r.
  assert (actions (delete_view u) = a_confirm :: (if deleting u then [] else [a_delete])) as ->
    by (unfold delete_view; by destruct (deleting u)).
  destruct (pending _), (truthy (message u)); reflexivity.
Qed.

(** What can be done on the page: nothing while it loads or when nobody is signed in;
    otherwise signing out, accepting the agreements while one is pending, revoking
    each session that is not revoked, typing the confirmation, and deleting the
    account unless that is under way. *)
Theorem account_offers u a :
  offers (view u) a <->
  loading u = false /\ signedIn (state u) = true /\
  match a with
  | a_logout | a_confirm => True
  | a_acceptAll => pending (agreements (state u)) = true
  | a_revoke id audience => exists s, s ∈ sessions (state u) /\ si_revoked s = false /\ id = si_id s /\ audience = si_audience s
  | a_delete => deleting u = false
  end.
Proof.
  unfold offers. destruct (loading u) eqn:Hl.
  { unfold account_view. rewrite Hl. split; [|by intros [? _]]. intros H. by apply elem_of_nil in H. }
  destruct (signedIn (state u)) eqn:Hs.
  2:{ unfold account_view. rewrite Hl, Hs. split; [|by intros (_ & ? & _)].
      cbn [negb]. destruct (truthy (error (state u))); intros H; by apply elem_of_nil in H. }
  rewrite view_actions by done. rewrite elem_of_cons, !elem_of_app, elem_of_cons, list_elem_of_fmap.
  setoid_rewrite elem_of_filter_In. setoid_rewrite negb_true_iff.
  destruct a, (pending (agreements (state u))), (deleting u); rewrite ?list_elem_of_singleton, ?elem_of_nil; naive_solver.
Qed.
End offers.

(** ** Every history of the page *)

Local Abbreviation page := (page account_ui answer).

(** The page loads; the user does something; the network answers what a handler waits
    for. *)
Inductive account_event := ae_load | ae_do (a : account_action) (typed : string) | ae_answer (i : nat) (a : forall k, result (answer k)).
Definition event_of (x : account_event) : event account_ui answer :=
  match x with ae_load => ev_start (fun _ => refresh) | ae_do a typed => ev_start (handler a typed) | ae_answer i a => ev_answer i a end.
Definition history (xs : list account_event) : page := run (mkPage initial [] []) (map event_of xs).

Definition phrase : string := "delete my account".
Definition is_delete (o : out) : Prop := o = o_send delete_request.
Definition typed_phrase (x : account_event) : bool := match x with ae_do a_confirm t => String.eqb t phrase | _ => false end.
Definition clicks_delete (x : account_event) (u : account_ui) : bool :=
  match x with ae_do a_delete _ => String.eqb (deleteConfirm u) phrase | _ => false end.

Section only.
Context (I : account_ui -> Prop) (P : out -> Prop).
(** What the updates other than typing do not change. *)
Context (HI : forall u v, deleteConfirm u = deleteConfirm v -> I u -> I v).
Context (HP : forall o, ~ is_delete o -> P o).

Lemma refresh_only : only I P refresh.
Proof. unfold refresh, load_account. page_only; first [by apply HP|by intros u; apply HI]. Qed.

Lemma do_only a typed u : (a = a_delete -> deleteConfirm u <> phrase) -> (a = a_confirm -> forall u, I u -> I (setDeleteConfirm typed u)) ->
  only I P (handler a typed u).
Proof.
  intros Hd Hc. destruct a; cbn [handler].
  - unfold logout. page_only; by apply HP.
  - unfold acceptAll. page_only; try apply refresh_only; first [by apply HP|by intros v; apply HI].
  - unfold revoke. page_only; try apply refresh_only; first [by apply HP|by intros v; apply HI].
  - page_only. by apply Hc.
  - unfold deleteAccount. destruct (String.eqb_spec (deleteConfirm u) "delete my account") as [He|He]; [by destruct (Hd eq_refl)|].
    cbn [negb]. page_only. by intros v; apply HI.
Qed.
End only.

(** C37: An account is deleted only after the user asked for it twice: however the page is
    loaded, used and answered, and in whatever order, a request for the deletion goes
    out only if the words were typed, and the button was pressed while they were in
    the box. *)
Theorem deletion_was_confirmed xs : o_send delete_request ∈ outs (history xs) ->
  (exists xs1 xs2, xs = xs1 ++ ae_do a_confirm phrase :: xs2) /\
  exists xs1 typed xs2, xs = xs1 ++ ae_do a_delete typed :: xs2 /\ deleteConfirm (ui (history xs1)) = phrase.
Proof.
  intros Hin.
  assert (Hno : forall (pg : page) (I : account_ui -> Prop), tame I (fun o => ~ is_delete o) pg -> o_send delete_request ∉ outs pg).
  { intros pg I (_ & Ho & _) H. rewrite Forall_forall in Ho. by apply (Ho _ H). }
  split.
  - destruct (run_only (fun u => deleteConfirm u <> phrase) (fun o => ~ is_delete o) event_of (fun x _ => typed_phrase x) xs (mkPage initial [] []))
      as [Ht|(xs1 & x & xs2 & -> & Hx)].
    + intros x u Hu Hx. destruct x as [|a typed|i a]; [|apply do_only; try done|done].
      * unfold starts_only, event_of. apply refresh_only; [|done]. by intros ? ? <-.
      * by intros ? ? <-.
      * intros -> v _. cbn in *. by apply String.eqb_neq.
    + by split_and!; [|constructor|constructor].
    + by apply Hno in Ht.
    + destruct x as [|[] typed|]; try done. apply String.eqb_eq in Hx as ->. by exists xs1, xs2.
  - destruct (run_only (fun _ => True) (fun o => ~ is_delete o) event_of clicks_delete xs (mkPage initial [] []))
      as [Ht|(xs1 & x & xs2 & -> & Hx)].
    + intros x u _ Hx. destruct x as [|a typed|i a]; [|apply do_only; try done|done].
      * unfold starts_only, event_of. by apply refresh_only.
      * intros ->. by apply String.eqb_neq.
    + by split_and!; [|constructor|constructor].
    + by apply Hno in Ht.
    + destruct x as [|[] typed|]; try done. apply String.eqb_eq in Hx. by exists xs1, typed, xs2.
Qed.

(** ** Witnesses *)

Lemma deletion_was_confirmed_witness :
  exists xs1 typed xs2, [ae_load; ae_do a_confirm phrase; ae_do a_delete ""] = xs1 ++ ae_do a_delete typed :: xs2 /\
    deleteConfirm (ui (history xs1)) = phrase.
Proof.
  apply (deletion_was_confirmed [ae_load; ae_do a_confirm phrase; ae_do a_delete ""]).
  replace (outs (history [ae_load; ae_do a_confirm phrase; ae_do a_delete ""]))
    with [o_send (get "/api/account/sessions"); o_send delete_request] by (vm_compute; reflexivity).
  right. left.
Defined.
End AccountPage.
