(* ===== verification/UsagePage.v ===== *)
(** The usage section of the dashboard, [web/src/components/usage-section.tsx]: its
    state, its handlers, which run interleaved, what it renders, and how the guard of
    the local API meets its requests. *)
From S2P Require Import Prelude Registry ControlPlane UsageStore UsageSources Observability LocalApi Page.

Module UsagePage.
Import Page.
Local Open Scope Z_scope.
Local Open Scope page_scope.

Definition UsageStats := Observability.UsageStats.

(** ** The ranges *)

Definition DAY : Z := 86400000.

(** Dates are days since 1970 in UTC, [date_text] writes one as toISOString does;
    [offset] is how far the local time is ahead of UTC, in milliseconds.
    @src web/src/components/usage-section.tsx today *)
Definition today (offset now : Z) : Z :=
  let midnight := (now + offset) / DAY * DAY - offset in
  midnight / DAY.

(** @src web/src/components/usage-section.tsx daysAgo *)
Definition daysAgo (now n : Z) : Z := (now - n * DAY) / DAY.

Section usage.
Context (date_text : Z -> string) (offset loaded : Z).

Record preset_entry := mkPreset { pe_key : string; pe_label : string; pe_from : option string }.

(** The dates are those of the moment the page was loaded.
    @src web/src/components/usage-section.tsx 7-12 PRESETS *)
Definition PRESETS : list preset_entry :=
  [mkPreset "all" "all time" None; mkPreset "today" "today" (Some (date_text (today offset loaded)));
   mkPreset "7d" "7 days" (Some (date_text (daysAgo loaded 7))); mkPreset "30d" "30 days" (Some (date_text (daysAgo loaded 30)))].

(** The states of the component.
    @src web/src/components/usage-section.tsx 25-32 UsageSection *)
Record usage_ui := mkUi {
  stats : option UsageStats; error : option string; updated : option string; preset : string;
  retentionDays : string; retentionMax : string; settingsMsg : option string;
}.

Definition initial : usage_ui := mkUi None None None "all" "" "" None.

Definition setStats st t u := mkUi (Some st) None (Some t) (preset u) (retentionDays u) (retentionMax u) (settingsMsg u).
Definition setError e u := mkUi (stats u) (Some e) (updated u) (preset u) (retentionDays u) (retentionMax u) (settingsMsg u).
Definition setPreset p u := mkUi (stats u) (error u) (updated u) p (retentionDays u) (retentionMax u) (settingsMsg u).
Definition setRetentionDays x u := mkUi (stats u) (error u) (updated u) (preset u) x (retentionMax u) (settingsMsg u).
Definition setRetentionMax x u := mkUi (stats u) (error u) (updated u) (preset u) (retentionDays u) x (settingsMsg u).
Definition setSettingsMsg x u := mkUi (stats u) (error u) (updated u) (preset u) (retentionDays u) (retentionMax u) x.

(** What a handler waits for; the statistics come with the time of their arrival, and
    [k_timer] is a timeout that passes. *)
Inductive ukind := k_stats | k_settings | k_saved | k_timer.
Definition answer (k : ukind) : Type :=
  match k with
  | k_stats => reply UsageStats * string
  | k_settings => reply (obj string)
  | k_saved => reply (option string)
  | k_timer => unit
  end.
Local Abbreviation M := (M usage_ui answer).

Definition stats_request (from : option string) : page_request :=
  get ("/api/local/v1/stats" +:+ (if truthy from then "?from=" +:+ nullish from "" else "")).

(** @src web/src/components/usage-section.tsx refresh *)
Definition refresh (from : option string) : M unit :=
  catch
    (a <~ fetch k_stats (stats_request from);
     let '(res, now) := a in
     if negb (rp_ok res) then fail (JsError EError ("stats API returned " +:+ pretty (rp_status res)))
     else
       st <~ lift (rp_json res);
       set (setStats st now))
    (fun err => set (setError (err_message err))).

Definition settings_request : page_request := get "/api/local/v1/settings".

(** @src web/src/components/usage-section.tsx loadSettings *)
Definition loadSettings : M unit :=
  catch
    (res <~ fetch k_settings settings_request;
     s <~ lift (rp_json res);
     do set (setRetentionDays (nullish (obj_get "retention.days" s) ""));
     set (setRetentionMax (nullish (obj_get "retention.max_runs" s) "")))
    (fun _ => ret tt).

(** @src web/src/components/usage-section.tsx 62-62 selected *)
Definition selected (u : usage_ui) : preset_entry :=
  nullish (List.find (fun p => String.eqb (pe_key p) (preset u)) PRESETS) (mkPreset "all" "all time" None).

(** Choosing a preset: the effect of the new one starts a refresh with its date, and
    from then on the timer refreshes with that date.  Choosing the one that is
    selected renders nothing anew.
    @src web/src/components/usage-section.tsx 64-68 useEffect *)
Definition choose (key : string) (rendered : usage_ui) : M unit :=
  if String.eqb key (preset rendered) then ret tt
  else
    do set (setPreset key);
    refresh (pe_from (selected (setPreset key rendered))).

Definition tick (rendered : usage_ui) : M unit := refresh (pe_from (selected rendered)).

Definition save_request (u : usage_ui) : page_request :=
  mkPageReq "PUT" "/api/local/v1/settings" [("content-type", "application/json")]
    (Registry.rb_json [("retention.days", Registry.jf_string (retentionDays u)); ("retention.max_runs", Registry.jf_string (retentionMax u))]).

(** The message goes away by a timer that nothing waits for.
    @src web/src/components/usage-section.tsx saveSettings *)
Definition saveSettings (rendered : usage_ui) : M unit :=
  do set (setSettingsMsg None);
  catch
    (res <~ fetch k_saved (save_request rendered);
     body <~ lift (rp_json res);
     if negb (rp_ok res) then fail (JsError EError (nullish body ("settings API returned " +:+ pretty (rp_status res))))
     else
       do set (setSettingsMsg (Some "saved"));
       do await k_timer;
       set (setSettingsMsg None))
    (fun err => set (setSettingsMsg (Some (err_message err)))).

(** ** What is rendered *)

Inductive usage_action := a_choose (key : string) | a_days | a_max | a_save.

Definition handler (a : usage_action) (typed : string) (rendered : usage_ui) : M unit :=
  match a with
  | a_choose key => choose key rendered
  | a_days => set (setRetentionDays typed)
  | a_max => set (setRetentionMax typed)
  | a_save => saveSettings rendered
  end.

(** [String] and [toLocaleString] of numbers, [toLocaleString] and
    [toLocaleTimeString] of dates, and [toFixed]. *)
Context (number locale : Q -> string) (locale_date locale_time : string -> string) (toFixed : nat -> Q -> string).
Local Abbreviation html := (html usage_action).

(** @src web/src/components/usage-section.tsx Stat *)
Definition Stat (label value sub : string) : html :=
  div "stat" ([div "label" [txt label]; div "num" [txt value]] ++ when (negb (String.eqb sub "")) [div "sub" [txt sub]]).

(** @src web/src/components/usage-section.tsx fmtDuration *)
Definition fmtDuration (sec : Z) : string :=
  if 3600 <=? sec then toFixed 1 (sec # 3600) +:+ "h"
  else if 60 <=? sec then pretty (sec / 60) +:+ "m " +:+ pretty (sec mod 60) +:+ "s"
  else pretty sec +:+ "s".

Definition nat_text (n : nat) : string := pretty (Z.of_nat n).

(** @src web/src/components/usage-section.tsx 128-147 UsageSection *)
Definition summary_view (s : UsageStats) : list html :=
  let r := Observability.runs s in
  let t := Observability.tokens s in
  let c := Observability.cost s in
  [div "stats"
     [Stat "running now" (nat_text (Observability.rc_running r))
        (nat_text (Observability.rc_healthy r) +:+ " healthy · " +:+ nat_text (Observability.rc_unhealthy r) +:+ " unhealthy");
      Stat "runs today" (nat_text (Observability.rc_today r)) (nat_text (Observability.rc_allTime r) +:+ " all time in range");
      Stat "stopped" (nat_text (Observability.rc_stopped r)) (nat_text (Observability.rc_failed r) +:+ " failed");
      Stat "containers" (nat_text (Observability.containers_current s)) (nat_text (Observability.containers_historical s) +:+ " historical runs")];
   div "stats"
     [Stat "tokens" (locale (Observability.tk_input t + Observability.tk_output t)%Q)
        (if Observability.tk_available t
         then locale (Observability.tk_input t) +:+ " in · " +:+ locale (Observability.tk_output t) +:+ " out · "
              +:+ locale (Observability.tk_reasoning t) +:+ " reasoning · " +:+ locale (Observability.tk_cache t) +:+ " cache"
         else "no usage recorded yet");
      Stat "cost (exact)" (if Observability.ct_exactAvailable c then "$" +:+ toFixed 6 (Observability.ct_exact c) else "n/a")
        (if Observability.ct_exactAvailable c then "from provider-reported pricing" else "none reported");
      Stat "cost (estimated)" (if Observability.ct_estimatedAvailable c then "$" +:+ toFixed 6 (Observability.ct_estimated c) else "n/a")
        "from token counts and reference pricing"]].

(** @src web/src/components/usage-section.tsx 149-174 UsageSection *)
Definition models_view (l : list Observability.model_entry) : list html :=
  match l with
  | [] => []
  | _ => [div "table-wrap" [table ["provider"; "model"; "runs"; "tokens in"; "tokens out"]
            (map (fun m => [txt (Observability.me_provider m); txt (Observability.me_model m); txt (nat_text (Observability.me_runs m));
                            txt (number (Observability.me_tokensIn m)); txt (number (Observability.me_tokensOut m))]) l)]]
  end.

(** @src web/src/components/usage-section.tsx 176-205 UsageSection *)
Definition active_view (l : list Observability.RunSummary) : list html :=
  match l with
  | [] => []
  | _ => [div "table-wrap" [table ["run"; "agent"; "sandbox"; "health"; "running since"; "elapsed"]
            (map (fun r => [txt (Observability.su_runId r); txt (Observability.su_agentKey r); txt (Observability.su_sandbox r);
                            span ("pill " +:+ (if String.eqb (Observability.su_health r) "ok" then "good" else "warn")) (Observability.su_health r);
                            txt (locale_date (Observability.su_startedAt r));
                            txt (match Observability.su_durationSec r with Some d => fmtDuration d | None => "…" end)]) l)]]
  end.

(** @src web/src/components/usage-section.tsx 207-231 UsageSection *)
Definition agents_view (l : list Observability.agent_entry) : list html :=
  match l with
  | [] => []
  | _ => [div "table-wrap" [table ["agent"; "runs"; "running"; "last run"]
            (map (fun a => [txt (Observability.ae_agentKey a); txt (nat_text (Observability.ae_runs a)); txt (nat_text (Observability.ae_running a));
                            txt (if truthy (Observability.ae_lastRunAt a) then locale_date (nullish (Observability.ae_lastRunAt a) "") else "-")]) l)]]
  end.

(** @src web/src/components/usage-section.tsx 232-253 UsageSection *)
Definition last_runs_view (r : Observability.run_counts) : html :=
  div "row"
    [box "div" [div "label" [txt "last successful run"];
                div "sub" [txt (match Observability.rc_lastSuccessful r with
                                | Some x => Observability.su_agentKey x +:+ " — " +:+ locale_date (Observability.su_startedAt x)
                                | None => "none" end)]];
     box "div" [div "label" [txt "last failed run"];
                div "sub" [txt (match Observability.rc_lastFailed r with
                                | Some x => Observability.su_agentKey x +:+ " — " +:+ locale_date (Observability.su_startedAt x)
                                    +:+ " (" +:+ nullish (Observability.su_exitReason x) "failed" +:+ ")"
                                | None => "none" end)]]].

(** @src web/src/components/usage-section.tsx 255-290 UsageSection *)
Definition retention_view (u : usage_ui) : html :=
  div "card"
    [box "h3" [txt "Retention"];
     para "muted" "History older than the retention window (or beyond the newest N runs) is pruned at the next daemon start. 0 = keep everything.";
     div "row"
       ([el "label" [("class", "sub")] None [txt "keep runs newer than "; el "input" [("value", retentionDays u)] (Some a_days) []; txt " days"];
         el "label" [("class", "sub")] None [txt "keep at most "; el "input" [("value", retentionMax u)] (Some a_max) []; txt " runs"];
         button "save" false a_save]
        ++ when (truthy (settingsMsg u)) [span "pill warn" (nullish (settingsMsg u) "")])].

(** @src web/src/components/usage-section.tsx 92-124 UsageSection *)
Definition heading_view (u : usage_ui) : list html :=
  [div "row"
     [box "h2" [txt "Usage "; span "badge" (match stats u with Some s => nat_text (Observability.rc_allTime (Observability.runs s)) | None => "…" end)];
      div "row" (map (fun p => el "button" [("class", "pill " +:+ (if String.eqb (preset u) (pe_key p) then "good" else ""))]
                                 (Some (a_choose (pe_key p))) [txt (pe_label p)]) PRESETS)];
   div "row"
     ([span ("pill " +:+ (if truthy (error u) then "bad" else "good"))
         (if truthy (error u) then nullish (error u) ""
          else match updated u with Some t => "aggregated " +:+ locale_time t | None => "collecting stats…" end)]
      ++ match stats u with
         | Some s => when (truthy (Observability.lastEvent s))
                       [span "pill" ("last recorded event " +:+ locale_date (nullish (Observability.lastEvent s) ""))]
         | None => []
         end)].

(** @src web/src/components/usage-section.tsx 90-297 UsageSection *)
Definition usage_view (u : usage_ui) : html :=
  box "section"
    (heading_view u
     ++ match stats u with
        | Some s => summary_view s ++ models_view (Observability.models s) ++ active_view (Observability.activeRuns s)
                    ++ agents_view (Observability.perAgent s) ++ [last_runs_view (Observability.runs s); retention_view u]
        | None => [div "not-found" [txt "collecting usage stats…"]]
        end).
End usage.

(** ** Properties *)

(** *** The ranges *)

(** East of UTC the local midnight falls on the day before in UTC, and the text of
    the date is that of UTC: "today" asks for the day before. *)
Theorem today_is_yesterday offset now : 0 < offset < DAY -> today offset now = (now + offset) / DAY - 1.
Proof.
  intros Ho. unfold today. set (d := (now + offset) / DAY).
  symmetry. apply (Z.div_unique _ _ _ (DAY - offset)); [left|]; unfold DAY in *; lia.
Qed.

(** West of UTC, and in UTC, it is the local day. *)
Theorem today_west offset now : - DAY < offset <= 0 -> today offset now = (now + offset) / DAY.
Proof.
  intros Ho. unfold today. set (d := (now + offset) / DAY).
  symmetry. apply (Z.div_unique _ _ _ (- offset)); [left|]; unfold DAY in *; lia.
Qed.

(** *** Interleaving *)
Section order.
Context (date_text : Z -> string) (offset loaded : Z).
Local Abbreviation page := (page usage_ui answer).
Local Abbreviation choose := (choose date_text offset loaded).
Local Abbreviation tick := (tick date_text offset loaded).
Local Abbreviation from_of key := (pe_from (selected date_text offset loaded (setPreset key initial))).

(** A refresh that waits; the answer is handled without a look at the range it was
    asked for. *)
Definition receive (r : result (reply UsageStats * string)) : prog usage_ui answer (result unit) :=
  match r with
  | Ok (res, now) =>
      if negb (rp_ok res) then Set_ (setError ("stats API returned " +:+ pretty (rp_status res))) (Done (Ok tt))
      else match rp_json res with
           | Ok st => Set_ (setStats st now) (Done (Ok tt))
           | Throw e => Set_ (setError (err_message e)) (Done (Ok tt))
           end
  | Throw e => Set_ (setError (err_message e)) (Done (Ok tt))
  end.

Definition is_refresh (p : M usage_ui answer unit) : Prop := exists cont, p = Await k_stats cont /\ forall r, cont r = receive r.

Lemma refresh_waits from s : exists p, advance (refresh from) s = (s, [o_send (stats_request from)], p) /\ is_refresh p.
Proof.
  eexists. split; [reflexivity|]. eexists. split; [reflexivity|]. intros [[res now]|e]; [|reflexivity]. cbn.
  destruct (rp_ok res); [|reflexivity]. cbn. by destruct (rp_json res).
Qed.

Lemma tick_waits u : exists p, advance (tick u) u = (u, [o_send (stats_request (from_of (preset u)))], p) /\ is_refresh p.
Proof. exact (refresh_waits (from_of (preset u)) u). Qed.

Lemma choose_waits key u : key <> preset u -> exists p,
  advance (choose key u) u = (setPreset key u, [o_send (stats_request (from_of key))], p) /\ is_refresh p.
Proof.
  intros Hk. apply String.eqb_neq in Hk. unfold UsagePage.choose. rewrite Hk.
  exact (refresh_waits (from_of key) (setPreset key u)).
Qed.

(** The range a request asks for, read from its address. *)
Definition range_asked (rq : page_request) : option string :=
  let prefix := "/api/local/v1/stats?from=" in
  if js_startsWith (pq_url rq) prefix then Some (js_drop (String.length prefix) (pq_url rq)) else None.

(** An answer to a request: if it brings statistics, they are those of the range the
    request asks for. *)
Definition honest (rq : page_request) (a : forall k, result (answer k)) : Prop := forall res now st,
  a k_stats = Ok (res, now) -> rp_json res = Ok st -> Observability.sr_from (Observability.stats_range st) = range_asked rq.

(** What the page sent from one state to another. *)
Definition sent_since (pg pg' : page) : list page_request :=
  omap (fun o => match o with o_send rq => Some rq | _ => None end) (drop (length (outs pg)) (outs pg')).

(** The page when the network answers in the order of the requests: the list holds
    the requests it sent that are not answered yet.  The buttons are those of the
    presets. *)
Inductive in_order : page -> list page_request -> Prop :=
| io_mount pg : pg = step (mkPage initial [] []) (ev_start tick) -> in_order pg (sent_since (mkPage initial [] []) pg)
| io_tick pg rqs pg' : in_order pg rqs -> pg' = step pg (ev_start tick) -> in_order pg' (rqs ++ sent_since pg pg')
| io_choose pg rqs pg' e : in_order pg rqs -> e ∈ PRESETS date_text offset loaded ->
    pg' = step pg (ev_start (choose (pe_key e))) -> in_order pg' (rqs ++ sent_since pg pg')
| io_answer pg rq rqs a : in_order pg (rq :: rqs) -> honest rq a -> in_order (step pg (ev_answer 0 a)) rqs.

Definition current (from : option string) (u : usage_ui) : Prop :=
  error u = None -> forall st, stats u = Some st -> Observability.sr_from (Observability.stats_range st) = from.

Lemma receive_current rq a u : honest rq a ->
  exists u', advance (receive (a k_stats)) u = (u', [], Done (Ok tt)) /\ preset u' = preset u /\ current (range_asked rq) u'.
Proof.
  intros Ha. unfold receive. specialize (Ha : forall res now st, _). destruct (a k_stats) as [[res now]|e] eqn:Hr.
  - destruct (rp_ok res); cbn [negb]; [|by eexists; split_and!]. destruct (rp_json res) as [st|e] eqn:Hj; [|by eexists; split_and!].
    eexists. split_and!; [reflexivity|done|]. intros _ st' [= <-]. by apply (Ha res now st).
  - by eexists; split_and!.
Qed.

Hypothesis date_written : forall d, date_text d <> "".

(** A request carries the date it was made for. *)
Lemma range_asked_stats from : from <> Some "" -> range_asked (stats_request from) = from.
Proof.
  intros Hne. destruct from as [f|]; [|done]. unfold stats_request. destruct (truthy (Some f)) eqn:Ht.
  - unfold range_asked. cbn [pq_url get nullish from_option id].
    change ("/api/local/v1/stats" +:+ "?from=" +:+ f) with ("/api/local/v1/stats?from=" +:+ f).
    by rewrite startsWith_app, Prelude.drop_app_length.
  - destruct f; [done|by cbn in Ht].
Qed.

Lemma from_written key : from_of key <> Some "".
Proof.
  unfold selected. destruct (List.find _ _) as [e|] eqn:Hf; [|done]. apply List.find_some in Hf as [Hin _].
  cbn in Hin. destruct Hin as [<-|[<-|[<-|[<-|[]]]]]; cbn; [done|..]; intros [= Hd]; by apply date_written in Hd.
Qed.

(** With requests waiting, the last of them asks for the range of the preset that is
    selected; with none, what is shown is of that range. *)
Definition asks_current (pg : page) (rqs : list page_request) : Prop :=
  length (tasks pg) = length rqs /\ Forall is_refresh (tasks pg) /\ preset (ui pg) ∈ map pe_key (PRESETS date_text offset loaded) /\
  match list.last rqs with
  | Some rq => range_asked rq = from_of (preset (ui pg))
  | None => current (from_of (preset (ui pg))) (ui pg)
  end.

(** A handler that sends one request for the selected range and waits. *)
Lemma refresh_asks handler pg u' from p rqs :
  length (tasks pg) = length rqs -> Forall is_refresh (tasks pg) ->
  advance (handler (ui pg)) (ui pg) = (u', [o_send (stats_request from)], p) -> is_refresh p ->
  preset u' ∈ map pe_key (PRESETS date_text offset loaded) -> from = from_of (preset u') ->
  let pg' := step pg (ev_start handler) in asks_current pg' (rqs ++ sent_since pg pg').
Proof.
  intros Hlen Hall Ha Hr Hpre Hf pg'. subst pg'. unfold step. rewrite Ha. destruct Hr as (cont & -> & Hc).
  unfold asks_current, sent_since. cbn [waiting tasks ui outs]. rewrite list.drop_app_length. cbn [omap list_omap].
  rewrite !length_app, Hlen, list.last_snoc. split_and!; [done| |done|].
  - apply Forall_app. split; [done|]. constructor; [by eexists|constructor].
  - rewrite Hf. apply range_asked_stats, from_written.
Qed.

Lemma in_order_inv pg rqs : in_order pg rqs -> asks_current pg rqs.
Proof.
  induction 1 as [pg ->|pg rqs pg' H (Hlen & Hall & Hin & Hlast) ->|pg rqs pg' e H (Hlen & Hall & Hin & Hlast) He ->|pg rq rqs a H (Hlen & Hall & Hin & Hlast) Ha].
  - destruct (tick_waits initial) as (p & Hp & Hr). eapply (refresh_asks tick (mkPage initial [] []) initial _ p []); try done. by left.
  - destruct (tick_waits (ui pg)) as (p & Hp & Hr). by eapply refresh_asks.
  - destruct (decide (pe_key e = preset (ui pg))) as [Hk|Hk].
    + unfold step, UsagePage.choose, sent_since. rewrite Hk, String.eqb_refl. cbn [advance ret outs waiting tasks ui].
      rewrite list.drop_app_length. cbn [omap list_omap]. rewrite !app_nil_r. done.
    + destruct (choose_waits (pe_key e) (ui pg) Hk) as (p & Hp & Hr). eapply refresh_asks; try done. cbn [setPreset preset]. by apply (list_elem_of_fmap_2 pe_key).
  - destruct (tasks pg) as [|p ps] eqn:Ht; [done|]. apply Forall_cons in Hall as [(cont & -> & Hc) Hall].
    destruct (receive_current rq a (ui pg) Ha) as (u' & Hadv & Hpre & Hcur).
    unfold step. rewrite Ht. cbn [lookup list_lookup]. rewrite Hc, Hadv. unfold asks_current. cbn [take drop app waiting tasks ui].
    rewrite Hpre. split_and!; [by injection Hlen|done|done|]. destruct rqs as [|r rqs].
    + cbn [list.last] in *. by rewrite <- Hlast.
    + rewrite list.last_cons in Hlast. destruct (list.last (r :: rqs)) eqn:Hl; [exact Hlast|by apply list.last_None in Hl].
Qed.

Lemma selected_preset key : key ∈ map pe_key (PRESETS date_text offset loaded) ->
  exists e, e ∈ PRESETS date_text offset loaded /\ pe_key e = key /\ from_of key = pe_from e.
Proof.
  unfold selected. cbn [setPreset preset]. intros (e0 & Hk & Hin)%list_elem_of_fmap.
  destruct (List.find _ _) as [e|] eqn:Hf.
  - apply List.find_some in Hf as [Hin' Hk'%String.eqb_eq]. exists e. split_and!; [by apply list_elem_of_In|done|done].
  - pose proof (List.find_none _ _ Hf e0 (proj1 (list_elem_of_In _ _) Hin)) as Hn. cbn in Hn. by rewrite Hk, String.eqb_refl in Hn.
Qed.

(** C30: When the network answers in order, what is shown is what was asked for last:
    with every request answered and no error shown, the statistics are of the range
    of the preset that is selected, however often it was changed before.  An answer
    that brings statistics is only assumed to be of the range that its own request
    names.  (Storing the retention settings is left out; a date is never an empty
    text.) *)
Theorem in_order_shows_preset pg st : in_order pg [] -> error (ui pg) = None -> stats (ui pg) = Some st ->
  exists e, e ∈ PRESETS date_text offset loaded /\ pe_key e = preset (ui pg) /\
            Observability.sr_from (Observability.stats_range st) = pe_from e.
Proof.
  intros H He Hs. destruct (in_order_inv pg [] H) as (_ & _ & Hp & Hc). destruct (selected_preset _ Hp) as (e & Hin & Hk & Hf).
  exists e. split_and!; [done|done|]. rewrite <- Hf. by apply Hc.
Qed.

(** Nothing orders them: an answer to the request of the preset before, when it comes
    last, replaces the statistics of the one that is selected. *)
Theorem earlier_preset_overwrites key (a b : forall k, result (answer k)) sa sb ta tb :
  key <> "all" -> a k_stats = Ok (mkReply 200 (Ok sa), ta) -> b k_stats = Ok (mkReply 200 (Ok sb), tb) ->
  let pg := run (mkPage initial [] []) [ev_start tick; ev_start (choose key); ev_answer 1 b; ev_answer 0 a] in
  preset (ui pg) = key /\ stats (ui pg) = Some sa /\ error (ui pg) = None /\ tasks pg = [].
Proof.
  intros Hk Ha Hb. unfold run. cbn [fold_left].
  assert (H1 : exists p, is_refresh p /\ step (mkPage initial [] []) (ev_start tick) =
    mkPage initial [p] [o_send (stats_request (from_of "all"))]).
  { destruct (tick_waits initial) as (p & Hp & Hr). exists p. split; [done|]. unfold step. cbn [ui]. rewrite Hp. by destruct Hr as (cont & -> & Hc). }
  destruct H1 as (p & Hp & ->). destruct (choose_waits key initial Hk) as (q & Hq & Hqr).
  assert (H2 : exists l, step (mkPage initial [p] [o_send (stats_request (from_of "all"))]) (ev_start (choose key)) =
    mkPage (setPreset key initial) [p; q] l) by (eexists; unfold step; cbn [ui]; rewrite Hq; by destruct Hqr as (c2 & -> & _)).
  destruct H2 as [l ->].
  assert (H3 : step (mkPage (setPreset key initial) [p; q] l) (ev_answer 1 b) =
    mkPage (setStats sb tb (setPreset key initial)) [p] (l ++ [])) by (destruct Hqr as (c2 & -> & Hc2); unfold step; cbn; by rewrite Hc2, Hb).
  rewrite H3. destruct Hp as (c1 & -> & Hc1). unfold step. cbn [tasks lookup list_lookup ui]. by rewrite Hc1, Ha.
Qed.
End order.

(** *** The local API *)
Section guard.
Context (url_host : string -> option string).

(** A request of the page as it reaches the server: the browser adds the host, and
    the origin to what is not a GET; [base] is the address of the dashboard. *)
Definition pathname (url : string) : string := (js_span (fun c => negb (Ascii.eqb c "?")) url).1.
Definition as_request (host base : string) (rq : page_request) : LocalApi.request :=
  LocalApi.mkReq (pq_method rq) (pathname (pq_url rq))
    (("host", host) :: (if String.eqb (pq_method rq) "GET" then [] else [("origin", base)]) ++ pq_headers rq).

(** What the guard makes of the requests of this component. *)
Definition usage_requests (rq : page_request) : Prop :=
  (exists from, rq = stats_request from) \/ rq = settings_request \/ exists u, rq = save_request u.

Lemma stats_pathname from : pathname (pq_url (stats_request from)) = "/api/local/v1/stats".
Proof. unfold stats_request, pathname. cbn. by destruct (truthy from). Qed.

(** A daemon is started with the token of the installation, which is never empty, and
    its guard asks for it.  The dashboard sends no token: each of its requests to the
    local API is refused, whatever the host and the origin. *)
Theorem dashboard_requests_refused file random host base rq :
  random <> "" -> mem_str (LocalApi.hostnameOf host) LocalApi.SAFE_HOSTNAMES = true -> usage_requests rq ->
  LocalApi.admitted (ControlPlane.readToken file random).1 url_host (as_request host base rq) = LocalApi.v_refuse 401 "unauthorized".
Proof.
  intros Hr Hh Hrq. assert (Ht : String.eqb (ControlPlane.readToken file random).1 "" = false).
  { apply String.eqb_neq. unfold ControlPlane.readToken. destruct file as [raw|]; [|done].
    destruct (Nat.leb_spec 16 (String.length (js_trim raw))) as [Hl|Hl]; [|done]. cbn [fst]. intros He. rewrite He in Hl. cbn in Hl. lia. }
  assert (Hp : (pathname (pq_url rq) = "/api/local/v1/stats" \/ pathname (pq_url rq) = "/api/local/v1/settings") /\ obj_get "authorization" (pq_headers rq) = None).
  { destruct Hrq as [[from ->]|[->|[u ->]]]; (split; [|done]); [left; apply stats_pathname|by right|by right]. }
  destruct Hp as [Hp Ha].
  assert (Hauth : LocalApi.header "authorization" (as_request host base rq) = None).
  { unfold LocalApi.header, as_request. cbn [LocalApi.rq_headers]. by destruct (String.eqb (pq_method rq) "GET"). }
  unfold LocalApi.admitted. assert (Hm : LocalApi.matched (pathname (pq_url rq)) = true) by (by destruct Hp as [-> | ->]).
  unfold as_request at 1. cbn [LocalApi.rq_path]. rewrite Hm. unfold LocalApi.middleware.
  change (LocalApi.header "host" (as_request host base rq)) with (Some host). cbn [nullish from_option id]. rewrite Hh. cbn [negb].
  change (LocalApi.rq_path (as_request host base rq)) with (pathname (pq_url rq)).
  assert (Hpub : mem_str (pathname (pq_url rq)) LocalApi.PUBLIC_PATHS = false) by (by destruct Hp as [-> | ->]).
  rewrite Hpub, Ht, Hauth. rewrite bool_decide_eq_false_2 by done. done.
Qed.

(** So the section never shows any statistics under the daemon: each refresh ends with
    the error, and leaves what was shown. *)
Theorem refresh_under_daemon (net : list out -> forall k, result (answer k)) file random host base from u l :
  random <> "" -> mem_str (LocalApi.hostnameOf host) LocalApi.SAFE_HOSTNAMES = true ->
  (forall h rq status e, LocalApi.admitted (ControlPlane.readToken file random).1 url_host (as_request host base rq) = LocalApi.v_refuse status e ->
     exists body now, net (h ++ [o_send rq]) k_stats = Ok (mkReply status body, now)) ->
  let '(u', _, r) := solo net (refresh from) u l in
  r = Ok tt /\ stats u' = stats u /\ error u' = Some "stats API returned 401".
Proof.
  intros Hr Hh Hnet.
  destruct (Hnet l (stats_request from) 401 "unauthorized") as (body & now & Ha).
  { apply dashboard_requests_refused; [done|done|]. left. by exists from. }
  unfold refresh. autorewrite with page. rewrite Ha. cbn. done.
Qed.
End guard.

(** ** Witnesses *)

(** Statistics of all time, and an answer that brings them. *)
Definition demo_stats : UsageStats :=
  match Observability.demo_stats "running" 0 with
  | Ok st => st
  | Throw _ => Observability.mkStats "" None Observability.whole (Observability.mkCounts 0 0 0 0 0 0 0 None None) 0 0
                 (Observability.mkTokens 0 0 0 0 false) (Observability.mkCosts 0 0 false false) [] [] [] []
  end.
Definition demo_answer (k : ukind) : result (answer k) :=
  match k with
  | k_stats => Ok (mkReply 200 (Ok demo_stats), "now")
  | k_settings => Ok (mkReply 200 (Ok []))
  | k_saved => Ok (mkReply 200 (Ok None))
  | k_timer => Ok tt
  end.

(** The page is opened, the preset "today" chosen, and both requests answered in
    their order: the first answer brings the statistics of all time, the second those
    of the day. *)
Definition today_stats : UsageStats :=
  let r := Observability.stats_range demo_stats in
  Observability.mkStats (Observability.generatedAt demo_stats) (Observability.lastEvent demo_stats)
    (Observability.mkRange (Some "2026-01-05") (Observability.sr_to r) (Observability.sr_agent r)) (Observability.runs demo_stats)
    (Observability.containers_current demo_stats) (Observability.containers_historical demo_stats) (Observability.tokens demo_stats)
    (Observability.cost demo_stats) (Observability.models demo_stats) (Observability.sandboxes demo_stats)
    (Observability.perAgent demo_stats) (Observability.activeRuns demo_stats).
Definition today_answer (k : ukind) : result (answer k) :=
  match k with k_stats => Ok (mkReply 200 (Ok today_stats), "later") | k => demo_answer k end.

Lemma in_order_shows_preset_witness :
  let date _ := "2026-01-05" in
  let pg := run (mkPage initial [] []) [ev_start (tick date 0 0); ev_start (choose date 0 0 "today"); ev_answer 0 demo_answer; ev_answer 0 today_answer] in
  stats (ui pg) = Some today_stats /\ exists e, e ∈ PRESETS date 0 0 /\ pe_key e = "today" /\ Some "2026-01-05" = pe_from e.
Proof.
  intros date pg. split; [vm_compute; reflexivity|].
  apply (in_order_shows_preset date 0 0 (fun _ H => ltac:(discriminate H)) pg today_stats); [|vm_compute; reflexivity..].
  eapply (io_answer date 0 0 _ (stats_request (Some "2026-01-05")) []); [|intros res now st [= <- <-] [= <-]; vm_compute; reflexivity].
  eapply (io_answer date 0 0 _ (stats_request None)); [|intros res now st [= <- <-] [= <-]; vm_compute; reflexivity].
  exact (io_choose date 0 0 _ _ _ (mkPreset "today" "today" (Some "2026-01-05"))
           (io_mount date 0 0 _ eq_refl) ltac:(right; left) eq_refl).
Defined.
End UsagePage.
