(* ===== verification/PublisherPages.v ===== *)
(** Three pages that talk to the registry through the proxy of the web application:
    the publisher console [web/src/components/publisher-console.tsx], the review queue
    [web/src/components/admin-review-panel.tsx] and the approval of a device
    [web/src/app/device/authorize.tsx]. *)
From S2P Require Import Prelude Registry LocalApi Page.

Module PublisherPages.
Import Page.
Local Open Scope Z_scope.
Local Open Scope page_scope.

Definition json_header : obj string := [("Content-Type", "application/json")].

(** The states of a page that loads one thing: it is loading, nobody is signed in, it
    failed, or it has what it loaded.
    @src web/src/components/publisher-console.tsx State *)
Inductive load_state (T : Type) := ls_loading | ls_anon | ls_error (message : string) | ls_ready (x : T).
#[global] Arguments ls_loading {T}.
#[global] Arguments ls_anon {T}.
#[global] Arguments ls_error {T} _.
#[global] Arguments ls_ready {T} _.

(** ** The publisher console *)

(** @src web/src/components/publisher-console.tsx PublisherOverview *)
Record PublisherOverview := mkOverview {
  namespaceCount : Z; packageCount : Z; keyCount : Z; activeSessions : Z; publishesUsed : Z; publishesLimit : Z;
  publishesUnlimited : bool; pendingScans : Z; flaggedVersions : Z;
}.

(** @src web/src/components/publisher-console.tsx PackageSummary *)
Record PackageSummary := mkPackage {
  pk_namespace : string; pk_name : string; pk_version : string; pk_digest : string; pk_author : string; pk_description : string;
  pk_license : string; pk_publishedAt : string; pk_downloads : Z; pk_trust : string; pk_reviewStatus : string;
  pk_securityStatus : string; pk_yanked : bool; pk_blocked : option string; pk_signerFingerprint : option string;
}.

(** The details of an activity are not shown and left out.
    @src web/src/components/publisher-console.tsx ActivityItem *)
Record ActivityItem := mkActivity { ac_action : string; ac_createdAt : string }.

Definition console := (PublisherOverview * list PackageSummary * list ActivityItem)%type.

(** What the page waits for: the three replies together, or the first failure. *)
Inductive ckind := k_console.
Definition canswer (k : ckind) : Type := reply PublisherOverview * reply (list PackageSummary) * reply (list ActivityItem).

Definition overview_request : page_request := get "/api/registry/me/overview".
Definition packages_request : page_request := get "/api/registry/me/packages".
Definition activity_request : page_request := get "/api/registry/me/activity".

(** The state of the component is one [load_state].
    @src web/src/components/publisher-console.tsx refresh *)
Definition console_refresh : M (load_state console) canswer unit :=
  do set (fun _ => ls_loading);
  catch
    (do send overview_request; do send packages_request; do send activity_request;
     rs <~ await k_console;
     let '(ov, pk, ac) := rs in
     if (rp_status ov =? 401) || (rp_status pk =? 401) || (rp_status ac =? 401) then set (fun _ => ls_anon)
     else if negb (rp_ok ov) || negb (rp_ok pk) || negb (rp_ok ac) then
       fail (JsError EError ("publisher API returned " +:+ pretty (rp_status ov) +:+ "/" +:+ pretty (rp_status pk) +:+ "/" +:+ pretty (rp_status ac)))
     else
       overview <~ lift (rp_json ov);
       packages <~ lift (rp_json pk);
       activity <~ lift (rp_json ac);
       set (fun _ => ls_ready (overview, packages, activity)))
    (fun err => set (fun _ => ls_error (err_message err))).

(** @src web/src/components/publisher-console.tsx 138-138 blocked *)
Definition is_blocked (p : PackageSummary) : bool := pk_yanked p || truthy (pk_blocked p).

(** @src web/src/components/publisher-console.tsx 139-139 pending *)
Definition is_pending (p : PackageSummary) : bool :=
  String.eqb (pk_reviewStatus p) "pending" || String.eqb (pk_securityStatus p) "flagged".

Section console_view.
Context (toLocaleString : string -> string) (signIn : string).
Local Abbreviation html := (html unit).

Definition package_name (p : PackageSummary) : html := inline (pk_namespace p +:+ "/" +:+ pk_name p).

(** @src web/src/components/publisher-console.tsx 172-204 PublisherConsole *)
Definition attention_view (l : list PackageSummary) : list html :=
  match List.filter is_pending l with
  | [] => []
  | pending => [div "content-block" [box "h2" [txt "Needs attention"];
      table ["Package"; "Version"; "Review"; "Security"; "Published"]
        (map (fun p => [package_name p; txt (pk_version p);
                        span ("pill " +:+ (if String.eqb (pk_reviewStatus p) "pending" then "warn" else "good")) (pk_reviewStatus p);
                        span ("pill " +:+ (if String.eqb (pk_securityStatus p) "flagged" then "bad" else "warn")) (pk_securityStatus p);
                        txt (toLocaleString (pk_publishedAt p))]) pending)]]
  end.

(** @src web/src/components/publisher-console.tsx 206-230 PublisherConsole *)
Definition blocked_view (l : list PackageSummary) : list html :=
  match List.filter is_blocked l with
  | [] => []
  | blocked => [div "content-block" [box "h2" [txt "Suspended or revoked"];
      table ["Package"; "Version"; "Reason"]
        (map (fun p => [package_name p; txt (pk_version p);
                        span "muted" (nullish (pk_blocked p) (if pk_yanked p then "yanked" else "—"))]) blocked)]]
  end.

(** @src web/src/components/publisher-console.tsx 232-273 PublisherConsole *)
Definition packages_view (l : list PackageSummary) : html :=
  div "content-block"
    [box "h2" [txt "Packages"];
     match l with
     | [] => para "muted" "You have not published any agents yet."
     | _ => table ["Package"; "Version"; "Downloads"; "Review"; "Security"; ""]
        (map (fun p => [package_name p; txt (pk_version p); txt (pretty (pk_downloads p));
            span ("pill " +:+ (if String.eqb (pk_reviewStatus p) "verified" then "good"
                               else if String.eqb (pk_reviewStatus p) "pending" then "warn" else "bad")) (pk_reviewStatus p);
            span ("pill " +:+ (if String.eqb (pk_securityStatus p) "clean" then "good" else "bad")) (pk_securityStatus p);
            box "" (when (pk_yanked p) [span "pill bad" "yanked"] ++ when (truthy (pk_blocked p)) [span "pill bad" "blocked"])]) l)
     end].

(** @src web/src/components/publisher-console.tsx 142-170 PublisherConsole *)
Definition overview_view (o : PublisherOverview) : html :=
  let stat n label := div "stat" [div "num" [txt (pretty n)]; div "label" [txt label]] in
  div "hero"
    [span "eyebrow" "Publisher Console"; box "h1" [txt "Your agents"];
     div "stats" [stat (packageCount o) "Packages"; stat (namespaceCount o) "Namespaces"; stat (keyCount o) "Signing keys";
                  stat (pendingScans o) "Pending scans"];
     para "muted" ((if publishesUnlimited o then "Unlimited publishes in the last 24 hours."
                    else pretty (publishesUsed o) +:+ " of " +:+ pretty (publishesLimit o) +:+ " publishes in the last 24 hours.")
                   +:+ (if 0 <? flaggedVersions o then " " +:+ pretty (flaggedVersions o) +:+ " flagged version(s)." else ""))].

(** The only action is to load again, which the page offers after a failure.
    @src web/src/components/publisher-console.tsx 93-290 PublisherConsole *)
Definition console_view (s : load_state console) : html :=
  let hero kids := box "main" [div "hero" (span "eyebrow" "Publisher" :: kids)] in
  match s with
  | ls_loading => hero [box "h1" [txt "Your publishing dashboard"]; para "muted" "Loading…"]
  | ls_anon => hero [box "h1" [txt "Sign in to publish"];
      box "p" [txt "Sign in with GitHub to manage your published agents, security scans, and installs."];
      div "row" [link "Sign in with GitHub" signIn]]
  | ls_error message => hero [box "h1" [txt "Could not load"]; para "pill bad" message; button "Retry" false tt]
  | ls_ready (overview, packages, activity) =>
      box "main" (overview_view overview :: attention_view packages ++ blocked_view packages
        ++ [packages_view packages;
            div "content-block" [box "h2" [txt "Recent activity"];
              match activity with
              | [] => para "muted" "No recent activity."
              | _ => box "ul" (map (fun a => el "li" [("class", "muted")] None
                       [inline (ac_action a); txt (" — " +:+ toLocaleString (ac_createdAt a))]) activity)
              end]])
  end.
End console_view.

(** ** The review queue *)

(** @src web/src/components/admin-review-panel.tsx ReviewQueueItem *)
Record ReviewQueueItem := mkItem {
  it_id : Z; it_namespace : string; it_name : string; it_version : string; it_digest : string; it_publishedAt : string;
  it_publisher : string; it_signerFingerprint : option string; it_reviewStatus : string; it_securityStatus : string;
  it_riskScore : Z; it_permissions : list string; it_secrets : list string; it_downloads : Z;
}.

(** What was chosen and typed for an item. *)
Record choice := mkChoice { ch_action : string; ch_reason : string }.

(** The states of the component; [actions] is keyed by the item's id.
    @src web/src/components/admin-review-panel.tsx 28-30 AdminReviewPanel *)
Record review_ui := mkReview { rv_state : load_state (list ReviewQueueItem); rv_actions : gmap Z choice }.

Definition set_state x u := mkReview x (rv_actions u).

Inductive rkind := k_queue | k_reviewed.
Definition ranswer (k : rkind) : Type :=
  match k with k_queue => reply (list ReviewQueueItem) | k_reviewed => reply (option string) end.

Definition queue_request : page_request := get "/api/registry/admin/review-queue".

(** @src web/src/components/admin-review-panel.tsx refresh *)
Definition review_refresh : M review_ui ranswer unit :=
  do set (set_state ls_loading);
  catch
    (res <~ fetch k_queue queue_request;
     if (rp_status res =? 401) || (rp_status res =? 403) then set (set_state ls_anon)
     else if negb (rp_ok res) then fail (JsError EError ("review queue API returned " +:+ pretty (rp_status res)))
     else
       items <~ lift (rp_json res);
       set (set_state (ls_ready items)))
    (fun err => set (set_state (ls_error (err_message err)))).

Definition review_request (item : ReviewQueueItem) (c : choice) : page_request :=
  mkPageReq "POST" ("/api/registry/admin/agents/" +:+ it_namespace item +:+ "/" +:+ it_name item +:+ "/versions/" +:+ it_version item +:+ "/review")
    json_header
    (Registry.rb_json [("action", Registry.jf_string (ch_action c));
                       ("reason", Registry.jf_string (if String.eqb (ch_reason c) "" then "no reason given" else ch_reason c))]).

(** @src web/src/components/admin-review-panel.tsx submit *)
Definition submit (rendered : review_ui) (item : ReviewQueueItem) : M review_ui ranswer unit :=
  match rv_actions rendered !! it_id item with
  | None => ret tt
  | Some chosen =>
      if String.eqb (ch_action chosen) "" then ret tt
      else
        res <~ fetch k_reviewed (review_request item chosen);
        if negb (rp_ok res) then
          body <~ catch (lift (rp_json res)) (fun _ => ret None);
          alert ("Review failed: " +:+ nullish body (pretty (rp_status res)))
        else review_refresh
  end.

Definition chosen_of (u : review_ui) (id : Z) : choice := nullish (rv_actions u !! id) (mkChoice "" "").

(** @src web/src/components/admin-review-panel.tsx 155-155 onChange *)
Definition choose_action (id : Z) (value : string) (u : review_ui) : review_ui :=
  mkReview (rv_state u) (<[id := mkChoice value (ch_reason (chosen_of u id))]> (rv_actions u)).

(** @src web/src/components/admin-review-panel.tsx 170-170 onChange *)
Definition type_reason (id : Z) (value : string) (u : review_ui) : review_ui :=
  mkReview (rv_state u) (<[id := mkChoice (ch_action (chosen_of u id)) value]> (rv_actions u)).

Inductive review_action := ra_retry | ra_choose (id : Z) | ra_reason (id : Z) | ra_submit (item : ReviewQueueItem).

Definition review_handler (a : review_action) (typed : string) (rendered : review_ui) : M review_ui ranswer unit :=
  match a with
  | ra_retry => review_refresh
  | ra_choose id => set (choose_action id typed)
  | ra_reason id => set (type_reason id typed)
  | ra_submit item => submit rendered item
  end.

Section review_view.
Context (toLocaleString : string -> string).
Local Abbreviation html := (html review_action).

Definition names_view (label : string) (l : list string) : list html :=
  match l with [] => [] | _ => [el "p" [("class", "muted")] None (txt label :: map inline l)] end.

(** @src web/src/components/admin-review-panel.tsx 124-176 AdminReviewPanel *)
Definition item_view (u : review_ui) (i : ReviewQueueItem) : html :=
  div "content-block"
    ([div "row"
        [box "h2" [inline (it_namespace i +:+ "/" +:+ it_name i); span "muted" ("@" +:+ it_version i)];
         span ("pill " +:+ (if 80 <=? it_riskScore i then "bad" else if 40 <=? it_riskScore i then "warn" else "good"))
           ("risk " +:+ pretty (it_riskScore i))];
      el "p" [("class", "muted")] None
        [txt "Published by "; inline (it_publisher i); txt (" · " +:+ toLocaleString (it_publishedAt i) +:+ " · ");
         txt (pretty (it_downloads i) +:+ " downloads")];
      box "p"
        [txt "Review: "; span ("pill " +:+ (if String.eqb (it_reviewStatus i) "pending" then "warn" else "good")) (it_reviewStatus i);
         txt "Security: "; span ("pill " +:+ (if String.eqb (it_securityStatus i) "flagged" then "bad" else "good")) (it_securityStatus i)]]
     ++ names_view "Permissions: " (it_permissions i) ++ names_view "Secrets: " (it_secrets i)
     ++ [div "row"
           [el "select" [("value", ch_action (chosen_of u (it_id i)))] (Some (ra_choose (it_id i)))
              (map (fun vl => el "option" [("value", fst vl)] None [txt (snd vl)])
                 [("", "Action…"); ("verify", "Verify"); ("warning", "Warn"); ("request", "Request changes"); ("reject", "Reject"); ("revoke", "Revoke")]);
            el "input" [("value", ch_reason (chosen_of u (it_id i)))] (Some (ra_reason (it_id i))) [];
            button "Submit review" (String.eqb (ch_action (chosen_of u (it_id i))) "") (ra_submit i)]]).

(** @src web/src/components/admin-review-panel.tsx 69-180 AdminReviewPanel *)
Definition review_view (u : review_ui) : html :=
  let hero kids := div "hero" (span "eyebrow" "Admin" :: kids) in
  match rv_state u with
  | ls_loading => box "main" [hero [box "h1" [txt "Review queue"]; para "muted" "Loading…"]]
  | ls_anon => box "main" [hero [box "h1" [txt "Reviewers only"];
                 box "p" [txt "You need a reviewer or admin account to access the review queue."]]]
  | ls_error message => box "main" [hero [box "h1" [txt "Could not load"]; para "pill bad" message; button "Retry" false ra_retry]]
  | ls_ready items =>
      box "main"
        (hero [box "h1" [txt "Review queue"]; para "muted" (pretty (Z.of_nat (length items)) +:+ " version(s) awaiting review.")]
         :: match items with
            | [] => [div "content-block" [para "muted" "Nothing pending. All versions have been reviewed."]]
            | _ => map (item_view u) items
            end)
  end.
End review_view.

(** ** Approving a device *)

(** @src web/src/app/device/authorize.tsx 9-11 DeviceBody *)
Record device_ui := mkDevice { dv_approving : bool; dv_result : option string; dv_error : option string }.

Inductive dkind := k_approve.
(** The fields [ok] and [error] of the body. *)
Definition danswer (k : dkind) : Type := reply (option bool * option string).

Section device.
Context (encodeURIComponent : string -> string).

Definition approve_request (userCode : string) : page_request :=
  mkPageReq "POST" ("/api/device/approve?user_code=" +:+ encodeURIComponent userCode) [] Registry.rb_none.

Definition approved_text : string := "Device authorized. Your terminal will finish signing in momentarily.".

(** @src web/src/app/device/authorize.tsx approve *)
Definition approve (userCode : option string) : M device_ui danswer unit :=
  if negb (truthy userCode) then ret tt
  else
    do set (fun u => mkDevice true (dv_result u) None);
    finally
      (catch
        (res <~ fetch k_approve (approve_request (nullish userCode ""));
         body <~ lift (rp_json res);
         let '(ok, error) := body in
         if rp_ok res && bool_decide (ok = Some true) then set (fun u => mkDevice (dv_approving u) (Some approved_text) (dv_error u))
         else set (fun u => mkDevice (dv_approving u) (dv_result u)
                     (Some (nullish error ("approval failed (" +:+ pretty (rp_status res) +:+ ")")))))
        (fun err => set (fun u => mkDevice (dv_approving u) (dv_result u) (Some (err_message err)))))
      (fun u => mkDevice false (dv_result u) (dv_error u)).

(** The form goes to the page of the code that was typed.
    @src web/src/app/device/authorize.tsx 47-51 onSubmit *)
Definition submit_code (input : string) : M device_ui danswer unit :=
  goto ("/device?user_code=" +:+ encodeURIComponent (js_trim input)).

Inductive device_action := da_submit | da_approve | da_sign_in.

(** [shown] is the code in upper case.
    @src web/src/app/device/authorize.tsx 35-95 DeviceBody *)
Definition device_view (toUpperCase : string -> string) (userCode : option string) (u : device_ui) : html device_action :=
  box "main"
    [div "hero"
      ([span "eyebrow" "Account"; box "h1" [txt "Authorize a device"];
        box "p" [txt "A CLI device is waiting for your approval. Enter the 6-character code shown in the terminal, or it is already filled in from the link you opened."];
        el "form" [] (Some da_submit)
          [box "label" [txt "6-character code"];
           el "input" [("maxLength", "6"); ("defaultValue", nullish userCode "")] None [];
           div "row" [el "button" [("type", "submit")] None [txt "Continue"]]]]
       ++ when (truthy userCode)
            [box "div"
              ([el "p" [("class", "stack")] None [txt "Code "; box "strong" [txt (toUpperCase (nullish userCode ""))]]]
               ++ when (truthy (dv_result u)) [para "muted" (nullish (dv_result u) "")]
               ++ when (truthy (dv_error u)) [para "pill bad" (nullish (dv_error u) "")]
               ++ [div "row" (when (negb (truthy (dv_result u)))
                     [button (if dv_approving u then "Authorizing…" else "Approve this device") (dv_approving u) da_approve])]
               ++ when (negb (truthy (dv_result u)))
                    [el "p" [("class", "muted")] None [txt "Not signed in? "; el "a" [("href", "#")] (Some da_sign_in) [txt "Sign in with GitHub"]]])])].
End device.

(** ** Properties *)

(** *** The console *)

(** What the console shows after loading: that nobody is signed in exactly when one of
    the three replies says so; what was loaded exactly when all three succeeded and
    could be read; else the reason.  Nothing of before stays. *)
Theorem console_refresh_spec (net : list out -> forall k, result (canswer k)) s l :
  let '(s', l', r) := solo net console_refresh s l in
  r = Ok tt /\ l' = l ++ [o_send overview_request; o_send packages_request; o_send activity_request] /\
  s' = match net l' k_console with
       | Throw e => ls_error (err_message e)
       | Ok (ov, pk, ac) =>
           if (rp_status ov =? 401) || (rp_status pk =? 401) || (rp_status ac =? 401) then ls_anon
           else if rp_ok ov && rp_ok pk && rp_ok ac then
             match rp_json ov, rp_json pk, rp_json ac with
             | Ok o, Ok p, Ok a => ls_ready (o, p, a)
             | Throw e, _, _ | Ok _, Throw e, _ | Ok _, Ok _, Throw e => ls_error (err_message e)
             end
           else ls_error ("publisher API returned " +:+ pretty (rp_status ov) +:+ "/" +:+ pretty (rp_status pk) +:+ "/" +:+ pretty (rp_status ac))
       end.
Proof.
  unfold console_refresh. autorewrite with page. rewrite <- !app_assoc. cbn [app].
  set (h := l ++ _). destruct (net h k_console) as [[[ov pk] ac]|e] eqn:Hn; cbv beta iota.
  2:{ autorewrite with page. cbv beta iota. by rewrite Hn. }
  destruct (_ || _ || _) eqn:H401; [|destruct (rp_ok ov) eqn:E1, (rp_ok pk) eqn:E2, (rp_ok ac) eqn:E3; cbn [negb orb andb]];
    autorewrite with page; [|destruct (rp_json ov) eqn:J1, (rp_json pk) eqn:J2, (rp_json ac) eqn:J3; cbv beta iota; autorewrite with page|..];
    cbv beta iota; rewrite Hn, H401, ?E1, ?E2, ?E3, ?J1, ?J2, ?J3; done.
Qed.

(** The flagged, the pending, the yanked and the blocked packages are brought to the
    attention of the publisher: each is named in a section of its own. *)
Theorem console_names_problems toLocale p l : p ∈ l ->
  (is_pending p = true -> exists h, attention_view toLocale l = [h] /\ shows h (pk_namespace p +:+ "/" +:+ pk_name p)) /\
  (is_blocked p = true -> exists h, blocked_view l = [h] /\ shows h (pk_namespace p +:+ "/" +:+ pk_name p)).
Proof.
  intros Hin. unfold attention_view, blocked_view.
  assert (Hrows : forall heads (row : PackageSummary -> list (html unit)) title x xs, p ∈ x :: xs ->
    (forall q, exists cells, row q = package_name q :: cells) ->
    shows (div "content-block" [box "h2" [txt title]; table heads (map row (x :: xs))]) (pk_namespace p +:+ "/" +:+ pk_name p)).
  { intros heads row title x xs Hp Hrow. unfold shows, div. cbn [texts flat_map]. rewrite texts_table, app_nil_r, !elem_of_app. right. right.
    apply elem_of_flat_map. exists (row p). split; [by apply list_elem_of_In, in_map, list_elem_of_In|].
    destruct (Hrow p) as [cells ->]. cbn. by left. }
  split; intros Hp.
  - assert (Hf : p ∈ List.filter is_pending l) by (by apply elem_of_filter_In).
    destruct (List.filter is_pending l) as [|x xs]; [by apply elem_of_nil in Hf|].
    eexists. split; [reflexivity|]. apply Hrows; [exact Hf|]. intros q. eexists. reflexivity.
  - assert (Hf : p ∈ List.filter is_blocked l) by (by apply elem_of_filter_In).
    destruct (List.filter is_blocked l) as [|x xs]; [by apply elem_of_nil in Hf|].
    eexists. split; [reflexivity|]. apply Hrows; [exact Hf|]. intros q. eexists. reflexivity.
Qed.

(** *** The review queue *)

(** A review is sent only for an item whose action was chosen; what is sent is that
    choice for that version, with a reason.  When the registry takes it the queue is
    loaded again; when it refuses, the reviewer is told and the page stays. *)
Theorem submit_spec (net : list out -> forall k, result (ranswer k)) rendered item u l :
  let '(u', l', r) := solo net (submit rendered item) u l in
  let c := chosen_of rendered (it_id item) in
  (ch_action c = "" -> u' = u /\ l' = l /\ r = Ok tt) /\
  (ch_action c <> "" ->
     let sent := l ++ [o_send (review_request item c)] in
     match net sent k_reviewed with
     | Throw e => u' = u /\ l' = sent /\ r = Throw e
     | Ok res =>
         if rp_ok res then l' = sent ++ [o_send queue_request] /\ rv_actions u' = rv_actions u
         else u' = u /\ exists m, l' = sent ++ [o_alert m]
     end).
Proof.
  unfold submit, chosen_of. destruct (rv_actions rendered !! it_id item) as [c|]; cbn [nullish from_option id]; [|by cbn].
  destruct (String.eqb_spec (ch_action c) "") as [Hc|Hc]; [by cbn|].
  rewrite solo_bind, solo_fetch. set (h := l ++ _). destruct (net h k_reviewed) as [res|e]; [|by cbn].
  cbv beta iota. destruct (rp_ok res); cbn [negb].
  - assert (Hr : exists u', solo net review_refresh u h = (u', h ++ [o_send queue_request], Ok tt) /\ rv_actions u' = rv_actions u).
    { unfold review_refresh. autorewrite with page. page_run; eexists; split; reflexivity. }
    destruct Hr as (u' & -> & Ha). by split.
  - autorewrite with page. destruct (rp_json res); cbv beta iota; autorewrite with page; (split; [done|]); intros _; split; try done; by eexists.
Qed.

(** The choice and the reason of an item are kept apart, and apart from those of the
    other items. *)
Theorem choices_independent id id' a r u :
  chosen_of (choose_action id a (type_reason id r u)) id = mkChoice a r /\
  chosen_of (type_reason id r (choose_action id a u)) id = mkChoice a r /\
  (id' <> id -> chosen_of (choose_action id a (type_reason id r u)) id' = chosen_of u id').
Proof.
  assert (Hget : forall st m c, chosen_of (mkReview st (<[id := c]> m)) id = c) by (intros st m c; unfold chosen_of; cbn; by rewrite lookup_insert_eq).
  unfold choose_action at 1, type_reason at 2. rewrite !Hget. unfold choose_action, type_reason. rewrite !Hget. split_and!; [done..|].
  intros H. unfold chosen_of. cbn [rv_actions]. by rewrite !lookup_insert_ne by done.
Qed.

(** *** The device *)

(** Approving sends the code of the address once, and reports success exactly when
    the registry says so; the button is free again afterwards. *)
Theorem approve_spec (net : list out -> forall k, result (danswer k)) encode code u l :
  code <> "" ->
  let sent := l ++ [o_send (approve_request encode code)] in
  let '(u', l', r) := solo net (approve encode (Some code)) u l in
  r = Ok tt /\ l' = sent /\ dv_approving u' = false /\
  match net sent k_approve with
  | Ok res =>
      match rp_json res with
      | Ok (Some true, _) => if rp_ok res then dv_result u' = Some approved_text /\ dv_error u' = None
                             else dv_result u' = dv_result u /\ dv_error u' <> None
      | _ => dv_result u' = dv_result u /\ dv_error u' <> None
      end
  | Throw e => dv_result u' = dv_result u /\ dv_error u' = Some (err_message e)
  end.
Proof.
  intros Hc. unfold approve. assert (truthy (Some code) = true) as -> by (unfold truthy; by apply String.eqb_neq in Hc as ->). cbn [negb].
  autorewrite with page. cbn [nullish from_option id]. set (h := l ++ _).
  destruct (net h k_approve) as [res|e]; cbv beta iota; autorewrite with page; [|by split_and!].
  destruct (rp_json res) as [[ok er]|e]; cbv beta iota; autorewrite with page; [|by split_and!].
  destruct (rp_ok res), ok as [[]|]; cbn [andb]; autorewrite with page; by split_and!.
Qed.

(** The page shows the code in upper case, but what is typed goes into the address as
    it is, and from there to the registry, which compares codes letter by letter. *)
Theorem typed_code_sent_as_typed (net : list out -> forall k, result (danswer k)) encode toUpperCase input u l :
  js_trim input = input -> input <> "" ->
  shows (device_view toUpperCase (Some input) u) (toUpperCase input) /\
  (solo net (submit_code encode input) u l).1.2 = l ++ [o_goto ("/device?user_code=" +:+ encode input)] /\
  exists rest, (solo net (approve encode (Some input)) u l).1.2 = l ++ o_send (approve_request encode input) :: rest.
Proof.
  intros Ht Hc. assert (Htr : truthy (Some input) = true) by (unfold truthy; by apply String.eqb_neq in Hc as ->). split_and!.
  - unfold shows, device_view. rewrite Htr. cbn. apply list_elem_of_In. cbn. tauto.
  - unfold submit_code. autorewrite with page. by rewrite Ht.
  - unfold approve. rewrite Htr. cbn [negb]. rewrite !solo_bind, solo_set. cbv beta iota. rewrite solo_finally, solo_catch, solo_bind, solo_fetch.
    cbn [nullish from_option id]. set (h := l ++ _). exists []. fold h.
    destruct (net h k_approve) as [res|e]; cbv beta iota; autorewrite with page; [|done].
    destruct (rp_json res) as [[ok er]|e]; cbv beta iota; autorewrite with page; [|done]. by destruct (_ && _).
Qed.
End PublisherPages.
