(* ===== verification/DashboardPage.v ===== *)
(** The system dashboard of the web application, [web/src/components/dashboard.tsx]:
    it polls the report of the machine and renders it. *)
From S2P Require Import Prelude Policy Requirements Registry System Page.

Module DashboardPage.
Import Requirements Page System.
Local Open Scope Z_scope.
Local Open Scope page_scope.

(** The states of the component; [updated] is the time of the last report.
    @src web/src/components/dashboard.tsx 10-13 Dashboard *)
Record dash_ui := mkDash { snap : option SystemSnapshot; error : option string; updated : option string }.

Definition initial : dash_ui := mkDash None None None.

Inductive dkind := k_system.
(** The reply and the time it came. *)
Definition answer (k : dkind) : Type := reply SystemSnapshot * string.
Local Abbreviation M := (M dash_ui answer).

Definition system_request : page_request := get "/api/system".

(** @src web/src/components/dashboard.tsx refresh *)
Definition refresh : M unit :=
  catch
    (a <~ fetch k_system system_request;
     let '(res, now) := a in
     if negb (rp_ok res) then fail (JsError EError ("system API returned " +:+ pretty (rp_status res)))
     else
       s <~ lift (rp_json res);
       set (fun _ => mkDash (Some s) None (Some now)))
    (fun err => set (fun u => mkDash (snap u) (Some (err_message err)) (updated u))).

(** ** What is rendered *)

(** @src web/src/components/dashboard.tsx trustPill *)
Definition trustPill (trust : TrustLevel) : string :=
  match trust with trusted | local => "good" | untrusted => "bad" | Requirements.unknown => "warn" end.

(** @src web/src/components/dashboard.tsx fmtDuration *)
Definition fmtDuration (sec : Z) : string :=
  let d := sec / 86400 in
  let h := sec mod 86400 / 3600 in
  let m := sec mod 3600 / 60 in
  if 0 <? d then pretty d +:+ "d " +:+ pretty h +:+ "h"
  else if 0 <? h then pretty h +:+ "h " +:+ pretty m +:+ "m"
  else pretty m +:+ "m".

Section view.
(** [toFixed], of a quotient and of a load, and [toLocaleTimeString]. *)
Context (toFixed : nat -> Z -> Z -> string) (load_text : Z -> string) (locale_time : string -> string).
Local Abbreviation html := (html unit).

Definition KiB : Z := 1024.
Definition MiB : Z := 1024 * KiB.
Definition GiB : Z := 1024 * MiB.

(** [Math.round(n / 1024)] of what is below a mebibyte.
    @src web/src/components/dashboard.tsx fmtBytes *)
Definition fmtBytes (n : Z) : string :=
  if GiB <=? n then toFixed 1%nat n GiB +:+ " GiB"
  else if MiB <=? n then toFixed 1%nat n MiB +:+ " MiB"
  else pretty ((2 * n + KiB) / (2 * KiB)) +:+ " KiB".

(** @src web/src/components/dashboard.tsx Stat *)
Definition Stat (label value sub : string) : html :=
  div "stat" ([div "label" [txt label]; div "num" [txt value]] ++ when (negb (String.eqb sub "")) [div "sub" [txt sub]]).

Definition without_python (s : string) : string := if js_startsWith s "Python " then js_drop 7 s else s.

(** [python.replace("Python ", "")] of what [python --version] prints, which starts so.
    @src web/src/components/dashboard.tsx HostCards *)
Definition HostCards (h : HostInfo) : html :=
  box "section"
    [div "stats"
      [Stat "host" (h_hostname h) (h_platform h +:+ "/" +:+ h_arch h +:+ " · " +:+ pretty (Z.of_nat (h_cpus h)) +:+ " cpu");
       Stat "uptime" (fmtDuration (h_uptimeSec h)) ("load " +:+ js_join " " (map load_text (h_loadavg h)));
       Stat "memory" (fmtBytes (h_memTotalBytes h - h_memFreeBytes h)) ("of " +:+ fmtBytes (h_memTotalBytes h) +:+ " used");
       Stat "docker" (if h_docker_available h then "running" else "down")
         (nullish (d_version (h_docker h)) (nullish (d_error (h_docker h)) ""));
       Stat "node" (h_node h) (if truthy (h_python h) then "python " +:+ without_python (nullish (h_python h) "") else "")]].

(** @src web/src/components/dashboard.tsx 109-109 revoked *)
Definition is_revoked (a : OahInstalledAgent) : bool :=
  bool_decide (oa_reviewStatus a = Some "rejected") || bool_decide (oa_reviewStatus a = Some "revoked").

(** @src web/src/components/dashboard.tsx 135-155 InstalledAgents *)
Definition installed_row (a : OahInstalledAgent) : list html :=
  [txt (oa_spec a); txt (oa_version a); span ("pill " +:+ trustPill (oa_trust a)) (trust_name (oa_trust a));
   (if truthy (oa_reviewStatus a) then
      span ("pill " +:+ (if is_revoked a then "bad" else if bool_decide (oa_reviewStatus a = Some "verified") then "good" else "warn"))
        (nullish (oa_reviewStatus a) "")
    else span "muted" "—");
   txt (js_take 10 (oa_installedAt a))].

(** @src web/src/components/dashboard.tsx InstalledAgents *)
Definition InstalledAgents (s : SystemSnapshot) : html :=
  let installed := ss_installed s in
  let revoked := List.filter is_revoked installed in
  box "section"
    ([box "h2" [txt "OpenAgentHub agents "; span "badge" (pretty (Z.of_nat (length installed)))]]
     ++ match revoked with
        | [] => []
        | _ => [para "pill bad" (pretty (Z.of_nat (length revoked)) +:+ " installed version(s) were "
                  +:+ js_join " or " (map (fun a => nullish (oa_reviewStatus a) "") revoked)
                  +:+ " by the registry — do not run them.")]
        end
     ++ [match installed with
         | [] => el "p" [("class", "hint")] None [txt "No agents installed via OpenAgentHub. Try "; inline "openagenthub install <namespace>/<name>"; txt "."]
         | _ => div "table-wrap" [table ["spec"; "version"; "trust"; "review"; "installed"] (map installed_row installed)]
         end;
         el "p" [("class", "muted")] None
           [txt "install dir: "; inline (ss_agentsDir s); txt " · registry: "; inline (ss_registryUrl s)]]).

Definition is_detected (a : DetectedAgent) : bool := negb (bool_decide (da_status a = System.unknown)).

Definition source_name (d : DetectionSource) : string :=
  match d with by_process => "process" | by_container => "container" | by_config => "config" | by_binary => "binary" | by_port => "port" end.

Definition status_name (s : AgentStatus) : string :=
  match s with running => "running" | installed_ => "installed" | System.unknown => "unknown" end.

(** @src web/src/components/dashboard.tsx DetectedAgents *)
Definition DetectedAgents (agents : list DetectedAgent) : html :=
  let detected := List.filter is_detected agents in
  box "section"
    [box "h2" [txt "Detected agents "; span "badge" (pretty (Z.of_nat (length detected)))];
     match detected with
     | [] => para "hint" "No known third-party agents (OpenClaw, Hermes, …) detected on this machine."
     | _ =>
         div "grid" (map (fun a =>
           div "card"
             [div "row" [box "h3" [txt (da_displayName a)];
                         span ("pill " +:+ (if bool_decide (da_status a = running) then "good" else "warn")) (status_name (da_status a))];
              para "desc" (da_description a);
              div "row" (map (fun v => span "badge" (source_name v)) (detectedVia a));
              box "footer"
                ([box "span"
                   (match processes a with [] => [] | ps => [span "muted" (js_join ", " (map (fun p => pretty (ap_pid p)) ps) +:+ " pids")] end
                    ++ match listeningPorts a with [] => [] | l => [span "muted" (" · ports " +:+ js_join ", " (map pretty l))] end)]
                 ++ when (truthy (da_homepage a)) [link "↗" (nullish (da_homepage a) "")])]) detected)
     end].

Definition manager_name (m : manager) : string := match m with mb_openagenthub => "openagenthub" | mb_third_party => "third-party" end.

(** @src web/src/components/dashboard.tsx Containers *)
Definition Containers (s : SystemSnapshot) : html :=
  let containers := ss_containers s in
  box "section"
    [box "h2" [txt "Containers "; span "badge" (pretty (Z.of_nat (length containers)))];
     match containers with
     | [] => para "hint" "No running containers detected."
     | _ => div "table-wrap" [table ["id"; "name"; "image"; "state"; "ports"; "agent"]
         (map (fun c => [txt (js_take 12 (c_id c)); txt (c_name c); txt (c_image c); txt (c_state c); txt (c_ports c);
                         txt (nullish (matchedAgentId c) (nullish (manager_name <$> managedBy c) ""))]) containers)]
     end;
     para "muted" "OpenAgentHub marks its own sandbox containers; third-party agent containers are matched to known agents."].

(** [usage] is the usage section, a component of its own.
    @src web/src/components/dashboard.tsx 33-77 Dashboard *)
Definition dashboard_view (usage : html) (u : dash_ui) : html :=
  box "main"
    (div "dash-hero"
       [span "eyebrow clear" "Live system check"; box "h1" [txt "System "; span "hl" "dashboard"];
        el "p" [("class", "lead")] None
          [txt "Everything OpenAgentHub sees on this machine — installed agents, detected third-party agents, running containers, and host health. Polled every 8s from ";
           inline "/api/system"; txt "."];
        div "row"
          (span ("pill " +:+ (if truthy (error u) then "bad" else "good"))
             (match updated u with Some t => "updated " +:+ locale_time t | None => "collecting snapshot…" end)
           :: when (truthy (error u)) [span "pill bad" (nullish (error u) "")])]
     :: match snap u with
        | Some s => [HostCards (ss_host s); InstalledAgents s; DetectedAgents (ss_agents s); Containers s; usage]
        | None => [div "not-found" [txt "collecting system snapshot…"]]
        end).
End view.

(** ** Properties *)

(** A poll replaces the report by the new one and clears the error, or keeps the
    report of before and says why. *)
Theorem dashboard_refresh_spec (net : list out -> forall k, result (answer k)) u l :
  let sent := l ++ [o_send system_request] in
  solo net refresh u l =
  (match net sent k_system with
   | Ok (res, now) =>
       if rp_ok res then
         match rp_json res with
         | Ok s => mkDash (Some s) None (Some now)
         | Throw e => mkDash (snap u) (Some (err_message e)) (updated u)
         end
       else mkDash (snap u) (Some ("system API returned " +:+ pretty (rp_status res))) (updated u)
   | Throw e => mkDash (snap u) (Some (err_message e)) (updated u)
   end, sent, Ok tt).
Proof.
  intros sent. unfold refresh. autorewrite with page. fold sent. destruct (net sent k_system) as [[res now]|e]; cbv beta iota; autorewrite with page; [|done].
  destruct (rp_ok res); cbn [negb]; autorewrite with page; [|done]. destruct (rp_json res); cbv beta iota; by autorewrite with page.
Qed.

(** The text of a duration is its days and hours, its hours and minutes or its
    minutes, cut off to the smaller unit. *)
Theorem fmtDuration_spec sec : 0 <= sec -> exists d h m,
  0 <= d /\ 0 <= h < 24 /\ 0 <= m < 60 /\ d * 86400 + h * 3600 + m * 60 <= sec < d * 86400 + h * 3600 + m * 60 + 60 /\
  fmtDuration sec = if 0 <? d then pretty d +:+ "d " +:+ pretty h +:+ "h"
                    else if 0 <? h then pretty h +:+ "h " +:+ pretty m +:+ "m" else pretty m +:+ "m".
Proof.
  intros Hs. exists (sec / 86400), (sec mod 86400 / 3600), (sec mod 3600 / 60).
  assert (Hm : sec mod 3600 = (sec mod 86400) mod 3600).
  { rewrite (Z.div_mod sec 86400) at 1 by lia. replace (86400 * (sec / 86400) + sec mod 86400) with (sec mod 86400 + (24 * (sec / 86400)) * 3600) by lia.
    apply Z.mod_add. lia. }
  pose proof (Z.mod_pos_bound sec 86400 ltac:(lia)). pose proof (Z.mod_pos_bound (sec mod 86400) 3600 ltac:(lia)).
  pose proof (Z.div_mod sec 86400 ltac:(lia)). pose proof (Z.div_mod (sec mod 86400) 3600 ltac:(lia)).
  pose proof (Z.div_mod (sec mod 3600) 60 ltac:(lia)). pose proof (Z.mod_pos_bound (sec mod 3600) 60 ltac:(lia)).
  assert (0 <= sec / 86400) by (apply Z.div_pos; lia). assert (0 <= sec mod 86400 / 3600) by (apply Z.div_pos; lia).
  assert (0 <= sec mod 3600 / 60) by (apply Z.div_pos; lia).
  split_and!; try lia; done.
Qed.

(** An installed version the registry rejected or revoked is marked as bad in its row,
    and there is a warning exactly when there is one. *)
Theorem revoked_agents_marked s a : a ∈ ss_installed s ->
  (is_revoked a = true -> span "pill bad" (nullish (oa_reviewStatus a) "") ∈ installed_row a) /\
  (List.filter is_revoked (ss_installed s) <> [] <->
   exists text rest, InstalledAgents s = box "section"
     (box "h2" [txt "OpenAgentHub agents "; span "badge" (pretty (Z.of_nat (length (ss_installed s))))] :: para "pill bad" text :: rest)).
Proof.
  intros Ha. split.
  - intros Hr. unfold installed_row. rewrite Hr.
    assert (truthy (oa_reviewStatus a) = true) as ->.
    { unfold is_revoked in Hr. apply orb_true_iff in Hr as [H|H]; apply bool_decide_eq_true in H; by rewrite H. }
    apply list_elem_of_In. cbn. tauto.
  - unfold InstalledAgents. destruct (List.filter is_revoked (ss_installed s)) as [|x l]; split; try done.
    + intros (text & rest & H). exfalso. unfold box in H. injection H as H _. destruct (ss_installed s); done.
    + intros _. by eexists _, _.
Qed.
End DashboardPage.
