(* ===== verification/Catalog.v ===== *)
(** Looking for agents in the browser: the catalogue of the marketing site
    [marketing/src/components/AgentCatalog.tsx], and the pages of the web application
    that ask the registry from the server, [web/src/lib/api.ts],
    [web/src/app/browse/page.tsx], [agent-card.tsx] and [agents/[namespace]/[name]/page.tsx]. *)
From S2P Require Import Prelude Requirements Registry Page.

Module Catalog.
Import Requirements Page.
Local Open Scope Z_scope.
Local Open Scope page_scope.

(** ** The catalogue *)

(** @src marketing/src/components/AgentCatalog.tsx CatalogItem *)
Record CatalogItem := mkItem {
  ci_namespace : string; ci_name : string; ci_version : string; ci_digest : string; ci_author : string; ci_description : string;
  ci_license : string; ci_runtime : option string; ci_interfaces : list string; ci_permissions : list string;
  ci_secrets : list string; ci_downloads : Z; ci_publisher : string; ci_signerVerified : bool; ci_reviewStatus : string;
  ci_securityStatus : string; ci_yanked : bool; ci_publishedAt : string; ci_reviewedAt : option string;
}.

Record pill := mkPill { cls : string; pill_text : string; pill_title : string }.

(** @src marketing/src/components/AgentCatalog.tsx statusPill *)
Definition statusPill (i : CatalogItem) : pill :=
  if ci_yanked i then mkPill "bad" "yanked" "removed from the registry"
  else if String.eqb (ci_reviewStatus i) "rejected" || String.eqb (ci_reviewStatus i) "revoked"
  then mkPill "bad" (ci_reviewStatus i) "blocked by the registry"
  else if String.eqb (ci_securityStatus i) "flagged" then mkPill "bad" "flagged" "automated scan found issues"
  else if String.eqb (ci_reviewStatus i) "verified" && String.eqb (ci_securityStatus i) "clean"
  then mkPill "good" "verified" "reviewed and scanned clean"
  else if String.eqb (ci_reviewStatus i) "warning" then mkPill "warn" "warning" "review warnings apply"
  else mkPill "warn" "pending" "awaiting review".

(** The states of the component; [cancelled] is set when it leaves the page.
    @src marketing/src/components/AgentCatalog.tsx 41-46 AgentCatalog *)
Record catalog_ui := mkCatalog { items : option (list CatalogItem); error : option string; search : string; cancelled : bool }.

Definition initial : catalog_ui := mkCatalog None None "" false.

Inductive ckind := k_catalog.
Definition answer (k : ckind) : Type := reply (list CatalogItem).
Local Abbreviation M := (M catalog_ui answer).

Definition catalog_request (REGISTRY_URL : string) : page_request :=
  get (REGISTRY_URL +:+ "/api/v1/catalog?" +:+ Registry.urlSearchParams [("limit", "50"); ("sort", "downloads")]).

Definition unless_cancelled (f : catalog_ui -> catalog_ui) (u : catalog_ui) : catalog_ui := if cancelled u then u else f u.

(** @src marketing/src/components/AgentCatalog.tsx 45-59 useEffect *)
Definition load_catalog (REGISTRY_URL : string) : M unit :=
  catch
    (r <~ fetch k_catalog (catalog_request REGISTRY_URL);
     if rp_ok r then
       data <~ lift (rp_json r);
       set (unless_cancelled (fun u => mkCatalog (Some data) (error u) (search u) (cancelled u)))
     else fail (JsError EError ("catalog returned " +:+ pretty (rp_status r))))
    (fun err => set (unless_cancelled (fun u => mkCatalog (items u) (Some (err_message err)) (search u) (cancelled u)))).

(** @src marketing/src/components/AgentCatalog.tsx 61-69 filtered *)
Definition matches (search : string) (i : CatalogItem) : bool :=
  let q := js_toLowerCase (js_trim search) in
  if String.eqb q "" then true
  else js_includes (js_toLowerCase (ci_namespace i +:+ "/" +:+ ci_name i)) q
       || js_includes (js_toLowerCase (ci_description i)) q
       || js_includes (js_toLowerCase (ci_author i)) q.

Definition filtered (u : catalog_ui) : list CatalogItem := List.filter (matches (search u)) (nullish (items u) []).

Section catalog_view.
Context (toLocaleDateString : string -> string).
Local Abbreviation html := (html unit).

(** An element in a joined list is written as an object. *)
Definition joined_elements (l : list string) : string := js_join " " (map (fun _ => "[object Object]") l).

(** @src marketing/src/components/AgentCatalog.tsx 112-149 AgentCatalog *)
Definition card_view (i : CatalogItem) : html :=
  let p := statusPill i in
  el "article" [("class", "catalog-card")] None
    ([div "catalog-head" [box "h3" [txt (ci_namespace i +:+ "/" +:+ ci_name i)];
                          el "span" [("class", "catalog-pill " +:+ cls p); ("title", pill_title p)] None [txt (pill_text p)]];
      para "catalog-meta" ("v" +:+ ci_version i +:+ " · by " +:+ ci_publisher i
        +:+ (if ci_signerVerified i then " · signature verified" else " · unverified signer")
        +:+ (if String.eqb (ci_license i) "" then "" else " · " +:+ ci_license i));
      para "catalog-desc" (ci_description i);
      para "catalog-meta" (pretty (ci_downloads i) +:+ " installs · published " +:+ toLocaleDateString (ci_publishedAt i)
        +:+ (if truthy (ci_reviewedAt i) then " · reviewed " +:+ toLocaleDateString (nullish (ci_reviewedAt i) "") else ""))]
     ++ match ci_permissions i with [] => [] | l => [para "catalog-meta" ("permissions: " +:+ joined_elements l)] end
     ++ match ci_secrets i with [] => [] | l => [para "catalog-meta" ("secrets: " +:+ joined_elements l)] end
     ++ [el "code" [("class", "catalog-install")] None [txt ("openagenthub install " +:+ ci_namespace i +:+ "/" +:+ ci_name i)];
         para "catalog-note" "“verified” marks a reviewed, scanned-clean version — not a guarantee of safety."]).

(** @src marketing/src/components/AgentCatalog.tsx 71-155 AgentCatalog *)
Definition catalog_view (u : catalog_ui) : html :=
  box "main"
    [el "section" [("class", "band")] None
      [div "section-head center" [span "eyebrow" "Registry"; box "h1" [txt "Browse agents"];
         box "p" [txt "Every package is signed by its author and shows its review, scan, and permission status. Install with ";
                  inline "openagenthub install namespace/name"; txt "."]];
       el "input" [("type", "search"); ("value", search u)] (Some tt) []];
     el "section" [("class", "band raised")] None
      [if truthy (error u) then div "" [box "p" [txt "Could not reach the registry."]; para "muted" (nullish (error u) "")]
       else match items u with
            | None => para "muted" "Loading agents…"
            | Some _ =>
                match filtered u with
                | [] => para "muted" ("No agents found" +:+ (if String.eqb (search u) "" then " yet"
                                      else " for " +:+ str1 DQUOTE +:+ search u +:+ str1 DQUOTE) +:+ ".")
                | l => div "catalog-grid" (map card_view l)
                end
            end]].
End catalog_view.

(** ** The web application's requests from the server *)
Section api.
(** The registry's address, without a slash at the end, and what it answers. *)
Context (REGISTRY_URL : string) (http : forall T, string -> result (reply T)).

(** The class [ApiError] keeps the status; here it is in the message.
    @src web/src/lib/api.ts request *)
Definition request (T : Type) (path : string) : result T :=
  res ← http T (REGISTRY_URL +:+ path);
  if rp_ok res then rp_json res else throw EError (pretty (rp_status res) +:+ " " +:+ path).

Definition search_path (q : option string) : string :=
  "/api/v1/agents?" +:+ Registry.urlSearchParams ((if truthy q then [("q", nullish q "")] else []) ++ [("sort", "downloads")]).

(** @src web/src/lib/api.ts searchAgents *)
Definition searchAgents (q : option string) : result (list Registry.AgentSummary) := request _ (search_path q).

Definition agent_path (ns nm : string) : string :=
  "/api/v1/agents/" +:+ Registry.encodeURIComponent ns +:+ "/" +:+ Registry.encodeURIComponent nm.

(** @src web/src/lib/api.ts getAgent *)
Definition getAgent (ns nm : string) : result Registry.AgentSummary := request _ (agent_path ns nm).

(** The fields of the detail the page uses; the manifest is that of the package, of
    which any part may be missing.
    @src web/src/lib/api.ts AgentVersionDetail *)
Record AgentVersionDetail := mkDetail {
  ad_version : string; ad_author : string; ad_publishedAt : string; ad_downloadCount : Z; ad_trust : string;
  ad_security : option (string * list string);
  m_language : option string; m_supported : list string; m_permissions : list string; m_secrets : list string; m_interfaces : list string;
  m_text : string;
}.

(** @src web/src/lib/api.ts getAgentVersion *)
Definition getAgentVersion (ns nm : string) (version : option string) : result AgentVersionDetail :=
  request _ (agent_path ns nm +:+ "/versions/" +:+ Registry.encodeURIComponent (nullish version "latest")).
End api.

(** ** Its pages *)
Section pages.
Local Abbreviation html := (html unit).

(** @src web/src/app/agent-card.tsx TRUST_LABEL *)
Definition TRUST_LABEL (t : TrustLevel) : option pill :=
  match t with
  | trusted => Some (mkPill "good" "verified" "")
  | unknown => Some (mkPill "warn" "unverified" "")
  | untrusted => Some (mkPill "bad" "flagged" "")
  | local => None
  end.

(** [None] when reading a field of a missing label throws.
    @src web/src/app/agent-card.tsx AgentCard *)
Definition AgentCard (a : Registry.AgentSummary) : option html :=
  trust ← TRUST_LABEL (Registry.as_trust a);
  Some (el "a" [("class", "card"); ("href", "/agents/" +:+ Registry.as_namespace a +:+ "/" +:+ Registry.as_name a)] None
    [box "h3" [txt (Registry.as_namespace a +:+ "/" +:+ Registry.as_name a)];
     div "meta" [txt ("v" +:+ Registry.as_version a +:+ " · by " +:+ Registry.as_author a +:+ " · " +:+ pretty (Registry.as_downloads a) +:+ " downloads")];
     para "desc" (Registry.as_description a);
     box "footer" [box "span" (map (span "badge") (Registry.as_tags a)); span ("pill " +:+ cls trust) (pill_text trust)]]).

(** @src web/src/app/browse/page.tsx 37-57 BrowsePage *)
Definition browse_results (q : option string) (found : result (list Registry.AgentSummary)) : option html :=
  match found with
  | Throw e =>
      let error := err_message e in
      if String.eqb error "" then Some (div "not-found" [box "p" [txt ("No agents found" +:+ (if truthy q then " for " +:+ str1 DQUOTE +:+ nullish q "" +:+ str1 DQUOTE else " yet") +:+ ".")]])
      else Some (div "not-found" [box "p" [txt "Could not reach the registry."]; para "muted" error;
             el "p" [("class", "muted")] None [txt "Start it with: "; inline "cd registry && uv run uvicorn app.main:app --port 8000"]])
  | Ok [] => Some (div "not-found" [box "p" [txt ("No agents found" +:+ (if truthy q then " for " +:+ str1 DQUOTE +:+ nullish q "" +:+ str1 DQUOTE else " yet") +:+ ".")]])
  | Ok l => cards ← mapM AgentCard l; Some (div "grid" cards)
  end.

(** @src web/src/app/browse/page.tsx BrowsePage *)
Definition browse_page (REGISTRY_URL : string) (http : forall T, string -> result (reply T)) (q : option string) : option html :=
  results ← browse_results q (searchAgents REGISTRY_URL http q);
  Some (box "main"
    [div "hero" [span "eyebrow" "Registry"; box "h1" [txt "Browse agents"];
       box "p" [txt "Agents published to the registry. Install with "; inline "openagenthub install namespace/name"; txt ", signed and sandboxed by default."];
       el "form" [("method", "GET"); ("action", "/browse")] None
         [el "input" [("name", "q"); ("defaultValue", nullish q "")] None []; el "button" [("type", "submit")] None [txt "Search"]]];
     results]).

(** @src web/src/app/agents/[namespace]/[name]/page.tsx SECURITY *)
Definition SECURITY (status : string) : option pill :=
  if String.eqb status "clean" then Some (mkPill "good" "scan passed" "")
  else if String.eqb status "pending" then Some (mkPill "warn" "scan pending" "")
  else if String.eqb status "flagged" then Some (mkPill "bad" "flagged" "")
  else if String.eqb status "failed" then Some (mkPill "bad" "scan failed" "")
  else None.

Inductive agent_page_result := ap_not_found | ap_throws | ap_page (h : html).

(** @src web/src/app/agents/[namespace]/[name]/page.tsx 41-41 trust *)
Definition trust_pill (trust : string) : pill :=
  if String.eqb trust "untrusted" then mkPill "bad" "untrusted" "" else if String.eqb trust "trusted" then mkPill "good" "trusted" ""
  else mkPill "warn" "unknown" "".

(** What [InstallCommand] shows; copying to the clipboard is left out.
    @src web/src/components/install.tsx 20-39 InstallCommand *)
Definition install_view (spec : string) : html :=
  box "div"
    [div "row" [el "code" [("class", "code")] None [txt ("openagenthub install " +:+ spec)]];
     div "row" [el "code" [("class", "code")] None
       [txt ("echo '{" +:+ str1 DQUOTE +:+ "prompt" +:+ str1 DQUOTE +:+ ": " +:+ str1 DQUOTE +:+ "..." +:+ str1 DQUOTE +:+ "}' | openagenthub run "
             +:+ spec +:+ " --model openai")]]].

(** @src web/src/app/agents/[namespace]/[name]/page.tsx 44-120 AgentPage *)
Definition agent_view (agent : Registry.AgentSummary) (d : AgentVersionDetail) (security : pill) : html :=
  let spec := Registry.as_namespace agent +:+ "/" +:+ Registry.as_name agent in
  let trust := trust_pill (ad_trust d) in
  box "main"
    ([el "p" [("class", "muted")] None [link "← browse" "/browse"]; span "eyebrow clear" "Agent manifest";
      div "row" [box "h1" [txt spec]; span ("pill " +:+ cls trust) (pill_text trust); span ("pill " +:+ cls security) (pill_text security)];
      para "muted" ("v" +:+ ad_version d +:+ " · by " +:+ ad_author d +:+ " · " +:+ pretty (ad_downloadCount d) +:+ " downloads · published " +:+ ad_publishedAt d);
      box "p" [txt (Registry.as_description agent)];
      div "row" ([span "badge" (nullish (m_language d) "other"); span "badge" ("license " +:+ Registry.as_license agent)]
                 ++ map (fun m => span "badge" ("model: " +:+ m)) (m_supported d)
                 ++ map (fun p => span "badge" ("perm: " +:+ p)) (m_permissions d)
                 ++ map (fun i => span "badge" ("iface: " +:+ i)) (m_interfaces d));
      box "section" [box "h2" [txt "Install & run"]; install_view spec];
      box "section"
        [box "h2" [txt "Declared secrets"];
         match m_secrets d with
         | [] => para "muted" "This agent declares no secrets."
         | l => box "p" (map (span "badge") l ++ [span "muted" "— set them with "; inline ("openagenthub env " +:+ spec +:+ " NAME=value")])
         end];
      box "section" [box "h2" [txt "Manifest"]; el "code" [("class", "code")] None [txt (m_text d)]]]
     ++ match nullish (snd <$> ad_security d) [] with
        | [] => []
        | l => [box "section" [box "h2" [txt "Security findings"]; box "ul" (map (fun f => box "li" [txt f]) l)]]
        end).

(** Any failure of the two requests is an agent that is not found; a status without a
    label makes rendering throw.
    @src web/src/app/agents/[namespace]/[name]/page.tsx AgentPage *)
Definition agent_page (REGISTRY_URL : string) (http : forall T, string -> result (reply T)) (ns nm : string) : agent_page_result :=
  match getAgent REGISTRY_URL http ns nm, getAgentVersion REGISTRY_URL http ns nm None with
  | Ok agent, Ok detail =>
      match SECURITY (nullish (fst <$> ad_security detail) "pending") with
      | Some security => ap_page (agent_view agent detail security)
      | None => ap_throws
      end
  | _, _ => ap_not_found
  end.
End pages.

(** ** Properties *)

(** The catalogue calls a version verified exactly when it is not yanked, a reviewer
    verified it and the scan found it clean; every other version is marked as bad or
    as a warning, and as bad exactly when it was yanked, rejected, revoked or
    flagged. *)
Theorem statusPill_spec i :
  (cls (statusPill i) = "good" <-> ci_yanked i = false /\ ci_reviewStatus i = "verified" /\ ci_securityStatus i = "clean") /\
  (cls (statusPill i) = "bad" <-> ci_yanked i = true \/ ci_reviewStatus i ∈ ["rejected"; "revoked"] \/ ci_securityStatus i = "flagged") /\
  (pill_text (statusPill i) = "verified" <-> cls (statusPill i) = "good").
Proof.
  unfold statusPill. rewrite !elem_of_cons, elem_of_nil. destruct (ci_yanked i); [cbn; naive_solver|].
  destruct (String.eqb_spec (ci_reviewStatus i) "rejected") as [->|H1]; [cbn; naive_solver|].
  destruct (String.eqb_spec (ci_reviewStatus i) "revoked") as [->|H2]; [cbn; naive_solver|]. cbn [orb].
  destruct (String.eqb_spec (ci_securityStatus i) "flagged") as [->|H3]; [cbn; naive_solver|].
  destruct (String.eqb_spec (ci_reviewStatus i) "verified") as [H4|H4], (String.eqb_spec (ci_securityStatus i) "clean") as [H5|H5]; cbn [andb];
    destruct (String.eqb_spec (ci_reviewStatus i) "warning") as [H6|H6]; cbn; naive_solver.
Qed.

(** What the catalogue shows after loading, and nothing at all when the component left
    the page before the answer came. *)
Theorem load_catalog_spec (net : list out -> forall k, result (answer k)) url u l :
  let sent := l ++ [o_send (catalog_request url)] in
  let '(u', l', r) := solo net (load_catalog url) u l in
  r = Ok tt /\ l' = sent /\ search u' = search u /\
  (cancelled u = true -> u' = u) /\
  (cancelled u = false ->
     match net sent k_catalog with
     | Ok res => if rp_ok res then match rp_json res with
                   | Ok data => items u' = Some data /\ error u' = error u
                   | Throw e => items u' = items u /\ error u' = Some (err_message e) end
                 else items u' = items u /\ error u' = Some ("catalog returned " +:+ pretty (rp_status res))
     | Throw e => items u' = items u /\ error u' = Some (err_message e)
     end).
Proof.
  intros sent. unfold load_catalog, unless_cancelled. autorewrite with page. fold sent.
  destruct (net sent k_catalog) as [res|e]; cbv beta iota; autorewrite with page; [destruct (rp_ok res); autorewrite with page|];
    [destruct (rp_json res) as [data|e]; cbv beta iota; autorewrite with page|..]; destruct (cancelled u); split_and!; done.
Qed.

(** Without a search everything is listed; with one, nothing that was not loaded. *)
Theorem filtered_spec u i : i ∈ filtered u <-> i ∈ nullish (items u) [] /\ matches (search u) i = true.
Proof. apply elem_of_filter_In. Qed.

Lemma matches_blank s i : js_trim s = "" -> matches s i = true.
Proof. intros H. unfold matches. by rewrite H. Qed.

Definition with_permissions (ps ss : list string) (i : CatalogItem) : CatalogItem :=
  mkItem (ci_namespace i) (ci_name i) (ci_version i) (ci_digest i) (ci_author i) (ci_description i) (ci_license i) (ci_runtime i)
    (ci_interfaces i) ps ss (ci_downloads i) (ci_publisher i) (ci_signerVerified i) (ci_reviewStatus i) (ci_securityStatus i)
    (ci_yanked i) (ci_publishedAt i) (ci_reviewedAt i).

(** A card promises the permissions and secrets of an agent and does not show them:
    elements are joined into a text, and each is written as "[object Object]".  Two
    agents that ask for as many permissions look the same, whichever they are. *)
Theorem permissions_not_shown toDate i ps qs ss ts : length ps = length qs -> length ss = length ts ->
  card_view toDate (with_permissions ps ss i) = card_view toDate (with_permissions qs ts i).
Proof.
  assert (Hj : forall l m, length l = length m -> joined_elements l = joined_elements m).
  { intros l m Hl. unfold joined_elements. f_equal. revert m Hl. induction l as [|x l IH]; intros [|y m] Hl; try done.
    cbn. f_equal. apply IH. by injection Hl. }
  intros Hp Hs. unfold card_view. cbn [with_permissions ci_permissions ci_secrets].
  f_equal. f_equal. f_equal; [|f_equal].
  - destruct ps as [|p ps], qs as [|q qs]; try done. by rewrite (Hj (p :: ps) (q :: qs)).
  - destruct ss as [|p ss], ts as [|q ts]; try done. by rewrite (Hj (p :: ss) (q :: ts)).
Qed.

(** The web application asks for an agent at the address the client of the SDK uses,
    where each of the names is a path segment of its own. *)
Theorem api_paths_agree ns nm v :
  agent_path ns nm = Registry.segment ns nm /\
  agent_path ns nm +:+ "/versions/" +:+ Registry.encodeURIComponent v = Registry.version_segment ns nm v.
Proof. done. Qed.

(** The page of an agent exists exactly when both requests succeed; then the scan's
    result is shown, a missing one as pending.  It throws on a status without a label. *)
Theorem agent_page_spec url http ns nm :
  (agent_page url http ns nm = ap_not_found <->
     (exists e, getAgent url http ns nm = Throw e) \/ (exists e, getAgentVersion url http ns nm None = Throw e)) /\
  (forall h, agent_page url http ns nm = ap_page h ->
     exists a d p, getAgent url http ns nm = Ok a /\ getAgentVersion url http ns nm None = Ok d /\
       SECURITY (nullish (fst <$> ad_security d) "pending") = Some p /\ h = agent_view a d p) /\
  (agent_page url http ns nm = ap_throws ->
     exists d s f, getAgentVersion url http ns nm None = Ok d /\ ad_security d = Some (s, f) /\ s ∉ ["clean"; "pending"; "flagged"; "failed"]).
Proof.
  unfold agent_page. destruct (getAgent url http ns nm) as [a|e]; [|naive_solver].
  destruct (getAgentVersion url http ns nm None) as [d|e]; [|naive_solver].
  destruct (SECURITY (nullish (fst <$> ad_security d) "pending")) as [p|] eqn:Hs; [naive_solver|]. split; [naive_solver|]. split; [done|]. intros _.
  destruct (ad_security d) as [[s f]|] eqn:Ha; [cbn in Hs|discriminate Hs]. exists d, s, f. split_and!; [done|done|].
  unfold SECURITY in Hs. rewrite !elem_of_cons, elem_of_nil. intros [->|[->|[->|[->|[]]]]]; done.
Qed.
End Catalog.
