(* ===== verification/WebApi.v ===== *)
(** The requests of the pages on their way to the registry: the routes of
    [web/src/app/api] with their answers, [web/src/lib/account-bff.ts], and the pages on
    top of them.  The requests the routes send are those of [LocalApi.v]; here they are
    found by the address the browser asks for, and the answer goes back. *)
From S2P Require Import Prelude Trace Registry LocalApi Page AccountPage PublisherPages DashboardPage UsagePage.

Module WebApi.
Import Trace Page.
Local Open Scope Z_scope.

(** ** Addresses *)

(** The address up to the query, and the query with its mark. *)
Definition pathname (url : string) : string := (js_span (fun c => negb (Ascii.eqb c "?")) url).1.
Definition search (url : string) : string := (js_span (fun c => negb (Ascii.eqb c "?")) url).2.

(** [URLSearchParams.get] on a query: the value of the first parameter of the name. *)
Definition param_value (name pair : string) : option string :=
  let '(k, v) := js_span (fun c => negb (Ascii.eqb c "=")) pair in
  let plus s := js_replace_all "+" " " s in
  if String.eqb (Registry.decodeURIComponent (plus k)) name then Some (Registry.decodeURIComponent (plus (js_drop 1 v))) else None.
Definition query_get (name query : string) : option string :=
  list_find (fun p => is_Some (param_value name p)) (js_split "&" (js_drop 1 query)) ≫= fun ip => param_value name ip.2.

(** ** The routes *)

(** The files below [web/src/app/api] and the methods each exports; the framework
    answers any other request itself. *)
Definition ROUTES : list (string * list string) :=
  [("/api/account/agreements", ["GET"; "POST"]); ("/api/account/delete", ["POST"]); ("/api/account/logout", ["POST"]);
   ("/api/account/profile", ["GET"]); ("/api/account/security-events", ["GET"]); ("/api/account/sessions", ["GET"; "DELETE"]);
   ("/api/device/approve", ["POST"]); ("/api/system", ["GET"]);
   ("/api/local/v1/health", ["GET"]); ("/api/local/v1/integrations", ["GET"; "POST"]); ("/api/local/v1/limits", ["GET"; "PUT"]);
   ("/api/local/v1/settings", ["GET"; "PUT"]); ("/api/local/v1/snapshot", ["GET"]); ("/api/local/v1/stats", ["GET"]);
   ("/api/local/v1/stop", ["POST"]); ("/api/local/v1/version", ["GET"])].
Definition REGISTRY_METHODS : list string := ["GET"; "POST"; "DELETE"].

Definition routed (rq : page_request) : bool :=
  match obj_get (pathname (pq_url rq)) ROUTES with
  | Some methods => mem_str (pq_method rq) methods
  | None => js_startsWith (pathname (pq_url rq)) "/api/registry/" && mem_str (pq_method rq) REGISTRY_METHODS
  end.

Section api.
(** JSON values as the registry sends them and the field [detail] of one; the text of
    a JSON body; what the framework makes of a segment of the path. *)
Context {J : Type} (detail : J -> option string) (json_text : Registry.RequestBody -> option string) (segment : string -> string).
Context (REGISTRY_URL : string).

(** What the registry answers. *)
Record upstream := mkUp { up_status : Z; up_statusText : string; up_json : result J; up_setCookie : option string }.
Definition up_ok (u : upstream) : bool := (200 <=? up_status u) && (up_status u <? 300).

(** What a route answers. *)
Inductive body := b_json (v : J) | b_error (message : string) | b_ok.
Record answer := mkAns { an_status : Z; an_body : body; an_setCookie : option string }.

(** @src web/src/lib/account-bff.ts jsonOrError *)
Definition jsonOrError (res : upstream) : result answer :=
  if up_ok res then (v ← up_json res; mret (mkAns 200 (b_json v) None))
  else
    let text := pretty (up_status res) +:+ " " +:+ up_statusText res in
    let message :=
      match up_json res with
      | Ok v => if truthy (detail v) then nullish (detail v) "" else text
      | Throw _ => text
      end in
    Ok (mkAns (up_status res) (b_error message) None).

Definition okOrError (res : upstream) : result answer :=
  if negb (up_ok res) then jsonOrError res else Ok (mkAns 200 b_ok None).

(** The sign-out hands on the cookie of the registry, which expires it.
    @src web/src/app/api/account/logout/route.ts POST *)
Definition logout_answer (res : upstream) : result answer :=
  Ok (mkAns 200 b_ok (if truthy (up_setCookie res) then up_setCookie res else None)).

(** The field [userCode] of a body that is JSON. *)
Definition body_user_code (b : Registry.RequestBody) : option string :=
  match b with
  | Registry.rb_json fields =>
      match obj_get "userCode" fields with
      | Some (Registry.jf_string s) => Some s
      | Some (Registry.jf_bool b) => Some (if b then "true" else "")
      | None => None
      end
  | _ => None
  end.

(** What becomes of a request: it is passed on and answered from what comes back, it is
    answered at once, the machine itself is asked, or there is no route. *)
Inductive handling :=
| h_pass (out : LocalApi.outgoing) (reply : upstream -> result answer)
| h_answer (a : answer)
| h_local
| h_none.

Definition pass_or_400 (message : string) (o : LocalApi.outgoing + Z) : handling :=
  match o with inl out => h_pass out okOrError | inr status => h_answer (mkAns status (b_error message) None) end.

(** The segments of the path below [/api/registry]. *)
Definition registry_path (url : string) : list string := map segment (drop 3 (js_split "/" (pathname url))).

(** The handlers of [app/api/registry/[...path]]: a body that is not JSON is dropped.
    @src web/src/app/api/registry/[...path]/route.ts 14-31 POST *)
Definition registry_handling (rq : page_request) (r : LocalApi.request) : handling :=
  h_pass
    (LocalApi.proxy REGISTRY_URL (registry_path (pq_url rq)) (search (pq_url rq)) (pq_method rq)
       (if String.eqb (pq_method rq) "POST" then json_text (pq_body rq) else None) r)
    jsonOrError.

(** The request as the routes see it. *)
Definition seen (cookies : option string) (rq : page_request) : LocalApi.request :=
  LocalApi.mkReq (pq_method rq) (pathname (pq_url rq)) (match cookies with Some c => [("cookie", c)] | None => [] end).

Definition handle (cookies : option string) (rq : page_request) : handling :=
  let r := seen cookies rq in
  let param name := query_get name (search (pq_url rq)) in
  let asks path method := String.eqb (pathname (pq_url rq)) path && String.eqb (pq_method rq) method in
  let json := nullish (json_text (pq_body rq)) "{}" in
  if negb (routed rq) then h_none
  else if asks "/api/account/sessions" "GET" then h_pass (LocalApi.sessions_get REGISTRY_URL r) jsonOrError
  else if asks "/api/account/sessions" "DELETE" then pass_or_400 "missing session id" (LocalApi.sessions_delete REGISTRY_URL (param "id") r)
  else if asks "/api/account/agreements" "GET" then
    h_pass (LocalApi.registryFetch REGISTRY_URL "/api/v1/me/agreements" "GET" None (LocalApi.cookieHeader r)) jsonOrError
  else if asks "/api/account/agreements" "POST" then h_pass (LocalApi.agreements_post REGISTRY_URL json r) jsonOrError
  else if asks "/api/account/profile" "GET" then h_pass (LocalApi.profile_get REGISTRY_URL r) jsonOrError
  else if asks "/api/account/security-events" "GET" then h_pass (LocalApi.security_events_get REGISTRY_URL (param "limit") r) jsonOrError
  else if asks "/api/account/logout" "POST" then h_pass (LocalApi.logout_post REGISTRY_URL r) logout_answer
  else if asks "/api/account/delete" "POST" then h_pass (LocalApi.account_delete_post REGISTRY_URL json r) jsonOrError
  else if asks "/api/device/approve" "POST" then
    pass_or_400 "missing user code"
      (LocalApi.approve_post REGISTRY_URL Registry.encodeURIComponent
         (match body_user_code (pq_body rq) with Some c => Some c | None => param "user_code" end) r)
  else if js_startsWith (pathname (pq_url rq)) "/api/registry/" then registry_handling rq r
  else h_local.
End api.

(** ** Properties *)

(** *** Every request of the pages has a route *)

Definition served (o : out) : Prop := match o with o_send rq => routed rq = true | _ => True end.

Lemma pathname_app p s : js_has_char "?" p = false -> pathname (p +:+ s) = p +:+ pathname s.
Proof. intros Hp. unfold pathname. by rewrite span_app by (by apply no_char_all). Qed.

Lemma search_app p s : js_has_char "?" p = false -> search (p +:+ String "?" s) = String "?" s.
Proof. intros Hp. unfold search. by rewrite span_app by (by apply no_char_all). Qed.

Lemma pathname_query p s : js_has_char "?" p = false -> pathname (p +:+ String "?" s) = p.
Proof. intros Hp. rewrite pathname_app by done. apply sapp_nil_r. Qed.

Lemma routed_registry method rest headers b : method ∈ REGISTRY_METHODS -> routed (mkPageReq method ("/api/registry/" +:+ rest) headers b) = true.
Proof. intros Hm%mem_str_spec. unfold routed. cbn [pq_url pq_method]. rewrite pathname_app by done. generalize (pathname rest). intros x.
  assert (obj_get ("/api/registry/" +:+ x) ROUTES = None) as -> by reflexivity. by rewrite startsWith_app. Qed.

Lemma routed_query method path query headers b methods : js_has_char "?" path = false -> obj_get path ROUTES = Some methods ->
  method ∈ methods -> routed (mkPageReq method (path +:+ String "?" query) headers b) = true.
Proof. intros Hq Hp Hm%mem_str_spec. unfold routed. cbn [pq_url pq_method]. by rewrite pathname_query, Hp. Qed.

Inductive account_handlers : (AccountPage.account_ui -> M AccountPage.account_ui AccountPage.answer unit) -> Prop :=
| ah_load : account_handlers (fun _ => AccountPage.refresh)
| ah_do a typed : account_handlers (AccountPage.handler a typed).
Inductive console_handlers : (PublisherPages.load_state PublisherPages.console -> M _ PublisherPages.canswer unit) -> Prop :=
| ch_load : console_handlers (fun _ => PublisherPages.console_refresh).
Inductive review_handlers : (PublisherPages.review_ui -> M _ PublisherPages.ranswer unit) -> Prop :=
| rh_load : review_handlers (fun _ => PublisherPages.review_refresh)
| rh_do a typed : review_handlers (PublisherPages.review_handler a typed).
Inductive device_handlers : (PublisherPages.device_ui -> M _ PublisherPages.danswer unit) -> Prop :=
| dh_approve code : device_handlers (fun _ => PublisherPages.approve Registry.encodeURIComponent code)
| dh_submit input : device_handlers (fun _ => PublisherPages.submit_code Registry.encodeURIComponent input).
Inductive dashboard_handlers : (DashboardPage.dash_ui -> M _ DashboardPage.answer unit) -> Prop :=
| bh_load : dashboard_handlers (fun _ => DashboardPage.refresh).
Inductive usage_handlers (date_text : Z -> string) (offset loaded : Z) : (UsagePage.usage_ui -> M _ UsagePage.answer unit) -> Prop :=
| uh_settings : usage_handlers date_text offset loaded (fun _ => UsagePage.loadSettings)
| uh_tick : usage_handlers date_text offset loaded (UsagePage.tick date_text offset loaded)
| uh_do a typed : usage_handlers date_text offset loaded (UsagePage.handler date_text offset loaded a typed).

Lemma stats_routed from : routed (UsagePage.stats_request from) = true.
Proof. unfold UsagePage.stats_request. destruct (truthy from); [|reflexivity]. apply (routed_query "GET" "/api/local/v1/stats" _ [] Registry.rb_none ["GET"]); [done|done|left]. Qed.

Lemma usage_served date_text offset loaded handler u : usage_handlers date_text offset loaded handler -> only (fun _ => True) served (handler u).
Proof.
  assert (Hr : forall from, only (fun _ => True) served (UsagePage.refresh from)) by (intros from; unfold UsagePage.refresh; page_only; try done; apply stats_routed).
  intros [| |a typed]; [unfold UsagePage.loadSettings; page_only; done|apply Hr|].
  destruct a; cbn [UsagePage.handler]; [unfold UsagePage.choose; page_only; try done; apply Hr|page_only; done..|].
  unfold UsagePage.saveSettings. page_only; done.
Qed.

(** Whatever the user does on a page, and in whatever order the answers come, each
    request it sends is one that some route of the application answers: the paths and
    methods of the pages and of the routes fit together. *)
Theorem pages_served date_text offset loaded :
  (forall pg, reach account_handlers AccountPage.initial pg -> Forall served (outs pg)) /\
  (forall pg, reach console_handlers PublisherPages.ls_loading pg -> Forall served (outs pg)) /\
  (forall start pg, reach review_handlers start pg -> Forall served (outs pg)) /\
  (forall start pg, reach device_handlers start pg -> Forall served (outs pg)) /\
  (forall pg, reach dashboard_handlers DashboardPage.initial pg -> Forall served (outs pg)) /\
  (forall pg, reach (usage_handlers date_text offset loaded) UsagePage.initial pg -> Forall served (outs pg)).
Proof.
  split_and!; intros *; (intros Hr; eapply (reach_tame (fun _ => True)) in Hr as (_ & Ho & _); [exact Ho| |done]); intros handler u Hh _.
  - assert (Hf : only (fun _ => True) served AccountPage.refresh) by (unfold AccountPage.refresh, AccountPage.load_account; page_only; done).
    destruct Hh as [|[]]; cbn [AccountPage.handler]; unfold AccountPage.acceptAll, AccountPage.revoke, AccountPage.deleteAccount, AccountPage.logout;
      page_only; try apply Hf; done.
  - destruct Hh. unfold PublisherPages.console_refresh. page_only; done.
  - assert (Hf : only (fun _ => True) served PublisherPages.review_refresh) by (unfold PublisherPages.review_refresh; page_only; done).
    destruct Hh as [|[]]; cbn [PublisherPages.review_handler]; try apply Hf; [page_only; done..|].
    unfold PublisherPages.submit. page_only; try apply Hf; try done. apply routed_registry. right. left.
  - destruct Hh as [code|input]; [|unfold PublisherPages.submit_code; page_only; done]. unfold PublisherPages.approve.
    page_only; done.
  - destruct Hh. unfold DashboardPage.refresh. page_only; done.
  - by eapply usage_served.
Qed.

(** *** What reaches the registry *)

Lemma replace_none c r s : js_has_char c s = false -> js_replace_all c r s = s.
Proof.
  induction s as [|x s IH]; [done|]. cbn. intros [Hx Hs]%orb_false_elim. fold (js_replace_all c r). rewrite IH by done.
  apply Ascii.eqb_neq in Hx. by destruct (Ascii.eqb_spec x c); [congruence|].
Qed.

Lemma decode_none s : js_has_char "%" s = false -> Registry.decodeURIComponent s = s.
Proof.
  induction s as [|c s IH]; [done|]. cbn. intros [Hc Hs]%orb_false_elim. rewrite IH by done.
  apply Ascii.eqb_neq in Hc. by destruct (Ascii.eqb_spec c "%"); [congruence|].
Qed.

(** A query of one parameter. *)
Lemma query_get_one name v : Forall (fun c => js_has_char c name = false) ["="; "&"; "+"; "%"]%char ->
  js_has_char "&" v = false -> js_has_char "+" v = false ->
  query_get name (String "?" (name +:+ String "=" v)) = Some (Registry.decodeURIComponent v).
Proof.
  intros Hn Hv Hp. apply Forall_cons in Hn as [He Hn]. apply Forall_cons in Hn as [Ha Hn].
  apply Forall_cons in Hn as [Hpl Hn]. apply Forall_cons in Hn as [Hpc _]. unfold query_get.
  change (js_drop 1 (String "?" (name +:+ String "=" v))) with (name +:+ String "=" v).
  assert (js_split "&" (name +:+ String "=" v) = [name +:+ String "=" v]) as ->.
  { unfold js_split. apply split_by_none. intros c <-%Ascii.eqb_eq. rewrite has_char_app, Ha. cbn. exact Hv. }
  assert (Hval : param_value name (name +:+ String "=" v) = Some (Registry.decodeURIComponent v)).
  { unfold param_value. rewrite span_app by (by apply no_char_all). cbn. rewrite sapp_nil_r.
    by rewrite !replace_none, decode_none, String.eqb_refl. }
  cbn [list_find]. destruct (decide _) as [|Hno]; [cbn; by rewrite Hval|]. destruct Hno. by rewrite Hval.
Qed.

Lemma number_no_char c z : number_char c = false -> js_has_char c (pretty (z : Z)) = false.
Proof. intros Hc. exact (all_no_char _ _ _ (pretty_chars z) Hc). Qed.

Lemma encode_no_plus_amp s : js_has_char "&" (Registry.encodeURIComponent s) = false /\ js_has_char "+" (Registry.encodeURIComponent s) = false.
Proof.
  induction s as [|c s [IH1 IH2]]; [done|]. rewrite Registry.encode_cons, !has_char_app, IH1, IH2, !orb_false_r.
  destruct c as [[] [] [] [] [] [] [] []]; by split.
Qed.

Lemma encode_plain s : js_all Registry.uri_unreserved s = true -> Registry.encodeURIComponent s = s.
Proof. induction s as [|c s IH]; [done|]. cbn [js_all]. intros [Hc Hs]%andb_true_iff. by rewrite Registry.encode_cons, Hc, IH. Qed.

Lemma plain_no_char c s : Registry.uri_unreserved c = false -> js_all Registry.uri_unreserved s = true -> js_has_char c s = false.
Proof. intros Hc Hs. by eapply all_no_char. Qed.

Section agree.
Context {J : Type} (detail : J -> option string) (json_text : Registry.RequestBody -> option string) (segment : string -> string).
Context (REGISTRY_URL : string) (cookies : option string).
(** The framework leaves a segment without special characters as it is. *)
Context (Hsegment : forall s, js_all Registry.uri_unreserved s = true -> segment s = s).
Local Abbreviation handle := (handle detail json_text segment REGISTRY_URL cookies).

(** The method and the address of the one request a call of the client sends. *)
Definition client_sends (c : Registry.call) (method url : string) : Prop :=
  forall fetch token h, exists rq, (Registry.perform fetch REGISTRY_URL token c h).1 = h ++ [rq] /\
    Registry.rq_method rq = method /\ Registry.rq_url rq = url.

(** The route of a page's request asks the registry for what the client's call asks. *)
Definition agrees (rq : page_request) (c : Registry.call) : Prop :=
  exists out reply, handle rq = h_pass out reply /\ client_sends c (LocalApi.og_method out) (LocalApi.og_url out).

Lemma client_gets k path method headers b fetch token h {A} (f : Registry.Response (Registry.answer_type k) -> Trace.tr Registry.Request A) :
  (forall r h, (f r h).1 = h) ->
  exists rq, (Registry.ignore_result (Registry.request fetch REGISTRY_URL token k path method headers b ≫= f) h).1 = h ++ [rq] /\
    Registry.rq_method rq = method /\ Registry.rq_url rq = REGISTRY_URL +:+ path.
Proof.
  intros Hf. exists (Registry.the_request REGISTRY_URL token path method headers b). split; [|done].
  apply Trace.bind_quiet; [|done]. apply Trace.bind_quiet; [apply Registry.request_run|done].
Qed.

Lemma client_discards k path method fetch token h :
  exists rq, (Registry.discard fetch REGISTRY_URL token k path method h).1 = h ++ [rq] /\
    Registry.rq_method rq = method /\ Registry.rq_url rq = REGISTRY_URL +:+ path.
Proof.
  exists (Registry.the_request REGISTRY_URL token path method [] Registry.rb_none). split; [|done].
  apply Trace.bind_quiet; [apply Registry.request_run|done].
Qed.

Lemma registry_handled method segs headers b :
  method ∈ REGISTRY_METHODS -> segs <> [] -> Forall (fun s => js_all Registry.uri_unreserved s = true) segs ->
  exists out, handle (mkPageReq method ("/api/registry/" +:+ js_join "/" segs) headers b) = h_pass out (jsonOrError detail) /\
    LocalApi.og_method out = method /\ LocalApi.og_url out = REGISTRY_URL +:+ "/api/v1/" +:+ js_join "/" segs.
Proof.
  intros Hm Hne Hs.
  assert (Hq : js_has_char "?" (js_join "/" segs) = false).
  { clear Hne. induction Hs as [|w l Hw Hl IH]; [done|]. destruct l as [|w' l]; [by apply (plain_no_char "?")|].
    rewrite join_cons, !has_char_app, IH by done. by rewrite (plain_no_char "?") by done. }
  assert (Hpath : pathname ("/api/registry/" +:+ js_join "/" segs) = "/api/registry/" +:+ js_join "/" segs /\
    search ("/api/registry/" +:+ js_join "/" segs) = "").
  { unfold pathname, search. rewrite span_all; [done|]. rewrite all_app. by rewrite (no_char_all _ _ Hq). }
  destruct Hpath as [Hp Hsr].
  assert (Hother : forall p, js_startsWith p "/api/registry/" = false -> String.eqb ("/api/registry/" +:+ js_join "/" segs) p = false).
  { intros p Hp'. apply String.eqb_neq. intros <-. by rewrite startsWith_app in Hp'. }
  unfold WebApi.handle. rewrite routed_registry by done. cbn [negb pq_url pq_method pq_body]. rewrite !Hp, !Hother by reflexivity.
  rewrite startsWith_app. cbn [andb]. eexists. split; [reflexivity|]. cbn [LocalApi.proxy LocalApi.registryFetch LocalApi.og_method LocalApi.og_url]. split; [done|].
  unfold registry_path. cbn [pq_url]. rewrite Hp, Hsr. unfold LocalApi.target. rewrite sapp_nil_r. do 2 f_equal. 
  assert (Hsplit : js_split "/" ("/api/registry/" +:+ js_join "/" segs) = ["" ; "api"; "registry"] ++ segs).
  { rewrite <- (split_join "/" (["" ; "api"; "registry"] ++ segs)); [|done|].
    - f_equal. change (js_join (str1 "/") (["" ; "api"; "registry"] ++ segs)) with (js_join "/" (["" ; "api"; "registry"] ++ segs)). cbn [app].
      by rewrite !join_cons by done.
    - apply Forall_app. split; [by repeat constructor|]. eapply Forall_impl; [exact Hs|]. intros s Hs'. by apply (plain_no_char "/"). }
  rewrite Hsplit. cbn [app drop]. f_equal. transitivity (map id segs); [|apply map_id]. apply map_ext_Forall.
  eapply Forall_impl; [exact Hs|]. intros s Hs'. by apply Hsegment.
Qed.

Lemma registry_agrees method segs headers b c :
  method ∈ REGISTRY_METHODS -> segs <> [] -> Forall (fun s => js_all Registry.uri_unreserved s = true) segs ->
  client_sends c method (REGISTRY_URL +:+ "/api/v1/" +:+ js_join "/" segs) ->
  agrees (mkPageReq method ("/api/registry/" +:+ js_join "/" segs) headers b) c.
Proof.
  intros Hm Hne Hs Hc. destruct (registry_handled method segs headers b Hm Hne Hs) as (out & Hh & Hom & Hou).
  exists out, (jsonOrError detail). by rewrite Hom, Hou.
Qed.

(** The pages and the client of the command line ask the registry for the same: each
    request of a page for the account, the publisher and the reviewer goes out with
    the method and the address of the client's call, for a review as long as the
    names need no escaping in an address. *)
Theorem pages_agree_with_client item (action : Registry.ReviewAction) reason id :
  agrees (get "/api/account/sessions") Registry.c_mySessions /\
  agrees (mkPageReq "DELETE" ("/api/account/sessions?id=" +:+ pretty (id : Z)) [] Registry.rb_none) (Registry.c_revokeSession id) /\
  agrees (get "/api/account/agreements") Registry.c_myAgreements /\
  (forall b, agrees (mkPageReq "POST" "/api/account/agreements" AccountPage.json_header b) (Registry.c_acceptAgreements true true true)) /\
  agrees AccountPage.logout_request Registry.c_logout /\
  agrees PublisherPages.overview_request Registry.c_publisherOverview /\
  agrees PublisherPages.packages_request Registry.c_publisherPackages /\
  agrees PublisherPages.activity_request Registry.c_publisherActivity /\
  agrees PublisherPages.queue_request Registry.c_reviewQueue /\
  (let ns := PublisherPages.it_namespace item in let nm := PublisherPages.it_name item in let v := PublisherPages.it_version item in
   Forall (fun s => js_all Registry.uri_unreserved s = true) [ns; nm; v] ->
   agrees (PublisherPages.review_request item (PublisherPages.mkChoice (Registry.action_name action) reason))
          (Registry.c_reviewVersion ns nm v action reason None)).
Proof.
  split_and!.
  - eexists _, _. split; [reflexivity|]. intros fetch token h. by apply (client_gets Registry.k_sessions).
  - eexists (LocalApi.registryFetch REGISTRY_URL ("/api/v1/sessions/" +:+ pretty id) "DELETE" None _), _.
    split; [|intros fetch token h; by apply (client_discards Registry.k_ignored)]. unfold WebApi.handle. cbn [pq_url pq_method pq_body].
    change ("/api/account/sessions?id=" +:+ pretty id) with ("/api/account/sessions" +:+ String "?" ("id" +:+ String "=" (pretty id))).
    rewrite (routed_query "DELETE" "/api/account/sessions" _ [] Registry.rb_none ["GET"; "DELETE"]) by (done || (right; left)).
    rewrite pathname_query, search_app by done. rewrite query_get_one by (try apply number_no_char; repeat constructor).
    rewrite decode_none by (by apply number_no_char). cbn -[pretty LocalApi.sessions_delete].
    unfold LocalApi.sessions_delete, truthy. cbn [nullish from_option].
    pose proof (pretty_nonempty id) as Hid. apply String.eqb_neq in Hid. rewrite Hid. reflexivity.
  - eexists _, _. split; [reflexivity|]. intros fetch token h. by apply (client_gets Registry.k_agreements).
  - intros b. eexists _, _. split; [reflexivity|]. intros fetch token h. by apply (client_gets Registry.k_agreements).
  - eexists _, _. split; [reflexivity|]. intros fetch token h. by apply (client_discards Registry.k_ignored).
  - apply (registry_agrees "GET" ["me"; "overview"]); [left|done|by repeat constructor|]. intros fetch token h. by apply (client_gets Registry.k_overview).
  - apply (registry_agrees "GET" ["me"; "packages"]); [left|done|by repeat constructor|]. intros fetch token h. by apply (client_gets Registry.k_packages).
  - apply (registry_agrees "GET" ["me"; "activity"]); [left|done|by repeat constructor|]. intros fetch token h. by apply (client_gets Registry.k_activity).
  - apply (registry_agrees "GET" ["admin"; "review-queue"]); [left|done|by repeat constructor|]. intros fetch token h. by apply (client_gets Registry.k_queue).
  - intros ns nm v Hs. apply Forall_cons in Hs as [Hns Hs]. apply Forall_cons in Hs as [Hnm Hs]. apply Forall_cons in Hs as [Hv _].
    unfold PublisherPages.review_request. fold ns nm v.
    apply (registry_agrees "POST" ["admin"; "agents"; ns; nm; "versions"; v; "review"]); [right; left|done|by repeat constructor|].
    intros fetch token h. cbn [Registry.perform]. unfold Registry.reviewVersion. rewrite !encode_plain by done.
    by apply (client_gets Registry.k_review).
Qed.
End agree.

(** *** The answers *)
Section answers.
Context {J : Type} (detail : J -> option string) (json_text : Registry.RequestBody -> option string) (segment : string -> string).
Context (REGISTRY_URL : string) (cookies : option string).
Local Abbreviation handle := (handle detail json_text segment REGISTRY_URL cookies).

Lemma jsonOrError_status (u : upstream) a : jsonOrError detail u = Ok a ->
  (up_ok u = true -> an_status a = 200) /\
  (up_ok u = false -> an_status a = up_status u /\ exists m, an_body a = b_error m).
Proof.
  unfold jsonOrError. destruct (up_ok u); [|intros [= <-]; split; [done|]; by split; [|eexists]].
  destruct (up_json u); cbn; [|done]. by intros [= <-].
Qed.

Definition passes_on (rq : page_request) (h : handling (J := J)) : Prop :=
  forall out (reply : upstream (J := J) -> result (answer (J := J))), h = h_pass out reply ->
  (exists path, LocalApi.og_url out = REGISTRY_URL +:+ "/api/v1/" +:+ path) /\
  LocalApi.og_headers out = ("content-type", "application/json") :: (if truthy cookies then [("cookie", nullish cookies "")] else []) /\
  LocalApi.og_method out = pq_method rq /\
  forall u a, reply u = Ok a -> pathname (pq_url rq) <> "/api/account/logout" ->
    (up_ok u = true -> an_status a = 200) /\ (up_ok u = false -> an_status a = up_status u /\ exists m, an_body a = b_error m).

Lemma passes_fetch rq path method b r reply :
  LocalApi.cookieHeader r = cookies -> method = pq_method rq -> js_startsWith path "/api/v1/" = true ->
  (forall u a, reply u = Ok a -> pathname (pq_url rq) <> "/api/account/logout" ->
    (up_ok u = true -> an_status a = 200) /\ (up_ok u = false -> an_status a = up_status u /\ exists m, an_body a = b_error (J := J) m)) ->
  passes_on rq (h_pass (LocalApi.registryFetch REGISTRY_URL path method b (LocalApi.cookieHeader r)) reply).
Proof.
  intros Hc -> [p ->]%startsWith_spec Hr out reply' [= <- <-]. rewrite Hc. cbn. split_and!; [by exists p|done|done|done].
Qed.

Lemma okOrError_status (u : upstream) a : okOrError detail u = Ok a ->
  (up_ok u = true -> an_status a = 200) /\ (up_ok u = false -> an_status a = up_status u /\ exists m, an_body a = b_error m).
Proof. unfold okOrError. destruct (up_ok u) eqn:Hu; cbn [negb]; [by intros [= <-]|]. intros H%jsonOrError_status. by rewrite Hu in H. Qed.

(** What a route passes on goes to the registry, below its API, with the method of the
    page and the cookies of the browser and no other header but the type; and the page
    gets the status of the registry, with a message, unless all went well.  Signing out
    is the exception. *)
Theorem routes_pass_on rq : passes_on rq (handle rq).
Proof.
  assert (Hc : LocalApi.cookieHeader (seen cookies rq) = cookies) by (unfold seen, LocalApi.cookieHeader, LocalApi.header; by destruct cookies).
  assert (Hm : forall path m, String.eqb (pathname (pq_url rq)) path && String.eqb (pq_method rq) m = true -> m = pq_method rq)
    by (intros path m [_ H]%andb_true_iff; by apply String.eqb_eq in H).
  unfold WebApi.handle, LocalApi.sessions_get, LocalApi.agreements_post, LocalApi.profile_get, LocalApi.security_events_get,
    LocalApi.logout_post, LocalApi.account_delete_post, LocalApi.sessions_delete, LocalApi.approve_post.
  repeat match goal with |- passes_on _ (if ?b then _ else _) => destruct b eqn:? end; try done;
    unfold pass_or_400; repeat match goal with |- passes_on _ (match (if ?b then _ else _) with _ => _ end) => destruct b end; try done.
  all: apply passes_fetch; try done; try (by eapply Hm); try (intros u a Ha _; first [by apply jsonOrError_status|by apply okOrError_status]).
  - intros u a _ Hl. destruct Hl. match goal with H : _ && _ = true |- _ => apply andb_true_iff in H as [H _]; by apply String.eqb_eq in H end.
  - apply startsWith_app.
Qed.
End answers.

(** ** The account page on top of the routes and the registry *)
Section compose.
Context {J : Type} (detail : J -> option string) (json_text : Registry.RequestBody -> option string) (segment : string -> string).
Context (REGISTRY_URL : string) (cookies : option string).
Local Abbreviation handle := (handle detail json_text segment REGISTRY_URL cookies).

(** The registry, by the requests it had before; [Throw] when it cannot be reached. *)
Context (registry : list LocalApi.outgoing -> LocalApi.outgoing -> result (upstream (J := J))).

(** How the page reads a JSON value. *)
Context (decode : forall k, J -> result (AccountPage.payload k)).

Definition read_body (k : AccountPage.akind) (b : body (J := J)) : result (AccountPage.payload k) :=
  match b with
  | b_json v => decode k v
  | b_error m => match k with AccountPage.k_ignored => Ok tt | AccountPage.k_error => Ok (Some m) | _ => throw EError "an error" end
  | b_ok => match k with AccountPage.k_ignored => Ok tt | AccountPage.k_error => Ok None | _ => throw EError "no value" end
  end.

(** The requests the registry has from what the page sent. *)
Definition passed (rq : page_request) : list LocalApi.outgoing := match handle rq with h_pass out _ => [out] | _ => [] end.
Definition asked (h : list out) : list LocalApi.outgoing := flat_map (fun o => match o with o_send rq => passed rq | _ => [] end) h.

(** A route that throws is answered with 500 and no JSON, a missing one with 404. *)
Definition respond (k : AccountPage.akind) (h : list out) (rq : page_request) : AccountPage.answer k :=
  let broken status := mkReply status (throw EError "Unexpected end of JSON input") in
  match handle rq with
  | h_pass out reply =>
      match (u ← registry (asked h) out; reply u) with
      | Ok a => mkReply (an_status a) (read_body k (an_body a))
      | Throw _ => broken 500
      end
  | h_answer a => mkReply (an_status a) (read_body k (an_body a))
  | h_local | h_none => broken 404
  end.

Definition through (h : list out) (k : AccountPage.akind) : result (AccountPage.answer k) :=
  match rev h with
  | o_send rq :: before => Ok (respond k (rev before) rq)
  | _ => throw EError "nothing was asked"
  end.

Lemma through_last l rq k : through (l ++ [o_send rq]) k = Ok (respond k l rq).
Proof. unfold through. rewrite rev_app_distr. cbn [rev app]. by rewrite rev_involutive. Qed.

(** The page's requests as the registry sees them. *)
Definition below (path method : string) (b : option string) : LocalApi.outgoing := LocalApi.registryFetch REGISTRY_URL path method b cookies.

Lemma seen_cookies rq : LocalApi.cookieHeader (seen cookies rq) = cookies.
Proof. unfold seen, LocalApi.cookieHeader, LocalApi.header. by destruct cookies. Qed.

Lemma handle_sessions : handle (get "/api/account/sessions") = h_pass (below "/api/v1/sessions" "GET" None) (jsonOrError detail).
Proof. unfold below. rewrite <- (seen_cookies (get "/api/account/sessions")) at 2. reflexivity. Qed.

Definition account_outs : list LocalApi.outgoing :=
  map (fun path => below path "GET" None)
    ["/api/v1/sessions"; "/api/v1/me/agreements"; "/api/v1/me/profile"; "/api/v1/me/security-events?limit=50"].

(** What the registry's answer is to the page: [None] when the route answers with a
    failure, otherwise the value as the page reads it. *)
Definition received (k : AccountPage.akind) (r : result (upstream (J := J))) : option (result (AccountPage.payload k)) :=
  match r with
  | Ok up => if up_ok up then match up_json up with Ok v => Some (decode k v) | Throw _ => None end else None
  | Throw _ => None
  end.

Lemma respond_received k h rq o :
  handle rq = h_pass o (jsonOrError detail) ->
  match received k (registry (asked h) o) with
  | Some x => rp_ok (respond k h rq) = true /\ rp_json (respond k h rq) = x
  | None => rp_ok (respond k h rq) = false
  end.
Proof.
  intros Hh. unfold respond, received. rewrite Hh. destruct (registry (asked h) o) as [up|e]; cbn; [|done]. unfold jsonOrError.
  destruct (up_ok up) eqn:Hu; [by destruct (up_json up)|exact Hu].
Qed.

Lemma handle_account i rq o :
  AccountPage.asks_account !! i = Some (o_send rq) -> account_outs !! i = Some o -> handle rq = h_pass o (jsonOrError detail).
Proof.
  intros Hrq Ho. do 4 (destruct i as [|i]; [injection Hrq as <-; injection Ho as <-; unfold below;
    match goal with |- handle ?rq = _ => rewrite <- (seen_cookies rq) at 2 end; reflexivity|]). by destruct i.
Qed.

Lemma passed_account i rq o :
  AccountPage.asks_account !! i = Some (o_send rq) -> account_outs !! i = Some o -> passed rq = [o].
Proof. intros Hrq Ho. unfold passed. by rewrite (handle_account i rq o). Qed.

(** The page's requests to the routes are the registry's requests. *)
Lemma asked_account l i : asked (l ++ take i AccountPage.asks_account) = asked l ++ take i account_outs.
Proof.
  unfold asked. rewrite List.flat_map_app. f_equal.
  pose proof (passed_account 0 _ _ eq_refl eq_refl) as H0. pose proof (passed_account 1 _ _ eq_refl eq_refl) as H1.
  pose proof (passed_account 2 _ _ eq_refl eq_refl) as H2. pose proof (passed_account 3 _ _ eq_refl eq_refl) as H3.
  unfold AccountPage.asks_account, account_outs.
  do 4 (destruct i as [|i]; [cbn [map take flat_map]; by rewrite ?H0, ?H1, ?H2, ?H3|]).
  cbn [map take flat_map]. rewrite H0, H1, H2, H3. by destruct i.
Qed.

Lemma through_account l i rq k :
  AccountPage.asks_account !! i = Some (o_send rq) ->
  through (l ++ take (S i) AccountPage.asks_account) k = Ok (respond k (l ++ take i AccountPage.asks_account) rq).
Proof.
  intros Hrq. rewrite (take_S_r _ _ _ Hrq). by rewrite app_assoc, through_last.
Qed.

(** What the page shows of a part that it can do without. *)
Definition shown_or {B} (k : AccountPage.akind) (r : result (upstream (J := J))) (f : AccountPage.payload k -> B) (default : B) : result B :=
  match received k r with Some x => v ← x; mret (f v) | None => Ok default end.

Lemma part_read {B} k h rq o (f : AccountPage.payload k -> B) default b :
  handle rq = h_pass o (jsonOrError detail) -> shown_or k (registry (asked h) o) f default = Ok b ->
  AccountPage.read_or (respond k h rq) f default = Ok b.
Proof.
  intros Hh. pose proof (respond_received k h rq o Hh) as Hr. unfold shown_or, AccountPage.read_or.
  destruct (received k (registry (asked h) o)) as [x|]; [destruct Hr as [-> ->]|rewrite Hr]; done.
Qed.

(** C39: Loading the account.  When the registry knows no user, the page shows that
    nobody is signed in; when it fails or cannot be reached, nobody and the status.
    When it sends sessions in answer to the request with the cookies of the browser,
    the page shows somebody signed in, with these sessions and with the agreements,
    the profile and the security events the registry sends, or nothing of what it
    fails to send; only an answer of the registry that is not what it promises, so
    that the page cannot read it, ends in an error.  And somebody is shown signed in
    only then. *)
Theorem account_through_registry u l :
  let r i := registry (asked l ++ take i account_outs) (nth i account_outs (below "" "" None)) in
  let shown := AccountPage.state (solo through AccountPage.refresh u l).1.1 in
  (forall up, r 0%nat = Ok up -> up_status up = 401 -> shown = AccountPage.emptyState) /\
  (forall e, r 0%nat = Throw e -> AccountPage.signedIn shown = false /\ AccountPage.error shown = Some "sessions API returned 500") /\
  (forall up, r 0%nat = Ok up -> up_ok up = false -> up_status up <> 401 ->
     AccountPage.signedIn shown = false /\ AccountPage.error shown = Some ("sessions API returned " +:+ pretty (up_status up))) /\
  (forall up v sessions agreements profile events,
     r 0%nat = Ok up -> up_ok up = true -> up_json up = Ok v -> decode AccountPage.k_sessions v = Ok sessions ->
     shown_or AccountPage.k_agreements (r 1%nat) id AccountPage.EMPTY_AGREEMENTS = Ok agreements ->
     shown_or AccountPage.k_profile (r 2%nat) Some None = Ok profile ->
     shown_or AccountPage.k_events (r 3%nat) id [] = Ok events ->
     shown = AccountPage.mkAccount true sessions agreements profile events None) /\
  (AccountPage.signedIn shown = true -> exists up v, r 0%nat = Ok up /\ up_ok up = true /\ up_json up = Ok v /\
     decode AccountPage.k_sessions v = Ok (AccountPage.sessions shown) /\ AccountPage.error shown = None).
Proof.
  intros r. assert (Hr0 : r 0%nat = registry (asked l) (below "/api/v1/sessions" "GET" None)) by (unfold r; cbn; by rewrite app_nil_r).
  destruct (AccountPage.account_refresh_spec through u l) as (_ & H401 & Hfail & Hin). rewrite !through_last in H401, Hfail, Hin.
  assert (Hresp : respond AccountPage.k_sessions l (get "/api/account/sessions") =
    match (up ← r 0%nat; jsonOrError detail up) with
    | Ok a => mkReply (an_status a) (read_body AccountPage.k_sessions (an_body a))
    | Throw _ => mkReply 500 (throw EError "Unexpected end of JSON input")
    end) by (unfold respond; by rewrite handle_sessions, Hr0).
  rewrite Hresp in H401, Hfail, Hin. clear Hresp. intros shown. fold shown in H401, Hfail, Hin.
  split_and!.
  - intros up Hu Hs. rewrite Hu in H401. cbn in H401. unfold jsonOrError in H401. assert (up_ok up = false) as Hok by (unfold up_ok; by rewrite Hs).
    rewrite Hok in H401. by eapply H401.
  - intros e Hu. rewrite Hu in Hfail. cbn in Hfail. by rewrite (Hfail _ eq_refl).
  - intros up Hu Hok Hs. rewrite Hu in Hfail. cbn in Hfail. unfold jsonOrError in Hfail. rewrite Hok in Hfail. by rewrite (Hfail _ eq_refl).
  - intros up v ss ag pr ev Hu Hok Hj Hd Ha Hp He.
    assert (Hs : received AccountPage.k_sessions (r 0%nat) = Some (Ok ss)) by (unfold received; by rewrite Hu, Hok, Hj, Hd).
    unfold r in Hs, Ha, Hp, He. rewrite <- asked_account in Hs, Ha, Hp, He.
    pose proof (respond_received AccountPage.k_sessions (l ++ take 0 AccountPage.asks_account) _ (nth 0 account_outs (below "" "" None)) (handle_account 0 _ _ eq_refl eq_refl)) as Hsr. rewrite Hs in Hsr. destruct Hsr as [Hsok Hsj].
    exact (AccountPage.refresh_signed_in through u l _ _ _ _ ss ag pr ev (through_account l 0 _ _ eq_refl) Hsok Hsj
             (through_account l 1 _ _ eq_refl) (part_read _ _ _ _ _ _ _ (handle_account 1 _ _ eq_refl eq_refl) Ha)
             (through_account l 2 _ _ eq_refl) (part_read _ _ _ _ _ _ _ (handle_account 2 _ _ eq_refl eq_refl) Hp)
             (through_account l 3 _ _ eq_refl) (part_read _ _ _ _ _ _ _ (handle_account 3 _ _ eq_refl eq_refl) He)).
  - intros Hsi. destruct (Hin Hsi) as (rp & Hr & Hok & Hj & He). destruct (r 0%nat) as [up|e]; cbn in Hr; [|injection Hr as <-; done].
    unfold jsonOrError in Hr. destruct (up_ok up) eqn:Hu; [|injection Hr as <-; done].
    destruct (up_json up) as [v|e] eqn:Hv; cbn in Hr; injection Hr as <-; [|done]. by exists up, v.
Qed.

Lemma handle_logout : handle AccountPage.logout_request = h_pass (below "/api/v1/logout" "POST" None) logout_answer.
Proof. unfold below. rewrite <- (seen_cookies AccountPage.logout_request) at 2. reflexivity. Qed.

Definition delete_out : LocalApi.outgoing := below "/api/v1/me/delete" "POST" (Some (nullish (json_text (pq_body AccountPage.delete_request)) "{}")).
Lemma handle_delete : handle AccountPage.delete_request = h_pass delete_out (jsonOrError detail).
Proof. unfold delete_out, below. rewrite <- (seen_cookies AccountPage.delete_request) at 2. reflexivity. Qed.

Lemma asked_app h h' : asked (h ++ h') = asked h ++ asked h'.
Proof. unfold asked. by rewrite List.flat_map_app. Qed.

(** Signing out is taken for done: whether the registry ends the session, refuses, fails
    or cannot be reached, the page goes on as if nobody were signed in. *)
Theorem sign_out_believed u l :
  solo through AccountPage.logout u l = (u, l ++ [o_send AccountPage.logout_request; o_goto "/account"], Ok tt) /\
  asked (l ++ [o_send AccountPage.logout_request; o_goto "/account"]) = asked l ++ [below "/api/v1/logout" "POST" None].
Proof.
  split.
  - unfold AccountPage.logout. autorewrite with page. fold AccountPage.logout_request. rewrite through_last. autorewrite with page. by rewrite <- app_assoc.
  - rewrite asked_app. cbn. unfold passed. by rewrite handle_logout.
Qed.

Lemma respond_delete l : respond AccountPage.k_error l AccountPage.delete_request =
  let broken := mkReply 500 (throw EError "Unexpected end of JSON input") in
  match registry (asked l) delete_out with
  | Ok up =>
      if up_ok up then match up_json up with Ok v => mkReply 200 (decode AccountPage.k_error v) | Throw _ => broken end
      else mkReply (up_status up) (Ok (Some (match up_json up with
          | Ok v => if truthy (detail v) then nullish (detail v) "" else pretty (up_status up) +:+ " " +:+ up_statusText up
          | Throw _ => pretty (up_status up) +:+ " " +:+ up_statusText up
          end)))
  | Throw _ => broken
  end.
Proof.
  unfold respond. rewrite handle_delete. destruct (registry _ _) as [up|e]; [|done]. cbn. unfold jsonOrError.
  destruct (up_ok up); [|done]. by destruct (up_json up).
Qed.

(** Deleting the account, once the words are typed: the page leaves exactly when the
    registry says, readably, that it is done, after it asked for the end of the
    session; otherwise it stays and shows what the registry gave as the reason, or
    that the deletion failed. *)
Theorem deletion_through_registry rendered u l :
  AccountPage.deleteConfirm rendered = AccountPage.phrase ->
  let '(u', l', r) := solo through (AccountPage.deleteAccount rendered) u l in
  let failed status := "Could not delete account (" +:+ pretty (status : Z) +:+ ")." in
  r = Ok tt /\
  match registry (asked l) delete_out with
  | Ok up =>
      if up_ok up then
        match up_json up with
        | Ok v =>
            l' = l ++ [o_send AccountPage.delete_request; o_send AccountPage.logout_request; o_goto "/account"] /\
            asked l' = asked l ++ [delete_out; below "/api/v1/logout" "POST" None]
        | Throw _ => asked l' = asked l ++ [delete_out] /\ AccountPage.message u' = Some (failed 500)
        end
      else
        asked l' = asked l ++ [delete_out] /\
        AccountPage.message u' = Some (match up_json up with
          | Ok v => if truthy (detail v) then nullish (detail v) "" else pretty (up_status up) +:+ " " +:+ up_statusText up
          | Throw _ => pretty (up_status up) +:+ " " +:+ up_statusText up
          end)
  | Throw _ => asked l' = asked l ++ [delete_out] /\ AccountPage.message u' = Some (failed 500)
  end.
Proof.
  intros Hp. unfold AccountPage.deleteAccount, AccountPage.logout. fold AccountPage.delete_request AccountPage.logout_request.
  rewrite Hp. change (negb (String.eqb AccountPage.phrase "delete my account")) with false. cbv iota.
  assert (Hd : asked [o_send AccountPage.delete_request] = [delete_out]) by (cbn; unfold passed; by rewrite handle_delete).
  assert (Hl : asked [o_send AccountPage.logout_request; o_goto "/account"] = [below "/api/v1/logout" "POST" None])
    by (cbn; unfold passed; by rewrite handle_logout).
  assert (Hasked : asked (l ++ [o_send AccountPage.delete_request]) = asked l ++ [delete_out]) by by rewrite asked_app, Hd.
  autorewrite with page. rewrite through_last, respond_delete. cbv zeta.
  destruct (registry (asked l) delete_out) as [up|e]; [destruct (up_ok up) eqn:Hu; [destruct (up_json up) as [v|e]|]|].
  - change (rp_ok (mkReply 200 _)) with true. cbv iota. autorewrite with page. rewrite through_last. autorewrite with page.
    rewrite <- !app_assoc. cbn [app]. split_and!; [done..|].
    change [o_send AccountPage.delete_request; ?a; ?b] with ([o_send AccountPage.delete_request] ++ [a; b]). by rewrite !asked_app, Hd, Hl.
  - change (rp_ok (mkReply 500 _)) with false. cbv iota. autorewrite with page. done.
  - change (rp_ok (mkReply (up_status up) _)) with (up_ok up). rewrite Hu. autorewrite with page. done.
  - change (rp_ok (mkReply 500 _)) with false. cbv iota. autorewrite with page. done.
Qed.
End compose.
End WebApi.
