(* ===== verification/Widgets.v ===== *)
(** Small components of the web pages whose state depends on time: the copy buttons,
    [marketing/src/components/CopyButton.tsx],
    [openagenthub-marketing-redesign/src/components/CopyButton.tsx] and
    [web/src/components/install.tsx], and the blocks that appear when they are scrolled
    to, [Reveal.tsx]; with the star count, [GithubStars.tsx], the tabs of the
    dashboard, [site-nav.tsx], and the menu of small screens, [MobileNav.tsx]. *)
From S2P Require Import Prelude.

Module Widgets.
Local Open Scope Z_scope.

(** ** Copy buttons *)

(** Whether the label says "Copied", the timer the component remembers, the timers that
    run with the times they fire at, and the number of the next timer. *)
Record copy_button := mkButton { copied : bool; timer : option nat; timers : list (nat * Z); next_timer : nat }.

Definition initial : copy_button := mkButton false None [] 0.

(** [setTimeout(() => setCopied(false), ms)] at a time. *)
Definition start_timer (now ms : Z) (b : copy_button) : copy_button :=
  mkButton (copied b) (timer b) (timers b ++ [(next_timer b, now + ms)]) (S (next_timer b)).
Definition clear_timer (id : option nat) (b : copy_button) : copy_button :=
  mkButton (copied b) (timer b) (List.filter (fun t => negb (bool_decide (Some t.1 = id))) (timers b)) (next_timer b).
Definition set_copied (x : bool) (b : copy_button) : copy_button := mkButton x (timer b) (timers b) (next_timer b).
Definition set_timer (id : nat) (b : copy_button) : copy_button := mkButton (copied b) (Some id) (timers b) (next_timer b).

(** Time passes: the timers that are due fire, each of which resets the label. *)
Definition due (now : Z) (t : nat * Z) : bool := t.2 <=? now.
Definition pass_time (now : Z) (b : copy_button) : copy_button :=
  mkButton (copied b && negb (existsb (due now) (timers b))) (timer b) (List.filter (fun t => negb (due now t)) (timers b)) (next_timer b).

(** How the two ways of copying end: the clipboard, and the command on a text area,
    [None] when it throws. *)
Record outcome := mkOutcome { by_clipboard : bool; by_command : option bool }.
Definition copy_ok (o : outcome) : bool := by_clipboard o || nullish (by_command o) false.

(** The rest of the handler once the copying has ended.
    @src marketing/src/components/CopyButton.tsx copy *)
Definition copy (now : Z) (o : outcome) (b : copy_button) : copy_button :=
  if negb (copy_ok o) then b
  else
    let b := match timer b with Some id => clear_timer (Some id) b | None => b end in
    let b := set_copied true b in
    set_timer (next_timer b) (start_timer now 1600 b).

(** @src openagenthub-marketing-redesign/src/components/CopyButton.tsx copy *)
Definition copy_redesign (now : Z) (o : outcome) (b : copy_button) : copy_button :=
  start_timer now 1600 (set_copied true b).

(** [o] says how the clipboard ended; there is no other way.
    @src web/src/components/install.tsx copy *)
Definition copy_install (now : Z) (o : outcome) (b : copy_button) : copy_button :=
  if by_clipboard o then start_timer now 1500 (set_copied true b) else b.

(** @src marketing/src/components/CopyButton.tsx 38-59 CopyButton *)
Definition label (b : copy_button) : string := if copied b then "Copied" else "Copy".

(** Attempts at copying, with their times, latest first, on a button of a kind. *)
Fixpoint history (on_copy : Z -> outcome -> copy_button -> copy_button) (l : list (Z * outcome)) : copy_button :=
  match l with
  | [] => initial
  | (t, o) :: l => on_copy t o (pass_time t (history on_copy l))
  end.

(** The times do not go back. *)
Fixpoint in_time (now : Z) (l : list (Z * outcome)) : Prop :=
  match l with [] => True | (t, _) :: l => t <= now /\ in_time t l end.

Definition last_success (l : list (Z * outcome)) : option Z := fst <$> List.find (fun to => copy_ok to.2) l.

(** ** Blocks that appear *)

(** The component: whether it is shown, and whether the observer is connected. *)
Record reveal := mkReveal { visible : bool; observing : bool }.

(** The callback of the observer, by whether each entry intersects.
    @src marketing/src/components/Reveal.tsx 20-30 Reveal *)
Definition on_entries (entries : list bool) (r : reveal) : reveal :=
  if observing r then fold_left (fun r e => if (e : bool) then mkReveal true false else r) entries r else r.

(** @src marketing/src/components/Reveal.tsx 35-43 Reveal *)
Definition reveal_class (className : string) (r : reveal) : string :=
  "reveal" +:+ (if visible r then " in" else "") +:+ (if String.eqb className "" then "" else " " +:+ className).

(** ** The star count *)

(** The effect of each render with another repository, and its clean-up, by number: the
    one that is in force, those not [cancelled], the requests that were sent, and the
    number of the next effect. *)
Record stars := mkStars { count : option Z; in_force : option nat; uncancelled : list nat; sent : list (nat * string); next_effect : nat }.
Definition no_stars : stars := mkStars None None [] [] 0.

(** The answer to a request: none, or one that is not JSON; another status; or JSON with
    the number in its field [stargazers_count], if the field holds one. *)
Inductive stars_answer := sa_failed | sa_status | sa_json (stargazers_count : option Z).

Inductive stars_event := se_repo (repo : string) | se_unmount | se_answer (request : nat) (a : stars_answer).

(** @src marketing/src/components/GithubStars.tsx 20-22 GithubStars *)
Definition cleanup_stars (s : stars) : stars :=
  mkStars (count s) None (match in_force s with Some k => List.filter (fun j => negb (Nat.eqb j k)) (uncancelled s) | None => uncancelled s end)
    (sent s) (next_effect s).

(** @src marketing/src/components/GithubStars.tsx 8-12 GithubStars *)
Definition stars_effect (repo : string) (s : stars) : stars :=
  let k := next_effect s in
  mkStars (count s) (Some k) (uncancelled s ++ [k]) (sent s ++ [(k, "https://api.github.com/repos/" +:+ repo)]) (S k).

(** @src marketing/src/components/GithubStars.tsx 12-19 GithubStars *)
Definition stars_answered (k : nat) (a : stars_answer) (s : stars) : stars :=
  match a with
  | sa_json (Some n) =>
      if existsb (Nat.eqb k) (uncancelled s) then mkStars (Some n) (in_force s) (uncancelled s) (sent s) (next_effect s) else s
  | _ => s
  end.

Definition stars_step (s : stars) (e : stars_event) : stars :=
  match e with
  | se_repo repo => stars_effect repo (cleanup_stars s)
  | se_unmount => cleanup_stars s
  | se_answer k a => stars_answered k a s
  end.

(** @src marketing/src/components/GithubStars.tsx 25-30 GithubStars *)
Definition stars_label (toLocaleString : Z -> string) (s : stars) : string :=
  match count s with Some n => toLocaleString n | None => "Star" end.

(** ** The tabs of the dashboard *)

(** @src web/src/components/site-nav.tsx TABS *)
Definition TABS : list (string * string) :=
  [("/", "Dashboard"); ("/browse", "Browse"); ("/publisher", "Publisher"); ("/account", "Account")].

(** Address, class and label of each tab on a page.
    @src web/src/components/site-nav.tsx SiteNav *)
Definition SiteNav (path : string) : list (string * string * string) :=
  map (fun t => (t.1, if String.eqb path t.1 then "active" else "", t.2)) TABS.

(** ** The menu of small screens *)

Inductive nav_event := ne_toggle | ne_link (href : string).

(** @src marketing/src/components/MobileNav.tsx LINKS *)
Definition LINKS : list (string * string) :=
  [("#features", "Features"); ("#security", "Security"); ("#how", "How it works"); ("#install", "Install")].

(** @src marketing/src/components/MobileNav.tsx GITHUB *)
Definition GITHUB : string := "https://github.com/Aniket25042003/OpenAgentHub".

(** @src marketing/src/components/MobileNav.tsx 14-22 MobileNav *)
Definition nav_step (is_open : bool) (e : nav_event) : bool := match e with ne_toggle => negb is_open | ne_link _ => false end.

(** The label of the button, the class of the panel, and the links of the panel.
    @src marketing/src/components/MobileNav.tsx 19-46 MobileNav *)
Definition nav_view (is_open : bool) : string * string * list (string * string) :=
  (if is_open then "Close menu" else "Open menu", "mobile-panel" +:+ (if is_open then " open" else ""),
   LINKS ++ [(GITHUB, "GitHub"); ("#install", "Get started")]).

(** ** Properties *)

(** A button that forgets no timer: at most one runs, it is the remembered one, and
    the label says "Copied" exactly while it runs. *)
Definition one_timer (b : copy_button) (at_ : option Z) : Prop :=
  copied b = bool_decide (is_Some at_) /\
  match at_ with
  | Some t => exists id, timer b = Some id /\ timers b = [(id, t)] /\ (id < next_timer b)%nat
  | None => timers b = [] /\ forall id, timer b = Some id -> (id < next_timer b)%nat
  end.

Lemma one_timer_pass now b at_ : one_timer b at_ ->
  one_timer (pass_time now b) (t ← at_; if t <=? now then None else Some t).
Proof.
  intros [Hc Ht]. unfold pass_time. destruct at_ as [t|]; cbn [mbind option_bind].
  - destruct Ht as (id & Hid & Ht & Hlt). rewrite Ht. cbn. unfold due. cbn. destruct (t <=? now); cbn.
    + split; [by rewrite andb_false_r|]. cbn. split; [done|]. rewrite Hid. by intros ? [= <-].
    + split; [by rewrite Hc|]. by exists id.
  - destruct Ht as [-> Hlt]. split; [cbn; by rewrite Hc|]. by split.
Qed.

Lemma one_timer_copy now o b at_ : one_timer b at_ -> one_timer (copy now o b) (if copy_ok o then Some (now + 1600) else at_).
Proof.
  intros [Hc Ht]. unfold copy. destruct (copy_ok o); cbn [negb]; [|done]. split; [by destruct (timer b)|].
  assert (Hempty : timers (match timer b with Some id => clear_timer (Some id) b | None => b end) = []).
  { destruct at_ as [t|].
    - destruct Ht as (id & -> & Ht & _). cbn. rewrite Ht. cbn. by rewrite bool_decide_eq_true_2.
    - destruct Ht as [Ht _]. destruct (timer b); cbn; by rewrite Ht. }
  eexists. split; [reflexivity|]. cbn. rewrite Hempty. cbn. split; [by destruct (timer b)|by destruct (timer b); cbn; lia].
Qed.

(** The button of the site says "Copied" exactly for 1.6 seconds after the last copy
    that worked, however often it is pressed: an attempt that fails changes nothing and
    a second copy starts the time anew. *)
Theorem copied_iff l now : in_time now l ->
  copied (pass_time now (history copy l)) = match last_success l with Some t => now <? t + 1600 | None => false end.
Proof.
  intros Hl.
  assert (Hinv : forall l now, in_time now l ->
    one_timer (pass_time now (history copy l)) (t ← last_success l; if t + 1600 <=? now then None else Some (t + 1600))).
  { clear. induction l as [|[t o] l IH]; intros now; [by intros _|]. intros [Ht Hl]. specialize (IH t Hl). cbn [history].
    apply (one_timer_copy t o) in IH. apply (one_timer_pass now) in IH. unfold last_success in *. cbn [List.find snd].
    destruct (copy_ok o); cbn in IH |- *; [exact IH|]. destruct (List.find _ l) as [[s o']|]; cbn in IH |- *; [|exact IH].
    destruct (Z.leb_spec (s + 1600) t); cbn in IH; destruct (Z.leb_spec (s + 1600) now); try lia; exact IH. }
  destruct (Hinv l now Hl) as [-> _]. destruct (last_success l) as [t|]; cbn; [|done].
  destruct (Z.leb_spec (t + 1600) now), (Z.ltb_spec now (t + 1600)); try lia; done.
Qed.

(** That of the redesign says so after any attempt, also one that failed in both ways,
    and the timer of an earlier attempt cuts the time of the later one short. *)
Theorem redesign_label_wrong t s o o' :
  copied (pass_time t (history copy_redesign [(t, mkOutcome false None)])) = true /\
  (t < s < t + 1600 -> copied (pass_time (t + 1600) (history copy_redesign [(s, o'); (t, o)])) = false).
Proof.
  split.
  - cbn. unfold due. cbn. destruct (Z.leb_spec (t + 1600) t); [lia|done].
  - intros Hs. cbn. unfold due. cbn. destruct (Z.leb_spec (t + 1600) s); [lia|]. cbn. by rewrite Z.leb_refl.
Qed.

(** So does that of the install command, after copies that worked: the label of the
    second goes back when the timer of the first fires. *)
Theorem install_label_short t s o o' : by_clipboard o = true -> by_clipboard o' = true -> t < s < t + 1500 ->
  copied (pass_time s (history copy_install [(s, o'); (t, o)])) = true /\
  copied (pass_time (t + 1500) (history copy_install [(s, o'); (t, o)])) = false.
Proof.
  intros Ho Ho' Hs. cbn. unfold copy_install. rewrite Ho, Ho'. cbn. unfold due. cbn. destruct (Z.leb_spec (t + 1500) s); [lia|].
  cbn. rewrite Z.leb_refl. destruct (Z.leb_spec (t + 1500) s), (Z.leb_spec (s + 1500) s); lia || done.
Qed.

(** A block that has appeared stays: whatever the observer reports, it becomes visible
    with the first entry that intersects, and the observer is then disconnected. *)
Theorem reveal_spec reports :
  let r := fold_left (fun r es => on_entries es r) reports (mkReveal false true) in
  visible r = existsb (existsb id) reports /\ observing r = negb (visible r).
Proof.
  assert (Hstay : forall reports r, observing r = false -> fold_left (fun r es => on_entries es r) reports r = r).
  { clear. intros reports. induction reports as [|es reports IH]; intros r Hr; [done|]. cbn [fold_left]. unfold on_entries at 2. rewrite Hr. by apply IH. }
  assert (Hone : forall es v, fold_left (fun r e => if (e : bool) then mkReveal true false else r) es (mkReveal v (negb v)) =
    mkReveal (v || existsb id es) (negb (v || existsb id es))).
  { intros es. induction es as [|[] es IH]; intros v; cbn; [by rewrite orb_false_r|rewrite orb_true_r; exact (IH true)|exact (IH v)]. }
  induction reports as [|es reports IH]; [done|]. cbn [fold_left existsb].
  assert (H0 : on_entries es (mkReveal false true) = mkReveal (existsb id es) (negb (existsb id es))) by exact (Hone es false).
  rewrite H0. destruct (existsb id es); [|exact IH]. cbn [negb orb]. by rewrite Hstay.
Qed.
(** Of the star count: only the answer to the request of the effect in force counts. *)
Definition stars_wf (s : stars) : Prop :=
  uncancelled s = match in_force s with Some k => [k] | None => [] end /\
  (forall k, in_force s = Some k -> (k < next_effect s)%nat /\ exists url, last (sent s) = Some (k, url)) /\
  Forall (fun r => (r.1 < next_effect s)%nat) (sent s) /\ NoDup (map fst (sent s)).

Lemma stars_step_wf s e : stars_wf s -> stars_wf (stars_step s e).
Proof.
  intros (Hu & Hf & Hs & Hnd).
  assert (Hclean : uncancelled (cleanup_stars s) = []).
  { cbn. rewrite Hu. destruct (in_force s); cbn; [by rewrite Nat.eqb_refl|done]. }
  destruct e as [repo| |k [| |[n|]]]; cbn [stars_step stars_answered]; try done.
  - unfold stars_wf, stars_effect. cbn [in_force uncancelled sent next_effect]. rewrite Hclean. split_and!; [done| | |].
    + intros k [= <-]. split; [cbn; lia|]. eexists. apply last_snoc.
    + apply Forall_app. split; [|by repeat constructor; cbn]. eapply Forall_impl; [exact Hs|]. cbn. lia.
    + rewrite map_app. apply NoDup_app. split_and!; [done| |apply NoDup_singleton]. intros k Hk%list_elem_of_In%in_map_iff ->%list_elem_of_singleton.
      destruct Hk as (r & Hr & Hin%list_elem_of_In). rewrite Forall_forall in Hs. apply Hs in Hin. cbn in Hr, Hin. lia.
  - by destruct (existsb _ _).
Qed.

(** In every history the count is changed only by an answer to the request for the
    repository that is shown, whatever else arrives and in whatever order: an answer for
    an earlier repository, or after the component has gone, changes nothing; the answer
    to the last request shows its number. *)
Theorem stars_of_current evs k a :
  let s := fold_left stars_step evs no_stars in
  (in_force s <> Some k -> stars_step s (se_answer k a) = s) /\
  (in_force s = Some k -> (exists url, last (sent s) = Some (k, url)) /\
     count (stars_step s (se_answer k a)) = match a with sa_json (Some n) => Some n | _ => count s end).
Proof.
  intros s. assert (Hwf : stars_wf s).
  { unfold s. assert (H0 : stars_wf no_stars) by (split_and!; [done|done|constructor|constructor]).
    revert H0. generalize no_stars. clear. induction evs as [|e evs IH]; intros s Hs; [done|]. apply IH. by apply stars_step_wf. }
  destruct Hwf as (Hu & Hf & _). split; intros Hk; cbn [stars_step].
  - destruct a as [| |[n|]]; cbn; try done. rewrite Hu. destruct (in_force s) as [j|]; cbn; [|done].
    destruct (Nat.eqb_spec k j) as [->|]; [done|]. done.
  - split; [by apply Hf|]. destruct a as [| |[n|]]; cbn; try done. rewrite Hu, Hk. cbn. by rewrite Nat.eqb_refl.
Qed.

(** The menu is open exactly when the button was pressed an odd number of times since
    the last link was followed; latest event first. *)
Fixpoint presses (evs : list nav_event) : nat :=
  match evs with ne_toggle :: evs => S (presses evs) | _ => 0 end.

Theorem nav_open_iff evs : fold_right (fun e o => nav_step o e) false evs = Nat.odd (presses evs).
Proof.
  induction evs as [|[|href] evs IH]; [done| |done]. cbn [fold_right presses nav_step]. by rewrite IH, Nat.odd_succ, <- Nat.negb_odd.
Qed.

(** Exactly the tab of the page is marked, none on a page without one. *)
Theorem active_tab path :
  List.filter (fun t => String.eqb t.1.2 "active") (SiteNav path) =
  map (fun t => (t.1, "active", t.2)) (List.filter (fun t => String.eqb t.1 path) TABS) /\
  (length (List.filter (fun t => String.eqb t.1.2 "active") (SiteNav path)) <= 1)%nat.
Proof.
  unfold SiteNav, TABS. cbn [map List.filter fst snd]. rewrite !(String.eqb_sym _ path).
  destruct (String.eqb_spec path "/") as [->|]; [split; [reflexivity|apply Nat.leb_le; reflexivity]|].
  destruct (String.eqb_spec path "/browse") as [->|]; [split; [reflexivity|apply Nat.leb_le; reflexivity]|].
  destruct (String.eqb_spec path "/publisher") as [->|]; [split; [reflexivity|apply Nat.leb_le; reflexivity]|].
  destruct (String.eqb_spec path "/account") as [->|]; (split; [reflexivity|apply Nat.leb_le; reflexivity]).
Qed.
End Widgets.
