(* ===== verification/DaemonCommands.v ===== *)
(** The commands of the dashboard daemon, [cli/src/commands/dashboard] and
    [cli/src/commands/daemon.ts], with the parts of [cli/src/lib/control-plane.ts] they
    use: the environment a daemon is spawned with, starting with the session, and what
    the daemon does to the history when it starts. *)
From S2P Require Import Prelude Fs NodePath Trace Registry Logs ControlPlane Supervisor UsageStore UsageSources History Inspection.

Module DaemonCommands.
Import Fs NodePath Trace.
Local Open Scope Z_scope.

(** ** The program and its daemon *)

(** The name in the [package.json] of a directory, [None] when it cannot be read.
    @src cli/src/lib/control-plane.ts 61-75 findCliRoot *)
Fixpoint find_up (package_name : string -> option string) (depth : nat) (dir : string) : option string :=
  match depth with
  | O => None
  | S depth =>
      if bool_decide (package_name dir = Some "@openagenthub/cli") then Some dir
      else
        let parent := join dir ".." in
        if String.eqb parent dir then None else find_up package_name depth parent
  end.

(** @src cli/src/lib/control-plane.ts findCliRoot *)
Definition findCliRoot (package_name : string -> option string) (start : string) : result string :=
  match find_up package_name 6 start with
  | Some dir => Ok dir
  | None => throw EError "could not locate the @openagenthub/cli package root"
  end.

(** @src cli/src/lib/control-plane.ts productVersion *)
Definition productVersion (package_version : option string) : string := nullish package_version "unknown".

(** What [ps] prints for a process, [None] when it fails.
    @src cli/src/lib/control-plane.ts processStartStamp *)
Definition processStartStamp (out : option string) : option string :=
  out ← out; if String.eqb (js_trim out) "" then None else Some (js_trim out).

(** The text of the owner file, [None] when it cannot be read, and [Number] of a
    text.
    @src cli/src/lib/control-plane.ts lockOwnerPid *)
Definition lockOwnerPid (to_integer : string -> option Z) (owner_file : option string) : option Z :=
  text ← owner_file; owner ← to_integer (js_trim text); if 0 <? owner then Some owner else None.

(** @src cli/src/lib/control-plane.ts fetchControl *)
Definition fetchControl {T} (http : Registry.Request -> result (Z * result T)) (port : Z) (path : string) (method token : option string)
    : option T :=
  match http (Registry.mkRequest (nullish method "GET") ("http://" +:+ ControlPlane.CONTROL_BOUND_HOST +:+ ":" +:+ pretty port +:+ path)
                (if truthy token then [("authorization", "Bearer " +:+ nullish token "")] else []) Registry.rb_none) with
  | Ok (status, body) => if (200 <=? status) && (status <? 300) then match body with Ok t => Some t | Throw _ => None end else None
  | Throw _ => None
  end.

(** The environment of the daemon: that of the command, and what the daemon reads.
    @src cli/src/lib/control-plane.ts spawnDaemon *)
Definition daemon_env (process_env : obj string) (port : Z) (token version : string) : obj string :=
  obj_merge process_env
    [("PORT", pretty port); ("HOSTNAME", ControlPlane.CONTROL_BOUND_HOST); ("OPENAGENTHUB_DAEMON_LOCKED", "1");
     ("OPENAGENTHUB_LOCAL_TOKEN", token); ("OPENAGENTHUB_PRODUCT_VERSION", version)].

Inductive platform := darwin | linux | win32 | other_platform.

(** @src cli/src/lib/control-plane.ts openUrl *)
Definition openUrl (p : platform) (url : string) : string * list string :=
  (match p with darwin => "open" | win32 => "cmd" | _ => "xdg-open" end,
   match p with win32 => ["/c"; "start"; ""; url] | _ => [url] end).

(** ** Starting with the session *)

Inductive auto_act :=
| aa_mkdir (path : string)
| aa_write (path content : string) (mode : Z)
| aa_exec (cmd : string) (args : list string)
| aa_remove (path : string).

Section autostart.
(** The platform, the user's home and number, the environment of the service, and
    which programs fail. *)
Context (p : platform) (homedir uid : string) (e : ControlPlane.autostart_env) (exec_fails : list auto_act -> string -> bool).
Local Abbreviation M := (tr auto_act).

Definition LAUNCHD_LABEL : string := "ai.openagenthub.control-plane".
Definition UNIT_NAME : string := "openagenthub-control-plane.service".
Definition LAUNCHD_PLIST_PATH : string := join (join (join homedir "Library") "LaunchAgents") (LAUNCHD_LABEL +:+ ".plist").
Definition SYSTEMD_UNIT_PATH : string := join (join (join (join homedir ".config") "systemd") "user") UNIT_NAME.

Definition exec (cmd : string) (args : list string) : M unit :=
  act (aa_exec cmd args) (fun h => if exec_fails h cmd then throw EError ("Command failed: " +:+ cmd) else Ok tt).
Definition do_ (a : auto_act) : M unit := act a (fun _ => Ok tt).

Definition xml_string (v : string) : string := "    <string>" +:+ ControlPlane.xmlEscape v +:+ "</string>".

(** @src cli/src/lib/control-plane.ts 498-531 autostartEnable *)
Definition plist_lines : list string :=
  ["<?xml version=" +:+ str1 DQUOTE +:+ "1.0" +:+ str1 DQUOTE +:+ " encoding=" +:+ str1 DQUOTE +:+ "UTF-8" +:+ str1 DQUOTE +:+ "?>";
   "<!DOCTYPE plist PUBLIC " +:+ str1 DQUOTE +:+ "-//Apple//DTD PLIST 1.0//EN" +:+ str1 DQUOTE +:+ " " +:+ str1 DQUOTE
     +:+ "http://www.apple.com/DTDs/PropertyList-1.0.dtd" +:+ str1 DQUOTE +:+ ">";
   "<plist version=" +:+ str1 DQUOTE +:+ "1.0" +:+ str1 DQUOTE +:+ ">"; "<dict>";
   "  <key>Label</key>"; "  <string>" +:+ ControlPlane.xmlEscape LAUNCHD_LABEL +:+ "</string>";
   "  <key>ProgramArguments</key>"; "  <array>";
   xml_string (ControlPlane.execPath e); xml_string (ControlPlane.BIN_PATH e); "    <string>daemon</string>"; "  </array>";
   "  <key>RunAtLoad</key>"; "  <true/>"; "  <key>KeepAlive</key>"; "  <true/>";
   "  <key>EnvironmentVariables</key>"; "  <dict>"]
  ++ ControlPlane.plist_env_lines e
  ++ ["  </dict>"; "  <key>StandardOutPath</key>"; "  <string>" +:+ ControlPlane.xmlEscape (ControlPlane.au_log e) +:+ "</string>";
      "  <key>StandardErrorPath</key>"; "  <string>" +:+ ControlPlane.xmlEscape (ControlPlane.au_log e) +:+ "</string>"; "</dict>"; "</plist>"].

Definition file_text (lines : list string) : string := js_join (str1 LF) lines +:+ str1 LF.

(** The token of [e] is what [readToken] gave.
    @src cli/src/lib/control-plane.ts autostartEnable *)
Definition autostartEnable : M unit :=
  match p with
  | darwin =>
      _ ← do_ (aa_mkdir (join (join homedir "Library") "LaunchAgents"));
      _ ← do_ (aa_write LAUNCHD_PLIST_PATH (file_text plist_lines) 384);
      exec "launchctl" ["bootstrap"; "gui/" +:+ uid; LAUNCHD_PLIST_PATH]
  | linux =>
      _ ← do_ (aa_mkdir (join (join (join homedir ".config") "systemd") "user"));
      _ ← do_ (aa_write SYSTEMD_UNIT_PATH (file_text (ControlPlane.unit_lines e)) 384);
      _ ← exec "systemctl" ["--user"; "daemon-reload"];
      exec "systemctl" ["--user"; "enable"; "--now"; UNIT_NAME]
  | _ => tr_throw EControlPlaneDisabled "autostart is not implemented on this platform; start the daemon manually"
  end.

(** @src cli/src/lib/control-plane.ts autostartDisable *)
Definition autostartDisable : M unit :=
  match p with
  | darwin =>
      _ ← tr_catch (exec "launchctl" ["bootout"; "gui/" +:+ uid; LAUNCHD_PLIST_PATH]) (fun _ => mret tt);
      do_ (aa_remove LAUNCHD_PLIST_PATH)
  | linux =>
      _ ← tr_catch (exec "systemctl" ["--user"; "disable"; "--now"; UNIT_NAME]) (fun _ => mret tt);
      do_ (aa_remove SYSTEMD_UNIT_PATH)
  | _ => tr_throw EControlPlaneDisabled "autostart is not implemented on this platform; remove the startup entry manually"
  end.

(** Whether a file is there after what was done, from whether it was before. *)
Fixpoint exists_after (before : bool) (h : list auto_act) (path : string) : bool :=
  match h with
  | [] => before
  | aa_write q _ _ :: h => exists_after (if String.eqb q path then true else before) h path
  | aa_remove q :: h => exists_after (if String.eqb q path then false else before) h path
  | _ :: h => exists_after before h path
  end.

(** @src cli/src/lib/control-plane.ts autostartStatus *)
Definition autostartStatus (before : string -> bool) (h : list auto_act) : bool * string :=
  let at_path q := (exists_after (before q) h q, q) in
  match p with darwin => at_path LAUNCHD_PLIST_PATH | linux => at_path SYSTEMD_UNIT_PATH | _ => (false, "") end.

Inductive auto_arg := on | off | status.
Definition disabled_message : string := "control plane is disabled by OPENAGENTHUB_NO_DAEMON=1".

(** What the command prints.
    @src cli/src/commands/dashboard/autostart.ts run *)
Definition autostart_command (enabled : bool) (before : string -> bool) (action : auto_arg) : M string :=
  if negb enabled then tr_throw EError disabled_message
  else match action with
    | on => _ ← autostartEnable; mret "control plane autostart enabled (launchd/systemd-user)"
    | off => _ ← autostartDisable; mret "control plane autostart disabled"
    | status => fun h => let '(enabled, path) := autostartStatus before h in
        (h, Ok (if enabled then "autostart enabled (" +:+ path +:+ ")" else "autostart disabled"))
    end.
End autostart.

(** ** The commands *)
Section commands.
Import ControlPlane.
Context (w : world) (on_windows enabled : bool) (CONTROL_PROTOCOL_VERSION CONTROL_PREFERRED_PORT : Z) (product CONTROL_LOG_PATH : string).
Local Abbreviation M := (tr action).
Local Abbreviation ensureDaemon := (ensureDaemon w on_windows enabled CONTROL_PROTOCOL_VERSION CONTROL_PREFERRED_PORT product CONTROL_LOG_PATH).
Local Abbreviation restartDaemon := (restartDaemon w on_windows enabled CONTROL_PROTOCOL_VERSION CONTROL_PREFERRED_PORT product CONTROL_LOG_PATH).
Local Abbreviation stopDaemon := (stopDaemon w on_windows).
Local Abbreviation identityMatches := (identityMatches w on_windows).
Local Abbreviation needsRestart := (daemonNeedsRestart CONTROL_PROTOCOL_VERSION product).

Definition guarded {A} (m : M A) : M A := if negb enabled then tr_throw EError disabled_message else m.

Definition url_of (s : DaemonState) : string := "http://" +:+ CONTROL_BOUND_HOST +:+ ":" +:+ pretty (d_port s).

(** The address that is opened in the browser and what is printed.
    @src cli/src/commands/dashboard/open.ts run *)
Definition open_command : M (string * string) :=
  guarded (r ← ensureDaemon;
    let url := url_of (er_state r) in
    mret (url, (if er_started r then "control plane started: " else "control plane running: ") +:+ url)).

(** The command without a name: [None] for the address when the daemon is switched off.
    @src cli/src/commands/ui.ts run *)
Definition ui_command : M (option string * string) :=
  if negb enabled then mret (None, "run `openagenthub --help` for the full command list")
  else
    r ← ensureDaemon;
    let url := url_of (er_state r) in
    mret (Some url, (if er_started r then "control plane started: " else "control plane running: ") +:+ url).

(** @src cli/src/commands/dashboard/start.ts run *)
Definition start_command : M string :=
  guarded (r ← ensureDaemon;
    let s := er_state r in
    mret (if er_started r
          then "control plane started: " +:+ url_of s +:+ " (pid " +:+ pretty (d_pid s) +:+ ", v" +:+ ControlPlane.productVersion s +:+ ")"
          else "control plane already running: " +:+ url_of s +:+ " (pid " +:+ pretty (d_pid s) +:+ ")")).

(** @src cli/src/commands/dashboard/restart.ts run *)
Definition restart_command : M string :=
  guarded (r ← tr_catch restartDaemon (fun err => tr_throw EError (err_message err));
    let s := er_state r in
    mret (if er_started r
          then "control plane restarted: " +:+ url_of s +:+ " (pid " +:+ pretty (d_pid s) +:+ ")"
          else "control plane was not restarted; pid " +:+ pretty (d_pid s) +:+ " is still serving " +:+ url_of s)).

(** @src cli/src/commands/dashboard/stop.ts run *)
Definition stop_command : M string :=
  guarded (state ← q_state w;
    match state with
    | None => mret "control plane is not running"
    | Some s =>
        '(outcome, _) ← stopDaemon;
        match outcome with
        | out_stopped => mret ("control plane stopped (pid " +:+ pretty (d_pid s) +:+ ")")
        | out_stale => mret ("pid " +:+ pretty (d_pid s) +:+ " is stale; cleared control-plane state")
        | out_failed => tr_throw EError ("control plane did not stop in time (pid " +:+ pretty (d_pid s)
            +:+ "); state preserved — inspect 'openagenthub dashboard logs'")
        end
    end).

(** What [status] shows, by the form it has. *)
Inductive status_report :=
| sr_not_running
| sr_stopped (startedAt : string)
| sr_json (running : bool) (s : DaemonState) (health : string) (restartRequired : bool)
| sr_stale (pid : Z)
| sr_text (running : bool) (s : DaemonState) (restartRequired : bool).

(** [health] is the field of the daemon's answer, [None] when it could not be had.
    @src cli/src/commands/dashboard/status.ts run *)
Definition status_command (health : list action -> Z -> option string) (json : bool) : M status_report :=
  guarded (state ← q_state w;
    match state with
    | None => mret sr_not_running
    | Some s =>
        if bool_decide (d_health s = stopped) then mret (sr_stopped (d_startedAt s))
        else
          alive ← identityMatches s;
          h ← (if (alive : bool) then ask (A_fetchHealth (d_port s)) (fun l => health l (d_port s)) else mret None);
          let healthy := bool_decide (h = Some "ok") in
          if json then mret (sr_json (alive && healthy) s (nullish h "unreachable") (needsRestart s))
          else if negb alive then mret (sr_stale (d_pid s))
          else mret (sr_text healthy s (needsRestart s))
    end).

(** What is printed; the observations of the log are made every half second, [None]
    when it is gone.
    @src cli/src/commands/dashboard/logs.ts run *)
Fixpoint follow_log (observed : list (option (Logs.log_stat * string * nat))) (st : Logs.LogFollowState) : list string :=
  match observed with
  | Some (stat, content, size_after) :: rest =>
      let '(st, line) := Logs.readLogFollow stat content size_after st in
      match line with Some l => l :: follow_log rest st | None => follow_log rest st end
  | _ => []
  end.

Definition logs_command (lines : nat) (follow_flag : bool) (log : option Logs.log_stat) (files : list (option string))
    (observed : list (option (Logs.log_stat * string * nat))) : result (list string) :=
  if negb enabled then throw EError disabled_message
  else match log with
    | None => Ok ["no control plane logs yet"]
    | Some st => Ok (Logs.readLogTail lines files :: if follow_flag then follow_log observed (Logs.initLogFollow st) else [])
    end.
End commands.

(** ** The daemon's own start *)
Section daemon.
Import Supervisor UsageStore UsageSources History.
Context `{JsText} (cutoff : Q -> string) (probe : RunProbe) (now self : string).

(** Reconciliation with the rows: each record that changed is written, and its row
    with it.  [ok] says for which runs the database worked. *)
Definition reconcile_world (readdir : list string) (ok : string -> bool) (w : world) : world :=
  let changed := List.filter (fun rn => negb (bool_decide (state (snd rn) = state (fst rn))))
    (map (fun r => (r, reconcileRun probe now r)) (listRuns readdir (files w))) in
  fold_left (fun w rn => writeRun self (ok (runId (snd rn))) (snd rn) w) changed w.

(** What the daemon does once it serves.
    @src cli/src/commands/daemon.ts run *)
Definition daemon_start (readdir : list string) (ok : string -> bool) (outcome : string -> list string * bool) (w : world)
    : world * result nat :=
  let w := reconcile_world readdir ok w in
  prune_command cutoff None None outcome w.
End daemon.

(** ** Properties *)

(** The root that is found is the nearest directory on the way up that holds the
    package, among the first six; and when there is one it is found. *)
Fixpoint ancestor (n : nat) (dir : string) : string := match n with O => dir | S n => ancestor n (join dir "..") end.

Theorem findCliRoot_nearest package_name start :
  let named d := package_name d = Some "@openagenthub/cli" in
  (forall root, findCliRoot package_name start = Ok root ->
     exists n, (n < 6)%nat /\ root = ancestor n start /\ named root /\ forall m, (m < n)%nat -> ~ named (ancestor m start)) /\
  (forall n, (n < 6)%nat -> (forall m, (m < n)%nat -> ancestor (S m) start <> ancestor m start) -> named (ancestor n start) ->
     exists root, findCliRoot package_name start = Ok root).
Proof.
  intros named.
  assert (Hanc : forall m d, ancestor (S m) d = join (ancestor m d) "..").
  { induction m as [|m IH]; intros d; [done|]. change (ancestor (S m) (join d "..") = join (ancestor m (join d "..")) ".."). apply IH. }
  assert (Hup : forall depth dir,
    (forall root, find_up package_name depth dir = Some root ->
       exists n, (n < depth)%nat /\ root = ancestor n dir /\ named root /\ forall m, (m < n)%nat -> ~ named (ancestor m dir)) /\
    (forall n, (n < depth)%nat -> (forall m, (m < n)%nat -> ancestor (S m) dir <> ancestor m dir) -> named (ancestor n dir) ->
       exists root, find_up package_name depth dir = Some root)).
  { induction depth as [|depth IH]; intros dir; [split; [done|lia]|]. cbn [find_up]. split.
    - intros root. case_bool_decide as Hn; [intros [= <-]; exists 0%nat; split_and!; [lia|done|done|lia]|].
      destruct (String.eqb_spec (join dir "..") dir) as [|Hne]; [done|]. intros Hr. destruct (IH (join dir "..")) as [H1 _].
      destruct (H1 root Hr) as (n & Hlt & -> & Hnamed & Hno). exists (S n). split_and!; [lia|done|done|].
      intros [|m] Hm; [done|]. apply (Hno m). lia.
    - intros n Hlt Hmove Hn. case_bool_decide as Hd; [by eexists|]. destruct n as [|n]; [done|].
      destruct (String.eqb_spec (join dir "..") dir) as [He|Hne]; [by destruct (Hmove 0%nat ltac:(lia))|].
      apply (proj2 (IH (join dir "..")) n); [lia| |done]. intros m Hm. apply (Hmove (S m)). lia. }
  destruct (Hup 6%nat start) as [H1 H2]. unfold findCliRoot. split.
  - intros root Hr. destruct (find_up package_name 6 start) as [d|] eqn:E; [|done]. injection Hr as <-. by apply H1.
  - intros n Hlt Hmove Hn. destruct (H2 n Hlt Hmove Hn) as [root ->]. by eexists.
Qed.

(** Whatever the environment of the command holds, the daemon gets the port, the
    address, the token and the version it is started with. *)
Theorem daemon_env_fixed env port token version :
  let e := daemon_env env port token version in
  obj_get "PORT" e = Some (pretty port) /\ obj_get "HOSTNAME" e = Some "127.0.0.1" /\ obj_get "OPENAGENTHUB_DAEMON_LOCKED" e = Some "1" /\
  obj_get "OPENAGENTHUB_LOCAL_TOKEN" e = Some token /\ obj_get "OPENAGENTHUB_PRODUCT_VERSION" e = Some version /\
  forall k, k ∉ ["PORT"; "HOSTNAME"; "OPENAGENTHUB_DAEMON_LOCKED"; "OPENAGENTHUB_LOCAL_TOKEN"; "OPENAGENTHUB_PRODUCT_VERSION"] ->
    obj_get k e = obj_get k env.
Proof.
  unfold daemon_env. set (fixed := [("PORT", pretty port); _; _; _; _]).
  assert (Hnd : NoDup (obj_keys fixed)) by (apply (bool_decide_unpack _); by vm_compute).
  split_and!; [by rewrite obj_get_merge by done..|]. intros k Hk. rewrite obj_get_merge by done. unfold fixed. cbn [obj_get].
  rewrite !elem_of_cons in Hk.
  repeat match goal with |- context [String.eqb k ?x] => destruct (String.eqb_spec k x) as [->|]; [exfalso; apply Hk; auto 10|] end. done.
Qed.

(** *** Starting with the session *)

Lemma exists_after_app before h h' path : exists_after before (h ++ h') path = exists_after (exists_after before h path) h' path.
Proof. revert before. induction h as [|[] h IH]; intros before; cbn; auto. Qed.

Section toggles.
Context (p : platform) (homedir uid : string) (e : ControlPlane.autostart_env) (exec_fails : list auto_act -> string -> bool).
Local Abbreviation enable := (autostartEnable p homedir uid e exec_fails).
Local Abbreviation disable := (autostartDisable p homedir uid exec_fails).

Definition entry_path : string := match p with darwin => LAUNCHD_PLIST_PATH homedir | _ => SYSTEMD_UNIT_PATH homedir end.
Definition entry_text : string := match p with darwin => file_text (plist_lines e) | _ => file_text (ControlPlane.unit_lines e) end.

(** What enabling does: the entry is written, and then programs are run. *)
Lemma enable_run h : p = darwin \/ p = linux ->
  exists dir execs r, enable h = (h ++ aa_mkdir dir :: aa_write entry_path entry_text 384 :: execs, r) /\
    Forall (fun a => match a with aa_exec _ _ => True | _ => False end) execs.
Proof.
  intros [Hp|Hp]; unfold autostartEnable, entry_path, entry_text; rewrite Hp; unfold exec, do_, act, mbind, tr_mbind, tr_bind; cbv beta iota.
  - eexists _, [_], _. rewrite <- !app_assoc. split; [reflexivity|by repeat constructor].
  - destruct (exec_fails _ "systemctl"); [eexists _, [_], _|eexists _, [_; _], _]; rewrite <- !app_assoc;
      (split; [reflexivity|by repeat constructor]).
Qed.

(** What disabling does: the service is stopped, if it can be, and the entry removed. *)
Lemma disable_run h : p = darwin \/ p = linux -> exists cmd args, disable h = (h ++ [aa_exec cmd args; aa_remove entry_path], Ok tt).
Proof.
  intros [Hp|Hp]; unfold autostartDisable, entry_path; rewrite Hp; unfold exec, do_, act, mbind, tr_mbind, tr_bind, tr_catch; cbv beta iota;
    destruct (exec_fails _ _); unfold throw, mret, tr_mret, tr_ret; cbv beta iota zeta; eexists _, _; rewrite <- app_assoc; reflexivity.
Qed.

Lemma status_entry before h : p = darwin \/ p = linux -> (autostartStatus p homedir before h).1 = exists_after (before entry_path) h entry_path.
Proof. by intros [Hp|Hp]; unfold autostartStatus, entry_path; rewrite Hp. Qed.

Lemma execs_keep before l path : Forall (fun a => match a with aa_exec _ _ => True | _ => False end) l -> exists_after before l path = before.
Proof. induction 1 as [|[] l Ha _ IH]; try done. Qed.

(** Switching it on or off is what the status reports afterwards, whatever was there
    before and whether or not the service manager succeeds; the entry, which holds the
    token, is readable by the user alone; on other platforms both refuse. *)
Theorem autostart_toggles before h :
  (p = darwin \/ p = linux ->
     (autostartStatus p homedir before (enable h).1).1 = true /\
     (forall path text mode, aa_write path text mode ∈ (enable h).1 -> aa_write path text mode ∈ h \/ mode = 384) /\
     (disable h).2 = Ok tt /\ (autostartStatus p homedir before (disable h).1).1 = false) /\
  (p = win32 \/ p = other_platform ->
     (enable h).1 = h /\ is_ok (enable h).2 = false /\ (disable h).1 = h /\ is_ok (disable h).2 = false /\
     (autostartStatus p homedir before h).1 = false).
Proof.
  split; [|by intros [Hp|Hp]; unfold autostartEnable, autostartDisable, autostartStatus; rewrite Hp].
  intros Hp. destruct (enable_run h Hp) as (dir & execs & r & -> & Hex), (disable_run h Hp) as (cmd & args & ->). cbn [fst snd].
  rewrite !status_entry by done. rewrite !exists_after_app. cbn [exists_after]. rewrite !String.eqb_refl, execs_keep by done. split_and!; try done.
  intros path text mode [Hin|Hin]%elem_of_app; [by left|]. right.
  apply elem_of_cons in Hin as [?|[[= _ _ ->]|Hin]%elem_of_cons]; [done|done|]. rewrite Forall_forall in Hex. by apply Hex in Hin.
Qed.
End toggles.

(** The variables and values a reader of the launchd entry finds in its dictionary: the
    lines come in pairs. *)
Definition tag_text (tag line : string) : option string :=
  let open := "    <" +:+ tag +:+ ">" in
  let close := "</" +:+ tag +:+ ">" in
  if js_startsWith line open && js_endsWith line close
  then ControlPlane.xml_text (js_take (String.length line - String.length open - String.length close) (js_drop (String.length open) line))
  else None.

Fixpoint plist_pairs (lines : list string) : list (string * string) :=
  match lines with
  | k :: v :: rest => match tag_text "key" k, tag_text "string" v with Some k, Some v => (k, v) :: plist_pairs rest | _, _ => [] end
  | _ => []
  end.

Lemma tag_text_value tag v : tag_text tag ("    <" +:+ tag +:+ ">" +:+ v +:+ "</" +:+ tag +:+ ">") = ControlPlane.xml_text v.
Proof.
  unfold tag_text. cbv zeta. set (open := "    <" +:+ tag +:+ ">"). set (close := "</" +:+ tag +:+ ">").
  assert (Heq : "    <" +:+ tag +:+ ">" +:+ v +:+ close = open +:+ v +:+ close) by (unfold open; by rewrite !sapp_assoc).
  rewrite Heq.
  assert (js_startsWith (open +:+ v +:+ close) open = true) as -> by (apply startsWith_spec; by eexists).
  assert (js_endsWith (open +:+ v +:+ close) close = true) as -> by (apply endsWith_spec; exists (open +:+ v); by rewrite sapp_assoc).
  cbn [andb]. rewrite drop_app_length, !slength_app.
  replace (_ - _ - _)%nat with (String.length v) by lia. by rewrite take_app_length.
Qed.

(** A text of digits and signs has nothing to escape. *)
Lemma xml_text_plain s : js_all number_char s = true -> ControlPlane.xml_text s = Some s.
Proof.
  induction s as [|c s IH]; [done|]. cbn [js_all]. rewrite andb_true_iff. intros [Hc Hs]. specialize (IH Hs).
  assert (He : ControlPlane.xml_text (String c s) = String c <$> ControlPlane.xml_text s)
    by (destruct c as [[] [] [] [] [] [] [] []]; first [discriminate Hc|reflexivity]).
  by rewrite He, IH.
Qed.

Lemma xml_text_number (z : Z) : ControlPlane.xml_text (pretty z) = Some (pretty z).
Proof. apply xml_text_plain, pretty_chars. Qed.

(** The launchd entry, unlike the systemd unit, sets the four variables the service
    needs to exactly their values, whatever these contain. *)
Theorem plist_sets_environment e :
  plist_pairs (ControlPlane.plist_env_lines e) =
  [("AGENT_HOME", ControlPlane.AGENT_HOME e); ("PORT", pretty (ControlPlane.au_port e));
   ("OPENAGENTHUB_LOCAL_TOKEN", ControlPlane.au_token e); ("OPENAGENTHUB_PRODUCT_VERSION", ControlPlane.au_version e)].
Proof.
  unfold ControlPlane.plist_env_lines, ControlPlane.plist_entry. cbn [app plist_pairs].
  assert (Hk : forall v, tag_text "key" ("    <key>" +:+ v +:+ "</key>") = ControlPlane.xml_text v) by (intros v; exact (tag_text_value "key" v)).
  assert (Hv : forall v, tag_text "string" ("    <string>" +:+ v +:+ "</string>") = ControlPlane.xml_text v)
    by (intros v; exact (tag_text_value "string" v)).
  rewrite !Hk, !Hv, !ControlPlane.xmlEscape_reads, xml_text_number. reflexivity.
Qed.

(** *** The state of the daemon *)
Section control.
Import ControlPlane.
Context (w : world) (on_windows : bool) (CPV PREFERRED : Z) (product LOG : string).

(** A daemon that starts on its own, as the service of the session does, while
    another holds the lock removes the state file of that other one before it exits.
    The one that serves is then out of reach: it is neither shown nor stopped. *)
Theorem second_daemon_hides_first self locked PORT dashboard stamp now h :
  locked <> Some "1" -> w_lock w h = false -> (forall l, w_state w (l ++ [A_acquire; A_clearState; A_exit 0]) = None) ->
  let h' := h ++ [A_acquire; A_clearState; A_exit 0] in
  runDaemon w CPV PREFERRED product self locked PORT dashboard stamp now h = (h', Ok tt) /\
  stop_command w on_windows true h' = (h' ++ [A_readState], Ok "control plane is not running") /\
  forall health json, status_command w on_windows true CPV product health json h' = (h' ++ [A_readState], Ok sr_not_running).
Proof.
  intros Hl Hlock Hstate h'. split_and!.
  - unfold runDaemon. rewrite bool_decide_eq_false_2 by done. unfold do_, mbind, tr_mbind, tr_bind, ask, act, mret, tr_mret, tr_ret.
    rewrite Hlock. cbn [negb]. cbv beta iota. unfold h'. by rewrite <- !app_assoc.
  - unfold stop_command, guarded. cbn [negb]. unfold q_state, mbind, tr_mbind, tr_bind, ask, act. unfold h'. by rewrite Hstate.
  - intros health json. unfold status_command, guarded. cbn [negb]. unfold q_state, mbind, tr_mbind, tr_bind, ask, act. unfold h'. by rewrite Hstate.
Qed.

(** What the status command says is running: there is a state, not a stopped one,
    whose process is the one that wrote it, and the daemon answers that it is well.
    Anything else is shown as not running, stopped, stale, or still starting. *)
Definition says_running (r : status_report) : Prop :=
  match r with sr_json b _ _ _ | sr_text b _ _ => b = true | _ => False end.

Theorem status_running_iff health json h :
  let '(h', r) := status_command w on_windows true CPV product health json h in
  (exists rep, r = Ok rep /\
    (says_running rep <->
     exists s, w_state w h = Some s /\ d_health s <> stopped /\
       let '(h2, same) := identityMatches w on_windows s (h ++ [A_readState]) in same = Ok true /\ health h2 (d_port s) = Some "ok")).
Proof.
  unfold status_command, guarded. cbn [negb]. unfold q_state, mbind, tr_mbind, tr_bind, ask, act. cbv beta iota.
  destruct (w_state w h) as [s|]; cbv beta iota; [|exists sr_not_running; split; [done|]; split; [done|by intros (? & ? & _)]].
  case_bool_decide as Hst.
  { eexists. split; [reflexivity|]. split; [done|]. by intros (? & [= <-] & ? & _). }
  destruct (identityMatches w on_windows s (h ++ [A_readState])) as [h2 same] eqn:Hid.
  assert (Hsame : exists b, same = Ok b).
  { unfold identityMatches, q_alive, mbind, tr_mbind, tr_bind, ask, act, mret, tr_mret, tr_ret in Hid.
    destruct (w_alive w _ _), on_windows; cbn in Hid; injection Hid as _ <-; by eexists. }
  destruct Hsame as [b ->]. cbv beta iota.
  assert (Hiff : forall P : Prop, (P <-> b = true /\ health h2 (d_port s) = Some "ok") ->
    (P <-> exists s0, Some s = Some s0 /\ d_health s0 <> stopped /\
       (let '(h3, same) := identityMatches w on_windows s0 (h ++ [A_readState]) in same = Ok true /\ health h3 (d_port s0) = Some "ok"))).
  { intros P HP. rewrite HP. split.
    - intros [-> Hh]. exists s. rewrite Hid. done.
    - intros (s0 & [= <-] & _ & H). rewrite Hid in H. destruct H as [[= ->] ?]. done. }
  destruct b, json; cbv beta iota; cbn [negb andb]; (eexists; split; [reflexivity|]); apply Hiff; cbn [says_running];
    rewrite ?bool_decide_eq_true; intuition discriminate.
Qed.
End control.

(** *** The start of the daemon *)
Section start.
Import Supervisor UsageStore UsageSources History Inspection.
Context `{JsText} (cutoff : Q -> string) (probe : RunProbe) (now self : string) (readdir : list string).

Lemma reconcile_files ok w : files (reconcile_world probe now self readdir ok w) = (reconcileRuns probe now self readdir (files w)).1.
Proof.
  unfold reconcile_world, reconcileRuns. cbn [fst]. set (changed := List.filter _ _). clearbody changed. revert w.
  induction changed as [|rn l IH]; intros w; [done|]. cbn [fold_left]. by rewrite IH.
Qed.

Lemma plain_rows_write r w : plain_id (runId r) = true -> plain_rows (store w) -> plain_rows (store (writeRun self true r w)).
Proof.
  intros Hid [Hnd Hall]. unfold writeRun, syncRunToUsage, syncRun. cbn [store].
  assert (Hruns : t_runs (if has_key f_runId (f_runId (toRunFacts r)) (t_runs (store w))
    then with_runs (upsert f_runId (toRunFacts r) (t_runs (store w))) (store w)
    else touch (with_runs (upsert f_runId (toRunFacts r) (t_runs (store w))) (store w))) = upsert f_runId (toRunFacts r) (t_runs (store w)))
    by by destruct (has_key _ _ _).
  unfold plain_rows. rewrite Hruns. split; [by apply upsert_nodup|]. apply Forall_forall. intros x Hx.
  assert (Hk : f_runId x ∈ map f_runId (upsert f_runId (toRunFacts r) (t_runs (store w)))) by (apply list_elem_of_fmap; by exists x).
  apply upsert_elem in Hk as [->|Hk]; [done|]. apply list_elem_of_fmap in Hk as (y & -> & Hy). rewrite Forall_forall in Hall. by apply Hall.
Qed.

(** C7: When the daemon starts, a listed run that is recorded as active is ended with the
    present time if it is not seen alive: its container does not run, or its worker does
    not (or has no recorded process id); the reason says which.  A run that is seen alive,
    and one that was over, keep their record.  Of the ended runs, those before and those
    it has just ended, exactly those are then removed that the retention settings call too
    old or too many, all others keep the record described, and the rows agree with the
    records.  This is for a history in order: each file of the directory is a valid record
    with the name of its run, ids have no dot, the database has one row for each run, these
    rows agree with the records before the start, some retention is set, and no update of
    the database fails. *)
Theorem daemon_start_spec ok outcome opts w w' n id r :
  (forall id, ok id = true) -> (forall id, (outcome id).2 = true) ->
  kept (files w) -> plain_rows (store w) -> mirrors w -> Forall (fun q => forall x, q = runRecordPath x -> plain_id x = true) readdir ->
  plain_id id = true -> readRun (files w) id = Some r -> runRecordPath id ∈ readdir ->
  let w1 := reconcile_world probe now self readdir ok w in
  prune_options None None (store w1) = Ok (Some opts) ->
  daemon_start cutoff probe now self readdir ok outcome w = (w', Ok n) ->
  mirrors w' /\
  exists r1, readRun (files w1) id = Some r1 /\
    (runIsActive r = false \/ observed_alive probe r -> r1 = r) /\
    (runIsActive r = true -> ~ observed_alive probe r ->
       runIsActive r1 = false /\ endedAt r1 = Some now /\
       exitReason r1 = Some (match sandbox r with
         | rs_container => match container probe (runId r) with
                           | None => r_container_gone
                           | Some c => if ci_oomKilled c then r_oom else r_signal
                           end
         | _ => match pid r with Some p => if groupAlive probe p then r_supervisor_gone else r_crashed | None => r_crashed end
         end)) /\
    (prunable cutoff opts (store w1) (toRunFacts r1) -> readRun (files w') id = None) /\
    (~ prunable cutoff opts (store w1) (toRunFacts r1) -> readRun (files w') id = Some r1) /\
    (runIsActive r = true -> observed_alive probe r -> readRun (files w') id = Some r).
Proof.
  intros Hok Hout Hkept Hrows Hm Hdir Hid Hr Hin w1 Hopts Hstart.
  assert (Hw1 : mirrors w1 /\ plain_rows (store w1)).
  { unfold w1, reconcile_world. set (changed := List.filter _ _).
    assert (Hplain : Forall (fun rn : RunRecord * RunRecord => plain_id (runId (snd rn)) = true) changed).
    { apply Forall_forall. intros rn Hrn. unfold changed in Hrn. apply elem_of_filter_In in Hrn as [Hrn _].
      apply list_elem_of_fmap in Hrn as (x & -> & Hx). cbn [snd]. rewrite reconcile_runId. apply listRuns_elem in Hx as [Hx _]; [|done].
      rewrite Forall_forall in Hdir. by apply (Hdir _ Hx). }
    clearbody changed. clear w1 Hopts Hstart Hkept Hr. revert w Hrows Hm. induction Hplain as [|rn l Hrn _ IH]; intros w Hrows Hm; [done|].
    cbn [fold_left]. rewrite Hok. apply IH; [by apply plain_rows_write|by apply mirrors_write]. }
  destruct Hw1 as [Hm1 Hrows1].
  assert (Hr1 : readRun (files w1) id = Some (settled probe now r)).
  { unfold w1, readRun. rewrite reconcile_files, reconciled_lookup by done. unfold readRun in Hr.
    destruct (files w !! runRecordPath id) as [f|]; [|done]. destruct f; try done. injection Hr as ->. by rewrite bool_decide_eq_true_2. }
  destruct (prune_command_facts cutoff None None outcome opts w1 w' n id (settled probe now r) Hrows1 Hm1 Hid Hr1 Hopts Hstart) as (H1 & H2 & H3).
  destruct (prune_command_keeps cutoff None None outcome opts w1 w' n id Hrows1 Hid Hopts Hstart) as [Hnone|Hsame].
  all: split; [by apply H3|exists (settled probe now r)]; destruct (settled_cases probe now r) as [Hc1 Hc2].
  all: split; [exact Hr1|]; split; [exact Hc1|]; split; [exact Hc2|]; split; [apply H1|].
  all: assert (Hlive : runIsActive r = true -> observed_alive probe r -> readRun (files w') id = Some r)
    by (intros Ha Hal; rewrite H2 by (by apply settled_active); by rewrite (Hc1 (or_intror Hal))).
  - split; [|exact Hlive]. intros Hn. exfalso. apply Hn, H1, Hnone.
  - split; [|exact Hlive]. intros _. by rewrite Hsame, Hr1.
Qed.
End start.

(** ** Witnesses *)
Section witnesses.
Import Supervisor UsageStore UsageSources History Inspection.

(** One run is kept, which the setting says in text. *)
Definition one_text : JsText :=
  Build_JsText (fun _ => None) (fun s => if String.eqb s "1" then Some 1%Q else None) (fun _ => "1") (fun _ => "2026-01-05T00:00:00.000Z").

(** Two active records, the worker of the second is gone; the newest ended run is kept. *)
Definition demo_history : world :=
  fold_left hist_apply
    [ho_store (so_setting "retention.max_runs" "1"); ho_write "41" (demo_record "r-1" "t1" 7); ho_write "42" (demo_record "r-2" "t2" 8)] no_history.

Lemma demo_history_kept : kept (files demo_history) /\ plain_rows (store demo_history) /\ mirrors demo_history.
Proof.
  split_and!.
  - intros id f. change (files demo_history) with (Supervisor.writeRun "42" (demo_record "r-2" "t2" 8) (Supervisor.writeRun "41" (demo_record "r-1" "t1" 7) ∅)).
    rewrite !lookup_writeRun. repeat case_decide; subst; [intros [= <-]; by eexists..|]. by rewrite lookup_empty.
  - split; [apply (bool_decide_unpack _); by vm_compute|by repeat constructor].
  - do 2 apply mirrors_write. intros id _. reflexivity.
Qed.

Lemma daemon_start_spec_witness :
  let w' := (@daemon_start one_text (fun _ => "") only_seven "t9" "p" ["r-1.json"; "r-2.json"] (fun _ => true) (fun _ => ([], true)) demo_history).1 in
  mirrors w' /\ readRun (files w') "r-1" = Some (demo_record "r-1" "t1" 7).
Proof.
  intros w'. destruct demo_history_kept as (Hk & Hrows & Hm).
  assert (E : (@daemon_start one_text (fun _ => "") only_seven "t9" "p" ["r-1.json"; "r-2.json"] (fun _ => true) (fun _ => ([], true)) demo_history).2 = Ok 0%nat)
    by (vm_compute; reflexivity).
  destruct (@daemon_start_spec one_text (fun _ => "") only_seven "t9" "p" ["r-1.json"; "r-2.json"] (fun _ => true) (fun _ => ([], true))
    (mkPrune None (Some 1%nat)) demo_history w' 0 "r-1" (demo_record "r-1" "t1" 7)) as (H1 & r1 & _ & _ & _ & _ & _ & H4).
  - reflexivity.
  - reflexivity.
  - exact Hk.
  - exact Hrows.
  - exact Hm.
  - repeat constructor; intros x Hx; [apply (runRecordPath_inj "r-1") in Hx as <-|apply (runRecordPath_inj "r-2") in Hx as <-]; reflexivity.
  - reflexivity.
  - vm_compute. reflexivity.
  - left.
  - vm_compute. reflexivity.
  - rewrite <- E. unfold w'. apply surjective_pairing.
  - split; [exact H1|]. apply H4; [reflexivity|exists 7; split; reflexivity].
Defined.
End witnesses.

Lemma second_daemon_hides_first_witness :
  let w := ControlPlane.mkWorld (fun h => if existsb (fun a => match a with ControlPlane.A_clearState => true | _ => false end) h then None else Some ControlPlane.demo_daemon)
    (fun _ _ => true) (fun _ _ => Some "Mon") (fun _ _ => None) (fun _ => 0) (fun _ _ => true) (fun _ => false) (fun _ _ => true) in
  (stop_command w false true [ControlPlane.A_acquire; ControlPlane.A_clearState; ControlPlane.A_exit 0]).2 = Ok "control plane is not running".
Proof.
  intros w. destruct (second_daemon_hides_first w false 1 31777 "1.0" 43 None None true None "now" []) as (_ & H & _).
  - done.
  - reflexivity.
  - intros l. cbn. by rewrite existsb_app, orb_true_r.
  - cbn [app] in H. by rewrite H.
Defined.
End DaemonCommands.
