(* ===== verification/Reports.v ===== *)
(** Commands that report: [cli/src/lib/print.ts], [commands/stats.ts], [status.ts] and
    [search.ts].  What a command prints is a list of lines. *)
From S2P Require Import Prelude Requirements Trace Config Registry UsageStore UsageSources Observability System Collect ProviderCommands Publishing DashboardPage.

Module Reports.
Import Trace.
Local Open Scope nat_scope.

(** ** Tables *)

(** [s.padEnd(n)] and ["-".repeat(n)]. *)
Definition spaces (c : ascii) (n : nat) : string := string_of_list_ascii (repeat c n).
Definition padEnd (n : nat) (s : string) : string := s +:+ spaces " " (n - String.length s).

Definition widths (header : list string) (rows : list (list string)) : list nat :=
  imap (fun i h => fold_right Nat.max (String.length h) (map (fun r => String.length (nth i r "")) rows)) header.

(** A cell beyond the header is not padded. *)
Definition table_line (ws : list nat) (cells : list string) : string := js_join "  " (imap (fun i c => padEnd (nth i ws 0) c) cells).

(** @src cli/src/lib/print.ts printTable *)
Definition printTable (header : list string) (rows : list (list string)) : list string :=
  let ws := widths header rows in
  table_line ws header :: js_join "  " (map (spaces "-") ws) :: map (table_line ws) rows.

(** ** Statistics *)
Section stats.
Import UsageStore UsageSources Observability.
(** [String] of a number, and [toFixed(6)]. *)
Context (number toFixed6 : Q -> string).

Definition nat_text (n : nat) : string := pretty (Z.of_nat n).

(** A section of the report, when there is something to show. *)
Definition section_ (title : string) (header : list string) (rows : list (list string)) : list string :=
  match rows with [] => [] | _ => title :: printTable header rows ++ [""] end.

(** @src cli/src/commands/stats.ts printHuman *)
Definition printHuman (s : UsageStats) : list string :=
  let r := runs s in
  let t := tokens s in
  let c := cost s in
  let range := if truthy (sr_from (stats_range s)) || truthy (sr_to (stats_range s))
    then " (" +:+ nullish (sr_from (stats_range s)) "beginning" +:+ " → " +:+ nullish (sr_to (stats_range s)) "now" +:+ ")" else "" in
  ["runs" +:+ range +:+ ":"]
  ++ printTable ["running"; "healthy"; "unhealthy"; "stopped"; "failed"; "today"; "all time"]
       [map nat_text [rc_running r; rc_healthy r; rc_unhealthy r; rc_stopped r; rc_failed r; rc_today r; rc_allTime r]]
  ++ [""; "containers:"] ++ printTable ["current"; "historical"] [[nat_text (containers_current s); nat_text (containers_historical s)]] ++ [""]
  ++ (if tk_available t
      then ["tokens:"] ++ printTable ["input"; "output"; "reasoning"; "cache"] [map number [tk_input t; tk_output t; tk_reasoning t; tk_cache t]]
           ++ [""; "cost:"]
           ++ printTable ["exact"; "estimated"]
                [[if ct_exactAvailable c then toFixed6 (ct_exact c) else "n/a";
                  if ct_estimatedAvailable c then toFixed6 (ct_estimated c) else "n/a"]] ++ [""]
      else ["no token usage recorded yet (unavailable, not zero)"; ""])
  ++ section_ "models:" ["provider"; "model"; "runs"; "tokens in"; "tokens out"]
       (map (fun m => [me_provider m; me_model m; nat_text (me_runs m); number (me_tokensIn m); number (me_tokensOut m)]) (models s))
  ++ section_ "sandboxes:" ["mode"; "runs"] (map (fun mc => [fst mc; nat_text (snd mc)]) (sandboxes s))
  ++ section_ "per agent:" ["agent"; "runs"; "running"; "last run"]
       (map (fun a => [ae_agentKey a; nat_text (ae_runs a); nat_text (ae_running a); nullish (ae_lastRunAt a) "-"]) (perAgent s))
  ++ ["last event: " +:+ nullish (lastEvent s) "none" +:+ " · aggregated: " +:+ generatedAt s].

Context `{JsText} (parse_date : string -> option Q).

(** What the command writes: the statistics as JSON or the report.
    @src cli/src/commands/stats.ts run *)
Definition stats_command (now : instant) (store : nat) (d : db) (from to : option string) (json noCache : bool) (c : cache_state)
    : result (UsageStats + list string) :=
  stats ← (getUsageStats parse_date now store d (mkRange from to None) (if noCache then 0%Q else USAGE_CACHE_TTL_MS) c).2;
  mret (if json then inl stats else inr (printHuman stats)).
End stats.

(** ** The machine *)
Section status.
Import Requirements System.
Context (toFixed : nat -> Z -> Z -> string) (load_text : Z -> string).
Local Abbreviation bytes := (DashboardPage.fmtBytes toFixed).

Definition or_none (none : string) (header : list string) (rows : list (list string)) : list string :=
  match rows with [] => [none] | _ => printTable header rows end.

(** @src cli/src/commands/status.ts run *)
Definition status_lines (all : bool) (s : SystemSnapshot) : list string :=
  let h := ss_host s in
  let detected := List.filter DashboardPage.is_detected (ss_agents s) in
  ["system: " +:+ h_hostname h +:+ " (" +:+ h_platform h +:+ "/" +:+ h_arch h +:+ ", " +:+ nat_text (h_cpus h) +:+ " cpu)";
   "uptime: " +:+ pretty (h_uptimeSec h / 60)%Z +:+ " min | memory: " +:+ bytes (h_memTotalBytes h - h_memFreeBytes h)%Z +:+ " / "
     +:+ bytes (h_memTotalBytes h) +:+ " | load: " +:+ js_join ", " (map load_text (h_loadavg h));
   "runtime: node " +:+ h_node h +:+ (if truthy (h_python h) then " | python " +:+ DashboardPage.without_python (nullish (h_python h) "") else "");
   "docker: " +:+ (if h_docker_available h then "available (" +:+ nullish (d_version (h_docker h)) "undefined" +:+ ")" else "NOT available");
   "registry: " +:+ ss_registryUrl s; "";
   "OpenAgentHub installed agents (" +:+ nat_text (length (ss_installed s)) +:+ "):"]
  ++ or_none "  (none)" ["spec"; "version"; "trust"; "installed"]
       (map (fun a => [oa_spec a; oa_version a; trust_name (oa_trust a); js_take 10 (oa_installedAt a)]) (ss_installed s))
  ++ [""; "Detected agents (" +:+ nat_text (length detected) +:+ "):"]
  ++ or_none "  none detected (third-party agents are matched by known heuristics)"
       ["agent"; "status"; "detected via"; "pids"; "containers"; "config"; "ports"]
       (map (fun a => [da_displayName a; DashboardPage.status_name (da_status a); js_join "," (map DashboardPage.source_name (detectedVia a));
          js_join "," (map (fun p => pretty (ap_pid p)) (processes a)); js_join "," (containerNames a);
          match configPaths a with [] => "" | _ => "yes" end; js_join "," (map pretty (listeningPorts a))]) detected)
  ++ [""; "Containers (" +:+ nat_text (length (ss_containers s)) +:+ (if all then " incl. stopped" else "") +:+ "):"]
  ++ or_none "  none" ["id"; "name"; "image"; "state"; "ports"; "agent"]
       (map (fun c => [js_take 12 (c_id c); c_name c; c_image c; c_state c; c_ports c;
          nullish (matchedAgentId c) (nullish (DashboardPage.manager_name <$> managedBy c) "")]) (ss_containers s)).
End status.

(** ** Limits of other programs, and the tools of the machine *)
Section limits.
Import UsageStore UsageSources ProviderCommands.
Context (number : Q -> string).

Definition provider_status_text (st : ProviderStatus) : string :=
  match st with
  | st_ok => "ok" | st_unsupported => "unsupported" | st_locked => "locked" | st_error => "error"
  | st_timeboxed => "timeboxed" | st_disabled => "disabled" | st_missing => "missing"
  end.
Definition limit_source_text (s : limit_source) : string := match s with ls_local => "local" | ls_live => "live" | ls_manual => "manual" end.

Definition problem_line (p : ProviderResult) : string :=
  uprovider_name (r_provider p) +:+ ": " +:+ provider_status_text (r_status p) +:+ " — "
  +:+ nullish (r_message p) (if r_detected p then "data sources present" else "no data sources found").
Definition provider_row (u : Collect.ProviderUsageOverview) : list string :=
  [uprovider_name (Collect.po_provider u); number (Collect.po_tokensIn u); number (Collect.po_tokensOut u);
   nat_text (Collect.po_events u); nullish (Collect.po_lastObservedAt u) "never"].
Definition limit_row (l : LimitRow) : list string :=
  [uprovider_name (l_provider l); l_window l; nullish (l_plan l) "n/a"; nullish ((fun p => number p +:+ "%") <$> l_usedPercent l) "n/a";
   nullish (l_units l) "n/a"; nullish (number <$> l_creditsUsed l) "n/a"; nullish (number <$> l_creditsTotal l) "n/a";
   nullish (l_resetAt l) "n/a"; limit_source_text (l_source l)].

(** @src cli/src/commands/limits/index.ts 27-64 printHuman *)
Definition limits_lines (data : ProviderData) : list string :=
  let problems := map problem_line (List.filter (fun p => negb (bool_decide (r_status p = st_ok))) (pd_collection data)) in
  problems ++
  match pd_usage data, pd_limits data with
  | [], [] => ["no provider usage data available yet (unavailable, not zero)"; ""]
  | _, _ =>
      section_ "provider usage:" ["provider"; "tokens in"; "tokens out"; "events"; "last observed"] (map provider_row (pd_usage data))
      ++ section_ "limits:" ["provider"; "window"; "plan"; "used %"; "units"; "used"; "total"; "resets"; "source"] (map limit_row (pd_limits data))
  end.
End limits.

(** @src cli/src/commands/runtime.ts run *)
Definition runtime_lines (r : Requirements.DetectedRuntime) : list string :=
  let ok (b : bool) := if b then "ok" else "missing" in
  printTable ["component"; "status"; "version"]
    [["python3"; ok (truthy (Requirements.d_python r)); nullish (Requirements.d_python r) "-"];
     ["node"; ok (truthy (Requirements.d_node r)); nullish (Requirements.d_node r) "-"];
     ["docker"; ok (Requirements.d_docker r); nullish (Requirements.d_dockerVersion r) "-"];
     ["ollama"; ok (Requirements.d_ollama r); "-"]; ["uv"; ok (Requirements.d_uv r); "-"]; ["git"; ok (Requirements.d_git r); "-"]].

(** ** Searching *)
Section search.
Import Requirements.
Context (fetch : forall k : Registry.kind, list Registry.Request -> Registry.Request ->
  result (Registry.Response (Registry.answer_type k))) (config : Config.config_file) (resolveToken : string -> option string).

Record search_flags := mkFlags {
  sf_framework : option string; sf_tags : option string; sf_models : option string; sf_sort : string; sf_registry : option string; sf_limit : Z;
}.

Definition search_row (a : Registry.AgentSummary) : list string :=
  [Registry.as_namespace a +:+ "/" +:+ Registry.as_name a; Registry.as_version a; Registry.as_author a; nullish (Registry.as_framework a) "";
   js_join "," (take 3 (Registry.as_models a)); trust_name (Registry.as_trust a); pretty (Registry.as_downloads a)].

(** @src cli/src/commands/search.ts run *)
Definition search_command (query : option string) (f : search_flags) : tr Registry.Request (list string) :=
  _ ← tr_catch (tr_lift (Config.loadConfig config)) (fun err => tr_throw EError (err_message err));
  url ← tr_lift (Publishing.resolveRegistryUrl config (sf_registry f));
  tr_catch
    (items ← Registry.search fetch url (resolveToken url)
       (Registry.mkSearch query (sf_framework f) (sf_tags f) (sf_models f) (Some (sf_sort f)) (Some (sf_limit f)) None);
     mret (match items with
           | [] => ["no agents found"]
           | _ => printTable ["name"; "version"; "author"; "framework"; "models"; "trust"; "downloads"] (map search_row items)
           end))
    (fun err => tr_throw EError (err_message err)).
End search.

(** ** Properties *)

Lemma spaces_length c n : String.length (spaces c n) = n.
Proof. unfold spaces. induction n as [|n IH]; [done|]. cbn. by rewrite IH. Qed.

Lemma padEnd_length n s : String.length s <= n -> String.length (padEnd n s) = n.
Proof. intros H. unfold padEnd. rewrite slength_app, spaces_length. lia. Qed.

Lemma join_width sep l : String.length (js_join sep l) = list_sum (map String.length l) + String.length sep * (length l - 1).
Proof.
  induction l as [|a l IH]; [cbn; lia|]. destruct l as [|b l]; [cbn; lia|].
  change (js_join sep (a :: b :: l)) with (a +:+ sep +:+ js_join sep (b :: l)).
  change (list_sum (map String.length (a :: b :: l))) with (String.length a + list_sum (map String.length (b :: l))).
  rewrite !slength_app, IH. cbn [length]. rewrite !Nat.sub_succ, !Nat.sub_0_r, Nat.mul_succ_r. lia.
Qed.

Lemma max_bound n l x : x ∈ l -> x <= fold_right Nat.max n l.
Proof. induction l as [|y l IH]; [by intros ?%elem_of_nil|]. intros [->|Hx]%elem_of_cons; cbn; [lia|]. specialize (IH Hx). lia. Qed.

Lemma max_start n l : n <= fold_right Nat.max n l.
Proof. induction l as [|y l IH]; cbn; lia. Qed.

(** The columns are aligned: every line of a table whose rows have a cell for each
    column is as long as the line of dashes. *)
Theorem printTable_aligned header rows :
  Forall (fun r => length r = length header) rows ->
  Forall (fun line => String.length line = list_sum (widths header rows) + 2 * (length header - 1)) (printTable header rows).
Proof.
  intros Hrows. set (ws := widths header rows).
  assert (Hws : length ws = length header) by (unfold ws, widths; by rewrite length_imap).
  assert (Hline : forall cells, length cells = length header -> (forall i c, cells !! i = Some c -> String.length c <= nth i ws 0) ->
    String.length (table_line ws cells) = list_sum ws + 2 * (length header - 1)).
  { intros cells Hlen Hfit. unfold table_line. rewrite join_width, length_imap, Hlen. cbn [String.length]. f_equal. f_equal.
    apply list_eq. intros i. rewrite list_lookup_fmap, list_lookup_imap. destruct (cells !! i) as [c|] eqn:Hc; cbn.
    - rewrite padEnd_length by (by apply Hfit). assert (Hi : i < length ws) by (rewrite Hws, <- Hlen; by eapply lookup_lt_Some).
      destruct (ws !! i) as [x|] eqn:Hx; [|apply lookup_ge_None in Hx; lia]. f_equal. by apply nth_lookup_Some.
    - apply lookup_ge_None in Hc. symmetry. apply lookup_ge_None. lia. }
  assert (Hnth : forall i h, header !! i = Some h -> nth i ws 0 = fold_right Nat.max (String.length h) (map (fun r => String.length (nth i r "")) rows)).
  { intros i h Hh. apply nth_lookup_Some. unfold ws, widths. rewrite list_lookup_imap, Hh. done. }
  unfold printTable. fold ws. constructor; [|constructor].
  - apply Hline; [done|]. intros i c Hc. rewrite (Hnth i c Hc). apply max_start.
  - rewrite join_width, length_map, Hws. cbn [String.length]. f_equal. f_equal. rewrite map_map. rewrite <- (map_id ws) at 2.
    apply map_ext. intros n. apply spaces_length.
  - apply Forall_map, Forall_forall. intros r Hr. rewrite Forall_forall in Hrows. apply Hline; [by apply Hrows|]. intros i c Hc.
    assert (Hi : i < length header) by (rewrite <- (Hrows r Hr); by eapply lookup_lt_Some).
    destruct (header !! i) as [h|] eqn:Hh; [|apply lookup_ge_None in Hh; lia]. rewrite (Hnth i h Hh). apply max_bound.
    apply list_elem_of_fmap. exists r. split; [|done]. by rewrite (nth_lookup_Some r i "" c Hc).
Qed.

Lemma printTable_row header rows r : r ∈ rows -> table_line (widths header rows) r ∈ printTable header rows.
Proof. intros Hr. unfold printTable. do 2 right. apply list_elem_of_fmap. by exists r. Qed.

(** The limits are reported in full: a provider that could not be read is named with
    its reason, each provider with usage and each limit has its line, and when there is
    neither, the report says so and shows no number. *)
Theorem limits_lines_complete number data :
  (forall p, p ∈ ProviderCommands.pd_collection data -> UsageSources.r_status p <> UsageSources.st_ok ->
     problem_line p ∈ limits_lines number data) /\
  (forall u, u ∈ ProviderCommands.pd_usage data -> exists ws, table_line ws (provider_row number u) ∈ limits_lines number data) /\
  (forall l, l ∈ ProviderCommands.pd_limits data -> exists ws, table_line ws (limit_row number l) ∈ limits_lines number data) /\
  (ProviderCommands.pd_usage data = [] -> ProviderCommands.pd_limits data = [] ->
     forall line, line ∈ limits_lines number data -> line = "" \/ line = "no provider usage data available yet (unavailable, not zero)" \/
       exists p, p ∈ ProviderCommands.pd_collection data /\ line = problem_line p).
Proof.
  assert (Hsec : forall {A} title header (f : A -> list string) l a, a ∈ l ->
    exists ws, table_line ws (f a) ∈ section_ title header (map f l)).
  { intros A title header f l a Ha. destruct l as [|x l]; [by apply elem_of_nil in Ha|]. exists (widths header (map f (x :: l))).
    cbn [map section_]. right. apply elem_of_app. left. apply printTable_row. by apply (list_elem_of_fmap_2 f (x :: l)). }
  unfold limits_lines. split_and!.
  - intros p Hp Hs. apply elem_of_app. left. apply list_elem_of_fmap. exists p. split; [done|]. apply elem_of_filter_In. split; [done|].
    by rewrite bool_decide_eq_false_2.
  - intros u Hu. destruct (ProviderCommands.pd_usage data) as [|u' l] eqn:E; [by apply elem_of_nil in Hu|]. rewrite <- E in *.
    destruct (Hsec _ "provider usage:" ["provider"; "tokens in"; "tokens out"; "events"; "last observed"] (provider_row number) _ u Hu) as [ws Hw].
    exists ws. rewrite E in Hw |- *. apply elem_of_app. right. apply elem_of_app. by left.
  - intros x Hx. destruct (Hsec _ "limits:" ["provider"; "window"; "plan"; "used %"; "units"; "used"; "total"; "resets"; "source"] (limit_row number) _ x Hx) as [ws Hw].
    exists ws. apply elem_of_app. right. destruct (ProviderCommands.pd_usage data), (ProviderCommands.pd_limits data); [by apply elem_of_nil in Hx|..];
      apply elem_of_app; by right.
  - intros -> -> line [Hl|Hl]%elem_of_app.
    + apply list_elem_of_fmap in Hl as (p & -> & Hp). apply elem_of_filter_In in Hp as [Hp _]. right. right. by exists p.
    + apply elem_of_cons in Hl as [->|Hl]; [by right; left|]. apply elem_of_cons in Hl as [->|Hl]; [by left|by apply elem_of_nil in Hl].
Qed.

(** A new process has an empty cache: whatever the flags, the command reports the
    statistics of the database as it is. *)
Theorem stats_command_fresh number toFixed6 `{UsageSources.JsText} parse_date now store d from to json noCache version :
  stats_command number toFixed6 parse_date now store d from to json noCache (Observability.mkCache [] None version) =
  (s ← Observability.computeUsageStats parse_date now d (Observability.mkRange from to None);
   mret (if json : bool then inl s else inr (printHuman number toFixed6 s))).
Proof.
  unfold stats_command, Observability.getUsageStats. rewrite bool_decide_eq_false_2 by done. cbn [Observability.entries obj_get].
  by destruct (Observability.computeUsageStats _ _ _ _).
Qed.

(** Searching sends one request, with the token for the registry, or none when the
    configuration cannot be read. *)
Theorem search_command_requests fetch config resolveToken query f h :
  match Config.loadConfig config with
  | Throw _ => (search_command fetch config resolveToken query f h).1 = h
  | Ok c =>
      let url := if truthy (sf_registry f) then nullish (sf_registry f) "" else nullish (Config.registryUrl c) Config.REGISTRY_DEFAULT in
      exists path, (search_command fetch config resolveToken query f h).1 = h ++ [Registry.the_request url (resolveToken url) path "GET" [] Registry.rb_none]
  end.
Proof.
  unfold search_command, Publishing.resolveRegistryUrl. destruct (Config.loadConfig config) as [c|e]; [|done]. cbv zeta. eexists.
  rewrite tr_bind_run. unfold tr_catch at 1, tr_lift at 1. rewrite tr_bind_run.
  assert (Hurl : (tr_lift (if truthy (sf_registry f) then Ok (nullish (sf_registry f) "")
    else (c0 ← Ok c; mret (nullish (Config.registryUrl c0) Config.REGISTRY_DEFAULT))) : tr Registry.Request string) h =
    (h, Ok (if truthy (sf_registry f) then nullish (sf_registry f) "" else nullish (Config.registryUrl c) Config.REGISTRY_DEFAULT)))
    by (by destruct (truthy (sf_registry f))).
  rewrite Hurl. apply catch_quiet; [|done]. apply bind_quiet; [|done]. apply bind_quiet; [apply Registry.request_run|done].
Qed.
End Reports.
