(* ===== verification/RunCommand.v ===== *)
(** The command [run], [cli/src/commands/run.ts], as a whole: its flags and its standard
    input, the preparation of [RunAgent.v], and then a run in the foreground
    ([RunAgent.v]) or under the supervisor ([ManagedRuns.v]); and what becomes of a run
    under the supervisor whose sandbox was recorded wrongly. *)
From S2P Require Import Prelude Fs Trace Requirements Policy Config Resolve Secrets Sandbox Container AgentRuntime Installer Supervisor RunAgent ManagedRuns.

Module RunCommand.
Import Trace Requirements Installer Supervisor.
Local Open Scope Z_scope.

(** @src cli/src/commands/run.ts 19-28 flags *)
Record run_flags := mkRunFlags {
  rf_model : option string; rf_interface : AgentRuntime.InterfaceName; rf_input : option string; rf_interactive : bool;
  rf_timeout : option Z; rf_detach : bool; rf_allow_secrets : bool;
}.

(** What the command ends with: an error it prints, an error it does not catch, the
    exit code, a run that goes on, waiting for its standard input to end, or a message about
    a run under the supervisor. *)
Inductive run_end :=
| re_error (message : string)
| re_uncaught (e : jserror)
| re_exit (code : Z)
| re_waiting
| re_reading
| re_detached (record : RunRecord).

(** What arrives on the standard input. *)
Inductive stdin_event := si_chunk (text : string) | si_end.

(** All of it, [None] while it has not ended.
    @src cli/src/commands/run.ts 36-41 run *)
Fixpoint read_stdin (data : string) (evs : list stdin_event) : option string :=
  match evs with
  | [] => None
  | si_chunk s :: evs => read_stdin (data +:+ s) evs
  | si_end :: _ => Some data
  end.

(** What was done: the actions of the preparation, those of the supervisor, the files
    of the runs; what was printed and what was passed on from the agent. *)
Record run_report := mkReport {
  rr_prepared : list iact; rr_managed : list ManagedRuns.ract; rr_files : Fs.fs run_file;
  rr_lines : list string; rr_stdout : string; rr_stderr : string; rr_end : run_end;
}.

Section command.
Context {St : Type} `{Secrets.SecretStore St}.
Context (sha256_hex : string -> string) (exec : list Sandbox.cmd -> Sandbox.cmd -> result unit)
  (dockerCheck : tr Sandbox.cmd bool) (sur : AgentRuntime.surroundings) (events : list Sandbox.child_event).
(** [RunAgent.prepareRunContext] for the argument of the command; the supervisor's
    world; the answers of the user to questions; the new run id and the clock. *)
Context (prepare : RunAgent.PrepareOptions -> tr iact (RunAgent.RunContext St)) (mw : ManagedRuns.world)
  (answers : list string -> list bool) (runId now now_end self : string).

(** [stdin] is [None] at a terminal.  The input, or [None] for it as long as it is
    read.
    @src cli/src/commands/run.ts 34-42 run *)
Definition run_input (flags : run_flags) (stdin : option (list stdin_event)) : option (option string) :=
  match rf_input flags, stdin with
  | Some i, _ => Some (Some i)
  | None, Some evs => if rf_detach flags then Some None else match read_stdin "" evs with Some s => Some (Some s) | None => None end
  | None, None => Some None
  end.

(** @src cli/src/commands/run.ts 47-49 run *)
Definition input_warning (flags : run_flags) (stdin : option (list stdin_event)) : list string :=
  if rf_detach flags && match rf_interface flags with AgentRuntime.if_name_cli => true | _ => false end && bool_decide (rf_input flags = None)
     && bool_decide (is_Some stdin)
  then ["no --input given; the agent will read empty stdin"] else [].

Definition prepared_of (ctx : RunAgent.RunContext St) : ManagedRuns.prepared :=
  ManagedRuns.mkPrepared (RunAgent.x_agentKey _ ctx) (RunAgent.x_version _ ctx) (Config.ia_trust (RunAgent.x_installed _ ctx))
    (Config.ia_archiveDigest (RunAgent.x_installed _ ctx)).

Definition used_name (u : AgentRuntime.used_sandbox) : string :=
  match u with AgentRuntime.used_container => "container" | AgentRuntime.used_process => "process" | AgentRuntime.used_none => "none" end.

(** The lines about the sandbox and the secrets.
    @src cli/src/commands/run.ts 127-132 run *)
Definition notes (ctx : RunAgent.RunContext St) (r : AgentRuntime.RunAgentResult) : list string :=
  (if truthy (AgentRuntime.ra_sandboxReason r)
   then ["sandbox: " +:+ used_name (AgentRuntime.ra_sandbox r) +:+ " (" +:+ nullish (AgentRuntime.ra_sandboxReason r) "" +:+ ")"] else [])
  ++ match RunAgent.x_exposedSecrets _ ctx with [] => [] | l => ["exposed secrets: " +:+ js_join ", " l] end.

Definition foreground_options (flags : run_flags) (input : option string) : RunAgent.ExecuteOptions :=
  RunAgent.mkExecute (rf_interface flags) input (Some (nullish (rf_timeout flags) 120000)) (rf_interactive flags) (rf_model flags)
    (Some runId) false None.

(** The notes of the preparation, about a status that could not be refreshed, are left out.
    @src cli/src/commands/run.ts run *)
Definition run_command (flags : run_flags) (stdin : option (list stdin_event)) (files : Fs.fs run_file) : run_report :=
  let stop lines e := mkReport [] [] files lines "" "" e in
  match run_input flags stdin with
  | None => stop [] re_reading
  | Some input =>
  if rf_detach flags && rf_interactive flags then stop [] (re_error "--detach cannot be combined with --interactive")
  else
    let lines := input_warning flags stdin in
    match prepare (RunAgent.mkPrepare (rf_allow_secrets flags) (match stdin with None => Some answers | Some _ => None end)) [] with
    | (h, Throw err) => mkReport h [] files lines "" "" (re_error (err_message err))
    | (h, Ok ctx) =>
        if rf_detach flags then
          match ManagedRuns.run_detached mw (prepared_of ctx) runId (RunAgent.run_interface_of (rf_interface flags)) (rf_timeout flags) input [] with
          | (mh, Ok record) => mkReport h mh files lines "" "" (re_detached record)
          | (mh, Throw e) => mkReport h mh files lines "" "" (re_uncaught e)
          end
        else
          match RunAgent.run_foreground sha256_hex exec dockerCheck sur ctx (foreground_options flags input) events runId now now_end self files with
          | (files, Throw e) => mkReport h [] files lines "" "" (re_uncaught e)
          | (files, Ok r) =>
              match AgentRuntime.ra_result r with
              | None => mkReport h [] files lines "" "" re_waiting
              | Some o =>
                  let pass s := if rf_interactive flags then "" else s in
                  mkReport h [] files (lines ++ notes ctx r) (pass (Sandbox.stdout o)) (pass (Sandbox.stderr o)) (re_exit (Sandbox.exitCode o))
              end
          end
    end
  end.

(** What the worker of a run under the supervisor executes, [supervisor-run.ts]: no
    model is among its options. *)
Definition worker_options (record : RunRecord) (iface : AgentRuntime.InterfaceName) (input usageFile : string) : RunAgent.ExecuteOptions :=
  RunAgent.mkExecute iface (Some input) (timeoutMs record) false None (Some (Supervisor.runId record)) true (Some usageFile).
End command.

(** ** Properties *)
Section facts.
Context {St : Type} `{Secrets.SecretStore St}.
Context (sha256_hex : string -> string) (exec : list Sandbox.cmd -> Sandbox.cmd -> result unit)
  (dockerCheck : tr Sandbox.cmd bool) (sur : AgentRuntime.surroundings) (events : list Sandbox.child_event).
Context (prepare : RunAgent.PrepareOptions -> tr iact (RunAgent.RunContext St)) (mw : ManagedRuns.world)
  (answers : list string -> list bool) (runId now now_end self : string).
Local Abbreviation run_command := (run_command sha256_hex exec dockerCheck sur events prepare mw answers runId now now_end self).

Lemma read_stdin_spec evs : forall data, read_stdin data evs = None <-> si_end ∉ evs.
Proof.
  induction evs as [|[s|] evs IH]; intros data; cbn.
  - split; [|done]. intros _ Hin. by apply elem_of_nil in Hin.
  - rewrite IH, elem_of_cons. naive_solver.
  - split; [done|]. intros Hn. destruct Hn. by left.
Qed.

(** The standard input is read to its end before anything else, also of an interactive
    run.  An MCP client keeps it open to send its messages: as long as it does, the
    agent is not even started. *)
Theorem interactive_waits_for_end flags evs files :
  rf_interactive flags = true -> rf_detach flags = false -> rf_input flags = None -> si_end ∉ evs ->
  run_command flags (Some evs) files = mkReport [] [] files [] "" "" re_reading.
Proof.
  intros _ Hd Hi Hn. unfold RunCommand.run_command, run_input. rewrite Hi, Hd. by rewrite (proj2 (read_stdin_spec evs "") Hn).
Qed.

(** The model that was asked for has no effect on a run under the supervisor. *)
Theorem detached_ignores_model flags model stdin files :
  rf_detach flags = true ->
  run_command (mkRunFlags model (rf_interface flags) (rf_input flags) (rf_interactive flags) (rf_timeout flags) true (rf_allow_secrets flags)) stdin files =
  run_command flags stdin files.
Proof. destruct flags. cbn. by intros ->. Qed.

(** A run in the foreground that ended: the command's exit code is that of the agent, its
    output is passed on unless it was wired to the terminal, and the record of the run
    says how it ended, with the same code. *)
Theorem foreground_reports flags stdin files code :
  let rep := run_command flags stdin files in
  rr_end rep = re_exit code ->
  rf_detach flags = false /\
  exists ctx input r o, run_input flags stdin = Some input /\
    (RunAgent.executeAgentRun sha256_hex exec dockerCheck sur ctx (foreground_options runId flags input) events []).2 = Ok r /\
    AgentRuntime.ra_result r = Some o /\ code = Sandbox.exitCode o /\
    (rf_interactive flags = false -> rr_stdout rep = Sandbox.stdout o /\ rr_stderr rep = Sandbox.stderr o) /\
    exists record, readRun (rr_files rep) runId = Some record /\ r_exitCode record = Some code /\
      state record = (if code =? 0 then exited else failed) /\ endedAt record = Some now_end.
Proof.
  intros rep. unfold rep, RunCommand.run_command. destruct (run_input flags stdin) as [input|] eqn:Hin; [|done].
  destruct (rf_detach flags) eqn:Hd; cbn [andb].
  { destruct (rf_interactive flags); [done|]. destruct (prepare _ []) as [h [ctx|e]]; [|done].
    by destruct (ManagedRuns.run_detached _ _ _ _ _ _ _) as [mh [record|e]]. }
  destruct (prepare _ []) as [h [ctx|e]]; [|done]. unfold RunAgent.run_foreground.
  destruct (RunAgent.executeAgentRun _ _ _ _ _ _ _ _).2 as [r|e] eqn:Hrun; [|done].
  destruct (AgentRuntime.ra_result r) as [o|] eqn:Ho; cbv beta iota; rewrite Ho; [|done]. cbn [rr_end]. intros [= <-].
  split; [done|]. exists ctx, input, r, o. split_and!; try done; [by intros ->|].
  pose proof (Supervisor.read_written self (RunAgent.foreground_record ctx runId now (rf_interface flags)) files) as Hread.
  change (Supervisor.runId (RunAgent.foreground_record ctx runId now (rf_interface flags))) with runId in Hread.
  cbn [rr_files RunAgent.eo_interfaceName foreground_options]. rewrite Hread. cbn [nullish from_option].
  eexists. split; [|].
  - match goal with |- context [RunAgent.foreground_final ?c r o now_end] => exact (Supervisor.read_written self (RunAgent.foreground_final c r o now_end) _) end.
  - done.
Qed.
End facts.

(** *** The sandbox of a run under the supervisor *)
Section misrecorded.
Context {St : Type} `{Secrets.SecretStore St}.
Context (sha256_hex : string -> string) (exec : list Sandbox.cmd -> Sandbox.cmd -> result unit)
  (dockerCheck : tr Sandbox.cmd bool) (sur : AgentRuntime.surroundings).

(** The command records the sandbox by the trust of the agent alone, while the worker's
    run decides by the whole policy, the override, the manifest and the review status.
    A trusted agent that runs in a container is recorded as a process; and as long as
    its record says so, no stop reaches the container: no container is stopped, only
    the group of the worker is signalled. *)
Theorem container_recorded_as_process (ctx : RunAgent.RunContext St) opts :
  let installed := RunAgent.x_installed _ ctx in
  Config.ia_trust installed = trusted \/ Config.ia_trust installed = local ->
  Policy.dc_mode (Policy.effectiveSandbox (Policy.mkInput (Config.ia_trust installed) (RunAgent.x_manifest _ ctx) (RunAgent.x_reviewStatus _ ctx)
    (Some (RunAgent.x_statusFresh _ ctx)) (RunAgent.x_sandboxOverride _ ctx) (Config.ia_archiveDigest installed))) = m_container ->
  (forall events h h' r, RunAgent.eo_interfaceName opts <> AgentRuntime.if_name_http ->
     RunAgent.executeAgentRun sha256_hex exec dockerCheck sur ctx opts events h = (h', Ok r) ->
     AgentRuntime.ra_sandbox r = AgentRuntime.used_container) /\
  (forall id now port timeout policy digest input,
     sandbox (initial_record (mkManaged id (RunAgent.x_agentKey _ ctx) (RunAgent.x_version _ ctx) (RunAgent.run_interface_of (RunAgent.eo_interfaceName opts))
       (ManagedRuns.sandbox_by_trust (ManagedRuns.pr_trust (prepared_of ctx))) port timeout policy digest input) now) = rs_process) /\
  (forall w id l, (forall r0, ManagedRuns.w_read w l id = Some r0 -> sandbox r0 = rs_process) ->
     exists l', (ManagedRuns.stopRun w id l).1 = l ++ l' /\ forall c, ManagedRuns.R_docker_stop c ∉ l').
Proof.
  intros installed Ht Hmode. split_and!.
  - intros events h h' r Hi Hrun. unfold RunAgent.executeAgentRun in Hrun. apply AgentRuntime.runAgent_ok_steps in Hrun as [(Hh & _)|Hrun]; [done|].
    destruct Hrun as (effective & policy & stored & model & h1 & Ha & _ & _ & Hs).
    apply AgentRuntime.admission_ok_iff in Ha as (_ & _ & _ & -> & _). apply AgentRuntime.start_sandbox_mode in Hs.
    unfold AgentRuntime.policy_input in Hs. cbn in Hs. unfold installed in Hmode. by rewrite Hmode in Hs.
  - intros id now port timeout policy digest input. unfold installed in Ht. cbn. by destruct Ht as [-> | ->].
  - intros w id l Hr. pose proof (ManagedRuns.stopRun_aims w id l) as Haims. destruct (stop_request _ _) as [x|e].
    + destruct Haims as (r0 & l' & Hr0 & _ & -> & Hall). eexists. split; [reflexivity|]. intros c [Hc|Hc]%elem_of_cons; [done|].
      rewrite Forall_forall in Hall. apply Hall in Hc as [Hs _]. by rewrite (Hr r0 Hr0) in Hs.
    + rewrite Haims. exists [ManagedRuns.R_read id]. split; [done|]. intros c [Hc|Hc]%elem_of_cons; [done|by apply elem_of_nil in Hc].
Qed.
End misrecorded.
End RunCommand.
