(* ===== verification/EnvCommand.v ===== *)
(** The command [env], [cli/src/commands/env.ts], as a whole: it finds the agent among
    the installed ones, opens the vault and reads or changes the agent's secrets. *)
From S2P Require Import Prelude Requirements Config Resolve Secrets Installer.

Module EnvCommand.
Import Secrets.

Section env.
Context {S : Type} `{SecretStore S} (localeCompare : string -> string -> Z).

(** [open] is [SecretsVault.open] with a passphrase: the store, or the error. *)
Context (config : Config.config_file) (open : option string -> result S) (AGENT_PASSPHRASE : option string).

(** @src cli/src/commands/env.ts run *)
Definition env_command (spec : string) (flags : env_flags) (passphrase : option string) (kv : list string) : result (S * list string) :=
  parsed ← Installer.parseSpec spec;
  let '(Installer.mkParsed ns nm v) := parsed in
  config ← Config.loadConfig config;
  found ← Resolve.resolveInstalledOrThrow localeCompare config ns nm v;
  let '(Resolve.mkMatch agentKey _) := found in
  vault ← open (match passphrase with Some p => Some p | None => AGENT_PASSPHRASE end);
  env_run vault agentKey flags kv.
End env.

(** ** Properties *)
Section facts.
Context {S : Type} `{SecretStoreLaws S} (localeCompare : string -> string -> Z).
Context (config : Config.config_file) (open : option string -> result S) (AGENT_PASSPHRASE : option string).

(** The values read are those of the arguments, cut at their first "=", under valid names. *)
Lemma env_values_spec kv : forall values out, NoDup (obj_keys values) -> env_values kv values = Ok out ->
  NoDup (obj_keys out) /\ forall k x, obj_get k out = Some x ->
    obj_get k values = Some x \/ (k +:+ "=" +:+ x ∈ kv /\ valid_secret_name k = true).
Proof.
  induction kv as [|item kv IH]; intros values out Hnd; cbn [env_values]; [intros [= <-]; split; [done|by left]|].
  destruct (js_span _ item) as [k rest] eqn:Hspan. destruct (_ || _) eqn:Hbad; [done|].
  destruct (valid_secret_name k) eqn:Hv; cbn [negb]; [|done].
  intros Hout. apply IH in Hout as [Hnd' Hall]; [|by apply obj_set_nodup]. split; [done|]. intros k' x Hk.
  destruct (Hall k' x Hk) as [Hset|[Hin Hv']]; [|right; split; [by right|done]].
  rewrite obj_get_set in Hset. destruct (String.eqb_spec k k') as [<-|Hkk]; [|by left].
  injection Hset as <-. right. split; [|done].
  destruct (span_spec _ _ _ _ Hspan) as [-> _]. destruct rest as [|c rest]; [done|].
  apply span_stop in Hspan. apply negb_false_iff, Ascii.eqb_eq in Hspan as ->. left.
Qed.

(** What a run of [env] may make of the store: nothing, or secrets of this one agent, each
    of which was there or was given. *)
Definition env_effect (s : S) (agentKey : string) (kv : list string) (s' : S) : Prop :=
  s' = s \/
  (forall b, ss_apart s agentKey b -> ss_get s' b = ss_get s b) /\
  exists o o', ss_get s agentKey = Ok o /\ ss_get s' agentKey = Ok o' /\ forall k x, obj_get k o' = Some x ->
    obj_get k o = Some x \/ (k +:+ "=" +:+ x ∈ kv /\ valid_secret_name k = true).

(** One [set] whose values are old secrets or arguments has such an effect. *)
Lemma set_effect s agentKey kv values s' :
  NoDup (obj_keys values) ->
  (forall o k x, ss_get s agentKey = Ok o -> obj_get k values = Some x ->
     obj_get k o = Some x \/ (k +:+ "=" +:+ x ∈ kv /\ valid_secret_name k = true)) ->
  ss_set s agentKey values = Ok s' -> env_effect s agentKey kv s'.
Proof.
  intros Hnd Hval Hset. right. destruct (ss_get s agentKey) as [o|e] eqn:Hget; [|by rewrite (ss_set_error _ _ _ _ Hget) in Hset].
  destruct (ss_set_ok s agentKey values o Hget Hnd) as (s1 & o1 & Hs1 & Hg1 & Hm & Happ).
  rewrite Hs1 in Hset. injection Hset as <-. split; [done|]. exists o, o1. split_and!; [done..|]. intros k x Hk.
  rewrite Hm in Hk. unfold merged_value in Hk. destruct (bool_decide _); [done|].
  destruct (obj_get k values) as [y|] eqn:Hy; [injection Hk as ->; by apply (Hval o k x)|by left].
Qed.

Lemma env_run_effect s agentKey flags kv s' lines :
  env_run s agentKey flags kv = Ok (s', lines) -> env_effect s agentKey kv s'.
Proof.
  unfold env_run. destruct (truthy (f_delete flags)); [|destruct (truthy (f_reveal flags)); [|destruct kv as [|item kv']]].
  - destruct (ss_get s agentKey) as [o|] eqn:Hget; [|done]. cbn [mbind result_mbind result_bind].
    destruct (obj_get _ o) as [x|]; [|done]. destruct (ss_set _ _ _) as [s1|] eqn:Hset; [|done]. intros [= <- <-].
    eapply (set_effect s agentKey kv); [|intros o1 k y Hg Hy|exact Hset].
    + apply obj_delete_nodup. by eapply ss_get_nodup.
    + rewrite Hget in Hg. injection Hg as <-. left.
      destruct (decide (nullish (f_delete flags) "" = k)) as [<-|Hk]; [by rewrite obj_get_delete_eq in Hy|by rewrite obj_get_delete_ne in Hy].
  - destruct (ss_get s agentKey) as [o|]; [|done]. cbn [mbind result_mbind result_bind].
    destruct (obj_get _ o); [|done]. intros [= <- <-]. by left.
  - destruct (ss_get s agentKey) as [o|]; [|done]. cbn [mbind result_mbind result_bind].
    destruct (obj_keys o); intros [= <- <-]; by left.
  - destruct (env_values (item :: kv') []) as [values|] eqn:Hval; [|done]. cbn [mbind result_mbind result_bind].
    destruct (ss_set _ _ _) as [s1|] eqn:Hset; [|done]. intros [= <- <-].
    apply env_values_spec in Hval as [Hnd Hall]; [|constructor].
    eapply set_effect; [exact Hnd| |exact Hset]. intros o k x _ Hx. right. by destruct (Hall k x Hx).
Qed.

(** Whatever the command is asked, it touches the one installed agent its argument
    names: the secrets kept apart from that agent's are left as they were, and every secret
    of the agent afterwards was there before or is one of the arguments. *)
Theorem env_touches_one_agent spec flags passphrase kv s' lines :
  env_command localeCompare config open AGENT_PASSPHRASE spec flags passphrase kv = Ok (s', lines) ->
  exists s c p agentKey record,
    Installer.parseSpec spec = Ok p /\ Config.loadConfig config = Ok c /\
    Resolve.resolveInstalledOrThrow localeCompare c (Installer.sp_namespace p) (Installer.sp_name p)
      (Installer.sp_version p) = Ok (Resolve.mkMatch agentKey record) /\
    open (match passphrase with Some p => Some p | None => AGENT_PASSPHRASE end) = Ok s /\
    env_effect s agentKey kv s'.
Proof.
  unfold env_command. destruct (Installer.parseSpec spec) as [[ns nm v]|]; [|done]. cbn [mbind result_mbind result_bind].
  destruct (Config.loadConfig config) as [c|]; [|done]. cbn [mbind result_mbind result_bind].
  destruct (Resolve.resolveInstalledOrThrow _ _ _ _ _) as [[agentKey record]|] eqn:Hres; [|done]. cbn [mbind result_mbind result_bind].
  destruct (open _) as [s|]; [|done]. cbn [mbind result_mbind result_bind]. intros Hrun%env_run_effect.
  by exists s, c, (Installer.mkParsed ns nm v), agentKey, record.
Qed.
End facts.

Definition demo_record (v : string) : Config.InstalledAgent :=
  Config.mkInstalled "echo" "acme" v "x" Requirements.untrusted "" "" None None None None.

Definition demo_config : Config.OpenAgentHubConfig :=
  Config.set_installed [("acme/echo@1.9.0", demo_record "1.9.0"); ("acme/echo@1.10.0", demo_record "1.10.0")] Config.empty_config.

(** The newest installed version of the agent is the one whose secrets are changed. *)
Lemma env_touches_one_agent_witness :
  exists s' lines s c p agentKey record,
    @env_command vstore toy_store Resolve.code_unit_compare (Config.cf_saved demo_config)
      (fun _ => Ok (toy_state "acme/echo@1.10.0" demo_secrets)) None "acme/echo" (mkEnvFlags None None) None ["NEW=x=y"] = Ok (s', lines) /\
    Installer.parseSpec "acme/echo" = Ok p /\ Config.loadConfig (Config.cf_saved demo_config) = Ok c /\
    Resolve.resolveInstalledOrThrow Resolve.code_unit_compare c (Installer.sp_namespace p) (Installer.sp_name p)
      (Installer.sp_version p) = Ok (Resolve.mkMatch agentKey record) /\
    Ok (toy_state "acme/echo@1.10.0" demo_secrets) = Ok s /\ @env_effect vstore toy_store s agentKey ["NEW=x=y"] s'.
Proof.
  destruct (@ss_set_ok _ _ toy_store_laws (toy_state "acme/echo@1.10.0" demo_secrets) "acme/echo@1.10.0" [("NEW", "x=y")] demo_secrets
    (toy_get _ _ demo_nodup) (NoDup_singleton _)) as (s' & o' & Hset & _).
  assert (E : @env_command vstore toy_store Resolve.code_unit_compare (Config.cf_saved demo_config)
    (fun _ => Ok (toy_state "acme/echo@1.10.0" demo_secrets)) None "acme/echo" (mkEnvFlags None None) None ["NEW=x=y"]
    = Ok (s', ["stored 1 secret(s) for acme/echo@1.10.0 (encrypted)"])).
  { unfold env_command. change (Installer.parseSpec "acme/echo") with (Ok (Installer.mkParsed "acme" "echo" None)). cbn [mbind result_mbind result_bind Config.loadConfig].
    replace (Resolve.resolveInstalledOrThrow _ _ _ _ _) with (Ok (Resolve.mkMatch "acme/echo@1.10.0" (demo_record "1.10.0"))) by (vm_compute; reflexivity).
    cbn [mbind result_mbind result_bind]. unfold env_run. cbn [f_delete f_reveal truthy].
    change (env_values ["NEW=x=y"] []) with (Ok [("NEW", "x=y")]). cbn [mbind result_mbind result_bind]. change (@vault_secret_store _ _ _ _) with toy_store in Hset. by rewrite Hset. }
  exists s', ["stored 1 secret(s) for acme/echo@1.10.0 (encrypted)"].
  destruct (@env_touches_one_agent vstore toy_store toy_store_laws _ _ _ _ _ _ _ _ _ _ E) as (s & c & p & agentKey & record & H).
  exists s, c, p, agentKey, record. split; [exact E|exact H].
Defined.
End EnvCommand.
