(* ===== verification/Lifecycle.v ===== *)
(** From the publisher's project to a run on another machine: [publish] of
    [Publishing.v], a registry that hands out what it was given, [installAgent] of
    [Installer.v], [prepareRunContext] of [RunAgent.v] and the checks before a run of
    [AgentRuntime.v], put together.  No code is modelled here; the parts are those of
    the other files, and the registry is what the theorems assume of it. *)
From S2P Require Import Prelude NodePath Trace Manifest Package Versions Requirements Policy Config Resolve Secrets Registry.
From S2P Require Import Installer Sandbox AgentRuntime RunAgent Publishing.

Module Lifecycle.
Import Trace Package Requirements Policy Resolve Secrets Installer Config Manifest AgentRuntime RunAgent.
Local Open Scope Z_scope.

(** ** A registry that serves a version *)
Section registry.
Context (fetch : forall k : Registry.kind, list Registry.Request -> Registry.Request ->
  result (Registry.Response (Registry.answer_type k))).
Context (url : string) (token : option string) (ns nm : string).

(** A response in order with a JSON body. *)
Definition answers {k} (r : result (Registry.Response (Registry.answer_type k))) (P : Registry.answer_type k -> Prop) : Prop :=
  exists res x, r = Ok res /\ Registry.res_ok res = true /\ Registry.rs_json res = Ok x /\ P x.

(** A response in order whose body is these bytes, in whatever chunks. *)
Definition gives (r : result (Registry.Response (Registry.answer_type Registry.k_archive))) (archive : string) : Prop :=
  exists res chunks, r = Ok res /\ Registry.res_ok res = true /\
    Registry.rs_body res = Some (map Registry.rd_chunk chunks) /\ js_join "" chunks = archive.

(** Asked for the version [asked], for instance "latest", or for its number, it gives
    the manifest and the signature, and does not say that it was rejected or revoked;
    asked for the archive, directly or through a signed address, it gives its bytes. *)
Record serves (asked : string) (m : Manifest) (sig : SignatureFile) (archive : string) : Prop := mkServes {
  sv_detail : forall h hd v, v = asked \/ v = version m ->
    answers (fetch Registry.k_version h (Registry.mkRequest "GET" (url +:+ Registry.version_segment ns nm v) hd Registry.rb_none))
      (fun d => Registry.vd_manifest d = m /\ Registry.vd_signature d = Some sig /\ blocked_review (Registry.vd_reviewStatus d) = false);
  sv_signed : truthy token = true -> forall h hd,
    answers (fetch Registry.k_download_url h
      (Registry.mkRequest "POST" (url +:+ Registry.version_segment ns nm (version m) +:+ "/download-url") hd Registry.rb_none))
      (fun signed => forall h', gives (fetch Registry.k_archive h' (Registry.mkRequest "GET" signed.1.1 [] Registry.rb_none)) archive);
  sv_direct : truthy token = false -> forall h,
    gives (fetch Registry.k_archive h (Registry.mkRequest "GET"
      (url +:+ Registry.version_segment ns nm (version m) +:+ "/archive") [("Accept", "application/octet-stream")] Registry.rb_none)) archive;
}.
End registry.

(** ** Programs that end well *)

Definition runs {Act A} (m : tr Act A) (h : list Act) (P : A -> Prop) : Prop := exists h' a, m h = (h', Ok a) /\ P a.

Lemma runs_bind {Act A B} (m : tr Act A) (f : A -> tr Act B) h P Q :
  runs m h P -> (forall a h', P a -> runs (f a) h' Q) -> runs (m ≫= f) h Q.
Proof. intros (h' & a & Hm & Ha) Hf. unfold runs. rewrite tr_bind_run, Hm. by apply Hf. Qed.

Lemma runs_ret {Act A} (a : A) (h : list Act) (P : A -> Prop) : P a -> runs (mret a) h P.
Proof. intros Ha. by exists h, a. Qed.

Lemma runs_lift {Act A} (r : result A) (h : list Act) (P : A -> Prop) a : r = Ok a -> P a -> runs (tr_lift r) h P.
Proof. intros -> Ha. by exists h, a. Qed.

Lemma runs_http {A} (m : tr Registry.Request A) h P : runs m (requests h) P -> runs (http m) h P.
Proof. intros (h' & a & Hm & Ha). unfold runs, http. rewrite Hm. by eexists _, a. Qed.

(** Reading what stays within the limit gives all of it. *)
Lemma read_all chunks t : t + Registry.total_length chunks <= Registry.MAX_DOWNLOAD_BYTES ->
  Registry.read_chunks t (map Registry.rd_chunk chunks) = Ok chunks.
Proof.
  revert t. induction chunks as [|c l IH]; intros t Ht; [done|]. rewrite Registry.total_cons in Ht.
  assert (Hl : 0 <= Registry.total_length l) by (rewrite <- Registry.join_length; lia).
  cbn [map Registry.read_chunks]. destruct (Z.ltb_spec Registry.MAX_DOWNLOAD_BYTES (t + Z.of_nat (String.length c))); [lia|].
  cbv zeta. rewrite IH by lia. done.
Qed.

Section download.
Context (fetch : forall k : Registry.kind, list Registry.Request -> Registry.Request ->
  result (Registry.Response (Registry.answer_type k))).
Context (url : string) (token : option string).

Lemma request_answers k path method headers body h P :
  (forall hd, answers (k := k) (fetch k h (Registry.mkRequest method (url +:+ path) hd body)) P) ->
  runs (res ← Registry.request fetch url token k path method headers body; tr_lift (Registry.rs_json res)) h P.
Proof.
  intros Ha. unfold Registry.request. match goal with |- context [Registry.mkRequest _ _ ?hd _] => destruct (Ha hd) as (res & x & Hf & Hok & Hj & Hx) end.
  unfold runs. rewrite !tr_bind_run. unfold Registry.send, act. rewrite Hf, Hok. cbn. rewrite Hj. by eexists _, x.
Qed.

Lemma served_version ns nm asked m sig archive v h :
  serves fetch url token ns nm asked m sig archive -> v = asked \/ v = version m ->
  runs (Registry.getVersion fetch url token ns nm v) h
    (fun d => Registry.vd_manifest d = m /\ Registry.vd_signature d = Some sig /\ blocked_review (Registry.vd_reviewStatus d) = false).
Proof. intros Hs Hv. unfold Registry.getVersion, Registry.get_json. apply (request_answers Registry.k_version). intros hd. by apply (sv_detail _ _ _ _ _ _ _ _ _ Hs). Qed.

(** The client gets the archive of a version that is served, and its signature. *)
Lemma served_archive ns nm asked m sig archive h :
  serves fetch url token ns nm asked m sig archive -> Z.of_nat (String.length archive) <= Registry.MAX_DOWNLOAD_BYTES ->
  runs (Registry.downloadArchive fetch url token ns nm (version m)) h (fun x => x = (archive, sig_sha256 sig, sig)).
Proof.
  intros Hs Hlen. unfold Registry.downloadArchive. eapply runs_bind; [by eapply served_version; [exact Hs|right]|].
  intros d h1 (_ & -> & _).
  assert (Hgive : forall h2 address hd, gives (fetch Registry.k_archive h2 (Registry.mkRequest "GET" address hd Registry.rb_none)) archive ->
    runs (res ← Registry.send fetch Registry.k_archive (Registry.mkRequest "GET" address hd Registry.rb_none);
      if negb (Registry.res_ok res) then tr_throw (ERegistry (Some (Registry.rs_status res))) ("download failed: " +:+ pretty (Registry.rs_status res))
      else match Registry.rs_body res with
      | None => tr_throw (ERegistry (Some 500)) "empty download"
      | Some evs => chunks ← tr_lift (Registry.read_chunks 0 evs); mret (js_join "" chunks, sig_sha256 sig, sig)
      end) h2 (fun x => x = (archive, sig_sha256 sig, sig))).
  { intros h2 address hd (res & chunks & Hf & Hok & Hb & Hj). unfold runs. rewrite tr_bind_run. unfold Registry.send, act. rewrite Hf, Hok, Hb. cbn [negb].
    rewrite tr_bind_run, read_all; [|rewrite <- Hj, Registry.join_length in Hlen; lia]. cbn. rewrite Hj. by eexists _, _. }
  destruct (truthy token) eqn:Ht.
  - eapply (runs_bind _ _ _ (fun uh => forall h', gives (fetch Registry.k_archive h' (Registry.mkRequest "GET" uh.1 uh.2 Registry.rb_none)) archive)).
    + eapply runs_bind; [unfold Registry.getDownloadUrl; apply (request_answers Registry.k_download_url); intros hd; by apply (sv_signed _ _ _ _ _ _ _ _ _ Hs)|].
      intros [[signed expires] ver] h2 Hsig. by apply runs_ret.
    + intros [address hd] h2 Hg. apply Hgive, Hg.
  - eapply (runs_bind _ _ _ (fun uh => forall h', gives (fetch Registry.k_archive h' (Registry.mkRequest "GET" uh.1 uh.2 Registry.rb_none)) archive)).
    + apply runs_ret. intros h'. by apply (sv_direct _ _ _ _ _ _ _ _ _ Hs).
    + intros [address hd] h2 Hg. apply Hgive, Hg.
Qed.
End download.

(** ** Installing what is served *)
Section install.
Context `{CryptoProvider} {Doc : Type} (w : world Doc).

(** What is known of a package of the registry. *)
Definition package_of (m : Manifest) (sig : SignatureFile) (archive : string) (r : ResolvedPackage) : Prop :=
  rp_manifest r = m /\ (exists path, rp_archive r = Some (path, archive)) /\ rp_signature r = Some sig /\
  blocked_review (rp_reviewStatus r) = false /\ rp_statusCheckedAt r = Some (w_now w) /\ rp_archiveDigest r = None.

Lemma served_package spec p url m sig archive h :
  parseSpec spec = Ok p ->
  serves (w_fetch w) url (w_token w) (sp_namespace p) (sp_name p) (nullish (sp_version p) "latest") m sig archive ->
  Z.of_nat (String.length archive) <= Registry.MAX_DOWNLOAD_BYTES -> verifySignatureFileStrict sig archive = Ok tt ->
  runs (resolveFromRegistry w spec url (w_token w)) h (package_of m sig archive).
Proof.
  intros Hp Hs Hlen Hver. unfold resolveFromRegistry. eapply runs_bind; [by eapply runs_lift; [exact Hp|apply eq_refl]|].
  intros [ns nm v] h1 ->. cbn [sp_namespace sp_name sp_version] in Hs.
  eapply runs_bind; [eapply runs_http, served_version; [exact Hs|by left]|]. intros d h2 (Hm & Hsig & Hb). cbv zeta. rewrite Hm.
  eapply runs_bind; [by eapply runs_http, served_archive|]. intros [[buffer dgst] sig'] h3 [= -> -> ->].
  eapply (runs_bind _ _ _ (fun _ => True)); [by eexists _, tt|]. intros _ h4 _.
  eapply (runs_bind _ _ _ (fun _ => True)); [by eapply runs_lift|]. intros _ h5 _. rewrite Hb. apply runs_ret.
  repeat (split; [done|]). split; [by eexists|done].
Qed.

(** Every permission the manifest asks for. *)
Definition granted_all (m : Manifest) : GrantedPermissions :=
  obj_from (map (fun p => (permission_name p, true)) (requestedPermissions (permissions m))).

Lemma asked_yes m opts h : forceYes opts = true -> noPermissions opts = false ->
  ask_permissions w m opts h = (h, Ok (granted_all m)).
Proof.
  intros Hy Hn. unfold ask_permissions. rewrite Hy, Hn. cbv zeta. destruct (_ || _); [done|]. unfold confirmAll.
  rewrite tr_bind_run. unfold granted_all. unfold mret, tr_mret, tr_ret. cbv beta iota. do 3 f_equal.
  induction (requestedPermissions (permissions m)) as [|p l IH]; [done|]. cbn [map zip zip_with]. by f_equal.
Qed.

(** The archive can be unpacked on this machine, wherever. *)
Definition unpacks (archive : string) : Prop :=
  forall h dest, exists u, unpackAgent dest (w_extraction w archive dest) (load_file w h) (w_readTree w h) = Ok u.

Lemma placed_files r dest h path archive sig :
  rp_archive r = Some (path, archive) -> rp_signature r = Some sig -> unpacks archive -> runs (place_files w r dest) h (fun _ => True).
Proof.
  intros Ha Hs Hu. unfold place_files. rewrite Ha, Hs.
  do 2 (eapply (runs_bind _ _ _ (fun _ => True)); [by eexists _, tt|]; intros _ ? _).
  eapply (runs_bind _ _ _ (fun _ => True)).
  - match goal with |- runs _ ?h1 _ => destruct (Hu h1 dest) as [u Hok] end. unfold runs, unpack, act. rewrite Hok. by eexists _, u.
  - intros u h2 _. eapply (runs_bind _ _ _ (fun _ => True)); [by eexists _, tt|]. intros _ h3 _. by eexists _, tt.
Qed.

(** An installation from the registry with all questions answered by yes saves the
    entry and every permission. *)
Lemma served_installs spec p opts c m sig archive h :
  let url := nullish (io_registryUrl opts) (nullish (registryUrl c) REGISTRY_DEFAULT) in
  loadConfig (w_config w) = Ok c -> parseSpec spec = Ok p -> forceYes opts = true -> noPermissions opts = false ->
  check_package c p m opts = Ok tt ->
  serves (w_fetch w) url (w_token w) (sp_namespace p) (sp_name p) (nullish (sp_version p) "latest") m sig archive ->
  Z.of_nat (String.length archive) <= Registry.MAX_DOWNLOAD_BYTES -> verifySignatureFileStrict sig archive = Ok tt -> unpacks archive ->
  exists h' r, installAgent w spec src_registry opts h = (h', Ok tt) /\ package_of m sig archive r /\
    last h' = Some (ia_save (mem (saves w (c, r, p, granted_all m)).2)).
Proof.
  intros url Hc Hp Hy Hn Hchk Hs Hlen Hver Hu.
  assert (Hpre : runs (prepare w spec src_registry opts) h (fun x => exists r, package_of m sig archive r /\ x = (c, r, p, granted_all m))).
  { unfold prepare. eapply runs_bind; [by eapply runs_lift; [exact Hc|apply eq_refl]|]. intros c' h1 ->. cbv zeta. fold url.
    eapply runs_bind; [by eapply served_package|]. intros r h2 Hr. pose proof Hr as (Hm & (path & Ha) & Hsig & _). rewrite Hm.
    eapply runs_bind; [by eapply runs_lift; [exact Hp|apply eq_refl]|]. intros p' h3 ->. 
    eapply (runs_bind _ _ _ (fun _ => True)); [by eapply runs_lift|]. intros _ h4 _.
    eapply (runs_bind _ _ _ (fun _ => True)).
    { unfold check_requirements. cbv zeta. rewrite Hy, orb_true_r. by apply runs_ret. } intros _ h5 _.
    eapply runs_bind; [unfold runs; rewrite asked_yes by done; eexists _, _; split; [reflexivity|apply eq_refl]|]. intros g h6 ->.
    eapply (runs_bind _ _ _ (fun _ => True)); [by eapply placed_files|]. intros _ h7 _. apply runs_ret. by exists r. }
  destruct Hpre as (h1 & x & Hx & r & Hr & ->). eexists _, r. rewrite installAgent_prepare, Hx. split; [reflexivity|].
  split; [exact Hr|]. apply last_two.
Qed.

(** The configuration it saves. *)
Definition after_install (c : OpenAgentHubConfig) (p : ParsedSpec) (m : Manifest) (r : ResolvedPackage) : OpenAgentHubConfig :=
  mem (saves w (c, r, p, granted_all m)).2.
Definition key_of (p : ParsedSpec) (m : Manifest) : string := agentKeyToString (mkKey (sp_namespace p) (sp_name p) (version m)).

(** The entry is there, found under its version, and the table stays in order. *)
Lemma after_install_spec c p m r : rp_manifest r = m ->
  let c' := after_install c p m r in let a := installed_entry w (sp_namespace p) (sp_name p) r in
  installed c' = Some (obj_set (key_of p m) a (nullish (installed c) [])) /\
  grantedPermissions c' (key_of p m) = granted_all m /\ registryUrl c' = registryUrl c.
Proof.
  intros <-. cbv zeta. split_and!; [done| |done]. unfold grantedPermissions, after_install, saves, key_of. cbn -[obj_set]. rewrite obj_get_set_eq. reflexivity.
Qed.

Lemma found_again localeCompare c spec p m r : rp_manifest r = m ->
  parseSpec spec = Ok p -> version m <> "" -> keyed c -> opt_nodup (installed c) ->
  resolveInstalledOrThrow localeCompare (after_install c p m r) (sp_namespace p) (sp_name p) (Some (version m)) =
    Ok (mkMatch (key_of p m) (installed_entry w (sp_namespace p) (sp_name p) r)).
Proof.
  intros Hm Hp Hv Hk Hnd. set (a := installed_entry w (sp_namespace p) (sp_name p) r). set (c' := after_install c p m r).
  destruct (after_install_spec c p m r Hm) as (Hi & _). fold c' a in Hi.
  apply parseSpec_ok in Hp as [(H1 & H2 & _) _].
  assert (Hns : js_has_char "/" (sp_namespace p) = false) by (eapply spec_part_no; [exact H1|done|done]).
  assert (Hnm : js_has_char "@" (sp_name p) = false) by (eapply spec_part_no; [exact H2|done|done]).
  assert (Ha : ia_version a = version m) by (unfold a; cbn; by rewrite Hm).
  assert (Hk' : keyed c').
  { intros k b Hin. rewrite Hi in Hin. apply obj_set_elem in Hin as [[= -> ->]|Hin]; [|by apply Hk].
    split; [|by split]. unfold key_of, install_key, agentKeyToString. cbn. by rewrite Hm. }
  assert (Hnd' : opt_nodup (installed c')) by (unfold opt_nodup in *; rewrite Hi; apply obj_set_nodup, Hnd).
  assert (Hin : mkMatch (key_of p m) a ∈ installedMatches localeCompare c' (sp_namespace p) (sp_name p)).
  { apply installedMatches_elem. split; [|by exists (version m)]. rewrite Hi. cbn -[obj_set]. apply obj_get_elem, obj_get_set_eq. }
  unfold resolveInstalledOrThrow. cbv zeta. destruct (last _) as [x|] eqn:Hlast; [|by apply last_None in Hlast; rewrite Hlast in Hin; apply elem_of_nil in Hin].
  assert (Ht : truthy (Some (version m)) = true) by (cbn; by apply negb_true_iff, String.eqb_neq). rewrite Ht. cbn [nullish default from_option id].
  destruct (List.find _ _) as [y|] eqn:Hf.
  - apply List.find_some in Hf as [Hy%list_elem_of_In Hver%String.eqb_eq]. f_equal. destruct y as [k b]. cbn in Hver.
    apply installedMatches_elem in Hy as [Hy [rest Hky]]. apply installedMatches_elem in Hin as [Hin [rest' Hkey]]. cbn in *.
    assert (Heq : ia_version b = ia_version a) by (transitivity (version m); [exact Hver|symmetry; exact Ha]). pose proof (keyed_version c' _ _ _ _ _ _ _ _ Hk' Hnd' Hns Hnm Hy Hin Hky Hkey Heq) as Hsame. by injection Hsame as -> ->.
  - exfalso. pose proof (List.find_none _ _ Hf _ (proj1 (list_elem_of_In _ _) Hin)) as Hno. cbn in Hno. by rewrite Hm, String.eqb_refl in Hno.
Qed.
End install.

(** ** Running what was installed *)

(** The permissions a run gets are those the manifest asks for, each once. *)
Lemma granted_all_list c m key : grantedPermissions c key = granted_all m ->
  NoDup (granted_list c key) /\
  forall p, p ∈ granted_list c key <-> p ∈ nullish (permissions m) [] /\ none ∉ nullish (permissions m) [].
Proof.
  intros Hg. unfold granted_list. rewrite Hg.
  assert (Hnd : NoDup (obj_keys (granted_all m))) by apply obj_from_nodup. split.
  { apply NoDup_ListNoDup, List.NoDup_filter, NoDup_ListNoDup. by apply named_nodup. }
  intros p. rewrite list_elem_of_In, filter_In, <- list_elem_of_In, list_elem_of_omap.
  assert (Hname : (exists kv, kv ∈ List.filter snd (granted_all m) /\ permission_of_name (fst kv) = Some p) <-> p ∈ requestedPermissions (permissions m)).
  { rewrite <- obj_from_granted. fold (granted_all m). split.
    - intros ([k v] & Hin%list_elem_of_In & Hp%permission_of_name_spec). apply filter_In in Hin as [Hin Hv]. cbn in *. subst. by apply list_elem_of_In.
    - intros Hin. exists (permission_name p, true). split; [|by apply permission_of_name_spec].
      apply list_elem_of_In, filter_In. split; [by apply list_elem_of_In|done]. }
  rewrite Hname. unfold requestedPermissions. cbv zeta. case_bool_decide as Hn.
  - rewrite list_elem_of_singleton. split; [|by intros [_ ?]]. intros [-> Hf]. by rewrite bool_decide_eq_true_2 in Hf.
  - rewrite negb_true_iff, bool_decide_eq_false. split; [by intros [? _]|]. intros [Hp _]. split; [done|by intros ->].
Qed.

Section prepare.
Context `{CryptoProvider} {Doc : Type} (w : world Doc) (date_ms : string -> option Z) (now_ms : Z).
Context {St : Type} `{SecretStore St} (vault : St) (localeCompare : string -> string -> Z) (existsSync : list iact -> string -> bool).

Lemma save_grants_runs key names c h : runs (save_grants w key names c) h (fun c' => Config.permissions c' = Config.permissions c).
Proof.
  revert c h. induction names as [|s names IH]; intros c h; cbn [save_grants]; [by apply runs_ret|]. cbv zeta.
  eapply (runs_bind _ _ _ (fun _ => True)); [by eexists _, tt|]. intros _ h1 _. exact (IH (mem (saveSecretGrant key s (mkStore c (w_config w)))) h1).
Qed.

(** An agent that is found, there, fresh and readable gets its run context. *)
Lemma prepares ns nm v po c key a m path stored :
  w_config w = cf_saved c -> resolveInstalledOrThrow localeCompare c ns nm v = Ok (mkMatch key a) ->
  let dir := installedAgentDir (w_home w) (mkKey ns nm (ia_version a)) in
  existsSync [] dir = true -> load_at w [] dir = Ok (m, path) -> installedIsFresh date_ms now_ms a = true -> ss_get vault key = Ok stored ->
  runs (prepareRunContext w date_ms now_ms vault localeCompare existsSync (inr (mkParsed ns nm v)) po) [] (fun ctx =>
    x_agentKey _ ctx = key /\ x_agentDir _ ctx = dir /\ x_manifest _ ctx = m /\ x_installed _ ctx = a /\
    x_granted _ ctx = granted_list c key /\ x_reviewStatus _ ctx = ia_reviewStatus a).
Proof.
  intros Hc Hf dir Hex Hload Hfresh Hss. unfold prepareRunContext, runs. rewrite tr_bind_run. cbn [tr_lift].
  rewrite tr_bind_run. unfold load_config, disk_at. cbn [last_save omap list_omap last]. rewrite Hc. cbn [loadConfig].
  rewrite tr_bind_run, Hf. cbn [tr_lift]. rewrite tr_bind_run. fold dir. rewrite Hex. cbn [negb]. rewrite tr_bind_run, Hload.
  rewrite tr_bind_run. assert (Hck : exists ck, checkRevocationBeforeRun w date_ms now_ms key a
    (nullish (registryUrl c) "https://registry.openagenthub.dev") (w_token w) [] = ([], Ok ck) /\ rv_blocked ck = None).
  { unfold checkRevocationBeforeRun. destruct (String.eqb _ _); [by eexists|]. rewrite Hfresh. by eexists. }
  destruct Hck as (ck & -> & ->). cbv zeta. rewrite tr_bind_run, Hss. cbn [tr_lift]. rewrite tr_bind_run.
  match goal with |- context [save_grants w key ?names c []] => destruct (save_grants_runs key names c []) as (h' & c' & -> & Hp) end.
  eexists h', _. split; [reflexivity|]. cbn. split_and!; try done. unfold granted_list, grantedPermissions. by rewrite Hp.
Qed.
End prepare.

(** What [executeAgentRun] hands to the runtime. *)
Definition run_options {St} (ctx : RunContext St) (opts : ExecuteOptions) : RunAgentOptions :=
  AgentRuntime.mkRunAgent (x_agentDir _ ctx) (x_manifest _ ctx) (x_agentKey _ ctx) (Some (eo_interfaceName opts))
    (if bool_decide (eo_input opts = Some "") then None else eo_input opts)
    (x_granted _ ctx) (ia_trust (x_installed _ ctx)) (eo_model opts) [] (eo_timeoutMs opts) (eo_interactive opts)
    (eo_streamOutput opts) (x_reviewStatus _ ctx) (Some (x_statusFresh _ ctx)) (x_sandboxOverride _ ctx)
    (ia_archiveDigest (x_installed _ ctx)) (eo_runId opts) (eo_usageFilePath opts).

Lemma run_options_used {St} `{SecretStore St} sha exec check sur (ctx : RunContext St) opts events :
  executeAgentRun sha exec check sur ctx opts events = AgentRuntime.runAgent sha exec check (x_vault _ ctx) sur (run_options ctx opts) events.
Proof. done. Qed.

(** A context with the permissions of the manifest, of an agent that is not rejected or
    revoked, is admitted. *)
Lemma admitted {St} (ctx : RunContext St) opts :
  Sandbox.nonempty (dep_system (Sandbox.deps_of (x_manifest _ ctx))) = false -> blocked_review (x_reviewStatus _ ctx) = false ->
  NoDup (x_granted _ ctx) ->
  (forall p, p ∈ x_granted _ ctx -> p ∈ nullish (permissions (x_manifest _ ctx)) [] /\ none ∉ nullish (permissions (x_manifest _ ctx)) []) ->
  exists effective policy, admission (run_options ctx opts) = Ok (effective, policy) /\ effective ≡ₚ x_granted _ ctx.
Proof.
  intros Hd Hb Hnd Hg. set (o := run_options ctx opts).
  assert (Hperm : effective_grants o ≡ₚ x_granted _ ctx).
  { apply NoDup_Permutation; [apply effective_grants_nodup|done|]. intros p. rewrite effective_grants_elem. unfold o. cbn.
    split; [by intros [? _]|]. intros Hp. destruct (Hg p Hp). done. }
  exists (effective_grants o), (effectiveSandbox (policy_input o)). split; [|done]. apply admission_ok_iff. split_and!; try done.
  - by apply Permutation_length.
  - intros s Hs. unfold o in Hs. cbn in Hs. rewrite Hs in Hb. unfold blocked_review in Hb. cbn in Hb.
    split; intros ->; discriminate Hb.
Qed.

(** ** From one machine to another *)

(** A name that a spec can ask for is taken apart as the spec is. *)
Lemma parse_name ns nm v : js_has_char "/" ns = false -> js_has_char "/" nm = false ->
  Publishing.parseNameVersion (ns +:+ "/" +:+ nm) v = (ns, nm, v).
Proof.
  intros Hns Hnm. unfold Publishing.parseNameVersion, js_split. change (ns +:+ "/" +:+ nm) with (ns +:+ String "/" nm).
  rewrite split_by_app_sep by done.
  assert (Hone : forall s, js_has_char "/" s = false -> js_split_by (Ascii.eqb "/") s = [s]).
  { clear. induction s as [|c s IH]; [done|]. cbn -[Ascii.eqb]. intros [Hc Hs]%orb_false_iff. rewrite Hc, (IH Hs). done. }
  by rewrite (Hone _ Hns), (Hone _ Hnm).
Qed.

Section two_machines.
Context `{CryptoProvider, !CryptoLaws}.
(** The publisher's machine. *)
Context (fs : Publishing.files) (KEYS_DIR : string) (pair : string * string) (load : string -> result (Manifest * string))
  (readTree : string -> tree) (tar : list string -> spawn_outcome * string)
  (fetch : forall k : Registry.kind, list Registry.Request -> Registry.Request -> result (Registry.Response (Registry.answer_type k)))
  (config : config_file) (resolveToken : string -> option string).
(** The user's. *)
Context {Doc : Type} (w : world Doc).

(** C5: What is published can be installed.  Suppose that [publish] succeeded on one
    machine, that the archive did not change on its disk between packing and sending, and
    that the registry hands out, at the address of the request that published it, the
    manifest, the archive and the signature of that request, as a version that is not
    rejected or revoked.  Then [installAgent] succeeds on another machine, for a spec of
    this name, with all questions answered by the flag for yes and no flag against
    permissions, from the same registry, if the version is not installed there or is
    reinstalled by force, if the archive is at most 250 MiB, and if it unpacks there: its
    entries are files and directories with safe paths, at most 5000 files, 50 MiB each
    and 200 MiB together, with a manifest, none of which [publish] checks.  The signature
    passes the strict check, and the digest that is recorded is that of the archive which
    the publisher packed and signed. *)
Theorem published_installs registry dir hp reply url m path spec p opts c h :
  Publishing.publish fs KEYS_DIR pair load readTree tar fetch config resolveToken registry false dir [] = (hp, Ok (Some reply)) ->
  (forall key pkg h1 archive, packAgent load readTree tar dir key (Some dir) = Ok pkg -> Publishing.pa_pack dir ∈ h1 ->
     Publishing.f_read fs h1 (archivePath pkg) = Ok archive -> sha256Hex archive = pk_sha256 pkg) ->
  load dir = Ok (m, path) -> Publishing.resolveRegistryUrl config registry = Ok url ->
  (forall rq archive file sig, last (Publishing.sent hp) = Some rq -> Registry.rq_body rq = Registry.rb_archive archive file sig ->
     Registry.rq_url rq = url +:+ Registry.version_segment (sp_namespace p) (sp_name p) (version m) ->
     serves (w_fetch w) url (w_token w) (sp_namespace p) (sp_name p) (nullish (sp_version p) "latest") m sig archive /\
     Z.of_nat (String.length archive) <= Registry.MAX_DOWNLOAD_BYTES /\ unpacks w archive) ->
  loadConfig (w_config w) = Ok c -> nullish (io_registryUrl opts) (nullish (registryUrl c) REGISTRY_DEFAULT) = url ->
  parseSpec spec = Ok p -> name m = sp_namespace p +:+ "/" +:+ sp_name p ->
  (installed_record c (sp_namespace p +:+ "/" +:+ sp_name p +:+ "@" +:+ version m) = None \/ io_force opts = Some true) ->
  forceYes opts = true -> noPermissions opts = false ->
  exists h' r key pkg archive, installAgent w spec src_registry opts h = (h', Ok tt) /\
    packAgent load readTree tar dir key (Some dir) = Ok pkg /\ package_of w m (pk_signature pkg) archive r /\
    verifySignatureFileStrict (pk_signature pkg) archive = Ok tt /\
    last h' = Some (ia_save (after_install w c p m r)) /\
    ia_archiveDigest (installed_entry w (sp_namespace p) (sp_name p) r) = Some (pk_sha256 pkg).
Proof.
  intros Hpub Hstay Hload Hurl Hserve Hc Huser Hp Hname Hfree Hy Hn.
  assert (Hchk : check_package c p m opts = Ok tt).
  { unfold check_package. rewrite Hname, String.eqb_refl. cbn [negb]. rewrite !sapp_assoc.
    destruct Hfree as [->| ->]; [by rewrite bool_decide_eq_false_2 by (intros [? ?]; done)|]. cbn. by rewrite andb_false_r. }
  destruct (Publishing.publish_sent fs KEYS_DIR pair load readTree tar fetch config resolveToken registry dir [] hp reply Hpub) as (url' & token & kp & pkg & archive & h1 & r1 & r2 & r3 & Hu & _ & _ & _ & Hpack & Hread & Hsent & _ & _ & Hput & Hver & Hin).
  rewrite Hurl in Hu. injection Hu as <-.
  assert (Hm : pk_manifest pkg = m).
  { clear -Hpack Hload. unfold packAgent in Hpack. rewrite Hload in Hpack. cbn [mbind result_mbind result_bind] in Hpack. cbv zeta in Hpack.
    destruct (tar _) as [[e|status] a]; [done|]. destruct (status =? 0); [|done]. destruct (signArchive _ _ _); [|done]. by injection Hpack as <-. }
  rewrite Hm in Hput.
  apply parseSpec_ok in Hp as Hgood. destruct Hgood as [(H1 & H2 & _) _].
  rewrite Hname, parse_name in Hput by (eapply spec_part_no; [eassumption|done|done]). destruct Hput as (_ & Haddr & Hbody & _).
  destruct (Hserve r3 archive (sp_name p +:+ "-" +:+ version m +:+ ".ahb") (pk_signature pkg)) as (Hserves & Hlen & Hunpack); [by rewrite Hsent; cbn|exact Hbody|exact Haddr|].
  pose proof (Hver (Hstay _ _ _ _ Hpack Hin Hread)) as Hok.
  subst url. destruct (served_installs w spec p opts c m (pk_signature pkg) archive h Hc Hp Hy Hn Hchk Hserves Hlen Hok Hunpack) as (h' & r & Hrun & Hr & Hlast).
  exists h', r, (fst kp), pkg, archive. split; [exact Hrun|]. split; [exact Hpack|]. split; [exact Hr|]. split; [exact Hok|]. split; [exact Hlast|].
  destruct Hr as (_ & (pa & Ha) & _ & _ & _ & Hd).
  unfold installed_entry. cbn. rewrite Hd, Ha. cbn. by rewrite (Hstay _ _ _ _ Hpack Hin Hread).
Qed.
End two_machines.

(** ** From the installation to the run *)

(** C6: What was installed from the registry, all of its permissions granted, can be run.
    Suppose that the configuration is as the installation saved it (before which its table
    was in order), that the directory of the agent exists and its manifest is the one the
    registry gave, that the status is less than an hour old, and that the secrets of the
    agent can be read.  Then the agent is found again whatever else is installed, with the
    entry that was recorded, and its context is made; a run of it is admitted with exactly
    the permissions its manifest asks for, unless the manifest names system dependencies,
    with which every run is refused although the installation was not. *)
Theorem installed_runs `{CryptoProvider} {Doc : Type} (w w' : world Doc) date_ms now_ms t {St} `{SecretStore St} (vault : St)
    localeCompare existsSync spec p c m sig archive r path stored po opts :
  parseSpec spec = Ok p -> version m <> "" -> keyed c -> wf_config c -> package_of w m sig archive r ->
  w_config w' = cf_saved (after_install w c p m r) ->
  let dir := installedAgentDir (w_home w') (mkKey (sp_namespace p) (sp_name p) (version m)) in
  existsSync [] dir = true -> load_at w' [] dir = Ok (m, path) ->
  w_now w <> "" -> date_ms (w_now w) = Some t -> now_ms - t < STATUS_FRESH_MS ->
  ss_get vault (key_of p m) = Ok stored ->
  runs (prepareRunContext w' date_ms now_ms vault localeCompare existsSync
      (inr (mkParsed (sp_namespace p) (sp_name p) (Some (version m)))) po) [] (fun ctx =>
    x_installed _ ctx = installed_entry w (sp_namespace p) (sp_name p) r /\ x_manifest _ ctx = m /\
    (Sandbox.nonempty (dep_system (Sandbox.deps_of m)) = false ->
     exists effective policy, admission (run_options ctx opts) = Ok (effective, policy) /\
      forall q, q ∈ effective <-> q ∈ nullish (permissions m) [] /\ none ∉ nullish (permissions m) []) /\
    (Sandbox.nonempty (dep_system (Sandbox.deps_of m)) = true ->
     admission (run_options ctx opts) = throw EError "dependencies.system is not supported by OpenAgentHub yet")).
Proof.
  intros Hp Hv Hk Hwf (Hm & _ & _ & Hrev & Hchecked & _) Hc' dir Hex Hload Hnow Hdate Hfresh Hss.
  set (a := installed_entry w (sp_namespace p) (sp_name p) r).
  assert (Ha : ia_version a = version m) by (unfold a; cbn; by rewrite Hm).
  assert (Hfr : installedIsFresh date_ms now_ms a = true).
  { unfold installedIsFresh, a. cbn [ia_statusCheckedAt installed_entry]. rewrite Hchecked. cbn [truthy nullish default from_option id].
    apply String.eqb_neq in Hnow. rewrite Hnow, Hdate. cbn. by apply Z.ltb_lt. }
  destruct (prepares w' date_ms now_ms vault localeCompare existsSync (sp_namespace p) (sp_name p) (Some (version m)) po
    (after_install w c p m r) (key_of p m) a m path stored Hc') as (h' & ctx & Hrun & _ & _ & Hxm & Hxi & Hxg & Hxr);
    [apply (found_again w localeCompare c spec); [done|done|done|done|apply Hwf]|by rewrite Ha|by rewrite Ha|done|done|].
  exists h', ctx. split; [exact Hrun|]. split; [done|]. split; [done|].
  split; intros Hdep; [|unfold admission; cbn [o_manifest run_options]; by rewrite Hxm, Hdep].
  destruct (after_install_spec w c p m r Hm) as (_ & Hgrant & _). destruct (granted_all_list _ _ _ Hgrant) as [Hnd Hiff].
  destruct (admitted ctx opts) as (effective & policy & Had & Hperm).
  - by rewrite Hxm.
  - by rewrite Hxr.
  - by rewrite Hxg.
  - intros q. rewrite Hxg, Hxm. apply Hiff.
  - exists effective, policy. split; [done|]. intros q. by rewrite Hperm, Hxg.
Qed.

(** ** On concrete machines *)

Definition demo_user : world Manifest :=
  demo_world Package.demo_manifest (Registry.demo_signature "acme/echo" "1.0.0" "bytes") cf_absent (Resolved ["agent.yaml"]).
Definition demo_yes : InstallOptions := mkInstallOptions true false (Some "https://r") None.

Lemma demo_serves : serves (w_fetch demo_user) "https://r" None "acme" "echo" "latest" Package.demo_manifest
  (Registry.demo_signature "acme/echo" "1.0.0" "bytes") "bytes".
Proof.
  split.
  - intros h hd v _. eexists _, _. split; [reflexivity|]. split; [reflexivity|]. split; [reflexivity|]. by split.
  - discriminate.
  - intros _ h. exists (Registry.mkResponse 200 "OK" (Ok tt) None (Some [Registry.rd_chunk "bytes"])), ["bytes"]. done.
Defined.

Lemma demo_unpacks : unpacks demo_user "bytes".
Proof. intros h dest. eexists. reflexivity. Defined.

Lemma published_installs_witness : exists h' r pkg,
  @installAgent toy_crypto Manifest demo_user "acme/echo" src_registry demo_yes [] = (h', Ok tt) /\
  ia_archiveDigest (@installed_entry toy_crypto Manifest demo_user "acme" "echo" r) = Some (pk_sha256 pkg).
Proof.
  destruct (Publishing.demo_publish []) as [hp res] eqn:E.
  assert (Hr : res = Ok (Some (Registry.mkPublish "passed" []))) by (revert E; vm_compute; intros E; by injection E).
  rewrite Hr in E.
  destruct (@published_installs toy_crypto toy_laws Publishing.stored_files "/keys" ("prvN", "pubN") (fun d => Ok (Package.demo_manifest, d))
    (fun _ => TDir [("agent.yaml", TFile)]) (fun _ => (inr 0, "bytes")) Publishing.kind_registry cf_absent (fun _ => Some "tok")
    Manifest demo_user (Some "https://r") "/p" hp (Registry.mkPublish "passed" []) "https://r" Package.demo_manifest "/p" "acme/echo"
    (mkParsed "acme" "echo" None) demo_yes empty_config [] E) as (h' & r & key & pkg & archive & Hrun & _ & _ & _ & _ & Hd).
  - intros key pkg h1 archive Hpack _ Hread. unfold packAgent in Hpack. cbn [mbind result_mbind result_bind] in Hpack.
    cbv zeta in Hpack. cbn [Z.eqb] in Hpack. destruct (signArchive _ _ _) as [sig|]; [|discriminate Hpack]. injection Hpack as <-.
    vm_compute in Hread. injection Hread as <-. reflexivity.
  - reflexivity.
  - reflexivity.
  - intros rq archive file sig Hlast Hbody _.
    assert (Hsent : last (Publishing.sent (Publishing.demo_publish []).1) = Some rq) by (rewrite E; exact Hlast).
    vm_compute in Hsent. injection Hsent as <-. cbn in Hbody. injection Hbody as <- <- <-.
    split; [exact demo_serves|]. split; [vm_compute; discriminate|exact demo_unpacks].
  - reflexivity.
  - reflexivity.
  - reflexivity.
  - reflexivity.
  - left. reflexivity.
  - reflexivity.
  - reflexivity.
  - by exists h', r, pkg.
Defined.

Definition demo_package : ResolvedPackage :=
  mkResolved Package.demo_manifest (Some ("/tmp/oah/echo-1.0.0.ahb", "bytes")) (Some (Registry.demo_signature "acme/echo" "1.0.0" "bytes"))
    unknown "https://r" (Some "verified") (Some "now") None.
Definition demo_spec : ParsedSpec := mkParsed "acme" "echo" None.

(** The same machine later. *)
Definition demo_later : world Manifest :=
  demo_world Package.demo_manifest (Registry.demo_signature "acme/echo" "1.0.0" "bytes")
    (cf_saved (@after_install toy_crypto Manifest demo_user empty_config demo_spec Package.demo_manifest demo_package)) (Resolved ["agent.yaml"]).

Lemma installed_runs_witness :
  runs (@prepareRunContext Manifest demo_later (fun _ => Some 0) 1000 vstore toy_store (toy_state "acme/echo@1.0.0" demo_secrets)
      code_unit_compare (fun _ _ => true) (inr (mkParsed "acme" "echo" (Some "1.0.0"))) (mkPrepare false None)) [] (fun ctx =>
    ia_trust (x_installed _ ctx) = unknown /\
    exists effective policy, admission (run_options ctx (mkExecute if_name_cli None None false None None false None)) = Ok (effective, policy)).
Proof.
  destruct (@installed_runs toy_crypto Manifest demo_user demo_later (fun _ => Some 0) 1000 0 vstore toy_store
    (toy_state "acme/echo@1.0.0" demo_secrets) code_unit_compare (fun _ _ => true) "acme/echo" demo_spec empty_config Package.demo_manifest
    (Registry.demo_signature "acme/echo" "1.0.0" "bytes") "bytes" demo_package "/home/u/.openagenthub/agents/acme/echo/1.0.0/agent.yaml"
    demo_secrets (mkPrepare false None) (mkExecute if_name_cli None None false None None false None))
    as (h' & ctx & Hrun & Hi & _ & Hadm & _).
  - reflexivity.
  - discriminate.
  - intros k a Hin. by apply elem_of_nil in Hin.
  - split; unfold opt_nodup; try apply NoDup_nil_2. intros k. apply NoDup_nil_2.
  - repeat (split; [reflexivity|]). split; [by eexists|]. by repeat (split; [reflexivity|]).
  - reflexivity.
  - reflexivity.
  - reflexivity.
  - discriminate.
  - reflexivity.
  - reflexivity.
  - apply toy_get, demo_nodup.
  - destruct (Hadm eq_refl) as (effective & policy & Had & _).
    exists h', ctx. split; [exact Hrun|]. split; [by rewrite Hi|by exists effective, policy].
Defined.
End Lifecycle.
