(* ===== verification/MarketingSite.v ===== *)
(** The marketing site, [marketing/src/app/page.tsx] and [layout.tsx], as the elements
    its components return: the data of the pages, their sections, and the layout around
    them with its links.  Styles and the keys of lists are left out; [Reveal],
    [CopyButton] and [GithubStars] are elements here and have their behaviour in
    [Widgets.v].  The layout of the dashboard, [web/src/app/layout.tsx], is here too. *)
From S2P Require Import Prelude Page Catalog Widgets.

Module MarketingSite.
Import Page.
Local Open Scope string_scope.

Definition q : string := str1 DQUOTE.
Definition nl : string := str1 LF.
(** The no-break space, in its two bytes. *)
Definition nbsp : string := String "194" (String "160" "").

(** ** What a tree of elements says *)
Section trees.
Context {A : Type}.

Definition E (tag : string) (attrs : list (string * string)) (kids : list (html A)) : html A := el tag attrs None kids.

(** The values of an attribute, in the order of the page. *)
Fixpoint attr (k : string) (h : html A) : list string :=
  match h with
  | txt _ => []
  | el _ attrs _ kids => match obj_get k attrs with Some v => [v] | None => [] end ++ flat_map (attr k) kids
  end.

(** The identifiers of a page, and the places in the page that its links lead to. *)
Definition ids (h : html A) : list string := attr "id" h.
Definition fragment (href : string) : option string := if js_startsWith href "#" then Some (js_drop 1 href) else None.
Definition fragments (h : html A) : list string := omap fragment (attr "href" h).

(** Every link into the page has a place to go. *)
Definition links_resolve (h : html A) : bool := forallb (fun x => mem_str x (ids h)) (fragments h).

(** The whole text, and what the copy buttons of a page copy. *)
Definition full_text (h : html A) : string := js_join "" (texts h).
Definition copied_texts (h : html A) : list string := attr "text" h.
End trees.

Section site.
Context {A : Type}.
Local Abbreviation html := (html A).
(** The names that the fonts get, the year, and whether the menu is open. *)
Context (display body mono : string) (year : Z) (menu_open : bool).

(** ** Parts *)

(** @src marketing/src/components/CodeBlock.tsx 4-22 CodeBlock *)
Definition CodeBlock (label raw : string) (children : list html) : html :=
  E "div" [("class", "code-block")] [E "div" [("class", "cb-bar")] [E "span" [("class", "cb-label")] [txt label]; E "CopyButton" [("text", raw)] []]; E "pre" [] (children)].

(** @src marketing/src/components/ClearanceStamp.tsx 1-24 ClearanceStamp *)
Definition ClearanceStamp : html :=
  E "div" [("class", "stamp"); ("aria-hidden", "true")]
      [E "svg" [("viewBox", "0 0 120 120")]
        [E "defs" [] [E "path" [("id", "stampCircle"); ("d", "M60,60 m-46,0 a46,46 0 1,1 92,0 a46,46 0 1,1 -92,0")] []];
         E "circle" [("class", "stamp-ring"); ("cx", "60"); ("cy", "60"); ("r", "46")] [];
         E "circle" [("class", "stamp-center"); ("cx", "60"); ("cy", "60"); ("r", "30")] [];
         E "path" [("class", "stamp-center"); ("d", "M50 60l7 7 14-15"); ("strokeLinecap", "round"); ("strokeLinejoin", "round")] [];
         E "text" [("class", "stamp-text")] [E "textPath" [("href", "#stampCircle"); ("startOffset", "0%")] [txt "SIGNED • SANDBOXED • VERIFIED • SCANNED •"; txt " "]]]].

(** @src marketing/src/app/page.tsx 9-16 Icon *)
Definition Icon (d : string) : html :=
  E "svg" [("width", "20"); ("height", "20"); ("viewBox", "0 0 24 24"); ("fill", "none"); ("stroke", "currentColor"); ("strokeWidth", "1.7"); ("strokeLinecap", "round"); ("strokeLinejoin", "round")]
      ([E "path" [("d", d)] []] ++
      []).

(** @src marketing/src/app/page.tsx 18-24 Check *)
Definition Check (className : option string) : html :=
  E "svg" (match className with Some c => [("class", c)] | None => [] end ++
    [("width", "15"); ("height", "15"); ("viewBox", "0 0 24 24"); ("fill", "none"); ("stroke", "currentColor"); ("strokeWidth", "2.4"); ("strokeLinecap", "round"); ("strokeLinejoin", "round")]) [E "path" [("d", "M20 6 9 17l-5-5")] []].

(** @src marketing/src/app/page.tsx 26-32 Cross *)
Definition Cross (className : option string) : html :=
  E "svg" (match className with Some c => [("class", c)] | None => [] end ++
    [("width", "15"); ("height", "15"); ("viewBox", "0 0 24 24"); ("fill", "none"); ("stroke", "currentColor"); ("strokeWidth", "2.4"); ("strokeLinecap", "round"); ("strokeLinejoin", "round")]) [E "path" [("d", "M18 6 6 18M6 6l12 12")] []].

(** @src marketing/src/app/page.tsx GITHUB *)
Definition GITHUB : string := "https://github.com/Aniket25042003/OpenAgentHub".

(** ** The data of the page *)

Record feature := mkFeature { f_code : string; f_title : string; f_body : string; f_icon : string }.
Record step := mkStep { s_n : string; s_title : string; s_body : string }.
Record method := mkMethod { m_tag : string; m_title : string; m_body : string; m_code : string; m_upcoming : bool }.

(** @src marketing/src/app/page.tsx 36-85 FEATURES *)
Definition FEATURES : list feature :=
  [mkFeature "01" "One place for every agent" "See all your AI agents in a single, simple dashboard — no matter where each one came from or what it does." "M3 12h4l3 8 4-16 3 8h4";
   mkFeature "02" "One simple file defines an agent" "Every agent is described once in a plain, easy-to-read file. It works with Python, JavaScript, and most other languages." "M5 3h14a1 1 0 0 1 1 1v16a1 1 0 0 1-1 1H5a1 1 0 0 1-1-1V4a1 1 0 0 1 1-1Zm3 5h8M8 12h8M8 16h5";
   mkFeature "03" "Run agents the way you want" "Use an agent as a quick one-shot command, a long-running helper, or an online service — the setup is the same either way." "M8 3H5a2 2 0 0 0-2 2v3m18 0V5a2 2 0 0 0-2-2h-3M8 21H5a2 2 0 0 1-2-2v-3m18 0v3a2 2 0 0 1-2 2h-3";
   mkFeature "04" "Verified before install" "Every package is signed by its author and double-checked automatically. If anything has been changed, it simply won't install." "M12 2l8 4v6c0 5-3.5 8.5-8 10-4.5-1.5-8-5-8-10V6l8-4Zm-2 12 2-2 4 4 4-6";
   mkFeature "05" "Safe by default" "Agents from the internet run inside a locked-down sandbox — no access to your files or network unless you say so." "M12 2l9 4v6c0 5.5-3.8 9.4-9 12-5.2-2.6-9-6.5-9-12V6l9-4Zm-3 12 2 2 5-5";
   mkFeature "06" "Your secrets stay private" "API keys and passwords are encrypted and kept only on your machine. Agents only see them when they need to." "M8 11V7a4 4 0 0 1 8 0v4M6 11h12a1 1 0 0 1 1 1v8a1 1 0 0 1-1 1H6a1 1 0 0 1-1-1v-8a1 1 0 0 1 1-1Z";
   mkFeature "07" "You stay in control" "Grant each agent only the access it needs — just like app permissions on your phone. You approve everything." "M4 5h16M4 12h16M4 19h7";
   mkFeature "08" "A registry you can trust" "Every agent is scanned for problems before it's shared with others, so you can install with confidence." "M11 4a7 7 0 1 0 0 14 7 7 0 0 0 0-14Zm10 17-5.6-5.6"].

(** @src marketing/src/app/page.tsx 87-91 STEPS *)
Definition STEPS : list step :=
  [mkStep "01" "Find" "Search the registry for the agent you need.";
   mkStep "02" "Install" "One simple command. It's verified and checked automatically.";
   mkStep "03" "Run" "Give it your task, get your answer — the same easy way every time."].

(** @src marketing/src/app/page.tsx 93-110 SECURITY *)
Definition SECURITY : list (string * string) :=
  [("Checked before it runs", "Every package is signed by its author and verified automatically before it's installed on your machine.");
   ("Unpacked carefully", "Files are unpacked safely, with no dangerous paths or tricks allowed.");
   ("Sandboxed by default", "Untrusted agents run in a locked-down container with no access to your computer — unless you allow it.");
   ("Secrets stay encrypted", "Your keys and passwords are encrypted and never shown in a listing or a log.")].

(** @src marketing/src/app/page.tsx 112-122 METHODS *)
Definition METHODS : list method :=
  [mkMethod "npm" "npm" "Install the CLI with npm — works on any computer with Node.js." "npm install -g @openagenthub/cli" false;
   mkMethod "brew" "Homebrew" "The easiest way to install and update on macOS." "brew install openagenthub/tap/agent" true;
   mkMethod "bin" "Binary" "Download the ready-to-run file for your platform." ("curl -fsSL https://github.com/Aniket25042003/OpenAgentHub/releases/latest/download/agent -o agent" +:+ nl +:+ "chmod +x agent && sudo mv agent /usr/local/bin/agent") true].

(** ** The page *)

(** @src marketing/src/app/page.tsx 130-204 LandingPage *)
Definition hero : html :=
  E "section" [("class", "hero"); ("id", "top")]
      [E "div" [("class", "hero-bg")] [];
       E "div" [("class", "hero-glow")] [];
       E "div" [("class", "container hero-inner")]
        [E "div" []
          [E "span" [("class", "eyebrow")] [txt "Open source · free to use"];
           E "h1" [] [txt "Every agent."; E "br" [] []; E "span" [("class", "hl")] [txt "One hub."]];
           E "p" [("class", "lead")]
            [txt "AI agents are everywhere these days — but installing them can be a mess. OpenAgentHub makes it simple: ";
             E "b" [] [txt "find"];
             txt " an agent, ";
             E "b" [] [txt "install"];
             txt " it in one command, and ";
             E "b" [] [txt "run"];
             txt " it safely. All your agents, in one place."];
           E "div" [("class", "hero-cta")]
            [E "a" [("class", "btn btn-primary btn-lg"); ("href", "#install")] [txt "Get started"];
             E "a" [("class", "btn btn-lg"); ("href", "#how")] [txt "See how it works"]];
           E "div" [("class", "trust-row")]
            [E "span" [] [Check None; txt " Verified before install"];
             E "span" [] [Check None; txt " Runs in a safe sandbox"];
             E "span" [] [Check None; txt " Your secrets stay private"];
             E "span" [] [Check None; txt " Free & open source"]]];
         E "div" [("class", "hero-visual")]
          [E "div" [("class", "terminal")]
            [E "div" [("class", "term-bar")] [E "i" [] []; E "i" [] []; E "i" [] []; E "span" [] [txt "~ — agent"]];
             E "pre" [("class", "term-body")]
              [E "div" [("class", "term-line")] [E "span" [("class", "pr")] [txt "$"]; txt " openagenthub install acme/pr-reviewer"];
               E "div" [("class", "term-line")] [E "span" [("class", "cm")] [txt "# checked · verified · sandboxed"]];
               E "div" [("class", "term-line")] [E "span" [("class", "ok")] [txt "✓"]; txt " installed acme/pr-reviewer@1.4.2"];
               E "div" [("class", "term-line")] [txt " "];
               E "div" [("class", "term-line")] [E "span" [("class", "pr")] [txt "$"]; txt " openagenthub run acme/pr-reviewer"];
               E "div" [("class", "term-line")]
                [E "span" [("class", "amb")] [txt "→"];
                 txt " ";
                 E "span" [("class", "out")] [txt (q +:+ "Looks good — one nit in docs/changelog.md." +:+ q)]];
               E "div" [("class", "term-line")] [txt " "];
               E "div" [("class", "term-line")] [E "span" [("class", "pr")] [txt "$"]; txt " openagenthub status"];
               E "div" [("class", "term-line")]
                [E "span" [("class", "ok")] [txt "●"];
                 txt " ";
                 E "span" [("class", "dim")] [txt "OpenClaw"];
                 txt (nbsp +:+ nbsp +:+ nbsp +:+ nbsp +:+ "running")];
               E "div" [("class", "term-line")]
                [E "span" [("class", "ok")] [txt "●"];
                 txt " ";
                 E "span" [("class", "dim")] [txt "Hermes"];
                 txt (nbsp +:+ nbsp +:+ nbsp +:+ nbsp +:+ nbsp +:+ nbsp +:+ "running")];
               E "div" [("class", "term-line")]
                [E "span" [("class", "ok")] [txt "●"];
                 txt " ";
                 E "span" [("class", "dim")] [txt "Codex"];
                 txt (nbsp +:+ nbsp +:+ nbsp +:+ nbsp +:+ nbsp +:+ nbsp +:+ nbsp +:+ "installed");
                 E "span" [("class", "term-cursor")] []]]];
           ClearanceStamp]]].

(** @src marketing/src/app/page.tsx 207-248 LandingPage *)
Definition problem : html :=
  E "section" [("class", "band raised"); ("id", "why")]
      [E "div" [("class", "container")]
        [E "Reveal" []
          [E "div" [("class", "section-head center")]
            [E "span" [("class", "eyebrow")] [txt "The problem"];
             E "h2" [] [txt "Installing AI agents shouldn't be so complicated."];
             E "p" [] [txt "Every agent has its own way to install and run — different steps, different tools, no single place to manage them all. OpenAgentHub fixes that."]]];
         E "div" [("class", "ledger-grid")]
          [E "Reveal" [("delay", "0")]
            [E "div" [("class", "ledger-sheet rejected")]
              [E "span" [("class", "sheet-stamp")] [txt "Rejected"];
               E "h3" [] [txt "Without OpenAgentHub"];
               E "ul" [("class", "sheet-list")]
                [E "li" [] [Cross None; txt " A different install guide for every agent — and the next one will be different too"];
                 E "li" [] [Cross None; txt " Manual setup: virtual environments, version conflicts, missing files"];
                 E "li" [] [Cross None; txt " No shared way to run an agent — is it a command, a service, or an app?"];
                 E "li" [] [Cross None; txt " Installing code from the internet means trusting it blindly"];
                 E "li" [] [Cross None; txt " API keys and tokens scattered across files and profiles"]]]];
           E "Reveal" [("delay", "120")]
            [E "div" [("class", "ledger-sheet cleared")]
              [E "span" [("class", "sheet-stamp")] [txt "Cleared"];
               E "h3" [] [txt "With OpenAgentHub"];
               E "ul" [("class", "sheet-list")]
                [E "li" [] [Check None; txt " One simple command installs and runs any agent"];
                 E "li" [] [Check None; txt " Agents are described once in a plain, simple file — no lock-in"];
                 E "li" [] [Check None; txt " Every openagenthub runs the same way: one command, in and out"];
                 E "li" [] [Check None; txt " Every package is checked and verified before it ever runs"];
                 E "li" [] [Check None; txt " Secrets are stored once, encrypted, on your machine"]]]]]]].

(** @src marketing/src/app/page.tsx 251-262 LandingPage *)
Definition proof : html :=
  E "section" [("class", "band")]
      [E "div" [("class", "container")]
        [E "Reveal" []
          [E "div" [("class", "proof-strip")]
            [E "span" [] [E "b" [] [txt "Open source"]; txt " & free"];
             E "span" [] [E "b" [] [txt "Any"]; txt " AI agent"];
             E "span" [] [E "b" [] [txt "100%"]; txt " runs on your machine"];
             E "span" [] [E "b" [] [txt "Private"]; txt " by default"]]]]].

(** @src marketing/src/app/page.tsx 265-289 LandingPage *)
Definition features : html :=
  E "section" [("class", "band raised"); ("id", "features")]
      [E "div" [("class", "container")]
        [E "Reveal" []
          [E "div" [("class", "section-head")]
            [E "span" [("class", "eyebrow")] [txt "What's inside"];
             E "h2" [] [txt "Everything you need, nothing to worry about."];
             E "p" [] [txt "Eight things OpenAgentHub handles for you, so every agent is simple and safe on your machine."]]];
         E "div" [("class", "manifest-list")]
          (imap (fun i f =>
    E "Reveal" [("delay", pretty (Nat.min i 4 * 60)%nat)]
              [E "div" [("class", "manifest-row")]
                [E "span" [("class", "row-code")] [txt (f_code f)];
                 E "span" [("class", "row-icon")] [Icon (f_icon f)];
                 E "div" [("class", "row-body")] [E "h3" [] [txt (f_title f)]; E "p" [] [txt (f_body f)]]]]) FEATURES)]].

(** @src marketing/src/app/page.tsx 292-313 LandingPage *)
Definition how : html :=
  E "section" [("class", "band"); ("id", "how")]
      [E "div" [("class", "container")]
        [E "Reveal" []
          [E "div" [("class", "section-head center")]
            [E "span" [("class", "eyebrow")] [txt "How it works"];
             E "h2" [] [txt "Three simple steps."];
             E "p" [] [txt "No complicated setup, no long guides — just find, install, and run."]]];
         E "div" [("class", "lifecycle-track")]
          (imap (fun i s =>
    E "Reveal" [("delay", pretty (i * 90)%nat)] [E "div" [("class", "life-step")] [E "span" [("class", "life-num")] [txt (s_n s)]; E "h3" [] [txt (s_title s)]; E "p" [] [txt (s_body s)]]]) STEPS)]].

(** @src marketing/src/app/page.tsx 316-337 LandingPage *)
Definition security : html :=
  E "section" [("class", "band raised"); ("id", "security")]
      [E "div" [("class", "container")]
        [E "Reveal" []
          [E "div" [("class", "section-head center")]
            [E "span" [("class", "eyebrow clear")] [txt "Safety first"];
             E "h2" [] [txt "Safe to try, safe to run."];
             E "p" [] [txt "Every package goes through the same safety checks before it touches your machine."]]];
         E "div" [("class", "security-grid")]
          (imap (fun i s =>
    E "Reveal" [("delay", pretty (i * 80)%nat)] [E "div" [("class", "security-card")] [E "span" [("class", "sec-badge")] [Check None]; E "h3" [] [txt (fst s)]; E "p" [] [txt (snd s)]]]) SECURITY)]].

(** @src marketing/src/app/page.tsx 340-362 LandingPage *)
Definition install : html :=
  E "section" [("class", "band"); ("id", "install")]
      [E "div" [("class", "container")]
        [E "Reveal" []
          [E "div" [("class", "section-head")]
            [E "span" [("class", "eyebrow")] [txt "Install"];
             E "h2" [] [txt "Ready in minutes."];
             E "p" [] [txt "Pick the way that works for you. After that, the agent CLI is available everywhere on your computer."]]];
         E "div" [("class", "install-grid")]
          (imap (fun i m =>
    E "Reveal" [("delay", pretty (i * 90)%nat)]
              [E "div" [("class", "method-card")]
                ([E "h3" [] [E "span" [("class", "m-tag")] [txt (m_tag m)]; txt (m_title m)];
                 E "p" [] [txt (m_body m)];
                 CodeBlock (js_toLowerCase (m_title m)) (m_code m) [txt (m_code m)]] ++
                when (m_upcoming m) [E "p" [("class", "m-upcoming")] [txt "Coming soon — not yet published"]])]) METHODS)]].

(** @src marketing/src/app/page.tsx 365-381 LandingPage *)
Definition cta : html :=
  E "section" [("class", "cta-band")]
      [E "div" [("class", "cta-glow")] [];
       E "div" [("class", "container")]
        [E "Reveal" []
          [E "h2" [] [txt "Every agent. One hub."];
           E "p" [] [txt "Simple to install. Safe to run. Yours to keep."];
           E "div" [("class", "hero-cta")]
            [E "a" [("class", "btn btn-primary btn-lg"); ("href", "#install")] [txt "Install OpenAgentHub"];
             E "a" [("class", "btn btn-lg"); ("href", GITHUB); ("target", "_blank"); ("rel", "noreferrer")] [txt "Star on GitHub"]]]]].

(** @src marketing/src/app/page.tsx 126-128 LandingPage *)
Definition LandingPage : html := E "Fragment" [] [hero; problem; proof; features; how; security; install; cta].

(** ** The layout *)

(** @src marketing/src/app/layout.tsx REPO *)
Definition REPO : string := "Aniket25042003/OpenAgentHub".

(** @src marketing/src/app/layout.tsx 32-43 LogoMark *)
Definition LogoMark : html :=
  E "span" [("class", "logo-mark")]
      [E "svg" [("width", "16"); ("height", "16"); ("viewBox", "0 0 24 24"); ("fill", "none")]
        [E "circle" [("cx", "12"); ("cy", "5"); ("r", "2.4"); ("fill", "#0a0c10")] [];
         E "circle" [("cx", "5"); ("cy", "18"); ("r", "2.4"); ("fill", "#0a0c10")] [];
         E "circle" [("cx", "19"); ("cy", "18"); ("r", "2.4"); ("fill", "#0a0c10")] [];
         E "path" [("d", "M12 7.4 6.4 16.2M12 7.4l5.6 8.8M6.9 18h10.2"); ("stroke", "#0a0c10"); ("strokeWidth", "1.6"); ("strokeLinecap", "round")] []]].

(** The button and the panel of [Widgets.nav_view]; what a click does is there.
    @src marketing/src/components/MobileNav.tsx MobileNav *)
Definition MobileNav (is_open : bool) : html :=
  let '(label, cls, links) := Widgets.nav_view is_open in
  E "Fragment" [] [E "button" [("class", "mobile-toggle"); ("aria-label", label); ("aria-expanded", if is_open then "true" else "false"); ("type", "button")] [];
   E "div" [("class", cls)] (map (fun l => link (snd l) (fst l)) links)].

(** @src marketing/src/app/layout.tsx 45-129 RootLayout *)
Definition RootLayout (children : list html) : html :=
  E "html" [("lang", "en"); ("class", (display +:+ " " +:+ body +:+ " " +:+ mono))]
      [E "body" []
        ([E "header" [("class", "site")]
          [E "div" [("class", "container nav-wrap")]
            [E "a" [("class", "logo"); ("href", "#top")] [LogoMark; E "span" [("class", "logo-word")] [txt "Open"; E "em" [] [txt "Agent"]; txt "Hub"]];
             E "nav" [("class", "nav-links")]
              [E "a" [("href", "#features")] [txt "Features"];
               E "a" [("href", "/agents")] [txt "Agents"];
               E "a" [("href", "#security")] [txt "Security"];
               E "a" [("href", "#how")] [txt "How it works"];
               E "a" [("href", "#install")] [txt "Install"]];
             E "div" [("class", "nav-actions")]
              [E "GithubStars" [("repo", REPO)] [];
               E "a" [("class", "btn"); ("href", GITHUB); ("target", "_blank"); ("rel", "noreferrer")] [txt "GitHub"];
               E "a" [("class", "btn btn-primary"); ("href", "#install")] [txt "Get started"]];
             MobileNav menu_open]]] ++
        children ++
        [E "footer" [("class", "site")]
          [E "div" [("class", "container")]
            [E "div" [("class", "footer-grid")]
              [E "div" [("class", "footer-brand")]
                [E "a" [("class", "logo"); ("href", "#top")] [LogoMark; E "span" [("class", "logo-word")] [txt "Open"; E "em" [] [txt "Agent"]; txt "Hub"]];
                 E "p" [] [txt "Install, run, and manage AI agents from one place — simply and safely."]];
               E "div" [("class", "footer-col")]
                [E "h4" [] [txt "Product"];
                 E "nav" []
                  [E "a" [("href", "#features")] [txt "Features"];
                   E "a" [("href", "#security")] [txt "Security model"];
                   E "a" [("href", "#how")] [txt "How it works"];
                   E "a" [("href", "#install")] [txt "Install"]]];
               E "div" [("class", "footer-col")]
                [E "h4" [] [txt "Resources"];
                 E "nav" []
                  [E "a" [("href", "/agents")] [txt "Browse agents"];
                   E "a" [("href", GITHUB); ("target", "_blank"); ("rel", "noreferrer")] [txt "Source code"];
                   E "a" [("href", (GITHUB +:+ "#readme")); ("target", "_blank"); ("rel", "noreferrer")] [txt "Documentation"];
                   E "a" [("href", (GITHUB +:+ "/tree/main/docs")); ("target", "_blank"); ("rel", "noreferrer")] [txt "Architecture docs"];
                   E "a" [("href", (GITHUB +:+ "/tree/main/specs")); ("target", "_blank"); ("rel", "noreferrer")] [txt "Manifest spec"]]];
               E "div" [("class", "footer-col")]
                [E "h4" [] [txt "Legal"];
                 E "nav" []
                  [E "a" [("href", (GITHUB +:+ "/blob/main/LICENSE")); ("target", "_blank"); ("rel", "noreferrer")] [txt "Apache-2.0 license"];
                   E "a" [("href", (GITHUB +:+ "/security")); ("target", "_blank"); ("rel", "noreferrer")] [txt "Security policy"]]]];
             E "div" [("class", "footer-bottom")]
              [E "span" [] [txt "© "; txt (pretty year); txt " OpenAgentHub — open source under Apache-2.0"];
               E "span" [] [txt "Simple · Safe · Open source"]]]]])].
(** ** The layout of the dashboard *)

(** @src web/src/components/site-nav.tsx 12-23 SiteNav *)
Definition SiteNav (path : string) : html :=
  E "nav" [("class", "nav-links")] (map (fun t => E "a" [("href", t.1.1); ("class", t.1.2)] [txt t.2]) (Widgets.SiteNav path)).

(** @src web/src/app/layout.tsx 29-40 LogoMark *)
Definition web_LogoMark : html :=
  E "span" [("class", "logo-mark")]
      [E "svg" [("width", "16"); ("height", "16"); ("viewBox", "0 0 24 24"); ("fill", "none")]
        [E "circle" [("cx", "12"); ("cy", "5"); ("r", "2.4"); ("fill", "#0a0c10")] [];
         E "circle" [("cx", "5"); ("cy", "18"); ("r", "2.4"); ("fill", "#0a0c10")] [];
         E "circle" [("cx", "19"); ("cy", "18"); ("r", "2.4"); ("fill", "#0a0c10")] [];
         E "path" [("d", "M12 7.4 6.4 16.2M12 7.4l5.6 8.8M6.9 18h10.2"); ("stroke", "#0a0c10"); ("strokeWidth", "1.6"); ("strokeLinecap", "round")] []]].

(** @src web/src/app/layout.tsx 42-65 RootLayout *)
Definition web_RootLayout (path : string) (children : list html) : html :=
  E "html" [("lang", "en"); ("class", (display +:+ " " +:+ body +:+ " " +:+ mono))]
      [E "body" []
        ([E "header" [("class", "site")]
          [E "div" [("class", "container nav-wrap")]
            [E "a" [("class", "logo"); ("href", "/")] [web_LogoMark; E "span" [("class", "logo-word")] [txt "Open"; E "em" [] [txt "Agent"]; txt "Hub"]];
             E "span" [("class", "tagline")] [txt "the universal package manager for AI agents"];
             SiteNav path;
             E "a" [("class", "btn btn-primary"); ("href", GITHUB); ("target", "_blank"); ("rel", "noreferrer")] [txt "GitHub"]]]] ++
        children)].

(** ** Where links lead *)

(** To a place of the page itself, to a page of the site, or to the repository. *)
Definition leads_somewhere (h : html) (href : string) : bool :=
  match fragment href with
  | Some x => mem_str x (ids h)
  | None => String.eqb href "/agents" || js_startsWith href GITHUB
  end.
End site.

(** ** Properties *)
Section facts.
Context {A : Type} (display body mono : string) (year : Z) (menu_open : bool).

(** The home page: the page in the layout. *)
Definition home : html A := RootLayout display body mono year menu_open [LandingPage].

(** On the home page every link leads somewhere, whether or not the menu is open. *)
Theorem home_links href : href ∈ attr "href" home -> leads_somewhere home href = true.
Proof.
  assert (Hall : forallb (leads_somewhere home) (attr "href" home) = true) by (destruct menu_open; vm_compute; reflexivity).
  rewrite forallb_forall in Hall. intros Hin. by apply Hall, list_elem_of_In.
Qed.

(** Each way of installing is copied as it is shown, and is marked as not yet published
    exactly if it is; the numbers in the headings are right. *)
Theorem install_methods :
  copied_texts (install (A := A)) = map m_code METHODS /\
  List.filter (String.eqb "Coming soon — not yet published") (texts (install (A := A))) =
    map (fun _ => "Coming soon — not yet published") (List.filter m_upcoming METHODS) /\
  map m_tag (List.filter (fun m => negb (m_upcoming m)) METHODS) = ["npm"] /\
  length FEATURES = 8%nat /\ length STEPS = 3%nat.
Proof. split_and!; reflexivity. Qed.
End facts.

(** *** The layout of the dashboard *)

(** Its links are those of the repository, of the start page and of the four tabs. *)
Theorem dashboard_links {A} display body mono path :
  attr "href" (web_RootLayout (A := A) display body mono path []) = ["/"; "/"; "/browse"; "/publisher"; "/account"; GITHUB].
Proof. reflexivity. Qed.

(** *** The page of the catalogue *)
Section catalogue.
Context (display body mono : string) (year : Z) (menu_open : bool) (toLocaleDateString : string -> string) (u : Catalog.catalog_ui).

Definition agents_page : html unit := RootLayout display body mono year menu_open [Catalog.catalog_view toLocaleDateString u].

Lemma catalog_without_ids : ids (Catalog.catalog_view toLocaleDateString u) = [].
Proof.
  assert (Hcards : forall l, flat_map (attr "id") (map (Catalog.card_view toLocaleDateString) l) = []).
  { intros l. induction l as [|i l IH]; [done|]. cbn [map flat_map]. rewrite IH, app_nil_r. unfold Catalog.card_view. cbn.
    by destruct (Catalog.ci_permissions i), (Catalog.ci_secrets i). }
  unfold Catalog.catalog_view. destruct (truthy (Catalog.error u)); [done|]. destruct (Catalog.items u); [|done].
  destruct (Catalog.filtered u) as [|i0 l0]; [done|]. generalize (i0 :: l0). intros items. transitivity (flat_map (attr "id") (map (Catalog.card_view toLocaleDateString) items)); [|apply Hcards].
  unfold ids, box, div. cbn. by rewrite !app_nil_r.
Qed.

(** The layout is also that of the catalogue, which has none of the places its links name:
    whatever the catalogue shows, the logo and every link of the header, the footer and
    the menu that does not leave the page leads nowhere, "Install" and "Get started"
    among them. *)
Theorem agents_page_links_dead :
  (forall x, x ∈ fragments agents_page -> x ∉ ids agents_page) /\
  ["top"; "features"; "security"; "how"; "install"] ⊆ fragments agents_page.
Proof.
  assert (Hids : ids agents_page = []).
  { unfold agents_page, RootLayout. generalize catalog_without_ids. generalize (Catalog.catalog_view toLocaleDateString u).
    intros c Hc. unfold ids in *. cbn. rewrite Hc. by destruct menu_open. }
  split; [intros x _; rewrite Hids; apply not_elem_of_nil|].
  assert (Hall : forallb (fun x => mem_str x (fragments agents_page)) ["top"; "features"; "security"; "how"; "install"] = true) by reflexivity.
  intros x Hx%list_elem_of_In. rewrite forallb_forall in Hall. by apply mem_str_spec, Hall.
Qed.
End catalogue.
End MarketingSite.
