(* ===== verification/RedesignSite.v ===== *)
(** The redesign of the marketing site,
    [openagenthub-marketing-redesign/src/app/page.tsx] and [layout.tsx], as the elements
    its components return.  Its components are copies of those of [marketing], which are
    in [MarketingSite.v]. *)
From S2P Require Import Prelude Manifest Page MarketingSite.

Module RedesignSite.
Import Page MarketingSite.
Local Open Scope string_scope.

Section site.
Context {A : Type}.
Local Abbreviation html := (html A).
Context (display body mono : string) (year : Z) (menu_open : bool).

(** ** The data of the page *)

Record feature := mkFeature { f_code : string; f_title : string; f_body : string; f_icon : string; f_extra : list html }.
Record stage := mkStage { s_n : string; s_title : string; s_body : string; s_code : string }.
Record method := mkMethod { m_tag : string; m_title : string; m_body : string; m_code : string }.

(** @src openagenthub-marketing-redesign/src/app/page.tsx 36-101 FEATURES *)
Definition FEATURES : list feature :=
  [mkFeature "ITM-01" "One dashboard for every agent on your machine" "The homepage is a live system dashboard — installed agents, running Docker containers, and third-party agents that are already on your machine, auto-detected by process, config, and port." "M3 12h4l3 8 4-16 3 8h4" [E "div" [("class", "mini-panel")]
        [E "div" [("class", "mp-row")] [E "span" [("class", "dot")] []; E "span" [("class", "mp-name")] [txt "openagenthub"]; E "span" [("class", "mp-tag")] [txt "installed"]];
         E "div" [("class", "mp-row")]
          [E "span" [("class", "dot")] [];
           E "span" [("class", "mp-name")] [txt "openclaw"];
           E "span" [("class", "mp-tag")] [txt "detected · pid 41213"]];
         E "div" [("class", "mp-row")]
          [E "span" [("class", "dot")] [];
           E "span" [("class", "mp-name")] [txt "hermes"];
           E "span" [("class", "mp-tag")] [txt "detected · port 8642"]]]];
   mkFeature "ITM-02" "One manifest, any language, any framework" "Every agent is declared once in agent.yaml — framework-agnostic, validated strictly against a JSON Schema. Python, Node, Go, Rust; LangGraph, CrewAI, AutoGen, or nothing at all." "M5 3h14a1 1 0 0 1 1 1v16a1 1 0 0 1-1 1H5a1 1 0 0 1-1-1V4a1 1 0 0 1 1-1Zm3 5h8M8 12h8M8 16h5" [E "div" [("class", "row-code-block")]
        [E "span" [("class", "k")] [txt "runtime"];
         txt ":";
         txt nl;
         txt "  ";
         E "span" [("class", "k")] [txt "language"];
         txt ": ";
         E "span" [("class", "v")] [txt "python"];
         txt nl;
         E "span" [("class", "k")] [txt "interfaces"];
         txt ":";
         txt nl;
         txt "  ";
         E "span" [("class", "k")] [txt "cli"];
         txt ":";
         txt nl;
         txt "    ";
         E "span" [("class", "k")] [txt "command"];
         txt ": ";
         E "span" [("class", "v")] [txt (q +:+ "python main.py" +:+ q)]]];
   mkFeature "ITM-03" "Three execution interfaces" "Every agent runs as a one-shot CLI (JSON in, JSON out), a long-running MCP server, or a deployable HTTP endpoint — from the same manifest." "M8 3H5a2 2 0 0 0-2 2v3m18 0V5a2 2 0 0 0-2-2h-3M8 21H5a2 2 0 0 1-2-2v-3m18 0v3a2 2 0 0 1-2 2h-3" [];
   mkFeature "ITM-04" "Signed with Ed25519" "Agents are packed into signed .ahb archives. The signature binds the SHA-256 hash, name, and version — re-verified by the registry on publish and the CLI on install." "M12 2l8 4v6c0 5-3.5 8.5-8 10-4.5-1.5-8-5-8-10V6l8-4Zm-2 12 2-2 4 4 4-6" [];
   mkFeature "ITM-05" "Sandboxed by default" "Untrusted agents run in a hardened container: capabilities dropped, no network unless granted, read-only root, and strict CPU, memory, and process limits." "M12 2l9 4v6c0 5.5-3.8 9.4-9 12-5.2-2.6-9-6.5-9-12V6l9-4Zm-3 12 2 2 5-5" [];
   mkFeature "ITM-06" "Encrypted secrets vault" "Agent env values are encrypted with AES-256-GCM and keyed to your machine, then injected at runtime — never committed to a manifest or a repo." "M8 11V7a4 4 0 0 1 8 0v4M6 11h12a1 1 0 0 1 1 1v8a1 1 0 0 1-1 1H6a1 1 0 0 1-1-1v-8a1 1 0 0 1 1-1Z" [];
   mkFeature "ITM-07" "Android-style permissions" "Agents declare the capabilities they need — network, filesystem, github, terminal, browser, camera, microphone — and you grant them explicitly at install." "M4 5h16M4 12h16M4 19h7" [];
   mkFeature "ITM-08" "Scanned registry, self-hostable" "Every published version is statically scanned for unsafe archive paths and oversized members before it's marked clean. Run the registry, dashboard, and CLI on your own infrastructure." "M11 4a7 7 0 1 0 0 14 7 7 0 0 0 0-14Zm10 17-5.6-5.6" []].

(** @src openagenthub-marketing-redesign/src/app/page.tsx 103-109 LIFECYCLE *)
Definition LIFECYCLE : list stage :=
  [mkStage "01" "Author" "Write agent.yaml plus your code — any language, any framework." "agent init acme/pr-reviewer";
   mkStage "02" "Pack & sign" "Pack the project into a .ahb archive and sign it with Ed25519." "agent publish ./acme --public-only";
   mkStage "03" "Registry" "Upload it; the registry re-verifies the signature and scans the archive." "PUT /agents/{ns}/{name}/versions/{v}";
   mkStage "04" "Install" "Fetch, re-verify SHA-256 + signature + key fingerprint, then unpack." "agent install acme/pr-reviewer";
   mkStage "05" "Run" "Inject model + secrets, execute in the right sandbox, get JSON back." "agent run acme/pr-reviewer --model openai"].

(** @src openagenthub-marketing-redesign/src/app/page.tsx 111-124 CLI_ROWS *)
Definition CLI_ROWS : list (string * string) :=
  [("agent init <ns/name>", "Scaffold a new agent project");
   ("agent validate [dir]", "Validate the manifest & runtime");
   ("agent publish [dir]", "Package, sign, and publish");
   ("agent login --token", "Authenticate with the registry");
   ("agent search [query]", "Search the registry");
   ("agent install <spec>", "Install from registry or file");
   ("agent verify <spec>", "Verify signature & integrity");
   ("agent run <spec>", "Run an installed agent");
   ("agent env <spec>", "Manage encrypted secrets");
   ("agent list", "List installed agents");
   ("agent status", "System + agent diagnostics");
   ("agent ps", "List Docker containers")].

(** @src openagenthub-marketing-redesign/src/app/page.tsx 126-143 SECURITY *)
Definition SECURITY : list (string * string) :=
  [("Signed & verified", "Every artifact is Ed25519-signed by its publisher. The signature binds the archive's SHA-256 hash to its name and version — a single changed byte breaks it.");
   ("Strict extraction", "The CLI refuses to unpack absolute paths, directory traversal, NUL bytes, symlinks, or device nodes, with size and count caps against zip bombs.");
   ("Sandboxed by trust tier", "Trusted and local agents get a fast isolated-process path. Untrusted agents run in a hardened container with no capabilities and no network by default.");
   ("Secrets vault", "Agent env values are encrypted with AES-256-GCM, keyed to a machine-bound file at $AGENT_HOME/master.key. Values are never printed in a listing.")].

(** @src openagenthub-marketing-redesign/src/app/page.tsx 145-154 METHODS *)
Definition METHODS : list method :=
  [mkMethod "npm" "npm" "Install the CLI globally from the npm registry." "npm install -g @openagenthub/cli";
   mkMethod "brew" "Homebrew" "Install via the OpenAgentHub tap on macOS." "brew install openagenthub/tap/agent";
   mkMethod "bin" "Binary" "Download the prebuilt binary for your platform." ("curl -fsSL https://github.com/Aniket25042003/OpenAgentHub/releases/latest/download/agent -o agent" +:+ nl +:+ "chmod +x agent && sudo mv agent /usr/local/bin/agent")].

(** ** The page *)

(** @src openagenthub-marketing-redesign/src/app/page.tsx 162-237 LandingPage *)
Definition hero : html :=
  E "section" [("class", "hero"); ("id", "top")]
      [E "div" [("class", "hero-bg")] [];
       E "div" [("class", "hero-glow")] [];
       E "div" [("class", "container hero-inner")]
        [E "div" []
          [E "span" [("class", "eyebrow")] [txt "Open source · Apache-2.0"];
           E "h1" [] [txt "Every agent."; E "br" [] []; E "span" [("class", "hl")] [txt "One hub."]];
           E "p" [("class", "lead")]
            [txt "Trying OpenClaw, Hermes, Codex, and Claude Code today means four different install guides and no common way to run any of them. OpenAgentHub installs, runs, and publishes AI agents the way ";
             E "b" [] [txt "npm handles packages"];
             txt " — one manifest, one CLI, every agent signed, verified, and sandboxed before it touches your machine."];
           E "div" [("class", "hero-cta")]
            [E "a" [("class", "btn btn-primary btn-lg"); ("href", "#install")] [txt "Install the CLI"];
             E "a" [("class", "btn btn-lg"); ("href", GITHUB); ("target", "_blank"); ("rel", "noreferrer")] [txt "View source"]];
           E "div" [("class", "trust-row")]
            [E "span" [] [Check None; txt " Ed25519 signed"];
             E "span" [] [Check None; txt " Sandboxed containers"];
             E "span" [] [Check None; txt " AES-256 secrets vault"];
             E "span" [] [Check None; txt " Apache-2.0"]]];
         E "div" [("class", "hero-visual")]
          [E "div" [("class", "terminal")]
            [E "div" [("class", "term-bar")] [E "i" [] []; E "i" [] []; E "i" [] []; E "span" [] [txt "~ — agent"]];
             E "pre" [("class", "term-body")]
              [E "div" [("class", "term-line")] [E "span" [("class", "pr")] [txt "$"]; txt " agent install acme/pr-reviewer"];
               E "div" [("class", "term-line")] [E "span" [("class", "cm")] [txt "# sha256 verified · signature ok · sandbox: container"]];
               E "div" [("class", "term-line")] [E "span" [("class", "ok")] [txt "✓"]; txt " installed acme/pr-reviewer@1.4.2"];
               E "div" [("class", "term-line")] [txt " "];
               E "div" [("class", "term-line")]
                [E "span" [("class", "pr")] [txt "$"];
                 txt " printf ";
                 txt ("'{" +:+ q +:+ "repo" +:+ q +:+ ":" +:+ q +:+ "acme/app" +:+ q +:+ "," +:+ q +:+ "pr" +:+ q +:+ ":42}'");
                 txt " | agent run acme/pr-reviewer"];
               E "div" [("class", "term-line")]
                [E "span" [("class", "amb")] [txt "→"];
                 txt " ";
                 E "span" [("class", "out")] [txt (q +:+ "Looks good — one nit in docs/changelog.md." +:+ q)]];
               E "div" [("class", "term-line")] [txt " "];
               E "div" [("class", "term-line")] [E "span" [("class", "pr")] [txt "$"]; txt " agent status --all"];
               E "div" [("class", "term-line")]
                [E "span" [("class", "ok")] [txt "●"];
                 txt " ";
                 E "span" [("class", "dim")] [txt "openclaw"];
                 txt (nbsp +:+ nbsp +:+ nbsp +:+ nbsp +:+ "detected" +:+ nbsp +:+ nbsp +:+ "pid 41213")];
               E "div" [("class", "term-line")]
                [E "span" [("class", "ok")] [txt "●"];
                 txt " ";
                 E "span" [("class", "dim")] [txt "hermes"];
                 txt (nbsp +:+ nbsp +:+ nbsp +:+ nbsp +:+ nbsp +:+ nbsp +:+ "running" +:+ nbsp +:+ nbsp +:+ nbsp +:+ "port 8642")];
               E "div" [("class", "term-line")]
                [E "span" [("class", "ok")] [txt "●"];
                 txt " ";
                 E "span" [("class", "dim")] [txt "codex"];
                 txt (nbsp +:+ nbsp +:+ nbsp +:+ nbsp +:+ nbsp +:+ nbsp +:+ nbsp +:+ "installed" +:+ nbsp +:+ "v0.9.1");
                 E "span" [("class", "term-cursor")] []]]];
           ClearanceStamp]]].

(** @src openagenthub-marketing-redesign/src/app/page.tsx 240-281 LandingPage *)
Definition problem : html :=
  E "section" [("class", "band raised"); ("id", "why")]
      [E "div" [("class", "container")]
        [E "Reveal" []
          [E "div" [("class", "section-head center")]
            [E "span" [("class", "eyebrow")] [txt "The problem"];
             E "h2" [] [txt "Installing agents shouldn't feel like customs paperwork."];
             E "p" [] [txt "Every agent ships its own way — a pip install here, a global npm package there, a Docker image somewhere else. Multiply that by every agent you want to try."]]];
         E "div" [("class", "ledger-grid")]
          [E "Reveal" [("delay", "0")]
            [E "div" [("class", "ledger-sheet rejected")]
              [E "span" [("class", "sheet-stamp")] [txt "Rejected"];
               E "h3" [] [txt "Without OpenAgentHub"];
               E "ul" [("class", "sheet-list")]
                [E "li" [] [Cross None; txt " A different install guide for OpenClaw, Hermes, Codex, and Claude Code — and whatever comes next"];
                 E "li" [] [Cross None; txt " Manual runtime juggling: Python venvs, Node versions, prebuilt binaries"];
                 E "li" [] [Cross None; txt " No standard way to run one — is it a CLI, a server, or an API you curl?"];
                 E "li" [] [Cross None; txt " Installing someone else's code means trusting it blindly — no signature, no scan"];
                 E "li" [] [Cross None; txt " Secrets scattered across .env files and shell profiles"]]]];
           E "Reveal" [("delay", "120")]
            [E "div" [("class", "ledger-sheet cleared")]
              [E "span" [("class", "sheet-stamp")] [txt "Cleared"];
               E "h3" [] [txt "With OpenAgentHub"];
               E "ul" [("class", "sheet-list")]
                [E "li" [] [Check None; txt " One CLI installs and runs every agent, whatever language it's written in"];
                 E "li" [] [Check None; txt " One manifest (agent.yaml) declares the contract — no framework lock-in"];
                 E "li" [] [Check None; txt " Every agent picks an interface: one-shot CLI, MCP server, or HTTP endpoint"];
                 E "li" [] [Check None; txt " Every package is Ed25519-signed and re-verified before it ever runs"];
                 E "li" [] [Check None; txt " Secrets live once, encrypted, in a machine-keyed vault"]]]]]]].

(** @src openagenthub-marketing-redesign/src/app/page.tsx 284-295 LandingPage *)
Definition proof : html :=
  E "section" [("class", "band")]
      [E "div" [("class", "container")]
        [E "Reveal" []
          [E "div" [("class", "proof-strip")]
            [E "span" [] [E "b" [] [txt "78"]; txt " automated tests"];
             E "span" [] [E "b" [] [txt "3"]; txt " reference agents"];
             E "span" [] [E "b" [] [txt "Apache-2.0"]; txt " licensed"];
             E "span" [] [E "b" [] [txt "100%"]; txt " self-hostable"]]]]].

(** @src openagenthub-marketing-redesign/src/app/page.tsx 298-323 LandingPage *)
Definition features : html :=
  E "section" [("class", "band raised"); ("id", "features")]
      [E "div" [("class", "container")]
        [E "Reveal" []
          [E "div" [("class", "section-head")]
            [E "span" [("class", "eyebrow")] [txt "What's inside"];
             E "h2" [] [txt "The full manifest."];
             E "p" [] [txt "Eight things OpenAgentHub handles so every agent behaves the same way on your machine."]]];
         E "div" [("class", "manifest-list")]
          (imap (fun i f =>
    E "Reveal" [("delay", pretty (Nat.min i 4 * 60)%nat)]
              [E "div" [("class", "manifest-row")]
                [E "span" [("class", "row-code")] [txt (f_code f)];
                 E "span" [("class", "row-icon")] [Icon (f_icon f)];
                 E "div" [("class", "row-body")]
                  ([E "h3" [] [txt (f_title f)]; E "p" [] [txt (f_body f)]] ++
                  f_extra f)]]) FEATURES)]].

(** @src openagenthub-marketing-redesign/src/app/page.tsx 326-348 LandingPage *)
Definition how : html :=
  E "section" [("class", "band"); ("id", "how")]
      [E "div" [("class", "container")]
        [E "Reveal" []
          [E "div" [("class", "section-head center")]
            [E "span" [("class", "eyebrow")] [txt "How it works"];
             E "h2" [] [txt "From written to running — verified at every step."];
             E "p" [] [txt "The same five-stage pipeline handles every agent, no matter who wrote it."]]];
         E "div" [("class", "lifecycle-track")]
          (imap (fun i s =>
    E "Reveal" [("delay", pretty (i * 90)%nat)] [E "div" [("class", "life-step")] [E "span" [("class", "life-num")] [txt (s_n s)]; E "h3" [] [txt (s_title s)]; E "p" [] [txt (s_body s)]; E "code" [] [txt (s_code s)]]]) LIFECYCLE)]].

(** @src openagenthub-marketing-redesign/src/app/page.tsx 351-428 LandingPage *)
Definition showcase : html :=
  E "section" [("class", "band raised")]
      [E "div" [("class", "container")]
        [E "Reveal" []
          [E "div" [("class", "section-head")]
            [E "span" [("class", "eyebrow")] [txt "The manifest"];
             E "h2" [] [txt "One file is the entire contract."];
             E "p" [] [txt "agent.yaml is validated strictly against a JSON Schema — no undeclared fields, no ambiguity about what an agent can do."]]];
         E "div" [("class", "manifest-code-grid")]
          [E "Reveal" []
            [E "ul" [("class", "rules-list")]
              [E "li" []
                [Check (Some "tick");
                 E "span" [] [E "b" [] [txt "permissions"]; txt " is an array — "; E "b" [] [txt (q +:+ "none" +:+ q)]; txt " alone is the default."]];
               E "li" []
                [Check (Some "tick");
                 E "span" [] [E "b" [] [txt "secrets"]; txt " holds env-var names only; values live in the vault, never the manifest."]];
               E "li" [] [Check (Some "tick"); E "span" [] [E "b" [] [txt "interfaces"]; txt " needs at least one of cli, mcp, or http."]];
               E "li" [] [Check (Some "tick"); E "span" [] [E "b" [] [txt "framework"]; txt " is informational — the registry only stores the name."]];
               E "li" [] [Check (Some "tick"); E "span" [] [E "b" [] [txt "runtime.sandbox"]; txt " can force auto, container, or isolated-process."]]]];
           E "Reveal" [("delay", "100")]
            [CodeBlock "agent.yaml" ("manifestVersion: 1" +:+ nl +:+ "name: acme/pr-reviewer            # namespace/name, lowercase slug" +:+ nl +:+ "version: 1.0.0                    # SemVer" +:+ nl +:+ "author: acme" +:+ nl +:+ "description: Reviews GitHub pull requests" +:+ nl +:+ "license: MIT" +:+ nl +:+ nl +:+ "runtime:" +:+ nl +:+ "  language: python                # python | node | go | rust | other" +:+ nl +:+ "  python: " +:+ q +:+ ">=3.10" +:+ q +:+ nl +:+ "  sandbox: auto                   # auto | container | isolated-process" +:+ nl +:+ nl +:+ "models:" +:+ nl +:+ "  supported: [openai, anthropic, deepseek, ollama, local]" +:+ nl +:+ nl +:+ "interfaces:                       # at least one required" +:+ nl +:+ "  cli:" +:+ nl +:+ "    command: " +:+ q +:+ "python main.py" +:+ q +:+ nl +:+ "    input: json" +:+ nl +:+ "    output: json" +:+ nl +:+ "  mcp:" +:+ nl +:+ "    entrypoint: " +:+ q +:+ "python mcp_server.py" +:+ q +:+ nl +:+ "    transport: stdio" +:+ nl +:+ nl +:+ "permissions: [network]            # filesystem | network | github | ..." +:+ nl +:+ "secrets: [GITHUB_TOKEN]           # env-var NAMES only, never values" +:+ nl +:+ "tags: [github, code-review]") [E "span" [("class", "k")] [txt "manifestVersion"];
               txt ": ";
               E "span" [("class", "v")] [txt "1"];
               txt nl;
               E "span" [("class", "k")] [txt "name"];
               txt ": ";
               E "span" [("class", "v")] [txt "acme/pr-reviewer"];
               txt "            ";
               E "span" [("class", "cm")] [txt "# namespace/name, lowercase slug"];
               txt nl;
               E "span" [("class", "k")] [txt "version"];
               txt ": ";
               E "span" [("class", "v")] [txt "1.0.0"];
               txt "                    ";
               E "span" [("class", "cm")] [txt "# SemVer"];
               txt nl;
               E "span" [("class", "k")] [txt "author"];
               txt ": ";
               E "span" [("class", "v")] [txt "acme"];
               txt nl;
               E "span" [("class", "k")] [txt "description"];
               txt ": ";
               E "span" [("class", "v")] [txt "Reviews GitHub pull requests"];
               txt nl;
               E "span" [("class", "k")] [txt "license"];
               txt ": ";
               E "span" [("class", "v")] [txt "MIT"];
               txt (nl +:+ nl);
               E "span" [("class", "k")] [txt "runtime"];
               txt ":";
               txt nl;
               txt "  ";
               E "span" [("class", "k")] [txt "language"];
               txt ": ";
               E "span" [("class", "v")] [txt "python"];
               txt "                ";
               E "span" [("class", "cm")] [txt "# python | node | go | rust | other"];
               txt nl;
               txt "  ";
               E "span" [("class", "k")] [txt "python"];
               txt ": ";
               E "span" [("class", "v")] [txt (q +:+ ">=3.10" +:+ q)];
               txt nl;
               txt "  ";
               E "span" [("class", "k")] [txt "sandbox"];
               txt ": ";
               E "span" [("class", "v")] [txt "auto"];
               txt "                   ";
               E "span" [("class", "cm")] [txt "# auto | container | isolated-process"];
               txt (nl +:+ nl);
               E "span" [("class", "k")] [txt "models"];
               txt ":";
               txt nl;
               txt "  ";
               E "span" [("class", "k")] [txt "supported"];
               txt ": ";
               E "span" [("class", "v")] [txt "[openai, anthropic, deepseek, ollama, local]"];
               txt (nl +:+ nl);
               E "span" [("class", "k")] [txt "interfaces"];
               txt ":                       ";
               E "span" [("class", "cm")] [txt "# at least one required"];
               txt nl;
               txt "  ";
               E "span" [("class", "k")] [txt "cli"];
               txt ":";
               txt nl;
               txt "    ";
               E "span" [("class", "k")] [txt "command"];
               txt ": ";
               E "span" [("class", "v")] [txt (q +:+ "python main.py" +:+ q)];
               txt nl;
               txt "    ";
               E "span" [("class", "k")] [txt "input"];
               txt ": ";
               E "span" [("class", "v")] [txt "json"];
               txt nl;
               txt "    ";
               E "span" [("class", "k")] [txt "output"];
               txt ": ";
               E "span" [("class", "v")] [txt "json"];
               txt nl;
               txt "  ";
               E "span" [("class", "k")] [txt "mcp"];
               txt ":";
               txt nl;
               txt "    ";
               E "span" [("class", "k")] [txt "entrypoint"];
               txt ": ";
               E "span" [("class", "v")] [txt (q +:+ "python mcp_server.py" +:+ q)];
               txt nl;
               txt "    ";
               E "span" [("class", "k")] [txt "transport"];
               txt ": ";
               E "span" [("class", "v")] [txt "stdio"];
               txt (nl +:+ nl);
               E "span" [("class", "k")] [txt "permissions"];
               txt ": ";
               E "span" [("class", "v")] [txt "[network]"];
               txt "            ";
               E "span" [("class", "cm")] [txt "# filesystem | network | github | ..."];
               txt nl;
               E "span" [("class", "k")] [txt "secrets"];
               txt ": ";
               E "span" [("class", "v")] [txt "[GITHUB_TOKEN]"];
               txt "           ";
               E "span" [("class", "cm")] [txt "# env-var NAMES only, never values"];
               txt nl;
               E "span" [("class", "k")] [txt "tags"];
               txt ": ";
               E "span" [("class", "v")] [txt "[github, code-review]"]]]]]].

(** @src openagenthub-marketing-redesign/src/app/page.tsx 431-452 LandingPage *)
Definition security : html :=
  E "section" [("class", "band"); ("id", "security")]
      [E "div" [("class", "container")]
        [E "Reveal" []
          [E "div" [("class", "section-head center")]
            [E "span" [("class", "eyebrow clear")] [txt "Security model"];
             E "h2" [] [txt "Every package clears the same checkpoint."];
             E "p" [] [txt "Nothing skips the line — not even agents you wrote yourself."]]];
         E "div" [("class", "security-grid")]
          (imap (fun i s =>
    E "Reveal" [("delay", pretty (i * 80)%nat)] [E "div" [("class", "security-card")] [E "span" [("class", "sec-badge")] [Check None]; E "h3" [] [txt (fst s)]; E "p" [] [txt (snd s)]]]) SECURITY)]].

(** @src openagenthub-marketing-redesign/src/app/page.tsx 455-480 LandingPage *)
Definition reference : html :=
  E "section" [("class", "band raised")]
      [E "div" [("class", "container")]
        [E "Reveal" []
          [E "div" [("class", "section-head")]
            [E "span" [("class", "eyebrow")] [txt "CLI reference"];
             E "h2" [] [txt "Everything through one binary."];
             E "p" [] [txt "agent wraps the entire lifecycle — scaffold, validate, publish, install, run, and inspect."]]];
         E "Reveal" []
          [E "div" [("class", "cli-grid")]
            (map (fun '(cmd, desc) =>
    E "div" [("class", "cli-row")] [E "code" [] [txt cmd]; E "span" [] [txt desc]]) CLI_ROWS)];
         E "Reveal" [] [E "a" [("class", "cli-more"); ("href", (GITHUB +:+ "#cli-reference-agent")); ("target", "_blank"); ("rel", "noreferrer")] [txt "Full CLI reference on GitHub →"]]]].

(** @src openagenthub-marketing-redesign/src/app/page.tsx 483-529 LandingPage *)
Definition install : html :=
  E "section" [("class", "band"); ("id", "install")]
      [E "div" [("class", "container")]
        [E "Reveal" []
          [E "div" [("class", "section-head")]
            [E "span" [("class", "eyebrow")] [txt "Install"];
             E "h2" [] [txt "Pick a channel."];
             E "p" [] [txt "After installing, the agent CLI is available everywhere on your machine."]]];
         E "div" [("class", "install-grid")]
          (imap (fun i m =>
    E "Reveal" [("delay", pretty (i * 90)%nat)]
              [E "div" [("class", "method-card")]
                [E "h3" [] [E "span" [("class", "m-tag")] [txt (m_tag m)]; txt (m_title m)];
                 E "p" [] [txt (m_body m)];
                 CodeBlock (js_toLowerCase (m_title m)) (m_code m) [txt (m_code m)]]]) METHODS);
         E "Reveal" []
          [CodeBlock "quickstart" ("# authenticate" +:+ nl +:+ "agent login --token <github-token>" +:+ nl +:+ nl +:+ "# find an agent" +:+ nl +:+ "agent search pr-reviewer" +:+ nl +:+ nl +:+ "# install, then run it" +:+ nl +:+ "agent install acme/pr-reviewer" +:+ nl +:+ "echo '{" +:+ q +:+ "repo" +:+ q +:+ ":" +:+ q +:+ "acme/app" +:+ q +:+ "," +:+ q +:+ "pr" +:+ q +:+ ":42}' | agent run acme/pr-reviewer") [E "span" [("class", "cm")] [txt "# authenticate"];
             txt nl;
             E "span" [("class", "st")] [txt "$"];
             txt " agent login --token <github-token>";
             txt (nl +:+ nl);
             E "span" [("class", "cm")] [txt "# find an agent"];
             txt nl;
             E "span" [("class", "st")] [txt "$"];
             txt " agent search pr-reviewer";
             txt nl;
             E "span" [("class", "v")] [txt "acme/pr-reviewer"];
             txt "  v1.4.2  trusted  1.2k downloads";
             txt (nl +:+ nl);
             E "span" [("class", "cm")] [txt "# install, then run it"];
             txt nl;
             E "span" [("class", "st")] [txt "$"];
             txt " agent install acme/pr-reviewer";
             txt nl;
             E "span" [("class", "st")] [txt "$"];
             txt " echo ";
             txt ("'{" +:+ q +:+ "repo" +:+ q +:+ ":" +:+ q +:+ "acme/app" +:+ q +:+ "," +:+ q +:+ "pr" +:+ q +:+ ":42}'");
             txt " | agent run acme/pr-reviewer";
             txt nl;
             E "span" [("class", "k")] [txt "→"];
             txt (" " +:+ q +:+ "Approved — ready to merge." +:+ q)]]]].

(** @src openagenthub-marketing-redesign/src/app/page.tsx 532-548 LandingPage *)
Definition cta : html :=
  E "section" [("class", "cta-band")]
      [E "div" [("class", "cta-glow")] [];
       E "div" [("class", "container")]
        [E "Reveal" []
          [E "h2" [] [txt "Every agent. One hub."];
           E "p" [] [txt "Signed, sandboxed, and scriptable from the first install."];
           E "div" [("class", "hero-cta")]
            [E "a" [("class", "btn btn-primary btn-lg"); ("href", "#install")] [txt "Install OpenAgentHub"];
             E "a" [("class", "btn btn-lg"); ("href", GITHUB); ("target", "_blank"); ("rel", "noreferrer")] [txt "Star on GitHub"]]]]].

(** @src openagenthub-marketing-redesign/src/app/page.tsx 158-160 LandingPage *)
Definition LandingPage : html := E "Fragment" [] [hero; problem; proof; features; how; showcase; security; reference; install; cta].

(** ** The layout *)

(** @src openagenthub-marketing-redesign/src/app/layout.tsx 45-128 RootLayout *)
Definition RootLayout (children : list html) : html :=
  E "html" [("lang", "en"); ("class", (display +:+ " " +:+ body +:+ " " +:+ mono))]
      [E "body" []
        ([E "header" [("class", "site")]
          [E "div" [("class", "container nav-wrap")]
            [E "a" [("class", "logo"); ("href", "#top")] [LogoMark; E "span" [("class", "logo-word")] [txt "Open"; E "em" [] [txt "Agent"]; txt "Hub"]];
             E "nav" [("class", "nav-links")]
              [E "a" [("href", "#features")] [txt "Features"];
               E "a" [("href", "#security")] [txt "Security"];
               E "a" [("href", "#how")] [txt "How it works"];
               E "a" [("href", "#install")] [txt "Install"]];
             E "div" [("class", "nav-actions")]
              [E "GithubStars" [("repo", REPO)] [];
               E "a" [("class", "btn"); ("href", GITHUB); ("target", "_blank"); ("rel", "noreferrer")] [txt "GitHub"];
               E "a" [("class", "btn btn-primary"); ("href", "#install")] [txt "Get started"]];
             MobileNav menu_open]]] ++
        children ++
        [E "footer" [("class", "site")]
          [E "div" [("class", "container")]
            [E "div" [("class", "footer-grid")]
              [E "div" [("class", "footer-brand")]
                [E "a" [("class", "logo"); ("href", "#top")] [LogoMark; E "span" [("class", "logo-word")] [txt "Open"; E "em" [] [txt "Agent"]; txt "Hub"]];
                 E "p" [] [txt "The open source package manager & registry for AI agents. Every install signed, scanned, and sandboxed — like cargo through a checkpoint."]];
               E "div" [("class", "footer-col")]
                [E "h4" [] [txt "Product"];
                 E "nav" []
                  [E "a" [("href", "#features")] [txt "Features"];
                   E "a" [("href", "#security")] [txt "Security model"];
                   E "a" [("href", "#how")] [txt "How it works"];
                   E "a" [("href", "#install")] [txt "Install"]]];
               E "div" [("class", "footer-col")]
                [E "h4" [] [txt "Resources"];
                 E "nav" []
                  [E "a" [("href", GITHUB); ("target", "_blank"); ("rel", "noreferrer")] [txt "Source code"];
                   E "a" [("href", (GITHUB +:+ "#readme")); ("target", "_blank"); ("rel", "noreferrer")] [txt "Documentation"];
                   E "a" [("href", (GITHUB +:+ "/tree/main/docs")); ("target", "_blank"); ("rel", "noreferrer")] [txt "Architecture docs"];
                   E "a" [("href", (GITHUB +:+ "/tree/main/specs")); ("target", "_blank"); ("rel", "noreferrer")] [txt "Manifest spec"]]];
               E "div" [("class", "footer-col")]
                [E "h4" [] [txt "Legal"];
                 E "nav" []
                  [E "a" [("href", (GITHUB +:+ "/blob/main/LICENSE")); ("target", "_blank"); ("rel", "noreferrer")] [txt "Apache-2.0 license"];
                   E "a" [("href", (GITHUB +:+ "/security")); ("target", "_blank"); ("rel", "noreferrer")] [txt "Security policy"]]]];
             E "div" [("class", "footer-bottom")]
              [E "span" [] [txt "© "; txt (pretty year); txt " OpenAgentHub — open source under Apache-2.0"];
               E "span" [] [txt "Signed · Sandboxed · Self-hostable"]]]]])].
End site.

(** ** Properties *)
Import Manifest.

(** The texts of the blocks that are shown as they are written. *)
Fixpoint pre_texts {A} (h : html A) : list string :=
  match h with
  | txt _ => []
  | el tag _ _ kids => (if String.eqb tag "pre" then [full_text h] else []) ++ flat_map pre_texts kids
  end.

Definition all_languages : list RuntimeLanguage := [python; node; go; rust; other].

Section facts.
Context {A : Type} (display body mono : string) (year : Z) (menu_open : bool).

Definition home : html A := RootLayout display body mono year menu_open [LandingPage].

(** On this site too every link of the page leads somewhere. *)
Theorem redesign_links href : href ∈ attr "href" home -> leads_somewhere home href = true.
Proof.
  assert (Hall : forallb (leads_somewhere home) (attr "href" home) = true) by (destruct menu_open; vm_compute; reflexivity).
  rewrite forallb_forall in Hall. intros Hin. by apply Hall, list_elem_of_In.
Qed.

(** The manifest that is shown is written twice in the page, once for the eye and once
    for the copy button; what is copied is what is shown. *)
Theorem showcase_copies_what_it_shows : copied_texts (showcase (A := A)) = pre_texts (showcase (A := A)).
Proof. vm_compute. reflexivity. Qed.

(** The lines after a prompt, and the lines that are no comment. *)
Definition prompted (s : string) : list string :=
  omap (fun l => if js_startsWith l "$ " then Some (js_drop 2 l) else None) (js_split LF s).
Definition commands (s : string) : list string :=
  List.filter (fun l => negb (String.eqb l "" || js_startsWith l "#")) (js_split LF s).

(** The quickstart is shown with prompts and answers; what is copied are the same
    commands, and each way of installing is copied as it is shown. *)
Theorem quickstart_copies_commands :
  take 3 (copied_texts (install (A := A))) = map m_code METHODS /\
  take 3 (pre_texts (install (A := A))) = map m_code METHODS /\
  commands <$> last (copied_texts (install (A := A))) = prompted <$> last (pre_texts (install (A := A))).
Proof. split_and!; vm_compute; reflexivity. Qed.

(** The comments of the manifest name the languages and the sandboxes that the loader
    takes, and its providers, its permission and its language are among those it knows. *)
Theorem showcase_names_known :
  Forall (fun raw =>
    js_includes raw ("# " +:+ js_join " | " (map language_name all_languages)) = true /\
    js_includes raw ("supported: [" +:+ js_join ", " (map provider_name [openai; anthropic; deepseek; ollama; local_model]) +:+ "]") = true /\
    js_includes raw ("permissions: [" +:+ permission_name network +:+ "]") = true /\
    js_includes raw ("language: " +:+ language_name python) = true) (copied_texts (showcase (A := A))) /\
  length (copied_texts (showcase (A := A))) = 1%nat /\ length (FEATURES (A := A)) = 8%nat /\ length LIFECYCLE = 5%nat.
Proof. split_and!; [|reflexivity..]. repeat constructor; vm_compute; reflexivity. Qed.

(** The two sites disagree: both offer the same commands, and of those that the
    marketing site marks as not yet published this one says nothing. *)
Theorem redesign_offers_unpublished :
  map m_code METHODS = map MarketingSite.m_code MarketingSite.METHODS /\
  map MarketingSite.m_tag (List.filter MarketingSite.m_upcoming MarketingSite.METHODS) = ["brew"; "bin"] /\
  forallb (fun t => negb (js_includes t "not yet published" || js_includes t "Coming soon")) (texts (LandingPage (A := A))) = true.
Proof. split_and!; vm_compute; reflexivity. Qed.
End facts.
End RedesignSite.
