(* ===== verification/Release.v ===== *)
(** The scripts of a release: [scripts/package.mjs], which builds the package of the
    command line with the dashboard inside, and [scripts/verify-pack.mjs], which installs
    a package in a clean place and tries it.  Commands, files and the network answer as
    an oracle. *)
From S2P Require Import Prelude NodePath Trace.

Module Release.
Import Trace.
Local Open Scope Z_scope.

(** What the scripts do: a command, with the directory it runs in and what [AGENT_HOME]
    and [OPENAGENTHUB_NO_DAEMON] are set to, the dashboard in the background, its end, a
    request, changes of files, waiting, and lines that are printed. *)
Inductive ract :=
| ra_exec (cmd : list string) (cwd agent_home no_daemon : option string)
| ra_spawn (cmd : list string) (port : Z)
| ra_kill
| ra_fetch (url : string) (authorization : option string)
| ra_rm (path : string) | ra_mkdir (path : string) | ra_copy (from to : string) | ra_write (path content : string)
| ra_sleep (ms : Z)
| ra_log (line : string) | ra_warn (line : string).

Record http_reply := mkHttp { hr_status : Z; hr_fields : result (obj string) }.
Definition hr_ok (r : http_reply) : bool := (200 <=? hr_status r) && (hr_status r <=? 299).

(** The world after what was done; a command that fails gives its error output. *)
Record rworld := mkRworld {
  rw_exec : list ract -> list string -> result string;
  rw_stderr : list ract -> list string -> string;
  rw_exists : list ract -> string -> bool;
  rw_read : list ract -> string -> result string;
  rw_json : string -> result (obj string);              (* [JSON.parse], the fields as text *)
  rw_fetch : list ract -> string -> option string -> result http_reply;
  rw_alive : list ract -> string -> bool;               (* [process.kill(pid, 0)] *)
  rw_stderr_of_server : list ract -> string;
}.

Section scripts.
Context (w : rworld).

Definition exec (cmd : list string) (cwd agent_home no_daemon : option string) : tr ract string :=
  act (ra_exec cmd cwd agent_home no_daemon) (fun h => rw_exec w h cmd).
Definition do_ (a : ract) : tr ract unit := act a (fun _ => Ok tt).
Definition existsSync (p : string) : tr ract bool := fun h => (h, Ok (rw_exists w h p)).
Definition readFileSync (p : string) : tr ract string := fun h => (h, rw_read w h p).
Definition parse (s : string) : tr ract (obj string) := tr_lift (rw_json w s).
Definition kill0 (pid : string) : tr ract bool := fun h => (h, Ok (rw_alive w h pid)).
Definition stderr_of (cmd : list string) : tr ract string := fun h => (h, Ok (rw_stderr w h cmd)).
Definition fetch (url : string) (authorization : option string) : tr ract http_reply :=
  act (ra_fetch url authorization) (fun h => rw_fetch w h url authorization).
Definition fail_if {A} (b : bool) (message : string) (m : tr ract A) : tr ract A := if b then tr_throw EError message else m.

(** ** Packing *)

(** @src scripts/package.mjs SIZE_BUDGET_MB *)
Definition SIZE_BUDGET_MB : Z := 80.
(** @src scripts/package.mjs SIZE_LIMIT_MB *)
Definition SIZE_LIMIT_MB : Z := 120.
Definition MiB (n : Z) : Z := n * (1024 * 1024).

Context (CLI WEB : string).
Definition STANDALONE : string := NodePath.join (NodePath.join WEB ".next") "standalone".
Definition DASHBOARD : string := NodePath.join CLI "dashboard".

Fixpoint copy_existing (entries : list string) : tr ract unit :=
  match entries with
  | [] => mret tt
  | entry :: rest =>
      let src := NodePath.join (NodePath.join STANDALONE "web") entry in
      there ← existsSync src;
      _ ← (if (there : bool) then do_ (ra_copy src (NodePath.join DASHBOARD entry)) else mret tt);
      copy_existing rest
  end.

(** @src scripts/package.mjs 25-44 script *)
Definition bundle_dashboard (ROOT : string) : tr ract unit :=
  _ ← do_ (ra_log "== build web (Next.js standalone) ==");
  _ ← exec ["npm"; "run"; "build"; "-w"; "@openagenthub/web"] (Some ROOT) None None;
  server ← existsSync (NodePath.join (NodePath.join STANDALONE "web") "server.js");
  fail_if (negb server) "next standalone output missing: expected web/.next/standalone/web/server.js"
   (_ ← do_ (ra_log "== bundle dashboard into cli/dashboard ==");
    _ ← do_ (ra_rm DASHBOARD);
    _ ← do_ (ra_mkdir DASHBOARD);
    _ ← do_ (ra_copy (NodePath.join STANDALONE "node_modules") (NodePath.join DASHBOARD "node_modules"));
    _ ← copy_existing ["server.js"; "package.json"; "src"; ".next"; "next.config.mjs"];
    let webStatic := NodePath.join (NodePath.join WEB ".next") "static" in
    static ← existsSync webStatic;
    _ ← (if (static : bool) then do_ (ra_copy webStatic (NodePath.join (NodePath.join DASHBOARD ".next") "static")) else mret tt);
    text ← readFileSync (NodePath.join CLI "package.json");
    pkg ← parse text;
    do_ (ra_write (NodePath.join DASHBOARD "VERSION")
      (nullish (obj_get "name" pkg) "undefined" +:+ "@" +:+ nullish (obj_get "version" pkg) "undefined" +:+ str1 LF))).

(** [toFixed1] prints a size in MiB.
    @src scripts/package.mjs 49-57 script *)
Definition report_size (toFixed1 : Z -> string) (filename : string) (size entryCount : Z) : tr ract unit :=
  _ ← do_ (ra_log ("tarball: " +:+ filename +:+ " (" +:+ toFixed1 size +:+ " MiB, " +:+ pretty entryCount +:+ " entries)"));
  fail_if (MiB SIZE_LIMIT_MB <? size) ("package size " +:+ toFixed1 size +:+ " MiB exceeds hard limit " +:+ pretty SIZE_LIMIT_MB +:+ " MiB")
   (_ ← (if MiB SIZE_BUDGET_MB <? size
         then do_ (ra_warn ("warning: package size " +:+ toFixed1 size +:+ " MiB exceeds budget " +:+ pretty SIZE_BUDGET_MB +:+ " MiB")) else mret tt);
    do_ (ra_log ("size budget: " +:+ pretty SIZE_BUDGET_MB +:+ " MiB soft / " +:+ pretty SIZE_LIMIT_MB +:+ " MiB hard — "
      +:+ (if size <=? MiB SIZE_BUDGET_MB then "within budget" else "over budget")))).

(** [packed] reads the report of [npm pack]: the file, its size in bytes and the number of
    entries.
    @src scripts/package.mjs 17-57 script *)
Definition package (ROOT : string) (skipWeb : bool) (packed : string -> result (string * Z * Z)) (toFixed1 : Z -> string) : tr ract unit :=
  _ ← do_ (ra_log "== build TS workspaces ==");
  _ ← exec ["npm"; "run"; "build"] (Some ROOT) None None;
  _ ← (if skipWeb then mret tt else bundle_dashboard ROOT);
  _ ← do_ (ra_log "== npm pack ==");
  packOut ← exec ["npm"; "pack"; "--json"] (Some CLI) None None;
  '(filename, size, entryCount) ← tr_lift (packed packOut);
  report_size toFixed1 filename size entryCount.

(** ** Verifying a package *)

(** [/word\s+next/], where [next] does not start with a space. *)
Fixpoint spaced (word next s : string) : bool :=
  (js_startsWith s word &&
   let rest := js_drop (String.length word) s in
   negb (String.eqb (js_trim_start rest) rest) && js_startsWith (js_trim_start rest) next)
  || match s with EmptyString => false | String _ s' => spaced word next s' end.

(** A failed check is printed and remembered; the script goes on.
    @src scripts/verify-pack.mjs check *)
Definition check (label : string) (fn : tr ract unit) (failed : bool) : tr ract bool :=
  tr_catch (_ ← fn; _ ← do_ (ra_log ("  ok: " +:+ label)); mret failed)
    (fun err => _ ← do_ (ra_warn ("  FAIL: " +:+ label +:+ ": " +:+ err_message err)); mret true).

Context (TMP TARBALL : string).
(** @src scripts/verify-pack.mjs 23-23 prefix *)
Definition prefix : string := NodePath.join TMP "prefix with spaces".
(** @src scripts/verify-pack.mjs 25-25 bin *)
Definition bin (name : string) : string := NodePath.join (NodePath.join (NodePath.join prefix "node_modules") ".bin") name.
(** @src scripts/verify-pack.mjs 41-41 cliPkgDir *)
Definition cliPkgDir : string := NodePath.join (NodePath.join (NodePath.join prefix "node_modules") "@openagenthub") "cli".
Definition cpHOME : string := NodePath.join TMP "cp-home".
(** @src scripts/verify-pack.mjs 156-156 home *)
Definition home : string := NodePath.join TMP "userhome".
Definition statePath : string := NodePath.join (NodePath.join cpHOME "control-plane") "state.json".

(** @src scripts/verify-pack.mjs 26-26 runBin *)
Definition runBin (name args : string) : tr ract string := exec [bin name; args] None None None.
(** @src scripts/verify-pack.mjs 91-93 runCp *)
Definition runCp (args : list string) (no_daemon : string) : tr ract string :=
  exec (bin "openagenthub" :: args) None (Some cpHOME) (Some no_daemon).

Definition expect (b : bool) (message : string) : tr ract unit := if b then mret tt else tr_throw EError message.

(** @src scripts/verify-pack.mjs 28-39 script *)
Definition check_commands (failed : bool) : tr ract bool :=
  failed ← check "openagenthub bin exists + runs --version"
    (out ← runBin "openagenthub" "--version"; expect (js_includes out "@openagenthub/cli") ("unexpected version output: " +:+ out)) failed;
  failed ← check "agent alias still works"
    (out ← runBin "agent" "--version"; expect (js_includes out "@openagenthub/cli") ("unexpected alias output: " +:+ out)) failed;
  check "help renders usage with openagenthub"
    (out ← runBin "openagenthub" "--help"; expect (spaced "USAGE" "$ openagenthub" out) "usage line missing") failed.

Definition unintended : list string := ["src/"; "test/"; "node_modules/"; "tsconfig"; "package-lock"; ".env"].

(** @src scripts/verify-pack.mjs 42-58 script *)
Definition check_files (failed : bool) : tr ract bool :=
  failed ← check "sdk/runtime are bundled (no bare @openagenthub imports)"
    (runJs ← readFileSync (NodePath.join (NodePath.join (NodePath.join cliPkgDir "dist") "commands") "run.js");
     expect (negb (spaced "from" (str1 DQUOTE +:+ "@openagenthub/runtime" +:+ str1 DQUOTE) runJs
                   || spaced "from" (str1 DQUOTE +:+ "@openagenthub/sdk" +:+ str1 DQUOTE) runJs)) "unbundled workspace import") failed;
  failed ← check "dashboard bundled with VERSION marker"
    (there ← existsSync (NodePath.join (NodePath.join cliPkgDir "dashboard") "server.js");
     fail_if (negb there) "server.js missing"
      (version ← readFileSync (NodePath.join (NodePath.join cliPkgDir "dashboard") "VERSION");
       expect (js_startsWith version "@openagenthub/cli@") ("bad VERSION: " +:+ version))) failed;
  check "package contains only intended files"
    (tarballEntries ← exec ["tar"; "-tzf"; TARBALL] None None None;
     match List.find (fun bad => existsb (fun e => js_includes e ("package/" +:+ bad)) (js_split LF tarballEntries)) unintended with
     | Some bad => tr_throw EError ("unexpected tarball member: " +:+ bad)
     | None => mret tt
     end) failed.

(** @src scripts/verify-pack.mjs 8-8 PORT *)
Definition PORT : Z := 31877.

(** @src scripts/verify-pack.mjs 67-80 script *)
Fixpoint health_rounds (n : nat) : tr ract bool :=
  match n with
  | O => mret false
  | S n =>
      _ ← do_ (ra_sleep 500);
      up ← tr_catch (res ← fetch ("http://127.0.0.1:" +:+ pretty PORT +:+ "/health") None;
                     if hr_ok res then (o ← tr_lift (hr_fields res); mret (bool_decide (obj_get "status" o = Some "ok"))) else mret false)
             (fun _ => mret false);
      if (up : bool) then mret true else health_rounds n
  end.

(** @src scripts/verify-pack.mjs 60-88 script *)
Definition check_dashboard (failed : bool) : tr ract bool :=
  _ ← do_ (ra_log "== dashboard starts without the monorepo ==");
  _ ← do_ (ra_spawn ["node"; NodePath.join (NodePath.join cliPkgDir "dashboard") "server.js"] PORT);
  healthOk ← tr_finally (health_rounds 60) (do_ ra_kill);
  check "dashboard /health responds"
    (fun h => expect healthOk ("dashboard never became healthy: " +:+ js_take 500 (rw_stderr_of_server w h)) h) failed.

(** The requests that need no token, and the one that does.
    @src scripts/verify-pack.mjs 106-115 script *)
Definition try_api (cpPort : string) : tr ract unit :=
  let local path := "http://127.0.0.1:" +:+ cpPort +:+ "/api/local/v1/" +:+ path in
  health ← fetch (local "health") None;
  fail_if (negb (hr_ok health)) ("health status " +:+ pretty (hr_status health))
   (version ← fetch (local "version") None;
    v ← tr_lift (hr_fields version);
    fail_if (negb (bool_decide (obj_get "protocolVersion" v = Some "1"))) ("protocolVersion " +:+ nullish (obj_get "protocolVersion" v) "undefined")
     (noToken ← fetch (local "snapshot") None;
      fail_if (negb (hr_status noToken =? 401)) ("snapshot without token: " +:+ pretty (hr_status noToken))
       (token ← readFileSync (NodePath.join (NodePath.join cpHOME "control-plane") "token");
        withToken ← fetch (local "snapshot") (Some ("Bearer " +:+ js_trim token));
        expect (hr_status withToken =? 200) ("snapshot with token: " +:+ pretty (hr_status withToken))))).

(** The port that is kept is that of the state file, also when its health is wrong.
    @src scripts/verify-pack.mjs 90-122 script *)
Definition check_daemon (failed : bool) : tr ract bool :=
  _ ← do_ (ra_log "== control-plane daemon lifecycle (clean install) ==");
  failed ← check "dashboard start spawns one daemon"
    (out ← runCp ["dashboard"; "start"] ""; expect (js_includes out "control plane started") ("unexpected start output: " +:+ out)) failed;
  cpPort ← tr_catch (text ← readFileSync statePath; state ← parse text; mret (nullish (obj_get "port" state) "undefined")) (fun _ => mret "0");
  failed ← check "state.json written with ready health"
    (text ← readFileSync statePath; state ← parse text;
     expect (bool_decide (obj_get "health" state = Some "ready")) ("health=" +:+ nullish (obj_get "health" state) "undefined")) failed;
  api ← tr_catch (_ ← try_api cpPort; mret None) (fun err => mret (Some (err_message err)));
  check "local API: health + version public, snapshot needs token"
    (match api with Some message => tr_throw EError message | None => mret tt end) failed.

(** @src scripts/verify-pack.mjs 123-153 script *)
Definition check_stop (failed : bool) : tr ract bool :=
  failed ← check "second start reuses the running daemon"
    (out ← runCp ["dashboard"; "start"] ""; expect (js_includes out "already running") ("expected reuse: " +:+ out)) failed;
  failed ← check "dashboard stop terminates the daemon"
    (out ← runCp ["dashboard"; "stop"] "";
     fail_if (negb (js_includes out "stopped")) ("stop output: " +:+ out)
      (text ← readFileSync statePath; state ← parse text;
       fail_if (negb (bool_decide (obj_get "health" state = Some "stopped"))) ("health after stop: " +:+ nullish (obj_get "health" state) "undefined")
        (alive ← kill0 (nullish (obj_get "pid" state) "undefined");
         expect (negb alive) "daemon still alive after stop"))) failed;
  check "OPENAGENTHUB_NO_DAEMON=1 disables the control plane"
    (stderr ← tr_catch (_ ← runCp ["dashboard"; "status"] "1"; mret None)
       (fun _ => s ← stderr_of (bin "openagenthub" :: ["dashboard"; "status"]); mret (Some s));
     expect (match stderr with Some s => js_includes s "disabled by OPENAGENTHUB_NO_DAEMON" | None => false end)
       ("expected disable message, got: " +:+ (if truthy stderr then nullish stderr "" else "no error"))) failed.

(** @src scripts/verify-pack.mjs 155-161 script *)
Definition check_uninstall (failed : bool) : tr ract bool :=
  _ ← do_ (ra_log "== user data untouched by uninstall ==");
  _ ← exec ["mkdir"; "-p"; home] None None None;
  _ ← exec ["npm"; "uninstall"; "--prefix"; prefix; "@openagenthub/cli"; "--no-audit"; "--no-fund"] None None None;
  check "AGENT_HOME data survives uninstall"
    (there ← existsSync home; expect there "user data dir missing") failed.

(** The checks in their order; [failed] is whether the exit code is set.
    @src scripts/verify-pack.mjs 22-161 script *)
Definition run_checks (failed : bool) : tr ract bool :=
  _ ← do_ (ra_log "== clean-prefix install (no workspace symlinks) ==");
  _ ← exec ["npm"; "install"; "--prefix"; prefix; TARBALL; "--no-audit"; "--no-fund"] None None None;
  failed ← check_commands failed;
  failed ← check_files failed;
  failed ← check_dashboard failed;
  failed ← check_daemon failed;
  failed ← check_stop failed;
  check_uninstall failed.

(** Whether the package passed; what throws outside of the checks ends the script.
    @src scripts/verify-pack.mjs 163-168 script *)
Definition verify_pack : tr ract bool :=
  failed ← run_checks false;
  _ ← do_ (ra_rm TMP);
  if (failed : bool) then (_ ← do_ (ra_warn "PACK VERIFICATION FAILED"); mret false)
  else (_ ← do_ (ra_log "PACK VERIFICATION PASSED"); mret true).
End scripts.

(** ** Properties *)

(** The line of a failed check. *)
Definition is_fail (a : ract) : bool := match a with ra_warn line => js_startsWith line "  FAIL: " | _ => false end.
Definition is_verdict (a : ract) : bool :=
  match a with ra_warn line => String.eqb line "PACK VERIFICATION FAILED" | ra_log line => String.eqb line "PACK VERIFICATION PASSED" | _ => false end.

(** What is tried within a check: it prints nothing of the kind, removes nothing, and runs
    no command with another [AGENT_HOME] than the daemon's. *)
Definition trying (TMP : string) (a : ract) : Prop :=
  match a with
  | ra_exec _ _ agent_home _ => agent_home = None \/ agent_home = Some (cpHOME TMP)
  | ra_rm _ | ra_log _ | ra_warn _ => False
  | _ => True
  end.

Section facts.
Context (w : rworld) (TMP TARBALL : string).

Lemma silent {A} (P : ract -> Prop) (m : tr ract A) : (forall h, (m h).1 = h) -> appends P m.
Proof. intros Hm h. exists []. split; [by rewrite Hm, app_nil_r|constructor]. Qed.

Lemma trying_exec cmd cwd ah nd : ah = None \/ ah = Some (cpHOME TMP) -> appends (trying TMP) (exec w cmd cwd ah nd).
Proof. intros Hah. by apply appends_act. Qed.
Lemma trying_cp args nd : appends (trying TMP) (runCp w TMP args nd).
Proof. apply trying_exec. by right. Qed.
Lemma trying_bin name args : appends (trying TMP) (runBin w TMP name args).
Proof. apply trying_exec. by left. Qed.
Lemma trying_fetch url a : appends (trying TMP) (fetch w url a).
Proof. by apply appends_act. Qed.
Lemma trying_expect b message : appends (trying TMP) (expect b message).
Proof. destruct b; [apply appends_ret|apply appends_throw]. Qed.
Lemma trying_fail_if {A} b message (m : tr ract A) : appends (trying TMP) m -> appends (trying TMP) (fail_if b message m).
Proof. intros Hm. destruct b; [apply appends_throw|exact Hm]. Qed.
Lemma trying_read p : appends (trying TMP) (readFileSync w p).
Proof. by apply silent. Qed.
Lemma trying_exists p : appends (trying TMP) (existsSync w p).
Proof. by apply silent. Qed.
Lemma trying_kill0 p : appends (trying TMP) (kill0 w p).
Proof. by apply silent. Qed.
Lemma trying_stderr cmd : appends (trying TMP) (stderr_of w cmd).
Proof. by apply silent. Qed.

(** Between the checks the script logs, too; its verdict comes at the end. *)
Definition between (a : ract) : Prop :=
  match a with
  | ra_exec _ _ agent_home _ => agent_home = None \/ agent_home = Some (cpHOME TMP)
  | ra_rm _ => False
  | ra_log _ | ra_warn _ => is_verdict a = false
  | _ => True
  end.

(** A part of the script takes whether a check has failed, and gives it with its own checks. *)
Definition tracks (m : bool -> tr ract bool) : Prop := forall failed h, exists l, (m failed h).1 = h ++ l /\ Forall between l /\
  match (m failed h).2 with Ok f => f = failed || existsb is_fail l | Throw _ => True end.

Lemma trying_between l : Forall (trying TMP) l -> Forall between l /\ existsb is_fail l = false.
Proof.
  intros Hl. split; [eapply Forall_impl; [exact Hl|]; by intros []|].
  induction Hl as [|a l Ha Hl IH]; [done|]. cbn. rewrite IH. by destruct a.
Qed.

Lemma tracks_check label fn : appends (trying TMP) fn -> tracks (check label fn).
Proof.
  intros Hfn failed h. unfold check, tr_catch. rewrite tr_bind_run. destruct (Hfn h) as (l & Hl & HP). destruct (fn h) as [h' [[]|e]]; cbn in Hl; subst h'.
  - exists (l ++ [ra_log ("  ok: " +:+ label)]). apply trying_between in HP as [Hb Hf]. cbn. split_and!; [by rewrite app_assoc| |].
    + apply Forall_app. split; [done|]. by repeat constructor.
    + by rewrite existsb_app, Hf, orb_false_r.
  - set (line := "  FAIL: " +:+ label +:+ ": " +:+ err_message e). exists (l ++ [ra_warn line]). apply trying_between in HP as [Hb Hf].
    assert (Hs : is_fail (ra_warn line) = true) by (apply startsWith_spec; by eexists).
    split_and!; [cbn; by rewrite app_assoc| |].
    + apply Forall_app. split; [done|]. by repeat constructor.
    + change (true = failed || existsb is_fail (l ++ [ra_warn line])). rewrite existsb_app. cbn [existsb]. by rewrite Hs, !orb_true_r.
Qed.

Lemma tracks_bind m k : tracks m -> tracks k -> tracks (fun failed => m failed ≫= k).
Proof.
  intros Hm Hk failed h. rewrite tr_bind_run. destruct (Hm failed h) as (l & Hl & HP & Hr). destruct (m failed h) as [h' [f|e]]; cbn in *; subst h'; [|by exists l].
  destruct (Hk f (h ++ l)) as (l' & Hl' & HP' & Hr'). exists (l ++ l'). split; [by rewrite Hl', app_assoc|]. split; [by apply Forall_app|].
  destruct (k f (h ++ l)).2; [|done]. by rewrite Hr', Hr, existsb_app, orb_assoc.
Qed.

(** Steps between the checks, none of which is a failed check. *)
Lemma tracks_step {X} (m : tr ract X) k :
  appends (fun a => between a /\ is_fail a = false) m -> (forall x, tracks (k x)) -> tracks (fun failed => m ≫= fun x => k x failed).
Proof.
  intros Hm Hk failed h. rewrite tr_bind_run. destruct (Hm h) as (l & Hl & HP).
  assert (HP' : Forall between l /\ existsb is_fail l = false).
  { clear Hl. induction HP as [|a l [Ha Hf] _ [IH1 IH2]]; [by split|]. split; [by constructor|]. cbn. by rewrite Hf, IH2. }
  destruct HP' as [Hb Hf]. destruct (m h) as [h' [x|e]]; cbn in *; subst h'; [|by exists l].
  destruct (Hk x failed (h ++ l)) as (l' & Hl' & HP' & Hr'). exists (l ++ l'). split; [by rewrite Hl', app_assoc|]. split; [by apply Forall_app|].
  destruct (k x failed (h ++ l)).2; [|done]. by rewrite Hr', existsb_app, Hf.
Qed.

Lemma trying_step {X} (m : tr ract X) : appends (trying TMP) m -> appends (fun a => between a /\ is_fail a = false) m.
Proof. apply appends_impl. by intros []. Qed.

Lemma log_step line : String.eqb line "PACK VERIFICATION PASSED" = false -> appends (fun a => between a /\ is_fail a = false) (do_ (ra_log line)).
Proof. intros Hl. by apply appends_act. Qed.

Ltac try_tac := repeat first
  [ apply trying_cp | apply trying_bin | apply trying_fetch | apply trying_expect | apply trying_fail_if | apply trying_read | apply trying_exists
  | apply trying_kill0 | apply trying_stderr | apply appends_ret | apply appends_throw | apply appends_lift | apply trying_exec; by left
  | apply appends_catch; [|intros ?] | apply appends_bind; [|intros ?]
  | match goal with |- appends _ (match ?x with _ => _ end) => destruct x end ].

Ltac checks := repeat (apply tracks_bind); apply tracks_check; unfold kill0; try_tac.

Lemma tracks_commands : tracks (check_commands w TMP).
Proof. unfold check_commands. checks. Qed.
Lemma tracks_files : tracks (check_files w TMP TARBALL).
Proof. unfold check_files. checks. Qed.
Lemma tracks_stop : tracks (check_stop w TMP).
Proof. unfold check_stop. checks. Qed.

Lemma trying_rounds n : appends (trying TMP) (health_rounds w n).
Proof.
  induction n as [|n IH]; cbn [health_rounds]; [apply appends_ret|]. apply appends_bind; [by apply appends_act|]. intros _.
  apply appends_bind; [try_tac|]. intros []; [apply appends_ret|exact IH].
Qed.

Lemma appends_finally {A} (P : ract -> Prop) (m : tr ract A) (c : tr ract unit) : appends P m -> appends P c -> appends P (tr_finally m c).
Proof.
  intros Hm Hc h. unfold tr_finally. destruct (Hm h) as (l & Hl & HP). destruct (m h) as [h1 r]. cbn in Hl. subst h1.
  destruct (Hc (h ++ l)) as (l' & Hl' & HP'). destruct (c (h ++ l)) as [h2 rc]. cbn in *. subst h2. exists (l ++ l').
  split; [by rewrite app_assoc|by apply Forall_app].
Qed.

Lemma tracks_dashboard : tracks (check_dashboard w TMP).
Proof.
  unfold check_dashboard. apply tracks_step; [by apply log_step|]. intros _. apply tracks_step; [apply trying_step; by apply appends_act|]. intros _.
  apply tracks_step; [apply trying_step, appends_finally; [apply trying_rounds|by apply appends_act]|]. intros ok.
  apply tracks_check. intros h. apply trying_expect.
Qed.

Lemma tracks_daemon : tracks (check_daemon w TMP).
Proof.
  unfold check_daemon. apply tracks_step; [by apply log_step|]. intros _. apply tracks_bind; [apply tracks_check; try_tac|].
  apply tracks_step; [apply trying_step; unfold parse; try_tac|]. intros cpPort. apply tracks_bind; [apply tracks_check; unfold parse; try_tac|].
  apply tracks_step; [apply trying_step; unfold try_api; cbv zeta; try_tac|]. intros [message|]; apply tracks_check; try_tac.
Qed.

Lemma tracks_uninstall : tracks (check_uninstall w TMP).
Proof.
  unfold check_uninstall. apply tracks_step; [by apply log_step|]. intros _. do 2 (apply tracks_step; [apply trying_step, trying_exec; by left|]; intros _).
  apply tracks_check; try_tac.
Qed.

Lemma tracks_all : tracks (run_checks w TMP TARBALL).
Proof.
  unfold run_checks. apply tracks_step; [by apply log_step|]. intros _. apply tracks_step; [apply trying_step, trying_exec; by left|]. intros _.
  repeat (apply tracks_bind; [first [apply tracks_commands|apply tracks_files|apply tracks_dashboard|apply tracks_daemon|apply tracks_stop]|]).
  apply tracks_uninstall.
Qed.

Lemma verify_pack_run : exists l, Forall between l /\
  (verify_pack w TMP TARBALL [] = (l ++ [ra_rm TMP; if existsb is_fail l then ra_warn "PACK VERIFICATION FAILED" else ra_log "PACK VERIFICATION PASSED"],
     Ok (negb (existsb is_fail l))) \/ exists e, verify_pack w TMP TARBALL [] = (l, Throw e)).
Proof.
  destruct (tracks_all false []) as (l & Hl & HP & Hr). exists l. split; [done|]. unfold verify_pack. rewrite tr_bind_run.
  destruct (run_checks w TMP TARBALL false []) as [h [f|e]]; cbn in Hl, Hr; subst h; [left|right; by exists e]. subst f.
  rewrite tr_bind_run. unfold do_ at 1, act. destruct (existsb is_fail l); rewrite tr_bind_run; unfold do_, act; cbn; by rewrite <- app_assoc.
Qed.

(** The script ends with its verdict, says that the package passed exactly if no check
    failed, and has then removed its directory; if something outside of the checks throws it
    says neither, and leaves the directory behind. *)
Theorem verify_pack_verdict :
  match verify_pack w TMP TARBALL [] with
  | (h, Ok passed) =>
      passed = negb (existsb is_fail h) /\ ra_rm TMP ∈ h /\
      last h = Some (if passed then ra_log "PACK VERIFICATION PASSED" else ra_warn "PACK VERIFICATION FAILED")
  | (h, Throw _) => existsb is_verdict h = false /\ ra_rm TMP ∉ h
  end.
Proof.
  destruct verify_pack_run as (l & HP & [-> | [e ->]]).
  - assert (Hf : existsb is_fail [ra_rm TMP; if existsb is_fail l then ra_warn "PACK VERIFICATION FAILED" else ra_log "PACK VERIFICATION PASSED"] = false)
      by (by destruct (existsb is_fail l)).
    rewrite existsb_app, Hf, orb_false_r. split; [done|]. split; [apply elem_of_app; right; left|].
    change [ra_rm TMP; ?x] with ([ra_rm TMP] ++ [x]). rewrite app_assoc, last_snoc. by destruct (existsb is_fail l).
  - rewrite Forall_forall in HP. split; [|by intros Hin%HP].
    apply not_true_iff_false. intros (a & Hin%list_elem_of_In & Ha)%existsb_exists. apply HP in Hin. destruct a; cbn in *; congruence.
Qed.

(** The last check asks whether the user's data survived, but looks at a directory that no
    program was ever told of: every command of the script runs with the [AGENT_HOME] of the
    caller or with that of the daemon, which is another one; what removing the package
    does to the data of an agent home is never looked at. *)
Theorem user_home_unused a cmd cwd agent_home no_daemon :
  a ∈ (verify_pack w TMP TARBALL []).1 -> a = ra_exec cmd cwd agent_home no_daemon ->
  agent_home = None \/ agent_home = Some (cpHOME TMP).
Proof.
  intros Hin ->. destruct verify_pack_run as (l & HP & Hrun). rewrite Forall_forall in HP.
  assert (Hl : ra_exec cmd cwd agent_home no_daemon ∈ l); [|exact (HP _ Hl)].
  destruct Hrun as [Hrun | [e Hrun]]; rewrite Hrun in Hin; cbn [fst] in Hin; [|done].
  apply elem_of_app in Hin as [Hin|Hin]; [done|]. apply elem_of_cons in Hin as [?|Hin]; [done|]. apply list_elem_of_singleton in Hin. by destruct (existsb is_fail l).
Qed.
End facts.

(** *** The size of a package *)

(** A package that was made is within the hard limit, and whoever made it was warned
    exactly if it is over the budget; a larger one is an error after it was packed. *)
Theorem package_size w CLI WEB ROOT skipWeb packed toFixed1 h h' :
  package w CLI WEB ROOT skipWeb packed toFixed1 h = (h', Ok tt) ->
  exists filename size n h1 l, (exists s, rw_exec w h1 ["npm"; "pack"; "--json"] = Ok s /\ packed s = Ok (filename, size, n)) /\
    h' = h1 ++ ra_exec ["npm"; "pack"; "--json"] (Some CLI) None None :: l /\
    size <= MiB SIZE_LIMIT_MB /\ ((exists line, ra_warn line ∈ l) <-> MiB SIZE_BUDGET_MB < size).
Proof.
  unfold package. intros Hrun. tr_inv Hrun as u0 H0. tr_inv Hrun as o1 H1. tr_inv Hrun as u2 H2. tr_inv Hrun as u3 H3.
  tr_inv Hrun as packOut H4. tr_inv Hrun as [[filename size] n] H5. apply tr_lift_ok in H5 as [H5 ->]. unfold exec, act in H4. injection H4 as <- H4.
  unfold report_size, fail_if in Hrun. tr_inv Hrun as u6 H6. injection H6 as <- _.
  destruct (Z.ltb_spec (MiB SIZE_LIMIT_MB) size) as [|Hle]; [done|]. tr_inv Hrun as u7 H7. unfold do_, act in Hrun. injection Hrun as <-.
  destruct (Z.ltb_spec (MiB SIZE_BUDGET_MB) size) as [Hlt|Hge]; injection H7 as <- _;
    eexists filename, size, n, _, _; (split; [by exists packOut|]); (split; [rewrite <- ?app_assoc; cbn; reflexivity|]); (split; [done|]).
  - split; [done|]. intros _. eexists. right. left.
  - split; [|lia]. intros [line Hin]. repeat (apply elem_of_cons in Hin as [?|Hin]; [done|]). by apply elem_of_nil in Hin.
Qed.

(** The two agent homes of the verification are different directories. *)
Example homes_differ : cpHOME "/tmp/oah-pack-a1" <> home "/tmp/oah-pack-a1".
Proof. vm_compute. discriminate. Qed.
End Release.
